(* ===== verification/_CoqProject ===== *)
-Q . S2P
Prelude.v
AppConfig.v
BuildScript.v
Rss.v
Device.v
Http.v
Arp.v
Console.v
Assembler.v
RingBuffer.v
Time.v
TcpWire.v
TcpTimer.v
Iface.v
Frame.v
DhcpWire.v
Dhcp.v
TcpState.v
TcpSocket.v
TcpProcess.v
TcpDispatch.v
TcpInv.v
TcpReceive.v
TcpTransmit.v
TcpConnection.v
TcpHandshake.v
TcpStream.v
TcpHostile.v
Conn.v
ConnPlain.v
ConnStep.v
ConnTls.v
Network.v
Probe.v
Plan.v
Worker.v
NetEvents.v
WorkerOpen.v
WorkerRun.v
WorkerFetch.v
Main.v
Verdict.v
Program.v
Alloc.v
AllocOk.v
Segment.v
Neighbor.v
Net.v
NetOk.v
FrameOk.v
SegmentOk.v
NetWire.v
Gateway.v
PollOk.v
NetHostile.v
DhcpWireOk.v
DhcpOk.v
DhcpNet.v
DhcpNetOk.v
DhcpSays.v
LearnOk.v
SetupOk.v
