(* ===== verification/Prelude.v ===== *)
(** * Verification of the smoltcp-s3 benchmark

    The program (src/bench/smoltcp-s3) downloads blocks of one S3 object over
    many TCP connections from a unikernel: a Rust library, src/lib.rs, linked to
    a DPDK-like driver through a C++ shim, with a vendored and patched smoltcp
    as its network stack.  Its entry point [osv_app_main] opens the card with
    one receive queue per worker, learns its address by DHCP and its gateway's
    by ARP, and starts the workers; each of them picks source ports whose return
    flow the card steers to its own queue, opens one connection per port, asks
    each for one block by a ranged GET, and drives all of them until they are
    done; the totals decide between COMPLETE and INCOMPLETE.

    ** Conventions

    An integer of the code is a [Z], with the wrap-around of its width written
    out ([u8] ... [usize], of 64 bits, and [i32], [i64]); the build is a release
    build, so that arithmetic wraps and [debug_assert] is void.  A byte is a
    number below 256, and a string or buffer a [list Z].  A computation that
    can panic (an index, a slice, an [assert], an [unwrap]) is an [outcome],
    [Panic] or [Ret]; a [Result] is a [result] inside it.  What the code does
    to a mutable argument is passed along explicitly.  A loop that is not
    structural has fuel, and answers [None] when it is out; no result is ever
    made up for it.  Each definition names the lines it translates.

    ** Files

    The benchmark, src/lib.rs:
    - [Alloc], [AllocOk]: [ShimAllocator] over a C heap of blocks and bytes;
    - [AppConfig]: the constants and parsers of the compile-time configuration;
      [BuildScript]: build.rs, which declares the variables they are read from;
    - [Console]: [print_line] and its lock, between threads;
    - [Http]: [BufWriter], [build_range_request], [count_body];
    - [Arp]: the ARP frames;
    - [Rss]: [toeplitz], [predict_queue], [build_owned_ports], [load_rss_config];
    - [Device]: [DpdkDevice], its tokens, and the wrappers of shim.cc they use;
    - [Probe]: [probe_and_open] and [PktPool];
    - [Network]: [MonoClock], [dhcp_acquire], [learn_network]; [DhcpNet] is the
      interface they poll, [DhcpNetOk], [DhcpSays] and [LearnOk] are its theorems;
    - [Conn]: [Conn] and [conn_step]; [ConnPlain], [ConnStep] and [ConnTls] are
      its theorems without TLS, in any build, and with TLS;
    - [Plan]: the ports a worker picks and the block of each connection;
    - [Worker]: [worker_thread]; [NetEvents] is what its interface promises;
      [WorkerOpen], [WorkerRun], [WorkerFetch] are its theorems;
    - [Main], [Verdict], [Program]: [osv_app_main], its verdict, the program;
      [SetupOk] is its set-up on smoltcp's interface.

    The network stack, vendor/smoltcp/src:
    - [Assembler]: storage/assembler.rs;
    - [RingBuffer]: storage/ring_buffer.rs;
    - [Time]: time.rs;
    - [TcpWire]: the parsed segments of wire/tcp.rs and wire/ip.rs;
    - [TcpTimer]: [RttEstimator] and [Timer] of socket/tcp.rs;
    - [Iface]: what a TCP socket reads of its interface;
    - [TcpState], [TcpSocket], [TcpProcess], [TcpDispatch]: socket/tcp.rs, the
      state, the user's calls, [process] and [dispatch];
    - [TcpInv], [TcpReceive], [TcpTransmit], [TcpConnection], [TcpHandshake],
      [TcpStream]: the invariant of a connection, that every operation keeps
      it, and what it gives; [TcpHostile]: the same against any segments;
    - [Frame], [Segment]: wire/{ethernet,arp,ipv4,icmpv4,udp}.rs and the packets
      of wire/tcp.rs, parsed and emitted; [FrameOk], [SegmentOk] are their laws;
    - [DhcpWire], [Dhcp]: wire/{udp,dhcpv4}.rs and socket/dhcpv4.rs;
      [DhcpWireOk], [DhcpOk] are their theorems;
    - [Neighbor]: iface/{neighbor,route,socket_meta}.rs;
    - [Net]: [Interface::poll] and all it calls, iface/interface/*.rs, over the
      TCP sockets of a worker; the ingress is generic in the sockets, and
      [DhcpNet] instantiates it with a DHCP socket.  [NetOk], [NetWire],
      [Gateway], [PollOk], [NetHostile] are its theorems.

    ** What the theorems show

    - The TCP socket.  Over every interleaving of segments (lost, repeated,
      overlapping, out of order), transmissions and calls, an open connection
      gives its user a prefix of the peer's stream and its peer pieces of the
      user's, without a panic, as long as the peer's FIN stays within the
      advertised window; a FIN beyond it truncates the stream, and the user is
      told it is complete ([TcpStream]).  The handshake leads to such a
      connection, and ignores an answer that offers a segment size of zero
      ([TcpHandshake]).  Segments that belong to no stream at all
      cannot panic it either, but for one corner, which is characterised
      ([TcpHostile]).  Under it, the ring buffer refines a bounded
      queue, the assembler refines a set of offsets, and the estimated
      round-trip time stays within its bounds.
    - A connection of the benchmark.  On such a socket it counts exactly the
      body of the response ([ConnPlain]); with or without TLS a step of it
      accounts for every change, and no failure is silent ([ConnStep]); with
      TLS it ends if the session's measure decreases, which is assumed of it
      ([ConnTls]).
    - The interface.  A segment that is dispatched is, as a frame, the same
      segment for the interface it reaches ([NetWire]); no frame, whatever its
      bytes, makes the interface panic or an open socket unsound, and one that
      is not for the host or no packet changes nothing ([NetHostile]); a poll
      processes the frames that wait on the card, in their order, each once, in
      its own context, and then gives the sockets their turns ([PollOk]); the
      gateway is forgotten after a minute ([Gateway]).
    - The DHCP client.  What it writes is what a reader parses ([DhcpWireOk]);
      whatever arrives, its lease is well formed, its reports are never stale,
      its deadlines move on, and it acquires the address an OFFER and an ACK
      name ([DhcpOk]).
    - Learning the network.  On any interface that keeps its promise,
      [learn_network] ends within its budgets with the first lease and the
      gateway's reply ([Network]); smoltcp's interface with the DHCP client
      keeps it, so that its DISCOVER and REQUEST are broadcast when they are due
      ([DhcpSays]) and the address learnt is one a received ACK gave, as long
      as offers have a source address; an offer without one can make the next
      poll panic ([LearnOk]).
    - A worker.  It opens its connections on ports of its own queue
      ([WorkerOpen]); its report is complete, and one refused connection keeps
      it from ever reporting ([WorkerRun]); what it counts for an open
      connection is the body ([WorkerFetch]).
    - The program.  Its set-up ends, in an exit for one of five reasons that it
      prints, or in workers that hold a pool of buffers each and whose interface
      takes the address they are given ([SetupOk]); what it takes to start them,
      when COMPLETE is printed, and what it says ([Program], [Verdict]).
    - The parts beside: the hash agrees with the definition of Toeplitz, ports
      of different workers are disjoint, a frame of another queue is dropped,
      no packet buffer is lost or freed twice, the card is opened with all of
      its queues or released with each pool freed once, printed lines stay whole
      unless the console fails, the
      parsers read what the printers write, and the allocator's blocks are
      aligned and disjoint.

    ** Interfaces

    Code that is not in the repository is a class, and what the theorems rely
    on is another: [Libc] with [LibcLaws] for the C heap, [Tls] for a rustls
    session.  Between [learn_network] and smoltcp's interface is the class
    [NetStack] with the laws [NetStackOk]: a poll returns, and a configuration is
    one the interface can use; [LearnOk.dhcp_stack_ok] shows that the stack of
    [DhcpNet] keeps them.  Between the workers and smoltcp's interface is the class [NetIface] with [NetIfaceLaws]: the
    workers' theorems hold for whatever keeps it, [NetOk.smoltcp_laws] shows
    that [Net.iface_poll] does, and a player of scripts is the instance of the
    examples.  The driver answers from scripts ([nic]), clocks are arbitrary
    functions, and the other workers change the shared counters in any way
    between two steps.  Which of several equally old neighbors the cache evicts
    is left open.  Every theorem that assumes laws has a witness with a concrete
    instance.

    ** Fuel

    [arp_loop] and [dhcp_loop] count their rounds up to [ITER_BUDGET] / 20 and / 10,
    and one round more than that is enough fuel.  The polls under [dhcp_loop]
    take more fuel than the card has frames, and at least two rounds of sending
    ([LearnOk]); [dhcp_options] has as much as bytes.  [tls_loop] and
    [read_records] take a step of the session each round, and
    [ConnTls.conn_step_returns] bounds them by the session's measure.  [drain_socket]
    is bounded by the bytes buffered.  [worker_loop] really may run forever
    (see [WorkerRun]); its theorems are about every number of rounds.  So are
    those of [Net.iface_poll], which goes on as long as the card delivers and
    the sockets send.  [parse_options] has as much fuel as bytes, which is shown
    to be enough ([SegmentOk.parse_options_ret]).

    ** Not modelled

    [make_client_config] and [ShimTimeProvider], which only build objects of
    rustls; the floating-point numbers of the report.  Of smoltcp: checksums (the card computes and
    checks them), and what this build leaves out (IPv6, fragmentation, UDP,
    ICMP and raw sockets, congestion control, [async]).  The C++ shim but for the wrappers named above, the
    driver under it, and the other programs of the repository (C++). *)

From Stdlib Require Import ZArith Lia Ascii String.
From stdpp Require Import base list numbers.

#[global] Open Scope Z_scope.

(** ** Outcomes

    A Rust expression either returns a value or panics (a failed [assert!], an
    index or slice out of range, an explicit [panic!] or [unreachable!]).  The
    crate is built with [panic = "abort"], so a panic ends the program. *)

Inductive outcome (A : Type) : Type :=
| Ret (a : A)
| Panic.

Arguments Ret {A} a.
Arguments Panic {A}.

Definition obind {A B} (m : outcome A) (k : A -> outcome B) : outcome B :=
  match m with
  | Ret a => k a
  | Panic => Panic
  end.

Declare Scope rust_scope.
Delimit Scope rust_scope with rust.
#[global] Open Scope rust_scope.

Notation "'let!' x := m 'in' k" := (obind m (fun x => k))
  (at level 10, x pattern, m at level 200, k at level 200,
   format "'[v' 'let!'  x  :=  m  'in' '/' k ']'") : rust_scope.
Notation "'assert!' b 'in' k" := (if b then k else Panic)
  (at level 10, b at level 200, k at level 200) : rust_scope.

#[export] Instance outcome_eq_dec {A} `{EqDecision A} : EqDecision (outcome A).
Proof. solve_decision. Defined.

(** Rust's [Result]. *)
Inductive result (A E : Type) : Type :=
| Ok (a : A)
| Err (e : E).

Arguments Ok {A E} a.
Arguments Err {A E} e.

Definition is_ret {A} (m : outcome A) : Prop := exists a, m = Ret a.

Lemma obind_ret_inv {A B} (m : outcome A) (k : A -> outcome B) b :
  obind m k = Ret b -> exists a, m = Ret a /\ k a = Ret b.
Proof. destruct m; simpl; [eauto | discriminate]. Qed.

Lemma assert_ret_inv {A} (b : bool) (k : outcome A) a :
  (if b then k else Panic) = Ret a -> b = true /\ k = Ret a.
Proof. destruct b; [auto | discriminate]. Qed.

(** [inv_ret] opens a hypothesis that says a monadic computation returned. *)
Ltac inv_ret :=
  repeat match goal with
  | H : obind _ _ = Ret _ |- _ =>
      let a := fresh "v" in let E := fresh "E" in
      apply obind_ret_inv in H; destruct H as (a & E & H); cbn beta in H
  | H : (if _ then _ else Panic) = Ret _ |- _ =>
      let E := fresh "E" in apply assert_ret_inv in H; destruct H as [E H]
  | H : Ret _ = Ret _ |- _ => injection H as H; try subst
  | H : Panic = Ret _ |- _ => discriminate H
  | H : Ok _ = Ok _ |- _ => injection H as H; try subst
  | H : Err _ = Ok _ |- _ => discriminate H
  | H : Ok _ = Err _ |- _ => discriminate H
  end.

(** ** Machine integers

    Every integer is a [Z].  The benchmark is compiled with
    [cargo build --release], so arithmetic on a [w]-bit type wraps modulo
    [2^w] and debug assertions are absent. *)

Abbreviation M8 := 256 (only parsing).
Abbreviation M16 := 65536 (only parsing).
Abbreviation M32 := 4294967296 (only parsing).
Abbreviation M64 := 18446744073709551616 (only parsing).

(** Two's complement reading of a residue: the values of [i32] and [i64]. *)
Definition i32 (z : Z) : Z := (z + 2147483648) mod 4294967296 - 2147483648.
Definition i64 (z : Z) : Z :=
  (z + 9223372036854775808) mod 18446744073709551616 - 9223372036854775808.

Definition u8 (z : Z) : Z := z mod M8.
Definition u16 (z : Z) : Z := z mod M16.
Definition u32 (z : Z) : Z := z mod M32.
Definition u64 (z : Z) : Z := z mod M64.
(** [usize] is 64 bits wide on the target (x86_64). *)
Definition usize (z : Z) : Z := z mod M64.

Definition i32_max : Z := 2147483647.
Definition u16_max : Z := 65535.
Definition usize_max : Z := 18446744073709551615.

Definition in_u8 (z : Z) : Prop := 0 <= z < M8.
Definition in_u16 (z : Z) : Prop := 0 <= z < M16.
Definition in_u32 (z : Z) : Prop := 0 <= z < M32.
Definition in_u64 (z : Z) : Prop := 0 <= z < M64.
Definition in_i32 (z : Z) : Prop := -2147483648 <= z < 2147483648.

Definition saturating_sub (a b : Z) : Z := Z.max 0 (a - b).

(** Integer goals with [mod] and [/] by constants. *)
Ltac mlia := Z.div_mod_to_equations; lia.

Lemma u8_small z : 0 <= z < M8 -> u8 z = z.
Proof. apply Z.mod_small. Qed.
Lemma u16_small z : 0 <= z < M16 -> u16 z = z.
Proof. apply Z.mod_small. Qed.
Lemma u32_small z : 0 <= z < M32 -> u32 z = z.
Proof. apply Z.mod_small. Qed.
Lemma u64_small z : 0 <= z < M64 -> u64 z = z.
Proof. apply Z.mod_small. Qed.
Lemma usize_small z : 0 <= z < M64 -> usize z = z.
Proof. apply Z.mod_small. Qed.
Lemma i32_small z : in_i32 z -> i32 z = z.
Proof. unfold in_i32, i32; intros; mlia. Qed.
Lemma i64_small z :
  -9223372036854775808 <= z < 9223372036854775808 -> i64 z = z.
Proof. unfold i64; intros; mlia. Qed.

Lemma u16_range z : in_u16 (u16 z).
Proof. apply Z.mod_pos_bound; lia. Qed.
Lemma u32_range z : in_u32 (u32 z).
Proof. apply Z.mod_pos_bound; lia. Qed.
Lemma u64_range z : in_u64 (u64 z).
Proof. apply Z.mod_pos_bound; lia. Qed.
Lemma i32_range z : in_i32 (i32 z).
Proof. unfold in_i32, i32; mlia. Qed.

Lemma log2_lt_bound a n : 0 <= a < 2 ^ n -> 0 < n -> Z.log2 a < n.
Proof.
  intros Ha Hn; destruct (Z.eq_dec a 0) as [->|]; [by rewrite Z.log2_nonpos|].
  apply Z.log2_lt_pow2; lia.
Qed.

Lemma pow2_bound_log2 a n : 0 <= a -> Z.log2 a < n -> 0 <= a < 2 ^ n.
Proof.
  intros Ha Hl; split; [done|]; destruct (Z.eq_dec a 0) as [->|]; [|apply Z.log2_lt_pow2; lia].
  pose proof (Z.log2_nonneg 0); apply Z.pow_pos_nonneg; lia.
Qed.

Lemma lxor_bound a b n :
  0 < n -> 0 <= a < 2 ^ n -> 0 <= b < 2 ^ n -> 0 <= Z.lxor a b < 2 ^ n.
Proof.
  intros Hn Ha Hb; apply pow2_bound_log2; [apply Z.lxor_nonneg; lia|].
  eapply Z.le_lt_trans; [apply Z.log2_lxor; lia|].
  apply Z.max_lub_lt; by apply log2_lt_bound.
Qed.

Lemma lor_bound a b n :
  0 < n -> 0 <= a < 2 ^ n -> 0 <= b < 2 ^ n -> 0 <= Z.lor a b < 2 ^ n.
Proof.
  intros Hn Ha Hb; apply pow2_bound_log2; [apply Z.lor_nonneg; lia|].
  rewrite Z.log2_lor by lia; apply Z.max_lub_lt; by apply log2_lt_bound.
Qed.

Lemma land_1 x : Z.land x 1 = x mod 2.
Proof. change 1 with (Z.ones 1) at 1; by rewrite Z.land_ones by lia. Qed.

(** Masking with a single bit tests it. *)
Lemma land_bit b k : 0 <= k -> negb (Z.land b (Z.shiftl 1 k) =? 0) = Z.testbit b k.
Proof.
  intros Hk; assert (Hl : Z.land b (Z.shiftl 1 k) = if Z.testbit b k then 2 ^ k else 0).
  { apply Z.bits_inj'; intros i Hi; rewrite Z.land_spec, Z.shiftl_spec by done.
    destruct (Z.eq_dec i k) as [->|Hne].
    - rewrite Z.sub_diag; destruct (Z.testbit b k); cbn; [by rewrite Z.pow2_bits_true|by rewrite Z.bits_0].
    - replace (Z.testbit 1 (i - k)) with false.
      2: { destruct (Z.ltb_spec i k); [by rewrite Z.testbit_neg_r by lia|].
           symmetry; change 1 with (2 ^ 0); apply Z.pow2_bits_false; lia. }
      rewrite andb_false_r; destruct (Z.testbit b k); [|by rewrite Z.bits_0].
      symmetry; apply Z.pow2_bits_false; lia. }
  rewrite Hl; destruct (Z.testbit b k); [|done].
  pose proof (Z.pow_pos_nonneg 2 k); destruct (Z.eqb_spec (2 ^ k) 0); [lia|done].
Qed.

Lemma testbit_set_bit b k i :
  0 <= k -> 0 <= i -> Z.testbit (Z.lor b (Z.shiftl 1 k)) i = Z.testbit b i || (i =? k).
Proof.
  intros Hk Hi; rewrite Z.lor_spec, Z.shiftl_spec by done; f_equal.
  destruct (Z.eqb_spec i k) as [->|Hne]; [by rewrite Z.sub_diag|].
  destruct (Z.ltb_spec i k); [by rewrite Z.testbit_neg_r by lia|].
  change 1 with (2 ^ 0); apply Z.pow2_bits_false; lia.
Qed.

(** [(hi as u16) << 8 | lo as u16] *)
Lemma lor_be16 hi lo : in_u8 hi -> in_u8 lo -> Z.lor (u16 (Z.shiftl hi 8)) lo = hi * 256 + lo.
Proof.
  unfold in_u8; intros Hh Hl; rewrite Z.shiftl_mul_pow2 by lia; change (2 ^ 8) with 256.
  rewrite u16_small by lia; symmetry; apply Z.add_nocarry_lor.
  replace (hi * 256) with (Z.shiftl hi 8) by (rewrite Z.shiftl_mul_pow2; lia).
  apply Z.bits_inj'; intros i Hi; rewrite Z.land_spec, Z.shiftl_spec, Z.bits_0 by done.
  destruct (Z.ltb_spec i 8).
  - by rewrite Z.testbit_neg_r by lia.
  - rewrite (Z.bits_above_log2 lo i), andb_false_r; [done|lia|].
    apply (Z.lt_le_trans _ 8); [apply log2_lt_bound; lia|lia].
Qed.

Create Rewrite HintDb width.
#[export] Hint Rewrite u8_small u16_small u32_small u64_small usize_small
  using lia : width.

(** ** Bytes and text

    A byte is a [Z] below 256 and a byte string a list of them; [chr] and [str]
    read a literal of the source ([b'K'], [b"http"]). *)
Definition chr (c : ascii) : Z := Z.of_nat (nat_of_ascii c).
Definition str (s : string) : list Z := map chr (list_ascii_of_string s).

(** [chars] replaces the character literals of a goal by their codes. *)
Ltac chars :=
  repeat match goal with
  | |- context [chr (Ascii ?a ?b ?c ?d ?e ?f ?g ?h)] =>
      let v := eval vm_compute in (chr (Ascii a b c d e f g h)) in
      change (chr (Ascii a b c d e f g h)) with v
  | H : context [chr (Ascii ?a ?b ?c ?d ?e ?f ?g ?h)] |- _ =>
      let v := eval vm_compute in (chr (Ascii a b c d e f g h)) in
      change (chr (Ascii a b c d e f g h)) with v in H
  end.

Definition bytes_ok (l : list Z) : Prop := Forall in_u8 l.

(** ** Slices *)

(** A Rust slice or array is a list; its length is a [usize]. *)
Definition len {A} (l : list A) : Z := Z.of_nat (length l).

(** [l[i]] *)
Definition index {A} (l : list A) (i : Z) : outcome A :=
  if (0 <=? i) && (i <? len l)
  then match l !! Z.to_nat i with Some a => Ret a | None => Panic end
  else Panic.

(** [l[i] = a] *)
Definition store {A} (l : list A) (i : Z) (a : A) : outcome (list A) :=
  if (0 <=? i) && (i <? len l) then Ret (<[Z.to_nat i := a]> l) else Panic.

Definition ztake {A} (n : Z) (l : list A) : list A := take (Z.to_nat n) l.
Definition zdrop {A} (n : Z) (l : list A) : list A := drop (Z.to_nat n) l.
Definition zreplicate {A} (n : Z) (a : A) : list A := replicate (Z.to_nat n) a.

(** [&l[a..b]] *)
Definition slice {A} (l : list A) (a b : Z) : outcome (list A) :=
  if (0 <=? a) && (a <=? b) && (b <=? len l)
  then Ret (ztake (b - a) (zdrop a l))
  else Panic.

(** [l[at..at + data.len()].copy_from_slice(data)] *)
Definition write_at {A} (l : list A) (pos : Z) (data : list A) : list A :=
  ztake pos l ++ data ++ zdrop (pos + len data) l.

Definition copy_from_slice {A} (l : list A) (a b : Z) (data : list A) : outcome (list A) :=
  if (0 <=? a) && (a <=? b) && (b <=? len l) && (len data =? b - a)
  then Ret (write_at l a data)
  else Panic.

Lemma len_nonneg {A} (l : list A) : 0 <= len l.
Proof. unfold len; lia. Qed.
Lemma len_nil {A} : len (@nil A) = 0.
Proof. done. Qed.
Lemma len_cons {A} (a : A) l : len (a :: l) = len l + 1.
Proof. unfold len; simpl; lia. Qed.
Lemma len_app {A} (l1 l2 : list A) : len (l1 ++ l2) = len l1 + len l2.
Proof. unfold len; rewrite length_app; lia. Qed.
Lemma len_ztake {A} n (l : list A) : len (ztake n l) = Z.max 0 (Z.min n (len l)).
Proof. unfold len, ztake; rewrite length_take; lia. Qed.
Lemma len_zdrop {A} n (l : list A) : len (zdrop n l) = Z.max 0 (len l - Z.max 0 n).
Proof. unfold len, zdrop; rewrite length_drop; lia. Qed.
Lemma len_zreplicate {A} n (a : A) : len (zreplicate n a) = Z.max 0 n.
Proof. unfold len, zreplicate; rewrite length_replicate; lia. Qed.
Lemma len_insert {A} (l : list A) i a : len (<[i := a]> l) = len l.
Proof. unfold len; by rewrite length_insert. Qed.
Lemma len_map {A B} (f : A -> B) l : len (map f l) = len l.
Proof. unfold len; by rewrite length_map. Qed.
Lemma len_zero_nil {A} (l : list A) : len l = 0 -> l = [].
Proof. destruct l; [done | rewrite len_cons; pose proof (len_nonneg l); lia]. Qed.

Create Rewrite HintDb len.
#[export] Hint Rewrite @len_nil @len_cons @len_app @len_ztake @len_zdrop
  @len_zreplicate @len_insert @len_map : len.

(** [llia] normalises list lengths and calls [lia]. *)
Ltac llia :=
  autorewrite with len in *;
  repeat match goal with
  | |- context [len ?l] => lazymatch goal with
      | _ : 0 <= len l |- _ => fail
      | _ => pose proof (len_nonneg l)
      end
  | _ : context [len ?l] |- _ => lazymatch goal with
      | _ : 0 <= len l |- _ => fail
      | _ => pose proof (len_nonneg l)
      end
  end; lia.

Lemma len_write_at {A} (l : list A) pos data :
  0 <= pos -> pos + len data <= len l -> len (write_at l pos data) = len l.
Proof. unfold write_at; intros; llia. Qed.

Lemma write_at_0 {A} (l : list A) data : write_at l 0 data = data ++ zdrop (len data) l.
Proof. done. Qed.

Lemma Forall_ztake {A} (P : A -> Prop) n l : Forall P l -> Forall P (ztake n l).
Proof. apply Forall_take. Qed.
Lemma Forall_zdrop {A} (P : A -> Prop) n l : Forall P l -> Forall P (zdrop n l).
Proof. apply Forall_drop. Qed.
Lemma Forall_write_at {A} (P : A -> Prop) pos l data :
  Forall P l -> Forall P data -> Forall P (write_at l pos data).
Proof.
  intros; unfold write_at; rewrite !Forall_app; split_and!; auto using Forall_ztake, Forall_zdrop.
Qed.

Lemma ztake_ge {A} n (l : list A) : len l <= n -> ztake n l = l.
Proof. intros; apply take_ge; unfold len in *; lia. Qed.
Lemma zdrop_ge {A} n (l : list A) : len l <= n -> zdrop n l = [].
Proof. intros; apply drop_ge; unfold len in *; lia. Qed.
Lemma ztake_0 {A} n (l : list A) : n <= 0 -> ztake n l = [].
Proof. intros; unfold ztake; by replace (Z.to_nat n) with 0%nat by lia. Qed.
Lemma zdrop_0 {A} n (l : list A) : n <= 0 -> zdrop n l = l.
Proof. intros; unfold zdrop; by replace (Z.to_nat n) with 0%nat by lia. Qed.
Lemma ztake_app_le {A} n (a b : list A) : n <= len a -> ztake n (a ++ b) = ztake n a.
Proof. intros; unfold ztake; apply take_app_le; unfold len in *; lia. Qed.
Lemma ztake_app_ge {A} n (a b : list A) :
  len a <= n -> ztake n (a ++ b) = a ++ ztake (n - len a) b.
Proof.
  intros; unfold ztake, len in *; rewrite take_app_ge by lia; do 2 f_equal; lia.
Qed.
Lemma zdrop_app_le {A} n (a b : list A) : n <= len a -> zdrop n (a ++ b) = zdrop n a ++ b.
Proof. intros; unfold zdrop; apply drop_app_le; unfold len in *; lia. Qed.
Lemma zdrop_app_ge {A} n (a b : list A) :
  len a <= n -> zdrop n (a ++ b) = zdrop (n - len a) b.
Proof.
  intros; unfold zdrop, len in *; rewrite drop_app_ge by lia; f_equal; lia.
Qed.
Lemma ztake_zdrop {A} n (l : list A) : ztake n l ++ zdrop n l = l.
Proof. apply take_drop. Qed.
Lemma zdrop_zdrop {A} n m (l : list A) :
  0 <= n -> 0 <= m -> zdrop n (zdrop m l) = zdrop (m + n) l.
Proof. intros; unfold zdrop; rewrite drop_drop; f_equal; lia. Qed.
Lemma ztake_ztake {A} n m (l : list A) : ztake n (ztake m l) = ztake (Z.min n m) l.
Proof. unfold ztake; rewrite take_take; f_equal; lia. Qed.
Lemma zdrop_ztake {A} n m (l : list A) :
  0 <= n -> zdrop n (ztake m l) = ztake (m - n) (zdrop n l).
Proof.
  intros; unfold zdrop, ztake;
  destruct (Z.le_gt_cases n m).
  - rewrite firstn_skipn_comm; do 2 f_equal; lia.
  - rewrite (drop_ge (take _ _)) by (rewrite length_take; lia).
    by replace (Z.to_nat (m - n)) with 0%nat by lia.
Qed.

Lemma ztake_add {A} n m (l : list A) :
  0 <= n -> 0 <= m -> ztake n l ++ ztake m (zdrop n l) = ztake (n + m) l.
Proof.
  intros; unfold ztake, zdrop; rewrite take_take_drop; f_equal; lia.
Qed.

Lemma slice_ret {A} (l : list A) a b :
  0 <= a <= b -> b <= len l -> slice l a b = Ret (ztake (b - a) (zdrop a l)).
Proof.
  intros; unfold slice.
  by rewrite (proj2 (Z.leb_le 0 a)), (proj2 (Z.leb_le a b)), (proj2 (Z.leb_le b _)) by lia.
Qed.

Lemma slice_ret_inv {A} (l : list A) a b r :
  slice l a b = Ret r ->
  0 <= a <= b /\ b <= len l /\ r = ztake (b - a) (zdrop a l).
Proof.
  unfold slice; intros H; destruct (_ && _ && _) eqn:E; [|done].
  apply andb_prop in E as [E E3]; apply andb_prop in E as [E1 E2].
  inv_ret; lia || (split_and!; [lia..|done]).
Qed.

Lemma copy_from_slice_ret {A} (l : list A) a b data :
  0 <= a <= b -> b <= len l -> len data = b - a ->
  copy_from_slice l a b data = Ret (write_at l a data).
Proof.
  intros; unfold copy_from_slice.
  rewrite (proj2 (Z.leb_le 0 a)), (proj2 (Z.leb_le a b)), (proj2 (Z.leb_le b _)) by lia.
  by rewrite (proj2 (Z.eqb_eq _ _)).
Qed.

Lemma index_ret {A} (l : list A) i a :
  0 <= i -> l !! Z.to_nat i = Some a -> index l i = Ret a.
Proof.
  intros Hi Hl; unfold index.
  pose proof (lookup_lt_Some _ _ _ Hl).
  rewrite (proj2 (Z.leb_le 0 i)), (proj2 (Z.ltb_lt i _)), Hl by (unfold len; lia).
  done.
Qed.

Lemma index_ret_iff {A} (l : list A) i a :
  index l i = Ret a <-> 0 <= i /\ l !! Z.to_nat i = Some a.
Proof.
  split; [|intros []; by apply index_ret].
  unfold index; intros H; destruct (_ && _) eqn:E; [|done].
  apply andb_prop in E as [E1 E2].
  destruct (l !! _); inv_ret; split; [lia|done].
Qed.

Lemma index_is_ret {A} (l : list A) i : 0 <= i < len l -> is_ret (index l i).
Proof.
  intros [? Hi]; unfold len in Hi.
  destruct (lookup_lt_is_Some_2 l (Z.to_nat i)) as [a Ha]; [lia|].
  exists a; by apply index_ret.
Qed.

Lemma index_nth {A} (l : list A) i d : 0 <= i < len l -> index l i = Ret (nth (Z.to_nat i) l d).
Proof.
  intros Hi; destruct (index_is_ret l i Hi) as [a Ha]; rewrite Ha; f_equal.
  apply index_ret_iff in Ha as [_ Ha]; symmetry; by apply nth_lookup_Some.
Qed.

Lemma nth_ztake {A} n i (l : list A) d : 0 <= i < n -> nth (Z.to_nat i) (ztake n l) d = nth (Z.to_nat i) l d.
Proof.
  intros Hi; rewrite !nth_lookup; f_equal; unfold ztake; apply lookup_take_lt; lia.
Qed.

Lemma nth_zdrop {A} n i (l : list A) d :
  0 <= n -> 0 <= i -> nth (Z.to_nat i) (zdrop n l) d = nth (Z.to_nat (n + i)) l d.
Proof.
  intros Hn Hi; rewrite !nth_lookup; f_equal; unfold zdrop; rewrite lookup_drop; f_equal; lia.
Qed.

Lemma bytes_nth l i : bytes_ok l -> in_u8 (nth i l 0).
Proof.
  intros Hl; destruct (nth_in_or_default i l 0) as [Hin| ->]; [|unfold in_u8; lia].
  unfold bytes_ok in Hl; rewrite List.Forall_forall in Hl; by apply Hl.
Qed.

Lemma store_ret {A} (l : list A) i a :
  0 <= i < len l -> store l i a = Ret (<[Z.to_nat i := a]> l).
Proof.
  intros; unfold store.
  by rewrite (proj2 (Z.leb_le 0 i)), (proj2 (Z.ltb_lt i _)) by lia.
Qed.

(** Reading and writing the element after a known prefix. *)
Lemma index_middle {A} (pre post : list A) c i : i = len pre -> index (pre ++ c :: post) i = Ret c.
Proof.
  intros ->; apply index_ret; [apply len_nonneg|].
  unfold len; rewrite Nat2Z.id; apply list_lookup_middle; done.
Qed.

Lemma store_middle {A} (pre post : list A) c x i :
  i = len pre -> store (pre ++ c :: post) i x = Ret (pre ++ x :: post).
Proof.
  intros ->; rewrite store_ret by llia; f_equal.
  unfold len; rewrite Nat2Z.id, <-(Nat.add_0_r (length pre)); by rewrite insert_app_r.
Qed.

Lemma index_0 {A} (l : list A) c : index (c :: l) 0 = Ret c.
Proof. by apply (index_middle []). Qed.
Lemma store_0 {A} (l : list A) c x : store (c :: l) 0 x = Ret (x :: l).
Proof. by apply (store_middle []). Qed.

(** ** Loops *)

(** [for i in lo..lo + n { st = body(i, st) }] *)
Fixpoint for_range {S} (n : nat) (lo : Z) (body : Z -> S -> outcome S) (st : S) : outcome S :=
  match n with
  | O => Ret st
  | S n' => let! st' := body lo st in for_range n' (lo + 1) body st'
  end.

(** [for a in l { st = body(a, st) }] *)
Fixpoint foldM {A S} (body : A -> S -> outcome S) (l : list A) (st : S) : outcome S :=
  match l with
  | [] => Ret st
  | a :: l' => let! st' := body a st in foldM body l' st'
  end.

(** A loop invariant for [for_range]. *)
Lemma for_range_inv {S} (P : Z -> S -> Prop) body n lo st :
  P lo st ->
  (forall i s, lo <= i < lo + Z.of_nat n -> P i s ->
     exists s', body i s = Ret s' /\ P (i + 1) s') ->
  exists st', for_range n lo body st = Ret st' /\ P (lo + Z.of_nat n) st'.
Proof.
  revert lo st; induction n as [|n IH]; intros lo st HP Hb; cbn [for_range].
  - exists st; split; [done|]. by replace (lo + Z.of_nat 0) with lo by lia.
  - destruct (Hb lo st) as (s' & -> & HP'); [lia|done|]; cbn [obind].
    destruct (IH (lo + 1) s' HP') as (st' & -> & HQ).
    { intros i s Hi; apply Hb; lia. }
    exists st'; split; [done|].
    by replace (lo + Z.of_nat (Datatypes.S n)) with (lo + 1 + Z.of_nat n) by lia.
Qed.

(** ** Lists by position

    [zget l i] is the element at [i]; two lists with the same elements at every
    position are equal, which settles equations between cut and pasted lists
    by arithmetic. *)
Definition zget {A} (l : list A) (i : Z) : option A :=
  if i <? 0 then None else l !! Z.to_nat i.

Lemma zget_ge {A} (l : list A) i : len l <= i -> zget l i = None.
Proof.
  unfold zget, len; intros; destruct (Z.ltb_spec i 0); [done|].
  apply lookup_ge_None_2; lia.
Qed.

Lemma index_zget {A} (l : list A) i a : index l i = Ret a -> zget l i = Some a.
Proof. intros [Hi Hl]%index_ret_iff; unfold zget; by rewrite (proj2 (Z.ltb_ge _ _)). Qed.

Lemma zget_neg {A} (l : list A) i : i < 0 -> zget l i = None.
Proof. intros; unfold zget; by rewrite (proj2 (Z.ltb_lt _ _)). Qed.

Lemma zget_eq {A} (l1 l2 : list A) : (forall i, 0 <= i -> zget l1 i = zget l2 i) -> l1 = l2.
Proof.
  intros H; apply list_eq; intros i; specialize (H (Z.of_nat i) ltac:(lia)).
  unfold zget in H; rewrite (proj2 (Z.ltb_ge _ 0)), Nat2Z.id in H by lia; done.
Qed.

Lemma zget_app {A} (l1 l2 : list A) i :
  zget (l1 ++ l2) i = if i <? len l1 then zget l1 i else zget l2 (i - len l1).
Proof.
  unfold zget, len; destruct (Z.ltb_spec i 0), (Z.ltb_spec i (Z.of_nat (length l1))); try lia; try done.
  - apply lookup_app_l; lia.
  - destruct (Z.ltb_spec (i - Z.of_nat (length l1)) 0); [lia|].
    rewrite lookup_app_r by lia; f_equal; lia.
Qed.

Lemma zget_ztake {A} n (l : list A) i : zget (ztake n l) i = if i <? n then zget l i else None.
Proof.
  unfold zget, ztake; destruct (Z.ltb_spec i 0), (Z.ltb_spec i n); try done.
  - apply lookup_take_lt; lia.
  - apply lookup_take_ge; lia.
Qed.

Lemma zget_zdrop {A} n (l : list A) i : 0 <= n -> 0 <= i -> zget (zdrop n l) i = zget l (n + i).
Proof.
  intros; unfold zget, zdrop; destruct (Z.ltb_spec i 0), (Z.ltb_spec (n + i) 0); try lia.
  rewrite lookup_drop; f_equal; lia.
Qed.

Lemma zget_write_at {A} (l : list A) pos data i :
  0 <= pos <= len l -> 0 <= i ->
  zget (write_at l pos data) i =
  if (pos <=? i) && (i <? pos + len data) then zget data (i - pos) else zget l i.
Proof.
  intros Hp Hi; unfold write_at; rewrite !zget_app, len_ztake, zget_ztake.
  pose proof (len_nonneg data).
  replace (Z.max 0 (Z.min pos (len l))) with pos by lia.
  destruct (Z.ltb_spec i pos), (Z.leb_spec pos i); try lia; cbn [andb].
  - done.
  - destruct (Z.ltb_spec (i - pos) (len data)), (Z.ltb_spec i (pos + len data)); try lia; [done|].
    rewrite zget_zdrop by lia; f_equal; lia.
Qed.

Lemma zget_insert {A} (l : list A) i j a :
  0 <= i < len l -> zget (<[Z.to_nat i := a]> l) j = if j =? i then Some a else zget l j.
Proof.
  intros Hi; unfold zget, len in *; destruct (Z.ltb_spec j 0), (Z.eqb_spec j i); try lia; try done.
  - subst; apply list_lookup_insert_eq; lia.
  - apply list_lookup_insert_ne; lia.
Qed.

Lemma zget_is_Some {A} (l : list A) i : 0 <= i < len l -> is_Some (zget l i).
Proof.
  intros; unfold zget, len in *; rewrite (proj2 (Z.ltb_ge _ _)) by lia.
  apply lookup_lt_is_Some_2; lia.
Qed.

(** [zcase] splits the comparisons of a goal and closes what arithmetic settles. *)
Ltac zcase :=
  repeat match goal with
  | |- context [?a <? ?b] => destruct (Z.ltb_spec a b); try lia
  | |- context [?a <=? ?b] => destruct (Z.leb_spec a b); try lia
  end; cbn [andb orb negb].

Lemma write_at_nil {A} (l : list A) pos : write_at l pos [] = l.
Proof. unfold write_at; rewrite len_nil, Z.add_0_r; apply ztake_zdrop. Qed.

Lemma write_at_app {A} (l : list A) pos d1 d2 :
  0 <= pos -> pos + len d1 + len d2 <= len l ->
  write_at (write_at l pos d1) (pos + len d1) d2 = write_at l pos (d1 ++ d2).
Proof.
  intros Hp Hl; pose proof (len_nonneg d1); pose proof (len_nonneg d2).
  apply zget_eq; intros i Hi; rewrite !zget_write_at by (rewrite ?len_write_at; lia).
  rewrite zget_app, len_app; zcase; try done; f_equal; lia.
Qed.

(** What a prefix that covers the write looks like. *)
Lemma ztake_write_at {A} (l : list A) pos data n :
  0 <= pos -> pos + len data <= len l -> pos <= n <= pos + len data ->
  ztake n (write_at l pos data) = ztake pos l ++ ztake (n - pos) data.
Proof.
  intros Hp Hl Hn; pose proof (len_nonneg data).
  apply zget_eq; intros i Hi; rewrite zget_app, !zget_ztake, zget_write_at by lia.
  rewrite len_ztake; replace (Z.max 0 (Z.min pos (len l))) with pos by lia.
  zcase; try done; f_equal; lia.
Qed.
