(* ===== verification/AppConfig.v ===== *)
(** Compile-time configuration of the benchmark
    (src/bench/smoltcp-s3/src/lib.rs, "Compile-time configuration"): the
    parsers that read the build environment, the constants computed from it,
    and the decimal printer of [core::fmt] that writes the same numbers. *)

From Stdlib Require Import ZArith Lia Ascii String.
From stdpp Require Import base list numbers.
From S2P Require Import Prelude.

(** ** Parsers *)

Definition is_digit (c : Z) : bool := (chr "0" <=? c) && (c <=? chr "9").

(* [lib.rs 329-336 parse_size] the suffix multipliers. *)
Definition size_suffix (c : Z) : option Z :=
  if (c =? chr "K") || (c =? chr "k") then Some 1024
  else if (c =? chr "M") || (c =? chr "m") then Some (1024 * 1024)
  else if (c =? chr "G") || (c =? chr "g") then Some (1024 * 1024 * 1024)
  else if (c =? chr "T") || (c =? chr "t") then Some (1024 * 1024 * 1024 * 1024)
  else if (c =? chr "B") || (c =? chr "b") || (c =? chr "i") || (c =? chr "I") then Some 1
  else None.

(* [lib.rs 321-340 parse_size] the scanning loop; [v] is a [u64]. *)
Fixpoint parse_size_loop (b : list Z) (v default : Z) : Z :=
  match b with
  | [] => v
  | c :: b' =>
      if is_digit c then parse_size_loop b' (u64 (v * 10 + (c - chr "0"))) default
      else match size_suffix c with
           | Some mult => u64 (v * mult)
           | None => default
           end
  end.

(* [lib.rs 315-341 parse_size] *)
Definition parse_size (s : option (list Z)) (default : Z) : Z :=
  match s with
  | None => default
  | Some [] => default
  | Some b => parse_size_loop b 0 default
  end.

(* [lib.rs 343-352 parse_bool] *)
Definition parse_bool (s : option (list Z)) (default : bool) : bool :=
  match s with
  | None => default
  | Some [] => default
  | Some (c :: _) =>
      if (c =? chr "1") || (c =? chr "t") || (c =? chr "T") || (c =? chr "y") || (c =? chr "Y")
      then true
      else if (c =? chr "0") || (c =? chr "f") || (c =? chr "F") || (c =? chr "n") || (c =? chr "N")
      then false
      else default
  end.

(* [lib.rs 356-361 bytes_eq] the element loop, on slices of equal length. *)
Fixpoint bytes_eq_loop (a b : list Z) : bool :=
  match a, b with
  | x :: a', y :: b' => if x =? y then bytes_eq_loop a' b' else false
  | _, _ => true
  end.

(* [lib.rs 354-362 bytes_eq] *)
Definition bytes_eq (a b : list Z) : bool :=
  if negb (len a =? len b) then false else bytes_eq_loop a b.

(* [lib.rs 364-368 is_http] *)
Definition is_http (s : option (list Z)) : bool :=
  match s with
  | Some b => bytes_eq b (str "http")
  | None => false
  end.

(* [lib.rs 370-373 scheme_ok] *)
Definition scheme_ok (s : option (list Z)) : bool :=
  match s with
  | Some b => (len b =? 0) || bytes_eq b (str "http") || bytes_eq b (str "https")
  | None => true
  end.

(* [lib.rs 380-404 parse_ipv4] the scanning loop: [out] holds the octets
   already closed by a dot, so [oct] is its length. *)
Fixpoint parse_ipv4_loop (b : list Z) (out : list Z) (acc : Z) (seen : bool) : option (list Z) :=
  match b with
  | [] => if negb seen || negb (len out =? 3) then None else Some (out ++ [u8 acc])
  | c :: b' =>
      if is_digit c then
        let acc := u32 (acc * 10 + (c - chr "0")) in
        if 255 <? acc then None else parse_ipv4_loop b' out acc true
      else if c =? chr "." then
        if negb seen || (3 <=? len out) then None
        else parse_ipv4_loop b' (out ++ [u8 acc]) 0 false
      else None
  end.

(* [lib.rs 375-405 parse_ipv4] *)
Definition parse_ipv4 (s : option (list Z)) : list Z :=
  match s with
  | None => [0; 0; 0; 0]
  | Some b => match parse_ipv4_loop b [] 0 false with
              | Some o => o
              | None => [0; 0; 0; 0]
              end
  end.

(** ** The build environment and the constants *)

(** What [option_env!] and [env!] read.  [AWS_BUCKET] and [AWS_REGION] are
    mandatory: without them the crate does not compile. *)
Record build_env : Type := {
  AWS_BUCKET : list Z;
  AWS_REGION : list Z;
  AWS_BUCKET_SIZE : option (list Z);
  AWS_TARGET_IP : option (list Z);
  BENCH_WORKERS : option (list Z);
  BENCH_CONNS_PER_WORKER : option (list Z);
  BENCH_TLS_STUB : option (list Z);
  BENCH_SCHEME : option (list Z);
  BENCH_BLOCK_SIZE : option (list Z);
}.

(* [lib.rs 407-408 N_WORKERS_REQ] *)
Definition N_WORKERS_REQ (env : build_env) : Z := u16 (parse_size (BENCH_WORKERS env) 8).
(* [lib.rs 409-411 CONNS_PER_WORKER] *)
Definition CONNS_PER_WORKER (env : build_env) : Z :=
  usize (parse_size (BENCH_CONNS_PER_WORKER env) 24).
(* [lib.rs 412-414 OBJECT_SIZE] *)
Definition OBJECT_SIZE (env : build_env) : Z :=
  parse_size (AWS_BUCKET_SIZE env) (10 * 1024 * 1024 * 1024).
(* [lib.rs 415-419 BLOCK_SIZE] *)
Definition BLOCK_SIZE (env : build_env) : Z :=
  parse_size (BENCH_BLOCK_SIZE env) (64 * 1024 * 1024).
(* [lib.rs 420-423 PLAIN_HTTP] *)
Definition PLAIN_HTTP (env : build_env) : bool := is_http (BENCH_SCHEME env).
(* [lib.rs 430-435 STUB_TLS_AFTER_HANDSHAKE] *)
Definition STUB_TLS_AFTER_HANDSHAKE (env : build_env) : bool :=
  parse_bool (BENCH_TLS_STUB env) false && negb (PLAIN_HTTP env).
(* [lib.rs 820-825 TARGET_IP] *)
Definition TARGET_IP (env : build_env) : list Z := parse_ipv4 (AWS_TARGET_IP env).
(* [lib.rs 835-835 TARGET_PORT] *)
Definition TARGET_PORT (env : build_env) : Z := if PLAIN_HTTP env then 80 else 443.
(* [lib.rs 836-843 TARGET_HOST] *)
Definition TARGET_HOST (env : build_env) : list Z :=
  AWS_BUCKET env ++ str ".s3." ++ AWS_REGION env ++ str ".amazonaws.com".
(* [lib.rs 845-845 TARGET_PATH] *)
Definition TARGET_PATH : list Z := str "/blob.bin".

(** The two compile-time assertions: the crate only exists when they hold. *)
(* [lib.rs 424-429 assert] [lib.rs 827-834 assert] *)
Definition compiles (env : build_env) : bool :=
  scheme_ok (BENCH_SCHEME env) && negb (bytes_eq (TARGET_IP env) [0; 0; 0; 0]).

(** [core::fmt] of an unsigned integer, most significant digit first; [fuel]
    bounds the number of digits, and 20 are enough for a [u64]. *)
Fixpoint fmt_dec (fuel : nat) (n : Z) : list Z :=
  match fuel with
  | O => []
  | S f => if n <? 10 then [chr "0" + n] else fmt_dec f (n / 10) ++ [chr "0" + n mod 10]
  end.

Definition fmt_u64 (n : Z) : list Z := fmt_dec 20 n.

(** ** Specification vocabulary *)

Definition dec_value (v : Z) (l : list Z) : Z := foldl (fun v c => v * 10 + (c - chr "0")) v l.

Definition digits (l : list Z) : Prop := Forall (fun c => is_digit c = true) l.

(** [s] is four non-empty groups of digits separated by dots, none above 255,
    and [o] are their values. *)
Definition dotted_quad (s o : list Z) : Prop :=
  exists g1 g2 g3 g4,
    s = g1 ++ str "." ++ g2 ++ str "." ++ g3 ++ str "." ++ g4 /\
    o = [dec_value 0 g1; dec_value 0 g2; dec_value 0 g3; dec_value 0 g4] /\
    Forall (fun g => g <> [] /\ digits g /\ dec_value 0 g <= 255) [g1; g2; g3; g4].

(** ** Lemmas *)

Lemma is_digit_spec c : is_digit c = true <-> 48 <= c <= 57.
Proof. unfold is_digit; chars; lia. Qed.

Lemma dec_value_app v a b : dec_value v (a ++ b) = dec_value (dec_value v a) b.
Proof. unfold dec_value; apply foldl_app. Qed.

Lemma dec_value_ge v l : 0 <= v -> digits l -> v <= dec_value v l.
Proof.
  intros Hv Hl; revert v Hv; induction Hl as [|c l Hc Hl IH]; intros v Hv; [done|].
  apply is_digit_spec in Hc; cbn; chars.
  etransitivity; [|apply IH]; lia.
Qed.

Lemma fmt_dec_digits f n : 0 <= n -> digits (fmt_dec f n).
Proof.
  unfold digits; revert n; induction f as [|f IH]; intros n Hn; cbn [fmt_dec]; [done|].
  destruct (Z.ltb_spec n 10).
  - repeat constructor; apply is_digit_spec; chars; lia.
  - apply Forall_app; split; [apply IH; mlia|].
    repeat constructor; apply is_digit_spec; chars; mlia.
Qed.

Lemma fmt_dec_nonempty f n : fmt_dec (S f) n <> [].
Proof. cbn [fmt_dec]; destruct (n <? 10); [done|]; by intros []%app_nil. Qed.

Lemma fmt_dec_value f n :
  0 <= n < 10 ^ Z.of_nat f -> dec_value 0 (fmt_dec f n) = n.
Proof.
  revert n; induction f as [|f IH]; intros n Hn.
  { change (10 ^ Z.of_nat 0) with 1 in Hn; cbn; lia. }
  rewrite Nat2Z.inj_succ, Z.pow_succ_r in Hn by lia.
  cbn [fmt_dec]; destruct (Z.ltb_spec n 10).
  - cbn; lia.
  - rewrite dec_value_app, IH by mlia.
    cbn; mlia.
Qed.

Lemma fmt_dec_len f n : len (fmt_dec f n) <= Z.of_nat f.
Proof.
  revert n; induction f as [|f IH]; intros n; cbn [fmt_dec]; [done|].
  destruct (n <? 10); autorewrite with len; [lia|]. specialize (IH (n / 10)); lia.
Qed.

Lemma parse_size_loop_digits l s v d :
  digits l -> 0 <= v -> dec_value v l < M64 ->
  parse_size_loop (l ++ s) v d = parse_size_loop s (dec_value v l) d.
Proof.
  intros Hl; revert v; induction Hl as [|c l Hc Hl IH]; intros v Hv Hlt; [done|].
  pose proof Hc as Hc'; apply is_digit_spec in Hc'.
  cbn [app parse_size_loop]; rewrite Hc.
  change (dec_value v (c :: l)) with (dec_value (v * 10 + (c - chr "0")) l) in *.
  chars.
  pose proof (dec_value_ge (v * 10 + (c - 48)) l ltac:(lia) Hl).
  rewrite u64_small by lia.
  apply IH; lia.
Qed.

Lemma parse_size_app l s d :
  l <> [] -> digits l -> dec_value 0 l < M64 ->
  parse_size (Some (l ++ s)) d = parse_size_loop s (dec_value 0 l) d.
Proof.
  intros Hne Hl Hlt; rewrite <-(parse_size_loop_digits l s 0 d) by (done || lia).
  by destruct l.
Qed.

(** What [parse_size] reads: a number printed in decimal, alone or followed
    by one of the suffix letters (whatever follows the letter), is that number
    times the suffix's power of 1024, as long as the product fits a [u64]. *)
Theorem parse_size_roundtrip (n d : Z) (c : Z) (m : Z) (rest : list Z) :
  0 <= n -> n * m < M64 -> 1 <= m -> size_suffix c = Some m ->
  parse_size (Some (fmt_u64 n)) d = n /\
  parse_size (Some (fmt_u64 n ++ c :: rest)) d = n * m.
Proof.
  intros Hn Hm Hm1 Hc.
  assert (n < M64) by nia.
  assert (Hv : dec_value 0 (fmt_u64 n) = n) by (apply fmt_dec_value; cbn; lia).
  assert (Hd : is_digit c = false).
  { destruct (is_digit c) eqn:E; [|done]. apply is_digit_spec in E.
    unfold size_suffix in Hc; chars.
    repeat match type of Hc with (if ?b then _ else _) = _ => destruct b eqn:?; [lia|] end.
    discriminate. }
  split.
  - rewrite <-(app_nil_r (fmt_u64 n)), parse_size_app; [by rewrite Hv|apply fmt_dec_nonempty| |by rewrite Hv].
    by apply fmt_dec_digits.
  - rewrite parse_size_app; [|apply fmt_dec_nonempty|by apply fmt_dec_digits|by rewrite Hv].
    cbn [parse_size_loop]; rewrite Hd, Hc, Hv. apply u64_small; lia.
Qed.

Lemma parse_size_roundtrip_witness :
  parse_size (Some (fmt_u64 10)) 7 = 10 /\
  parse_size (Some (fmt_u64 10 ++ chr "G" :: [])) 7 = 10 * (1024 * 1024 * 1024).
Proof.
  apply (parse_size_roundtrip 10 7 (chr "G") (1024 * 1024 * 1024) []); [lia|lia|lia|reflexivity].
Defined.

Definition octet_group (g : list Z) : Prop := g <> [] /\ digits g /\ dec_value 0 g <= 255.

(** The rest of a dotted address: each further group after its dot. *)
Definition dotted (gs : list (list Z)) : list Z := concat (map (fun g => chr "." :: g) gs).

Lemma parse_ipv4_loop_sound b out acc seen o :
  0 <= acc <= 255 ->
  parse_ipv4_loop b out acc seen = Some o ->
  exists g gs, b = g ++ dotted gs /\ digits g /\ (seen = false -> g <> []) /\
    Forall octet_group gs /\ dec_value acc g <= 255 /\
    o = out ++ dec_value acc g :: map (dec_value 0) gs /\ len out + len gs = 3.
Proof.
  revert out acc seen; induction b as [|c b IH]; intros out acc seen Hacc H.
  - cbn [parse_ipv4_loop] in H; destruct seen; cbn [negb orb] in H; [|done].
    destruct (Z.eqb_spec (len out) 3); [|done]; injection H as <-.
    exists [], []; split_and!; try done; [constructor|cbn; lia| |rewrite len_nil; lia].
    by rewrite u8_small by lia.
  - cbn [parse_ipv4_loop] in H; destruct (is_digit c) eqn:Hd.
    + pose proof Hd as Hd'; apply is_digit_spec in Hd'; chars.
      rewrite u32_small in H by lia.
      destruct (Z.ltb_spec 255 (acc * 10 + (c - 48))); [done|].
      apply IH in H as (g & gs & -> & Hg & _ & Hgs & Hv & -> & Hlen); [|lia].
      exists (c :: g), gs; split_and!; try done; by constructor.
    + destruct (Z.eqb_spec c (chr ".")) as [->|]; [|done].
      destruct seen; cbn [negb orb] in H; [|done].
      destruct (Z.leb_spec 3 (len out)); [done|].
      apply IH in H as (g & gs & -> & Hg & Hne & Hgs & Hv & -> & Hlen); [|lia].
      exists [], (g :: gs); split_and!; try done.
      * constructor.
      * constructor; [by split_and!; auto|done].
      * cbn; lia.
      * cbn. rewrite <-app_assoc; cbn. by rewrite u8_small by lia.
      * autorewrite with len in *; lia.
Qed.

Lemma parse_ipv4_loop_group g s out acc seen :
  digits g -> 0 <= acc -> dec_value acc g <= 255 ->
  parse_ipv4_loop (g ++ s) out acc seen =
  parse_ipv4_loop s out (dec_value acc g) (seen || negb (bool_decide (g = []))).
Proof.
  intros Hg; revert acc seen; induction Hg as [|c g Hc Hg IH]; intros acc seen Hacc Hv.
  { by rewrite orb_false_r. }
  pose proof Hc as Hc'; apply is_digit_spec in Hc'.
  change (dec_value acc (c :: g)) with (dec_value (acc * 10 + (c - chr "0")) g) in *.
  cbn [app parse_ipv4_loop]; rewrite Hc; chars.
  pose proof (dec_value_ge (acc * 10 + (c - 48)) g ltac:(lia) Hg).
  rewrite u32_small by lia. destruct (Z.ltb_spec 255 (acc * 10 + (c - 48))); [lia|].
  rewrite IH by lia. by destruct seen.
Qed.

Lemma parse_ipv4_loop_dotted gs out acc :
  0 <= acc <= 255 -> Forall octet_group gs -> len out + len gs = 3 ->
  parse_ipv4_loop (dotted gs) out acc true = Some (out ++ acc :: map (dec_value 0) gs).
Proof.
  intros Hacc Hgs; revert out acc Hacc; induction Hgs as [|g gs (Hne & Hg & Hv) Hgs IH];
    intros out acc Hacc Hlen.
  - cbn. rewrite len_nil in Hlen. rewrite (proj2 (Z.eqb_eq _ _)) by lia; cbn.
    by rewrite u8_small by lia.
  - rewrite len_cons in Hlen; pose proof (len_nonneg gs).
    cbn [dotted map concat app parse_ipv4_loop].
    change (is_digit (chr ".")) with false; rewrite Z.eqb_refl; cbn [negb orb].
    rewrite (proj2 (Z.leb_gt _ _)) by lia. change (concat _) with (dotted gs).
    pose proof (dec_value_ge 0 g ltac:(lia) Hg).
    rewrite parse_ipv4_loop_group by (done || lia).
    rewrite bool_decide_eq_false_2 by done; cbn [negb orb].
    rewrite IH by (rewrite ?len_app, ?len_cons, ?len_nil; lia).
    rewrite u8_small by lia. by rewrite <-app_assoc.
Qed.

(** [parse_ipv4] accepts exactly the dotted quads (four non-empty digit
    groups, none above 255) and returns their octets; every other text, and an
    unset variable, gives 0.0.0.0. *)
Theorem parse_ipv4_correct (s : list Z) :
  (forall o, dotted_quad s o -> parse_ipv4 (Some s) = o) /\
  ((forall o, ~ dotted_quad s o) -> parse_ipv4 (Some s) = [0; 0; 0; 0]) /\
  parse_ipv4 None = [0; 0; 0; 0].
Proof.
  unfold parse_ipv4; split_and!; [| |done].
  - intros o (g1 & g2 & g3 & g4 & -> & -> & HF).
    inversion_clear HF as [|? ? (Hne & Hg & Hv) Hgs].
    replace (g1 ++ _) with (g1 ++ dotted [g2; g3; g4])
      by (cbn; by rewrite app_nil_r).
    pose proof (dec_value_ge 0 g1 ltac:(lia) Hg).
    rewrite parse_ipv4_loop_group by (done || lia).
    rewrite bool_decide_eq_false_2 by done; cbn [negb orb].
    by rewrite parse_ipv4_loop_dotted by (done || lia).
  - intros Hno; destruct (parse_ipv4_loop s [] 0 false) as [o|] eqn:E; [|done].
    exfalso; apply parse_ipv4_loop_sound in E as (g & gs & -> & Hg & Hne & Hgs & Hv & -> & Hlen); [|lia].
    destruct gs as [|g2 [|g3 [|g4 [|]]]]; autorewrite with len in Hlen;
      [lia|lia|lia| |llia].
    apply (Hno [dec_value 0 g; dec_value 0 g2; dec_value 0 g3; dec_value 0 g4]).
    exists g, g2, g3, g4; split_and!; [|done|].
    + cbn; by rewrite app_nil_r.
    + constructor; [by split_and!; auto|done].
Qed.

(** A size is a [u64]. *)
Lemma parse_size_range s default : in_u64 default -> in_u64 (parse_size s default).
Proof.
  intros Hd; destruct s as [[|c b]|]; [done| |done]; cbn [parse_size].
  assert (H : forall l v, in_u64 v -> in_u64 (parse_size_loop l v default)).
  { induction l as [|x l IH]; intros v Hv; cbn [parse_size_loop]; [done|].
    destruct (is_digit x); [apply IH, u64_range|]; destruct (size_suffix x); [apply u64_range|done]. }
  apply (H (c :: b)); unfold in_u64; lia.
Qed.

Lemma BLOCK_SIZE_range env : in_u64 (BLOCK_SIZE env).
Proof. apply parse_size_range; unfold in_u64; lia. Qed.

(** The target address has four octets, whatever the environment says. *)
Lemma len_TARGET_IP env : len (TARGET_IP env) = 4.
Proof.
  unfold TARGET_IP, parse_ipv4; destruct (AWS_TARGET_IP env) as [s|]; [|done].
  destruct (parse_ipv4_loop s [] 0 false) as [o|] eqn:E; [|done].
  apply parse_ipv4_loop_sound in E as (g & gs & _ & _ & _ & _ & _ & -> & Hlen); [|lia].
  autorewrite with len in *; lia.
Qed.

Lemma bytes_eq_spec a b : bytes_eq a b = true <-> a = b.
Proof.
  unfold bytes_eq; destruct (Z.eqb_spec (len a) (len b)) as [Hl|Hl]; cbn [negb].
  2: { split; [done|by intros ->]. }
  revert b Hl; induction a as [|x a IH]; intros [|y b] Hl;
    autorewrite with len in Hl; cbn [bytes_eq_loop].
  - done.
  - pose proof (len_nonneg b); lia.
  - pose proof (len_nonneg a); lia.
  - destruct (Z.eqb_spec x y) as [->|]; [|split; [done|congruence]].
    rewrite IH by lia; split; congruence.
Qed.

(** C31: a build whose assertions hold has a target address that is a genuine
    dotted quad other than 0.0.0.0, and runs plain HTTP on port 80 exactly when
    [BENCH_SCHEME] is [http]; otherwise the scheme is unset, empty or [https]
    and the port is 443.  The TLS stub is never active together with plain
    HTTP. *)
Theorem compiles_target (env : build_env) :
  compiles env = true ->
  (exists s, AWS_TARGET_IP env = Some s /\ dotted_quad s (TARGET_IP env)) /\
  TARGET_IP env <> [0; 0; 0; 0] /\
  (TARGET_PORT env = 80 <-> BENCH_SCHEME env = Some (str "http")) /\
  (TARGET_PORT env = 443 <->
     BENCH_SCHEME env = None \/ BENCH_SCHEME env = Some [] \/
     BENCH_SCHEME env = Some (str "https")) /\
  (PLAIN_HTTP env = true -> STUB_TLS_AFTER_HANDSHAKE env = false).
Proof.
  unfold compiles; intros [Hs Ht]%andb_prop.
  assert (Hne : TARGET_IP env <> [0; 0; 0; 0]).
  { intros E; rewrite <-bytes_eq_spec in E; by rewrite E in Ht. }
  unfold TARGET_PORT, STUB_TLS_AFTER_HANDSHAKE, PLAIN_HTTP; split_and!.
  - unfold TARGET_IP, parse_ipv4 in *; destruct (AWS_TARGET_IP env) as [s|]; [|done].
    exists s; split; [done|].
    destruct (parse_ipv4_loop s [] 0 false) as [o|] eqn:E; [|done].
    apply parse_ipv4_loop_sound in E as (g & gs & -> & Hg & Hgne & Hgs & Hv & -> & Hlen); [|lia].
    destruct gs as [|g2 [|g3 [|g4 [|]]]]; autorewrite with len in Hlen;
      [lia|lia|lia| |llia].
    exists g, g2, g3, g4; split_and!; [cbn; by rewrite app_nil_r|done|].
    constructor; [by split_and!; auto|done].
  - done.
  - unfold is_http; destruct (BENCH_SCHEME env) as [s|]; [|done].
    destruct (bytes_eq s (str "http")) eqn:E; [rewrite bytes_eq_spec in E; by subst|].
    split; [done|]; intros [= ->]; by rewrite (proj2 (bytes_eq_spec _ _) eq_refl) in E.
  - unfold scheme_ok, is_http in *; destruct (BENCH_SCHEME env) as [s|]; [|naive_solver].
    destruct (bytes_eq s (str "http")) eqn:E.
    + rewrite bytes_eq_spec in E; subst; split; [done|]. by intros [|[|]].
    + rewrite orb_false_r in Hs; split; [|done]; intros _.
      apply orb_prop in Hs as [Hs|Hs]; [|apply bytes_eq_spec in Hs; subst; auto].
      right; left; f_equal; apply len_zero_nil; lia.
  - intros ->; by rewrite andb_false_r.
Qed.

Definition example_env : build_env := {|
  AWS_BUCKET := str "bench"; AWS_REGION := str "eu-north-1"; AWS_BUCKET_SIZE := None;
  AWS_TARGET_IP := Some (str "3.5.216.240"); BENCH_WORKERS := None;
  BENCH_CONNS_PER_WORKER := None; BENCH_TLS_STUB := None;
  BENCH_SCHEME := Some (str "http"); BENCH_BLOCK_SIZE := None |}.

Lemma compiles_target_witness :
  compiles example_env = true /\ TARGET_IP example_env <> [0; 0; 0; 0].
Proof.
  split; [reflexivity|].
  apply (compiles_target example_env eq_refl).
Defined.
