(* ===== verification/BuildScript.v ===== *)
(** The build script (src/bench/smoltcp-s3/build.rs): the environment variables
    it declares to Cargo, and what the crate reads of the environment. *)

From Stdlib Require Import ZArith Lia String.
From stdpp Require Import base list gmap strings.
From S2P Require Import Prelude AppConfig.

(* [build.rs 5-15 main] *)
Definition rerun_vars : list string :=
  ["AWS_BUCKET"; "AWS_REGION"; "AWS_BUCKET_SIZE"; "AWS_TARGET_IP"; "BENCH_WORKERS"; "BENCH_CONNS_PER_WORKER";
   "BENCH_TLS_STUB"; "BENCH_SCHEME"; "BENCH_BLOCK_SIZE"]%string.

(** The lines it prints for Cargo. *)
(* [build.rs 4-18 main] *)
Definition build_main : list string := map (String.append "cargo:rerun-if-env-changed=") rerun_vars.

(** Every [option_env!] and [env!] of the crate; without a mandatory one it does
    not compile. *)
(* [lib.rs 836-843 TARGET_HOST] the two [env!]; the others are at their constants. *)
Definition read_env (e : gmap string (list Z)) : option build_env :=
  match e !! "AWS_BUCKET"%string, e !! "AWS_REGION"%string with
  | Some bucket, Some region =>
      Some {| AWS_BUCKET := bucket; AWS_REGION := region;
              AWS_BUCKET_SIZE := e !! "AWS_BUCKET_SIZE"%string; AWS_TARGET_IP := e !! "AWS_TARGET_IP"%string;
              BENCH_WORKERS := e !! "BENCH_WORKERS"%string;
              BENCH_CONNS_PER_WORKER := e !! "BENCH_CONNS_PER_WORKER"%string;
              BENCH_TLS_STUB := e !! "BENCH_TLS_STUB"%string; BENCH_SCHEME := e !! "BENCH_SCHEME"%string;
              BENCH_BLOCK_SIZE := e !! "BENCH_BLOCK_SIZE"%string |}
  | _, _ => None
  end.

(** ** The declarations are the variables read *)

Definition declared (var : string) : Prop := String.append "cargo:rerun-if-env-changed=" var ∈ build_main.

Lemma declared_iff var : declared var <-> var ∈ rerun_vars.
Proof.
  unfold declared, build_main; rewrite list_elem_of_fmap; split.
  - intros (v & E & Hv); assert (var = v) as -> by (by apply (inj (String.append "cargo:rerun-if-env-changed="))); done.
  - intros Hv; by exists var.
Qed.

(** Cargo builds anew when a declared variable changes; as long as none does, the
    crate would read the same environment.  Each declaration is needed: some
    change of that variable alone changes what the crate reads. *)
Theorem declared_exactly_read (e e' : gmap string (list Z)) :
  (forall var, declared var -> e !! var = e' !! var) -> read_env e = read_env e'.
Proof.
  intros H; unfold read_env.
  assert (Hv : Forall (fun var => e !! var = e' !! var) rerun_vars)
    by (apply Forall_forall; intros var Hvar; by apply H, declared_iff).
  unfold rerun_vars in Hv; repeat (apply Forall_cons_1 in Hv as [? Hv]).
  repeat match goal with E : e !! _ = e' !! _ |- _ => rewrite E; clear E end; done.
Qed.

Theorem declared_needed (var : string) :
  declared var -> exists e e', (forall v, v <> var -> e !! v = e' !! v) /\ read_env e <> read_env e'.
Proof.
  intros Hv%declared_iff; set (base := list_to_map [("AWS_BUCKET", []); ("AWS_REGION", [])]%string : gmap string (list Z)).
  exists (<[var := [1%Z]]> base), (<[var := [2%Z]]> base); split.
  { intros v Hne; by rewrite !lookup_insert_ne by done. }
  unfold rerun_vars in Hv; repeat (apply elem_of_cons in Hv as [->|Hv]; [by vm_compute|]); by apply elem_of_nil in Hv.
Qed.
