(* ===== verification/Rss.v ===== *)
(** The RSS steering model of the benchmark (src/bench/smoltcp-s3/src/lib.rs,
    "RSS steering model"): the Toeplitz hash, the predicted receive queue of a
    flow, the per-worker bitmap of owned source ports, and the loading of the
    key and indirection table from the device. *)

From Stdlib Require Import ZArith Lia Ascii String.
From stdpp Require Import base list numbers.
From S2P Require Import Prelude AppConfig.

(* [lib.rs 478-478 EPH_BASE] *)
Definition EPH_BASE : Z := 49152.
(* [lib.rs 479-479 EPH_LEN] *)
Definition EPH_LEN : Z := 16384.
(* [lib.rs 480-480 OWNED_BITMAP_BYTES] *)
Definition OWNED_BITMAP_BYTES : Z := EPH_LEN / 8.

(** The mutable statics. *)
(* [lib.rs 482-485 RSS_KEY, RSS_KEY_LEN, RSS_RETA, RSS_RETA_LEN] [lib.rs 513-513 SINGLE_QUEUE] *)
Record rss_state : Type := {
  RSS_KEY : list Z;
  RSS_KEY_LEN : Z;
  RSS_RETA : list Z;
  RSS_RETA_LEN : Z;
  SINGLE_QUEUE : bool;
}.

Definition rss_init : rss_state :=
  {| RSS_KEY := zreplicate 64 0; RSS_KEY_LEN := 0;
     RSS_RETA := zreplicate 512 0; RSS_RETA_LEN := 0; SINGLE_QUEUE := false |}.

(** ** The hash *)

(** [u32::from_be_bytes], [u16::to_be_bytes] *)
Definition be32 (a b c d : Z) : Z := ((a * 256 + b) * 256 + c) * 256 + d.
Definition be16_bytes (x : Z) : list Z := [x / 256; x mod 256].

(** The accumulator [(result, w, next_bit)]. *)
Definition toeplitz_acc : Type := Z * Z * Z.

(* [lib.rs 496-505 toeplitz] one bit: the body of the inner loop. *)
Definition toeplitz_bit (key : list Z) (byte b : Z) (st : toeplitz_acc) : outcome toeplitz_acc :=
  let '(result, w, next_bit) := st in
  let result := if Z.land (Z.shiftr byte b) 1 =? 1 then Z.lxor result w else result in
  let! kb := (if next_bit <? len key * 8
              then let! k := index key (next_bit / 8) in
                   Ret (Z.land (Z.shiftr k (7 - next_bit mod 8)) 1)
              else Ret 0) in
  Ret (result, Z.lor (u32 (Z.shiftl w 1)) kb, next_bit + 1).

(* [lib.rs 495-506 toeplitz] the inner loop over [(0..8).rev()]. *)
Definition toeplitz_byte (key : list Z) (byte : Z) (st : toeplitz_acc) : outcome toeplitz_acc :=
  foldM (toeplitz_bit key byte) [7; 6; 5; 4; 3; 2; 1; 0] st.

(* [lib.rs 487-509 toeplitz] *)
Definition toeplitz (key data : list Z) : outcome Z :=
  if len key <? 4 then Ret 0
  else
    let! k0 := index key 0 in
    let! k1 := index key 1 in
    let! k2 := index key 2 in
    let! k3 := index key 3 in
    let! (result, _, _) := foldM (toeplitz_byte key) data (0, be32 k0 k1 k2 k3, 32) in
    Ret result.

(** ** Steering *)

(* [lib.rs 511-530 predict_queue] *)
Definition predict_queue (st : rss_state) (tuple : list Z) : outcome Z :=
  if SINGLE_QUEUE st then Ret 0
  else if (RSS_KEY_LEN st =? 0) || (RSS_RETA_LEN st =? 0) then Ret u16_max
  else
    let! key := slice (RSS_KEY st) 0 (RSS_KEY_LEN st) in
    let! h := toeplitz key tuple in
    index (RSS_RETA st) (Z.land h (RSS_RETA_LEN st - 1)).

Section Steering.
Context (env : build_env) (st : rss_state).

(* [lib.rs 532-541 queue_for_local_port] *)
Definition queue_for_local_port (our_ip : list Z) (local_port : Z) : outcome Z :=
  let tuple := zreplicate 12 0 in
  let! tuple := copy_from_slice tuple 0 4 (TARGET_IP env) in
  let! tuple := copy_from_slice tuple 4 8 our_ip in
  let! tuple := copy_from_slice tuple 8 10 (be16_bytes (TARGET_PORT env)) in
  let! tuple := copy_from_slice tuple 10 12 (be16_bytes local_port) in
  predict_queue st tuple.

(* [lib.rs 546-552 build_owned_ports] one iteration; the state is [(bitmap, count)]. *)
Definition build_owned_step (our_ip : list Z) (queue_id i : Z) (s : list Z * Z)
  : outcome (list Z * Z) :=
  let '(bitmap, count) := s in
  let port := EPH_BASE + u16 i in
  let! q := queue_for_local_port our_ip port in
  if q =? queue_id then
    let! b := index bitmap (i / 8) in
    let! bitmap := store bitmap (i / 8) (Z.lor b (Z.shiftl 1 (i mod 8))) in
    Ret (bitmap, u32 (count + 1))
  else Ret (bitmap, count).

(* [lib.rs 543-554 build_owned_ports] *)
Definition build_owned_ports (our_ip : list Z) (queue_id : Z) (bitmap : list Z)
  : outcome (list Z * Z) :=
  for_range (Z.to_nat EPH_LEN) 0 (build_owned_step our_ip queue_id) (bitmap, 0).

End Steering.

(** A read outside the bitmap is undefined behaviour in the source; it is
    [Panic] here, and [owns_port_bit] shows it does not happen. *)
(* [lib.rs 556-563 owns_port] *)
Definition owns_port (bitmap : list Z) (port : Z) : outcome bool :=
  if port <? EPH_BASE then Ret true
  else
    let i := port - EPH_BASE in
    let! b := index bitmap (i / 8) in
    Ret (negb (Z.land b (Z.shiftl 1 (i mod 8)) =? 0)).

(** ** Loading the configuration

    The two device queries go through the shim: each returns a C [int] and
    fills the caller's array. *)
Record rss_device : Type := {
  shim_rss_hash_key : Z * list Z;   (* return code, the 64-byte array *)
  shim_rss_reta : Z * list Z;       (* return code, the 512-entry array *)
}.

(* [lib.rs 565-603 load_rss_config] *)
Definition load_rss_config (dev : rss_device) (n_queues : Z) (st : rss_state)
  : outcome (bool * rss_state) :=
  if n_queues =? 1 then
    Ret (true, {| RSS_KEY := RSS_KEY st; RSS_KEY_LEN := RSS_KEY_LEN st;
                  RSS_RETA := RSS_RETA st; RSS_RETA_LEN := RSS_RETA_LEN st;
                  SINGLE_QUEUE := true |})
  else
    let '(klen, key) := shim_rss_hash_key dev in
    if klen <=? 0 then Ret (false, st)
    else
      let! src := slice key 0 klen in
      let! k := copy_from_slice (RSS_KEY st) 0 klen src in
      let st := {| RSS_KEY := k; RSS_KEY_LEN := klen; RSS_RETA := RSS_RETA st;
                   RSS_RETA_LEN := RSS_RETA_LEN st; SINGLE_QUEUE := SINGLE_QUEUE st |} in
      let '(n, reta) := shim_rss_reta dev in
      if n <=? 0 then Ret (false, st)
      else if negb (Z.land n (n - 1) =? 0) then Ret (false, st)
      else
        let! src := slice reta 0 n in
        let! r := copy_from_slice (RSS_RETA st) 0 n src in
        Ret (true, {| RSS_KEY := RSS_KEY st; RSS_KEY_LEN := RSS_KEY_LEN st;
                      RSS_RETA := r; RSS_RETA_LEN := n; SINGLE_QUEUE := SINGLE_QUEUE st |}).

(** ** Specifications *)

(** Bit [i] of a byte string, most significant first, zero past the end. *)
Definition bit_at (l : list Z) (i : nat) : Z :=
  nth (i / 8) l 0 / 2 ^ Z.of_nat (7 - i mod 8) mod 2.

(** The [n] bits of [key] from bit [i] on, as a number. *)
Fixpoint window (key : list Z) (n i : nat) : Z :=
  match n with
  | O => 0
  | S n' => 2 * window key n' i + bit_at key (i + n')
  end.

(** The definition of the Toeplitz hash: the exclusive or, over the set bits of
    the input, of the 32 key bits that start at the bit's position. *)
Definition toeplitz_spec (key data : list Z) : Z :=
  fold_left (fun acc j => if bit_at data j =? 1 then Z.lxor acc (window key 32 j) else acc)
    (seq 0 (8 * length data)) 0.

(** What the device contract guarantees of the two queries: at most the array
    is filled, and the table holds queue numbers. *)
Definition device_ok (dev : rss_device) : Prop :=
  let '(klen, key) := shim_rss_hash_key dev in
  let '(n, reta) := shim_rss_reta dev in
  len key = 64 /\ bytes_ok key /\ klen <= 64 /\
  len reta = 512 /\ Forall in_u16 reta /\ n <= 512.

(** The statics hold a usable configuration. *)
Definition rss_ok (st : rss_state) : Prop :=
  len (RSS_KEY st) = 64 /\ bytes_ok (RSS_KEY st) /\ len (RSS_RETA st) = 512 /\
  0 <= RSS_KEY_LEN st <= 64 /\
  (RSS_RETA_LEN st = 0 \/ exists k, 0 <= k <= 9 /\ RSS_RETA_LEN st = 2 ^ k).

(** The 12 bytes the device hashes for an inbound packet to [port]. *)
Definition flow_tuple (env : build_env) (our_ip : list Z) (port : Z) : list Z :=
  TARGET_IP env ++ our_ip ++ be16_bytes (TARGET_PORT env) ++ be16_bytes port.

(** Bit [i] of the bitmap. *)
Definition bitmap_bit (bitmap : list Z) (i : Z) : bool :=
  Z.testbit (nth (Z.to_nat (i / 8)) bitmap 0) (i mod 8).

(** ** The hash equals its definition *)

Lemma bit_at_range l i : 0 <= bit_at l i < 2.
Proof. apply Z.mod_pos_bound; lia. Qed.

Lemma window_S key n i : window key (S n) i = 2 * window key n i + bit_at key (i + n).
Proof. done. Qed.

Lemma window_range key n i : 0 <= window key n i < 2 ^ Z.of_nat n.
Proof.
  induction n as [|n IH]; cbn [window]; [done|].
  rewrite Nat2Z.inj_succ, Z.pow_succ_r by lia.
  pose proof (bit_at_range key (i + n)); lia.
Qed.

Lemma window_split key n i :
  window key (S n) i = bit_at key i * 2 ^ Z.of_nat n + window key n (S i).
Proof.
  induction n as [|n IH].
  - cbn [window]; rewrite Nat.add_0_r; change (2 ^ Z.of_nat 0) with 1; lia.
  - cbn [window] in IH |- *; rewrite IH.
    rewrite Nat2Z.inj_succ, Z.pow_succ_r by lia.
    replace (S i + n)%nat with (i + S n)%nat by lia; lia.
Qed.

Lemma window_app key n m i :
  window key (n + m) i = window key n i * 2 ^ Z.of_nat m + window key m (i + n).
Proof.
  induction m as [|m IH].
  - rewrite Nat.add_0_r; cbn [window]; change (2 ^ Z.of_nat 0) with 1; lia.
  - rewrite Nat.add_succ_r; cbn [window]; rewrite IH.
    rewrite Nat2Z.inj_succ, Z.pow_succ_r, Nat.add_assoc by lia; lia.
Qed.

(** Sliding the window by one bit, as the code does it. *)
Lemma window_slide key i :
  Z.lor (u32 (Z.shiftl (window key 32 i) 1)) (bit_at key (32 + i)) = window key 32 (S i).
Proof.
  rewrite (window_split key 31 i).
  rewrite (window_S key 31 (S i)).
  pose proof (window_range key 31 (S i)) as H; change (2 ^ Z.of_nat 31) with 2147483648 in *.
  pose proof (bit_at_range key i) as Hb.
  replace (u32 _) with (2 * window key 31 (S i)).
  2: { unfold u32; rewrite Z.shiftl_mul_pow2 by lia; change (2 ^ 1) with 2.
       apply (Z.mod_unique _ _ (bit_at key i)); lia. }
  replace (S i + 31)%nat with (32 + i)%nat by lia.
  symmetry; apply Z.add_nocarry_lor.
  destruct (Z.eq_dec (bit_at key (32 + i)) 0) as [->|Hne]; [apply Z.land_0_r|].
  pose proof (bit_at_range key (32 + i)).
  replace (bit_at key (32 + i)) with 1 by lia.
  rewrite land_1, Z.mul_comm; by apply Z.mod_mul.
Qed.

Lemma key_bit_read key i :
  (if 32 + Z.of_nat i <? len key * 8
   then let! k := index key ((32 + Z.of_nat i) / 8) in
        Ret (Z.land (Z.shiftr k (7 - (32 + Z.of_nat i) mod 8)) 1)
   else Ret 0) = Ret (bit_at key (32 + i)).
Proof.
  replace (32 + Z.of_nat i) with (Z.of_nat (32 + i)) by lia.
  set (j := (32 + i)%nat).
  assert (Hd : Z.of_nat j / 8 = Z.of_nat (j / 8)) by (rewrite Nat2Z.inj_div; done).
  assert (Hm : Z.of_nat j mod 8 = Z.of_nat (j mod 8)) by (rewrite Nat2Z.inj_mod; done).
  pose proof (Nat.mod_upper_bound j 8 ltac:(lia)).
  unfold bit_at; destruct (Z.ltb_spec (Z.of_nat j) (len key * 8)) as [Hlt|Hge].
  - destruct (index_is_ret key (Z.of_nat j / 8)) as [k Hk]; [unfold len in *; mlia|].
    rewrite Hk; cbn [obind]; f_equal.
    apply index_ret_iff in Hk as [_ Hk]; rewrite Hd, Nat2Z.id in Hk.
    rewrite (nth_lookup_Some key (j / 8) 0 k Hk).
    rewrite Hm, land_1, Z.shiftr_div_pow2 by lia.
    by replace (Z.of_nat (7 - j mod 8)) with (7 - Z.of_nat (j mod 8)) by lia.
  - rewrite nth_overflow; [done|].
    unfold len in Hge. apply Nat.div_le_lower_bound; lia.
Qed.

Definition toeplitz_xor (key data : list Z) (acc : Z) (j : nat) : Z :=
  if bit_at data j =? 1 then Z.lxor acc (window key 32 j) else acc.

Lemma toeplitz_bit_step key data byte m (t : nat) r :
  data !! m = Some byte -> (t < 8)%nat ->
  toeplitz_bit key byte (7 - Z.of_nat t)
    (r, window key 32 (8 * m + t), 32 + Z.of_nat (8 * m + t)) =
  Ret (toeplitz_xor key data r (8 * m + t),
       window key 32 (8 * m + S t), 32 + Z.of_nat (8 * m + S t)).
Proof.
  intros Hb Ht; unfold toeplitz_bit.
  rewrite key_bit_read; cbn [obind].
  rewrite window_slide, Nat.add_succ_r.
  replace (32 + Z.of_nat (8 * m + t) + 1) with (32 + Z.of_nat (S (8 * m + t))) by lia.
  unfold toeplitz_xor, bit_at.
  replace ((8 * m + t) / 8)%nat with m.
  2: { rewrite Nat.mul_comm, Nat.div_add_l, Nat.div_small by lia; lia. }
  replace ((8 * m + t) mod 8)%nat with t.
  2: { rewrite Nat.mul_comm, Nat.add_comm, Nat.Div0.mod_add, Nat.mod_small by lia; lia. }
  rewrite (nth_lookup_Some data m 0 byte Hb), land_1, Z.shiftr_div_pow2 by lia.
  by replace (7 - Z.of_nat t) with (Z.of_nat (7 - t)) by lia.
Qed.

Lemma toeplitz_byte_step key data byte m r :
  data !! m = Some byte ->
  toeplitz_byte key byte (r, window key 32 (8 * m), 32 + Z.of_nat (8 * m)) =
  Ret (fold_left (toeplitz_xor key data) (seq (8 * m) 8) r,
       window key 32 (8 * S m), 32 + Z.of_nat (8 * S m)).
Proof.
  intros Hb; unfold toeplitz_byte.
  pose proof (fun t r Ht => toeplitz_bit_step key data byte m t r Hb Ht) as Hstep.
  replace (8 * m)%nat with (8 * m + 0)%nat at 1 2 by lia.
  cbn [foldM].
  change 7 with (7 - Z.of_nat 0) at 1; rewrite (Hstep 0%nat) by lia; cbn [obind].
  change 6 with (7 - Z.of_nat 1) at 1; rewrite (Hstep 1%nat) by lia; cbn [obind].
  change 5 with (7 - Z.of_nat 2) at 1; rewrite (Hstep 2%nat) by lia; cbn [obind].
  change 4 with (7 - Z.of_nat 3) at 1; rewrite (Hstep 3%nat) by lia; cbn [obind].
  change 3 with (7 - Z.of_nat 4) at 1; rewrite (Hstep 4%nat) by lia; cbn [obind].
  change 2 with (7 - Z.of_nat 5) at 1; rewrite (Hstep 5%nat) by lia; cbn [obind].
  change 1 with (7 - Z.of_nat 6) at 1; rewrite (Hstep 6%nat) by lia; cbn [obind].
  change 0 with (7 - Z.of_nat 7) at 1; rewrite (Hstep 7%nat) by lia; cbn [obind].
  cbn [seq fold_left].
  replace (8 * S m)%nat with (8 * m + 8)%nat by lia.
  rewrite !Nat.add_succ_r, Nat.add_0_r; done.
Qed.

Lemma toeplitz_bytes key pre ds r :
  let data := pre ++ ds in
  foldM (toeplitz_byte key) ds
    (r, window key 32 (8 * length pre), 32 + Z.of_nat (8 * length pre)) =
  Ret (fold_left (toeplitz_xor key data) (seq (8 * length pre) (8 * length ds)) r,
       window key 32 (8 * length data), 32 + Z.of_nat (8 * length data)).
Proof.
  cbn zeta; revert pre r; induction ds as [|d ds IH]; intros pre r.
  { by rewrite app_nil_r. }
  cbn [foldM].
  rewrite (toeplitz_byte_step key (pre ++ d :: ds) d (length pre)) by (by apply list_lookup_middle).
  cbn [obind].
  specialize (IH (pre ++ [d])); rewrite length_app in IH; cbn [length] in IH.
  replace (length pre + 1)%nat with (S (length pre)) in IH by lia.
  rewrite IH, <-app_assoc; cbn [app length].
  f_equal; f_equal; f_equal.
  replace (8 * S (length ds))%nat with (8 + 8 * length ds)%nat by lia.
  rewrite seq_app, fold_left_app.
  by replace (8 * S (length pre))%nat with (8 * length pre + 8)%nat by lia.
Qed.

Lemma byte_bits b :
  in_u8 b ->
  b = ((((((((b / 128 mod 2) * 2 + b / 64 mod 2) * 2 + b / 32 mod 2) * 2 + b / 16 mod 2) * 2
         + b / 8 mod 2) * 2 + b / 4 mod 2) * 2 + b / 2 mod 2) * 2 + b / 1 mod 2).
Proof.
  intros Hb.
  assert (Hh : forall x, x = x / 2 * 2 + x mod 2) by (intros; mlia).
  assert (Hd : forall k k2, 0 < k -> k2 = k * 2 -> b / k2 = b / k / 2)
    by (intros k k2 Hk ->; by rewrite Z.div_div by lia).
  rewrite (Z.mod_small (b / 128)) by (unfold in_u8 in Hb; mlia).
  rewrite (Hd 64 128), <-Hh, (Hd 32 64), <-Hh, (Hd 16 32), <-Hh, (Hd 8 16), <-Hh by lia.
  by rewrite (Hd 4 8), <-Hh, (Hd 2 4), <-Hh, (Hd 1 2), Z.div_1_r, <-Hh by lia.
Qed.

Lemma window_byte key m b :
  key !! m = Some b -> in_u8 b -> window key 8 (8 * m) = b.
Proof.
  intros Hk Hb.
  assert (E : forall t, (t < 8)%nat -> bit_at key (8 * m + t) = b / 2 ^ Z.of_nat (7 - t) mod 2).
  { intros t Ht; unfold bit_at.
    replace ((8 * m + t) / 8)%nat with m.
    2: { rewrite Nat.mul_comm, Nat.div_add_l, Nat.div_small by lia; lia. }
    replace ((8 * m + t) mod 8)%nat with t.
    2: { rewrite Nat.mul_comm, Nat.add_comm, Nat.Div0.mod_add, Nat.mod_small by lia; lia. }
    by rewrite (nth_lookup_Some key m 0 b Hk). }
  cbn [window]; rewrite !E by lia.
  rewrite (byte_bits b Hb) at 9.
  repeat match goal with
  | |- context [2 ^ Z.of_nat ?k] =>
      let v := eval vm_compute in (2 ^ Z.of_nat k) in change (2 ^ Z.of_nat k) with v
  end.
  lia.
Qed.

Lemma window_be32 key k0 k1 k2 k3 :
  bytes_ok key -> index key 0 = Ret k0 -> index key 1 = Ret k1 ->
  index key 2 = Ret k2 -> index key 3 = Ret k3 ->
  be32 k0 k1 k2 k3 = window key 32 0.
Proof.
  intros Hok [_ H0]%index_ret_iff [_ H1]%index_ret_iff [_ H2]%index_ret_iff [_ H3]%index_ret_iff.
  assert (Hu : forall m k, key !! m = Some k -> window key 8 (8 * m) = k).
  { intros m k Hk; apply window_byte; [done|]. by eapply (Forall_lookup_1 in_u8). }
  change (window key 32 0) with (window key (8 + (8 + (8 + 8))) (8 * 0)).
  rewrite !window_app.
  change (8 * 0 + 8)%nat with (8 * 1)%nat; change (8 * 1 + 8)%nat with (8 * 2)%nat;
    change (8 * 2 + 8)%nat with (8 * 3)%nat.
  rewrite (Hu 0%nat _ H0), (Hu 1%nat _ H1), (Hu 2%nat _ H2), (Hu 3%nat _ H3).
  unfold be32; change (2 ^ Z.of_nat 8) with 256; change (2 ^ Z.of_nat (8 + 8)) with 65536;
    change (2 ^ Z.of_nat (8 + (8 + 8))) with 16777216; lia.
Qed.

Lemma toeplitz_ok (key data : list Z) :
  bytes_ok key ->
  toeplitz key data = Ret (if len key <? 4 then 0 else toeplitz_spec key data).
Proof.
  intros Hok; unfold toeplitz; destruct (Z.ltb_spec (len key) 4); [done|].
  destruct (index_is_ret key 0) as [k0 H0]; [lia|].
  destruct (index_is_ret key 1) as [k1 H1]; [lia|].
  destruct (index_is_ret key 2) as [k2 H2]; [lia|].
  destruct (index_is_ret key 3) as [k3 H3]; [lia|].
  rewrite H0, H1, H2, H3; cbn [obind].
  rewrite (window_be32 key) by done.
  pose proof (toeplitz_bytes key [] data 0) as HT; cbn zeta in HT.
  change (8 * length (@nil Z))%nat with 0%nat in HT; change (32 + Z.of_nat 0) with 32 in HT.
  by rewrite HT.
Qed.

(** C32: the sliding-window Toeplitz hash never panics and computes, for a key of
    at least four bytes, the exclusive or over the set bits of the input of the
    32-bit key window at the bit's position (zero beyond the key); a shorter
    key gives 0. *)
Theorem toeplitz_correct (key data : list Z) :
  bytes_ok key ->
  toeplitz key data = Ret (if len key <? 4 then 0 else toeplitz_spec key data).
Proof. apply toeplitz_ok. Qed.

(** The Microsoft RSS test vector for 66.9.149.187:2794 to 161.142.100.80:1766. *)
Definition rss_test_key : list Z :=
  [109; 90; 86; 218; 37; 91; 14; 194; 65; 103; 37; 61; 67; 163; 143; 176; 208; 202; 43; 203;
   174; 123; 48; 180; 119; 203; 45; 163; 128; 48; 242; 12; 106; 66; 183; 59; 190; 172; 1; 250].

Lemma toeplitz_correct_witness :
  toeplitz rss_test_key [66; 9; 149; 187; 161; 142; 100; 80; 10; 234; 6; 230]
  = Ret 1372373368.
Proof.
  rewrite (toeplitz_correct rss_test_key); [vm_compute; reflexivity|].
  unfold bytes_ok, in_u8; repeat (constructor; [lia|]); constructor.
Defined.

(** ** Steering *)

Lemma toeplitz_spec_range key data : 0 <= toeplitz_spec key data < M32.
Proof.
  change M32 with (2 ^ 32); unfold toeplitz_spec.
  assert (H : forall js acc, 0 <= acc < 2 ^ 32 ->
    0 <= fold_left (toeplitz_xor key data) js acc < 2 ^ 32).
  { induction js as [|j js IH]; intros acc Hacc; [done|].
    cbn [fold_left]; apply IH; unfold toeplitz_xor; destruct (_ =? _); [|done].
    apply lxor_bound; [lia|done|]. exact (window_range key 32 j). }
  by apply H.
Qed.

(** The number [predict_queue] reads from the table. *)
Definition table_index (st : rss_state) (tuple : list Z) : Z :=
  (if RSS_KEY_LEN st <? 4 then 0
   else toeplitz_spec (ztake (RSS_KEY_LEN st) (RSS_KEY st)) tuple) mod RSS_RETA_LEN st.

Lemma predict_queue_spec st tuple :
  rss_ok st -> SINGLE_QUEUE st = false -> RSS_KEY_LEN st <> 0 -> RSS_RETA_LEN st <> 0 ->
  exists q, predict_queue st tuple = Ret q /\
    RSS_RETA st !! Z.to_nat (table_index st tuple) = Some q /\
    0 <= table_index st tuple < RSS_RETA_LEN st.
Proof.
  intros (Hk & Hkb & Hr & Hkl & Hrl) Hs Hk0 Hr0.
  destruct Hrl as [|(k & Hkr & Hrl)]; [done|].
  unfold predict_queue; rewrite Hs.
  rewrite (proj2 (Z.eqb_neq _ _) Hk0), (proj2 (Z.eqb_neq _ _) Hr0); cbn [orb].
  rewrite slice_ret by lia; cbn [obind].
  rewrite Z.sub_0_r; change (zdrop 0 ?l) with l.
  rewrite toeplitz_ok by (by apply Forall_take); cbn [obind].
  rewrite len_ztake, Z.min_l, Z.max_r by lia.
  set (h := if RSS_KEY_LEN st <? 4 then 0 else _).
  assert (Hh : Z.land h (RSS_RETA_LEN st - 1) = table_index st tuple).
  { unfold table_index; fold h; rewrite Hrl.
    replace (2 ^ k - 1) with (Z.ones k) by (rewrite Z.ones_equiv; lia).
    by rewrite Z.land_ones by lia. }
  assert (Hpow : 0 < RSS_RETA_LEN st <= 512).
  { rewrite Hrl; split; [lia|]. change 512 with (2 ^ 9); apply Z.pow_le_mono_r; lia. }
  assert (Hi : 0 <= table_index st tuple < RSS_RETA_LEN st) by (apply Z.mod_pos_bound; lia).
  rewrite Hh. destruct (index_is_ret (RSS_RETA st) (table_index st tuple)) as [q Hq]; [lia|].
  exists q; split_and!; [done| |lia|lia]. by apply index_ret_iff in Hq as [_ ?].
Qed.

Lemma predict_queue_total st tuple : rss_ok st -> is_ret (predict_queue st tuple).
Proof.
  intros Hok; destruct (SINGLE_QUEUE st) eqn:Hs.
  { unfold predict_queue; rewrite Hs; by eexists. }
  destruct (Z.eqb_spec (RSS_KEY_LEN st) 0) as [E|].
  { unfold predict_queue; rewrite Hs, E; by eexists. }
  destruct (Z.eqb_spec (RSS_RETA_LEN st) 0) as [E|].
  { unfold predict_queue; rewrite Hs, E, orb_true_r; by eexists. }
  destruct (predict_queue_spec st tuple) as (q & ? & _); try done. by exists q.
Qed.

Lemma land_pow2_pred_pow n :
  0 < n -> Z.land n (n - 1) = 0 -> exists k, 0 <= k /\ n = 2 ^ k.
Proof.
  intros Hn Hl; exists (Z.log2 n); split; [apply Z.log2_nonneg|].
  pose proof (Z.log2_spec n Hn) as [Hlo Hhi].
  destruct (Z.eq_dec n (2 ^ Z.log2 n)) as [|Hne]; [done|exfalso].
  assert (Hb : Z.testbit (Z.land n (n - 1)) (Z.log2 n) = true).
  { rewrite Z.land_spec, Z.bit_log2 by lia; cbn.
    replace (Z.log2 n) with (Z.log2 (n - 1)); [apply Z.bit_log2; pose proof (Z.log2_nonneg n); lia|].
    apply Z.log2_unique; [apply Z.log2_nonneg|lia]. }
  by rewrite Hl, Z.bits_0 in Hb.
Qed.

Ltac solve_rss_ok := unfold rss_ok; cbn [RSS_KEY RSS_KEY_LEN RSS_RETA RSS_RETA_LEN rss_init];
  split_and!; auto; try lia; try done.

(** C33: loading the RSS configuration never panics on a device that respects the
    query contract.  With one queue every flow is predicted on queue 0.  With
    several, success means the table length is a power of two and from then on
    [predict_queue] returns the entry of the device's own table at the Toeplitz
    hash of the tuple (under the device's own key) modulo the table length. *)
Theorem load_rss_config_correct (dev : rss_device) (n_queues : Z) :
  device_ok dev ->
  exists b st, load_rss_config dev n_queues rss_init = Ret (b, st) /\ rss_ok st /\
    (n_queues = 1 -> b = true /\ forall t, predict_queue st t = Ret 0) /\
    (n_queues <> 1 -> b = true ->
       let '(klen, key) := shim_rss_hash_key dev in
       let '(n, reta) := shim_rss_reta dev in
       (exists k, 0 <= k /\ n = 2 ^ k) /\
       forall t, exists q, predict_queue st t = Ret q /\
         reta !! Z.to_nat ((if klen <? 4 then 0 else toeplitz_spec (ztake klen key) t) mod n)
         = Some q).
Proof.
  unfold device_ok, load_rss_config.
  destruct (shim_rss_hash_key dev) as [klen key], (shim_rss_reta dev) as [n reta].
  intros (Hk & Hkb & Hkl & Hr & Hrb & Hrl).
  assert (Hz : bytes_ok (zreplicate 64 0)).
  { unfold bytes_ok, zreplicate; apply Forall_replicate; unfold in_u8; lia. }
  destruct (Z.eqb_spec n_queues 1) as [Hn|Hn].
  { eexists true, _; split; [done|]; split_and!; [solve_rss_ok|done|done]. }
  destruct (Z.leb_spec klen 0).
  { eexists false, _; split; [done|]; split_and!; [solve_rss_ok|done|done]. }
  rewrite slice_ret by lia; cbn [obind]. rewrite Z.sub_0_r; change (zdrop 0 key) with key.
  rewrite copy_from_slice_ret by (cbn; llia); cbn [obind RSS_RETA RSS_RETA_LEN SINGLE_QUEUE RSS_KEY RSS_KEY_LEN].
  set (k' := write_at _ _ _).
  assert (Hk' : len k' = 64 /\ bytes_ok k' /\ ztake klen k' = ztake klen key).
  { subst k'; split_and!.
    - rewrite len_write_at; cbn; llia.
    - apply Forall_write_at; [done|by apply Forall_ztake].
    - rewrite write_at_0, ztake_app_le, ztake_ztake, Z.min_id; [done|llia]. }
  destruct Hk' as (Hk'1 & Hk'2 & Hk'3).
  destruct (Z.leb_spec n 0).
  { eexists false, _; split; [done|]; split_and!; [solve_rss_ok|done|done]. }
  destruct (Z.eqb_spec (Z.land n (n - 1)) 0) as [Hpow|]; cbn [negb].
  2: { eexists false, _; split; [done|]; split_and!; [solve_rss_ok|done|done]. }
  rewrite slice_ret by lia; cbn [obind]. rewrite Z.sub_0_r; change (zdrop 0 reta) with reta.
  rewrite copy_from_slice_ret by (cbn; llia); cbn [obind].
  destruct (land_pow2_pred_pow n) as (k & Hk0 & Hnk); [lia|done|].
  set (st := Build_rss_state _ _ _ _ _).
  assert (Hok : rss_ok st).
  { unfold rss_ok; cbn [RSS_KEY RSS_KEY_LEN RSS_RETA RSS_RETA_LEN st];
      split_and!; [done|done| |lia|lia|].
    - rewrite len_write_at; cbn; llia.
    - right; exists k; split; [|done].
      split; [done|]. apply (Z.pow_le_mono_r_iff 2); lia. }
  exists true, st; split_and!; try done; cbn [SINGLE_QUEUE].
  intros _ _; split; [eauto|]; intros t.
  destruct (predict_queue_spec st t) as (q & Hq & Hl & Hi); [done|done|cbn|cbn|]; [lia..|].
  exists q; split; [done|]. unfold table_index in Hl, Hi; cbn [RSS_KEY_LEN RSS_KEY RSS_RETA RSS_RETA_LEN st] in Hl, Hi.
  rewrite Hk'3 in Hl, Hi. rewrite <-Hl, write_at_0; clear Hl.
  set (ix := _ mod n) in *; clearbody ix.
  rewrite lookup_app_l; [unfold ztake; rewrite lookup_take_lt; [done|lia]|].
  unfold ztake; rewrite length_take; unfold len in *; lia.
Qed.

Definition example_device : rss_device := {|
  shim_rss_hash_key := (40, rss_test_key ++ zreplicate 24 0);
  shim_rss_reta := (128, mjoin (replicate 64 [0; 1]) ++ zreplicate 384 0) |}.

Lemma forall_in_u16_b l : forallb (fun z => (0 <=? z) && (z <? 65536)) l = true -> Forall in_u16 l.
Proof.
  intros H; apply Forall_forall; intros x Hx; rewrite forallb_forall in H.
  specialize (H x Hx); unfold in_u16; lia.
Qed.

Lemma forall_in_u8_b l : forallb (fun z => (0 <=? z) && (z <? 256)) l = true -> bytes_ok l.
Proof.
  intros H; apply Forall_forall; intros x Hx; rewrite forallb_forall in H.
  specialize (H x Hx); unfold in_u8; lia.
Qed.

Lemma example_device_ok : device_ok example_device.
Proof.
  split_and!; [reflexivity|apply forall_in_u8_b; vm_compute; reflexivity|cbn; lia|reflexivity| |cbn; lia].
  apply forall_in_u16_b; vm_compute; reflexivity.
Qed.

Lemma load_rss_config_correct_witness :
  device_ok example_device /\
  exists b st, load_rss_config example_device 2 rss_init = Ret (b, st) /\ rss_ok st.
Proof.
  split; [exact example_device_ok|].
  destruct (load_rss_config_correct example_device 2 example_device_ok) as (b & st & ? & ? & _); eauto.
Defined.

(** ** Owned ports *)

Section Owned.
Context (env : build_env) (st : rss_state) (our_ip : list Z).
Context (Hst : rss_ok st) (Hip : len our_ip = 4) (Htarget : len (TARGET_IP env) = 4).

Lemma queue_for_local_port_predict port :
  queue_for_local_port env st our_ip port = predict_queue st (flow_tuple env our_ip port).
Proof using Hip Htarget.
  unfold queue_for_local_port.
  destruct (TARGET_IP env) as [|t0 [|t1 [|t2 [|t3 [|]]]]] eqn:ET; autorewrite with len in Htarget;
    try (exfalso; llia).
  destruct our_ip as [|a0 [|a1 [|a2 [|a3 [|]]]]] eqn:EO; autorewrite with len in Hip;
    try (exfalso; llia).
  unfold flow_tuple; rewrite ET; reflexivity.
Qed.

Lemma queue_for_local_port_total port :
  exists q, queue_for_local_port env st our_ip port = Ret q.
Proof using Hst Hip Htarget.
  rewrite queue_for_local_port_predict; by apply predict_queue_total.
Qed.

Definition steers_to (q port : Z) : Prop := queue_for_local_port env st our_ip port = Ret q.

#[local] Instance steers_to_dec q port : Decision (steers_to q port).
Proof. unfold steers_to; apply _. Defined.

(** What the loop has done when it reaches port number [i] of the range. *)
Definition owned_inv (q i : Z) (s : list Z * Z) : Prop :=
  len (fst s) = OWNED_BITMAP_BYTES /\
  (forall j, 0 <= j < EPH_LEN ->
     bitmap_bit (fst s) j = (j <? i) && bool_decide (steers_to q (EPH_BASE + j))) /\
  snd s = len (filter (steers_to q) (seqZ EPH_BASE i)) /\ snd s <= i.

Lemma bitmap_bit_set bitmap i j :
  0 <= i -> 0 <= j -> i / 8 < len bitmap ->
  bitmap_bit (<[Z.to_nat (i / 8) :=
    Z.lor (nth (Z.to_nat (i / 8)) bitmap 0) (Z.shiftl 1 (i mod 8))]> bitmap) j =
  bitmap_bit bitmap j || (j =? i).
Proof.
  intros Hi Hj Hlen; unfold bitmap_bit.
  pose proof (Z.mod_pos_bound i 8); pose proof (Z.mod_pos_bound j 8).
  assert (0 <= i / 8) by mlia; assert (0 <= j / 8) by mlia.
  destruct (Z.eq_dec (j / 8) (i / 8)) as [E|Hne].
  - rewrite E, (nth_lookup_Some _ _ 0 (Z.lor (nth (Z.to_nat (i / 8)) bitmap 0) (Z.shiftl 1 (i mod 8)))).
    2: { apply list_lookup_insert_eq; unfold len in Hlen; lia. }
    rewrite testbit_set_bit by lia; f_equal.
    destruct (Z.eqb_spec (j mod 8) (i mod 8)), (Z.eqb_spec j i); try done; subst; mlia.
  - replace (j =? i) with false by (symmetry; apply Z.eqb_neq; intros ->; done).
    rewrite orb_false_r; f_equal.
    rewrite !nth_lookup, list_lookup_insert_ne; [done|].
    intros E; apply Hne; apply Z2Nat.inj; [done|done|congruence].
Qed.

Lemma build_owned_step_ok q i s :
  0 <= i < EPH_LEN -> owned_inv q i s ->
  exists s', build_owned_step env st our_ip q i s = Ret s' /\ owned_inv q (i + 1) s'.
Proof using Hst Hip Htarget.
  destruct s as [bitmap count]; unfold EPH_LEN; intros Hi (Hlen & Hbits & Hcount & Hle); cbn [fst snd] in *.
  assert (0 <= count) by (rewrite Hcount; apply len_nonneg).
  unfold build_owned_step; rewrite u16_small by lia.
  destruct (queue_for_local_port_total (EPH_BASE + i)) as [p Hp]; rewrite Hp; cbn [obind].
  assert (Hseq : seqZ EPH_BASE (i + 1) = seqZ EPH_BASE i ++ [EPH_BASE + i]).
  { rewrite seqZ_app by lia; f_equal. }
  assert (Hsteer : bool_decide (steers_to q (EPH_BASE + i)) = (p =? q)).
  { destruct (Z.eqb_spec p q) as [->|Hne].
    - by apply bool_decide_eq_true.
    - apply bool_decide_eq_false; unfold steers_to; congruence. }
  assert (Hlt : forall j, 0 <= j < EPH_LEN -> (j <? i + 1) = (j <? i) || (j =? i)) by (intros; lia).
  destruct (Z.eqb_spec p q) as [->|Hne].
  - destruct (index_is_ret bitmap (i / 8)) as [b Hb].
    { rewrite Hlen; unfold OWNED_BITMAP_BYTES, EPH_LEN; mlia. }
    rewrite Hb; cbn [obind]. apply index_ret_iff in Hb as [_ Hb].
    rewrite store_ret by (rewrite Hlen; unfold OWNED_BITMAP_BYTES, EPH_LEN; mlia); cbn [obind].
    eexists; split; [done|]; unfold owned_inv; cbn [fst snd]; split_and!.
    + by rewrite len_insert.
    + intros j Hj. rewrite <-(nth_lookup_Some bitmap _ 0 b Hb).
      rewrite bitmap_bit_set by (try lia; rewrite Hlen; unfold OWNED_BITMAP_BYTES, EPH_LEN; mlia).
      rewrite Hbits, Hlt by done.
      destruct (Z.eqb_spec j i) as [->|]; [by rewrite Hsteer, !orb_true_r|by rewrite !orb_false_r].
    + rewrite Hseq, list.filter_app, len_app, filter_cons_True by done.
      rewrite u32_small by lia. rewrite Hcount; reflexivity.
    + rewrite u32_small by lia; lia.
  - eexists; split; [done|]; unfold owned_inv; cbn [fst snd]; split_and!; [done| | |lia].
    + intros j Hj; rewrite Hbits, Hlt by done.
      destruct (Z.eqb_spec j i) as [->|]; [by rewrite Hsteer, !andb_false_r|by rewrite orb_false_r].
    + rewrite Hseq, list.filter_app, len_app, filter_cons_False; [cbn; llia|].
      unfold steers_to; congruence.
Qed.

Lemma build_owned_ports_inv q :
  exists bitmap count,
    build_owned_ports env st our_ip q (zreplicate OWNED_BITMAP_BYTES 0) = Ret (bitmap, count) /\
    owned_inv q EPH_LEN (bitmap, count).
Proof using Hst Hip Htarget.
  destruct (for_range_inv (owned_inv q) (build_owned_step env st our_ip q) (Z.to_nat EPH_LEN) 0
    (zreplicate OWNED_BITMAP_BYTES 0, 0)) as ([bitmap count] & Hr & Hinv).
  - split_and!; cbn [fst snd]; [done| |done|lia].
    intros j Hj; rewrite (proj2 (Z.ltb_ge j 0)) by lia; cbn [andb].
    unfold bitmap_bit, zreplicate.
    assert (E : nth (Z.to_nat (j / 8)) (replicate (Z.to_nat OWNED_BITMAP_BYTES) 0) 0 = 0).
    { rewrite nth_lookup. destruct (_ !! _) as [x|] eqn:E; [|done]; cbn.
      by apply lookup_replicate in E as [-> _]. }
    by rewrite E, Z.bits_0.
  - intros i s Hi Hs; apply build_owned_step_ok; [|done].
    rewrite Z2Nat.id in Hi by (unfold EPH_LEN; lia). lia.
  - exists bitmap, count; split; [done|].
    by rewrite Z2Nat.id in Hinv by (unfold EPH_LEN; lia).
Qed.

Lemma owns_port_bit bitmap port :
  len bitmap = OWNED_BITMAP_BYTES -> EPH_BASE <= port < EPH_BASE + EPH_LEN ->
  owns_port bitmap port = Ret (bitmap_bit bitmap (port - EPH_BASE)).
Proof.
  unfold OWNED_BITMAP_BYTES, EPH_BASE, EPH_LEN; intros Hlen Hp; unfold owns_port, EPH_BASE.
  destruct (Z.ltb_spec port 49152); [lia|].
  destruct (index_is_ret bitmap ((port - 49152) / 8)) as [b Hb].
  { rewrite Hlen; mlia. }
  rewrite Hb; cbn [obind]. apply index_ret_iff in Hb as [_ Hb].
  rewrite land_bit by (apply Z.mod_pos_bound; lia).
  unfold bitmap_bit; by rewrite (nth_lookup_Some _ _ 0 b Hb).
Qed.

End Owned.

(** A worker's bitmap is exact.  With a loaded configuration, building it
    from zeroes never panics; it answers [owns_port] for an ephemeral port with
    yes exactly when the return flow of that port is predicted on the worker's
    queue, and the count returned is the number of such ports. *)
Theorem build_owned_ports_exact (env : build_env) (st : rss_state) (our_ip : list Z) (q : Z) :
  rss_ok st -> len our_ip = 4 -> len (TARGET_IP env) = 4 ->
  exists bitmap count,
    build_owned_ports env st our_ip q (zreplicate OWNED_BITMAP_BYTES 0) = Ret (bitmap, count) /\
    (forall port, EPH_BASE <= port < EPH_BASE + EPH_LEN ->
       exists p, predict_queue st (flow_tuple env our_ip port) = Ret p /\
         owns_port bitmap port = Ret (p =? q)) /\
    count = len (filter (fun port => queue_for_local_port env st our_ip port = Ret q)
                        (seqZ EPH_BASE EPH_LEN)).
Proof.
  intros Hst Hip Ht.
  destruct (build_owned_ports_inv env st our_ip Hst Hip Ht q) as (bitmap & count & Hb & Hlen & Hbits & Hc & _).
  cbn [fst snd] in *.
  exists bitmap, count; split_and!; [done| |].
  - intros port Hp.
    destruct (queue_for_local_port_total env st our_ip Hst Hip Ht port) as [p Hq].
    exists p; split; [by rewrite <-queue_for_local_port_predict|].
    rewrite owns_port_bit by done; f_equal.
    rewrite Hbits by lia.
    rewrite (proj2 (Z.ltb_lt _ _)) by lia; cbn [andb].
    replace (EPH_BASE + (port - EPH_BASE)) with port by lia.
    destruct (Z.eqb_spec p q) as [->|].
    + by apply bool_decide_eq_true.
    + apply bool_decide_eq_false; unfold steers_to; congruence.
  - rewrite Hc; f_equal; apply list_filter_iff; done.
Qed.

(** C34: workers partition the ephemeral ports.  When two workers with different
    queues build their bitmaps from the same configuration, no ephemeral port
    is owned by both, so no inbound packet for such a port is accepted twice. *)
Theorem owned_ports_disjoint (env : build_env) (st : rss_state) (our_ip : list Z)
    (q1 q2 : Z) (b1 b2 : list Z) (c1 c2 port : Z) :
  rss_ok st -> len our_ip = 4 -> len (TARGET_IP env) = 4 -> q1 <> q2 ->
  build_owned_ports env st our_ip q1 (zreplicate OWNED_BITMAP_BYTES 0) = Ret (b1, c1) ->
  build_owned_ports env st our_ip q2 (zreplicate OWNED_BITMAP_BYTES 0) = Ret (b2, c2) ->
  EPH_BASE <= port < EPH_BASE + EPH_LEN ->
  ~ (owns_port b1 port = Ret true /\ owns_port b2 port = Ret true).
Proof.
  intros Hst Hip Ht Hne H1 H2 Hp [O1 O2].
  destruct (build_owned_ports_inv env st our_ip Hst Hip Ht q1) as (? & ? & E1 & Hl1 & Hb1 & _).
  destruct (build_owned_ports_inv env st our_ip Hst Hip Ht q2) as (? & ? & E2 & Hl2 & Hb2 & _).
  rewrite H1 in E1; rewrite H2 in E2; injection E1 as <- <-; injection E2 as <- <-; cbn [fst] in *.
  rewrite owns_port_bit in O1, O2 by done; injection O1 as O1; injection O2 as O2.
  rewrite Hb1 in O1 by lia; rewrite Hb2 in O2 by lia.
  apply andb_prop in O1 as [_ O1%bool_decide_eq_true]; apply andb_prop in O2 as [_ O2%bool_decide_eq_true].
  unfold steers_to in *; congruence.
Qed.

Definition example_rss : rss_state :=
  {| RSS_KEY := rss_test_key ++ zreplicate 24 0; RSS_KEY_LEN := 40;
     RSS_RETA := mjoin (replicate 64 [0; 1]) ++ zreplicate 384 0; RSS_RETA_LEN := 128;
     SINGLE_QUEUE := false |}.

Lemma example_rss_ok : rss_ok example_rss.
Proof.
  split_and!; [reflexivity|apply forall_in_u8_b; vm_compute; reflexivity|reflexivity|cbn; lia|cbn; lia|].
  right; exists 7; cbn; lia.
Qed.

Lemma build_owned_ports_exact_witness :
  rss_ok example_rss /\
  exists bitmap count p,
    build_owned_ports example_env example_rss [10; 0; 0; 5] 1 (zreplicate OWNED_BITMAP_BYTES 0)
      = Ret (bitmap, count) /\
    predict_queue example_rss (flow_tuple example_env [10; 0; 0; 5] 50000) = Ret p /\
    owns_port bitmap 50000 = Ret (p =? 1).
Proof.
  split; [exact example_rss_ok|].
  destruct (build_owned_ports_exact example_env example_rss [10; 0; 0; 5] 1
    example_rss_ok eq_refl eq_refl) as (b & c & Hb & Hp & _).
  destruct (Hp 50000) as (p & ? & ?); [unfold EPH_BASE, EPH_LEN; lia|].
  exists b, c, p; auto.
Defined.

Lemma owned_ports_disjoint_witness :
  exists b1 c1 b2 c2,
    build_owned_ports example_env example_rss [10; 0; 0; 5] 0 (zreplicate OWNED_BITMAP_BYTES 0)
      = Ret (b1, c1) /\
    build_owned_ports example_env example_rss [10; 0; 0; 5] 1 (zreplicate OWNED_BITMAP_BYTES 0)
      = Ret (b2, c2) /\
    ~ (owns_port b1 50000 = Ret true /\ owns_port b2 50000 = Ret true).
Proof.
  destruct (build_owned_ports_inv example_env example_rss [10; 0; 0; 5]
    example_rss_ok eq_refl eq_refl 0) as (b1 & c1 & H1 & _).
  destruct (build_owned_ports_inv example_env example_rss [10; 0; 0; 5]
    example_rss_ok eq_refl eq_refl 1) as (b2 & c2 & H2 & _).
  exists b1, c1, b2, c2; split; [exact H1|split; [exact H2|]].
  apply (owned_ports_disjoint example_env example_rss [10; 0; 0; 5] 0 1 b1 b2 c1 c2 50000
    example_rss_ok eq_refl eq_refl ltac:(lia) H1 H2).
  unfold EPH_BASE, EPH_LEN; lia.
Defined.
