(* ===== verification/Device.v ===== *)
(** The network device of the benchmark (src/bench/smoltcp-s3/src/lib.rs,
    [DpdkDevice] and its tokens): the receive prefetch buffer, the port filter
    that discards frames steered to the wrong queue, and the transmit token. *)

From Stdlib Require Import ZArith Lia.
From stdpp Require Import base list numbers.
From S2P Require Import Prelude AppConfig Rss.

(** ** The driver

    A packet buffer of the driver: its handle, its data area, the length the
    NIC recorded and whether the NIC flagged a bad checksum. *)
Record mbuf : Type := {
  mb_handle : Z;
  mb_data : list Z;
  mb_len : Z;
  mb_bad : bool;
}.

(** One answer of [rte_pktmbuf_alloc] through the shim: the three out
    parameters, a null pointer being [None]. *)
Record tx_alloc : Type := {
  al_data : option (list Z);
  al_handle : option Z;
  al_cap : Z;
}.

(** What the driver will answer ([nic_rx], [nic_allocs], [nic_tx]: consumed
    from the front, an exhausted list answering "nothing received", "pool
    exhausted" and "ring full"), and what happened so far: the handles freed,
    the frames handed to the transmit ring, and the counters of the program. *)
(* [lib.rs 446-454 MISROUTED_DROPS, TX_ALLOC_FAIL, TX_BURST_FAIL] *)
Record nic : Type := {
  nic_rx : list (list mbuf);
  nic_allocs : list tx_alloc;
  nic_tx : list Z;
  freed : list Z;
  sent : list (Z * list Z);
  MISROUTED_DROPS : Z;
  TX_ALLOC_FAIL : Z;
  TX_BURST_FAIL : Z;
}.

Definition set_rx (w : nic) (rx : list (list mbuf)) (fr : list Z) : nic :=
  {| nic_rx := rx; nic_allocs := nic_allocs w; nic_tx := nic_tx w; freed := fr;
     sent := sent w; MISROUTED_DROPS := MISROUTED_DROPS w;
     TX_ALLOC_FAIL := TX_ALLOC_FAIL w; TX_BURST_FAIL := TX_BURST_FAIL w |}.

(* [shim.cc 206-208 shim_mbuf_free] *)
Definition shim_mbuf_free (w : nic) (handle : Z) : nic :=
  set_rx w (nic_rx w) (freed w ++ [handle]).

Definition misrouted (w : nic) : nic :=
  {| nic_rx := nic_rx w; nic_allocs := nic_allocs w; nic_tx := nic_tx w; freed := freed w;
     sent := sent w; MISROUTED_DROPS := u64 (MISROUTED_DROPS w + 1);
     TX_ALLOC_FAIL := TX_ALLOC_FAIL w; TX_BURST_FAIL := TX_BURST_FAIL w |}.

(* [lib.rs 613-613 MTU] *)
Definition MTU : Z := 1514.
(* [lib.rs 636-636 RX_BURST] *)
Definition RX_BURST : Z := 32.

(** [pool] and [queue_id] only go to the driver, so the model leaves them out. *)
(* [lib.rs 616-634 DpdkDevice] *)
Record dpdk_device : Type := {
  pending_synth : option (list Z);
  owned_ports : option (list Z);
  rx_pref_handles : list Z;
  rx_pref_data : list (list Z);
  rx_pref_lens : list Z;
  rx_pref_pos : Z;
  rx_pref_len : Z;
}.

(* [lib.rs 638-641 DpdkRxToken] *)
Inductive rx_token : Type :=
| Mbuf (handle : Z) (data : list Z) (n : Z)
| Synth (buf : list Z).

(** [core::slice::from_raw_parts(data, len)]: reading past the data area is
    undefined behaviour, a [Panic] here. *)
Definition from_raw_parts (data : list Z) (n : Z) : outcome (list Z) := slice data 0 n.

(** The batched receive of the shim: frames with a bad checksum are freed, the
    others fill the arrays from their start. *)
(* [shim.cc 324-349 shim_mbuf_rx_burst_n] *)
Definition shim_mbuf_rx_burst_n (handles : list Z) (data : list (list Z)) (lens : list Z) (w : nic)
  : Z * list Z * list (list Z) * list Z * nic :=
  match nic_rx w with
  | [] => (0, handles, data, lens, w)
  | burst :: rest =>
      let good := filter (fun m => mb_bad m = false) burst in
      let bad := filter (fun m => mb_bad m = true) burst in
      (len good, write_at handles 0 (map mb_handle good), write_at data 0 (map mb_data good),
       write_at lens 0 (map mb_len good), set_rx w rest (freed w ++ map mb_handle bad))
  end.

(** The filter on one frame: [(ok, misrouted counter incremented)]. *)
(* [lib.rs 725-749 receive] the [ok] of the loop body. *)
Definition rx_filter (owned : option (list Z)) (data : list Z) (n : Z) (w : nic)
  : outcome (bool * nic) :=
  if n <? 54 then Ret (true, w)
  else
    let! bytes := from_raw_parts data n in
    let! b12 := index bytes 12 in
    let! b13 := index bytes 13 in
    if negb ((b12 =? 8) && (b13 =? 0)) then Ret (true, w)
    else
      let! b14 := index bytes 14 in
      let ihl := Z.land b14 15 * 4 in
      let! proto := index bytes 23 in
      let l4 := 14 + ihl in
      if negb (proto =? 6) || (n <? l4 + 4) then Ret (true, w)
      else
        let! hi := index bytes (l4 + 2) in
        let! lo := index bytes (l4 + 3) in
        let dst_port := Z.lor (u16 (Z.shiftl hi 8)) lo in
        let! owned := match owned with
                      | None => Ret true
                      | Some bm => owns_port bm dst_port
                      end in
        Ret (owned, if owned then w else misrouted w).

(** The loop of [receive]; [None] is fuel exhausted. *)
(* [lib.rs 698-757 receive] the loop. *)
Fixpoint receive_loop (fuel : nat) (d : dpdk_device) (w : nic)
  : option (outcome (option rx_token * dpdk_device * nic)) :=
  match fuel with
  | O => None
  | S fuel' =>
      let '(got, d, w) :=
        if rx_pref_pos d =? rx_pref_len d then
          let '(got, hs, ds, ls, w) :=
            shim_mbuf_rx_burst_n (rx_pref_handles d) (rx_pref_data d) (rx_pref_lens d) w in
          let d := {| pending_synth := pending_synth d; owned_ports := owned_ports d;
                      rx_pref_handles := hs; rx_pref_data := ds; rx_pref_lens := ls;
                      rx_pref_pos := rx_pref_pos d; rx_pref_len := rx_pref_len d |} in
          if got =? 0 then (false, d, w)
          else (true, {| pending_synth := pending_synth d; owned_ports := owned_ports d;
                         rx_pref_handles := hs; rx_pref_data := ds; rx_pref_lens := ls;
                         rx_pref_pos := 0; rx_pref_len := got |}, w)
        else (true, d, w) in
      if negb got then Some (Ret (None, d, w))
      else
        let i := rx_pref_pos d in
        let d := {| pending_synth := pending_synth d; owned_ports := owned_ports d;
                    rx_pref_handles := rx_pref_handles d; rx_pref_data := rx_pref_data d;
                    rx_pref_lens := rx_pref_lens d;
                    rx_pref_pos := u16 (i + 1); rx_pref_len := rx_pref_len d |} in
        match (let! handle := index (rx_pref_handles d) i in
               let! data := index (rx_pref_data d) i in
               let! n := index (rx_pref_lens d) i in
               let! (ok, w) := rx_filter (owned_ports d) data n w in
               Ret (handle, data, n, ok, w)) with
        | Panic => Some Panic
        | Ret (handle, data, n, ok, w) =>
            if ok then Some (Ret (Some (Mbuf handle data n), d, w))
            else receive_loop fuel' d (shim_mbuf_free w handle)
        end
  end.

(* [lib.rs 698-757 receive] *)
Definition receive (fuel : nat) (d : dpdk_device) (w : nic)
  : option (outcome (option rx_token * dpdk_device * nic)) :=
  match pending_synth d with
  | Some buf =>
      Some (Ret (Some (Synth buf),
        {| pending_synth := None; owned_ports := owned_ports d;
           rx_pref_handles := rx_pref_handles d; rx_pref_data := rx_pref_data d;
           rx_pref_lens := rx_pref_lens d; rx_pref_pos := rx_pref_pos d;
           rx_pref_len := rx_pref_len d |}, w))
  | None => receive_loop fuel d w
  end.

(** The token's consumer [f] reads the frame. *)
(* [lib.rs 647-659 RxToken::consume] *)
Definition rx_consume {R} (f : list Z -> R) (t : rx_token) (w : nic) : outcome (R * nic) :=
  match t with
  | Mbuf handle data n =>
      let! bytes := from_raw_parts data n in
      Ret (f bytes, shim_mbuf_free w handle)
  | Synth buf => Ret (f buf, w)
  end.

(* [lib.rs 662-668 DpdkRxToken::drop] *)
Definition rx_drop (t : rx_token) (w : nic) : nic :=
  match t with
  | Mbuf handle _ _ => shim_mbuf_free w handle
  | Synth _ => w
  end.

(* [shim.cc 177-189 shim_mbuf_alloc_tx] *)
Definition shim_mbuf_alloc_tx (w : nic) : tx_alloc * nic :=
  match nic_allocs w with
  | [] => ({| al_data := None; al_handle := None; al_cap := 0 |}, w)
  | a :: rest =>
      (a, {| nic_rx := nic_rx w; nic_allocs := rest; nic_tx := nic_tx w; freed := freed w;
             sent := sent w; MISROUTED_DROPS := MISROUTED_DROPS w;
             TX_ALLOC_FAIL := TX_ALLOC_FAIL w; TX_BURST_FAIL := TX_BURST_FAIL w |})
  end.

(** The contract of [shim_mbuf_tx] (shim.hh): 0 when the ring took the buffer,
    -1 when it was full and the buffer has been freed.  [sent] records the frame
    as the caller wrote it, before the shim blanks the checksum fields. *)
Definition shim_mbuf_tx (w : nic) (handle : Z) (data : list Z) (n : Z) : Z * nic :=
  let '(rc, rest) := match nic_tx w with [] => (0, []) | r :: rest => (r, rest) end in
  if rc =? 0 then
    (-1, {| nic_rx := nic_rx w; nic_allocs := nic_allocs w; nic_tx := rest;
            freed := freed w ++ [handle]; sent := sent w;
            MISROUTED_DROPS := MISROUTED_DROPS w;
            TX_ALLOC_FAIL := TX_ALLOC_FAIL w; TX_BURST_FAIL := TX_BURST_FAIL w |})
  else
    (0, {| nic_rx := nic_rx w; nic_allocs := nic_allocs w; nic_tx := rest;
           freed := freed w; sent := sent w ++ [(handle, ztake n data)];
           MISROUTED_DROPS := MISROUTED_DROPS w;
           TX_ALLOC_FAIL := TX_ALLOC_FAIL w; TX_BURST_FAIL := TX_BURST_FAIL w |}).

(** The closure [f] fills the frame: it maps the slice it is given to its
    result and the slice's new contents. *)
(* [lib.rs 670-692 TxToken::consume] *)
Definition tx_consume {R} (n : Z) (f : list Z -> R * list Z) (w : nic) : outcome (R * nic) :=
  let '(a, w) := shim_mbuf_alloc_tx w in
  match al_data a, al_handle a with
  | Some data, Some handle =>
      let n := Z.min n (al_cap a) in
      let! sl := from_raw_parts data n in
      let '(r, sl) := f sl in
      let! data := copy_from_slice data 0 n sl in
      let '(rc, w) := shim_mbuf_tx w handle data (u16 n) in
      Ret (r, if negb (rc =? 0) then
                {| nic_rx := nic_rx w; nic_allocs := nic_allocs w; nic_tx := nic_tx w;
                   freed := freed w; sent := sent w; MISROUTED_DROPS := MISROUTED_DROPS w;
                   TX_ALLOC_FAIL := TX_ALLOC_FAIL w;
                   TX_BURST_FAIL := u64 (TX_BURST_FAIL w + 1) |}
              else w)
  | _, _ =>
      let w := {| nic_rx := nic_rx w; nic_allocs := nic_allocs w; nic_tx := nic_tx w;
                  freed := freed w; sent := sent w; MISROUTED_DROPS := MISROUTED_DROPS w;
                  TX_ALLOC_FAIL := u64 (TX_ALLOC_FAIL w + 1);
                  TX_BURST_FAIL := TX_BURST_FAIL w |} in
      let! sl := slice (zreplicate MTU 0) 0 (Z.min n MTU) in
      Ret (fst (f sl), w)
  end.

(** ** Specifications *)

(** A frame as the token carries it. *)
Definition frame : Type := Z * list Z * Z.
Definition frame_of (m : mbuf) : frame := (mb_handle m, mb_data m, mb_len m).
Definition frame_handle (fr : frame) : Z := fst (fst fr).

Definition byte_at (l : list Z) (i : Z) : Z := nth (Z.to_nat i) l 0.

(** The TCP destination port of an Ethernet frame, if it is one the filter
    looks at: at least 54 bytes, IPv4, TCP, long enough for the ports. *)
Definition frame_dst_port (data : list Z) (n : Z) : option Z :=
  let l4 := 14 + Z.land (byte_at data 14) 15 * 4 in
  if (54 <=? n) && (byte_at data 12 =? 8) && (byte_at data 13 =? 0)
     && (byte_at data 23 =? 6) && (l4 + 4 <=? n)
  then Some (byte_at data (l4 + 2) * 256 + byte_at data (l4 + 3))
  else None.

(** Bit [p - EPH_BASE] of the bitmap; ports below the range are everybody's. *)
Definition owns (bitmap : list Z) (p : Z) : bool :=
  (p <? EPH_BASE) || bitmap_bit bitmap (p - EPH_BASE).

Definition accepts (owned : option (list Z)) (fr : frame) : bool :=
  let '(_, data, n) := fr in
  match frame_dst_port data n, owned with
  | Some p, Some bm => owns bm p
  | _, _ => true
  end.

(** The frames already fetched but not handed out, then those still to come. *)
Definition buffered (d : dpdk_device) : list frame :=
  zdrop (rx_pref_pos d) (ztake (rx_pref_len d)
    (combine (combine (rx_pref_handles d) (rx_pref_data d)) (rx_pref_lens d))).

Definition good_frames (burst : list mbuf) : list frame :=
  map frame_of (filter (fun m => mb_bad m = false) burst).

Definition pending (d : dpdk_device) (w : nic) : list frame :=
  buffered d ++ concat (map good_frames (nic_rx w)).

(** Every handle the program or the driver still owes a free. *)
Definition held (d : dpdk_device) (w : nic) : list Z :=
  map frame_handle (buffered d) ++ concat (map (map mb_handle) (nic_rx w)).

Definition frame_ok (fr : frame) : Prop :=
  let '(_, data, n) := fr in 0 <= n < M16 /\ n <= len data /\ bytes_ok data.

Definition device_inv (d : dpdk_device) : Prop :=
  len (rx_pref_handles d) = RX_BURST /\ len (rx_pref_data d) = RX_BURST /\
  len (rx_pref_lens d) = RX_BURST /\
  0 <= rx_pref_pos d <= rx_pref_len d /\ rx_pref_len d <= RX_BURST /\
  Forall frame_ok (buffered d) /\
  match owned_ports d with Some bm => len bm = OWNED_BITMAP_BYTES | None => True end.

(** The driver answers a burst of at most the 32 frames asked for. *)
Definition nic_ok (w : nic) : Prop :=
  in_u64 (MISROUTED_DROPS w) /\
  Forall (fun burst => len burst <= RX_BURST /\ Forall (fun m => frame_ok (frame_of m)) burst)
         (nic_rx w).

(** The frame a token stands for. *)
Definition token_frames (t : option rx_token) : list frame :=
  match t with
  | Some (Mbuf handle data n) => [(handle, data, n)]
  | _ => []
  end.

(** ** The filter *)

Lemma rx_filter_spec owned h data n w :
  frame_ok (h, data, n) ->
  match owned with Some bm => len bm = OWNED_BITMAP_BYTES | None => True end ->
  rx_filter owned data n w =
  Ret (accepts owned (h, data, n), if accepts owned (h, data, n) then w else misrouted w).
Proof.
  intros (Hn & Hl & Hb) Hbm; unfold rx_filter, accepts, frame_dst_port.
  destruct (Z.ltb_spec n 54); [by rewrite (proj2 (Z.leb_gt 54 n))|].
  rewrite (proj2 (Z.leb_le 54 n)) by lia; cbn [andb].
  unfold from_raw_parts; rewrite slice_ret by lia; cbn [obind].
  rewrite Z.sub_0_r; change (zdrop 0 data) with data.
  assert (Hix : forall i, 0 <= i < n -> index (ztake n data) i = Ret (byte_at data i)).
  { intros i Hi; rewrite (index_nth _ _ 0) by (autorewrite with len; lia).
    unfold byte_at; by rewrite nth_ztake. }
  rewrite !Hix by lia; cbn [obind].
  destruct (_ && _) eqn:E1; cbn [negb]; [cbn [andb]|by rewrite ?andb_false_l].
  set (l4 := 14 + Z.land (byte_at data 14) 15 * 4).
  assert (Hl4 : 14 <= l4).
  { subst l4; assert (0 <= Z.land (byte_at data 14) 15); [apply Z.land_nonneg; lia|lia]. }
  destruct (Z.eqb_spec (byte_at data 23) 6); cbn [negb orb andb]; [|done].
  destruct (Z.ltb_spec n (l4 + 4)); [by rewrite (proj2 (Z.leb_gt _ _))|].
  rewrite (proj2 (Z.leb_le (l4 + 4) n)) by lia.
  rewrite !Hix by lia; cbn [obind].
  rewrite lor_be16 by by apply bytes_nth.
  destruct owned as [bm|]; [|done]; cbn [obind].
  pose proof (bytes_nth data (Z.to_nat (l4 + 2)) Hb) as H2.
  pose proof (bytes_nth data (Z.to_nat (l4 + 3)) Hb) as H3.
  fold (byte_at data (l4 + 2)) in H2; fold (byte_at data (l4 + 3)) in H3; unfold in_u8 in *.
  unfold owns; destruct (Z.ltb_spec (byte_at data (l4 + 2) * 256 + byte_at data (l4 + 3)) EPH_BASE).
  - unfold owns_port; by rewrite (proj2 (Z.ltb_lt _ _)).
  - rewrite owns_port_bit; [done|done|]; unfold EPH_BASE, EPH_LEN in *; lia.
Qed.

(** ** The receive loop *)

Lemma buffered_nil d : 0 <= rx_pref_pos d -> rx_pref_pos d = rx_pref_len d -> buffered d = [].
Proof.
  intros Hp E; unfold buffered; rewrite E in *; apply zdrop_ge; llia.
Qed.

Definition with_burst (d : dpdk_device) (good : list mbuf) : dpdk_device :=
  {| pending_synth := pending_synth d; owned_ports := owned_ports d;
     rx_pref_handles := write_at (rx_pref_handles d) 0 (map mb_handle good);
     rx_pref_data := write_at (rx_pref_data d) 0 (map mb_data good);
     rx_pref_lens := write_at (rx_pref_lens d) 0 (map mb_len good);
     rx_pref_pos := 0; rx_pref_len := len good |}.

Definition advance (d : dpdk_device) : dpdk_device :=
  {| pending_synth := pending_synth d; owned_ports := owned_ports d;
     rx_pref_handles := rx_pref_handles d; rx_pref_data := rx_pref_data d;
     rx_pref_lens := rx_pref_lens d;
     rx_pref_pos := u16 (rx_pref_pos d + 1); rx_pref_len := rx_pref_len d |}.

Lemma combine_app_eq {A B} (a1 a2 : list A) (b1 b2 : list B) :
  length a1 = length b1 -> combine (a1 ++ a2) (b1 ++ b2) = combine a1 b1 ++ combine a2 b2.
Proof.
  revert b1; induction a1 as [|x a1 IH]; intros [|y b1] H; try done; cbn in *.
  by rewrite IH by lia.
Qed.

Lemma buffered_with_burst d good : buffered (with_burst d good) = map frame_of good.
Proof.
  unfold buffered, with_burst; cbn [rx_pref_pos rx_pref_len rx_pref_handles rx_pref_data rx_pref_lens].
  rewrite (zdrop_0 0) by done.
  rewrite !write_at_0.
  assert (E : combine (combine (map mb_handle good) (map mb_data good)) (map mb_len good) = map frame_of good).
  { clear; induction good as [|m g IH]; [done|]; cbn [map combine]; by rewrite IH. }
  rewrite combine_app_eq by (by rewrite !length_map).
  rewrite combine_app_eq by (by rewrite length_combine, !length_map, Nat.min_id).
  rewrite E, ztake_app_le by llia. apply ztake_ge; llia.
Qed.

Lemma combine3_lookup {A B C} (a : list A) (b : list B) (c : list C) i x y z :
  combine (combine a b) c !! i = Some (x, y, z) ->
  a !! i = Some x /\ b !! i = Some y /\ c !! i = Some z.
Proof.
  intros H; revert a b c H; induction i as [|i IH]; intros [|a0 a] [|b0 b] [|c0 c] H; cbn in H; try done.
  - by injection H as -> -> ->.
  - by apply IH in H.
Qed.

(** One fetched frame: what the arrays hold at the read position. *)
Lemma buffered_cons d :
  device_inv d -> rx_pref_pos d <> rx_pref_len d ->
  exists handle data n,
    index (rx_pref_handles d) (rx_pref_pos d) = Ret handle /\
    index (rx_pref_data d) (rx_pref_pos d) = Ret data /\
    index (rx_pref_lens d) (rx_pref_pos d) = Ret n /\
    buffered d = (handle, data, n) :: buffered (advance d).
Proof.
  intros (H1 & H2 & H3 & Hp & Hle & _) Hne; unfold buffered, advance; cbn [rx_pref_pos rx_pref_len
    rx_pref_handles rx_pref_data rx_pref_lens].
  set (l := combine _ _).
  assert (Hl : len l = RX_BURST).
  { subst l; unfold len in *; rewrite !length_combine; lia. }
  unfold RX_BURST in *; rewrite u16_small by lia.
  destruct (index_is_ret (ztake (rx_pref_len d) l) (rx_pref_pos d)) as [[[h dt] n] Hi]; [llia|].
  apply index_ret_iff in Hi as [_ Hi].
  pose proof Hi as Hi'; unfold ztake in Hi'; rewrite lookup_take_lt in Hi' by lia.
  apply combine3_lookup in Hi' as (Ha & Hb & Hc).
  exists h, dt, n; split_and!; [by apply index_ret; [lia|]..|].
  unfold zdrop; rewrite (drop_S _ _ _ Hi); do 2 f_equal; lia.
Qed.

Lemma advance_inv d : device_inv d -> rx_pref_pos d <> rx_pref_len d -> device_inv (advance d).
Proof.
  intros Hd Hne; destruct (buffered_cons d Hd Hne) as (? & ? & ? & _ & _ & _ & Hb).
  destruct Hd as (H1 & H2 & H3 & Hp & Hle & Hf & Ho); unfold device_inv.
  rewrite Hb in Hf; inversion Hf; subst.
  unfold advance in *; cbn [rx_pref_pos rx_pref_len rx_pref_handles rx_pref_data rx_pref_lens owned_ports];
    unfold RX_BURST in *.
  split_and!; try done; rewrite u16_small by lia; lia.
Qed.

Lemma with_burst_inv d good :
  device_inv d -> len good <= RX_BURST -> Forall frame_ok (map frame_of good) ->
  device_inv (with_burst d good).
Proof.
  intros (H1 & H2 & H3 & Hp & Hle & Hf & Ho) Hg Hfg; unfold device_inv.
  rewrite buffered_with_burst; unfold with_burst; cbn [rx_pref_pos rx_pref_len rx_pref_handles
    rx_pref_data rx_pref_lens owned_ports].
  pose proof (len_nonneg good).
  split_and!; try done; rewrite len_write_at; autorewrite with len; lia.
Qed.

Lemma held_burst_perm burst :
  map mb_handle burst ≡ₚ
  map mb_handle (filter (fun m => mb_bad m = true) burst) ++
  map frame_handle (good_frames burst).
Proof.
  unfold good_frames; rewrite map_map; cbn.
  induction burst as [|m b IH]; [done|]; cbn [map].
  rewrite !filter_cons; destruct (mb_bad m); cbn [map].
  - rewrite decide_True, decide_False by done; cbn [map app]; by rewrite IH.
  - rewrite decide_False, decide_True by done; cbn [map].
    rewrite IH; apply Permutation_middle.
Qed.

(** The loop body on a non-empty buffer. *)
Lemma receive_loop_step fuel d w :
  device_inv d -> rx_pref_pos d <> rx_pref_len d ->
  exists handle data n,
    buffered d = (handle, data, n) :: buffered (advance d) /\
    receive_loop (S fuel) d w =
      if accepts (owned_ports d) (handle, data, n)
      then Some (Ret (Some (Mbuf handle data n), advance d, w))
      else receive_loop fuel (advance d) (shim_mbuf_free (misrouted w) handle).
Proof.
  intros Hd Hne; destruct (buffered_cons d Hd Hne) as (h & dt & n & E1 & E2 & E3 & Hb).
  exists h, dt, n; split; [done|].
  cbn [receive_loop]; rewrite (proj2 (Z.eqb_neq _ _)) by done; cbn [negb].
  cbn [rx_pref_handles rx_pref_data rx_pref_lens owned_ports].
  rewrite E1, E2, E3; cbn [obind].
  destruct Hd as (_ & _ & _ & _ & _ & Hf & Ho).
  rewrite Hb in Hf; inversion Hf; subst.
  rewrite (rx_filter_spec _ h) by done; cbn [obind].
  fold (advance d); by destruct (accepts _ _).
Qed.

(** The loop body on an empty buffer: nothing received, or a burst fetched. *)
Lemma receive_loop_refill fuel d w :
  device_inv d -> nic_ok w -> rx_pref_pos d = rx_pref_len d ->
  match nic_rx w with
  | [] => receive_loop (S fuel) d w = Some (Ret (None, d, w))
  | burst :: rest =>
      let good := filter (fun m => mb_bad m = false) burst in
      let w' := set_rx w rest
        (freed w ++ map mb_handle (filter (fun m => mb_bad m = true) burst)) in
      receive_loop (S fuel) d w =
        if len good =? 0 then Some (Ret (None, d, w'))
        else receive_loop (S fuel) (with_burst d good) w'
  end.
Proof.
  intros Hd Hw E; cbn [receive_loop]; rewrite E, Z.eqb_refl.
  unfold shim_mbuf_rx_burst_n; destruct (nic_rx w) as [|burst rest]; cbn [Z.eqb negb].
  { do 4 f_equal; destruct d; cbn in *; by subst. }
  set (good := filter _ burst); cbn zeta.
  destruct (Z.eqb_spec (len good) 0) as [Hz|Hz]; cbn [negb].
  - apply len_zero_nil in Hz; rewrite Hz; cbn [map]; rewrite !write_at_0; cbn [app].
    do 4 f_equal; destruct d; cbn in *; by subst.
  - cbn [with_burst rx_pref_pos rx_pref_len].
    rewrite (proj2 (Z.eqb_neq 0 (len good))) by done; done.
Qed.

Definition receive_post (d : dpdk_device) (w : nic) (dropped : list frame)
    (tok : option rx_token) (d' : dpdk_device) (w' : nic) : Prop :=
  pending d w = dropped ++ token_frames tok ++ pending d' w' /\
  freed w ++ held d w ≡ₚ freed w' ++ map frame_handle (token_frames tok) ++ held d' w' /\
  MISROUTED_DROPS w' = u64 (MISROUTED_DROPS w + len dropped) /\
  Forall (fun fr => accepts (owned_ports d) fr = false) dropped /\
  Forall (fun fr => accepts (owned_ports d) fr = true) (token_frames tok) /\
  device_inv d' /\ nic_ok w' /\ owned_ports d' = owned_ports d /\
  (token_frames tok = [] -> buffered d' = [] /\
     (nic_rx w' = [] \/ exists pre b, nic_rx w = pre ++ b :: nic_rx w' /\ good_frames b = [])).

Lemma receive_post_drop d w h data n dropped tok d' w' :
  device_inv d -> rx_pref_pos d <> rx_pref_len d ->
  buffered d = (h, data, n) :: buffered (advance d) ->
  accepts (owned_ports d) (h, data, n) = false ->
  receive_post (advance d) (shim_mbuf_free (misrouted w) h) dropped tok d' w' ->
  receive_post d w ((h, data, n) :: dropped) tok d' w'.
Proof.
  intros Hd Hne Hb Ha (P1 & P2 & P3 & P4 & P5 & P6 & P7 & P8 & P9).
  split_and!; try done.
  - unfold pending in *; rewrite Hb; cbn [app]; f_equal; exact P1.
  - rewrite <-P2; unfold held, frame_handle; rewrite Hb; cbn [map app]; cbn.
    by rewrite <-app_assoc.
  - rewrite P3, len_cons; unfold u64; cbn [MISROUTED_DROPS shim_mbuf_free set_rx misrouted].
    unfold u64; rewrite Z.add_mod_idemp_l by lia; f_equal; lia.
  - by constructor.
Qed.

Lemma good_frames_ok burst : Forall (fun m => frame_ok (frame_of m)) burst -> Forall frame_ok (good_frames burst).
Proof.
  unfold good_frames; induction 1 as [|m b Hm Hb IH]; [done|]; rewrite filter_cons; destruct (decide _); [by constructor|done].
Qed.

Lemma pending_ok d w : device_inv d -> nic_ok w -> Forall frame_ok (pending d w).
Proof.
  intros Hd [_ Hw]; unfold pending; apply Forall_app; split; [apply Hd|].
  induction Hw as [|b bs [_ Hb] _ IH]; cbn; [done|]; apply Forall_app; split; [by apply good_frames_ok|done].
Qed.

Lemma misrouted_ok w h : nic_ok w -> nic_ok (shim_mbuf_free (misrouted w) h).
Proof. intros [_ Hw]; split; [apply u64_range|done]. Qed.

Lemma receive_loop_spec fuel d w :
  device_inv d -> nic_ok w -> (length (pending d w) < fuel)%nat ->
  exists dropped tok d' w',
    receive_loop fuel d w = Some (Ret (tok, d', w')) /\ receive_post d w dropped tok d' w' /\
    (forall b, tok <> Some (Synth b)).
Proof.
  revert d w; induction fuel as [|fuel IH]; intros d w Hd Hw Hfuel; [lia|].
  (* a non-empty buffer *)
  assert (Hstep : forall d w, device_inv d -> nic_ok w -> (length (pending d w) < S fuel)%nat ->
    rx_pref_pos d <> rx_pref_len d ->
    exists dropped tok d' w',
      receive_loop (S fuel) d w = Some (Ret (tok, d', w')) /\ receive_post d w dropped tok d' w' /\
      (forall b, tok <> Some (Synth b))).
  { clear d w Hd Hw Hfuel; intros d w Hd Hw Hfuel Hne.
    destruct (receive_loop_step fuel d w Hd Hne) as (h & dt & n & Hb & ->).
    pose proof (advance_inv d Hd Hne) as Hadv.
    destruct (accepts _ _) eqn:Ha.
    - exists [], (Some (Mbuf h dt n)), (advance d), w; split; [done|].
      split; [|done]. split_and!; try done.
      + unfold pending; rewrite Hb; done.
      + unfold held; rewrite Hb; done.
      + destruct Hw as [Hm _]; cbn; rewrite Z.add_0_r, u64_small; done.
      + cbn; by constructor.
    - destruct (IH (advance d) (shim_mbuf_free (misrouted w) h)) as (dr & tok & d' & w' & E & Hp & Hn).
      + done.
      + by apply misrouted_ok.
      + revert Hfuel; unfold pending; rewrite Hb; cbn; lia.
      + exists ((h, dt, n) :: dr), tok, d', w'; split; [done|]; split; [|done].
        by apply receive_post_drop. }
  destruct (Z.eq_dec (rx_pref_pos d) (rx_pref_len d)) as [E|]; [|by apply Hstep].
  pose proof (receive_loop_refill fuel d w Hd Hw E) as Hr.
  assert (Hbn : buffered d = []) by (apply buffered_nil; [apply Hd|done]).
  destruct (nic_rx w) as [|burst rest] eqn:Enic; cbn zeta in Hr.
  - exists [], None, d, w; split; [done|]; split; [|done].
    split_and!; try done; [|by intros _; split; [|left]].
    cbn; rewrite Z.add_0_r, u64_small; [done|apply Hw].
  - set (good := filter (fun m => mb_bad m = false) burst) in *.
    set (w1 := set_rx _ _ _) in *.
    destruct Hw as [Hm Hwf]; rewrite Enic in Hwf; inversion Hwf as [|? ? [Hbl Hbf] Hrest]; subst.
    assert (Hw1 : nic_ok w1) by (split; done).
    assert (Hg : map frame_of good = good_frames burst) by done.
    assert (Hpend : pending d w = map frame_of good ++ concat (map good_frames rest)).
    { unfold pending; rewrite Hbn, Enic; done. }
    assert (Hheld : freed w ++ held d w ≡ₚ freed w1 ++ map frame_handle (map frame_of good) ++
                    concat (map (map mb_handle) rest)).
    { unfold held; rewrite Hbn, Enic; cbn [map app concat]; rewrite Hg, held_burst_perm; cbn.
      by rewrite <-!app_assoc. }
    destruct (Z.eqb_spec (len good) 0) as [Hz|Hz].
    + apply len_zero_nil in Hz; rewrite Hz in Hpend, Hheld, Hg; cbn in Hg.
      exists [], None, d, w1; split; [done|]; split; [|done].
      split_and!; try done.
      * rewrite Hpend; unfold pending; by rewrite Hbn.
      * rewrite Hheld; unfold held; by rewrite Hbn.
      * cbn; rewrite Z.add_0_r, u64_small; done.
      * intros _; split; [done|]; right; exists [], burst; by rewrite Enic.
    + assert (Hbl' : len good <= RX_BURST).
      { subst good; unfold len in *. pose proof (length_filter (fun m => mb_bad m = false) burst); lia. }
      assert (Hff : Forall frame_ok (map frame_of good)) by (by apply good_frames_ok).
      rewrite Hr; destruct (Hstep (with_burst d good) w1) as (dr & tok & d' & w' & Er & Hp & Hn).
      * by apply with_burst_inv.
      * done.
      * unfold pending; rewrite buffered_with_burst; rewrite Hpend in Hfuel; done.
      * cbn; intros Heq; by apply Hz.
      * exists dr, tok, d', w'; split; [done|]; split; [|done].
        destruct Hp as (P1 & P2 & P3 & P4 & P5 & P6 & P7 & P8 & P9).
        split_and!; try done.
        -- rewrite <-P1, Hpend; unfold pending; by rewrite buffered_with_burst.
        -- rewrite <-P2, Hheld; unfold held; by rewrite buffered_with_burst.
        -- intros Ht; destruct (P9 Ht) as [? [?|(pre & b & Hpre & ?)]]; split; auto.
           right; exists (burst :: pre), b; split; [|done]. rewrite Enic; cbn; by rewrite <-Hpre.
Qed.

(** Receiving draws no transmit buffers, and leaves a synthetic frame alone. *)
Lemma receive_loop_kept fuel d w tok d' w' :
  device_inv d -> nic_ok w -> receive_loop fuel d w = Some (Ret (tok, d', w')) ->
  nic_allocs w' = nic_allocs w /\ pending_synth d' = pending_synth d.
Proof.
  revert d w; induction fuel as [|fuel IH]; intros d w Hd Hw; [done|].
  assert (Hstep : forall d w, device_inv d -> nic_ok w -> rx_pref_pos d <> rx_pref_len d ->
    receive_loop (S fuel) d w = Some (Ret (tok, d', w')) -> nic_allocs w' = nic_allocs w /\ pending_synth d' = pending_synth d).
  { clear d w Hd Hw; intros d w Hd Hw Hne; destruct (receive_loop_step fuel d w Hd Hne) as (h & dt & n & _ & ->).
    destruct (accepts _ _); [by intros [= _ <- <-]|]; intros H; apply IH in H; [done|by apply advance_inv|by apply misrouted_ok]. }
  destruct (Z.eq_dec (rx_pref_pos d) (rx_pref_len d)) as [E|]; [|by apply Hstep].
  pose proof (receive_loop_refill fuel d w Hd Hw E) as Hr; destruct (nic_rx w) as [|burst rest] eqn:Enic; cbn zeta in Hr; rewrite Hr.
  { by intros [= _ <- <-]. }
  destruct Hw as [Hm Hwf]; rewrite Enic in Hwf; inversion Hwf as [|? ? [Hbl Hbf] Hrest]; subst.
  destruct (Z.eqb_spec (len (filter (fun m => mb_bad m = false) burst)) 0) as [Hz|Hz]; [by intros [= _ <- <-]|].
  intros H; apply Hstep in H; [done| |done|cbn; lia].
  apply with_burst_inv; [done| |by apply good_frames_ok].
  unfold len in *; pose proof (length_filter (fun m => mb_bad m = false) burst); lia.
Qed.

(** C35: the receive path neither loses, duplicates nor reorders frames.  Given
    well-formed buffers and a driver that respects its contract, [receive]
    terminates without panicking; the frames waiting (prefetched first, then
    the driver's bursts) are exactly the dropped ones, the one handed out, and
    those still waiting, in that order; every dropped frame fails the port
    test, is freed and is counted as misrouted; the frame handed out passes it;
    nothing is handed out only when the prefetch buffer is empty and the driver
    had no good frame.  Consuming or dropping the token frees its buffer, after
    which every buffer has been freed once or is still held. *)
Theorem receive_conserves (fuel : nat) (d : dpdk_device) (w : nic) :
  device_inv d -> nic_ok w -> pending_synth d = None -> (length (pending d w) < fuel)%nat ->
  exists dropped tok d' w',
    receive fuel d w = Some (Ret (tok, d', w')) /\ receive_post d w dropped tok d' w' /\
    forall (f : list Z -> list Z) t, tok = Some t ->
      exists h data n w'',
        t = Mbuf h data n /\ rx_consume f t w' = Ret (f (ztake n data), w'') /\
        rx_drop t w' = w'' /\ freed w ++ held d w ≡ₚ freed w'' ++ held d' w''.
Proof.
  intros Hd Hw Hs Hf; destruct (receive_loop_spec fuel d w Hd Hw Hf) as (dr & tok & d' & w' & E & Hp & Hn).
  exists dr, tok, d', w'; unfold receive; rewrite Hs; split_and!; [done|done|].
  intros f t ->; destruct t as [h data n|b]; [|by destruct (Hn b)].
  exists h, data, n, (shim_mbuf_free w' h).
  destruct Hp as (P1 & P2 & _).
  assert (Hfr : frame_ok (h, data, n)).
  { pose proof (pending_ok d w Hd Hw) as Hin.
    rewrite P1 in Hin; apply Forall_app in Hin as [_ Hin]; cbn in Hin; by inversion Hin. }
  destruct Hfr as (Hn1 & Hn2 & _).
  split_and!; [done| |done|].
  - cbn [rx_consume]; unfold from_raw_parts; rewrite slice_ret by lia; cbn [obind].
    by rewrite Z.sub_0_r.
  - rewrite P2; cbn; by rewrite <-app_assoc.
Qed.

(** C36: the port filter agrees with the steering model.  For a frame whose TCP
    destination is an ephemeral port, a worker that built its bitmap for its
    queue keeps the frame exactly when the device is predicted to steer the
    port's return flow to that queue, and otherwise counts it as misrouted; so
    no frame of a correctly steered connection is ever dropped. *)
Theorem rx_filter_steered (env : build_env) (st : rss_state) (our_ip : list Z)
    (q c h n p : Z) (bm data : list Z) (w : nic) :
  rss_ok st -> len our_ip = 4 -> len (TARGET_IP env) = 4 ->
  build_owned_ports env st our_ip q (zreplicate OWNED_BITMAP_BYTES 0) = Ret (bm, c) ->
  frame_ok (h, data, n) -> frame_dst_port data n = Some p -> EPH_BASE <= p ->
  exists pq, predict_queue st (flow_tuple env our_ip p) = Ret pq /\
    rx_filter (Some bm) data n w = Ret (pq =? q, if pq =? q then w else misrouted w).
Proof.
  intros Hst Hip Ht Hb Hfr Hport Hp.
  assert (Hp2 : p < EPH_BASE + EPH_LEN).
  { unfold frame_dst_port in Hport; destruct (_ && _); [|done]; injection Hport as <-.
    destruct Hfr as (_ & _ & Hbytes).
    pose proof (bytes_nth data (Z.to_nat (14 + Z.land (byte_at data 14) 15 * 4 + 2)) Hbytes) as B1.
    pose proof (bytes_nth data (Z.to_nat (14 + Z.land (byte_at data 14) 15 * 4 + 3)) Hbytes) as B2.
    unfold byte_at, in_u8, EPH_BASE, EPH_LEN in *; lia. }
  destruct (build_owned_ports_inv env st our_ip Hst Hip Ht q) as (bm' & c' & Hb' & Hlen & Hbits & _).
  rewrite Hb in Hb'; injection Hb' as <- <-; cbn [fst] in *.
  destruct (queue_for_local_port_total env st our_ip Hst Hip Ht p) as [pq Hq].
  exists pq; split; [by rewrite <-queue_for_local_port_predict|].
  rewrite (rx_filter_spec _ h) by done.
  replace (accepts (Some bm) (h, data, n)) with (pq =? q); [done|].
  unfold accepts; rewrite Hport; unfold owns.
  rewrite (proj2 (Z.ltb_ge p EPH_BASE)) by done; cbn [orb].
  rewrite Hbits, (proj2 (Z.ltb_lt _ _)) by lia; cbn [andb].
  replace (EPH_BASE + (p - EPH_BASE)) with p by lia.
  unfold steers_to; destruct (Z.eqb_spec pq q) as [->|].
  - symmetry; by apply bool_decide_eq_true.
  - symmetry; apply bool_decide_eq_false; congruence.
Qed.

(** The transmit token accounts for every frame.  Whatever the driver
    answers, the closure runs once on a buffer of the requested length cut to
    the buffer's capacity; then exactly one of three things has happened: the
    frame the closure wrote is on the transmit ring, or the ring refused it,
    its buffer is freed and the refusal counted, or no buffer was available and
    that is counted. *)
Theorem tx_consume_accounts (R : Type) (n : Z) (f : list Z -> R * list Z) (w : nic) :
  0 <= n -> (forall l, len (snd (f l)) = len l) ->
  Forall (fun a => match al_data a with
                   | Some data => 0 <= al_cap a < M16 /\ al_cap a <= len data
                   | None => True end) (nic_allocs w) ->
  exists buf w', tx_consume n f w = Ret (fst (f buf), w') /\
    ((exists h, sent w' = sent w ++ [(h, snd (f buf))] /\ freed w' = freed w /\
        TX_BURST_FAIL w' = TX_BURST_FAIL w /\ TX_ALLOC_FAIL w' = TX_ALLOC_FAIL w) \/
     (exists h, sent w' = sent w /\ freed w' = freed w ++ [h] /\
        TX_BURST_FAIL w' = u64 (TX_BURST_FAIL w + 1) /\ TX_ALLOC_FAIL w' = TX_ALLOC_FAIL w) \/
     (sent w' = sent w /\ freed w' = freed w /\ len buf = Z.min n MTU /\
        TX_BURST_FAIL w' = TX_BURST_FAIL w /\ TX_ALLOC_FAIL w' = u64 (TX_ALLOC_FAIL w + 1))).
Proof.
  intros Hn Hf Hal; unfold tx_consume.
  assert (Hcap : match al_data (fst (shim_mbuf_alloc_tx w)) with
    | Some data => 0 <= al_cap (fst (shim_mbuf_alloc_tx w)) < M16 /\
                   al_cap (fst (shim_mbuf_alloc_tx w)) <= len data
    | None => True end).
  { unfold shim_mbuf_alloc_tx; destruct (nic_allocs w); cbn; [done|]; by inversion Hal. }
  assert (Hsame : let w1 := snd (shim_mbuf_alloc_tx w) in sent w1 = sent w /\ freed w1 = freed w /\
    TX_BURST_FAIL w1 = TX_BURST_FAIL w /\ TX_ALLOC_FAIL w1 = TX_ALLOC_FAIL w).
  { unfold shim_mbuf_alloc_tx; destruct (nic_allocs w); by cbn. }
  destruct (shim_mbuf_alloc_tx w) as [a w1]; cbn [fst snd] in *.
  destruct Hsame as (S1 & S2 & S3 & S4).
  assert (Hscratch : exists buf, slice (zreplicate MTU 0) 0 (Z.min n MTU) = Ret buf /\ len buf = Z.min n MTU).
  { rewrite slice_ret by (unfold MTU; llia). eexists; split; [done|]; unfold MTU; llia. }
  destruct Hscratch as (scratch & Hsc & Hscl).
  destruct (al_data a) as [data|], (al_handle a) as [h|].
  2-4: rewrite Hsc; cbn [obind]; exists scratch; eexists; split; [done|]; right; right; cbn;
       rewrite S1, S2, S3, S4; done.
  destruct Hcap as [Hc1 Hc2]; unfold from_raw_parts.
  rewrite slice_ret by lia; cbn [obind]; rewrite Z.sub_0_r; change (zdrop 0 data) with data.
  set (buf := ztake (Z.min n (al_cap a)) data).
  assert (Hbl : len buf = Z.min n (al_cap a)) by (subst buf; llia).
  specialize (Hf buf); destruct (f buf) as [r sl] eqn:Ef; cbn [snd] in Hf.
  rewrite copy_from_slice_ret by lia; cbn [obind].
  rewrite u16_small by lia.
  exists buf; rewrite Ef; cbn [fst snd]; unfold shim_mbuf_tx.
  destruct (match nic_tx w1 with [] => _ | _ => _ end) as [rc rest].
  destruct (Z.eqb_spec rc 0); cbn [negb Z.eqb]; eexists; (split; [done|]).
  - right; left; exists h; cbn; by rewrite S1, S2, S3, S4.
  - left; exists h; cbn; rewrite S1, S2, S3, S4; split_and!; try done.
    do 3 f_equal; rewrite write_at_0, ztake_app_le, ztake_ge; [done|lia|lia].
Qed.

(** ** Examples *)

(** A 54-byte TCP segment to port 50000 (0xC350), and an ARP-sized frame. *)
Definition example_segment : list Z :=
  zreplicate 12 0 ++ [8; 0; 69] ++ zreplicate 8 0 ++ [6] ++ zreplicate 12 0 ++ [195; 80] ++ zreplicate 16 0.
Definition example_short : list Z := zreplicate 42 1.

Definition example_nic : nic :=
  {| nic_rx := [[Build_mbuf 1 example_segment 54 false; Build_mbuf 2 example_segment 54 true;
                 Build_mbuf 3 example_short 42 false]];
     nic_allocs := [{| al_data := Some (zreplicate 100 0); al_handle := Some 9; al_cap := 100 |}];
     nic_tx := [1]; freed := []; sent := [];
     MISROUTED_DROPS := 0; TX_ALLOC_FAIL := 0; TX_BURST_FAIL := 0 |}.

Definition example_dev : dpdk_device :=
  {| pending_synth := None; owned_ports := Some (zreplicate OWNED_BITMAP_BYTES 0);
     rx_pref_handles := zreplicate 32 0; rx_pref_data := zreplicate 32 [];
     rx_pref_lens := zreplicate 32 0; rx_pref_pos := 0; rx_pref_len := 0 |}.

Lemma example_dev_inv : device_inv example_dev.
Proof. split_and!; try reflexivity; try done; cbn; unfold RX_BURST; lia. Qed.

Lemma example_segment_ok h : frame_ok (h, example_segment, 54).
Proof. split_and!; [lia|lia|done|by apply forall_in_u8_b]. Qed.

Lemma example_nic_ok : nic_ok example_nic.
Proof.
  split; [split; cbn; lia|]. constructor; [|constructor].
  split; [done|]. repeat constructor; try apply (example_segment_ok 0); try done;
    by apply forall_in_u8_b.
Qed.

Lemma receive_conserves_witness :
  (exists d' w', receive 3 example_dev example_nic = Some (Ret (Some (Mbuf 3 example_short 42), d', w')) /\
     MISROUTED_DROPS w' = 1 /\ freed w' = [2; 1]) /\
  exists dropped tok d' w', receive 3 example_dev example_nic = Some (Ret (tok, d', w')) /\
     receive_post example_dev example_nic dropped tok d' w'.
Proof.
  split; [do 2 eexists; split; [vm_compute; reflexivity|split; reflexivity]|].
  destruct (receive_conserves 3 example_dev example_nic example_dev_inv example_nic_ok eq_refl)
    as (dr & tok & d' & w' & H1 & H2 & _); [apply Nat.ltb_lt; reflexivity|].
  exists dr, tok, d', w'; split; [exact H1|exact H2].
Defined.

Lemma rx_filter_steered_witness :
  frame_dst_port example_segment 54 = Some 50000 /\
  exists bm c pq,
    build_owned_ports example_env example_rss [10; 0; 0; 5] 1 (zreplicate OWNED_BITMAP_BYTES 0)
      = Ret (bm, c) /\
    rx_filter (Some bm) example_segment 54 example_nic
      = Ret (pq =? 1, if pq =? 1 then example_nic else misrouted example_nic).
Proof.
  split; [reflexivity|].
  destruct (build_owned_ports_inv example_env example_rss [10; 0; 0; 5]
    example_rss_ok eq_refl eq_refl 1) as (bm & c & Hb & _).
  destruct (rx_filter_steered example_env example_rss [10; 0; 0; 5] 1 c 7 54 50000 bm
    example_segment example_nic example_rss_ok eq_refl eq_refl Hb (example_segment_ok 7) eq_refl)
    as (pq & _ & H); [unfold EPH_BASE; lia|].
  exists bm, c, pq; split; [exact Hb|exact H].
Defined.

Lemma tx_consume_accounts_witness :
  exists (buf : list Z) w', tx_consume 60 (fun l : list Z => (len l, zreplicate (len l) 5)) example_nic = Ret (len buf, w').
Proof.
  destruct (tx_consume_accounts Z 60 (fun l : list Z => (len l, zreplicate (len l) 5)) example_nic)
    as (buf & w' & H & _).
  - lia.
  - intros l; cbn; rewrite len_zreplicate; pose proof (len_nonneg l); lia.
  - constructor; [cbn; rewrite len_zreplicate; lia|constructor].
  - exists buf, w'; exact H.
Defined.
