(* ===== verification/Http.v ===== *)
(** The HTTP exchange of the benchmark (src/bench/smoltcp-s3/src/lib.rs): the
    bounded writer [BufWriter], the ranged GET request written with it, and the
    incremental scan of the response that skips the header and counts body
    bytes. *)

From Stdlib Require Import ZArith Lia Ascii String.
From stdpp Require Import base list numbers.
From S2P Require Import Prelude AppConfig.

(** ** The bounded writer *)

(* [lib.rs 104-107 BufWriter] *)
Record buf_writer : Type := { bw_buf : list Z; bw_used : Z }.

(* [lib.rs 112-114 BufWriter::new] *)
Definition bw_new (buf : list Z) : buf_writer := {| bw_buf := buf; bw_used := 0 |}.

(* [lib.rs 118-123 BufWriter::write_str] *)
Definition write_str (w : buf_writer) (s : list Z) : outcome buf_writer :=
  let n := Z.min (len s) (usize (len (bw_buf w) - bw_used w)) in
  let! src := slice s 0 n in
  let! buf := copy_from_slice (bw_buf w) (bw_used w) (bw_used w + n) src in
  Ret {| bw_buf := buf; bw_used := bw_used w + n |}.

(** [core::fmt] hands a format string to the writer fragment by fragment. *)
Definition write_fmt (w : buf_writer) (frags : list (list Z)) : outcome buf_writer :=
  foldM (fun s w => write_str w s) frags w.

Definition CRLF : list Z := [13; 10].

(** The fragments of the format string and its arguments. *)
(* [lib.rs 849-854 build_range_request] the format string. *)
Definition range_request_frags (env : build_env) (start end_inclusive : Z) : list (list Z) :=
  [str "GET "; TARGET_PATH; str " HTTP/1.1" ++ CRLF ++ str "Host: "; TARGET_HOST env;
   CRLF ++ str "User-Agent: minidpdk-smoltcp/0.1" ++ CRLF ++ str "Range: bytes=";
   fmt_u64 start; str "-"; fmt_u64 end_inclusive;
   CRLF ++ str "Connection: close" ++ CRLF ++ CRLF].

(** Returns the buffer as written and the number of bytes used. *)
(* [lib.rs 847-856 build_range_request] *)
Definition build_range_request (env : build_env) (buf : list Z) (start end_inclusive : Z)
  : outcome (list Z * Z) :=
  let! w := write_fmt (bw_new buf) (range_request_frags env start end_inclusive) in
  Ret (bw_buf w, bw_used w).

(** ** Counting the body *)

(** The fields of [Conn] the scan works on. *)
(* [lib.rs 970-974 Conn] *)
Record http_state : Type := {
  bytes_received : Z;
  headers_done : bool;
  hdr_state : Z;
  status : Z;
  status_pos : Z;
}.

(* [lib.rs 457-458 BAD_STATUS, FIRST_BAD_STATUS] *)
Record status_counters : Type := { BAD_STATUS : Z; FIRST_BAD_STATUS : Z }.

Definition http_init : http_state :=
  {| bytes_received := 0; headers_done := false; hdr_state := 0; status := 0; status_pos := 0 |}.

(* [lib.rs 1005-1010 count_body] the status digits: bytes 9..12. *)
Definition status_step (h : http_state) (b : Z) : http_state :=
  if status_pos h <? 12 then
    {| bytes_received := bytes_received h; headers_done := headers_done h;
       hdr_state := hdr_state h;
       status := if (9 <=? status_pos h) && is_digit b
                 then u16 (status h * 10 + (b - chr "0")) else status h;
       status_pos := status_pos h + 1 |}
  else h.

(* [lib.rs 1011-1018 count_body] the terminator automaton. *)
Definition hdr_step (state b : Z) : Z :=
  if (state =? 0) && (b =? 13) then 1
  else if (state =? 1) && (b =? 10) then 2
  else if (state =? 2) && (b =? 13) then 3
  else if (state =? 3) && (b =? 10) then 4
  else if b =? 13 then 1
  else 0.

(* [lib.rs 1022-1026 count_body] what a status other than 206 does. *)
Definition note_status (st : Z) (c : status_counters) : status_counters :=
  if negb (st =? 206) then
    {| BAD_STATUS := u64 (BAD_STATUS c + 1);
       FIRST_BAD_STATUS := if FIRST_BAD_STATUS c =? 0 then st else FIRST_BAD_STATUS c |}
  else c.

(** The loop over [data]; [i] is the index of the head of [rest]. *)
(* [lib.rs 1002-1030 count_body] the loop. *)
Fixpoint count_loop (n i : Z) (rest : list Z) (h : http_state) (c : status_counters)
  : http_state * status_counters :=
  match rest with
  | [] => (h, c)
  | b :: rest' =>
      let h := status_step h b in
      let hs := hdr_step (hdr_state h) b in
      if hs =? 4 then
        ({| bytes_received := usize (bytes_received h + (n - (i + 1))); headers_done := true;
            hdr_state := hs; status := status h; status_pos := status_pos h |},
         note_status (status h) c)
      else
        count_loop n (i + 1) rest'
          {| bytes_received := bytes_received h; headers_done := headers_done h;
             hdr_state := hs; status := status h; status_pos := status_pos h |} c
  end.

(* [lib.rs 996-1031 count_body] *)
Definition count_body (h : http_state) (c : status_counters) (data : list Z)
  : http_state * status_counters :=
  if headers_done h then
    ({| bytes_received := usize (bytes_received h + len data); headers_done := headers_done h;
        hdr_state := hdr_state h; status := status h; status_pos := status_pos h |}, c)
  else count_loop (len data) 0 data h c.

(** Feeding the pieces of a response one after the other. *)
Definition count_chunks (chunks : list (list Z)) (hc : http_state * status_counters)
  : http_state * status_counters :=
  fold_left (fun hc chunk => count_body (fst hc) (snd hc) chunk) chunks hc.

(** ** Specifications *)

(** The header terminator, and "[l] contains it". *)
Definition terminator : list Z := CRLF ++ CRLF.
Definition has_terminator (l : list Z) : Prop := exists a b, l = a ++ terminator ++ b.

(** The decimal digits among bytes 9, 10 and 11, read as a number. *)
Definition status_of (l : list Z) : Z :=
  dec_value 0 (List.filter is_digit (ztake 3 (zdrop 9 l))).

(** The request text. *)
Definition range_request (env : build_env) (start end_inclusive : Z) : list Z :=
  concat (range_request_frags env start end_inclusive).

(** ** The writer *)

Lemma write_str_spec w s :
  0 <= bw_used w <= len (bw_buf w) -> len (bw_buf w) < M64 ->
  exists w', write_str w s = Ret w' /\
    len (bw_buf w') = len (bw_buf w) /\
    bw_used w' = Z.min (len (bw_buf w)) (bw_used w + len s) /\
    ztake (bw_used w') (bw_buf w') =
      ztake (len (bw_buf w)) (ztake (bw_used w) (bw_buf w) ++ s) /\
    zdrop (bw_used w') (bw_buf w') = zdrop (bw_used w') (bw_buf w).
Proof.
  intros Hu Hl; unfold write_str; rewrite usize_small by lia.
  set (n := Z.min _ _). assert (Hn : 0 <= n <= len s) by (subst n; llia).
  rewrite slice_ret by lia; cbn [obind].
  rewrite Z.sub_0_r; change (zdrop 0 s) with s.
  rewrite copy_from_slice_ret by (try lia; llia); cbn [obind].
  eexists; split; [done|]; cbn [bw_buf bw_used].
  assert (Hsn : len (ztake n s) = n) by llia.
  assert (Hul : len (ztake (bw_used w) (bw_buf w)) = bw_used w) by llia.
  split_and!.
  - rewrite len_write_at; lia.
  - lia.
  - unfold write_at; rewrite Hsn.
    rewrite (ztake_app_ge (bw_used w + n)), (ztake_app_ge (len (bw_buf w))) by (rewrite ?Hul; lia); rewrite Hul.
    replace (bw_used w + n - bw_used w) with n by lia.
    rewrite (ztake_app_le n (ztake n s)), (ztake_ge n (ztake n s)) by lia. f_equal.
    destruct (Z.le_ge_cases (len s) (len (bw_buf w) - bw_used w)).
    + by rewrite (ztake_ge n s), ztake_ge by lia.
    + f_equal; lia.
  - unfold write_at; rewrite Hsn, app_assoc, zdrop_app_ge by (autorewrite with len; lia).
    apply zdrop_0; autorewrite with len; lia.
Qed.

Lemma write_fmt_spec frags w :
  0 <= bw_used w <= len (bw_buf w) -> len (bw_buf w) < M64 ->
  exists w', write_fmt w frags = Ret w' /\
    len (bw_buf w') = len (bw_buf w) /\
    bw_used w' = Z.min (len (bw_buf w)) (bw_used w + len (concat frags)) /\
    ztake (bw_used w') (bw_buf w') =
      ztake (len (bw_buf w)) (ztake (bw_used w) (bw_buf w) ++ concat frags).
Proof.
  revert w; induction frags as [|s frags IH]; intros w Hu Hl; unfold write_fmt; cbn [foldM concat].
  - exists w; split_and!; [done|done|llia|].
    by rewrite app_nil_r, ztake_ztake, Z.min_r by lia.
  - destruct (write_str_spec w s Hu Hl) as (w1 & E & L & U & T & D); rewrite E; cbn [obind].
    pose proof (len_nonneg s); pose proof (len_nonneg (concat frags)).
    destruct (IH w1) as (w' & E' & L' & U' & T'); [lia|lia|].
    exists w'; split_and!; [done|lia| |].
    + autorewrite with len; lia.
    + rewrite T', T, L, app_assoc.
      destruct (Z.le_ge_cases (len (ztake (bw_used w) (bw_buf w) ++ s)) (len (bw_buf w))) as [Hle|Hge].
      * by rewrite (ztake_ge _ (ztake (bw_used w) (bw_buf w) ++ s)).
      * set (A := ztake (bw_used w) (bw_buf w) ++ s) in *.
        assert (HA : len (ztake (len (bw_buf w)) A) = len (bw_buf w)) by (rewrite len_ztake; lia).
        rewrite (ztake_app_le _ A), ztake_app_le, ztake_ztake, Z.min_id by lia; done.
Qed.

(** The bytes written are the request text cut to the buffer. *)
Lemma build_range_request_ok env buf first last :
  len buf < M64 ->
  exists buf', let req := range_request env first last in
    build_range_request env buf first last = Ret (buf', Z.min (len buf) (len req)) /\
    len buf' = len buf /\ ztake (Z.min (len buf) (len req)) buf' = ztake (len buf) req.
Proof.
  intros Hl; unfold build_range_request.
  destruct (write_fmt_spec (range_request_frags env first last) (bw_new buf)) as (w & E & L & U & T).
  { cbn; pose proof (len_nonneg buf); lia. } { done. }
  rewrite E; cbn [obind bw_new bw_buf bw_used] in *.
  rewrite (ztake_0 0), app_nil_l in T by lia.
  rewrite Z.add_0_l in U; fold (range_request env first last) in U, T; rewrite U in T |- *.
  exists (bw_buf w); cbn zeta; by split_and!.
Qed.

(** The 384 bytes a worker gives it are enough for a host name of 200. *)
Lemma range_request_fits env first last :
  len (TARGET_HOST env) <= 200 -> len (range_request env first last) <= 384.
Proof.
  intros Hhost; assert (Hd : len (fmt_u64 first) <= 20 /\ len (fmt_u64 last) <= 20) by (split; apply fmt_dec_len).
  unfold range_request, range_request_frags; cbn [concat]; autorewrite with len.
  repeat match goal with |- context [len (str ?s)] =>
    let v := eval vm_compute in (len (str s)) in
    replace (len (str s)) with v by (vm_compute; reflexivity) end.
  replace (len TARGET_PATH) with 9 by (vm_compute; reflexivity).
  replace (len CRLF) with 2 by (vm_compute; reflexivity); lia.
Qed.

(** The request asks for the block it was given.  Building it never panics,
    whatever the buffer; the bytes written are the request text cut to the
    buffer.  In the 384-byte buffer a worker uses, with a host name of up to
    200 bytes, nothing is cut, and the text carries a Range header whose two
    numbers read back as the first and last byte asked for. *)
Theorem build_range_request_correct (env : build_env) (buf : list Z) (first last : Z) :
  len buf < M64 -> in_u64 first -> in_u64 last ->
  exists buf', let req := range_request env first last in
    build_range_request env buf first last = Ret (buf', Z.min (len buf) (len req)) /\
    len buf' = len buf /\ ztake (Z.min (len buf) (len req)) buf' = ztake (len buf) req /\
    (len buf = 384 -> len (TARGET_HOST env) <= 200 ->
     exists pre ds de post,
       ztake (Z.min (len buf) (len req)) buf' =
         pre ++ str "Range: bytes=" ++ ds ++ str "-" ++ de ++ CRLF ++ post /\
       digits ds /\ dec_value 0 ds = first /\ digits de /\ dec_value 0 de = last).
Proof.
  intros Hl Hf Ht; destruct (build_range_request_ok env buf first last Hl) as (buf' & E & L & T).
  exists buf'; cbn zeta; split_and!; [done|done|done|]; rewrite T; clear E T.
  intros H384 Hhost; rewrite ztake_ge by (rewrite H384; by apply range_request_fits).
  exists (str "GET " ++ TARGET_PATH ++ (str " HTTP/1.1" ++ CRLF ++ str "Host: ") ++
    TARGET_HOST env ++ CRLF ++ str "User-Agent: minidpdk-smoltcp/0.1" ++ CRLF),
    (fmt_u64 first), (fmt_u64 last), (str "Connection: close" ++ CRLF ++ CRLF).
  split_and!.
  - unfold range_request, range_request_frags; cbn [concat]; rewrite <-!app_assoc.
    by rewrite app_nil_r.
  - apply fmt_dec_digits; unfold in_u64 in *; lia.
  - apply fmt_dec_value; unfold in_u64 in *; cbn; lia.
  - apply fmt_dec_digits; unfold in_u64 in *; lia.
  - apply fmt_dec_value; unfold in_u64 in *; cbn; lia.
Qed.

Lemma build_range_request_correct_witness :
  exists buf' n, build_range_request example_env (zreplicate 384 0) 0 67108863 = Ret (buf', n) /\
    exists pre ds de post,
      ztake n buf' = pre ++ str "Range: bytes=" ++ ds ++ str "-" ++ de ++ CRLF ++ post /\
      dec_value 0 ds = 0 /\ dec_value 0 de = 67108863.
Proof.
  destruct (build_range_request_correct example_env (zreplicate 384 0) 0 67108863)
    as (buf' & E & _ & _ & H); [reflexivity|unfold in_u64; lia..|].
  destruct H as (pre & ds & de & post & H1 & _ & H2 & _ & H3); [reflexivity|vm_compute; discriminate|].
  exists buf'; eexists; split; [exact E|exists pre, ds, de, post; auto].
Defined.

(** ** The scan *)

(** [l] ends with the first [k] bytes of the terminator. *)
Definition ends_term (k : nat) (l : list Z) : Prop := exists a, l = a ++ take k terminator.

Lemma snoc_app_inv {A} (l a t : list A) (x y : A) :
  l ++ [x] = a ++ t ++ [y] <-> l = a ++ t /\ x = y.
Proof.
  rewrite app_assoc; split; [|by intros [-> ->]].
  intros H; by apply app_inj_tail in H.
Qed.

Lemma ends_term_snoc k l b :
  (k < 4)%nat ->
  ends_term (S k) (l ++ [b]) <-> ends_term k l /\ b = nth k terminator 0.
Proof.
  intros Hk; unfold ends_term.
  assert (E : take (S k) terminator = take k terminator ++ [nth k terminator 0]).
  { do 4 (destruct k as [|k]; [reflexivity|]); lia. }
  rewrite E; setoid_rewrite snoc_app_inv; split; [intros (a & -> & ->)|intros [[a ->] ->]]; eauto.
Qed.

Lemma has_terminator_snoc l b :
  has_terminator (l ++ [b]) <-> has_terminator l \/ ends_term 4 (l ++ [b]).
Proof.
  split.
  - intros (x & y & H); destruct (decide (y = [])) as [->|Hy].
    + right; exists x; by rewrite H, app_nil_r.
    + destruct (exists_last Hy) as (y' & z & ->); left; exists x, y'.
      rewrite app_assoc in H; rewrite app_assoc.
      rewrite (app_assoc _ y') in H; by apply app_inj_tail in H as [-> _].
  - intros [(x & y & ->)|(x & H)].
    + exists x, (y ++ [b]); by rewrite <-!app_assoc.
    + exists x, []; by rewrite H.
Qed.

(** The automaton's state is the length of the longest prefix of the
    terminator that ends the text read so far. *)
Definition hdr_inv (s : Z) (l : list Z) : Prop :=
  0 <= s <= 4 /\ (ends_term 1 l <-> s = 1 \/ s = 3) /\ (ends_term 2 l <-> s = 2 \/ s = 4) /\
  (ends_term 3 l <-> s = 3) /\ (ends_term 4 l <-> s = 4).

Lemma hdr_inv_nil : hdr_inv 0 [].
Proof.
  split_and!; try lia; (split; [|lia]); intros [a Ha];
    by apply (f_equal length) in Ha; rewrite length_app in Ha; cbn in Ha; lia.
Qed.

Lemma hdr_inv_step s l b : hdr_inv s l -> s <> 4 -> hdr_inv (hdr_step s b) (l ++ [b]).
Proof.
  intros (Hs & H1 & H2 & H3 & H4) Hne; unfold hdr_inv.
  rewrite !ends_term_snoc by lia.
  assert (H0 : ends_term 0 l) by (exists l; cbn; by rewrite app_nil_r).
  rewrite H1, H2, H3; unfold terminator, CRLF; cbn [nth app].
  assert (Hsv : s = 0 \/ s = 1 \/ s = 2 \/ s = 3) by lia.
  destruct Hsv as [-> | [-> | [-> | ->]]]; unfold hdr_step;
    destruct (Z.eqb_spec b 13), (Z.eqb_spec b 10); cbn; split_and!; try lia;
    try tauto; intuition lia.
Qed.

Lemma dec_value_bound l : digits l -> 0 <= dec_value 0 l < 10 ^ len l.
Proof.
  induction l as [|x l IH] using rev_ind; intros Hd; [split; [done|reflexivity]|].
  apply Forall_app in Hd as [Hl Hx]; specialize (IH Hl); inversion Hx as [|? ? Hx' _]; subst.
  apply is_digit_spec in Hx'; rewrite dec_value_app, len_app.
  rewrite Z.pow_add_r by apply len_nonneg.
  cbn [dec_value foldl]; change (10 ^ len [x]) with 10; chars; lia.
Qed.

Lemma digits_filter l : digits (List.filter is_digit l).
Proof.
  unfold digits; induction l as [|x l IH]; [constructor|]; cbn; destruct (is_digit x) eqn:E; auto.
Qed.

Definition status_inv (pre : list Z) (h : http_state) : Prop :=
  status_pos h = Z.min 12 (len pre) /\ status h = status_of pre.

Lemma status_inv_step pre h b : status_inv pre h -> status_inv (pre ++ [b]) (status_step h b).
Proof.
  intros [Hp Hs]; unfold status_inv, status_step, status_of.
  pose proof (len_nonneg pre).
  destruct (Z.ltb_spec (status_pos h) 12); cbn [status_pos status].
  2: { split; [llia|]. rewrite Hs; unfold status_of.
       rewrite zdrop_app_le, ztake_app_le by llia; done. }
  split; [autorewrite with len; lia|].
  destruct (Z.leb_spec 9 (status_pos h)); cbn [andb].
  - rewrite zdrop_app_le, (ztake_ge 3) by llia.
    rewrite Hs; unfold status_of; rewrite (ztake_ge 3) by llia.
    rewrite List.filter_app; cbn [List.filter].
    destruct (is_digit b) eqn:Hd; [|by rewrite app_nil_r].
    set (ds := List.filter is_digit (zdrop 9 pre)).
    assert (Hb : 0 <= dec_value 0 ds < 100).
    { pose proof (dec_value_bound ds (digits_filter _)) as Hb.
      assert (len ds <= 2).
      { assert (len ds <= len (zdrop 9 pre)) by (unfold len, ds; pose proof (List.filter_length_le is_digit (zdrop 9 pre)); lia).
        llia. }
      pose proof (Z.pow_le_mono_r 10 (len ds) 2); lia. }
    apply is_digit_spec in Hd; rewrite dec_value_app; cbn [dec_value foldl].
    rewrite u16_small by (chars; lia); done.
  - rewrite Hs; unfold status_of; rewrite !(zdrop_ge 9) by llia; done.
Qed.

Definition scan_result (data : list Z) (h0 : http_state) (c : status_counters)
    (hc : http_state * status_counters) : Prop :=
  (exists head body,
     data = head ++ terminator ++ body /\ ~ has_terminator (head ++ take 3 terminator) /\
     headers_done (fst hc) = true /\
     bytes_received (fst hc) = usize (bytes_received h0 + len body) /\
     status (fst hc) = status_of (head ++ terminator) /\
     snd hc = note_status (status_of (head ++ terminator)) c) \/
  (~ has_terminator data /\ headers_done (fst hc) = false /\
   bytes_received (fst hc) = bytes_received h0 /\
   status_inv data (fst hc) /\ hdr_inv (hdr_state (fst hc)) data /\ snd hc = c).

Lemma count_loop_spec rest pre n h c :
  headers_done h = false -> hdr_inv (hdr_state h) pre -> ~ has_terminator pre ->
  status_inv pre h ->
  scan_result (pre ++ rest) h c (count_loop (n + len rest) n rest h c).
Proof.
  revert pre n h; induction rest as [|b rest IH]; intros pre n h Hd Hh Hn Hs; cbn [count_loop].
  { right; rewrite app_nil_r; cbn; split_and!; done. }
  pose proof (status_inv_step pre h b Hs) as Hs'.
  assert (Hhs : hdr_state (status_step h b) = hdr_state h) by (unfold status_step; by destruct (_ <? _)).
  assert (Hbr : bytes_received (status_step h b) = bytes_received h) by (unfold status_step; by destruct (_ <? _)).
  assert (Hhd : headers_done (status_step h b) = headers_done h) by (unfold status_step; by destruct (_ <? _)).
  rewrite Hhs, Hbr.
  assert (Hne : hdr_state h <> 4).
  { intros E; destruct Hh as (_ & _ & _ & _ & H4). apply proj2 in H4; destruct (H4 E) as [a ->].
    apply Hn; exists a, []; done. }
  pose proof (hdr_inv_step _ _ b Hh Hne) as Hh'.
  set (h1 := status_step h b) in *.
  destruct (Z.eqb_spec (hdr_step (hdr_state h) b) 4) as [E|E].
  - rewrite E in *; destruct Hh' as (_ & _ & _ & _ & H4).
    destruct (proj2 H4 eq_refl) as [a Ha]; change (take 4 terminator) with terminator in Ha.
    left; exists a, rest; cbn [fst snd headers_done bytes_received status].
    destruct Hs' as [_ Hst]; rewrite Ha in Hst.
    split_and!; try done.
    + change (b :: rest) with ([b] ++ rest); by rewrite app_assoc, Ha, <-app_assoc.
    + replace (a ++ take 3 terminator) with pre; [done|].
      change terminator with (take 3 terminator ++ [10]) in Ha; rewrite app_assoc in Ha.
      by apply app_inj_tail in Ha as [-> _].
    + f_equal; rewrite len_cons; lia.
    + by rewrite Hst.
  - rewrite len_cons; replace (n + (len rest + 1)) with (n + 1 + len rest) by lia.
    specialize (IH (pre ++ [b]) (n + 1)
      {| bytes_received := bytes_received h; headers_done := headers_done h1;
         hdr_state := hdr_step (hdr_state h) b; status := status h1; status_pos := status_pos h1 |}).
    rewrite <-app_assoc in IH; apply IH; cbn; [congruence|done| |done].
    rewrite has_terminator_snoc; intros [?|H4]; [done|].
    destruct Hh' as (_ & _ & _ & _ & H4'); tauto.
Qed.

Lemma count_body_scan data chunk c hc :
  scan_result data http_init c hc ->
  scan_result (data ++ chunk) http_init c (count_body (fst hc) (snd hc) chunk).
Proof.
  destruct hc as [h c']; cbn [fst snd]; unfold count_body.
  intros [(head & body & -> & Hf & Hd & Hb & Hs & Hc)|(Hn & Hd & Hb & Hs & Hh & Hc)];
    cbn [fst snd] in *; rewrite Hd.
  - left; exists head, (body ++ chunk); cbn [fst snd headers_done bytes_received status].
    split_and!; try done; [by rewrite <-!app_assoc|].
    rewrite Hb, len_app; unfold usize; rewrite Z.add_mod_idemp_l by lia; f_equal; lia.
  - subst c'; pose proof (count_loop_spec chunk data 0 h c Hd Hh Hn Hs) as H.
    unfold scan_result in *; by rewrite Hb in H.
Qed.

(** What has been scanned so far, whatever the shared counters were. *)
Definition counted (data : list Z) (h : http_state) : Prop :=
  exists c c', scan_result data http_init c (h, c').

Lemma count_loop_fst n i rest h c c' : fst (count_loop n i rest h c) = fst (count_loop n i rest h c').
Proof.
  revert i h; induction rest as [|b rest IH]; intros i h; cbn [count_loop]; [done|].
  destruct (_ =? 4); [done|apply IH].
Qed.

Lemma count_body_fst h c c' data : fst (count_body h c data) = fst (count_body h c' data).
Proof. unfold count_body; destruct (headers_done h); [done|apply count_loop_fst]. Qed.

Lemma counted_nil : counted [] http_init.
Proof.
  exists {| BAD_STATUS := 0; FIRST_BAD_STATUS := 0 |}; eexists; right; cbn; split_and!; try done;
    [|apply hdr_inv_nil].
  intros (a & b & H); apply (f_equal length) in H; rewrite !length_app in H; cbn in H; lia.
Qed.

Lemma counted_next data chunk h c :
  counted data h -> counted (data ++ chunk) (fst (count_body h c chunk)).
Proof.
  intros (c0 & c1 & Hs); pose proof (count_body_scan data chunk c0 (h, c1) Hs) as H; cbn [fst snd] in H.
  exists c0, (snd (count_body h c1 chunk)); rewrite (count_body_fst h c c1).
  by destruct (count_body h c1 chunk).
Qed.

(** What the scan has found in [data]: the bytes after the first blank line and
    the status before it, or nothing when there is none. *)
Definition body_of (data : list Z) (h : http_state) : Prop :=
  (exists head body,
     data = head ++ terminator ++ body /\ ~ has_terminator (head ++ take 3 terminator) /\
     headers_done h = true /\ bytes_received h = len body /\ status h = status_of (head ++ terminator)) \/
  (~ has_terminator data /\ headers_done h = false /\ bytes_received h = 0).

Lemma counted_body data h : len data < M64 -> counted data h -> body_of data h.
Proof.
  intros Hl (c & c' & [(head & body & E & Hf & Hd & Hb & Hs & _)|(Hn & Hd & Hb & _)]);
    cbn [fst snd] in *; [left|by right].
  exists head, body; split_and!; try done.
  rewrite Hb; cbn [bytes_received http_init]; apply usize_small.
  rewrite E in Hl; autorewrite with len in Hl.
  pose proof (len_nonneg head); pose proof (len_nonneg terminator); pose proof (len_nonneg body); lia.
Qed.

(** C37: the body count is exact however the response is cut.  Feeding the pieces
    of a response in order, one of two cases holds.  Either the response
    contains a blank line (CR LF CR LF): then the header is done, the bytes
    counted are exactly those after its first occurrence, the status is the
    number at bytes 9 to 11, and any status but 206 has been counted once; or
    it contains none: then nothing has been counted. *)
Theorem count_body_exact (chunks : list (list Z)) (c : status_counters) :
  len (concat chunks) < M64 ->
  let '(h, c') := count_chunks chunks (http_init, c) in
  (exists head body,
     concat chunks = head ++ terminator ++ body /\ ~ has_terminator (head ++ take 3 terminator) /\
     headers_done h = true /\ bytes_received h = len body /\
     status h = status_of (head ++ terminator) /\ c' = note_status (status h) c) \/
  (~ has_terminator (concat chunks) /\ headers_done h = false /\ bytes_received h = 0 /\ c' = c).
Proof.
  intros Hl.
  assert (H : scan_result (concat chunks) http_init c (count_chunks chunks (http_init, c))).
  { clear Hl; induction chunks as [|ch chunks IH] using rev_ind.
    - right; cbn; split_and!; try done; [|apply hdr_inv_nil].
      intros (a & b & H); apply (f_equal length) in H; rewrite !length_app in H; cbn in H; lia.
    - unfold count_chunks; rewrite fold_left_app, concat_app; cbn [fold_left concat].
      rewrite app_nil_r; by apply count_body_scan. }
  destruct (count_chunks chunks (http_init, c)) as [h c']; cbn [fst snd] in H.
  destruct H as [(head & body & E & Hf & Hd & Hb & Hs & Hc)|(Hn & Hd & Hb & _ & _ & Hc)];
    cbn [fst snd] in *; [left|by right].
  exists head, body; split_and!; try done; [|by rewrite Hs].
  rewrite Hb; cbn [bytes_received http_init]; apply usize_small.
  rewrite E in Hl; autorewrite with len in Hl.
  pose proof (len_nonneg head); pose proof (len_nonneg terminator); pose proof (len_nonneg body); lia.
Qed.

(** A 206 response in three pieces, the blank line cut in the middle. *)
Definition example_chunks : list (list Z) :=
  [str "HTTP/1.1 206 Partial Content" ++ [13]; [10; 13]; [10] ++ str "body"].

Lemma count_body_exact_witness :
  len (concat example_chunks) < M64 /\
  exists h c' head body,
    count_chunks example_chunks (http_init, {| BAD_STATUS := 0; FIRST_BAD_STATUS := 0 |}) = (h, c') /\
    bytes_received h = 4 /\ status h = 206 /\ BAD_STATUS c' = 0 /\
    concat example_chunks = head ++ terminator ++ body /\ bytes_received h = len body.
Proof.
  split; [reflexivity|].
  pose proof (count_body_exact example_chunks {| BAD_STATUS := 0; FIRST_BAD_STATUS := 0 |} eq_refl) as H.
  destruct (count_chunks _ _) as [h c'] eqn:E; vm_compute in E; injection E as <- <-.
  destruct H as [(head & body & E & _ & _ & Hb & _)|(_ & Hd & _)]; [|discriminate Hd].
  do 2 eexists; exists head, body; split_and!; try reflexivity; [exact E|exact Hb].
Defined.
