(* ===== verification/Arp.v ===== *)
(** The benchmark's own ARP exchange (src/bench/smoltcp-s3/src/lib.rs, "ARP
    helpers"): the 42-byte frame, the request and the synthetic reply built
    from it, and the recogniser of a reply. *)

From Stdlib Require Import ZArith Lia.
From stdpp Require Import base list numbers.
From S2P Require Import Prelude AppConfig Rss.

(* [lib.rs 778-793 arp_frame] *)
Definition arp_frame (dst_mac src_mac : list Z) (op : Z) (sender_ip target_mac target_ip : list Z)
  : outcome (list Z) :=
  let f := zreplicate 42 0 in
  let! f := copy_from_slice f 0 6 dst_mac in
  let! f := copy_from_slice f 6 12 src_mac in
  let! f := copy_from_slice f 12 14 [8; 6] in
  let! f := copy_from_slice f 14 16 [0; 1] in
  let! f := copy_from_slice f 16 18 [8; 0] in
  let! f := store f 18 6 in
  let! f := store f 19 4 in
  let! f := copy_from_slice f 20 22 (be16_bytes op) in
  let! f := copy_from_slice f 22 28 src_mac in
  let! f := copy_from_slice f 28 32 sender_ip in
  let! f := copy_from_slice f 32 38 target_mac in
  let! f := copy_from_slice f 38 42 target_ip in
  Ret f.

(* [lib.rs 795-797 build_arp_request] *)
Definition build_arp_request (our_mac our_ip target_ip : list Z) : outcome (list Z) :=
  arp_frame (zreplicate 6 255) our_mac 1 our_ip (zreplicate 6 0) target_ip.

(* [lib.rs 799-801 build_arp_reply] *)
Definition build_arp_reply (sender_mac sender_ip target_mac target_ip : list Z) : outcome (list Z) :=
  arp_frame target_mac sender_mac 2 sender_ip target_mac target_ip.

(** The comparisons are short-circuited: a frame shorter than 42 bytes is
    refused before it is sliced. *)
(* [lib.rs 803-813 parse_arp_reply_from] *)
Definition parse_arp_reply_from (frame expected_ip : list Z) : outcome (option (list Z)) :=
  if len frame <? 42 then Ret None
  else
    let! ty := slice frame 12 14 in
    if negb (bool_decide (ty = [8; 6])) then Ret None
    else
      let! op := slice frame 20 22 in
      if negb (bool_decide (op = [0; 2])) then Ret None
      else
        let! ip := slice frame 28 32 in
        if negb (bool_decide (ip = expected_ip)) then Ret None
        else
          let! mac := slice frame 22 28 in
          let! mac := copy_from_slice (zreplicate 6 0) 0 6 mac in
          Ret (Some mac).

(** The layout of an Ethernet/IPv4 ARP frame. *)
Definition arp_layout (dst_mac src_mac : list Z) (op : Z) (sender_ip target_mac target_ip : list Z)
  : list Z :=
  dst_mac ++ src_mac ++ [8; 6; 0; 1; 8; 0; 6; 4] ++ be16_bytes op ++
  src_mac ++ sender_ip ++ target_mac ++ target_ip.

Lemma list_len6 (l : list Z) : len l = 6 -> exists a b c d e f, l = [a; b; c; d; e; f].
Proof. destruct l as [|a [|b [|c [|d [|e [|f [|]]]]]]]; unfold len; cbn; intros; try lia; eauto 10. Qed.
Lemma list_len4 (l : list Z) : len l = 4 -> exists a b c d, l = [a; b; c; d].
Proof. destruct l as [|a [|b [|c [|d [|]]]]]; unfold len; cbn; intros; try lia; eauto 10. Qed.

Lemma arp_frame_layout dst src op sip tm tip :
  len dst = 6 -> len src = 6 -> len sip = 4 -> len tm = 6 -> len tip = 4 ->
  arp_frame dst src op sip tm tip = Ret (arp_layout dst src op sip tm tip) /\
  len (arp_layout dst src op sip tm tip) = 42.
Proof.
  intros (?&?&?&?&?&?&->)%list_len6 (?&?&?&?&?&?&->)%list_len6 (?&?&?&?&->)%list_len4
    (?&?&?&?&?&?&->)%list_len6 (?&?&?&?&->)%list_len4; split; reflexivity.
Qed.

(** Building ARP frames is total and [parse_arp_reply_from] recognises
    exactly replies.  A request or reply built from well-formed addresses has
    the standard 42-byte layout; parsing the reply of a host gives back that
    host's hardware address, and a request, or a reply of another host, is
    refused. *)
Theorem arp_reply_roundtrip (our_mac our_ip mac ip expected : list Z) :
  len our_mac = 6 -> len our_ip = 4 -> len mac = 6 -> len ip = 4 ->
  exists req rep,
    build_arp_request our_mac our_ip ip = Ret req /\
    req = arp_layout (zreplicate 6 255) our_mac 1 our_ip (zreplicate 6 0) ip /\
    parse_arp_reply_from req expected = Ret None /\
    build_arp_reply mac ip our_mac our_ip = Ret rep /\
    rep = arp_layout our_mac mac 2 ip our_mac our_ip /\
    parse_arp_reply_from rep expected = Ret (if bool_decide (ip = expected) then Some mac else None).
Proof.
  intros H1 H2 H3 H4; unfold build_arp_request, build_arp_reply.
  destruct (arp_frame_layout (zreplicate 6 255) our_mac 1 our_ip (zreplicate 6 0) ip) as [E1 _]; try done.
  destruct (arp_frame_layout our_mac mac 2 ip our_mac our_ip) as [E2 _]; try done.
  eexists _, _; split_and!; try done.
  - destruct (list_len6 _ H1) as (?&?&?&?&?&?&->), (list_len4 _ H2) as (?&?&?&?&->),
      (list_len4 _ H4) as (?&?&?&?&->); reflexivity.
  - destruct (list_len6 _ H1) as (?&?&?&?&?&?&->), (list_len4 _ H2) as (?&?&?&?&->),
      (list_len4 _ H4) as (a&b&c&d&->), (list_len6 _ H3) as (?&?&?&?&?&?&->).
    unfold parse_arp_reply_from; set (L := arp_layout _ _ _ _ _ _).
    change (len L) with 42; cbn [Z.ltb Z.compare Pos.compare Pos.compare_cont].
    rewrite !slice_ret by (change (len L) with 42; lia); cbn [obind].
    change (ztake (14 - 12) (zdrop 12 L)) with [8; 6].
    change (ztake (22 - 20) (zdrop 20 L)) with [0; 2].
    change (ztake (32 - 28) (zdrop 28 L)) with [a; b; c; d].
    rewrite !(bool_decide_eq_true_2 (_ = [_; _])) by done; cbn [negb].
    destruct (decide ([a; b; c; d] = expected)) as [<-|Hne].
    + by rewrite bool_decide_eq_true_2.
    + by rewrite bool_decide_eq_false_2.
Qed.

(** The parser never panics, and what it accepts is an ARP reply for the
    address asked for. *)
Lemma parse_arp_reply_from_total frame expected :
  exists o, parse_arp_reply_from frame expected = Ret o /\
    forall mac, o = Some mac ->
      42 <= len frame /\ ztake 2 (zdrop 12 frame) = [8; 6] /\ ztake 2 (zdrop 20 frame) = [0; 2] /\
      ztake 4 (zdrop 28 frame) = expected /\ mac = ztake 6 (zdrop 22 frame).
Proof.
  unfold parse_arp_reply_from; destruct (Z.ltb_spec (len frame) 42); [by exists None|].
  rewrite !slice_ret by lia; cbn [obind].
  destruct (bool_decide_reflect (ztake (14 - 12) (zdrop 12 frame) = [8; 6])) as [H1|]; [|by exists None].
  destruct (bool_decide_reflect (ztake (22 - 20) (zdrop 20 frame) = [0; 2])) as [H2|]; [|by exists None].
  destruct (bool_decide_reflect (ztake (32 - 28) (zdrop 28 frame) = expected)) as [H3|]; [|by exists None].
  cbn [negb]; rewrite copy_from_slice_ret by llia; cbn [obind].
  eexists; split; [done|]; intros mac [= <-]; split_and!; try done.
  rewrite write_at_0, (zdrop_ge _ (zreplicate 6 0)) by llia; apply app_nil_r.
Qed.

Lemma arp_reply_roundtrip_witness :
  exists rep, build_arp_reply [2; 0; 0; 0; 0; 9] [10; 0; 0; 1] [2; 0; 0; 0; 0; 1] [10; 0; 0; 2] = Ret rep /\
    parse_arp_reply_from rep [10; 0; 0; 1] = Ret (Some [2; 0; 0; 0; 0; 9]).
Proof.
  destruct (arp_reply_roundtrip [2; 0; 0; 0; 0; 1] [10; 0; 0; 2] [2; 0; 0; 0; 0; 9] [10; 0; 0; 1]
    [10; 0; 0; 1] eq_refl eq_refl eq_refl eq_refl) as (req & rep & _ & _ & _ & H1 & _ & H2).
  exists rep; split; [exact H1|exact H2].
Defined.
