(* ===== verification/Console.v ===== *)
(** The console of the benchmark (src/bench/smoltcp-s3/src/lib.rs,
    [print_line]): a line is formatted into a stack buffer, and a spin lock
    keeps the lines of concurrent workers apart. *)

From Stdlib Require Import ZArith Lia.
From stdpp Require Import base list numbers relations.
From S2P Require Import Prelude Http.

(* [lib.rs 109-109 LINE_MAX] *)
Definition LINE_MAX : Z := 256.

(** The bytes [print_line] hands to the console: the formatted text, cut so
    that the newline fits. *)
(* [lib.rs 131-142 print_line] *)
Definition format_line (frags : list (list Z)) : outcome (list Z) :=
  let! w := write_fmt (bw_new (zreplicate LINE_MAX 0)) frags in
  let used := bw_used w in
  let used := if used =? LINE_MAX then used - 1 else used in
  let! buf := store (bw_buf w) used 10 in
  slice buf 0 (used + 1).

(** The write loop, with the results [write(2)] will give; returns the bytes
    the console took.  A call answers at most the count asked for. *)
(* [lib.rs 150-157 print_line] the loop. *)
Fixpoint write_loop (line : list Z) (off : Z) (rets : list Z) : list Z :=
  match rets with
  | [] => []
  | n :: rets' =>
      if off <? len line then
        if n <=? 0 then []
        else ztake n (zdrop off line) ++ write_loop line (off + n) rets'
      else []
  end.

(** ** Concurrent printing

    A worker prints its lines one after the other.  While it holds the lock it
    is in [Writing]: [off] bytes of the line are out, and [rets] is a ghost
    record of what [write] has answered for this line. *)
Inductive pc : Type :=
| Idle
| Spinning (line : list Z)
| Writing (line : list Z) (off : Z) (rets : list Z).

Record worker : Type := { w_todo : list (list Z); w_pc : pc }.

(** The lock, the console, the workers; [log] is a ghost record of the lines
    finished: worker, line, and the answers of [write] the line has had. *)
(* [lib.rs 126-129 PRINT_LOCK] *)
Record console : Type := {
  PRINT_LOCK : bool;
  out : list Z;
  workers : list worker;
  log : list (nat * list Z * list Z);
}.

(** The loop is over: [off] has reached the end of the line, or the last
    [write] answered nothing or an error. *)
(* [lib.rs 151-154 print_line] *)
Definition loop_over (line : list Z) (off : Z) (rets : list Z) : bool :=
  (len line <=? off) || match last rets with Some n => n <=? 0 | None => false end.

(** One atomic action of a worker: the call of [print_line]; the
    [compare_exchange_weak] that fails, and changes nothing; the one that takes
    the lock; one round of the loop, with a [write] that answers [n]; and, once
    the loop is over, the store that releases the lock. *)
(* [lib.rs 131-159 print_line] *)
Inductive console_step (i : nat) : console -> console -> Prop :=
| step_call s line todo :
    workers s !! i = Some {| w_todo := line :: todo; w_pc := Idle |} ->
    console_step i s
      {| PRINT_LOCK := PRINT_LOCK s; out := out s;
         workers := <[i := {| w_todo := todo; w_pc := Spinning line |}]> (workers s); log := log s |}
| step_spin s line todo :
    workers s !! i = Some {| w_todo := todo; w_pc := Spinning line |} ->
    console_step i s s
| step_acquire s line todo :
    workers s !! i = Some {| w_todo := todo; w_pc := Spinning line |} ->
    PRINT_LOCK s = false ->
    console_step i s
      {| PRINT_LOCK := true; out := out s;
         workers := <[i := {| w_todo := todo; w_pc := Writing line 0 [] |}]> (workers s); log := log s |}
| step_write s line off rets todo n :
    workers s !! i = Some {| w_todo := todo; w_pc := Writing line off rets |} ->
    loop_over line off rets = false ->
    n <= len line - off ->
    console_step i s
      {| PRINT_LOCK := PRINT_LOCK s;
         out := out s ++ (if n <=? 0 then [] else ztake n (zdrop off line));
         workers := <[i := {| w_todo := todo;
                              w_pc := Writing line (if n <=? 0 then off else off + n) (rets ++ [n]) |}]>
                      (workers s);
         log := log s |}
| step_release s line off rets todo :
    workers s !! i = Some {| w_todo := todo; w_pc := Writing line off rets |} ->
    loop_over line off rets = true ->
    console_step i s
      {| PRINT_LOCK := false; out := out s;
         workers := <[i := {| w_todo := todo; w_pc := Idle |}]> (workers s);
         log := log s ++ [(i, line, rets)] |}.

Definition any_step (s s' : console) : Prop := exists i, console_step i s s'.

(** At the start nobody prints, and worker [i] will print the lines [progs !! i]. *)
Definition console_init (progs : list (list (list Z))) : console :=
  {| PRINT_LOCK := false; out := [];
     workers := map (fun p => {| w_todo := p; w_pc := Idle |}) progs; log := [] |}.

(** What the console shows of the finished lines. *)
Definition shown (lg : list (nat * list Z * list Z)) : list Z :=
  concat (map (fun e => write_loop (snd (fst e)) 0 (snd e)) lg).

(** The lines of worker [i] that the console has seen, is seeing, and will see. *)
Definition lines_of (i : nat) (s : console) : list (list Z) :=
  map (fun e => snd (fst e)) (filter (fun e => fst (fst e) = i) (log s)).

Definition remaining (w : worker) : list (list Z) :=
  match w_pc w with
  | Idle => w_todo w
  | Spinning l | Writing l _ _ => l :: w_todo w
  end.

(** ** One line *)

(** A printed line is always one line.  Whatever the fragments, formatting
    never panics, and yields the text cut to 255 bytes followed by a newline;
    and when the console takes at least one byte per call, the loop hands it
    the whole line, once and in order. *)
Theorem print_line_whole (frags : list (list Z)) :
  exists line, format_line frags = Ret line /\
    line = ztake (LINE_MAX - 1) (concat frags) ++ [10] /\ len line <= LINE_MAX /\
    forall rets, Forall (fun n => 0 < n) rets -> len line <= len rets ->
      write_loop line 0 rets = line.
Proof.
  unfold format_line.
  destruct (write_fmt_spec frags (bw_new (zreplicate LINE_MAX 0))) as (w & E & L & U & T).
  { split; vm_compute; discriminate. } { reflexivity. }
  rewrite E; cbn [obind bw_new bw_buf bw_used] in *.
  change (len (zreplicate LINE_MAX 0)) with 256 in *; rewrite (ztake_0 0), app_nil_l in T by lia.
  pose proof (len_nonneg (concat frags)) as Hc; rewrite Z.add_0_l in U.
  set (used := if bw_used w =? LINE_MAX then bw_used w - 1 else bw_used w).
  assert (Hu : used = Z.min 255 (len (concat frags))).
  { subst used; unfold LINE_MAX; destruct (Z.eqb_spec (bw_used w) 256); lia. }
  rewrite store_ret by lia; cbn [obind].
  rewrite slice_ret by (autorewrite with len; lia).
  exists (ztake 255 (concat frags) ++ [10]).
  assert (Hline : ztake (used + 1 - 0) (zdrop 0 (<[Z.to_nat used := 10]> (bw_buf w))) =
                  ztake 255 (concat frags) ++ [10]).
  { rewrite Z.sub_0_r; change (zdrop 0 (<[Z.to_nat used := 10]> (bw_buf w))) with (<[Z.to_nat used := 10]> (bw_buf w)).
    unfold ztake; replace (Z.to_nat (used + 1)) with (S (Z.to_nat used)) by lia.
    rewrite (take_S_r _ _ 10) by (apply list_lookup_insert_eq; unfold len in L; lia).
    rewrite take_insert_ge by lia; f_equal.
    change (take (Z.to_nat used) (bw_buf w)) with (ztake used (bw_buf w)).
    change (take (Z.to_nat 255) (concat frags)) with (ztake 255 (concat frags)).
    replace (ztake used (bw_buf w)) with (ztake used (ztake (bw_used w) (bw_buf w))).
    2: { rewrite ztake_ztake; f_equal; lia. }
    rewrite T, ztake_ztake.
    destruct (Z.le_ge_cases (len (concat frags)) 255); [by rewrite !ztake_ge by lia|f_equal; lia]. }
  rewrite Hline; split_and!; [done|done|unfold LINE_MAX; llia|].
  generalize (ztake 255 (concat frags) ++ [10]) as line; clear; intros line rets Hr Hl.
  assert (H : forall off, 0 <= off -> len line - off <= len rets -> write_loop line off rets = zdrop off line);
    [|by rewrite H by lia].
  clear Hl; induction Hr as [|n rets Hn Hr IH]; intros off Ho Hl; cbn [write_loop].
  - rewrite len_nil in Hl; by rewrite zdrop_ge by lia.
  - rewrite len_cons in Hl; destruct (Z.ltb_spec off (len line)).
    + rewrite (proj2 (Z.leb_gt n 0)), IH by lia.
      rewrite <-(zdrop_zdrop n off) by lia; apply ztake_zdrop.
    + by rewrite zdrop_ge.
Qed.


(** ** No interleaving *)

Definition writes (w : worker) : Prop := exists l off rets, w_pc w = Writing l off rets.

Definition taken (rets : list Z) : Z := foldr Z.add 0 rets.

(** The answers of [write] to a finished line: each took some bytes and the
    whole line is out; or the last answer is a failure, the only one, and the
    bytes the others took, fewer than the line has, are out. *)
Definition whole_or_failed (line rets : list Z) : Prop :=
  (Forall (fun n => 0 < n) rets /\ write_loop line 0 rets = line) \/
  exists took n, rets = took ++ [n] /\ Forall (fun n => 0 < n) took /\ n <= 0 /\
    taken took < len line /\ write_loop line 0 rets = ztake (taken took) line.

(** A worker in the loop: [off] bytes are out, which is what the answers have
    taken; the last of them may be a failure. *)
Definition loop_inv (line : list Z) (off : Z) (rets : list Z) : Prop :=
  0 <= off <= len line /\ write_loop line 0 rets = ztake off line /\
  exists took, Forall (fun n => 0 < n) took /\ off = taken took /\
    (rets = took \/ exists n, rets = took ++ [n] /\ n <= 0 /\ off < len line).

Lemma taken_nonneg rets : Forall (fun n => 0 < n) rets -> 0 <= taken rets.
Proof. induction 1; cbn; unfold taken in *; lia. Qed.

Lemma taken_snoc rets n : taken (rets ++ [n]) = taken rets + n.
Proof. unfold taken; induction rets as [|r rets IH]; cbn in *; lia. Qed.

Lemma write_loop_snoc line n rets :
  Forall (fun n => 0 < n) rets -> forall off, 0 <= off -> off + taken rets < len line ->
  write_loop line off (rets ++ [n]) =
  write_loop line off rets ++ (if n <=? 0 then [] else ztake n (zdrop (off + taken rets) line)).
Proof.
  induction 1 as [|r rets Hr0 Hr IH]; intros off Ho Hl; cbn in Hl.
  - cbn; rewrite Z.add_0_r in *; rewrite (proj2 (Z.ltb_lt _ _)) by lia.
    destruct (n <=? 0); [done|apply app_nil_r].
  - pose proof (taken_nonneg _ Hr); unfold taken in *; cbn [app write_loop foldr] in *.
    rewrite (proj2 (Z.ltb_lt off _)), (proj2 (Z.leb_gt r 0)) by lia.
    rewrite IH by lia; by rewrite <-app_assoc, Z.add_assoc.
Qed.

Lemma loop_inv_write line off rets n :
  loop_inv line off rets -> loop_over line off rets = false -> n <= len line - off ->
  loop_inv line (if n <=? 0 then off else off + n) (rets ++ [n]) /\
  ztake (if n <=? 0 then off else off + n) line =
    ztake off line ++ (if n <=? 0 then [] else ztake n (zdrop off line)).
Proof.
  intros (Hoff & Hw & took & Hpos & -> & Hr) Hover Hn.
  apply orb_false_iff in Hover as [Hlt Hlast]; apply Z.leb_gt in Hlt.
  destruct Hr as [->|(m & -> & Hm & _)].
  2: { rewrite last_snoc in Hlast; apply Z.leb_gt in Hlast; lia. }
  pose proof (write_loop_snoc line n took Hpos 0 ltac:(lia) ltac:(lia)) as Hs.
  rewrite Z.add_0_l, Hw in Hs.
  assert (E : ztake (if n <=? 0 then taken took else taken took + n) line =
    ztake (taken took) line ++ (if n <=? 0 then [] else ztake n (zdrop (taken took) line))).
  { destruct (Z.leb_spec n 0); [by rewrite app_nil_r|symmetry; apply ztake_add; lia]. }
  split; [|exact E]; split; [destruct (Z.leb_spec n 0); lia|]; split; [by rewrite Hs, E|].
  destruct (Z.leb_spec n 0).
  - exists took; split_and!; [done|done|right; by exists n].
  - exists (took ++ [n]); split_and!; [apply Forall_app; split; [done|by repeat constructor]
      |by rewrite taken_snoc|by left].
Qed.

Lemma loop_inv_over line off rets :
  loop_inv line off rets -> loop_over line off rets = true ->
  whole_or_failed line rets /\ write_loop line 0 rets = ztake off line.
Proof.
  intros (Hoff & Hw & took & Hpos & -> & Hr) Hover; split; [|done].
  destruct Hr as [->|(m & -> & Hm & Hlt)].
  - left; split; [done|]; rewrite Hw; apply ztake_ge.
    apply orb_true_iff in Hover as [H|H]; [apply Z.leb_le in H; lia|exfalso].
    destruct (last took) as [x|] eqn:El; [|done].
    apply last_Some_elem_of in El; rewrite Forall_forall in Hpos.
    specialize (Hpos _ El); apply Z.leb_le in H; lia.
  - right; by exists took, m.
Qed.

(** Nobody writes and the lock is free, or exactly one worker writes, the lock
    is taken, and the console ends with the part of the line it has written. *)
Definition console_inv (s : console) : Prop :=
  Forall (fun e => whole_or_failed (snd (fst e)) (snd e)) (log s) /\
  ((PRINT_LOCK s = false /\ out s = shown (log s) /\
    forall i w, workers s !! i = Some w -> ~ writes w) \/
   (PRINT_LOCK s = true /\ exists i l off rets todo,
      workers s !! i = Some {| w_todo := todo; w_pc := Writing l off rets |} /\ loop_inv l off rets /\
      out s = shown (log s) ++ ztake off l /\
      forall j w, workers s !! j = Some w -> writes w -> j = i)).

Lemma shown_snoc lg e : shown (lg ++ [e]) = shown lg ++ write_loop (snd (fst e)) 0 (snd e).
Proof. unfold shown; rewrite map_app, concat_app; cbn; by rewrite app_nil_r. Qed.

(** A step by a worker that does not hold the lock, to a state in which it does
    not either, keeps the invariant. *)
Lemma console_inv_quiet s i w w' :
  console_inv s -> workers s !! i = Some w -> ~ writes w -> ~ writes w' ->
  console_inv {| PRINT_LOCK := PRINT_LOCK s; out := out s;
                 workers := <[i := w']> (workers s); log := log s |}.
Proof.
  intros [Hl Hi] Hw Hn Hn'; split; [exact Hl|]; cbn.
  destruct Hi as [(E & Ho & Hf)|(E & k & l & off & rets & todo & Hk & Hoff & Ho & Hu)]; [left|right];
    split; try done; [split; [done|]|].
  - intros j x Hj; rewrite list_lookup_insert in Hj; destruct (decide _) as [[-> _]|]; [|eauto].
    by injection Hj as <-.
  - exists k, l, off, rets, todo; split_and!; [|done|done|].
    + rewrite list_lookup_insert_ne; [done|]. intros ->; rewrite Hw in Hk; injection Hk as ->.
      apply Hn; by exists l, off, rets.
    + intros j x Hj Hx; rewrite list_lookup_insert in Hj; destruct (decide _) as [[-> _]|]; [|eauto].
      by injection Hj as <-.
Qed.

Ltac not_writes := intros (? & ? & ? & ?); discriminate.

(** The worker in the loop is the one the invariant speaks of. *)
Lemma console_inv_writer s i l off rets todo :
  console_inv s -> workers s !! i = Some {| w_todo := todo; w_pc := Writing l off rets |} ->
  PRINT_LOCK s = true /\ loop_inv l off rets /\ out s = shown (log s) ++ ztake off l /\
  forall j w, workers s !! j = Some w -> writes w -> j = i.
Proof.
  intros [_ [(_ & _ & Hf)|(E & k & l' & off' & rets' & todo' & Hk & Hoff & Ho & Hu)]] Hw.
  { destruct (Hf _ _ Hw); by exists l, off, rets. }
  assert (i = k) as <- by (eapply Hu; [done|by exists l, off, rets]).
  rewrite Hw in Hk; by injection Hk as <- <- <- <-.
Qed.

Lemma console_inv_step s s' : console_inv s -> any_step s s' -> console_inv s'.
Proof.
  intros Hs [i Hstep]; destruct Hstep as [s line todo Hw|s line todo Hw|s line todo Hw Hlock
    |s line off rets todo n Hw Hover Hn|s line off rets todo Hw Hover].
  - eapply console_inv_quiet; [done|exact Hw|not_writes..].
  - done.
  - destruct Hs as [Hl [(_ & Ho & Hf)|(E & _)]]; [|congruence].
    split; [exact Hl|]; right; split; [done|]; cbn.
    exists i, line, 0, [], todo; split_and!.
    + apply list_lookup_insert_eq; by apply lookup_lt_Some in Hw.
    + split; [split; [lia|apply len_nonneg]|]; split; [by rewrite ztake_0|].
      exists []; split_and!; [done|done|by left].
    + by rewrite ztake_0, app_nil_r.
    + intros j x Hj Hx; rewrite list_lookup_insert in Hj; destruct (decide _) as [[-> _]|]; [done|].
      by destruct (Hf _ _ Hj).
  - destruct (console_inv_writer _ _ _ _ _ _ Hs Hw) as (E & Hoff & Ho & Hu).
    destruct (loop_inv_write _ _ _ n Hoff Hover Hn) as [Hoff' Hout].
    destruct Hs as [Hl _]; split; [exact Hl|]; right; split; [exact E|]; cbn.
    eexists i, line, _, _, todo; split_and!; [|exact Hoff'|by rewrite Ho, Hout, app_assoc|].
    + apply list_lookup_insert_eq; by apply lookup_lt_Some in Hw.
    + intros j x Hj Hx; rewrite list_lookup_insert in Hj; destruct (decide _) as [[-> _]|]; [done|].
      by eapply Hu.
  - destruct (console_inv_writer _ _ _ _ _ _ Hs Hw) as (E & Hoff & Ho & Hu).
    destruct (loop_inv_over _ _ _ Hoff Hover) as [Hd Hshow].
    destruct Hs as [Hl _]; split; [apply Forall_app; split; [exact Hl|by apply Forall_singleton]|].
    left; split_and!; [done|by cbn [out log]; rewrite shown_snoc; cbn [fst snd]; rewrite Hshow|]; cbn [workers].
    intros j x Hj Hx; rewrite list_lookup_insert in Hj; destruct (decide _) as [[-> _]|Hne].
    + injection Hj as <-; destruct Hx as (? & ? & ? & ?); discriminate.
    + destruct Hne; split; [symmetry; by eapply Hu|by apply lookup_lt_Some in Hw].
Qed.

Definition program_of (s : console) (i : nat) : option (list (list Z)) :=
  (fun w => lines_of i s ++ remaining w) <$> workers s !! i.

Lemma program_of_insert s i j w w' lock o lg :
  workers s !! i = Some w ->
  (fun x => map (fun e => snd (fst e)) (filter (fun e => fst (fst e) = i) lg) ++ remaining x) w' =
    lines_of i s ++ remaining w ->
  (j <> i -> filter (fun e => fst (fst e) = j) lg = filter (fun e => fst (fst e) = j) (log s)) ->
  program_of {| PRINT_LOCK := lock; out := o; workers := <[i := w']> (workers s); log := lg |} j =
  program_of s j.
Proof.
  intros Hw Heq Hne; unfold program_of, lines_of in *; cbn.
  destruct (decide (j = i)) as [->|H].
  - rewrite list_lookup_insert_eq by (by apply lookup_lt_Some in Hw); rewrite Hw; cbn; by rewrite Heq.
  - rewrite list_lookup_insert_ne by congruence; by rewrite Hne.
Qed.

Lemma program_of_step s s' j : any_step s s' -> program_of s' j = program_of s j.
Proof.
  intros [i Hstep]; destruct Hstep as [s line todo Hw|s line todo Hw|s line todo Hw Hlock
    |s line off rets todo n Hw Hover Hn|s line off rets todo Hw Hover]; [|done|..];
    (eapply program_of_insert; [exact Hw|try done|try done]).
  - rewrite list.filter_app, map_app, filter_cons_True by done; unfold lines_of, remaining.
    by rewrite <-app_assoc.
  - intros Hne; rewrite list.filter_app, filter_cons_False by (cbn; congruence).
    apply app_nil_r.
Qed.

(** C38: the lines of concurrent workers do not interleave.  In every state that
    any interleaving of the workers reaches, the lock is held by at most one
    writer; the console shows a sequence of finished lines, followed by the part
    of the line the lock holder has written so far, if any; a finished line is
    shown whole unless the last [write] called for it failed, and then the
    console shows the bytes the earlier calls took; and each worker's lines
    appear once and in its own order. *)
Theorem print_line_atomic (progs : list (list (list Z))) (s : console) :
  rtc any_step (console_init progs) s ->
  (forall i j w w', workers s !! i = Some w -> workers s !! j = Some w' ->
     writes w -> writes w' -> i = j /\ PRINT_LOCK s = true) /\
  (exists partial, out s = shown (log s) ++ partial /\
     (PRINT_LOCK s = false -> partial = []) /\
     (partial <> [] -> exists i l off rets todo,
        workers s !! i = Some {| w_todo := todo; w_pc := Writing l off rets |} /\ partial = ztake off l)) /\
  Forall (fun e => whole_or_failed (snd (fst e)) (snd e)) (log s) /\
  (forall i, (fun w => lines_of i s ++ remaining w) <$> workers s !! i = progs !! i).
Proof.
  intros Hr.
  assert (Hinv : console_inv s /\ forall j, program_of s j = progs !! j).
  { revert s Hr; refine (rtc_ind_r _ (console_init progs) _ _).
    - split.
      + split; [constructor|]; left; split_and!; [done|done|]; cbn.
        intros i w Hw; rewrite list_lookup_fmap in Hw; destruct (progs !! i); [|done].
        injection Hw as <-; not_writes.
      + intros j; unfold program_of; cbn; rewrite list_lookup_fmap; by destruct (progs !! j).
    - intros s1 s2 _ Hst [Hi Hp]; split; [by eapply console_inv_step|].
      intros j; by rewrite (program_of_step s1 s2 j Hst). }
  destruct Hinv as [[Hl Hi] Hp]; split_and!; [| |done|exact Hp].
  - destruct Hi as [(_ & _ & Hf)|(E & k & l & off & rets & todo & _ & _ & _ & Hu)].
    + intros i j w w' Hw _ Hx; by destruct (Hf _ _ Hw).
    + intros i j w w' Hw Hw' Hx Hx'; split; [|done].
      by rewrite (Hu _ _ Hw Hx), (Hu _ _ Hw' Hx').
  - destruct Hi as [(E & Ho & _)|(E & k & l & off & rets & todo & Hk & _ & Ho & _)].
    + exists []; by rewrite app_nil_r.
    + exists (ztake off l); split_and!; [done|congruence|]. intros _; by exists k, l, off, rets, todo.
Qed.

(** Three workers: the first has printed its line in two writes, the console
    refused the second byte of the second's line, and the third is in the
    middle of its own. *)
Definition example_progs : list (list (list Z)) := [[[65; 66; 10]]; [[67; 10]]; [[68; 10]]].

Definition example_mid : console :=
  {| PRINT_LOCK := true; out := [65; 66; 10; 67; 68];
     workers := [{| w_todo := []; w_pc := Idle |}; {| w_todo := []; w_pc := Idle |};
                 {| w_todo := []; w_pc := Writing [68; 10] 1 [1] |}];
     log := [(0%nat, [65; 66; 10], [1; 2]); (1%nat, [67; 10], [1; -1])] |}.

Lemma print_line_atomic_witness :
  rtc any_step (console_init example_progs) example_mid /\
  Forall (fun e => whole_or_failed (snd (fst e)) (snd e)) (log example_mid) /\
  exists partial, out example_mid = shown (log example_mid) ++ partial.
Proof.
  assert (H : rtc any_step (console_init example_progs) example_mid).
  { eapply rtc_l; [exists 0%nat; by eapply step_call|cbn].
    eapply rtc_l; [exists 0%nat; by eapply step_acquire|cbn].
    eapply rtc_l; [exists 1%nat; by eapply step_call|cbn].
    eapply rtc_l; [exists 0%nat; by eapply (step_write _ _ _ _ _ _ 1)|cbn].
    eapply rtc_l; [exists 2%nat; by eapply step_call|cbn].
    eapply rtc_l; [exists 0%nat; by eapply (step_write _ _ _ _ _ _ 2)|cbn].
    eapply rtc_l; [exists 0%nat; by eapply step_release|cbn].
    eapply rtc_l; [exists 1%nat; by eapply step_acquire|cbn].
    eapply rtc_l; [exists 1%nat; by eapply (step_write _ _ _ _ _ _ 1)|cbn].
    eapply rtc_l; [exists 1%nat; by eapply (step_write _ _ _ _ _ _ (-1))|cbn].
    eapply rtc_l; [exists 1%nat; by eapply step_release|cbn].
    eapply rtc_l; [exists 2%nat; by eapply step_acquire|cbn].
    eapply rtc_l; [exists 2%nat; by eapply (step_write _ _ _ _ _ _ 1)|cbn].
    apply rtc_refl. }
  split; [exact H|].
  destruct (print_line_atomic example_progs example_mid H) as (_ & (partial & Ho & _) & Hl & _).
  split; [exact Hl|by exists partial].
Defined.
