(* ===== verification/Assembler.v ===== *)
(** The reassembly bookkeeping of the TCP receive path
    (vendor/smoltcp/src/storage/assembler.rs): an array of contigs, each a hole
    followed by data, that records which byte ranges beyond the in-order data
    have arrived. *)

From Stdlib Require Import ZArith Lia ZifyBool.
From stdpp Require Import base list numbers.
From S2P Require Import Prelude.

(* [storage/assembler.rs 17-22 Contig] *)
Record contig : Type := { hole_size : Z; data_size : Z }.

(* [storage/assembler.rs 55-60 Contig::empty] *)
Definition empty : contig := {| hole_size := 0; data_size := 0 |}.

(* [storage/assembler.rs 62-67 Contig::hole_and_data] *)
Definition hole_and_data (h d : Z) : contig := {| hole_size := h; data_size := d |}.

(* [storage/assembler.rs 69-71 Contig::has_hole] *)
Definition has_hole (c : contig) : bool := negb (hole_size c =? 0).

(* [storage/assembler.rs 73-75 Contig::has_data] *)
Definition has_data (c : contig) : bool := negb (data_size c =? 0).

(* [storage/assembler.rs 77-79 Contig::total_size] *)
Definition total_size (c : contig) : Z := usize (hole_size c + data_size c).

(* [storage/assembler.rs 81-83 Contig::shrink_hole_by] *)
Definition shrink_hole_by (c : contig) (size : Z) : contig :=
  {| hole_size := usize (hole_size c - size); data_size := data_size c |}.

(* [storage/assembler.rs 85-91 Contig::shrink_hole_to] *)
Definition shrink_hole_to (c : contig) (size : Z) : contig :=
  {| hole_size := size; data_size := usize (total_size c - size) |}.

(** The assembler is its array of contigs; the length of the array is
    [ASSEMBLER_MAX_SEGMENT_COUNT], 4 in this build.  The theorems hold for any
    length. *)
(* [storage/assembler.rs 98-100 Assembler] *)
Definition assembler : Type := list contig.
Definition ASSEMBLER_MAX_SEGMENT_COUNT : Z := 4.

Variant assembler_error : Type := TooManyHolesError.

(* [storage/assembler.rs 136-141 Assembler::new] *)
Definition assembler_new : assembler := zreplicate ASSEMBLER_MAX_SEGMENT_COUNT empty.

(* [storage/assembler.rs 143-145 Assembler::clear] *)
Definition clear (a : assembler) : assembler := zreplicate (len a) empty.

(* [storage/assembler.rs 147-149 Assembler::front] *)
Definition front (a : assembler) : outcome contig := index a 0.

(* [storage/assembler.rs 152-155 Assembler::peek_front] *)
Definition peek_front (a : assembler) : outcome Z :=
  let! f := front a in
  Ret (if has_hole f then 0 else data_size f).

(* [storage/assembler.rs 157-159 Assembler::back] *)
Definition back (a : assembler) : outcome contig := index a (len a - 1).

(* [storage/assembler.rs 162-164 Assembler::is_empty] *)
Definition is_empty (a : assembler) : outcome bool :=
  let! f := front a in Ret (negb (has_data f)).

(** The loop over [i]: the early return skips the final store. *)
(* [storage/assembler.rs 170-178 Assembler::remove_contig_at] the loop. *)
Fixpoint remove_contig_loop (n : nat) (i : Z) (a : assembler) : outcome assembler :=
  match n with
  | O => store a (len a - 1) empty
  | S n' =>
      let! c := index a i in
      if negb (has_data c) then Ret a
      else
        let! c := index a (i + 1) in
        let! a := store a i c in
        remove_contig_loop n' (i + 1) a
  end.

(* [storage/assembler.rs 167-179 Assembler::remove_contig_at] *)
Definition remove_contig_at (a : assembler) (i : Z) : outcome assembler :=
  remove_contig_loop (Z.to_nat (len a - 1 - i)) i a.

(** The descending loop [for i in (at + 1..len).rev()]; [n] counts the indices left. *)
(* [storage/assembler.rs 187-189 Assembler::add_contig_at] the loop. *)
Fixpoint add_contig_loop (n : nat) (i : Z) (a : assembler) : outcome assembler :=
  match n with
  | O => Ret a
  | S n' =>
      let! c := index a (i + Z.of_nat n' ) in
      let! a := store a (i + Z.of_nat n' + 1) c in
      add_contig_loop n' i a
  end.

(* [storage/assembler.rs 182-193 Assembler::add_contig_at] *)
Definition add_contig_at (a : assembler) (i : Z) : outcome (result assembler assembler_error) :=
  let! b := back a in
  if has_data b then Ret (Err TooManyHolesError)
  else
    let! a := add_contig_loop (Z.to_nat (len a - 1 - i)) i a in
    let! a := store a i empty in
    Ret (Ok a).

(** Where the search of [add] stops: past the array, at an unused contig, or
    at the contig that contains the start of the range. *)
Inductive found : Type :=
| NoSpace
| Unused (i offset : Z)
| Inside (i offset : Z).

(** The search loop; [rest] is [contigs[i..]]. *)
(* [storage/assembler.rs 205-221 Assembler::add] the search. *)
Fixpoint add_find (rest : list contig) (i offset : Z) : found :=
  match rest with
  | [] => NoSpace
  | c :: rest' =>
      if negb (has_data c) then Unused i offset
      else if offset <=? total_size c then Inside i offset
      else add_find rest' (i + 1) (usize (offset - total_size c))
  end.

(** The coalescing loop; [rest] is [contigs[j..]], [ci] is [contigs[i]].
    Returns [contigs[i]] and the number of contigs absorbed. *)
(* [storage/assembler.rs 243-252 Assembler::add] the coalescing. *)
Fixpoint coalesce (stop : Z) (ci : contig) (rest : list contig) : contig * Z :=
  match rest with
  | [] => (ci, 0)
  | cj :: rest' =>
      if has_data cj && (usize (total_size ci + hole_size cj) <=? stop) then
        let '(ci, n) := coalesce stop
          {| hole_size := hole_size ci; data_size := usize (data_size ci + total_size cj) |} rest' in
        (ci, n + 1)
      else (ci, 0)
  end.

(* [storage/assembler.rs 254-264 Assembler::add] the shift. *)
Fixpoint shift_loop (n : nat) (x shift : Z) (a : assembler) : outcome assembler :=
  match n with
  | O => Ret a
  | S n' =>
      let! c := index a x in
      if negb (has_data c) then Ret a
      else
        let c := match a !! Z.to_nat (x + shift) with Some c => c | None => empty end in
        let! a := store a x c in
        shift_loop n' (x + 1) shift a
  end.

(* [storage/assembler.rs 197-279 Assembler::add] *)
Definition add (a : assembler) (offset size : Z) : outcome (result assembler assembler_error) :=
  if size =? 0 then Ret (Ok a)
  else
    match add_find a 0 offset with
    | NoSpace => Ret (Err TooManyHolesError)
    | Unused i offset =>
        let! a := store a i (hole_and_data offset size) in Ret (Ok a)
    | Inside i offset =>
        let stop := usize (offset + size) in
        let! c := index a i in
        if (offset <? hole_size c) && (stop <? hole_size c) then
          let! r := add_contig_at a i in
          match r with
          | Err e => Ret (Err e)
          | Ok a =>
              let! a := store a i {| hole_size := offset; data_size := size |} in
              let! next := index a (i + 1) in
              let! a := store a (i + 1) (shrink_hole_by next stop) in
              Ret (Ok a)
          end
        else
          let c := if offset <? hole_size c then shrink_hole_to c offset else c in
          let '(c, shift) := coalesce stop c (zdrop (i + 1) a) in
          let! a := store a i c in
          let! a := (if negb (shift =? 0)
                     then shift_loop (Z.to_nat (len a - (i + 1))) (i + 1) shift a
                     else Ret a) in
          let! c := index a i in
          if total_size c <? stop then
            let left := usize (stop - total_size c) in
            let! a := store a i {| hole_size := hole_size c; data_size := usize (data_size c + left) |} in
            if i + 1 <? len a then
              let! next := index a (i + 1) in
              if has_data next then
                let! a := store a (i + 1) (shrink_hole_by next left) in Ret (Ok a)
              else Ret (Ok a)
            else Ret (Ok a)
          else Ret (Ok a)
    end.

(* [storage/assembler.rs 283-292 Assembler::remove_front] *)
Definition remove_front (a : assembler) : outcome (Z * assembler) :=
  let! f := front a in
  if has_hole f || negb (has_data f) then Ret (0, a)
  else
    let! a := remove_contig_at a 0 in
    Ret (data_size f, a).

(* [storage/assembler.rs 300-315 Assembler::add_then_remove_front] *)
Definition add_then_remove_front (a : assembler) (offset size : Z)
  : outcome (result (Z * assembler) assembler_error) :=
  let! c0 := index a 0 in
  if (offset =? 0) && (size <? hole_size c0) then
    let! a := store a 0 {| hole_size := usize (hole_size c0 - size); data_size := data_size c0 |} in
    Ret (Ok (size, a))
  else
    let! r := add a offset size in
    match r with
    | Err e => Ret (Err e)
    | Ok a => let! (n, a) := remove_front a in Ret (Ok (n, a))
    end.

(** The accumulated offset, threaded by the iterator's closure. *)
(* [storage/assembler.rs 326-339 Assembler::iter_data] *)
Fixpoint iter_data (offset : Z) (a : list contig) : list (Z * Z) :=
  match a with
  | [] => []
  | c :: a' =>
      let left := usize (offset + hole_size c) in
      let right := usize (left + data_size c) in
      if left <? right then (left, right) :: iter_data right a' else iter_data right a'
  end.

(** ** Specifications

    The contigs in use, without the unused tail of the array: a list of
    alternating holes and data.  [covers us p] says that byte [p] is recorded
    as present. *)
Fixpoint covers (us : list contig) (p : Z) : bool :=
  match us with
  | [] => false
  | c :: us' =>
      (hole_size c <=? p) && (p <? hole_size c + data_size c) ||
      covers us' (p - (hole_size c + data_size c))
  end.

(** [p] is in the [size] bytes from [offset] on. *)
Definition in_range (offset size p : Z) : bool := (offset <=? p) && (p <? offset + size).

Definition size_of (c : contig) : Z := hole_size c + data_size c.
Definition span (us : list contig) : Z := foldr (fun c n => size_of c + n) 0 us.

(** The documented invariant: contigs in use hold data, and all but the first
    have a hole before it; the others are empty. *)
Definition used_ok (us : list contig) : Prop :=
  Forall (fun c => 0 <= hole_size c /\ 0 < data_size c) us /\
  Forall (fun c => 0 < hole_size c) (tail us).

Definition pad (n : nat) (us : list contig) : assembler :=
  us ++ replicate (n - length us) empty.

(** [a] is an array of [n] slots whose contigs in use are [us]. *)
Definition represents (n : nat) (a : assembler) (us : list contig) : Prop :=
  a = pad n us /\ (length us <= n)%nat /\ used_ok us /\ span us < M64.

(** Adding a range, on the list of contigs in use and without bounds: the
    reference the array operation is compared with. *)
Fixpoint absorb (stop : Z) (c : contig) (us : list contig) : contig * list contig :=
  match us with
  | [] => (c, [])
  | d :: us' =>
      if size_of c + hole_size d <=? stop
      then absorb stop {| hole_size := hole_size c; data_size := data_size c + size_of d |} us'
      else (c, us)
  end.

Definition extend (stop : Z) (c : contig) (us : list contig) : list contig :=
  if size_of c <? stop then
    {| hole_size := hole_size c; data_size := stop - hole_size c |} ::
    match us with
    | [] => []
    | d :: us' =>
        {| hole_size := hole_size d - (stop - size_of c); data_size := data_size d |} :: us'
    end
  else c :: us.

Definition merge (offset size : Z) (c : contig) (us : list contig) : list contig :=
  let stop := offset + size in
  if stop <? hole_size c then
    {| hole_size := offset; data_size := size |} ::
    {| hole_size := hole_size c - stop; data_size := data_size c |} :: us
  else
    let c := if offset <? hole_size c
             then {| hole_size := offset; data_size := size_of c - offset |} else c in
    let '(c, us) := absorb stop c us in
    extend stop c us.

Fixpoint insert_range (offset size : Z) (us : list contig) : list contig :=
  match us with
  | [] => [{| hole_size := offset; data_size := size |}]
  | c :: us' =>
      if offset <=? size_of c then merge offset size c us'
      else c :: insert_range (offset - size_of c) size us'
  end.

(** ** The array loops *)

Lemma has_data_empty : has_data empty = false.
Proof. done. Qed.

Fixpoint removed (rest : list contig) : list contig :=
  match rest with
  | [] => []
  | d :: r =>
      match r with
      | [] => [empty]
      | e :: _ => if has_data d then e :: removed r else d :: r
      end
  end.

Lemma remove_contig_loop_spec pre d r :
  remove_contig_loop (length r) (len pre) (pre ++ d :: r) = Ret (pre ++ removed (d :: r)).
Proof.
  revert pre d; induction r as [|e r IH]; intros pre d; cbn [length remove_contig_loop].
  - by rewrite store_middle by llia.
  - rewrite index_middle by done; cbn [obind removed]; destruct (has_data d); cbn [negb]; [|done].
    replace (pre ++ d :: e :: r) with ((pre ++ [d]) ++ e :: r) by (by rewrite <-app_assoc).
    rewrite index_middle by llia; cbn [obind].
    rewrite <-app_assoc; cbn [app]; rewrite store_middle by done; cbn [obind].
    replace (pre ++ e :: e :: r) with ((pre ++ [e]) ++ e :: r) by (by rewrite <-app_assoc).
    replace (len pre + 1) with (len (pre ++ [e])) by llia.
    by rewrite IH, <-app_assoc.
Qed.

Lemma removed_empty k : removed (replicate k empty) = replicate k empty.
Proof. destruct k as [|[|k]]; reflexivity. Qed.

Lemma removed_pad k c us :
  Forall (fun c => has_data c = true) (c :: us) ->
  removed ((c :: us) ++ replicate k empty) = us ++ replicate (S k) empty.
Proof.
  revert c; induction us as [|d us IH]; intros c Hd; inversion Hd as [|? ? Hc Hus]; subst; cbn [app].
  - destruct k as [|k]; [done|]; cbn [replicate removed]; rewrite Hc.
    f_equal; apply (removed_empty (S k)).
  - cbn [removed]; rewrite Hc; f_equal; by apply IH.
Qed.

Lemma remove_contig_at_spec k c us :
  Forall (fun c => has_data c = true) (c :: us) ->
  remove_contig_at (c :: us ++ replicate k empty) 0 = Ret (us ++ replicate (S k) empty).
Proof.
  intros Hd; unfold remove_contig_at.
  replace (Z.to_nat _) with (length (us ++ replicate k empty)) by (unfold len; cbn; lia).
  pose proof (remove_contig_loop_spec [] c (us ++ replicate k empty)) as H; cbn [app] in H.
  cbn [app]; change (len []) with 0 in H; rewrite H; f_equal; by apply removed_pad.
Qed.

Lemma add_contig_loop_spec pre l x post :
  add_contig_loop (length l) (len pre) (pre ++ l ++ x :: post) =
  Ret (pre ++ default x (head l) :: l ++ post).
Proof.
  revert x post; induction l as [|y l IH] using rev_ind; intros x post; [done|].
  rewrite length_app; cbn [length]; rewrite Nat.add_1_r; cbn [add_contig_loop].
  replace (pre ++ (l ++ [y]) ++ x :: post) with ((pre ++ l) ++ y :: x :: post) by (by rewrite <-!app_assoc).
  rewrite index_middle by (unfold len; rewrite length_app; lia); cbn [obind].
  replace ((pre ++ l) ++ y :: x :: post) with ((pre ++ l ++ [y]) ++ x :: post) by (by rewrite <-!app_assoc).
  rewrite store_middle by (unfold len; rewrite !length_app; cbn; lia); cbn [obind].
  replace ((pre ++ l ++ [y]) ++ y :: post) with (pre ++ l ++ y :: y :: post) by (by rewrite <-!app_assoc).
  rewrite IH; f_equal; f_equal.
  destruct l; cbn; [done|]; by rewrite <-app_assoc.
Qed.

Lemma add_contig_at_spec pre l x :
  has_data x = false ->
  add_contig_at (pre ++ l ++ [x]) (len pre) = Ret (Ok (pre ++ empty :: l)).
Proof.
  intros Hx; unfold add_contig_at, back.
  rewrite app_assoc, index_middle by (unfold len; rewrite !length_app; cbn; lia); cbn [obind]; rewrite Hx.
  rewrite <-app_assoc.
  replace (Z.to_nat _) with (length l) by (unfold len; rewrite !length_app; cbn; lia).
  rewrite add_contig_loop_spec; cbn [obind].
  rewrite store_middle by done; cbn [obind]; by rewrite app_nil_r.
Qed.

Fixpoint shifted (s : nat) (rest : list contig) : list contig :=
  match rest with
  | [] => []
  | d :: r => if has_data d then default empty ((d :: r) !! s) :: shifted s r else d :: r
  end.

Lemma shift_loop_spec pre rest s :
  shift_loop (length rest) (len pre) (Z.of_nat s) (pre ++ rest) = Ret (pre ++ shifted s rest).
Proof.
  revert pre; induction rest as [|d r IH]; intros pre; cbn [length shift_loop]; [done|].
  rewrite index_middle by done; cbn [obind shifted]; destruct (has_data d); cbn [negb]; [|done].
  replace ((pre ++ d :: r) !! Z.to_nat (len pre + Z.of_nat s)) with ((d :: r) !! s).
  2: { unfold len; replace (Z.to_nat _) with (length pre + s)%nat by lia.
       rewrite lookup_app_r by lia; f_equal; lia. }
  rewrite store_middle by done; cbn [obind].
  set (c := match _ with Some _ => _ | None => _ end).
  replace (pre ++ c :: r) with ((pre ++ [c]) ++ r) by (by rewrite <-app_assoc).
  replace (len pre + 1) with (len (pre ++ [c])) by llia.
  rewrite IH, <-app_assoc; cbn [app]; subst c; by destruct (_ !! s).
Qed.

Lemma shifted_pad s ds k :
  Forall (fun c => has_data c = true) ds ->
  shifted s (ds ++ replicate k empty) = drop s ds ++ replicate (k + Nat.min s (length ds)) empty.
Proof.
  intros Hd; induction Hd as [|d ds Hd Hds IH]; cbn [app length].
  - rewrite drop_nil, Nat.min_0_r, Nat.add_0_r; by destruct k.
  - cbn [shifted]; rewrite Hd, IH; destruct s as [|s]; cbn [drop]; [done|].
    change ((d :: ds ++ replicate k empty) !! S s) with ((ds ++ replicate k empty) !! s).
    destruct (Nat.lt_ge_cases s (length ds)) as [Hlt|Hge].
    + destruct (lookup_lt_is_Some_2 ds s Hlt) as [x Hx].
      rewrite lookup_app_l, Hx by done; cbn [default]; rewrite (drop_S _ _ _ Hx).
      cbn [app]; do 3 f_equal; lia.
    + rewrite (drop_ge ds s), (drop_ge ds (S s)) by lia; cbn [app].
      replace (default empty ((ds ++ replicate k empty) !! s)) with empty.
      2: { rewrite lookup_app_r by lia; destruct (replicate k empty !! _) eqn:E; [|done].
           by apply lookup_replicate in E as [-> _]. }
      replace (k + Nat.min (S s) (S (length ds)))%nat with (S (k + Nat.min (S s) (length ds))) by lia.
      done.
Qed.

(** ** The refinement *)

Definition contig_ok (c : contig) : Prop := 0 <= hole_size c /\ 0 < data_size c.

Lemma contig_ok_has_data us : Forall contig_ok us -> Forall (fun c => has_data c = true) us.
Proof.
  intros H; induction H as [|c us [_ Hd] _ IH]; constructor; [|done].
  unfold has_data; destruct (Z.eqb_spec (data_size c) 0); [lia|done].
Qed.

Lemma has_data_ok c : contig_ok c -> has_data c = true.
Proof. intros [_ H]; unfold has_data; destruct (Z.eqb_spec (data_size c) 0); [lia|done]. Qed.

Lemma size_of_pos c : contig_ok c -> 0 < size_of c.
Proof. intros [? ?]; unfold size_of; lia. Qed.

Lemma span_cons c us : span (c :: us) = size_of c + span us.
Proof. done. Qed.

Lemma span_nonneg us : Forall contig_ok us -> 0 <= span us.
Proof. intros H; induction H as [|c us Hc _ IH]; [done|]; rewrite span_cons; apply size_of_pos in Hc; lia. Qed.

Lemma span_app us vs : span (us ++ vs) = span us + span vs.
Proof. induction us as [|c us IH]; [done|]; cbn [app]; rewrite !span_cons, IH; lia. Qed.

Lemma total_size_of c : 0 <= size_of c < M64 -> total_size c = size_of c.
Proof. apply usize_small. Qed.

(** Where the search stops, on the list of contigs in use. *)
Lemma add_find_spec us k i offset :
  Forall contig_ok us -> span us < M64 -> 0 <= offset < M64 ->
  (exists off', span us + off' = offset /\ 0 <= off' /\ (0 < offset -> 0 < off') /\
     (us <> [] -> 0 < off') /\
     (forall size, insert_range offset size us = us ++ [{| hole_size := off'; data_size := size |}]) /\
     add_find (us ++ replicate k empty) i offset =
       match k with O => NoSpace | S _ => Unused (i + len us) off' end) \/
  (exists pre c post off', us = pre ++ c :: post /\ span pre + off' = offset /\
     0 <= off' <= size_of c /\ (0 < offset -> 0 < off') /\ (pre <> [] -> 0 < off') /\
     (forall size, insert_range offset size us = pre ++ merge off' size c post) /\
     add_find (us ++ replicate k empty) i offset = Inside (i + len pre) off').
Proof.
  intros Hus; revert i offset; induction Hus as [|c us Hc Hus IH]; intros i offset Hsp Hoff.
  { left; exists offset; split_and!; try done; [lia|]. destruct k; [done|]; cbn.
    by rewrite Z.add_0_r. }
  rewrite span_cons in Hsp.
  pose proof (span_nonneg us Hus); pose proof (size_of_pos c Hc).
  cbn [app add_find insert_range]; rewrite has_data_ok by done; cbn [negb].
  rewrite total_size_of by lia.
  destruct (Z.leb_spec offset (size_of c)).
  - right; exists [], c, us, offset; split_and!; try done; [lia|].
    by rewrite len_nil, Z.add_0_r.
  - rewrite usize_small by lia.
    destruct (IH (i + 1) (offset - size_of c)) as
      [(off' & Hs & Ho & Hp & _ & Hi & Hf)|(pre & d & post & off' & -> & Hs & Ho & Hp & _ & Hi & Hf)]; [lia|lia| |].
    + left; exists off'; split_and!; try lia; [rewrite span_cons; lia| |].
      * intros size; by rewrite Hi.
      * rewrite Hf, len_cons; destruct k; [done|]; f_equal; lia.
    + right; exists (c :: pre), d, post, off'; split_and!; try lia; [done|rewrite span_cons; lia| |].
      * intros size; by rewrite Hi.
      * rewrite Hf, len_cons; f_equal; lia.
Qed.

Lemma coalesce_spec stop c us k :
  Forall contig_ok us -> 0 <= hole_size c -> 0 <= data_size c -> size_of c + span us < M64 ->
  exists c' s, absorb stop c us = (c', drop s us) /\
    coalesce stop c (us ++ replicate k empty) = (c', Z.of_nat s) /\
    (s <= length us)%nat /\ hole_size c' = hole_size c /\ data_size c <= data_size c' /\
    size_of c' + span (drop s us) = size_of c + span us.
Proof.
  intros Hus; revert c; induction Hus as [|d us Hd Hus IH]; intros c Hh Hdt Hsp; cbn [absorb app].
  { exists c, 0%nat; split_and!; try done. by destruct k. }
  rewrite span_cons in *.
  pose proof (span_nonneg us Hus); pose proof (size_of_pos d Hd); pose proof Hd as [? ?].
  assert (0 <= size_of c) by (unfold size_of; lia).
  cbn [coalesce]; rewrite (has_data_ok d Hd), !total_size_of, usize_small by (unfold size_of in *; lia); cbn [andb].
  destruct (Z.leb_spec (size_of c + hole_size d) stop).
  2: { exists c, 0%nat; split_and!; try done; cbn [drop]; rewrite ?span_cons; lia. }
  rewrite usize_small by (unfold size_of in *; lia).
  set (c1 := {| hole_size := hole_size c; data_size := data_size c + size_of d |}).
  assert (Hc1 : size_of c1 = size_of c + size_of d) by (unfold c1, size_of; cbn [hole_size data_size]; lia).
  destruct (IH c1) as (c' & s & -> & -> & Hs & Hh' & Hd' & Hsz); [cbn; lia|cbn; lia|lia|].
  exists c', (S s); split_and!; try done; [f_equal; lia|cbn; lia|unfold c1 in Hd'; cbn [data_size] in Hd'; lia|cbn [drop]; lia].
Qed.

(** Coalescing stops at a contig whose data the range does not reach. *)
Lemma absorb_stop stop c us c' us' :
  absorb stop c us = (c', us') ->
  match us' with [] => True | d :: _ => stop < size_of c' + hole_size d end.
Proof.
  revert c; induction us as [|d us IH]; intros c; cbn [absorb]; [by intros [= <- <-]|].
  destruct (Z.leb_spec (size_of c + hole_size d) stop); [by apply IH|].
  by intros [= <- <-].
Qed.

Lemma back_used pre c post :
  Forall contig_ok (pre ++ c :: post) ->
  exists b, back (pre ++ c :: post) = Ret b /\ has_data b = true.
Proof.
  intros Hok; destruct (exists_last (l := pre ++ c :: post)) as (l & b & E); [by destruct pre|].
  rewrite E in *; exists b; unfold back; rewrite index_middle by llia; split; [done|].
  apply Forall_app in Hok as [_ Hb]; apply has_data_ok; by inversion Hb.
Qed.

Lemma add_contig_at_full pre c post i :
  Forall contig_ok (pre ++ c :: post) ->
  add_contig_at (pre ++ c :: post) i = Ret (Err TooManyHolesError).
Proof.
  intros Hok; destruct (back_used _ _ _ Hok) as (b & Hb & Hd); unfold add_contig_at.
  rewrite Hb; cbn [obind]; by rewrite Hd.
Qed.

Lemma replicate_snoc {A} k (x : A) : replicate (S k) x = replicate k x ++ [x].
Proof. induction k as [|k IH]; [done|]; cbn [replicate app] in *; by rewrite <-IH. Qed.

(** The case of a range strictly inside a hole. *)
Lemma add_in_hole pre c post k offset size :
  Forall contig_ok (pre ++ c :: post) -> 0 <= offset -> 0 < size ->
  offset + size < hole_size c -> hole_size c < M64 ->
  (let! r := add_contig_at (pre ++ c :: post ++ replicate k empty) (len pre) in
   match r with
   | Err e => Ret (Err e)
   | Ok a =>
       let! a := store a (len pre) {| hole_size := offset; data_size := size |} in
       let! next := index a (len pre + 1) in
       let! a := store a (len pre + 1) (shrink_hole_by next (offset + size)) in
       Ret (Ok a)
   end) =
  Ret match k with
      | O => Err TooManyHolesError
      | S k' => Ok ((pre ++ merge offset size c post) ++ replicate k' empty)
      end.
Proof.
  intros Hok Ho Hs Hh Hlt; unfold merge; rewrite (proj2 (Z.ltb_lt _ _) Hh).
  destruct k as [|k]; [by rewrite app_nil_r, add_contig_at_full|].
  rewrite replicate_snoc.
  replace (pre ++ c :: post ++ replicate k empty ++ [empty])
    with (pre ++ (c :: post ++ replicate k empty) ++ [empty]) by (cbn; by rewrite <-app_assoc).
  rewrite add_contig_at_spec by done; cbn [obind].
  rewrite store_middle by done; cbn [obind].
  set (c0 := {| hole_size := offset; data_size := size |}).
  replace (pre ++ c0 :: c :: post ++ replicate k empty)
    with ((pre ++ [c0]) ++ c :: post ++ replicate k empty) by (by rewrite <-app_assoc).
  rewrite index_middle by llia; cbn [obind]; rewrite store_middle by llia; cbn [obind].
  unfold shrink_hole_by; rewrite usize_small by lia.
  by rewrite <-!app_assoc.
Qed.

(** The case of a range that touches the data of a contig. *)
Lemma add_touching pre c post k offset size :
  Forall contig_ok (pre ++ c :: post) -> 0 <= offset <= size_of c -> 0 < size ->
  hole_size c <= offset + size -> offset + size < M64 -> size_of c + span post < M64 ->
  exists s,
    (let a := pre ++ c :: post ++ replicate k empty in
     let c := if offset <? hole_size c then shrink_hole_to c offset else c in
     let '(c, shift) := coalesce (offset + size) c (zdrop (len pre + 1) a) in
     let! a := store a (len pre) c in
     let! a := (if negb (shift =? 0)
                then shift_loop (Z.to_nat (len a - (len pre + 1))) (len pre + 1) shift a
                else Ret a) in
     let! c := index a (len pre) in
     if total_size c <? offset + size then
       let left := usize (offset + size - total_size c) in
       let! a := store a (len pre) {| hole_size := hole_size c; data_size := usize (data_size c + left) |} in
       if len pre + 1 <? len a then
         let! next := index a (len pre + 1) in
         if has_data next then
           let! a := store a (len pre + 1) (shrink_hole_by next left) in Ret (Ok a)
         else Ret (Ok a)
       else Ret (Ok a)
     else Ret (Ok a)) =
    Ret (Ok (A := assembler) (E := assembler_error)
      ((pre ++ merge offset size c post) ++ replicate (k + s) empty)) /\
    (length (merge offset size c post) + s = S (length post))%nat.
Proof.
  intros Hok Ho Hs Hh Hlt Hsp; unfold merge; rewrite (proj2 (Z.ltb_ge _ _) Hh).
  apply Forall_app in Hok as [Hpre Hok]; inversion Hok as [|? ? Hc Hpost]; subst.
  pose proof (span_nonneg post Hpost); pose proof (size_of_pos c Hc); pose proof Hc as [Hc1 Hc2].
  set (c0 := if offset <? hole_size c then {| hole_size := offset; data_size := size_of c - offset |} else c).
  assert (Hc0 : (if offset <? hole_size c then shrink_hole_to c offset else c) = c0).
  { unfold c0, shrink_hole_to; destruct (Z.ltb_spec offset (hole_size c)); [|done].
    rewrite total_size_of, usize_small by lia; done. }
  cbn zeta; rewrite Hc0.
  assert (Hs0 : size_of c0 = size_of c /\ 0 <= hole_size c0 <= offset /\ 0 <= data_size c0).
  { unfold c0, size_of in *; destruct (Z.ltb_spec offset (hole_size c)); cbn; lia. }
  destruct Hs0 as (Hs0 & Hh0 & Hd0); clearbody c0.
  replace (zdrop (len pre + 1) (pre ++ c :: post ++ replicate k empty)) with (post ++ replicate k empty).
  2: { rewrite zdrop_app_ge by lia; by replace (len pre + 1 - len pre) with 1 by lia. }
  destruct (coalesce_spec (offset + size) c0 post k) as (c' & s & Ha & Hco & Hsl & Hh' & Hd' & Hsz);
    [done|lia|done|lia|].
  rewrite Hco, Ha; cbn [obind]; rewrite store_middle by done; cbn [obind].
  exists s.
  assert (Hshift : (if negb (Z.of_nat s =? 0)
     then shift_loop (Z.to_nat (len (pre ++ c' :: post ++ replicate k empty) - (len pre + 1)))
            (len pre + 1) (Z.of_nat s) (pre ++ c' :: post ++ replicate k empty)
     else Ret (pre ++ c' :: post ++ replicate k empty)) =
     Ret (pre ++ c' :: drop s post ++ replicate (k + s) empty)).
  { destruct (Z.eqb_spec (Z.of_nat s) 0) as [E|E]; cbn [negb].
    - replace s with 0%nat by lia; by rewrite Nat.add_0_r.
    - replace (pre ++ c' :: post ++ replicate k empty)
        with ((pre ++ [c']) ++ post ++ replicate k empty) by (by rewrite <-app_assoc).
      replace (len pre + 1) with (len (pre ++ [c'])) by llia.
      replace (Z.to_nat _) with (length (post ++ replicate k empty)) by (unfold len; rewrite !length_app; lia).
      rewrite shift_loop_spec, shifted_pad by by apply contig_ok_has_data.
      rewrite Nat.min_l by done; by rewrite <-app_assoc. }
  rewrite Hshift; cbn [obind]; rewrite index_middle by done; cbn [obind].
  assert (Hdrop : Forall contig_ok (drop s post)) by by apply Forall_drop.
  pose proof (span_nonneg _ Hdrop).
  rewrite total_size_of by (unfold size_of in *; lia); unfold extend.
  destruct (Z.ltb_spec (size_of c') (offset + size)).
  2: { split; [by rewrite <-app_assoc|]. cbn [length]; rewrite length_drop; lia. }
  rewrite store_middle by done; cbn [obind].
  rewrite (usize_small (offset + size - size_of c')) by (unfold size_of in *; lia).
  rewrite usize_small by (unfold size_of in *; lia).
  replace (data_size c' + (offset + size - size_of c')) with (offset + size - hole_size c') by (unfold size_of; lia).
  set (c'' := {| hole_size := hole_size c'; data_size := _ |}).
  destruct (drop s post) as [|d post'] eqn:Ed; rewrite ?Ed in *.
  - assert (Hlen : (length post <= s)%nat) by (apply (f_equal length) in Ed; rewrite length_drop in Ed; cbn in Ed; lia).
    split; [|cbn; lia]. cbn [app].
    destruct (Z.ltb_spec (len pre + 1) (len (pre ++ c'' :: replicate (k + s) empty))) as [Hl|Hl].
    2: { by rewrite <-app_assoc. }
    destruct (k + s)%nat as [|m]; [cbn [replicate] in Hl; autorewrite with len in Hl; lia|]; cbn [replicate].
    replace (pre ++ c'' :: empty :: replicate m empty) with ((pre ++ [c'']) ++ empty :: replicate m empty)
      by (by rewrite <-app_assoc).
    rewrite index_middle by llia; cbn [obind]; rewrite has_data_empty; by rewrite <-app_assoc.
  - inversion Hdrop as [|? ? Hdok Hdr]; subst.
    pose proof (span_nonneg _ Hdr).
    assert (Hlen : (length post = s + S (length post'))%nat).
    { apply (f_equal length) in Ed; rewrite length_drop in Ed; cbn in Ed; lia. }
    split; [|cbn; lia]. cbn [app].
    rewrite (proj2 (Z.ltb_lt _ _)) by llia.
    replace (pre ++ c'' :: d :: post' ++ replicate (k + s) empty)
      with ((pre ++ [c'']) ++ d :: post' ++ replicate (k + s) empty) by (by rewrite <-app_assoc).
    rewrite index_middle by llia; cbn [obind]; rewrite has_data_ok, store_middle by (done || llia); cbn [obind].
    pose proof (absorb_stop _ _ _ _ _ Ha) as Hst; cbn in Hst.
    unfold shrink_hole_by; rewrite usize_small by (destruct Hdok; rewrite span_cons in *; unfold size_of in *; lia).
    by rewrite <-!app_assoc.
Qed.

(** ** Adding a range adds exactly its bytes *)

Definition all_holes (us : list contig) : Prop :=
  Forall contig_ok us /\ Forall (fun c => 0 < hole_size c) us.

Lemma used_ok_cons c us : used_ok (c :: us) <-> contig_ok c /\ all_holes us.
Proof.
  unfold used_ok, all_holes; cbn [tail]; rewrite Forall_cons_iff; unfold contig_ok; tauto.
Qed.

Lemma all_holes_cons c us :
  all_holes (c :: us) <-> (contig_ok c /\ 0 < hole_size c) /\ all_holes us.
Proof. unfold all_holes; rewrite !Forall_cons_iff; tauto. Qed.

Lemma all_holes_used us : all_holes us -> used_ok us.
Proof. intros [H1 H2]; split; [done|]; destruct H2; [constructor|done]. Qed.

Lemma covers_cons c us p :
  covers (c :: us) p = (hole_size c <=? p) && (p <? size_of c) || covers us (p - size_of c).
Proof. done. Qed.

Lemma covers_eq us p q : p = q -> covers us p = covers us q.
Proof. by intros ->. Qed.

Lemma absorb_spec stop offset c us c' us' :
  absorb stop c us = (c', us') -> all_holes us -> offset <= size_of c -> 0 <= data_size c ->
  hole_size c' = hole_size c /\ data_size c <= data_size c' /\ all_holes us' /\
  (length us' <= length us)%nat /\ size_of c' + span us' = size_of c + span us /\
  forall p, covers (c' :: us') p || in_range offset (stop - offset) p
    = covers (c :: us) p || in_range offset (stop - offset) p.
Proof.
  revert c; induction us as [|d us IH]; intros c; cbn [absorb].
  { intros [= <- <-] ? ? ?; split_and!; done. }
  destruct (Z.leb_spec (size_of c + hole_size d) stop) as [Hle|Hgt].
  2: { intros [= <- <-] ? ? ?; split_and!; done. }
  intros Ha ([[Hd Hd2] Hdh] & Hus)%all_holes_cons Ho Hdc.
  set (c1 := {| hole_size := hole_size c; data_size := data_size c + size_of d |}) in *.
  assert (Hc1 : size_of c1 = size_of c + size_of d) by (unfold c1, size_of; cbn [hole_size data_size]; lia).
  destruct (IH c1 Ha Hus) as (Hh & Hdt & Hu & Hl & Hsz & Hcov); [unfold size_of in *; lia|unfold c1, size_of; cbn [data_size]; lia|].
  change (data_size c1) with (data_size c + size_of d) in Hdt.
  split_and!; [done|unfold size_of in *; lia|done|cbn; lia|rewrite span_cons; lia|].
  intros p; rewrite Hcov, !covers_cons, Hc1.
  rewrite (covers_eq us (p - size_of c - size_of d) (p - (size_of c + size_of d))) by lia.
  change (hole_size c1) with (hole_size c); unfold in_range, size_of in *.
  generalize (covers us (p - (hole_size c + data_size c + (hole_size d + data_size d)))); lia.
Qed.

Lemma extend_spec stop offset c us :
  0 <= hole_size c <= offset -> 0 < data_size c -> offset <= size_of c -> all_holes us ->
  match us with [] => True | d :: _ => stop < size_of c + hole_size d end ->
  exists h tl, extend stop c us = h :: tl /\ hole_size h = hole_size c /\ contig_ok h /\ all_holes tl /\
    length tl = length us /\ span (h :: tl) = Z.max (span (c :: us)) stop /\
    forall p, covers (h :: tl) p = covers (c :: us) p || in_range offset (stop - offset) p.
Proof.
  intros Hh Hd Ho Hus Hst; unfold extend; pose proof (span_nonneg us (proj1 Hus)).
  destruct (Z.ltb_spec (size_of c) stop) as [Hlt|Hge].
  2: { exists c, us; split; [done|]; split; [done|]; split; [split; lia|]; split; [done|]; split; [done|].
       split; [rewrite span_cons; lia|]. intros p; rewrite covers_cons; unfold in_range, size_of in *; lia. }
  eexists _, _; split; [done|]; cbn [hole_size].
  split; [done|]; split; [unfold contig_ok, size_of in *; cbn; lia|].
  destruct us as [|d us].
  - split_and!; try done; [rewrite !span_cons; unfold size_of in *; cbn in *; lia|].
    intros p; rewrite !covers_cons; cbn [covers hole_size data_size size_of]; unfold in_range, size_of in *;
      cbn [hole_size data_size]; lia.
  - apply all_holes_cons in Hus as [[[Hd1 Hd2] Hd3] Hus]; split.
    { apply all_holes_cons; split; [|done]. unfold contig_ok; cbn; lia. }
    pose proof (span_nonneg us (proj1 Hus)).
    split; [done|]; split; [rewrite !span_cons; unfold size_of in *; cbn in *; lia|].
    intros p; rewrite !covers_cons; unfold in_range, size_of in *; cbn [hole_size data_size].
    rewrite (covers_eq us (p - (hole_size c + (stop - hole_size c)) -
      (hole_size d - (stop - (hole_size c + data_size c)) + data_size d))
      (p - (hole_size c + data_size c) - (hole_size d + data_size d))) by lia.
    generalize (covers us (p - (hole_size c + data_size c) - (hole_size d + data_size d))); lia.
Qed.

Lemma merge_spec offset size c us :
  contig_ok c -> all_holes us -> 0 <= offset <= size_of c -> 0 < size ->
  exists h tl, merge offset size c us = h :: tl /\ contig_ok h /\ all_holes tl /\
    (0 < offset -> 0 < hole_size c -> 0 < hole_size h) /\
    (length tl <= S (length us))%nat /\ (offset = 0 -> (hole_size c <= size)%Z -> (length tl <= length us)%nat) /\
    (offset = 0 -> hole_size h = 0) /\
    span (h :: tl) = Z.max (span (c :: us)) (offset + size) /\
    forall p, covers (h :: tl) p = covers (c :: us) p || in_range offset size p.
Proof.
  intros [Hc1 Hc2] Hus Ho Hs; unfold merge; pose proof (span_nonneg us (proj1 Hus)).
  destruct (Z.ltb_spec (offset + size) (hole_size c)) as [Hlt|Hge].
  - eexists _, _; split; [done|]; split; [split; cbn; lia|].
    split; [apply all_holes_cons; split; [split; [split|]; cbn; lia|done]|].
    split; [cbn; lia|]; split; [cbn; lia|]; split; [lia|]; split; [done|].
    split; [rewrite !span_cons; unfold size_of in *; cbn; lia|].
    intros p; rewrite !covers_cons; unfold in_range, size_of in *; cbn [hole_size data_size].
    rewrite (covers_eq us (p - (offset + size) - (hole_size c - (offset + size) + data_size c))
      (p - (hole_size c + data_size c))) by lia; lia.
  - set (c0 := if offset <? hole_size c then _ else c).
    assert (H0 : size_of c0 = size_of c /\ hole_size c0 = Z.min offset (hole_size c) /\ 0 < data_size c0).
    { unfold c0, size_of in *; destruct (Z.ltb_spec offset (hole_size c)); cbn; lia. }
    destruct H0 as (Hs0 & Hh0 & Hd0).
    destruct (absorb (offset + size) c0 us) as [c' us'] eqn:Ha.
    destruct (absorb_spec _ offset _ _ _ _ Ha Hus) as (Hh & Hd & Hu & Hl & Hsz & Hcov); [lia|lia|].
    destruct (extend_spec (offset + size) offset c' us') as (h & tl & -> & Eh & Hh' & Ht & Hlt & Hsp & Hcov');
      [lia|lia|unfold size_of in *; lia|done|by apply absorb_stop in Ha|].
    exists h, tl; split; [done|]; split; [done|]; split; [done|].
    split; [lia|]; split; [lia|]; split; [lia|]; split; [lia|].
    split; [rewrite Hsp, !span_cons; lia|].
    intros p; rewrite Hcov'.
    replace (offset + size - offset) with size in * by lia.
    rewrite Hcov, !covers_cons, Hs0; unfold in_range, size_of in *; lia.
Qed.

Lemma insert_range_spec us offset size :
  used_ok us -> 0 <= offset -> 0 < size ->
  exists h tl, insert_range offset size us = h :: tl /\ contig_ok h /\ all_holes tl /\
    (0 < offset -> Forall (fun c => 0 < hole_size c) us -> 0 < hole_size h) /\
    (length tl <= length us)%nat /\
    span (h :: tl) = Z.max (span us) (offset + size) /\
    forall p, covers (h :: tl) p = covers us p || in_range offset size p.
Proof.
  revert offset; induction us as [|c us IH]; intros offset Hus Ho Hs; cbn [insert_range].
  - eexists _, _; split; [done|]; split; [split; cbn; lia|]; split; [done|]; split; [done|].
    split; [done|]; split; [cbn; unfold size_of; cbn; lia|].
    intros p; cbn; unfold in_range; lia.
  - apply used_ok_cons in Hus as [Hc Hus].
    destruct (Z.leb_spec offset (size_of c)).
    + destruct (merge_spec offset size c us) as (h & tl & E & Hh & Ht & Hp & Hl & _ & _ & Hsp & Hcov); try done.
      exists h, tl; split_and!; try done; try apply Hh; try apply Ht.
      intros Ho' Hf; apply Hp; [done|by inversion Hf].
    + destruct (IH (offset - size_of c)) as (h & tl & E & Hh & Ht & Hp & Hl & Hsp & Hcov);
        [by apply all_holes_used|lia|done|].
      pose proof (size_of_pos c Hc).
      exists c, (h :: tl); rewrite E; split; [done|]; split; [done|].
      split; [apply all_holes_cons; split; [split; [done|apply Hp; [lia|apply Hus]]|done]|].
      split; [intros _ Hf; by inversion Hf|]; split; [cbn; lia|].
      split; [rewrite (span_cons c), Hsp, (span_cons c us); lia|].
      intros p; rewrite (covers_cons c (h :: tl)), Hcov, covers_cons; unfold in_range.
      generalize (covers us (p - size_of c)); unfold size_of in *; destruct Hc; lia.
Qed.

Lemma pad_cons_form n us : (length us <= n)%nat -> pad n us = us ++ replicate (n - length us) empty.
Proof. done. Qed.

(** The array operation is the list operation, and it fails exactly when the
    result needs more slots than the array has. *)
Lemma add_refines n a us offset size :
  represents n a us -> 0 <= offset -> 0 < size -> offset + size < M64 ->
  add a offset size =
    Ret (if (length (insert_range offset size us) <=? n)%nat
         then Ok (pad n (insert_range offset size us)) else Err TooManyHolesError).
Proof.
  intros (-> & Hn & Hus & Hsp) Ho Hs Hlt; unfold add, pad.
  rewrite (proj2 (Z.eqb_neq size 0)) by lia.
  remember (n - length us)%nat as k eqn:Hk.
  destruct (add_find_spec us k 0 offset (proj1 Hus)) as
    [(o & Hsum & Ho' & _ & _ & Hi & ->)|(pre & c & post & o & -> & Hsum & Ho' & _ & _ & Hi & ->)]; [lia|lia| |].
  - rewrite Hi, length_app; cbn [length].
    destruct k as [|k'] eqn:Ek.
    + by rewrite (proj2 (Nat.leb_gt _ _)) by lia.
    + rewrite (proj2 (Nat.leb_le _ _)) by lia; cbn [replicate].
      rewrite store_middle by lia; cbn [obind]; rewrite <-app_assoc; cbn [app].
      by replace k' with (n - (length us + 1))%nat by lia.
  - rewrite Hi, Z.add_0_l; rewrite !length_app in *; cbn [length] in *.
    destruct Hus as [Hok Hho]; pose proof Hok as [Hpre [Hc Hpost]%Forall_cons_iff]%Forall_app.
    rewrite span_app, span_cons in Hsp.
    pose proof (span_nonneg pre Hpre); pose proof (span_nonneg post Hpost); pose proof (size_of_pos c Hc).
    rewrite usize_small by lia.
    replace ((pre ++ c :: post) ++ replicate k empty) with (pre ++ c :: post ++ replicate k empty)
      by (by rewrite <-app_assoc).
    rewrite index_middle by done; cbn [obind].
    destruct (Z.ltb_spec (o + size) (hole_size c)) as [Hin|Hout].
    + rewrite (proj2 (Z.ltb_lt o _)) by lia; cbn [andb].
      rewrite add_in_hole by (try done; unfold size_of in *; destruct Hc; lia).
      unfold merge; rewrite (proj2 (Z.ltb_lt _ _) Hin); cbn [length]; destruct k as [|k'] eqn:Ek.
      * by rewrite (proj2 (Nat.leb_gt _ _)) by lia.
      * rewrite (proj2 (Nat.leb_le _ _)) by lia; do 3 f_equal.
        f_equal; cbn [length]; lia.
    + rewrite andb_false_r.
      destruct (add_touching pre c post k o size) as (s & Hadd & Hlen); try done; [lia|lia|].
      cbn zeta in Hadd; cbn zeta; rewrite Hadd.
      rewrite (proj2 (Nat.leb_le _ _)) by lia; do 3 f_equal.
      f_equal; lia.
Qed.

(** ** The operations on the array *)

Definition assembler_ok (n : nat) (a : assembler) : Prop := exists us, represents n a us.

Lemma covers_empties k p : covers (replicate k empty) p = false.
Proof.
  revert p; induction k as [|k IH]; intros p; cbn [replicate covers]; [done|].
  rewrite IH; cbn; lia.
Qed.

Lemma covers_pad n us p : covers (pad n us) p = covers us p.
Proof.
  unfold pad; revert p; induction us as [|c us IH]; intros p; cbn [app covers length].
  - apply covers_empties.
  - f_equal. revert IH; generalize (n - length us)%nat as k, (n - S (length us))%nat as k'.
    intros k k' IH; rewrite <-IH; clear IH.
    generalize (p - (hole_size c + data_size c)); induction us as [|d us IH]; intros q; cbn [app covers].
    + by rewrite !covers_empties.
    + by rewrite IH.
Qed.

Lemma covers_neg us p : Forall contig_ok us -> p < 0 -> covers us p = false.
Proof.
  intros H; revert p; induction H as [|c us [? ?] _ IH]; intros p Hp; [done|].
  cbn [covers]; rewrite IH by lia; lia.
Qed.

Lemma covers_before us p :
  all_holes us -> match us with [] => True | c :: _ => p < hole_size c end -> covers us p = false.
Proof.
  destruct us as [|c us]; [done|]; intros ([[? ?] ?] & Hus)%all_holes_cons Hp.
  rewrite covers_cons, covers_neg by (try apply Hus; unfold size_of; lia); lia.
Qed.

Lemma add_ok (n : nat) (a : assembler) (offset size : Z) :
  assembler_ok n a -> 0 <= offset -> 0 <= size -> offset + size < M64 ->
  (exists a', add a offset size = Ret (Ok a') /\ assembler_ok n a' /\
     forall p, covers a' p = covers a p || in_range offset size p) \/
  (add a offset size = Ret (Err TooManyHolesError) /\ Forall (fun c => has_data c = true) a).
Proof.
  intros [us Hr] Ho Hs Hlt; destruct (Z.eq_dec size 0) as [->|Hs0].
  { left; exists a; split; [done|]; split; [by exists us|]. intros p; unfold in_range; lia. }
  rewrite (add_refines n a us) by (done || lia).
  destruct Hr as (-> & Hn & Hus & Hsp).
  destruct (insert_range_spec us offset size Hus) as (h & tl & E & Hh & Ht & _ & Hl & Hspan & Hcov); [lia|lia|].
  destruct (Nat.leb_spec (length (insert_range offset size us)) n) as [Hfit|Hover]; [left|right].
  - eexists; split; [done|]; split.
    + exists (insert_range offset size us); rewrite E in *; split_and!; [done|done| |lia].
      by apply used_ok_cons.
    + intros p; by rewrite !covers_pad, E, Hcov.
  - split; [done|]. rewrite E in Hover; cbn in Hover; unfold pad.
    replace (n - length us)%nat with 0%nat by lia; rewrite app_nil_r.
    apply contig_ok_has_data, Hus.
Qed.

(** C39: [add] records exactly the bytes of the new range.  On an assembler that
    satisfies the documented invariant it never panics; either it succeeds,
    the invariant holds again and the bytes present are those present before
    and those of the range, or every slot of the array is in use and the error
    is reported (the caller's assembler is then unchanged). *)
Theorem add_covers (n : nat) (a : assembler) (offset size : Z) :
  assembler_ok n a -> 0 <= offset -> 0 <= size -> offset + size < M64 ->
  (exists a', add a offset size = Ret (Ok a') /\ assembler_ok n a' /\
     forall p, covers a' p = covers a p || in_range offset size p) \/
  (add a offset size = Ret (Err TooManyHolesError) /\ Forall (fun c => has_data c = true) a).
Proof. apply add_ok. Qed.

Lemma remove_front_spec n a us :
  represents n a us -> (0 < n)%nat ->
  exists us' k, remove_front a = Ret (k, pad n us') /\ represents n (pad n us') us' /\
    ((us' = us /\ k = 0 /\ covers us 0 = false) \/
     (exists c, us = c :: us' /\ hole_size c = 0 /\ k = data_size c /\ 0 < k)).
Proof.
  intros Hr Hn; pose proof Hr as (-> & Hl & Hus & Hsp); unfold remove_front, front, pad.
  destruct us as [|c us].
  - exists [], 0; destruct n as [|n]; [lia|]; cbn [length Nat.sub app replicate].
    rewrite index_0; cbn. split; [done|]; split; [done|]; by left.
  - apply used_ok_cons in Hus as [Hc Hus]; cbn [app].
    rewrite index_0; cbn [obind].
    rewrite (has_data_ok c Hc); unfold has_hole; cbn [negb]; rewrite orb_false_r; destruct Hc as [Hc1 Hc2].
    destruct (Z.eqb_spec (hole_size c) 0) as [H0|H0]; cbn [negb].
    + rewrite (remove_contig_at_spec _ c us).
      2: { apply contig_ok_has_data; constructor; [done|apply Hus]. }
      cbn [obind]; exists us, (data_size c); cbn [length] in *.
      replace (S (n - S (length us))) with (n - length us)%nat by lia.
      split; [done|]; split; [|right; by exists c].
      rewrite span_cons in Hsp; split_and!; [done|lia|by apply all_holes_used|unfold size_of in *; lia].
    + exists (c :: us), 0; split; [done|]; split; [done|]; left; split; [done|]; split; [done|].
      apply covers_before; [|lia]. apply all_holes_cons; split; [split; [done|lia]|done].
Qed.

Lemma insert_range_front us size :
  used_ok us -> 0 < size -> match us with [] => True | c :: _ => hole_size c <= size end ->
  (length (insert_range 0 size us) <= Nat.max 1 (length us))%nat.
Proof.
  intros Hus Hs Hh; destruct us as [|c us]; [done|].
  apply used_ok_cons in Hus as [Hc Hus]; pose proof (size_of_pos c Hc); cbn [insert_range].
  rewrite (proj2 (Z.leb_le 0 _)) by lia.
  destruct (merge_spec 0 size c us) as (h & tl & -> & _ & _ & _ & _ & Hl & _); [done|done|lia|done|].
  specialize (Hl eq_refl Hh); cbn; lia.
Qed.

Lemma add_then_remove_front_ok (n : nat) (a : assembler) (offset size : Z) :
  assembler_ok n a -> (0 < n)%nat -> 0 <= offset -> 0 <= size -> offset + size < M64 ->
  (exists k a', add_then_remove_front a offset size = Ret (Ok (k, a')) /\ assembler_ok n a' /\ 0 <= k /\
     (forall p, 0 <= p < k -> covers a p || in_range offset size p = true) /\
     covers a k || in_range offset size k = false /\
     (forall p, 0 <= p -> covers a' p = covers a (p + k) || in_range offset size (p + k))) \/
  (add_then_remove_front a offset size = Ret (Err TooManyHolesError) /\ 0 < offset /\
     Forall (fun c => has_data c = true) a).
Proof.
  intros Hok Hn Ho Hs Hlt; pose proof Hok as [us Hr].
  pose proof Hr as (Ea & Hl & Hus & Hsp).
  assert (Hc0 : exists c0 tl, a = c0 :: tl).
  { rewrite Ea; unfold pad; destruct us; [destruct n; [lia|]|]; cbn; eauto. }
  destruct Hc0 as (c0 & tl & Hc0); unfold add_then_remove_front.
  replace (index a 0) with (Ret c0) by (rewrite Hc0; by rewrite index_0); cbn [obind].
  destruct ((offset =? 0) && (size <? hole_size c0)) eqn:Hb.
  - assert (offset = 0 /\ size < hole_size c0) as [-> Hsz] by lia.
    assert (Hus' : exists us', us = c0 :: us').
    { rewrite Hc0 in Ea; unfold pad in Ea; destruct us as [|c us]; [|injection Ea as <- _; eauto].
      destruct (n - length [])%nat; [done|]; injection Ea as -> _; cbn in Hsz; lia. }
    destruct Hus' as [us' ->]; apply used_ok_cons in Hus as [[Hd1 Hd2] Hus]; rewrite span_cons in Hsp.
    pose proof (span_nonneg us' (proj1 Hus)).
    left; exists size.
    assert (Hcov0 : forall p, covers a p = covers (c0 :: us') p) by (intros p; by rewrite Ea, covers_pad).
    replace (store a 0 _) with (Ret ({| hole_size := usize (hole_size c0 - size);
      data_size := data_size c0 |} :: tl)) by (rewrite Hc0; by rewrite store_0).
    cbn [obind]; rewrite usize_small by (unfold size_of in *; lia).
    set (c1 := Build_contig _ _). exists (pad n (c1 :: us')).
    split; [rewrite Hc0 in Ea; unfold pad in Ea |- *; by injection Ea as ->|].
    split; [|split; [lia|]].
    { exists (c1 :: us'); split_and!; [done|cbn in *; lia| |].
      - apply used_ok_cons; split; [split; cbn; lia|done].
      - rewrite span_cons; unfold c1, size_of in *; cbn [hole_size data_size] in *; lia. }
    setoid_rewrite Hcov0; setoid_rewrite covers_pad; split_and!.
    + intros p Hp; unfold in_range; lia.
    + rewrite covers_before; [unfold in_range; lia| |done].
      apply all_holes_cons; split; [split; [done|lia]|done].
    + intros p Hp; rewrite !covers_cons.
      unfold c1, size_of, in_range; cbn [hole_size data_size].
      rewrite (covers_eq us' (p - (hole_size c0 - size + data_size c0))
        (p + size - (hole_size c0 + data_size c0))) by lia; lia.
  - destruct (add_ok n a offset size Hok Ho Hs Hlt) as [(a1 & Hadd & [us1 Hr1] & Hcov)|[Herr Hfull]]; [rewrite Hadd|rewrite Herr]; cbn [obind].
    + left; clear Hadd; destruct (remove_front_spec n a1 us1 Hr1 Hn) as (us2 & k & -> & Hr2 & Hcase); cbn [obind].
      pose proof Hr1 as (Ea1 & _ & Hus1 & _).
      exists k, (pad n us2); split; [done|]; split; [by exists us2|].
      assert (Hcov1 : forall p, covers a p || in_range offset size p = covers us1 p).
      { intros p; by rewrite <-Hcov, Ea1, covers_pad. }
      setoid_rewrite Hcov1; setoid_rewrite covers_pad.
      destruct Hcase as [(-> & -> & H0)|(c & -> & Hh & -> & Hk)].
      * split_and!; [done|lia|done|]. intros p _; by rewrite Z.add_0_r.
      * apply used_ok_cons in Hus1 as [[Hd1 Hd2] Hus2].
        split; [lia|]; split; [intros p Hp; rewrite covers_cons; unfold size_of; lia|]; split.
        -- rewrite covers_cons, covers_before; [unfold size_of; lia|done|].
           destruct us2 as [|d us2]; [done|]. apply all_holes_cons in Hus2 as [[_ ?] _]; unfold size_of; lia.
        -- intros p Hp; rewrite covers_cons; unfold size_of.
           rewrite (covers_eq us2 (p + data_size c - (hole_size c + data_size c)) p) by lia; lia.
    + right; split; [done|]; split; [|done].
      destruct (Z.eq_dec offset 0) as [->|]; [|lia].
      destruct (Z.eq_dec size 0) as [->|]; [discriminate Herr|].
      rewrite (add_refines n a us) in Herr by (done || lia).
      pose proof (insert_range_front us size Hus) as Hf.
      rewrite (proj2 (Nat.leb_le _ _)) in Herr; [discriminate|].
      transitivity (Nat.max 1 (length us)); [apply Hf; [lia|]|lia].
      destruct us as [|c us]; [done|]; rewrite Hc0 in Ea; unfold pad in Ea; injection Ea as <- _; lia.
Qed.

(** Taking the in-order bytes.  For a range added in front of the TCP
    payload ([add_then_remove_front]), nothing panics; on success the count
    returned is exactly the length of the run of present bytes that starts at
    the front, and what is left is everything present beyond it, renumbered
    from there.  The error can only mean that all slots are in use, and it
    never happens for the next expected segment (offset 0), as the source
    documents. *)
Theorem add_then_remove_front_spec (n : nat) (a : assembler) (offset size : Z) :
  assembler_ok n a -> (0 < n)%nat -> 0 <= offset -> 0 <= size -> offset + size < M64 ->
  (exists k a', add_then_remove_front a offset size = Ret (Ok (k, a')) /\ assembler_ok n a' /\ 0 <= k /\
     (forall p, 0 <= p < k -> covers a p || in_range offset size p = true) /\
     covers a k || in_range offset size k = false /\
     (forall p, 0 <= p -> covers a' p = covers a (p + k) || in_range offset size (p + k))) \/
  (add_then_remove_front a offset size = Ret (Err TooManyHolesError) /\ 0 < offset /\
     Forall (fun c => has_data c = true) a).
Proof. apply add_then_remove_front_ok. Qed.

Lemma assembler_new_ok : assembler_ok 4 assembler_new.
Proof. exists []; split_and!; [done|cbn; lia|by split|done]. Qed.

(** An out-of-order segment, then one that fills the gap before it. *)
Definition example_assembler : assembler :=
  {| hole_size := 10; data_size := 5 |} :: replicate 3 empty.

Lemma example_assembler_ok : assembler_ok 4 example_assembler.
Proof.
  exists [{| hole_size := 10; data_size := 5 |}]; split_and!; [done|cbn; lia| |done].
  apply used_ok_cons; split; [split; cbn; lia|done].
Qed.

Lemma add_covers_witness :
  add assembler_new 10 5 = Ret (Ok example_assembler) /\
  forall p, covers example_assembler p = covers assembler_new p || in_range 10 5 p.
Proof.
  split; [reflexivity|].
  destruct (add_covers 4 assembler_new 10 5 assembler_new_ok) as [(a' & E & _ & H)|[E _]]; [lia..| |].
  - vm_compute in E; injection E as <-; exact H.
  - discriminate E.
Defined.

Lemma add_then_remove_front_spec_witness :
  exists k a', add_then_remove_front example_assembler 0 12 = Ret (Ok (k, a')) /\ k = 15 /\
    assembler_ok 4 a' /\ forall p, 0 <= p -> covers a' p = covers example_assembler (p + k) || in_range 0 12 (p + k).
Proof.
  destruct (add_then_remove_front_spec 4 example_assembler 0 12 example_assembler_ok)
    as [(k & a' & E & Hok & _ & _ & _ & H)|(E & Hpos & _)]; [lia..| |lia].
  exists k, a'; split; [exact E|]; split; [|split; [exact Hok|exact H]].
  vm_compute in E; injection E as <- <-; reflexivity.
Defined.
