(* ===== verification/RingBuffer.v ===== *)
(** The ring buffer under every socket buffer
    (vendor/smoltcp/src/storage/ring_buffer.rs), and its refinement to a
    bounded queue. *)

From Stdlib Require Import ZArith Lia.
From stdpp Require Import base list numbers.
From S2P Require Import Prelude.

Section RingBuffer.
Context {A : Type}.

(* [storage/ring_buffer.rs 27-31 RingBuffer] *)
Record ring_buffer : Type := { storage : list A; read_at : Z; rb_length : Z }.

(* [storage/ring_buffer.rs 37-46 RingBuffer::new] *)
Definition rb_new (storage : list A) : ring_buffer :=
  {| storage := storage; read_at := 0; rb_length := 0 |}.

(* [storage/ring_buffer.rs 49-52 RingBuffer::clear] *)
Definition rb_clear (rb : ring_buffer) : ring_buffer :=
  {| storage := storage rb; read_at := 0; rb_length := 0 |}.

(* [storage/ring_buffer.rs 55-57 RingBuffer::capacity] *)
Definition capacity (rb : ring_buffer) : Z := len (storage rb).

(* [storage/ring_buffer.rs 76-78 RingBuffer::window] *)
Definition window (rb : ring_buffer) : Z := usize (capacity rb - rb_length rb).

(* [storage/ring_buffer.rs 98-105 RingBuffer::get_idx] *)
Definition get_idx (rb : ring_buffer) (idx : Z) : Z :=
  let n := capacity rb in
  if 0 <? n then usize (read_at rb + idx) mod n else 0.

(** A remainder by zero panics. *)
(* [storage/ring_buffer.rs 109-111 RingBuffer::get_idx_unchecked] *)
Definition get_idx_unchecked (rb : ring_buffer) (idx : Z) : outcome Z :=
  assert! negb (capacity rb =? 0) in
  Ret (usize (read_at rb + idx) mod capacity rb).

(* [storage/ring_buffer.rs 82-84 RingBuffer::contiguous_window] *)
Definition contiguous_window (rb : ring_buffer) : Z :=
  Z.min (window rb) (usize (capacity rb - get_idx rb (rb_length rb))).

(* [storage/ring_buffer.rs 87-89 RingBuffer::is_empty] *)
Definition rb_is_empty (rb : ring_buffer) : bool := rb_length rb =? 0.

(* [storage/ring_buffer.rs 92-94 RingBuffer::is_full] *)
Definition is_full (rb : ring_buffer) : bool := window rb =? 0.

(** ** Single elements

    The closures get one element and answer the element's new value and a
    result; a failed result leaves the queue as it was, but not the element. *)

(* [storage/ring_buffer.rs 119-133 RingBuffer::enqueue_one_with] *)
Definition enqueue_one_with {R E} (f : A -> A * result R E) (rb : ring_buffer)
  : outcome (option (result R E) * ring_buffer) :=
  if is_full rb then Ret (None, rb)
  else
    let! i := get_idx_unchecked rb (rb_length rb) in
    let! x := index (storage rb) i in
    let '(x, res) := f x in
    let! st := store (storage rb) i x in
    Ret (Some res,
         {| storage := st; read_at := read_at rb;
            rb_length := match res with Ok _ => usize (rb_length rb + 1) | Err _ => rb_length rb end |}).

(* [storage/ring_buffer.rs 145-161 RingBuffer::dequeue_one_with] *)
Definition dequeue_one_with {R E} (f : A -> A * result R E) (rb : ring_buffer)
  : outcome (option (result R E) * ring_buffer) :=
  if rb_is_empty rb then Ret (None, rb)
  else
    let! next_at := get_idx_unchecked rb 1 in
    let! x := index (storage rb) (read_at rb) in
    let '(x, res) := f x in
    let! st := store (storage rb) (read_at rb) x in
    Ret (Some res,
         match res with
         | Ok _ => {| storage := st; read_at := next_at; rb_length := usize (rb_length rb - 1) |}
         | Err _ => {| storage := st; read_at := read_at rb; rb_length := rb_length rb |}
         end).

(** ** Slices

    The closures get a slice and answer its new contents, a count and a result. *)

(* [storage/ring_buffer.rs 181-197 RingBuffer::enqueue_many_with] *)
Definition enqueue_many_with {R} (f : list A -> list A * Z * R) (rb : ring_buffer)
  : outcome (Z * R * ring_buffer) :=
  let rb := if rb_length rb =? 0
            then {| storage := storage rb; read_at := 0; rb_length := rb_length rb |} else rb in
  let write_pos := get_idx rb (rb_length rb) in
  let max_size := contiguous_window rb in
  let! sl := slice (storage rb) write_pos (write_pos + max_size) in
  let '(sl, size, res) := f sl in
  let! st := copy_from_slice (storage rb) write_pos (write_pos + max_size) sl in
  assert! size <=? max_size in
  Ret (size, res, {| storage := st; read_at := read_at rb; rb_length := usize (rb_length rb + size) |}).

(* [storage/ring_buffer.rs 205-211 RingBuffer::enqueue_many] with the bytes
   the caller then writes into the slice returned. *)
Definition enqueue_many (size : Z) (fill : list A -> list A) (rb : ring_buffer)
  : outcome (Z * ring_buffer) :=
  let! (n, _, rb) := enqueue_many_with (fun buf =>
    let size := Z.min size (len buf) in
    (fill (ztake size buf) ++ zdrop size buf, size, ())) rb in
  Ret (n, rb).

(** The closure of [enqueue_slice]: copy what fits, answer the rest. *)
(* [storage/ring_buffer.rs 220-224 RingBuffer::enqueue_slice] the closure. *)
Definition fill_slice (data buf : list A) : list A * Z * list A :=
  let size := Z.min (len buf) (len data) in
  (ztake size data ++ zdrop size buf, size, zdrop size data).

(* [storage/ring_buffer.rs 216-231 RingBuffer::enqueue_slice] *)
Definition enqueue_slice (data : list A) (rb : ring_buffer) : outcome (Z * ring_buffer) :=
  let! (size_1, data, rb) := enqueue_many_with (fill_slice data) rb in
  let! (size_2, _, rb) := enqueue_many_with (fill_slice data) rb in
  Ret (usize (size_1 + size_2), rb).

(* [storage/ring_buffer.rs 239-254 RingBuffer::dequeue_many_with] *)
Definition dequeue_many_with {R} (f : list A -> list A * Z * R) (rb : ring_buffer)
  : outcome (Z * R * ring_buffer) :=
  let cap := capacity rb in
  let max_size := Z.min (rb_length rb) (usize (cap - read_at rb)) in
  let! sl := slice (storage rb) (read_at rb) (read_at rb + max_size) in
  let '(sl, size, res) := f sl in
  let! st := copy_from_slice (storage rb) (read_at rb) (read_at rb + max_size) sl in
  assert! size <=? max_size in
  Ret (size, res,
       {| storage := st;
          read_at := if 0 <? cap then usize (read_at rb + size) mod cap else 0;
          rb_length := usize (rb_length rb - size) |}).

(* [storage/ring_buffer.rs 262-268 RingBuffer::dequeue_many] the slice returned. *)
Definition dequeue_many (size : Z) (rb : ring_buffer) : outcome (list A * ring_buffer) :=
  let! (_, sl, rb) := dequeue_many_with (fun buf =>
    let size := Z.min size (len buf) in (buf, size, ztake size buf)) rb in
  Ret (sl, rb).

(** The closure of [dequeue_slice]: [room] is the length left in the caller's
    slice; answers the bytes copied into it. *)
(* [storage/ring_buffer.rs 277-281 RingBuffer::dequeue_slice] the closure. *)
Definition drain_slice (room : Z) (buf : list A) : list A * Z * list A :=
  let size := Z.min (len buf) room in (buf, size, ztake size buf).

(** Answers the count and the bytes written at the front of the caller's slice. *)
(* [storage/ring_buffer.rs 273-288 RingBuffer::dequeue_slice] *)
Definition dequeue_slice (room : Z) (rb : ring_buffer) : outcome (Z * list A * ring_buffer) :=
  let! (size_1, d1, rb) := dequeue_many_with (drain_slice room) rb in
  let! (size_2, d2, rb) := dequeue_many_with (drain_slice (room - size_1)) rb in
  Ret (usize (size_1 + size_2), d1 ++ d2, rb).

(** ** Random access *)

(** The position and length of the slice [get_unallocated] answers. *)
(* [storage/ring_buffer.rs 297-315 RingBuffer::get_unallocated] *)
Definition get_unallocated (offset size : Z) (rb : ring_buffer) : Z * Z :=
  let start_at := get_idx rb (usize (rb_length rb + offset)) in
  if window rb <? offset then (0, 0)
  else
    let clamped_window := usize (window rb - offset) in
    let size := if clamped_window <? size then clamped_window else size in
    let until_end := usize (capacity rb - start_at) in
    let size := if until_end <? size then until_end else size in
    (start_at, size).

(** One half of [write_unallocated]: fill the slice, answer its length. *)
(* [storage/ring_buffer.rs 325-330 RingBuffer::write_unallocated] one block. *)
Definition write_slice (offset : Z) (data : list A) (rb : ring_buffer) : outcome (Z * ring_buffer) :=
  let '(at_, n) := get_unallocated offset (len data) rb in
  let! src := slice data 0 n in
  let! st := copy_from_slice (storage rb) at_ (at_ + n) src in
  Ret (n, {| storage := st; read_at := read_at rb; rb_length := rb_length rb |}).

(* [storage/ring_buffer.rs 321-338 RingBuffer::write_unallocated] *)
Definition write_unallocated (offset : Z) (data : list A) (rb : ring_buffer)
  : outcome (Z * ring_buffer) :=
  let! (size_1, rb) := write_slice offset data rb in
  let! (size_2, rb) := write_slice (usize (offset + size_1)) (zdrop size_1 data) rb in
  Ret (usize (size_1 + size_2), rb).

(* [storage/ring_buffer.rs 344-347 RingBuffer::enqueue_unallocated] *)
Definition enqueue_unallocated (count : Z) (rb : ring_buffer) : outcome ring_buffer :=
  assert! count <=? window rb in
  Ret {| storage := storage rb; read_at := read_at rb; rb_length := usize (rb_length rb + count) |}.

(* [storage/ring_buffer.rs 352-370 RingBuffer::get_allocated] *)
Definition get_allocated (offset size : Z) (rb : ring_buffer) : outcome (list A) :=
  let start_at := get_idx rb offset in
  if rb_length rb <? offset then Ret []
  else
    let clamped_length := usize (rb_length rb - offset) in
    let size := if clamped_length <? size then clamped_length else size in
    let until_end := usize (capacity rb - start_at) in
    let size := if until_end <? size then until_end else size in
    slice (storage rb) start_at (start_at + size).

(** Answers the count and the bytes written at the front of the caller's
    slice, whose length is [room]. *)
(* [storage/ring_buffer.rs 376-391 RingBuffer::read_allocated] *)
Definition read_allocated (offset room : Z) (rb : ring_buffer) : outcome (Z * list A) :=
  let! s1 := get_allocated offset room rb in
  let! s2 := get_allocated (usize (offset + len s1)) (room - len s1) rb in
  Ret (usize (len s1 + len s2), s1 ++ s2).

(* [storage/ring_buffer.rs 397-401 RingBuffer::dequeue_allocated] *)
Definition dequeue_allocated (count : Z) (rb : ring_buffer) : outcome ring_buffer :=
  assert! count <=? rb_length rb in
  let rb := {| storage := storage rb; read_at := read_at rb; rb_length := usize (rb_length rb - count) |} in
  Ret {| storage := storage rb; read_at := get_idx rb count; rb_length := rb_length rb |}.

(** ** Specification

    The storage read from the front of the queue on, wrapping at the end; the
    queue's contents, and the free space behind them. *)
Definition rotated (rb : ring_buffer) : list A :=
  zdrop (read_at rb) (storage rb) ++ ztake (read_at rb) (storage rb).

Definition contents (rb : ring_buffer) : list A := ztake (rb_length rb) (rotated rb).
Definition free_space (rb : ring_buffer) : list A := zdrop (rb_length rb) (rotated rb).

(** The read position is inside the storage, and no more is stored than fits;
    an allocation is at most [isize::MAX] bytes. *)
Definition rb_inv (rb : ring_buffer) : Prop :=
  0 <= read_at rb /\ (read_at rb < capacity rb \/ (read_at rb = 0 /\ capacity rb = 0)) /\
  0 <= rb_length rb <= capacity rb /\ capacity rb < 9223372036854775808.

End RingBuffer.
Arguments ring_buffer A : clear implicits.

(** ** The rotated view *)

Section Lemmas.
Context {A : Type}.
Implicit Types (rb : ring_buffer A) (data : list A).

Lemma window_eq rb : rb_inv rb -> window rb = capacity rb - rb_length rb.
Proof. intros (_ & _ & ? & ?); apply usize_small; lia. Qed.

Lemma get_idx_eq rb idx :
  rb_inv rb -> 0 <= idx <= capacity rb ->
  get_idx rb idx =
    if read_at rb + idx <? capacity rb then read_at rb + idx
    else read_at rb + idx - capacity rb.
Proof.
  intros (Hr0 & Hr & Hl & Hc) Hi; unfold get_idx.
  destruct (Z.ltb_spec 0 (capacity rb)).
  - rewrite usize_small by lia. destruct (Z.ltb_spec (read_at rb + idx) (capacity rb)).
    + apply Z.mod_small; lia.
    + symmetry; apply (Z.mod_unique _ _ 1); lia.
  - assert (capacity rb = 0) by (unfold capacity in *; pose proof (len_nonneg (storage rb)); lia).
    destruct (Z.ltb_spec (read_at rb + idx) (capacity rb)); lia.
Qed.

Lemma get_idx_range rb idx :
  rb_inv rb -> 0 <= idx <= capacity rb -> 0 <= get_idx rb idx <= capacity rb.
Proof.
  intros Hi Hx; rewrite get_idx_eq by done; destruct Hi as (? & ? & ? & ?); zcase; lia.
Qed.

Lemma len_rotated rb : rb_inv rb -> len (rotated rb) = capacity rb.
Proof. intros (? & ? & ? & ?); unfold rotated, capacity in *; llia. Qed.

Lemma len_contents rb : rb_inv rb -> len (contents rb) = rb_length rb.
Proof. intros H; unfold contents; rewrite len_ztake, len_rotated by done; destruct H as (? & ? & ? & ?); lia. Qed.

Lemma len_free_space rb : rb_inv rb -> len (free_space rb) = window rb.
Proof.
  intros H; unfold free_space; rewrite len_zdrop, len_rotated, window_eq by done.
  destruct H as (? & ? & ? & ?); lia.
Qed.

Lemma zget_rotated rb i :
  rb_inv rb -> 0 <= i < capacity rb ->
  zget (rotated rb) i =
  zget (storage rb) (if read_at rb + i <? capacity rb then read_at rb + i
                     else read_at rb + i - capacity rb).
Proof.
  intros (? & ? & ? & ?) Hi; unfold rotated, capacity in *.
  rewrite zget_app, len_zdrop, zget_ztake.
  replace (Z.max 0 (len (storage rb) - Z.max 0 (read_at rb))) with (len (storage rb) - read_at rb) by lia.
  zcase; [by rewrite zget_zdrop by lia|f_equal; lia].
Qed.

(** A contiguous piece of the queue is a piece of the storage. *)
Lemma slice_rotated rb p n :
  rb_inv rb -> 0 <= p <= capacity rb -> 0 <= n -> p + n <= capacity rb ->
  get_idx rb p + n <= capacity rb ->
  ztake n (zdrop (get_idx rb p) (storage rb)) = ztake n (zdrop p (rotated rb)).
Proof.
  intros Hi Hp Hn Hpn Hidx; rewrite get_idx_eq in * by done.
  apply zget_eq; intros i Hi0; rewrite !zget_ztake.
  destruct (Z.ltb_spec i n); [|done].
  destruct Hi as (H1 & H2 & H3 & H4).
  rewrite !zget_zdrop by (zcase; lia); rewrite zget_rotated by (done || lia).
  f_equal; revert Hidx; zcase; lia.
Qed.

(** Overwriting a contiguous piece of the storage overwrites the queue there. *)
Lemma write_rotated rb p data lg :
  rb_inv rb -> 0 <= p <= capacity rb -> p + len data <= capacity rb ->
  get_idx rb p + len data <= capacity rb -> 0 <= lg <= capacity rb ->
  let rb' := {| storage := write_at (storage rb) (get_idx rb p) data;
                read_at := read_at rb; rb_length := lg |} in
  rb_inv rb' /\ capacity rb' = capacity rb /\ rotated rb' = write_at (rotated rb) p data.
Proof.
  intros Hi Hp Hpn Hidx Hlg; cbn zeta.
  pose proof (len_nonneg data); pose proof (get_idx_range rb p Hi Hp).
  set (rb' := {| storage := _ |}).
  assert (Hcap : capacity rb' = capacity rb).
  { unfold capacity in *; cbn [rb' storage]; rewrite len_write_at; lia. }
  assert (Hr : read_at rb' = read_at rb) by done.
  assert (Hst : storage rb' = write_at (storage rb) (get_idx rb p) data) by done.
  assert (Hlen : rb_length rb' = lg) by done.
  clearbody rb'.
  assert (Hi' : rb_inv rb').
  { destruct Hi as (? & ? & ? & ?); unfold rb_inv; rewrite Hcap, Hr, Hlen; split_and!; lia || done. }
  split; [done|]; split; [done|].
  apply zget_eq; intros i Hi0; destruct (Z.ltb_spec i (capacity rb)) as [Hlt|Hge].
  - rewrite zget_rotated, Hcap, Hr, Hst by (done || lia).
    rewrite !zget_write_at by (rewrite ?len_rotated by done; destruct Hi as (? & ? & ? & ?);
      unfold capacity in *; zcase; lia).
    rewrite zget_rotated by done; rewrite get_idx_eq in * by done.
    destruct Hi as (? & ? & ? & ?); revert Hidx; zcase; intros; try done; f_equal; lia.
  - rewrite !zget_ge; [done| |].
    + rewrite len_write_at by (rewrite ?len_rotated by done; lia); rewrite len_rotated by done; lia.
    + rewrite len_rotated, Hcap by done; lia.
Qed.

(** ** Writing *)

Lemma write_slice_spec rb offset data :
  rb_inv rb -> 0 <= offset -> offset + len data < M64 -> offset <= window rb ->
  exists n rb', n = Z.min (len data) (Z.min (window rb - offset)
                      (capacity rb - get_idx rb (rb_length rb + offset))) /\
    write_slice offset data rb = Ret (n, rb') /\ rb_inv rb' /\
    capacity rb' = capacity rb /\ rb_length rb' = rb_length rb /\ read_at rb' = read_at rb /\
    0 <= n /\ rotated rb' = write_at (rotated rb) (rb_length rb + offset) (ztake n data).
Proof.
  intros Hi Ho Hd Hw; pose proof (window_eq rb Hi) as Hwin; pose proof Hi as (H1 & H2 & H3 & H4).
  pose proof (len_nonneg data).
  remember (Z.min (len data) (Z.min (window rb - offset)
             (capacity rb - get_idx rb (rb_length rb + offset)))) as n eqn:En.
  assert (Hrange : 0 <= rb_length rb + offset <= capacity rb) by lia.
  pose proof (get_idx_range rb _ Hi Hrange) as Hidx.
  unfold write_slice, get_unallocated.
  rewrite (usize_small (rb_length rb + offset)) by lia.
  rewrite (proj2 (Z.ltb_ge (window rb) offset)) by lia.
  rewrite !usize_small by lia.
  replace (if capacity rb - get_idx rb (rb_length rb + offset) <?
              (if window rb - offset <? len data then window rb - offset else len data)
           then capacity rb - get_idx rb (rb_length rb + offset)
           else if window rb - offset <? len data then window rb - offset else len data)
    with n by (rewrite En; destruct (Z.ltb_spec (window rb - offset) (len data)); zcase; lia).
  assert (Hn : 0 <= n) by lia.
  rewrite slice_ret by lia; cbn [obind]; rewrite Z.sub_0_r; change (zdrop 0 data) with data.
  assert (Hln : len (ztake n data) = n) by (rewrite len_ztake; lia).
  rewrite copy_from_slice_ret by (fold (capacity rb); lia); cbn [obind].
  destruct (write_rotated rb (rb_length rb + offset) (ztake n data) (rb_length rb)) as (Hi' & Hc' & Hr');
    [done|done|lia|lia|lia|].
  exists n; eexists; split; [done|]; split; [done|]; split_and!; done.
Qed.

Lemma write_slice_out rb offset data :
  rb_inv rb -> window rb < offset -> write_slice offset data rb = Ret (0, rb).
Proof.
  intros Hi Ho; unfold write_slice, get_unallocated.
  rewrite (proj2 (Z.ltb_lt _ _) Ho), slice_ret by (pose proof (len_nonneg data); lia); cbn [obind].
  rewrite copy_from_slice_ret by (pose proof (len_nonneg (storage rb)); try done; lia); cbn [obind].
  rewrite ztake_0 by lia; rewrite write_at_nil; by destruct rb.
Qed.

Lemma get_idx_wrap rb p :
  rb_inv rb -> 0 <= p <= capacity rb ->
  let q := p + (capacity rb - get_idx rb p) in q <= capacity rb -> get_idx rb q = 0.
Proof.
  intros Hi Hp q Hq; pose proof (get_idx_range rb p Hi Hp).
  rewrite get_idx_eq by (subst q; lia || done); subst q; rewrite get_idx_eq in * by done.
  destruct Hi as (? & ? & ? & ?); revert Hq; zcase; lia.
Qed.

Lemma get_idx_same rb rb' p :
  capacity rb' = capacity rb -> read_at rb' = read_at rb -> get_idx rb' p = get_idx rb p.
Proof. unfold get_idx; by intros -> ->. Qed.

Lemma write_unallocated_spec rb offset data :
  rb_inv rb -> 0 <= offset -> offset + len data < M64 ->
  let n := Z.max 0 (Z.min (len data) (window rb - offset)) in
  exists rb', write_unallocated offset data rb = Ret (n, rb') /\ rb_inv rb' /\
    capacity rb' = capacity rb /\ rb_length rb' = rb_length rb /\ contents rb' = contents rb /\
    free_space rb' = if window rb <? offset then free_space rb
                     else write_at (free_space rb) offset (ztake n data).
Proof.
  intros Hi Ho Hd n; pose proof (window_eq rb Hi) as Hwin; pose proof Hi as (H1 & H2 & H3 & H4).
  pose proof (len_nonneg data); unfold write_unallocated.
  destruct (Z.ltb_spec (window rb) offset) as [Hout|Hin].
  { rewrite write_slice_out by done; cbn [obind].
    rewrite Z.add_0_r, usize_small, zdrop_0, write_slice_out by (done || lia); cbn [obind].
    exists rb; split_and!; try done. do 2 f_equal; subst n; rewrite usize_small; lia. }
  destruct (write_slice_spec rb offset data) as (n1 & rb1 & En1 & -> & Hi1 & Hc1 & Hl1 & Hr1 & Hn1 & Hrot1); try done.
  cbn [obind].
  rewrite (usize_small (offset + n1)) by lia.
  assert (Hw1 : window rb1 = window rb) by (rewrite !window_eq by done; lia).
  destruct (write_slice_spec rb1 (offset + n1) (zdrop n1 data)) as (n2 & rb2 & En2 & -> & Hi2 & Hc2 & Hl2 & Hr2 & Hn2 & Hrot2);
    [done|lia|rewrite len_zdrop; lia|lia|].
  cbn [obind]; rewrite Hw1, Hl1, Hc1 in *.
  rewrite len_zdrop in En2.
  assert (Hn : n1 + n2 = n).
  { rewrite (get_idx_same rb rb1) in En2 by done.
    destruct (Z.eq_dec n1 (capacity rb - get_idx rb (rb_length rb + offset))) as [Heq|]; [|subst n; lia].
    pose proof (get_idx_wrap rb (rb_length rb + offset) Hi ltac:(lia)) as Hwrap; cbn zeta in Hwrap.
    rewrite <-Heq in Hwrap; specialize (Hwrap ltac:(lia)).
    rewrite Z.add_assoc, Hwrap in En2; subst n; lia. }
  exists rb2; rewrite Hn, usize_small by lia; split; [done|].
  split; [done|]; split; [done|]; split; [done|].
  assert (Hrot : rotated rb2 = write_at (rotated rb) (rb_length rb + offset) (ztake n data)).
  { rewrite Hrot2, Hrot1.
    replace (rb_length rb + (offset + n1)) with (rb_length rb + offset + len (ztake n1 data))
      by (rewrite len_ztake; lia).
    rewrite write_at_app by (rewrite ?len_ztake, ?len_zdrop, ?len_rotated by done; lia).
    f_equal; rewrite <-Hn; apply ztake_add; lia. }
  unfold contents, free_space; rewrite Hrot, Hl2; split.
  - apply zget_eq; intros i Hi0; rewrite !zget_ztake, zget_write_at by (rewrite ?len_rotated by done; lia).
    zcase; done.
  - apply zget_eq; intros i Hi0; rewrite zget_zdrop by lia.
    rewrite !zget_write_at by (rewrite ?len_zdrop, ?len_rotated by done; lia).
    rewrite zget_zdrop by lia; zcase; try done; f_equal; lia.
Qed.

(** ** Enqueueing *)

(** The size of the slice [enqueue_many_with] offers. *)
Definition offered rb : Z :=
  if rb_length rb =? 0 then capacity rb
  else Z.min (window rb) (capacity rb - get_idx rb (rb_length rb)).

(** What a closure over slices must respect. *)
Definition well_behaved {R} (f : list A -> list A * Z * R) : Prop :=
  forall buf sl n r, f buf = (sl, n, r) -> len sl = len buf /\ 0 <= n <= len buf.

Lemma offered_range rb : rb_inv rb -> 0 <= offered rb <= window rb.
Proof.
  intros Hi; pose proof (window_eq rb Hi); pose proof Hi as (? & ? & ? & ?).
  pose proof (get_idx_range rb (rb_length rb) Hi ltac:(lia)).
  unfold offered; destruct (Z.eqb_spec (rb_length rb) 0); lia.
Qed.

Lemma rb_norm rb :
  rb_inv rb ->
  let rb' := if rb_length rb =? 0
             then {| storage := storage rb; read_at := 0; rb_length := rb_length rb |} else rb in
  rb_inv rb' /\ capacity rb' = capacity rb /\ rb_length rb' = rb_length rb /\
  contents rb' = contents rb /\ contiguous_window rb' = offered rb /\ storage rb' = storage rb.
Proof.
  intros Hi; pose proof (window_eq rb Hi) as Hw; pose proof Hi as (? & ? & ? & ?); cbn zeta.
  pose proof (get_idx_range rb (rb_length rb) Hi ltac:(lia)).
  unfold offered; destruct (Z.eqb_spec (rb_length rb) 0) as [E|E].
  - assert (Hi' : rb_inv {| storage := storage rb; read_at := 0; rb_length := rb_length rb |}).
    { unfold rb_inv, capacity in *; cbn; lia. }
    split; [done|]; split; [done|]; split; [done|].
    split; [unfold contents; rewrite E; by rewrite !ztake_0|]; split; [|done].
    unfold contiguous_window; cbn [rb_length]; rewrite window_eq by done.
    pose proof (get_idx_range _ (rb_length rb) Hi' ltac:(unfold capacity in *; cbn; lia)).
    rewrite get_idx_eq in * by (done || (unfold capacity in *; cbn; lia)).
    unfold capacity in *; cbn [storage read_at rb_length] in *; rewrite usize_small by (zcase; lia).
    zcase; lia.
  - split; [done|]; split; [done|]; split; [done|]; split; [done|]; split; [|done].
    unfold contiguous_window; rewrite usize_small by lia; done.
Qed.

Lemma enqueue_many_with_spec {R} (f : list A -> list A * Z * R) rb :
  rb_inv rb -> well_behaved f ->
  exists buf sl n r rb', len buf = offered rb /\ f buf = (sl, n, r) /\
    enqueue_many_with f rb = Ret (n, r, rb') /\ rb_inv rb' /\ capacity rb' = capacity rb /\
    rb_length rb' = rb_length rb + n /\ contents rb' = contents rb ++ ztake n sl /\
    (n = offered rb -> offered rb' = window rb').
Proof.
  intros Hi0 Hf; pose proof (offered_range rb Hi0) as Ho; pose proof (window_eq rb Hi0) as Hw0.
  destruct (rb_norm rb Hi0) as (Hi & Hc & Hl & Hcon & Hoff & Hst); unfold enqueue_many_with.
  set (rb1 := if rb_length rb =? 0 then _ else rb) in *.
  assert (Hcw : contiguous_window rb1 = Z.min (window rb1) (capacity rb1 - get_idx rb1 (rb_length rb1))).
  { pose proof Hi as (? & ? & ? & ?); pose proof (get_idx_range rb1 (rb_length rb1) Hi ltac:(lia)).
    unfold contiguous_window; by rewrite usize_small by lia. }
  clearbody rb1; rewrite Hoff in *; pose proof (window_eq rb1 Hi) as Hw.
  pose proof Hi as (H1 & H2 & H3 & H4); pose proof (get_idx_range rb1 (rb_length rb1) Hi ltac:(lia)) as Hidx.
  rewrite slice_ret by (fold (capacity rb1); lia); cbn [obind].
  replace (get_idx rb1 (rb_length rb1) + offered rb - get_idx rb1 (rb_length rb1)) with (offered rb) by lia.
  set (buf := ztake (offered rb) _).
  assert (Hbuf : len buf = offered rb).
  { subst buf; rewrite len_ztake, len_zdrop; unfold capacity in *; lia. }
  exists buf; destruct (f buf) as [[sl n] r] eqn:Ef; destruct (Hf _ _ _ _ Ef) as [Hsl Hn].
  rewrite copy_from_slice_ret by (fold (capacity rb1); lia); cbn [obind].
  rewrite (proj2 (Z.leb_le _ _)) by lia.
  rewrite usize_small by lia.
  destruct (write_rotated rb1 (rb_length rb1) sl (rb_length rb1 + n)) as (Hi' & Hc' & Hr');
    [done|lia|lia|lia|lia|].
  exists sl, n, r; eexists; split; [done|]; split; [done|]; split; [done|].
  set (rb2 := {| storage := _ |}) in *.
  assert (Hl2 : rb_length rb2 = rb_length rb1 + n) by done.
  assert (Hr2 : read_at rb2 = read_at rb1) by done.
  clearbody rb2; split; [done|]; split; [lia|]; split; [lia|]; split.
  - unfold contents; rewrite Hr', Hl2, ztake_write_at by (rewrite ?len_rotated by done; lia).
    fold (contents rb1); rewrite Hcon; f_equal; f_equal; lia.
  - intros Hn'; unfold offered; destruct (Z.eqb_spec (rb_length rb2) 0) as [E|E].
    { rewrite window_eq by done; lia. }
    rewrite (get_idx_same rb1 rb2) by (done || lia); rewrite Hl2, Hn', Hc', (window_eq rb2) by done.
    destruct (Z.eq_dec (offered rb) (window rb1)) as [Heq|Hne].
    + pose proof (get_idx_range rb1 (rb_length rb1 + n) Hi ltac:(lia)); rewrite <-Hn'; lia.
    + pose proof (get_idx_wrap rb1 (rb_length rb1) Hi ltac:(lia)) as Hwrap; cbn zeta in Hwrap.
      replace (capacity rb1 - get_idx rb1 (rb_length rb1)) with (offered rb) in Hwrap by lia.
      rewrite Hwrap by lia; lia.
Qed.

Lemma fill_slice_ok data : well_behaved (fill_slice data).
Proof.
  intros buf sl n r [= <- <- <-]; pose proof (len_nonneg data); pose proof (len_nonneg buf).
  rewrite len_app, len_ztake, len_zdrop; lia.
Qed.

Lemma enqueue_slice_spec rb data :
  rb_inv rb -> len data < M64 ->
  let n := Z.min (len data) (window rb) in
  exists rb', enqueue_slice data rb = Ret (n, rb') /\ rb_inv rb' /\ capacity rb' = capacity rb /\
    contents rb' = contents rb ++ ztake n data.
Proof.
  intros Hi Hd n; unfold enqueue_slice; pose proof (len_nonneg data).
  destruct (enqueue_many_with_spec _ rb Hi (fill_slice_ok data)) as
    (buf & sl & n1 & d & rb1 & Hb & Ef & -> & Hi1 & Hc1 & Hl1 & Hcon1 & Hoff1); cbn [obind].
  injection Ef as <- <- <-; rewrite Hb in *.
  destruct (enqueue_many_with_spec _ rb1 Hi1 (fill_slice_ok (zdrop (Z.min (offered rb) (len data)) data))) as
    (buf2 & sl2 & n2 & d2 & rb2 & Hb2 & Ef2 & -> & Hi2 & Hc2 & Hl2 & Hcon2 & _); cbn [obind].
  injection Ef2 as <- <- <-; rewrite Hb2 in *.
  set (n1 := Z.min (offered rb) (len data)) in *.
  pose proof (offered_range rb Hi); pose proof (offered_range rb1 Hi1).
  pose proof (window_eq rb Hi); pose proof (window_eq rb1 Hi1).
  rewrite len_zdrop in *; set (n2 := Z.min (offered rb1) (Z.max 0 (len data - Z.max 0 n1))) in *.
  assert (Hn : n1 + n2 = n).
  { destruct (Z.eq_dec n1 (offered rb)) as [E|E]; [specialize (Hoff1 E)|]; subst n n1 n2; lia. }
  pose proof Hi as (? & ? & ? & ?).
  exists rb2; rewrite Hn, usize_small by lia; split; [done|]; split; [done|]; split; [lia|].
  rewrite Hcon2, Hcon1, <-app_assoc; f_equal; rewrite <-Hn.
  rewrite !ztake_app_le by (rewrite len_ztake, ?len_zdrop; lia).
  rewrite !ztake_ztake, !Z.min_id; apply ztake_add; lia.
Qed.

(** ** Dequeueing *)

(** What was free is still free, at the same distance behind the queue's end. *)
Definition free_kept rb rb' : Prop :=
  forall p, 0 <= p < window rb -> zget (free_space rb') p = zget (free_space rb) p.

(** Moving the read position by [n] drops [n] elements from the front. *)
Lemma advance_rotated rb n st :
  rb_inv rb -> len st = capacity rb -> 0 <= n <= rb_length rb ->
  let rb' := {| storage := st; read_at := get_idx rb n; rb_length := rb_length rb - n |} in
  rb_inv rb' /\ capacity rb' = capacity rb /\
  (st = storage rb -> contents rb' = zdrop n (contents rb) /\ free_kept rb rb').
Proof.
  intros Hi Hst Hn; cbn zeta; pose proof Hi as (H1 & H2 & H3 & H4).
  pose proof (get_idx_eq rb n Hi ltac:(lia)) as Hidx.
  assert (Hcap : capacity {| storage := st; read_at := get_idx rb n; rb_length := rb_length rb - n |} = capacity rb) by done.
  set (rb' := {| storage := st |}) in *.
  assert (Hr : read_at rb' = get_idx rb n) by done.
  assert (Hl : rb_length rb' = rb_length rb - n) by done.
  assert (Hs : storage rb' = st) by done; clearbody rb'.
  assert (Hi' : rb_inv rb').
  { unfold rb_inv; rewrite Hcap, Hr, Hl, Hidx; revert Hidx; zcase; intros; split_and!; lia. }
  split; [done|]; split; [done|]; intros ->.
  assert (Hrot : forall i, 0 <= i < capacity rb - n -> zget (rotated rb') i = zget (rotated rb) (n + i)).
  { intros i Hi0; rewrite !zget_rotated, Hr, Hcap, Hs, Hidx by (done || lia); f_equal; zcase; lia. }
  split.
  - unfold contents; apply zget_eq; intros i Hi0; rewrite zget_zdrop, !zget_ztake, Hl by lia.
    destruct (Z.ltb_spec i (rb_length rb - n)), (Z.ltb_spec (n + i) (rb_length rb)); try lia; [|done].
    apply Hrot; lia.
  - intros p Hp; rewrite window_eq in Hp by done; unfold free_space; rewrite !zget_zdrop, Hl by lia.
    rewrite Hrot by lia; f_equal; lia.
Qed.

(** A piece of the queue in one slice of the storage. *)
Lemma get_allocated_spec rb offset size :
  rb_inv rb -> 0 <= offset -> 0 <= size ->
  exists n, n = (if rb_length rb <? offset then 0
                 else Z.min size (Z.min (rb_length rb - offset) (capacity rb - get_idx rb offset))) /\
    0 <= n /\ get_allocated offset size rb = Ret (ztake n (zdrop offset (contents rb))).
Proof.
  intros Hi Ho Hs; pose proof Hi as (H1 & H2 & H3 & H4); unfold get_allocated.
  destruct (Z.ltb_spec (rb_length rb) offset); [exists 0; by rewrite ztake_0|].
  pose proof (get_idx_range rb offset Hi ltac:(lia)) as Hidx.
  rewrite !usize_small by lia.
  replace (if capacity rb - get_idx rb offset <?
              (if rb_length rb - offset <? size then rb_length rb - offset else size)
           then capacity rb - get_idx rb offset
           else if rb_length rb - offset <? size then rb_length rb - offset else size)
    with (Z.min size (Z.min (rb_length rb - offset) (capacity rb - get_idx rb offset)))
    by (destruct (Z.ltb_spec (rb_length rb - offset) size); zcase; lia).
  eexists; split; [done|]; set (n := Z.min size _); split; [lia|].
  rewrite slice_ret by (fold (capacity rb); lia); f_equal.
  replace (get_idx rb offset + n - get_idx rb offset) with n by lia.
  rewrite slice_rotated by (done || lia).
  unfold contents; rewrite zdrop_ztake by lia; rewrite ztake_ztake; f_equal; lia.
Qed.

Lemma read_allocated_spec rb offset room :
  rb_inv rb -> 0 <= offset -> 0 <= room -> offset + room < M64 ->
  read_allocated offset room rb =
    Ret (len (ztake room (zdrop offset (contents rb))), ztake room (zdrop offset (contents rb))).
Proof.
  intros Hi Ho Hr Hlt; unfold read_allocated; pose proof Hi as (H1 & H2 & H3 & H4).
  destruct (get_allocated_spec rb offset room Hi Ho Hr) as (n1 & En1 & Hn1 & E1); rewrite E1; cbn [obind].
  pose proof (len_contents rb Hi) as Hlc.
  assert (Hl1 : len (ztake n1 (zdrop offset (contents rb))) = n1).
  { rewrite len_ztake, len_zdrop, Hlc; revert En1; zcase; lia. }
  rewrite Hl1, usize_small by (revert En1; zcase; lia).
  destruct (get_allocated_spec rb (offset + n1) (room - n1)) as (n2 & En2 & Hn2 & E2);
    [done|lia|revert En1; zcase; lia|]; rewrite E2; cbn [obind].
  assert (Hl2 : len (ztake n2 (zdrop (offset + n1) (contents rb))) = n2).
  { rewrite len_ztake, len_zdrop, Hlc; revert En2; zcase; lia. }
  assert (Happ : ztake n1 (zdrop offset (contents rb)) ++ ztake n2 (zdrop (offset + n1) (contents rb)) =
                 ztake (n1 + n2) (zdrop offset (contents rb))).
  { rewrite <-(zdrop_zdrop n1 offset) by lia; apply ztake_add; lia. }
  assert (Hall : ztake (n1 + n2) (zdrop offset (contents rb)) = ztake room (zdrop offset (contents rb))).
  { destruct (Z.ltb_spec (rb_length rb) offset) as [Hout|Hin].
    { subst n1; by rewrite (zdrop_ge offset) by lia; rewrite !(ztake_ge _ []) by (rewrite len_nil; lia). }
    destruct (Z.eq_dec n1 (capacity rb - get_idx rb offset)) as [E|E].
    - pose proof (get_idx_range rb offset Hi ltac:(lia)).
      pose proof (get_idx_wrap rb offset Hi ltac:(lia)) as Hw; cbn zeta in Hw; rewrite <-E in Hw.
      assert (n1 <= rb_length rb - offset) by (rewrite En1; lia).
      specialize (Hw ltac:(lia)); rewrite Hw in En2.
      destruct (Z.ltb_spec (rb_length rb) (offset + n1)); [lia|].
      destruct (Z.le_ge_cases room (rb_length rb - offset)); [f_equal; lia|].
      by rewrite !ztake_ge by (rewrite len_zdrop; lia).
    - destruct (Z.le_ge_cases room (rb_length rb - offset)).
      + f_equal; revert En2; zcase; lia.
      + by rewrite !ztake_ge by (rewrite len_zdrop; lia). }
  rewrite Hl2, Happ, Hall; f_equal; f_equal.
  rewrite <-Hall, <-Happ, len_app, Hl1, Hl2; apply usize_small; revert En1 En2; zcase; lia.
Qed.

Lemma dequeue_allocated_spec rb count :
  rb_inv rb -> 0 <= count <= rb_length rb ->
  exists rb', dequeue_allocated count rb = Ret rb' /\ rb_inv rb' /\ capacity rb' = capacity rb /\
    contents rb' = zdrop count (contents rb).
Proof.
  intros Hi Hc; unfold dequeue_allocated; rewrite (proj2 (Z.leb_le _ _)) by lia.
  pose proof Hi as (H1 & H2 & H3 & H4); rewrite usize_small by lia; cbn [rb_length storage].
  destruct (advance_rotated rb count (storage rb) Hi eq_refl Hc) as (Hi' & Hc' & Hcon).
  eexists; split; [done|]; split; [done|]; split; [done|]; by apply Hcon.
Qed.

Lemma enqueue_unallocated_spec rb count :
  rb_inv rb -> 0 <= count <= window rb ->
  exists rb', enqueue_unallocated count rb = Ret rb' /\ rb_inv rb' /\ capacity rb' = capacity rb /\
    contents rb' = contents rb ++ ztake count (free_space rb) /\
    free_space rb' = zdrop count (free_space rb).
Proof.
  intros Hi Hc; unfold enqueue_unallocated; rewrite (proj2 (Z.leb_le _ _)) by lia.
  pose proof (window_eq rb Hi); pose proof Hi as (H1 & H2 & H3 & H4); rewrite usize_small by lia.
  eexists; split; [done|]; split; [unfold rb_inv, capacity in *; cbn; lia|]; split; [done|].
  unfold contents, free_space; cbn [rb_length]; change (rotated {| storage := storage rb; read_at := read_at rb;
    rb_length := rb_length rb + count |}) with (rotated rb); split.
  - symmetry; apply ztake_add; lia.
  - symmetry; apply zdrop_zdrop; lia.
Qed.

(** The front slice offered to a closure that only reads it. *)
Lemma dequeue_many_with_spec {R} (f : list A -> list A * Z * R) rb :
  rb_inv rb -> (forall buf sl n r, f buf = (sl, n, r) -> sl = buf /\ 0 <= n <= len buf) ->
  let m := Z.min (rb_length rb) (capacity rb - read_at rb) in
  exists n r rb', f (ztake m (contents rb)) = (ztake m (contents rb), n, r) /\
    0 <= n <= m /\ 0 <= m /\ len (ztake m (contents rb)) = m /\
    dequeue_many_with f rb = Ret (n, r, rb') /\ rb_inv rb' /\ capacity rb' = capacity rb /\
    contents rb' = zdrop n (contents rb) /\ rb_length rb' = rb_length rb - n /\
    read_at rb' = get_idx rb n /\ free_kept rb rb'.
Proof.
  intros Hi Hf m; pose proof Hi as (H1 & H2 & H3 & H4); unfold dequeue_many_with.
  rewrite usize_small by lia; fold m.
  assert (Hm : 0 <= m) by lia.
  rewrite slice_ret by (fold (capacity rb); lia); cbn [obind].
  replace (read_at rb + m - read_at rb) with m by lia.
  assert (Hbuf : ztake m (zdrop (read_at rb) (storage rb)) = ztake m (contents rb)).
  { assert (E0 : get_idx rb 0 = read_at rb) by (rewrite get_idx_eq by (done || lia); zcase; lia).
    pose proof (slice_rotated rb 0 m Hi) as Hs; rewrite E0 in Hs; rewrite Hs by lia.
    unfold contents; rewrite ztake_ztake, zdrop_0 by lia; f_equal; lia. }
  rewrite Hbuf; destruct (f (ztake m (contents rb))) as [[sl n] r] eqn:Ef.
  destruct (Hf _ _ _ _ Ef) as [-> Hn].
  assert (Hlm : len (ztake m (contents rb)) = m) by (rewrite len_ztake, len_contents by done; lia).
  rewrite copy_from_slice_ret by (fold (capacity rb); lia); cbn [obind].
  rewrite (proj2 (Z.leb_le _ _)) by lia; rewrite !usize_small by lia.
  replace (if 0 <? capacity rb then (read_at rb + n) mod capacity rb else 0) with (get_idx rb n).
  2: { unfold get_idx; by rewrite usize_small by lia. }
  assert (Hst : write_at (storage rb) (read_at rb) (ztake m (contents rb)) = storage rb).
  { rewrite <-Hbuf; apply zget_eq; intros i Hi0.
    rewrite zget_write_at by (unfold capacity in *; lia).
    rewrite Hbuf, Hlm, <-Hbuf; zcase; try done.
    rewrite zget_ztake, (proj2 (Z.ltb_lt _ _)), zget_zdrop by lia; f_equal; lia. }
  rewrite Hst.
  destruct (advance_rotated rb n (storage rb) Hi eq_refl ltac:(lia)) as (Hi' & Hc' & Hcon).
  do 3 eexists; split; [done|]; split; [lia|]; split; [done|]; split; [done|]; split; [done|].
  destruct (Hcon eq_refl) as [Hcn Hfk].
  split; [done|]; split; [done|]; split; [done|]; split; [done|]; split; done.
Qed.

Lemma dequeue_slice_spec rb room :
  rb_inv rb -> 0 <= room < M64 ->
  let n := Z.min room (rb_length rb) in
  exists rb', dequeue_slice room rb = Ret (n, ztake n (contents rb), rb') /\ rb_inv rb' /\
    capacity rb' = capacity rb /\ contents rb' = zdrop n (contents rb) /\ free_kept rb rb'.
Proof.
  intros Hi Hr n; unfold dequeue_slice; pose proof Hi as (H1 & H2 & H3 & H4).
  assert (Hok : forall room, 0 <= room -> forall (buf sl : list A) k (r : list A), drain_slice room buf = (sl, k, r) ->
            sl = buf /\ 0 <= k <= len buf).
  { intros rm Hrm buf sl k r [= <- <- <-]; pose proof (len_nonneg buf); split; [done|lia]. }
  destruct (dequeue_many_with_spec _ rb Hi (Hok room ltac:(lia))) as
    (n1 & d1 & rb1 & Ef1 & Hn1 & Hm1 & Hlm1 & -> & Hi1 & Hc1 & Hcon1 & Hl1 & Hr1 & Hk1); cbn [obind].
  injection Ef1 as En1 Ed1; rewrite Hlm1 in *.
  destruct (dequeue_many_with_spec _ rb1 Hi1 (Hok (room - n1) ltac:(lia))) as
    (n2 & d2 & rb2 & Ef2 & Hn2 & Hm2 & Hlm2 & -> & Hi2 & Hc2 & Hcon2 & Hl2 & Hr2 & Hk2); cbn [obind].
  injection Ef2 as En2 Ed2; rewrite Hlm2 in *.
  rewrite Hc1, Hl1, Hr1 in *.
  assert (Hn : n1 + n2 = n).
  { destruct (Z.eq_dec n1 (capacity rb - read_at rb)) as [E|E]; [|subst n; lia].
    assert (E0 : get_idx rb 0 = read_at rb) by (rewrite get_idx_eq by (done || lia); zcase; lia).
    pose proof (get_idx_wrap rb 0 Hi ltac:(lia)) as Hw; cbn zeta in Hw; rewrite E0, <-E, Z.add_0_l in Hw.
    rewrite Hw in * by lia; subst n; lia. }
  exists rb2; rewrite <-Hn, usize_small by lia; split.
  - f_equal; f_equal; f_equal. rewrite <-Ed1, <-Ed2, Hcon1, !ztake_ztake, En1, En2.
    rewrite !Z.min_l by lia; apply ztake_add; lia.
  - split; [done|]; split; [lia|]; split; [rewrite Hcon2, Hcon1; apply zdrop_zdrop; lia|].
    intros p Hp; rewrite window_eq in Hp by done.
    rewrite Hk2 by (rewrite window_eq by done; lia); apply Hk1; rewrite window_eq by done; lia.
Qed.

(** ** Single elements *)

Lemma get_idx_unchecked_eq rb idx :
  0 < capacity rb -> get_idx_unchecked rb idx = Ret (get_idx rb idx).
Proof.
  intros Hc; unfold get_idx_unchecked, get_idx.
  rewrite (proj2 (Z.eqb_neq _ _)), (proj2 (Z.ltb_lt _ _)) by lia; done.
Qed.

Lemma write_at_single (l : list A) i x :
  0 <= i < len l -> write_at l i [x] = <[Z.to_nat i := x]> l.
Proof.
  intros Hi; apply zget_eq; intros j Hj; rewrite zget_write_at by lia.
  unfold zget; rewrite (proj2 (Z.ltb_ge j 0)) by lia; rewrite list_lookup_insert.
  rewrite len_cons, len_nil; unfold len in Hi.
  case_decide as E.
  - replace j with i by lia; rewrite Z.sub_diag; zcase; done.
  - zcase; try done; exfalso; apply E; lia.
Qed.

Lemma enqueue_one_with_spec {E : Type} rb x :
  rb_inv rb -> 0 < window rb ->
  exists rb', enqueue_one_with (fun _ => (x, @Ok unit E tt)) rb = Ret (Some (Ok tt), rb') /\
    rb_inv rb' /\ capacity rb' = capacity rb /\ contents rb' = contents rb ++ [x].
Proof.
  intros Hi Hw; pose proof (window_eq rb Hi); pose proof Hi as (H1 & H2 & H3 & H4).
  unfold enqueue_one_with, is_full; rewrite (proj2 (Z.eqb_neq _ _)) by lia.
  rewrite get_idx_unchecked_eq by lia; cbn [obind].
  assert (Hidx : 0 <= get_idx rb (rb_length rb) < capacity rb).
  { rewrite get_idx_eq by (done || lia); zcase; lia. }
  destruct (index_is_ret (storage rb) (get_idx rb (rb_length rb))) as [y Hy]; [exact Hidx|].
  rewrite Hy, store_ret by exact Hidx; cbn [obind]; rewrite <-write_at_single, usize_small by (done || lia).
  destruct (write_rotated rb (rb_length rb) [x] (rb_length rb + 1)) as (Hi' & Hc' & Hr');
    [done|lia|rewrite len_cons, len_nil; lia|rewrite len_cons, len_nil; lia|lia|].
  eexists; split; [done|]; split; [done|]; split; [done|].
  unfold contents; rewrite Hr'; cbn [rb_length].
  rewrite ztake_write_at by (rewrite ?len_rotated by done; rewrite ?len_cons, ?len_nil; lia).
  by replace (rb_length rb + 1 - rb_length rb) with 1 by lia.
Qed.

Lemma dequeue_one_with_spec {E : Type} rb x q :
  rb_inv rb -> contents rb = x :: q ->
  exists rb', dequeue_one_with (fun y => (y, @Ok A E y)) rb = Ret (Some (Ok x), rb') /\
    rb_inv rb' /\ capacity rb' = capacity rb /\ contents rb' = q.
Proof.
  intros Hi Hq; pose proof Hi as (H1 & H2 & H3 & H4).
  pose proof (len_contents rb Hi) as Hl; rewrite Hq, len_cons in Hl; pose proof (len_nonneg q).
  unfold dequeue_one_with, rb_is_empty; rewrite (proj2 (Z.eqb_neq _ _)) by lia.
  rewrite get_idx_unchecked_eq by lia; cbn [obind].
  assert (Hx : index (storage rb) (read_at rb) = Ret x).
  { destruct (index_is_ret (storage rb) (read_at rb)) as [y Hy]; [unfold capacity in *; lia|].
    rewrite Hy; f_equal; apply index_ret_iff in Hy as [_ Hy].
    assert (Hz : zget (contents rb) 0 = Some x) by (rewrite Hq; done).
    unfold contents in Hz; rewrite zget_ztake, (proj2 (Z.ltb_lt _ _)), zget_rotated in Hz by (done || lia).
    rewrite Z.add_0_r, (proj2 (Z.ltb_lt _ _)) in Hz by lia.
    unfold zget in Hz; rewrite (proj2 (Z.ltb_ge _ _)) in Hz by lia; congruence. }
  pose proof Hx as [_ Hx']%index_ret_iff.
  rewrite Hx; cbn [obind]; rewrite store_ret by (unfold capacity in *; lia); cbn [obind].
  rewrite list_insert_id by done; rewrite usize_small by lia.
  destruct (advance_rotated rb 1 (storage rb) Hi eq_refl ltac:(lia)) as (Hi' & Hc' & Hcon).
  eexists; split; [done|]; split; [done|]; split; [done|]. rewrite (proj1 (Hcon eq_refl)), Hq; done.
Qed.

End Lemmas.

(** ** Refinement to a bounded queue *)

Section Refinement.
Context {A : Type}.

(** The commands of a client, and what each answers: a count and elements. *)
Inductive rb_cmd : Type :=
| CEnqueueSlice (data : list A)
| CDequeueSlice (room : Z)
| CEnqueueOne (x : A)
| CDequeueOne
| CReadAllocated (offset room : Z)
| CDequeueAllocated (count : Z)
| CClear.

Definition rb_answer : Type := Z * list A.

(** The bounded queue. *)
Definition queue_step (cap : Z) (q : list A) (c : rb_cmd) : outcome (rb_answer * list A) :=
  match c with
  | CEnqueueSlice data =>
      let n := Z.min (len data) (cap - len q) in Ret ((n, []), q ++ ztake n data)
  | CDequeueSlice room =>
      let n := Z.min room (len q) in Ret ((n, ztake n q), zdrop n q)
  | CEnqueueOne x => if len q <? cap then Ret ((1, []), q ++ [x]) else Ret ((0, []), q)
  | CDequeueOne => match q with [] => Ret ((0, []), []) | x :: q' => Ret ((1, [x]), q') end
  | CReadAllocated offset room =>
      let data := ztake room (zdrop offset q) in Ret ((len data, data), q)
  | CDequeueAllocated count => assert! count <=? len q in Ret ((0, []), zdrop count q)
  | CClear => Ret ((0, []), [])
  end.

(** The same commands on the ring buffer. *)
Definition ring_step (rb : ring_buffer A) (c : rb_cmd) : outcome (rb_answer * ring_buffer A) :=
  match c with
  | CEnqueueSlice data => let! (n, rb) := enqueue_slice data rb in Ret ((n, []), rb)
  | CDequeueSlice room => let! (n, d, rb) := dequeue_slice room rb in Ret ((n, d), rb)
  | CEnqueueOne x =>
      let! (r, rb) := enqueue_one_with (fun _ => (x, @Ok unit unit tt)) rb in
      Ret ((match r with Some _ => 1 | None => 0 end, []), rb)
  | CDequeueOne =>
      let! (r, rb) := dequeue_one_with (fun y => (y, @Ok A unit y)) rb in
      Ret (match r with Some (Ok x) => (1, [x]) | _ => (0, []) end, rb)
  | CReadAllocated offset room => let! r := read_allocated offset room rb in Ret (r, rb)
  | CDequeueAllocated count => let! rb := dequeue_allocated count rb in Ret ((0, []), rb)
  | CClear => Ret ((0, []), rb_clear rb)
  end.

Fixpoint run {S} (step : S -> rb_cmd -> outcome (rb_answer * S)) (s : S) (cs : list rb_cmd)
  : outcome (list rb_answer * S) :=
  match cs with
  | [] => Ret ([], s)
  | c :: cs' =>
      let! (a, s) := step s c in
      let! (ans, s) := run step s cs' in
      Ret (a :: ans, s)
  end.

(** The arguments are machine words: lengths of allocations. *)
Definition cmd_ok (c : rb_cmd) : Prop :=
  match c with
  | CEnqueueSlice data => len data < M64
  | CDequeueSlice room => 0 <= room < M64
  | CReadAllocated offset room => 0 <= offset /\ 0 <= room /\ offset + room < M64
  | CDequeueAllocated count => 0 <= count
  | _ => True
  end.

Definition refines (rb : ring_buffer A) (cap : Z) (q : list A) : Prop :=
  rb_inv rb /\ capacity rb = cap /\ contents rb = q.

Lemma ring_step_refines rb cap q c :
  refines rb cap q -> cmd_ok c ->
  match queue_step cap q c with
  | Panic => ring_step rb c = Panic
  | Ret (a, q') => exists rb', ring_step rb c = Ret (a, rb') /\ refines rb' cap q'
  end.
Proof.
  intros (Hi & Hc & Hq) Hok; pose proof (window_eq rb Hi) as Hw; pose proof (len_contents rb Hi) as Hl.
  rewrite Hq in Hl; pose proof Hi as (H1 & H2 & H3 & H4).
  destruct c as [data|room|x| |offset room|count|]; cbn [queue_step ring_step cmd_ok] in *.
  - destruct (enqueue_slice_spec rb data Hi Hok) as (rb' & -> & Hi' & Hc' & Hcon); cbn [obind].
    rewrite Hw, Hc, <-Hl in *; exists rb'; split; [done|]; split_and!; [done|lia|by rewrite Hcon, Hq].
  - destruct (dequeue_slice_spec rb room Hi Hok) as (rb' & -> & Hi' & Hc' & Hcon & _); cbn [obind].
    rewrite Hl, Hq in *; exists rb'; split; [done|]; split_and!; [done|lia|done].
  - destruct (Z.ltb_spec (len q) cap).
    + destruct (enqueue_one_with_spec (E := unit) rb x Hi) as (rb' & -> & Hi' & Hc' & Hcon); [lia|]; cbn [obind].
      exists rb'; split; [done|]; split_and!; [done|lia|by rewrite Hcon, Hq].
    + exists rb; unfold enqueue_one_with, is_full; rewrite (proj2 (Z.eqb_eq _ _)) by lia; done.
  - destruct q as [|x q'].
    + exists rb; unfold dequeue_one_with, rb_is_empty; rewrite (proj2 (Z.eqb_eq _ _)) by (rewrite len_nil in Hl; lia); done.
    + destruct (dequeue_one_with_spec (E := unit) rb x q' Hi Hq) as (rb' & -> & Hi' & Hc' & Hcon); cbn [obind].
      exists rb'; split; [done|]; split_and!; [done|lia|done].
  - rewrite read_allocated_spec by (done || lia); rewrite Hq; cbn [obind]; by exists rb.
  - destruct (Z.leb_spec count (len q)).
    + destruct (dequeue_allocated_spec rb count Hi) as (rb' & -> & Hi' & Hc' & Hcon); [lia|]; cbn [obind].
      exists rb'; split; [done|]; split_and!; [done|lia|by rewrite Hcon, Hq].
    + unfold dequeue_allocated; by rewrite (proj2 (Z.leb_gt _ _)) by lia.
  - exists (rb_clear rb); split; [done|]; split_and!; [|done|done].
    unfold rb_inv, capacity in *; cbn; lia.
Qed.

(** C40: the ring buffer is a bounded first-in first-out queue.  Whatever the
    sequence of slice, single-element, peek, drop and clear operations, the
    ring buffer answers what a plain queue of its capacity answers (and panics
    where the queue's contract is broken, dropping more than there is), however
    the contents wrap around the storage. *)
Theorem ring_buffer_is_queue (st : list A) (cs : list rb_cmd) :
  len st < 9223372036854775808 -> Forall cmd_ok cs ->
  match run (queue_step (len st)) [] cs with
  | Panic => run ring_step (rb_new st) cs = Panic
  | Ret (ans, q) =>
      exists rb, run ring_step (rb_new st) cs = Ret (ans, rb) /\ refines rb (len st) q
  end.
Proof.
  intros Hst Hcs.
  assert (H : refines (rb_new st) (len st) []).
  { unfold refines, rb_inv, capacity; cbn; pose proof (len_nonneg st); split_and!; try done; lia. }
  revert H; generalize (rb_new st) as rb, (@nil A) as q.
  induction Hcs as [|c cs Hc Hcs IH]; intros rb q H; cbn [run]; [by exists rb|].
  pose proof (ring_step_refines rb (len st) q c H Hc) as Hstep.
  destruct (queue_step (len st) q c) as [[a q']|]; cbn [obind]; [|by rewrite Hstep].
  destruct Hstep as (rb' & -> & Hr); cbn [obind].
  specialize (IH rb' q' Hr); destruct (run (queue_step (len st)) q' cs) as [[ans q'']|]; cbn [obind].
  - destruct IH as (rb'' & -> & ?); cbn [obind]; by exists rb''.
  - by rewrite IH.
Qed.

(** Out-of-order writes land at their place in the stream.  Writing [data]
    at [offset] past the queue stores as much of it as fits, in the free space
    at exactly that offset, and leaves the queue alone; committing [count]
    elements then appends the first [count] elements of the free space; and
    committing more than the free space is a panic. *)
Theorem write_then_commit (rb : ring_buffer A) (offset count : Z) (data : list A) :
  rb_inv rb -> 0 <= offset -> offset + len data < M64 -> 0 <= count ->
  let n := Z.max 0 (Z.min (len data) (window rb - offset)) in
  exists rb1, write_unallocated offset data rb = Ret (n, rb1) /\ rb_inv rb1 /\
    contents rb1 = contents rb /\ window rb1 = window rb /\
    (forall i, 0 <= i -> zget (free_space rb1) i =
       if (offset <=? i) && (i <? offset + n) then zget data (i - offset) else zget (free_space rb) i) /\
    (if count <=? window rb then
       exists rb2, enqueue_unallocated count rb1 = Ret rb2 /\ rb_inv rb2 /\
         contents rb2 = contents rb ++ ztake count (free_space rb1) /\
         free_space rb2 = zdrop count (free_space rb1)
     else enqueue_unallocated count rb1 = Panic).
Proof.
  intros Hi Ho Hd Hc n; pose proof (window_eq rb Hi) as Hw.
  destruct (write_unallocated_spec rb offset data Hi Ho Hd) as (rb1 & E & Hi1 & Hc1 & Hl1 & Hcon & Hfree).
  fold n in E, Hfree; exists rb1; split; [done|]; split; [done|]; split; [done|].
  assert (Hw1 : window rb1 = window rb) by (rewrite !window_eq by done; lia).
  split; [done|]; split.
  - intros i Hi0; rewrite Hfree; pose proof (len_nonneg data); destruct (Z.ltb_spec (window rb) offset).
    + replace n with 0 by (subst n; lia); zcase; done.
    + rewrite zget_write_at by (rewrite ?len_free_space by done; lia).
      rewrite len_ztake; replace (Z.max 0 (Z.min n (len data))) with n by (subst n; lia).
      zcase; try done; rewrite zget_ztake; zcase; done.
  - destruct (Z.leb_spec count (window rb)).
    + destruct (enqueue_unallocated_spec rb1 count Hi1) as (rb2 & E2 & Hi2 & _ & Hcon2 & Hf2); [lia|].
      exists rb2; split_and!; [done|done|by rewrite Hcon2, Hcon|done].
    + unfold enqueue_unallocated; by rewrite (proj2 (Z.leb_gt _ _)) by lia.
Qed.

End Refinement.

(** A queue that wraps: five slots, the second write crosses the end. *)
Definition example_cmds : list (@rb_cmd Z) :=
  [CEnqueueSlice [1; 2; 3; 4]; CDequeueSlice 3; CEnqueueSlice [5; 6; 7; 8; 9]; CReadAllocated 1 9; CDequeueOne].

Lemma ring_buffer_is_queue_witness :
  exists rb, run ring_step (rb_new [0; 0; 0; 0; 0]) example_cmds =
    Ret ([(4, []); (3, [1; 2; 3]); (4, []); (4, [5; 6; 7; 8]); (1, [4])], rb) /\
    refines rb 5 [5; 6; 7; 8].
Proof.
  pose proof (ring_buffer_is_queue [0; 0; 0; 0; 0] example_cmds eq_refl) as H.
  destruct H as (rb & H1 & H2).
  - repeat constructor; try reflexivity; lia.
  - exists rb; split; [exact H1|exact H2].
Defined.

Lemma write_then_commit_witness :
  exists rb1 rb2, write_unallocated 1 [7; 8] (rb_new [0; 0; 0]) = Ret (2, rb1) /\
    enqueue_unallocated 3 rb1 = Ret rb2 /\ contents rb2 = ztake 3 (free_space rb1).
Proof.
  destruct (write_then_commit (rb_new [0; 0; 0]) 1 3 [7; 8]) as (rb1 & E1 & _ & _ & _ & _ & H).
  - unfold rb_inv, capacity; cbn [storage read_at rb_length rb_new]; change (len [0; 0; 0]) with 3; lia.
  - lia.
  - reflexivity.
  - lia.
  - destruct H as (rb2 & E2 & _ & Hc & _); exists rb1, rb2; split; [exact E1|split; [exact E2|exact Hc]].
Defined.
