(* ===== verification/Time.v ===== *)
(** Instants and durations (vendor/smoltcp/src/time.rs): signed 64-bit
    microseconds since an arbitrary origin, and unsigned 64-bit microseconds. *)

From Stdlib Require Import ZArith Lia.
From stdpp Require Import base list numbers.
From S2P Require Import Prelude.

(* [time.rs 25-27 Instant] *)
Definition instant : Type := Z.
(* [time.rs 181-183 Duration] *)
Definition duration : Type := Z.

(* [time.rs 30-30 Instant::ZERO] *)
Definition INSTANT_ZERO : instant := 0.
(* [time.rs 39-41 Instant::from_micros_const] *)
Definition instant_from_micros (micros : Z) : instant := micros.
(* [time.rs 44-48 Instant::from_millis] *)
Definition instant_from_millis (millis : Z) : instant := i64 (millis * 1000).
(* [time.rs 58-62 Instant::from_secs] *)
Definition instant_from_secs (secs : Z) : instant := i64 (secs * 1000000).
(** Rust's remainder and division truncate towards zero. *)
(* [time.rs 77-79 Instant::millis] *)
Definition instant_millis (t : instant) : Z := Z.quot (Z.rem t 1000000) 1000.
(* [time.rs 83-85 Instant::micros] *)
Definition instant_micros (t : instant) : Z := Z.rem t 1000000.
(* [time.rs 89-91 Instant::secs] *)
Definition instant_secs (t : instant) : Z := Z.quot t 1000000.
(* [time.rs 95-97 Instant::total_millis] *)
Definition instant_total_millis (t : instant) : Z := Z.quot t 1000.
(* [time.rs 100-102 Instant::total_micros] *)
Definition instant_total_micros (t : instant) : Z := t.

(* [time.rs 190-192 Duration::from_micros] *)
Definition from_micros (micros : Z) : duration := micros.
(* [time.rs 195-199 Duration::from_millis] *)
Definition from_millis (millis : Z) : duration := u64 (millis * 1000).
(* [time.rs 202-206 Duration::from_secs] *)
Definition from_secs (secs : Z) : duration := u64 (secs * 1000000).
(* [time.rs 209-211 Duration::millis] *)
Definition millis (d : duration) : Z := d / 1000 mod 1000.
(* [time.rs 214-216 Duration::micros] *)
Definition micros (d : duration) : Z := d mod 1000000.
(* [time.rs 219-221 Duration::secs] *)
Definition secs (d : duration) : Z := d / 1000000.
(* [time.rs 224-226 Duration::total_millis] *)
Definition total_millis (d : duration) : Z := d / 1000.
(* [time.rs 229-231 Duration::total_micros] *)
Definition total_micros (d : duration) : Z := d.

(** [rhs.total_micros() as i64] reinterprets; the sum wraps. *)
(* [time.rs 143-149 Instant::add] *)
Definition instant_add (t : instant) (d : duration) : instant := i64 (t + i64 (total_micros d)).
(* [time.rs 157-163 Instant::sub] *)
Definition instant_sub_duration (t : instant) (d : duration) : instant := i64 (t - i64 (total_micros d)).
(** The distance between two instants, whatever their order. *)
(* [time.rs 171-177 Instant::sub] *)
Definition instant_sub (t rhs : instant) : duration := from_micros (Z.abs (i64 (t - rhs))).

(* [time.rs 247-253 Duration::add] *)
Definition duration_add (a b : duration) : duration := from_micros (u64 (a + total_micros b)).
(** [expect] panics on underflow. *)
(* [time.rs 261-271 Duration::sub] *)
Definition duration_sub (a b : duration) : outcome duration :=
  assert! b <=? a in Ret (from_micros (a - b)).
(* [time.rs 282-288 Duration::mul] *)
Definition duration_mul (d : duration) (k : Z) : duration := from_micros (u64 (d * k)).
(* [time.rs 296-302 Duration::div] *)
Definition duration_div (d : duration) (k : Z) : outcome duration :=
  assert! negb (k =? 0) in Ret (from_micros (d / k)).
(** A release build masks the shift count to six bits. *)
(* [time.rs 310-316 Duration::shl] *)
Definition duration_shl (d : duration) (k : Z) : duration := from_micros (u64 (Z.shiftl d (k mod 64))).
(* [time.rs 324-330 Duration::shr] *)
Definition duration_shr (d : duration) (k : Z) : duration := from_micros (Z.shiftr d (k mod 64)).

(** An instant of a run: less than 2^62 microseconds (146 000 years) from the
    origin, so that adding a timeout does not wrap. *)
Definition sane_instant (t : instant) : Prop := -4611686018427387904 <= t < 4611686018427387904.
Definition sane_duration (d : duration) : Prop := 0 <= d < 4611686018427387904.

Lemma instant_add_sane t d : sane_instant t -> sane_duration d -> instant_add t d = t + d.
Proof. unfold sane_instant, sane_duration, instant_add, total_micros, i64; intros; mlia. Qed.

Lemma instant_sub_sane t r : sane_instant t -> sane_instant r -> instant_sub t r = Z.abs (t - r).
Proof. unfold sane_instant, instant_sub, from_micros, i64; intros; f_equal; mlia. Qed.

(** Adding a duration and measuring the distance are inverse. *)
Lemma instant_add_sub t d :
  sane_instant t -> sane_duration d -> sane_instant (t + d) -> instant_sub (instant_add t d) t = d.
Proof.
  intros Ht Hd Hs; rewrite instant_add_sane, instant_sub_sane by done.
  unfold sane_duration in *; lia.
Qed.
