(* ===== verification/TcpWire.v ===== *)
(** The TCP wire types (vendor/smoltcp/src/wire/tcp.rs and wire/ip.rs):
    sequence numbers, control flags, endpoints and the parsed representation of
    a segment. *)

From Stdlib Require Import ZArith Lia ZifyBool.
From stdpp Require Import base list numbers.
From S2P Require Import Prelude.

(** ** Sequence numbers

    A sequence number is an [i32]; arithmetic on it wraps, and comparison is
    the sign of the wrapped difference. *)
(* [wire/tcp.rs 14-15 SeqNumber] *)
Definition seq_number : Type := Z.

(* [wire/tcp.rs 42-47 SeqNumber::add] *)
Definition seq_add (s : seq_number) (n : Z) : outcome seq_number :=
  if i32_max <? n then Panic else Ret (i32 (s + n)).

(* [wire/tcp.rs 53-58 SeqNumber::sub] *)
Definition seq_sub (s : seq_number) (n : Z) : outcome seq_number :=
  if i32_max <? n then Panic else Ret (i32 (s - n)).

(* [wire/tcp.rs 70-76 SeqNumber::sub] *)
Definition seq_diff (a b : seq_number) : outcome Z :=
  let result := i32 (a - b) in
  if result <? 0 then Panic else Ret result.

(* [wire/tcp.rs 80-82 SeqNumber::partial_cmp] *)
Definition seq_lt (a b : seq_number) : bool := i32 (a - b) <? 0.
Definition seq_le (a b : seq_number) : bool := i32 (a - b) <=? 0.
Definition seq_gt (a b : seq_number) : bool := 0 <? i32 (a - b).
Definition seq_ge (a b : seq_number) : bool := 0 <=? i32 (a - b).

(* [wire/tcp.rs 17-19 SeqNumber::max] *)
Definition seq_max (a b : seq_number) : seq_number := if seq_gt a b then a else b.
(* [wire/tcp.rs 21-23 SeqNumber::min] *)
Definition seq_min (a b : seq_number) : seq_number := if seq_lt a b then a else b.

(** ** Segments *)

(* [wire/tcp.rs 793-799 Control] *)
Inductive control : Type := CNone | CPsh | CSyn | CFin | CRst.
#[export] Instance control_eq_dec : EqDecision control.
Proof. solve_decision. Defined.

(* [wire/tcp.rs 804-809 Control::len] *)
Definition control_len (c : control) : Z := match c with CSyn | CFin => 1 | _ => 0 end.

(* [wire/tcp.rs 812-817 Control::quash_psh] *)
Definition quash_psh (c : control) : control := match c with CPsh => CNone | c => c end.

(** Only IPv4 is compiled in: an address is its four octets. *)
Definition ip_address : Type := list Z.

(* [wire/ip.rs 355-358 Endpoint] *)
Record ip_endpoint : Type := { ep_addr : ip_address; ep_port : Z }.
#[export] Instance ip_endpoint_eq_dec : EqDecision ip_endpoint.
Proof. solve_decision. Defined.

(* [wire/ip.rs 432-435 ListenEndpoint] *)
Record ip_listen_endpoint : Type := { lep_addr : option ip_address; lep_port : Z }.
#[export] Instance ip_listen_endpoint_eq_dec : EqDecision ip_listen_endpoint.
Proof. solve_decision. Defined.

(** The fields of an IP representation the TCP socket uses. *)
Record ip_repr : Type := {
  ip_src : ip_address;
  ip_dst : ip_address;
  ip_payload_len : Z;
  ip_hop_limit : Z;
}.

(* [wire/tcp.rs 840-843 TcpTimestampRepr] *)
Record timestamp_repr : Type := { tsval : Z; tsecr : Z }.

(** A generator is a function without arguments. *)
(* [wire/tcp.rs 837-837 TcpTimestampGenerator] *)
Definition timestamp_generator : Type := unit -> Z.

(* [wire/tcp.rs 854-859 TcpTimestampRepr::generate_reply_with_tsval] *)
Definition generate_reply_with_tsval (g : option timestamp_generator) (v : Z) : option timestamp_repr :=
  match g with Some g => Some {| tsval := g tt; tsecr := v |} | None => None end.

(* [wire/tcp.rs 850-852 TcpTimestampRepr::generate_reply] *)
Definition generate_reply (ts : timestamp_repr) (g : option timestamp_generator) : option timestamp_repr :=
  generate_reply_with_tsval g (tsval ts).

(* [wire/tcp.rs 822-835 Repr] *)
Record tcp_repr : Type := {
  src_port : Z;
  dst_port : Z;
  ctl : control;
  seq_num : seq_number;
  ack_num : option seq_number;
  window_len : Z;
  window_scale : option Z;
  max_seg_size : option Z;
  sack_permitted : bool;
  sack_ranges : option (Z * Z) * option (Z * Z) * option (Z * Z);
  timestamp : option timestamp_repr;
  payload : list Z;
}.

(* [wire/tcp.rs 1065-1067 Repr::segment_len] *)
Definition segment_len (r : tcp_repr) : Z := usize (len (payload r) + control_len (ctl r)).

(* [wire/tcp.rs 1070-1076 Repr::is_empty] *)
Definition repr_is_empty (r : tcp_repr) : bool :=
  if negb (len (payload r) =? 0) then false
  else match ctl r with CSyn | CFin | CRst => false | CNone | CPsh => true end.

Definition sack_len (o : option (Z * Z)) : Z := match o with Some _ => 8 | None => 0 end.

(* [wire/tcp.rs 964-990 Repr::header_len] *)
Definition header_len (r : tcp_repr) : Z :=
  let length := 20 in
  let length := match max_seg_size r with Some _ => length + 4 | None => length end in
  let length := match window_scale r with Some _ => length + 3 | None => length end in
  let length := if sack_permitted r then length + 2 else length in
  let length := match timestamp r with Some _ => length + 10 | None => length end in
  let '(s0, s1, s2) := sack_ranges r in
  let sack_range_len := sack_len s0 + sack_len s1 + sack_len s2 in
  let length := if 0 <? sack_range_len then length + (sack_range_len + 2) else length in
  if negb (length mod 4 =? 0) then length + (4 - length mod 4) else length.

(* [wire/tcp.rs 993-995 Repr::buffer_len] *)
Definition buffer_len (r : tcp_repr) : Z := usize (header_len r + len (payload r)).

(** ** Laws of sequence arithmetic

    [seq_ok s]: the value of an [i32].  [dist a b] is how far [b] is ahead of
    [a], between -2^31 and 2^31. *)
Definition seq_ok (s : seq_number) : Prop := in_i32 s.
Definition dist (a b : seq_number) : Z := i32 (b - a).

Lemma i32_cong x : exists k, i32 x = x + 4294967296 * k.
Proof. exists (- ((x + 2147483648) / 4294967296)); unfold i32; mlia. Qed.

Lemma i32_unique x y k : in_i32 y -> y = x + 4294967296 * k -> i32 x = y.
Proof. unfold in_i32, i32; intros; mlia. Qed.

(** [i32_norm] replaces wrapped values by representatives in range. *)
Ltac i32_gen :=
  repeat match goal with
  | |- context [i32 ?x] =>
      let k := fresh "k" in let H := fresh "H" in let R := fresh "R" in let y := fresh "y" in
      pose proof (i32_range x) as R; destruct (i32_cong x) as [k H];
      set (y := i32 x) in *; clearbody y
  | _ : context [i32 ?x] |- _ =>
      let k := fresh "k" in let H := fresh "H" in let R := fresh "R" in let y := fresh "y" in
      pose proof (i32_range x) as R; destruct (i32_cong x) as [k H];
      set (y := i32 x) in *; clearbody y
  end; unfold in_i32 in *.

Lemma dist_range a b : -2147483648 <= dist a b < 2147483648.
Proof. apply i32_range. Qed.

Lemma dist_self a : dist a a = 0.
Proof. unfold dist; by rewrite Z.sub_diag. Qed.

Lemma dist_add a n : seq_ok a -> -2147483648 <= n < 2147483648 -> dist a (i32 (a + n)) = n.
Proof. unfold dist, seq_ok, in_i32, i32; intros; mlia. Qed.

(** Distances compose as long as the sum does not overflow. *)
Lemma dist_trans a b c :
  -2147483648 <= dist a b + dist b c < 2147483648 -> dist a c = dist a b + dist b c.
Proof.
  unfold dist; intros H; i32_gen; lia.
Qed.

Lemma dist_inj a b : seq_ok a -> seq_ok b -> dist a b = 0 -> a = b.
Proof. unfold dist, seq_ok; intros; i32_gen; lia. Qed.

Lemma dist_opp a b : dist a b <> -2147483648 -> dist b a = - dist a b.
Proof. unfold dist; intros; i32_gen; lia. Qed.

(** ** Positions

    A sequence number is the low part of a position in an unbounded stream;
    for positions less than 2^31 apart the operations on sequence numbers are
    those on positions. *)
Lemma i32_i32 a : seq_ok a -> i32 a = a.
Proof. apply i32_small. Qed.

Lemma seq_ok_i32 a : seq_ok (i32 a).
Proof. apply i32_range. Qed.

Lemma i32_add a n : i32 (i32 a + n) = i32 (a + n).
Proof. unfold i32; mlia. Qed.

Lemma i32_sub a n : i32 (i32 a - n) = i32 (a - n).
Proof. unfold i32; mlia. Qed.

Lemma i32_diff a b : -2147483648 <= a - b < 2147483648 -> i32 (i32 a - i32 b) = a - b.
Proof. unfold i32; intros; mlia. Qed.

Lemma i32_minus a b : i32 (i32 a - i32 b) = i32 (a - b).
Proof. unfold i32; mlia. Qed.

Lemma i32_eqb a b : (i32 a =? i32 b) = (i32 (a - b) =? 0).
Proof.
  rewrite <-i32_minus; destruct (Z.eqb_spec (i32 a) (i32 b)) as [->|Hn]; [by rewrite Z.sub_diag|].
  symmetry; apply Z.eqb_neq; revert Hn; pose proof (i32_range a); pose proof (i32_range b).
  clear; i32_gen; intros; unfold in_i32 in *; lia.
Qed.

Lemma i32_period a : i32 (a + 4294967296) = i32 a.
Proof. unfold i32; mlia. Qed.

(** Any number is a position near a given one. *)
Lemma position_near a p : seq_ok a -> exists d, -2147483648 <= d < 2147483648 /\ a = i32 (p + d).
Proof.
  intros Ha; exists (i32 (a - p)); split; [apply i32_range|].
  unfold seq_ok, in_i32 in Ha; unfold i32; mlia.
Qed.

Lemma seq_add_pos a n : 0 <= n <= 2147483647 -> seq_add (i32 a) n = Ret (i32 (a + n)).
Proof. unfold seq_add, i32_max; intros; rewrite (proj2 (Z.ltb_ge _ _)), i32_add by lia; done. Qed.

Lemma seq_add_small q n : 0 <= n <= 2147483647 -> seq_add q n = Ret (i32 (q + n)).
Proof. unfold seq_add, i32_max; intros; rewrite (proj2 (Z.ltb_ge _ _)) by lia; done. Qed.

Lemma seq_sub_pos a n : 0 <= n <= 2147483647 -> seq_sub (i32 a) n = Ret (i32 (a - n)).
Proof. unfold seq_sub, i32_max; intros; rewrite (proj2 (Z.ltb_ge _ _)), i32_sub by lia; done. Qed.

Lemma seq_diff_pos a b : 0 <= a - b < 2147483648 -> seq_diff (i32 a) (i32 b) = Ret (a - b).
Proof.
  intros; unfold seq_diff; rewrite i32_diff, (proj2 (Z.ltb_ge _ _)) by lia; done.
Qed.

Section Positions.
Variables (a b : Z) (near : -2147483648 <= a - b < 2147483648).

Lemma seq_lt_pos : seq_lt (i32 a) (i32 b) = (a <? b).
Proof using near. unfold seq_lt; rewrite i32_diff by lia; lia. Qed.
Lemma seq_le_pos : seq_le (i32 a) (i32 b) = (a <=? b).
Proof using near. unfold seq_le; rewrite i32_diff by lia; lia. Qed.
Lemma seq_gt_pos : seq_gt (i32 a) (i32 b) = (b <? a).
Proof using near. unfold seq_gt; rewrite i32_diff by lia; lia. Qed.
Lemma seq_ge_pos : seq_ge (i32 a) (i32 b) = (b <=? a).
Proof using near. unfold seq_ge; rewrite i32_diff by lia; lia. Qed.
Lemma seq_eqb_pos : (i32 a =? i32 b) = (a =? b).
Proof using near.
  pose proof (i32_diff a b near); destruct (Z.eqb_spec a b) as [->|]; [apply Z.eqb_refl|].
  apply Z.eqb_neq; intros E; rewrite E, Z.sub_diag in *; change (i32 0) with 0 in *; lia.
Qed.
Lemma seq_max_pos : seq_max (i32 a) (i32 b) = i32 (Z.max a b).
Proof using near. unfold seq_max; rewrite seq_gt_pos; destruct (Z.ltb_spec b a); f_equal; lia. Qed.
Lemma seq_min_pos : seq_min (i32 a) (i32 b) = i32 (Z.min a b).
Proof using near. unfold seq_min; rewrite seq_lt_pos; destruct (Z.ltb_spec a b); f_equal; lia. Qed.
End Positions.
