(* ===== verification/TcpTimer.v ===== *)
(** The retransmission machinery of the TCP socket
    (vendor/smoltcp/src/socket/tcp.rs): the round-trip-time estimator with the
    repository's lowered bounds, and the socket's single timer. *)

From Stdlib Require Import ZArith Lia.
From stdpp Require Import base list numbers.
From S2P Require Import Prelude Time TcpWire.

(* [socket/tcp.rs 152-152 RTTE_INITIAL_RTO] *)
Definition RTTE_INITIAL_RTO : Z := 50.
(* [socket/tcp.rs 156-156 RTTE_MIN_MARGIN] *)
Definition RTTE_MIN_MARGIN : Z := 5.
(* [socket/tcp.rs 159-159 RTTE_K] *)
Definition RTTE_K : Z := 4.
(* [socket/tcp.rs 169-169 RTTE_MIN_RTO] *)
Definition RTTE_MIN_RTO : Z := 20.
(* [socket/tcp.rs 173-173 RTTE_MAX_RTO] *)
Definition RTTE_MAX_RTO : Z := 60000.

(* [socket/tcp.rs 177-190 RttEstimator] *)
Record rtt_estimator : Type := {
  have_measurement : bool;
  srtt : Z;
  rttvar : Z;
  rto : Z;
  rtte_timestamp : option (instant * seq_number);
  max_seq_sent : option seq_number;
  rto_count : Z;
}.

(* [socket/tcp.rs 192-204 RttEstimator::default] *)
Definition rtte_default : rtt_estimator :=
  {| have_measurement := false; srtt := 0; rttvar := 0; rto := RTTE_INITIAL_RTO;
     rtte_timestamp := None; max_seq_sent := None; rto_count := 0 |}.

(* [socket/tcp.rs 207-209 RttEstimator::retransmission_timeout] *)
Definition retransmission_timeout (r : rtt_estimator) : duration := from_millis (rto r).

(** [u32::div_ceil] *)
Definition div_ceil (a b : Z) : Z := if a mod b =? 0 then a / b else a / b + 1.

Definition clamp (x lo hi : Z) : Z := if x <? lo then lo else if hi <? x then hi else x.

(* [socket/tcp.rs 211-237 RttEstimator::sample] *)
Definition sample (r : rtt_estimator) (new_rtt : Z) : rtt_estimator :=
  let '(srtt, rttvar) :=
    if have_measurement r then
      let diff := u32 (Z.abs (i32 (i32 (srtt r) - i32 new_rtt))) in
      (div_ceil (u32 (u32 (srtt r * 7) + new_rtt)) 8, div_ceil (u32 (u32 (rttvar r * 3) + diff)) 4)
    else (new_rtt, new_rtt / 2) in
  let margin := Z.max RTTE_MIN_MARGIN (u32 (rttvar * RTTE_K)) in
  {| have_measurement := true; srtt := srtt; rttvar := rttvar;
     rto := clamp (u32 (srtt + margin)) RTTE_MIN_RTO RTTE_MAX_RTO;
     rtte_timestamp := rtte_timestamp r; max_seq_sent := max_seq_sent r; rto_count := 0 |}.

(* [socket/tcp.rs 239-251 RttEstimator::on_send] *)
Definition on_send (r : rtt_estimator) (now : instant) (seq : seq_number) : rtt_estimator :=
  if match max_seq_sent r with Some m => seq_gt seq m | None => true end then
    {| have_measurement := have_measurement r; srtt := srtt r; rttvar := rttvar r; rto := rto r;
       rtte_timestamp := match rtte_timestamp r with None => Some (now, seq) | t => t end;
       max_seq_sent := Some seq; rto_count := rto_count r |}
  else r.

Definition set_rtte_timestamp (t : option (instant * seq_number)) (r : rtt_estimator) : rtt_estimator :=
  {| have_measurement := have_measurement r; srtt := srtt r; rttvar := rttvar r; rto := rto r;
     rtte_timestamp := t; max_seq_sent := max_seq_sent r; rto_count := rto_count r |}.

(* [socket/tcp.rs 253-260 RttEstimator::on_ack] *)
Definition on_ack (r : rtt_estimator) (now : instant) (seq : seq_number) : rtt_estimator :=
  match rtte_timestamp r with
  | Some (sent_timestamp, sent_seq) =>
      if seq_ge seq sent_seq then
        set_rtte_timestamp None (sample r (u32 (total_millis (instant_sub now sent_timestamp))))
      else r
  | None => r
  end.

(* [socket/tcp.rs 262-285 RttEstimator::on_retransmit] *)
Definition on_retransmit (r : rtt_estimator) : rtt_estimator :=
  let n := u8 (rto_count r + 1) in
  {| have_measurement := if 3 <=? n then false else have_measurement r;
     srtt := srtt r; rttvar := rttvar r; rto := Z.min (u32 (rto r * 2)) RTTE_MAX_RTO;
     rtte_timestamp := None; max_seq_sent := max_seq_sent r;
     rto_count := if 3 <=? n then 0 else n |}.

(** ** The timer *)

(* [socket/tcp.rs 290-305 Timer] *)
Inductive timer : Type :=
| TIdle (keep_alive_at : option instant)
| TRetransmit (expires_at : instant)
| TFastRetransmit
| TZeroWindowProbe (expires_at : instant) (delay : duration)
| TClose (expires_at : instant).

(* [socket/tcp.rs 307-307 ACK_DELAY_DEFAULT] *)
Definition ACK_DELAY_DEFAULT : duration := from_millis 10.
(* [socket/tcp.rs 308-308 CLOSE_DELAY] *)
Definition CLOSE_DELAY : duration := from_millis 10000.

(* [socket/tcp.rs 311-315 Timer::new] *)
Definition timer_new : timer := TIdle None.

(* [socket/tcp.rs 317-324 Timer::should_keep_alive] *)
Definition should_keep_alive (t : timer) (now : instant) : bool :=
  match t with TIdle (Some at_) => at_ <=? now | _ => false end.

(* [socket/tcp.rs 326-332 Timer::should_retransmit] *)
Definition should_retransmit (t : timer) (now : instant) : bool :=
  match t with TRetransmit e => e <=? now | TFastRetransmit => true | _ => false end.

(* [socket/tcp.rs 334-339 Timer::should_close] *)
Definition should_close (t : timer) (now : instant) : bool :=
  match t with TClose e => e <=? now | _ => false end.

(* [socket/tcp.rs 341-346 Timer::should_zero_window_probe] *)
Definition should_zero_window_probe (t : timer) (now : instant) : bool :=
  match t with TZeroWindowProbe e _ => e <=? now | _ => false end.

(* [socket/mod.rs 39-46 PollAt] *)
Inductive poll_at : Type := PNow | PTime (t : instant) | PIngress.

(* [socket/tcp.rs 348-361 Timer::poll_at] *)
Definition timer_poll_at (t : timer) : poll_at :=
  match t with
  | TIdle (Some at_) => PTime at_
  | TIdle None => PIngress
  | TZeroWindowProbe e _ => PTime e
  | TRetransmit e => PTime e
  | TFastRetransmit => PNow
  | TClose e => PTime e
  end.

(* [socket/tcp.rs 363-367 Timer::set_for_idle] *)
Definition set_for_idle (now : instant) (interval : option duration) : timer :=
  TIdle (match interval with Some i => Some (instant_add now i) | None => None end).

(* [socket/tcp.rs 369-375 Timer::set_keep_alive] *)
Definition timer_set_keep_alive (t : timer) : timer :=
  match t with TIdle None => TIdle (Some (instant_from_millis 0)) | t => t end.

(* [socket/tcp.rs 377-381 Timer::rewind_keep_alive] *)
Definition rewind_keep_alive (t : timer) (now : instant) (interval : option duration) : timer :=
  match t with TIdle _ => set_for_idle now interval | t => t end.

(* [socket/tcp.rs 383-395 Timer::set_for_retransmit] *)
Definition set_for_retransmit (t : timer) (now : instant) (delay : duration) : timer :=
  match t with TClose e => TClose e | _ => TRetransmit (instant_add now delay) end.

(* [socket/tcp.rs 397-399 Timer::set_for_fast_retransmit] *)
Definition set_for_fast_retransmit : timer := TFastRetransmit.

(* [socket/tcp.rs 401-405 Timer::set_for_close] *)
Definition set_for_close (now : instant) : timer := TClose (instant_add now CLOSE_DELAY).

(* [socket/tcp.rs 407-412 Timer::set_for_zero_window_probe] *)
Definition set_for_zero_window_probe (now : instant) (delay : duration) : timer :=
  TZeroWindowProbe (instant_add now delay) delay.

(* [socket/tcp.rs 414-422 Timer::rewind_zero_window_probe] *)
Definition rewind_zero_window_probe (t : timer) (now : instant) : timer :=
  match t with
  | TZeroWindowProbe _ delay =>
      let delay := Z.min (duration_mul delay 2) (from_millis RTTE_MAX_RTO) in
      TZeroWindowProbe (instant_add now delay) delay
  | t => t
  end.

(* [socket/tcp.rs 424-426 Timer::is_idle] *)
Definition timer_is_idle (t : timer) : bool := match t with TIdle _ => true | _ => false end.

(* [socket/tcp.rs 428-430 Timer::is_zero_window_probe] *)
Definition is_zero_window_probe (t : timer) : bool :=
  match t with TZeroWindowProbe _ _ => true | _ => false end.

(* [socket/tcp.rs 432-434 Timer::is_retransmit] *)
Definition is_retransmit (t : timer) : bool :=
  match t with TRetransmit _ | TFastRetransmit => true | _ => false end.

(* [socket/tcp.rs 438-442 AckDelayTimer] *)
Inductive ack_delay_timer : Type := AIdle | AWaiting (t : instant) | AImmediate.

(** The order [PollAt] derives: now, then times, then ingress. *)
Definition poll_le (a b : poll_at) : bool :=
  match a, b with
  | PNow, _ => true
  | _, PNow => false
  | PTime t, PTime u => t <=? u
  | PTime _, PIngress => true
  | PIngress, PTime _ => false
  | PIngress, PIngress => true
  end.

Definition poll_min (a b : poll_at) : poll_at := if poll_le a b then a else b.

(** ** The estimator stays within its bounds *)

(** The calls the socket makes. *)
Inductive rtte_event : Type :=
| EvSend (now : instant) (seq : seq_number)
| EvAck (now : instant) (seq : seq_number)
| EvRetransmit.

Definition rtte_step (r : rtt_estimator) (e : rtte_event) : rtt_estimator :=
  match e with
  | EvSend now seq => on_send r now seq
  | EvAck now seq => on_ack r now seq
  | EvRetransmit => on_retransmit r
  end.

Definition rtte_run (es : list rtte_event) : rtt_estimator := fold_left rtte_step es rtte_default.

(** The retransmission timeout doubles [k] times from the initial one. *)
Definition backoff (k : nat) : Z := Z.min (RTTE_INITIAL_RTO * 2 ^ Z.of_nat k) RTTE_MAX_RTO.

Definition rtte_inv (r : rtt_estimator) : Prop :=
  RTTE_MIN_RTO <= rto r <= RTTE_MAX_RTO /\ 0 <= rto_count r < 3.

Lemma clamp_range x lo hi : lo <= hi -> lo <= clamp x lo hi <= hi.
Proof. unfold clamp; intros; destruct (Z.ltb_spec x lo), (Z.ltb_spec hi x); lia. Qed.

Lemma sample_rtte_inv r n : rtte_inv (sample r n).
Proof.
  unfold sample; destruct (if have_measurement r then _ else _) as [a b].
  split; cbn; [apply clamp_range; unfold RTTE_MIN_RTO, RTTE_MAX_RTO; lia|lia].
Qed.

Lemma rtte_step_inv r e : rtte_inv r -> rtte_inv (rtte_step r e).
Proof.
  intros [H1 H2]; destruct e as [now seq|now seq|]; cbn [rtte_step].
  - unfold on_send; destruct (match max_seq_sent r with Some m => _ | None => _ end); by split.
  - unfold on_ack; destruct (rtte_timestamp r) as [[t s]|]; [|by split].
    destruct (seq_ge seq s); [|by split].
    destruct (sample_rtte_inv r (u32 (total_millis (instant_sub now t)))) as [S1 S2]; by split.
  - unfold on_retransmit, rtte_inv, RTTE_MIN_RTO, RTTE_MAX_RTO in *; cbn.
    rewrite u32_small, u8_small by lia; destruct (Z.leb_spec 3 (rto_count r + 1)); lia.
Qed.

(** The retransmission timeout is always between 20 ms and 60 s.  After any
    sequence of sends, acknowledgements and retransmissions, whatever the times
    measured, the timeout keeps the repository's bounds (RFC 6298's floor
    lowered, its ceiling kept), and the corresponding duration is that many
    milliseconds; a retransmission doubles it up to the ceiling; and the third
    retransmission in a row discards the smoothed estimate. *)
Theorem rtte_bounds (es : list rtte_event) :
  let r := rtte_run es in
  RTTE_MIN_RTO <= rto r <= RTTE_MAX_RTO /\
  retransmission_timeout r = rto r * 1000 /\
  rto (on_retransmit r) = Z.min (2 * rto r) RTTE_MAX_RTO /\
  have_measurement (on_retransmit (on_retransmit (on_retransmit r))) = false.
Proof.
  assert (H : rtte_inv (rtte_run es)).
  { unfold rtte_run; assert (H0 : rtte_inv rtte_default) by (unfold rtte_inv, RTTE_MIN_RTO, RTTE_MAX_RTO; cbn;
      unfold RTTE_INITIAL_RTO; lia).
    revert H0; generalize rtte_default; induction es as [|e es IH]; intros r Hr; [done|].
    apply IH; by apply rtte_step_inv. }
  cbn zeta; destruct H as [H1 H2]; unfold RTTE_MIN_RTO, RTTE_MAX_RTO in *.
  split; [lia|]; split.
  { unfold retransmission_timeout, from_millis; apply u64_small; lia. }
  split; [unfold on_retransmit, RTTE_MAX_RTO; cbn; rewrite u32_small by lia; lia|].
  unfold on_retransmit; cbn.
  assert (E : rto_count (rtte_run es) = 0 \/ rto_count (rtte_run es) = 1 \/ rto_count (rtte_run es) = 2) by lia.
  destruct E as [-> | [-> | ->]]; cbn; try done; by destruct (have_measurement _).
Qed.

Lemma on_retransmit_iter k :
  (k <= 20)%nat -> rto (Nat.iter k on_retransmit rtte_default) = backoff k.
Proof.
  unfold backoff, RTTE_INITIAL_RTO, RTTE_MAX_RTO; induction k as [|k IH]; intros Hk; [done|].
  cbn [Nat.iter nat_rect]; unfold on_retransmit at 1; cbn [rto]; fold (Nat.iter k on_retransmit rtte_default).
  rewrite IH by lia; rewrite Nat2Z.inj_succ, Z.pow_succ_r by lia.
  pose proof (Z.pow_pos_nonneg 2 (Z.of_nat k)); unfold RTTE_MAX_RTO; rewrite u32_small by lia; lia.
Qed.
