(* ===== verification/Iface.v ===== *)
(** The parts of the network interface the TCP socket reaches through its
    context (vendor/smoltcp/src/rand.rs, wire/ipv4.rs,
    iface/interface/{mod,ipv4}.rs): the pseudo-random generator, address
    blocks, the interface's addresses and its MTU. *)

From Stdlib Require Import ZArith Lia.
From stdpp Require Import base list numbers.
From S2P Require Import Prelude Time TcpWire.

(** ** The generator *)

(* [rand.rs 5-7 Rand] *)
Definition rand : Type := Z.

(** [shift] is at most 29: [29 - (s >> 61)] with three bits subtracted. *)
(* [rand.rs 14-25 Rand::rand_u32] *)
Definition rand_u32 (r : rand) : Z * rand :=
  let M := 13487996025574088989 in
  let A := 1972432697 in
  let s := u64 (u64 (r * M) + A) in
  let shift := 29 - Z.shiftr s 61 in
  (u32 (Z.shiftr s shift), s).

(* [rand.rs 27-30 Rand::rand_u16] *)
Definition rand_u16 (r : rand) : Z * rand :=
  let '(n, r) := rand_u32 r in (u16 (Z.lxor n (Z.shiftr n 16)), r).

(** The loop draws until a port is above 1024; [fuel] bounds the draws. *)
(* [rand.rs 32-39 Rand::rand_source_port] *)
Fixpoint rand_source_port (fuel : nat) (r : rand) : option (Z * rand) :=
  match fuel with
  | O => None
  | S fuel =>
      let '(res, r) := rand_u16 r in
      if 1024 <? res then Some (res, r) else rand_source_port fuel r
  end.

(** ** Addresses *)

(** [Ipv4Addr::to_bits]: the octets, most significant first. *)
Definition to_bits (a : ip_address) : Z := fold_left (fun n b => n * 256 + b) a 0.

Definition UNSPECIFIED : ip_address := [0; 0; 0; 0].
Definition is_unspecified (a : ip_address) : bool := bool_decide (a = UNSPECIFIED).

(* [wire/ipv4.rs 58-60 AddressExt::x_is_unicast] *)
Definition is_unicast (a : ip_address) : bool :=
  negb (bool_decide (a = [255; 255; 255; 255]) ||
        match a with b :: _ => (224 <=? b) && (b <=? 239) | [] => false end || is_unspecified a).

(* [wire/ipv4.rs 90-93 Cidr] *)
Record cidr : Type := { cidr_addr : ip_address; prefix_len : Z }.

#[export] Instance cidr_eq_dec : EqDecision cidr.
Proof. solve_decision. Defined.

(* [wire/ipv4.rs 100-106 Cidr::new] *)
Definition cidr_new (address : ip_address) (prefix_len : Z) : outcome cidr :=
  assert! prefix_len <=? 32 in Ret {| cidr_addr := address; prefix_len := prefix_len |}.

(** The mask as a number; the shift of a [u32] is by at most 31 here. *)
(* [wire/ipv4.rs 132-139 Cidr::netmask] *)
Definition netmask (c : cidr) : Z :=
  if prefix_len c =? 0 then 0 else u32 (Z.shiftl 4294967295 (32 - prefix_len c)).

(* [wire/ipv4.rs 164-167 Cidr::contains_addr] *)
Definition contains_addr (c : cidr) (a : ip_address) : bool :=
  Z.land (to_bits (cidr_addr c)) (netmask c) =? Z.land (to_bits a) (netmask c).

(** ** The context of a socket: what [InterfaceInner] holds of use to it. *)
Record context : Type := {
  cx_now : instant;
  max_transmission_unit : Z;
  any_ip : bool;
  ip_addrs : list cidr;
  cx_rand : rand;
}.

Definition with_rand (r : rand) (cx : context) : context :=
  {| cx_now := cx_now cx; max_transmission_unit := max_transmission_unit cx;
     any_ip := any_ip cx; ip_addrs := ip_addrs cx; cx_rand := r |}.

(** The Ethernet header is 14 bytes. *)
Definition ETHERNET_HEADER_LEN : Z := 14.

(* [phy/mod.rs 282-293 DeviceCapabilities::ip_mtu] *)
Definition ip_mtu (cx : context) : Z := usize (max_transmission_unit cx - ETHERNET_HEADER_LEN).

(* [iface/interface/mod.rs 886-894 InterfaceInner::has_ip_addr] *)
Definition has_ip_addr (cx : context) (a : ip_address) : bool :=
  if any_ip cx then true
  else existsb (fun probe => bool_decide (cidr_addr probe = a)) (ip_addrs cx).

(** The loop with its accumulator [first_ipv4]. *)
(* [iface/interface/ipv4.rs 46-61 InterfaceInner::get_source_address_ipv4] the loop. *)
Fixpoint source_address_loop (dst : ip_address) (first_ipv4 : option ip_address) (l : list cidr)
  : option ip_address :=
  match l with
  | [] => first_ipv4
  | c :: l =>
      if contains_addr c dst then Some (cidr_addr c)
      else source_address_loop dst
             (match first_ipv4 with None => Some (cidr_addr c) | f => f end) l
  end.

(* [iface/interface/mod.rs 847-854 InterfaceInner::get_source_address] *)
Definition get_source_address (cx : context) (dst : ip_address) : option ip_address :=
  source_address_loop dst None (ip_addrs cx).

Lemma u32_rand_range r : in_u32 (fst (rand_u32 r)).
Proof. apply u32_range. Qed.
