(* ===== verification/Frame.v ===== *)
(** Frames on the wire (vendor/smoltcp/src/wire/{ethernet,arp,ipv4,icmpv4,udp}.rs):
    the Ethernet header, ARP packets, IPv4 headers and the ICMP "unreachable"
    answer, parsed from and emitted into byte buffers. *)

From Stdlib Require Import ZArith Lia ZifyBool.
From stdpp Require Import base list numbers.
From S2P Require Import Prelude Rss TcpWire Iface.

(** ** Big-endian numbers

    [NetworkEndian::read_u16(&data[a..a + 2])] and its kin. *)
Definition read_be (data : list Z) (a n : Z) : outcome Z := let! s := slice data a (a + n) in Ret (to_bits s).

Definition be32_bytes (x : Z) : list Z := be16_bytes (x / 65536) ++ be16_bytes (x mod 65536).

Definition write_bytes (data : list Z) (a : Z) (v : list Z) : outcome (list Z) :=
  copy_from_slice data a (a + len v) v.

Definition write_u16 (data : list Z) (a v : Z) : outcome (list Z) := write_bytes data a (be16_bytes v).
Definition write_u32 (data : list Z) (a v : Z) : outcome (list Z) := write_bytes data a (be32_bytes v).

(** [data[a..]] *)
Definition slice_from (data : list Z) (a : Z) : outcome (list Z) := slice data a (len data).

(** [f(&mut data[a..])] *)
Definition emit_from (data : list Z) (a : Z) (f : list Z -> outcome (list Z)) : outcome (list Z) :=
  let! s := slice_from data a in
  let! s := f s in
  copy_from_slice data a (len data) s.

(** Parsing answers [None] for [Err(Error)]. *)
Notation "'try!' x := m 'in' k" := (obind m (fun o => match o with Some x => k | None => Ret None end))
  (at level 10, x pattern, m at level 200, k at level 200) : rust_scope.
Notation "'check?' b 'in' k" := (if b then k else Ret None)
  (at level 10, b at level 200, k at level 200) : rust_scope.

(** ** Ethernet *)

Definition eth_address : Type := list Z.

(* [wire/ethernet.rs 8-12 EtherType] *)
Definition ETHERTYPE_IPV4 : Z := 2048.
(* [wire/ethernet.rs 8-12 EtherType] *)
Definition ETHERTYPE_ARP : Z := 2054.
(* [wire/ethernet.rs 32-32 Address::BROADCAST] *)
Definition ETH_BROADCAST : eth_address := zreplicate 6 255.

(* [wire/ethernet.rs 55-57 Address::is_broadcast] *)
Definition eth_is_broadcast (a : eth_address) : bool := bool_decide (a = ETH_BROADCAST).
(* [wire/ethernet.rs 60-62 Address::is_multicast] *)
Definition eth_is_multicast (a : eth_address) : bool :=
  match a with b :: _ => negb (Z.land b 1 =? 0) | [] => false end.
(* [wire/ethernet.rs 50-52 Address::is_unicast] *)
Definition eth_is_unicast (a : eth_address) : bool := negb (eth_is_broadcast a || eth_is_multicast a).

(* [wire/ethernet.rs 146-149 Frame::check_len] *)
Definition eth_check_len (data : list Z) : bool := negb (len data <? ETHERNET_HEADER_LEN).

(* [wire/ethernet.rs 169-172 Frame::dst_addr] *)
Definition eth_dst_addr (data : list Z) : outcome eth_address := slice data 0 6.
(* [wire/ethernet.rs 176-179 Frame::src_addr] *)
Definition eth_src_addr (data : list Z) : outcome eth_address := slice data 6 12.
(* [wire/ethernet.rs 183-187 Frame::ethertype] *)
Definition eth_ethertype (data : list Z) : outcome Z := read_be data 12 2.
(* [wire/ethernet.rs 193-196 Frame::payload] *)
Definition eth_payload (data : list Z) : outcome (list Z) := slice_from data 14.

(** ** ARP *)

(** The operation is its number: 1 a request, 2 a reply. *)
(* [wire/arp.rs 258-267 Repr] *)
Record arp_repr : Type := {
  arp_operation : Z;
  arp_source_hardware : eth_address;
  arp_source_protocol : ip_address;
  arp_target_hardware : eth_address;
  arp_target_protocol : ip_address;
}.

(* [wire/arp.rs 61-64 field::TPA] the end of the last field. *)
Definition arp_end (hardware_len protocol_len : Z) : Z :=
  8 + hardware_len + protocol_len + hardware_len + protocol_len.

(* [wire/arp.rs 92-101 Packet::check_len] *)
Definition arp_check_len (data : list Z) : outcome bool :=
  if len data <? 8 then Ret false
  else
    let! hl := index data 4 in
    let! pl := index data 5 in
    Ret (negb (len data <? arp_end hl pl)).

(* [wire/arp.rs 272-294 Repr::parse] *)
Definition arp_parse (data : list Z) : outcome (option arp_repr) :=
  let! ok := arp_check_len data in
  check? ok in
  let! hardware := read_be data 0 2 in
  let! protocol := read_be data 2 2 in
  let! hl := index data 4 in
  let! pl := index data 5 in
  check? (hardware =? 1) && (protocol =? ETHERTYPE_IPV4) && (hl =? 6) && (pl =? 4) in
  let! operation := read_be data 6 2 in
  let! sha := slice data 8 14 in
  let! spa := slice data 14 18 in
  let! tha := slice data 18 24 in
  let! tpa := slice data 24 28 in
  Ret (Some {| arp_operation := operation; arp_source_hardware := sha; arp_source_protocol := spa;
               arp_target_hardware := tha; arp_target_protocol := tpa |}).

(* [wire/arp.rs 297-301 Repr::buffer_len] *)
Definition arp_buffer_len : Z := arp_end 6 4.

(** The field offsets after [set_hardware_len(6)] and [set_protocol_len(4)]. *)
(* [wire/arp.rs 304-324 Repr::emit] *)
Definition arp_emit (r : arp_repr) (data : list Z) : outcome (list Z) :=
  let! data := write_u16 data 0 1 in
  let! data := write_u16 data 2 ETHERTYPE_IPV4 in
  let! data := store data 4 6 in
  let! data := store data 5 4 in
  let! data := write_u16 data 6 (arp_operation r) in
  let! data := copy_from_slice data 8 14 (arp_source_hardware r) in
  let! data := copy_from_slice data 14 18 (arp_source_protocol r) in
  let! data := copy_from_slice data 18 24 (arp_target_hardware r) in
  copy_from_slice data 24 28 (arp_target_protocol r).

(** ** IPv4 *)

(** The protocol is its number. *)
(* [wire/ip.rs 50-63 Protocol] *)
Definition PROTO_ICMP : Z := 1.
(* [wire/ip.rs 50-63 Protocol] *)
Definition PROTO_TCP : Z := 6.
(* [wire/ip.rs 50-63 Protocol] *)
Definition PROTO_UDP : Z := 17.

(** The TCP socket's part of the header, and the protocol. *)
(* [wire/ipv4.rs 533-539 Repr] *)
Record ipv4_repr : Type := { v4_ip : ip_repr; v4_next_header : Z }.

(* [wire/ipv4.rs 272-275 Packet::header_len] *)
Definition v4_header_len (data : list Z) : outcome Z :=
  let! b := index data 0 in Ret (u8 (Z.land b 15 * 4)).
(* [wire/ipv4.rs 291-294 Packet::total_len] *)
Definition v4_total_len (data : list Z) : outcome Z := read_be data 2 2.

(* [wire/ipv4.rs 241-256 Packet::check_len] *)
Definition v4_check_len (data : list Z) : outcome bool :=
  if len data <? 20 then Ret false
  else
    let! hl := v4_header_len data in
    let! tl := v4_total_len data in
    Ret (negb (len data <? hl) && negb (tl <? hl) && negb (len data <? tl) && negb (hl <? 20)).

(** The checksum is left to the card. *)
(* [wire/ipv4.rs 543-575 Repr::parse] *)
Definition v4_parse (data : list Z) : outcome (option ipv4_repr) :=
  let! ok := v4_check_len data in
  check? ok in
  let! b0 := index data 0 in
  check? Z.shiftr b0 4 =? 4 in
  let! flg_off := read_be data 6 2 in
  check? (Z.land flg_off 8192 =? 0) && (u16 (Z.shiftl flg_off 3) =? 0) in
  let! hl := v4_header_len data in
  let! tl := v4_total_len data in
  let! src := slice data 12 16 in
  let! dst := slice data 16 20 in
  let! proto := index data 9 in
  let! ttl := index data 8 in
  Ret (Some {| v4_ip := {| ip_src := src; ip_dst := dst; ip_payload_len := tl - hl; ip_hop_limit := ttl |};
               v4_next_header := proto |}).

(* [wire/ipv4.rs 386-390 Packet::payload] *)
Definition v4_payload (data : list Z) : outcome (list Z) :=
  let! hl := v4_header_len data in
  let! tl := v4_total_len data in
  slice data hl tl.

(** [data[at] = f(data[at])] *)
Definition modify_u8 (data : list Z) (a : Z) (f : Z -> Z) : outcome (list Z) :=
  let! b := index data a in store data a (f b).
Definition modify_u16 (data : list Z) (a : Z) (f : Z -> Z) : outcome (list Z) :=
  let! raw := read_be data a 2 in write_u16 data a (f raw).

(** The setters of the flags and the offset, one after the other. *)
(* [wire/ipv4.rs 584-612 Repr::emit] *)
Definition v4_emit (r : ipv4_repr) (data : list Z) : outcome (list Z) :=
  let! data := modify_u8 data 0 (fun b => Z.lor (Z.land b 15) 64) in
  let! data := modify_u8 data 0 (fun b => Z.lor (Z.land b 240) 5) in
  let! data := modify_u8 data 1 (fun b => Z.lor (Z.land b 3) 0) in
  let! data := modify_u8 data 1 (fun b => Z.lor (Z.land b 252) 0) in
  let! hl := v4_header_len data in
  let! data := write_u16 data 2 (u16 (hl + u16 (ip_payload_len (v4_ip r)))) in
  let! data := write_u16 data 4 0 in
  let! data := modify_u16 data 6 (fun raw => Z.land raw 8191) in
  let! data := modify_u16 data 6 (fun raw => Z.land raw 57343) in
  let! data := modify_u16 data 6 (fun raw => Z.lor raw 16384) in
  let! data := modify_u16 data 6 (fun raw => Z.lor (Z.land raw 57344) 0) in
  let! data := store data 8 (ip_hop_limit (v4_ip r)) in
  let! data := store data 9 (v4_next_header r) in
  let! data := copy_from_slice data 12 16 (ip_src (v4_ip r)) in
  let! data := copy_from_slice data 16 20 (ip_dst (v4_ip r)) in
  write_u16 data 10 0.

(** ** ICMP *)

(** Parsing, for what it can do besides failing: nothing reads the result. *)
(* [wire/icmpv4.rs 395-470 Repr::parse] *)
Definition icmp_parse (data : list Z) : outcome (option unit) :=
  check? negb (len data <? 8) in
  let! ty := index data 0 in
  let! code := index data 1 in
  let! body := slice_from data 8 in
  if (ty =? 8) || (ty =? 0) then Ret (if code =? 0 then Some tt else None)
  else if (ty =? 3) || (ty =? 11) then
    let! ok := v4_check_len body in
    check? ok in
    let! hl := v4_header_len body in
    let! payload := slice_from body hl in
    Ret (if len payload <? 8 then None else Some tt)
  else Ret None.

(** The one message the interface sends: destination unreachable, with the
    header and the first bytes of the offending packet. *)
(* [wire/icmpv4.rs 369-390 Repr] *)
Record icmp_unreachable : Type := { icmp_reason : Z; icmp_header : ipv4_repr; icmp_data : list Z }.

(* [wire/icmpv4.rs 473-483 Repr::buffer_len] *)
Definition icmp_buffer_len (r : icmp_unreachable) : Z := 8 + 20 + len (icmp_data r).

(* [wire/icmpv4.rs 487-555 Repr::emit] *)
Definition icmp_emit (r : icmp_unreachable) (data : list Z) : outcome (list Z) :=
  let! data := store data 1 0 in
  let! data := store data 0 3 in
  let! data := store data 1 (icmp_reason r) in
  let! data := emit_from data 8 (fun body =>
    let! body := v4_emit (icmp_header r) body in
    copy_from_slice body 20 (len body) (icmp_data r)) in
  write_u16 data 2 0.

(** ** UDP *)

(* [wire/udp.rs 57-69 Packet::check_len] *)
Definition udp_check_len (data : list Z) : outcome bool :=
  if len data <? 8 then Ret false
  else
    let! n := read_be data 4 2 in
    Ret (negb (len data <? n) && negb (n <? 8)).
