(* ===== verification/DhcpWire.v ===== *)
(** UDP datagrams and DHCP messages (vendor/smoltcp/src/wire/{udp,dhcpv4}.rs),
    parsed from and emitted into byte buffers.  Checksums are left to the
    card. *)

From Stdlib Require Import ZArith Lia ZifyBool.
From stdpp Require Import base list gmap numbers.
From S2P Require Import Prelude Rss TcpWire Iface Frame.

(** ** UDP *)

(* [wire/udp.rs 227-230 Repr] *)
Record udp_repr : Type := { udp_src_port : Z; udp_dst_port : Z }.

(* [wire/udp.rs 33-33 HEADER_LEN] *)
Definition UDP_HEADER_LEN : Z := 8.

(* [wire/udp.rs 78-81 Packet::src_port] *)
Definition udp_get_src_port (data : list Z) : outcome Z := read_be data 0 2.
(* [wire/udp.rs 85-88 Packet::dst_port] *)
Definition udp_get_dst_port (data : list Z) : outcome Z := read_be data 2 2.
(* [wire/udp.rs 92-95 Packet::len] *)
Definition udp_len (data : list Z) : outcome Z := read_be data 4 2.
(* [wire/udp.rs 153-157 Packet::payload] *)
Definition udp_payload (data : list Z) : outcome (list Z) := let! n := udp_len data in slice data 8 n.

(* [wire/udp.rs 234-263 Repr::parse] *)
Definition udp_parse (data : list Z) : outcome (option udp_repr) :=
  let! ok := udp_check_len data in
  check? ok in
  let! dst := udp_get_dst_port data in
  check? negb (dst =? 0) in
  let! src := udp_get_src_port data in
  Ret (Some {| udp_src_port := src; udp_dst_port := dst |}).

(** [f(packet.payload_mut())] *)
Definition udp_emit_payload (data : list Z) (f : list Z -> outcome (list Z)) : outcome (list Z) :=
  let! n := udp_len data in
  let! body := slice data 8 n in
  let! body := f body in
  copy_from_slice data 8 n body.

(* [wire/udp.rs 286-309 Repr::emit] *)
Definition udp_emit (r : udp_repr) (payload_len : Z) (f : list Z -> outcome (list Z)) (data : list Z)
  : outcome (list Z) :=
  let! data := write_u16 data 0 (udp_src_port r) in
  let! data := write_u16 data 2 (udp_dst_port r) in
  let! data := write_u16 data 4 (u16 (usize (UDP_HEADER_LEN + payload_len))) in
  let! data := udp_emit_payload data f in
  write_u16 data 6 0.

(** ** DHCP messages *)

(** A message type and an operation code are their numbers. *)
(* [wire/dhcpv4.rs 18-24 OpCode] *)
Definition OP_REQUEST : Z := 1.
(* [wire/dhcpv4.rs 18-24 OpCode] *)
Definition OP_REPLY : Z := 2.
(* [wire/dhcpv4.rs 26-37 MessageType] *)
Definition MSG_DISCOVER : Z := 1.
(* [wire/dhcpv4.rs 26-37 MessageType] *)
Definition MSG_OFFER : Z := 2.
(* [wire/dhcpv4.rs 26-37 MessageType] *)
Definition MSG_REQUEST : Z := 3.
(* [wire/dhcpv4.rs 26-37 MessageType] *)
Definition MSG_ACK : Z := 5.
(* [wire/dhcpv4.rs 26-37 MessageType] *)
Definition MSG_NAK : Z := 6.

(** [OpCode::Unknown(0)] is 0. *)
(* [wire/dhcpv4.rs 47-57 MessageType::opcode] *)
Definition msg_opcode (m : Z) : Z :=
  if (m =? 1) || (m =? 8) || (m =? 3) || (m =? 4) || (m =? 7) then OP_REQUEST
  else if (m =? 2) || (m =? 5) || (m =? 6) then OP_REPLY else 0.

(* [wire/dhcpv4.rs 15-15 DHCP_MAGIC_NUMBER] *)
Definition DHCP_MAGIC_NUMBER : Z := 1669485411.
(* [wire/dhcpv4.rs 13-13 MAX_DNS_SERVER_COUNT] *)
Definition MAX_DNS_SERVER_COUNT : Z := 3.

(** The options this client reads or writes. *)
(* [wire/dhcpv4.rs 146-151 field] *)
Definition OPT_SUBNET_MASK : Z := 1.
(* [wire/dhcpv4.rs 146-151 field] *)
Definition OPT_ROUTER : Z := 3.
(* [wire/dhcpv4.rs 146-151 field] *)
Definition OPT_DOMAIN_NAME_SERVER : Z := 6.
(* [wire/dhcpv4.rs 218-231 field] *)
Definition OPT_REQUESTED_IP : Z := 50.
(* [wire/dhcpv4.rs 218-231 field] *)
Definition OPT_IP_LEASE_TIME : Z := 51.
(* [wire/dhcpv4.rs 218-231 field] *)
Definition OPT_DHCP_MESSAGE_TYPE : Z := 53.
(* [wire/dhcpv4.rs 218-231 field] *)
Definition OPT_SERVER_IDENTIFIER : Z := 54.
(* [wire/dhcpv4.rs 218-231 field] *)
Definition OPT_PARAMETER_REQUEST_LIST : Z := 55.
(* [wire/dhcpv4.rs 218-231 field] *)
Definition OPT_MAX_DHCP_MESSAGE_SIZE : Z := 57.
(* [wire/dhcpv4.rs 218-231 field] *)
Definition OPT_RENEWAL_TIME_VALUE : Z := 58.
(* [wire/dhcpv4.rs 218-231 field] *)
Definition OPT_REBINDING_TIME_VALUE : Z := 59.
(* [wire/dhcpv4.rs 218-231 field] *)
Definition OPT_CLIENT_ID : Z := 61.

(* [wire/dhcpv4.rs 108-111 DhcpOption] *)
Record dhcp_option : Type := { op_kind : Z; op_data : list Z }.

(* [wire/dhcpv4.rs 588-662 Repr] *)
Record dhcp_repr : Type := {
  dh_message_type : Z;
  dh_transaction_id : Z;
  dh_secs : Z;
  dh_client_hardware_address : eth_address;
  dh_client_ip : ip_address;
  dh_your_ip : ip_address;
  dh_server_ip : ip_address;
  dh_router : option ip_address;
  dh_subnet_mask : option ip_address;
  dh_relay_agent_ip : ip_address;
  dh_broadcast : bool;
  dh_requested_ip : option ip_address;
  dh_client_identifier : option eth_address;
  dh_server_identifier : option ip_address;
  dh_parameter_request_list : option (list Z);
  dh_dns_servers : option (list ip_address);
  dh_max_size : option Z;
  dh_lease_duration : option Z;
  dh_renew_duration : option Z;
  dh_rebind_duration : option Z;
  dh_additional_options : list dhcp_option;
}.

(** ** Reading *)

(* [wire/dhcpv4.rs 254-261 Packet::check_len] *)
Definition dhcp_check_len (data : list Z) : bool := negb (len data <? 240).

(** The iterator, run to its end; each turn shortens [buf]. *)
(* [wire/dhcpv4.rs 363-397 Packet::options] *)
Fixpoint dhcp_options (fuel : nat) (buf : list Z) : outcome (option (list dhcp_option)) :=
  match buf with
  | [] => Ret (Some [])
  | kind :: _ =>
      if kind =? 255 then Ret (Some [])
      else
        match fuel with
        | O => Ret None
        | S fuel =>
            if kind =? 0 then let! buf := slice_from buf 1 in dhcp_options fuel buf
            else if len buf <? 2 then Ret (Some [])
            else
              let! n := index buf 1 in
              if len buf <? 2 + n then Ret (Some [])
              else
                let! data := slice buf 2 (2 + n) in
                let! buf := slice_from buf (2 + n) in
                let! l := dhcp_options fuel buf in
                Ret (option_map (cons {| op_kind := kind; op_data := data |}) l)
        end
  end.

(** Lengths the loop of [parse] asks of an option it reads; a list may have any. *)
(* [wire/dhcpv4.rs 748-808 Repr::parse] the patterns. *)
Definition option_expected (kind n : Z) : bool :=
  if (kind =? OPT_PARAMETER_REQUEST_LIST) || (kind =? OPT_DOMAIN_NAME_SERVER) then true
  else if kind =? OPT_DHCP_MESSAGE_TYPE then n =? 1
  else if kind =? OPT_CLIENT_ID then n =? 7
  else if kind =? OPT_MAX_DHCP_MESSAGE_SIZE then n =? 2
  else
    ((kind =? OPT_REQUESTED_IP) || (kind =? OPT_SERVER_IDENTIFIER) || (kind =? OPT_ROUTER) ||
     (kind =? OPT_SUBNET_MASK) || (kind =? OPT_RENEWAL_TIME_VALUE) || (kind =? OPT_REBINDING_TIME_VALUE) ||
     (kind =? OPT_IP_LEASE_TIME)) && (n =? 4).

(** The loop; [found] is its variables, each by the option that sets it: the
    bytes of the last such option.  [None] is [Err(Error)]. *)
(* [wire/dhcpv4.rs 733-809 Repr::parse] the loop. *)
Fixpoint note_dhcp_options (opcode : Z) (l : list dhcp_option) (found : gmap Z (list Z))
  : outcome (option (gmap Z (list Z))) :=
  match l with
  | [] => Ret (Some found)
  | o :: l =>
      let keep := note_dhcp_options opcode l (<[op_kind o := op_data o]> found) in
      if negb (option_expected (op_kind o) (len (op_data o))) then note_dhcp_options opcode l found
      else if op_kind o =? OPT_DHCP_MESSAGE_TYPE then
        let! value := index (op_data o) 0 in
        if msg_opcode value =? opcode then keep else note_dhcp_options opcode l found
      else if op_kind o =? OPT_CLIENT_ID then
        let! hardware_type := index (op_data o) 0 in
        check? hardware_type =? 1 in keep
      else keep
  end.

(** [chunks_exact(4)] *)
Fixpoint chunks4 (l : list Z) : list ip_address :=
  match l with
  | a :: b :: c :: d :: l => [a; b; c; d] :: chunks4 l
  | _ => []
  end.

(* [wire/dhcpv4.rs 706-836 Repr::parse] *)
Definition dhcp_parse (data : list Z) : outcome (option dhcp_repr) :=
  check? dhcp_check_len data in
  let! transaction_id := read_be data 4 4 in
  let! client_hardware_address := slice data 28 34 in
  let! client_ip := slice data 12 16 in
  let! your_ip := slice data 16 20 in
  let! server_ip := slice data 20 24 in
  let! relay_agent_ip := slice data 24 28 in
  let! secs := read_be data 8 2 in
  let! hardware_type := index data 1 in
  let! hardware_len := index data 2 in
  check? (hardware_type =? 1) && (hardware_len =? 6) in
  let! magic := read_be data 236 4 in
  check? magic =? DHCP_MAGIC_NUMBER in
  let! opcode := index data 0 in
  let! buf := slice_from data 240 in
  try! options := dhcp_options (length buf) buf in
  try! found := note_dhcp_options opcode options ∅ in
  let! flags := read_be data 10 2 in
  match found !! OPT_DHCP_MESSAGE_TYPE with
  | None => Ret None
  | Some message_type =>
      Ret (Some {|
        dh_message_type := to_bits message_type;
        dh_transaction_id := transaction_id;
        dh_secs := secs;
        dh_client_hardware_address := client_hardware_address;
        dh_client_ip := client_ip;
        dh_your_ip := your_ip;
        dh_server_ip := server_ip;
        dh_router := found !! OPT_ROUTER;
        dh_subnet_mask := found !! OPT_SUBNET_MASK;
        dh_relay_agent_ip := relay_agent_ip;
        dh_broadcast := Z.testbit flags 15;
        dh_requested_ip := found !! OPT_REQUESTED_IP;
        dh_client_identifier := zdrop 1 <$> found !! OPT_CLIENT_ID;
        dh_server_identifier := found !! OPT_SERVER_IDENTIFIER;
        dh_parameter_request_list := found !! OPT_PARAMETER_REQUEST_LIST;
        dh_dns_servers := (fun d => ztake MAX_DNS_SERVER_COUNT (chunks4 d)) <$> found !! OPT_DOMAIN_NAME_SERVER;
        dh_max_size := to_bits <$> found !! OPT_MAX_DHCP_MESSAGE_SIZE;
        dh_lease_duration := to_bits <$> found !! OPT_IP_LEASE_TIME;
        dh_renew_duration := to_bits <$> found !! OPT_RENEWAL_TIME_VALUE;
        dh_rebind_duration := to_bits <$> found !! OPT_REBINDING_TIME_VALUE;
        dh_additional_options := [] |})
  end.

(** ** Writing *)

Definition opt_len {A} (o : option A) (n : Z) : Z := match o with Some _ => n | None => 0 end.

(* [wire/dhcpv4.rs 666-703 Repr::buffer_len] *)
Definition dhcp_buffer_len (r : dhcp_repr) : Z :=
  240 + (3 + 1) + opt_len (dh_requested_ip r) 6 + opt_len (dh_client_identifier r) 9 +
  opt_len (dh_server_identifier r) 6 + opt_len (dh_max_size r) 4 + opt_len (dh_router r) 6 +
  opt_len (dh_subnet_mask r) 6 + opt_len (dh_lease_duration r) 6 +
  (match dh_dns_servers r with Some l => 2 + len l * 4 | None => 0 end) +
  (match dh_parameter_request_list r with Some l => len l + 2 | None => 0 end) +
  fold_right (fun o n => 2 + len (op_data o) + n) 0 (dh_additional_options r).

(** The options written so far and what is left of the buffer. *)
(* [wire/dhcpv4.rs 63-66 DhcpOptionWriter] *)
Record option_writer : Type := { ow_written : list Z; ow_buffer : list Z }.

(* [wire/dhcpv4.rs 74-92 DhcpOptionWriter::emit] *)
Definition option_emit (o : dhcp_option) (w : option_writer) : outcome (option option_writer) :=
  let n := len (op_data o) in
  check? negb (255 <? n) in
  let total_len := 2 + n in
  check? negb (len (ow_buffer w) <? total_len) in
  let! buf := slice (ow_buffer w) 0 total_len in
  let! rest := slice_from (ow_buffer w) total_len in
  let! buf := store buf 0 (op_kind o) in
  let! buf := store buf 1 (u8 n) in
  let! buf := copy_from_slice buf 2 total_len (op_data o) in
  Ret (Some {| ow_written := ow_written w ++ buf; ow_buffer := rest |}).

(** The rest of the buffer is left as it is. *)
(* [wire/dhcpv4.rs 94-102 DhcpOptionWriter::end] *)
Definition option_end (w : option_writer) : outcome (option (list Z)) :=
  check? negb (len (ow_buffer w) =? 0) in
  let! buf := store (ow_buffer w) 0 255 in
  Ret (Some (ow_written w ++ buf)).

(** One after the other, until one fails. *)
Fixpoint options_emit (l : list dhcp_option) (w : option_writer) : outcome (option option_writer) :=
  match l with
  | [] => Ret (Some w)
  | o :: l => try! w := option_emit o w in options_emit l w
  end.

Definition opt_list {A} (kind : Z) (o : option A) (f : A -> list Z) : list dhcp_option :=
  match o with Some a => [{| op_kind := kind; op_data := f a |}] | None => [] end.

(** The options of a message, in the order they are written. *)
(* [wire/dhcpv4.rs 867-947 Repr::emit] *)
Definition dhcp_option_list (r : dhcp_repr) : list dhcp_option :=
  [{| op_kind := OPT_DHCP_MESSAGE_TYPE; op_data := [dh_message_type r] |}] ++
  opt_list OPT_CLIENT_ID (dh_client_identifier r) (cons 1) ++
  opt_list OPT_SERVER_IDENTIFIER (dh_server_identifier r) (fun a => a) ++
  opt_list OPT_ROUTER (dh_router r) (fun a => a) ++
  opt_list OPT_SUBNET_MASK (dh_subnet_mask r) (fun a => a) ++
  opt_list OPT_REQUESTED_IP (dh_requested_ip r) (fun a => a) ++
  opt_list OPT_MAX_DHCP_MESSAGE_SIZE (dh_max_size r) be16_bytes ++
  opt_list OPT_IP_LEASE_TIME (dh_lease_duration r) be32_bytes ++
  opt_list OPT_PARAMETER_REQUEST_LIST (dh_parameter_request_list r) (fun l => l) ++
  opt_list OPT_DOMAIN_NAME_SERVER (dh_dns_servers r) (fun l => concat l) ++
  dh_additional_options r.

(** [None] is [Err(Error)], of which the caller makes a panic. *)
(* [wire/dhcpv4.rs 840-953 Repr::emit] *)
Definition dhcp_emit (r : dhcp_repr) (data : list Z) : outcome (option (list Z)) :=
  let! data := copy_from_slice data 34 108 (zreplicate 74 0) in
  let! data := copy_from_slice data 108 236 (zreplicate 128 0) in
  let! data := store data 0 (msg_opcode (dh_message_type r)) in
  let! data := store data 1 1 in
  let! data := store data 2 6 in
  let! data := write_u32 data 4 (dh_transaction_id r) in
  let! data := copy_from_slice data 28 34 (dh_client_hardware_address r) in
  let! data := store data 3 0 in
  let! data := write_u16 data 8 (dh_secs r) in
  let! data := write_u32 data 236 DHCP_MAGIC_NUMBER in
  let! data := copy_from_slice data 12 16 (dh_client_ip r) in
  let! data := copy_from_slice data 16 20 (dh_your_ip r) in
  let! data := copy_from_slice data 20 24 (dh_server_ip r) in
  let! data := copy_from_slice data 24 28 (dh_relay_agent_ip r) in
  let! data := write_u16 data 10 (if dh_broadcast r then 32768 else 0) in
  let! header := slice data 0 240 in
  let! buf := slice_from data 240 in
  try! w := options_emit (dhcp_option_list r) {| ow_written := []; ow_buffer := buf |} in
  try! options := option_end w in
  Ret (Some (header ++ options)).

(** The payload of a datagram. *)
(* [iface/packet.rs 173-181 Packet::emit_payload] *)
Definition dhcp_udp_emit (u : udp_repr) (r : dhcp_repr) (data : list Z) : outcome (list Z) :=
  udp_emit u (dhcp_buffer_len r) (fun buf =>
    let! o := dhcp_emit r buf in match o with Some buf => Ret buf | None => Panic end) data.
