(* ===== verification/Dhcp.v ===== *)
(** The DHCP client (vendor/smoltcp/src/socket/dhcpv4.rs): discovering a
    server, requesting an address, and renewing the lease. *)

From Stdlib Require Import ZArith Lia ZifyBool.
From stdpp Require Import base list numbers.
From S2P Require Import Prelude Rss Time TcpWire Iface Frame DhcpWire.

(** ** State *)

(* [socket/dhcpv4.rs 20-20 DEFAULT_LEASE_DURATION] *)
Definition DEFAULT_LEASE_DURATION : duration := from_secs 120.
(* [socket/dhcpv4.rs 22-26 DEFAULT_PARAMETER_REQUEST_LIST] *)
Definition DEFAULT_PARAMETER_REQUEST_LIST : list Z := [OPT_SUBNET_MASK; OPT_ROUTER; OPT_DOMAIN_NAME_SERVER].

(* [socket/dhcpv4.rs 49-55 ServerInfo] *)
Record server_info : Type := { sv_address : ip_address; sv_identifier : ip_address }.

(* [socket/dhcpv4.rs 31-44 Config] *)
Record dhcp_config : Type := {
  cfg_server : server_info;
  cfg_address : cidr;
  cfg_router : option ip_address;
  cfg_dns_servers : list ip_address;
  cfg_packet : option (list Z);
}.

#[export] Instance server_info_eq_dec : EqDecision server_info.
Proof. solve_decision. Defined.
#[export] Instance dhcp_config_eq_dec : EqDecision dhcp_config.
Proof. solve_decision. Defined.

(* [socket/dhcpv4.rs 146-151 Event] *)
Variant dhcp_event : Type := Configured (cfg : dhcp_config) | Deconfigured.

(* [socket/dhcpv4.rs 79-101 RenewState] *)
Record renew_state : Type := {
  rn_config : dhcp_config;
  rn_renew_at : instant;
  rn_rebind_at : instant;
  rn_rebinding : bool;
  rn_expires_at : instant;
}.

(* [socket/dhcpv4.rs 66-75 RequestState] *)
Record request_state : Type := {
  rq_retry_at : instant;
  rq_retry : Z;
  rq_server : server_info;
  rq_requested_ip : ip_address;
}.

(* [socket/dhcpv4.rs 106-113 ClientState] *)
Inductive client_state : Type :=
| Discovering (retry_at : instant)
| Requesting (r : request_state)
| Renewing (r : renew_state).

(* [socket/dhcpv4.rs 119-129 RetryConfig] *)
Record retry_config : Type := {
  rc_discover_timeout : duration;
  rc_initial_request_timeout : duration;
  rc_request_retries : Z;
  rc_min_renew_timeout : duration;
  rc_max_renew_timeout : duration;
}.

(** [Duration::MAX] *)
Definition DURATION_MAX : duration := 18446744073709551615.

(* [socket/dhcpv4.rs 131-141 RetryConfig::default] *)
Definition retry_config_default : retry_config :=
  {| rc_discover_timeout := from_secs 10; rc_initial_request_timeout := from_secs 5; rc_request_retries := 5;
     rc_min_renew_timeout := from_secs 60; rc_max_renew_timeout := DURATION_MAX |}.

(* [socket/dhcpv4.rs 154-187 Socket] *)
Record dhcp_socket : Type := {
  ds_state : client_state;
  ds_config_changed : bool;
  ds_transaction_id : Z;
  ds_max_lease_duration : option duration;
  ds_retry_config : retry_config;
  ds_ignore_naks : bool;
  ds_server_port : Z;
  ds_client_port : Z;
  ds_outgoing_options : list dhcp_option;
  ds_parameter_request_list : option (list Z);
  ds_receive_packet_buffer : option (list Z);
}.

(** The fields that are set together; the others are the user's. *)
Definition with_client (st : client_state) (changed : bool) (xid : Z) (d : dhcp_socket) : dhcp_socket :=
  {| ds_state := st; ds_config_changed := changed; ds_transaction_id := xid;
     ds_max_lease_duration := ds_max_lease_duration d; ds_retry_config := ds_retry_config d;
     ds_ignore_naks := ds_ignore_naks d; ds_server_port := ds_server_port d; ds_client_port := ds_client_port d;
     ds_outgoing_options := ds_outgoing_options d; ds_parameter_request_list := ds_parameter_request_list d;
     ds_receive_packet_buffer := ds_receive_packet_buffer d |}.
Definition with_ds_state (st : client_state) (d : dhcp_socket) : dhcp_socket :=
  with_client st (ds_config_changed d) (ds_transaction_id d) d.
(* [socket/dhcpv4.rs 770-774 Socket::config_changed] *)
Definition config_changed (d : dhcp_socket) : dhcp_socket := with_client (ds_state d) true (ds_transaction_id d) d.
Definition with_receive_buffer (b : option (list Z)) (d : dhcp_socket) : dhcp_socket :=
  {| ds_state := ds_state d; ds_config_changed := ds_config_changed d; ds_transaction_id := ds_transaction_id d;
     ds_max_lease_duration := ds_max_lease_duration d; ds_retry_config := ds_retry_config d;
     ds_ignore_naks := ds_ignore_naks d; ds_server_port := ds_server_port d; ds_client_port := ds_client_port d;
     ds_outgoing_options := ds_outgoing_options d; ds_parameter_request_list := ds_parameter_request_list d;
     ds_receive_packet_buffer := b |}.

(* [socket/dhcpv4.rs 199-217 Socket::new] *)
Definition dhcp_new : dhcp_socket :=
  {| ds_state := Discovering (instant_from_millis 0); ds_config_changed := true; ds_transaction_id := 1;
     ds_max_lease_duration := None; ds_retry_config := retry_config_default; ds_ignore_naks := false;
     ds_server_port := 67; ds_client_port := 68; ds_outgoing_options := []; ds_parameter_request_list := None;
     ds_receive_packet_buffer := None |}.

(* [socket/dhcpv4.rs 732-740 Socket::reset] *)
Definition dhcp_reset (d : dhcp_socket) : dhcp_socket :=
  let d := match ds_state d with Renewing _ => config_changed d | _ => d end in
  with_ds_state (Discovering (instant_from_millis 0)) d.

(* [socket/dhcpv4.rs 746-765 Socket::poll] *)
Definition dhcp_poll (d : dhcp_socket) : option dhcp_event * dhcp_socket :=
  if negb (ds_config_changed d) then (None, d)
  else
    match ds_state d with
    | Renewing r =>
        (Some (Configured {| cfg_server := cfg_server (rn_config r); cfg_address := cfg_address (rn_config r);
                             cfg_router := cfg_router (rn_config r);
                             cfg_dns_servers := cfg_dns_servers (rn_config r);
                             cfg_packet := ds_receive_packet_buffer d |}),
         with_client (ds_state d) false (ds_transaction_id d) d)
    | _ => (Some Deconfigured, with_client (ds_state d) false (ds_transaction_id d) d)
    end.

(* [socket/dhcpv4.rs 291-303 Socket::poll_at] *)
Definition dhcp_poll_at (d : dhcp_socket) : instant :=
  match ds_state d with
  | Discovering retry_at => retry_at
  | Requesting r => rq_retry_at r
  | Renewing r =>
      Z.min (if rn_rebinding r then rn_rebind_at r else Z.min (rn_renew_at r) (rn_rebind_at r)) (rn_expires_at r)
  end.

(** ** Receiving *)

(** The bits of a mask, most significant first. *)
Definition mask_bits (a : ip_address) : list bool :=
  concat (map (fun b => map (Z.testbit b) [7; 6; 5; 4; 3; 2; 1; 0]) a).

Fixpoint prefix_loop (bits : list bool) (ones : bool) (n : Z) : option Z :=
  match bits with
  | [] => Some n
  | one :: bits =>
      if ones then if one : bool then prefix_loop bits true (u8 (n + 1)) else prefix_loop bits false n
      else if one : bool then None else prefix_loop bits false n
  end.

(* [wire/ipv4.rs 62-84 AddressExt::prefix_len] *)
Definition mask_prefix_len (a : ip_address) : option Z := prefix_loop (mask_bits a) true 0.

(** T1 and T2, from the options and the lease time. *)
(* [socket/dhcpv4.rs 507-545 Socket::parse_ack] *)
Definition renew_rebind (renew rebind : option duration) (lease : duration) : outcome (duration * duration) :=
  let defaults :=
    let! t1 := duration_div lease 2 in
    let! t2 := duration_div (duration_mul lease 7) 8 in
    Ret (t1, t2) in
  match renew, rebind with
  | Some t1, Some t2 => if (t1 <? t2) && (t2 <? lease) then Ret (t1, t2) else defaults
  | Some t1, None =>
      if t1 <? lease then
        let! rest := duration_sub lease t1 in
        let! gap := duration_div (duration_mul rest 3) 4 in
        Ret (t1, duration_add t1 gap)
      else defaults
  | None, Some t2 => if t2 <? lease then let! half := duration_div lease 2 in Ret (Z.min half t2, t2) else defaults
  | None, None => defaults
  end.

(* [socket/dhcpv4.rs 443-551 Socket::parse_ack] *)
Definition parse_ack (now : instant) (r : dhcp_repr) (max_lease_duration : option duration) (server : server_info)
  : outcome (option (dhcp_config * instant * instant * instant)) :=
  match dh_subnet_mask r with
  | None => Ret None
  | Some subnet_mask =>
      match mask_prefix_len subnet_mask with
      | None => Ret None
      | Some prefix =>
          if negb (is_unicast (dh_your_ip r)) then Ret None
          else
            let lease := match dh_lease_duration r with Some d => from_secs d | None => DEFAULT_LEASE_DURATION end in
            let lease := match max_lease_duration with Some m => Z.min lease m | None => lease end in
            let dns_servers := filter (fun a => is_unicast a = true) (default [] (dh_dns_servers r)) in
            let! address := cidr_new (dh_your_ip r) prefix in
            let config := {| cfg_server := server; cfg_address := address; cfg_router := dh_router r;
                             cfg_dns_servers := dns_servers; cfg_packet := None |} in
            let! (t1, t2) := renew_rebind (from_secs <$> dh_renew_duration r) (from_secs <$> dh_rebind_duration r)
                               lease in
            Ret (Some (config, instant_add now t1, instant_add now t2, instant_add now lease))
      end
  end.

(** [buffer.get_mut(..payload.len())]: a buffer that is too short is left alone. *)
(* [socket/dhcpv4.rs 361-366 Socket::process] *)
Definition keep_packet (payload : list Z) (d : dhcp_socket) : outcome dhcp_socket :=
  match ds_receive_packet_buffer d with
  | Some b =>
      if len payload <=? len b
      then let! b := copy_from_slice b 0 (len payload) payload in Ret (with_receive_buffer (Some b) d)
      else Ret d
  | None => Ret d
  end.

(** A message for this client, with the server identifier it carries. *)
(* [socket/dhcpv4.rs 367-440 Socket::process] *)
Definition dhcp_step (now : instant) (src : ip_address) (r : dhcp_repr) (server_identifier : ip_address)
    (d : dhcp_socket) : outcome dhcp_socket :=
  let m := dh_message_type r in
  match ds_state d with
  | Discovering _ =>
      if m =? MSG_OFFER then
        if negb (is_unicast (dh_your_ip r)) then Ret d
        else Ret (with_ds_state (Requesting {| rq_retry_at := now; rq_retry := 0;
                                               rq_server := {| sv_address := src; sv_identifier := server_identifier |};
                                               rq_requested_ip := dh_your_ip r |}) d)
      else Ret d
  | Requesting rq =>
      if m =? MSG_ACK then
        let! o := parse_ack now r (ds_max_lease_duration d) (rq_server rq) in
        match o with
        | Some (config, renew_at, rebind_at, expires_at) =>
            Ret (config_changed (with_ds_state (Renewing {| rn_config := config; rn_renew_at := renew_at;
              rn_rebind_at := rebind_at; rn_rebinding := false; rn_expires_at := expires_at |}) d))
        | None => Ret d
        end
      else if m =? MSG_NAK then Ret (if ds_ignore_naks d then d else dhcp_reset d)
      else Ret d
  | Renewing rn =>
      if m =? MSG_ACK then
        let! o := parse_ack now r (ds_max_lease_duration d) (cfg_server (rn_config rn)) in
        match o with
        | Some (config, renew_at, rebind_at, expires_at) =>
            let changed := negb (bool_decide (rn_config rn = config)) ||
                           match ds_receive_packet_buffer d with Some _ => true | None => false end in
            let d := with_ds_state (Renewing {| rn_config := config; rn_renew_at := renew_at;
              rn_rebind_at := rebind_at; rn_rebinding := false; rn_expires_at := expires_at |}) d in
            Ret (if changed then config_changed d else d)
        | None => Ret d
        end
      else if m =? MSG_NAK then Ret (if ds_ignore_naks d then d else dhcp_reset d)
      else Ret d
  end.

(** [hw] is the interface's hardware address, [src] the sender's address. *)
(* [socket/dhcpv4.rs 305-441 Socket::process] *)
Definition dhcp_process (now : instant) (hw : eth_address) (src : ip_address) (u : udp_repr) (payload : list Z)
    (d : dhcp_socket) : outcome dhcp_socket :=
  assert! (udp_src_port u =? ds_server_port d) && (udp_dst_port u =? ds_client_port d) in
  if negb (dhcp_check_len payload) then Ret d
  else
    let! o := dhcp_parse payload in
    match o with
    | None => Ret d
    | Some r =>
        if negb (bool_decide (dh_client_hardware_address r = hw)) then Ret d
        else if negb (dh_transaction_id r =? ds_transaction_id d) then Ret d
        else
          match dh_server_identifier r with
          | None => Ret d
          | Some server_identifier =>
              let! d := keep_packet payload d in dhcp_step now src r server_identifier d
          end
    end.

(** ** Sending *)

Definition dhcp_packet : Type := ipv4_repr * udp_repr * dhcp_repr.

(* [socket/dhcpv4.rs 554-556 Socket::random_transaction_id] *)
Definition random_transaction_id (cx : context) : Z * context :=
  let '(n, r) := rand_u32 (cx_rand cx) in (n, with_rand r cx).

(** The message before the state has its say. *)
(* [socket/dhcpv4.rs 573-602 Socket::dispatch] *)
Definition dhcp_base (cx : context) (hw : eth_address) (d : dhcp_socket) : dhcp_repr :=
  {| dh_message_type := MSG_DISCOVER;
     dh_transaction_id := ds_transaction_id d;
     dh_secs := 0;
     dh_client_hardware_address := hw;
     dh_client_ip := UNSPECIFIED;
     dh_your_ip := UNSPECIFIED;
     dh_server_ip := UNSPECIFIED;
     dh_router := None;
     dh_subnet_mask := None;
     dh_relay_agent_ip := UNSPECIFIED;
     dh_broadcast := false;
     dh_requested_ip := None;
     dh_client_identifier := Some hw;
     dh_server_identifier := None;
     dh_parameter_request_list := Some (default DEFAULT_PARAMETER_REQUEST_LIST (ds_parameter_request_list d));
     dh_dns_servers := None;
     dh_max_size := Some (u16 (usize (ip_mtu cx - 60 - UDP_HEADER_LEN)));
     dh_lease_duration := None;
     dh_renew_duration := None;
     dh_rebind_duration := None;
     dh_additional_options := ds_outgoing_options d |}.

(** The message's type, transaction, and the addresses it names. *)
Definition dhcp_message (m xid : Z) (client_ip : ip_address) (requested_ip server_identifier : option ip_address)
    (r : dhcp_repr) : dhcp_repr :=
  {| dh_message_type := m; dh_transaction_id := xid; dh_secs := dh_secs r;
     dh_client_hardware_address := dh_client_hardware_address r; dh_client_ip := client_ip;
     dh_your_ip := dh_your_ip r; dh_server_ip := dh_server_ip r; dh_router := dh_router r;
     dh_subnet_mask := dh_subnet_mask r; dh_relay_agent_ip := dh_relay_agent_ip r; dh_broadcast := dh_broadcast r;
     dh_requested_ip := requested_ip; dh_client_identifier := dh_client_identifier r;
     dh_server_identifier := server_identifier; dh_parameter_request_list := dh_parameter_request_list r;
     dh_dns_servers := dh_dns_servers r; dh_max_size := dh_max_size r; dh_lease_duration := dh_lease_duration r;
     dh_renew_duration := dh_renew_duration r; dh_rebind_duration := dh_rebind_duration r;
     dh_additional_options := dh_additional_options r |}.

(** A message from [src] to [dst]: the headers, and their lengths. *)
(* [socket/dhcpv4.rs 604-615 Socket::dispatch] *)
Definition dhcp_datagram (src dst : ip_address) (r : dhcp_repr) (d : dhcp_socket) : dhcp_packet :=
  ({| v4_ip := {| ip_src := src; ip_dst := dst; ip_payload_len := usize (UDP_HEADER_LEN + dhcp_buffer_len r);
                  ip_hop_limit := 64 |};
      v4_next_header := PROTO_UDP |},
   {| udp_src_port := ds_client_port d; udp_dst_port := ds_server_port d |}, r).

Definition BROADCAST_IP : ip_address := [255; 255; 255; 255].

(** When the next renewal is due. *)
(* [socket/dhcpv4.rs 705-720 Socket::dispatch] *)
Definition renew_retry (c : retry_config) (now : instant) (rn : renew_state) : outcome renew_state :=
  if rn_rebinding rn then
    let! half := duration_div (instant_sub (rn_expires_at rn) now) 2 in
    let wait := Z.min (Z.max (rc_min_renew_timeout c) half) (rc_max_renew_timeout c) in
    Ret {| rn_config := rn_config rn; rn_renew_at := rn_renew_at rn; rn_rebind_at := instant_add now wait;
           rn_rebinding := true; rn_expires_at := rn_expires_at rn |}
  else
    let left := instant_sub (rn_rebind_at rn) now in
    let! half := duration_div left 2 in
    let wait := Z.min (Z.min (Z.max (rc_min_renew_timeout c) half) left) (rc_max_renew_timeout c) in
    Ret {| rn_config := rn_config rn; rn_renew_at := instant_add now wait; rn_rebind_at := rn_rebind_at rn;
           rn_rebinding := false; rn_expires_at := rn_expires_at rn |}.

(** Answers the message handed to [emit], if any, and its result; the state
    only moves on when it is [Ok]. *)
(* [socket/dhcpv4.rs 563-726 Socket::dispatch] *)
Definition dhcp_dispatch {E} (emit : context -> dhcp_packet -> result unit E) (cx : context) (hw : eth_address)
    (d : dhcp_socket) : outcome (option dhcp_packet * result unit E * dhcp_socket * context) :=
  let base := dhcp_base cx hw d in
  match ds_state d with
  | Discovering retry_at =>
      if cx_now cx <? retry_at then Ret (None, Ok (), d, cx)
      else
        let '(xid, cx) := random_transaction_id cx in
        let p := dhcp_datagram UNSPECIFIED BROADCAST_IP (dhcp_message MSG_DISCOVER xid UNSPECIFIED None None base) d in
        match emit cx p with
        | Err e => Ret (Some p, Err e, d, cx)
        | Ok _ =>
            let retry_at := instant_add (cx_now cx) (rc_discover_timeout (ds_retry_config d)) in
            Ret (Some p, Ok (), with_client (Discovering retry_at) (ds_config_changed d) xid d, cx)
        end
  | Requesting rq =>
      if cx_now cx <? rq_retry_at rq then Ret (None, Ok (), d, cx)
      else if rc_request_retries (ds_retry_config d) <=? rq_retry rq then Ret (None, Ok (), dhcp_reset d, cx)
      else
        let p := dhcp_datagram UNSPECIFIED BROADCAST_IP
          (dhcp_message MSG_REQUEST (ds_transaction_id d) UNSPECIFIED (Some (rq_requested_ip rq))
             (Some (sv_identifier (rq_server rq))) base) d in
        match emit cx p with
        | Err e => Ret (Some p, Err e, d, cx)
        | Ok _ =>
            let wait := duration_shl (rc_initial_request_timeout (ds_retry_config d)) (rq_retry rq / 2) in
            Ret (Some p, Ok (), with_ds_state (Requesting {| rq_retry_at := instant_add (cx_now cx) wait;
              rq_retry := u16 (rq_retry rq + 1); rq_server := rq_server rq; rq_requested_ip := rq_requested_ip rq |}) d, cx)
        end
  | Renewing rn =>
      let now := cx_now cx in
      if rn_expires_at rn <=? now then Ret (None, Ok (), dhcp_reset d, cx)
      else if (now <? rn_renew_at rn) || rn_rebinding rn && (now <? rn_rebind_at rn) then Ret (None, Ok (), d, cx)
      else
        let rn := {| rn_config := rn_config rn; rn_renew_at := rn_renew_at rn; rn_rebind_at := rn_rebind_at rn;
                     rn_rebinding := rn_rebinding rn || (rn_rebind_at rn <=? now); rn_expires_at := rn_expires_at rn |} in
        let src := cidr_addr (cfg_address (rn_config rn)) in
        let dst := if rn_rebinding rn then BROADCAST_IP else sv_address (cfg_server (rn_config rn)) in
        let '(xid, cx) := random_transaction_id cx in
        let p := dhcp_datagram src dst (dhcp_message MSG_REQUEST xid src None None base) d in
        match emit cx p with
        | Err e => Ret (Some p, Err e, with_ds_state (Renewing rn) d, cx)
        | Ok _ =>
            let! rn := renew_retry (ds_retry_config d) now rn in
            Ret (Some p, Ok (), with_client (Renewing rn) (ds_config_changed d) xid d, cx)
        end
  end.

(** ** The lease

    In the order of the timers: the renewal is not after the rebinding, which
    is before the end until rebinding has begun. *)
Definition timers_ok (rn : renew_state) : Prop :=
  rn_renew_at rn <= rn_rebind_at rn /\ (rn_rebinding rn = false -> rn_rebind_at rn <= rn_expires_at rn).
