(* ===== verification/TcpState.v ===== *)
(** The state of a TCP socket (vendor/smoltcp/src/socket/tcp.rs, [struct Socket])
    with one update function per field.  The wakers ([async] feature) and
    [synack_paused] are compiled out; the only congestion controller compiled in
    is [NoControl]. *)

From Stdlib Require Import ZArith Lia.
From stdpp Require Import base list numbers.
From S2P Require Import Prelude Assembler RingBuffer Time TcpWire TcpTimer.

(* [socket/tcp.rs 112-124 State] *)
Inductive tcp_state : Type :=
| Closed | Listen | SynSent | SynReceived | Established | FinWait1 | FinWait2
| CloseWait | Closing | LastAck | TimeWait.
#[export] Instance tcp_state_eq_dec : EqDecision tcp_state.
Proof. solve_decision. Defined.

(** [self.state == State::X] *)
Definition state_eqb (a b : tcp_state) : bool := bool_decide (a = b).

(* [socket/tcp.rs 446-449 Tuple] *)
Record tcp_tuple : Type := { tup_local : ip_endpoint; tup_remote : ip_endpoint }.

(* [socket/tcp.rs 460-468 CongestionControl] *)
Inductive congestion_control : Type := CongestionNone.

(** The hooks of [NoControl] do nothing; its window is unlimited. *)
(* [socket/tcp/congestion/no_control.rs 7-11 NoControl::window] *)
Definition cc_window (c : congestion_control) : Z := match c with CongestionNone => usize_max end.

(* [socket/tcp.rs 563-563 DEFAULT_MSS] *)
Definition DEFAULT_MSS : Z := 536.

(* [socket/tcp.rs 477-561 Socket] *)
Record socket : Type := MkSocket {
  state : tcp_state;
  sk_timer : timer;
  rtte : rtt_estimator;
  sk_assembler : assembler;
  rx_buffer : ring_buffer Z;
  rx_fin_received : bool;
  tx_buffer : ring_buffer Z;
  timeout : option duration;
  keep_alive : option duration;
  hop_limit : option Z;
  listen_endpoint : ip_listen_endpoint;
  sk_tuple : option tcp_tuple;
  local_seq_no : seq_number;
  remote_seq_no : seq_number;
  remote_last_seq : seq_number;
  remote_last_ack : option seq_number;
  remote_last_win : Z;
  remote_win_shift : Z;
  remote_win_len : Z;
  remote_win_scale : option Z;
  remote_has_sack : bool;
  remote_mss : Z;
  remote_last_ts : option instant;
  local_rx_last_seq : option seq_number;
  local_rx_last_ack : option seq_number;
  local_rx_dup_acks : Z;
  ack_delay : option duration;
  sk_ack_delay_timer : ack_delay_timer;
  challenge_ack_timer : instant;
  nagle : bool;
  congestion_controller : congestion_control;
  tsval_generator : option timestamp_generator;
  last_remote_tsval : Z;
}.

(** Assignment to one field. *)
Definition with_state (v : tcp_state) (s : socket) : socket :=
  MkSocket v (sk_timer s) (rtte s) (sk_assembler s) (rx_buffer s) (rx_fin_received s) (tx_buffer s)
    (timeout s) (keep_alive s) (hop_limit s) (listen_endpoint s) (sk_tuple s) (local_seq_no s)
    (remote_seq_no s) (remote_last_seq s) (remote_last_ack s) (remote_last_win s) (remote_win_shift
    s) (remote_win_len s) (remote_win_scale s) (remote_has_sack s) (remote_mss s) (remote_last_ts s)
    (local_rx_last_seq s) (local_rx_last_ack s) (local_rx_dup_acks s) (ack_delay s)
    (sk_ack_delay_timer s) (challenge_ack_timer s) (nagle s) (congestion_controller s)
    (tsval_generator s) (last_remote_tsval s).
Definition with_sk_timer (v : timer) (s : socket) : socket :=
  MkSocket (state s) v (rtte s) (sk_assembler s) (rx_buffer s) (rx_fin_received s) (tx_buffer s)
    (timeout s) (keep_alive s) (hop_limit s) (listen_endpoint s) (sk_tuple s) (local_seq_no s)
    (remote_seq_no s) (remote_last_seq s) (remote_last_ack s) (remote_last_win s) (remote_win_shift
    s) (remote_win_len s) (remote_win_scale s) (remote_has_sack s) (remote_mss s) (remote_last_ts s)
    (local_rx_last_seq s) (local_rx_last_ack s) (local_rx_dup_acks s) (ack_delay s)
    (sk_ack_delay_timer s) (challenge_ack_timer s) (nagle s) (congestion_controller s)
    (tsval_generator s) (last_remote_tsval s).
Definition with_rtte (v : rtt_estimator) (s : socket) : socket :=
  MkSocket (state s) (sk_timer s) v (sk_assembler s) (rx_buffer s) (rx_fin_received s) (tx_buffer s)
    (timeout s) (keep_alive s) (hop_limit s) (listen_endpoint s) (sk_tuple s) (local_seq_no s)
    (remote_seq_no s) (remote_last_seq s) (remote_last_ack s) (remote_last_win s) (remote_win_shift
    s) (remote_win_len s) (remote_win_scale s) (remote_has_sack s) (remote_mss s) (remote_last_ts s)
    (local_rx_last_seq s) (local_rx_last_ack s) (local_rx_dup_acks s) (ack_delay s)
    (sk_ack_delay_timer s) (challenge_ack_timer s) (nagle s) (congestion_controller s)
    (tsval_generator s) (last_remote_tsval s).
Definition with_sk_assembler (v : assembler) (s : socket) : socket :=
  MkSocket (state s) (sk_timer s) (rtte s) v (rx_buffer s) (rx_fin_received s) (tx_buffer s)
    (timeout s) (keep_alive s) (hop_limit s) (listen_endpoint s) (sk_tuple s) (local_seq_no s)
    (remote_seq_no s) (remote_last_seq s) (remote_last_ack s) (remote_last_win s) (remote_win_shift
    s) (remote_win_len s) (remote_win_scale s) (remote_has_sack s) (remote_mss s) (remote_last_ts s)
    (local_rx_last_seq s) (local_rx_last_ack s) (local_rx_dup_acks s) (ack_delay s)
    (sk_ack_delay_timer s) (challenge_ack_timer s) (nagle s) (congestion_controller s)
    (tsval_generator s) (last_remote_tsval s).
Definition with_rx_buffer (v : ring_buffer Z) (s : socket) : socket :=
  MkSocket (state s) (sk_timer s) (rtte s) (sk_assembler s) v (rx_fin_received s) (tx_buffer s)
    (timeout s) (keep_alive s) (hop_limit s) (listen_endpoint s) (sk_tuple s) (local_seq_no s)
    (remote_seq_no s) (remote_last_seq s) (remote_last_ack s) (remote_last_win s) (remote_win_shift
    s) (remote_win_len s) (remote_win_scale s) (remote_has_sack s) (remote_mss s) (remote_last_ts s)
    (local_rx_last_seq s) (local_rx_last_ack s) (local_rx_dup_acks s) (ack_delay s)
    (sk_ack_delay_timer s) (challenge_ack_timer s) (nagle s) (congestion_controller s)
    (tsval_generator s) (last_remote_tsval s).
Definition with_rx_fin_received (v : bool) (s : socket) : socket :=
  MkSocket (state s) (sk_timer s) (rtte s) (sk_assembler s) (rx_buffer s) v (tx_buffer s) (timeout
    s) (keep_alive s) (hop_limit s) (listen_endpoint s) (sk_tuple s) (local_seq_no s) (remote_seq_no
    s) (remote_last_seq s) (remote_last_ack s) (remote_last_win s) (remote_win_shift s)
    (remote_win_len s) (remote_win_scale s) (remote_has_sack s) (remote_mss s) (remote_last_ts s)
    (local_rx_last_seq s) (local_rx_last_ack s) (local_rx_dup_acks s) (ack_delay s)
    (sk_ack_delay_timer s) (challenge_ack_timer s) (nagle s) (congestion_controller s)
    (tsval_generator s) (last_remote_tsval s).
Definition with_tx_buffer (v : ring_buffer Z) (s : socket) : socket :=
  MkSocket (state s) (sk_timer s) (rtte s) (sk_assembler s) (rx_buffer s) (rx_fin_received s) v
    (timeout s) (keep_alive s) (hop_limit s) (listen_endpoint s) (sk_tuple s) (local_seq_no s)
    (remote_seq_no s) (remote_last_seq s) (remote_last_ack s) (remote_last_win s) (remote_win_shift
    s) (remote_win_len s) (remote_win_scale s) (remote_has_sack s) (remote_mss s) (remote_last_ts s)
    (local_rx_last_seq s) (local_rx_last_ack s) (local_rx_dup_acks s) (ack_delay s)
    (sk_ack_delay_timer s) (challenge_ack_timer s) (nagle s) (congestion_controller s)
    (tsval_generator s) (last_remote_tsval s).
Definition with_timeout (v : option duration) (s : socket) : socket :=
  MkSocket (state s) (sk_timer s) (rtte s) (sk_assembler s) (rx_buffer s) (rx_fin_received s)
    (tx_buffer s) v (keep_alive s) (hop_limit s) (listen_endpoint s) (sk_tuple s) (local_seq_no s)
    (remote_seq_no s) (remote_last_seq s) (remote_last_ack s) (remote_last_win s) (remote_win_shift
    s) (remote_win_len s) (remote_win_scale s) (remote_has_sack s) (remote_mss s) (remote_last_ts s)
    (local_rx_last_seq s) (local_rx_last_ack s) (local_rx_dup_acks s) (ack_delay s)
    (sk_ack_delay_timer s) (challenge_ack_timer s) (nagle s) (congestion_controller s)
    (tsval_generator s) (last_remote_tsval s).
Definition with_keep_alive (v : option duration) (s : socket) : socket :=
  MkSocket (state s) (sk_timer s) (rtte s) (sk_assembler s) (rx_buffer s) (rx_fin_received s)
    (tx_buffer s) (timeout s) v (hop_limit s) (listen_endpoint s) (sk_tuple s) (local_seq_no s)
    (remote_seq_no s) (remote_last_seq s) (remote_last_ack s) (remote_last_win s) (remote_win_shift
    s) (remote_win_len s) (remote_win_scale s) (remote_has_sack s) (remote_mss s) (remote_last_ts s)
    (local_rx_last_seq s) (local_rx_last_ack s) (local_rx_dup_acks s) (ack_delay s)
    (sk_ack_delay_timer s) (challenge_ack_timer s) (nagle s) (congestion_controller s)
    (tsval_generator s) (last_remote_tsval s).
Definition with_hop_limit (v : option Z) (s : socket) : socket :=
  MkSocket (state s) (sk_timer s) (rtte s) (sk_assembler s) (rx_buffer s) (rx_fin_received s)
    (tx_buffer s) (timeout s) (keep_alive s) v (listen_endpoint s) (sk_tuple s) (local_seq_no s)
    (remote_seq_no s) (remote_last_seq s) (remote_last_ack s) (remote_last_win s) (remote_win_shift
    s) (remote_win_len s) (remote_win_scale s) (remote_has_sack s) (remote_mss s) (remote_last_ts s)
    (local_rx_last_seq s) (local_rx_last_ack s) (local_rx_dup_acks s) (ack_delay s)
    (sk_ack_delay_timer s) (challenge_ack_timer s) (nagle s) (congestion_controller s)
    (tsval_generator s) (last_remote_tsval s).
Definition with_listen_endpoint (v : ip_listen_endpoint) (s : socket) : socket :=
  MkSocket (state s) (sk_timer s) (rtte s) (sk_assembler s) (rx_buffer s) (rx_fin_received s)
    (tx_buffer s) (timeout s) (keep_alive s) (hop_limit s) v (sk_tuple s) (local_seq_no s)
    (remote_seq_no s) (remote_last_seq s) (remote_last_ack s) (remote_last_win s) (remote_win_shift
    s) (remote_win_len s) (remote_win_scale s) (remote_has_sack s) (remote_mss s) (remote_last_ts s)
    (local_rx_last_seq s) (local_rx_last_ack s) (local_rx_dup_acks s) (ack_delay s)
    (sk_ack_delay_timer s) (challenge_ack_timer s) (nagle s) (congestion_controller s)
    (tsval_generator s) (last_remote_tsval s).
Definition with_sk_tuple (v : option tcp_tuple) (s : socket) : socket :=
  MkSocket (state s) (sk_timer s) (rtte s) (sk_assembler s) (rx_buffer s) (rx_fin_received s)
    (tx_buffer s) (timeout s) (keep_alive s) (hop_limit s) (listen_endpoint s) v (local_seq_no s)
    (remote_seq_no s) (remote_last_seq s) (remote_last_ack s) (remote_last_win s) (remote_win_shift
    s) (remote_win_len s) (remote_win_scale s) (remote_has_sack s) (remote_mss s) (remote_last_ts s)
    (local_rx_last_seq s) (local_rx_last_ack s) (local_rx_dup_acks s) (ack_delay s)
    (sk_ack_delay_timer s) (challenge_ack_timer s) (nagle s) (congestion_controller s)
    (tsval_generator s) (last_remote_tsval s).
Definition with_local_seq_no (v : seq_number) (s : socket) : socket :=
  MkSocket (state s) (sk_timer s) (rtte s) (sk_assembler s) (rx_buffer s) (rx_fin_received s)
    (tx_buffer s) (timeout s) (keep_alive s) (hop_limit s) (listen_endpoint s) (sk_tuple s) v
    (remote_seq_no s) (remote_last_seq s) (remote_last_ack s) (remote_last_win s) (remote_win_shift
    s) (remote_win_len s) (remote_win_scale s) (remote_has_sack s) (remote_mss s) (remote_last_ts s)
    (local_rx_last_seq s) (local_rx_last_ack s) (local_rx_dup_acks s) (ack_delay s)
    (sk_ack_delay_timer s) (challenge_ack_timer s) (nagle s) (congestion_controller s)
    (tsval_generator s) (last_remote_tsval s).
Definition with_remote_seq_no (v : seq_number) (s : socket) : socket :=
  MkSocket (state s) (sk_timer s) (rtte s) (sk_assembler s) (rx_buffer s) (rx_fin_received s)
    (tx_buffer s) (timeout s) (keep_alive s) (hop_limit s) (listen_endpoint s) (sk_tuple s)
    (local_seq_no s) v (remote_last_seq s) (remote_last_ack s) (remote_last_win s) (remote_win_shift
    s) (remote_win_len s) (remote_win_scale s) (remote_has_sack s) (remote_mss s) (remote_last_ts s)
    (local_rx_last_seq s) (local_rx_last_ack s) (local_rx_dup_acks s) (ack_delay s)
    (sk_ack_delay_timer s) (challenge_ack_timer s) (nagle s) (congestion_controller s)
    (tsval_generator s) (last_remote_tsval s).
Definition with_remote_last_seq (v : seq_number) (s : socket) : socket :=
  MkSocket (state s) (sk_timer s) (rtte s) (sk_assembler s) (rx_buffer s) (rx_fin_received s)
    (tx_buffer s) (timeout s) (keep_alive s) (hop_limit s) (listen_endpoint s) (sk_tuple s)
    (local_seq_no s) (remote_seq_no s) v (remote_last_ack s) (remote_last_win s) (remote_win_shift
    s) (remote_win_len s) (remote_win_scale s) (remote_has_sack s) (remote_mss s) (remote_last_ts s)
    (local_rx_last_seq s) (local_rx_last_ack s) (local_rx_dup_acks s) (ack_delay s)
    (sk_ack_delay_timer s) (challenge_ack_timer s) (nagle s) (congestion_controller s)
    (tsval_generator s) (last_remote_tsval s).
Definition with_remote_last_ack (v : option seq_number) (s : socket) : socket :=
  MkSocket (state s) (sk_timer s) (rtte s) (sk_assembler s) (rx_buffer s) (rx_fin_received s)
    (tx_buffer s) (timeout s) (keep_alive s) (hop_limit s) (listen_endpoint s) (sk_tuple s)
    (local_seq_no s) (remote_seq_no s) (remote_last_seq s) v (remote_last_win s) (remote_win_shift
    s) (remote_win_len s) (remote_win_scale s) (remote_has_sack s) (remote_mss s) (remote_last_ts s)
    (local_rx_last_seq s) (local_rx_last_ack s) (local_rx_dup_acks s) (ack_delay s)
    (sk_ack_delay_timer s) (challenge_ack_timer s) (nagle s) (congestion_controller s)
    (tsval_generator s) (last_remote_tsval s).
Definition with_remote_last_win (v : Z) (s : socket) : socket :=
  MkSocket (state s) (sk_timer s) (rtte s) (sk_assembler s) (rx_buffer s) (rx_fin_received s)
    (tx_buffer s) (timeout s) (keep_alive s) (hop_limit s) (listen_endpoint s) (sk_tuple s)
    (local_seq_no s) (remote_seq_no s) (remote_last_seq s) (remote_last_ack s) v (remote_win_shift
    s) (remote_win_len s) (remote_win_scale s) (remote_has_sack s) (remote_mss s) (remote_last_ts s)
    (local_rx_last_seq s) (local_rx_last_ack s) (local_rx_dup_acks s) (ack_delay s)
    (sk_ack_delay_timer s) (challenge_ack_timer s) (nagle s) (congestion_controller s)
    (tsval_generator s) (last_remote_tsval s).
Definition with_remote_win_shift (v : Z) (s : socket) : socket :=
  MkSocket (state s) (sk_timer s) (rtte s) (sk_assembler s) (rx_buffer s) (rx_fin_received s)
    (tx_buffer s) (timeout s) (keep_alive s) (hop_limit s) (listen_endpoint s) (sk_tuple s)
    (local_seq_no s) (remote_seq_no s) (remote_last_seq s) (remote_last_ack s) (remote_last_win s) v
    (remote_win_len s) (remote_win_scale s) (remote_has_sack s) (remote_mss s) (remote_last_ts s)
    (local_rx_last_seq s) (local_rx_last_ack s) (local_rx_dup_acks s) (ack_delay s)
    (sk_ack_delay_timer s) (challenge_ack_timer s) (nagle s) (congestion_controller s)
    (tsval_generator s) (last_remote_tsval s).
Definition with_remote_win_len (v : Z) (s : socket) : socket :=
  MkSocket (state s) (sk_timer s) (rtte s) (sk_assembler s) (rx_buffer s) (rx_fin_received s)
    (tx_buffer s) (timeout s) (keep_alive s) (hop_limit s) (listen_endpoint s) (sk_tuple s)
    (local_seq_no s) (remote_seq_no s) (remote_last_seq s) (remote_last_ack s) (remote_last_win s)
    (remote_win_shift s) v (remote_win_scale s) (remote_has_sack s) (remote_mss s) (remote_last_ts
    s) (local_rx_last_seq s) (local_rx_last_ack s) (local_rx_dup_acks s) (ack_delay s)
    (sk_ack_delay_timer s) (challenge_ack_timer s) (nagle s) (congestion_controller s)
    (tsval_generator s) (last_remote_tsval s).
Definition with_remote_win_scale (v : option Z) (s : socket) : socket :=
  MkSocket (state s) (sk_timer s) (rtte s) (sk_assembler s) (rx_buffer s) (rx_fin_received s)
    (tx_buffer s) (timeout s) (keep_alive s) (hop_limit s) (listen_endpoint s) (sk_tuple s)
    (local_seq_no s) (remote_seq_no s) (remote_last_seq s) (remote_last_ack s) (remote_last_win s)
    (remote_win_shift s) (remote_win_len s) v (remote_has_sack s) (remote_mss s) (remote_last_ts s)
    (local_rx_last_seq s) (local_rx_last_ack s) (local_rx_dup_acks s) (ack_delay s)
    (sk_ack_delay_timer s) (challenge_ack_timer s) (nagle s) (congestion_controller s)
    (tsval_generator s) (last_remote_tsval s).
Definition with_remote_has_sack (v : bool) (s : socket) : socket :=
  MkSocket (state s) (sk_timer s) (rtte s) (sk_assembler s) (rx_buffer s) (rx_fin_received s)
    (tx_buffer s) (timeout s) (keep_alive s) (hop_limit s) (listen_endpoint s) (sk_tuple s)
    (local_seq_no s) (remote_seq_no s) (remote_last_seq s) (remote_last_ack s) (remote_last_win s)
    (remote_win_shift s) (remote_win_len s) (remote_win_scale s) v (remote_mss s) (remote_last_ts s)
    (local_rx_last_seq s) (local_rx_last_ack s) (local_rx_dup_acks s) (ack_delay s)
    (sk_ack_delay_timer s) (challenge_ack_timer s) (nagle s) (congestion_controller s)
    (tsval_generator s) (last_remote_tsval s).
Definition with_remote_mss (v : Z) (s : socket) : socket :=
  MkSocket (state s) (sk_timer s) (rtte s) (sk_assembler s) (rx_buffer s) (rx_fin_received s)
    (tx_buffer s) (timeout s) (keep_alive s) (hop_limit s) (listen_endpoint s) (sk_tuple s)
    (local_seq_no s) (remote_seq_no s) (remote_last_seq s) (remote_last_ack s) (remote_last_win s)
    (remote_win_shift s) (remote_win_len s) (remote_win_scale s) (remote_has_sack s) v
    (remote_last_ts s) (local_rx_last_seq s) (local_rx_last_ack s) (local_rx_dup_acks s) (ack_delay
    s) (sk_ack_delay_timer s) (challenge_ack_timer s) (nagle s) (congestion_controller s)
    (tsval_generator s) (last_remote_tsval s).
Definition with_remote_last_ts (v : option instant) (s : socket) : socket :=
  MkSocket (state s) (sk_timer s) (rtte s) (sk_assembler s) (rx_buffer s) (rx_fin_received s)
    (tx_buffer s) (timeout s) (keep_alive s) (hop_limit s) (listen_endpoint s) (sk_tuple s)
    (local_seq_no s) (remote_seq_no s) (remote_last_seq s) (remote_last_ack s) (remote_last_win s)
    (remote_win_shift s) (remote_win_len s) (remote_win_scale s) (remote_has_sack s) (remote_mss s)
    v (local_rx_last_seq s) (local_rx_last_ack s) (local_rx_dup_acks s) (ack_delay s)
    (sk_ack_delay_timer s) (challenge_ack_timer s) (nagle s) (congestion_controller s)
    (tsval_generator s) (last_remote_tsval s).
Definition with_local_rx_last_seq (v : option seq_number) (s : socket) : socket :=
  MkSocket (state s) (sk_timer s) (rtte s) (sk_assembler s) (rx_buffer s) (rx_fin_received s)
    (tx_buffer s) (timeout s) (keep_alive s) (hop_limit s) (listen_endpoint s) (sk_tuple s)
    (local_seq_no s) (remote_seq_no s) (remote_last_seq s) (remote_last_ack s) (remote_last_win s)
    (remote_win_shift s) (remote_win_len s) (remote_win_scale s) (remote_has_sack s) (remote_mss s)
    (remote_last_ts s) v (local_rx_last_ack s) (local_rx_dup_acks s) (ack_delay s)
    (sk_ack_delay_timer s) (challenge_ack_timer s) (nagle s) (congestion_controller s)
    (tsval_generator s) (last_remote_tsval s).
Definition with_local_rx_last_ack (v : option seq_number) (s : socket) : socket :=
  MkSocket (state s) (sk_timer s) (rtte s) (sk_assembler s) (rx_buffer s) (rx_fin_received s)
    (tx_buffer s) (timeout s) (keep_alive s) (hop_limit s) (listen_endpoint s) (sk_tuple s)
    (local_seq_no s) (remote_seq_no s) (remote_last_seq s) (remote_last_ack s) (remote_last_win s)
    (remote_win_shift s) (remote_win_len s) (remote_win_scale s) (remote_has_sack s) (remote_mss s)
    (remote_last_ts s) (local_rx_last_seq s) v (local_rx_dup_acks s) (ack_delay s)
    (sk_ack_delay_timer s) (challenge_ack_timer s) (nagle s) (congestion_controller s)
    (tsval_generator s) (last_remote_tsval s).
Definition with_local_rx_dup_acks (v : Z) (s : socket) : socket :=
  MkSocket (state s) (sk_timer s) (rtte s) (sk_assembler s) (rx_buffer s) (rx_fin_received s)
    (tx_buffer s) (timeout s) (keep_alive s) (hop_limit s) (listen_endpoint s) (sk_tuple s)
    (local_seq_no s) (remote_seq_no s) (remote_last_seq s) (remote_last_ack s) (remote_last_win s)
    (remote_win_shift s) (remote_win_len s) (remote_win_scale s) (remote_has_sack s) (remote_mss s)
    (remote_last_ts s) (local_rx_last_seq s) (local_rx_last_ack s) v (ack_delay s)
    (sk_ack_delay_timer s) (challenge_ack_timer s) (nagle s) (congestion_controller s)
    (tsval_generator s) (last_remote_tsval s).
Definition with_ack_delay (v : option duration) (s : socket) : socket :=
  MkSocket (state s) (sk_timer s) (rtte s) (sk_assembler s) (rx_buffer s) (rx_fin_received s)
    (tx_buffer s) (timeout s) (keep_alive s) (hop_limit s) (listen_endpoint s) (sk_tuple s)
    (local_seq_no s) (remote_seq_no s) (remote_last_seq s) (remote_last_ack s) (remote_last_win s)
    (remote_win_shift s) (remote_win_len s) (remote_win_scale s) (remote_has_sack s) (remote_mss s)
    (remote_last_ts s) (local_rx_last_seq s) (local_rx_last_ack s) (local_rx_dup_acks s) v
    (sk_ack_delay_timer s) (challenge_ack_timer s) (nagle s) (congestion_controller s)
    (tsval_generator s) (last_remote_tsval s).
Definition with_sk_ack_delay_timer (v : ack_delay_timer) (s : socket) : socket :=
  MkSocket (state s) (sk_timer s) (rtte s) (sk_assembler s) (rx_buffer s) (rx_fin_received s)
    (tx_buffer s) (timeout s) (keep_alive s) (hop_limit s) (listen_endpoint s) (sk_tuple s)
    (local_seq_no s) (remote_seq_no s) (remote_last_seq s) (remote_last_ack s) (remote_last_win s)
    (remote_win_shift s) (remote_win_len s) (remote_win_scale s) (remote_has_sack s) (remote_mss s)
    (remote_last_ts s) (local_rx_last_seq s) (local_rx_last_ack s) (local_rx_dup_acks s) (ack_delay
    s) v (challenge_ack_timer s) (nagle s) (congestion_controller s) (tsval_generator s)
    (last_remote_tsval s).
Definition with_challenge_ack_timer (v : instant) (s : socket) : socket :=
  MkSocket (state s) (sk_timer s) (rtte s) (sk_assembler s) (rx_buffer s) (rx_fin_received s)
    (tx_buffer s) (timeout s) (keep_alive s) (hop_limit s) (listen_endpoint s) (sk_tuple s)
    (local_seq_no s) (remote_seq_no s) (remote_last_seq s) (remote_last_ack s) (remote_last_win s)
    (remote_win_shift s) (remote_win_len s) (remote_win_scale s) (remote_has_sack s) (remote_mss s)
    (remote_last_ts s) (local_rx_last_seq s) (local_rx_last_ack s) (local_rx_dup_acks s) (ack_delay
    s) (sk_ack_delay_timer s) v (nagle s) (congestion_controller s) (tsval_generator s)
    (last_remote_tsval s).
Definition with_nagle (v : bool) (s : socket) : socket :=
  MkSocket (state s) (sk_timer s) (rtte s) (sk_assembler s) (rx_buffer s) (rx_fin_received s)
    (tx_buffer s) (timeout s) (keep_alive s) (hop_limit s) (listen_endpoint s) (sk_tuple s)
    (local_seq_no s) (remote_seq_no s) (remote_last_seq s) (remote_last_ack s) (remote_last_win s)
    (remote_win_shift s) (remote_win_len s) (remote_win_scale s) (remote_has_sack s) (remote_mss s)
    (remote_last_ts s) (local_rx_last_seq s) (local_rx_last_ack s) (local_rx_dup_acks s) (ack_delay
    s) (sk_ack_delay_timer s) (challenge_ack_timer s) v (congestion_controller s) (tsval_generator
    s) (last_remote_tsval s).
Definition with_congestion_controller (v : congestion_control) (s : socket) : socket :=
  MkSocket (state s) (sk_timer s) (rtte s) (sk_assembler s) (rx_buffer s) (rx_fin_received s)
    (tx_buffer s) (timeout s) (keep_alive s) (hop_limit s) (listen_endpoint s) (sk_tuple s)
    (local_seq_no s) (remote_seq_no s) (remote_last_seq s) (remote_last_ack s) (remote_last_win s)
    (remote_win_shift s) (remote_win_len s) (remote_win_scale s) (remote_has_sack s) (remote_mss s)
    (remote_last_ts s) (local_rx_last_seq s) (local_rx_last_ack s) (local_rx_dup_acks s) (ack_delay
    s) (sk_ack_delay_timer s) (challenge_ack_timer s) (nagle s) v (tsval_generator s)
    (last_remote_tsval s).
Definition with_tsval_generator (v : option timestamp_generator) (s : socket) : socket :=
  MkSocket (state s) (sk_timer s) (rtte s) (sk_assembler s) (rx_buffer s) (rx_fin_received s)
    (tx_buffer s) (timeout s) (keep_alive s) (hop_limit s) (listen_endpoint s) (sk_tuple s)
    (local_seq_no s) (remote_seq_no s) (remote_last_seq s) (remote_last_ack s) (remote_last_win s)
    (remote_win_shift s) (remote_win_len s) (remote_win_scale s) (remote_has_sack s) (remote_mss s)
    (remote_last_ts s) (local_rx_last_seq s) (local_rx_last_ack s) (local_rx_dup_acks s) (ack_delay
    s) (sk_ack_delay_timer s) (challenge_ack_timer s) (nagle s) (congestion_controller s) v
    (last_remote_tsval s).
Definition with_last_remote_tsval (v : Z) (s : socket) : socket :=
  MkSocket (state s) (sk_timer s) (rtte s) (sk_assembler s) (rx_buffer s) (rx_fin_received s)
    (tx_buffer s) (timeout s) (keep_alive s) (hop_limit s) (listen_endpoint s) (sk_tuple s)
    (local_seq_no s) (remote_seq_no s) (remote_last_seq s) (remote_last_ack s) (remote_last_win s)
    (remote_win_shift s) (remote_win_len s) (remote_win_scale s) (remote_has_sack s) (remote_mss s)
    (remote_last_ts s) (local_rx_last_seq s) (local_rx_last_ack s) (local_rx_dup_acks s) (ack_delay
    s) (sk_ack_delay_timer s) (challenge_ack_timer s) (nagle s) (congestion_controller s)
    (tsval_generator s) v.
