(* ===== verification/TcpSocket.v ===== *)
(** The TCP socket seen by its user (vendor/smoltcp/src/socket/tcp.rs):
    creation, options, [listen], [connect], [close], [abort], [send*], [recv*],
    and the replies every received segment can be answered with. *)

From Stdlib Require Import ZArith Lia.
From stdpp Require Import base list numbers.
From S2P Require Import Prelude Assembler RingBuffer Time TcpWire TcpTimer Iface TcpState.

(** ** Creation and options *)

(** [usize::BITS - leading_zeros]: the number of significant bits. *)
Definition bit_length (n : Z) : Z := if n =? 0 then 0 else Z.log2 n + 1.

Definition unspecified_listen : ip_listen_endpoint := {| lep_addr := None; lep_port := 0 |}.

(* [socket/tcp.rs 568-628 Socket::new] *)
Definition new_socket (rx tx : ring_buffer Z) : outcome socket :=
  let rx_capacity := capacity rx in
  if Z.shiftl 1 30 <? rx_capacity then Panic
  else
    let rx_cap_log2 := bit_length rx_capacity in
    Ret {|
      state := Closed;
      sk_timer := timer_new;
      rtte := rtte_default;
      sk_assembler := assembler_new;
      rx_buffer := rx;
      rx_fin_received := false;
      tx_buffer := tx;
      timeout := None;
      keep_alive := None;
      hop_limit := None;
      listen_endpoint := unspecified_listen;
      sk_tuple := None;
      local_seq_no := 0;
      remote_seq_no := 0;
      remote_last_seq := 0;
      remote_last_ack := None;
      remote_last_win := 0;
      remote_win_shift := u8 (saturating_sub rx_cap_log2 16);
      remote_win_len := 0;
      remote_win_scale := None;
      remote_has_sack := false;
      remote_mss := DEFAULT_MSS;
      remote_last_ts := None;
      local_rx_last_seq := None;
      local_rx_last_ack := None;
      local_rx_dup_acks := 0;
      ack_delay := Some ACK_DELAY_DEFAULT;
      sk_ack_delay_timer := AIdle;
      challenge_ack_timer := instant_from_secs 0;
      nagle := true;
      congestion_controller := CongestionNone;
      tsval_generator := None;
      last_remote_tsval := 0;
    |}.

(* [socket/tcp.rs 631-633 Socket::set_tsval_generator] *)
Definition set_tsval_generator (g : option timestamp_generator) (s : socket) : socket :=
  with_tsval_generator g s.
(* [socket/tcp.rs 636-638 Socket::timestamp_enabled] *)
Definition timestamp_enabled (s : socket) : bool :=
  match tsval_generator s with Some _ => true | None => false end.
(* [socket/tcp.rs 793-795 Socket::set_timeout] *)
Definition set_timeout (d : option duration) (s : socket) : socket := with_timeout d s.
(* [socket/tcp.rs 800-802 Socket::set_ack_delay] *)
Definition set_ack_delay (d : option duration) (s : socket) : socket := with_ack_delay d s.
(* [socket/tcp.rs 816-818 Socket::set_nagle_enabled] *)
Definition set_nagle_enabled (b : bool) (s : socket) : socket := with_nagle b s.
(* [socket/tcp.rs 839-846 Socket::set_keep_alive] *)
Definition set_keep_alive (interval : option duration) (s : socket) : socket :=
  let s := with_keep_alive interval s in
  match interval with
  | Some _ => with_sk_timer (timer_set_keep_alive (sk_timer s)) s
  | None => s
  end.
(* [socket/tcp.rs 866-873 Socket::set_hop_limit] *)
Definition set_hop_limit (h : option Z) (s : socket) : outcome socket :=
  match h with
  | Some 0 => Panic
  | _ => Ret (with_hop_limit h s)
  end.

(* [socket/tcp.rs 883-885 Socket::local_endpoint] *)
Definition local_endpoint (s : socket) : option ip_endpoint :=
  match sk_tuple s with Some t => Some (tup_local t) | None => None end.
(* [socket/tcp.rs 889-891 Socket::remote_endpoint] *)
Definition remote_endpoint (s : socket) : option ip_endpoint :=
  match sk_tuple s with Some t => Some (tup_remote t) | None => None end.

(** ** Windows *)

(** [u16::try_from(n).unwrap_or(u16::MAX)] *)
Definition u16_saturate (n : Z) : Z := if n <=? u16_max then n else u16_max.

(** Shifting a [usize]: the count is taken modulo the width. *)
Definition usize_shl (n k : Z) : Z := usize (Z.shiftl n (k mod 64)).
Definition usize_shr (n k : Z) : Z := Z.shiftr n (k mod 64).

(* [socket/tcp.rs 759-761 Socket::scaled_window] *)
Definition scaled_window (s : socket) : Z :=
  u16_saturate (usize_shr (window (rx_buffer s)) (remote_win_shift s)).

(* [socket/tcp.rs 772-780 Socket::last_scaled_window] *)
Definition last_scaled_window (s : socket) : outcome (option Z) :=
  match remote_last_ack s with
  | None => Ret None
  | Some last_ack =>
      let! next_ack := seq_add (remote_seq_no s) (rb_length (rx_buffer s)) in
      let last_win := usize_shl (remote_last_win s) (remote_win_shift s) in
      let! edge := seq_add last_ack last_win in
      let! last_win_adjusted := seq_diff edge next_ack in
      Ret (Some (u16_saturate (usize_shr last_win_adjusted (remote_win_shift s))))
  end.

(** ** State *)

(* [socket/tcp.rs 1400-1415 Socket::set_state] *)
Definition set_state (st : tcp_state) (s : socket) : socket := with_state st s.

(* [socket/tcp.rs 899-930 Socket::reset] *)
Definition reset (s : socket) : socket :=
  let rx_cap_log2 := bit_length (capacity (rx_buffer s)) in
  {|
    state := Closed;
    sk_timer := timer_new;
    rtte := rtte_default;
    sk_assembler := assembler_new;
    rx_buffer := rb_clear (rx_buffer s);
    rx_fin_received := false;
    tx_buffer := rb_clear (tx_buffer s);
    timeout := timeout s;
    keep_alive := keep_alive s;
    hop_limit := hop_limit s;
    listen_endpoint := unspecified_listen;
    sk_tuple := None;
    local_seq_no := 0;
    remote_seq_no := 0;
    remote_last_seq := 0;
    remote_last_ack := None;
    remote_last_win := 0;
    remote_win_shift := u8 (saturating_sub rx_cap_log2 16);
    remote_win_len := 0;
    remote_win_scale := None;
    remote_has_sack := remote_has_sack s;
    remote_mss := DEFAULT_MSS;
    remote_last_ts := None;
    local_rx_last_seq := local_rx_last_seq s;
    local_rx_last_ack := local_rx_last_ack s;
    local_rx_dup_acks := local_rx_dup_acks s;
    ack_delay := ack_delay s;
    sk_ack_delay_timer := AIdle;
    challenge_ack_timer := instant_from_secs 0;
    nagle := nagle s;
    congestion_controller := congestion_controller s;
    tsval_generator := tsval_generator s;
    last_remote_tsval := last_remote_tsval s;
  |}.

(* [socket/tcp.rs 1117-1122 Socket::is_listening] *)
Definition is_listening (s : socket) : bool := match state s with Listen => true | _ => false end.

(* [socket/tcp.rs 1133-1139 Socket::is_open] *)
Definition is_open (s : socket) : bool :=
  match state s with Closed => false | TimeWait => false | _ => true end.

(* [socket/tcp.rs 1154-1161 Socket::is_active] *)
Definition is_active (s : socket) : bool :=
  match state s with Closed => false | TimeWait => false | Listen => false | _ => true end.

(* [socket/tcp.rs 1173-1181 Socket::may_send] *)
Definition may_send (s : socket) : bool :=
  match state s with Established => true | CloseWait => true | _ => false end.

(* [socket/tcp.rs 1229-1231 Socket::can_recv] *)
Definition can_recv (s : socket) : bool := negb (rb_is_empty (rx_buffer s)).

(* [socket/tcp.rs 1192-1202 Socket::may_recv] *)
Definition may_recv (s : socket) : bool :=
  match state s with
  | Established => true
  | FinWait1 | FinWait2 => true
  | _ => if can_recv s then true else false
  end.

(* [socket/tcp.rs 1207-1213 Socket::can_send] *)
Definition can_send (s : socket) : bool :=
  if negb (may_send s) then false else negb (is_full (tx_buffer s)).

(** ** Opening and closing *)

Variant listen_error : Type := ListenInvalidState | ListenUnaddressable.
Variant connect_error : Type := ConnectInvalidState | ConnectUnaddressable.

(* [socket/tcp.rs 937-967 Socket::listen] *)
Definition listen (local_endpoint : ip_listen_endpoint) (s : socket)
  : result unit listen_error * socket :=
  if lep_port local_endpoint =? 0 then (Err ListenUnaddressable, s)
  else if is_open s then
    if is_listening s && bool_decide (listen_endpoint s = local_endpoint) then (Ok (), s)
    else (Err ListenInvalidState, s)
  else
    let s := reset s in
    let s := with_listen_endpoint local_endpoint s in
    let s := with_sk_tuple None s in
    (Ok (), set_state Listen s).

(* [socket/tcp.rs 1070-1072 Socket::random_seq_no] *)
Definition random_seq_no (cx : context) : seq_number * context :=
  let '(n, r) := rand_u32 (cx_rand cx) in (i32 n, with_rand r cx).

(** [IpAddress::version] is the same for every address: only IPv4 is compiled in. *)
(* [socket/tcp.rs 1008-1062 Socket::connect] *)
Definition connect (cx : context) (remote : ip_endpoint) (local : ip_listen_endpoint) (s : socket)
  : result unit connect_error * socket * context :=
  if is_open s then (Err ConnectInvalidState, s, cx)
  else if (ep_port remote =? 0) || is_unspecified (ep_addr remote) then
    (Err ConnectUnaddressable, s, cx)
  else if lep_port local =? 0 then (Err ConnectUnaddressable, s, cx)
  else
    let addr :=
      match lep_addr local with
      | Some addr => if is_unspecified addr then None else Some addr
      | None => get_source_address cx (ep_addr remote)
      end in
    match addr with
    | None => (Err ConnectUnaddressable, s, cx)
    | Some addr =>
        let local := {| ep_addr := addr; ep_port := lep_port local |} in
        let s := reset s in
        let s := with_sk_tuple (Some {| tup_local := local; tup_remote := remote |}) s in
        let s := set_state SynSent s in
        let '(seq, cx) := random_seq_no cx in
        let s := with_local_seq_no seq s in
        let s := with_remote_last_seq seq s in
        (Ok (), s, cx)
    end.

(* [socket/tcp.rs 1079-1100 Socket::close] *)
Definition close (s : socket) : socket :=
  match state s with
  | Listen => set_state Closed s
  | SynSent => set_state Closed s
  | SynReceived | Established => set_state FinWait1 s
  | CloseWait => set_state LastAck s
  | FinWait1 | FinWait2 | Closing | TimeWait | LastAck | Closed => s
  end.

(* [socket/tcp.rs 1109-1111 Socket::abort] *)
Definition abort (s : socket) : socket := set_state Closed s.

(** ** Sending *)

Variant send_error : Type := SendInvalidState.
Variant recv_error : Type := RecvInvalidState | RecvFinished.

(* [socket/tcp.rs 1233-1270 Socket::send_impl] *)
Definition send_impl {R} (f : ring_buffer Z -> outcome (Z * R * ring_buffer Z)) (s : socket)
  : outcome (result R send_error * socket) :=
  if negb (may_send s) then Ret (Err SendInvalidState, s)
  else
    let old_length := rb_length (tx_buffer s) in
    let! (size, res, tx) := f (tx_buffer s) in
    let s := with_tx_buffer tx s in
    let s :=
      if 0 <? size then
        let s := if old_length =? 0 then with_remote_last_ts None s else s in
        if (remote_win_len s =? 0) && timer_is_idle (sk_timer s) then
          let delay := retransmission_timeout (rtte s) in
          with_sk_timer (set_for_zero_window_probe INSTANT_ZERO delay) s
        else s
      else s in
    Ret (Ok res, s).

(* [socket/tcp.rs 1277-1282 Socket::send] *)
Definition send {R} (f : list Z -> list Z * Z * R) (s : socket)
  : outcome (result R send_error * socket) := send_impl (enqueue_many_with f) s.

(* [socket/tcp.rs 1290-1295 Socket::send_slice] *)
Definition send_slice (data : list Z) (s : socket) : outcome (result Z send_error * socket) :=
  send_impl (fun tx => let! (size, tx) := enqueue_slice data tx in Ret (size, size, tx)) s.

(** ** Receiving *)

(* [socket/tcp.rs 1297-1309 Socket::recv_error_check] *)
Definition recv_error_check (s : socket) : result unit recv_error :=
  if negb (may_recv s) then
    if rx_fin_received s then Err RecvFinished else Err RecvInvalidState
  else Ok ().

(* [socket/tcp.rs 1311-1329 Socket::recv_impl] *)
Definition recv_impl {R} (f : ring_buffer Z -> outcome (Z * R * ring_buffer Z)) (s : socket)
  : outcome (result R recv_error * socket) :=
  match recv_error_check s with
  | Err e => Ret (Err e, s)
  | Ok _ =>
      let! (size, res, rx) := f (rx_buffer s) in
      let s := with_rx_buffer rx s in
      let! seq := seq_add (remote_seq_no s) size in
      Ret (Ok res, with_remote_seq_no seq s)
  end.

(* [socket/tcp.rs 1341-1346 Socket::recv] *)
Definition recv {R} (f : list Z -> list Z * Z * R) (s : socket)
  : outcome (result R recv_error * socket) := recv_impl (dequeue_many_with f) s.

(** Answers the count and the bytes put at the front of the caller's slice of
    length [room]. *)
(* [socket/tcp.rs 1354-1359 Socket::recv_slice] *)
Definition recv_slice (room : Z) (s : socket)
  : outcome (result (Z * list Z) recv_error * socket) :=
  recv_impl (fun rx => let! (size, data, rx) := dequeue_slice room rx in Ret (size, (size, data), rx)) s.

(* [socket/tcp.rs 1365-1374 Socket::peek] *)
Definition peek (size : Z) (s : socket) : outcome (result (list Z) recv_error) :=
  match recv_error_check s with
  | Err e => Ret (Err e)
  | Ok _ => let! buffer := get_allocated 0 size (rx_buffer s) in Ret (Ok buffer)
  end.

(* [socket/tcp.rs 1380-1382 Socket::peek_slice] *)
Definition peek_slice (room : Z) (s : socket) : outcome (Z * list Z) :=
  read_allocated 0 room (rx_buffer s).

(* [socket/tcp.rs 1387-1389 Socket::send_queue] *)
Definition send_queue (s : socket) : Z := rb_length (tx_buffer s).
(* [socket/tcp.rs 1396-1398 Socket::recv_queue] *)
Definition recv_queue (s : socket) : Z := rb_length (rx_buffer s).
