(* ===== verification/TcpProcess.v ===== *)
(** How the TCP socket handles a received segment
    (vendor/smoltcp/src/socket/tcp.rs, [accepts] and [process]), in the stages
    of the source: acceptability of the acknowledgement, the receive window,
    the state machine, the sender's state, the payload. *)

From Stdlib Require Import ZArith Lia ZifyBool.
From stdpp Require Import base list numbers.
From S2P Require Import Prelude Assembler RingBuffer Time TcpWire TcpTimer Iface TcpState TcpSocket.

(** A segment to transmit, with its IP header. *)
Definition packet : Type := ip_repr * tcp_repr.

Definition set_payload_len (n : Z) (ip : ip_repr) : ip_repr :=
  {| ip_src := ip_src ip; ip_dst := ip_dst ip; ip_payload_len := n; ip_hop_limit := ip_hop_limit ip |}.

(** ** Replies *)

Definition no_sack : option (Z * Z) * option (Z * Z) * option (Z * Z) := (None, None, None).

(* [socket/tcp.rs 1417-1440 Socket::reply] *)
Definition reply (ip : ip_repr) (repr : tcp_repr) : packet :=
  let reply_repr :=
    {| src_port := dst_port repr; dst_port := src_port repr; ctl := CNone; seq_num := 0;
       ack_num := None; window_len := 0; window_scale := None; max_seg_size := None;
       sack_permitted := false; sack_ranges := no_sack; timestamp := None; payload := [] |} in
  ({| ip_src := ip_dst ip; ip_dst := ip_src ip;
      ip_payload_len := buffer_len reply_repr; ip_hop_limit := 64 |}, reply_repr).

(* [socket/tcp.rs 1442-1456 Socket::rst_reply] *)
Definition rst_reply (ip : ip_repr) (repr : tcp_repr) : outcome packet :=
  let '(ip_reply, r) := reply ip repr in
  let! ack :=
    (match ctl repr, ack_num repr with
     | CSyn, None => let! a := seq_add (seq_num repr) (segment_len repr) in Ret (Some a)
     | _, _ => Ret (ack_num r)
     end) in
  Ret (ip_reply,
       {| src_port := src_port r; dst_port := dst_port r; ctl := CRst;
          seq_num := match ack_num repr with Some a => a | None => 0 end;
          ack_num := ack; window_len := window_len r; window_scale := window_scale r;
          max_seg_size := max_seg_size r; sack_permitted := sack_permitted r;
          sack_ranges := sack_ranges r; timestamp := timestamp r; payload := payload r |}).

(** The ranges of the assembler as sequence numbers, lazily: [find] stops at
    the first range that contains [last]. *)
(* [socket/tcp.rs 1491-1498 Socket::ack_reply] the search. *)
Fixpoint sack_containing (ack last : seq_number) (l : list (Z * Z)) : outcome (option (Z * Z)) :=
  match l with
  | [] => Ret None
  | (l_edge, r_edge) :: l =>
      let! l_edge := seq_add ack l_edge in
      let! r_edge := seq_add ack r_edge in
      if seq_le l_edge last && seq_ge r_edge last then Ret (Some (u32 l_edge, u32 r_edge))
      else sack_containing ack last l
  end.

(* [socket/tcp.rs 1508-1513 Socket::ack_reply] the lowest range. *)
Definition sack_first (ack : seq_number) (l : list (Z * Z)) : outcome (option (Z * Z)) :=
  match l with
  | [] => Ret None
  | (l_edge, r_edge) :: _ =>
      let! l_edge := seq_add ack l_edge in
      let! r_edge := seq_add ack r_edge in
      Ret (Some (u32 l_edge, u32 r_edge))
  end.

(* [socket/tcp.rs 1458-1520 Socket::ack_reply] *)
Definition ack_reply (ip : ip_repr) (repr : tcp_repr) (s : socket) : outcome (packet * socket) :=
  let '(ip_reply, r) := reply ip repr in
  let ts := match timestamp repr with
            | Some ts => generate_reply ts (tsval_generator s)
            | None => None
            end in
  let! ack := seq_add (remote_seq_no s) (rb_length (rx_buffer s)) in
  let s := with_remote_last_ack (Some ack) s in
  let win := scaled_window s in
  let s := with_remote_last_win win s in
  let! sack0 :=
    (if remote_has_sack s then
       let! found :=
         (match local_rx_last_seq s with
          | Some last => sack_containing ack last (iter_data 0 (sk_assembler s))
          | None => Ret None
          end) in
       match found with
       | None => sack_first ack (iter_data 0 (sk_assembler s))
       | Some r => Ret (Some r)
       end
     else Ret None) in
  let r :=
    {| src_port := src_port r; dst_port := dst_port r; ctl := ctl r; seq_num := remote_last_seq s;
       ack_num := Some ack; window_len := win; window_scale := window_scale r;
       max_seg_size := max_seg_size r; sack_permitted := sack_permitted r;
       sack_ranges := (sack0, None, None); timestamp := ts; payload := payload r |} in
  Ret (set_payload_len (buffer_len r) ip_reply, r, s).

(* [socket/tcp.rs 1522-1536 Socket::challenge_ack_reply] *)
Definition challenge_ack_reply (cx : context) (ip : ip_repr) (repr : tcp_repr) (s : socket)
  : outcome (option packet * socket) :=
  if cx_now cx <? challenge_ack_timer s then Ret (None, s)
  else
    let s := with_challenge_ack_timer (instant_add (cx_now cx) (from_secs 1)) s in
    let! (p, s) := ack_reply ip repr s in
    Ret (Some p, s).

(* [socket/tcp.rs 1538-1566 Socket::accepts] *)
Definition accepts (s : socket) (ip : ip_repr) (repr : tcp_repr) : bool :=
  if state_eqb (state s) Closed then false
  else if state_eqb (state s) Listen &&
          (match ack_num repr with Some _ => true | None => false end || bool_decide (ctl repr = CRst))
  then false
  else
    match sk_tuple s with
    | Some t =>
        bool_decide (ip_dst ip = ep_addr (tup_local t)) && (dst_port repr =? ep_port (tup_local t)) &&
        bool_decide (ip_src ip = ep_addr (tup_remote t)) && (src_port repr =? ep_port (tup_remote t))
    | None =>
        let addr_ok := match lep_addr (listen_endpoint s) with
                       | Some addr => bool_decide (ip_dst ip = addr)
                       | None => true
                       end in
        addr_ok && negb (dst_port repr =? 0) && (dst_port repr =? lep_port (listen_endpoint s))
    end.

(** ** Early returns

    A stage of [process] either goes on, or returns the reply; both panic like
    any expression. *)
Inductive flow (A : Type) : Type :=
| Continue (a : A)
| Return (r : option packet) (s : socket).
Arguments Continue {A} a.
Arguments Return {A} r s.

Definition fbind {A B} (m : outcome (flow A)) (k : A -> outcome (flow B)) : outcome (flow B) :=
  match m with
  | Ret (Continue a) => k a
  | Ret (Return r s) => Ret (Return r s)
  | Panic => Panic
  end.

Notation "'let?' x := m 'in' k" := (fbind m (fun x => k))
  (at level 10, x pattern, m at level 200, k at level 200,
   format "'[v' 'let?'  x  :=  m  'in' '/' k ']'") : rust_scope.

Definition return_ {A} (m : outcome (option packet * socket)) : outcome (flow A) :=
  let! (r, s) := m in Ret (Return r s).

(** ** Stage 1: acknowledgements *)

(* [socket/tcp.rs 1577-1585 Socket::process] *)
Definition sent_flags (st : tcp_state) : bool * bool :=
  match st with
  | SynSent | SynReceived => (true, false)
  | FinWait1 | LastAck | Closing => (false, true)
  | _ => (false, false)
  end.

Definition to_usize (b : bool) : Z := if b then 1 else 0.

(** The last case of the match: an acknowledgement in a synchronized state. *)
(* [socket/tcp.rs 1655-1686 Socket::process] *)
Definition check_ack_range (cx : context) (ip : ip_repr) (repr : tcp_repr) (ack_number : seq_number)
    (s : socket) : outcome (flow unit) :=
  let '(sent_syn, sent_fin) := sent_flags (state s) in
  let control_len := usize (to_usize sent_syn + to_usize sent_fin) in
  let unacknowledged := usize (rb_length (tx_buffer s) + control_len) in
  let ack_min := local_seq_no s in
  let! ack_max := seq_add (local_seq_no s) unacknowledged in
  let! ack_min := (if sent_syn then seq_add ack_min 1 else Ret ack_min) in
  if seq_lt ack_number ack_min then Ret (Return None s)
  else if seq_gt ack_number ack_max then return_ (challenge_ack_reply cx ip repr s)
  else Ret (Continue ()).

(** Whether [ack_number == self.local_seq_no + 1]. *)
Definition acks_syn (s : socket) (ack_number : seq_number) : outcome bool :=
  let! n := seq_add (local_seq_no s) 1 in Ret (ack_number =? n).

Definition return_rst {A} (ip : ip_repr) (repr : tcp_repr) (s : socket) : outcome (flow A) :=
  let! p := rst_reply ip repr in Ret (Return (Some p) s).

(* [socket/tcp.rs 1589-1687 Socket::process] *)
Definition check_ack (cx : context) (ip : ip_repr) (repr : tcp_repr) (s : socket) : outcome (flow unit) :=
  match state s, ctl repr, ack_num repr with
  | SynSent, CRst, None => Ret (Return None s)
  | SynSent, CRst, Some ack_number =>
      let! ok := acks_syn s ack_number in
      if ok then Ret (Continue ()) else Ret (Return None s)
  | _, CRst, _ => Ret (Continue ())
  | Listen, _, None => Ret (Continue ())
  | Listen, _, Some _ => Panic
  | SynSent, CSyn, Some ack_number =>
      let! ok := acks_syn s ack_number in
      if ok then Ret (Continue ()) else return_rst ip repr s
  | SynSent, CSyn, None => Ret (Continue ())
  | SynSent, CNone, Some ack_number =>
      let! ok := acks_syn s ack_number in
      if ok then Ret (Return None s) else return_rst ip repr s
  | SynSent, _, _ => Ret (Return None s)
  | _, _, None => Ret (Return None s)
  | SynReceived, _, Some ack_number =>
      let! ok := acks_syn s ack_number in
      if ok then Ret (Continue ()) else return_rst ip repr s
  | _, _, Some ack_number => check_ack_range cx ip repr ack_number s
  end.

(** ** Stage 2: the receive window *)

(* [socket/tcp.rs 1689-1694 Socket::process] *)
Definition receive_window (s : socket) : outcome (seq_number * seq_number) :=
  let! window_start := seq_add (remote_seq_no s) (rb_length (rx_buffer s)) in
  let! window_end :=
    (match remote_last_ack s with
     | Some last_ack => seq_add last_ack (usize_shl (remote_last_win s) (remote_win_shift s))
     | None => Ret window_start
     end) in
  Ret (window_start, window_end).

(* [socket/tcp.rs 1703-1753 Socket::process] *)
Definition segment_in_window (window_start window_end segment_start segment_end : seq_number)
  : outcome bool :=
  let! before := seq_sub window_start 1 in
  Ret (match segment_start =? segment_end, window_start =? window_end with
       | true, w =>
           if segment_end =? before then false
           else if w then window_start =? segment_start
           else seq_le window_start segment_start && seq_lt segment_start window_end
       | false, true => false
       | false, false =>
           (seq_le window_start segment_start && seq_lt segment_start window_end) ||
           (seq_lt window_start segment_end && seq_le segment_end window_end)
       end).

(** Answers the part of the payload inside the window and its offset, the
    start of the window, and the socket. *)
(* [socket/tcp.rs 1695-1778 Socket::process] *)
Definition trim_payload (cx : context) (ip : ip_repr) (repr : tcp_repr) (s : socket)
  : outcome (flow (list Z * Z * seq_number * socket)) :=
  let! (window_start, window_end) := receive_window s in
  let segment_start := seq_num repr in
  let! segment_end := seq_add (seq_num repr) (len (payload repr)) in
  match state s with
  | Listen | SynSent => Ret (Continue ([], 0, window_start, s))
  | _ =>
      let! in_window := segment_in_window window_start window_end segment_start segment_end in
      if in_window then
        let overlap_start := seq_max window_start segment_start in
        let overlap_end := seq_min window_end segment_end in
        let s := with_local_rx_last_seq (Some (seq_num repr)) s in
        let! from := seq_diff overlap_start segment_start in
        let! to := seq_diff overlap_end segment_start in
        let! data := slice (payload repr) from to in
        let! offset := seq_diff overlap_start window_start in
        Ret (Continue (data, offset, window_start, s))
      else
        let s := if state_eqb (state s) TimeWait
                 then with_sk_timer (set_for_close (cx_now cx)) s else s in
        return_ (challenge_ack_reply cx ip repr s)
  end.

(** ** Stage 3: what the acknowledgement covers *)

Record ack_info : Type := { ack_len : Z; ack_of_fin : bool; ack_all : bool }.

(* [socket/tcp.rs 1782-1811 Socket::process] *)
Definition measure_ack (cx : context) (repr : tcp_repr) (s : socket) : outcome (ack_info * socket) :=
  let '(sent_syn, sent_fin) := sent_flags (state s) in
  let none := {| ack_len := 0; ack_of_fin := false; ack_all := false |} in
  match bool_decide (ctl repr = CRst), ack_num repr with
  | false, Some ack_number =>
      let! tx_buffer_start_seq := seq_add (local_seq_no s) (to_usize sent_syn) in
      let! info :=
        (if seq_ge ack_number tx_buffer_start_seq then
           let! n := seq_diff ack_number tx_buffer_start_seq in
           let fin := sent_fin && (usize (rb_length (tx_buffer s) + 1) =? n) in
           Ret {| ack_len := if fin then usize (n - 1) else n; ack_of_fin := fin;
                  ack_all := seq_le (remote_last_seq s) ack_number |}
         else Ret none) in
      Ret (info, with_rtte (on_ack (rtte s) (cx_now cx) ack_number) s)
  | _, _ => Ret (none, s)
  end.

(** PSH is disregarded; so is a FIN behind a hole. *)
(* [socket/tcp.rs 1814-1826 Socket::process] *)
Definition effective_control (repr : tcp_repr) (window_start : seq_number) : control :=
  let control := quash_psh (ctl repr) in
  if bool_decide (control = CFin) && seq_lt window_start (seq_num repr) then CNone else control.

(** ** Stage 4: the state machine *)

(** The options of a SYN that set the remote's limits. *)
(* [socket/tcp.rs 1873-1882 Socket::process] *)
Definition note_syn_options (repr : tcp_repr) (s : socket) : socket :=
  let s := with_remote_has_sack (sack_permitted repr) s in
  let s := with_remote_win_scale (window_scale repr) s in
  let s := match remote_win_scale s with None => with_remote_win_shift 0 s | Some _ => s end in
  match timestamp repr with None => with_tsval_generator None s | Some _ => s end.

(** [None] when the SYN's MSS option is zero: the segment is ignored. *)
(* [socket/tcp.rs 1855-1864 Socket::process] *)
Definition note_mss (repr : tcp_repr) (s : socket) : option socket :=
  match max_seg_size repr with
  | Some m => if m =? 0 then None else Some (with_remote_mss m s)
  | None => Some s
  end.

(* [socket/tcp.rs 1853-1885 Socket::process] *)
Definition listen_syn (cx : context) (ip : ip_repr) (repr : tcp_repr) (s : socket)
  : outcome (flow (socket * context)) :=
  match note_mss repr s with
  | None => Ret (Return None s)
  | Some s =>
      let s := with_sk_tuple (Some
        {| tup_local := {| ep_addr := ip_dst ip; ep_port := dst_port repr |};
           tup_remote := {| ep_addr := ip_src ip; ep_port := src_port repr |} |}) s in
      let '(seq, cx) := random_seq_no cx in
      let s := with_local_seq_no seq s in
      let! rseq := seq_add (seq_num repr) 1 in
      let s := with_remote_seq_no rseq s in
      let s := with_remote_last_seq (local_seq_no s) s in
      let s := note_syn_options repr s in
      let s := set_state SynReceived s in
      Ret (Continue (with_sk_timer (set_for_idle (cx_now cx) (keep_alive s)) s, cx))
  end.

(* [socket/tcp.rs 1903-1939 Socket::process] *)
Definition syn_sent_syn (repr : tcp_repr) (s : socket) : outcome (flow socket) :=
  match note_mss repr s with
  | None => Ret (Return None s)
  | Some s =>
      let! rseq := seq_add (seq_num repr) 1 in
      let s := with_remote_seq_no rseq s in
      let! lseq := seq_add (local_seq_no s) 1 in
      let s := with_remote_last_seq lseq s in
      let s := with_remote_last_ack (Some (seq_num repr)) s in
      let s := note_syn_options repr s in
      Ret (Continue (set_state (match ack_num repr with Some _ => Established | None => SynReceived end) s))
  end.

(** [self.remote_seq_no += 1; self.rx_fin_received = true] *)
(* [socket/tcp.rs 1896-1897 Socket::process] *)
Definition receive_fin (s : socket) : outcome socket :=
  let! rseq := seq_add (remote_seq_no s) 1 in
  Ret (with_rx_fin_received true (with_remote_seq_no rseq s)).

Definition enter_time_wait (cx : context) (s : socket) : socket :=
  with_sk_timer (set_for_close (cx_now cx)) (set_state TimeWait s).

(* [socket/tcp.rs 1829-2009 Socket::process] *)
Definition update_state (cx : context) (ip : ip_repr) (repr : tcp_repr) (info : ack_info)
    (control : control) (s : socket) : outcome (flow (socket * context)) :=
  let go (s : socket) : outcome (flow (socket * context)) := Ret (Continue (s, cx)) in
  match state s, control with
  | Listen, CRst => Ret (Return None s)
  | st, CRst =>
      if state_eqb st SynReceived && negb (lep_port (listen_endpoint s) =? 0) then
        Ret (Return None (set_state Listen (with_sk_tuple None s)))
      else Ret (Return None (with_sk_tuple None (set_state Closed s)))
  | Listen, CSyn => listen_syn cx ip repr s
  | SynReceived, CNone => go (set_state Established s)
  | SynReceived, CFin => let! s := receive_fin s in go (set_state CloseWait s)
  | SynSent, CSyn => let? s := syn_sent_syn repr s in go s
  | Established, CNone => go s
  | Established, CFin => let! s := receive_fin s in go (set_state CloseWait s)
  | FinWait1, CNone => go (if ack_of_fin info then set_state FinWait2 s else s)
  | FinWait1, CFin =>
      let! s := receive_fin s in
      go (if ack_of_fin info then enter_time_wait cx s else set_state Closing s)
  | FinWait2, CNone => go s
  | FinWait2, CFin => let! s := receive_fin s in go (enter_time_wait cx s)
  | Closing, CNone => go (if ack_of_fin info then enter_time_wait cx s else s)
  | CloseWait, CNone => go s
  | LastAck, CNone =>
      if ack_of_fin info then go (with_sk_tuple None (set_state Closed s))
      else if ack_len info =? 0 then return_ (challenge_ack_reply cx ip repr s)
      else go s
  | _, _ => Ret (Return None s)
  end.

(** ** Stage 5: the remote's window, acknowledged data, timers *)

(** Answers whether the segment changed the window. *)
(* [socket/tcp.rs 2012-2022 Socket::process] *)
Definition update_window (cx : context) (repr : tcp_repr) (s : socket) : bool * socket :=
  let s := with_remote_last_ts (Some (cx_now cx)) s in
  let scale := match ctl repr with
               | CSyn => 0
               | _ => match remote_win_scale s with Some k => k | None => 0 end
               end in
  let new_remote_win_len := usize_shl (window_len repr) scale in
  let is_window_update := negb (new_remote_win_len =? remote_win_len s) in
  (is_window_update, with_remote_win_len new_remote_win_len s).

(* [socket/tcp.rs 2028-2041 Socket::process] *)
Definition dequeue_acked (n : Z) (s : socket) : outcome socket :=
  if 0 <? n then
    let! tx := dequeue_allocated n (tx_buffer s) in Ret (with_tx_buffer tx s)
  else Ret s.

(** A repeated acknowledgement counts; the third starts a fast retransmission. *)
(* [socket/tcp.rs 2051-2093 Socket::process] *)
Definition count_duplicate (repr : tcp_repr) (ack_number : seq_number) (is_window_update : bool)
    (s : socket) : socket :=
  let duplicate :=
    match local_rx_last_ack s with
    | Some last_rx_ack =>
        (len (payload repr) =? 0) && (last_rx_ack =? ack_number) &&
        seq_lt ack_number (remote_last_seq s) && negb is_window_update
    | None => false
    end in
  if duplicate then
    let s := with_local_rx_dup_acks (Z.min 255 (local_rx_dup_acks s + 1)) s in
    if local_rx_dup_acks s =? 3 then with_sk_timer set_for_fast_retransmit s else s
  else
    let s := if 0 <? local_rx_dup_acks s then with_local_rx_dup_acks 0 s else s in
    with_local_rx_last_ack (Some ack_number) s.

(* [socket/tcp.rs 2043-2105 Socket::process] *)
Definition note_ack (repr : tcp_repr) (is_window_update : bool) (s : socket) : socket :=
  match ack_num repr with
  | None => s
  | Some ack_number =>
      let s := count_duplicate repr ack_number is_window_update s in
      let s := with_local_seq_no ack_number s in
      if seq_lt (remote_last_seq s) (local_seq_no s)
      then with_remote_last_seq (local_seq_no s) s else s
  end.

(* [socket/tcp.rs 2113-2129 Socket::process] *)
Definition update_timer (cx : context) (info : ack_info) (s : socket) : socket :=
  match sk_timer s with
  | TRetransmit _ | TFastRetransmit =>
      if ack_all info then with_sk_timer (set_for_idle (cx_now cx) (keep_alive s)) s
      else if 0 <? ack_len info then
        with_sk_timer (set_for_retransmit (sk_timer s) (cx_now cx) (retransmission_timeout (rtte s))) s
      else s
  | TIdle _ => with_sk_timer (set_for_idle (cx_now cx) (keep_alive s)) s
  | _ => s
  end.

(* [socket/tcp.rs 2131-2143 Socket::process] *)
Definition update_probe (cx : context) (info : ack_info) (s : socket) : socket :=
  let s :=
    if (remote_win_len s =? 0) && negb (rb_is_empty (tx_buffer s)) &&
       (timer_is_idle (sk_timer s) || (0 <? ack_len info))
    then with_sk_timer (set_for_zero_window_probe (cx_now cx) (retransmission_timeout (rtte s))) s
    else s in
  if negb (remote_win_len s =? 0) && is_zero_window_probe (sk_timer s)
  then with_sk_timer (set_for_idle (cx_now cx) (keep_alive s)) s
  else s.

(* [socket/tcp.rs 2011-2143 Socket::process] *)
Definition update_remote (cx : context) (repr : tcp_repr) (info : ack_info) (s : socket)
  : outcome socket :=
  let '(is_window_update, s) := update_window cx repr s in
  let! s := dequeue_acked (ack_len info) s in
  let s := note_ack repr is_window_update s in
  let s := match timestamp repr with Some ts => with_last_remote_tsval (tsval ts) s | None => s end in
  let s := update_timer cx info s in
  Ret (update_probe cx info s).

(** ** Stage 6: the payload *)

(* [socket/tcp.rs 2313-2319 Socket::ack_to_transmit] *)
Definition ack_to_transmit (s : socket) : outcome bool :=
  match remote_last_ack s with
  | Some last =>
      let! next := seq_add (remote_seq_no s) (rb_length (rx_buffer s)) in Ret (seq_lt last next)
  | None => Ret false
  end.

(* [socket/tcp.rs 2331-2337 Socket::immediate_ack_to_transmit] *)
Definition immediate_ack_to_transmit (s : socket) : outcome bool :=
  match remote_last_ack s with
  | Some last =>
      let! a := seq_add last (remote_mss s) in
      let! next := seq_add (remote_seq_no s) (rb_length (rx_buffer s)) in Ret (seq_lt a next)
  | None => Ret false
  end.

(* [socket/tcp.rs 2194-2215 Socket::process] *)
Definition delay_ack (cx : context) (s : socket) : outcome socket :=
  match ack_delay s with
  | None => Ret s
  | Some delay =>
      let! want := ack_to_transmit s in
      if want then
        let! t :=
          (match sk_ack_delay_timer s with
           | AIdle => Ret (AWaiting (instant_add (cx_now cx) delay))
           | AWaiting t =>
               let! now := immediate_ack_to_transmit s in
               Ret (if now then AImmediate else AWaiting t)
           | AImmediate => Ret AImmediate
           end) in
        Ret (with_sk_ack_delay_timer t s)
      else Ret s
  end.

(* [socket/tcp.rs 2145-2228 Socket::process] *)
Definition receive_payload (cx : context) (ip : ip_repr) (repr : tcp_repr)
    (data : list Z) (payload_offset : Z) (s : socket) : outcome (option packet * socket) :=
  let payload_len := len data in
  if payload_len =? 0 then Ret (None, s)
  else
    let! assembler_was_empty := is_empty (sk_assembler s) in
    let! r := add_then_remove_front (sk_assembler s) payload_offset payload_len in
    match r with
    | Err _ => Ret (None, s)
    | Ok (contig_len, a) =>
        let s := with_sk_assembler a s in
        let! (_, rx) := write_unallocated payload_offset data (rx_buffer s) in
        let s := with_rx_buffer rx s in
        let! s :=
          (if negb (contig_len =? 0) then
             let! rx := enqueue_unallocated contig_len (rx_buffer s) in Ret (with_rx_buffer rx s)
           else Ret s) in
        let! s := delay_ack cx s in
        let! assembler_is_empty := is_empty (sk_assembler s) in
        if negb assembler_is_empty || negb assembler_was_empty then
          let! (p, s) := ack_reply ip repr s in Ret (Some p, s)
        else Ret (None, s)
    end.

(** ** The handler *)

(* [socket/tcp.rs 1568-2229 Socket::process] *)
Definition process_flow (cx : context) (ip : ip_repr) (repr : tcp_repr) (s : socket)
  : outcome (flow (option packet * socket * context)) :=
  let? _ := check_ack cx ip repr s in
  let? (data, payload_offset, window_start, s) := trim_payload cx ip repr s in
  let! (info, s) := measure_ack cx repr s in
  let control := effective_control repr window_start in
  let? (s, cx) := update_state cx ip repr info control s in
  let! s := update_remote cx repr info s in
  let! (r, s) := receive_payload cx ip repr data payload_offset s in
  Ret (Continue (r, s, cx)).

(* [socket/tcp.rs 1568-1573 Socket::process] the result: reply, socket, context. *)
Definition process (cx : context) (ip : ip_repr) (repr : tcp_repr) (s : socket)
  : outcome (option packet * socket * context) :=
  let! f := process_flow cx ip repr s in
  match f with
  | Continue r => Ret r
  | Return r s => Ret (r, s, cx)
  end.
