(* ===== verification/TcpDispatch.v ===== *)
(** What the TCP socket transmits and when
    (vendor/smoltcp/src/socket/tcp.rs, [dispatch] and [poll_at]). *)

From Stdlib Require Import ZArith Lia ZifyBool.
From stdpp Require Import base list numbers.
From S2P Require Import Prelude Assembler RingBuffer Time TcpWire TcpTimer Iface TcpState TcpSocket TcpProcess.

Definition IPV4_HEADER_LEN : Z := 20.
Definition TCP_HEADER_LEN : Z := 20.

(* [socket/tcp.rs 2231-2236 Socket::timed_out] *)
Definition timed_out (s : socket) (ts : instant) : bool :=
  match remote_last_ts s, timeout s with
  | Some last, Some d => instant_add last d <=? ts
  | _, _ => false
  end.

(** The largest segment the MTU allows; in a release build the subtractions wrap. *)
Definition local_mss (cx : context) : Z := usize (usize (ip_mtu cx - IPV4_HEADER_LEN) - TCP_HEADER_LEN).

Definition want_fin (st : tcp_state) : bool :=
  match st with FinWait1 => true | Closing => true | LastAck => true | _ => false end.

(** [tuple.unwrap()] panics without an endpoint. *)
(* [socket/tcp.rs 2238-2303 Socket::seq_to_transmit] *)
Definition seq_to_transmit (cx : context) (s : socket) : outcome bool :=
  match sk_tuple s with
  | None => Panic
  | Some _ =>
      let effective_mss := Z.min (local_mss cx) (remote_mss s) in
      let data_in_flight := negb (remote_last_seq s =? local_seq_no s) in
      if match state s with SynSent | SynReceived => true | _ => false end && negb data_in_flight
      then Ret true
      else
        let! max_send_seq :=
          seq_add (local_seq_no s) (Z.min (remote_win_len s) (rb_length (tx_buffer s))) in
        let! max_send :=
          (if seq_ge max_send_seq (remote_last_seq s)
           then seq_diff max_send_seq (remote_last_seq s) else Ret 0) in
        let max_send := Z.min max_send (cc_window (congestion_controller s)) in
        let can_send := negb (max_send =? 0) in
        let can_send_full := effective_mss <=? max_send in
        let want_fin := want_fin (state s) in
        let can_send :=
          if nagle s && data_in_flight && negb can_send_full && negb want_fin
          then false else can_send in
        let! can_fin :=
          (if want_fin then
             let! q := seq_add (local_seq_no s) (rb_length (tx_buffer s)) in
             Ret (remote_last_seq s =? q)
           else Ret false) in
        Ret (can_send || can_fin)
  end.

(* [socket/tcp.rs 2305-2311 Socket::delayed_ack_expired] *)
Definition delayed_ack_expired (s : socket) (ts : instant) : bool :=
  match sk_ack_delay_timer s with
  | AIdle => true
  | AWaiting t => t <=? ts
  | AImmediate => true
  end.

(* [socket/tcp.rs 2345-2361 Socket::window_to_update] *)
Definition window_to_update (s : socket) : outcome bool :=
  match state s with
  | SynSent | SynReceived | Established | FinWait1 | FinWait2 =>
      let new_win := scaled_window s in
      let! last := last_scaled_window s in
      match last with
      | Some last_win => Ret ((0 <? new_win) && (last_win <=? new_win / 2))
      | None => Ret false
      end
  | _ => Ret false
  end.

(** ** The stages of [dispatch] *)

(** Timers that change the state: the connection timeout, the retransmission. *)
(* [socket/tcp.rs 2384-2426 Socket::dispatch] *)
Definition fire_timers (cx : context) (s : socket) : outcome socket :=
  let s := match remote_last_ts s with
           | None => with_remote_last_ts (Some (cx_now cx)) s
           | Some _ => s
           end in
  if timed_out s (cx_now cx) then Ret (set_state Closed s)
  else
    let! busy := seq_to_transmit cx s in
    if negb busy && should_retransmit (sk_timer s) (cx_now cx) then
      let s := with_remote_last_seq (local_seq_no s) s in
      let s := with_sk_timer (set_for_idle (cx_now cx) (keep_alive s)) s in
      Ret (with_rtte (on_retransmit (rtte s)) s)
    else Ret s.

(** Why a segment is sent; [Quiet] and [CloseDown] return without one. *)
Variant send_reason : Type :=
| SendData | SendAck | SendWindow | SendAbort | SendKeepAlive | SendProbe | CloseDown | Quiet.

(* [socket/tcp.rs 2434-2458 Socket::dispatch] *)
Definition decide_send (cx : context) (s : socket) : outcome send_reason :=
  let! data := seq_to_transmit cx s in
  if data then Ret SendData
  else
    let! want_ack := ack_to_transmit s in
    if want_ack && delayed_ack_expired s (cx_now cx) then Ret SendAck
    else
      let! update := window_to_update s in
      if update then Ret SendWindow
      else if state_eqb (state s) Closed then Ret SendAbort
      else if should_keep_alive (sk_timer s) (cx_now cx) then Ret SendKeepAlive
      else if should_zero_window_probe (sk_timer s) (cx_now cx) then Ret SendProbe
      else if should_close (sk_timer s) (cx_now cx) then Ret CloseDown
      else Ret Quiet.

(** An empty ACK, with a control flag, a sequence number and a window. *)
(* [socket/tcp.rs 2472-2488 Socket::dispatch] *)
Definition base_repr (s : socket) (t : tcp_tuple) (ack : seq_number) : tcp_repr :=
  {| src_port := ep_port (tup_local t); dst_port := ep_port (tup_remote t); ctl := CNone;
     seq_num := remote_last_seq s; ack_num := Some ack; window_len := scaled_window s;
     window_scale := None; max_seg_size := None; sack_permitted := false; sack_ranges := no_sack;
     timestamp := generate_reply_with_tsval (tsval_generator s) (last_remote_tsval s);
     payload := [] |}.

Definition with_control (c : control) (r : tcp_repr) : tcp_repr :=
  {| src_port := src_port r; dst_port := dst_port r; ctl := c; seq_num := seq_num r; ack_num := ack_num r;
     window_len := window_len r; window_scale := window_scale r; max_seg_size := max_seg_size r;
     sack_permitted := sack_permitted r; sack_ranges := sack_ranges r; timestamp := timestamp r;
     payload := payload r |}.

Definition with_payload (seq : seq_number) (p : list Z) (r : tcp_repr) : tcp_repr :=
  {| src_port := src_port r; dst_port := dst_port r; ctl := ctl r; seq_num := seq; ack_num := ack_num r;
     window_len := window_len r; window_scale := window_scale r; max_seg_size := max_seg_size r;
     sack_permitted := sack_permitted r; sack_ranges := sack_ranges r; timestamp := timestamp r;
     payload := p |}.

Definition with_mss (m : Z) (r : tcp_repr) : tcp_repr :=
  {| src_port := src_port r; dst_port := dst_port r; ctl := ctl r; seq_num := seq_num r; ack_num := ack_num r;
     window_len := window_len r; window_scale := window_scale r; max_seg_size := Some m;
     sack_permitted := sack_permitted r; sack_ranges := sack_ranges r; timestamp := timestamp r;
     payload := payload r |}.

(* [socket/tcp.rs 2504-2517 Socket::dispatch] *)
Definition syn_repr (s : socket) (r : tcp_repr) : tcp_repr :=
  let sent := state_eqb (state s) SynSent in
  {| src_port := src_port r; dst_port := dst_port r; ctl := CSyn; seq_num := local_seq_no s;
     ack_num := if sent then None else ack_num r;
     window_len := u16_saturate (window (rx_buffer s));
     window_scale := if sent then Some (remote_win_shift s)
                     else match remote_win_scale s with
                          | Some _ => Some (remote_win_shift s) | None => None end;
     max_seg_size := max_seg_size r;
     sack_permitted := if sent then true else remote_has_sack s;
     sack_ranges := sack_ranges r; timestamp := timestamp r; payload := payload r |}.

(** Answers the segment and whether it is a zero-window probe. *)
(* [socket/tcp.rs 2521-2574 Socket::dispatch] *)
Definition data_repr (cx : context) (s : socket) (r : tcp_repr) : outcome (tcp_repr * bool) :=
  let! win_right_edge := seq_add (local_seq_no s) (remote_win_len s) in
  let! win_limit :=
    (if seq_ge win_right_edge (remote_last_seq s)
     then seq_diff win_right_edge (remote_last_seq s) else Ret 0) in
  let probe := (win_limit =? 0) && should_zero_window_probe (sk_timer s) (cx_now cx) in
  let win_limit := if probe then 1 else win_limit in
  let size := Z.min (Z.min win_limit (remote_mss s)) (local_mss cx) in
  let! offset := seq_diff (remote_last_seq s) (local_seq_no s) in
  let! data := get_allocated offset size (tx_buffer s) in
  let r := with_payload (seq_num r) data r in
  let r :=
    if usize (offset + len data) =? rb_length (tx_buffer s) then
      match state s with
      | FinWait1 | LastAck | Closing => with_control CFin r
      | Established | CloseWait => if negb (len data =? 0) then with_control CPsh r else r
      | _ => r
      end
    else r in
  Ret (r, probe).

(** [None] in the LISTEN state, where nothing is sent. *)
(* [socket/tcp.rs 2492-2578 Socket::dispatch] *)
Definition build_repr (cx : context) (s : socket) (t : tcp_tuple) : outcome (option (tcp_repr * bool)) :=
  let! ack := seq_add (remote_seq_no s) (rb_length (rx_buffer s)) in
  let r := base_repr s t ack in
  match state s with
  | Closed => Ret (Some (with_control CRst r, false))
  | Listen => Ret None
  | SynSent | SynReceived => Ret (Some (syn_repr s r, false))
  | Established | FinWait1 | Closing | CloseWait | LastAck =>
      let! p := data_repr cx s r in Ret (Some p)
  | FinWait2 | TimeWait => Ret (Some (r, false))
  end.

(** The keep-alive byte behind the window, and the MSS option of a SYN. *)
(* [socket/tcp.rs 2584-2620 Socket::dispatch] *)
Definition finish_repr (cx : context) (s : socket) (r : tcp_repr) : outcome (tcp_repr * bool) :=
  let is_keep_alive := should_keep_alive (sk_timer s) (cx_now cx) && repr_is_empty r in
  let! r := (if is_keep_alive then
               let! q := seq_sub (seq_num r) 1 in Ret (with_payload q [0] r)
             else Ret r) in
  let r := if bool_decide (ctl r = CSyn) then with_mss (u16 (local_mss cx)) r else r in
  Ret (r, is_keep_alive).

(** What changes once the segment is in the device's buffer. *)
(* [socket/tcp.rs 2634-2689 Socket::dispatch] *)
Definition after_emit (cx : context) (r : tcp_repr) (probe keep_alive_sent : bool) (s : socket)
  : outcome socket :=
  let s := with_sk_timer (rewind_keep_alive (sk_timer s) (cx_now cx) (keep_alive s)) s in
  let s := with_sk_ack_delay_timer AIdle s in
  if probe then Ret (with_sk_timer (rewind_zero_window_probe (sk_timer s) (cx_now cx)) s)
  else if keep_alive_sent then Ret s
  else
    let! last := seq_add (seq_num r) (segment_len r) in
    let s := with_remote_last_seq last s in
    let s := with_remote_last_ack (ack_num r) s in
    let s := with_remote_last_win (window_len r) s in
    let s := if 0 <? segment_len r then with_rtte (on_send (rtte s) (cx_now cx) last) s else s in
    let s :=
      if (0 <? segment_len r) && negb (is_retransmit (sk_timer s)) then
        with_sk_timer (set_for_retransmit (sk_timer s) (cx_now cx) (retransmission_timeout (rtte s))) s
      else s in
    Ret (if state_eqb (state s) Closed then with_sk_tuple None s else s).

Section Dispatch.
Context {E : Type}.

(** [emit] hands the segment to the device; it may fail, for instance while
    the neighbour's hardware address is being resolved. *)
Variable emit : packet -> result unit E.

(** Answers the segment handed to [emit], if any, its result, and the socket. *)
(* [socket/tcp.rs 2363-2692 Socket::dispatch] *)
Definition dispatch (cx : context) (s : socket) : outcome (option packet * result unit E * socket) :=
  match sk_tuple s with
  | None => Ret (None, Ok (), s)
  | Some t =>
      if negb (has_ip_addr cx (ep_addr (tup_local t))) then Ret (None, Ok (), reset s)
      else
        let! s := fire_timers cx s in
        let! reason := decide_send cx s in
        match reason with
        | Quiet => Ret (None, Ok (), s)
        | CloseDown => Ret (None, Ok (), reset s)
        | _ =>
            let! built := build_repr cx s t in
            match built with
            | None => Ret (None, Ok (), s)
            | Some (r, probe) =>
                let! (r, keep_alive_sent) := finish_repr cx s r in
                let p := ({| ip_src := ep_addr (tup_local t); ip_dst := ep_addr (tup_remote t);
                             ip_payload_len := buffer_len r;
                             ip_hop_limit := match hop_limit s with Some h => h | None => 64 end |}, r) in
                match emit p with
                | Err e => Ret (Some p, Err e, s)
                | Ok _ =>
                    let! s := after_emit cx r probe keep_alive_sent s in
                    Ret (Some p, Ok (), s)
                end
            end
        end
  end.

End Dispatch.

(* [socket/tcp.rs 2695-2736 Socket::poll_at] *)
Definition socket_poll_at (cx : context) (s : socket) : outcome poll_at :=
  match sk_tuple s with
  | None => Ret PIngress
  | Some _ =>
      match remote_last_ts s with
      | None => Ret PNow
      | Some last_ts =>
          if state_eqb (state s) Closed then Ret PNow
          else
            let! data := seq_to_transmit cx s in
            if data then Ret PNow
            else
              let! update := window_to_update s in
              if update then Ret PNow
              else
                let! want_ack := ack_to_transmit s in
                let delayed_ack_poll_at :=
                  match want_ack, sk_ack_delay_timer s with
                  | false, _ => PIngress
                  | true, AIdle => PNow
                  | true, AWaiting t => PTime t
                  | true, AImmediate => PNow
                  end in
                let timeout_poll_at :=
                  match timeout s with Some d => PTime (instant_add last_ts d) | None => PIngress end in
                Ret (poll_min (poll_min (timer_poll_at (sk_timer s)) timeout_poll_at) delayed_ack_poll_at)
      end
  end.
