(* ===== verification/TcpInv.v ===== *)
(** The invariant of an open connection: how the socket's receive side relates
    to the stream the peer sends, and its transmit side to the stream the user
    has handed in. *)

From Stdlib Require Import ZArith Lia ZifyBool.
From stdpp Require Import base list numbers.
From S2P Require Import Prelude Assembler RingBuffer Time TcpWire TcpTimer Iface TcpState TcpSocket.
From S2P Require Import TcpProcess TcpDispatch.

(** The states of an open connection after the handshake. *)
Definition synced (st : tcp_state) : bool :=
  match st with
  | Established | FinWait1 | FinWait2 | CloseWait | Closing | LastAck | TimeWait => true
  | Closed | Listen | SynSent | SynReceived => false
  end.

(** Our FIN takes a sequence number while it is sent and not acknowledged
    ([fin_sent]), and stays behind the data once it is ([fin_acked]). *)
Definition fin_sent (st : tcp_state) : Z := to_usize (snd (sent_flags st)).
Definition fin_acked (st : tcp_state) : Z :=
  match st with FinWait2 | TimeWait => 1 | _ => 0 end.

(** The peer's FIN, once received, stands between the data and what follows. *)
Definition fin_received (s : socket) : Z := to_usize (rx_fin_received s).

(** Before the peer's FIN: the receive half is open. *)
Definition rx_open (st : tcp_state) : bool :=
  match st with Established | FinWait1 | FinWait2 => true | _ => false end.

(** The ranges of the machine integers, and the buffers' own invariant.  A
    buffer has at most 1 GiB, as [Socket::new] requires of the receive buffer;
    the parser limits window scales to 14. *)
Definition buffer_ok (rb : ring_buffer Z) : Prop := rb_inv rb /\ capacity rb <= 1073741824.

Record sock_ok (s : socket) : Prop := {
  ok_rx : buffer_ok (rx_buffer s);
  ok_tx : buffer_ok (tx_buffer s);
  ok_last_win : 0 <= remote_last_win s <= 65535;
  ok_shift : 0 <= remote_win_shift s <= 15;
  ok_win_len : 0 <= remote_win_len s <= 1073741824;
  ok_mss : 0 <= remote_mss s <= 65535;
  ok_scale : forall k, remote_win_scale s = Some k -> 0 <= k <= 14;
}.

(** A received segment, as the parser answers it. *)
Record repr_ok (r : tcp_repr) : Prop := {
  ok_seq : seq_ok (seq_num r);
  ok_ack : forall a, ack_num r = Some a -> seq_ok a;
  ok_window : 0 <= window_len r <= 65535;
  ok_payload : len (payload r) <= 65535;
}.

(** ** The receive side

    [stream] is everything the peer sends before its FIN, [irs] the position
    of its first byte; [n] bytes have been handed to the user. *)
Section Rx.
Context (stream : list Z) (irs : Z).

Definition rx_next (s : socket) (n : Z) : Z := n + rb_length (rx_buffer s).

(** The advertised window: its right edge is [w] bytes beyond what is expected
    next, and never beyond the free space.  [w] is -1 when the peer's FIN came
    right behind a full window. *)
Definition edge_ok (s : socket) (n w : Z) : Prop :=
  - fin_received s <= w <= window (rx_buffer s) /\
  match remote_last_ack s with
  | None => False
  | Some last_ack =>
      i32 (last_ack + remote_last_win s * 2 ^ remote_win_shift s) =
      i32 (irs + rx_next s n + fin_received s + w)
  end.

(** The bytes kept beyond a hole are those of the stream, at their place. *)
Definition holes_ok (s : socket) (n : Z) : Prop :=
  forall p, 0 <= p -> covers (sk_assembler s) p = true ->
  exists b, zget (free_space (rx_buffer s)) p = Some b /\ zget stream (rx_next s n + p) = Some b.

Record rx_live (s : socket) (n : Z) : Prop := {
  live_seq : remote_seq_no s = i32 (irs + n + fin_received s);
  live_asm : assembler_ok 4 (sk_assembler s);
  live_holes : holes_ok s n;
  live_edge : exists w, edge_ok s n w;
  live_open : rx_fin_received s = negb (rx_open (state s));
}.

(** What is in the receive buffer: the next bytes of the stream; all of them,
    when the FIN has been received. *)
Record rx_data (s : socket) (n : Z) : Prop := {
  data_range : 0 <= n <= len stream;
  data_contents : contents (rx_buffer s) = ztake (rb_length (rx_buffer s)) (zdrop n stream);
  data_fin : rx_fin_received s = true -> rx_next s n = len stream;
}.

(** Specification, of a peer that keeps to the window for its end: a segment is a
    piece of the stream at its place, not too far from what is expected; its
    FIN, if it has one, ends the stream and is not beyond the advertised
    window.  The code accepts more: it trims the payload of a segment to the
    window but keeps its FIN, wherever that is; such a segment is not valid
    here, and [TcpStream.fin_beyond_window_truncates] is what it does. *)
Record valid_segment (s : socket) (n : Z) (r : tcp_repr) (k : Z) : Prop := {
  vs_range : 0 <= k /\ k + len (payload r) <= len stream;
  vs_near : - 536870912 <= k - rx_next s n <= 536870912;
  vs_seq : seq_num r = i32 (irs + k);
  vs_payload : payload r = ztake (len (payload r)) (zdrop k stream);
  vs_fin : ctl r = CFin -> k + len (payload r) = len stream /\
    forall w, edge_ok s n w -> k + len (payload r) <= rx_next s n + w;
}.

End Rx.

(** ** The transmit side

    [sent] is everything the user has handed in, [iss] the position of its
    first byte; the peer has acknowledged [m] bytes. *)
Section Tx.
Context (sent : list Z) (iss : Z).

Record tx_live (s : socket) (m : Z) : Prop := {
  live_m : 0 <= m <= len sent;
  live_data : contents (tx_buffer s) = zdrop m sent;
  live_local : local_seq_no s = i32 (iss + m + fin_acked (state s));
  live_acked : fin_acked (state s) = 1 -> rb_length (tx_buffer s) = 0;
  live_last : exists o, 0 <= o <= rb_length (tx_buffer s) + fin_sent (state s) /\
    remote_last_seq s = i32 (iss + m + fin_acked (state s) + o);
}.

End Tx.

(** The whole connection; [D] is about what is in the receive buffer. *)
Record live_inv (D : socket -> Z -> Prop) (stream : list Z) (irs : Z) (sent : list Z) (iss : Z) (s : socket) (n m : Z)
  : Prop := {
  li_ok : sock_ok s;
  li_data : D s n;
  li_live : state s = Closed \/
    (synced (state s) = true /\ rx_live stream irs s n /\ tx_live sent iss s m);
}.

(** A closed socket keeps what it has received. *)
Record conn_inv (stream : list Z) (irs : Z) (sent : list Z) (iss : Z) (s : socket) (n m : Z) : Prop := {
  inv_ok : sock_ok s;
  inv_data : rx_data stream s n;
  inv_live : state s = Closed \/
    (synced (state s) = true /\ rx_live stream irs s n /\ tx_live sent iss s m);
}.

Lemma conn_inv_live stream irs sent iss s n m :
  conn_inv stream irs sent iss s n m <-> live_inv (rx_data stream) stream irs sent iss s n m.
Proof. split; intros [H1 H2 H3]; by split. Qed.

(** ** What an operation leaves alone *)
Definition rx_same (s s' : socket) : Prop :=
  rx_buffer s' = rx_buffer s /\ sk_assembler s' = sk_assembler s /\
  remote_seq_no s' = remote_seq_no s /\ rx_fin_received s' = rx_fin_received s /\
  remote_win_shift s' = remote_win_shift s.

Definition tx_same (s s' : socket) : Prop :=
  tx_buffer s' = tx_buffer s /\ local_seq_no s' = local_seq_no s /\
  remote_last_seq s' = remote_last_seq s /\ remote_win_len s' = remote_win_len s /\
  remote_mss s' = remote_mss s /\ remote_win_scale s' = remote_win_scale s.

Definition edge_same (s s' : socket) : Prop :=
  remote_last_ack s' = remote_last_ack s /\ remote_last_win s' = remote_last_win s.

(** The last acknowledgement sent is for all that has been received. *)
Definition edge_fresh (s' : socket) : Prop :=
  (exists ack, seq_add (remote_seq_no s') (rb_length (rx_buffer s')) = Ret ack /\ remote_last_ack s' = Some ack) /\
  remote_last_win s' = scaled_window s'.

Definition ack_only (s s' : socket) : Prop :=
  rx_same s s' /\ tx_same s s' /\ state s' = state s /\ (edge_same s s' \/ edge_fresh s').

(** [quiet] proves [ack_only] for an update of fields the invariant ignores. *)
Ltac quiet :=
  solve [unfold ack_only, rx_same, tx_same, edge_same; split_and!; try reflexivity; left; split; reflexivity].

Lemma ack_only_refl s : ack_only s s.
Proof. quiet. Qed.

(** ** The assembler's ranges *)
Lemma covers_span us : used_ok us -> us <> [] -> covers us (span us - 1) = true.
Proof.
  intros [Hok _]; induction Hok as [|c us [Hh Hd] Hok IH]; [done|]; intros _.
  rewrite covers_cons, span_cons; unfold size_of.
  destruct us as [|d us]; [cbn; lia|].
  rewrite (covers_eq (d :: us) _ (span (d :: us) - 1)) by lia; rewrite IH by done; lia.
Qed.

Lemma span_covered a us W :
  represents 4 a us -> 0 <= W -> (forall p, 0 <= p -> covers a p = true -> p < W) -> span us <= W.
Proof.
  intros (-> & _ & Hus & _) HW H; destruct us as [|c us]; [done|].
  pose proof (covers_span (c :: us) Hus ltac:(done)) as Hc.
  apply used_ok_cons in Hus as [[? ?] [Hus _]]; pose proof (span_nonneg us Hus).
  rewrite span_cons in *; unfold size_of in *.
  specialize (H (hole_size c + data_size c + span us - 1)); rewrite covers_pad in H.
  specialize (H ltac:(lia) Hc); lia.
Qed.

Lemma iter_data_empties off k : 0 <= off < M64 -> iter_data off (replicate k empty) = [].
Proof.
  intros Ho; induction k as [|k IH]; [done|]; cbn [replicate iter_data empty hole_size data_size].
  rewrite !Z.add_0_r, !usize_small by lia; by rewrite Z.ltb_irrefl, IH.
Qed.

Lemma iter_data_bound us k off B :
  Forall contig_ok us -> 0 <= off -> off + span us <= B -> B < M64 ->
  Forall (fun e => 0 <= fst e <= B /\ 0 <= snd e <= B) (iter_data off (us ++ replicate k empty)).
Proof.
  intros Hok; revert off; induction Hok as [|c us [Hh Hd] Hok IH]; intros off Ho Hs Hb; cbn [app].
  - rewrite iter_data_empties by (cbn in Hs; lia); constructor.
  - rewrite span_cons in Hs; unfold size_of in Hs; pose proof (span_nonneg us Hok).
    cbn [iter_data]; rewrite !(usize_small (off + _)), usize_small by lia.
    rewrite (proj2 (Z.ltb_lt _ _)) by lia; constructor; [cbn; lia|apply IH; lia].
Qed.

Lemma sack_containing_ret ack last l :
  Forall (fun e => 0 <= fst e <= 2147483647 /\ 0 <= snd e <= 2147483647) l ->
  is_ret (sack_containing ack last l).
Proof.
  induction 1 as [|[a b] l [Ha Hb] _ IH]; cbn [sack_containing]; [by eexists|].
  unfold seq_add, i32_max; cbn in *; rewrite !(proj2 (Z.ltb_ge _ _)) by lia; cbn [obind].
  destruct (_ && _); [by eexists|done].
Qed.

Lemma sack_first_ret ack l :
  Forall (fun e => 0 <= fst e <= 2147483647 /\ 0 <= snd e <= 2147483647) l -> is_ret (sack_first ack l).
Proof.
  destruct 1 as [|[a b] l [Ha Hb] _]; cbn [sack_first]; [by eexists|].
  unfold seq_add, i32_max; cbn in *; rewrite !(proj2 (Z.ltb_ge _ _)) by lia; by eexists.
Qed.

(** What is kept beyond a hole is inside the free space. *)
Definition holes_fit (s : socket) : Prop :=
  forall p, 0 <= p -> covers (sk_assembler s) p = true -> p < window (rx_buffer s).

(** ** Windows *)
Lemma usize_shr_eq n k : 0 <= k <= 15 -> usize_shr n k = n / 2 ^ k.
Proof. intros; unfold usize_shr; rewrite Z.mod_small, Z.shiftr_div_pow2 by lia; done. Qed.

Lemma usize_shl_eq n k : 0 <= k <= 15 -> 0 <= n <= 65535 ->
  usize_shl n k = n * 2 ^ k /\ 0 <= n * 2 ^ k <= 2147450880.
Proof.
  intros Hk Hn; unfold usize_shl; rewrite Z.mod_small, Z.shiftl_mul_pow2 by lia.
  pose proof (Z.pow_le_mono_r 2 k 15 ltac:(lia) ltac:(lia)) as Hp; change (2 ^ 15) with 32768 in Hp.
  pose proof (Z.pow_pos_nonneg 2 k); rewrite usize_small by nia; split; [done|nia].
Qed.

Section Sock.
Context (s : socket) (Hok : sock_ok s).

Lemma rx_window : window (rx_buffer s) = capacity (rx_buffer s) - rb_length (rx_buffer s) /\
  0 <= rb_length (rx_buffer s) <= capacity (rx_buffer s) /\ capacity (rx_buffer s) <= 1073741824.
Proof using Hok.
  destruct Hok as [[Hi Hc] _ _ _ _ _ _]; split; [by apply window_eq|]; destruct Hi as (_ & _ & ? & _); lia.
Qed.

Lemma iter_data_small :
  assembler_ok 4 (sk_assembler s) -> holes_fit s ->
  Forall (fun e => 0 <= fst e <= 2147483647 /\ 0 <= snd e <= 2147483647) (iter_data 0 (sk_assembler s)).
Proof using Hok.
  intros [us Hr] Hl; destruct rx_window as (Hw & Hlen & Hcap).
  assert (Hsp : span us <= 1073741824).
  { apply (span_covered (sk_assembler s)); [done|lia|]; intros p Hp Hc; pose proof (Hl p Hp Hc); lia. }
  destruct Hr as (-> & _ & [Hus _] & _); apply (iter_data_bound us _ 0); [done|lia|lia|lia].
Qed.

Lemma tx_length : 0 <= rb_length (tx_buffer s) <= 1073741824.
Proof using Hok. destruct Hok as [_ [(_ & _ & ? & _) Hc] _ _ _ _ _]; lia. Qed.

Lemma scaled_window_ok :
  0 <= scaled_window s <= 65535 /\
  0 <= scaled_window s * 2 ^ remote_win_shift s <= window (rx_buffer s).
Proof using Hok.
  destruct rx_window as (Hw & Hl & Hc); pose proof (ok_shift s Hok).
  unfold scaled_window, u16_saturate, u16_max; rewrite usize_shr_eq by lia.
  pose proof (Z.pow_pos_nonneg 2 (remote_win_shift s)).
  assert (0 <= window (rx_buffer s) / 2 ^ remote_win_shift s) by (apply Z.div_pos; lia).
  pose proof (Z.mul_div_le (window (rx_buffer s)) (2 ^ remote_win_shift s)).
  destruct (Z.leb_spec (window (rx_buffer s) / 2 ^ remote_win_shift s) 65535); nia.
Qed.

End Sock.

Lemma fin_received_range s : 0 <= fin_received s <= 1.
Proof. unfold fin_received, to_usize; destruct (rx_fin_received s); lia. Qed.
Lemma fin_sent_range st : 0 <= fin_sent st <= 1.
Proof. destruct st; cbn; lia. Qed.
Lemma fin_acked_range st : 0 <= fin_acked st <= 1.
Proof. destruct st; cbn; lia. Qed.

Section RxLemmas.
Context (stream : list Z) (irs : Z).

Lemma edge_fresh_ok s n :
  sock_ok s -> remote_seq_no s = i32 (irs + n + fin_received s) -> edge_fresh s ->
  exists w, 0 <= w /\ edge_ok irs s n w.
Proof.
  intros Hok Hseq [(ack & Ha & Hl) Hw]; destruct (scaled_window_ok s Hok) as [Hs1 Hs2].
  destruct (rx_window s Hok) as (Hw' & Hlen & Hcap); pose proof (fin_received_range s).
  rewrite Hseq, seq_add_pos in Ha by lia; injection Ha as Ha.
  exists (scaled_window s * 2 ^ remote_win_shift s); split; [lia|]; split; [lia|].
  rewrite Hl, <-Ha, Hw, i32_add; f_equal; unfold rx_next; lia.
Qed.

(** The stream bytes a range of the assembler stands for are in the buffer. *)
Lemma holes_window s n p :
  rb_inv (rx_buffer s) -> holes_ok stream s n -> 0 <= p -> covers (sk_assembler s) p = true ->
  p < window (rx_buffer s).
Proof.
  intros Hi Hh Hp Hc; destruct (Hh p Hp Hc) as (b & Hb & _).
  destruct (Z.ltb_spec p (window (rx_buffer s))); [done|].
  rewrite zget_ge in Hb by (rewrite len_free_space by done; lia); done.
Qed.

Lemma holes_ok_fit s n : rb_inv (rx_buffer s) -> holes_ok stream s n -> holes_fit s.
Proof. intros Hi Hh p; by apply (holes_window s n). Qed.

Lemma edge_ok_eq s s' n w :
  rx_buffer s' = rx_buffer s -> rx_fin_received s' = rx_fin_received s ->
  remote_win_shift s' = remote_win_shift s -> edge_same s s' -> edge_ok irs s n w -> edge_ok irs s' n w.
Proof.
  intros E1 E2 E3 [E4 E5]; unfold edge_ok, fin_received, rx_next; by rewrite E1, E2, E3, E4, E5.
Qed.

Lemma ack_only_sock_ok s s' : ack_only s s' -> sock_ok s -> sock_ok s'.
Proof.
  intros ((E1 & E2 & E3 & E4 & E5) & (F1 & F2 & F3 & F4 & F5 & F6) & E6 & Hedge) Hok.
  pose proof Hok as [H1 H2 H3 H4 H5 H6 H7]; split; rewrite ?E1, ?F1, ?E5, ?F4, ?F5, ?F6; try done.
  destruct Hedge as [[_ ->]|[_ Hw]]; [done|].
  destruct (scaled_window_ok s Hok) as [Hs _]; rewrite Hw.
  by replace (scaled_window s') with (scaled_window s) by (unfold scaled_window; by rewrite E1, E5).
Qed.

Lemma ack_only_rx_live s s' n :
  sock_ok s -> ack_only s s' -> rx_live stream irs s n -> rx_live stream irs s' n.
Proof.
  intros Hok Hao [L1 L2 L3 [w L4] L5].
  pose proof (ack_only_sock_ok s s' Hao Hok) as Hok'.
  destruct Hao as ((E1 & E2 & E3 & E4 & E5) & _ & E6 & Hedge).
  assert (Ef : fin_received s' = fin_received s) by (unfold fin_received; by rewrite E4).
  split; [by rewrite E3, Ef|by rewrite E2| | |by rewrite E6, E4].
  - intros p; unfold rx_next; rewrite E1, E2; apply L3.
  - destruct Hedge as [He|He]; [exists w; by apply (edge_ok_eq s)|].
    destruct (edge_fresh_ok s' n Hok') as (w' & _ & Hw'); [by rewrite E3, Ef|done|by exists w'].
Qed.

Lemma ack_only_rx_data s s' n : ack_only s s' -> rx_data stream s n -> rx_data stream s' n.
Proof.
  intros ((E1 & _ & _ & E4 & _) & _) [H1 H2 H3]; split; unfold rx_next in *; rewrite ?E1, ?E4; done.
Qed.

End RxLemmas.

Lemma ack_only_tx_live sent iss s s' m : ack_only s s' -> tx_live sent iss s m -> tx_live sent iss s' m.
Proof.
  intros (_ & (F1 & F2 & F3 & _) & E6 & _) [H1 H2 H3 H4 H5]; split; rewrite ?F1, ?F2, ?F3, ?E6; done.
Qed.

(** [D] only looks at the receive buffer and at whether a FIN was received. *)
Definition rx_only (D : socket -> Z -> Prop) : Prop :=
  forall s s' n, rx_buffer s' = rx_buffer s -> rx_fin_received s' = rx_fin_received s -> D s n -> D s' n.

Lemma rx_data_only stream : rx_only (rx_data stream).
Proof. intros s s' n E1 E2 [H1 H2 H3]; split; unfold rx_next in *; rewrite ?E1, ?E2; done. Qed.

Lemma ack_only_live_inv D stream irs sent iss s s' n m :
  rx_only D -> ack_only s s' -> live_inv D stream irs sent iss s n m -> live_inv D stream irs sent iss s' n m.
Proof.
  intros HD Hao [Hok Hd Hl]; pose proof Hao as ((E1 & _ & _ & E4 & _) & _ & E6 & _).
  split; [by apply (ack_only_sock_ok s)|by apply (HD s)|].
  destruct Hl as [Hc|(Hs & Hr & Ht)]; [left; by rewrite E6|].
  right; rewrite E6; split_and!; [done|by apply (ack_only_rx_live _ _ s)|by apply (ack_only_tx_live _ _ s)].
Qed.

Lemma ack_only_conn_inv stream irs sent iss s s' n m :
  ack_only s s' -> conn_inv stream irs sent iss s n m -> conn_inv stream irs sent iss s' n m.
Proof. rewrite !conn_inv_live; apply ack_only_live_inv, rx_data_only. Qed.

(** ** Fresh sockets *)

Lemma win_shift_ok c :
  0 <= c <= 1073741824 -> 0 <= u8 (saturating_sub (bit_length c) 16) <= 15.
Proof.
  intros Hc; assert (Hb : 0 <= bit_length c <= 31).
  { unfold bit_length; destruct (Z.eqb_spec c 0); [lia|].
    pose proof (Z.log2_nonneg c); pose proof (Z.log2_le_mono c 1073741824 ltac:(lia)) as Hlog.
    change (Z.log2 1073741824) with 30 in Hlog; lia. }
  unfold saturating_sub; rewrite u8_small by lia; lia.
Qed.

Lemma buffer_clear_ok rb : buffer_ok rb -> buffer_ok (rb_clear rb).
Proof.
  intros [(? & ? & ? & ?) ?]; unfold buffer_ok, rb_inv, capacity in *; cbn.
  pose proof (len_nonneg (storage rb)); split; [split_and!; lia|lia].
Qed.

Lemma capacity_nonneg (rb : ring_buffer Z) : 0 <= capacity rb.
Proof. apply len_nonneg. Qed.

Lemma reset_sock_ok s : sock_ok s -> sock_ok (reset s).
Proof.
  intros [R T O3 O4 O5 O6 O7]; split; try (by apply buffer_clear_ok); cbn; unfold DEFAULT_MSS; try done; try lia.
  apply win_shift_ok; pose proof (capacity_nonneg (rx_buffer s)); destruct R; lia.
Qed.

(** A new socket: it panics exactly when the receive buffer is over 1 GiB. *)
Lemma new_socket_ok rx tx :
  buffer_ok rx -> buffer_ok tx -> exists s, new_socket rx tx = Ret s /\ sock_ok s /\
    state s = Closed /\ rx_buffer s = rx /\ tx_buffer s = tx /\ timeout s = None /\ keep_alive s = None.
Proof.
  intros Hr Ht; unfold new_socket; change (Z.shiftl 1 30) with 1073741824.
  pose proof Hr as [? Hc]; rewrite (proj2 (Z.ltb_ge _ _)) by lia; eexists; split; [reflexivity|].
  split; [|done]; split; cbn; unfold DEFAULT_MSS; try done; try lia.
  apply win_shift_ok; pose proof (capacity_nonneg rx); lia.
Qed.
