(* ===== verification/TcpReceive.v ===== *)
(** The receive path of an open connection: processing a segment of the peer
    never panics and keeps the connection's invariant, whatever is lost,
    duplicated, reordered or acknowledged. *)

From Stdlib Require Import ZArith Lia ZifyBool.
From stdpp Require Import base list numbers.
From S2P Require Import Prelude Assembler RingBuffer Time TcpWire TcpTimer Iface TcpState TcpSocket.
From S2P Require Import TcpProcess TcpDispatch TcpInv.

Section Receive.
Context (stream : list Z) (irs : Z) (sent : list Z) (iss : Z).
Context (cx : context) (ip : ip_repr) (repr : tcp_repr).
Context (Hrepr : repr_ok repr).

Lemma ack_reply_core s :
  sock_ok s -> assembler_ok 4 (sk_assembler s) -> holes_fit s ->
  exists p s', ack_reply ip repr s = Ret (p, s') /\ ack_only s s' /\ edge_fresh s'.
Proof using Type.
  intros Hok Hasm Hl; pose proof (iter_data_small s Hok Hasm Hl) as Hit.
  destruct (rx_window s Hok) as (Hw & Hlen & Hcap).
  unfold ack_reply; destruct (reply ip repr) as [ipr r].
  assert (Ha : seq_add (remote_seq_no s) (rb_length (rx_buffer s)) =
    Ret (i32 (remote_seq_no s + rb_length (rx_buffer s)))) by (apply seq_add_small; lia).
  rewrite Ha; cbn [obind]; set (ack := i32 (_ + rb_length _)) in *.
  assert (Hsack : exists o, (if remote_has_sack s then
       let! found := (match local_rx_last_seq s with
          | Some last => sack_containing ack last (iter_data 0 (sk_assembler s))
          | None => Ret None end) in
       match found with None => sack_first ack (iter_data 0 (sk_assembler s)) | Some r => Ret (Some r) end
     else Ret None) = Ret o).
  { destruct (remote_has_sack s); [|by eexists].
    assert (Hf : exists f, match local_rx_last_seq s with
      | Some last => sack_containing ack last (iter_data 0 (sk_assembler s)) | None => Ret None end = Ret f).
    { destruct (local_rx_last_seq s) as [q|]; [apply (sack_containing_ret ack q _ Hit)|by eexists]. }
    destruct Hf as [[f|] ->]; cbn [obind]; [by eexists|]; apply sack_first_ret, Hit. }
  destruct Hsack as [o Ho]; cbn -[iter_data obind].
  change (remote_has_sack (with_remote_last_win _ _)) with (remote_has_sack s).
  rewrite Ho; cbn [obind]; do 2 eexists; split; [done|].
  assert (He : edge_fresh (with_remote_last_win (scaled_window (with_remote_last_ack (Some ack) s))
    (with_remote_last_ack (Some ack) s))).
  { split; [|done]; exists ack; split; [exact Ha|done]. }
  split; [|exact He].
  unfold ack_only, rx_same, tx_same; split_and!; try done; by right.
Qed.

Lemma ack_reply_ok s n :
  sock_ok s -> rx_live stream irs s n ->
  exists p s', ack_reply ip repr s = Ret (p, s') /\ ack_only s s' /\ edge_fresh s'.
Proof using Type.
  intros Hok [H1 H2 H3 _ _]; apply ack_reply_core; [done|done|].
  exact (holes_ok_fit stream s n (proj1 (ok_rx s Hok)) H3).
Qed.

Lemma challenge_ok s n :
  sock_ok s -> rx_live stream irs s n ->
  exists p s', challenge_ack_reply cx ip repr s = Ret (p, s') /\ ack_only s s'.
Proof using Type.
  intros Hok Hl; unfold challenge_ack_reply.
  destruct (cx_now cx <? challenge_ack_timer s); [do 2 eexists; split; [done|apply ack_only_refl]|].
  set (s1 := with_challenge_ack_timer _ s).
  assert (Hao : ack_only s s1) by quiet.
  destruct (ack_reply_ok s1 n) as (p & s2 & -> & Hs & _);
    [by apply (ack_only_sock_ok s)|by apply (ack_only_rx_live _ _ s)|].
  do 2 eexists; split; [done|]; destruct Hs as (R & T & S & E); done.
Qed.

(** An early return that changes nothing but the acknowledgement sent. *)
Definition returns {A} (m : outcome (flow A)) (s : socket) : Prop :=
  exists p s', m = Ret (Return p s') /\ ack_only s s'.

Lemma return_challenge {A} s n :
  sock_ok s -> rx_live stream irs s n -> returns (A := A) (return_ (challenge_ack_reply cx ip repr s)) s.
Proof using Type.
  intros Hok Hl; destruct (challenge_ok s n Hok Hl) as (p & s' & E & Hs); unfold return_; rewrite E.
  by exists p, s'.
Qed.

(** What an acceptable acknowledgement acknowledges: [d] numbers beyond the
    oldest unacknowledged one. *)
Definition ack_at (s : socket) (d : Z) : Prop :=
  ack_num repr = Some (i32 (local_seq_no s + d)) /\
  0 <= d <= rb_length (tx_buffer s) + fin_sent (state s).

Lemma check_ack_ok s n :
  sock_ok s -> rx_live stream irs s n -> synced (state s) = true -> seq_ok (local_seq_no s) ->
  returns (check_ack cx ip repr s) s \/
  (check_ack cx ip repr s = Ret (Continue ()) /\ (ctl repr = CRst \/ exists d, ack_at s d)).
Proof using Hrepr.
  intros Hok Hl Hs Hls.
  assert (Hnone : forall A, returns (A := A) (Ret (Return None s)) s).
  { intros A; do 2 eexists; split; [done|apply ack_only_refl]. }
  assert (Hrange : forall a, ack_num repr = Some a ->
    returns (check_ack_range cx ip repr a s) s \/
    (check_ack_range cx ip repr a s = Ret (Continue ()) /\ exists d, ack_at s d)).
  { intros a Ha; pose proof (ok_ack _ Hrepr _ Ha) as Hsa; pose proof (tx_length s Hok).
    assert (Hf : sent_flags (state s) = (false, snd (sent_flags (state s)))) by (by destruct (state s)).
    unfold check_ack_range; rewrite Hf; fold (fin_sent (state s)); cbn [fst].
    change (to_usize false) with 0; fold (fin_sent (state s)).
    pose proof (fin_sent_range (state s)); rewrite Z.add_0_l, !usize_small by (rewrite ?usize_small; lia).
    destruct (position_near a (local_seq_no s) Hsa) as (d & Hd & Ed).
    rewrite Ed, <-(i32_i32 _ Hls), seq_add_pos by lia; cbn [obind]; rewrite i32_add.
    rewrite seq_lt_pos by lia.
    destruct (Z.ltb_spec (local_seq_no s + d) (local_seq_no s)); [left; apply Hnone|].
    rewrite seq_gt_pos by lia.
    destruct (Z.ltb_spec (local_seq_no s + (rb_length (tx_buffer s) + fin_sent (state s))) (local_seq_no s + d)).
    - left; by apply (return_challenge s n).
    - right; split; [done|]; exists d; split; [by rewrite Ha, Ed|lia]. }
  unfold check_ack; destruct (state s); try discriminate Hs; destruct (ctl repr), (ack_num repr) as [a|] eqn:Ea;
    try (left; apply Hnone); try (right; split; [done|by left]);
    destruct (Hrange a eq_refl) as [|[-> ?]]; auto.
Qed.

(** ** The window *)

(** Half the sequence space away from a position, or one less. *)
Definition half_away (N : Z) (q : seq_number) : Prop := q = i32 (N + 2147483647) \/ q = i32 (N + 2147483648).

Lemma half_away_pos N d : -2147483648 <= d < 2147483648 ->
  half_away N (i32 (N + d)) <-> d = 2147483647 \/ d = -2147483648.
Proof using Type.
  intros Hd; unfold half_away; rewrite <-!Z.eqb_eq, !i32_eqb.
  replace (N + d - (N + 2147483647)) with (d - 2147483647) by lia.
  replace (N + d - (N + 2147483648)) with (d - 2147483648) by lia.
  i32_gen; lia.
Qed.

Lemma in_window_cases N w q pl :
  seq_ok q -> -1 <= w <= 1073741824 -> 0 <= pl <= 65535 ->
  (w = -1 -> ~ half_away N q /\ ~ half_away N (i32 (q + pl))) ->
  segment_in_window (i32 N) (i32 (N + w)) q (i32 (q + pl)) = Ret false \/
  (segment_in_window (i32 N) (i32 (N + w)) q (i32 (q + pl)) = Ret true /\
   exists K, q = i32 K /\ Z.max N K <= Z.min (N + w) (K + pl)).
Proof using Type.
  intros Hq Hw Hpl Hhalf; destruct (position_near q N Hq) as (d & Hd & ->).
  rewrite i32_add in *; set (e := if d + pl <? 2147483648 then d + pl else d + pl - 4294967296).
  assert (He : i32 (N + d + pl) = i32 (N + e)).
  { subst e; destruct (Z.ltb_spec (d + pl) 2147483648); [f_equal; lia|].
    replace (N + d + pl) with (N + (d + pl - 4294967296) + 4294967296) by lia; by rewrite i32_period. }
  rewrite He in *; assert (Hr : -2147483648 <= e < 2147483648) by (subst e; destruct (Z.ltb_spec (d + pl) 2147483648); lia).
  rewrite !half_away_pos in Hhalf by done.
  unfold segment_in_window; rewrite seq_sub_pos by lia; cbn [obind]; unfold seq_le, seq_lt.
  rewrite !i32_eqb, !i32_minus.
  replace (N + d - (N + e)) with (d - e) by lia; replace (N - (N + w)) with (- w) by lia.
  replace (N + e - (N - 1)) with (e + 1) by lia; replace (N - (N + d)) with (- d) by lia.
  replace (N + d - (N + w)) with (d - w) by lia; replace (N - (N + e)) with (- e) by lia.
  replace (N + e - (N + w)) with (e - w) by lia.
  clear Hq He.

  match goal with |- Ret ?b = _ \/ _ => destruct b eqn:Eb; [right; split; [done|]|by left] end.
  destruct (Z.ltb_spec (d + pl) 2147483648); subst e.
  - assert (0 <= d <= w \/ 0 < d + pl <= w) as Hc.
    { revert Eb; i32_gen; repeat case_match; lia. }
    exists (N + d); split; [done|]; lia.
  - exfalso; revert Eb; i32_gen; repeat case_match; lia.
Qed.

Lemma receive_window_ok s n w :
  sock_ok s -> rx_live stream irs s n -> edge_ok irs s n w ->
  receive_window s = Ret (i32 (irs + rx_next s n + fin_received s), i32 (irs + rx_next s n + fin_received s + w)).
Proof using Type.
  intros Hok Hl [Hw He]; destruct (rx_window s Hok) as (Hwin & Hlen & Hcap).
  unfold receive_window; rewrite (live_seq _ _ _ _ Hl), seq_add_pos by lia; cbn [obind].
  destruct (usize_shl_eq (remote_last_win s) (remote_win_shift s)) as [E Hr]; [apply Hok|apply Hok|].
  unfold rx_next in *; destruct (remote_last_ack s) as [la|].
  - rewrite E; unfold seq_add, i32_max; rewrite (proj2 (Z.ltb_ge _ _)) by lia; cbn [obind].
    rewrite He; f_equal; f_equal; f_equal; lia.
  - done.
Qed.

(** The part of the payload a segment brings inside the window. *)
Record trimmed (s : socket) (n w k : Z) (data : list Z) (off : Z) : Prop := {
  tr_open : rx_fin_received s = false;
  tr_off : off = Z.max 0 (k - rx_next s n);
  tr_end : rx_next s n + off + len data = Z.min (rx_next s n + w) (k + len (payload repr));
  tr_data : forall i, 0 <= i < len data ->
    exists b, zget data i = Some b /\ zget stream (rx_next s n + off + i) = Some b;
}.

Lemma payload_data s n k a c :
  valid_segment stream irs s n repr k -> 0 <= a <= c -> c <= len (payload repr) ->
  forall i, 0 <= i < len (ztake (c - a) (zdrop a (payload repr))) ->
  exists b, zget (ztake (c - a) (zdrop a (payload repr))) i = Some b /\ zget stream (k + a + i) = Some b.
Proof using Type.
  intros Hv Ha Hc i; rewrite len_ztake, len_zdrop; intros Hi.
  pose proof (vs_range _ _ _ _ _ _ Hv); destruct (zget_is_Some stream (k + a + i)) as [b Hb]; [lia|].
  exists b; split; [|done].
  rewrite zget_ztake, zget_zdrop, (vs_payload _ _ _ _ _ _ Hv), zget_ztake, zget_zdrop by lia.
  zcase; rewrite <-Hb; f_equal; lia.
Qed.

(** A segment that touches the window [N], [N + w] is cut to it; any other is
    answered with a challenge. *)
Lemma trim_cases s N w :
  synced (state s) = true -> receive_window s = Ret (i32 N, i32 (N + w)) -> -1 <= w <= 1073741824 ->
  (w = -1 -> ~ half_away N (seq_num repr) /\ ~ half_away N (i32 (seq_num repr + len (payload repr)))) ->
  trim_payload cx ip repr s = return_ (challenge_ack_reply cx ip repr
    (if state_eqb (state s) TimeWait then with_sk_timer (set_for_close (cx_now cx)) s else s)) \/
  exists K, seq_num repr = i32 K /\ Z.max N K <= Z.min (N + w) (K + len (payload repr)) /\
    trim_payload cx ip repr s = Ret (Continue
      (ztake (Z.min (N + w) (K + len (payload repr)) - Z.max N K) (zdrop (Z.max N K - K) (payload repr)),
       Z.max N K - N, i32 N, with_local_rx_last_seq (Some (seq_num repr)) s)).
Proof using Hrepr.
  intros Hs Hrw Hw Hhalf; pose proof (ok_payload _ Hrepr); pose proof (len_nonneg (payload repr)).
  unfold trim_payload; rewrite Hrw, seq_add_small by lia; cbn [obind].
  destruct (in_window_cases N w (seq_num repr) (len (payload repr)) (ok_seq _ Hrepr)) as [->|[-> (K & EK & HK)]];
    [done|lia|done|left; by destruct (state s)|right; exists K; split; [done|split; [done|]]]; cbn [obind].
  rewrite EK, i32_add, seq_max_pos, seq_min_pos, !seq_diff_pos by lia; cbn [obind].
  rewrite slice_ret by lia; cbn [obind].
  replace (_ - _ - (_ - _)) with (Z.min (N + w) (K + len (payload repr)) - Z.max N K) by lia.
  by destruct (state s).
Qed.

Lemma return_away {A} s n :
  sock_ok s -> rx_live stream irs s n -> returns (A := A) (return_ (challenge_ack_reply cx ip repr
    (if state_eqb (state s) TimeWait then with_sk_timer (set_for_close (cx_now cx)) s else s))) s.
Proof using Type.
  intros Hok Hl; set (s1 := if state_eqb (state s) TimeWait then with_sk_timer (set_for_close (cx_now cx)) s else s).
  assert (Hao : ack_only s s1) by (subst s1; destruct (state_eqb _ _); quiet).
  destruct (return_challenge (A := A) s1 n) as (p & s2 & E & Hs2);
    [by apply (ack_only_sock_ok s)|by apply (ack_only_rx_live _ _ s)|].
  exists p, s2; split; [exact E|]; subst s1; destruct (state_eqb _ _); destruct Hs2 as (R & T & S & E2); done.
Qed.

Lemma trim_payload_ok s n k w :
  sock_ok s -> rx_live stream irs s n -> rx_data stream s n -> synced (state s) = true ->
  valid_segment stream irs s n repr k -> edge_ok irs s n w ->
  returns (trim_payload cx ip repr s) s \/
  exists data off, trim_payload cx ip repr s =
      Ret (Continue (data, off, i32 (irs + rx_next s n), with_local_rx_last_seq (Some (seq_num repr)) s)) /\
    trimmed s n w k data off.
Proof using Hrepr.
  intros Hok Hl Hd Hs Hv He; pose proof He as [Hw _].
  destruct (rx_window s Hok) as (Hwin & Hlen & Hcap); pose proof (fin_received_range s).
  pose proof (vs_near _ _ _ _ _ _ Hv); pose proof (ok_payload _ Hrepr); pose proof (len_nonneg (payload repr)).
  pose proof (vs_range _ _ _ _ _ _ Hv).
  set (N := irs + rx_next s n + fin_received s).
  destruct (trim_cases s N w Hs (receive_window_ok s n w Hok Hl He)) as [->|(K & EK & HK & ->)]; [lia| |left; by apply (return_away s n)|].
  { intros _; rewrite (vs_seq _ _ _ _ _ _ Hv), i32_add; subst N; split.
    - replace (irs + k) with (irs + rx_next s n + fin_received s + (k - rx_next s n - fin_received s)) by lia.
      rewrite half_away_pos; lia.
    - replace (irs + k + len (payload repr)) with
        (irs + rx_next s n + fin_received s + (k - rx_next s n - fin_received s + len (payload repr))) by lia.
      rewrite half_away_pos; lia. }
  right; assert (K = irs + k) as ->.
  { apply Z.eqb_eq; rewrite <-seq_eqb_pos, <-EK, (vs_seq _ _ _ _ _ _ Hv) by (subst N; lia); apply Z.eqb_refl. }
  assert (Hopen : rx_fin_received s = false).
  { destruct (rx_fin_received s) eqn:Ef; [|done]; exfalso.
    pose proof (data_fin _ _ _ Hd Ef); subst N; unfold fin_received in *; rewrite Ef in *; cbn in *; lia. }
  assert (Hf0 : fin_received s = 0) by (by unfold fin_received; rewrite Hopen).
  subst N; rewrite Hf0, Z.add_0_r in *; do 2 eexists; split; [reflexivity|].
  set (lo := Z.max _ (irs + k)) in *; set (hi := Z.min _ _) in *.
  replace (hi - lo) with ((hi - (irs + k)) - (lo - (irs + k))) by lia.
  split; [done|lia|rewrite len_ztake, len_zdrop; lia|].
  intros i Hi; destruct (payload_data s n k (lo - (irs + k)) (hi - (irs + k)) Hv) with (i := i)
    as (b & Hb1 & Hb2); [lia|lia|exact Hi|].
  exists b; split; [exact Hb1|]; rewrite <-Hb2; f_equal; lia.
Qed.

(** ** The state machine *)

(** [info] says what an acknowledgement at distance [d] covers. *)
Definition info_for (s : socket) (d : Z) (info : ack_info) : Prop :=
  ack_of_fin info = (fin_sent (state s) =? 1) && (d =? rb_length (tx_buffer s) + 1) /\
  ack_len info = (if ack_of_fin info then d - 1 else d).

Lemma measure_ack_ok s d :
  sock_ok s -> synced (state s) = true -> seq_ok (local_seq_no s) -> ctl repr <> CRst -> ack_at s d ->
  exists info r, measure_ack cx repr s = Ret (info, with_rtte r s) /\ info_for s d info.
Proof using Type.
  intros Hok Hs Hls Hc [Ha Hd]; pose proof (tx_length s Hok); pose proof (fin_sent_range (state s)).
  unfold measure_ack; rewrite Ha.
  assert (Hf : sent_flags (state s) = (false, fin_sent (state s) =? 1)).
  { clear Ha Hd; destruct (state s); try discriminate Hs; done. }
  rewrite Hf; rewrite bool_decide_eq_false_2 by done.
  change (to_usize false) with 0; rewrite <-(i32_i32 _ Hls), seq_add_pos by lia.
  rewrite i32_add, Z.add_0_r; cbn [obind]; rewrite seq_ge_pos, (proj2 (Z.leb_le _ _)) by lia.
  rewrite seq_diff_pos by lia; cbn [obind].
  do 2 eexists; split; [done|]; unfold info_for; cbn [ack_of_fin ack_len].
  replace (local_seq_no s + d - local_seq_no s) with d by lia.
  rewrite usize_small by lia; rewrite (Z.eqb_sym (rb_length _ + 1)); split; [done|].
  destruct (_ && _) eqn:E; [|done]; apply usize_small; lia.
Qed.

Record advanced (s s' : socket) (c : control) (info : ack_info) : Prop := {
  adv_rx : rx_buffer s' = rx_buffer s /\ sk_assembler s' = sk_assembler s /\
           remote_win_shift s' = remote_win_shift s;
  adv_edge : edge_same s s';
  adv_tx : tx_same s s';
  adv_fin : rx_fin_received s' = (if bool_decide (c = CFin) then true else rx_fin_received s);
  adv_seq : seq_add (remote_seq_no s) (to_usize (bool_decide (c = CFin))) = Ret (remote_seq_no s') \/
            (bool_decide (c = CFin) = false /\ remote_seq_no s' = remote_seq_no s);
  adv_open : (c = CFin -> rx_open (state s) = true /\ rx_open (state s') = false) /\
             (c <> CFin -> rx_open (state s') = rx_open (state s));
  adv_state : state s' = Closed \/
    (synced (state s') = true /\
     if ack_of_fin info then fin_acked (state s') = 1 /\ fin_sent (state s') = 0
     else fin_acked (state s') = fin_acked (state s) /\ fin_sent (state s') = fin_sent (state s));
}.

Ltac advance :=
  solve [split; cbn -[seq_add];
    repeat match goal with H : _ = _ |- _ => rewrite H; clear H end;
    unfold edge_same, tx_same; split_and?; first [done | by left | by right]].

Lemma update_state_ok s n info c :
  sock_ok s -> rx_live stream irs s n -> synced (state s) = true -> c <> CRst ->
  (ack_of_fin info = true -> fin_sent (state s) = 1) ->
  returns (update_state cx ip repr info c s) s \/
  exists s', update_state cx ip repr info c s = Ret (Continue (s', cx)) /\ advanced s s' c info.
Proof using Type.
  intros Hok Hl Hs Hc Hi.
  assert (Hnone : forall A, returns (A := A) (Ret (Return None s)) s).
  { intros A; do 2 eexists; split; [done|apply ack_only_refl]. }
  assert (Hfin : exists q, seq_add (remote_seq_no s) 1 = Ret q) by (by eexists).
  destruct Hfin as [q Hq].
  unfold update_state, receive_fin.
  destruct (state s) eqn:Est; try discriminate Hs; destruct c; try done;
    try (left; apply Hnone); rewrite ?Hq; cbn [obind];
    try (destruct (ack_of_fin info) eqn:Ef; try (specialize (Hi eq_refl); discriminate Hi));
    try (right; eexists; split; [reflexivity|]; clear -Est Ef Hq; advance).
  destruct (ack_len info =? 0); [left; by apply (return_challenge s n)|].
  right; eexists; split; [reflexivity|]; clear -Est Ef; advance.
Qed.

(** A reset closes the connection; what has been received stays. *)
Lemma update_state_rst s info :
  synced (state s) = true ->
  exists s', update_state cx ip repr info CRst s = Ret (Return None s') /\ state s' = Closed /\
    rx_same s s' /\ tx_same s s' /\ edge_same s s'.
Proof using Type.
  intros Hs; unfold update_state; destruct (state s); try discriminate Hs;
    (eexists; split; [reflexivity|]; unfold rx_same, tx_same, edge_same; split_and!; done).
Qed.

(** ** The sender's state *)

(** Only timers, counters and options change. *)
Definition kept (s s' : socket) : Prop :=
  rx_same s s' /\ tx_same s s' /\ state s' = state s /\ edge_same s s'.

Lemma kept_trans s1 s2 s3 : kept s1 s2 -> kept s2 s3 -> kept s1 s3.
Proof using Type.
  unfold kept, rx_same, tx_same, edge_same; intros; destruct_and!; split_and!; congruence.
Qed.

Ltac keep := solve [unfold kept, rx_same, tx_same, edge_same; split_and!; reflexivity].

Lemma count_duplicate_kept a u s : kept s (count_duplicate repr a u s).
Proof using Type.
  unfold count_duplicate; destruct (match local_rx_last_ack s with Some _ => _ | None => _ end).
  - cbv zeta; destruct (_ =? 3); keep.
  - destruct (_ <? _); keep.
Qed.

Lemma update_timer_kept info s : kept s (update_timer cx info s).
Proof using Type.
  unfold update_timer; destruct (sk_timer s); try keep; (destruct (ack_all info); [keep|]; destruct (0 <? ack_len info); keep).
Qed.

Lemma update_probe_kept info s : kept s (update_probe cx info s).
Proof using Type.
  unfold update_probe; set (s1 := if _ && _ then _ else s).
  assert (H1 : kept s s1) by (subst s1; destruct (_ && _); keep); clearbody s1.
  apply (kept_trans s s1); [done|]; destruct (_ && _); keep.
Qed.

Lemma remote_window_range s k :
  repr_ok repr -> (forall k, remote_win_scale s = Some k -> 0 <= k <= 14) ->
  k = (match ctl repr with CSyn => 0 | _ => match remote_win_scale s with Some k => k | None => 0 end end) ->
  0 <= usize_shl (window_len repr) k <= 1073741824.
Proof using Type.
  intros Hr Hs Hk; assert (0 <= k <= 14).
  { subst k; destruct (ctl repr), (remote_win_scale s) as [j|] eqn:E; try lia; by apply Hs. }
  destruct (usize_shl_eq (window_len repr) k) as [-> _]; [lia|apply Hr|].
  pose proof (ok_window _ Hr); pose proof (Z.pow_le_mono_r 2 k 14 ltac:(lia) ltac:(lia)) as Hp.
  change (2 ^ 14) with 16384 in Hp; pose proof (Z.pow_pos_nonneg 2 k); nia.
Qed.

(** After the stage, [a] is acknowledged and its data gone from the buffer. *)
Record acked (s s' : socket) (info : ack_info) (a : seq_number) : Prop := {
  ak_rx : rx_same s s' /\ edge_same s s' /\ state s' = state s;
  ak_ok : sock_ok s';
  ak_data : contents (tx_buffer s') = zdrop (ack_len info) (contents (tx_buffer s));
  ak_length : rb_length (tx_buffer s') = rb_length (tx_buffer s) - ack_len info;
  ak_local : local_seq_no s' = a;
  ak_last : remote_last_seq s' = if seq_lt (remote_last_seq s) a then a else remote_last_seq s;
}.

Lemma dequeue_acked_ok k s :
  sock_ok s -> 0 <= k <= rb_length (tx_buffer s) ->
  exists tx, dequeue_acked k s = Ret (with_tx_buffer tx s) /\ buffer_ok tx /\
    contents tx = zdrop k (contents (tx_buffer s)) /\ rb_length tx = rb_length (tx_buffer s) - k.
Proof using Type.
  intros Hok Hk; pose proof (ok_tx s Hok) as [Hi Hc]; unfold dequeue_acked.
  destruct (Z.ltb_spec 0 k).
  - destruct (dequeue_allocated_spec (tx_buffer s) k Hi Hk) as (tx & -> & Hi' & Hc' & Hcon); cbn [obind].
    exists tx; split_and!; [done|split; [done|lia]|done|].
    rewrite <-(len_contents tx Hi'), Hcon, len_zdrop, len_contents by done; lia.
  - exists (tx_buffer s); rewrite zdrop_0 by lia; split_and!; [by destruct s|done|done|lia].
Qed.

Lemma update_remote_ok s info a :
  sock_ok s -> repr_ok repr -> ack_num repr = Some a -> 0 <= ack_len info <= rb_length (tx_buffer s) ->
  exists s', update_remote cx repr info s = Ret s' /\ acked s s' info a.
Proof using Type.
  intros Hok Hr Ha Hl; unfold update_remote, update_window.
  set (k := match ctl repr with CSyn => 0 | _ => _ end).
  pose proof (remote_window_range s k Hr (ok_scale s Hok) eq_refl) as Hwin; clearbody k.
  set (u := negb _); clearbody u; set (W := usize_shl _ _) in *; clearbody W.
  set (s1 := with_remote_win_len _ _).
  assert (Hok1 : sock_ok s1) by (destruct Hok; by split).
  destruct (dequeue_acked_ok (ack_len info) s1 Hok1 Hl) as (tx & -> & Htx & Hcon & Hlen); cbn [obind].
  assert (Hok2 : sock_ok (with_tx_buffer tx s1)) by (destruct Hok1; by split).
  unfold note_ack; rewrite Ha.
  pose proof (count_duplicate_kept a u (with_tx_buffer tx s1)) as Hk1.
  set (s2 := count_duplicate _ _ _ _) in *; clearbody s2.
  change (local_seq_no (with_local_seq_no a s2)) with a.
  change (remote_last_seq (with_local_seq_no a s2)) with (remote_last_seq s2).
  set (s3 := if seq_lt _ _ then _ else _).
  assert (H3 : remote_last_seq s3 = (if seq_lt (remote_last_seq s) a then a else remote_last_seq s) /\
    local_seq_no s3 = a /\ rx_same s s3 /\ edge_same s s3 /\ state s3 = state s /\
    tx_buffer s3 = tx /\ remote_win_len s3 = W /\ remote_mss s3 = remote_mss s /\
    remote_win_scale s3 = remote_win_scale s).
  { destruct Hk1 as ((E1 & E2 & E3 & E4 & E5) & (F1 & F2 & F3 & F4 & F5 & F6) & E6 & E7 & E8).
    change (remote_last_seq (with_tx_buffer tx s1)) with (remote_last_seq s) in F3.
    subst s3; rewrite F3; unfold rx_same, edge_same; destruct (seq_lt _ _); cbn; split_and!; try done;
      etransitivity; eassumption || reflexivity. }
  clearbody s3; set (s4 := match timestamp repr with Some _ => _ | None => _ end).
  assert (H4 : kept s3 s4) by (subst s4; destruct (timestamp repr); keep); clearbody s4.
  pose proof (kept_trans _ _ _ (kept_trans _ _ _ H4 (update_timer_kept info s4))
    (update_probe_kept info (update_timer cx info s4))) as Hk.
  eexists; split; [reflexivity|]; set (s5 := update_probe _ _ _) in *; clearbody s5.
  destruct H3 as (G1 & G2 & (E1 & E2 & E3 & E4 & E5) & (E6 & E7) & E8 & G3 & G4 & G5 & G6).
  destruct Hk as ((J1 & J2 & J3 & J4 & J5) & (F1 & F2 & F3 & F4 & F5 & F6) & J6 & J7 & J8).
  split; try congruence.
  - unfold rx_same, edge_same; split_and!; congruence.
  - destruct Hok as [O1 O2 O3 O4 O5 O6 O7]; split;
      rewrite ?F1, ?G3, ?J1, ?E1, ?J8, ?E7, ?J5, ?E5, ?F4, ?G4, ?F5, ?G5; try done.
    intros j Hj; apply O7; congruence.
  - by rewrite F1, G3.
  - by rewrite F1, G3.
Qed.

(** ** The payload *)

Lemma is_empty_spec a :
  assembler_ok 4 a ->
  exists b, is_empty a = Ret b /\ (b = true -> forall p, covers a p = false).
Proof using Type.
  intros [us (-> & Hn & Hus & _)]; unfold is_empty, front.
  destruct us as [|c us].
  - exists true; split; [done|]; intros _ p; by rewrite covers_pad.
  - exists false; split; [|done]; unfold pad; cbn [app]; rewrite index_0; cbn [obind].
    apply used_ok_cons in Hus as [Hc _]; by rewrite has_data_ok.
Qed.

Lemma delay_ack_ok s : sock_ok s -> exists s', delay_ack cx s = Ret s' /\ kept s s'.
Proof using Type.
  intros Hok; destruct (rx_window s Hok) as (_ & ? & ?); pose proof (ok_mss s Hok).
  assert (Hn : forall q, seq_add q (rb_length (rx_buffer s)) = Ret (i32 (q + rb_length (rx_buffer s)))).
  { intros q; unfold seq_add, i32_max; rewrite (proj2 (Z.ltb_ge _ _)) by lia; done. }
  assert (Hm : forall q, seq_add q (remote_mss s) = Ret (i32 (q + remote_mss s))).
  { intros q; unfold seq_add, i32_max; rewrite (proj2 (Z.ltb_ge _ _)) by lia; done. }
  unfold delay_ack, ack_to_transmit, immediate_ack_to_transmit; rewrite Hn.
  destruct (ack_delay s); [|eexists; split; [done|keep]].
  destruct (remote_last_ack s); cbn [obind]; [|eexists; split; [done|keep]].
  rewrite Hm; cbn [obind]; destruct (seq_lt _ _); [|eexists; split; [done|keep]].
  destruct (sk_ack_delay_timer s); cbn [obind]; eexists; (split; [reflexivity|keep]).
Qed.

Definition with_rx (rx : ring_buffer Z) (a : assembler) (s : socket) : socket :=
  with_rx_buffer rx (with_sk_assembler a s).

(** What the buffer and the assembler become when [data] arrives at [off]: the
    in-order bytes, [k] of them, join the queue. *)
Record joined (s : socket) (data : list Z) (off k : Z) (rx : ring_buffer Z) (a : assembler) : Prop := {
  jn_rx : buffer_ok rx;
  jn_asm : assembler_ok 4 a;
  jn_k : 0 <= k <= window (rx_buffer s);
  jn_len : rb_length rx = rb_length (rx_buffer s) + k;
  jn_window : window rx = window (rx_buffer s) - k;
  jn_contents : contents rx = contents (rx_buffer s) ++ ztake k (write_at (free_space (rx_buffer s)) off data);
  jn_free : free_space rx = zdrop k (write_at (free_space (rx_buffer s)) off data);
  jn_front : forall p, 0 <= p < k -> covers (sk_assembler s) p || in_range off (len data) p = true;
  jn_shift : forall p, 0 <= p -> covers a p = covers (sk_assembler s) (p + k) || in_range off (len data) (p + k);
  jn_first : off = 0 -> len data <= k;
  jn_place : 0 <= off /\ off + len data <= window (rx_buffer s);
}.

Lemma join_cases s data off :
  sock_ok s -> assembler_ok 4 (sk_assembler s) -> holes_fit s ->
  0 <= off -> 0 < len data -> off + len data <= window (rx_buffer s) ->
  (exists k a rx1 rx, add_then_remove_front (sk_assembler s) off (len data) = Ret (Ok (k, a)) /\
     write_unallocated off data (rx_buffer s) = Ret (len data, rx1) /\
     (if negb (k =? 0) then enqueue_unallocated k rx1 else Ret rx1) = Ret rx /\
     joined s data off k rx a) \/
  (add_then_remove_front (sk_assembler s) off (len data) = Ret (Err TooManyHolesError) /\ 0 < off).
Proof using Type.
  intros Hok Hasm Hfit Hoff Hlen Hww; destruct (rx_window s Hok) as (Hwin & Hl & Hcap).
  pose proof (proj1 (ok_rx s Hok)) as Hi.
  destruct (add_then_remove_front_ok 4 (sk_assembler s) off (len data) Hasm) as
    [(k & a & E & Ha & Hk & Hcov & Hnot & Hshift)|(E & Hpos & _)]; [lia..| |by right].
  left; assert (Hkw : k <= window (rx_buffer s)).
  { destruct (Z.ltb_spec (window (rx_buffer s)) k) as [Hlt|]; [|done].
    specialize (Hcov (window (rx_buffer s)) ltac:(lia)); apply orb_prop in Hcov as [Hc|Hc];
      [apply Hfit in Hc; lia|unfold in_range in Hc; lia]. }
  destruct (write_unallocated_spec (rx_buffer s) off data Hi Hoff) as (rx1 & Ew & Hi1 & Hc1 & Hl1 & Hcon1 & Hf1); [lia|].
  replace (Z.max 0 (Z.min (len data) (window (rx_buffer s) - off))) with (len data) in * by lia.
  rewrite (proj2 (Z.ltb_ge _ _)), (ztake_ge _ data) in Hf1 by lia.
  assert (Hw1 : window rx1 = window (rx_buffer s)) by (rewrite !window_eq by done; lia).
  assert (Hrx : exists rx, (if negb (k =? 0) then enqueue_unallocated k rx1 else Ret rx1) = Ret rx /\
    rb_inv rx /\ capacity rx = capacity rx1 /\ contents rx = contents rx1 ++ ztake k (free_space rx1) /\
    free_space rx = zdrop k (free_space rx1)).
  { destruct (Z.eqb_spec k 0) as [->|Hk0]; cbn [negb].
    - exists rx1; rewrite ztake_0, app_nil_r, zdrop_0 by lia; done.
    - destruct (enqueue_unallocated_spec rx1 k Hi1) as (rx & -> & ? & ? & ? & ?); [lia|]; by exists rx. }
  destruct Hrx as (rx & Ee & Hir & Hcr & Hconr & Hfr); exists k, a, rx1, rx; rewrite Hf1 in *.
  assert (Hlr : rb_length rx = rb_length (rx_buffer s) + k).
  { rewrite <-(len_contents rx Hir), Hconr, Hcon1, len_app, len_ztake, len_contents by done.
    rewrite len_write_at, len_free_space by (rewrite ?len_free_space by done; done || lia); lia. }
  split_and!; [done..|]; split; try done.
  - split; [done|]; rewrite Hcr, Hc1; apply (ok_rx s Hok).
  - rewrite !window_eq by done; lia.
  - by rewrite Hconr, Hcon1.
  - intros ->; destruct (Z.ltb_spec k (len data)); [|done].
    apply orb_false_iff in Hnot as [_ Hnot]; unfold in_range in Hnot; lia.
Qed.

Lemma joined_fit s data off k rx a :
  holes_fit s -> joined s data off k rx a -> holes_fit (with_rx rx a s).
Proof using Type.
  intros Hf Hj p Hp; change (sk_assembler (with_rx rx a s)) with a; change (rx_buffer (with_rx rx a s)) with rx.
  rewrite (jn_shift _ _ _ _ _ _ Hj), (jn_window _ _ _ _ _ _ Hj) by done.
  pose proof (jn_k _ _ _ _ _ _ Hj); pose proof (jn_place _ _ _ _ _ _ Hj).
  intros [Hc|Hc]%orb_prop; [apply Hf in Hc; lia|unfold in_range in Hc; lia].
Qed.

Lemma joined_sock_ok s data off k rx a : sock_ok s -> joined s data off k rx a -> sock_ok (with_rx rx a s).
Proof using Type. intros [] []; by split. Qed.

(** What becomes of the payload: there is none, there are too many holes, or
    the bytes are written; then an acknowledgement is sent at once if there was
    or is a hole, and is left to [dispatch] otherwise. *)
Lemma receive_payload_cases s data off :
  sock_ok s -> assembler_ok 4 (sk_assembler s) -> holes_fit s ->
  0 <= off -> (0 < len data -> off + len data <= window (rx_buffer s)) ->
  (receive_payload cx ip repr data off s = Ret (None, s) /\ (len data = 0 \/ 0 < off)) \/
  exists k rx a r s', joined s data off k rx a /\ 0 < len data /\
    receive_payload cx ip repr data off s = Ret (r, s') /\ ack_only (with_rx rx a s) s' /\
    (edge_fresh s' \/ (edge_same (with_rx rx a s) s' /\ forall p, covers (sk_assembler s) p = false)).
Proof using Type.
  intros Hok Hasm Hfit Hoff Hww; pose proof (len_nonneg data); unfold receive_payload.
  destruct (Z.eqb_spec (len data) 0) as [E0|Hd0]; [left; by split; [|left]|].
  destruct (is_empty_spec _ Hasm) as (b0 & -> & Hb0); cbn [obind].
  destruct (join_cases s data off Hok Hasm Hfit Hoff) as
    [(k & a & rx1 & rx & -> & Ew & Ee & Hj)|[-> Hpos]]; [lia|apply Hww; lia| |left; by split; [|right]]; cbn [obind].
  right; change (rx_buffer (with_sk_assembler a s)) with (rx_buffer s); rewrite Ew; cbn [obind].
  pose proof (joined_sock_ok s data off k rx a Hok Hj) as Hok1; pose proof (joined_fit s data off k rx a Hfit Hj) as Hfit1.
  replace (if negb (k =? 0) then _ else _) with (Ret (with_rx rx a s)).
  2: { change (rx_buffer (with_rx_buffer rx1 (with_sk_assembler a s))) with rx1.
       destruct (negb (k =? 0)); [by rewrite Ee|injection Ee as ->; done]. }
  cbn [obind]; destruct (delay_ack_ok (with_rx rx a s) Hok1) as (s2 & -> & R & T & S & E); cbn [obind].
  assert (Hao2 : ack_only (with_rx rx a s) s2) by (split_and!; auto); pose proof R as (R1 & R2 & _).
  assert (Ha2 : sk_assembler s2 = a) by done; pose proof (jn_asm _ _ _ _ _ _ Hj) as Hasm1.
  destruct (is_empty_spec a Hasm1) as (b1 & Eb1 & _); rewrite Ha2, Eb1; cbn [obind].
  destruct (negb b1 || negb b0) eqn:Eb.
  - destruct (ack_reply_core s2) as (p & s3 & -> & Hao3 & Hf3).
    { by apply (ack_only_sock_ok (with_rx rx a s)). }
    { by rewrite Ha2. }
    { intros q; unfold holes_fit in Hfit1; rewrite R1, R2; apply Hfit1. }
    exists k, rx, a, (Some p), s3; cbn [obind]; split_and!; [done|lia|done| |by left].
    destruct Hao3 as (R' & T' & S' & _); unfold ack_only, rx_same, tx_same in *; destruct_and!.
    split_and!; try congruence; by right.
  - exists k, rx, a, None, s2; split_and!; [done|lia|done|done|right; split; [done|]].
    apply Hb0; destruct b0; [done|by rewrite orb_true_r in Eb].
Qed.

Lemma rx_data_next s n : sock_ok s -> rx_data stream s n -> rx_next s n <= len stream.
Proof using Type.
  intros Hok [H1 H2 _]; pose proof (len_contents _ (proj1 (ok_rx s Hok))) as Hl.
  destruct (rx_window s Hok) as (_ & ? & _); rewrite H2, len_ztake, len_zdrop in Hl; unfold rx_next; lia.
Qed.

(** The socket when the payload is to be absorbed: as in [rx_live], but the
    edge [w] still counts from where the data starts, and the peer's FIN may
    just have been taken, if it is right behind this data. *)
Record arriving (s : socket) (n w : Z) (data : list Z) (off : Z) : Prop := {
  arr_ok : sock_ok s;
  arr_n : 0 <= n;
  arr_next : rx_next s n <= len stream;
  arr_contents : contents (rx_buffer s) = ztake (rb_length (rx_buffer s)) (zdrop n stream);
  arr_seq : remote_seq_no s = i32 (irs + n + fin_received s);
  arr_asm : assembler_ok 4 (sk_assembler s);
  arr_holes : holes_ok stream s n;
  arr_w : 0 <= w <= window (rx_buffer s);
  arr_edge : exists la, remote_last_ack s = Some la /\
    i32 (la + remote_last_win s * 2 ^ remote_win_shift s) = i32 (irs + rx_next s n + w);
  arr_off : 0 <= off /\ (0 < len data -> off + len data <= w);
  arr_data : forall i, 0 <= i < len data ->
    exists b, zget data i = Some b /\ zget stream (rx_next s n + off + i) = Some b;
  arr_fin : rx_fin_received s = true -> off = 0 /\ rx_next s n + len data = len stream;
  arr_open : rx_fin_received s = negb (rx_open (state s));
}.

Lemma joined_stream s n w data off k rx a p :
  arriving s n w data off -> joined s data off k rx a -> 0 <= p ->
  covers (sk_assembler s) p || in_range off (len data) p = true ->
  exists b, zget (write_at (free_space (rx_buffer s)) off data) p = Some b /\ zget stream (rx_next s n + p) = Some b.
Proof using Type.
  intros Ha Hj Hp Hc; pose proof (proj1 (ok_rx s (arr_ok _ _ _ _ _ Ha))) as Hi; pose proof (jn_place _ _ _ _ _ _ Hj).
  pose proof (len_nonneg data); rewrite zget_write_at by (rewrite ?len_free_space by done; lia).
  destruct ((off <=? p) && (p <? off + len data)) eqn:Er.
  - destruct (arr_data _ _ _ _ _ Ha (p - off)) as (b & Hb & Hb'); [lia|]; exists b; split; [done|].
    rewrite <-Hb'; f_equal; lia.
  - apply (arr_holes _ _ _ _ _ Ha); [done|]; unfold in_range in Hc; rewrite Er in Hc; by rewrite orb_false_r in Hc.
Qed.

Lemma joined_ok s n w data off k rx a :
  arriving s n w data off -> joined s data off k rx a ->
  let s' := with_rx rx a s in
  sock_ok s' /\ remote_seq_no s' = i32 (irs + n + fin_received s') /\ holes_ok stream s' n /\ rx_data stream s' n.
Proof using Type.
  intros Ha Hj s'; pose proof (jn_len _ _ _ _ _ _ Hj) as Hlen; pose proof (jn_k _ _ _ _ _ _ Hj).
  assert (Hnext : rx_next s' n = rx_next s n + k) by (unfold rx_next; change (rx_buffer s') with rx; lia).
  destruct (rx_window s (arr_ok _ _ _ _ _ Ha)) as (_ & Hr & _); pose proof (arr_n _ _ _ _ _ Ha).
  pose proof (proj1 (ok_rx s (arr_ok _ _ _ _ _ Ha))) as Hi; pose proof (arr_next _ _ _ _ _ Ha).
  split; [by apply (joined_sock_ok s data off k), Hj; apply Ha|split; [exact (arr_seq _ _ _ _ _ Ha)|split]].
  - intros p Hp; change (sk_assembler s') with a; rewrite (jn_shift _ _ _ _ _ _ Hj) by done; intros Hc.
    destruct (joined_stream s n w data off k rx a (p + k) Ha Hj) as (b & Hb & Hb'); [lia|done|]; exists b.
    change (rx_buffer s') with rx; rewrite (jn_free _ _ _ _ _ _ Hj), zget_zdrop, Hnext by lia.
    split; [by rewrite (Z.add_comm k)|rewrite <-Hb'; f_equal; lia].
  - assert (Hstr : rx_next s n + k <= len stream).
    { destruct (Z.ltb_spec 0 k); [|lia].
      destruct (joined_stream s n w data off k rx a (k - 1) Ha Hj) as (b & _ & Hb); [lia|apply (jn_front _ _ _ _ _ _ Hj); lia|].
      destruct (Z.ltb_spec (rx_next s n + (k - 1)) (len stream)); [lia|by rewrite zget_ge in Hb]. }
    split; [unfold rx_next in *; lia| |].
    + change (rx_buffer s') with rx; rewrite (jn_contents _ _ _ _ _ _ Hj), (arr_contents _ _ _ _ _ Ha), Hlen.
      set (fs := write_at _ _ _); replace (ztake k fs) with (ztake k (zdrop (rb_length (rx_buffer s)) (zdrop n stream))).
      { apply ztake_add; lia. }
      apply zget_eq; intros p Hp; rewrite !zget_ztake; zcase; [|done].
      destruct (joined_stream s n w data off k rx a p Ha Hj) as (b & Hb & Hb'); [lia|apply (jn_front _ _ _ _ _ _ Hj); lia|].
      rewrite !zget_zdrop by lia; subst fs; rewrite Hb, <-Hb'; f_equal; unfold rx_next; lia.
    + intros Hf; destruct (arr_fin _ _ _ _ _ Ha Hf) as [Hoff Hfin]; pose proof (jn_first _ _ _ _ _ _ Hj Hoff); lia.
Qed.

(** Nothing was kept beyond a hole, so the window still covers what joined. *)
Lemma joined_before s data off k rx a w :
  joined s data off k rx a -> 0 <= w -> off + len data <= w ->
  (forall p, covers (sk_assembler s) p = false) -> k <= w.
Proof using Type.
  intros Hj Hw Hd Hnone; destruct (Z.ltb_spec 0 k) as [Hpos|]; [|lia].
  pose proof (jn_front _ _ _ _ _ _ Hj (k - 1) ltac:(lia)) as Hk; rewrite Hnone in Hk; unfold in_range in Hk; cbn in Hk; lia.
Qed.

Lemma joined_edge s n w data off k rx a :
  arriving s n w data off -> 0 < len data -> joined s data off k rx a ->
  (forall p, covers (sk_assembler s) p = false) -> exists w', edge_ok irs (with_rx rx a s) n w'.
Proof using Type.
  intros Ha Hd Hj Hnone; pose proof (jn_k _ _ _ _ _ _ Hj).
  destruct (arr_off _ _ _ _ _ Ha) as [Ho Hend]; specialize (Hend Hd); pose proof (arr_w _ _ _ _ _ Ha).
  pose proof (joined_before s data off k rx a w Hj ltac:(lia) Hend Hnone).
  pose proof (fin_received_range s); destruct (arr_edge _ _ _ _ _ Ha) as (la & Hla & He).
  exists (w - k - fin_received s); split.
  - change (fin_received (with_rx rx a s)) with (fin_received s); change (rx_buffer (with_rx rx a s)) with rx.
    rewrite (jn_window _ _ _ _ _ _ Hj); lia.
  - change (remote_last_ack (with_rx rx a s)) with (remote_last_ack s); rewrite Hla.
    change (remote_last_win (with_rx rx a s)) with (remote_last_win s).
    change (remote_win_shift (with_rx rx a s)) with (remote_win_shift s); rewrite He.
    change (fin_received (with_rx rx a s)) with (fin_received s).
    unfold rx_next; change (rx_buffer (with_rx rx a s)) with rx; rewrite (jn_len _ _ _ _ _ _ Hj); f_equal; lia.
Qed.

(** What a stage leaves for the transmit side. *)
Definition received (s s' : socket) (n : Z) : Prop :=
  sock_ok s' /\ rx_live stream irs s' n /\ rx_data stream s' n /\ tx_same s s' /\ state s' = state s.

Lemma kept_received s s1 s2 n : kept s1 s2 -> received s s1 n -> received s s2 n.
Proof using Type.
  intros (R & T & S & E) (H1 & H2 & H3 & H4 & H5).
  assert (Hao : ack_only s1 s2) by (split_and!; auto).
  split_and!; [by apply (ack_only_sock_ok s1)|by apply (ack_only_rx_live _ _ s1)|by apply (ack_only_rx_data _ s1)| |congruence].
  destruct H4, T; unfold tx_same in *; destruct_and!; split_and!; congruence.
Qed.

Lemma fresh_received s s1 s2 n :
  sock_ok s1 -> remote_seq_no s1 = i32 (irs + n + fin_received s1) -> assembler_ok 4 (sk_assembler s1) ->
  holes_ok stream s1 n -> rx_data stream s1 n -> rx_fin_received s1 = negb (rx_open (state s1)) ->
  tx_same s s1 -> state s1 = state s -> ack_only s1 s2 -> edge_fresh s2 -> received s s2 n.
Proof using Type.
  intros H1 H2 H3 H4 H5 H6 H7 H8 Hao Hf; pose proof (ack_only_sock_ok s1 s2 Hao H1) as Hok2.
  pose proof (ack_only_rx_data stream s1 s2 n Hao H5) as Hd2.
  destruct Hao as ((E1 & E2 & E3 & E4 & E5) & T & S & _).
  assert (Efin : fin_received s2 = fin_received s1) by (unfold fin_received; by rewrite E4).
  assert (Hseq2 : remote_seq_no s2 = i32 (irs + n + fin_received s2)) by (by rewrite E3, Efin).
  split_and!; [done| |done| |congruence].
  - destruct (edge_fresh_ok irs s2 n Hok2 Hseq2 Hf) as (w & _ & Hw).
    split; [done|by rewrite E2| |by exists w|by rewrite S, E4].
    intros p; unfold rx_next; rewrite E1, E2; apply H4.
  - unfold tx_same in *; destruct_and!; split_and!; congruence.
Qed.

(** The data was empty, or dropped: it did not start at the edge. *)
Lemma arriving_dropped s n w data off :
  arriving s n w data off -> len data = 0 \/ 0 < off -> received s s n.
Proof using Type.
  intros Ha Hd; destruct Ha as [Hok Hn Hnext Hcon Hseq Hasm Hholes Hw (la & Hla & He) _ _ Hfin Hopen].
  pose proof (fin_received_range s).
  split_and!; [done| | |done|done].
  - split; try done. exists (w - fin_received s); split; [lia|]; rewrite Hla, He; f_equal; lia.
  - split; [|done|intros Hf; destruct (Hfin Hf); lia].
    destruct (rx_window s Hok) as (_ & ? & _); unfold rx_next in *; lia.
Qed.

Lemma receive_payload_ok s n w data off :
  arriving s n w data off ->
  exists r s', receive_payload cx ip repr data off s = Ret (r, s') /\ received s s' n.
Proof using Type.
  intros Ha; pose proof Ha as [Hok Hn Hnext Hcon Hseq Hasm Hholes Hw Hedge Ho Hdata Hfin Hopen].
  pose proof (holes_ok_fit stream s n (proj1 (ok_rx s Hok)) Hholes) as Hfit.
  destruct (receive_payload_cases s data off Hok Hasm Hfit) as
    [[-> Hd]|(k & rx & a & r & s' & Hj & Hd & -> & Hao & Hedge')]; [lia|lia| |].
  { do 2 eexists; split; [done|]; by apply (arriving_dropped s n w data off). }
  pose proof (joined_ok s n w data off k rx a Ha Hj) as (Hok1 & Hseq1 & Hholes1 & Hdata1).
  exists r, s'; split; [done|]; destruct Hedge' as [Hf|[Hsame Hnone]].
  - apply (fresh_received s (with_rx rx a s) s' n); try done; apply Hj.
  - split_and!; [by apply (ack_only_sock_ok (with_rx rx a s))| |by apply (ack_only_rx_data _ (with_rx rx a s))|apply Hao..].
    apply (ack_only_rx_live _ _ (with_rx rx a s)); [done|done|]; split; [done|apply Hj|done| |done].
    by apply (joined_edge s n w data off k).
Qed.

(** ** The whole handler *)

Lemma measure_ack_rst s : ctl repr = CRst -> exists info, measure_ack cx repr s = Ret (info, s).
Proof using Type.
  intros E; unfold measure_ack; rewrite E; destruct (sent_flags (state s)); eexists; done.
Qed.

Lemma effective_control_rst ws : ctl repr = CRst -> effective_control repr ws = CRst.
Proof using Type. intros E; unfold effective_control; by rewrite E. Qed.

Lemma effective_control_not_rst ws : ctl repr <> CRst -> effective_control repr ws <> CRst.
Proof using Type.
  intros E; unfold effective_control; destruct (ctl repr); cbn; try done; by destruct (seq_lt _ _).
Qed.

Lemma effective_control_fin ws :
  effective_control repr ws = CFin -> ctl repr = CFin /\ seq_lt ws (seq_num repr) = false.
Proof using Type.
  unfold effective_control; destruct (ctl repr); cbn; try done; by destruct (seq_lt _ _).
Qed.

(** What the stages before the payload hand on. *)
Lemma arriving_ok s n k w data off s3 s4 info a :
  sock_ok s -> rx_live stream irs s n -> rx_data stream s n -> valid_segment stream irs s n repr k ->
  edge_ok irs s n w -> trimmed s n w k data off ->
  advanced (with_local_rx_last_seq (Some (seq_num repr)) s) s3
    (effective_control repr (i32 (irs + rx_next s n))) info ->
  acked s3 s4 info a -> arriving s4 n w data off.
Proof using Hrepr.
  intros Hok Hl Hd Hv [Hw He] [Hopen Hoff Hend Hdata] Hadv [(R & E & S) Hok4 _ _ _ _].
  destruct Hadv as [(A1 & A2 & A3) (A4 & A5) _ Afin Aseq [Aopen1 Aopen2] _].
  cbn -[seq_add] in A1, A2, A3, A4, A5, Afin, Aseq, Aopen1, Aopen2.
  set (c := effective_control _ _) in *.
  assert (Hc : c = CFin -> ctl repr = CFin /\ k <= rx_next s n).
  { intros Ec; apply effective_control_fin in Ec as [Hctl Hlt]; split; [done|].
    pose proof (vs_near _ _ _ _ _ _ Hv); rewrite (vs_seq _ _ _ _ _ _ Hv), seq_lt_pos in Hlt; lia. }
  assert (Hf0 : fin_received s = 0) by (unfold fin_received; by rewrite Hopen).
  pose proof (live_seq _ _ _ _ Hl) as Hseq; rewrite Hf0 in *.
  destruct R as (R1 & R2 & R3 & R4 & R5), E as (E1 & E2).
  assert (Hnext : rx_next s4 n = rx_next s n) by (unfold rx_next; by rewrite R1, A1).
  pose proof (vs_range _ _ _ _ _ _ Hv); pose proof (len_nonneg data).
  assert (Hseq4 : remote_seq_no s4 = i32 (irs + n + fin_received s4)).
  { rewrite R3; unfold fin_received; rewrite R4, Afin.
    destruct (bool_decide (c = CFin)) eqn:Eb; cbn [to_usize].
    - destruct Aseq as [Aseq|[? _]]; [|done]; rewrite Hseq in Aseq; cbn [to_usize] in Aseq.
      rewrite seq_add_pos in Aseq by lia; injection Aseq as <-; f_equal; lia.
    - assert (Hs3 : remote_seq_no s3 = remote_seq_no s).
      { destruct Aseq as [Aseq|[_ ?]]; [|done]; rewrite Hseq in *; cbn [to_usize] in Aseq.
        rewrite seq_add_pos in Aseq by lia; injection Aseq as <-; f_equal; lia. }
      by rewrite Hs3, Hseq, Hopen. }
  split.
  - exact Hok4.
  - apply Hd.
  - rewrite Hnext; by apply rx_data_next.
  - rewrite R1, A1; apply Hd.
  - exact Hseq4.
  - rewrite R2, A2; apply Hl.
  - intros p; rewrite Hnext, R1, R2, A1, A2; apply Hl.
  - rewrite R1, A1; lia.
  - rewrite E1, E2, R5, A3, A4, A5, Hnext; destruct (remote_last_ack s) as [la|]; [|done].
    exists la; split; [done|]; rewrite He; f_equal; lia.
  - split; lia.
  - by rewrite Hnext.
  - rewrite R4, Afin, Hnext, Hopen; destruct (bool_decide_reflect (c = CFin)) as [Ec|]; [|done]; intros _.
    destruct (Hc Ec) as [Hctl Hk]; destruct (vs_fin _ _ _ _ _ _ Hv Hctl) as [Hend' Hfit].
    assert (Hwin : edge_ok irs s n w) by (split; [rewrite Hf0; lia|rewrite Hf0; exact He]).
    specialize (Hfit w Hwin); lia.
  - rewrite S, R4, Afin; destruct (bool_decide_reflect (c = CFin)) as [Ec|Hn].
    + by destruct (Aopen1 Ec) as [_ ->].
    + rewrite (Aopen2 Hn); exact (live_open _ _ _ _ Hl).
Qed.

Lemma acked_tx_live s s2 s3 s4 s5 m d info a c :
  sock_ok s -> tx_live sent iss s m -> ack_at s d -> ack_num repr = Some a -> info_for s d info ->
  tx_same s s2 -> state s2 = state s -> advanced s2 s3 c info -> acked s3 s4 info a ->
  tx_same s4 s5 -> state s5 = state s4 -> state s5 <> Closed ->
  tx_live sent iss s5 (m + ack_len info) /\ 0 <= ack_len info.
Proof using Type.
  intros Hok [Hm Hdata Hlocal Hacked (o & Ho & Hlast)] [Ha Hd] Ha' [Hi1 Hi2] T2 S2 Hadv Hak T5 S5 Hnc.
  pose proof (proj1 (ok_tx s Hok)) as Htx; pose proof (tx_length s Hok).
  rewrite Ha' in Ha; injection Ha as Ha.
  destruct Hadv as [_ _ T3 _ _ _ [Hcl|[Hsy Hfin]]]; [destruct Hak as [(_ & _ & S4) _ _ _ _ _]; congruence|].
  destruct Hak as [(_ & _ & S4) _ K1 K2 K3 K4].
  destruct T2 as (B1 & B2 & B3 & _), T3 as (C1 & C2 & C3 & _), T5 as (D1 & D2 & D3 & _).
  assert (Etx : tx_buffer s3 = tx_buffer s) by congruence.
  assert (Elast : remote_last_seq s3 = remote_last_seq s) by congruence.
  rewrite Etx in *; rewrite Elast in *.
  pose proof (len_contents _ Htx) as Hlen; rewrite Hdata, len_zdrop in Hlen.
  rewrite S2 in Hfin; assert (Est : state s5 = state s3) by congruence; rewrite <-Est in Hfin.
  pose proof (fin_sent_range (state s)); pose proof (fin_acked_range (state s)).
  assert (Hex : fin_sent (state s) = 1 -> fin_acked (state s) = 0) by (by destruct (state s)).
  set (P := iss + m + fin_acked (state s)) in *.
  assert (Hal : a = i32 (P + d)) by (by rewrite Ha, Hlocal, i32_add).
  assert (Hlast5 : remote_last_seq s5 = i32 (P + Z.max o d)).
  { rewrite D3, K4, Hlast, Hal, seq_lt_pos by lia; destruct (Z.ltb_spec (P + o) (P + d)); f_equal; lia. }
  assert (Hlen5 : rb_length (tx_buffer s5) = rb_length (tx_buffer s) - ack_len info) by (by rewrite D1, K2).
  assert (Hcase : (ack_of_fin info = true /\ fin_sent (state s) = 1 /\ d = rb_length (tx_buffer s) + 1 /\ ack_len info = d - 1 /\
      fin_acked (state s5) = 1 /\ fin_sent (state s5) = 0) \/
    (ack_len info = d /\ d <= rb_length (tx_buffer s) /\ fin_acked (state s5) = fin_acked (state s) /\
      fin_sent (state s5) = fin_sent (state s))).
  { destruct (ack_of_fin info); [left|right]; lia. }
  clear Hi1 Hi2 Hfin K4.
  split; [|lia]; split.
  - lia.
  - rewrite D1, K1, Hdata, zdrop_zdrop by lia; done.
  - rewrite D2, K3, Hal; f_equal; unfold P; lia.
  - intros Hf; rewrite Hlen5; lia.
  - exists (Z.max o d - d); split; [lia|]; rewrite Hlast5; f_equal; unfold P; lia.
Qed.

(** An early return that keeps the invariant. *)
Definition settles (n m : Z) (f : outcome (flow (option packet * socket * context))) : Prop :=
  exists r s' m', m <= m' /\ conn_inv stream irs sent iss s' n m' /\
    (f = Ret (Return r s') \/ f = Ret (Continue (r, s', cx))).

Lemma returns_settles {A} (m0 : outcome (flow A)) (k : A -> outcome (flow _)) s1 n m :
  returns m0 s1 -> conn_inv stream irs sent iss s1 n m -> settles n m (fbind m0 k).
Proof using Type.
  intros (r & s' & -> & Hao) Hi; cbn [fbind]; exists r, s', m; split; [lia|]; split; [|by left].
  by apply (ack_only_conn_inv _ _ _ _ s1).
Qed.

Lemma closed_inv s1 s2 n :
  rx_same s1 s2 -> tx_same s1 s2 -> edge_same s1 s2 -> state s2 = Closed ->
  sock_ok s1 -> rx_data stream s1 n -> forall m, conn_inv stream irs sent iss s2 n m.
Proof using Type.
  intros (E1 & E2 & E3 & E4 & E5) (F1 & F2 & F3 & F4 & F5 & F6) [E6 E7] Hst [O1 O2 O3 O4 O5 O6 O7] [D1 D2 D3] m.
  split; [|split; unfold rx_next in *; rewrite ?E1, ?E4; done|by left].
  split; rewrite ?E1, ?F1, ?E7, ?E5, ?F4, ?F5, ?F6; done.
Qed.

(** The stages after the state machine, which has gone from [s2] to [s3]. *)
Lemma process_rest_ok s n m k w d data off info rt s3 :
  sock_ok s -> rx_live stream irs s n -> rx_data stream s n -> tx_live sent iss s m ->
  valid_segment stream irs s n repr k -> edge_ok irs s n w -> trimmed s n w k data off -> ack_at s d ->
  info_for s d info ->
  let s2 := with_rtte rt (with_local_rx_last_seq (Some (seq_num repr)) s) in
  advanced s2 s3 (effective_control repr (i32 (irs + rx_next s n))) info ->
  exists rep s5 m',
    (let! s := update_remote cx repr info s3 in
     let! (r, s) := receive_payload cx ip repr data off s in
     Ret (Continue (r, s, cx))) = Ret (Continue (rep, s5, cx)) /\
    m <= m' /\ conn_inv stream irs sent iss s5 n m' /\ state s5 = state s3.
Proof using Hrepr.
  intros Hok Hl Hd Ht Hv He Htr [Ha Hdr] Hi s2 Hadv; pose proof Hadv as [_ _ T3 _ _ _ _].
  assert (Hok2 : sock_ok s2) by (destruct Hok; by split).
  pose proof (tx_length s Hok); pose proof (fin_sent_range (state s)).
  assert (Hlen : 0 <= ack_len info <= rb_length (tx_buffer s3)).
  { destruct T3 as (-> & _); change (tx_buffer s2) with (tx_buffer s); destruct Hi as [H1 H2].
    destruct (ack_of_fin info); lia. }
  assert (Hok3 : sock_ok s3).
  { destruct Hadv as [(A1 & A2 & A3) [A4 A5] (B1 & B2 & B3 & B4 & B5 & B6) _ _ _ _]; destruct Hok2.
    split; rewrite ?A1, ?B1, ?A5, ?A3, ?B4, ?B5, ?B6; done. }
  destruct (update_remote_ok s3 info _ Hok3 Hrepr Ha Hlen) as (s4 & -> & Hak); cbn [obind].
  assert (Harr : arriving s4 n w data off).
  { apply (arriving_ok s n k w data off s3 s4 info _ Hok Hl Hd Hv He Htr) with (2 := Hak).
    destruct Hadv as [G1 G2 G3 G4 G5 G6 G7]; split; assumption. }
  destruct (receive_payload_ok s4 n w data off Harr) as (rep & s5 & -> & Hok5 & Hl5 & Hd5 & T5 & S5); cbn [obind].
  assert (S53 : state s5 = state s3) by (destruct Hak as [(_ & _ & S4) _ _ _ _ _]; congruence).
  destruct (decide (state s5 = Closed)) as [Hcl|Hnc].
  { exists rep, s5, m; split; [done|]; split; [lia|]; split; [|done]; split; [done|done|by left]. }
  assert (T2 : tx_same s s2) by (unfold tx_same; split_and!; reflexivity).
  destruct (acked_tx_live s s2 s3 s4 s5 m d info _ _ Hok Ht (conj Ha Hdr) Ha Hi T2 eq_refl Hadv Hak T5 S5 Hnc)
    as [Ht5 Hp].
  exists rep, s5, (m + ack_len info); split; [done|]; split; [lia|]; split; [|done].
  split; [done|done|right]; split; [|done].
  destruct Hadv as [_ _ _ _ _ _ [Hcl|[Hsy _]]]; congruence.
Qed.

(** The stages after the window check, for a segment that is no reset. *)
Lemma process_tail_ok s n m k w d data off :
  sock_ok s -> rx_live stream irs s n -> rx_data stream s n -> tx_live sent iss s m ->
  synced (state s) = true -> valid_segment stream irs s n repr k -> edge_ok irs s n w ->
  trimmed s n w k data off -> ctl repr <> CRst -> ack_at s d ->
  let s1 := with_local_rx_last_seq (Some (seq_num repr)) s in
  settles n m
    (let! (info, s2) := measure_ack cx repr s1 in
     let? (s, cx) := update_state cx ip repr info (effective_control repr (i32 (irs + rx_next s n))) s2 in
     let! s := update_remote cx repr info s in
     let! (r, s) := receive_payload cx ip repr data off s in
     Ret (Continue (r, s, cx))).
Proof using Hrepr.
  intros Hok Hl Hd Ht Hs Hv He Htr Hc Hat s1.
  assert (Hok1 : sock_ok s1) by (by apply (ack_only_sock_ok s); [quiet|]).
  assert (Hls : seq_ok (local_seq_no s)) by (rewrite (live_local _ _ _ _ Ht); apply seq_ok_i32).
  destruct (measure_ack_ok s1 d Hok1 Hs Hls Hc Hat) as (info & r & -> & Hi); cbn [obind].
  set (s2 := with_rtte r s1).
  assert (Hao2 : ack_only s s2) by quiet.
  assert (Hok2 : sock_ok s2) by (by apply (ack_only_sock_ok s)).
  assert (Hl2 : rx_live stream irs s2 n) by (by apply (ack_only_rx_live _ _ s)).
  destruct (update_state_ok s2 n info (effective_control repr (i32 (irs + rx_next s n))) Hok2 Hl2 Hs) as
    [Hret|(s3 & -> & Hadv)].
  { by apply effective_control_not_rst. }
  { destruct Hi as [Hi _]; intros E; rewrite E in Hi; change (state s2) with (state s); change (state s1) with (state s) in Hi; lia. }
  { apply (returns_settles _ _ s2); [done|].
    apply (ack_only_conn_inv _ _ _ _ s); [done|]; split; [done|done|by right]. }
  cbn [fbind].
  destruct (process_rest_ok s n m k w d data off info r s3 Hok Hl Hd Ht Hv He Htr Hat Hi Hadv)
    as (rep & s5 & m' & E & Hm & Hinv & _).
  exists rep, s5, m'; split; [done|]; split; [done|by right].
Qed.

Lemma process_ok s n m k :
  conn_inv stream irs sent iss s n m -> state s <> Closed -> valid_segment stream irs s n repr k ->
  exists r s' m', process cx ip repr s = Ret (r, s', cx) /\ m <= m' /\ conn_inv stream irs sent iss s' n m'.
Proof using Hrepr.
  intros Hinv Hnc Hv; pose proof Hinv as [Hok Hd [?|(Hs & Hl & Ht)]]; [done|].
  enough (Hset : settles n m (process_flow cx ip repr s)).
  { destruct Hset as (r & s' & m' & Hm & Hi & Hf); unfold process.
    by destruct Hf as [-> | ->]; cbn [obind]; exists r, s', m'. }
  assert (Hls : seq_ok (local_seq_no s)) by (rewrite (live_local _ _ _ _ Ht); apply seq_ok_i32).
  unfold process_flow.
  destruct (check_ack_ok s n Hok Hl Hs Hls) as [Hret|[-> Hcase]]; [by apply (returns_settles _ _ s)|].
  cbn [fbind]; destruct (live_edge _ _ _ _ Hl) as [w He].
  destruct (trim_payload_ok s n k w Hok Hl Hd Hs Hv He) as [Hret|(data & off & -> & Htr)];
    [by apply (returns_settles _ _ s)|].
  cbn [fbind]; destruct (decide (ctl repr = CRst)) as [Hrst|Hrst].
  - set (s1 := with_local_rx_last_seq _ s); destruct (measure_ack_rst s1 Hrst) as [info ->]; cbn [obind].
    rewrite effective_control_rst by done.
    destruct (update_state_rst s1 info Hs) as (s2 & -> & S2 & R2 & T2 & E2); cbn [fbind].
    exists None, s2, m; split; [lia|]; split; [|by left].
    apply (closed_inv s1 s2 n); [done..| |]; [by destruct Hok|by destruct Hd].
  - destruct Hcase as [?|[d Hat]]; [done|].
    exact (process_tail_ok s n m k w d data off Hok Hl Hd Ht Hs Hv He Htr Hrst Hat).
Qed.
End Receive.
