(* ===== verification/TcpTransmit.v ===== *)
(** The transmit path of an open connection: [dispatch] never panics, keeps the
    connection's invariant, and what it emits is the user's stream. *)

From Stdlib Require Import ZArith Lia ZifyBool.
From stdpp Require Import base list numbers.
From S2P Require Import Prelude Assembler RingBuffer Time TcpWire TcpTimer Iface TcpState TcpSocket.
From S2P Require Import TcpProcess TcpDispatch TcpInv.

(** Guarded subtractions: [if a >= b { a - b } else { 0 }]. *)
Lemma seq_diff_guard a b :
  exists n, (if seq_ge a b then seq_diff a b else Ret 0) = Ret n /\ 0 <= n.
Proof.
  unfold seq_ge, seq_diff; destruct (Z.leb_spec 0 (i32 (a - b))).
  - rewrite (proj2 (Z.ltb_ge _ _)) by lia; by eexists.
  - exists 0; split; [done|lia].
Qed.

Section Transmit.
Context (D : socket -> Z -> Prop) (HD : rx_only D) (Hreset : forall s n, D s n -> D (reset s) n).
Context (stream : list Z) (irs : Z) (sent : list Z) (iss : Z) (cx : context).

Lemma seq_to_transmit_ret s :
  sock_ok s -> sk_tuple s <> None -> exists b, seq_to_transmit cx s = Ret b.
Proof using Type.
  intros Hok Ht; unfold seq_to_transmit; destruct (sk_tuple s); [|done].
  pose proof (ok_win_len s Hok); pose proof (tx_length s Hok).
  destruct (match state s with SynSent | SynReceived => true | _ => false end && _); [by eexists|].
  rewrite seq_add_small by lia; cbn [obind].
  destruct (seq_diff_guard (i32 (local_seq_no s + Z.min (remote_win_len s) (rb_length (tx_buffer s))))
    (remote_last_seq s)) as (n & -> & _); cbn [obind].
  rewrite seq_add_small by lia; destruct (want_fin _); cbn [obind]; by eexists.
Qed.

Lemma window_to_update_ret s n :
  sock_ok s -> state s = Closed \/ rx_live stream irs s n -> synced (state s) = true \/ state s = Closed ->
  exists b, window_to_update s = Ret b.
Proof using Type.
  intros Hok Hl Hs; unfold window_to_update.
  assert (Hopen : rx_open (state s) = true -> exists o, last_scaled_window s = Ret o).
  { intros Ho; destruct Hl as [E|Hl]; [by rewrite E in Ho|].
    pose proof (live_open _ _ _ _ Hl) as Hf; rewrite Ho in Hf; cbn [negb] in Hf; destruct (live_edge _ _ _ _ Hl) as (w & Hw & He).
    unfold last_scaled_window; destruct (remote_last_ack s) as [la|]; [|by eexists].
    destruct (rx_window s Hok) as (Hwin & Hlen & Hcap); rewrite (live_seq _ _ _ _ Hl).
    unfold fin_received in *; rewrite Hf in *; cbn [to_usize] in *.
    rewrite seq_add_pos by lia; cbn [obind].
    destruct (usize_shl_eq (remote_last_win s) (remote_win_shift s)) as [E Hr]; [apply Hok|apply Hok|].
    rewrite E, seq_add_small by lia; cbn [obind]; rewrite He, seq_diff_pos by (unfold rx_next; lia).
    cbn [obind]; by eexists. }
  destruct (state s) eqn:Est; try (by eexists); try (destruct Hs; done);
    destruct (Hopen eq_refl) as [[o|] ->]; cbn [obind]; by eexists.
Qed.

Lemma ack_to_transmit_ret s : sock_ok s -> exists b, ack_to_transmit s = Ret b.
Proof using Type.
  intros Hok; destruct (rx_window s Hok) as (_ & ? & ?); unfold ack_to_transmit.
  destruct (remote_last_ack s); [|by eexists]; rewrite seq_add_small by lia; by eexists.
Qed.

(** ** Timers *)

Lemma live_inv_eq s s' n m :
  rx_same s s' -> edge_same s s' -> state s' = state s -> tx_buffer s' = tx_buffer s ->
  local_seq_no s' = local_seq_no s -> remote_win_len s' = remote_win_len s -> remote_mss s' = remote_mss s ->
  remote_win_scale s' = remote_win_scale s ->
  remote_last_seq s' = remote_last_seq s \/ remote_last_seq s' = local_seq_no s ->
  live_inv D stream irs sent iss s n m -> live_inv D stream irs sent iss s' n m.
Proof using Type HD.
  intros R E S T1 T2 T4 T5 T6 [T3|T3] Hi;
    [apply (ack_only_live_inv _ _ _ _ _ s); [done| |done]; split_and!; auto; unfold tx_same; split_and!; done|].
  assert (Hao : ack_only s (with_remote_last_seq (remote_last_seq s) s')).
  { split_and!; [done| |done|by left]; unfold tx_same; split_and!; done. }
  destruct (ack_only_live_inv _ _ _ _ _ _ _ n m HD Hao Hi) as [H1 H2 H3].
  split; [destruct H1; by split|by apply (HD (with_remote_last_seq (remote_last_seq s) s'))|].
  destruct H3 as [H3|(H3 & H4 & H5)]; [by left|right]; split; [done|]; split; [destruct H4; by split|].
  destruct H5 as [L1 L2 L3 L4 L5]; split; [done..|]. cbn in L3; change (local_seq_no (with_remote_last_seq (remote_last_seq s) s')) with (local_seq_no s') in L3.
  pose proof (fin_sent_range (state s')); pose proof (len_nonneg sent).
  exists 0; split.
  - destruct Hi as [Hok _ _]; pose proof (tx_length s Hok); rewrite T1; lia.
  - rewrite Z.add_0_r, T3, <-T2; exact L3.
Qed.

Lemma closed_live_inv s n m :
  state s = Closed -> sock_ok s -> D s n -> live_inv D stream irs sent iss s n m.
Proof using Type. intros; split; [done|done|by left]. Qed.

Lemma fire_timers_ok s n m :
  live_inv D stream irs sent iss s n m -> sk_tuple s <> None ->
  exists s', fire_timers cx s = Ret s' /\ live_inv D stream irs sent iss s' n m /\ sk_tuple s' = sk_tuple s /\
    hop_limit s' = hop_limit s /\ (state s' = state s \/ state s' = Closed).
Proof using Type HD.
  intros Hi Ht; unfold fire_timers.
  set (s1 := match remote_last_ts s with None => _ | Some _ => s end).
  assert (H1 : live_inv D stream irs sent iss s1 n m /\ sk_tuple s1 = sk_tuple s /\ state s1 = state s /\
    hop_limit s1 = hop_limit s).
  { subst s1; destruct (remote_last_ts s); split_and!; try done.
    apply (ack_only_live_inv _ _ _ _ _ s); [done|quiet|done]. }
  clearbody s1; destruct H1 as (Hi1 & Et & Es & Eh); pose proof Hi1 as [Hok1 Hd1 Hl1].
  destruct (timed_out s1 (cx_now cx)).
  { eexists; split; [done|]; split; [|split_and!; auto].
    apply closed_live_inv; [done|destruct Hok1; by split|by apply (HD s1)]. }
  destruct (seq_to_transmit_ret s1 Hok1) as [b ->]; [by rewrite Et|]; cbn [obind].
  destruct (negb b && _); (eexists; split; [reflexivity|]; split; [|split_and!; auto]); [|done].
  apply (live_inv_eq s1); unfold rx_same, edge_same; split_and?; try done; by right.
Qed.

Lemma decide_send_ret s n m :
  live_inv D stream irs sent iss s n m -> sk_tuple s <> None -> exists r, decide_send cx s = Ret r.
Proof using Type.
  intros [Hok Hd Hl] Ht; unfold decide_send.
  destruct (seq_to_transmit_ret s Hok Ht) as [b ->]; cbn [obind]; destruct b; [by eexists|].
  destruct (ack_to_transmit_ret s Hok) as [b ->]; cbn [obind]; destruct (b && _); [by eexists|].
  destruct (window_to_update_ret s n Hok) as [u ->];
    [destruct Hl as [?|(_ & ? & _)]; auto|destruct Hl as [?|(? & _)]; auto|].
  cbn [obind]; destruct u; [by eexists|]; repeat (case_match; try (by eexists)).
Qed.

(** ** The segment *)

(** A segment that carries the user's bytes from position [m + o] on: what is
    sent and not acknowledged starts at [m]. *)
Record carries (s : socket) (m : Z) (r : tcp_repr) (o : Z) : Prop := {
  car_seq : seq_num r = i32 (iss + m + fin_acked (state s) + o);
  car_payload : payload r = ztake (len (payload r)) (zdrop (m + o) sent);
  car_offset : 0 <= o;
  car_end : o + len (payload r) + control_len (ctl r) <= rb_length (tx_buffer s) + fin_sent (state s);
  car_fin : ctl r = CFin -> m + o + len (payload r) = len sent /\ want_fin (state s) = true;
  car_ctl : ctl r = CNone \/ ctl r = CPsh \/ ctl r = CFin;
}.

Record built (s : socket) (m : Z) (r : tcp_repr) : Prop := {
  bu_seq : seq_num r = remote_last_seq s;
  bu_ack : exists ack, seq_add (remote_seq_no s) (rb_length (rx_buffer s)) = Ret ack /\ ack_num r = Some ack;
  bu_win : window_len r = scaled_window s;
  bu_data : (state s = Closed /\ payload r = [] /\ ctl r = CRst) \/
            (synced (state s) = true /\ exists o, carries s m r o);
  bu_mss : len (payload r) <= remote_mss s /\ len (payload r) <= local_mss cx;
  bu_window : len (payload r) <= Z.max 1 (remote_win_len s);
}.

Lemma local_mss_nonneg : 0 <= local_mss cx.
Proof using Type. unfold local_mss, usize; mlia. Qed.

Lemma guard_window a o w : (o < 2147483648)%Z -> 0 <= o -> 0 <= w <= 1073741824 ->
  exists n, (if seq_ge (i32 (a + w)) (i32 (a + o)) then seq_diff (i32 (a + w)) (i32 (a + o)) else Ret 0) = Ret n /\
    n = Z.max 0 (w - o).
Proof using Type.
  intros H1 H2 H3; rewrite seq_ge_pos by lia; destruct (Z.leb_spec (a + o) (a + w)).
  - rewrite seq_diff_pos by lia; eexists; split; [done|lia].
  - exists 0; split; [done|lia].
Qed.

Lemma data_repr_ok s m r :
  sock_ok s -> tx_live sent iss s m -> fin_acked (state s) = 0 ->
  payload r = [] -> ctl r = CNone -> seq_num r = remote_last_seq s ->
  exists r' probe o, data_repr cx s r = Ret (r', probe) /\ carries s m r' o /\
    seq_num r' = remote_last_seq s /\ ack_num r' = ack_num r /\ window_len r' = window_len r /\
    len (payload r') <= remote_mss s /\ len (payload r') <= local_mss cx /\
    len (payload r') <= Z.max 1 (remote_win_len s).
Proof using Type.
  intros Hok [Hm Hdata Hlocal _ (o & Ho & Hlast)] Hfa Hp Hc Hseq.
  pose proof (ok_win_len s Hok) as Hwin; pose proof (tx_length s Hok) as Htl; pose proof (ok_mss s Hok).
  pose proof (fin_sent_range (state s)); pose proof local_mss_nonneg.
  pose proof (proj1 (ok_tx s Hok)) as Hi; rewrite Hfa in *; rewrite Z.add_0_r in *.
  pose proof (len_contents _ Hi) as Hlen; rewrite Hdata, len_zdrop in Hlen.
  unfold data_repr; rewrite Hlocal, Hlast, seq_add_pos by lia; cbn [obind].
  destruct (guard_window (iss + m) o (remote_win_len s)) as (lim & -> & Hlim); [lia..|]; cbn [obind].
  set (probe := (lim =? 0) && _); set (lim' := if probe then 1 else lim).
  assert (Hl' : 0 <= lim' <= Z.max 1 (remote_win_len s)) by (subst lim' lim; destruct probe; lia).
  clearbody probe lim'.
  rewrite seq_diff_pos by lia; cbn [obind]; replace (iss + m + o - (iss + m)) with o by lia.
  set (size := Z.min _ _); destruct (get_allocated_spec (tx_buffer s) o size Hi) as (k & Hk & Hk0 & ->); [lia..|].
  cbn [obind]; rewrite Hdata, zdrop_zdrop by lia.
  assert (Hkl : len (ztake k (zdrop (m + o) sent)) = k).
  { rewrite len_ztake, len_zdrop; revert Hk; zcase; lia. }
  assert (Hke : o <= rb_length (tx_buffer s) -> o + k <= rb_length (tx_buffer s)) by (revert Hk; zcase; lia).
  assert (Hk1 : rb_length (tx_buffer s) < o -> k = 0) by (revert Hk; zcase; lia).
  assert (Hsz : k <= size).
  { revert Hk; zcase; pose proof (get_idx_range (tx_buffer s) o Hi); lia. }
  rewrite Hkl, usize_small by lia.
  assert (Hgoal : forall c, (c = CNone \/ c = CPsh \/ (c = CFin /\ want_fin (state s) = true /\ o + k = rb_length (tx_buffer s))) ->
    carries s m (with_control c (with_payload (seq_num r) (ztake k (zdrop (m + o) sent)) r)) o).
  { intros c Hcc; split; cbn [seq_num payload ctl with_control with_payload]; rewrite ?Hkl, ?Hfa, ?Z.add_0_r; try done.
    - by rewrite Hseq, Hlast.
    - lia.
    - assert (Hfs : want_fin (state s) = true -> fin_sent (state s) = 1) by (by destruct (state s)).
      destruct Hcc as [-> |[-> |(-> & Hw & He)]]; cbn [control_len]; [| |specialize (Hfs Hw)]; lia.
    - intros Ec; destruct Hcc as [Hcc|[Hcc|(_ & Hw & He)]]; try congruence; split; [lia|done].
    - destruct Hcc as [?|[?|(? & _)]]; auto. }
  assert (Hself : with_payload (seq_num r) (ztake k (zdrop (m + o) sent)) r =
    with_control CNone (with_payload (seq_num r) (ztake k (zdrop (m + o) sent)) r)).
  { unfold with_control, with_payload; cbn; by rewrite Hc. }
  set (r1 := with_payload _ _ r) in *.
  assert (Hctl : exists c, (if o + k =? rb_length (tx_buffer s) then
      match state s with
      | FinWait1 | LastAck | Closing => with_control CFin r1
      | Established | CloseWait => if negb (k =? 0) then with_control CPsh r1 else r1
      | _ => r1 end else r1) = with_control c r1 /\
      (c = CNone \/ c = CPsh \/ (c = CFin /\ want_fin (state s) = true /\ o + k = rb_length (tx_buffer s)))).
  { destruct (Z.eqb_spec (o + k) (rb_length (tx_buffer s))); [|exists CNone; split; [exact Hself|by left]].
    destruct (state s); try (exists CNone; split; [exact Hself|by left]);
      try (exists CFin; split; [done|by right; right]);
      (destruct (negb (k =? 0)); [exists CPsh; split; [done|by right; left]|exists CNone; split; [exact Hself|by left]]). }
  destruct Hctl as (c & -> & Hcc); exists (with_control c r1), probe, o.
  split; [done|]; split; [by apply Hgoal|].
  cbn [seq_num payload ack_num window_len with_control]; unfold r1; cbn [seq_num payload ack_num window_len with_payload].
  rewrite Hkl; split_and!; try done; lia.
Qed.

Lemma build_repr_ok s n m t :
  live_inv D stream irs sent iss s n m ->
  exists r probe, build_repr cx s t = Ret (Some (r, probe)) /\ built s m r.
Proof using Type.
  intros [Hok Hd Hl]; destruct (rx_window s Hok) as (_ & ? & ?); unfold build_repr.
  pose proof (ok_mss s Hok); pose proof local_mss_nonneg; pose proof (ok_win_len s Hok).
  rewrite seq_add_small by lia; cbn [obind].
  set (ack := i32 _); set (r := base_repr s t ack).
  assert (Hack : exists a, seq_add (remote_seq_no s) (rb_length (rx_buffer s)) = Ret a /\ Some ack = Some a).
  { rewrite seq_add_small by lia; by eexists. }
  destruct Hl as [Hc|(Hs & Hr & Ht)].
  { rewrite Hc; do 2 eexists; split; [done|]; split; try done; [by left|..]; change (len (payload _)) with 0; lia. }
  assert (Hplain : fin_acked (state s) = 1 -> state s = FinWait2 \/ state s = TimeWait ->
    exists r probe, Ret (Some (base_repr s t ack, false)) = Ret (Some (r, probe)) /\ built s m r).
  { intros Hfa Hst; do 2 eexists; split; [done|]; pose proof (live_last _ _ _ _ Ht) as (o & Ho & Hlast).
    assert (fin_sent (state s) = 0) by (destruct Hst as [-> | ->]; done).
    split; try done; [right; split; [done|]; exists o; split; cbn; auto; try done;
        rewrite ?len_nil; lia| |];
      change (len (payload _)) with 0; lia. }
  assert (Hdata : fin_acked (state s) = 0 ->
    exists r probe, (let! p := data_repr cx s (base_repr s t ack) in Ret (Some p)) = Ret (Some (r, probe)) /\ built s m r).
  { intros Hfa; destruct (data_repr_ok s m (base_repr s t ack) Hok Ht Hfa eq_refl eq_refl eq_refl)
      as (r' & probe & o & E & Hcar & Eseq & Eack & Ewin & Hb1 & Hb2 & Hb3); rewrite E; cbn [obind].
    exists r', probe; split; [done|]; split; try done.
    - rewrite Eack; done.
    - right; split; [done|]; by exists o. }
  subst r; destruct (state s); try discriminate Hs; auto.
Qed.

(** The keep-alive byte: it repeats the number before the next one to send. *)
Lemma finish_repr_ok s m r :
  built s m r ->
  exists r' ka, finish_repr cx s r = Ret (r', ka) /\ (ka = false -> r' = r) /\
    (ka = true -> payload r' = [0] /\ seq_num r' = i32 (remote_last_seq s - 1) /\ ctl r' = ctl r /\
      should_keep_alive (sk_timer s) (cx_now cx) = true).
Proof using Type.
  intros Hb; assert (Hc : ctl r <> CSyn).
  { destruct (bu_data _ _ _ Hb) as [(_ & _ & ->)|(_ & o & Hcar)]; [done|].
    destruct (car_ctl _ _ _ _ Hcar) as [-> |[-> | ->]]; done. }
  unfold finish_repr; destruct (should_keep_alive _ _ && repr_is_empty r) eqn:E; cbn [obind].
  - rewrite (bu_seq _ _ _ Hb); unfold seq_sub, i32_max.
    rewrite (proj2 (Z.ltb_ge _ _)) by lia; cbn [obind].
    change (ctl (with_payload (i32 (remote_last_seq s - 1)) [0] r)) with (ctl r).
    rewrite bool_decide_eq_false_2 by done; do 2 eexists; split; [done|]; split; [done|].
    intros _; apply andb_prop in E as [E _]; done.
  - rewrite bool_decide_eq_false_2 by done; do 2 eexists; split; [done|]; split; done.
Qed.

Lemma after_emit_quiet s s' n m :
  live_inv D stream irs sent iss s n m ->
  rx_same s s' -> tx_same s s' -> edge_same s s' -> state s' = state s -> live_inv D stream irs sent iss s' n m.
Proof using Type HD. intros Hi R T E S; apply (ack_only_live_inv _ _ _ _ _ s); [done| |done]; split_and!; auto. Qed.

Lemma carries_live s m r o :
  sock_ok s -> tx_live sent iss s m -> carries s m r o ->
  0 <= segment_len r /\ segment_len r = len (payload r) + control_len (ctl r) /\
  segment_len r <= 1073741825.
Proof using Type.
  intros Hok Ht Hcar; pose proof (tx_length s Hok); pose proof (car_end _ _ _ _ Hcar).
  pose proof (car_offset _ _ _ _ Hcar); pose proof (fin_sent_range (state s)); pose proof (len_nonneg (payload r)).
  assert (0 <= control_len (ctl r)) by (destruct (ctl r); cbn; lia).
  unfold segment_len; rewrite usize_small by lia; lia.
Qed.

Lemma after_emit_ok s n m r probe ka :
  live_inv D stream irs sent iss s n m -> built s m r ->
  exists s', after_emit cx r probe ka s = Ret s' /\ live_inv D stream irs sent iss s' n m.
Proof using Type HD.
  intros Hi Hb; pose proof Hi as [Hok Hd Hl]; unfold after_emit.
  set (s1 := with_sk_ack_delay_timer AIdle _).
  assert (Hi1 : live_inv D stream irs sent iss s1 n m).
  { apply (after_emit_quiet s); unfold rx_same, tx_same, edge_same; split_and?; done. }
  destruct probe; [eexists; split; [reflexivity|];
    apply (after_emit_quiet s1); unfold rx_same, tx_same, edge_same; split_and?; done|].
  destruct ka; [by exists s1|].
  assert (Hseg : 0 <= segment_len r <= 1073741825).
  { destruct (bu_data _ _ _ Hb) as [(_ & Hp & Hc)|(Hs & o & Hcar)].
    - unfold segment_len; rewrite Hp, Hc; split; by vm_compute.
    - destruct Hl as [Hc|(_ & _ & Ht)]; [by rewrite Hc in Hs|]; pose proof (carries_live s m r o Hok Ht Hcar); lia. }
  rewrite seq_add_small by lia; cbn [obind].
  set (s2 := with_remote_last_win _ _); set (s3 := if 0 <? segment_len r then _ else s2).
  set (s4 := if (0 <? segment_len r) && _ then _ else s3).
  set (s5 := if state_eqb _ _ then _ else s4).
  assert (H5 : rx_same s2 s5 /\ tx_same s2 s5 /\ edge_same s2 s5 /\ state s5 = state s2).
  { subst s5 s4 s3; destruct (0 <? segment_len r), (negb _); cbn [andb];
      destruct (state_eqb _ _); unfold rx_same, tx_same, edge_same; split_and!; done. }
  exists s5; split; [done|]; destruct H5 as (R & T & E & S).
  enough (live_inv D stream irs sent iss s2 n m) by (by apply (after_emit_quiet s2)); clear s3 s4 s5 R T E S.
  destruct (scaled_window_ok s Hok) as [Hsw _]; destruct (bu_ack _ _ _ Hb) as (ack & Hack & Eack).
  assert (Hok2 : sock_ok s2).
  { destruct Hok as [O1 O2 O3 O4 O5 O6 O7]; split; try done; cbn; by rewrite (bu_win _ _ _ Hb). }
  assert (Hd2 : D s2 n) by (by apply (HD s)).
  destruct (bu_data _ _ _ Hb) as [(Hc & _)|(Hs & o & Hcar)]; [by apply closed_live_inv|].
  split; [done|done|right]; split; [done|].
  destruct Hl as [Hc|(_ & [L1 L2 L3 L4 L5] & Ht)]; [by rewrite Hc in Hs|].
  split.
  - assert (Hf2 : edge_fresh s2).
    { split; [exists ack; split; [exact Hack|exact Eack]|exact (bu_win _ _ _ Hb)]. }
    destruct (edge_fresh_ok irs s2 n Hok2 L1 Hf2) as (w & _ & Hw); split; try done; by exists w.
  - pose proof (carries_live s m r o Hok Ht Hcar) as (_ & Hsl & _); destruct Ht as [T1 T2 T3 T4 _].
    split; [done..|]; exists (o + segment_len r); pose proof (car_end _ _ _ _ Hcar); pose proof (car_offset _ _ _ _ Hcar).
    split; [change (tx_buffer s2) with (tx_buffer s); change (state s2) with (state s); lia|].
    change (remote_last_seq s2) with (i32 (seq_num r + segment_len r)).
    rewrite (car_seq _ _ _ _ Hcar), i32_add; change (state s2) with (state s); f_equal; lia.
Qed.

Lemma reset_inv s n m :
  sock_ok s -> D s n -> live_inv D stream irs sent iss (reset s) n m.
Proof using Type HD Hreset.
  intros Hok Hd; apply closed_live_inv; [done|by apply reset_sock_ok|by apply Hreset].
Qed.

(** ** The whole of [dispatch] *)

Lemma fire_timers_keep_alive s s1 :
  fire_timers cx s = Ret s1 -> should_keep_alive (sk_timer s1) (cx_now cx) = true ->
  keep_alive s <> None \/ should_keep_alive (sk_timer s) (cx_now cx) = true.
Proof using Type.
  unfold fire_timers; set (s0 := match remote_last_ts s with None => _ | Some _ => s end).
  assert (E : keep_alive s0 = keep_alive s /\ sk_timer s0 = sk_timer s) by (subst s0; by destruct (remote_last_ts s)).
  clearbody s0; destruct E as [Ek Et].
  destruct (timed_out s0 (cx_now cx)); [intros [= <-]; cbn; rewrite Et; auto|].
  destruct (seq_to_transmit cx s0) as [b|]; [|done]; cbn [obind].
  destruct (negb b && _); intros [= <-]; cbn; rewrite ?Et, ?Ek; [|auto].
  destruct (keep_alive s); [by left|done].
Qed.

Lemma fire_timers_same s s1 :
  fire_timers cx s = Ret s1 -> rx_same s s1 /\ remote_mss s1 = remote_mss s /\ remote_win_len s1 = remote_win_len s.
Proof using Type.
  unfold fire_timers; set (s0 := match remote_last_ts s with None => _ | Some _ => s end).
  assert (E : rx_same s s0 /\ remote_mss s0 = remote_mss s /\ remote_win_len s0 = remote_win_len s)
    by (subst s0; unfold rx_same; by destruct (remote_last_ts s)).
  clearbody s0; destruct (timed_out s0 (cx_now cx)); [intros [= <-]; exact E|].
  destruct (seq_to_transmit cx s0) as [b|]; [|done]; cbn [obind].
  destruct (negb b && _); intros [= <-]; exact E.
Qed.

(** A segment of the connection: it goes to the peer and acknowledges exactly
    what has been received; it is an empty segment, a piece of the user's stream
    at its place that respects the peer's window and MSS, or a keep-alive probe;
    its FIN stands at the end of the stream. *)
Record sound_segment (s : socket) (t : tcp_tuple) (ip : ip_repr) (r : tcp_repr) : Prop := {
  so_src : ip_src ip = ep_addr (tup_local t);
  so_dst : ip_dst ip = ep_addr (tup_remote t);
  so_len : ip_payload_len ip = buffer_len r;
  so_ack : ack_num r = Some (i32 (remote_seq_no s + rb_length (rx_buffer s)));
  so_data : payload r = [] \/
    (exists q, 0 <= q /\ q + len (payload r) <= len sent /\ seq_num r = i32 (iss + q) /\
       payload r = ztake (len (payload r)) (zdrop q sent) /\ len (payload r) <= remote_mss s /\
       len (payload r) <= local_mss cx /\ len (payload r) <= Z.max 1 (remote_win_len s)) \/
    (payload r = [0] /\ (keep_alive s <> None \/ should_keep_alive (sk_timer s) (cx_now cx) = true));
  so_fin : ctl r = CFin -> seq_num r = i32 (iss + len sent - len (payload r));
}.

Lemma built_sound s s1 t m r r' ka :
  (synced (state s1) = true -> tx_live sent iss s1 m /\ sock_ok s1) ->
  fire_timers cx s = Ret s1 -> built s1 m r ->
  (ka = false -> r' = r) ->
  (ka = true -> payload r' = [0] /\ seq_num r' = i32 (remote_last_seq s1 - 1) /\ ctl r' = ctl r /\
      should_keep_alive (sk_timer s1) (cx_now cx) = true) -> repr_is_empty r || negb ka = true ->
  ack_num r' = ack_num r -> rb_length (rx_buffer s) <= 1073741824 -> 0 <= rb_length (rx_buffer s) ->
  forall hop, sound_segment s t
    {| ip_src := ep_addr (tup_local t); ip_dst := ep_addr (tup_remote t);
       ip_payload_len := buffer_len r'; ip_hop_limit := hop |} r'.
Proof using Type.
  intros Hlive Hf Hb Hk0 Hk1 Hemp Hack Hl1 Hl0 hop; destruct (fire_timers_same _ _ Hf) as ((R1 & _ & R3 & _) & Em & Ew).
  assert (Hack' : ack_num r' = Some (i32 (remote_seq_no s + rb_length (rx_buffer s)))).
  { rewrite Hack; destruct (bu_ack _ _ _ Hb) as (a & Ea & ->); rewrite R1, R3, seq_add_small in Ea by lia.
    by injection Ea as <-. }
  destruct ka.
  - destruct (Hk1 eq_refl) as (Hp & _ & Hc & Hka); split; try done.
    + right; right; split; [done|]; by apply (fire_timers_keep_alive s s1).
    + intros Hfin; rewrite Hc in Hfin; unfold repr_is_empty in Hemp; rewrite Hfin in Hemp.
      by destruct (negb (len (payload r) =? 0)).
  - rewrite (Hk0 eq_refl) in *; destruct (bu_mss _ _ _ Hb) as [Hm1 Hm2]; pose proof (bu_window _ _ _ Hb) as Hw.
    rewrite Em, Ew in *; destruct (bu_data _ _ _ Hb) as [(_ & Hp & Hc)|(Hs & o & Hcar)].
    + split; try done; [by left|congruence].
    + destruct (Hlive Hs) as [Ht Hok]; pose proof (live_acked _ _ _ _ Ht) as Hfa.
      pose proof (proj1 (ok_tx s1 Hok)) as Hi; pose proof (len_contents _ Hi) as Hlen.
      rewrite (live_data _ _ _ _ Ht), len_zdrop in Hlen; pose proof (live_m _ _ _ _ Ht).
      pose proof (car_offset _ _ _ _ Hcar); pose proof (len_nonneg (payload r)).
      pose proof (f_equal len (car_payload _ _ _ _ Hcar)) as Hpl; rewrite len_ztake, len_zdrop in Hpl.
      pose proof (fin_acked_range (state s1)).
      assert (Hz : fin_acked (state s1) = 1 -> want_fin (state s1) = false) by (by destruct (state s1)).
      split; try done.
      * destruct (Z.eq_dec (len (payload r)) 0) as [E0|Hne]; [left; by apply len_zero_nil|].
        right; left; exists (m + o); split_and!; try done; [lia|lia| |by apply Hcar].
        rewrite (car_seq _ _ _ _ Hcar); f_equal; lia.
      * intros Hfin; destruct (car_fin _ _ _ _ Hcar Hfin) as [Hend Hwf]; rewrite (car_seq _ _ _ _ Hcar).
        assert (fin_acked (state s1) = 0) by (destruct (Z.eq_dec (fin_acked (state s1)) 1) as [E|]; [|lia]; rewrite Hz in Hwf by done; done).
        f_equal; lia.
Qed.

Lemma live_dispatch_ok {E} (emit : packet -> result unit E) s n m :
  live_inv D stream irs sent iss s n m ->
  exists p res s', dispatch emit cx s = Ret (p, res, s') /\ live_inv D stream irs sent iss s' n m /\
    (forall ip r, p = Some (ip, r) -> exists t, sk_tuple s = Some t /\ sound_segment s t ip r).
Proof using Type HD Hreset.
  intros Hi; pose proof Hi as [Hok Hd _]; unfold dispatch.
  destruct (sk_tuple s) as [t|] eqn:Et; [|by exists None, (Ok ()), s].
  destruct (negb _); [exists None, (Ok ()), (reset s); split; [done|]; split; [by apply reset_inv|done]|].
  destruct (fire_timers_ok s n m Hi) as (s1 & Ef & Hi1 & Et1 & Eh & _); [by rewrite Et|]; rewrite Ef; cbn [obind].
  pose proof Hi1 as [Hok1 Hd1 Hl1].
  destruct (decide_send_ret s1 n m Hi1) as [reason ->]; [by rewrite Et1, Et|]; cbn [obind].
  assert (Hsend : exists p res s',
    (let! built := build_repr cx s1 t in
     match built with
     | None => Ret (None, Ok (), s1)
     | Some (r, probe) =>
         let! (r, keep_alive_sent) := finish_repr cx s1 r in
         let p := ({| ip_src := ep_addr (tup_local t); ip_dst := ep_addr (tup_remote t);
                      ip_payload_len := buffer_len r;
                      ip_hop_limit := match hop_limit s1 with Some h => h | None => 64 end |}, r) in
         match emit p with
         | Err e => Ret (Some p, Err e, s1)
         | Ok _ => let! s := after_emit cx r probe keep_alive_sent s1 in Ret (Some p, Ok (), s)
         end
     end) = Ret (p, res, s') /\ live_inv D stream irs sent iss s' n m /\
    (forall ip r, p = Some (ip, r) -> exists t0, Some t = Some t0 /\ sound_segment s t0 ip r)).
  { destruct (build_repr_ok s1 n m t Hi1) as (r & probe & -> & Hb); cbn [obind].
    destruct (finish_repr_ok s1 m r Hb) as (r' & ka & E' & Hk0 & Hk1); rewrite E'; cbn [obind].
    assert (Hemp : repr_is_empty r || negb ka = true).
    { unfold finish_repr in E'; destruct (should_keep_alive _ _ && repr_is_empty r) eqn:Eb; cbn [obind] in E'.
      - apply andb_prop in Eb as [_ ->]; done.
      - injection E' as _ <-; by rewrite orb_true_r. }
    assert (Hs : forall hop, sound_segment s t {| ip_src := ep_addr (tup_local t); ip_dst := ep_addr (tup_remote t);
       ip_payload_len := buffer_len r'; ip_hop_limit := hop |} r').
    { destruct (rx_window s Hok) as (_ & ? & ?); apply (built_sound s s1 t m r r' ka); try done; try lia.
      2: { unfold finish_repr in E'; destruct (should_keep_alive _ _ && repr_is_empty r); cbn [obind] in E'.
           - destruct (seq_sub _ _); [|done]; cbn [obind] in E'; injection E' as <- _; by destruct (bool_decide _).
           - injection E' as <- _; by destruct (bool_decide _). }
      destruct Hl1 as [Hc|(_ & _ & ?)]; [by rewrite Hc|auto]. }
    destruct (emit _) as [u|e].
    - assert (Hb' : ka = false -> built s1 m r') by (intros Hka; by rewrite (Hk0 Hka)).
      destruct ka.
      + assert (Ea : exists s', after_emit cx r' probe true s1 = Ret s' /\ live_inv D stream irs sent iss s' n m).
        { destruct (after_emit_ok s1 n m r probe true Hi1 Hb) as (s' & E2 & Hi2).
          exists s'; split; [|done]; rewrite <-E2; unfold after_emit; by destruct probe. }
        destruct Ea as (s' & -> & Hi'); cbn [obind]; do 3 eexists; split; [done|]; split; [done|].
        intros ? ? [= <- <-]; by exists t.
      + destruct (after_emit_ok s1 n m r' probe false Hi1 (Hb' eq_refl)) as (s' & -> & Hi'); cbn [obind].
        do 3 eexists; split; [done|]; split; [done|]; intros ? ? [= <- <-]; by exists t.
    - do 3 eexists; split; [done|]; split; [done|]; intros ? ? [= <- <-]; by exists t. }
  destruct reason; try exact Hsend.
  - exists None, (Ok ()), (reset s1); split; [done|]; split; [by apply reset_inv|done].
  - by exists None, (Ok ()), s1.
Qed.
End Transmit.

(** What the user reads stays, unless the socket is reset. *)
Lemma rx_data_reset stream s n : rx_data stream s n -> rx_data stream (reset s) n.
Proof. intros [D1 D2 D3]; split; [done| |done]; cbn; unfold contents; cbn; by rewrite !ztake_0. Qed.

Lemma dispatch_ok stream irs sent iss cx {E} (emit : packet -> result unit E) s n m :
  conn_inv stream irs sent iss s n m ->
  exists p res s', dispatch emit cx s = Ret (p, res, s') /\ conn_inv stream irs sent iss s' n m /\
    (forall ip r, p = Some (ip, r) -> exists t, sk_tuple s = Some t /\ sound_segment sent iss cx s t ip r).
Proof.
  rewrite conn_inv_live; intros H.
  destruct (live_dispatch_ok _ (rx_data_only stream) (rx_data_reset stream) stream irs sent iss cx emit s n m H)
    as (p & res & s' & Hd & Hi & Hp); exists p, res, s'; by rewrite conn_inv_live.
Qed.
