(* ===== verification/TcpConnection.v ===== *)
(** A connection as a whole: every interleaving of received segments,
    transmissions and calls of the user, from an open connection on.  The user
    reads a prefix of the peer's stream, the peer is sent pieces of the user's
    stream, and nothing panics. *)

From Stdlib Require Import ZArith Lia ZifyBool.
From stdpp Require Import base list numbers.
From S2P Require Import Prelude Assembler RingBuffer Time TcpWire TcpTimer Iface TcpState TcpSocket.
From S2P Require Import TcpProcess TcpDispatch TcpInv TcpReceive TcpTransmit.

(** ** Events *)

Inductive event : Type :=
| EvSegment (cx : context) (ip : ip_repr) (r : tcp_repr)
| EvDispatch (cx : context) (sent_ok : bool)
| EvRecv
| EvRecvSlice (room : Z)
| EvSend (data : list Z)
| EvClose
| EvAbort.

(** The closure of a reader that takes all it is offered. *)
Definition take_all (buf : list Z) : list Z * Z * list Z := (buf, len buf, buf).

(** The interface hands a segment to a socket that accepts it.  Answers the
    socket, the bytes the user got and the number of bytes it handed in. *)
Definition conn_event (s : socket) (e : event) : outcome (socket * list Z * list Z) :=
  match e with
  | EvSegment cx ip r =>
      if accepts s ip r then let! (_, s, _) := process cx ip r s in Ret (s, [], [])
      else Ret (s, [], [])
  | EvDispatch cx sent_ok =>
      let! (_, _, s) := dispatch (fun _ => if sent_ok then Ok () else Err ()) cx s in Ret (s, [], [])
  | EvRecv =>
      let! (res, s) := recv take_all s in
      Ret (s, match res with Ok data => data | Err _ => [] end, [])
  | EvRecvSlice room =>
      let! (res, s) := recv_slice room s in
      Ret (s, match res with Ok (_, data) => data | Err _ => [] end, [])
  | EvSend data =>
      let! (res, s) := send_slice data s in
      Ret (s, [], match res with Ok n => ztake n data | Err _ => [] end)
  | EvClose => Ret (close s, [], [])
  | EvAbort => Ret (abort s, [], [])
  end.

(** ** The user's calls *)

Section Calls.
Context (D : socket -> Z -> Prop) (HD : rx_only D) (stream : list Z) (irs iss : Z).

(** Taking [c] bytes from the receive buffer moves the place of the next one. *)
Lemma dequeued_rx_live s n c rx :
  sock_ok s -> rx_live stream irs s n -> 0 <= c <= rb_length (rx_buffer s) ->
  rb_inv rx -> capacity rx = capacity (rx_buffer s) -> contents rx = zdrop c (contents (rx_buffer s)) ->
  free_kept (rx_buffer s) rx ->
  let s' := with_remote_seq_no (i32 (remote_seq_no s + c)) (with_rx_buffer rx s) in
  sock_ok s' /\ rx_live stream irs s' (n + c) /\ rx_next s' (n + c) = rx_next s n /\
  rb_length rx = rb_length (rx_buffer s) - c.
Proof using Type.
  intros Hok [L1 L2 L3 (w & Hw1 & Hw2) L5] Hc Hi Hcap Hcon Hfree s'; destruct (rx_window s Hok) as (Hw & Hlen & Hcap').
  pose proof (len_contents _ Hi) as Hlc; rewrite Hcon, len_zdrop, len_contents in Hlc by apply Hok.
  assert (Hlx : rb_length rx = rb_length (rx_buffer s) - c) by lia.
  assert (Hwx : window rx = window (rx_buffer s) + c) by (rewrite window_eq by done; lia).
  assert (Hn' : rx_next s' (n + c) = rx_next s n) by (unfold rx_next; change (rx_buffer s') with rx; lia).
  split; [|split; [|done]].
  { destruct Hok as [[? ?] O2 O3 O4 O5 O6 O7]; split; try done; split; [done|]; change (rx_buffer s') with rx; lia. }
  split; try done.
  - change (remote_seq_no s') with (i32 (remote_seq_no s + c)); rewrite L1, i32_add; f_equal.
    change (fin_received s') with (fin_received s); lia.
  - intros p Hp Hcov; rewrite Hn'; destruct (L3 p Hp Hcov) as (b & Hb & Hb').
    exists b; split; [|done]; change (rx_buffer s') with rx; rewrite <-Hb; apply Hfree; split; [done|].
    exact (holes_window stream s n p (proj1 (ok_rx s Hok)) L3 Hp Hcov).
  - exists w; split; [change (rx_buffer s') with rx; change (fin_received s') with (fin_received s); lia|].
    rewrite Hn'; exact Hw2.
Qed.

Lemma live_send_slice s sent n m data :
  live_inv D stream irs sent iss s n m -> len data < M64 ->
  exists res s', send_slice data s = Ret (res, s') /\
    live_inv D stream irs (sent ++ match res with Ok c => ztake c data | Err _ => [] end) iss s' n m.
Proof using HD.
  intros Hi Hlen; pose proof Hi as [Hok Hd Hl]; unfold send_slice, send_impl.
  destruct (may_send s) eqn:Ems; cbn [negb]; [|do 2 eexists; split; [done|]; by rewrite app_nil_r].
  pose proof (ok_tx s Hok) as [Hti Htc].
  destruct (enqueue_slice_spec (tx_buffer s) data Hti Hlen) as (tx & -> & Htx & Hcx & Hcon); cbn [obind].
  set (c := Z.min (len data) (window (tx_buffer s))) in *.
  set (s1 := if 0 <? c then _ else with_tx_buffer tx s).
  do 2 eexists; split; [reflexivity|]; cbn iota beta.
  pose proof (len_contents _ Htx) as Hlx; rewrite Hcon, len_app, len_contents in Hlx by done.
  assert (Hc : 0 <= c) by (subst c; pose proof (len_nonneg data); pose proof (window_eq _ Hti); destruct Hti as (_ & _ & ? & _); lia).
  assert (Hlc : len (ztake c data) = c) by (rewrite len_ztake; lia).
  assert (H1 : live_inv D stream irs (sent ++ ztake c data) iss (with_tx_buffer tx s) n m).
  { split; [destruct Hok as [O1 O2 O3 O4 O5 O6 O7]; split; try done; split; [done|by rewrite <-Hcx in Htc]|
            by apply (HD s)|].
    destruct Hl as [Hcl|(Hs & Hr & [T1 T2 T3 T4 (o & Ho & T5)])]; [by left|right].
    split; [done|]; split; [by destruct Hr|].
    assert (Hfa : fin_acked (state s) = 0) by (unfold may_send in Ems; by destruct (state s)).
    split; try done.
    - rewrite len_app; lia.
    - change (tx_buffer (with_tx_buffer tx s)) with tx; by rewrite Hcon, T2, zdrop_app_le by lia.
    - change (state (with_tx_buffer tx s)) with (state s); by rewrite Hfa.
    - exists o; change (tx_buffer (with_tx_buffer tx s)) with tx; split; [|exact T5].
      change (state (with_tx_buffer tx s)) with (state s); lia. }
  apply (ack_only_live_inv _ _ _ _ _ (with_tx_buffer tx s)); [done| |done].
  subst s1; destruct (0 <? c); [|apply ack_only_refl].
  destruct (rb_length (tx_buffer s) =? 0); cbn [remote_win_len sk_timer with_remote_last_ts];
    destruct ((_ =? 0) && _); quiet.
Qed.

(** Closing only announces our FIN. *)
Lemma close_cases s :
  synced (state s) = true \/ state s = Closed ->
  close s = s \/ (state s = Established /\ close s = set_state FinWait1 s) \/
  (state s = CloseWait /\ close s = set_state LastAck s).
Proof using Type.
  unfold close; destruct (state s); intros [H|H]; try discriminate H; auto.
Qed.

Lemma live_close s sent n m :
  live_inv D stream irs sent iss s n m -> live_inv D stream irs sent iss (close s) n m.
Proof using HD.
  intros Hi; pose proof Hi as [Hok Hd Hl].
  assert (Hmove : forall st, synced (state s) = true -> synced st = true -> fin_acked st = 0 -> fin_acked (state s) = 0 ->
    fin_sent (state s) = 0 -> rx_open st = rx_open (state s) ->
    live_inv D stream irs sent iss (set_state st s) n m).
  { intros st H0 H1 H2 H3 H4 H5; split; [destruct Hok; by split|by apply (HD s)|right].
    split; [done|]; destruct Hl as [Hc|(_ & [L1 L2 L3 L4 L5] & [T1 T2 T3 T4 (o & Ho & T5)])]; [by rewrite Hc in H0|].
    split; split; try done; cbn [state set_state with_state]; rewrite ?H2; rewrite ?H3 in *; try done.
    - by rewrite H5.
    - exists o; pose proof (fin_sent_range st); split; [cbn [tx_buffer set_state with_state]; lia|exact T5]. }
  destruct (close_cases s) as [-> |[[E ->]|[E ->]]]; [destruct Hl as [?|(? & _)]; auto|done|..];
    rewrite E in *; by apply Hmove.
Qed.

Lemma live_abort s sent n m :
  live_inv D stream irs sent iss s n m -> live_inv D stream irs sent iss (abort s) n m.
Proof using HD.
  intros [Hok Hd _]; split; [destruct Hok; by split|by apply (HD s)|by left].
Qed.
End Calls.

Section Connection.
Context (stream : list Z) (irs iss : Z).

(** ** The user's calls keep the invariant *)

Lemma recv_check_ok s n sent m :
  conn_inv stream irs sent iss s n m ->
  match recv_error_check s with
  | Ok _ => True
  | Err RecvFinished => n = len stream
  | Err RecvInvalidState => rb_length (rx_buffer s) = 0
  end.
Proof using Type.
  intros [Hok Hd _]; unfold recv_error_check.
  destruct (negb (may_recv s)) eqn:E; [|done].
  assert (Hlen : rb_length (rx_buffer s) = 0).
  { unfold may_recv, can_recv, rb_is_empty in E; destruct (state s); try discriminate E;
      revert E; destruct (Z.eqb_spec (rb_length (rx_buffer s)) 0); done. }
  destruct (rx_fin_received s) eqn:Ef; [|done].
  pose proof (data_fin _ _ _ Hd Ef) as H; unfold rx_next in H; lia.
Qed.

(** Taking [c] bytes from the receive buffer. *)
Lemma dequeued_inv s sent n m c rx :
  conn_inv stream irs sent iss s n m -> 0 <= c <= rb_length (rx_buffer s) ->
  rb_inv rx -> capacity rx = capacity (rx_buffer s) -> contents rx = zdrop c (contents (rx_buffer s)) ->
  free_kept (rx_buffer s) rx ->
  exists q, seq_add (remote_seq_no s) c = Ret q /\
    conn_inv stream irs sent iss (with_remote_seq_no q (with_rx_buffer rx s)) (n + c) m /\
    n + c <= len stream.
Proof using Type.
  intros Hv Hc Hi Hcap Hcon Hfree; pose proof Hv as [Hok Hd Hl]; destruct (rx_window s Hok) as (Hw & Hlen & Hcap').
  pose proof (rx_data_next stream s n Hok Hd) as Hnext; unfold rx_next in Hnext.
  pose proof (len_contents _ Hi) as Hlc; rewrite Hcon, len_zdrop, len_contents in Hlc by apply Hok.
  rewrite seq_add_small by lia; eexists; split; [done|]; split; [|lia].
  set (s' := with_remote_seq_no _ _).
  assert (Hn' : rx_next s' (n + c) = rx_next s n) by (unfold rx_next; change (rx_buffer s') with rx; lia).
  split.
  - destruct Hok as [[? ?] O2 O3 O4 O5 O6 O7]; split; try done; split; [done|].
    change (rx_buffer s') with rx; lia.
  - destruct Hd as [D1 D2 D3]; split; [lia| |intros Hf; rewrite Hn'; by apply D3].
    change (rx_buffer s') with rx; rewrite Hcon, D2, zdrop_ztake, zdrop_zdrop by lia; do 2 f_equal; lia.
  - destruct Hl as [Hcl|(Hs & Hr & Ht)]; [by left|right].
    split; [done|]; split; [|by destruct Ht].
    by destruct (dequeued_rx_live stream irs s n c rx Hok Hr Hc Hi Hcap Hcon Hfree) as (_ & ? & _).
Qed.

Lemma contents_prefix s n c :
  sock_ok s -> rx_data stream s n -> 0 <= c <= rb_length (rx_buffer s) ->
  ztake c (contents (rx_buffer s)) = ztake c (zdrop n stream).
Proof using Type.
  intros Hok [_ D2 _] Hc; rewrite D2, ztake_ztake; f_equal; lia.
Qed.

Definition delivers (s : socket) (n : Z) (data : list Z) (s' : socket) (sent : list Z) (m : Z) : Prop :=
  data = ztake (len data) (zdrop n stream) /\ n + len data <= len stream /\
  conn_inv stream irs sent iss s' (n + len data) m.

Lemma delivers_nothing s n s' sent m :
  conn_inv stream irs sent iss s' n m -> delivers s n [] s' sent m.
Proof using Type.
  intros Hi; pose proof (data_range _ _ _ (inv_data _ _ _ _ _ _ _ Hi)).
  split; [by rewrite ztake_0|]; rewrite len_nil, Z.add_0_r; split; [lia|done].
Qed.

Lemma recv_ok s sent n m :
  conn_inv stream irs sent iss s n m ->
  exists res s', recv take_all s = Ret (res, s') /\
    delivers s n (match res with Ok data => data | Err _ => [] end) s' sent m.
Proof using Type.
  intros Hi; pose proof Hi as [Hok Hd _]; unfold recv, recv_impl.
  destruct (recv_error_check s) as [u|e]; [|do 2 eexists; split; [done|]; by apply delivers_nothing].
  destruct (rx_window s Hok) as (Hw & Hlen & Hcap); pose proof (proj1 (ok_rx s Hok)) as Hri.
  destruct (dequeue_many_with_spec take_all (rx_buffer s) Hri) as
    (c & data & rx & Ef & Hc & Hm & Hlm & -> & Hrx & Hcx & Hconx & _ & _ & Hk).
  { intros buf sl k r [= <- <- <-]; pose proof (len_nonneg buf); split; [done|lia]. }
  unfold take_all in Ef; injection Ef as Ec Ed; cbn [obind].
  destruct (dequeued_inv s sent n m c rx Hi) as (q & Eq & Hinv & Hle); [lia|done..|].
  change (remote_seq_no (with_rx_buffer rx s)) with (remote_seq_no s); rewrite Eq; cbn [obind].
  do 2 eexists; split; [done|].
  assert (Hdata : data = ztake c (contents (rx_buffer s))) by (rewrite <-Ed, <-Ec, Hlm; done).
  rewrite (contents_prefix s n c) in Hdata by (done || lia).
  assert (Hld : len data = c) by (by rewrite <-Ed).
  split; [by rewrite Hld|]; rewrite Hld; done.
Qed.

Lemma recv_slice_ok s sent n m room :
  conn_inv stream irs sent iss s n m -> 0 <= room < M64 ->
  exists res s', recv_slice room s = Ret (res, s') /\
    delivers s n (match res with Ok (_, data) => data | Err _ => [] end) s' sent m.
Proof using Type.
  intros Hi Hroom; pose proof Hi as [Hok Hd _]; unfold recv_slice, recv_impl.
  destruct (recv_error_check s) as [u|e]; [|do 2 eexists; split; [done|]; by apply delivers_nothing].
  destruct (rx_window s Hok) as (Hw & Hlen & Hcap); pose proof (proj1 (ok_rx s Hok)) as Hri.
  destruct (dequeue_slice_spec (rx_buffer s) room Hri Hroom) as (rx & -> & Hrx & Hcx & Hconx & Hk); cbn [obind].
  set (c := Z.min room (rb_length (rx_buffer s))) in *.
  destruct (dequeued_inv s sent n m c rx Hi) as (q & Eq & Hinv & Hle); [lia|done..|].
  change (remote_seq_no (with_rx_buffer rx s)) with (remote_seq_no s); rewrite Eq; cbn [obind].
  do 2 eexists; split; [done|]; cbn iota beta.
  rewrite (contents_prefix s n c) by (done || lia).
  assert (Hld : len (ztake c (zdrop n stream)) = c).
  { rewrite len_ztake, len_zdrop; pose proof (data_range _ _ _ Hd); lia. }
  unfold delivers; rewrite Hld; done.
Qed.

Lemma send_slice_ok s sent n m data :
  conn_inv stream irs sent iss s n m -> len data < M64 ->
  exists res s', send_slice data s = Ret (res, s') /\
    conn_inv stream irs (sent ++ match res with Ok c => ztake c data | Err _ => [] end) iss s' n m.
Proof using Type.
  rewrite conn_inv_live; intros Hi Hl.
  destruct (live_send_slice _ (rx_data_only stream) stream irs iss s sent n m data Hi Hl) as (res & s' & E & H).
  exists res, s'; by rewrite conn_inv_live.
Qed.

Lemma close_ok s sent n m :
  conn_inv stream irs sent iss s n m -> conn_inv stream irs sent iss (close s) n m.
Proof using Type. rewrite !conn_inv_live; apply live_close, rx_data_only. Qed.

Lemma abort_ok s sent n m :
  conn_inv stream irs sent iss s n m -> conn_inv stream irs sent iss (abort s) n m.
Proof using Type. rewrite !conn_inv_live; apply live_abort, rx_data_only. Qed.

(** ** Runs *)

(** The peer sends pieces of its stream, lengths are those of slices. *)
Definition valid_event (s : socket) (n : Z) (e : event) : Prop :=
  match e with
  | EvSegment cx ip r => repr_ok r /\ exists k, valid_segment stream irs s n r k
  | EvRecvSlice room => 0 <= room < M64
  | EvSend data => len data < M64
  | _ => True
  end.

Lemma conn_event_ok s sent n m e :
  conn_inv stream irs sent iss s n m -> valid_event s n e ->
  exists s' got took m', conn_event s e = Ret (s', got, took) /\
    got = ztake (len got) (zdrop n stream) /\ n + len got <= len stream /\
    conn_inv stream irs (sent ++ took) iss s' (n + len got) m'.
Proof using Type.
  intros Hi Hv; pose proof (data_range _ _ _ (inv_data _ _ _ _ _ _ _ Hi)) as Hn.
  assert (Hsame : forall s' m', conn_inv stream irs sent iss s' n m' -> exists s'' got took m'',
    Ret (s', [], []) = Ret (s'', got, took) /\ got = ztake (len got) (zdrop n stream) /\
    n + len got <= len stream /\ conn_inv stream irs (sent ++ took) iss s'' (n + len got) m'').
  { intros s' m' H; exists s', [], [], m'; rewrite app_nil_r, len_nil, Z.add_0_r, ztake_0 by lia.
    split_and!; done || lia. }
  destruct e as [cx ip r|cx sent_ok| |room|data| |]; cbn [conn_event valid_event] in *.
  - destruct (accepts s ip r) eqn:Ea; [|by apply (Hsame s m)].
    destruct Hv as [Hr [k Hv]].
    destruct (process_ok stream irs sent iss cx ip r Hr s n m k Hi) as (rep & s' & m' & -> & _ & Hi'); [|done|].
    { intros E; unfold accepts in Ea; by rewrite E in Ea. }
    cbn [obind]; by apply (Hsame s' m').
  - destruct (dispatch_ok stream irs sent iss cx (fun _ => if sent_ok then Ok () else Err ()) s n m Hi)
      as (p & res & s' & -> & Hi' & _); cbn [obind]; by apply (Hsame s' m).
  - destruct (recv_ok s sent n m Hi) as (res & s' & -> & H1 & H2 & H3); cbn [obind].
    do 3 eexists; exists m; split; [done|]; rewrite app_nil_r; done.
  - destruct (recv_slice_ok s sent n m room Hi Hv) as (res & s' & -> & H1 & H2 & H3); cbn [obind].
    do 3 eexists; exists m; split; [done|]; rewrite app_nil_r; destruct res as [[? ?]|]; done.
  - destruct (send_slice_ok s sent n m data Hi Hv) as (res & s' & -> & H1); cbn [obind].
    exists s', [], (match res with Ok c => ztake c data | Err _ => [] end), m.
    rewrite len_nil, Z.add_0_r, ztake_0 by lia; split_and!; done || lia.
  - by apply (Hsame (close s) m), close_ok.
  - by apply (Hsame (abort s) m), abort_ok.
Qed.

(** [reach s0 s got sent]: a run from [s0] to [s], in which the user got the
    bytes [got] and handed in the bytes [sent]. *)
Inductive reach (s0 : socket) : socket -> list Z -> list Z -> Prop :=
| reach_start : reach s0 s0 [] []
| reach_event s got sent e s' g t :
    reach s0 s got sent -> valid_event s (len got) e -> conn_event s e = Ret (s', g, t) ->
    reach s0 s' (got ++ g) (sent ++ t).

Lemma reach_inv s0 s got sent :
  conn_inv stream irs [] iss s0 0 0 -> reach s0 s got sent ->
  got = ztake (len got) stream /\ exists m, conn_inv stream irs sent iss s (len got) m.
Proof using Type.
  intros H0 Hr; induction Hr as [|s got sent e s' g t Hr [IH [m Hi]] Hv He].
  - split; [done|]; by exists 0.
  - destruct (conn_event_ok s sent (len got) m e Hi Hv) as (s2 & g2 & t2 & m2 & E & Hg & Hle & Hi2).
    rewrite E in He; injection He as <- <- <-; rewrite len_app; split; [|by exists m2].
    pose proof (len_nonneg got); pose proof (len_nonneg g2).
    rewrite <-ztake_add, <-IH, <-Hg by lia; done.
Qed.

End Connection.
