(* ===== verification/TcpHandshake.v ===== *)
(** The client's three-way handshake: [connect], the SYN, the SYN|ACK and the
    ACK that answers it lead to an open connection. *)

From Stdlib Require Import ZArith Lia ZifyBool.
From stdpp Require Import base list numbers.
From S2P Require Import Prelude Assembler RingBuffer Time TcpWire TcpTimer Iface TcpState TcpSocket.
From S2P Require Import TcpProcess TcpDispatch TcpInv TcpReceive TcpTransmit TcpConnection.

(** A socket on its way to an open connection from [iss] on, with nothing in
    its buffers. *)
Record opening (s : socket) (t : tcp_tuple) (iss : seq_number) : Prop := {
  op_ok : sock_ok s;
  op_tuple : sk_tuple s = Some t;
  op_local : local_seq_no s = iss;
  op_iss : seq_ok iss;
  op_asm : sk_assembler s = assembler_new;
  op_rx : rb_length (rx_buffer s) = 0;
  op_tx : rb_length (tx_buffer s) = 0;
  op_fin : rx_fin_received s = false;
  op_timeout : timeout s = None;
  op_keep : keep_alive s = None;
  op_ack_timer : sk_ack_delay_timer s = AIdle;
}.

Lemma connect_ok cx cx' s s' remote local :
  sock_ok s -> timeout s = None -> keep_alive s = None ->
  connect cx remote local s = (Ok (), s', cx') ->
  exists t iss, opening s' t iss /\ state s' = SynSent /\ tup_remote t = remote /\
    ep_port (tup_local t) = lep_port local /\
    remote_last_seq s' = iss /\ remote_last_ack s' = None /\ sk_timer s' = TIdle None /\
    remote_seq_no s' = 0.
Proof.
  intros Hok Ht Hk; unfold connect; destruct (is_open s); [done|].
  destruct (_ || _); [done|]; destruct (lep_port local =? 0); [done|].
  destruct (match lep_addr local with Some _ => _ | None => _ end) as [a|]; [|done].
  unfold random_seq_no; destruct (rand_u32 (cx_rand cx)) as [n r]; intros [= <- <-].
  do 2 eexists; split.
  - pose proof (reset_sock_ok s Hok); split; try reflexivity; try done; [by destruct H|apply seq_ok_i32].
  - split_and!; done.
Qed.

Section Handshake.
Context {E : Type} (emit : packet -> result unit E).

(** The SYN: it offers the window scale and the MSS. *)
Lemma dispatch_syn cx s t iss :
  opening s t iss -> state s = SynSent -> remote_last_seq s = iss -> remote_last_ack s = None ->
  sk_timer s = TIdle None -> remote_seq_no s = 0 -> has_ip_addr cx (ep_addr (tup_local t)) = true ->
  (forall p, emit p = Ok ()) ->
  exists ip r s', dispatch emit cx s = Ret (Some (ip, r), Ok (), s') /\
    ctl r = CSyn /\ seq_num r = iss /\ ack_num r = None /\ payload r = [] /\
    window_scale r = Some (remote_win_shift s) /\
    opening s' t iss /\ state s' = SynSent /\ remote_last_seq s' = i32 (iss + 1) /\ remote_last_ack s' = None /\
    remote_seq_no s' = 0 /\ is_retransmit (sk_timer s') = true.
Proof using Type.
  intros [Hok Et El Hi Ea Hr Hx Hf Hto Hk Had] Es Els Ela Etm Ersq Hip Hemit.
  destruct (rx_window s Hok) as (_ & ? & ?).
  unfold dispatch; rewrite Et, Hip; cbn [negb].
  set (s1 := with_remote_last_ts (Some match remote_last_ts s with None => cx_now cx | Some t => t end) s).
  assert (Hsame : s1 = match remote_last_ts s with None => with_remote_last_ts (Some (cx_now cx)) s | Some _ => s end).
  { subst s1; destruct (remote_last_ts s) eqn:El2; [|done]; destruct s; cbn in *; by rewrite El2. }
  assert (Hft : fire_timers cx s = Ret s1).
  { unfold fire_timers; rewrite <-Hsame; unfold timed_out, seq_to_transmit; cbn; rewrite Hto, Et, Es, Els, El.
    rewrite Z.eqb_refl; cbn; done. }
  rewrite Hft; cbn [obind].
  assert (Hds : decide_send cx s1 = Ret SendData).
  { unfold decide_send, seq_to_transmit; cbn; rewrite Et, Es, Els, El, Z.eqb_refl; done. }
  rewrite Hds; cbn [obind]; unfold build_repr; cbn [state s1 with_remote_last_ts].
  rewrite Es; cbn [rx_buffer s1 with_remote_last_ts remote_seq_no]; rewrite Hr, seq_add_small by lia; cbn [obind].
  unfold finish_repr; cbn [sk_timer s1 with_remote_last_ts]; rewrite Etm.
  cbn [should_keep_alive andb obind]; rewrite bool_decide_eq_true_2 by done; rewrite Hemit.
  unfold after_emit; set (r := with_mss _ _).
  assert (Hr' : ctl r = CSyn /\ seq_num r = iss /\ ack_num r = None /\ payload r = [] /\
    window_scale r = Some (remote_win_shift s) /\ window_len r = u16_saturate (window (rx_buffer s))).
  { subst r; unfold syn_repr; cbn; rewrite Es, El; done. }
  destruct Hr' as (E1 & E2 & E3 & E4 & E5 & E6); clearbody r.
  assert (Esl : segment_len r = 1) by (unfold segment_len; by rewrite E1, E4).
  rewrite Esl, E2, E3, E6, seq_add_small by lia; cbn [obind Z.ltb Z.compare].
  do 3 eexists; split; [reflexivity|]; split; [done|]; split; [done|]; split; [done|]; split; [done|]; split; [done|].
  cbn; rewrite Etm, Hk; cbn; rewrite Es; cbn.
  split; [|split_and!; done]; split; try done.
  assert (Hw : 0 <= u16_saturate (window (rx_buffer s)) <= 65535).
  { unfold u16_saturate, u16_max; destruct (rx_window s Hok) as (? & _ & _).
    destruct (Z.leb_spec (window (rx_buffer s)) 65535); lia. }
  destruct Hok as [O1 O2 O3 O4 O5 O6 O7]; split; done.
Qed.

(** The options of a SYN, as the parser answers them: an MSS of 16 bits, zero
    included, and a window scale of at most 14. *)
Definition syn_options_ok (r : tcp_repr) : Prop :=
  (forall m, max_seg_size r = Some m -> 0 <= m <= 65535) /\
  (forall k, window_scale r = Some k -> 0 <= k <= 14).

(** The stage of the state machine, for a SYN|ACK in SYN-SENT. *)
Lemma syn_sent_syn_ok s t iss r :
  opening s t iss -> syn_options_ok r -> max_seg_size r <> Some 0 -> ack_num r = Some (i32 (iss + 1)) ->
  exists s', syn_sent_syn r s = Ret (Continue s') /\ opening s' t iss /\ state s' = Established /\
    remote_last_seq s' = i32 (iss + 1) /\ remote_last_ack s' = Some (seq_num r) /\
    remote_seq_no s' = i32 (seq_num r + 1) /\ sk_timer s' = sk_timer s.
Proof using Type.
  intros Hop [Hm0 Hk] Hz Ha; unfold syn_sent_syn, note_mss.
  assert (Hm : forall m, max_seg_size r = Some m -> 0 < m <= 65535).
  { intros m E0; specialize (Hm0 m E0); assert (m <> 0) by congruence; lia. }
  set (s0 := match max_seg_size r with Some m => with_remote_mss m s | None => s end).
  assert (E0 : match max_seg_size r with Some m => if m =? 0 then None else Some (with_remote_mss m s) | None => Some s end = Some s0).
  { subst s0; destruct (max_seg_size r) as [m|]; [|done]; specialize (Hm m eq_refl).
    by rewrite (proj2 (Z.eqb_neq _ _)) by lia. }
  rewrite E0; clear E0.
  assert (H0 : opening s0 t iss /\ sk_timer s0 = sk_timer s).
  { subst s0; destruct (max_seg_size r) as [m|]; [|done]; specialize (Hm m eq_refl).
    destruct Hop as [[O1 O2 O3 O4 O5 O6 O7] P2 P3 P4 P5 P6 P7 P8 P9 P10 P11]; split; [|done].
    split; try done; split; try done; cbn; lia. }
  clearbody s0; destruct H0 as [[[O1 O2 O3 O4 O5 O6 O7] P2 P3 P4 P5 P6 P7 P8 P9 P10 P11] Et].
  rewrite !seq_add_small by lia; cbn [obind]; rewrite Ha.
  eexists; split; [reflexivity|]; unfold note_syn_options.
  cbn [remote_win_scale with_remote_win_scale]; destruct (window_scale r) as [k|] eqn:Ek.
  - specialize (Hk k eq_refl).
    destruct (timestamp r); (split; [split; try done; split; try done; cbn; rewrite ?Ek; intros j [= <-]; done|]);
      cbn; rewrite P3; split_and!; done.
  - destruct (timestamp r); (split; [split; try done; split; try done; cbn; rewrite ?Ek; done|]);
      cbn; rewrite P3; split_and!; done.
Qed.

(** What acknowledging the SYN alone leaves: the timer at rest. *)
Lemma note_ack_rest r u s s' :
  is_retransmit (sk_timer s) = true -> note_ack r u s = s' ->
  sk_tuple s' = sk_tuple s /\ timeout s' = timeout s /\ keep_alive s' = keep_alive s /\
  sk_ack_delay_timer s' = sk_ack_delay_timer s /\ tx_buffer s' = tx_buffer s /\ is_retransmit (sk_timer s') = true.
Proof using Type.
  intros Ht <-; unfold note_ack, count_duplicate; destruct (ack_num r) as [a|]; [|done].
  set (d := match local_rx_last_ack s with Some _ => _ | None => _ end); clearbody d.
  destruct d; cbn [local_rx_dup_acks with_local_rx_dup_acks];
    [destruct (_ =? 3)|destruct (0 <? _)]; cbn; destruct (seq_lt _ _); by rewrite ?Ht.
Qed.

Lemma update_remote_rest cx r s s' :
  is_retransmit (sk_timer s) = true -> keep_alive s = None -> rb_length (tx_buffer s) = 0 ->
  update_remote cx r {| ack_len := 0; ack_of_fin := false; ack_all := true |} s = Ret s' ->
  sk_tuple s' = sk_tuple s /\ timeout s' = timeout s /\ keep_alive s' = None /\
  sk_ack_delay_timer s' = sk_ack_delay_timer s /\ sk_timer s' = TIdle None.
Proof using Type.
  intros Ht Hk Hl; unfold update_remote, update_window; cbn [ack_len dequeue_acked Z.ltb Z.compare].
  set (u := negb _); clearbody u; set (s1 := with_remote_win_len _ _).
  cbn [obind dequeue_acked Z.ltb Z.compare].
  destruct (note_ack_rest r u s1 (note_ack r u s1) Ht eq_refl) as (E1 & E2 & E3 & E4 & E5 & E6).
  set (s2 := note_ack r u s1) in *; clearbody s2.
  cbn in E1, E2, E3, E4, E5; rewrite Hk in E3.
  set (s3 := match timestamp r with Some _ => _ | None => _ end).
  assert (H3 : sk_tuple s3 = sk_tuple s /\ timeout s3 = timeout s /\ keep_alive s3 = None /\
    sk_ack_delay_timer s3 = sk_ack_delay_timer s /\ tx_buffer s3 = tx_buffer s /\ is_retransmit (sk_timer s3) = true).
  { subst s3; destruct (timestamp r); done. }
  clearbody s3; destruct H3 as (F1 & F2 & F3 & F4 & F5 & F6).
  assert (Eu : update_timer cx {| ack_len := 0; ack_of_fin := false; ack_all := true |} s3 =
    with_sk_timer (TIdle None) s3).
  { unfold update_timer; rewrite F3; by destruct (sk_timer s3). }
  rewrite Eu; unfold update_probe; cbn; rewrite F5; unfold rb_is_empty; rewrite Hl; cbn.
  rewrite !andb_false_r; intros [= <-]; done.
Qed.

(** Up to the state machine, the expected SYN|ACK only feeds the round-trip
    estimate. *)
Lemma process_to_syn cx ip r s t iss :
  opening s t iss -> state s = SynSent -> remote_last_seq s = i32 (iss + 1) -> remote_last_ack s = None ->
  remote_seq_no s = 0 -> repr_ok r -> ctl r = CSyn -> ack_num r = Some (i32 (iss + 1)) ->
  exists rt, opening (with_rtte rt s) t iss /\
    process cx ip r s =
      (let! f := syn_sent_syn r (with_rtte rt s) in
       match f with
       | Return p s => Ret (p, s, cx)
       | Continue s =>
           let! s := update_remote cx r {| ack_len := 0; ack_of_fin := false; ack_all := true |} s in
           Ret (None, s, cx)
       end).
Proof using Type.
  intros Hop Es Els Ela Ersq Hr Hc Ha.
  pose proof (op_local _ _ _ Hop) as El; pose proof (op_iss _ _ _ Hop) as Hi.
  pose proof (ok_payload _ Hr); pose proof (len_nonneg (payload r)).
  assert (E1 : check_ack cx ip r s = Ret (Continue ())).
  { unfold check_ack, acks_syn; rewrite Es, Hc, Ha, El, seq_add_small by lia; cbn [obind].
    by rewrite Z.eqb_refl. }
  assert (E2 : exists ws, trim_payload cx ip r s = Ret (Continue ([], 0, ws, s))).
  { unfold trim_payload, receive_window; rewrite Ersq, (op_rx _ _ _ Hop), Ela, !seq_add_small by lia.
    cbn [obind]; rewrite Es; by eexists. }
  destruct E2 as [ws E2].
  assert (E3 : exists rt, measure_ack cx r s = Ret ({| ack_len := 0; ack_of_fin := false; ack_all := true |}, with_rtte rt s)).
  { unfold measure_ack; rewrite Es, Hc, Ha, El, Els; cbn [sent_flags to_usize].
    rewrite bool_decide_eq_false_2 by done; rewrite seq_add_small by lia; cbn [obind].
    unfold seq_ge, seq_le; rewrite Z.sub_diag; change (0 <=? i32 0) with true; change (i32 0 <=? 0) with true.
    cbn iota; unfold seq_diff; rewrite Z.sub_diag; by eexists. }
  destruct E3 as [rt E3]; exists rt; split; [by destruct Hop as [[] ]; split; try done; split|].
  assert (E4 : effective_control r ws = CSyn) by (unfold effective_control; by rewrite Hc).
  unfold process, process_flow; rewrite E1; cbn [fbind]; rewrite E2; cbn [fbind]; rewrite E3; cbn [obind].
  rewrite E4; unfold update_state; cbn [state with_rtte]; rewrite Es.
  destruct (syn_sent_syn r (with_rtte rt s)) as [[s1|p s1]|]; cbn [fbind obind]; [|done..].
  destruct (update_remote _ _ _ s1) as [s2|]; by cbn [fbind obind receive_payload].
Qed.

(** Receiving the expected SYN|ACK. *)
Lemma process_syn_ack cx ip r s t iss :
  opening s t iss -> state s = SynSent -> remote_last_seq s = i32 (iss + 1) -> remote_last_ack s = None ->
  remote_seq_no s = 0 -> is_retransmit (sk_timer s) = true ->
  repr_ok r -> syn_options_ok r -> max_seg_size r <> Some 0 -> ctl r = CSyn -> ack_num r = Some (i32 (iss + 1)) ->
  exists s', process cx ip r s = Ret (None, s', cx) /\ opening s' t (i32 (iss + 1)) /\ state s' = Established /\
    remote_last_seq s' = i32 (iss + 1) /\ remote_last_ack s' = Some (seq_num r) /\
    remote_seq_no s' = i32 (seq_num r + 1) /\ sk_timer s' = TIdle None.
Proof using Type.
  intros Hop Es Els Ela Ersq Htm Hr Hopt Hz Hc Ha; pose proof (op_iss _ _ _ Hop) as Hi.
  destruct (process_to_syn cx ip r s t iss) as (rt & Hop1 & ->); try done.
  destruct (syn_sent_syn_ok (with_rtte rt s) t iss r Hop1 Hopt Hz Ha) as (s1 & -> & Hop2 & S1 & S2 & S3 & S4 & S5).
  cbn [obind].
  destruct (update_remote_ok cx r s1 {| ack_len := 0; ack_of_fin := false; ack_all := true |} (i32 (iss + 1)))
    as (s2 & Eu & Hak); [apply Hop2|done|done| |]; [cbn; rewrite (op_tx _ _ _ Hop2); lia|].
  rewrite Eu; cbn [obind]; eexists; split; [reflexivity|].
  destruct (update_remote_rest cx r s1 s2) as (R1 & R2 & R3 & R4 & R5);
    [by rewrite S5|apply Hop2|apply Hop2|done|].
  destruct Hak as [((X1 & X2 & X3 & X4 & X5) & (Y1 & Y2) & Z1) A1 A2 A3 A4 A5].
  cbn [ack_len] in A3; pose proof (op_tx _ _ _ Hop2).
  split_and!; try congruence.
  - destruct Hop2 as [P1 P2 P3 P4 P5 P6 P7 P8 P9 P10 P11].
    split; try congruence; [apply seq_ok_i32|lia].
  - rewrite A5, S2; unfold seq_lt; by rewrite Z.sub_diag.
Qed.

(** The same with an MSS of zero: it is ignored, but for the round-trip
    estimate, and the SYN will be sent again. *)
Lemma process_syn_ack_zero_mss cx ip r s t iss :
  opening s t iss -> state s = SynSent -> remote_last_seq s = i32 (iss + 1) -> remote_last_ack s = None ->
  remote_seq_no s = 0 -> repr_ok r -> max_seg_size r = Some 0 -> ctl r = CSyn -> ack_num r = Some (i32 (iss + 1)) ->
  exists rt, process cx ip r s = Ret (None, with_rtte rt s, cx).
Proof using Type.
  intros Hop Es Els Ela Ersq Hr Hz Hc Ha.
  destruct (process_to_syn cx ip r s t iss) as (rt & _ & ->); try done; exists rt.
  unfold syn_sent_syn, note_mss; by rewrite Hz.
Qed.

(** An open socket with nothing to send builds an empty acknowledgement. *)
Lemma data_repr_empty cx s r :
  sock_ok s -> rb_length (tx_buffer s) = 0 -> local_seq_no s = remote_last_seq s -> seq_ok (local_seq_no s) ->
  sk_timer s = TIdle None -> state s = Established ->
  data_repr cx s r = Ret (with_payload (seq_num r) [] r, false).
Proof using Type.
  intros Hok Hl Hq Hs Ht He; pose proof (ok_win_len s Hok); unfold data_repr.
  rewrite seq_add_small by lia; cbn [obind]; rewrite Hq in *.
  destruct (seq_diff_guard (i32 (remote_last_seq s + remote_win_len s)) (remote_last_seq s)) as (k & -> & Hk).
  cbn [obind]; rewrite Ht; cbn [should_zero_window_probe]; rewrite andb_false_r.
  unfold seq_diff; rewrite Z.sub_diag; change (i32 0) with 0; cbn [Z.ltb Z.compare obind].
  pose proof (ok_mss s Hok); pose proof (local_mss_nonneg cx).
  destruct (get_allocated_spec (tx_buffer s) 0 (Z.min (Z.min k (remote_mss s)) (local_mss cx)))
    as (j & _ & _ & ->); [apply (ok_tx s Hok)|lia..|]; cbn [obind].
  rewrite zdrop_0 by lia; pose proof (len_contents _ (proj1 (ok_tx s Hok))) as Hc; rewrite Hl in Hc.
  destruct (contents (tx_buffer s)); [|rewrite len_cons in Hc; pose proof (len_nonneg l); lia].
  assert (Hn : ztake j [] = @nil Z) by (unfold ztake; apply take_nil).
  rewrite Hn, Hl, He; change (len []) with 0; by destruct (usize (0 + 0) =? 0).
Qed.

(** The first acknowledgement opens the connection. *)
Lemma dispatch_ack cx s t iss q stream :
  opening s t (i32 (iss + 1)) -> state s = Established -> remote_last_seq s = i32 (iss + 1) ->
  remote_last_ack s = Some q -> seq_ok q -> remote_seq_no s = i32 (q + 1) -> sk_timer s = TIdle None ->
  has_ip_addr cx (ep_addr (tup_local t)) = true -> (forall p, emit p = Ok ()) ->
  exists ip r s', dispatch emit cx s = Ret (Some (ip, r), Ok (), s') /\
    ctl r = CNone /\ seq_num r = i32 (iss + 1) /\ ack_num r = Some (i32 (q + 1)) /\ payload r = [] /\
    conn_inv stream (q + 1) [] (iss + 1) s' 0 0.
Proof using Type.
  intros [Hok Et El Hi Ea Hr Hx Hf Hto Hk Had] Es Els Ela Hq Ersq Htm Hip Hemit.
  destruct (rx_window s Hok) as (Hwin & ? & ?); pose proof (ok_win_len s Hok).
  unfold dispatch; rewrite Et, Hip; cbn [negb].
  set (s1 := match remote_last_ts s with None => with_remote_last_ts (Some (cx_now cx)) s | Some _ => s end).
  assert (Ets : exists ts, s1 = with_remote_last_ts (Some ts) s).
  { subst s1; destruct (remote_last_ts s) as [ts|] eqn:E2; [|by eexists].
    exists ts; destruct s; cbn in *; by rewrite E2. }
  destruct Ets as [ts Ets].
  assert (Hts : forall c, seq_to_transmit c (with_remote_last_ts (Some ts) s) = Ret false).
  { intros c; unfold seq_to_transmit; cbn; rewrite Et, Es, El, Els, Hx; cbn [andb].
    rewrite Z.min_r, seq_add_small by lia; cbn [obind]; rewrite Z.add_0_r, (i32_i32 (i32 _)) by apply seq_ok_i32.
    unfold seq_ge, seq_diff; rewrite Z.sub_diag; change (i32 0) with 0; cbn.
    destruct (congestion_controller s); cbn; by destruct (nagle s && _ && _ && _). }
  assert (Hft : fire_timers cx s = Ret s1).
  { unfold fire_timers; fold s1; rewrite Ets; unfold timed_out; cbn; rewrite Hto, Hts; cbn [obind negb].
    rewrite Htm; done. }
  rewrite Hft, Ets; cbn [obind].
  assert (Hds : decide_send cx (with_remote_last_ts (Some ts) s) = Ret SendAck).
  { unfold decide_send; rewrite Hts; cbn [obind]; unfold ack_to_transmit; cbn; rewrite Ela, Ersq, Hr.
    rewrite seq_add_small by lia; cbn [obind]; rewrite Z.add_0_r, (i32_i32 (i32 _)) by apply seq_ok_i32.
    unfold delayed_ack_expired; cbn; rewrite Had, <-(i32_i32 q Hq) at 1; rewrite seq_lt_pos by lia.
    by rewrite (proj2 (Z.ltb_lt _ _)) by lia. }
  rewrite Hds; cbn [obind]; clear Hts Hft Hds.
  assert (Hok1 : sock_ok (with_remote_last_ts (Some ts) s)) by (destruct Hok; by split).
  unfold build_repr; cbn [remote_seq_no rx_buffer state with_remote_last_ts].
  rewrite Ersq, Hr, seq_add_small by lia; cbn [obind]; rewrite Z.add_0_r, (i32_i32 (i32 _)) by apply seq_ok_i32.
  rewrite Es, data_repr_empty by (done || cbn; by rewrite ?El, ?Els); cbn [obind].
  set (r := with_payload _ _ _); unfold finish_repr; cbn [sk_timer with_remote_last_ts]; rewrite Htm.
  cbn [should_keep_alive andb obind]; rewrite bool_decide_eq_false_2 by done; rewrite Hemit.
  assert (Er : ctl r = CNone /\ seq_num r = i32 (iss + 1) /\ ack_num r = Some (i32 (q + 1)) /\ payload r = [] /\
    window_len r = scaled_window s /\ segment_len r = 0) by (subst r; cbn; rewrite Els; done).
  destruct Er as (R1 & R2 & R3 & R4 & R5 & R6); clearbody r.
  unfold after_emit; rewrite R6, R2, seq_add_small by lia; cbn [obind Z.ltb Z.compare andb].
  rewrite Z.add_0_r, (i32_i32 (i32 _)), R3, R5 by apply seq_ok_i32.
  do 3 eexists; split; [reflexivity|]; split_and!; try done; clear R1 R2 R3 R4 R5 R6 r.
  cbn; rewrite Es; change (state_eqb Established Closed) with false; cbn iota.
  destruct (scaled_window_ok s Hok) as [Hw1 Hw2].
  pose proof (len_contents _ (proj1 (ok_rx s Hok))) as Hc; rewrite Hr in Hc.
  pose proof (len_contents _ (proj1 (ok_tx s Hok))) as Hc'; rewrite Hx in Hc'.
  assert (Hnil : forall l : list Z, len l = 0 -> l = []).
  { intros [|? l]; [done|]; rewrite len_cons; pose proof (len_nonneg l); lia. }
  apply Hnil in Hc; apply Hnil in Hc'.
  split.
  - destruct Hok as [O1 O2 O3 O4 O5 O6 O7]; split; done.
  - pose proof (len_nonneg stream); split; [lia| |].
    2: by cbn; rewrite Hf.
    change (contents (rx_buffer s) = ztake (rb_length (rx_buffer s)) (zdrop 0 stream)).
    by rewrite Hc, Hr, ztake_0 by lia.
  - right; cbn; rewrite Es; split; [done|split].
    + split; cbn; unfold fin_received; cbn; rewrite ?Hf, ?Ersq; cbn [to_usize].
      * f_equal; lia.
      * rewrite Ea; apply assembler_new_ok; lia.
      * intros p _; cbn; rewrite Ea; change assembler_new with (pad 4 []).
        by rewrite covers_pad.
      * exists (scaled_window s * 2 ^ remote_win_shift s); split; [unfold fin_received; cbn; rewrite Hf; cbn; lia|].
        cbn; unfold fin_received, rx_next; cbn; rewrite Hf, Hr, i32_add; cbn [to_usize]; f_equal; lia.
      * by rewrite Es.
    + split; cbn; rewrite ?Es; cbn [fin_acked].
      * unfold len; cbn; lia.
      * by rewrite Hc', zdrop_0 by lia.
      * rewrite El; f_equal; lia.
      * done.
      * exists 0; rewrite Hx; cbn; split; [lia|f_equal; lia].
Qed.

(** The whole exchange. *)
Lemma handshake_ok cx0 cx1 cx2 cx3 c s s1 remote local ip r stream :
  sock_ok s -> timeout s = None -> keep_alive s = None ->
  connect cx0 remote local s = (Ok (), s1, c) ->
  (forall t, sk_tuple s1 = Some t -> has_ip_addr cx1 (ep_addr (tup_local t)) = true /\
     has_ip_addr cx3 (ep_addr (tup_local t)) = true) ->
  (forall p, emit p = Ok ()) -> repr_ok r -> syn_options_ok r -> ctl r = CSyn ->
  ack_num r = Some (i32 (local_seq_no s1 + 1)) ->
  exists ip1 syn s2,
    dispatch emit cx1 s1 = Ret (Some (ip1, syn), Ok (), s2) /\
    ctl syn = CSyn /\ seq_num syn = local_seq_no s1 /\ ack_num syn = None /\
    if bool_decide (max_seg_size r = Some 0) then
      exists rt, process cx2 ip r s2 = Ret (None, with_rtte rt s2, cx2) /\ state s2 = SynSent /\
        is_retransmit (sk_timer s2) = true
    else exists s3 ip3 ack s4,
      process cx2 ip r s2 = Ret (None, s3, cx2) /\ state s3 = Established /\
      dispatch emit cx3 s3 = Ret (Some (ip3, ack), Ok (), s4) /\
      ctl ack = CNone /\ seq_num ack = i32 (local_seq_no s1 + 1) /\ ack_num ack = Some (i32 (seq_num r + 1)) /\
      payload ack = [] /\ conn_inv stream (seq_num r + 1) [] (local_seq_no s1 + 1) s4 0 0.
Proof using Type.
  intros Hok Ht Hk Hc Hip Hemit Hr Ho Hctl Ha.
  destruct (connect_ok cx0 c s s1 remote local Hok Ht Hk Hc)
    as (t & iss & Hop & Es & _ & _ & Els & Ela & Etm & Ersq).
  destruct (Hip t (op_tuple _ _ _ Hop)) as [Hi1 Hi3]; rewrite (op_local _ _ _ Hop) in *.
  destruct (dispatch_syn cx1 s1 t iss) as (ip1 & syn & s2 & D1 & C1 & C2 & C3 & _ & _ & Hop2 & S1 & S2 & S3 & S4 & S5);
    try done.
  exists ip1, syn, s2; do 4 (split; [done|]); case_bool_decide as Hz.
  - destruct (process_syn_ack_zero_mss cx2 ip r s2 t iss) as (rt & P); try done; by exists rt.
  - destruct (process_syn_ack cx2 ip r s2 t iss) as (s3 & P & Hop3 & T1 & T2 & T3 & T4 & T5); try done.
    destruct (dispatch_ack cx3 s3 t iss (seq_num r) stream) as (ip3 & ack & s4 & D3 & A1 & A2 & A3 & A4 & Hi);
      try done; [apply Hr|].
    by exists s3, ip3, ack, s4.
Qed.

(** C16: the three-way handshake, of a socket with no timeout and no keep-alive
    (the program sets neither), on an interface that has its local address and
    takes the segments it sends.  A socket that accepts [connect] transmits a
    SYN at its initial sequence number.  The SYN|ACK that acknowledges it, with
    whatever sequence number, window and options the parser may answer, is
    answered by nothing.  Unless its MSS option is zero it makes the socket
    ESTABLISHED; the next transmission acknowledges the peer's SYN; and the
    connection is then open, in the sense of the invariant every later
    operation keeps, with nothing received and nothing sent.  With an MSS of
    zero it is ignored (only the round-trip estimate has changed): the socket
    stays in SYN-SENT with its retransmission armed. *)
Theorem handshake cx0 cx1 cx2 cx3 c s s1 remote local ip r stream :
  sock_ok s -> timeout s = None -> keep_alive s = None ->
  connect cx0 remote local s = (Ok (), s1, c) ->
  (forall t, sk_tuple s1 = Some t -> has_ip_addr cx1 (ep_addr (tup_local t)) = true /\
     has_ip_addr cx3 (ep_addr (tup_local t)) = true) ->
  (forall p, emit p = Ok ()) -> repr_ok r -> syn_options_ok r -> ctl r = CSyn ->
  ack_num r = Some (i32 (local_seq_no s1 + 1)) ->
  exists ip1 syn s2,
    dispatch emit cx1 s1 = Ret (Some (ip1, syn), Ok (), s2) /\
    ctl syn = CSyn /\ seq_num syn = local_seq_no s1 /\ ack_num syn = None /\
    if bool_decide (max_seg_size r = Some 0) then
      exists rt, process cx2 ip r s2 = Ret (None, with_rtte rt s2, cx2) /\ state s2 = SynSent /\
        is_retransmit (sk_timer s2) = true
    else exists s3 ip3 ack s4,
      process cx2 ip r s2 = Ret (None, s3, cx2) /\ state s3 = Established /\
      dispatch emit cx3 s3 = Ret (Some (ip3, ack), Ok (), s4) /\
      ctl ack = CNone /\ seq_num ack = i32 (local_seq_no s1 + 1) /\ ack_num ack = Some (i32 (seq_num r + 1)) /\
      payload ack = [] /\ conn_inv stream (seq_num r + 1) [] (local_seq_no s1 + 1) s4 0 0.
Proof using Type. apply handshake_ok. Qed.
End Handshake.

(** ** A concrete exchange *)

Definition ex_cx : context :=
  {| cx_now := 0; max_transmission_unit := 1514; any_ip := false;
     ip_addrs := [{| cidr_addr := [10; 0; 0; 2]; prefix_len := 24 |}]; cx_rand := 42 |}.
Definition ex_buffer : ring_buffer Z := rb_new (zreplicate 64 0).
Definition ex_remote : ip_endpoint := {| ep_addr := [10; 0; 0; 1]; ep_port := 80 |}.
Definition ex_local : ip_listen_endpoint := {| lep_addr := None; lep_port := 49152 |}.
Definition ex_send (p : packet) : result unit unit := Ok ().

(** The peer's SYN|ACK, for the initial sequence number [iss]. *)
Definition ex_syn_ack (iss : seq_number) : tcp_repr :=
  {| src_port := 80; dst_port := 49152; ctl := CSyn; seq_num := 1000; ack_num := Some (i32 (iss + 1));
     window_len := 65535; window_scale := Some 7; max_seg_size := Some 1460; sack_permitted := false;
     sack_ranges := no_sack; timestamp := None; payload := [] |}.
Definition ex_ip : ip_repr :=
  {| ip_src := [10; 0; 0; 1]; ip_dst := [10; 0; 0; 2]; ip_payload_len := 20; ip_hop_limit := 64 |}.

Definition ex_connect : outcome socket :=
  let! s := new_socket ex_buffer ex_buffer in
  match connect ex_cx ex_remote ex_local s with (Ok _, s, _) => Ret s | _ => Panic end.
Definition ex_iss : seq_number :=
  Eval vm_compute in match ex_connect with Ret s => local_seq_no s | Panic => 0 end.
Definition ex_established : outcome socket :=
  let! s := ex_connect in
  let! (_, _, s) := dispatch ex_send ex_cx s in
  let! (_, s, _) := process ex_cx ex_ip (ex_syn_ack ex_iss) s in
  let! (_, _, s) := dispatch ex_send ex_cx s in Ret s.

Lemma ex_repr_ok : repr_ok (ex_syn_ack ex_iss) /\ syn_options_ok (ex_syn_ack ex_iss).
Proof.
  split; split; cbn.
  - done.
  - by intros a [= <-].
  - lia.
  - unfold len; cbn; lia.
  - intros m [= <-]; lia.
  - intros k [= <-]; lia.
Qed.

Lemma ex_socket : exists s s1 c,
  new_socket ex_buffer ex_buffer = Ret s /\ connect ex_cx ex_remote ex_local s = (Ok (), s1, c) /\
  ex_connect = Ret s1 /\ sock_ok s /\ timeout s = None /\ keep_alive s = None /\ local_seq_no s1 = ex_iss /\
  forall t, sk_tuple s1 = Some t -> has_ip_addr ex_cx (ep_addr (tup_local t)) = true.
Proof.
  assert (Hc : capacity ex_buffer = 64) by (by vm_compute).
  assert (Hb : buffer_ok ex_buffer) by (split; [unfold rb_inv; cbn [read_at rb_length ex_buffer rb_new]|]; lia).
  destruct (new_socket_ok ex_buffer ex_buffer Hb Hb) as (s & E & Hok & _ & _ & _ & Ht & Hk).
  exists s; vm_compute in E; injection E as E; subst s.
  do 2 eexists; split; [by vm_compute|]; split; [vm_compute; reflexivity|].
  split_and!; try done; by intros t [= <-].
Qed.

Lemma handshake_witness : exists s s1 c,
  new_socket ex_buffer ex_buffer = Ret s /\ connect ex_cx ex_remote ex_local s = (Ok (), s1, c) /\
  exists ip1 syn s2 s3 ip3 ack s4,
    dispatch ex_send ex_cx s1 = Ret (Some (ip1, syn), Ok (), s2) /\ ctl syn = CSyn /\
    process ex_cx ex_ip (ex_syn_ack ex_iss) s2 = Ret (None, s3, ex_cx) /\
    dispatch ex_send ex_cx s3 = Ret (Some (ip3, ack), Ok (), s4) /\
    conn_inv [104; 105] 1001 [] (ex_iss + 1) s4 0 0.
Proof.
  destruct ex_socket as (s & s1 & c & E1 & E2 & _ & Hok & Ht & Hk & Hi & Hip), ex_repr_ok as [Hr Ho].
  exists s, s1, c; split_and!; [done..|].
  destruct (handshake ex_send ex_cx ex_cx ex_cx ex_cx c s s1 ex_remote ex_local ex_ip (ex_syn_ack ex_iss) [104; 105])
    as (ip1 & syn & s2 & H1 & H2 & _ & _ & s3 & ip3 & ack & s4 & H3 & _ & H4 & _ & _ & _ & _ & H5); try done;
    [split; eauto|by rewrite Hi|].
  rewrite Hi in H5; by exists ip1, syn, s2, s3, ip3, ack, s4.
Defined.

(** The socket the exchange leaves. *)
Lemma ex_established_ok (stream : list Z) : exists s,
  ex_established = Ret s /\ conn_inv stream 1001 [] (ex_iss + 1) s 0 0.
Proof.
  destruct ex_socket as (s & s1 & c & E1 & E2 & E3 & Hok & Ht & Hk & Hi & Hip), ex_repr_ok as [Hr Ho].
  destruct (handshake_ok ex_send ex_cx ex_cx ex_cx ex_cx c s s1 ex_remote ex_local ex_ip (ex_syn_ack ex_iss) stream)
    as (ip1 & syn & s2 & H1 & _ & _ & _ & s3 & ip3 & ack & s4 & H3 & _ & H4 & _ & _ & _ & _ & H5); try done;
    [split; eauto|by rewrite Hi|].
  rewrite Hi in H5; exists s4; split; [|done].
  unfold ex_established; rewrite E3; cbn [obind]; rewrite H1; cbn [obind]; rewrite H3; cbn [obind].
  by rewrite H4.
Qed.

(** A segment with the first bytes of the peer's stream. *)
Definition ex_data (data : list Z) : tcp_repr :=
  {| src_port := 80; dst_port := 49152; ctl := CPsh; seq_num := 1001; ack_num := Some (i32 (ex_iss + 1));
     window_len := 65535; window_scale := None; max_seg_size := None; sack_permitted := false;
     sack_ranges := no_sack; timestamp := None; payload := data |}.

Lemma ex_data_ok stream s :
  rb_length (rx_buffer s) = 0 -> len stream <= 65535 ->
  valid_event stream 1001 s 0 (EvSegment ex_cx ex_ip (ex_data stream)).
Proof.
  intros Hl Hs; pose proof (len_nonneg stream); split.
  - split; cbn [ex_data seq_num ack_num window_len payload]; [done|by intros a [= <-]|lia|lia].
  - exists 0; split; cbn [ex_data seq_num payload ctl]; unfold rx_next; rewrite ?Hl; try done; try lia.
    by rewrite zdrop_0, ztake_ge by lia.
Qed.
