(* ===== verification/TcpStream.v ===== *)
(** What a connection gives its user and its peer, whatever happens on it: the
    two directions of the byte stream, over every interleaving of events. *)

From Stdlib Require Import ZArith Lia ZifyBool.
From stdpp Require Import base list numbers.
From S2P Require Import Prelude Assembler RingBuffer Time TcpWire TcpTimer Iface TcpState TcpSocket.
From S2P Require Import TcpProcess TcpDispatch TcpInv TcpReceive TcpTransmit TcpConnection TcpHandshake.

Section Streams.
Context (stream : list Z) (irs iss : Z).

(** C3: the user reads the peer's stream.  From an open connection, whatever the
    order in which pieces of the stream arrive (lost, duplicated, overlapping,
    reordered, with any acknowledgement numbers and windows, cut by the window
    or outside of it), interleaved in any way with transmissions that succeed or
    fail, with reads, writes, close and abort: what the user has read so far is
    a prefix of the stream, in order and without a gap; no operation panics; and
    when a read answers that the peer has finished, the user has read the whole
    stream.  This is for a peer whose segments are pieces of one stream, each
    within 2^29 bytes of what is expected next, and whose FIN stands behind the
    last byte and not beyond the window it was given: for a peer that sends past
    the window the last conclusion fails, as [fin_beyond_window_truncates]
    shows. *)
Theorem user_reads_stream (s0 s : socket) (got sent : list Z) :
  conn_inv stream irs [] iss s0 0 0 -> reach stream irs s0 s got sent ->
  got = ztake (len got) stream /\
  (forall e, valid_event stream irs s (len got) e -> is_ret (conn_event s e)) /\
  (recv_error_check s = Err RecvFinished -> got = stream).
Proof using Type.
  intros H0 Hr; destruct (reach_inv stream irs iss s0 s got sent H0 Hr) as [Hgot [m Hi]]; split; [done|]; split.
  - intros e Hv; destruct (conn_event_ok _ _ _ _ _ _ _ _ Hi Hv) as (? & ? & ? & ? & -> & _); by eexists.
  - intros He; epose proof (recv_check_ok _ _ _ _ _ _ _ Hi) as Hc; rewrite He in Hc.
    by rewrite Hgot, ztake_ge by lia.
Qed.

(** C4: the peer is sent the user's stream.  In every state such a run reaches,
    whatever segment the socket transmits acknowledges exactly what it has
    received so far, and carries nothing, or bytes of what the user has handed
    in, at the sequence number of their place in it, at most the MSS, the MTU
    and the peer's window (one byte when it probes a closed window), or it is a
    keep-alive probe of a socket that uses them; a FIN stands behind the last
    byte handed in; and it is addressed to the connection's peer. *)
Theorem segments_carry_stream {E} (emit : packet -> result unit E) (cx : context)
    (s0 s : socket) (got sent : list Z) :
  conn_inv stream irs [] iss s0 0 0 -> reach stream irs s0 s got sent ->
  exists p res s', dispatch emit cx s = Ret (p, res, s') /\
    forall ip r, p = Some (ip, r) ->
    exists t, sk_tuple s = Some t /\ sound_segment sent iss cx s t ip r.
Proof using Type.
  intros H0 Hr; destruct (reach_inv stream irs iss s0 s got sent H0 Hr) as [Hgot [m Hi]].
  destruct (dispatch_ok stream irs sent iss cx emit s (len got) m Hi) as (p & res & s' & Hd & Hi' & Hp).
  by exists p, res, s'.
Qed.

End Streams.

(** ** A FIN beyond the window *)

Section FinBeyond.
Context (stream : list Z) (irs : Z) (sent : list Z) (iss : Z) (cx : context) (ip : ip_repr).

(** After the FIN: one read gets what is left of the stream, the next one the
    news that it was all. *)
Lemma read_all str s n m :
  conn_inv str irs sent iss s n m -> state s = CloseWait -> n < len str ->
  exists s', recv_slice (rb_length (rx_buffer s)) s = Ret (Ok (rb_length (rx_buffer s), zdrop n str), s') /\
    recv_error_check s' = Err RecvFinished.
Proof using Type.
  intros [Hok Hd [Hcl|(_ & L & _)]] Es Hn; [congruence|].
  assert (Hf : rx_fin_received s = true) by (by rewrite (live_open _ _ _ _ L), Es).
  pose proof (data_fin _ _ _ Hd Hf) as Hall; unfold rx_next in Hall.
  destruct (rx_window s Hok) as (? & ? & ?); pose proof (proj1 (ok_rx s Hok)) as Hri.
  assert (He : recv_error_check s = Ok ()).
  { unfold recv_error_check, may_recv, can_recv, rb_is_empty; rewrite Es.
    by rewrite (proj2 (Z.eqb_neq (rb_length (rx_buffer s)) 0)) by lia. }
  unfold recv_slice, recv_impl; rewrite He.
  destruct (dequeue_slice_spec (rx_buffer s) (rb_length (rx_buffer s)) Hri) as (rx & -> & Hrx & _ & Hcon & _); [lia|].
  cbn [obind]; rewrite Z.min_id in *.
  pose proof (len_contents _ Hri) as Hl; rewrite zdrop_ge in Hcon by lia.
  pose proof (len_contents _ Hrx) as Hl'; rewrite Hcon, len_nil in Hl'.
  change (remote_seq_no (with_rx_buffer rx s)) with (remote_seq_no s); rewrite seq_add_small by lia; cbn [obind].
  eexists; split; [rewrite ztake_ge by lia; rewrite (data_contents _ _ _ Hd), ztake_ge by (rewrite len_zdrop; lia); reflexivity|].
  unfold recv_error_check, may_recv, can_recv, rb_is_empty; cbn; by rewrite Es, <-Hl', Hf.
Qed.

(** The window's edge is one place. *)
Lemma edge_unique s n w w' : sock_ok s -> edge_ok irs s n w -> edge_ok irs s n w' -> w = w'.
Proof using Type.
  intros Hok [H1 E1] [H2 E2]; destruct (rx_window s Hok) as (? & ? & ?); pose proof (fin_received_range s).
  destruct (remote_last_ack s); [|done]; rewrite E1 in E2.
  apply Z.eqb_eq in E2; rewrite seq_eqb_pos in E2 by lia; lia.
Qed.

(** What an open socket has received is also what it has of the stream cut at
    the window's edge. *)
Lemma conn_inv_cut s n m w :
  conn_inv stream irs sent iss s n m -> state s = Established -> edge_ok irs s n w -> rx_next s n + w <= len stream ->
  (forall p, 0 <= p -> covers (sk_assembler s) p = true -> p < w) ->
  conn_inv (ztake (rx_next s n + w) stream) irs sent iss s n m.
Proof using Type.
  intros [Hok [D1 D2 D3] Hl] Es He Hw Hh; destruct Hl as [Hc|(Hs & [L1 L2 L3 L4 L5] & Ht)]; [congruence|].
  assert (Hf : rx_fin_received s = false) by (by rewrite L5, Es).
  assert (H0 : 0 <= w) by (destruct He as [Hwr _]; unfold fin_received in Hwr; rewrite Hf in Hwr; cbn in Hwr; lia).
  destruct (rx_window s Hok) as (? & ? & ?); unfold rx_next in *.
  split; [done| |right; split; [done|split; [|done]]].
  - split; [rewrite len_ztake; lia| |congruence].
    rewrite zdrop_ztake, ztake_ztake by lia; rewrite D2 at 1; f_equal; lia.
  - split; try done; intros p Hp Hc; destruct (L3 p Hp Hc) as (b & B1 & B2); exists b; split; [done|].
    unfold rx_next in *; specialize (Hh p Hp Hc); rewrite zget_ztake; by zcase.
Qed.

(** Of the payload, only the part inside the window matters. *)
Lemma process_cut s r w :
  state s = Established -> ctl r = CFin -> len (payload r) <> 0 -> 0 < w ->
  trim_payload cx ip r s = trim_payload cx ip (with_payload (seq_num r) (ztake w (payload r)) r) s ->
  process cx ip r s = process cx ip (with_payload (seq_num r) (ztake w (payload r)) r) s.
Proof using Type.
  intros Es Hc Hl Hw Ht; unfold process, process_flow; rewrite Ht; set (r' := with_payload _ _ r).
  assert (H1 : check_ack cx ip r s = check_ack cx ip r' s).
  { unfold check_ack, check_ack_range; change (ctl r') with (ctl r); change (ack_num r') with (ack_num r).
    by rewrite Es, Hc. }
  assert (H2 : forall cx i s, update_remote cx r i s = update_remote cx r' i s).
  { intros cx1 i s1; unfold update_remote, note_ack, count_duplicate; change (payload r') with (ztake w (payload r)).
    pose proof (len_nonneg (payload r)); rewrite len_ztake, (proj2 (Z.eqb_neq (len (payload r)) 0)) by done.
    by rewrite (proj2 (Z.eqb_neq (Z.max _ _) 0)) by lia. }
  assert (H3 : forall ws info s, update_state cx ip r info (effective_control r ws) s =
    update_state cx ip r' info (effective_control r' ws) s).
  { intros ws info s1; change (effective_control r' ws) with (effective_control r ws); unfold update_state.
    destruct (state s1), (effective_control r ws) eqn:E; try reflexivity;
      unfold effective_control in E; rewrite Hc in E; cbn in E; destruct (seq_lt ws (seq_num r)); discriminate E. }
  rewrite H1; destruct (check_ack cx ip r' s) as [[[]|]|]; cbn [fbind]; [|done..].
  destruct (trim_payload cx ip r' s) as [[[[[data off] ws] s1]|]|]; cbn [fbind]; [|done..].
  change (measure_ack cx r s1) with (measure_ack cx r' s1).
  destruct (measure_ack cx r' s1) as [[info s2]|]; cbn [obind]; [|done].
  rewrite H3; destruct (update_state cx ip r' info _ s2) as [[[s3 cx3]|]|]; cbn [fbind]; [|done..].
  rewrite H2; reflexivity.
Qed.

(** The segment that is expected next is cut to the window. *)
Lemma trim_next s n m w r :
  conn_inv stream irs sent iss s n m -> state s = Established -> edge_ok irs s n w -> 0 < w -> 0 < len (payload r) ->
  repr_ok r -> seq_num r = i32 (irs + rx_next s n) ->
  trim_payload cx ip r s = Ret (Continue (ztake w (payload r), 0, i32 (irs + rx_next s n),
    with_local_rx_last_seq (Some (seq_num r)) s)).
Proof using Type.
  intros [Hok Hd Hl] Es He Hw Hlen Hr Hq; destruct Hl as [Hc|(Hs & L & Ht)]; [congruence|].
  pose proof (ok_payload _ Hr); pose proof He as [Hwr _]; destruct (rx_window s Hok) as (? & ? & ?).
  assert (Hf : fin_received s = 0) by (unfold fin_received; by rewrite (live_open _ _ _ _ L), Es).
  unfold trim_payload; rewrite (receive_window_ok stream irs s n w Hok L He), Hf, Hq, Z.add_0_r; cbn [obind].
  rewrite Es; set (N := irs + rx_next s n); rewrite !seq_add_pos by lia; cbn [obind].
  unfold segment_in_window; rewrite seq_sub_pos by lia; cbn [obind].
  rewrite !seq_eqb_pos, seq_le_pos, !seq_lt_pos by lia.
  rewrite (proj2 (Z.eqb_neq N (N + len (payload r)))), (proj2 (Z.eqb_neq N (N + w))) by lia; zcase.
  rewrite seq_max_pos, seq_min_pos, !seq_diff_pos by lia; cbn [obind].
  rewrite slice_ret by lia; cbn [obind].
  rewrite Z.max_id, Z.sub_diag, zdrop_0 by lia; do 5 f_equal.
  destruct (Z.le_ge_cases w (len (payload r))); [f_equal; lia|by rewrite !ztake_ge by lia].
Qed.

(** An acceptable acknowledgement goes on. *)
Lemma check_ack_open s r d :
  sock_ok s -> state s = Established -> ctl r = CFin -> ack_at r s d -> seq_ok (local_seq_no s) ->
  check_ack cx ip r s = Ret (Continue ()).
Proof using Type.
  intros Hok Es Hc [Ha Hd] Hls; pose proof (tx_length s Hok); rewrite Es in Hd; change (fin_sent Established) with 0 in Hd.
  unfold check_ack, check_ack_range; rewrite Es, Hc, Ha; cbn [sent_flags to_usize].
  rewrite !usize_small by (rewrite ?usize_small; lia).
  rewrite <-(i32_i32 _ Hls), seq_add_pos by lia; cbn [obind]; rewrite i32_add.
  rewrite seq_lt_pos, seq_gt_pos by lia; by zcase.
Qed.

(** The stages of [process], for the FIN that ends the stream. *)
Lemma fin_received_ok s n m w r d rep s' :
  conn_inv stream irs sent iss s n m -> state s = Established -> edge_ok irs s n w ->
  repr_ok r -> ctl r = CFin -> ack_at r s d -> valid_segment stream irs s n r (rx_next s n) -> 0 < w -> 0 < len (payload r) ->
  process cx ip r s = Ret (rep, s', cx) -> state s' = CloseWait.
Proof using Type.
  intros Hinv Es He Hr Hc Hat Hv Hw Hpos; pose proof Hinv as [Hok Hd [Hcl|(Hs & L & T)]]; [congruence|].
  assert (Hls : seq_ok (local_seq_no s)) by (rewrite (live_local _ _ _ _ T); apply seq_ok_i32).
  unfold process, process_flow; rewrite (check_ack_open s r d) by done; cbn [fbind].
  pose proof (trim_next s n m w r Hinv Es He Hw Hpos Hr (vs_seq _ _ _ _ _ _ Hv)) as Htrim.
  destruct (trim_payload_ok stream irs cx ip r Hr s n (rx_next s n) w Hok L Hd Hs Hv He)
    as [(p & s1 & E & _)|(data & off & E & Htr)].
  { rewrite Htrim in E; discriminate E. }
  rewrite E; cbn [fbind obind]; clear E Htrim.
  set (s1 := with_local_rx_last_seq _ s); assert (Hok1 : sock_ok s1) by (destruct Hok; by split).
  destruct (measure_ack_ok cx r s1 d Hok1) as (info & rt & -> & Hi); [done|done|congruence|done|]; cbn [obind].
  set (s2 := with_rtte rt s1).
  assert (Hok2 : sock_ok s2) by (destruct Hok; by split).
  assert (Hl2 : rx_live stream irs s2 n) by (destruct L; by split).
  assert (Ec : effective_control r (i32 (irs + rx_next s n)) = CFin).
  { unfold effective_control; rewrite Hc, (vs_seq _ _ _ _ _ _ Hv), seq_lt_pos by lia; cbn; by zcase. }
  rewrite Ec; destruct (update_state_ok stream irs cx ip r s2 n info CFin Hok2 Hl2 Hs) as [(p & s3 & E & _)|(s3 & E3 & Hadv)];
    [done| |unfold update_state in E; change (state s2) with (state s) in E; rewrite Es in E; unfold receive_fin in E;
            by destruct (seq_add _ _)|].
  { destruct Hi as [Hi _]; change (state s1) with (state s) in Hi; rewrite Es in Hi; intros E; rewrite E in Hi; discriminate Hi. }
  assert (S3 : state s3 = CloseWait).
  { unfold update_state in E3; change (state s2) with (state s) in E3; rewrite Es in E3; unfold receive_fin in E3.
    destruct (seq_add _ _); [|discriminate E3]; by injection E3 as <-. }
  rewrite E3; cbn [fbind].
  rewrite Ec in Hadv || rewrite <-Ec in Hadv.
  destruct (process_rest_ok stream irs sent iss cx ip r Hr s n m (rx_next s n) w d data off info rt s3 Hok L Hd T Hv He Htr Hat Hi Hadv)
    as (rep' & s5 & m' & -> & _ & _ & S5); cbn [obind]; intros [= _ <-]; congruence.
Qed.

End FinBeyond.

Section Truncated.
Context (stream : list Z) (irs : Z) (sent : list Z) (iss : Z) (cx : context) (ip : ip_repr).

(** C17: a FIN beyond the window truncates the stream.  An open connection gets
    the piece of the stream it expects next, and the piece is the rest of the
    stream, with its FIN, but larger than the window.  The code keeps what fits
    in the window, and takes the FIN although the bytes before it were cut: the
    socket is in CLOSE-WAIT, the user reads the stream up to the edge of the
    window, and the next read answers that the peer has finished, although the
    stream goes on.  (Nothing is kept beyond a hole further than the window.) *)
Theorem fin_beyond_window_truncates s n m w r d :
  conn_inv stream irs sent iss s n m -> state s = Established -> edge_ok irs s n w -> 0 < w ->
  (forall p, 0 <= p -> covers (sk_assembler s) p = true -> p < w) ->
  repr_ok r -> ctl r = CFin -> ack_at r s d -> seq_num r = i32 (irs + rx_next s n) ->
  payload r = zdrop (rx_next s n) stream -> w < len (payload r) ->
  exists rep s' s'', process cx ip r s = Ret (rep, s', cx) /\ state s' = CloseWait /\
    recv_slice (rb_length (rx_buffer s')) s' =
      Ret (Ok (rb_length (rx_buffer s'), zdrop n (ztake (rx_next s n + w) stream)), s'') /\
    recv_error_check s'' = Err RecvFinished /\ rx_next s n + w < len stream.
Proof using Type.
  intros Hinv Es He Hw Hh Hr Hc Hat Hq Hp Hbig; pose proof Hinv as [Hok Hd _].
  destruct (rx_window s Hok) as (? & ? & ?); pose proof (data_range _ _ _ Hd); pose proof (ok_payload _ Hr).
  assert (Hnext : 0 <= rx_next s n) by (unfold rx_next; lia).
  assert (Hlen : len (payload r) = len stream - rx_next s n) by (rewrite Hp, len_zdrop in *; lia).
  set (stream' := ztake (rx_next s n + w) stream); set (r' := with_payload (seq_num r) (ztake w (payload r)) r).
  assert (Hlen' : len stream' = rx_next s n + w) by (subst stream'; rewrite len_ztake; lia).
  assert (Hinv' : conn_inv stream' irs sent iss s n m) by (apply conn_inv_cut; done || lia).
  assert (Hl' : len (payload r') = w) by (cbn; rewrite len_ztake; lia).
  assert (Hr' : repr_ok r') by (destruct Hr; split; try done; lia).
  assert (Hv : valid_segment stream' irs s n r' (rx_next s n)).
  { split; try lia; [done| |].
    - rewrite Hl'; cbn; rewrite Hp; subst stream'; rewrite zdrop_ztake, ztake_ztake by lia; f_equal; lia.
    - intros _; split; [lia|]; intros w' He'; rewrite (edge_unique irs s n w w') in * by done; lia. }
  assert (Ecut : process cx ip r s = process cx ip r' s).
  { apply process_cut; [done|done|lia|done|]; fold r'.
    rewrite (trim_next stream irs sent iss cx ip s n m w r), (trim_next stream irs sent iss cx ip s n m w r') by (done || lia).
    change (payload r') with (ztake w (payload r)); by rewrite ztake_ztake, Z.min_id. }
  destruct (process_ok stream' irs sent iss cx ip r' Hr' s n m (rx_next s n) Hinv') as (rep & s' & m' & E & _ & Hi');
    [congruence|done|].
  assert (Sw : state s' = CloseWait).
  { apply (fin_received_ok stream' irs sent iss cx ip s n m w r' d rep s' Hinv' Es He Hr' Hc Hat Hv Hw); [lia|exact E]. }
  rewrite Ecut; destruct (read_all irs sent iss stream' s' n m' Hi' Sw) as (s'' & E1 & E2);
    [unfold rx_next in Hlen'; lia|].
  exists rep, s', s''; split; [done|]; split; [done|]; rewrite E1; split; [done|]; split; [done|lia].
Qed.
End Truncated.

(** ** The peer sends two bytes, the user answers one *)

Lemma ex_reach : exists s0 s,
  ex_established = Ret s0 /\ conn_inv [104; 105] 1001 [] (ex_iss + 1) s0 0 0 /\
  reach [104; 105] 1001 s0 s [104; 105] [7] /\ recv_error_check s = Ok () /\ sk_tuple s <> None.
Proof.
  destruct (ex_established_ok [104; 105]) as (s0 & E & Hi).
  assert (Hrun : exists s1 s2 s3, conn_event s0 (EvSegment ex_cx ex_ip (ex_data [104; 105])) = Ret (s1, [], []) /\
    conn_event s1 (EvRecvSlice 10) = Ret (s2, [104; 105], []) /\ conn_event s2 (EvSend [7]) = Ret (s3, [], [7]) /\
    recv_error_check s3 = Ok () /\ rb_length (rx_buffer s0) = 0 /\ sk_tuple s3 <> None).
  { clear Hi; vm_compute in E; injection E as E; subst s0.
    do 3 eexists; split_and!; [vm_compute; reflexivity..|done|done]. }
  destruct Hrun as (s1 & s2 & s3 & E1 & E2 & E3 & E4 & E5 & E6).
  exists s0, s3; split_and!; [done|done| |done|done].
  refine (reach_event _ _ _ s2 [104; 105] [] (EvSend [7]) s3 [] [7] _ _ E3); [|unfold valid_event, len; cbn; lia].
  refine (reach_event _ _ _ s1 [] [] (EvRecvSlice 10) s2 [104; 105] [] _ _ E2); [|unfold valid_event; lia].
  refine (reach_event _ _ _ s0 [] [] _ s1 [] [] _ _ E1); [constructor|by apply ex_data_ok].
Qed.

Lemma user_reads_stream_witness : exists s0 s,
  ex_established = Ret s0 /\ reach [104; 105] 1001 s0 s [104; 105] [7] /\
  [104; 105] = ztake 2 [104; 105] /\ is_ret (conn_event s EvClose) /\ is_ret (conn_event s EvRecv).
Proof.
  destruct ex_reach as (s0 & s & E & Hi & Hr & _); exists s0, s; split_and!; [done..| | |].
  all: destruct (user_reads_stream [104; 105] 1001 (ex_iss + 1) s0 s [104; 105] [7] Hi Hr) as (H1 & H2 & _).
  - exact H1.
  - by apply H2.
  - by apply H2.
Defined.

(** The peer sends 100 bytes and its FIN into a buffer of 64. *)
Definition ex_hundred : list Z := map Z.of_nat (seq 0 100).
Definition ex_fin : tcp_repr :=
  {| src_port := 80; dst_port := 49152; ctl := CFin; seq_num := 1001; ack_num := Some (i32 (ex_iss + 1));
     window_len := 65535; window_scale := None; max_seg_size := None; sack_permitted := false;
     sack_ranges := no_sack; timestamp := None; payload := ex_hundred |}.

Lemma fin_beyond_window_truncates_witness : exists s0 rep s' s'',
  ex_established = Ret s0 /\ accepts s0 ex_ip ex_fin = true /\
  process ex_cx ex_ip ex_fin s0 = Ret (rep, s', ex_cx) /\
  recv_slice (rb_length (rx_buffer s')) s' = Ret (Ok (rb_length (rx_buffer s'), ztake 64 ex_hundred), s'') /\
  recv_error_check s'' = Err RecvFinished.
Proof.
  destruct (ex_established_ok ex_hundred) as (s0 & E & Hi).
  assert (Hs : state s0 = Established /\ remote_last_ack s0 = Some 1001 /\ remote_last_win s0 = 64 /\
    remote_win_shift s0 = 0 /\ capacity (rx_buffer s0) = 64 /\ rb_length (rx_buffer s0) = 0 /\ rx_fin_received s0 = false /\
    sk_assembler s0 = assembler_new /\ local_seq_no s0 = ex_iss + 1 /\ rb_length (tx_buffer s0) = 0 /\
    accepts s0 ex_ip ex_fin = true).
  { clear Hi; vm_compute in E; injection E as <-; vm_compute; repeat split. }
  destruct Hs as (S1 & S2 & S3 & S4 & S5 & S6 & S7 & S8 & S9 & S10 & S11).
  assert (Hn : rx_next s0 0 = 0) by (unfold rx_next; lia).
  assert (Hw : edge_ok 1001 s0 0 64).
  { split; [unfold fin_received, window; rewrite S7, S5, S6; vm_compute; split; congruence|].
    rewrite S2, S3, S4, Hn; unfold fin_received; rewrite S7; reflexivity. }
  destruct (fin_beyond_window_truncates ex_hundred 1001 [] (ex_iss + 1) ex_cx ex_ip s0 0 0 64 ex_fin 0)
    as (rep & s' & s'' & H1 & _ & H2 & H3 & _).
  - exact Hi.
  - exact S1.
  - exact Hw.
  - reflexivity.
  - rewrite S8; intros p _ Hc; change assembler_new with (pad 4 []) in Hc; rewrite covers_pad in Hc; discriminate Hc.
  - split; [vm_compute; split; congruence|intros a [= <-]; apply seq_ok_i32|vm_compute; split; congruence|vm_compute; congruence].
  - reflexivity.
  - split; [cbn; by rewrite S9, Z.add_0_r|rewrite S10; pose proof (fin_sent_range (state s0)); lia].
  - rewrite Hn; reflexivity.
  - rewrite Hn; reflexivity.
  - reflexivity.
  - exists s0, rep, s', s''; rewrite Hn in H2; exact (conj E (conj S11 (conj H1 (conj H2 H3)))).
Defined.

Lemma segments_carry_stream_witness : exists s0 s p res s',
  ex_established = Ret s0 /\ reach [104; 105] 1001 s0 s [104; 105] [7] /\
  dispatch ex_send ex_cx s = Ret (p, res, s') /\
  forall ip r, p = Some (ip, r) -> exists t, sk_tuple s = Some t /\ sound_segment [7] (ex_iss + 1) ex_cx s t ip r.
Proof.
  destruct ex_reach as (s0 & s & E & Hi & Hr & _).
  destruct (segments_carry_stream [104; 105] 1001 (ex_iss + 1) ex_send ex_cx s0 s [104; 105] [7] Hi Hr)
    as (p & res & s' & H1 & H2).
  exists s0, s, p, res, s'; exact (conj E (conj Hr (conj H1 H2))).
Defined.
