(* ===== verification/TcpHostile.v ===== *)
(** An open connection under attack: segments with any sequence numbers,
    acknowledgements, flags, options and payload, that need not belong to any
    stream.  They cannot panic the socket or break its invariant, except in
    one corner: when the peer's FIN came right behind a full receive window,
    a segment half the sequence space away is taken as inside the window, and
    an empty one panics. *)

From Stdlib Require Import ZArith Lia ZifyBool.
From stdpp Require Import base list numbers.
From S2P Require Import Prelude Assembler RingBuffer Time TcpWire TcpTimer Iface TcpState TcpSocket.
From S2P Require Import TcpProcess TcpDispatch TcpInv TcpReceive TcpTransmit TcpConnection TcpHandshake.

(** ** The invariant without a stream *)

(** The receive side: its numbers fit together, whatever the bytes are. *)
Record rx_sound (s : socket) : Prop := {
  snd_seq : seq_ok (remote_seq_no s);
  snd_asm : assembler_ok 4 (sk_assembler s);
  snd_fit : holes_fit s;
  snd_edge : exists w la, remote_last_ack s = Some la /\ - fin_received s <= w <= window (rx_buffer s) /\
    i32 (la + remote_last_win s * 2 ^ remote_win_shift s) = i32 (remote_seq_no s + rb_length (rx_buffer s) + w);
  snd_open : rx_fin_received s = negb (rx_open (state s));
}.

Record sturdy (s : socket) : Prop := {
  st_ok : sock_ok s;
  st_live : state s = Closed \/
    (synced (state s) = true /\ rx_sound s /\ exists sent iss m, tx_live sent iss s m);
}.

(** Half the sequence space away from a number, or one less. *)
Definition far (a b : seq_number) : bool :=
  (i32 (b - a) =? 2147483647) || (i32 (b - a) =? -2147483648).

(** The right edge of the window is one behind its left edge, and the segment
    begins or ends half the sequence space away. *)
Definition exposed (s : socket) (r : tcp_repr) : bool :=
  match receive_window s with
  | Ret (window_start, window_end) =>
      (window_end =? i32 (window_start - 1)) &&
      (far window_start (seq_num r) || far window_start (i32 (seq_num r + len (payload r))))
  | Panic => false
  end.

(** Anything may arrive. *)
Definition any_event (s : socket) (e : event) : Prop :=
  match e with
  | EvSegment cx ip r => repr_ok r /\ exposed s r = false
  | EvRecvSlice room => 0 <= room < M64
  | EvSend data => len data < M64
  | _ => True
  end.

(** A run of such events, from [s0] to [s]. *)
Inductive attacked (s0 : socket) : socket -> Prop :=
| attacked_start : attacked s0 s0
| attacked_event s e s' got took :
    attacked s0 s -> any_event s e -> conn_event s e = Ret (s', got, took) -> attacked s0 s'.

(** ** Any bytes are a stream: those in the buffer *)

Lemma rx_sound_live s :
  sock_ok s -> rx_sound s ->
  rx_live (contents (rx_buffer s) ++ free_space (rx_buffer s)) (remote_seq_no s - fin_received s) s 0.
Proof.
  intros Hok [Hseq Hasm Hfit (w & la & Hla & Hw & He) Hopen].
  pose proof (proj1 (ok_rx s Hok)) as Hi; destruct (rx_window s Hok) as (Hwin & Hlen & _).
  split; [|done| |exists w; split; [done|]|done].
  - rewrite Z.add_0_r, Z.sub_add; by rewrite i32_i32.
  - intros p Hp Hc; pose proof (Hfit p Hp Hc).
    destruct (zget_is_Some (free_space (rx_buffer s)) p) as [b Hb]; [rewrite len_free_space by done; lia|].
    exists b; split; [done|]; unfold rx_next; rewrite zget_app, len_contents by done.
    destruct (Z.ltb_spec (0 + rb_length (rx_buffer s) + p) (rb_length (rx_buffer s))); [lia|].
    rewrite <-Hb; f_equal; lia.
  - rewrite Hla, He; unfold rx_next; f_equal; lia.
Qed.

Lemma rx_live_sound stream irs s n : sock_ok s -> rx_live stream irs s n -> rx_sound s.
Proof.
  intros Hok [Hseq Hasm Hholes (w & Hw & He) Hopen]; split; [|done| | |done].
  - rewrite Hseq; apply seq_ok_i32.
  - exact (holes_ok_fit stream s n (proj1 (ok_rx s Hok)) Hholes).
  - destruct (remote_last_ack s) as [la|]; [|done]; exists w, la; split; [done|split; [done|]].
    rewrite He, Hseq; replace (i32 (irs + n + fin_received s) + rb_length (rx_buffer s) + w)
      with (i32 (irs + n + fin_received s) + (rb_length (rx_buffer s) + w)) by lia.
    rewrite i32_add; unfold rx_next; f_equal; lia.
Qed.

Lemma live_inv_sturdy D stream irs sent iss s n m : live_inv D stream irs sent iss s n m -> sturdy s.
Proof.
  intros [Hok _ [?|(Hs & Hr & Ht)]]; split; try done; [by left|right].
  split; [done|split; [exact (rx_live_sound _ _ _ _ Hok Hr)|by exists sent, iss, m]].
Qed.

Definition any_data (s : socket) (n : Z) : Prop := True.

Lemma sturdy_live_inv s : sturdy s ->
  exists stream irs sent iss m, live_inv any_data stream irs sent iss s 0 m.
Proof.
  intros [Hok [Hc|(Hs & Hr & sent & iss & m & Ht)]].
  - exists [], 0, [], 0, 0; split; [done|done|by left].
  - do 2 eexists; exists sent, iss, m; split; [done|done|right].
    split; [done|split; [exact (rx_sound_live s Hok Hr)|done]].
Qed.

Lemma ack_only_sturdy s s' : ack_only s s' -> sturdy s -> sturdy s'.
Proof.
  intros Hao (stream & irs & sent & iss & m & Hi)%sturdy_live_inv.
  eapply live_inv_sturdy, (ack_only_live_inv any_data); [by intros ???|exact Hao|exact Hi].
Qed.

Lemma ack_only_rx_sound s s' : sock_ok s -> ack_only s s' -> rx_sound s -> rx_sound s'.
Proof.
  intros Hok Hao Hr; pose proof (ack_only_sock_ok s s' Hao Hok) as Hok'.
  exact (rx_live_sound _ _ _ _ Hok' (ack_only_rx_live _ _ s s' 0 Hok Hao (rx_sound_live s Hok Hr))).
Qed.

(** ** The payload *)

Section Segment.
Context (cx : context) (ip : ip_repr) (repr : tcp_repr) (Hrepr : repr_ok repr).

(** The socket when the payload is to be absorbed: the edge [w] counts from
    where the data starts, one less if the peer's FIN has just been taken. *)
Record landing (s : socket) (w d : Z) (data : list Z) (off : Z) : Prop := {
  ln_ok : sock_ok s;
  ln_seq : seq_ok (remote_seq_no s);
  ln_asm : assembler_ok 4 (sk_assembler s);
  ln_fit : holes_fit s;
  ln_fin : 0 <= d <= fin_received s;
  ln_w : 0 <= w <= window (rx_buffer s);
  ln_edge : exists la, remote_last_ack s = Some la /\
    i32 (la + remote_last_win s * 2 ^ remote_win_shift s) = i32 (remote_seq_no s + rb_length (rx_buffer s) + (w - d));
  ln_off : 0 <= off /\ (0 < len data -> off + len data <= w);
  ln_open : rx_fin_received s = negb (rx_open (state s));
}.

Lemma landing_sound s w d data off : landing s w d data off -> rx_sound s.
Proof using Type.
  intros [Hok Hseq Hasm Hfit Hd Hw (la & Hla & He) _ Hopen]; split; try done; exists (w - d), la; split_and!; done || lia.
Qed.

(** The socket once the bytes are written, if nothing was kept beyond a hole. *)
Lemma joined_sound s w d data off k rx a :
  landing s w d data off -> joined s data off k rx a -> k <= w -> rx_sound (with_rx rx a s).
Proof using Type.
  intros [Hok Hseq Hasm Hfit Hd Hw (la & Hla & He) _ Hopen] Hj Hk.
  split; [done|apply Hj|by apply (joined_fit s data off k)| |done].
  exists (w - d - k), la; split; [done|]; change (fin_received (with_rx rx a s)) with (fin_received s).
  change (rx_buffer (with_rx rx a s)) with rx; rewrite (jn_window _ _ _ _ _ _ Hj), (jn_len _ _ _ _ _ _ Hj).
  split; [lia|]; change (remote_seq_no (with_rx rx a s)) with (remote_seq_no s).
  change (remote_last_win (with_rx rx a s)) with (remote_last_win s).
  change (remote_win_shift (with_rx rx a s)) with (remote_win_shift s); rewrite He; f_equal; lia.
Qed.

(** A fresh acknowledgement sets the edge anew. *)
Lemma fresh_sound s s' :
  sock_ok s -> seq_ok (remote_seq_no s) -> assembler_ok 4 (sk_assembler s) -> holes_fit s ->
  rx_fin_received s = negb (rx_open (state s)) -> ack_only s s' -> edge_fresh s' -> rx_sound s'.
Proof using Type.
  intros Hok Hseq Hasm Hfit Hopen Hao [(ack & Ha & Hl) Hw].
  destruct (scaled_window_ok s' (ack_only_sock_ok s s' Hao Hok)) as [Hs1 Hs2].
  destruct Hao as ((E1 & E2 & E3 & E4 & E5) & _ & E6 & _); destruct (rx_window s Hok) as (Hwin & Hlen & Hcap).
  split; [by rewrite E3|by rewrite E2|intros p; rewrite E1, E2; apply Hfit| |by rewrite E4, E6].
  rewrite E1, E3, seq_add_small in Ha by lia; injection Ha as <-.
  exists (scaled_window s' * 2 ^ remote_win_shift s'), (i32 (remote_seq_no s + rb_length (rx_buffer s))).
  pose proof (fin_received_range s'); split; [done|split; [lia|]].
  by rewrite Hw, i32_add, E1, E3.
Qed.

Lemma receive_any s w d data off :
  landing s w d data off ->
  exists r s', receive_payload cx ip repr data off s = Ret (r, s') /\
    sock_ok s' /\ rx_sound s' /\ tx_same s s' /\ state s' = state s.
Proof using Type.
  intros Hl; pose proof Hl as [Hok Hseq Hasm Hfit Hd Hw He Ho Hopen].
  destruct (receive_payload_cases cx ip repr s data off Hok Hasm Hfit) as
    [[-> _]|(k & rx & a & r & s' & Hj & Hlen & -> & Hao & Hedge)]; [lia|lia| |].
  { do 2 eexists; split; [done|]; split_and!; [done|by apply (landing_sound s w d data off)|done..]. }
  pose proof (joined_sock_ok s data off k rx a Hok Hj) as Hok1.
  exists r, s'; split; [done|]; split_and!; [by apply (ack_only_sock_ok (with_rx rx a s))| |apply Hao..].
  destruct Hedge as [Hf|[Hsame Hnone]].
  - apply (fresh_sound (with_rx rx a s)); try done; [apply Hj|by apply (joined_fit s data off k)].
  - apply (ack_only_rx_sound (with_rx rx a s)); [done|done|].
    apply (joined_sound s w d data off k); [done|done|].
    apply (joined_before s data off k rx a w Hj); [lia|apply Ho; lia|done].
Qed.

(** ** The stages before it *)

Lemma far_half_away N q : seq_ok q -> far (i32 N) q = true <-> half_away N q.
Proof using Type.
  intros Hq; unfold far, half_away; rewrite <-!Z.eqb_eq, <-(i32_i32 q Hq), !i32_eqb, i32_minus.
  replace (q - (N + 2147483647)) with (q - N - 2147483647) by lia.
  replace (q - (N + 2147483648)) with (q - N - 2147483648) by lia; i32_gen; lia.
Qed.

Lemma sound_window s : sock_ok s -> rx_sound s ->
  exists w la, - fin_received s <= w <= window (rx_buffer s) /\ remote_last_ack s = Some la /\
    i32 (la + remote_last_win s * 2 ^ remote_win_shift s) = i32 (remote_seq_no s + rb_length (rx_buffer s) + w) /\
    receive_window s = Ret (i32 (remote_seq_no s + rb_length (rx_buffer s)),
                            i32 (remote_seq_no s + rb_length (rx_buffer s) + w)).
Proof using Type.
  intros Hok Hr; pose proof (rx_sound_live s Hok Hr) as Hl; destruct Hr as [_ _ _ (w & la & Hla & Hw & He) _].
  exists w, la; split_and!; [lia|lia|done|done|].
  rewrite (receive_window_ok _ _ s 0 w Hok Hl); unfold rx_next.
  - do 2 f_equal; [f_equal; lia|f_equal; lia].
  - split; [done|]; rewrite Hla, He; unfold rx_next; f_equal; lia.
Qed.

Lemma not_exposed s w N :
  receive_window s = Ret (i32 N, i32 (N + w)) -> exposed s repr = false -> w = -1 ->
  ~ half_away N (seq_num repr) /\ ~ half_away N (i32 (seq_num repr + len (payload repr))).
Proof using Hrepr.
  intros Hrw Hx ->; unfold exposed in Hx; rewrite Hrw, i32_sub, Z.eqb_refl in Hx.
  cbn [andb] in Hx; apply orb_false_iff in Hx as [H1 H2].
  split; intros H; apply far_half_away in H; [congruence|apply Hrepr|congruence|apply seq_ok_i32].
Qed.

(** What the payload's stage finds. *)
Lemma landing_after s w d data off s2 s3 s4 info a c :
  sock_ok s -> rx_sound s -> rx_same s s2 -> edge_same s s2 -> state s2 = state s ->
  advanced s2 s3 c info -> acked s3 s4 info a ->
  (exists la, remote_last_ack s = Some la /\
    i32 (la + remote_last_win s * 2 ^ remote_win_shift s) = i32 (remote_seq_no s + rb_length (rx_buffer s) + w)) ->
  0 <= w <= window (rx_buffer s) -> 0 <= off -> (0 < len data -> off + len data <= w) ->
  d = to_usize (bool_decide (c = CFin)) -> landing s4 w d data off.
Proof using Type.
  intros Hok [Hseq Hasm Hfit _ Hopen] (B1 & B2 & B3 & B4 & B5) (B6 & B7) B8 Hadv Hak (la & Hla & He) Hw Ho Hoff ->.
  destruct Hak as [(R & E & S) Hok4 _ _ _ _]; destruct Hadv as [(A1 & A2 & A3) (A4 & A5) _ Afin Aseq [Ao1 Ao2] _].
  destruct R as (R1 & R2 & R3 & R4 & R5), E as (E1 & E2).
  assert (Hs3 : remote_seq_no s3 = i32 (remote_seq_no s + to_usize (bool_decide (c = CFin)))).
  { destruct Aseq as [Aseq|[-> ->]]; [|rewrite B3; cbn; by rewrite Z.add_0_r, i32_i32].
    rewrite B3, seq_add_small in Aseq by (destruct (bool_decide _); cbn; lia); by injection Aseq as <-. }
  split.
  - done.
  - rewrite R3, Hs3; apply seq_ok_i32.
  - by rewrite R2, A2, B2.
  - intros p; rewrite R1, R2, A1, A2, B1, B2; apply Hfit.
  - unfold fin_received; rewrite R4, Afin; destruct (bool_decide _), (rx_fin_received s2); cbn; lia.
  - by rewrite R1, A1, B1.
  - exists la; rewrite E1, A4, B6; split; [done|]; rewrite E2, A5, B7, R5, A3, B5, He, R3, Hs3, R1, A1, B1.
    set (t := to_usize _); replace (i32 (remote_seq_no s + t) + rb_length (rx_buffer s) + (w - t))
      with (i32 (remote_seq_no s + t) + (rb_length (rx_buffer s) + (w - t))) by lia.
    rewrite i32_add; f_equal; lia.
  - done.
  - rewrite S, R4, Afin; destruct (bool_decide_reflect (c = CFin)) as [Ec|Hn].
    + by destruct (Ao1 Ec) as [_ ->].
    + by rewrite (Ao2 Hn), B4, B8.
Qed.

(** ** The whole handler *)

(** An early return, or a result, that keeps the invariant. *)
Definition survives (f : outcome (flow (option packet * socket * context))) : Prop :=
  exists r s', sturdy s' /\ (f = Ret (Return r s') \/ f = Ret (Continue (r, s', cx))).

Lemma returns_survives {A} (m0 : outcome (flow A)) (k : A -> outcome (flow _)) s :
  sturdy s -> returns m0 s -> survives (fbind m0 k).
Proof using Type.
  intros Hs (r & s' & -> & Hao); cbn [fbind]; exists r, s'; split; [by apply (ack_only_sturdy s)|by left].
Qed.

(** The stages after the window check, for a segment that is no reset. *)
Lemma tail_any s w data off sent iss m d :
  sock_ok s -> rx_sound s -> tx_live sent iss s m -> synced (state s) = true ->
  (exists la, remote_last_ack s = Some la /\
    i32 (la + remote_last_win s * 2 ^ remote_win_shift s) = i32 (remote_seq_no s + rb_length (rx_buffer s) + w)) ->
  0 <= w <= window (rx_buffer s) -> 0 <= off -> (0 < len data -> off + len data <= w) ->
  ctl repr <> CRst -> ack_at repr s d ->
  let s1 := with_local_rx_last_seq (Some (seq_num repr)) s in
  survives
    (let! (info, s2) := measure_ack cx repr s1 in
     let? (s, cx) := update_state cx ip repr info
       (effective_control repr (i32 (remote_seq_no s + rb_length (rx_buffer s)))) s2 in
     let! s := update_remote cx repr info s in
     let! (r, s) := receive_payload cx ip repr data off s in
     Ret (Continue (r, s, cx))).
Proof using Hrepr.
  intros Hok Hr Ht Hs He Hw Ho Hoff Hc Hat s1; set (c := effective_control _ _).
  assert (Hls : seq_ok (local_seq_no s)) by (rewrite (live_local _ _ _ _ Ht); apply seq_ok_i32).
  assert (Hok1 : sock_ok s1) by (apply (ack_only_sock_ok s); [quiet|done]).
  destruct (measure_ack_ok cx repr s1 d Hok1 Hs Hls Hc Hat) as (info & r & -> & Hi); cbn [obind].
  set (s2 := with_rtte r s1); assert (Hao : ack_only s s2) by quiet.
  assert (Hok2 : sock_ok s2) by (by apply (ack_only_sock_ok s)).
  assert (Hr2 : rx_sound s2) by (by apply (ack_only_rx_sound s)).
  assert (T2 : tx_same s s2) by (unfold tx_same; split_and!; reflexivity).
  destruct (update_state_ok _ _ cx ip repr s2 0 info c Hok2 (rx_sound_live s2 Hok2 Hr2) Hs) as [Hret|(s3 & -> & Hadv)].
  { by apply effective_control_not_rst. }
  { destruct Hi as [Hi _]; intros E; rewrite E in Hi; change (state s2) with (state s); change (state s1) with (state s) in Hi; lia. }
  { apply (returns_survives _ _ s2); [|done]; apply (ack_only_sturdy s); [done|].
    split; [done|right]; split; [done|split; [done|by exists sent, iss, m]]. }
  cbn [fbind]; destruct Hat as [Ha Hdr]; pose proof Hadv as [A T _ _ _ _ _]; pose proof Hadv as [_ _ T3 _ _ _ _].
  assert (Hlen : 0 <= ack_len info <= rb_length (tx_buffer s3)).
  { destruct T3 as (-> & _); change (tx_buffer s2) with (tx_buffer s); pose proof (tx_length s Hok).
    destruct Hi as [H1 H2]; change (tx_buffer s1) with (tx_buffer s) in *; change (state s1) with (state s) in *.
    pose proof (fin_sent_range (state s)); destruct (ack_of_fin info); lia. }
  assert (Hok3 : sock_ok s3).
  { destruct A as (A1 & A2 & A3), T as [A4 A5], T3 as (B1 & B2 & B3 & B4 & B5 & B6), Hok2.
    split; rewrite ?A1, ?B1, ?A5, ?A3, ?B4, ?B5, ?B6; done. }
  destruct (update_remote_ok cx repr s3 info _ Hok3 Hrepr Ha Hlen) as (s4 & -> & Hak); cbn [obind].
  assert (Hln : landing s4 w (to_usize (bool_decide (c = CFin))) data off).
  { apply (landing_after s w _ data off s2 s3 s4 info _ c Hok Hr) with (5 := Hak); try done;
      unfold rx_same, edge_same; split_and!; reflexivity. }
  destruct (receive_any s4 w _ data off Hln) as (rep & s5 & -> & Hok5 & Hr5 & T5 & S5); cbn [obind].
  exists rep, s5; split; [split; [done|]|by right].
  destruct (decide (state s5 = Closed)) as [Hcl|Hnc]; [by left|right].
  destruct (acked_tx_live sent iss repr s s2 s3 s4 s5 m d info _ _ Hok Ht (conj Ha Hdr) Ha Hi T2 eq_refl Hadv Hak T5 S5 Hnc)
    as [Ht5 _].
  split; [|split; [done|by eexists _, _, _]].
  destruct Hadv as [_ _ _ _ _ _ [Hcl|[Hsy _]]]; destruct Hak as [(_ & _ & S4) _ _ _ _ _]; congruence.
Qed.

Lemma process_any s :
  sturdy s -> state s <> Closed -> exposed s repr = false ->
  exists r s', process cx ip repr s = Ret (r, s', cx) /\ sturdy s'.
Proof using Hrepr.
  intros Hst Hnc Hx; pose proof Hst as [Hok [?|(Hs & Hr & sent & iss & m & Ht)]]; [done|].
  enough (Hsv : survives (process_flow cx ip repr s)).
  { destruct Hsv as (r & s' & Hi & Hf); unfold process; by destruct Hf as [-> | ->]; cbn [obind]; exists r, s'. }
  assert (Hls : seq_ok (local_seq_no s)) by (rewrite (live_local _ _ _ _ Ht); apply seq_ok_i32).
  pose proof (rx_sound_live s Hok Hr) as Hl; destruct (sound_window s Hok Hr) as (w & la & Hw & Hla & He & Hrw).
  pose proof (fin_received_range s); destruct (rx_window s Hok) as (Hwin & Hlen & Hcap).
  unfold process_flow.
  destruct (check_ack_ok _ _ cx ip repr Hrepr s 0 Hok Hl Hs Hls) as [Hret|[-> Hcase]]; [by apply (returns_survives _ _ s)|].
  cbn [fbind]; set (N := remote_seq_no s + rb_length (rx_buffer s)) in *.
  destruct (trim_cases cx ip repr Hrepr s N w Hs Hrw) as [->|(K & EK & HK & ->)]; [lia|by apply (not_exposed s)| |].
  { apply (returns_survives _ _ s); [done|]; exact (return_away _ _ cx ip repr s 0 Hok Hl). }
  cbn [fbind]; destruct (decide (ctl repr = CRst)) as [Hrst|Hrst].
  - set (s1 := with_local_rx_last_seq _ s); destruct (measure_ack_rst cx repr s1 Hrst) as [info ->]; cbn [obind].
    rewrite effective_control_rst by done.
    destruct (update_state_rst cx ip repr s1 info Hs) as (s2 & -> & S2 & (R1 & _ & _ & _ & R5) & (T1 & _ & _ & T4 & T5 & T6) & E1 & E2); cbn [fbind].
    exists None, s2; split; [|by left]; split; [|by left].
    destruct Hok; split; rewrite ?R1, ?R5, ?T1, ?T4, ?T5, ?T6, ?E2; done.
  - destruct Hcase as [?|[d Hat]]; [done|].
    pose proof (len_nonneg (payload repr)).
    apply (tail_any s w _ _ sent iss m d); try done; [by exists la|lia|lia|].
    rewrite len_ztake, len_zdrop; lia.
Qed.

(** ** The corner *)

Lemma check_ack_current s :
  sock_ok s -> synced (state s) = true -> seq_ok (local_seq_no s) ->
  ctl repr = CRst \/ ack_num repr = Some (local_seq_no s) -> check_ack cx ip repr s = Ret (Continue ()).
Proof using Type.
  intros Hok Hs Hls Ha; pose proof (tx_length s Hok) as Hl; pose proof (fin_sent_range (state s)) as Hf.
  assert (Hrange : check_ack_range cx ip repr (local_seq_no s) s = Ret (Continue ())).
  { assert (Hsf : sent_flags (state s) = (false, snd (sent_flags (state s)))) by (by destruct (state s)).
    unfold check_ack_range; rewrite Hsf; fold (fin_sent (state s)); cbn [fst].
    change (to_usize false) with 0; fold (fin_sent (state s)).
    rewrite Z.add_0_l, !usize_small, seq_add_small by (rewrite ?usize_small; lia); cbn [obind].
    rewrite <-(i32_i32 _ Hls), i32_add, seq_lt_pos, seq_gt_pos, Z.ltb_irrefl, (proj2 (Z.ltb_ge _ _)) by lia; done. }
  unfold check_ack; destruct Ha as [-> | ->]; [by destruct (state s)|].
  destruct (state s); try discriminate Hs; destruct (ctl repr); done.
Qed.

Ltac i32_const e c v := replace e with c by lia; change (i32 c) with v.

Lemma trim_exposed s N :
  synced (state s) = true -> receive_window s = Ret (i32 N, i32 (N - 1)) -> payload repr = [] ->
  half_away N (seq_num repr) -> trim_payload cx ip repr s = Panic.
Proof using Hrepr.
  intros Hs Hrw Hp Hq; unfold trim_payload; rewrite Hrw, Hp, seq_add_small by (change (len (@nil Z)) with 0; lia); cbn [obind].
  change (len (@nil Z)) with 0; rewrite Z.add_0_r, (i32_i32 (seq_num repr)) by apply Hrepr.
  unfold segment_in_window; rewrite seq_sub_pos, Z.eqb_refl by lia; cbn [obind]; unfold seq_max, seq_min, seq_le, seq_lt, seq_gt, seq_diff.
  destruct Hq as [-> | ->]; cbn [obind]; rewrite !i32_eqb, !i32_minus.
  - i32_const (N + 2147483647 - (N - 1)) 2147483648 (-2147483648); i32_const (N - (N - 1)) 1 1.
    i32_const (N - (N + 2147483647)) (-2147483647) (-2147483647); i32_const (N - 1 - (N + 2147483647)) (-2147483648) (-2147483648).
    cbn -[i32 slice]; rewrite !i32_minus, Z.sub_diag; i32_const (N - 1 - (N + 2147483647)) (-2147483648) (-2147483648).
    by destruct (state s).
  - i32_const (N + 2147483648 - (N - 1)) 2147483649 (-2147483647); i32_const (N - (N - 1)) 1 1.
    i32_const (N - (N + 2147483648)) (-2147483648) (-2147483648); i32_const (N - 1 - (N + 2147483648)) (-2147483649) 2147483647.
    cbn -[i32 slice]; rewrite !i32_minus, Z.sub_diag; i32_const (N + 2147483648 - N) 2147483648 (-2147483648).
    by destruct (state s).
Qed.

Lemma process_exposed s :
  sturdy s -> state s <> Closed -> exposed s repr = true -> payload repr = [] ->
  ctl repr = CRst \/ ack_num repr = Some (local_seq_no s) -> process cx ip repr s = Panic.
Proof using Hrepr.
  intros [Hok [?|(Hs & Hr & sent & iss & m & Ht)]] Hnc Hx Hp Ha; [done|].
  assert (Hls : seq_ok (local_seq_no s)) by (rewrite (live_local _ _ _ _ Ht); apply seq_ok_i32).
  unfold process, process_flow; rewrite check_ack_current by done; cbn [fbind].
  destruct (sound_window s Hok Hr) as (w & la & Hw & Hla & He & Hrw).
  unfold exposed in Hx; rewrite Hrw, Hp in Hx; set (N := _ + rb_length _) in *.
  apply andb_prop in Hx as [Hend Hfar]; apply Z.eqb_eq in Hend; rewrite i32_sub in Hend.
  change (len (@nil Z)) with 0 in Hfar; rewrite Z.add_0_r, (i32_i32 (seq_num repr)), orb_diag in Hfar by apply Hrepr.
  apply far_half_away in Hfar; [|apply Hrepr]; rewrite Hend in Hrw.
  by rewrite (trim_exposed s N Hs Hrw Hp Hfar).
Qed.

End Segment.

(** ** The user's calls and transmissions *)

Lemma any_data_only : rx_only any_data.
Proof. by intros s s' n _ _ _. Qed.

(** Reading takes bytes from the front of the buffer. *)
Lemma dequeued_sturdy s c rx :
  sturdy s -> 0 <= c <= rb_length (rx_buffer s) ->
  rb_inv rx -> capacity rx = capacity (rx_buffer s) -> contents rx = zdrop c (contents (rx_buffer s)) ->
  free_kept (rx_buffer s) rx ->
  exists q, seq_add (remote_seq_no s) c = Ret q /\ sturdy (with_remote_seq_no q (with_rx_buffer rx s)).
Proof.
  intros [Hok Hl] Hc Hi Hcap Hcon Hfree; destruct (rx_window s Hok) as (_ & Hlen & Hcap').
  rewrite seq_add_small by lia; eexists; split; [done|].
  destruct Hl as [Hcl|(Hs & Hr & sent & iss & m & Ht)].
  - split; [|by left]; destruct Hok as [[_ O1] O2 O3 O4 O5 O6 O7]; split; try done; split; [done|].
    cbn [rx_buffer with_remote_seq_no with_rx_buffer]; lia.
  - destruct (dequeued_rx_live _ _ s 0 c rx Hok (rx_sound_live s Hok Hr) Hc Hi Hcap Hcon Hfree) as (Hok' & Hr' & _).
    split; [exact Hok'|right]; split; [exact Hs|split; [exact (rx_live_sound _ _ _ _ Hok' Hr')|]].
    exists sent, iss, m; by destruct Ht.
Qed.

Lemma recv_any s : sturdy s -> exists res s', recv take_all s = Ret (res, s') /\ sturdy s'.
Proof.
  intros Hi; pose proof Hi as [Hok _]; unfold recv, recv_impl.
  destruct (recv_error_check s) as [u|e]; [|by do 2 eexists].
  destruct (rx_window s Hok) as (Hw & Hlen & Hcap); pose proof (proj1 (ok_rx s Hok)) as Hri.
  destruct (dequeue_many_with_spec take_all (rx_buffer s) Hri) as
    (c & data & rx & _ & Hc & Hm & _ & -> & Hrx & Hcx & Hconx & _ & _ & Hk).
  { intros buf sl k r [= <- <- <-]; pose proof (len_nonneg buf); split; [done|lia]. }
  cbn [obind]; destruct (dequeued_sturdy s c rx Hi) as (q & Eq & Hi'); [lia|done..|].
  change (remote_seq_no (with_rx_buffer rx s)) with (remote_seq_no s); rewrite Eq; cbn [obind]; by do 2 eexists.
Qed.

Lemma recv_slice_any s room :
  sturdy s -> 0 <= room < M64 -> exists res s', recv_slice room s = Ret (res, s') /\ sturdy s'.
Proof.
  intros Hi Hroom; pose proof Hi as [Hok _]; unfold recv_slice, recv_impl.
  destruct (recv_error_check s) as [u|e]; [|by do 2 eexists].
  destruct (rx_window s Hok) as (Hw & Hlen & Hcap); pose proof (proj1 (ok_rx s Hok)) as Hri.
  destruct (dequeue_slice_spec (rx_buffer s) room Hri Hroom) as (rx & -> & Hrx & Hcx & Hconx & Hk); cbn [obind].
  destruct (dequeued_sturdy s (Z.min room (rb_length (rx_buffer s))) rx Hi) as (q & Eq & Hi'); [lia|done..|].
  change (remote_seq_no (with_rx_buffer rx s)) with (remote_seq_no s); rewrite Eq; cbn [obind]; by do 2 eexists.
Qed.

Lemma any_event_ok s e :
  sturdy s -> any_event s e -> exists s' got took, conn_event s e = Ret (s', got, took) /\ sturdy s'.
Proof.
  intros Hi He; destruct (sturdy_live_inv s Hi) as (stream & irs & sent & iss & m & Hl).
  destruct e as [cx ip r|cx sent_ok| |room|data| |]; cbn [conn_event any_event] in *.
  - destruct He as [Hr Hx]; destruct (accepts s ip r) eqn:Ea; [|by do 3 eexists].
    destruct (process_any cx ip r Hr s Hi) as (rep & s' & -> & Hi'); [|done|by do 3 eexists].
    intros E; unfold accepts in Ea; by rewrite E in Ea.
  - destruct (live_dispatch_ok any_data any_data_only (fun _ _ _ => I) stream irs sent iss cx
      (fun _ => if sent_ok then Ok () else Err ()) s 0 m Hl) as (p & res & s' & -> & Hl' & _); cbn [obind].
    do 3 eexists; split; [done|]; exact (live_inv_sturdy _ _ _ _ _ _ _ _ Hl').
  - destruct (recv_any s Hi) as (res & s' & -> & Hi'); by do 3 eexists.
  - destruct (recv_slice_any s room Hi He) as (res & s' & -> & Hi'); by do 3 eexists.
  - destruct (live_send_slice any_data any_data_only stream irs iss s sent 0 m data Hl He) as (res & s' & -> & Hl').
    do 3 eexists; split; [done|]; exact (live_inv_sturdy _ _ _ _ _ _ _ _ Hl').
  - do 3 eexists; split; [done|]; exact (live_inv_sturdy _ _ _ _ _ _ _ _ (live_close any_data any_data_only _ _ _ s sent 0 m Hl)).
  - do 3 eexists; split; [done|]; exact (live_inv_sturdy _ _ _ _ _ _ _ _ (live_abort any_data any_data_only _ _ _ s sent 0 m Hl)).
Qed.

Lemma attacked_sturdy s0 s : sturdy s0 -> attacked s0 s -> sturdy s.
Proof.
  intros H0; induction 1 as [|s e s' got took Hr IH He E]; [done|].
  destruct (any_event_ok s e IH He) as (s2 & g & t & E2 & Hi); rewrite E2 in E; by injection E as <- _ _.
Qed.

(** ** The theorems *)

(** C11: a hostile peer cannot take the worker down, outside one corner.  From an
    open connection, whatever segments arrive, with any sequence and
    acknowledgement numbers, windows, flags, options and bytes, forged or
    contradicting what came before, interleaved in any way with transmissions
    that succeed or fail and with the user's calls: the socket's numbers stay
    consistent (buffers, reassembly, window, what is unacknowledged), and
    nothing panics, unless a segment is [exposed]: the peer's FIN came right
    behind a full receive window, and it begins or ends half the sequence space
    away. *)
Theorem hostile_peer (s0 s : socket) :
  sturdy s0 -> attacked s0 s ->
  sturdy s /\ forall e, any_event s e -> is_ret (conn_event s e).
Proof.
  intros H0 Hr; pose proof (attacked_sturdy s0 s H0 Hr) as Hi; split; [done|]; intros e He.
  destruct (any_event_ok s e Hi He) as (? & ? & ? & -> & _); by eexists.
Qed.

(** C12: the corner is a crash.  On an open connection, an empty segment that
    resets, or acknowledges what is acknowledged already, panics the socket
    exactly if it is [exposed]: the window test then compares numbers more than
    half the sequence space apart, takes the segment as inside a window of
    length -1, and the subtraction of two sequence numbers fails. *)
Theorem fin_behind_window_panics (cx : context) (ip : ip_repr) (r : tcp_repr) (s : socket) :
  sturdy s -> state s <> Closed -> repr_ok r -> payload r = [] ->
  ctl r = CRst \/ ack_num r = Some (local_seq_no s) ->
  process cx ip r s = Panic <-> exposed s r = true.
Proof.
  intros Hi Hnc Hr Hp Ha; split; [|intros Hx; by apply process_exposed].
  destruct (exposed s r) eqn:Hx; [done|].
  by destruct (process_any cx ip r Hr s Hi Hnc Hx) as (rep & s' & -> & _).
Qed.

(** ** A forged segment, and the crash *)

(** The peer fills the window and finishes. *)
Definition ex_fin : tcp_repr :=
  {| src_port := 80; dst_port := 49152; ctl := CFin; seq_num := 1001; ack_num := Some (i32 (ex_iss + 1));
     window_len := 65535; window_scale := None; max_seg_size := None; sack_permitted := false;
     sack_ranges := no_sack; timestamp := None; payload := zreplicate 64 7 |}.

(** A reset at a forged number. *)
Definition ex_forged (q : seq_number) : tcp_repr :=
  {| src_port := 80; dst_port := 49152; ctl := CRst; seq_num := q; ack_num := None;
     window_len := 0; window_scale := None; max_seg_size := None; sack_permitted := false;
     sack_ranges := no_sack; timestamp := None; payload := [] |}.

Lemma ex_fin_ok : repr_ok ex_fin.
Proof. split; cbn [ex_fin seq_num ack_num window_len payload]; [done|by intros a [= <-]|lia|rewrite len_zreplicate; lia]. Qed.

Lemma ex_forged_ok q : seq_ok q -> repr_ok (ex_forged q).
Proof. intros; split; cbn [ex_forged seq_num ack_num window_len payload]; [done|done|lia|unfold len; cbn; lia]. Qed.

Lemma ex_filled : exists s0 s1,
  ex_established = Ret s0 /\ sturdy s0 /\ any_event s0 (EvSegment ex_cx ex_ip ex_fin) /\
  conn_event s0 (EvSegment ex_cx ex_ip ex_fin) = Ret (s1, [], []) /\ state s1 = CloseWait /\
  exposed s1 (ex_forged 0) = false /\ exposed s1 (ex_forged (i32 (1066 + 2147483647))) = true.
Proof.
  destruct (ex_established_ok []) as (s0 & E & Hi).
  assert (Hst : sturdy s0) by (eapply live_inv_sturdy, conn_inv_live; exact Hi).
  assert (Hrun : exists s1, exposed s0 ex_fin = false /\ conn_event s0 (EvSegment ex_cx ex_ip ex_fin) = Ret (s1, [], []) /\
    state s1 = CloseWait /\ exposed s1 (ex_forged 0) = false /\ exposed s1 (ex_forged (i32 (1066 + 2147483647))) = true).
  { clear Hi Hst; vm_compute in E; injection E as E; subst s0.
    eexists; split_and!; [vm_compute; reflexivity..]. }
  destruct Hrun as (s1 & H1 & H2 & H3 & H4 & H5).
  exists s0, s1; split_and!; [exact E|exact Hst|split; [exact ex_fin_ok|exact H1]|exact H2|exact H3|exact H4|exact H5].
Qed.

Lemma hostile_peer_witness : exists s0 s1,
  ex_established = Ret s0 /\ attacked s0 s1 /\ state s1 = CloseWait /\
  sturdy s1 /\ is_ret (conn_event s1 (EvSegment ex_cx ex_ip (ex_forged 0))).
Proof.
  destruct ex_filled as (s0 & s1 & E & Hi & He & Er & Hs & Hx & _); exists s0, s1.
  assert (Ha : attacked s0 s1) by exact (attacked_event s0 s0 _ s1 [] [] (attacked_start s0) He Er).
  destruct (hostile_peer s0 s1 Hi Ha) as [H1 H2]; pose proof (ex_forged_ok 0 (seq_ok_i32 0)) as Hr.
  exact (conj E (conj Ha (conj Hs (conj H1 (H2 (EvSegment ex_cx ex_ip (ex_forged 0)) (conj Hr Hx)))))).
Defined.

Lemma fin_behind_window_panics_witness : exists s0 s1,
  ex_established = Ret s0 /\ conn_event s0 (EvSegment ex_cx ex_ip ex_fin) = Ret (s1, [], []) /\
  process ex_cx ex_ip (ex_forged (i32 (1066 + 2147483647))) s1 = Panic.
Proof.
  destruct ex_filled as (s0 & s1 & E & Hi & He & Er & Hs & _ & Hx); exists s0, s1.
  split; [exact E|split; [exact Er|]].
  assert (Hr : repr_ok (ex_forged (i32 (1066 + 2147483647)))) by apply ex_forged_ok, seq_ok_i32.
  assert (Hs1 : sturdy s1) by exact (attacked_sturdy s0 s1 Hi (attacked_event s0 s0 _ s1 [] [] (attacked_start s0) He Er)).
  assert (Hnc : state s1 <> Closed) by (rewrite Hs; discriminate).
  exact (proj2 (fin_behind_window_panics ex_cx ex_ip _ s1 Hs1 Hnc Hr eq_refl (or_introl eq_refl)) Hx).
Defined.
