(* ===== verification/Conn.v ===== *)
(** One download connection (src/bench/smoltcp-s3/src/lib.rs, [Conn] and
    [conn_step]): a TCP socket, an optional TLS session, the request and the
    accounting of the response.  The TLS library (rustls) is third-party code:
    its unbuffered interface is the class [Tls]. *)

From Stdlib Require Import ZArith Lia ZifyBool.
From stdpp Require Import base list numbers.
From S2P Require Import Prelude AppConfig Http Assembler RingBuffer Time TcpWire TcpTimer Iface.
From S2P Require Import TcpState TcpSocket TcpProcess TcpDispatch TcpInv TcpConnection.

(** ** The TLS library's interface *)

(** The states of [rustls::unbuffered::ConnectionState] the code tells apart. *)
Variant connection_state : Type := ReadTraffic | EncodeTlsData | TransmitTlsData | WriteTraffic | OtherState.

Record unbuffered_status (err : Type) : Type :=
  { discard : Z; tls_state : result connection_state err }.
Arguments discard {err}.
Arguments tls_state {err}.

(** [process_tls_records] and [next_record] may rewrite the received bytes in
    place, so they answer the buffer as well.  [encode] and [encrypt] are given
    the room they have, and answer the bytes they wrote at its front. *)
Class Tls : Type := {
  session : Type;
  tls_error : Type;
  process_tls_records : session -> list Z -> unbuffered_status tls_error * list Z * session;
  next_record : session -> list Z -> option (result (list Z) tls_error) * list Z * session;
  encode : session -> Z -> result (list Z) tls_error * session;
  tls_done : session -> session;
  encrypt : session -> list Z -> Z -> result (list Z) tls_error * session;
}.

(** ** State *)

(* [lib.rs 941-941 TLS_BUF_CAP] *)
Definition TLS_BUF_CAP : Z := 256 * 1024.
(* [lib.rs 985-985 SYN_TIMEOUT_MS] *)
Definition SYN_TIMEOUT_MS : Z := 5000.

(** The five fields of the response header scan are [http]. *)
(* [lib.rs 948-981 Conn] *)
Record conn `{Tls} : Type := {
  handle : Z;
  tls : option session;
  incoming : list Z;
  outgoing : list Z;
  request : list Z;
  request_queued : bool;
  handshake_done : bool;
  http : http_state;
  done : bool;
  connect_start_ms : Z;
  queue_id : Z;
  src_port : Z;
  expected : Z;
  closed_cleanly : bool;
  attempts : Z;
  settled : bool;
  start_ms : Z;
}.

(** What a step prints. *)
Variant message : Type :=
| SynTimeout (queue_id src_port ms : Z)
| TlsFailed
| TlsRecordFailed
| TlsEncodeFailed
| TlsEncryptFailed.

(** The counters all workers share, and the console. *)
(* [lib.rs 447-455 CONNS_ESTABLISHED, CONNS_FAILED, SYN_RETRIES, SETUP_MS_TOTAL] *)
Record stats : Type := {
  CONNS_ESTABLISHED : Z;
  CONNS_FAILED : Z;
  SYN_RETRIES : Z;
  SETUP_MS_TOTAL : Z;
  codes : status_counters;
  printed : list message;
}.

Definition with_codes (c : status_counters) (st : stats) : stats :=
  {| CONNS_ESTABLISHED := CONNS_ESTABLISHED st; CONNS_FAILED := CONNS_FAILED st;
     SYN_RETRIES := SYN_RETRIES st; SETUP_MS_TOTAL := SETUP_MS_TOTAL st; codes := c; printed := printed st |}.

Definition println (m : message) (st : stats) : stats :=
  {| CONNS_ESTABLISHED := CONNS_ESTABLISHED st; CONNS_FAILED := CONNS_FAILED st;
     SYN_RETRIES := SYN_RETRIES st; SETUP_MS_TOTAL := SETUP_MS_TOTAL st; codes := codes st;
     printed := printed st ++ [m] |}.

(** [Vec::resize] with zeros. *)
Definition resize (l : list Z) (n : Z) : list Z := ztake n l ++ zreplicate (n - len l) 0.

Section Conn.
Context (env : build_env) `{Tls}.

Definition set_tls (x : option session) (c : conn) : conn :=
  {| handle := handle c; tls := x; incoming := incoming c; outgoing := outgoing c; request := request c;
     request_queued := request_queued c; handshake_done := handshake_done c; http := http c; done := done c;
     connect_start_ms := connect_start_ms c; queue_id := queue_id c; src_port := src_port c; expected :=
     expected c; closed_cleanly := closed_cleanly c; attempts := attempts c; settled := settled c; start_ms :=
     start_ms c |}.
Definition set_incoming (x : list Z) (c : conn) : conn :=
  {| handle := handle c; tls := tls c; incoming := x; outgoing := outgoing c; request := request c;
     request_queued := request_queued c; handshake_done := handshake_done c; http := http c; done := done c;
     connect_start_ms := connect_start_ms c; queue_id := queue_id c; src_port := src_port c; expected :=
     expected c; closed_cleanly := closed_cleanly c; attempts := attempts c; settled := settled c; start_ms :=
     start_ms c |}.
Definition set_outgoing (x : list Z) (c : conn) : conn :=
  {| handle := handle c; tls := tls c; incoming := incoming c; outgoing := x; request := request c;
     request_queued := request_queued c; handshake_done := handshake_done c; http := http c; done := done c;
     connect_start_ms := connect_start_ms c; queue_id := queue_id c; src_port := src_port c; expected :=
     expected c; closed_cleanly := closed_cleanly c; attempts := attempts c; settled := settled c; start_ms :=
     start_ms c |}.
Definition set_request_queued (x : bool) (c : conn) : conn :=
  {| handle := handle c; tls := tls c; incoming := incoming c; outgoing := outgoing c; request := request c;
     request_queued := x; handshake_done := handshake_done c; http := http c; done := done c; connect_start_ms
     := connect_start_ms c; queue_id := queue_id c; src_port := src_port c; expected := expected c;
     closed_cleanly := closed_cleanly c; attempts := attempts c; settled := settled c; start_ms := start_ms c |}.
Definition set_handshake_done (x : bool) (c : conn) : conn :=
  {| handle := handle c; tls := tls c; incoming := incoming c; outgoing := outgoing c; request := request c;
     request_queued := request_queued c; handshake_done := x; http := http c; done := done c; connect_start_ms
     := connect_start_ms c; queue_id := queue_id c; src_port := src_port c; expected := expected c;
     closed_cleanly := closed_cleanly c; attempts := attempts c; settled := settled c; start_ms := start_ms c |}.
Definition set_http (x : http_state) (c : conn) : conn :=
  {| handle := handle c; tls := tls c; incoming := incoming c; outgoing := outgoing c; request := request c;
     request_queued := request_queued c; handshake_done := handshake_done c; http := x; done := done c;
     connect_start_ms := connect_start_ms c; queue_id := queue_id c; src_port := src_port c; expected :=
     expected c; closed_cleanly := closed_cleanly c; attempts := attempts c; settled := settled c; start_ms :=
     start_ms c |}.
Definition set_done (x : bool) (c : conn) : conn :=
  {| handle := handle c; tls := tls c; incoming := incoming c; outgoing := outgoing c; request := request c;
     request_queued := request_queued c; handshake_done := handshake_done c; http := http c; done := x;
     connect_start_ms := connect_start_ms c; queue_id := queue_id c; src_port := src_port c; expected :=
     expected c; closed_cleanly := closed_cleanly c; attempts := attempts c; settled := settled c; start_ms :=
     start_ms c |}.
Definition set_closed_cleanly (x : bool) (c : conn) : conn :=
  {| handle := handle c; tls := tls c; incoming := incoming c; outgoing := outgoing c; request := request c;
     request_queued := request_queued c; handshake_done := handshake_done c; http := http c; done := done c;
     connect_start_ms := connect_start_ms c; queue_id := queue_id c; src_port := src_port c; expected :=
     expected c; closed_cleanly := x; attempts := attempts c; settled := settled c; start_ms := start_ms c |}.
Definition set_settled (x : bool) (c : conn) : conn :=
  {| handle := handle c; tls := tls c; incoming := incoming c; outgoing := outgoing c; request := request c;
     request_queued := request_queued c; handshake_done := handshake_done c; http := http c; done := done c;
     connect_start_ms := connect_start_ms c; queue_id := queue_id c; src_port := src_port c; expected :=
     expected c; closed_cleanly := closed_cleanly c; attempts := attempts c; settled := x; start_ms := start_ms
     c |}.


(** ** One step of a connection *)

(** [(now_ms - conn.start_ms).max(0) as u64], added to the total. *)
Definition add_setup (now_ms : Z) (c : conn) (g : stats) : Z :=
  u64 (SETUP_MS_TOTAL g + u64 (Z.max 0 (i64 (now_ms - start_ms c)))).

(* [lib.rs 1052-1057 conn_step] the connection has left SYN-SENT. *)
Definition note_established (st : tcp_state) (now_ms : Z) (c : conn) (g : stats) : conn * stats :=
  if negb (settled c) && state_eqb st Established then
    (set_settled true c,
     {| CONNS_ESTABLISHED := u64 (CONNS_ESTABLISHED g + 1); CONNS_FAILED := CONNS_FAILED g;
        SYN_RETRIES := u64 (SYN_RETRIES g + saturating_sub (attempts c) 1);
        SETUP_MS_TOTAL := add_setup now_ms c g; codes := codes g; printed := printed g |})
  else (c, g).

(* [lib.rs 1064-1064 conn_step] the guard. *)
Definition syn_timed_out (st : tcp_state) (now_ms : Z) (c : conn) : bool :=
  state_eqb st SynSent && (SYN_TIMEOUT_MS <? i64 (now_ms - connect_start_ms c)).

(* [lib.rs 1065-1074 conn_step] giving up. *)
Definition abandon (now_ms : Z) (c : conn) (s : socket) (g : stats) : conn * socket * stats :=
  let s := abort s in
  let g := println (SynTimeout (queue_id c) (src_port c) SYN_TIMEOUT_MS) g in
  let '(c, g) :=
    if negb (settled c) then
      (set_settled true c,
       {| CONNS_ESTABLISHED := CONNS_ESTABLISHED g; CONNS_FAILED := u64 (CONNS_FAILED g + 1);
          SYN_RETRIES := SYN_RETRIES g; SETUP_MS_TOTAL := add_setup now_ms c g;
          codes := codes g; printed := printed g |})
    else (c, g) in
  (set_done true c, s, g).

(* [lib.rs 1079-1083 conn_step] plain HTTP queues its request. *)
Definition queue_plain (c : conn) (s : socket) : conn :=
  if PLAIN_HTTP env && negb (request_queued c) && may_send s then
    set_handshake_done true (set_request_queued true (set_outgoing (outgoing c ++ request c) c))
  else c.

(** [Vec::drain(..n)] panics beyond the end. *)
Definition drain (n : Z) (l : list Z) : outcome (list Z) := assert! n <=? len l in Ret (zdrop n l).

(* [lib.rs 1084-1088 conn_step] what waits goes to the socket. *)
Definition flush_outgoing (c : conn) (s : socket) : outcome (conn * socket) :=
  if negb (len (outgoing c) =? 0) && can_send s then
    let! (r, s) := send_slice (outgoing c) s in
    match r with
    | Ok n => if 0 <? n then let! l := drain n (outgoing c) in Ret (set_outgoing l c, s) else Ret (c, s)
    | Err _ => Ret (c, s)
    end
  else Ret (c, s).

(** The loop until the socket is empty; [None] when [fuel] has run out. *)
(* [lib.rs 1092-1097 conn_step] *)
Fixpoint drain_socket (fuel : nat) (c : conn) (s : socket) : outcome (option (conn * socket)) :=
  match fuel with
  | O => Ret None
  | S fuel =>
      if negb (can_recv s) then Ret (Some (c, s))
      else
        let! (r, s) := recv take_all s in
        match r with
        | Ok data =>
            let c := set_incoming (incoming c ++ data) c in
            if 0 <? len data then drain_socket fuel c s else Ret (Some (c, s))
        | Err _ => Ret (Some (c, s))
        end
  end.

(* [lib.rs 1099-1102 conn_step] ciphertext is counted as it is. *)
Definition count_stub (c : conn) : conn :=
  if STUB_TLS_AFTER_HANDSHAKE env && handshake_done c && request_queued c then
    let h := http c in
    set_incoming []
      (set_http {| bytes_received := usize (bytes_received h + len (incoming c));
                   headers_done := headers_done h; hdr_state := hdr_state h;
                   status := status h; status_pos := status_pos h |} c)
  else c.

(* [lib.rs 1105-1110 conn_step] without a record layer the socket holds the response. *)
Definition count_plain (c : conn) (g : stats) : conn * stats :=
  if PLAIN_HTTP env && negb (len (incoming c) =? 0) then
    let '(h, cd) := count_body (http c) (codes g) (incoming c) in
    (set_incoming [] (set_http h c), with_codes cd g)
  else (c, g).

(** ** The TLS session *)

(** Every record the session hands out is counted; an error ends the loop. *)
(* [lib.rs 1125-1134 conn_step] *)
Fixpoint read_records (fuel : nat) (t : session) (c : conn) (g : stats)
  : option (session * conn * stats) :=
  match fuel with
  | O => None
  | S fuel =>
      let '(r, buf, t) := next_record t (incoming c) in
      let c := set_incoming buf c in
      match r with
      | None => Some (t, c, g)
      | Some (Ok data) =>
          let '(h, cd) := count_body (http c) (codes g) data in
          read_records fuel t (set_http h c) (with_codes cd g)
      | Some (Err _) => Some (t, set_done true c, println TlsRecordFailed g)
      end
  end.

(** [&mut v[head..]]: the room behind the first [head] bytes. *)
Definition room_behind (head : Z) (l : list Z) : outcome Z :=
  assert! head <=? len l in Ret (len l - head).

(** [truncate(head + n)] after [data] was written behind [head]. *)
Definition truncated (l : list Z) (head : Z) (data : list Z) : list Z := ztake head l ++ data.

(** Whether the loop goes on, and how. *)
Variant after : Type := Continue (progress : bool) | Break.

(* [lib.rs 1137-1144 conn_step] *)
Definition encode_tls_data (t : session) (c : conn) (g : stats) : outcome (conn * stats * after) :=
  let head := len (outgoing c) in
  let out := resize (outgoing c) TLS_BUF_CAP in
  let! room := room_behind head out in
  let '(r, t) := encode t room in
  let c := set_tls (Some t) c in
  match r with
  | Ok data => Ret (set_outgoing (truncated out head data) c, g, Continue true)
  | Err _ => Ret (set_done true (set_outgoing out c), println TlsEncodeFailed g, Break)
  end.

(* [lib.rs 1146-1160 conn_step] *)
Definition write_traffic (t : session) (c : conn) (g : stats) : outcome (conn * stats * after) :=
  let c := set_handshake_done true c in
  if negb (request_queued c) then
    let head := len (outgoing c) in
    let out := resize (outgoing c) (head + len (request c) + 128) in
    let! room := room_behind head out in
    let '(r, t) := encrypt t (request c) room in
    let c := set_tls (Some t) c in
    match r with
    | Ok data =>
        Ret (set_request_queued true (set_outgoing (truncated out head data) c), g, Continue true)
    | Err _ => Ret (set_done true (set_outgoing out c), println TlsEncryptFailed g, Break)
    end
  else Ret (c, g, Continue false).

(* [lib.rs 1123-1162 conn_step] one state of the session. *)
Definition tls_act (fuel : nat) (cs : connection_state) (t : session) (c : conn) (g : stats)
  : outcome (option (conn * stats * after)) :=
  match cs with
  | ReadTraffic =>
      match read_records fuel t c g with
      | None => Ret None
      | Some (t, c, g) => Ret (Some (set_tls (Some t) c, g, Continue true))
      end
  | EncodeTlsData => let! r := encode_tls_data t c g in Ret (Some r)
  | TransmitTlsData => Ret (Some (set_tls (Some (tls_done t)) c, g, Continue true))
  | WriteTraffic => let! r := write_traffic t c g in Ret (Some r)
  | OtherState => Ret (Some (c, g, Continue false))
  end.

(** [while progress]; [None] when [fuel] has run out. *)
(* [lib.rs 1113-1164 conn_step] *)
Fixpoint tls_loop (fuel : nat) (c : conn) (g : stats) : outcome (option (conn * stats)) :=
  match fuel with
  | O => Ret None
  | S fuel =>
      match tls c with
      | None => Ret (Some (c, g))
      | Some t =>
          let '(st, buf, t) := process_tls_records t (incoming c) in
          let c := set_tls (Some t) (set_incoming buf c) in
          match tls_state st with
          | Err _ => Ret (Some (set_done true c, println TlsFailed g))
          | Ok cs =>
              let! r := tls_act fuel cs t c g in
              match r with
              | None => Ret None
              | Some (c, g, Break) => Ret (Some (c, g))
              | Some (c, g, Continue progress) =>
                  let! rest := drain (discard st) (incoming c) in
                  let c := set_incoming rest c in
                  if progress then tls_loop fuel c g else Ret (Some (c, g))
              end
          end
      end
  end.

(* [lib.rs 1171-1174 conn_step] *)
Definition ended (st : tcp_state) : bool :=
  match st with Closed | CloseWait | TimeWait => true | _ => false end.

(* [lib.rs 1175-1180 conn_step] *)
Definition finish (c : conn) (s : socket) : conn :=
  if handshake_done c && request_queued c && ended (state s) &&
     (len (outgoing c) =? 0) && negb (can_recv s)
  then set_done true (set_closed_cleanly true c) else c.

(** Answers [conn.done] as well. *)
(* [lib.rs 1036-1181 conn_step] *)
Definition conn_step (fuel : nat) (now_ms : Z) (c : conn) (s : socket) (g : stats)
  : outcome (option (conn * socket * stats * bool)) :=
  if done c then Ret (Some (c, s, g, true))
  else
    let st := state s in
    let '(c, g) := note_established st now_ms c g in
    if syn_timed_out st now_ms c then
      let '(c, s, g) := abandon now_ms c s g in Ret (Some (c, s, g, true))
    else
      let c := queue_plain c s in
      let! (c, s) := flush_outgoing c s in
      let! drained := drain_socket (S (Z.to_nat (rb_length (rx_buffer s)))) c s in
      match drained with
      | None => Ret None
      | Some (c, s) =>
          let '(c, g) := count_plain (count_stub c) g in
          let! looped := (if PLAIN_HTTP env then Ret (Some (c, g)) else tls_loop fuel c g) in
          match looped with
          | None => Ret None
          | Some (c, g) => let c := finish c s in Ret (Some (c, s, g, done c))
          end
      end.

End Conn.
