(* ===== verification/ConnPlain.v ===== *)
(** A download over plain HTTP, from the peer's byte stream to the count: the
    steps of [Conn] on the socket of [TcpSocket], between arrivals and
    transmissions in any order. *)

From Stdlib Require Import ZArith Lia ZifyBool Ascii String.
From stdpp Require Import base list numbers.
From S2P Require Import Prelude AppConfig Http Assembler RingBuffer Time TcpWire TcpTimer Iface.
From S2P Require Import TcpState TcpSocket TcpProcess TcpDispatch TcpInv TcpReceive TcpTransmit TcpConnection TcpHandshake Conn.

(** ** Reading until the socket is empty *)

Lemma can_recv_spec s : sock_ok s -> can_recv s = (0 <? rb_length (rx_buffer s)).
Proof.
  intros Hok; destruct (rx_window s Hok) as (_ & Hl & _); unfold can_recv, rb_is_empty.
  destruct (Z.eqb_spec (rb_length (rx_buffer s)) 0); lia.
Qed.

Lemma can_recv_empty s : sock_ok s -> can_recv s = false -> rb_length (rx_buffer s) = 0.
Proof.
  intros Hok; rewrite can_recv_spec by done; destruct (rx_window s Hok) as (_ & Hl & _).
  destruct (Z.ltb_spec 0 (rb_length (rx_buffer s))); [done|lia].
Qed.

(** The fuel a step gives the loop. *)
Lemma drain_fuel s : sock_ok s -> rb_length (rx_buffer s) < Z.of_nat (S (Z.to_nat (rb_length (rx_buffer s)))).
Proof. intros Hok; destruct (rx_window s Hok) as (_ & ? & _); lia. Qed.

(** A read of a socket with data takes some of it. *)
Lemma recv_takes s :
  sock_ok s -> can_recv s = true ->
  exists data s', recv take_all s = Ret (Ok data, s') /\ 0 < len data /\
    rb_length (rx_buffer s') = rb_length (rx_buffer s) - len data.
Proof.
  intros Hok Hc; destruct (rx_window s Hok) as (Hw & Hlen & Hcap); pose proof (proj1 (ok_rx s Hok)) as Hri.
  assert (Hpos : 0 < rb_length (rx_buffer s)) by (rewrite can_recv_spec in Hc by done; lia).
  assert (He : recv_error_check s = Ok ()).
  { unfold recv_error_check, may_recv; rewrite Hc; by destruct (state s). }
  unfold recv, recv_impl; rewrite He.
  destruct (dequeue_many_with_spec take_all (rx_buffer s) Hri) as
    (c & data & rx & Ef & Hc' & Hm & Hlm & -> & Hrx & Hcx & Hconx & Hl & _ & _).
  { intros buf sl k r [= <- <- <-]; pose proof (len_nonneg buf); split; [done|lia]. }
  unfold take_all in Ef; injection Ef as Ec Ed; cbn [obind]; rewrite seq_add_small by lia; cbn [obind].
  do 2 eexists; split; [done|].
  destruct Hri as (? & ? & ? & ?); subst data; rewrite Hlm in Ec; rewrite Hlm, Ec.
  split; cbn; lia.
Qed.

(** A write keeps the state and takes a prefix. *)
Lemma send_slice_count s data res s' :
  sock_ok s -> len data < M64 -> send_slice data s = Ret (res, s') ->
  state s' = state s /\ rx_buffer s' = rx_buffer s /\ match res with Ok c => 0 <= c <= len data | Err _ => True end.
Proof.
  intros Hok Hl; unfold send_slice, send_impl; destruct (may_send s); cbn [negb]; [|by intros [= <- <-]].
  destruct (enqueue_slice_spec (tx_buffer s) data (proj1 (ok_tx s Hok)) Hl) as (tx & -> & _); cbn [obind].
  set (c := Z.min (len data) (window (tx_buffer s))).
  assert (Hc : 0 <= c <= len data).
  { pose proof (len_nonneg data); pose proof (window_eq _ (proj1 (ok_tx s Hok))).
    destruct (proj1 (ok_tx s Hok)) as (_ & _ & ? & _); subst c; lia. }
  intros [= <- <-]; split; [|split; [|done]].
  all: destruct (0 <? c); [|done].
  all: destruct (rb_length (tx_buffer s) =? 0); cbn [remote_win_len sk_timer with_remote_last_ts with_tx_buffer];
    by destruct (_ && _).
Qed.

Section Plain.
Context (env : build_env) `{Tls} (stream : list Z) (irs iss : Z).

Lemma drain_socket_ok sent fuel c s n m :
  conn_inv stream irs sent iss s n m -> rb_length (rx_buffer s) < Z.of_nat fuel ->
  exists data s', drain_socket fuel c s = Ret (Some (set_incoming (incoming c ++ data) c, s')) /\
    data = ztake (len data) (zdrop n stream) /\ n + len data <= len stream /\
    conn_inv stream irs sent iss s' (n + len data) m /\ can_recv s' = false /\
    len data = rb_length (rx_buffer s).
Proof using Type.
  revert c s n; induction fuel as [|fuel IH]; intros c s n Hi Hf.
  { pose proof (tx_length s (inv_ok _ _ _ _ _ _ _ Hi)); destruct (rx_window s (inv_ok _ _ _ _ _ _ _ Hi)); lia. }
  pose proof (inv_ok _ _ _ _ _ _ _ Hi) as Hok; cbn [drain_socket].
  destruct (can_recv s) eqn:Ec; cbn [negb].
  2:{ exists [], s; rewrite app_nil_r, len_nil, Z.add_0_r, ztake_0 by lia.
      pose proof (data_range _ _ _ (inv_data _ _ _ _ _ _ _ Hi)).
      rewrite (can_recv_empty s Hok Ec); split_and!; try done; [by destruct c|lia]. }
  destruct (recv_takes s Hok Ec) as (d1 & s1 & E1 & Hpos & Hl1).
  destruct (recv_ok stream irs iss s sent n m Hi) as (res & s1' & E1' & Hd1 & Hle1 & Hi1).
  rewrite E1 in E1'; injection E1' as <- <-; rewrite E1; cbn [obind].
  rewrite (proj2 (Z.ltb_lt _ _)) by lia.
  destruct (IH (set_incoming (incoming c ++ d1) c) s1 (n + len d1) Hi1) as
    (d2 & s2 & -> & Hd2 & Hle2 & Hi2 & Hc2 & Hl2); [lia|].
  exists (d1 ++ d2), s2; rewrite len_app, Z.add_assoc; split_and!; try done; [| |lia].
  - destruct c; cbn; by rewrite app_assoc.
  - pose proof (len_nonneg d2); pose proof (len_nonneg d1).
    pose proof (data_range _ _ _ (inv_data _ _ _ _ _ _ _ Hi)).
    rewrite <-(ztake_add (len d1) (len d2)), zdrop_zdrop, <-Hd1, <-Hd2 by lia; done.
Qed.

(** Moving what waits to the socket: a prefix of it. *)
Lemma flush_outgoing_ok sent c s n m :
  conn_inv stream irs sent iss s n m -> len (outgoing c) < M64 ->
  exists k s', flush_outgoing c s = Ret (set_outgoing (zdrop k (outgoing c)) c, s') /\
    0 <= k <= len (outgoing c) /\ conn_inv stream irs (sent ++ ztake k (outgoing c)) iss s' n m /\
    state s' = state s /\ rx_buffer s' = rx_buffer s.
Proof using Type.
  intros Hi Hl; unfold flush_outgoing; pose proof (len_nonneg (outgoing c)).
  assert (Hsame : forall s', conn_inv stream irs sent iss s' n m -> state s' = state s -> rx_buffer s' = rx_buffer s ->
    exists k s'', Ret (c, s') = Ret (set_outgoing (zdrop k (outgoing c)) c, s'') /\ 0 <= k <= len (outgoing c) /\
      conn_inv stream irs (sent ++ ztake k (outgoing c)) iss s'' n m /\ state s'' = state s /\
      rx_buffer s'' = rx_buffer s).
  { intros s' Hi' E1 E2; exists 0, s'; rewrite zdrop_0, ztake_0, app_nil_r by lia.
    split_and!; try done; by destruct c. }
  destruct (negb _ && _); [|by apply Hsame].
  destruct (send_slice_ok stream irs iss s sent n m (outgoing c) Hi Hl) as (res & s' & E & Hi').
  destruct (send_slice_count s (outgoing c) res s' (inv_ok _ _ _ _ _ _ _ Hi) Hl E) as (E1 & E2 & Hc).
  rewrite E; cbn [obind]; destruct res as [k|e]; [|rewrite app_nil_r in Hi'; by apply Hsame].
  destruct (Z.ltb_spec 0 k).
  - unfold drain; rewrite (proj2 (Z.leb_le _ _)) by lia; cbn [obind]; by exists k, s'.
  - assert (k = 0) by lia; subst k; rewrite ztake_0, app_nil_r in Hi' by lia; by apply Hsame.
Qed.

(** Counting what was read: the scan goes on where it was. *)
Lemma count_plain_ok (Hplain : PLAIN_HTTP env = true) c g data0 :
  counted data0 (http c) ->
  exists h g', count_plain env (count_stub env c) g = (set_incoming [] (set_http h c), g') /\
    counted (data0 ++ incoming c) h.
Proof using Type.
  intros Hc; unfold count_stub, STUB_TLS_AFTER_HANDSHAKE; rewrite Hplain, andb_false_r; cbn [andb].
  unfold count_plain; rewrite Hplain; destruct (Z.eqb_spec (len (incoming c)) 0) as [E|E]; cbn [andb negb].
  - assert (Hnil : incoming c = []) by (by apply len_zero_nil).
    exists (http c), g; rewrite Hnil, app_nil_r; split; [|done]; destruct c; cbn in *; by rewrite Hnil.
  - pose proof (counted_next data0 (incoming c) (http c) (codes g) Hc) as Hn.
    destruct (count_body (http c) (codes g) (incoming c)) as [h cd]; cbn [fst] in Hn.
    by exists h, (with_codes cd g).
Qed.

(** ** The invariant of a download *)

(** [n] bytes of the response have been read and counted; [sent] is what of the
    request has been handed to the socket. *)
Record downloading (sent : list Z) (c : conn) (s : socket) (n : Z) : Prop := {
  dl_conn : exists m, conn_inv stream irs sent iss s n m;
  dl_count : counted (ztake n stream) (http c);
  dl_incoming : incoming c = [];
  dl_request : sent ++ outgoing c = if request_queued c then request c else [];
  dl_shake : handshake_done c = request_queued c;
  dl_done : done c = closed_cleanly c;
}.

Definition fresh (c : conn) : Prop :=
  http c = http_init /\ incoming c = [] /\ outgoing c = [] /\ request_queued c = false /\
  handshake_done c = false /\ done c = false /\ closed_cleanly c = false.

(** What a step of an unfinished download does. *)
Record stepped (sent : list Z) (c : conn) (s : socket) (n : Z) (sent' : list Z) (c' : conn) (s' : socket) (n' : Z) : Prop := {
  st_inv : downloading sent' c' s' n';
  st_le : n <= n' <= len stream;
  st_read : n' = n + rb_length (rx_buffer s);
  st_sent : exists more, sent' = sent ++ more;
  st_request : request c' = request c;
  st_empty : rb_length (rx_buffer s') = 0;
  st_end : done c' = true -> request_queued c' = true /\ outgoing c' = [] /\ ended (state s') = true /\
           (state s' = Closed \/ n' = len stream);
}.

Lemma conn_step_ok (Hplain : PLAIN_HTTP env = true) fuel now sent c s n g :
  downloading sent c s n -> done c = false -> len (request c) < M64 ->
  exists sent' c' s' n' g', conn_step env fuel now c s g = Ret (Some (c', s', g', done c')) /\
    stepped sent c s n sent' c' s' n'.
Proof using Type.
  intros [[m Hi] Hcnt Hin Hreq Hsh Hdn] Hnd Hlen; unfold conn_step; rewrite Hnd.
  set (cg := note_established _ _ _ _).
  assert (Hcg : exists b g1, cg = (set_settled b c, g1)).
  { subst cg; unfold note_established; destruct (_ && _); [by do 2 eexists|].
    exists (settled c), g; by destruct c. }
  destruct Hcg as (b & g1 & Ecg); rewrite Ecg; clear cg Ecg.
  assert (Hss : state_eqb (state s) SynSent = false).
  { destruct Hi as [_ _ [E|(E & _)]]; [by rewrite E|by destruct (state s)]. }
  unfold syn_timed_out; rewrite Hss; cbn [andb].
  set (c1 := queue_plain env (set_settled b c) s).
  assert (H1 : incoming c1 = [] /\ http c1 = http c /\ request c1 = request c /\ done c1 = false /\
    closed_cleanly c1 = closed_cleanly c /\
    handshake_done c1 = request_queued c1 /\ sent ++ outgoing c1 = (if request_queued c1 then request c else [])).
  { subst c1; unfold queue_plain; rewrite Hplain; cbn [andb request_queued set_settled].
    destruct (request_queued c) eqn:Eq; cbn [negb andb]; [cbn; rewrite Eq; done|].
    apply app_eq_nil in Hreq as [-> Ho]; destruct (may_send s); cbn; rewrite ?Ho, ?Eq; done. }
  clearbody c1; destruct H1 as (I1 & I2 & I3 & I4 & I5 & I6 & I7).
  assert (Hlo : len (outgoing c1) < M64).
  { apply (f_equal len) in I7; rewrite len_app in I7; pose proof (len_nonneg sent).
    clear -I7 Hlen H0; destruct (request_queued c1); rewrite ?len_nil in I7; lia. }
  destruct (flush_outgoing_ok sent c1 s n m Hi Hlo) as (k & s1 & -> & Hk & Hi1 & Hs1 & Hb1); cbn [obind].
  destruct (drain_socket_ok (sent ++ ztake k (outgoing c1)) (S (Z.to_nat (rb_length (rx_buffer s1))))
    (set_outgoing (zdrop k (outgoing c1)) c1) s1 n m Hi1) as (data & s2 & -> & Hd & Hle & Hi2 & Hc2 & Hall2);
    [exact (drain_fuel s1 (inv_ok _ _ _ _ _ _ _ Hi1))|].
  cbn [obind]; change (incoming (set_outgoing _ c1)) with (incoming c1); rewrite I1; cbn [app].
  set (c2 := set_incoming data _).
  destruct (count_plain_ok Hplain c2 g1 (ztake n stream)) as (h & g2 & -> & Hcnt').
  { change (http c2) with (http c1); by rewrite I2. }
  rewrite Hplain; cbn [obind]; set (c3 := set_incoming [] (set_http h c2)).
  change (incoming c2) with data in Hcnt'.
  pose proof (data_range _ _ _ (inv_data _ _ _ _ _ _ _ Hi)) as Hn; pose proof (len_nonneg data).
  assert (Hall : ztake n stream ++ data = ztake (n + len data) stream). 
  { clear -Hd Hn; pose proof (len_nonneg data).
    rewrite <-(ztake_add n (len data)), <-Hd by lia; reflexivity. }
  rewrite Hall in Hcnt'.
  assert (H3 : downloading (sent ++ ztake k (outgoing c1)) c3 s2 (n + len data)).
  { split; [by exists m|exact Hcnt'|done| |exact I6|].
    - change (outgoing c3) with (zdrop k (outgoing c1)); rewrite <-app_assoc.
      unfold ztake, zdrop; rewrite take_drop; change (request c3) with (request c1); by rewrite I3.
    - change (done c3) with (done c1); change (closed_cleanly c3) with (closed_cleanly c1); congruence. }
  exists (sent ++ ztake k (outgoing c1)), (finish c3 s2), s2, (n + len data), g2; split; [done|].
  assert (Hend : ended (state s2) = true -> state s2 = Closed \/ n + len data = len stream).
  { intros He; destruct Hi2 as [Hok2 Hd2 [Hcl|(Hsy & Hl2 & _)]]; [by left|right].
    assert (Hf : rx_fin_received s2 = true).
    { rewrite (live_open _ _ _ _ Hl2); by destruct (state s2). }
    pose proof (data_fin _ _ _ Hd2 Hf) as Hlast; unfold rx_next in Hlast.
    by rewrite (can_recv_empty s2 Hok2 Hc2), Z.add_0_r in Hlast. }
  unfold finish; destruct (_ && _) eqn:Ef.
  - repeat (apply andb_prop in Ef as [Ef ?]).
    assert (F1 : request_queued c3 = true) by done; assert (F2 : ended (state s2) = true) by done.
    assert (F3 : len (outgoing c3) = 0) by (by apply Z.eqb_eq).
    split.
    + destruct H3; split; done.
    + clear -Hle Hn; pose proof (len_nonneg data); lia.
    + by rewrite Hall2, Hb1.
    + by eexists.
    + exact I3.
    + by apply can_recv_empty; [apply Hi2|].
    + intros _; split_and!; [done|by apply len_zero_nil|done|by apply Hend].
  - split; [done|clear -Hle Hn; pose proof (len_nonneg data); lia|by rewrite Hall2, Hb1|by eexists|exact I3|by apply can_recv_empty; [apply Hi2|]|].
    change (done c3) with (done c1); by rewrite I4.
Qed.

(** ** Runs *)

(** What the interface does to the socket between two steps. *)
Definition network (e : event) : bool :=
  match e with EvSegment _ _ _ | EvDispatch _ _ => true | _ => false end.

(** They neither read nor write for the user. *)
Lemma network_inv sent s n m e s' got took :
  conn_inv stream irs sent iss s n m -> network e = true -> valid_event stream irs s n e ->
  conn_event s e = Ret (s', got, took) -> exists m', conn_inv stream irs sent iss s' n m'.
Proof using Type.
  intros Hi He Hv Hev; destruct (conn_event_ok _ _ _ _ _ _ _ _ Hi Hv) as (s1 & g1 & t1 & m1 & E & _ & _ & Hi1).
  rewrite Hev in E; injection E as <- <- <-.
  assert (Hnone : got = [] /\ took = []).
  { destruct e as [cx ip r|cx ok| | | | |]; try discriminate He; cbn [conn_event] in Hev.
    - destruct (accepts s ip r); [|by injection Hev as _ <- <-].
      destruct (process cx ip r s) as [[[? ?] ?]|]; [|done]; by injection Hev as _ <- <-.
    - destruct (dispatch _ cx s) as [[[? ?] ?]|]; [|done]; by injection Hev as _ <- <-. }
  destruct Hnone as [-> ->]; rewrite app_nil_r, len_nil, Z.add_0_r in Hi1; by exists m1.
Qed.

(** [download_run fuel c0 s0 c s n]: from [c0] and [s0], arrivals of pieces of the
    response, transmissions and steps lead to [c] and [s]; [n] bytes have been
    read.  Other connections change the shared counters in between. *)
Inductive download_run (fuel : nat) (c0 : conn) (s0 : socket) : conn -> socket -> Z -> Prop :=
| run_start : download_run fuel c0 s0 c0 s0 0
| run_network c s n e s' got took :
    download_run fuel c0 s0 c s n -> network e = true -> valid_event stream irs s n e ->
    conn_event s e = Ret (s', got, took) -> download_run fuel c0 s0 c s' n
| run_step c s n now g c' s' g' d :
    download_run fuel c0 s0 c s n -> conn_step env fuel now c s g = Ret (Some (c', s', g', d)) ->
    download_run fuel c0 s0 c' s' (if done c then n else n + rb_length (rx_buffer s)).

Lemma run_downloading (Hplain : PLAIN_HTTP env = true) fuel c0 s0 c s n :
  fresh c0 -> len (request c0) < M64 -> conn_inv stream irs [] iss s0 0 0 ->
  download_run fuel c0 s0 c s n ->
  exists sent, downloading sent c s n /\ request c = request c0.
Proof using Type.
  intros (F1 & F2 & F3 & F4 & F5 & F6 & F7) Hlen Hi0 Hr.
  induction Hr as [|c s n e s' got took Hr IH He Hv Hev|c s n now g c' s' g' d Hr IH Hst].
  - exists []; split; [|done]; split; try congruence.
    + by exists 0.
    + rewrite ztake_0, F1 by lia; apply counted_nil.
    + by rewrite F3, F4.
  - destruct IH as (sent & [[m Hi] D1 D2 D3 D4 D5] & Hq); exists sent; split; [|done].
    destruct (network_inv _ _ _ _ _ _ _ _ Hi He Hv Hev) as [m1 Hi1].
    split; try done; by exists m1.
  - destruct IH as (sent & Hd & Hq); destruct (done c) eqn:Edn.
    + unfold conn_step in Hst; rewrite Edn in Hst; injection Hst as <- <- <- <-; by exists sent.
    + destruct (conn_step_ok Hplain fuel now sent c s n g Hd Edn) as (sent' & c2 & s2 & n2 & g2 & E & Hs);
        [by rewrite Hq|].
      rewrite Hst in E; injection E as -> -> -> _; exists sent'.
      rewrite <-(st_read _ _ _ _ _ _ _ _ Hs); split; [apply Hs|].
      by rewrite (st_request _ _ _ _ _ _ _ _ Hs).
Qed.

(** C5: a plain HTTP download counts exactly the body.  Whatever the order in
    which the pieces of the response arrive and the request is transmitted,
    every step of an open connection returns, with the receive buffer empty;
    what has been counted is the body in the bytes read so far; and what of the
    request no longer waits in the connection is what the socket has been given
    to send: it is the [sent] of the socket's invariant, whose transmit buffer
    holds all of it that the peer has not acknowledged.  The step that ends the
    download does so because the connection is closed and the socket was given
    the whole request: then either the whole response has been read and the
    count is the length of its body, or the connection was cut (reset or timed
    out).  As for the stream ([valid_segment]), the server's segments are pieces
    of the response within 2^29 bytes of what is expected, and its FIN stands
    behind the last byte and not beyond the window it was given. *)
Theorem plain_download_exact (fuel : nat) (c0 : conn) (s0 : socket) (c : conn) (s : socket) (n : Z)
    (now : Z) (g : stats) :
  PLAIN_HTTP env = true -> len stream < M64 -> fresh c0 -> len (request c0) < M64 ->
  conn_inv stream irs [] iss s0 0 0 -> download_run fuel c0 s0 c s n ->
  0 <= n <= len stream /\ body_of (ztake n stream) (http c) /\
  (exists sent m, conn_inv stream irs sent iss s n m /\
     sent ++ outgoing c = if request_queued c then request c0 else []) /\
  (done c = false ->
   exists c' s' g', conn_step env fuel now c s g = Ret (Some (c', s', g', done c')) /\
     rb_length (rx_buffer s') = 0 /\
     (done c' = true -> closed_cleanly c' = true /\ request_queued c' = true /\ outgoing c' = [] /\
        (exists n' m', conn_inv stream irs (request c0) iss s' n' m') /\ ended (state s') = true /\ (state s' = Closed \/ body_of stream (http c')))).
Proof using Type.
  intros Hplain Hlen Hf Hreq Hi0 Hr.
  destruct (run_downloading Hplain fuel c0 s0 c s n Hf Hreq Hi0 Hr) as (sent & Hd & Hq).
  pose proof Hd as [[m Hi] Hcnt _ Hrq _ _]; pose proof (data_range _ _ _ (inv_data _ _ _ _ _ _ _ Hi)) as Hn.
  assert (Hbody : forall k h, counted (ztake k stream) h -> body_of (ztake k stream) h).
  { intros k h Hc; apply counted_body; [|done]; rewrite len_ztake; lia. }
  split; [done|]; split; [by apply Hbody|]; split; [exists sent, m; split; [exact Hi|by rewrite <-Hq]|].
  intros Hnd; destruct (conn_step_ok Hplain fuel now sent c s n g Hd Hnd) as (sent' & c' & s' & n' & g' & E & Hs);
    [by rewrite Hq|].
  exists c', s', g'; split; [done|]; split; [exact (st_empty _ _ _ _ _ _ _ _ Hs)|].
  intros Hdone; destruct (st_end _ _ _ _ _ _ _ _ Hs Hdone) as (E1 & E2 & E3 & E4).
  pose proof (st_inv _ _ _ _ _ _ _ _ Hs) as [[m' Hi'] Hcnt' _ Hrq' _ Hcl].
  rewrite E1, E2, app_nil_r, (st_request _ _ _ _ _ _ _ _ Hs), Hq in Hrq'; rewrite Hrq' in Hi'.
  split_and!; try done; [congruence|by exists n', m'|]; destruct E4 as [E4 | ->]; [by left|right].
  rewrite ztake_ge in Hcnt' by done; by apply counted_body.
Qed.

End Plain.

(** ** A response of one segment *)

(** A session type for builds without TLS. *)
#[export] Instance no_tls : Tls :=
  {| session := unit; tls_error := unit;
     process_tls_records := fun _ buf => ({| discard := 0; tls_state := Err () |}, buf, ());
     next_record := fun _ buf => (None, buf, ());
     encode := fun _ _ => (Err (), ());
     tls_done := fun _ => ();
     encrypt := fun _ _ _ => (Err (), ()) |}.

Definition ex_conn : conn :=
  {| handle := 0; tls := None; incoming := []; outgoing := []; request := str "GET"; request_queued := false;
     handshake_done := false; http := http_init; done := false; connect_start_ms := 0; queue_id := 0;
     src_port := 49152; expected := 2; closed_cleanly := false; attempts := 1; settled := false; start_ms := 0 |}.

Definition ex_stats : stats :=
  {| CONNS_ESTABLISHED := 0; CONNS_FAILED := 0; SYN_RETRIES := 0; SETUP_MS_TOTAL := 0;
     codes := {| BAD_STATUS := 0; FIRST_BAD_STATUS := 0 |}; printed := [] |}.

Definition ex_response : list Z := str "HTTP/1.1 206 OK" ++ terminator ++ str "hi".

Lemma plain_download_exact_witness : exists s0 c s,
  ex_established = Ret s0 /\ download_run example_env ex_response 1001 1 ex_conn s0 c s 21 /\
  bytes_received (http c) = 2 /\ body_of (ztake 21 ex_response) (http c) /\
  exists c' s' g', conn_step example_env 1 5 c s ex_stats = Ret (Some (c', s', g', done c')).
Proof.
  destruct (ex_established_ok ex_response) as (s0 & E & Hi).
  assert (Hrun : exists s1 c2 s2 g2,
    conn_event s0 (EvSegment ex_cx ex_ip (ex_data ex_response)) = Ret (s1, [], []) /\
    conn_step example_env 1 5 ex_conn s1 ex_stats = Ret (Some (c2, s2, g2, false)) /\
    rb_length (rx_buffer s0) = 0 /\ rb_length (rx_buffer s1) = 21 /\ bytes_received (http c2) = 2 /\ done c2 = false).
  { clear Hi; vm_compute in E; injection E as E; subst s0.
    do 4 eexists.
    split; [vm_compute; reflexivity|].
    split; [vm_compute; reflexivity|].
    split; [vm_compute; reflexivity|].
    split; [vm_compute; reflexivity|].
    split; vm_compute; reflexivity. }
  destruct Hrun as (s1 & c2 & s2 & g2 & E1 & E2 & E3 & E4 & E5 & E6).
  assert (Hr : download_run example_env ex_response 1001 1 ex_conn s0 c2 s2 21).
  { rewrite <-E4; refine (run_step _ _ _ _ _ _ _ s1 0 _ _ _ _ _ _ _ E2).
    refine (run_network _ _ _ _ _ _ _ s0 0 _ _ _ _ (run_start _ _ _ _ _ _) _ _ E1); [done|].
    apply ex_data_ok; [done|by vm_compute]. }
  exists s0, c2, s2.
  destruct (plain_download_exact example_env ex_response 1001 (ex_iss + 1) 1 ex_conn s0 c2 s2 21 5 ex_stats)
    as (_ & Hb & _ & Hstep); 
    [vm_compute; reflexivity|vm_compute; reflexivity|repeat split|vm_compute; reflexivity|exact Hi|exact Hr|].
  split; [exact E|]; split; [exact Hr|]; split; [exact E5|]; split; [exact Hb|].
  destruct (Hstep E6) as (c' & s' & g' & Hc & _); exists c', s', g'; exact Hc.
Defined.
