(* ===== verification/ConnStep.v ===== *)
(** Steps of any connection, with or without TLS: what they account for, that
    no failure is silent, and that they end. *)

From Stdlib Require Import ZArith Lia ZifyBool.
From stdpp Require Import base list numbers.
From S2P Require Import Prelude AppConfig Http Assembler RingBuffer Time TcpWire TcpTimer Iface.
From S2P Require Import TcpState TcpSocket TcpProcess TcpDispatch TcpInv TcpConnection TcpHandshake Conn ConnPlain.

(** ** What stays *)

Section Frame.
Context (env : build_env) `{Tls}.

(** The identity of a connection, its accounting flags, the shared counters. *)
Definition identity (c : conn) :=
  (handle c, request c, connect_start_ms c, queue_id c, src_port c, expected c, attempts c, start_ms c).

Definition counters (g : stats) :=
  (CONNS_ESTABLISHED g, CONNS_FAILED g, SYN_RETRIES g, SETUP_MS_TOTAL g).

(** A stage that only moves and counts data: whatever it gives up on, it says. *)
Record quiet_stage (c : conn) (g : stats) (c' : conn) (g' : stats) : Prop := {
  qs_identity : identity c' = identity c;
  qs_settled : settled c' = settled c;
  qs_clean : closed_cleanly c' = closed_cleanly c;
  qs_counters : counters g' = counters g;
  qs_done : done c = true -> done c' = true;
  qs_printed : exists ms, printed g' = printed g ++ ms /\ (done c' = true -> done c = true \/ ms <> []);
}.

Lemma quiet_refl c g c' g' :
  identity c' = identity c -> settled c' = settled c -> closed_cleanly c' = closed_cleanly c ->
  counters g' = counters g -> done c' = done c -> printed g' = printed g -> quiet_stage c g c' g'.
Proof using Type.
  intros H1 H2 H3 H4 H5 H6; split; try done; [congruence|].
  exists []; rewrite app_nil_r; split; [done|]; rewrite H5; by left.
Qed.

Lemma quiet_fail c g c' g' m :
  identity c' = identity c -> settled c' = settled c -> closed_cleanly c' = closed_cleanly c ->
  counters g' = counters g -> done c' = true -> printed g' = printed g ++ [m] -> quiet_stage c g c' g'.
Proof using Type. intros H1 H2 H3 H4 H5 H6; split; try done; exists [m]; split; [done|]; by right. Qed.

Lemma quiet_trans c1 g1 c2 g2 c3 g3 :
  quiet_stage c1 g1 c2 g2 -> quiet_stage c2 g2 c3 g3 -> quiet_stage c1 g1 c3 g3.
Proof using Type.
  intros [A1 A2 A3 A4 A5 (m1 & A6 & A7)] [B1 B2 B3 B4 B5 (m2 & B6 & B7)]; split; try congruence; [auto|].
  exists (m1 ++ m2); rewrite B6, A6, app_assoc; split; [done|]; intros Hd.
  destruct (B7 Hd) as [Hd2|Hne]; [|right; by intros [_ ?]%app_nil].
  destruct (A7 Hd2) as [?|Hne]; [by left|right; by intros [? _]%app_nil].
Qed.

Ltac quiet_step := first [apply quiet_refl; reflexivity | eapply quiet_fail; reflexivity].

Lemma read_records_quiet fuel t c g t' c' g' :
  read_records fuel t c g = Some (t', c', g') -> quiet_stage c g c' g'.
Proof using Type.
  revert t c g; induction fuel as [|fuel IH]; intros t c g; cbn [read_records]; [done|].
  destruct (next_record t (incoming c)) as [[[[data|e]|] buf] t1].
  - destruct (count_body _ _ data) as [h cd]; intros E.
    eapply quiet_trans; [|by apply (IH _ _ _ E)]; quiet_step.
  - intros [= <- <- <-]; quiet_step.
  - intros [= <- <- <-]; quiet_step.
Qed.

Lemma tls_act_quiet fuel cs t c g c' g' a :
  tls_act fuel cs t c g = Ret (Some (c', g', a)) -> quiet_stage c g c' g'.
Proof using Type.
  destruct cs; cbn [tls_act].
  - destruct (read_records fuel t c g) as [[[t1 c1] g1]|] eqn:E; [|done]; intros [= <- <- <-].
    apply (quiet_trans _ _ c1 g1); [by apply read_records_quiet in E|quiet_step].
  - unfold encode_tls_data; destruct (room_behind _ _) as [room|]; [|done]; cbn [obind].
    destruct (encode t room) as [[data|e] t1]; intros [= <- <- <-]; quiet_step.
  - intros [= <- <- <-]; quiet_step.
  - unfold write_traffic; change (request_queued (set_handshake_done true c)) with (request_queued c).
    destruct (request_queued c); cbn [negb obind]; [intros [= <- <- <-]; quiet_step|].
    destruct (room_behind _ _) as [room|]; [|done]; cbn [obind].
    destruct (encrypt t _ room) as [[data|e] t1]; intros [= <- <- <-]; quiet_step.
  - intros [= <- <- <-]; quiet_step.
Qed.

Lemma tls_loop_quiet fuel c g c' g' :
  tls_loop fuel c g = Ret (Some (c', g')) -> quiet_stage c g c' g'.
Proof using Type.
  revert c g; induction fuel as [|fuel IH]; intros c g; cbn [tls_loop]; [done|].
  destruct (tls c) as [t|]; [|intros [= <- <-]; quiet_step].
  destruct (process_tls_records t (incoming c)) as [[st buf] t1].
  set (c1 := set_tls (Some t1) (set_incoming buf c)).
  assert (H1 : quiet_stage c g c1 g) by quiet_step.
  destruct (tls_state st) as [cs|e]; [|intros [= <- <-]; quiet_step].
  destruct (tls_act fuel cs t1 c1 g) as [[[[c2 g2] a]|]|] eqn:E; cbn [obind]; try done.
  apply tls_act_quiet in E; pose proof (quiet_trans _ _ _ _ _ _ H1 E) as H2.
  destruct a as [progress|]; [|by intros [= <- <-]].
  destruct (drain (discard st) (incoming c2)) as [rest|]; [|done]; cbn [obind].
  assert (H3 : quiet_stage c g (set_incoming rest c2) g2) by (apply (quiet_trans _ _ c2 g2); [done|quiet_step]).
  destruct progress; [|by intros [= <- <-]].
  intros E3; apply (quiet_trans _ _ _ _ _ _ H3); by apply IH.
Qed.

Lemma drain_socket_quiet fuel c s c' s' g :
  drain_socket fuel c s = Ret (Some (c', s')) -> quiet_stage c g c' g.
Proof using Type.
  revert c s; induction fuel as [|fuel IH]; intros c s; cbn [drain_socket]; [done|].
  destruct (can_recv s); cbn [negb]; [|intros [= <- <-]; quiet_step].
  destruct (recv take_all s) as [[[data|e] s1]|]; cbn [obind]; [|intros [= <- <-]; quiet_step|done].
  destruct (0 <? len data); [|intros [= <- <-]; quiet_step].
  intros E; eapply quiet_trans; [|by apply (IH _ _ E)]; quiet_step.
Qed.

Lemma flush_outgoing_quiet c s c' s' g :
  flush_outgoing c s = Ret (c', s') -> quiet_stage c g c' g.
Proof using Type.
  unfold flush_outgoing; destruct (_ && _); [|intros [= <- <-]; quiet_step].
  destruct (send_slice _ s) as [[[n|e] s1]|]; cbn [obind]; [|intros [= <- <-]; quiet_step|done].
  destruct (0 <? n); [|intros [= <- <-]; quiet_step].
  destruct (drain n _) as [l|]; [|done]; cbn [obind]; intros [= <- <-]; quiet_step.
Qed.

Lemma queue_count_quiet c s g :
  quiet_stage c g (queue_plain env c s) g /\ quiet_stage c g (count_stub env c) g /\
  forall c' g', count_plain env c g = (c', g') -> quiet_stage c g c' g'.
Proof using Type.
  split; [|split].
  - unfold queue_plain; destruct (_ && _); quiet_step.
  - unfold count_stub; destruct (_ && _); quiet_step.
  - intros c' g'; unfold count_plain; destruct (_ && _); [|intros [= <- <-]; quiet_step].
    destruct (count_body _ _ _) as [h cd]; intros [= <- <-]; quiet_step.
Qed.

(** ** The accounting of a step *)

(** How a step settles a connection. *)
Variant settlement (now : Z) (c : conn) (s : socket) (g : stats) (c' : conn) (s' : socket) (g' : stats) : Prop :=
| settled_before :
    settled c' = settled c -> counters g' = counters g -> settlement now c s g c' s' g'
| settled_established :
    settled c = false -> settled c' = true -> state s = Established ->
    counters g' = (u64 (CONNS_ESTABLISHED g + 1), CONNS_FAILED g,
                   u64 (SYN_RETRIES g + saturating_sub (attempts c) 1), add_setup now c g) ->
    settlement now c s g c' s' g'
| settled_failed :
    settled c = false -> settled c' = true -> state s = SynSent -> syn_timed_out SynSent now c = true ->
    counters g' = (CONNS_ESTABLISHED g, u64 (CONNS_FAILED g + 1), SYN_RETRIES g, add_setup now c g) ->
    state s' = Closed -> done c' = true -> closed_cleanly c' = closed_cleanly c ->
    settlement now c s g c' s' g'.

Lemma finish_cases c s :
  finish c s = c \/
  (finish c s = set_done true (set_closed_cleanly true c) /\ handshake_done c = true /\
   request_queued c = true /\ ended (state s) = true /\ outgoing c = [] /\ can_recv s = false).
Proof using Type.
  unfold finish; destruct (_ && _) eqn:E; [right|by left].
  repeat (apply andb_prop in E as [E ?]); split_and!; try done.
  - by apply len_zero_nil, Z.eqb_eq.
  - by destruct (can_recv s).
Qed.

Lemma note_established_cases st now c g :
  (note_established st now c g = (c, g) /\ (settled c = true \/ st <> Established)) \/
  (settled c = false /\ st = Established /\ exists g1, note_established st now c g = (set_settled true c, g1) /\
    printed g1 = printed g /\
    counters g1 = (u64 (CONNS_ESTABLISHED g + 1), CONNS_FAILED g,
                   u64 (SYN_RETRIES g + saturating_sub (attempts c) 1), add_setup now c g)).
Proof using Type.
  unfold note_established; destruct (settled c) eqn:E; cbn [negb andb]; [left; auto|].
  destruct st; cbn [state_eqb]; try (left; split; [done|right; done]).
  right; split; [done|]; split; [done|]; eexists; split; [reflexivity|done].
Qed.

(** The ways through a step: nothing to do, giving up, or the stages. *)
Variant step_cases (now : Z) (c : conn) (s : socket) (g : stats) : conn -> socket -> stats -> bool -> Prop :=
| step_done : done c = true -> step_cases now c s g c s g true
| step_abandoned c' s' g' :
    done c = false -> state s = SynSent -> syn_timed_out SynSent now c = true ->
    abandon now c s g = (c', s', g') -> step_cases now c s g c' s' g' true
| step_ran c1 g1 c2 s2 g2 :
    done c = false -> note_established (state s) now c g = (c1, g1) -> quiet_stage c1 g1 c2 g2 ->
    step_cases now c s g (finish c2 s2) s2 g2 (done (finish c2 s2)).

Lemma conn_step_inv fuel now c s g c' s' g' d :
  conn_step env fuel now c s g = Ret (Some (c', s', g', d)) -> step_cases now c s g c' s' g' d.
Proof using Type.
  unfold conn_step; destruct (done c) eqn:Edn; [intros [= <- <- <- <-]; by constructor|].
  destruct (note_established (state s) now c g) as [c1 g1] eqn:E1.
  destruct (syn_timed_out (state s) now c1) eqn:Eto.
  - assert (Es : state s = SynSent) by (unfold syn_timed_out in Eto; by destruct (state s)).
    unfold note_established in E1; rewrite Es, andb_false_r in E1; injection E1 as <- <-; rewrite Es in Eto.
    destruct (abandon now c s g) as [[c2 s2] g2] eqn:E2; intros [= <- <- <- <-]; by constructor.
  - destruct (flush_outgoing (queue_plain env c1 s) s) as [[c2 s2]|] eqn:E2; [|done]; cbn [obind].
    destruct (drain_socket _ c2 s2) as [[[c3 s3]|]|] eqn:E3; cbn [obind]; try done.
    destruct (count_plain env (count_stub env c3) g1) as [c4 g4] eqn:E4.
    destruct (if PLAIN_HTTP env then Ret (Some (c4, g4)) else tls_loop fuel c4 g4)
      as [[[c5 g5]|]|] eqn:E5; cbn [obind]; try done.
    intros [= <- <- <- <-]; refine (step_ran now c s g c1 g1 c5 s3 g5 Edn E1 _).
    destruct (queue_count_quiet c1 s g1) as (Q1 & _), (queue_count_quiet c3 s g1) as (_ & Q3 & _).
    destruct (queue_count_quiet (count_stub env c3) s g1) as (_ & _ & Q4).
    eapply quiet_trans; [exact Q1|]; eapply quiet_trans; [exact (flush_outgoing_quiet _ _ _ _ g1 E2)|].
    eapply quiet_trans; [exact (drain_socket_quiet _ _ _ _ _ g1 E3)|]; eapply quiet_trans; [exact Q3|].
    eapply quiet_trans; [exact (Q4 _ _ E4)|].
    destruct (PLAIN_HTTP env); [|by apply tls_loop_quiet in E5].
    injection E5 as <- <-; apply quiet_refl; reflexivity.
Qed.

(** What the first stage leaves for the others. *)
Lemma noted now c s g c1 g1 :
  note_established (state s) now c g = (c1, g1) ->
  identity c1 = identity c /\ done c1 = done c /\ closed_cleanly c1 = closed_cleanly c /\ printed g1 = printed g /\
  (settled c = true -> settled c1 = true) /\
  forall c' s' g', settled c' = settled c1 -> counters g' = counters g1 -> settlement now c s g c' s' g'.
Proof using Type.
  destruct (note_established_cases (state s) now c g) as [[-> _]|(H1 & H2 & g' & -> & H3 & H4)]; intros [= <- <-].
  - split_and!; try done; intros; by apply settled_before.
  - split_and!; try done; intros; apply settled_established; try done; congruence.
Qed.

(** Whose connection it is never changes, and the answer is its state. *)
Lemma conn_step_identity fuel now c s g c' s' g' d :
  conn_step env fuel now c s g = Ret (Some (c', s', g', d)) -> d = done c' /\ identity c' = identity c.
Proof using Type.
  intros [Hd|c2 s2 g2 _ _ _ Ha|c1 g1 c2 s2 g2 _ Hn Hq]%conn_step_inv; [by split| |].
  - unfold abandon in Ha; destruct (negb (settled c)); by injection Ha as <- _ _.
  - split; [done|]; destruct (noted _ _ _ _ _ _ Hn) as [<- _]; rewrite <-(qs_identity _ _ _ _ Hq).
    by destruct (finish_cases c2 s2) as [-> |(-> & _)].
Qed.

(** C18: the accounting of a step.  Whatever the TLS library does, a step answers
    whether the connection is done; once it is, nothing changes any more; it is
    counted at most once, as established (with the SYNs and the time it took)
    or as failed (on a SYN timeout, which also closes the socket), and never
    loses that; it ends only with a message on the console, or cleanly; and
    cleanly means that the request has been handed over entirely, the socket is
    closed and nothing is left to read. *)
Theorem conn_step_accounting (fuel : nat) (now : Z) (c c' : conn) (s s' : socket) (g g' : stats) (d : bool) :
  conn_step env fuel now c s g = Ret (Some (c', s', g', d)) ->
  d = done c' /\ identity c' = identity c /\
  (done c = true -> c' = c /\ s' = s /\ g' = g) /\
  (settled c = true -> settled c' = true) /\ (closed_cleanly c = true -> closed_cleanly c' = true) /\
  settlement now c s g c' s' g' /\
  (exists ms, printed g' = printed g ++ ms /\
     (done c = false -> done c' = true -> closed_cleanly c' = true \/ ms <> [])) /\
  (closed_cleanly c = false -> closed_cleanly c' = true ->
     handshake_done c' = true /\ request_queued c' = true /\ outgoing c' = [] /\
     ended (state s') = true /\ can_recv s' = false).
Proof using Type.
  intros Hst; destruct (conn_step_identity _ _ _ _ _ _ _ _ _ Hst) as [Hd Hid]; split; [done|]; split; [done|].
  destruct (conn_step_inv _ _ _ _ _ _ _ _ _ Hst)
    as [Edn|c2 s2 g2 Edn Es Eto Ha|c1 g1 c2 s2 g2 Edn Hn Hq]; clear Hst Hid.
  - split_and!; try done; [by apply settled_before| |congruence].
    exists []; rewrite app_nil_r; split; [done|congruence].
  - split; [congruence|]; unfold abandon in Ha; destruct (settled c) eqn:Est; cbn [negb] in Ha; injection Ha as <- <- <-;
      split_and!; try done; try (eexists; split; [reflexivity|]; by right); try (cbn; congruence).
    + by apply settled_before.
    + by apply settled_failed.
  - destruct (noted _ _ _ _ _ _ Hn) as (_ & P2 & P3 & P4 & P5 & P6), Hq as [_ Q2 Q3 Q4 _ (ms & Q6 & Q7)].
    split; [congruence|]; destruct (finish_cases c2 s2) as [-> |(-> & F1 & F2 & F3 & F4 & F5)]; cbn [done set_done];
      split_and!; try done; try congruence; try (apply P6; [exact Q2|exact Q4]).
    + rewrite Q2; exact P5.
    + exists ms; split; [congruence|]; intros _ Hdn; right; destruct (Q7 Hdn); congruence.
    + change (settled c = true -> settled c2 = true); rewrite Q2; exact P5.
    + exists ms; split; [congruence|]; intros _ _; by left.
Qed.

End Frame.

(** ** A SYN nobody answers *)

Lemma conn_step_accounting_witness : exists s c' s' g',
  ex_connect = Ret s /\ conn_step example_env 1 5001 ex_conn s ex_stats = Ret (Some (c', s', g', true)) /\
  settlement 5001 ex_conn s ex_stats c' s' g' /\ CONNS_FAILED g' = 1 /\ closed_cleanly c' = false /\
  exists ms, printed g' = ms /\ ms <> [].
Proof.
  assert (Hrun : exists s c' s' g', ex_connect = Ret s /\
    conn_step example_env 1 5001 ex_conn s ex_stats = Ret (Some (c', s', g', true)) /\
    CONNS_FAILED g' = 1 /\ closed_cleanly c' = false).
  { do 4 eexists; split; [vm_compute; reflexivity|]; split; [vm_compute; reflexivity|].
    split; vm_compute; reflexivity. }
  destruct Hrun as (s & c' & s' & g' & E1 & E2 & E3 & E4); exists s, c', s', g'.
  split; [exact E1|]; split; [exact E2|].
  destruct (conn_step_accounting example_env 1 5001 ex_conn c' s s' ex_stats g' true E2)
    as (Hd & _ & _ & _ & _ & Hs & (ms & Hms & Hloud) & _).
  split; [exact Hs|]; split; [exact E3|]; split; [exact E4|].
  exists ms; split; [exact Hms|]; destruct (Hloud eq_refl (eq_sym Hd)) as [Hc|Hne]; [congruence|exact Hne].
Defined.

(** ** A refused connection *)

(** A plain connection whose socket was closed before the request was queued:
    by a reset in answer to the SYN, for instance. *)
Record refused {T : Tls} (c : conn) (s : socket) : Prop := {
  rf_done : done c = false;
  rf_request : request_queued c = false;
  rf_shake : handshake_done c = false;
  rf_outgoing : outgoing c = [];
  rf_incoming : incoming c = [];
  rf_state : state s = Closed;
  rf_tuple : sk_tuple s = None;
  rf_empty : rb_length (rx_buffer s) = 0;
}.

(** Once the socket of a plain connection is closed before the request was
    queued, as a reset in answer to the SYN does, every step leaves it as it is
    and answers that the connection is not done, whatever the time: the SYN
    timeout looks only at sockets still in SYN-SENT, and the check for the end
    only at connections whose request is queued. *)
Lemma refused_step (env : build_env) {T : Tls} (fuel : nat) (now : Z) (c : conn) (s : socket) (g : stats) :
  PLAIN_HTTP env = true -> refused c s ->
  exists c' s' g', conn_step env fuel now c s g = Ret (Some (c', s', g', false)) /\ refused c' s'.
Proof.
  intros Hp [H1 H2 H3 H4 H5 H6 H7 H8].
  assert (Hr : can_recv s = false) by (unfold can_recv, rb_is_empty; by rewrite H8).
  unfold conn_step, note_established, syn_timed_out; rewrite H1, H6.
  change (state_eqb Closed Established) with false; change (state_eqb Closed SynSent) with false.
  rewrite andb_false_r; cbn [andb].
  unfold queue_plain, may_send; rewrite H6, andb_false_r; unfold flush_outgoing.
  rewrite H4; change (@len Z [] =? 0) with true; cbn [negb andb obind drain_socket]; rewrite Hr; cbn [negb obind].
  unfold count_stub; rewrite H3, andb_false_r; cbn [andb]; unfold count_plain.
  rewrite H5, Hp; change (@len Z [] =? 0) with true; cbn [negb andb obind].
  unfold finish; rewrite H3; cbn [andb]; rewrite H1; do 3 eexists; split; [reflexivity|by split].
Qed.

(** And so does everything the interface does in between. *)
Lemma refused_event {T : Tls} (c : conn) (s : socket) e s' got took :
  refused c s -> network e = true -> conn_event s e = Ret (s', got, took) -> refused c s'.
Proof.
  intros [H1 H2 H3 H4 H5 H6 H7 H8] He Hev.
  destruct e as [cx ip r|cx ok| | | | |]; try discriminate He; cbn [conn_event] in Hev.
  - unfold accepts in Hev; rewrite H6 in Hev; injection Hev as <- _ _; by split.
  - unfold dispatch in Hev; rewrite H7 in Hev; cbn in Hev; injection Hev as <- _ _; by split.
Qed.

(** The peer's reset of the SYN. *)
Definition ex_reset : tcp_repr :=
  {| TcpWire.src_port := 80; dst_port := 49152; ctl := CRst; seq_num := 0; ack_num := Some (i32 (ex_iss + 1));
     window_len := 0; window_scale := None; max_seg_size := None; sack_permitted := false;
     sack_ranges := no_sack; timestamp := None; payload := [] |}.

Lemma reset_refuses : exists s s1 s2,
  ex_connect = Ret s /\ conn_event s (EvDispatch ex_cx true) = Ret (s1, [], []) /\
  conn_event s1 (EvSegment ex_cx ex_ip ex_reset) = Ret (s2, [], []) /\ refused ex_conn s2.
Proof.
  do 3 eexists; split; [vm_compute; reflexivity|]; split; [vm_compute; reflexivity|].
  split; [vm_compute; reflexivity|]; by split.
Qed.
