(* ===== verification/ConnTls.v ===== *)
(** A connection with TLS: given a session that makes progress, the session loop
    ends and nothing in it panics; and a step of the whole connection returns.
    The progress ([TlsLaws]) is an assumption about the session, not something
    rustls documents: the loop of [conn_step] has no bound of its own. *)

From Stdlib Require Import ZArith Lia ZifyBool.
From stdpp Require Import base list numbers.
From S2P Require Import Prelude AppConfig Http Assembler RingBuffer Time TcpWire TcpTimer Iface.
From S2P Require Import TcpState TcpSocket TcpProcess TcpDispatch TcpInv TcpConnection TcpHandshake Conn ConnPlain.

Lemma len_resize l n : 0 <= n -> len (resize l n) = n.
Proof. intros; unfold resize; rewrite len_app, len_ztake, len_zreplicate; pose proof (len_nonneg l); lia. Qed.

(** ** What the loop relies on *)

Section Laws.
Context {T : Tls}.

(** Taking records until there is none or one fails. *)
Inductive reads : session -> list Z -> session -> list Z -> Prop :=
| reads_end t buf buf' t' : next_record t buf = (None, buf', t') -> reads t buf t' buf'
| reads_fail t buf e buf' t' : next_record t buf = (Some (Err e), buf', t') -> reads t buf t' buf'
| reads_more t buf data buf' t' buf2 t2 :
    next_record t buf = (Some (Ok data), buf', t') -> reads t' buf' t2 buf2 -> reads t buf t2 buf2.

(** The session's unbuffered interface makes progress.  [pending] counts what is
    left to do with a session and the bytes received for it: records not yet
    processed and flights not yet written; [records] how many records a
    [ReadTraffic] state has; [backlog] bounds the handshake bytes the session
    will still ask to send.  A state's [discard] is within the buffer, and what
    [encode] and [encrypt] write fits their room. *)
Class TlsLaws : Type := {
  pending : session -> list Z -> nat;
  records : session -> list Z -> nat;
  backlog : session -> Z;
  backlog_nonneg t : 0 <= backlog t;
  law_discard t buf st buf' t' :
    process_tls_records t buf = (st, buf', t') -> 0 <= discard st <= len buf' /\ backlog t' <= backlog t;
  law_next t buf r buf' t' :
    next_record t buf = (r, buf', t') ->
    len buf' = len buf /\ backlog t' <= backlog t /\ (r <> None -> (records t' buf' < records t buf)%nat);
  law_read t buf st buf' t' t2 buf2 :
    process_tls_records t buf = (st, buf', t') -> tls_state st = Ok ReadTraffic -> reads t' buf' t2 buf2 ->
    (pending t2 (zdrop (discard st) buf2) < pending t buf)%nat;
  law_records t buf st buf' t' :
    process_tls_records t buf = (st, buf', t') -> tls_state st = Ok ReadTraffic ->
    (records t' buf' <= pending t buf)%nat;
  law_encode t buf st buf' t' room r t2 :
    process_tls_records t buf = (st, buf', t') -> tls_state st = Ok EncodeTlsData -> encode t' room = (r, t2) ->
    match r with
    | Ok out => len out <= room /\ len out + backlog t2 <= backlog t' /\
        (pending t2 (zdrop (discard st) buf') < pending t buf)%nat
    | Err _ => True
    end;
  law_transmit t buf st buf' t' :
    process_tls_records t buf = (st, buf', t') -> tls_state st = Ok TransmitTlsData ->
    (pending (tls_done t') (zdrop (discard st) buf') < pending t buf)%nat /\ backlog (tls_done t') <= backlog t';
  law_write t buf st buf' t' req room r t2 :
    process_tls_records t buf = (st, buf', t') -> tls_state st = Ok WriteTraffic -> encrypt t' req room = (r, t2) ->
    match r with
    | Ok out => len out <= room /\ backlog t2 <= backlog t' /\
        (pending t2 (zdrop (discard st) buf') <= pending t buf)%nat
    | Err _ => True
    end;
}.

(** [read_records] reads as the relation says. *)
Lemma read_records_ok `{!TlsLaws} fuel t c g :
  (records t (incoming c) < fuel)%nat ->
  exists t' c' g', read_records fuel t c g = Some (t', c', g') /\
    reads t (incoming c) t' (incoming c') /\ len (incoming c') = len (incoming c) /\ backlog t' <= backlog t /\
    outgoing c' = outgoing c /\ request_queued c' = request_queued c /\ request c' = request c.
Proof.
  revert t c g; induction fuel as [|fuel IH]; intros t c g Hf; [lia|]; cbn [read_records].
  destruct (next_record t (incoming c)) as [[r buf] t1] eqn:E.
  destruct (law_next t (incoming c) r buf t1 E) as (Hl & Hb & Hr).
  destruct r as [[data|e]|].
  - specialize (Hr ltac:(done)).
    destruct (count_body _ _ data) as [h cd].
    destruct (IH t1 (set_http h (set_incoming buf c)) (with_codes cd g)) as (t' & c' & g' & -> & H1 & H2 & H3 & H4);
      [cbn; lia|].
    cbn in H1, H2, H4; exists t', c', g'; split; [done|]; split; [by eapply reads_more|].
    split; [lia|]; split; [lia|done].
  - do 3 eexists; split; [reflexivity|]; split; [by eapply reads_fail|done].
  - do 3 eexists; split; [reflexivity|]; split; [by apply reads_end|done].
Qed.

(** The room for the flights still to come, and for the request. *)
Definition fits (c : conn) (t : session) `{!TlsLaws} : Prop :=
  len (outgoing c) + backlog t + (if request_queued c then 0 else len (request c) + 128) <= TLS_BUF_CAP.

Definition to_send (c : conn) : nat := if request_queued c then 0 else 1.

Lemma tls_loop_ok `{!TlsLaws} fuel c g t :
  tls c = Some t -> fits c t -> (pending t (incoming c) + to_send c + 2 <= fuel)%nat ->
  exists c' g', tls_loop fuel c g = Ret (Some (c', g')).
Proof.
  revert c g t; induction fuel as [|fuel IH]; intros c g t Ht Hfit Hf; [lia|]; cbn [tls_loop]; rewrite Ht.
  destruct (process_tls_records t (incoming c)) as [[st buf] t1] eqn:Ep.
  destruct (law_discard t _ st buf t1 Ep) as [Hdis Hb1].
  set (c1 := set_tls (Some t1) (set_incoming buf c)).
  destruct (tls_state st) as [cs|e] eqn:Es; [|by do 2 eexists].
  assert (Hfit1 : fits c1 t1) by (unfold fits in *; cbn [outgoing request_queued request c1 set_tls set_incoming]; lia).
  assert (Hdrain : forall l, len l = len buf -> drain (discard st) l = Ret (zdrop (discard st) l)).
  { intros l Hl; unfold drain; by rewrite (proj2 (Z.leb_le _ _)) by lia. }
  destruct cs; cbn [tls_act].
  - pose proof (law_records t _ st buf t1 Ep Es).
    destruct (read_records_ok fuel t1 c1 g) as (t2 & c2 & g2 & -> & Hr & Hl & Hb2 & Ho & Hq & Hreq);
      [cbn [incoming c1 set_tls set_incoming]; lia|].
    pose proof (law_read t _ st buf t1 t2 (incoming c2) Ep Es Hr).
    cbn [obind]; change (incoming (set_tls _ c2)) with (incoming c2); rewrite Hdrain by done; cbn [obind].
    apply (IH _ _ t2); [done| |]; unfold fits, to_send in *;
      cbn [outgoing request_queued request incoming set_tls set_incoming]; rewrite ?Ho, ?Hq, ?Hreq;
      cbn [outgoing request_queued request c1 set_tls set_incoming]; lia.
  - unfold encode_tls_data; cbn [outgoing c1 set_tls set_incoming].
    pose proof (len_nonneg (outgoing c)); pose proof (backlog_nonneg t1).
    assert (Hcap : len (outgoing c) <= TLS_BUF_CAP).
    { unfold fits in Hfit; pose proof (backlog_nonneg t); pose proof (len_nonneg (request c)).
      destruct (request_queued c); lia. }
    assert (Hlen : len (resize (outgoing c) TLS_BUF_CAP) = TLS_BUF_CAP) by (apply len_resize; lia).
    unfold room_behind; rewrite Hlen, (proj2 (Z.leb_le _ _)) by lia; cbn [obind].
    destruct (encode t1 (TLS_BUF_CAP - len (outgoing c))) as [[out|e] t2] eqn:Ee; cbn [obind];
      [|by do 2 eexists].
    destruct (law_encode t _ st buf t1 _ _ _ Ep Es Ee) as (Hroom & Hback & Hpend).
    change (incoming (set_outgoing _ _)) with buf; rewrite Hdrain by done; cbn [obind].
    apply (IH _ _ t2); [done| |]; unfold fits, to_send in *;
      cbn [outgoing request_queued request incoming c1 set_tls set_incoming set_outgoing]; [|lia].
    unfold truncated; rewrite len_app, len_ztake, Hlen; lia.
  - destruct (law_transmit t _ st buf t1 Ep Es) as [Hpend Hback]; cbn [obind].
    change (incoming (set_tls _ c1)) with buf; rewrite Hdrain by done; cbn [obind].
    apply (IH _ _ (tls_done t1)); [done| |]; unfold fits, to_send in *;
      cbn [outgoing request_queued request incoming c1 set_tls set_incoming]; lia.
  - unfold write_traffic; change (request_queued (set_handshake_done true c1)) with (request_queued c).
    destruct (request_queued c) eqn:Eq; cbn [negb obind].
    { change (incoming (set_handshake_done true c1)) with buf; rewrite Hdrain by done; cbn [obind]; by do 2 eexists. }
    cbn [outgoing request c1 set_tls set_incoming set_handshake_done].
    set (n := len (outgoing c) + len (request c) + 128).
    pose proof (len_nonneg (outgoing c)); pose proof (len_nonneg (request c)); pose proof (backlog_nonneg t).
    assert (Hlen : len (resize (outgoing c) n) = n) by (apply len_resize; lia).
    unfold room_behind; rewrite Hlen, (proj2 (Z.leb_le _ _)) by lia; cbn [obind].
    destruct (encrypt t1 (request c) (n - len (outgoing c))) as [[out|e] t2] eqn:Ee; cbn [obind];
      [|by do 2 eexists].
    destruct (law_write t _ st buf t1 _ _ _ _ Ep Es Ee) as (Hroom & Hback & Hpend).
    change (incoming (set_request_queued _ _)) with buf; rewrite Hdrain by done; cbn [obind].
    apply (IH _ _ t2); [done| |]; unfold fits, to_send in *; rewrite Eq in *;
      cbn [outgoing request_queued request incoming c1 set_tls set_incoming set_outgoing set_request_queued
           set_handshake_done]; [|lia].
    unfold truncated; rewrite len_app, len_ztake, Hlen; lia.
  - cbn [obind]; rewrite Hdrain by done; cbn [obind]; by do 2 eexists.
Qed.

End Laws.

(** ** A step returns *)

Section Step.
Context (env : build_env) {T : Tls} {L : TlsLaws} (stream : list Z) (irs : Z) (sent : list Z) (iss : Z).

(** The fuel a step needs: the work left with what has been received, or, when
    the ciphertext is only counted, with nothing. *)
Definition enough_fuel (fuel : nat) (c : conn) (s : socket) : Prop :=
  forall t, tls c = Some t ->
    (Nat.max (pending t (incoming c ++ contents (rx_buffer s))) (pending t []) + 3 <= fuel)%nat.

(** A step ends, with a session that makes progress.  For a connection whose socket is open or closed in good
    order, in a build with TLS or without, with a session that makes progress
    and whose handshake fits the output buffer together with the request: the
    step returns, it does not panic, and its loops end: reading the socket within
    as many rounds as bytes are buffered, the session loop within the work the
    session has left. *)
Theorem conn_step_returns (fuel : nat) (now : Z) (c : conn) (s : socket) (g : stats) (n m : Z) :
  conn_inv stream irs sent iss s n m -> len (outgoing c) + len (request c) < M64 -> (1 <= fuel)%nat ->
  enough_fuel fuel c s -> (forall t, tls c = Some t -> fits c t) ->
  exists c' s' g', conn_step env fuel now c s g = Ret (Some (c', s', g', done c')).
Proof using Type.
  intros Hi Hlen Hf Hfuel Hfits; unfold conn_step; destruct (done c) eqn:Edn.
  { exists c, s, g; by rewrite Edn. }
  set (cg := note_established _ _ _ _).
  assert (Hcg : exists b g1, cg = (set_settled b c, g1)).
  { subst cg; unfold note_established; destruct (_ && _); [by do 2 eexists|].
    exists (settled c), g; by destruct c. }
  destruct Hcg as (b & g1 & Ecg); rewrite Ecg; clear cg Ecg; set (c1 := set_settled b c).
  destruct (syn_timed_out (state s) now c1).
  { unfold abandon; destruct (settled c1); cbn [negb]; eexists (set_done true _), _, _; reflexivity. }
  set (c2 := queue_plain env c1 s).
  pose proof (len_nonneg (outgoing c)); pose proof (len_nonneg (request c)).
  assert (H2 : incoming c2 = incoming c /\ tls c2 = tls c /\ len (outgoing c2) < M64 /\
    (PLAIN_HTTP env = false -> c2 = c1)).
  { subst c2; unfold queue_plain; destruct (PLAIN_HTTP env); cbn [andb]; [|split_and!; try done; cbn; lia].
    destruct (negb _ && _); split_and!; try done; [|cbn; lia].
    change (len (outgoing c ++ request c) < M64); rewrite len_app; lia. }
  clearbody c2; destruct H2 as (I1 & I2 & I3 & I4).
  destruct (flush_outgoing_ok stream irs iss sent c2 s n m Hi I3) as (k & s1 & -> & Hk & Hi1 & Hs1 & Hb1); cbn [obind].
  destruct (drain_socket_ok stream irs iss (sent ++ ztake k (outgoing c2)) (S (Z.to_nat (rb_length (rx_buffer s1))))
    (set_outgoing (zdrop k (outgoing c2)) c2) s1 n m Hi1) as (data & s2 & -> & Hd & Hle & Hi2 & Hc2 & Hall);
    [exact (drain_fuel s1 (inv_ok _ _ _ _ _ _ _ Hi1))|].
  cbn [obind]; set (c3 := set_incoming _ _).
  assert (Hdata : data = contents (rx_buffer s)).
  { rewrite Hd, Hall, Hb1; symmetry; apply (data_contents _ _ _ (inv_data _ _ _ _ _ _ _ Hi)). }
  destruct (count_plain env (count_stub env c3) g1) as [c4 g4] eqn:E4.
  destruct (PLAIN_HTTP env) eqn:Ep; [by do 3 eexists|].
  assert (H4 : tls c4 = tls c /\ len (outgoing c4) <= len (outgoing c) /\ request c4 = request c /\
    request_queued c4 = request_queued c /\ (incoming c4 = incoming c ++ contents (rx_buffer s) \/ incoming c4 = [])).
  { unfold count_plain in E4; rewrite Ep in E4; cbn [andb] in E4; injection E4 as <- _.
    assert (E2 : c2 = c1) by auto; subst c3 c2; unfold count_stub; destruct (_ && _); cbn; rewrite len_zdrop, <-Hdata;
      split_and!; try done; auto; change (outgoing c1) with (outgoing c) in *; lia. }
  destruct H4 as (J1 & J2 & J3 & J4 & J5); clear E4.
  destruct (tls c) as [t|] eqn:Et.
  2:{ destruct fuel; [lia|]; cbn [tls_loop]; rewrite J1; by do 3 eexists. }
  destruct (tls_loop_ok fuel c4 g4 t J1) as (c5 & g5 & ->).
  - specialize (Hfits t eq_refl); unfold fits in *; rewrite J3, J4; destruct (request_queued c); lia.
  - specialize (Hfuel t Et); unfold to_send; destruct J5 as [-> | ->], (request_queued c4); lia.
  - cbn [obind]; by do 3 eexists.
Qed.

End Step.

(** ** A session without cryptography *)

(** Its handshake is a list of flights to send; a record is what has arrived. *)
Record echo_session : Type := { flights : list (list Z); arrived : option (list Z) }.

Definition echo_process (t : echo_session) (buf : list Z) : unbuffered_status unit * list Z * echo_session :=
  match flights t, buf with
  | _ :: _, _ => ({| discard := 0; tls_state := Ok EncodeTlsData |}, buf, t)
  | [], [] => ({| discard := 0; tls_state := Ok WriteTraffic |}, buf, t)
  | [], _ => ({| discard := len buf; tls_state := Ok ReadTraffic |}, buf, {| flights := []; arrived := Some buf |})
  end.

Definition echo_next (t : echo_session) (buf : list Z) : option (result (list Z) unit) * list Z * echo_session :=
  match arrived t with
  | Some data => (Some (Ok data), buf, {| flights := flights t; arrived := None |})
  | None => (None, buf, t)
  end.

Definition echo_encode (t : echo_session) (room : Z) : result (list Z) unit * echo_session :=
  match flights t with
  | f :: fs => if len f <=? room then (Ok f, {| flights := fs; arrived := arrived t |}) else (Err (), t)
  | [] => (Err (), t)
  end.

Definition echo_encrypt (t : echo_session) (req : list Z) (room : Z) : result (list Z) unit * echo_session :=
  if len req <=? room then (Ok req, t) else (Err (), t).

#[local] Instance echo_tls : Tls :=
  {| session := echo_session; tls_error := unit; process_tls_records := echo_process; next_record := echo_next;
     encode := echo_encode; tls_done := fun t => t; encrypt := echo_encrypt |}.

Definition echo_pending (t : echo_session) (buf : list Z) : nat :=
  length (flights t) + match buf with [] => 0 | _ => 1 end.

#[local] Instance echo_laws : TlsLaws.
Proof.
  refine {| pending := echo_pending;
            records := fun t _ => match arrived t with Some _ => 1%nat | None => 0%nat end;
            backlog := fun t => len (concat (flights t)) |}.
  - intros t; apply len_nonneg.
  - intros [[|f fs] a] buf st buf' t'; cbn; [|intros [= <- <- <-]; cbn; pose proof (len_nonneg buf); lia].
    pose proof (len_nonneg buf); destruct buf as [|b buf]; intros [= <- <- <-]; cbn [discard flights concat]; lia.
  - intros [fs [data|]] buf r buf' t'; cbn; intros [= <- <- <-]; cbn; split_and!; try done; lia.
  - intros [[|f fs] a] buf st buf' t' t2 buf2; cbn; [|by intros [= <- <- <-]].
    destruct buf as [|b buf]; [by intros [= <- <- <-]|]; intros [= <- <- <-] _ Hr.
    assert (Hend : t2 = {| flights := []; arrived := None |} /\ buf2 = b :: buf).
    { inversion Hr as [? ? ? ? Hn|? ? ? ? ? Hn|? ? ? ? ? ? ? Hn Hr2]; subst; try discriminate Hn.
      injection Hn as <- <- <-.
      inversion Hr2 as [? ? ? ? Hm|? ? ? ? ? Hm|? ? ? ? ? ? ? Hm _]; subst; try discriminate Hm.
      by injection Hm as <- <-. }
    destruct Hend as [-> ->]; cbn [discard]; rewrite zdrop_ge by lia; unfold echo_pending; cbn; lia.
  - intros [[|f fs] a] buf st buf' t'; cbn; [|by intros [= <- <- <-]].
    destruct buf as [|b buf]; intros [= <- <- <-]; [done|]; unfold echo_pending; cbn; lia.
  - intros [[|f fs] a] buf st buf' t' room r t2; cbn.
    { destruct buf; by intros [= <- <- <-]. }
    intros [= <- <- <-] _; unfold echo_encode; cbn.
    destruct (Z.leb_spec (len f) room); intros [= <- <-]; [|done]; cbn; rewrite len_app.
    unfold echo_pending; cbn; rewrite zdrop_0 by lia; split_and!; lia.
  - intros [[|f fs] a] buf st buf' t'; cbn; [destruct buf|]; by intros [= <- <- <-].
  - intros [[|f fs] a] buf st buf' t' req room r t2; cbn; [|by intros [= <- <- <-]].
    destruct buf as [|b buf]; intros [= <- <- <-]; [|done]; intros _; unfold echo_encrypt.
    destruct (Z.leb_spec (len req) room); intros [= <- <-]; [|done]; split_and!; try lia; done.
Defined.

(** A connection with a two-byte flight to send, and two bytes received. *)
Definition https_env : build_env :=
  {| AWS_BUCKET := AWS_BUCKET example_env; AWS_REGION := AWS_REGION example_env; AWS_BUCKET_SIZE := None;
     AWS_TARGET_IP := AWS_TARGET_IP example_env; BENCH_WORKERS := None; BENCH_CONNS_PER_WORKER := None;
     BENCH_TLS_STUB := None; BENCH_SCHEME := None; BENCH_BLOCK_SIZE := None |}.

Definition echo_conn : conn :=
  {| handle := 0; tls := Some {| flights := [[1; 2]]; arrived := None |}; incoming := [104; 105]; outgoing := [];
     request := [71; 69; 84]; request_queued := false; handshake_done := false; http := http_init; done := false;
     connect_start_ms := 0; queue_id := 0; src_port := 49152; expected := 2; closed_cleanly := false;
     attempts := 1; settled := false; start_ms := 0 |}.

Lemma conn_step_returns_witness : exists s c' s' g',
  ex_established = Ret s /\ conn_step https_env 5 0 echo_conn s ex_stats = Ret (Some (c', s', g', done c')) /\
  request_queued c' = true /\ outgoing c' = [1; 2; 71; 69; 84].
Proof.
  destruct (ex_established_ok []) as (s & E & Hi).
  destruct (conn_step_returns https_env [] 1001 [] (ex_iss + 1) 5 0 echo_conn s ex_stats 0 0 Hi)
    as (c' & s' & g' & Hstep).
  - vm_compute; reflexivity.
  - lia.
  - intros t [= <-]; clear Hi; vm_compute in E; injection E as <-; vm_compute; lia.
  - intros t [= <-]; vm_compute; congruence.
  - exists s, c', s', g'; split; [exact E|]; split; [exact Hstep|].
    clear Hi; vm_compute in E; injection E as <-; vm_compute in Hstep; injection Hstep as <- _ _; split; reflexivity.
Defined.
