(* ===== verification/Network.v ===== *)
(** Learning the network (src/bench/smoltcp-s3/src/lib.rs): the monotonic
    clock, the DHCP lease, and the gateway's hardware address by ARP on the raw
    device.  smoltcp's interface with its DHCP socket is the class [NetStack]
    here; [DhcpNet] is the one the program has. *)

From Stdlib Require Import ZArith Lia ZifyBool.
From stdpp Require Import base list numbers.
From S2P Require Import Prelude AppConfig Rss Device Arp Time TcpWire Iface Frame DhcpWire Dhcp.

(** ** The clock *)

(* [lib.rs 860-862 MonoClock] *)
Record mono_clock : Type := { epoch_ns : Z }.

(** [ns] is what [shim_time_ns] answers. *)
(* [lib.rs 864-864 MonoClock::new] *)
Definition clock_new (ns : Z) : mono_clock := {| epoch_ns := ns |}.
(* [lib.rs 865-865 MonoClock::elapsed_ns] *)
Definition elapsed_ns (clk : mono_clock) (ns : Z) : Z := saturating_sub ns (epoch_ns clk).
(* [lib.rs 866-866 MonoClock::elapsed_ms] *)
Definition elapsed_ms (clk : mono_clock) (ns : Z) : Z := i64 (elapsed_ns clk ns / 1000000).

(* [lib.rs 869-870 ITER_BUDGET] *)
Definition ITER_BUDGET : Z := 20000000000.

(** ** The lease *)

(** smoltcp's side of the loop: [iface] is the interface with its DHCP socket
    and the device; pushing an address panics unless it is a host's.  [poll_iface] may panic, or go on as long as the card
    delivers ([Ret None]); [poll_dhcp] asks the socket for its news. *)
Class NetStack : Type := {
  iface : Type;
  poll_iface : instant -> iface -> outcome (option iface);
  poll_dhcp : iface -> option dhcp_event * iface;
  push_ip_addr : cidr -> iface -> outcome iface;
  add_default_ipv4_route : ip_address -> iface -> iface;
}.

(** What the loop relies on, from an interface that is [net_good]: a poll ends,
    and a configuration has an address and a router of four bytes. *)
Class NetStackOk `{NetStack} : Type := {
  net_good : iface -> Prop;
  poll_good t i : 0 <= t < 1152921504606846976 -> net_good i ->
    exists i', poll_iface t i = Ret (Some i') /\ net_good i';
  dhcp_good i : net_good i -> net_good (snd (poll_dhcp i));
  config_good i cfg : net_good i -> fst (poll_dhcp i) = Some (Configured cfg) ->
    len (cidr_addr (cfg_address cfg)) = 4 /\ forall r, cfg_router cfg = Some r -> len r = 4;
  push_good i cfg : net_good i -> fst (poll_dhcp i) = Some (Configured cfg) ->
    is_ret (push_ip_addr (cfg_address cfg) (snd (poll_dhcp i)));
}.

(** What these functions print. *)
Variant net_message : Type :=
| DhcpRequesting | DhcpAddress (a : cidr) | DhcpGateway (r : ip_address) | DhcpDeconfigured
| DhcpTimeout (ms : Z) | ArpNoMbuf | ArpTimeout | GatewayMac (hw : list Z).

Section Dhcp.
Context `{NetStack} (budget : Z) (clk : mono_clock) (time_ns : nat -> Z).

Definition lease (cfg : dhcp_config) (i : iface) : outcome iface :=
  let! i := push_ip_addr (cfg_address cfg) i in
  Ret (match cfg_router cfg with Some gw => add_default_ipv4_route gw i | None => i end).

(** The loop, with the number of rounds it has run; [Ret None] when [fuel] is
    out.  It ends once [iter] exceeds [budget]. *)
(* [lib.rs 880-907 dhcp_acquire] the loop. *)
Fixpoint dhcp_loop (fuel : nat) (round : nat) (iter : Z) (i : iface) (log : list net_message)
  : outcome (option (option (cidr * ip_address) * iface * list net_message)) :=
  match fuel with
  | O => Ret None
  | S fuel =>
      let now_ms := elapsed_ms clk (time_ns round) in
      let! i := poll_iface (instant_from_millis now_ms) i in
      match i with
      | None => Ret None
      | Some i =>
          let '(ev, i) := poll_dhcp i in
          match ev with
          | Some (Configured cfg) =>
              let a := cfg_address cfg in
              let router := match cfg_router cfg with Some r => r | None => [0; 0; 0; 0] end in
              let log := log ++ [DhcpAddress a; DhcpGateway router] in
              let! i := lease cfg i in
              Ret (Some (Some (a, router), i, log))
          | _ =>
              let log := match ev with Some Deconfigured => log ++ [DhcpDeconfigured] | _ => log end in
              let iter := u64 (iter + 1) in
              if budget <? iter then Ret (Some (None, i, log ++ [DhcpTimeout now_ms]))
              else dhcp_loop fuel (S round) iter i log
          end
      end
  end.

End Dhcp.

(* [lib.rs 872-908 dhcp_acquire] *)
Definition dhcp_acquire `{NetStack} (fuel : nat) (clk : mono_clock) (time_ns : nat -> Z) (i : iface)
    (log : list net_message) : outcome (option (option (cidr * ip_address) * iface * list net_message)) :=
  dhcp_loop (ITER_BUDGET / 10) clk time_ns fuel 0 0 i (log ++ [DhcpRequesting]).

(** ** The gateway *)

(** Sending the request: [None] without a buffer. *)
(* [lib.rs 1424-1435 learn_network] *)
Definition send_arp (req : list Z) (w : nic) : outcome (bool * nic) :=
  let '(a, w) := shim_mbuf_alloc_tx w in
  match al_data a, al_handle a with
  | Some data, Some handle =>
      let n := Z.min (len req) (al_cap a) in
      let! src := slice req 0 n in
      let! data := copy_from_slice data 0 n src in
      let '(_, w) := shim_mbuf_tx w handle data (u16 n) in
      Ret (true, w)
  | _, _ => Ret (false, w)
  end.

(** One round: a frame at most, freed once it is read. *)
(* [lib.rs 1439-1455 learn_network] *)
Definition arp_round (gw : ip_address) (w : nic) : outcome (option (list Z) * nic) :=
  let '(got, handles, data, lens, w) := shim_mbuf_rx_burst_n [0] [[]] [0] w in
  if got =? 1 then
    let! data := index data 0 in
    let! n := index lens 0 in
    let! frame := from_raw_parts data n in
    let! hw := parse_arp_reply_from frame gw in
    let! handle := index handles 0 in
    Ret (hw, shim_mbuf_free w handle)
  else Ret (None, w).

(** The loop; [Ret None] when [fuel] is out. *)
(* [lib.rs 1437-1461 learn_network] the loop. *)
Fixpoint arp_loop (budget : Z) (fuel : nat) (iter : Z) (gw : ip_address) (w : nic)
  : outcome (option (option (list Z) * nic)) :=
  match fuel with
  | O => Ret None
  | S fuel =>
      let! (hw, w) := arp_round gw w in
      match hw with
      | Some hw => Ret (Some (Some hw, w))
      | None =>
          let iter := u64 (iter + 1) in
          if budget <? iter then Ret (Some (None, w)) else arp_loop budget fuel iter gw w
      end
  end.

(** Answers the address, the prefix length, the gateway and its hardware
    address.  [start] is the interface made for the DHCP exchange, [w] the card
    as this exchange leaves it; the two loops have their own fuel. *)
(* [lib.rs 1393-1462 learn_network] *)
Definition learn_network `{NetStack} (dhcp_fuel arp_fuel : nat) (mac : list Z) (time_ns : nat -> Z)
    (start : iface) (w : nic)
  : outcome (option (option (ip_address * Z * ip_address * list Z) * list net_message * nic)) :=
  let clk := clock_new (time_ns 0%nat) in
  let! lease := dhcp_acquire dhcp_fuel clk (fun k => time_ns (S (S k))) start [] in
  match lease with
  | None => Ret None
  | Some (None, _, log) => Ret (Some (None, log, w))
  | Some (Some (c, gw), _, log) =>
      let ip := cidr_addr c in
      let prefix := prefix_len c in
      let! req := build_arp_request mac ip gw in
      let! (sent_ok, w) := send_arp req w in
      if negb sent_ok then Ret (Some (None, log ++ [ArpNoMbuf], w))
      else
        let! r := arp_loop (ITER_BUDGET / 20) arp_fuel 0 gw w in
        match r with
        | None => Ret None
        | Some (None, w) => Ret (Some (None, log ++ [ArpTimeout], w))
        | Some (Some hw, w) => Ret (Some (Some (ip, prefix, gw, hw), log ++ [GatewayMac hw], w))
        end
  end.

(** ** The reason given *)

(** What the function says when it gives up. *)
Definition no_network (why : net_message) : Prop :=
  match why with DhcpTimeout _ | ArpNoMbuf | ArpTimeout => True | _ => False end.

Lemma dhcp_loop_gives_up `{NetStack} budget clk time_ns fuel round iter i log i' log' :
  dhcp_loop budget clk time_ns fuel round iter i log = Ret (Some (None, i', log')) ->
  exists log0 ms, log' = log0 ++ [DhcpTimeout ms].
Proof.
  revert round iter i log; induction fuel as [|fuel IH]; intros round iter i log; cbn [dhcp_loop]; [done|].
  destruct (poll_iface _ i) as [[i1|]|]; cbn [obind]; try done.
  destruct (poll_dhcp i1) as [ev i2]; destruct ev as [[cfg|]|].
  - destruct (lease cfg i2) as [i3|]; cbn [obind]; done.
  - destruct (budget <? _); [intros [= _ <-]; by do 2 eexists|apply IH].
  - destruct (budget <? _); [intros [= _ <-]; by do 2 eexists|apply IH].
Qed.

(** Without a network the last thing said is which step failed. *)
Lemma learn_network_gives_up `{NetStack} dhcp_fuel arp_fuel mac time_ns start w log w' :
  learn_network dhcp_fuel arp_fuel mac time_ns start w = Ret (Some (None, log, w')) ->
  exists log0 why, log = log0 ++ [why] /\ no_network why.
Proof.
  unfold learn_network, dhcp_acquire.
  destruct (dhcp_loop _ _ _ _ _ _ _ _) as [[[[[[c gw]|] i] log1]|]|] eqn:E; cbn [obind]; try done.
  2:{ intros [= <- _]; destruct (dhcp_loop_gives_up _ _ _ _ _ _ _ _ _ _ E) as (log0 & ms & ->); by do 2 eexists. }
  destruct (build_arp_request _ _ _) as [req|]; cbn [obind]; [|done].
  destruct (send_arp _ _) as [[ok w1]|]; cbn [obind]; [|done].
  destruct ok; cbn [negb]; [|intros [= <- _]; by do 2 eexists].
  destruct (arp_loop _ _ _ _ _) as [[[[hw|] w2]|]|]; cbn [obind]; try done.
  intros [= <- _]; by do 2 eexists.
Qed.

(** ** The first lease ends the loop *)

Section DhcpOk.
Context `{NetStackOk} (budget : Z) (clk : mono_clock) (time_ns : nat -> Z).
Context (Htime : forall k, in_u64 (time_ns k)) (Hclk : in_u64 (epoch_ns clk)).

Definition round_time (k : nat) : instant := instant_from_millis (elapsed_ms clk (time_ns k)).

(** Round [k] from interface [i]: the event and the interface it leaves. *)
Definition dhcp_round (k : nat) (i : iface) : option dhcp_event * iface :=
  match poll_iface (round_time k) i with Ret (Some i) => poll_dhcp i | _ => (None, i) end.

(** The interface before round [k], from [i] before round [round]. *)
Fixpoint after_rounds (round k : nat) (i : iface) : iface :=
  match k with O => i | S k => after_rounds (S round) k (snd (dhcp_round round i)) end.

Definition configured_at (round k : nat) (i : iface) (cfg : dhcp_config) : Prop :=
  fst (dhcp_round (round + k) (after_rounds round k i)) = Some (Configured cfg).

Definition quiet_until (round k : nat) (i : iface) : Prop :=
  forall j cfg, (j < k)%nat -> ~ configured_at round j i cfg.

Lemma configured_at_S round k i cfg :
  configured_at round (S k) i cfg <-> configured_at (S round) k (snd (dhcp_round round i)) cfg.
Proof using Type. unfold configured_at; cbn [after_rounds]; by rewrite Nat.add_succ_r. Qed.

Lemma quiet_until_S round k i :
  (forall cfg, fst (dhcp_round round i) <> Some (Configured cfg)) ->
  quiet_until (S round) k (snd (dhcp_round round i)) -> quiet_until round (S k) i.
Proof using Type.
  intros Hno Hq [|j] cfg Hj Hc.
  - unfold configured_at in Hc; rewrite Nat.add_0_r in Hc; by apply (Hno cfg).
  - apply configured_at_S in Hc; by apply (Hq j cfg); [lia|].
Qed.

Lemma round_time_ok k : 0 <= round_time k < 1152921504606846976.
Proof using Htime Hclk.
  specialize (Htime k); unfold round_time, instant_from_millis, elapsed_ms, elapsed_ns, saturating_sub, in_u64 in *.
  rewrite (i64_small (_ / 1000000)) by mlia; rewrite i64_small by mlia; mlia.
Qed.

Lemma dhcp_round_good k i : net_good i ->
  exists i1, poll_iface (round_time k) i = Ret (Some i1) /\ dhcp_round k i = poll_dhcp i1 /\ net_good i1 /\
    net_good (snd (dhcp_round k i)).
Proof using Htime Hclk.
  intros Hg; destruct (poll_good (round_time k) i (round_time_ok k) Hg) as (i1 & E & Hg1); exists i1.
  unfold dhcp_round; rewrite E; split_and!; [done..|by apply dhcp_good].
Qed.

Lemma after_rounds_good round k i : net_good i -> net_good (after_rounds round k i).
Proof using Htime Hclk.
  revert round i; induction k as [|k IH]; intros round i Hg; cbn [after_rounds]; [done|]; apply IH.
  by destruct (dhcp_round_good round i Hg) as (? & _ & _ & _ & ?).
Qed.

(** What a configuration holds. *)
Lemma configured_lens round k i cfg : net_good i -> configured_at round k i cfg ->
  len (cidr_addr (cfg_address cfg)) = 4 /\ forall r, cfg_router cfg = Some r -> len r = 4.
Proof using Htime Hclk.
  intros Hg Hc; destruct (dhcp_round_good (round + k) _ (after_rounds_good round k i Hg)) as (i1 & _ & E & Hg1 & _).
  unfold configured_at in Hc; rewrite E in Hc; by apply (config_good i1).
Qed.

Lemma dhcp_loop_ok fuel round iter i log :
  net_good i -> 0 <= iter <= budget -> budget < 9223372036854775808 -> (Z.to_nat (budget - iter) < fuel)%nat ->
  exists res i' log', dhcp_loop budget clk time_ns fuel round iter i log = Ret (Some (res, i', log')) /\
    match res with
    | Some (a, r) => exists k cfg, (k <= Z.to_nat (budget - iter))%nat /\ quiet_until round k i /\
        configured_at round k i cfg /\ a = cfg_address cfg /\
        r = match cfg_router cfg with Some r => r | None => [0; 0; 0; 0] end /\
        lease cfg (snd (dhcp_round (round + k) (after_rounds round k i))) = Ret i' /\
        exists log0, log' = log0 ++ [DhcpAddress a; DhcpGateway r]
    | None => quiet_until round (S (Z.to_nat (budget - iter))) i /\ exists log0 ms, log' = log0 ++ [DhcpTimeout ms]
    end.
Proof using Htime Hclk.
  revert round iter i log; induction fuel as [|fuel IH]; intros round iter i log Hg Hit Hb Hf; [lia|].
  cbn [dhcp_loop]; fold (round_time round).
  destruct (dhcp_round_good round i Hg) as (i0 & -> & E0 & Hgi & Hg0); cbn [obind].
  pose proof (fun cfg => push_good i0 cfg Hgi) as Hpush; rewrite <-E0 in Hpush |- *.
  destruct (dhcp_round round i) as [ev i1] eqn:Er; cbn [snd] in Hg0.
  destruct (match ev with Some (Configured _) => true | _ => false end) eqn:Ec.
  - destruct ev as [[cfg|]|]; try discriminate Ec; cbn [fst snd] in Hpush.
    destruct (Hpush cfg eq_refl) as [i2 E2]; unfold lease at 1; rewrite E2; cbn [obind].
    do 3 eexists; split; [reflexivity|]; exists 0%nat, cfg.
    unfold configured_at; cbn [after_rounds]; rewrite Nat.add_0_r, Er.
    split; [lia|]; split; [by intros j c Hj; lia|]; split_and!; try done;
      [unfold lease; cbn [snd]; by rewrite E2|by eexists].
  - assert (Hno : forall cfg, fst (dhcp_round round i) <> Some (Configured cfg)).
    { rewrite Er; cbn; intros cfg ->; discriminate Ec. }
    set (log1 := match ev with Some Deconfigured => log ++ [DhcpDeconfigured] | _ => log end).
    assert (Hstep : exists res i' log', (if budget <? u64 (iter + 1)
        then Ret (Some (None, i1, log1 ++ [DhcpTimeout (elapsed_ms clk (time_ns round))]))
        else dhcp_loop budget clk time_ns fuel (S round) (u64 (iter + 1)) i1 log1) = Ret (Some (res, i', log')) /\
      match res with
      | Some (a, r) => exists k cfg, (k <= Z.to_nat (budget - iter))%nat /\ quiet_until round k i /\
        configured_at round k i cfg /\ a = cfg_address cfg /\
        r = match cfg_router cfg with Some r => r | None => [0; 0; 0; 0] end /\
        lease cfg (snd (dhcp_round (round + k) (after_rounds round k i))) = Ret i' /\
        exists log0, log' = log0 ++ [DhcpAddress a; DhcpGateway r]
      | None => quiet_until round (S (Z.to_nat (budget - iter))) i /\ exists log0 ms, log' = log0 ++ [DhcpTimeout ms]
      end).
    { rewrite u64_small by lia; destruct (Z.ltb_spec budget (iter + 1)).
      - do 3 eexists; split; [reflexivity|]; split; [|by do 2 eexists].
        replace (Z.to_nat (budget - iter)) with 0%nat by lia.
        apply quiet_until_S; [done|]; intros j c Hj; lia.
      - destruct (IH (S round) (iter + 1) i1 log1) as (res & i' & log' & -> & Hres); [done|lia..|].
        do 3 eexists; split; [reflexivity|].
        assert (E1 : i1 = snd (dhcp_round round i)) by (by rewrite Er).
        replace (Z.to_nat (budget - iter)) with (S (Z.to_nat (budget - (iter + 1)))) by lia.
        destruct res as [[a r]|].
        + destruct Hres as (k & cfg & Hk & Hq & Hc & Ha & Hr & Hi & Hlog).
          exists (S k), cfg; rewrite E1 in *; split; [lia|]; split; [by apply quiet_until_S|].
          split; [by apply configured_at_S|]; split_and!; try done.
          rewrite Nat.add_succ_r; exact Hi.
        + destruct Hres as [Hq Hlog]; split; [|done]; rewrite E1 in Hq; by apply quiet_until_S. }
    destruct ev as [[cfg|]|]; [discriminate Ec|exact Hstep|exact Hstep].
Qed.

End DhcpOk.

(** Acquiring a lease ends.  Whatever the network does, the loop returns
    within its budget of rounds: with the address and router of the first
    configuration the DHCP socket reports, having given both to the interface
    (no default route without a router), or with nothing when no round of the
    budget reports one; and the console has said which. *)
Theorem dhcp_acquire_first `{NetStackOk} (fuel : nat) (clk : mono_clock) (time_ns : nat -> Z) (i : iface)
    (log : list net_message) :
  (forall k, in_u64 (time_ns k)) -> in_u64 (epoch_ns clk) -> net_good i -> (Z.to_nat (ITER_BUDGET / 10) < fuel)%nat ->
  exists res i' log', dhcp_acquire fuel clk time_ns i log = Ret (Some (res, i', log')) /\
    match res with
    | Some (a, r) => exists k cfg, (k <= Z.to_nat (ITER_BUDGET / 10))%nat /\
        quiet_until clk time_ns 0 k i /\ configured_at clk time_ns 0 k i cfg /\ a = cfg_address cfg /\
        r = match cfg_router cfg with Some r => r | None => [0; 0; 0; 0] end /\
        lease cfg (snd (dhcp_round clk time_ns k (after_rounds clk time_ns 0 k i))) = Ret i' /\
        exists log0, log' = log0 ++ [DhcpAddress a; DhcpGateway r]
    | None => quiet_until clk time_ns 0 (S (Z.to_nat (ITER_BUDGET / 10))) i /\
        exists log0 ms, log' = log0 ++ [DhcpTimeout ms]
    end.
Proof.
  intros Ht Hc Hg Hf; unfold dhcp_acquire; change (ITER_BUDGET / 10) with 2000000000 in *.
  pose proof (dhcp_loop_ok 2000000000 clk time_ns Ht Hc fuel 0 0 i (log ++ [DhcpRequesting]) Hg) as H2.
  rewrite Z.sub_0_r in H2; apply H2; lia.
Qed.

(** ** The gateway's answer *)

(** [m] is a good frame that carries the gateway's reply. *)
Definition is_reply (gw : ip_address) (m : mbuf) (mac : list Z) : Prop :=
  mb_bad m = false /\ parse_arp_reply_from (ztake (mb_len m) (mb_data m)) gw = Ret (Some mac).

Definition no_reply (gw : ip_address) (ms : list mbuf) : Prop :=
  Forall (fun m => forall mac, ~ is_reply gw m mac) ms.

(** A driver asked for one frame answers one at most. *)
Definition single_bursts (w : nic) : Prop :=
  Forall (fun burst => len burst <= 1 /\ Forall (fun m => frame_ok (frame_of m)) burst) (nic_rx w).

(** From [w] to [w'], the bursts [used] were received and all their buffers freed. *)
Definition received_all (w w' : nic) (used : list (list mbuf)) : Prop :=
  nic_rx w = used ++ nic_rx w' /\ freed w' = freed w ++ map mb_handle (concat used) /\
  Device.sent w' = Device.sent w.

Lemma received_all_trans w1 w2 w3 u1 u2 :
  received_all w1 w2 u1 -> received_all w2 w3 u2 -> received_all w1 w3 (u1 ++ u2).
Proof.
  intros (A1 & A2 & A3) (B1 & B2 & B3); split; [by rewrite A1, B1, app_assoc|]; split; [|congruence].
  by rewrite B2, A2, concat_app, map_app, app_assoc.
Qed.

Lemma arp_round_ok gw w :
  single_bursts w ->
  exists hw w' used, arp_round gw w = Ret (hw, w') /\ received_all w w' used /\
    match hw with
    | Some mac => exists m, concat used = [m] /\ is_reply gw m mac
    | None => no_reply gw (concat used)
    end.
Proof.
  intros Hb; unfold arp_round, shim_mbuf_rx_burst_n, single_bursts in *.
  destruct (nic_rx w) as [|burst rest] eqn:Erx.
  { exists None, w, []; split; [done|]; split; [|constructor].
    split_and!; [by rewrite Erx|by rewrite app_nil_r|done]. }
  apply Forall_cons_1 in Hb as [[Hl Hok] _].
  assert (Hfree : forall l, freed w ++ l = freed w ++ l) by done.
  destruct burst as [|m [|m2 burst]].
  - eexists None, _, [[]]; split; [done|]; split; [|constructor].
    split_and!; done.
  - apply Forall_singleton in Hok as (Hn & Hnl & Hbytes); cbn in Hn, Hnl.
    destruct (mb_bad m) eqn:Ebad.
    + rewrite filter_cons_False, filter_nil, filter_cons_True, filter_nil by congruence.
      eexists None, _, [[m]]; split; [done|]; split; [by split_and!; [done| |]|].
      constructor; [intros mac [? _]; congruence|constructor].
    + rewrite filter_cons_True, filter_nil, filter_cons_False, filter_nil by congruence.
      change (len [m] =? 1) with true; cbn iota.
      change (write_at [[]] 0 (map mb_data [m])) with [mb_data m].
      change (write_at [0] 0 (map mb_len [m])) with [mb_len m].
      change (write_at [0] 0 (map mb_handle [m])) with [mb_handle m].
      rewrite !index_0; cbn [obind]; unfold from_raw_parts; rewrite slice_ret by lia; cbn [obind].
      rewrite Z.sub_0_r, zdrop_0 by lia.
      destruct (parse_arp_reply_from_total (ztake (mb_len m) (mb_data m)) gw) as (o & Ep & _).
      rewrite Ep; cbn [obind]; eexists o, _, [[m]]; split; [done|]; split.
      * split_and!; [done| |done]; cbn; by rewrite app_nil_r.
      * destruct o as [mac|]; [by exists m|]; constructor; [intros mac [_ ?]; congruence|constructor].
  - exfalso; unfold len in Hl; cbn in Hl; lia.
Qed.

Lemma arp_loop_ok budget gw fuel iter w :
  single_bursts w -> 0 <= iter <= budget -> budget < 9223372036854775808 ->
  (Z.to_nat (budget - iter) < fuel)%nat ->
  exists hw w' used, arp_loop budget fuel iter gw w = Ret (Some (hw, w')) /\ received_all w w' used /\
    match hw with
    | Some mac => exists before m, concat used = before ++ [m] /\ is_reply gw m mac /\ no_reply gw before
    | None => no_reply gw (concat used)
    end.
Proof.
  revert iter w; induction fuel as [|fuel IH]; intros iter w Hb Hit Hbud Hf; [lia|]; cbn [arp_loop].
  destruct (arp_round_ok gw w Hb) as (hw & w1 & u1 & -> & Hr1 & H1); cbn [obind].
  destruct hw as [mac|].
  { destruct H1 as (m & Em & Hm); exists (Some mac), w1, u1; split; [done|]; split; [done|].
    exists [], m; split_and!; [done..|constructor]. }
  rewrite u64_small by lia; destruct (Z.ltb_spec budget (iter + 1)); [by exists None, w1, u1|].
  assert (Hb1 : single_bursts w1).
  { destruct Hr1 as (E & _); unfold single_bursts in *; rewrite E in Hb; by apply Forall_app in Hb as [_ Hb]. }
  destruct (IH (iter + 1) w1 Hb1) as (hw & w2 & u2 & -> & Hr2 & H2); [lia..|].
  exists hw, w2, (u1 ++ u2); split; [done|]; split; [by apply (received_all_trans _ w1)|].
  rewrite concat_app; destruct hw as [mac|]; [|by apply Forall_app].
  destruct H2 as (before & m & E & Hm & Hno); exists (concat u1 ++ before), m.
  rewrite E, app_assoc; split_and!; [done..|by apply Forall_app].
Qed.

(** What the driver answers when it is asked for a transmit buffer. *)
Definition alloc_ok (a : tx_alloc) : Prop :=
  forall data, al_data a = Some data -> 0 <= al_cap a <= len data.

Lemma send_arp_ok req w :
  Forall alloc_ok (nic_allocs w) ->
  exists ok w', send_arp req w = Ret (ok, w') /\ nic_rx w' = nic_rx w /\
    (ok = false -> w' = w \/ exists a, nic_allocs w = a :: nic_allocs w' /\ (al_data a = None \/ al_handle a = None)).
Proof.
  intros Ha; unfold send_arp, shim_mbuf_alloc_tx; destruct (nic_allocs w) as [|a rest] eqn:Ea; cbn [al_data al_handle].
  { do 2 eexists; split; [done|]; split; [done|]; by left. }
  apply Forall_cons_1 in Ha as [Ha _].
  destruct (al_data a) as [data|] eqn:Ed, (al_handle a) as [h|] eqn:Eh.
  2-4: do 2 eexists; split; [done|]; split; [done|]; right; exists a; split; [done|]; auto.
  specialize (Ha data Ed); pose proof (len_nonneg req).
  rewrite slice_ret by lia; cbn [obind].
  rewrite copy_from_slice_ret by (rewrite ?len_ztake, ?len_zdrop; lia); cbn [obind].
  unfold shim_mbuf_tx; set (r := match nic_tx _ with [] => _ | _ => _ end); destruct r as [rc rs]; cbn.
  destruct (rc =? 0); do 2 eexists; (split; [reflexivity|]); by split.
Qed.

(** Learning the network, for any interface that keeps the promise.  The function returns, within the budgets of its two
    loops: with the address, prefix and router of the first lease, and the
    hardware address of the first ARP reply the router sends, every frame
    received up to it having been freed; or with nothing, having said whether no
    lease came, no buffer was left or no reply came. *)
Theorem learn_network_correct `{NetStackOk} (dhcp_fuel arp_fuel : nat) (mac : list Z) (time_ns : nat -> Z)
    (start : iface) (w : nic) :
  let clk := clock_new (time_ns 0%nat) in
  let times k := time_ns (S (S k)) in
  (Z.to_nat (ITER_BUDGET / 10) < dhcp_fuel)%nat -> (Z.to_nat (ITER_BUDGET / 20) < arp_fuel)%nat ->
  len mac = 6 -> (forall k, in_u64 (time_ns k)) -> net_good start ->
  single_bursts w -> Forall alloc_ok (nic_allocs w) ->
  exists res log w', learn_network dhcp_fuel arp_fuel mac time_ns start w = Ret (Some (res, log, w')) /\
    match res with
    | Some (ip, prefix, gw, hw) =>
        exists k cfg w1 used before m,
          quiet_until clk times 0 k start /\ configured_at clk times 0 k start cfg /\
          cfg_address cfg = {| cidr_addr := ip; prefix_len := prefix |} /\
          gw = match cfg_router cfg with Some r => r | None => [0; 0; 0; 0] end /\
          nic_rx w1 = nic_rx w /\ received_all w1 w' used /\ concat used = before ++ [m] /\
          is_reply gw m hw /\ no_reply gw before
    | None => exists log0 why, log = log0 ++ [why] /\
        ((exists ms, why = DhcpTimeout ms) \/ why = ArpNoMbuf \/ why = ArpTimeout)
    end.
Proof.
  intros clk times Hdf Haf Hmac Htime Hgood Hb Halloc; unfold learn_network; fold clk.
  change (fun k => time_ns (S (S k))) with times.
  unfold dhcp_acquire; change (ITER_BUDGET / 10) with 2000000000 in *; change (ITER_BUDGET / 20) with 1000000000 in *.
  destruct (dhcp_loop_ok 2000000000 clk times (fun k => Htime (S (S k))) (Htime 0%nat) dhcp_fuel 0 0 start ([] ++ [DhcpRequesting]))
    as (res & i' & log' & -> & Hres); [done|lia..|]; cbn [obind].
  destruct res as [[c gw]|].
  2:{ destruct Hres as [_ (log0 & ms & ->)]; do 3 eexists; split; [done|].
      do 2 eexists; split; [done|]; left; by exists ms. }
  destruct Hres as (k & cfg & _ & Hq & Hc & -> & -> & _ & _).
  destruct (configured_lens clk times (fun k => Htime (S (S k))) (Htime 0%nat) 0 k start cfg Hgood Hc) as [Hl1 Hl2].
  set (gw := match cfg_router cfg with Some r => r | None => [0; 0; 0; 0] end).
  assert (Hgw : len gw = 4) by (subst gw; destruct (cfg_router cfg); [by apply Hl2|done]).
  destruct (arp_frame_layout (zreplicate 6 255) mac 1 (cidr_addr (cfg_address cfg)) (zreplicate 6 0) gw)
    as [E _]; [done..|].
  unfold build_arp_request; rewrite E; cbn [obind].
  destruct (send_arp_ok (arp_layout (zreplicate 6 255) mac 1 (cidr_addr (cfg_address cfg)) (zreplicate 6 0) gw) w Halloc)
    as (ok & w1 & -> & Hrx & _); cbn [obind].
  destruct ok; cbn [negb].
  2:{ do 3 eexists; split; [done|]; do 2 eexists; split; [done|]; auto. }
  destruct (arp_loop_ok 1000000000 gw arp_fuel 0 w1) as (hw & w2 & used & -> & Hr & Hhw);
    [unfold single_bursts; by rewrite Hrx|lia..|]; cbn [obind].
  destruct hw as [hw|].
  - destruct Hhw as (before & m & Em & Hm & Hno); do 3 eexists; split; [done|].
    exists k, cfg, w1, used, before, m; split_and!; try done; by destruct (cfg_address cfg).
  - do 3 eexists; split; [done|]; do 2 eexists; split; [done|]; auto.
Qed.

(** ** A network that answers at the third poll *)

Definition ex_lease : dhcp_config :=
  {| cfg_server := {| sv_address := [10; 0; 0; 1]; sv_identifier := [10; 0; 0; 1] |};
     cfg_address := {| cidr_addr := [10; 0; 0; 2]; prefix_len := 24 |}; cfg_router := Some [10; 0; 0; 1];
     cfg_dns_servers := []; cfg_packet := None |}.

#[local] Instance ex_net : NetStack :=
  {| iface := nat; poll_iface := fun _ i => Ret (Some (S i));
     poll_dhcp := fun i => (if (i =? 3)%nat then Some (Configured ex_lease) else None, i);
     push_ip_addr := fun _ i => Ret i; add_default_ipv4_route := fun _ i => i |}.

#[local] Instance ex_net_good : @NetStackOk ex_net.
Proof.
  refine {| net_good := fun _ : @iface ex_net => True |}; [by intros t i _ _; exists (S i)|done| |by intros; eexists].
  intros i cfg _; cbn; destruct (_ =? _)%nat; [|done]; intros [= <-]; split; [done|]; by intros r [= <-].
Defined.

Definition ex_iface : @iface ex_net := 0%nat.

Definition ex_gw_reply : mbuf :=
  {| mb_handle := 7;
     mb_data := arp_layout [2; 0; 0; 0; 0; 1] [2; 0; 0; 0; 0; 9] 2 [10; 0; 0; 1] [2; 0; 0; 0; 0; 1] [10; 0; 0; 2];
     mb_len := 42; mb_bad := false |}.

Definition ex_wire : nic :=
  {| nic_rx := [[]; [ex_gw_reply]]; nic_allocs := [{| al_data := Some (zreplicate 64 0); al_handle := Some 3; al_cap := 64 |}];
     nic_tx := [1]; freed := []; sent := []; MISROUTED_DROPS := 0; TX_ALLOC_FAIL := 0; TX_BURST_FAIL := 0 |}.

(** The run itself, with fuel for three polls and two receptions. *)
Example learn_network_run :
  match learn_network 3 2 [2; 0; 0; 0; 0; 1] (fun k => Z.of_nat k * 1000) ex_iface ex_wire with
  | Ret (Some (Some r, _, w')) => r = ([10; 0; 0; 2], 24, [10; 0; 0; 1], [2; 0; 0; 0; 0; 9]) /\ freed w' = [7]
  | _ => False
  end.
Proof. vm_compute; split; reflexivity. Qed.

Lemma ex_time k : in_u64 (Z.of_nat k mod M64).
Proof. unfold in_u64; mlia. Qed.

Lemma ex_configured clk times k cfg : configured_at clk times 0 k ex_iface cfg -> cfg = ex_lease.
Proof.
  intros Hc; unfold configured_at, dhcp_round in Hc; cbn in Hc.
  match type of Hc with context [(?x =? ?y)%nat] => destruct (x =? y)%nat end; [|discriminate Hc]; by injection Hc as <-.
Qed.

Lemma dhcp_acquire_first_witness : exists fuel res i' log',
  dhcp_acquire fuel (clock_new 0) (fun k => Z.of_nat k mod M64) ex_iface [] = Ret (Some (res, i', log')) /\
  exists a r, res = Some (a, r).
Proof.
  destruct (dhcp_acquire_first (S (Z.to_nat (ITER_BUDGET / 10))) (clock_new 0) (fun k => Z.of_nat k mod M64) ex_iface [])
    as (res & i' & log' & E & Hres); [exact ex_time|unfold in_u64; cbn; lia|exact I|apply Nat.lt_succ_diag_r|].
  exists (S (Z.to_nat (ITER_BUDGET / 10))), res, i', log'; split; [exact E|].
  destruct res as [[a r]|]; [exists a, r; reflexivity|exfalso].
  destruct Hres as [Hq _]; eapply (Hq 2%nat); [|reflexivity].
  clear; change (ITER_BUDGET / 10) with 2000000000; lia.
Defined.

Lemma ex_wire_bursts : single_bursts ex_wire.
Proof.
  apply Forall_cons_2; [split; [unfold len; cbn; lia|constructor]|].
  apply Forall_cons_2; [split; [unfold len; cbn; lia|]|constructor].
  apply Forall_cons_2; [|constructor]; split; [cbn; lia|]; split; [unfold len; cbn; lia|].
  change (bytes_ok (mb_data ex_gw_reply)); vm_compute mb_data; unfold bytes_ok, in_u8.
  repeat (apply Forall_cons_2; [lia|]); constructor.
Qed.

Lemma ex_wire_allocs : Forall alloc_ok (nic_allocs ex_wire).
Proof. constructor; [|constructor]; intros data [= <-]; cbn; rewrite len_zreplicate; lia. Qed.

Lemma learn_network_correct_witness : exists f1 f2 res log w',
  learn_network f1 f2 [2; 0; 0; 0; 0; 1] (fun k => Z.of_nat k mod M64) ex_iface ex_wire = Ret (Some (res, log, w')) /\
  match res with Some (_, _, _, hw) => exists m, is_reply [10; 0; 0; 1] m hw | None => True end.
Proof.
  destruct (learn_network_correct (S (Z.to_nat (ITER_BUDGET / 10))) (S (Z.to_nat (ITER_BUDGET / 20)))
    [2; 0; 0; 0; 0; 1] (fun k => Z.of_nat k mod M64) ex_iface ex_wire) as (res & log & w' & E & Hres).
  - apply Nat.lt_succ_diag_r.
  - apply Nat.lt_succ_diag_r.
  - reflexivity.
  - exact ex_time.
  - exact I.
  - exact ex_wire_bursts.
  - exact ex_wire_allocs.
  - eexists _, _, res, log, w'; split; [exact E|].
    destruct res as [[[[ip prefix] gw] hw]|]; [|exact I].
    destruct Hres as (k & cfg & w1 & used & before & m & _ & Hc & _ & -> & _ & _ & _ & Hm & _).
    apply ex_configured in Hc as ->; exists m; exact Hm.
Defined.
