(* ===== verification/Probe.v ===== *)
(** Opening the network card (src/bench/smoltcp-s3/src/lib.rs,
    [probe_and_open] and [PktPool]): one buffer pool per queue, the queues'
    descriptors, and what is released when a call fails. *)

From Stdlib Require Import ZArith Lia ZifyBool Ascii String.
From stdpp Require Import base list numbers.
From S2P Require Import Prelude AppConfig Http Device.

(** ** The driver *)

(** What the calls of the shim will answer; a null pool is 0. *)
Record eth_driver : Type := {
  pool_create : Z -> Z;
  dev_configure : Z;
  adjust_desc : Z * Z -> Z * Z;
  rx_queue_setup : Z -> Z;
  tx_queue_setup : Z -> Z;
  dev_start : Z;
  macaddr : list Z;
}.

(** The calls made, in order. *)
Variant eth_call : Type :=
| PoolCreate (name : list Z) (n cache priv room answer : Z)
| PoolFree (pool : Z)
| Configure (rx tx : Z)
| AdjustDesc (rx tx : Z)
| RxQueueSetup (q desc pool : Z)
| TxQueueSetup (q desc : Z)
| DevStart
| MacaddrGet.

Variant probe_message : Type :=
| DescriptorsClamped (asked rx tx : Z) | Descriptors (rx tx : Z) | PortMac (mac : list Z) (n_queues : Z).

Record probe : Type := { calls : list eth_call; probe_log : list probe_message }.

Definition call (c : eth_call) (p : probe) : probe := {| calls := calls p ++ [c]; probe_log := probe_log p |}.
Definition report (m : probe_message) (p : probe) : probe :=
  {| calls := calls p; probe_log := probe_log p ++ [m] |}.

(* [lib.rs 247-247 DATA_ROOM_SIZE] *)
Definition DATA_ROOM_SIZE : Z := 1536.
(* [lib.rs 252-252 DESC_NUM] *)
Definition DESC_NUM : Z := 4096.
(* [lib.rs 253-253 CACHE] *)
Definition CACHE : Z := 64.
(* [lib.rs 260-261 per_queue_size] *)
Definition per_queue_size : Z := u32 (u32 (u32 (u32 (DESC_NUM * 2) + CACHE) + RX_BURST) + 512).

(** Dropping a pool releases it; dropping the vector drops each pool in turn. *)
(* [lib.rs 227-235 PktPool::drop] *)
Definition drop_pool (pool : Z) (p : probe) : probe :=
  if negb (pool =? 0) then call (PoolFree pool) p else p.

Definition drop_pools (pools : list Z) (p : probe) : probe := fold_left (fun p pool => drop_pool pool p) pools p.

Section Probe.
Context (drv : eth_driver).

(** The name, written into 32 zero bytes. *)
(* [lib.rs 265-266 probe_and_open] *)
Definition pool_name (q : Z) : outcome (list Z) :=
  let! w := write_fmt (bw_new (zreplicate 32 0)) [str "bench-pool-"; fmt_u64 q; [0]] in
  Ret (bw_buf w).

(** The pools; the vector made so far is dropped when one is refused. *)
(* [lib.rs 263-274 probe_and_open] *)
Fixpoint create_pools (k : nat) (q : Z) (pools : list Z) (p : probe) : outcome (option (list Z) * probe) :=
  match k with
  | O => Ret (Some pools, p)
  | S k =>
      let! name := pool_name q in
      let raw := pool_create drv q in
      let p := call (PoolCreate name per_queue_size CACHE 0 DATA_ROOM_SIZE raw) p in
      if raw =? 0 then Ret (None, drop_pools pools p)
      else create_pools k (q + 1) (pools ++ [raw]) p
  end.

(* [lib.rs 289-296 probe_and_open] *)
Fixpoint setup_queues (k : nat) (q rx_desc tx_desc : Z) (pools : list Z) (p : probe) : outcome (bool * probe) :=
  match k with
  | O => Ret (true, p)
  | S k =>
      let! pool := index pools q in
      let p := call (RxQueueSetup q rx_desc pool) p in
      if negb (rx_queue_setup drv q =? 0) then Ret (false, p)
      else
        let p := call (TxQueueSetup q tx_desc) p in
        if negb (tx_queue_setup drv q =? 0) then Ret (false, p)
        else setup_queues k (q + 1) rx_desc tx_desc pools p
  end.

(** Answers the pools and the hardware address. *)
(* [lib.rs 245-307 probe_and_open] *)
Definition probe_and_open (n_queues : Z) : outcome (option (list Z * list Z) * probe) :=
  let! (made, p) := create_pools (Z.to_nat n_queues) 0 [] {| calls := []; probe_log := [] |} in
  match made with
  | None => Ret (None, p)
  | Some pools =>
      let p := call (Configure n_queues n_queues) p in
      if negb (dev_configure drv =? 0) then Ret (None, drop_pools pools p)
      else
        let p := call (AdjustDesc DESC_NUM DESC_NUM) p in
        let '(rx_desc, tx_desc) := adjust_desc drv (DESC_NUM, DESC_NUM) in
        let p := report (if negb (rx_desc =? DESC_NUM) || negb (tx_desc =? DESC_NUM)
                         then DescriptorsClamped DESC_NUM rx_desc tx_desc else Descriptors rx_desc tx_desc) p in
        let! (ok, p) := setup_queues (Z.to_nat n_queues) 0 rx_desc tx_desc pools p in
        if negb ok then Ret (None, drop_pools pools p)
        else
          let p := call DevStart p in
          if negb (dev_start drv =? 0) then Ret (None, drop_pools pools p)
          else
            let p := call MacaddrGet p in
            let p := report (PortMac (macaddr drv) n_queues) p in
            Ret (Some (pools, macaddr drv), p)
  end.

End Probe.

(** ** What is held *)

Fixpoint remove_one (x : Z) (l : list Z) : list Z :=
  match l with [] => [] | y :: l => if y =? x then l else y :: remove_one x l end.

(** The pools created and not yet freed after a sequence of calls.  No answer
    when a pool is freed that is not held at that point: one never created, or
    freed before. *)
Definition live_step (l : list Z) (c : eth_call) : option (list Z) :=
  match c with
  | PoolCreate _ _ _ _ _ raw => Some (if raw =? 0 then l else l ++ [raw])
  | PoolFree x => if decide (x ∈ l) then Some (remove_one x l) else None
  | _ => Some l
  end.
Definition live_pools (cs : list eth_call) : option (list Z) :=
  fold_left (fun held c => held ≫= fun l => live_step l c) cs (Some []).

Lemma live_call c p : live_pools (calls (call c p)) = live_pools (calls p) ≫= fun l => live_step l c.
Proof. unfold live_pools; cbn; by rewrite fold_left_app. Qed.

Lemma live_other c p :
  match c with PoolCreate _ _ _ _ _ _ | PoolFree _ => False | _ => True end ->
  live_pools (calls (call c p)) = live_pools (calls p).
Proof. intros Hc; rewrite live_call; destruct (live_pools _), c; done. Qed.

Lemma drop_pools_live pools more p :
  Forall (fun x => x <> 0) pools -> live_pools (calls p) = Some (pools ++ more) ->
  live_pools (calls (drop_pools pools p)) = Some more.
Proof.
  intros Hp; revert p; induction Hp as [|x pools Hx Hp IH]; intros p Hl; cbn [drop_pools fold_left]; [done|].
  unfold drop_pools in IH; apply IH; unfold drop_pool; rewrite (proj2 (Z.eqb_neq _ _)) by done; cbn [negb].
  rewrite live_call, Hl; cbn [mbind option_bind live_step app].
  by rewrite decide_True by (by constructor); cbn; rewrite Z.eqb_refl.
Qed.

(** Nothing but pools is dropped. *)
Lemma drop_pools_calls pools p :
  exists frees, calls (drop_pools pools p) = calls p ++ frees /\
    Forall (fun c => match c with PoolFree _ => True | _ => False end) frees.
Proof.
  revert p; induction pools as [|x pools IH]; intros p; cbn [drop_pools fold_left].
  - exists []; by rewrite app_nil_r.
  - destruct (IH (drop_pool x p)) as (frees & E & Hf); unfold drop_pools in E; rewrite E; unfold drop_pool.
    destruct (negb _); [|by exists frees]; exists (PoolFree x :: frees); cbn [calls call].
    rewrite <-app_assoc; split; [done|by constructor].
Qed.

Section Correct.
Context (drv : eth_driver).

(** The pool's name, with its terminator: it fits the 32 bytes. *)
Definition pool_label (q : Z) : list Z := str "bench-pool-" ++ fmt_u64 q ++ [0].

Lemma pool_name_ok q :
  exists name, pool_name q = Ret name /\ len name = 32 /\ ztake (len (pool_label q)) name = pool_label q.
Proof using Type.
  unfold pool_name; set (frags := [_; _; _]).
  destruct (write_fmt_spec frags (bw_new (zreplicate 32 0))) as (w & -> & L & U & T);
    [cbn [bw_new bw_used bw_buf]; change (len (zreplicate 32 0)) with 32; lia|done|].
  assert (Ec : concat frags = pool_label q) by (subst frags; cbn [concat]; by rewrite app_nil_r).
  cbn [obind]; exists (bw_buf w); rewrite Ec in U, T; cbn [bw_new bw_buf bw_used] in L, U, T.
  change (len (zreplicate 32 0)) with 32 in *; rewrite (ztake_0 0), app_nil_l in T by lia; rewrite Z.add_0_l in U.
  pose proof (fmt_dec_len 20 q) as Hd; fold (fmt_u64 q) in Hd; change (Z.of_nat 20) with 20 in Hd.
  assert (Hl : len (pool_label q) = 12 + len (fmt_u64 q)).
  { unfold pool_label; rewrite !len_app; change (len (str "bench-pool-")) with 11; change (len [0]) with 1; lia. }
  rewrite Z.min_r in U by lia; rewrite U, (ztake_ge 32) in T by lia; done.
Qed.

(** What a sequence of calls must not have done before the end. *)
Definition quiet_call (c : eth_call) : Prop :=
  match c with DevStart | MacaddrGet => False | _ => True end.

Lemma create_pools_ok k q p pools :
  Forall (fun x => x <> 0) pools -> live_pools (calls p) = Some pools -> Forall quiet_call (calls p) ->
  exists res p', create_pools drv k q pools p = Ret (res, p') /\ Forall quiet_call (calls p') /\
    match res with
    | Some pools' => pools' = pools ++ map (pool_create drv) (seqZ q (Z.of_nat k)) /\
        Forall (fun x => x <> 0) pools' /\ live_pools (calls p') = Some pools'
    | None => live_pools (calls p') = Some [] /\ exists j, q <= j < q + Z.of_nat k /\ pool_create drv j = 0
    end.
Proof using Type.
  revert q p pools; induction k as [|k IH]; intros q p pools Hp Hl Hq; cbn [create_pools].
  { do 2 eexists; split; [done|]; split; [done|]; by rewrite app_nil_r. }
  destruct (pool_name_ok q) as (name & -> & _); cbn [obind].
  set (p1 := call _ p).
  assert (Hq1 : Forall quiet_call (calls p1)) by (apply Forall_app; split; [done|by constructor]).
  assert (Hl1 : live_pools (calls p1) = Some (if pool_create drv q =? 0 then pools else pools ++ [pool_create drv q])).
  { subst p1; rewrite live_call, Hl; done. }
  destruct (Z.eqb_spec (pool_create drv q) 0) as [E|E].
  - do 2 eexists; split; [done|]; split.
    + destruct (drop_pools_calls pools p1) as (frees & -> & Hf); apply Forall_app; split; [done|].
      eapply Forall_impl; [|exact Hf]; by intros [].
    + split; [apply drop_pools_live; [done|by rewrite app_nil_r]|exists q; split; [lia|done]].
  - destruct (IH (q + 1) p1 (pools ++ [pool_create drv q])) as (res & p2 & -> & Hq2 & Hres); [|done|done|].
    { apply Forall_app; split; [done|by constructor]. }
    do 2 eexists; split; [done|]; split; [done|]; destruct res as [pools'|].
    + destruct Hres as (-> & H1 & H2); split_and!; try done.
      rewrite <-app_assoc; f_equal; rewrite (seqZ_cons q) by lia; cbn [map app].
      do 3 f_equal; lia.
    + destruct Hres as (H1 & j & H2 & H3); split; [done|]; exists j; split; [lia|done].
Qed.

Lemma setup_queues_ok k q rx tx pools p :
  0 <= q -> q + Z.of_nat k <= len pools -> Forall quiet_call (calls p) ->
  exists ok p', setup_queues drv k q rx tx pools p = Ret (ok, p') /\ Forall quiet_call (calls p') /\
    live_pools (calls p') = live_pools (calls p) /\ (forall c, c ∈ calls p -> c ∈ calls p') /\
    if ok then forall j, q <= j < q + Z.of_nat k ->
      rx_queue_setup drv j = 0 /\ tx_queue_setup drv j = 0 /\ TxQueueSetup j tx ∈ calls p' /\
      exists pool, zget pools j = Some pool /\ RxQueueSetup j rx pool ∈ calls p'
    else exists j, q <= j < q + Z.of_nat k /\ (rx_queue_setup drv j <> 0 \/ tx_queue_setup drv j <> 0).
Proof using Type.
  revert q p; induction k as [|k IH]; intros q p Hq Hk Hc; cbn [setup_queues].
  { do 2 eexists; split; [done|]; split_and!; [done..|]; intros j Hj; lia. }
  destruct (index_is_ret pools q) as [pool Ei]; [lia|]; rewrite Ei; cbn [obind].
  set (p1 := call (RxQueueSetup q rx pool) p).
  assert (H1 : forall c, c ∈ calls p -> c ∈ calls p1) by (intros c ?; apply elem_of_app; by left).
  assert (Hc1 : Forall quiet_call (calls p1)) by (apply Forall_app; split; [done|by constructor]).
  assert (Hl1 : live_pools (calls p1) = live_pools (calls p)) by (by subst p1; rewrite live_other).
  destruct (Z.eqb_spec (rx_queue_setup drv q) 0) as [E1|E1]; cbn [negb].
  2:{ do 2 eexists; split; [done|]; split_and!; [done..|]; exists q; split; [lia|by left]. }
  set (p2 := call (TxQueueSetup q tx) p1).
  assert (H2 : forall c, c ∈ calls p1 -> c ∈ calls p2) by (intros c ?; apply elem_of_app; by left).
  assert (Hc2 : Forall quiet_call (calls p2)) by (apply Forall_app; split; [done|by constructor]).
  assert (Hl2 : live_pools (calls p2) = live_pools (calls p1)) by (by subst p2; rewrite live_other).
  destruct (Z.eqb_spec (tx_queue_setup drv q) 0) as [E2|E2]; cbn [negb].
  2:{ do 2 eexists; split; [done|]; split_and!; [done|congruence|auto|]; exists q; split; [lia|by right]. }
  destruct (IH (q + 1) p2) as (ok & p3 & -> & Hc3 & Hl3 & H3 & Hok); [lia|lia|done|].
  do 2 eexists; split; [done|]; split_and!; [done|congruence|auto|]; destruct ok.
  - intros j Hj; destruct (decide (j = q)) as [->|]; [|apply Hok; lia].
    split_and!; [done..| |].
    + apply H3, elem_of_app; right; by constructor.
    + exists pool; split; [by apply index_zget|]; apply H3, H2, elem_of_app; right; by constructor.
  - destruct Hok as (j & Hj & Hbad); exists j; split; [lia|done].
Qed.

(** Opening the card ends; the pools of an opened card. *)
Lemma probe_and_open_ret n :
  0 <= n -> exists res p, probe_and_open drv n = Ret (res, p) /\
    forall pools mac, res = Some (pools, mac) ->
      pools = map (pool_create drv) (seqZ 0 n) /\ Forall (fun x => x <> 0) pools /\ len pools = n /\
      live_pools (calls p) = Some pools /\ mac = macaddr drv.
Proof using Type.
  intros Hn; unfold probe_and_open.
  destruct (create_pools_ok (Z.to_nat n) 0 {| calls := []; probe_log := [] |} []) as (made & p1 & -> & Hq1 & Hmade);
    [constructor|done|constructor|]; cbn [obind]; rewrite Z2Nat.id in Hmade by lia.
  destruct made as [pools|]; [|by do 2 eexists]; destruct Hmade as (Epools & Hnz & Hlive).
  assert (Hlen : len pools = n) by (rewrite Epools; cbn [app]; rewrite len_map; unfold len; rewrite length_seqZ; lia).
  destruct (negb (dev_configure drv =? 0)); [by do 2 eexists|]; destruct (adjust_desc _ _) as [rx tx].
  set (p3 := report _ _); assert (Hl3 : live_pools (calls p3) = Some pools) by (cbn [p3 report calls]; by rewrite !live_other).
  assert (Hq3 : Forall quiet_call (calls p3)) by (cbn; repeat (apply Forall_app; split); first [done|by repeat constructor]).
  destruct (setup_queues_ok (Z.to_nat n) 0 rx tx pools p3) as (ok & p4 & -> & _ & Hl4 & _); [lia|lia|done|]; cbn [obind].
  destruct ok; cbn [negb]; [|by do 2 eexists]; destruct (negb (dev_start drv =? 0)); [by do 2 eexists|].
  do 2 eexists; split; [reflexivity|]; intros ? ? [= <- <-]; split_and!; try done.
  cbn [report calls]; by rewrite !live_other, Hl4.
Qed.

(** C30: opening the card.  The function never panics.  When it succeeds there is
    one pool per queue, in order, all of them held and none freed; every queue has been set up
    with the descriptors the device granted and its own pool, and the device is
    started.  When any call fails it answers nothing, the device has not been
    started, and every pool created so far has been released exactly once: the
    account of pools held, which a free of a pool not held breaks, ends empty. *)
Theorem probe_and_open_correct (n_queues : Z) :
  0 <= n_queues < M16 ->
  let '(rx, tx) := adjust_desc drv (DESC_NUM, DESC_NUM) in
  exists res p, probe_and_open drv n_queues = Ret (res, p) /\
    match res with
    | Some (pools, mac) =>
        pools = map (pool_create drv) (seqZ 0 n_queues) /\ Forall (fun x => x <> 0) pools /\
        live_pools (calls p) = Some pools /\ mac = macaddr drv /\ dev_configure drv = 0 /\
        DevStart ∈ calls p /\ dev_start drv = 0 /\
        forall q, 0 <= q < n_queues ->
          rx_queue_setup drv q = 0 /\ tx_queue_setup drv q = 0 /\ TxQueueSetup q tx ∈ calls p /\
          exists pool, zget pools q = Some pool /\ RxQueueSetup q rx pool ∈ calls p
    | None =>
        live_pools (calls p) = Some [] /\ (DevStart ∈ calls p -> dev_start drv <> 0) /\
        ((exists q, 0 <= q < n_queues /\
            (pool_create drv q = 0 \/ rx_queue_setup drv q <> 0 \/ tx_queue_setup drv q <> 0)) \/
         dev_configure drv <> 0 \/ dev_start drv <> 0)
    end.
Proof using Type.
  intros Hn; destruct (adjust_desc drv (DESC_NUM, DESC_NUM)) as [rx tx] eqn:Ead; unfold probe_and_open.
  assert (Hquiet : forall cs, Forall quiet_call cs -> DevStart ∉ cs).
  { intros cs Hc Hin; rewrite List.Forall_forall in Hc; apply list_elem_of_In in Hin; exact (Hc _ Hin). }
  destruct (create_pools_ok (Z.to_nat n_queues) 0 {| calls := []; probe_log := [] |} []) as
    (made & p1 & -> & Hq1 & Hmade); [constructor|done|constructor|]; cbn [obind].
  rewrite Z2Nat.id in Hmade by lia; cbn [app] in Hmade.
  destruct made as [pools|].
  2:{ destruct Hmade as (H1 & j & H2 & H3); do 2 eexists; split; [done|]; split_and!; [done| |].
      - intros Hin; by destruct (Hquiet _ Hq1).
      - left; exists j; split; [lia|by left]. }
  destruct Hmade as (Epools & Hnz & Hlive); set (p2 := call (Configure _ _) p1).
  assert (Hl2 : live_pools (calls p2) = Some pools) by (subst p2; by rewrite live_other).
  assert (Hq2 : Forall quiet_call (calls p2)) by (apply Forall_app; split; [done|by constructor]).
  assert (Hdrop : forall p, Forall quiet_call (calls p) -> live_pools (calls p) = Some pools ->
    live_pools (calls (drop_pools pools p)) = Some [] /\ (DevStart ∈ calls (drop_pools pools p) -> dev_start drv <> 0)).
  { intros p Hq Hl; split; [apply drop_pools_live; [done|by rewrite app_nil_r]|].
    destruct (drop_pools_calls pools p) as (frees & -> & Hf); intros [Hin|Hin]%elem_of_app.
    - by destruct (Hquiet _ Hq).
    - rewrite List.Forall_forall in Hf; apply list_elem_of_In in Hin; by specialize (Hf _ Hin). }
  destruct (Z.eqb_spec (dev_configure drv) 0) as [Ecf|Ecf]; cbn [negb].
  2:{ destruct (Hdrop p2 Hq2 Hl2); do 2 eexists; split; [done|]; split_and!; auto. }
  rewrite Ead; set (p3 := report _ _).
  assert (Hl3 : live_pools (calls p3) = Some pools).
  { subst p3; cbn [report calls]; by rewrite live_other, Hl2. }
  assert (Hq3 : Forall quiet_call (calls p3)).
  { subst p3; cbn [report calls]; apply Forall_app; split; [done|by constructor]. }
  assert (Hlen : len pools = n_queues).
  { rewrite Epools, len_map; unfold len; rewrite length_seqZ; lia. }
  destruct (setup_queues_ok (Z.to_nat n_queues) 0 rx tx pools p3) as (ok & p4 & -> & Hq4 & Hl4 & Hin4 & Hok);
    [lia|lia|done|]; cbn [obind]; rewrite Z2Nat.id in Hok by lia.
  destruct ok; cbn [negb].
  2:{ destruct (Hdrop p4 Hq4) as [D1 D2]; [congruence|]; destruct Hok as (j & Hj & Hbad).
      do 2 eexists; split; [done|]; split_and!; [done..|]; left; exists j; split; [lia|tauto]. }
  destruct (Z.eqb_spec (dev_start drv) 0) as [Est|Est]; cbn [negb].
  2:{ do 2 eexists; split; [done|]; split_and!; auto.
      apply drop_pools_live; [done|]; by rewrite live_other, Hl4, Hl3, app_nil_r. }
  do 2 eexists; split; [done|]; cbn [report calls].
  split_and!; try done; [by rewrite !live_other, Hl4| |].
  - apply elem_of_app; left; apply elem_of_app; right; by constructor.
  - intros q Hqr; destruct (Hok q) as (H1 & H2 & H3 & pool & H4 & H5); [lia|].
    split_and!; [done..| |exists pool; split; [done|]]; apply elem_of_app; left; apply elem_of_app; by left.
Qed.

End Correct.

(** ** A card that works, and one whose second queue has no pool *)

Definition ex_driver (refused : Z) : eth_driver :=
  {| pool_create := fun q => if q =? refused then 0 else q + 100; dev_configure := 0;
     adjust_desc := fun _ => (4096, 1024); rx_queue_setup := fun _ => 0; tx_queue_setup := fun _ => 0;
     dev_start := 0; macaddr := [2; 0; 0; 0; 0; 1] |}.

(** With two queues both pools are held and the clamped count is reported. *)
Lemma probe_and_open_correct_witness : exists p,
  probe_and_open (ex_driver 7) 2 = Ret (Some ([100; 101], [2; 0; 0; 0; 0; 1]), p) /\
  live_pools (calls p) = Some [100; 101] /\ DevStart ∈ calls p /\ RxQueueSetup 1 4096 101 ∈ calls p.
Proof.
  destruct (probe_and_open_correct (ex_driver 7) 2) as (res & p & E & H); [split; vm_compute; congruence|].
  destruct res as [[pools mac]|].
  - destruct H as (-> & _ & H1 & -> & _ & H2 & _ & H3).
    exists p; split; [exact E|]; split; [exact H1|]; split; [exact H2|].
    destruct (H3 1) as (_ & _ & _ & pool & H4 & H5); [split; vm_compute; congruence|].
    vm_compute in H4; injection H4 as <-; exact H5.
  - vm_compute in E; congruence.
Defined.
