(* ===== verification/Plan.v ===== *)
(** What a worker plans before it opens its connections
    (src/bench/smoltcp-s3/src/lib.rs, [worker_thread]): the source ports it
    uses, and the block of the object each connection asks for. *)

From Stdlib Require Import ZArith Lia ZifyBool Znumtheory Sorting.Sorted.
From stdpp Require Import base list list_numbers numbers.
From S2P Require Import Prelude AppConfig Rss.

(** ** Ports *)

Section Ports.
Context (env : build_env) (bitmap : list Z).

(** The loop; [seen] counts the owned ports met so far. *)
(* [lib.rs 1284-1291 worker_thread] the loop. *)
Fixpoint pick_loop (k : nat) (i stride seen : Z) (my_ports : list Z) : outcome (list Z) :=
  match k with
  | O => Ret my_ports
  | S k =>
      if len my_ports =? CONNS_PER_WORKER env then Ret my_ports
      else
        let port := EPH_BASE + u16 i in
        let! owned := owns_port bitmap port in
        if owned then
          let my_ports := if seen mod stride =? 0 then my_ports ++ [port] else my_ports in
          pick_loop k (i + 1) stride (seen + 1) my_ports
        else pick_loop k (i + 1) stride seen my_ports
  end.

(** The division panics for a worker without connections; the entry point
    refuses that configuration. *)
(* [lib.rs 1280-1292 worker_thread] *)
Definition pick_ports (owned_count : Z) : outcome (list Z) :=
  assert! negb (CONNS_PER_WORKER env =? 0) in
  let stride := Z.max 1 (owned_count / CONNS_PER_WORKER env) in
  pick_loop (Z.to_nat EPH_LEN) 0 stride 0 [].

End Ports.

(** ** Blocks *)

(** The first and the last byte of connection [i]'s block. *)
(* [lib.rs 1310-1313 worker_thread] *)
Definition block_range (env : build_env) (first_block i : Z) : Z * Z :=
  let block := u64 (first_block + i) in
  let stride := u64 (saturating_sub (OBJECT_SIZE env) (BLOCK_SIZE env) + 1) in
  let start := if stride =? 0 then 0 else u64 (block * BLOCK_SIZE env) mod stride in
  (start, u64 (start + BLOCK_SIZE env - 1)).

(** ** Every [stride]-th *)

Fixpoint every {A} (stride seen : Z) (l : list A) : list A :=
  match l with
  | [] => []
  | x :: l => (if seen mod stride =? 0 then [x] else []) ++ every stride (seen + 1) l
  end.

Lemma every_sublist {A} stride seen (l : list A) : every stride seen l `sublist_of` l.
Proof.
  revert seen; induction l as [|x l IH]; intros seen; cbn [every]; [constructor|].
  destruct (_ =? 0); cbn [app]; constructor; apply IH.
Qed.

Lemma len_every {A} stride seen (l : list A) :
  1 <= stride -> 0 <= seen ->
  len (every stride seen l) = (seen + len l + stride - 1) / stride - (seen + stride - 1) / stride.
Proof.
  intros Hs; revert seen; induction l as [|x l IH]; intros seen Hn; cbn [every].
  { change (len (@nil A)) with 0; rewrite Z.add_0_r; lia. }
  rewrite len_app, IH, len_cons by lia.
  replace (seen + 1 + len l + stride - 1) with (seen + (len l + 1) + stride - 1) by lia.
  assert (Hd : len (if seen mod stride =? 0 then [x] else []) =
    (seen + 1 + stride - 1) / stride - (seen + stride - 1) / stride).
  { pose proof (Z.mod_pos_bound seen stride); pose proof (Z.div_mod seen stride).
    set (q := seen / stride) in *; set (r := seen mod stride) in *.
    assert (E1 : (seen + 1 + stride - 1) / stride = q + 1).
    { symmetry; apply (Z.div_unique_pos _ _ _ r); lia. }
    destruct (Z.eqb_spec r 0) as [E|E].
    - rewrite E1; replace ((seen + stride - 1) / stride) with q; [change (len [x]) with 1; lia|].
      apply (Z.div_unique_pos _ _ _ (stride - 1)); lia.
    - rewrite E1; replace ((seen + stride - 1) / stride) with (q + 1); [change (len (@nil A)) with 0; lia|].
      apply (Z.div_unique_pos _ _ _ (r - 1)); lia. }
  lia.
Qed.

(** Enough of them are left, however many there are. *)
Lemma every_enough {A} (l : list A) (n : Z) :
  1 <= n -> let stride := Z.max 1 (len l / n) in
  Z.min n (len (every stride 0 l)) = Z.min n (len l).
Proof.
  intros Hn stride; pose proof (len_nonneg l).
  rewrite len_every by lia; subst stride; rewrite (Z.div_small (0 + _ - 1)) by lia.
  rewrite Z.add_0_l, Z.sub_0_r; destruct (Z.lt_ge_cases (len l) n).
  - rewrite (Z.div_small (len l) n), Z.max_l by lia; rewrite Z.div_1_r; lia.
  - assert (1 <= len l / n) by (apply Z.div_le_lower_bound; lia).
    rewrite Z.max_r by lia; pose proof (Z.mul_div_le (len l) n).
    assert (n <= (len l + len l / n - 1) / (len l / n)) by (apply Z.div_le_lower_bound; nia).
    lia.
Qed.

(** ** The ports picked *)

Section PortsOk.
Context (env : build_env) (bitmap : list Z).

(** The ports of a range the bitmap owns. *)
Definition owned_in (lo n : Z) : list Z := filter (fun p => owns_port bitmap p = Ret true) (seqZ lo n).

Lemma ztake_cons_pos {A} n (x : A) l : 0 < n -> ztake n (x :: l) = x :: ztake (n - 1) l.
Proof using Type.
  intros Hn; unfold ztake; replace (Z.to_nat n) with (S (Z.to_nat (n - 1))) by lia; done.
Qed.

Lemma pick_loop_ok k i stride seen ports :
  len bitmap = OWNED_BITMAP_BYTES -> 1 <= stride -> 0 <= i -> i + Z.of_nat k <= EPH_LEN -> 0 <= seen ->
  len ports <= CONNS_PER_WORKER env ->
  pick_loop env bitmap k i stride seen ports =
    Ret (ports ++ ztake (CONNS_PER_WORKER env - len ports) (every stride seen (owned_in (EPH_BASE + i) (Z.of_nat k)))).
Proof using Type.
  intros Hbm Hs; revert i seen ports; induction k as [|k IH]; intros i seen ports Hi Hk Hn Hl; cbn [pick_loop].
  { unfold owned_in; rewrite seqZ_nil, filter_nil by lia; cbn [every]; unfold ztake.
    by rewrite take_nil, app_nil_r. }
  destruct (Z.eqb_spec (len ports) (CONNS_PER_WORKER env)) as [E|E].
  { by rewrite E, Z.sub_diag, ztake_0, app_nil_r by lia. }
  unfold EPH_LEN in Hk; rewrite u16_small by lia.
  unfold owned_in; rewrite (seqZ_cons _ (Z.of_nat (S k))) by lia.
  replace (Z.pred (Z.of_nat (S k))) with (Z.of_nat k) by lia.
  replace (Z.succ (EPH_BASE + i)) with (EPH_BASE + (i + 1)) by lia.
  rewrite owns_port_bit by (unfold EPH_LEN; lia || done); cbn [obind].
  destruct (bitmap_bit bitmap (EPH_BASE + i - EPH_BASE)) eqn:Eb.
  - rewrite filter_cons_True by (rewrite owns_port_bit by (unfold EPH_LEN; lia || done); by rewrite Eb).
    cbn [every]; destruct (seen mod stride =? 0); cbn [app].
    + rewrite IH by (unfold EPH_LEN; rewrite ?len_app; change (len [EPH_BASE + i]) with 1; lia).
      rewrite ztake_cons_pos, <-app_assoc, len_app by lia; cbn [app].
      do 4 f_equal; change (len [EPH_BASE + i]) with 1; lia.
    + by rewrite IH by (unfold EPH_LEN; lia).
  - rewrite filter_cons_False by (rewrite owns_port_bit by (unfold EPH_LEN; lia || done); by rewrite Eb).
    by rewrite IH by (unfold EPH_LEN; lia).
Qed.

Lemma seqZ_sorted lo n : StronglySorted Z.lt (seqZ lo n).
Proof using Type.
  destruct (Z.le_ge_cases 0 n) as [Hn|Hn]; [|rewrite seqZ_nil by lia; constructor].
  revert lo; pattern n; apply natlike_ind; [|clear n Hn|done].
  - intros lo; rewrite seqZ_nil by lia; constructor.
  - intros n Hn IH lo; rewrite seqZ_cons by lia; rewrite Z.pred_succ; constructor; [apply IH|].
    apply List.Forall_forall; intros x Hx; apply list_elem_of_In, elem_of_seqZ in Hx; lia.
Qed.

Lemma sorted_sublist (l1 l2 : list Z) : l1 `sublist_of` l2 -> StronglySorted Z.lt l2 -> StronglySorted Z.lt l1.
Proof using Type.
  induction 1 as [|x l1 l2 Hs IH|x l1 l2 Hs IH]; intros H2; [done|..]; apply StronglySorted_inv in H2 as [H2 Hx].
  - constructor; [auto|]; apply List.Forall_forall; intros y Hy; rewrite List.Forall_forall in Hx.
    apply Hx, list_elem_of_In, (elem_of_sublist l1); [by apply list_elem_of_In|done].
  - auto.
Qed.

(** The whole range, from an empty list. *)
Lemma pick_loop_all k stride :
  len bitmap = OWNED_BITMAP_BYTES -> 1 <= stride -> 1 <= CONNS_PER_WORKER env -> Z.of_nat k = EPH_LEN ->
  pick_loop env bitmap k 0 stride 0 [] =
    Ret (ztake (CONNS_PER_WORKER env) (every stride 0 (owned_in EPH_BASE EPH_LEN))).
Proof using Type.
  intros Hb Hs Hc Hk; rewrite pick_loop_ok by (done || lia || (rewrite len_nil; lia)).
  by rewrite Hk, len_nil, Z.sub_0_r, Z.add_0_r.
Qed.

Lemma every_prefix {A} (l : list A) n :
  1 <= n -> let ports := ztake n (every (Z.max 1 (len l / n)) 0 l) in
  ports `sublist_of` l /\ len ports = Z.min n (len l).
Proof using Type.
  intros Hn ports; split.
  - etransitivity; [apply sublist_take|]; apply every_sublist.
  - pose proof (every_enough l n Hn) as H; cbn zeta in H; subst ports.
    rewrite len_ztake; pose proof (len_nonneg (every (Z.max 1 (len l / n)) 0 l)); lia.
Qed.

Lemma owned_in_ports lo n ports :
  ports `sublist_of` owned_in lo n ->
  StronglySorted Z.lt ports /\ forall p, p ∈ ports -> lo <= p < lo + n /\ owns_port bitmap p = Ret true.
Proof using Type.
  intros Hs; split.
  - eapply sorted_sublist, (seqZ_sorted lo n); etransitivity; [exact Hs|]; apply sublist_filter.
  - intros p Hp; pose proof (elem_of_sublist _ _ _ Hp Hs) as [Ho Hr]%list_elem_of_filter.
    apply elem_of_seqZ in Hr; by split.
Qed.

Lemma pick_ports_ok (owned_count : Z) :
  len bitmap = OWNED_BITMAP_BYTES -> 1 <= CONNS_PER_WORKER env -> owned_count = len (owned_in EPH_BASE EPH_LEN) ->
  exists ports, pick_ports env bitmap owned_count = Ret ports /\
    len ports = Z.min (CONNS_PER_WORKER env) owned_count /\
    StronglySorted Z.lt ports /\
    forall p, p ∈ ports -> EPH_BASE <= p < EPH_BASE + EPH_LEN /\ owns_port bitmap p = Ret true.
Proof using Type.
  intros Hb Hc ->; unfold pick_ports; rewrite (proj2 (Z.eqb_neq _ _)) by lia; cbn [negb].
  assert (Hk : Z.of_nat (Z.to_nat EPH_LEN) = EPH_LEN) by (apply Z2Nat.id; unfold EPH_LEN; lia).
  revert Hk; generalize (Z.to_nat EPH_LEN); intros k Hk.
  rewrite pick_loop_all; [|exact Hb|lia|exact Hc|exact Hk]; clear Hk.
  destruct (every_prefix (owned_in EPH_BASE EPH_LEN) (CONNS_PER_WORKER env) Hc) as [Hs Hl].
  destruct (owned_in_ports _ _ _ Hs) as [H1 H2].
  eexists; split; [reflexivity|]; exact (conj Hl (conj H1 H2)).
Qed.

End PortsOk.

#[local] Existing Instance steers_to_dec.

Lemma list_filter_iff_in {A} (P1 P2 : A -> Prop) `{!forall x, Decision (P1 x), !forall x, Decision (P2 x)} (l : list A) :
  (forall x, x ∈ l -> P1 x <-> P2 x) -> filter P1 l = filter P2 l.
Proof.
  induction l as [|x l IH]; intros Hf; [done|].
  assert (IH' : filter P1 l = filter P2 l) by (apply IH; intros y Hy; apply Hf; by right).
  assert (Hx : P1 x <-> P2 x) by (apply Hf; by left).
  destruct (decide (P1 x)).
  - rewrite !filter_cons_True, IH' by tauto; done.
  - rewrite !filter_cons_False, IH' by tauto; done.
Qed.

(** With a loaded configuration, building the bitmap and picking ports from it
    never panics; the worker gets as many ports as it has connections, or all it
    owns when it owns fewer; they are distinct, in increasing order, ephemeral,
    and the return flow of each is predicted on the worker's own queue. *)
Lemma worker_ports (env : build_env) (st : rss_state) (our_ip : list Z) (q : Z) :
  rss_ok st -> len our_ip = 4 -> 1 <= CONNS_PER_WORKER env ->
  exists bitmap count ports,
    build_owned_ports env st our_ip q (zreplicate OWNED_BITMAP_BYTES 0) = Ret (bitmap, count) /\
    pick_ports env bitmap count = Ret ports /\
    len bitmap = OWNED_BITMAP_BYTES /\ len ports = Z.min (CONNS_PER_WORKER env) count /\ StronglySorted Z.lt ports /\
    forall p, p ∈ ports ->
      EPH_BASE <= p < EPH_BASE + EPH_LEN /\ predict_queue st (flow_tuple env our_ip p) = Ret q.
Proof.
  intros Hst Hip Hc; pose proof (len_TARGET_IP env) as Ht.
  destruct (build_owned_ports_inv env st our_ip Hst Hip Ht q) as (bitmap & count & Hb & Hlen & Hbits & Hcount & _).
  cbn [fst snd] in *.
  assert (Howned : forall p, EPH_BASE <= p < EPH_BASE + EPH_LEN ->
    owns_port bitmap p = Ret (bool_decide (steers_to env st our_ip q p))).
  { intros p Hp; rewrite owns_port_bit, Hbits, (proj2 (Z.ltb_lt _ _)) by (done || lia); cbn [andb].
    by replace (EPH_BASE + (p - EPH_BASE)) with p by lia. }
  destruct (pick_ports_ok env bitmap count Hlen Hc) as (ports & Hp & Hl & Hs & Hin).
  { rewrite Hcount; f_equal; apply list_filter_iff_in; intros p Hp%elem_of_seqZ.
    rewrite Howned by lia; split; [intros H; by rewrite bool_decide_eq_true_2|].
    by intros [= H%bool_decide_eq_true]. }
  exists bitmap, count, ports; split_and!; try done; intros p Hp'; destruct (Hin p Hp') as [Hr Ho].
  split; [done|]; rewrite <-queue_for_local_port_predict by done; rewrite Howned in Ho by done.
  by injection Ho as Ho%bool_decide_eq_true.
Qed.

(** However the block lies, [BLOCK_SIZE] bytes are asked for. *)
Lemma block_range_size env first i :
  let '(start, stop) := block_range env first i in u64 (stop - start + 1) = BLOCK_SIZE env.
Proof.
  pose proof (BLOCK_SIZE_range env) as Hb; unfold block_range; cbn zeta.
  match goal with |- context [if ?b then _ else _] => generalize (if b then 0 else u64 (u64 (first + i) * BLOCK_SIZE env) mod u64 (saturating_sub (OBJECT_SIZE env) (BLOCK_SIZE env) + 1)) end.
  intros st; unfold u64; unfold in_u64 in Hb.
  replace ((st + BLOCK_SIZE env - 1) mod M64 - st + 1) with ((st + BLOCK_SIZE env - 1) mod M64 + (1 - st)) by lia.
  rewrite Zplus_mod_idemp_l, Z.mod_small; lia.
Qed.

(** ** The blocks asked for *)

Section Blocks.
Context (env : build_env).
Context (Hb : 0 < BLOCK_SIZE env) (Ho : BLOCK_SIZE env <= OBJECT_SIZE env) (Hm : OBJECT_SIZE env < M64).

(** Where block number [b] starts. *)
Definition block_start (b : Z) : Z := (b * BLOCK_SIZE env) mod (OBJECT_SIZE env - BLOCK_SIZE env + 1).

Lemma block_range_start first i :
  0 <= first -> 0 <= i -> (first + i) * BLOCK_SIZE env < M64 ->
  block_range env first i = (block_start (first + i), block_start (first + i) + BLOCK_SIZE env - 1).
Proof using Hb Ho Hm.
  intros Hf Hi Hlt; unfold block_range, block_start, saturating_sub.
  assert (first + i < M64) by nia.
  rewrite (u64_small (first + i)), (u64_small (_ * _)) by nia.
  rewrite Z.max_r, (u64_small (_ + 1)) by lia.
  rewrite (proj2 (Z.eqb_neq _ _)) by lia; f_equal; apply u64_small.
  pose proof (Z.mod_pos_bound ((first + i) * BLOCK_SIZE env) (OBJECT_SIZE env - BLOCK_SIZE env + 1)); lia.
Qed.

Lemma block_start_range b : 0 <= block_start b <= OBJECT_SIZE env - BLOCK_SIZE env.
Proof using Hb Ho Hm.
  unfold block_start; pose proof (Z.mod_pos_bound (b * BLOCK_SIZE env) (OBJECT_SIZE env - BLOCK_SIZE env + 1)); lia.
Qed.

(** Before the first wrap the blocks are laid out one after the other. *)
Lemma block_start_linear b :
  0 <= b -> (b + 1) * BLOCK_SIZE env <= OBJECT_SIZE env -> block_start b = b * BLOCK_SIZE env.
Proof using Hb Ho Hm. intros; unfold block_start; apply Z.mod_small; nia. Qed.

(** The block size and the number of starts have no common divisor when the
    object is a whole number of blocks. *)
Lemma block_start_inj b1 b2 :
  (BLOCK_SIZE env | OBJECT_SIZE env) -> 0 <= b1 -> b1 < b2 -> b2 - b1 <= OBJECT_SIZE env - BLOCK_SIZE env ->
  block_start b1 <> block_start b2.
Proof using Hb Ho Hm.
  intros [k Hk] H1 H2 H3 E; unfold block_start in E; set (m := OBJECT_SIZE env - BLOCK_SIZE env + 1) in *.
  assert (Hdiv : (m | (b2 - b1) * BLOCK_SIZE env)).
  { apply Z.mod_divide; [lia|]; replace ((b2 - b1) * BLOCK_SIZE env) with (b2 * BLOCK_SIZE env - b1 * BLOCK_SIZE env) by lia.
    by rewrite Zminus_mod, E, Z.sub_diag. }
  assert (Hg : Z.gcd m (BLOCK_SIZE env) = 1).
  { apply Z.bezout_1_gcd; exists 1, (1 - k); subst m; rewrite Hk; ring. }
  rewrite Z.mul_comm in Hdiv; apply Z.gauss in Hdiv; [|done].
  apply Z.divide_pos_le in Hdiv; lia.
Qed.

End Blocks.

(** C23: the blocks of the run.  For an object of at least one block, each
    connection asks for exactly one block inside the object; the blocks of the
    run are laid out one after the other and do not overlap as long as they fit
    the object; past its end they wrap, and in an object of a whole number of
    blocks no two of them start at the same offset, up to as many blocks as
    there are offsets. *)
Theorem blocks_of_the_run (env : build_env) (first1 i1 first2 i2 : Z) :
  0 < BLOCK_SIZE env -> BLOCK_SIZE env <= OBJECT_SIZE env -> OBJECT_SIZE env < M64 ->
  0 <= first1 -> 0 <= i1 -> 0 <= first2 -> 0 <= i2 -> first1 + i1 < first2 + i2 ->
  (first2 + i2) * BLOCK_SIZE env < M64 ->
  let '(s1, e1) := block_range env first1 i1 in
  let '(s2, e2) := block_range env first2 i2 in
  (0 <= s1 /\ e1 < OBJECT_SIZE env /\ e1 - s1 + 1 = BLOCK_SIZE env) /\
  (0 <= s2 /\ e2 < OBJECT_SIZE env /\ e2 - s2 + 1 = BLOCK_SIZE env) /\
  ((first2 + i2 + 1) * BLOCK_SIZE env <= OBJECT_SIZE env -> s1 = (first1 + i1) * BLOCK_SIZE env /\ e1 < s2) /\
  ((BLOCK_SIZE env | OBJECT_SIZE env) ->
   first2 + i2 - (first1 + i1) <= OBJECT_SIZE env - BLOCK_SIZE env -> s1 <> s2).
Proof.
  intros Hb Ho Hm H1 H2 H3 H4 Hlt Hw.
  rewrite !block_range_start by (done || nia).
  pose proof (block_start_range env Hb Ho Hm (first1 + i1)); pose proof (block_start_range env Hb Ho Hm (first2 + i2)).
  split; [lia|]; split; [lia|]; split.
  - intros Hfit; rewrite !(block_start_linear env Hb Ho Hm) by nia; nia.
  - intros Hd Hn; apply (block_start_inj env Hb Ho Hm); lia || done.
Qed.

(** ** The default plan *)

(** 10 GiB in blocks of 64 MiB: worker 3's connection 5 and worker 7's 23. *)
Lemma blocks_of_the_run_witness :
  block_range example_env 72 5 = (77 * 67108864, 78 * 67108864 - 1) /\
  fst (block_range example_env 72 5) <> fst (block_range example_env 168 23).
Proof.
  pose proof (blocks_of_the_run example_env 72 5 168 23) as H.
  destruct (block_range example_env 72 5) as [s1 e1] eqn:E1, (block_range example_env 168 23) as [s2 e2] eqn:E2.
  destruct H as (_ & _ & _ & H); try (vm_compute; congruence).
  vm_compute in E1, E2; injection E1 as <- <-; injection E2 as <- <-; split; [reflexivity|].
  apply H; [exists 160; reflexivity|vm_compute; congruence].
Defined.
