(* ===== verification/Worker.v ===== *)
(** A worker (src/bench/smoltcp-s3/src/lib.rs, [WorkerCtx] and
    [worker_thread]): its device, interface and sockets, the connections it
    opens, the loop that drives them until all are done, and what it reports.
    smoltcp's [Interface::poll] is reached through the class [NetIface]. *)

From Stdlib Require Import ZArith Lia ZifyBool.
From stdpp Require Import base list numbers.
From S2P Require Import Prelude AppConfig Rss Device Http Arp Assembler RingBuffer Time TcpWire TcpTimer Iface.
From S2P Require Import TcpState TcpSocket TcpProcess TcpDispatch TcpInv TcpConnection Conn Network Plan.

(** ** What a worker is given, and what it leaves *)

(** The pool, a pointer, only goes to the driver.  The five counters are what
    the worker stores when it has finished. *)
(* [lib.rs 1191-1208 WorkerCtx] *)
Record worker_ctx : Type := {
  ctx_queue_id : Z;
  ctx_pool : Z;
  ctx_mac : list Z;
  ctx_ip : ip_address;
  ctx_prefix_len : Z;
  ctx_gateway_ip : ip_address;
  ctx_gateway_mac : list Z;
  first_block : Z;
  ctx_bytes_received : Z;
  ctx_elapsed_ns : Z;
  bytes_expected : Z;
  conns_total : Z;
  conns_clean : Z;
}.

(** What a worker prints itself. *)
Variant worker_message : Type :=
| InvalidServerName
| FewPorts (queue ports conns : Z)
| UsingPorts (queue owned eph used : Z)
| ConnectRejected (queue i : Z)
| TlsNewFailed
| Unclean (queue port received expected : Z).

(** ** The socket set *)

Abbreviation socket_set := (list (option socket)).

(** A set of fixed size: the first free slot, or a panic. *)
(* [iface/socket_set.rs 59-91 SocketSet::add] *)
Fixpoint sockets_add (i : Z) (ss : socket_set) (s : socket) : outcome (Z * socket_set) :=
  match ss with
  | [] => Panic
  | None :: rest => Ret (i, Some s :: rest)
  | Some x :: rest => let! (h, rest) := sockets_add (i + 1) rest s in Ret (h, Some x :: rest)
  end.

(* [iface/socket_set.rs 112-119 SocketSet::get_mut] *)
Definition sockets_get (ss : socket_set) (h : Z) : outcome socket :=
  let! slot := index ss h in
  match slot with Some s => Ret s | None => Panic end.

(** What is written through the reference [get_mut] answers. *)
Definition sockets_set (ss : socket_set) (h : Z) (s : socket) : outcome socket_set := store ss h (Some s).

(** ** The interface *)

(** [world] is the NIC with the interface's caches and routes.  [poll] receives
    and transmits; it changes the context (its clock and its generator), the
    device, the world and the sockets.  Its loops have fuel, and it answers
    [None] when that is out.  [world_start] is given the card's address and the
    gateway's. *)
Class NetIface : Type := {
  world : Type;
  world_start : list Z -> ip_address -> world;
  poll : nat -> instant -> context -> dpdk_device -> world -> socket_set ->
         outcome (option (context * dpdk_device * world * socket_set));
}.

(** Drawing until the identification is not zero; [None] when [fuel] is out. *)
(* [iface/interface/mod.rs 242-247 Interface::new] *)
Fixpoint draw_ipv4_id (fuel : nat) (r : rand) : option rand :=
  match fuel with
  | O => None
  | S fuel => let '(id, r) := rand_u16 r in if negb (id =? 0) then Some r else draw_ipv4_id fuel r
  end.

(* [lib.rs 763-770 DpdkDevice::capabilities] the MTU. *)
Definition capabilities : Z := MTU.

(** The seed of the default configuration is 0. *)
(* [iface/interface/mod.rs 207-290 Interface::new] the parts a socket reaches. *)
Definition interface_new (fuel : nat) (now : instant) : option context :=
  match draw_ipv4_id fuel 0 with
  | None => None
  | Some r => Some {| cx_now := now; max_transmission_unit := capabilities; any_ip := false;
                      ip_addrs := []; cx_rand := r |}
  end.

(** The closure pushes one address, and the list holds two; the routine panics
    on an address that is neither unicast nor unspecified. *)
(* [iface/interface/mod.rs 386-399 Interface::update_ip_addrs] *)
Definition update_ip_addrs (c : cidr) (cx : context) : outcome context :=
  let addrs := if len (ip_addrs cx) <? 2 then ip_addrs cx ++ [c] else ip_addrs cx in
  assert! forallb (fun c => is_unicast (cidr_addr c) || is_unspecified (cidr_addr c)) addrs in
  Ret {| cx_now := cx_now cx; max_transmission_unit := max_transmission_unit cx;
         any_ip := any_ip cx; ip_addrs := addrs; cx_rand := cx_rand cx |}.

(** ** The worker's state while it runs *)

(** [ticks] counts the readings of the clock. *)
Record worker `{Tls} `{NetIface} : Type := {
  wk_cx : context;
  wk_dev : dpdk_device;
  wk_world : world;
  wk_sockets : socket_set;
  wk_conns : list conn;
  wk_stats : stats;
  wk_log : list worker_message;
  wk_ticks : nat;
}.

Section Worker.
Context (env : build_env) (rss : rss_state) `{Tls} `{NetIface}.
(** The clock's readings, and what the other workers do to the shared counters
    before each of them. *)
Context (time_ns : nat -> Z) (others : nat -> stats -> stats).
(** Whether [TARGET_SNI] is a valid name, and the session of each connection. *)
Context (server_name_ok : bool) (client_new : Z -> result session tls_error).
Context (ctx : worker_ctx).

(** *** Setting up *)

(* [lib.rs 1215-1215 worker_thread] *)
Definition worker_clock : mono_clock := clock_new (time_ns 0%nat).

(* [lib.rs 1227-1237 worker_thread] *)
Definition worker_device (owned : list Z) : outcome dpdk_device :=
  let! synth := build_arp_reply (ctx_gateway_mac ctx) (ctx_gateway_ip ctx) (ctx_mac ctx) (ctx_ip ctx) in
  Ret {| pending_synth := Some synth; owned_ports := Some owned;
         rx_pref_handles := zreplicate RX_BURST 0; rx_pref_data := zreplicate RX_BURST [];
         rx_pref_lens := zreplicate RX_BURST 0; rx_pref_pos := 0; rx_pref_len := 0 |}.

(* [lib.rs 1238-1241 worker_thread] *)
Definition worker_interface (fuel : nat) : outcome (option context) :=
  match interface_new fuel (instant_from_millis (elapsed_ms worker_clock (time_ns 1%nat))) with
  | None => Ret None
  | Some cx =>
      let! c := cidr_new (ctx_ip ctx) (ctx_prefix_len ctx) in
      let! cx := update_ip_addrs c cx in
      Ret (Some cx)
  end.

(* [lib.rs 1256-1261 worker_thread] *)
Definition worker_socket : outcome socket :=
  let! s := new_socket (rb_new (zreplicate (4 * 1024 * 1024) 0)) (rb_new (zreplicate (32 * 1024) 0)) in
  Ret (set_ack_delay None s).

(* [lib.rs 1255-1263 worker_thread] *)
Fixpoint add_sockets (k : nat) (ss : socket_set) (handles : list Z) : outcome (socket_set * list Z) :=
  match k with
  | O => Ret (ss, handles)
  | S k =>
      let! s := worker_socket in
      let! (h, ss) := sockets_add 0 ss s in
      add_sockets k ss (handles ++ [h])
  end.

(** *** Opening the connections *)

Definition say (m : worker_message) (w : worker) : worker :=
  {| wk_cx := wk_cx w; wk_dev := wk_dev w; wk_world := wk_world w; wk_sockets := wk_sockets w;
     wk_conns := wk_conns w; wk_stats := wk_stats w; wk_log := wk_log w ++ [m]; wk_ticks := wk_ticks w |}.

Definition with_socket (cx : context) (ss : socket_set) (w : worker) : worker :=
  {| wk_cx := cx; wk_dev := wk_dev w; wk_world := wk_world w; wk_sockets := ss;
     wk_conns := wk_conns w; wk_stats := wk_stats w; wk_log := wk_log w; wk_ticks := wk_ticks w |}.

(** Two readings of the clock go into a new connection. *)
Definition push_conn (c : conn) (w : worker) : worker :=
  {| wk_cx := wk_cx w; wk_dev := wk_dev w; wk_world := wk_world w; wk_sockets := wk_sockets w;
     wk_conns := wk_conns w ++ [c]; wk_stats := wk_stats w; wk_log := wk_log w; wk_ticks := S (S (wk_ticks w)) |}.

(* [lib.rs 987-990 FAULT_ABANDON_CONNS] *)
Definition FAULT_ABANDON_CONNS : Z := 0.

(* [lib.rs 1333-1355 worker_thread] *)
Definition new_conn (h : Z) (session : option session) (req : list Z) (port first last : Z) (t : nat) : conn :=
  {| handle := h; tls := session; incoming := []; outgoing := []; request := req; request_queued := false;
     handshake_done := false; http := http_init; done := false;
     connect_start_ms := elapsed_ms worker_clock (time_ns t); queue_id := ctx_queue_id ctx; src_port := port;
     expected := u64 (last - first + 1); closed_cleanly := false; attempts := 1; settled := false;
     start_ms := elapsed_ms worker_clock (time_ns (S t)) |}.

(** One round: [true] when the worker returns. *)
(* [lib.rs 1307-1356 worker_thread] *)
Definition open_conn (my_ports handles : list Z) (i : Z) (w : worker) : outcome (worker * bool) :=
  let '(first, last) := block_range env (first_block ctx) i in
  let! src_port := index my_ports i in
  let! h := index handles i in
  let! s := sockets_get (wk_sockets w) h in
  let remote := {| ep_addr := TARGET_IP env; ep_port := TARGET_PORT env |} in
  let '(r, s, cx) := connect (wk_cx w) remote {| lep_addr := None; lep_port := src_port |} s in
  let! ss := sockets_set (wk_sockets w) h s in
  let w := with_socket cx ss w in
  match r with
  | Err _ => Ret (say (ConnectRejected (ctx_queue_id ctx) i) w, false)
  | Ok _ =>
      let! (buf, n) := build_range_request env (zreplicate 384 0) first last in
      match (if PLAIN_HTTP env then Ok None
             else match client_new i with Ok c => Ok (Some c) | Err e => Err e end) with
      | Err _ => Ret (say TlsNewFailed w, true)
      | Ok session =>
          let! req := slice buf 0 n in
          Ret (push_conn (new_conn h session req src_port first last (wk_ticks w)) w, false)
      end
  end.

(* [lib.rs 1306-1356 worker_thread] *)
Fixpoint open_conns (my_ports handles : list Z) (k : nat) (i : Z) (w : worker) : outcome (worker * bool) :=
  match k with
  | O => Ret (w, false)
  | S k =>
      let! (w, returns) := open_conn my_ports handles i w in
      if returns : bool then Ret (w, true) else open_conns my_ports handles k (i + 1) w
  end.

(** Everything before the loop; [true] when the worker returns. *)
(* [lib.rs 1213-1356 worker_thread] *)
Definition worker_setup (fuel : nat) (g : stats) : outcome (option (worker * bool)) :=
  let! (owned, owned_count) :=
    build_owned_ports env rss (ctx_ip ctx) (ctx_queue_id ctx) (zreplicate OWNED_BITMAP_BYTES 0) in
  let! dev := worker_device owned in
  let! cx := worker_interface fuel in
  match cx with
  | None => Ret None
  | Some cx =>
      let! (ss, handles) :=
        add_sockets (Z.to_nat (CONNS_PER_WORKER env)) (zreplicate (CONNS_PER_WORKER env) None) [] in
      let w := {| wk_cx := cx; wk_dev := dev; wk_world := world_start (ctx_mac ctx) (ctx_gateway_ip ctx); wk_sockets := ss;
                  wk_conns := []; wk_stats := g; wk_log := []; wk_ticks := 2 |} in
      if negb server_name_ok then Ret (Some (say InvalidServerName w, true))
      else
        let! my_ports := pick_ports env owned owned_count in
        let w := if len my_ports <? CONNS_PER_WORKER env
                 then say (FewPorts (ctx_queue_id ctx) (len my_ports) (CONNS_PER_WORKER env)) w else w in
        let w := say (UsingPorts (ctx_queue_id ctx) owned_count EPH_LEN (len my_ports)) w in
        let n_conns := Z.min (CONNS_PER_WORKER env) (len my_ports) in
        let! r := open_conns my_ports handles (Z.to_nat (saturating_sub n_conns FAULT_ABANDON_CONNS)) 0 w in
        Ret (Some r)
  end.

(** *** The loop *)

(** One connection's turn: the clock is read only if it is not done. *)
Definition turn (fuel : nat) (c : conn) (ss : socket_set) (g : stats) (t : nat)
  : outcome (option (conn * socket_set * stats * nat * bool)) :=
  if done c then Ret (Some (c, ss, g, t, true))
  else
    let! s := sockets_get ss (handle c) in
    let! r := conn_step env fuel (elapsed_ms worker_clock (time_ns t)) c s (others t g) in
    match r with
    | None => Ret None
    | Some (c, s, g, d) => let! ss := sockets_set ss (handle c) s in Ret (Some (c, ss, g, S t, d))
    end.

(* [lib.rs 1362-1366 worker_thread] *)
Fixpoint turns (fuel : nat) (conns : list conn) (ss : socket_set) (g : stats) (t : nat) (all_done : bool)
  : outcome (option (list conn * socket_set * stats * nat * bool)) :=
  match conns with
  | [] => Ret (Some ([], ss, g, t, all_done))
  | c :: conns =>
      let! r := turn fuel c ss g t in
      match r with
      | None => Ret None
      | Some (c, ss, g, t, d) =>
          let all_done := if negb d then false else all_done in
          let! r := turns fuel conns ss g t all_done in
          match r with
          | None => Ret None
          | Some (conns, ss, g, t, all_done) => Ret (Some (c :: conns, ss, g, t, all_done))
          end
      end
  end.

(** One round, and whether it was the last. *)
(* [lib.rs 1360-1371 worker_thread] *)
Definition round (fuel : nat) (w : worker) : outcome (option (worker * bool)) :=
  let now_ms := elapsed_ms worker_clock (time_ns (wk_ticks w)) in
  let! p := poll fuel (instant_from_millis now_ms) (wk_cx w) (wk_dev w) (wk_world w) (wk_sockets w) in
  match p with
  | None => Ret None
  | Some (cx, dev, wd, ss) =>
      let! r := turns fuel (wk_conns w) ss (wk_stats w) (S (wk_ticks w)) true in
      match r with
      | None => Ret None
      | Some (conns, ss, g, t, all_done) =>
          Ret (Some ({| wk_cx := cx; wk_dev := dev; wk_world := wd; wk_sockets := ss; wk_conns := conns;
                        wk_stats := g; wk_log := wk_log w; wk_ticks := t |}, all_done))
      end
  end.

(** [None] when [rounds] or [fuel] has run out. *)
(* [lib.rs 1359-1372 worker_thread] *)
Fixpoint worker_loop (rounds fuel : nat) (w : worker) : outcome (option worker) :=
  match rounds with
  | O => Ret None
  | S rounds =>
      let! r := round fuel w in
      match r with
      | None => Ret None
      | Some (w, all_done) => if all_done : bool then Ret (Some w) else worker_loop rounds fuel w
      end
  end.

(** *** The report *)

Definition total_by (wrap : Z -> Z) (f : conn -> Z) (conns : list conn) : Z :=
  fold_left (fun n c => wrap (n + f c)) conns 0.

(* [lib.rs 1373-1380 worker_thread] *)
Definition worker_results (start_ns end_ns : Z) (conns : list conn) : worker_ctx :=
  {| ctx_queue_id := ctx_queue_id ctx; ctx_pool := ctx_pool ctx; ctx_mac := ctx_mac ctx; ctx_ip := ctx_ip ctx;
     ctx_prefix_len := ctx_prefix_len ctx; ctx_gateway_ip := ctx_gateway_ip ctx;
     ctx_gateway_mac := ctx_gateway_mac ctx; first_block := first_block ctx;
     ctx_bytes_received := total_by usize (fun c => bytes_received (http c)) conns;
     ctx_elapsed_ns := saturating_sub end_ns start_ns;
     bytes_expected := total_by u64 expected conns;
     conns_total := len conns;
     conns_clean := len (List.filter closed_cleanly conns) |}.

(* [lib.rs 1384-1389 worker_thread] *)
Definition unclean_report (conns : list conn) : list worker_message :=
  map (fun c => Unclean (ctx_queue_id ctx) (src_port c) (bytes_received (http c)) (expected c))
      (List.filter (fun c => negb (closed_cleanly c)) conns).

(** From the start of the clock to the end of the thread. *)
(* [lib.rs 1358-1390 worker_thread] *)
Definition worker_run (rounds fuel : nat) (w : worker) : outcome (option (worker_ctx * worker)) :=
  let start_ns := elapsed_ns worker_clock (time_ns (wk_ticks w)) in
  let w := {| wk_cx := wk_cx w; wk_dev := wk_dev w; wk_world := wk_world w; wk_sockets := wk_sockets w;
              wk_conns := wk_conns w; wk_stats := wk_stats w; wk_log := wk_log w; wk_ticks := S (wk_ticks w) |} in
  let! r := worker_loop rounds fuel w in
  match r with
  | None => Ret None
  | Some w =>
      let end_ns := elapsed_ns worker_clock (time_ns (wk_ticks w)) in
      let report := unclean_report (wk_conns w) in
      Ret (Some (worker_results start_ns end_ns (wk_conns w),
                 {| wk_cx := wk_cx w; wk_dev := wk_dev w; wk_world := wk_world w;
                    wk_sockets := wk_sockets w; wk_conns := wk_conns w; wk_stats := wk_stats w;
                    wk_log := wk_log w ++ report; wk_ticks := S (wk_ticks w) |}))
  end.

(** The whole thread: the context it leaves, the counters, and the console.
    When it returns early the context is as it was. *)
(* [lib.rs 1213-1390 worker_thread] *)
Definition worker_thread (rounds fuel : nat) (g : stats) : outcome (option (worker_ctx * worker)) :=
  let! r := worker_setup fuel g in
  match r with
  | None => Ret None
  | Some (w, true) => Ret (Some (ctx, w))
  | Some (w, false) => worker_run rounds fuel w
  end.

End Worker.
