(* ===== verification/NetEvents.v ===== *)
(** What smoltcp's interface promises a worker about its sockets: [poll]
    changes them only through what [process] does to an accepted segment and
    what [dispatch] does when the device takes or refuses a packet.  An
    interface that plays a script of such events keeps the promise. *)

From Stdlib Require Import ZArith Lia ZifyBool.
From stdpp Require Import base list numbers relations.
From S2P Require Import Prelude AppConfig Rss Device Http Arp Assembler RingBuffer Time TcpWire TcpTimer Iface.
From S2P Require Import TcpState TcpSocket TcpProcess TcpDispatch TcpInv TcpConnection Conn ConnPlain Network Plan.
From S2P Require Import Worker.

(** ** The promise *)

Definition net_step (s s' : socket) : Prop :=
  exists e got took, network e = true /\ conn_event s e = Ret (s', got, took).

Variant slot_touched : option socket -> option socket -> Prop :=
| free_untouched : slot_touched None None
| used_touched s s' : rtc net_step s s' -> slot_touched (Some s) (Some s').

Definition touched : socket_set -> socket_set -> Prop := Forall2 slot_touched.

Class NetIfaceLaws `{NetIface} : Prop := {
  poll_touches : forall fuel now cx dev w ss cx' dev' w' ss',
    poll fuel now cx dev w ss = Ret (Some (cx', dev', w', ss')) -> touched ss ss';
}.

(** ** Socket sets *)

#[export] Instance slot_touched_refl : Reflexive slot_touched.
Proof. intros [s|]; constructor; reflexivity. Qed.

#[export] Instance slot_touched_trans : Transitive slot_touched.
Proof.
  intros x y z Hxy Hyz; destruct Hxy as [|s s' H]; inversion Hyz as [|? s'' H']; subst; constructor.
  by transitivity s'.
Qed.

#[export] Instance touched_refl : Reflexive touched.
Proof. intros ss; induction ss; constructor; [reflexivity|done]. Qed.

#[export] Instance touched_trans : Transitive touched.
Proof.
  intros x y z Hxy; revert z; induction Hxy as [|a b l k Hab _ IH]; intros z Hz; inversion Hz; subst; constructor.
  - by transitivity b.
  - by apply IH.
Qed.

Lemma touched_len ss ss' : touched ss ss' -> len ss' = len ss.
Proof. intros H; unfold len; by rewrite (Forall2_length _ _ _ H). Qed.

Lemma sockets_get_iff ss h s : sockets_get ss h = Ret s <-> zget ss h = Some (Some s).
Proof.
  unfold sockets_get; split.
  - destruct (index ss h) as [[x|]|] eqn:E; cbn [obind]; try done; intros [= ->]; by apply index_zget.
  - intros Hz; unfold zget in Hz; destruct (Z.ltb_spec h 0); [done|].
    by rewrite (index_ret ss h (Some s)) by (lia || done).
Qed.

Lemma sockets_set_inv ss h s ss' : sockets_set ss h s = Ret ss' ->
  0 <= h < len ss /\ ss' = <[Z.to_nat h := Some s]> ss.
Proof.
  unfold sockets_set, store; destruct (_ && _) eqn:E; [|done]; intros [= <-]; split; [|done]; lia.
Qed.

(** A connection that has socket [h] to itself. *)
Lemma sockets_set_other ss h s ss' j :
  sockets_set ss h s = Ret ss' -> zget ss' j = if j =? h then Some (Some s) else zget ss j.
Proof. intros [Hh ->]%sockets_set_inv; by apply zget_insert. Qed.

Lemma touched_get ss ss' h s : touched ss ss' -> zget ss h = Some (Some s) ->
  exists s', zget ss' h = Some (Some s') /\ rtc net_step s s'.
Proof.
  unfold zget; destruct (h <? 0); [done|]; intros Ht Hs.
  destruct (Forall2_lookup_l _ _ _ _ _ Ht Hs) as (y & Hy & Ho); inversion Ho as [|? s' Hr]; subst; by exists s'.
Qed.

Lemma touched_set ss h s s' ss' :
  zget ss h = Some (Some s) -> rtc net_step s s' -> sockets_set ss h s' = Ret ss' -> touched ss ss'.
Proof.
  intros Hs Hr [Hh ->]%sockets_set_inv; apply Forall2_same_length_lookup; split; [by rewrite length_insert|].
  intros i x y Hx Hy; unfold zget in Hs; rewrite (proj2 (Z.ltb_ge _ _)) in Hs by lia.
  destruct (decide (i = Z.to_nat h)) as [->|Hne].
  - rewrite list_lookup_insert_eq in Hy by (unfold len in Hh; lia).
    rewrite Hs in Hx; simplify_eq; by constructor.
  - rewrite list_lookup_insert_ne in Hy by done; simplify_eq; reflexivity.
Qed.

(** ** A script of events *)

Definition script : Type := list (list (Z * event)).

(** Events of the user are not the network's, and are skipped. *)
Fixpoint play (evs : list (Z * event)) (ss : socket_set) : outcome socket_set :=
  match evs with
  | [] => Ret ss
  | (h, e) :: evs =>
      let! s := sockets_get ss h in
      let! ss := if network e then let! (s, _, _) := conn_event s e in sockets_set ss h s else Ret ss in
      play evs ss
  end.

Definition play_poll (fuel : nat) (now : instant) (cx : context) (dev : dpdk_device) (w : script) (ss : socket_set)
  : outcome (option (context * dpdk_device * script * socket_set)) :=
  match w with
  | [] => Ret (Some (cx, dev, [], ss))
  | evs :: w => let! ss := play evs ss in Ret (Some (cx, dev, w, ss))
  end.

Lemma play_touches evs ss ss' : play evs ss = Ret ss' -> touched ss ss'.
Proof.
  revert ss; induction evs as [|[h e] evs IH]; intros ss; cbn [play]; [by intros [= <-]|].
  destruct (sockets_get ss h) as [s|] eqn:Eg; cbn [obind]; [|done].
  destruct (network e) eqn:En; cbn [obind]; [|apply IH].
  destruct (conn_event s e) as [[[s' got] took]|] eqn:Ee; cbn [obind]; [|done].
  destruct (sockets_set ss h s') as [ss1|] eqn:Es; cbn [obind]; [|done].
  intros H; transitivity ss1; [|by apply IH].
  eapply touched_set; [by apply sockets_get_iff|apply rtc_once; by exists e, got, took|exact Es].
Qed.

Section Script.
Context (start : script).

#[export] Instance scripted : NetIface :=
  {| world := script; world_start := fun _ _ => start; poll := play_poll |}.

#[export] Instance scripted_laws : NetIfaceLaws.
Proof.
  split; intros fuel now cx dev [|evs w] ss cx' dev' w' ss'; cbn [poll scripted play_poll].
  - by intros [= <- <- <- <-].
  - destruct (play evs ss) as [ss1|] eqn:E; cbn [obind]; [|done]; intros [= <- <- <- <-]; by eapply play_touches.
Qed.

End Script.
