(* ===== verification/WorkerOpen.v ===== *)
(** What a worker sets up before its loop: its interface, its sockets, and one
    connection for each port it picked, every one asking for its own block. *)

From Stdlib Require Import ZArith Lia ZifyBool Sorting.Sorted.
From stdpp Require Import base list list_numbers numbers.
From S2P Require Import Prelude AppConfig Rss Device Http Arp Assembler RingBuffer Time TcpWire TcpTimer Iface.
From S2P Require Import TcpState TcpSocket TcpProcess TcpDispatch TcpInv TcpConnection TcpHandshake.
From S2P Require Import Conn ConnPlain Network Plan Worker NetEvents.

(** ** Sockets *)

Lemma zreplicate_buffer_ok n : 0 <= n <= 1073741824 -> buffer_ok (rb_new (zreplicate n 0)).
Proof.
  intros Hn; unfold buffer_ok, rb_inv, capacity, rb_new; cbn [storage read_at rb_length].
  rewrite len_zreplicate; lia.
Qed.

(** A socket ready to connect. *)
Record idle_socket (s : socket) : Prop := {
  id_ok : sock_ok s;
  id_state : state s = Closed;
  id_timeout : timeout s = None;
  id_keep_alive : keep_alive s = None;
}.

Lemma worker_socket_ok : exists s, worker_socket = Ret s /\ idle_socket s.
Proof.
  unfold worker_socket.
  destruct (new_socket_ok (rb_new (zreplicate (4 * 1024 * 1024) 0)) (rb_new (zreplicate (32 * 1024) 0)))
    as (s & -> & Hok & H1 & _ & _ & H2 & H3); [apply zreplicate_buffer_ok; lia..|].
  cbn [obind]; eexists; split; [reflexivity|]; split; [by destruct Hok|exact H1|exact H2|exact H3].
Qed.

Lemma sockets_add_free k l rest s : 0 <= k ->
  sockets_add k (map Some l ++ None :: rest) s = Ret (k + len l, map Some (l ++ [s]) ++ rest).
Proof.
  revert k; induction l as [|x l IH]; intros k Hk; cbn [map app sockets_add].
  - by rewrite len_nil, Z.add_0_r.
  - rewrite (IH (k + 1)) by lia; cbn [obind]; rewrite len_cons; do 2 f_equal; lia.
Qed.

Lemma add_sockets_ok s k l handles :
  worker_socket = Ret s ->
  add_sockets k (map Some l ++ replicate k None) handles =
    Ret (map Some (l ++ replicate k s), handles ++ seqZ (len l) (Z.of_nat k)).
Proof.
  intros Hs; revert l handles; induction k as [|k IH]; intros l handles.
  { rewrite seqZ_nil by lia; cbn [replicate add_sockets]; by rewrite !app_nil_r. }
  cbn [add_sockets replicate]; rewrite Hs; cbn [obind].
  rewrite sockets_add_free by lia; cbn [obind]; rewrite IH, <-!app_assoc.
  do 3 f_equal; rewrite (seqZ_cons (len l)) by lia; cbn [app]; rewrite len_app, Z.add_0_l.
  replace (len l + len [s]) with (Z.succ (len l)) by (change (len [s]) with 1; lia).
  by replace (Z.pred (Z.of_nat (S k))) with (Z.of_nat k) by lia.
Qed.

(** ** The interface *)

Section Open.
Context (env : build_env) (rss : rss_state) `{Tls} `{NetIface} (time_ns : nat -> Z).
Context (server_name_ok : bool) (client_new : Z -> result session tls_error) (ctx : worker_ctx).

(** An interface with the worker's address and nothing else. *)
Definition has_address (cx : context) : Prop :=
  exists c, ip_addrs cx = [c] /\ cidr_addr c = ctx_ip ctx.

Lemma worker_interface_ok fuel :
  (1 <= fuel)%nat -> is_unicast (ctx_ip ctx) = true -> ctx_prefix_len ctx <= 32 ->
  exists cx, worker_interface time_ns ctx fuel = Ret (Some cx) /\ has_address cx /\
    max_transmission_unit cx = MTU /\ any_ip cx = false.
Proof using Type.
  intros Hf Hu Hp; destruct fuel as [|fuel]; [lia|]; unfold worker_interface, interface_new.
  assert (Hd : exists r, draw_ipv4_id (S fuel) 0 = Some r) by (eexists; vm_compute; reflexivity).
  destruct Hd as [r ->]; unfold cidr_new; rewrite (proj2 (Z.leb_le _ _)) by done; cbn [obind].
  unfold update_ip_addrs; cbn [ip_addrs app]; change (len (@nil cidr) <? 2) with true; cbn [forallb cidr_addr].
  rewrite Hu; cbn [orb andb obind]; eexists; split; [reflexivity|]; by split; [eexists|].
Qed.

(** [connect] from such an interface is never refused. *)
Lemma connect_accepted cx s remote port :
  has_address cx -> idle_socket s -> ep_port remote <> 0 -> is_unspecified (ep_addr remote) = false ->
  port <> 0 ->
  exists s' cx', connect cx remote {| lep_addr := None; lep_port := port |} s = (Ok (), s', cx') /\
    has_address cx' /\ state s' = SynSent /\
    sk_tuple s' = Some {| tup_local := {| ep_addr := ctx_ip ctx; ep_port := port |}; tup_remote := remote |} /\
    exists t iss, opening s' t iss.
Proof using Type.
  intros (c & Hc & Ha) [Hok Hst Ht Hk] Hr Hu Hp.
  destruct (connect cx remote {| lep_addr := None; lep_port := port |} s) as [[r s'] cx'] eqn:E.
  pose proof E as E'; unfold connect, is_open, get_source_address in E; rewrite Hst, Hc, Hu in E.
  cbn [source_address_loop lep_addr lep_port] in E.
  rewrite !(proj2 (Z.eqb_neq _ _)) in E by done; cbn [orb] in E.
  assert (Hsrc : (if contains_addr c (ep_addr remote) then Some (cidr_addr c) else Some (cidr_addr c)) =
    Some (ctx_ip ctx)) by (rewrite Ha; by destruct (contains_addr c _)).
  rewrite Hsrc in E; unfold random_seq_no in E; destruct (rand_u32 (cx_rand cx)) as [n rnd].
  assert (Hr' : r = Ok ()) by (by injection E as <- _ _); subst r.
  exists s', cx'; split; [reflexivity|]; injection E as E1 E2; split; [|split; [|split]].
  - rewrite <-E2; exists c; split; [exact Hc|exact Ha].
  - by rewrite <-E1.
  - by rewrite <-E1.
  - destruct (connect_ok _ _ _ _ _ _ Hok Ht Hk E') as (t & iss & Hop & _); by exists t, iss.
Qed.

(** ** The connections *)

(** Connection [j] as the worker opens it, and its socket. *)
Record planned (ports : list Z) (j : Z) (c : conn) (s : socket) : Prop := {
  pl_handle : handle c = j;
  pl_port : zget ports j = Some (src_port c);
  pl_queue : queue_id c = ctx_queue_id ctx;
  pl_expected : expected c = BLOCK_SIZE env;
  pl_request : request c = range_request env (fst (block_range env (first_block ctx) j))
                                         (snd (block_range env (first_block ctx) j));
  pl_fresh : fresh c;
  pl_settled : settled c = false;
  pl_tls : PLAIN_HTTP env = true <-> tls c = None;
  pl_state : state s = SynSent;
  pl_tuple : sk_tuple s = Some {| tup_local := {| ep_addr := ctx_ip ctx; ep_port := src_port c |};
                                  tup_remote := {| ep_addr := TARGET_IP env; ep_port := TARGET_PORT env |} |};
  pl_opening : exists t iss, opening s t iss;
}.

(** After [i] rounds: the first [i] sockets are connecting, the others idle. *)
Record opened (ports : list Z) (i : Z) (w : worker) : Prop := {
  on_address : has_address (wk_cx w);
  on_conns : len (wk_conns w) = i;
  on_planned : forall j c, zget (wk_conns w) j = Some c ->
    exists s, zget (wk_sockets w) j = Some (Some s) /\ planned ports j c s;
  on_idle : forall j, i <= j < CONNS_PER_WORKER env ->
    exists s, zget (wk_sockets w) j = Some (Some s) /\ idle_socket s;
  on_sockets : len (wk_sockets w) = CONNS_PER_WORKER env;
}.

Context (Hhost : len (TARGET_HOST env) <= 200) (Htarget : is_unspecified (TARGET_IP env) = false).
Context (Hclient : PLAIN_HTTP env = false -> forall i, exists t, client_new i = Ok t).

Lemma session_new i : exists session,
  (if PLAIN_HTTP env then Ok None
   else match client_new i with Ok c => Ok (Some c) | Err e => Err e end) = Ok session /\
  (PLAIN_HTTP env = true <-> session = None).
Proof using Hclient.
  destruct (PLAIN_HTTP env); [by exists None|]; destruct (Hclient eq_refl i) as [t ->]; by exists (Some t).
Qed.

Lemma request_text (first last : Z) :
  exists buf n, build_range_request env (zreplicate 384 0) first last = Ret (buf, n) /\
    slice buf 0 n = Ret (range_request env first last).
Proof using Hhost.
  clear Htarget Hclient client_new; destruct (build_range_request_ok env (zreplicate 384 0) first last) as (buf & E & L & T);
    [rewrite len_zreplicate; lia|].
  pose proof (range_request_fits env first last Hhost) as Hfit; pose proof (len_nonneg (range_request env first last)).
  rewrite len_zreplicate, Z.max_r in * by lia; rewrite Z.min_r in * by done.
  do 2 eexists; split; [exact E|]; rewrite slice_ret by lia.
  by rewrite Z.sub_0_r, zdrop_0, T, ztake_ge by lia.
Qed.

Lemma open_conn_ok ports i w :
  opened ports i w -> 0 <= i < Z.min (CONNS_PER_WORKER env) (len ports) ->
  (forall p, p ∈ ports -> p <> 0) ->
  exists w', open_conn env time_ns client_new ctx ports (seqZ 0 (CONNS_PER_WORKER env)) i w = Ret (w', false) /\
    opened ports (i + 1) w' /\ wk_log w' = wk_log w.
Proof using Hhost Htarget Hclient.
  intros [O1 O2 O3 O4 O5] Hi Hnz; unfold open_conn; destruct (block_range env (first_block ctx) i) as [first last] eqn:Eb.
  destruct (index_is_ret ports i) as [port Ep]; [lia|]; rewrite Ep; cbn [obind].
  assert (Eh : index (seqZ 0 (CONNS_PER_WORKER env)) i = Ret i).
  { apply index_ret; [lia|]; rewrite lookup_seqZ_lt by lia; f_equal; lia. }
  rewrite Eh; cbn [obind]; destruct (O4 i ltac:(lia)) as (s & Es & Hs).
  assert (Eg : sockets_get (wk_sockets w) i = Ret s).
  { unfold sockets_get; destruct (index_is_ret (wk_sockets w) i) as [x Ex]; [lia|]; rewrite Ex; cbn [obind].
    apply index_zget in Ex; rewrite Es in Ex; by injection Ex as <-. }
  rewrite Eg; cbn [obind].
  assert (Hport : port <> 0).
  { apply Hnz; apply index_ret_iff in Ep as [_ Ep]; by apply list_elem_of_lookup_2 in Ep. }
  destruct (connect_accepted (wk_cx w) s {| ep_addr := TARGET_IP env; ep_port := TARGET_PORT env |} port)
    as (s' & cx' & -> & Ha & Hst & Ht & Hop); [done|done|cbn; unfold TARGET_PORT; by destruct (PLAIN_HTTP env)|done|done|].
  unfold sockets_set; rewrite store_ret by lia; cbn [obind].
  destruct (request_text first last) as (buf & n & -> & Esl); cbn [obind].
  destruct (session_new i) as (session & -> & Hses); rewrite Esl; cbn [obind].
  eexists; split; [reflexivity|]; split; [|reflexivity].
  split; cbn [wk_cx wk_conns wk_sockets push_conn with_socket].
  - exact Ha.
  - rewrite len_app, O2; reflexivity.
  - intros j c; rewrite zget_app, O2, zget_insert by lia.
    destruct (Z.ltb_spec j i) as [Hj|Hj].
    + intros Hc; destruct (O3 j c Hc) as (s1 & E1 & H1); exists s1; split; [|done].
      by rewrite (proj2 (Z.eqb_neq _ _)) by lia.
    + intros Hc; assert (j = i).
      { destruct (Z.eq_dec j i) as [|Hne]; [done|]; rewrite zget_ge in Hc; [done|].
        change (1 <= j - i); lia. }
      subst j; rewrite Z.sub_diag in Hc; injection Hc as <-; rewrite Z.eqb_refl.
      exists s'; split; [done|]; split; try reflexivity; try done.
      * by apply index_zget.
      * cbn [expected new_conn]; pose proof (block_range_size env (first_block ctx) i) as Hsz.
        by rewrite Eb in Hsz.
      * by rewrite Eb.
  - intros j Hj; rewrite zget_insert, (proj2 (Z.eqb_neq _ _)) by lia; apply O4; lia.
  - by rewrite len_insert.
Qed.

Lemma open_conns_ok ports k i w :
  opened ports i w -> 0 <= i -> i + Z.of_nat k <= Z.min (CONNS_PER_WORKER env) (len ports) ->
  (forall p, p ∈ ports -> p <> 0) ->
  exists w', open_conns env time_ns client_new ctx ports (seqZ 0 (CONNS_PER_WORKER env)) k i w = Ret (w', false) /\
    opened ports (i + Z.of_nat k) w' /\ wk_log w' = wk_log w.
Proof using Hhost Htarget Hclient.
  revert i w; induction k as [|k IH]; intros i w Ho Hi Hk Hnz; cbn [open_conns].
  { exists w; by rewrite Z.add_0_r. }
  destruct (open_conn_ok ports i w Ho ltac:(lia) Hnz) as (w1 & -> & Ho1 & Hl1); cbn [obind].
  destruct (IH (i + 1) w1 Ho1 ltac:(lia) ltac:(lia) Hnz) as (w2 & -> & Ho2 & Hl2).
  exists w2; split; [done|]; split; [|congruence].
  by replace (i + Z.of_nat (S k)) with (i + 1 + Z.of_nat k) by lia.
Qed.

Lemma opened_none ports w s :
  has_address (wk_cx w) -> wk_conns w = [] -> idle_socket s -> 1 <= CONNS_PER_WORKER env ->
  wk_sockets w = map Some (replicate (Z.to_nat (CONNS_PER_WORKER env)) s) -> opened ports 0 w.
Proof using Type.
  clear Hclient Htarget Hhost; intros Ha Hc Hs Hn He; split; [done|by rewrite Hc| | |].
  - intros j c; rewrite Hc; destruct (Z.ltb_spec j 0); [by rewrite zget_neg|rewrite zget_ge; [done|rewrite len_nil; lia]].
  - intros j Hj; exists s; split; [|done]; rewrite He; unfold zget; rewrite (proj2 (Z.ltb_ge _ _)) by lia.
    rewrite list_lookup_fmap, lookup_replicate_2 by lia; reflexivity.
  - rewrite He, len_map; unfold len; rewrite length_replicate; lia.
Qed.

(** C15: the connections of a worker.  Suppose that the RSS configuration is
    loaded; that the worker's address is unicast with a prefix of at most 32
    bits, and all addresses have their lengths; that the target is not 0.0.0.0
    and its host name has at most 200 bytes (so that the request fits its
    buffer); that at least one connection is configured; that the host name is
    a valid server name; and that, in a build with TLS, rustls makes each
    client it is asked for.  Then the set-up does not panic and does not return
    early: the worker opens one connection for each port it picked, as many as configured
    or as it owns ports; the ports are distinct, ephemeral, and their return
    flow is predicted on the worker's queue; no [connect] is refused; connection
    [j] has socket [j], which is in SYN-SENT from its own port to the target,
    it expects one block, its request asks for block [first_block + j], and
    nothing has been sent or counted.  A message tells of missing ports. *)
Theorem worker_opens (fuel : nat) (g : stats) :
  rss_ok rss -> len (ctx_ip ctx) = 4 -> len (ctx_mac ctx) = 6 -> len (ctx_gateway_ip ctx) = 4 ->
  len (ctx_gateway_mac ctx) = 6 -> is_unicast (ctx_ip ctx) = true -> ctx_prefix_len ctx <= 32 ->
  1 <= CONNS_PER_WORKER env -> (1 <= fuel)%nat -> server_name_ok = true ->
  exists w ports owned,
    worker_setup env rss time_ns server_name_ok client_new ctx fuel g = Ret (Some (w, false)) /\
    StronglySorted Z.lt ports /\ len ports = Z.min (CONNS_PER_WORKER env) owned /\
    (forall p, p ∈ ports -> EPH_BASE <= p < EPH_BASE + EPH_LEN /\
       predict_queue rss (flow_tuple env (ctx_ip ctx) p) = Ret (ctx_queue_id ctx)) /\
    len (wk_conns w) = len ports /\
    (forall j c, zget (wk_conns w) j = Some c ->
       exists s, zget (wk_sockets w) j = Some (Some s) /\ planned ports j c s) /\
    (FewPorts (ctx_queue_id ctx) (len ports) (CONNS_PER_WORKER env) ∈ wk_log w <-> owned < CONNS_PER_WORKER env).
Proof using Hhost Htarget Hclient.
  intros Hrss Hip Hmac Hgip Hgmac Hu Hp Hc Hf ->; unfold worker_setup.
  destruct (worker_ports env rss (ctx_ip ctx) (ctx_queue_id ctx) Hrss Hip Hc)
    as (bitmap & owned & ports & -> & Hpick & Hbm & Hlen & Hsort & Hports); cbn [obind].
  unfold worker_device, build_arp_reply.
  rewrite (proj1 (arp_frame_layout (ctx_mac ctx) (ctx_gateway_mac ctx) 2 (ctx_gateway_ip ctx) (ctx_mac ctx) (ctx_ip ctx)
    Hmac Hgmac Hgip Hmac Hip)); cbn [obind].
  destruct (worker_interface_ok fuel Hf Hu Hp) as (cx & -> & Hcx & _); cbn [obind].
  destruct worker_socket_ok as (s0 & Es0 & Hid).
  pose proof (add_sockets_ok s0 (Z.to_nat (CONNS_PER_WORKER env)) [] [] Es0) as Hadd.
  cbn [map app] in Hadd; rewrite len_nil, Z2Nat.id in Hadd by lia; unfold zreplicate at 1; rewrite Hadd; cbn [obind negb].
  rewrite Hpick; cbn [obind].
  match goal with |- context [open_conns _ _ _ _ _ _ _ _ ?w] => set (w0 := w) end.
  assert (Ho : opened ports 0 w0).
  { assert (Hw0 : wk_cx w0 = cx /\ wk_conns w0 = [] /\ wk_sockets w0 = map Some (replicate (Z.to_nat (CONNS_PER_WORKER env)) s0))
      by (subst w0; destruct (len ports <? _); exact (conj eq_refl (conj eq_refl eq_refl))).
    clearbody w0; destruct Hw0 as (E1 & E2 & E3); apply (opened_none _ _ s0); [by rewrite E1|exact E2|exact Hid|exact Hc|exact E3]. }
  assert (Hn : saturating_sub (Z.min (CONNS_PER_WORKER env) (len ports)) FAULT_ABANDON_CONNS = len ports).
  { unfold saturating_sub, FAULT_ABANDON_CONNS; pose proof (len_nonneg ports); lia. }
  rewrite Hn; pose proof (len_nonneg ports).
  destruct (open_conns_ok ports (Z.to_nat (len ports)) 0 w0 Ho ltac:(lia) ltac:(lia)) as (w & -> & Hw & Hlog).
  { intros p Hin; destruct (Hports p Hin) as [Hr _]; unfold EPH_BASE in Hr; lia. }
  cbn [obind]; exists w, ports, owned; rewrite Z.add_0_l, Z2Nat.id in Hw by lia; destruct Hw as [_ W1 W2 _ _].
  split; [done|]; split; [done|]; split; [done|]; split; [exact Hports|]; split; [done|]; split; [exact W2|].
  rewrite Hlog; subst w0; destruct (Z.ltb_spec (len ports) (CONNS_PER_WORKER env)); cbn [wk_log say app].
  - split; [lia|]; intros _; by left.
  - split; [|lia]; intros Hin; apply list_elem_of_singleton in Hin; discriminate.
Qed.

End Open.

(** ** Worker 1 of the test device *)

Definition ex_worker_ctx : worker_ctx :=
  {| ctx_queue_id := 1; ctx_pool := 101; ctx_mac := [2; 0; 0; 0; 0; 2]; ctx_ip := [10; 0; 0; 2]; ctx_prefix_len := 24;
     ctx_gateway_ip := [10; 0; 0; 1]; ctx_gateway_mac := [2; 0; 0; 0; 0; 1]; first_block := 24;
     ctx_bytes_received := 0; ctx_elapsed_ns := 0; bytes_expected := 0; conns_total := 0; conns_clean := 0 |}.

Lemma worker_opens_witness : exists w ports owned,
  @worker_setup example_env example_rss no_tls (scripted []) (fun k => Z.of_nat k) true (fun _ => Err ()) ex_worker_ctx
    1 ex_stats = Ret (Some (w, false)) /\
  len ports = Z.min 24 owned /\ StronglySorted Z.lt ports /\ len (wk_conns w) = len ports.
Proof.
  destruct (@worker_opens example_env example_rss no_tls (scripted []) (fun k => Z.of_nat k) true (fun _ => Err ())
    ex_worker_ctx ltac:(vm_compute; congruence) eq_refl ltac:(discriminate) 1%nat ex_stats
    example_rss_ok eq_refl eq_refl eq_refl eq_refl eq_refl ltac:(cbn; lia) ltac:(vm_compute; congruence)
    ltac:(lia) eq_refl) as (w & ports & owned & H1 & H2 & H3 & _ & H4 & _).
  exists w, ports, owned; exact (conj H1 (conj H3 (conj H2 H4))).
Defined.
