(* ===== verification/WorkerRun.v ===== *)
(** The worker's loop: it ends exactly when every connection is done, keeps
    each connection's identity, and its report accounts for all of them; one
    refused connection keeps it from ending. *)

From Stdlib Require Import ZArith Lia ZifyBool.
From stdpp Require Import base list list_numbers numbers relations.
From S2P Require Import Prelude AppConfig Rss Device Http Arp Assembler RingBuffer Time TcpWire TcpTimer Iface.
From S2P Require Import TcpState TcpSocket TcpProcess TcpDispatch TcpInv TcpConnection TcpHandshake Conn ConnPlain ConnStep.
From S2P Require Import Network Plan Worker NetEvents.

Section Run.
Context (env : build_env) `{Tls} `{NetIface} (time_ns : nat -> Z) (others : nat -> stats -> stats).

(** ** Turns *)

(** What one turn does to the sockets of others: nothing. *)
Lemma turn_frame fuel c ss g t c' ss' g' t' d :
  turn env time_ns others fuel c ss g t = Ret (Some (c', ss', g', t', d)) ->
  d = done c' /\ identity c' = identity c /\ handle c' = handle c /\ (t <= t')%nat /\
  forall j, j <> handle c -> zget ss' j = zget ss j.
Proof using Type.
  unfold turn; destruct (done c) eqn:Ed; [by intros [= <- <- <- <- <-]|].
  destruct (sockets_get ss (handle c)) as [s|]; cbn [obind]; [|done].
  destruct (conn_step _ _ _ _ _ _) as [[[[[c1 s1] g1] d1]|]|] eqn:Est; cbn [obind]; try done.
  destruct (sockets_set ss (handle c1) s1) as [ss1|] eqn:Es; cbn [obind]; [|done]; intros [= <- <- <- <- <-].
  apply conn_step_identity in Est as [-> Hid]; split; [done|]; split; [done|].
  assert (Hh : handle c1 = handle c) by (unfold identity in Hid; congruence).
  split; [done|]; split; [lia|]; intros j Hj.
  by rewrite (sockets_set_other _ _ _ _ _ Es), Hh, (proj2 (Z.eqb_neq _ _)) by done.
Qed.

Definition handles (conns : list conn) : list Z := map handle conns.

Lemma turns_frame fuel conns ss g t a conns' ss' g' t' a' :
  turns env time_ns others fuel conns ss g t a = Ret (Some (conns', ss', g', t', a')) ->
  a' = a && forallb done conns' /\ map identity conns' = map identity conns /\ handles conns' = handles conns /\
  (t <= t')%nat /\ forall j, j ∉ handles conns -> zget ss' j = zget ss j.
Proof using Type.
  revert ss g t a conns' ss' g' t' a'; induction conns as [|c conns IH];
    intros ss g t a conns' ss' g' t' a'; cbn [turns].
  { intros [= <- <- <- <- <-]; by rewrite andb_true_r. }
  destruct (turn _ _ _ fuel c ss g t) as [[[[[[c1 ss1] g1] t1] d]|]|] eqn:E1; cbn [obind]; try done.
  destruct (turns _ _ _ _ conns _ _ _ _) as [[[[[[cs2 ss2] g2] t2] a2]|]|] eqn:E2; cbn [obind]; try done.
  intros [= <- <- <- <- <-]; apply turn_frame in E1 as (-> & I1 & H1 & T1 & F1).
  apply IH in E2 as (-> & I2 & H2 & T2 & F2); cbn [map forallb handles]; split_and!.
  - destruct (done c1), a; done.
  - by rewrite I1, I2.
  - unfold handles in H2 |- *; by rewrite <-H2, <-H1.
  - lia.
  - intros j [Hj Hnin]%not_elem_of_cons; by rewrite F2, F1.
Qed.

(** A connection alone on its socket takes one step, if it is not done. *)
Lemma turns_one fuel conns ss g t a conns' ss' g' t' a' c s :
  c ∈ conns -> NoDup (handles conns) -> zget ss (handle c) = Some (Some s) ->
  turns env time_ns others fuel conns ss g t a = Ret (Some (conns', ss', g', t', a')) ->
  if done c then c ∈ conns' /\ zget ss' (handle c) = Some (Some s)
  else exists now g0 c' s' g1 d, conn_step env fuel now c s g0 = Ret (Some (c', s', g1, d)) /\
    c' ∈ conns' /\ handle c' = handle c /\ zget ss' (handle c) = Some (Some s').
Proof using Type.
  revert ss g t a conns' ss' g' t' a'; induction conns as [|c0 conns IH];
    intros ss g t a conns' ss' g' t' a' Hin Hnd Hget; [by apply not_elem_of_nil in Hin|]; cbn [turns].
  change (NoDup (handle c0 :: handles conns)) in Hnd; apply NoDup_cons in Hnd as [Hni Hnd].
  destruct (turn _ _ _ fuel c0 ss g t) as [[[[[[c1 ss1] g1] t1] d]|]|] eqn:E1; cbn [obind]; try done.
  destruct (turns _ _ _ _ conns _ _ _ _) as [[[[[[cs2 ss2] g2] t2] a2]|]|] eqn:E2; cbn [obind]; try done.
  intros [= <- <- <- <- <-]; apply elem_of_cons in Hin as [->|Hin].
  - pose proof (turn_frame _ _ _ _ _ _ _ _ _ _ E1) as (_ & _ & Hh & _).
    apply turns_frame in E2 as (_ & _ & _ & _ & F); specialize (F (handle c0) Hni).
    unfold turn in E1; destruct (done c0) eqn:Ed.
    { injection E1 as <- <- _ _ _; split; [by left|by rewrite F]. }
    rewrite (proj2 (sockets_get_iff _ _ _) Hget) in E1; cbn [obind] in E1.
    destruct (conn_step _ _ _ _ _ _) as [[[[[c2 s2] g3] d2]|]|] eqn:Est; cbn [obind] in E1; try done.
    destruct (sockets_set ss (handle c2) s2) as [ss3|] eqn:E4; cbn [obind] in E1; [|done]; injection E1 as <- <- <- <- <-.
    do 6 eexists; split; [exact Est|]; split; [by left|]; split; [done|].
    by rewrite F, (sockets_set_other _ _ _ _ _ E4), Hh, Z.eqb_refl.
  - apply turn_frame in E1 as (_ & _ & _ & _ & F).
    assert (Hg1 : zget ss1 (handle c) = Some (Some s)).
    { rewrite F; [done|]; intros Heq; apply Hni; rewrite <-Heq; by apply list_elem_of_fmap_2. }
    specialize (IH _ _ _ _ _ _ _ _ _ Hin Hnd Hg1 E2); destruct (done c).
    + destruct IH as [? ?]; split; [by right|done].
    + destruct IH as (now & g0 & c' & s' & g3 & d' & ? & ? & ? & ?); exists now, g0, c', s', g3, d'.
      split; [done|]; split; [by right|done].
Qed.

(** ** Rounds *)

Lemma round_inv fuel w w' d :
  round env time_ns others fuel w = Ret (Some (w', d)) ->
  d = forallb done (wk_conns w') /\ map identity (wk_conns w') = map identity (wk_conns w) /\
  wk_log w' = wk_log w /\ (wk_ticks w < wk_ticks w')%nat.
Proof using Type.
  unfold round; destruct (poll _ _ _ _ _ _) as [[[[[cx dev] wd] ss]|]|]; cbn [obind]; try done.
  destruct (turns _ _ _ _ _ _ _ _ _) as [[[[[[cs ss1] g] t] a]|]|] eqn:E; cbn [obind]; try done.
  intros [= <- <-]; apply turns_frame in E as (-> & I & _ & T & _); cbn [wk_conns wk_log wk_ticks].
  split; [done|]; split; [done|]; split; [done|]; lia.
Qed.

Lemma worker_loop_inv rounds fuel w w' :
  worker_loop env time_ns others rounds fuel w = Ret (Some w') ->
  forallb done (wk_conns w') = true /\ map identity (wk_conns w') = map identity (wk_conns w) /\
  wk_log w' = wk_log w /\ (wk_ticks w < wk_ticks w')%nat.
Proof using Type.
  revert w; induction rounds as [|rounds IH]; intros w; cbn [worker_loop]; [done|].
  destruct (round _ _ _ fuel w) as [[[w1 d]|]|] eqn:E; cbn [obind]; try done.
  apply round_inv in E as (-> & I1 & L1 & T1); destruct (forallb done (wk_conns w1)) eqn:Ed.
  - intros [= <-]; by split_and!.
  - intros (A & I & L & T)%IH; split; [done|]; split; [congruence|]; split; [congruence|]; lia.
Qed.

(** ** A refused connection *)

(** A connection of the worker that was refused, alone on its socket. *)
Record stuck (w : worker) (c : conn) (s : socket) : Prop := {
  sk_in : c ∈ wk_conns w;
  sk_alone : NoDup (handles (wk_conns w));
  sk_get : zget (wk_sockets w) (handle c) = Some (Some s);
  sk_refused : refused c s;
}.

Lemma refused_net c s s' : refused c s -> rtc net_step s s' -> refused c s'.
Proof using Type.
  intros Hr Hs; induction Hs as [|s s1 s2 (e & got & took & He & Hev) _ IH]; [done|].
  apply IH; by eapply refused_event.
Qed.

Lemma round_stuck `{!NetIfaceLaws} fuel w w' d c s :
  PLAIN_HTTP env = true -> stuck w c s -> round env time_ns others fuel w = Ret (Some (w', d)) ->
  d = false /\ exists c' s', stuck w' c' s'.
Proof using Type.
  intros Hp [S1 S2 S3 S4]; unfold round.
  destruct (poll _ _ _ _ _ _) as [[[[[cx dev] wd] ss]|]|] eqn:Ep; cbn [obind]; try done.
  apply poll_touches in Ep; destruct (touched_get _ _ _ _ Ep S3) as (s1 & G1 & R1).
  destruct (turns _ _ _ _ _ _ _ _ _) as [[[[[[cs ss1] g] t] a]|]|] eqn:E; cbn [obind]; try done.
  intros [= <- <-]; pose proof (turns_frame _ _ _ _ _ _ _ _ _ _ _ E) as (Ha & _ & Hh & _).
  assert (Hr : refused c s1) by (by apply (refused_net c s)).
  pose proof (turns_one _ _ _ _ _ _ _ _ _ _ _ c s1 S1 S2 G1 E) as Ht; rewrite (rf_done _ _ Hr) in Ht.
  destruct Ht as (now & g0 & c' & s' & g1 & d & Est & I & Hh' & G).
  destruct (refused_step env fuel now c s1 g0 Hp Hr) as (c2 & s2 & g2 & Est' & R).
  rewrite Est in Est'; injection Est' as -> -> -> ->.
  split.
  - rewrite Ha; cbn [andb]; apply not_true_is_false; intros Hall.
    rewrite forallb_forall in Hall; apply list_elem_of_In in I; specialize (Hall _ I).
    rewrite (rf_done _ _ R) in Hall; done.
  - exists c2, s2; split; cbn [wk_conns wk_sockets]; [done|by rewrite Hh|by rewrite Hh'|done].
Qed.

(** C7: a refused connection hangs its worker.  In a plain HTTP build, once one
    of a worker's connections was refused (its socket closed before the request
    was queued, as a reset in answer to the SYN closes it), the worker's loop
    never ends, whatever happens on the network and to the other connections,
    and however long it runs: no report is made and no totals are stored. *)
Theorem refused_hangs_worker `{!NetIfaceLaws} (rounds fuel : nat) (w w' : worker) (c : conn) (s : socket) :
  PLAIN_HTTP env = true -> stuck w c s ->
  worker_loop env time_ns others rounds fuel w <> Ret (Some w').
Proof using Type.
  intros Hp; revert w c s; induction rounds as [|rounds IH]; intros w c s Hs; cbn [worker_loop]; [done|].
  destruct (round _ _ _ fuel w) as [[[w1 d]|]|] eqn:E; cbn [obind]; try done.
  destruct (round_stuck _ _ _ _ _ _ Hp Hs E) as (-> & c' & s' & Hs'); by eapply IH.
Qed.

(** ** The report *)

Context (ctx : worker_ctx).

Definition received (conns : list conn) : Z := foldr (fun c n => bytes_received (http c) + n) 0 conns.

Lemma total_by_sum wrap f conns :
  (forall a b, wrap (wrap a + b) = wrap (a + b)) ->
  wrap (total_by wrap f conns) = wrap (foldr (fun c n => f c + n) 0 conns).
Proof using Type.
  intros Hw; unfold total_by.
  assert (G : forall n, wrap (fold_left (fun n c => wrap (n + f c)) conns n) =
                        wrap (n + foldr (fun c n => f c + n) 0 conns)).
  { induction conns as [|c conns IH]; intros n; cbn [fold_left foldr]; [by rewrite Z.add_0_r|].
    rewrite IH, Hw; f_equal; lia. }
  apply (G 0).
Qed.

Lemma total_by_wrapped wrap f conns : (forall a, wrap (wrap a) = wrap a) -> wrap 0 = 0 ->
  wrap (total_by wrap f conns) = total_by wrap f conns.
Proof using Type.
  intros Hi H0'; unfold total_by; destruct (last conns) as [c|] eqn:E.
  - apply last_Some in E as [l ->]; rewrite fold_left_app; cbn [fold_left]; apply Hi.
  - apply last_None in E as ->; done.
Qed.

Lemma u64_add a b : u64 (u64 a + b) = u64 (a + b).
Proof using Type. apply Zplus_mod_idemp_l. Qed.

(** All wrapped sums here are modulo 2^64. *)
Lemma total_u64 f conns : total_by u64 f conns = u64 (foldr (fun c n => f c + n) 0 conns).
Proof using Type.
  rewrite <-(total_by_sum u64 f conns u64_add); symmetry; apply total_by_wrapped; [|done].
  intros a; apply Zmod_mod.
Qed.

Lemma sum_expected conns :
  Forall (fun c => expected c = BLOCK_SIZE env) conns ->
  foldr (fun c n => expected c + n) 0 conns = len conns * BLOCK_SIZE env.
Proof using Type.
  intros Hc; induction Hc as [|c conns E _ IH]; cbn [foldr]; [done|rewrite IH, E, len_cons; lia].
Qed.

Lemma partition_len {A} (p : A -> bool) (l : list A) :
  len (List.filter p l) + len (List.filter (fun x => negb (p x)) l) = len l.
Proof using Type.
  induction l as [|x l IH]; cbn [List.filter]; [done|]; destruct (p x); cbn [negb]; rewrite !len_cons; lia.
Qed.

Lemma expected_kept conns conns' :
  map identity conns' = map identity conns ->
  Forall (fun c => expected c = BLOCK_SIZE env) conns -> Forall (fun c => expected c = BLOCK_SIZE env) conns'.
Proof using Type.
  revert conns'; induction conns as [|c conns IH]; intros [|c' conns'] Hi Hc; cbn [map] in Hi; try done.
  injection Hi as _ _ _ _ _ He _ _ Hi; apply Forall_cons in Hc as [Hc1 Hc2].
  constructor; [congruence|by apply IH].
Qed.

Lemma clean_count_iff conns :
  len (List.filter closed_cleanly conns) = len conns <-> Forall (fun c => closed_cleanly c = true) conns.
Proof using Type.
  pose proof (partition_len closed_cleanly conns) as Hp; split.
  - intros He; rewrite He in Hp; apply List.Forall_forall; intros c Hc.
    destruct (closed_cleanly c) eqn:E; [done|].
    assert (Hf : In c (List.filter (fun x => negb (closed_cleanly x)) conns)) by (apply filter_In; by rewrite E).
    rewrite (len_zero_nil (List.filter (fun x => negb _) conns)) in Hf by lia; done.
  - intros Hc; rewrite (len_zero_nil (List.filter (fun x => negb _) conns)) in Hp; [rewrite len_nil in Hp; lia|].
    enough (Hn : List.filter (fun x => negb (closed_cleanly x)) conns = []) by (by rewrite Hn).
    clear Hp; induction Hc as [|c l E _ IH]; cbn [List.filter]; [done|by rewrite E].
Qed.

(** What a run that ends leaves. *)
Lemma worker_run_inv rounds fuel w0 w ctx' :
  worker_run env time_ns others ctx rounds fuel w0 = Ret (Some (ctx', w)) ->
  exists start_ns end_ns, ctx' = worker_results ctx start_ns end_ns (wk_conns w) /\
    forallb done (wk_conns w) = true /\ map identity (wk_conns w) = map identity (wk_conns w0) /\
    wk_log w = wk_log w0 ++ unclean_report ctx (wk_conns w).
Proof using Type.
  unfold worker_run; match goal with |- context [worker_loop _ _ _ _ _ ?w1] => set (w1' := w1) end.
  destruct (worker_loop _ _ _ _ _ w1') as [[w2|]|] eqn:El; cbn [obind]; try done.
  apply worker_loop_inv in El as (Hd & Hid & Hlog & _); intros [= <- <-].
  do 2 eexists; split; [reflexivity|]; split; [exact Hd|]; split; [exact Hid|]; cbn [wk_log wk_conns]; by rewrite Hlog.
Qed.

(** C8: a worker's report is complete.  When a worker that opened connections
    for one block each returns, every one of them is done, it is the connection
    it was opened as, and what the worker stores is: as many connections as it
    opened, the blocks' bytes as expected, the sum of the counted bytes, and
    how many closed cleanly; each of the others is named on the console with
    the bytes it got, so that the two add up to all of them. *)
Theorem worker_report (rounds fuel : nat) (w0 w : worker) (ctx' : worker_ctx) :
  Forall (fun c => expected c = BLOCK_SIZE env) (wk_conns w0) ->
  worker_run env time_ns others ctx rounds fuel w0 = Ret (Some (ctx', w)) ->
  Forall (fun c => done c = true) (wk_conns w) /\ map identity (wk_conns w) = map identity (wk_conns w0) /\
  conns_total ctx' = len (wk_conns w0) /\
  bytes_expected ctx' = u64 (conns_total ctx' * BLOCK_SIZE env) /\
  ctx_bytes_received ctx' = u64 (received (wk_conns w)) /\
  exists reports, wk_log w = wk_log w0 ++ reports /\ conns_clean ctx' + len reports = conns_total ctx' /\
    (forall c, c ∈ wk_conns w -> closed_cleanly c = false ->
       Unclean (ctx_queue_id ctx) (src_port c) (bytes_received (http c)) (expected c) ∈ reports) /\
    (conns_clean ctx' = conns_total ctx' <-> Forall (fun c => closed_cleanly c = true) (wk_conns w)).
Proof using Type.
  intros He Hr; destruct (worker_run_inv _ _ _ _ _ Hr) as (e1 & e2 & -> & Hd & Hid & Hlog); clear Hr.
  unfold worker_results; cbn [conns_total bytes_expected ctx_bytes_received conns_clean].
  assert (Hlen : len (wk_conns w) = len (wk_conns w0)).
  { pose proof (f_equal len Hid) as Hl; by rewrite !len_map in Hl. }
  split; [apply List.Forall_forall; by apply forallb_forall|].
  split; [done|]; split; [done|]; split; [|split; [apply total_u64|]].
  { rewrite total_u64, sum_expected; [done|by eapply expected_kept]. }
  exists (unclean_report ctx (wk_conns w)); split; [exact Hlog|]; split; [|split; [|apply clean_count_iff]].
  - unfold unclean_report; rewrite len_map; apply partition_len.
  - intros c Hc Hcl; apply list_elem_of_In, in_map_iff; exists c; split; [done|]; apply filter_In.
    split; [by apply list_elem_of_In|by rewrite Hcl].
Qed.

End Run.

(** ** One connection, refused or never answered *)

#[local] Existing Instance scripted.

Definition ex_worker (evs : script) (c : conn) (s : socket) : @worker no_tls (scripted []) :=
  {| wk_cx := ex_cx; wk_dev := {| pending_synth := None; owned_ports := None; rx_pref_handles := [];
       rx_pref_data := []; rx_pref_lens := []; rx_pref_pos := 0; rx_pref_len := 0 |};
     wk_world := evs : @world (scripted []);
     wk_sockets := [Some s]; wk_conns := [c]; wk_stats := ex_stats; wk_log := []; wk_ticks := 0 |}.

Definition ex_time (k : nat) : Z := Z.of_nat k * 1000000000.

(** The reset arrives in the first round. *)
Definition ex_refusal : script := [[(0, EvDispatch ex_cx true); (0, EvSegment ex_cx ex_ip ex_reset)]].

Lemma refused_hangs_worker_witness : exists s w c s',
  ex_connect = Ret s /\
  round example_env ex_time (fun _ g => g) 1 (ex_worker ex_refusal ex_conn s) = Ret (Some (w, false)) /\
  stuck w c s' /\ worker_loop example_env ex_time (fun _ g => g) 1000 1 w <> Ret (Some w).
Proof.
  assert (Hrun : exists s s', ex_connect = Ret s /\
    match round example_env ex_time (fun _ g => g) 1 (ex_worker ex_refusal ex_conn s) with
    | Ret (Some (w, d)) => Some (wk_conns w, wk_sockets w, d) | _ => None
    end = Some ([ex_conn], [Some s'], false) /\ refused ex_conn s').
  { do 2 eexists; split; [vm_compute; reflexivity|]; split; [vm_compute; reflexivity|].
    split; vm_compute; reflexivity. }
  destruct Hrun as (s & s' & E1 & E2 & Hr).
  destruct (round _ _ _ 1 (ex_worker ex_refusal ex_conn s)) as [[[w d]|]|] eqn:Er; try discriminate E2.
  injection E2 as E3 E4 ->.
  assert (Hs : stuck w ex_conn s').
  { split; [rewrite E3; by left|rewrite E3; apply NoDup_singleton|by rewrite E4|done]. }
  exists s, w, ex_conn, s'; split; [exact E1|]; split; [exact Er|]; split; [exact Hs|].
  exact (refused_hangs_worker example_env ex_time (fun _ g => g) 1000 1 w w ex_conn s' eq_refl Hs).
Defined.

(** A connection for one block whose SYN nobody answers. *)
Definition ex_block_conn : @conn no_tls :=
  {| handle := 0; tls := None; incoming := []; outgoing := []; request := request ex_conn; request_queued := false;
     handshake_done := false; http := http_init; done := false; connect_start_ms := 0; queue_id := 0;
     src_port := 49152; expected := BLOCK_SIZE example_env; closed_cleanly := false; attempts := 1;
     settled := false; start_ms := 0 |}.

Definition ex_ctx : worker_ctx :=
  {| ctx_queue_id := 0; ctx_pool := 100; ctx_mac := [2; 0; 0; 0; 0; 2]; ctx_ip := [10; 0; 0; 2]; ctx_prefix_len := 24;
     ctx_gateway_ip := [10; 0; 0; 1]; ctx_gateway_mac := [2; 0; 0; 0; 0; 1]; first_block := 0;
     ctx_bytes_received := 0; ctx_elapsed_ns := 0; bytes_expected := 0; conns_total := 0; conns_clean := 0 |}.

(** It is given up after five seconds, and named. *)
Lemma worker_report_witness : exists s w ctx',
  ex_connect = Ret s /\
  worker_run example_env ex_time (fun _ g => g) ex_ctx 10 1 (ex_worker [] ex_block_conn s) = Ret (Some (ctx', w)) /\
  conns_total ctx' = 1 /\ bytes_expected ctx' = 67108864 /\ conns_clean ctx' = 0 /\
  exists reports, wk_log w = reports /\ conns_clean ctx' + len reports = 1.
Proof.
  assert (Hrun : exists s, ex_connect = Ret s /\
    match worker_run example_env ex_time (fun _ g => g) ex_ctx 10 1 (ex_worker [] ex_block_conn s) with
    | Ret (Some (ctx', _)) => conns_clean ctx' =? 0 | _ => false
    end = true).
  { eexists; split; [vm_compute; reflexivity|]; vm_compute; reflexivity. }
  destruct Hrun as (s & E1 & E2).
  destruct (worker_run _ _ _ _ 10 1 _) as [[[ctx' w]|]|] eqn:Er; try discriminate E2.
  destruct (worker_report example_env ex_time (fun _ g => g) ex_ctx 10 1 (ex_worker [] ex_block_conn s) w ctx')
    as (_ & _ & H1 & H2 & _ & reports & H3 & H4 & _); [repeat constructor|exact Er|].
  exists s, w, ctx'; split; [exact E1|]; split; [exact Er|]; change (conns_total ctx' = 1) in H1.
  rewrite H1 in H2, H4; split; [exact H1|]; split; [exact H2|]; split; [by apply Z.eqb_eq|].
  exists reports; split; [exact H3|exact H4].
Defined.
