(* ===== verification/WorkerFetch.v ===== *)
(** Downloads in the worker's loop: a connection that is open, on a network
    that delivers pieces of its response, counts exactly the body by the time
    the loop ends, whatever the other connections do. *)

From Stdlib Require Import ZArith Lia ZifyBool.
From stdpp Require Import base list list_numbers numbers relations.
From S2P Require Import Prelude AppConfig Rss Device Http Arp Assembler RingBuffer Time TcpWire TcpTimer Iface.
From S2P Require Import TcpState TcpSocket TcpProcess TcpDispatch TcpInv TcpConnection TcpHandshake.
From S2P Require Import Conn ConnPlain ConnStep Network Plan Worker NetEvents WorkerRun.

Section Fetch.
Context (env : build_env) `{Tls} `{NetIface} (time_ns : nat -> Z) (others : nat -> stats -> stats).
(** The socket, its peer's response, and the positions of the two streams. *)
Context (h : Z) (stream : list Z) (irs iss : Z) (Hplain : PLAIN_HTTP env = true).

(** A network event that brings a piece of the response, or sends. *)
Definition delivery (n : Z) (s s' : socket) : Prop :=
  exists e got took, network e = true /\ valid_event stream irs s n e /\ conn_event s e = Ret (s', got, took).

(** In the worlds of [honest], all that [poll] does to socket [h] is that. *)
Definition delivers (honest : world -> Prop) : Prop :=
  forall fuel now cx dev wd ss cx' dev' wd' ss' s sent n m,
    honest wd -> poll fuel now cx dev wd ss = Ret (Some (cx', dev', wd', ss')) ->
    zget ss h = Some (Some s) -> conn_inv stream irs sent iss s n m ->
    honest wd' /\ exists s', zget ss' h = Some (Some s') /\ rtc (delivery n) s s'.

(** The socket was closed at some time. *)
Definition was_closed (s : socket) : Prop := exists s0, state s0 = Closed /\ rtc (fun a b => exists n, delivery n a b) s0 s.

(** How the connection stands between two rounds; [n] bytes have been read. *)
Record fetching (c0 : conn) (w : worker) (c : conn) (s : socket) (n : Z) : Prop := {
  ft_in : c ∈ wk_conns w;
  ft_alone : NoDup (handles (wk_conns w));
  ft_handle : handle c = h;
  ft_get : zget (wk_sockets w) h = Some (Some s);
  ft_same : identity c = identity c0;
  ft_down : exists sent, downloading stream irs iss sent c s n;
  ft_done : done c = true -> request_queued c = true /\ outgoing c = [] /\ (was_closed s \/ n = len stream);
}.

Lemma delivery_down sent c s n s' :
  downloading stream irs iss sent c s n -> rtc (delivery n) s s' -> downloading stream irs iss sent c s' n.
Proof using Type.
  intros Hd Hs; induction Hs as [|s s1 s2 (e & got & took & He & Hv & Hev) _ IH]; [done|]; apply IH.
  destruct Hd as [[m Hi] D1 D2 D3 D4 D5]; split; try done.
  by apply (network_inv stream irs iss sent s n m e s1 got took).
Qed.

Lemma was_closed_kept n s s' : was_closed s -> rtc (delivery n) s s' -> was_closed s'.
Proof using Type.
  intros (s0 & Hc & Hr) Hs; exists s0; split; [done|]; transitivity s; [done|]; clear Hr.
  induction Hs as [|a b c Hab _ IH]; [reflexivity|]; eapply rtc_l; [by exists n|exact IH].
Qed.

Lemma round_fetching honest fuel c0 w w' d c s n :
  len (request c0) < M64 -> delivers honest -> honest (wk_world w) -> fetching c0 w c s n ->
  round env time_ns others fuel w = Ret (Some (w', d)) ->
  honest (wk_world w') /\ exists c' s' n', fetching c0 w' c' s' n'.
Proof using Hplain.
  intros Hreq Hdel Hw [F1 F2 F3 F4 F5 [sent F6] F7]; unfold round.
  destruct (poll _ _ _ _ _ _) as [[[[[cx dev] wd] ss]|]|] eqn:Ep; cbn [obind]; try done.
  destruct (turns _ _ _ _ _ _ _ _ _) as [[[[[[cs ss1] g] t] a]|]|] eqn:E; cbn [obind]; try done.
  intros [= <- <-]; pose proof (dl_conn _ _ _ _ _ _ _ F6) as [m Hi].
  destruct (Hdel _ _ _ _ _ _ _ _ _ _ _ _ _ _ Hw Ep F4 Hi) as (Hw' & s1 & G1 & R1); split; [exact Hw'|].
  pose proof (delivery_down sent c s n s1 F6 R1) as Hd1.
  pose proof (turns_frame _ _ _ _ _ _ _ _ _ _ _ _ _ _ E) as (_ & _ & Hh & _).
  rewrite <-F3 in G1; pose proof (turns_one _ _ _ _ _ _ _ _ _ _ _ _ _ _ c s1 F1 F2 G1 E) as Ht.
  destruct (done c) eqn:Ed.
  - destruct Ht as [I G]; exists c, s1, n; split; cbn [wk_conns wk_sockets]; try done.
    + by rewrite Hh.
    + by rewrite <-F3.
    + by exists sent.
    + intros _; destruct (F7 eq_refl) as (H1 & H2 & [Hc|Hn]); split; [done|split; [done|]|done|split; [done|]];
        [left; by apply (was_closed_kept n s)|by right].
  - destruct Ht as (now & g0 & c' & s' & g1 & d & Est & I & Hh' & G).
    assert (Hq : len (request c) < M64).
    { unfold identity in F5; injection F5 as _ -> _; exact Hreq. }
    destruct (conn_step_ok env stream irs iss Hplain fuel now sent c s1 n g0 Hd1 Ed Hq)
      as (sent' & c2 & s2 & n2 & g2 & Est2 & St).
    rewrite Est in Est2; injection Est2 as -> -> -> ->; apply conn_step_identity in Est as [_ Hid].
    exists c2, s2, n2; split; cbn [wk_conns wk_sockets]; try done.
    + by rewrite Hh.
    + congruence.
    + by rewrite <-F3.
    + congruence.
    + exists sent'; apply St.
    + intros Hdn; destruct (st_end _ _ _ _ _ _ _ _ _ _ _ St Hdn) as (E1 & E2 & _ & E4).
      split; [done|]; split; [done|]; destruct E4 as [E4|E4]; [left|by right].
      exists s2; split; [done|reflexivity].
Qed.

(** C2: a worker counts exactly the bodies.  In a plain HTTP build, from the time
    one of the worker's connections is open, on a network that delivers pieces
    of its response in any order and with any losses, from a server that
    respects the window ([valid_segment]: each piece is within 2^29 bytes of
    what is expected next, and the FIN stands behind the last byte of the
    response and not beyond the window that was advertised): when the worker's
    loop ends, that connection is done and closed, its socket was given the
    whole request to send, what it counted is the body in the first [n] bytes of
    the response; and that is the whole response, unless the socket had been
    closed (by a reset or a timeout) before. *)
Theorem worker_fetches (honest : world -> Prop) (rounds fuel : nat) (w w' : worker) (c0 : conn) (s0 : socket) :
  len stream < M64 -> len (request c0) < M64 -> delivers honest -> honest (wk_world w) ->
  c0 ∈ wk_conns w -> NoDup (handles (wk_conns w)) -> handle c0 = h -> zget (wk_sockets w) h = Some (Some s0) ->
  fresh c0 -> conn_inv stream irs [] iss s0 0 0 ->
  worker_loop env time_ns others rounds fuel w = Ret (Some w') ->
  exists c s n, c ∈ wk_conns w' /\ identity c = identity c0 /\ zget (wk_sockets w') h = Some (Some s) /\
    done c = true /\ closed_cleanly c = true /\ request_queued c = true /\ outgoing c = [] /\
    (exists m, conn_inv stream irs (request c0) iss s n m) /\
    0 <= n <= len stream /\ body_of (ztake n stream) (http c) /\ (n = len stream \/ was_closed s).
Proof using Hplain.
  intros Hlen Hreq Hdel Hw Hin Hnd Hh Hg (f1 & f2 & f3 & f4 & f5 & f6 & f7) Hi.
  assert (Hf : exists c s n, fetching c0 w c s n).
  { exists c0, s0, 0; split; try done; [|by rewrite f6].
    exists []; split; [by exists 0|rewrite ztake_0, f1 by lia; apply counted_nil|exact f2|by rewrite f4|by rewrite f4, f5|by rewrite f6, f7]. }
  clear Hin Hnd Hh Hg f1 f2 f3 f4 f5 f6 f7 Hi; revert w Hw Hf.
  induction rounds as [|rounds IH]; intros w Hw (c & s & n & Hf); cbn [worker_loop]; [done|].
  destruct (round _ _ _ fuel w) as [[[w1 d]|]|] eqn:E; cbn [obind]; try done.
  destruct (round_fetching honest fuel c0 w w1 d c s n Hreq Hdel Hw Hf E) as (Hw1 & c1 & s1 & n1 & Hf1).
  destruct d; [|intros Hl; exact (IH w1 Hw1 (ex_intro _ c1 (ex_intro _ s1 (ex_intro _ n1 Hf1))) Hl)].
  intros [= <-]; apply round_inv in E as (Hall & _); symmetry in Hall; rewrite forallb_forall in Hall.
  destruct Hf1 as [F1 _ _ F4 F5 [sent [[m Hi] D1 D2 D3 D4 D5]] F7].
  assert (Hreq1 : request c1 = request c0) by (unfold identity in F5; congruence).
  assert (Hdn : done c1 = true) by (by apply Hall, list_elem_of_In).
  destruct (F7 Hdn) as (E1 & E2 & E3); pose proof (data_range _ _ _ (inv_data _ _ _ _ _ _ _ Hi)) as Hn.
  rewrite E1, E2, app_nil_r, Hreq1 in D3; subst sent.
  exists c1, s1, n1; split_and!; try done; try lia; [by exists m| |tauto].
  apply counted_body; [rewrite len_ztake; lia|done].
Qed.

End Fetch.

(** ** The response arrives, then a reset *)

#[local] Existing Instance scripted.

(** Events that bring pieces of a short response without its FIN, or send. *)
Definition piece (stream : list Z) (irs : Z) (e : event) : Prop :=
  match e with
  | EvSegment cx ip r => repr_ok r /\ ctl r <> CFin /\
      exists k, 0 <= k /\ k + len (payload r) <= len stream /\ seq_num r = i32 (irs + k) /\
        payload r = ztake (len (payload r)) (zdrop k stream)
  | EvDispatch _ _ => True
  | _ => False
  end.

Definition piece_script (h : Z) (stream : list Z) (irs : Z) (w : script) : Prop :=
  Forall (Forall (fun x => fst x = h /\ piece stream irs (snd x))) w.

Lemma piece_valid stream irs iss sent s n m e :
  len stream <= 536870912 -> conn_inv stream irs sent iss s n m -> piece stream irs e ->
  network e = true /\ valid_event stream irs s n e.
Proof.
  intros Hlen Hi He; destruct e as [cx ip r|cx ok| | | | |]; try done; split; [done|].
  destruct He as (Hr & Hc & k & H1 & H2 & H3 & H4); split; [done|]; exists k.
  pose proof (inv_data _ _ _ _ _ _ _ Hi) as [Hn Hd _]; pose proof (inv_ok _ _ _ _ _ _ _ Hi) as Hok.
  pose proof (len_nonneg (payload r)); destruct (ok_rx s Hok) as [Hb _].
  apply (f_equal len) in Hd; rewrite len_contents, len_ztake, len_zdrop in Hd by done.
  split; try done; unfold rx_next; destruct Hb; lia.
Qed.

Lemma play_delivers h stream irs iss evs ss ss' s sent n m :
  len stream <= 536870912 -> Forall (fun x => fst x = h /\ piece stream irs (snd x)) evs ->
  play evs ss = Ret ss' -> zget ss h = Some (Some s) -> conn_inv stream irs sent iss s n m ->
  exists s', zget ss' h = Some (Some s') /\ rtc (delivery stream irs n) s s'.
Proof.
  intros Hlen Hev; revert ss s m; induction Hev as [|[h' e] evs [Eh He] _ IH]; intros ss s m; cbn [play fst snd] in *.
  { intros [= <-] Hg _; by exists s. }
  subst h'; intros Hp Hg Hi; rewrite (proj2 (sockets_get_iff _ _ _) Hg) in Hp; cbn [obind] in Hp.
  destruct (piece_valid _ _ _ _ _ _ _ _ Hlen Hi He) as [En Hv]; rewrite En in Hp.
  destruct (conn_event s e) as [[[s1 got] took]|] eqn:E; cbn [obind] in Hp; [|done].
  destruct (sockets_set ss h s1) as [ss1|] eqn:Es; cbn [obind] in Hp; [|done].
  destruct (network_inv _ _ _ _ _ _ _ _ _ _ _ Hi En Hv E) as [m1 Hi1].
  destruct (IH ss1 s1 m1 Hp) as (s' & G & R); [by rewrite (sockets_set_other _ _ _ _ _ Es), Z.eqb_refl|done|].
  exists s'; split; [done|]; eapply rtc_l; [by exists e, got, took|exact R].
Qed.

Lemma script_delivers h stream irs iss start :
  len stream <= 536870912 -> @delivers (scripted start) h stream irs iss (piece_script h stream irs).
Proof.
  intros Hlen fuel now cx dev wd ss cx' dev' wd' ss' s sent n m Hw Hp Hg Hi; cbn [poll scripted] in Hp; unfold play_poll in Hp.
  destruct Hw as [|evs w He Hw].
  - injection Hp as _ _ <- <-; split; [constructor|]; by exists s.
  - destruct (play evs ss) as [ss1|] eqn:E; cbn [obind] in Hp; [|done]; injection Hp as _ _ <- <-.
    split; [done|]; eapply play_delivers; [exact Hlen|exact He|exact E|exact Hg|exact Hi].
Qed.

(** The whole response, then a reset behind it. *)
Definition ex_reset_after : tcp_repr :=
  {| TcpWire.src_port := 80; dst_port := 49152; ctl := CRst; seq_num := 1001 + 21; ack_num := None;
     window_len := 0; window_scale := None; max_seg_size := None; sack_permitted := false;
     sack_ranges := no_sack; timestamp := None; payload := [] |}.

Definition ex_download : script :=
  [[(0, EvSegment ex_cx ex_ip (ex_data ex_response))];
   [(0, EvDispatch ex_cx true); (0, EvSegment ex_cx ex_ip ex_reset_after)]].

Lemma ex_download_pieces : piece_script 0 ex_response 1001 ex_download.
Proof.
  assert (Hl : len ex_response = 21) by (vm_compute; reflexivity).
  assert (H1 : piece ex_response 1001 (EvSegment ex_cx ex_ip (ex_data ex_response))).
  { split; [split; cbn [ex_data seq_num ack_num window_len payload]; [done|by intros a [= <-]|lia|lia]|].
    split; [done|]; exists 0; cbn [ex_data seq_num payload]; split; [done|]; split; [lia|]; split; [done|].
    by rewrite zdrop_0, ztake_ge by lia. }
  assert (H2 : piece ex_response 1001 (EvSegment ex_cx ex_ip ex_reset_after)).
  { split; [split; cbn [ex_reset_after seq_num ack_num window_len payload]; try done; (unfold len; cbn; lia)|].
    split; [done|]; exists 21; cbn [ex_reset_after seq_num payload]; change (len (@nil Z)) with 0; split; [done|]; split; [lia|].
    split; [done|]; by rewrite ztake_0 by lia. }
  constructor; [|constructor; [|constructor]].
  - constructor; [by split|constructor].
  - constructor; [by split|constructor; [by split|constructor]].
Qed.

(** The loop ends with the two bytes of the body counted. *)
Lemma worker_fetches_witness : exists s0 w c s n,
  ex_established = Ret s0 /\
  worker_loop example_env ex_time (fun _ g => g) 5 1 (ex_worker ex_download ex_conn s0) = Ret (Some w) /\
  c ∈ wk_conns w /\ bytes_received (http c) = 2 /\ body_of (ztake n ex_response) (http c) /\
  (n = 21 \/ was_closed ex_response 1001 s).
Proof.
  destruct (ex_established_ok ex_response) as (s0 & E & Hi).
  assert (Hrun : match ex_established with
    | Ret s0 => match worker_loop example_env ex_time (fun _ g => g) 5 1 (ex_worker ex_download ex_conn s0) with
                | Ret (Some w) => forallb (fun c => bytes_received (http c) =? 2) (wk_conns w) | _ => false end
    | Panic => false end = true) by (vm_compute; reflexivity).
  rewrite E in Hrun.
  destruct (worker_loop _ _ _ 5 1 _) as [[w|]|] eqn:El; try discriminate Hrun.
  destruct (@worker_fetches example_env no_tls (scripted []) ex_time (fun _ g => g) 0 ex_response 1001 (ex_iss + 1)
    ltac:(vm_compute; reflexivity) (piece_script 0 ex_response 1001) 5 1 (ex_worker ex_download ex_conn s0) w ex_conn s0)
    as (c & s & n & H1 & _ & _ & _ & _ & _ & _ & _ & _ & H2 & H3).
  - vm_compute; reflexivity.
  - vm_compute; reflexivity.
  - apply script_delivers; vm_compute; congruence.
  - exact ex_download_pieces.
  - by left.
  - apply NoDup_singleton.
  - reflexivity.
  - reflexivity.
  - repeat split.
  - exact Hi.
  - exact El.
  - exists s0, w, c, s, n; split; [exact E|]; split; [exact El|]; split; [exact H1|].
    rewrite forallb_forall in Hrun; pose proof (Hrun c (proj1 (list_elem_of_In _ _) H1)) as Hb.
    split; [by apply Z.eqb_eq|]; split; [exact H2|exact H3].
Defined.
