(* ===== verification/Main.v ===== *)
(** The entry point (src/bench/smoltcp-s3/src/lib.rs, [osv_app_main] and
    [exit]): the checks of the configuration, opening the card, the RSS tables
    and the network, one worker per queue, and the verdict on the totals.
    Speeds and times are printed from floating-point numbers; the messages here
    carry the integers they are computed from. *)

From Stdlib Require Import ZArith Lia ZifyBool.
From stdpp Require Import base list list_numbers numbers.
From S2P Require Import Prelude AppConfig Rss Device Http TcpWire Iface Conn Network Probe Worker.

(** ** The console *)

Variant main_message : Type :=
| Banner (workers conns mib : Z) (stub http : bool)
| Target (ip : list Z) (port : Z) (host : list Z)
| TargetUnset
| MustBeNonzero
| Clamping (asked n : Z)
| NoUsableNic
| CannotPredict
| FromProbe (m : probe_message)
| FromNetwork (m : net_message)
| WorkerLine (i bytes elapsed_ns : Z)
| Aggregate (bytes elapsed_ns : Z)
| Connections (clean total failed : Z)
| SynRetries (n : Z)
| MisroutedRx (n : Z)
| HttpStatus (bad first_bad : Z)
| FirstBadCode (code : Z)
| TxDrops (no_mbuf ring_full : Z)
| NicRx (pkts imissed ierrors nombuf : Z)
| NicTx (pkts oerrors : Z)
| NicDropped
| QueueErrors (q pkts errors : Z)
| Setup (ms conns : Z)
| Blocks (requested planned mib bytes : Z)
| OnTheWire (bytes expected : Z)
| PlaintextBody (bytes : Z)
| CompleteStub (conns : Z)
| Complete (bytes : Z)
| Incomplete (abandoned unrequested diff : Z) (over : bool).

(** ** The device *)

(** What the calls of the shim answer besides the driver's set-up: the queues
    the device has, its RSS tables, and its statistics at the end. *)
Record card : Type := {
  shim_get_dev_info : Z * Z;
  card_driver : eth_driver;
  card_rss : rss_device;
  shim_eth_stats : option (list Z);
  shim_eth_qstats : Z * list Z * list Z;
}.

(** The counters all threads share, as loaded at the end. *)
Record shared : Type := {
  misrouted_drops : Z;
  tx_alloc_fail : Z;
  tx_burst_fail : Z;
  shared_stats : stats;
}.

Section Main.
Context (env : build_env) (dev : card).

Definition mib (n : Z) : Z := n / (1024 * 1024).

(* [lib.rs 1471-1475 osv_app_main] *)
Definition greeting : list main_message :=
  [Banner (N_WORKERS_REQ env) (CONNS_PER_WORKER env) (mib (BLOCK_SIZE env)) (STUB_TLS_AFTER_HANDSHAKE env)
     (PLAIN_HTTP env);
   Target (TARGET_IP env) (TARGET_PORT env) (TARGET_HOST env)].

(* [lib.rs 1480-1480 osv_app_main] *)
Definition some_zero : bool :=
  (OBJECT_SIZE env =? 0) || (BLOCK_SIZE env =? 0) || (CONNS_PER_WORKER env =? 0) || (N_WORKERS_REQ env =? 0).

(* [lib.rs 1487-1491 osv_app_main] *)
Definition clamp_workers : Z :=
  let '(max_rx, max_tx) := shim_get_dev_info dev in
  let dev_max := Z.min max_rx max_tx in
  if dev_max =? 0 then N_WORKERS_REQ env else Z.min (N_WORKERS_REQ env) dev_max.

(** ** Setting up *)

(** The program ends by calling [exit], which never returns. *)
(* [lib.rs 1661-1663 exit] *)
Variant main_end (A : Type) : Type := Exited | Running (x : A).
#[global] Arguments Exited {A}.
#[global] Arguments Running {A}.

(* [lib.rs 1523-1537 osv_app_main] *)
Definition new_ctx (mac : list Z) (net : ip_address * Z * ip_address * list Z) (pool i : Z) : worker_ctx :=
  let '(ip, prefix, gw, gw_mac) := net in
  {| ctx_queue_id := u16 i; ctx_pool := pool; ctx_mac := mac; ctx_ip := ip; ctx_prefix_len := prefix; ctx_gateway_ip := gw;
     ctx_gateway_mac := gw_mac; first_block := u64 (i * CONNS_PER_WORKER env);
     ctx_bytes_received := 0; ctx_elapsed_ns := 0; bytes_expected := 0; conns_total := 0; conns_clean := 0 |}.

(** The index panics without a pool for the worker. *)
(* [lib.rs 1518-1539 osv_app_main] *)
Fixpoint make_ctxs (k : nat) (i : Z) (pools mac : list Z) (net : ip_address * Z * ip_address * list Z)
    (ctxs : list worker_ctx) : outcome (list worker_ctx) :=
  match k with
  | O => Ret ctxs
  | S k => let! pool := index pools i in make_ctxs k (i + 1) pools mac net (ctxs ++ [new_ctx mac net pool i])
  end.

(** Up to the workers: the RSS tables and their contexts, and what is printed;
    [None] when the fuel of the network's loops is out.  [start] and [wire] are
    the interface of the DHCP exchange and the device of queue 0. *)
(* [lib.rs 1471-1539 osv_app_main] *)
Definition main_setup `{NetStack} (dhcp_fuel arp_fuel : nat) (time_ns : nat -> Z) (start : iface) (wire : nic)
  : outcome (option (main_end (rss_state * list worker_ctx) * list main_message)) :=
  let log := greeting in
  if bytes_eq (TARGET_IP env) [0; 0; 0; 0] then Ret (Some (Exited, log ++ [TargetUnset]))
  else if some_zero then Ret (Some (Exited, log ++ [MustBeNonzero]))
  else
    let n := clamp_workers in
    let log := if negb (n =? N_WORKERS_REQ env) then log ++ [Clamping (N_WORKERS_REQ env) n] else log in
    let! (opened, p) := probe_and_open (card_driver dev) n in
    let log := log ++ map FromProbe (probe_log p) in
    match opened with
    | None => Ret (Some (Exited, log ++ [NoUsableNic]))
    | Some (pools, mac) =>
        let! (loaded, rss) := load_rss_config (card_rss dev) n rss_init in
        if negb loaded then Ret (Some (Exited, log ++ [CannotPredict]))
        else
          let! _ := index pools 0 in
          let! r := learn_network dhcp_fuel arp_fuel mac time_ns start wire in
          match r with
          | None => Ret None
          | Some (None, net_log, _) => Ret (Some (Exited, log ++ map FromNetwork net_log))
          | Some (Some net, net_log, _) =>
              let! ctxs := make_ctxs (Z.to_nat n) 0 pools mac net [] in
              Ret (Some (Running (rss, ctxs), log ++ map FromNetwork net_log))
          end
    end.

(** ** The totals *)

Record totals : Type := { total_b : Z; total_expected : Z; all_conns : Z; all_clean : Z }.

(* [lib.rs 1553-1558 osv_app_main] one worker's share. *)
Definition add_worker (t : totals) (ctx : worker_ctx) : totals :=
  {| total_b := u64 (total_b t + ctx_bytes_received ctx);
     total_expected := u64 (total_expected t + bytes_expected ctx);
     all_conns := u64 (all_conns t + conns_total ctx);
     all_clean := u64 (all_clean t + conns_clean ctx) |}.

(* [lib.rs 1548-1561 osv_app_main] *)
Definition totals_of (ctxs : list worker_ctx) : totals :=
  fold_left add_worker ctxs {| total_b := 0; total_expected := 0; all_conns := 0; all_clean := 0 |}.

(** ** The verdict *)

(* [lib.rs 1573-1573 osv_app_main] *)
Definition ranges_ok (t : totals) : bool := (all_clean t =? all_conns t) && (0 <? all_conns t).

(* [lib.rs 1574-1574 osv_app_main] *)
Definition planned_conns (n_workers : Z) : Z := u64 (n_workers * CONNS_PER_WORKER env).

(* [lib.rs 1575-1575 osv_app_main] *)
Definition covered (n_workers : Z) (t : totals) : bool := all_conns t =? planned_conns n_workers.

(* [lib.rs 1636-1640 osv_app_main] *)
Definition bytes_ok (t : totals) : bool :=
  if STUB_TLS_AFTER_HANDSHAKE env then total_expected t <=? total_b t else total_b t =? total_expected t.

(* [lib.rs 1642-1655 osv_app_main] *)
Definition verdict (n_workers misrouted : Z) (t : totals) : main_message :=
  if ranges_ok t && covered n_workers t && bytes_ok t && (misrouted =? 0) then
    if STUB_TLS_AFTER_HANDSHAKE env then CompleteStub (all_conns t) else Complete (total_b t)
  else
    Incomplete (u64 (all_conns t - all_clean t)) (saturating_sub (planned_conns n_workers) (all_conns t))
      (if total_expected t <? total_b t then u64 (total_b t - total_expected t)
       else u64 (total_expected t - total_b t))
      (total_expected t <? total_b t).

(** ** The report *)

(* [lib.rs 1559-1560 osv_app_main] *)
Definition worker_lines (ctxs : list worker_ctx) : list main_message :=
  imap (fun i ctx => WorkerLine (Z.of_nat i) (ctx_bytes_received ctx) (ctx_elapsed_ns ctx)) ctxs.

(* [lib.rs 1585-1595 osv_app_main] *)
Definition status_report (c : status_counters) : list main_message :=
  HttpStatus (BAD_STATUS c) (FIRST_BAD_STATUS c) ::
  if 0 <? BAD_STATUS c then [FirstBadCode (FIRST_BAD_STATUS c)] else [].

(* [lib.rs 1603-1611 osv_app_main] *)
Definition nic_report : outcome (list main_message) :=
  match shim_eth_stats dev with
  | None => Ret []
  | Some st =>
      let! s0 := index st 0 in let! s1 := index st 1 in let! s4 := index st 4 in
      let! s5 := index st 5 in let! s6 := index st 6 in let! s7 := index st 7 in
      Ret (NicRx s0 s4 s5 s7 :: NicTx s1 s6 :: if (0 <? s4) || (0 <? s7) then [NicDropped] else [])
  end.

(** The loop; an index panics past the 32 entries. *)
(* [lib.rs 1615-1619 osv_app_main] *)
Fixpoint queue_loop (k : nat) (q : Z) (qi qe : list Z) (log : list main_message) : outcome (list main_message) :=
  match k with
  | O => Ret log
  | S k =>
      let! e := index qe q in
      if 0 <? e then let! p := index qi q in queue_loop k (q + 1) qi qe (log ++ [QueueErrors q p e])
      else queue_loop k (q + 1) qi qe log
  end.

(* [lib.rs 1612-1620 osv_app_main] *)
Definition queue_report (n : Z) : outcome (list main_message) :=
  let '(nq, qi, qe) := shim_eth_qstats dev in
  if 0 <? nq then queue_loop (Z.to_nat (Z.min nq n)) 0 qi qe [] else Ret [].

(** Everything printed once the workers have been joined. *)
(* [lib.rs 1546-1655 osv_app_main] *)
Definition main_report (n overall_ns : Z) (ctxs : list worker_ctx) (sh : shared) : outcome (list main_message) :=
  let t := totals_of ctxs in
  let g := shared_stats sh in
  let! nic := nic_report in
  let! queues := queue_report n in
  Ret (worker_lines ctxs ++
       [Aggregate (total_b t) overall_ns;
        Connections (all_clean t) (all_conns t) (CONNS_FAILED g);
        SynRetries (SYN_RETRIES g); MisroutedRx (misrouted_drops sh)] ++
       status_report (codes g) ++ [TxDrops (tx_alloc_fail sh) (tx_burst_fail sh)] ++ nic ++ queues ++
       [Setup (SETUP_MS_TOTAL g) (all_conns t);
        Blocks (all_conns t) (planned_conns n) (mib (BLOCK_SIZE env)) (total_expected t);
        if STUB_TLS_AFTER_HANDSHAKE env then OnTheWire (total_b t) (total_expected t) else PlaintextBody (total_b t);
        verdict n (misrouted_drops sh) t]).

(** The whole program: what is printed until [exit], and whether the device was
    stopped.  [join] runs the workers and answers what they have stored in their
    contexts with the counters they have left; [None] when it, or a loop of the
    network set-up, does not end. *)
(* [lib.rs 1469-1659 osv_app_main] *)
Definition osv_app_main `{NetStack} (dhcp_fuel arp_fuel : nat) (time_ns : nat -> Z) (start : iface) (wire : nic)
    (join : rss_state -> list worker_ctx -> outcome (option (list worker_ctx * shared * Z)))
  : outcome (option (list main_message * bool)) :=
  let! r := main_setup dhcp_fuel arp_fuel time_ns start wire in
  match r with
  | None => Ret None
  | Some (Exited, log) => Ret (Some (log, false))
  | Some (Running (rss, ctxs), log) =>
      let! r := join rss ctxs in
      match r with
      | None => Ret None
      | Some (ctxs, sh, overall_ns) =>
          let! report := main_report clamp_workers overall_ns ctxs sh in
          Ret (Some (log ++ report, true))
      end
  end.

End Main.
