(* ===== verification/Verdict.v ===== *)
(** What the program's verdict says: COMPLETE is printed exactly when every
    worker opened all its connections, all of them closed cleanly, the bytes
    counted add up to the blocks, and no frame was misrouted. *)

From Stdlib Require Import ZArith Lia ZifyBool.
From stdpp Require Import base list list_numbers numbers.
From S2P Require Import Prelude AppConfig Rss Device Http TcpWire Iface Conn Network Probe Worker WorkerRun Main.

(** ** Sums of the workers' counters *)

Definition sum_of (f : worker_ctx -> Z) (ctxs : list worker_ctx) : Z := foldr (fun c n => f c + n) 0 ctxs.

Lemma totals_of_sums ctxs :
  totals_of ctxs = {| total_b := u64 (sum_of ctx_bytes_received ctxs); total_expected := u64 (sum_of bytes_expected ctxs);
                      all_conns := u64 (sum_of conns_total ctxs); all_clean := u64 (sum_of conns_clean ctxs) |}.
Proof.
  assert (G : forall b e n c, fold_left add_worker ctxs {| total_b := u64 b; total_expected := u64 e; all_conns := u64 n; all_clean := u64 c |} =
    {| total_b := u64 (b + sum_of ctx_bytes_received ctxs); total_expected := u64 (e + sum_of bytes_expected ctxs);
       all_conns := u64 (n + sum_of conns_total ctxs); all_clean := u64 (c + sum_of conns_clean ctxs) |}).
  { unfold sum_of; induction ctxs as [|x ctxs IH]; intros b e n c; cbn [fold_left foldr]; [by rewrite !Z.add_0_r|].
    unfold add_worker at 2; cbn [total_b total_expected all_conns all_clean]; rewrite !u64_add, IH, !Z.add_assoc; done. }
  apply (G 0 0 0 0).
Qed.

Lemma sum_of_le f b ctxs :
  Forall (fun c => 0 <= f c <= b) ctxs -> 0 <= sum_of f ctxs <= len ctxs * b /\
  (sum_of f ctxs = len ctxs * b <-> Forall (fun c => f c = b) ctxs).
Proof.
  intros Hf; unfold sum_of; induction Hf as [|c ctxs Hc _ [IH1 IH2]]; cbn [foldr].
  { split; [split; [done|reflexivity]|split; [constructor|done]]. }
  rewrite len_cons; split; [lia|]; split.
  - intros E; constructor; [nia|apply IH2; nia].
  - intros E; inversion E as [|? ? E1 E2]; subst; apply IH2 in E2; nia.
Qed.

Lemma sum_of_eq f g ctxs : Forall (fun c => f c = g c) ctxs -> sum_of f ctxs = sum_of g ctxs.
Proof. intros Hf; unfold sum_of; induction Hf as [|c ctxs E _ IH]; cbn [foldr]; [done|congruence]. Qed.

Lemma sum_of_scale f k ctxs : sum_of (fun c => f c * k) ctxs = sum_of f ctxs * k.
Proof. unfold sum_of; induction ctxs as [|c ctxs IH]; cbn [foldr]; [done|]; rewrite IH; lia. Qed.

Lemma sum_of_le2 f g ctxs :
  Forall (fun c => f c <= g c) ctxs -> sum_of f ctxs <= sum_of g ctxs /\
  (sum_of f ctxs = sum_of g ctxs -> Forall (fun c => f c = g c) ctxs).
Proof.
  intros Hf; unfold sum_of; induction Hf as [|c ctxs E _ [IH1 IH2]]; cbn [foldr]; [split; [lia|constructor]|].
  split; [lia|]; intros Hs; constructor; [lia|apply IH2; lia].
Qed.

Section Verdict.
Context (env : build_env).

(** What every worker leaves, whether it ran or returned early. *)
Record worker_ok (ctx : worker_ctx) : Prop := {
  wo_clean : 0 <= conns_clean ctx <= conns_total ctx;
  wo_total : conns_total ctx <= CONNS_PER_WORKER env;
  wo_expected : bytes_expected ctx = u64 (conns_total ctx * BLOCK_SIZE env);
  wo_received : 0 <= ctx_bytes_received ctx;
}.

Lemma workers_ok (P : worker_ctx -> Prop) ctxs :
  Forall worker_ok ctxs -> (forall c, worker_ok c -> P c) -> Forall P ctxs.
Proof using Type. intros Hw Hp; induction Hw; constructor; auto. Qed.

Definition is_complete (m : main_message) : bool :=
  match m with Complete _ | CompleteStub _ => true | _ => false end.

(** The bytes of all blocks. *)
Definition whole (n : Z) : Z := n * CONNS_PER_WORKER env * BLOCK_SIZE env.

Lemma expected_sum ctxs :
  Forall worker_ok ctxs -> sum_of conns_total ctxs * BLOCK_SIZE env < M64 ->
  sum_of bytes_expected ctxs = sum_of conns_total ctxs * BLOCK_SIZE env.
Proof using Type.
  intros Hw Hlt; rewrite <-sum_of_scale; apply sum_of_eq; pose proof (BLOCK_SIZE_range env) as Hb.
  unfold in_u64 in Hb; revert Hlt; unfold sum_of; induction Hw as [|c ctxs [H1 H2 H3 H4] Hw IH]; intros Hlt; [constructor|].
  cbn [foldr] in Hlt; fold (sum_of conns_total ctxs) in *.
  assert (0 <= sum_of conns_total ctxs).
  { apply (sum_of_le conns_total (CONNS_PER_WORKER env)); apply (workers_ok _ ctxs Hw); intros x [? ? ? ?]; lia. }
  constructor; [rewrite H3; apply u64_small; nia|apply IH; nia].
Qed.

(** The totals the verdict is given, when nothing wraps. *)
Definition exact_totals (counted opened clean : Z) : totals :=
  {| total_b := counted; total_expected := opened * BLOCK_SIZE env; all_conns := opened; all_clean := clean |}.

Lemma verdict_of n misrouted counted opened clean :
  0 <= clean <= opened -> opened <= n * CONNS_PER_WORKER env -> n * CONNS_PER_WORKER env < M64 ->
  0 <= counted < M64 -> opened * BLOCK_SIZE env < M64 ->
  let m := verdict env n misrouted (exact_totals counted opened clean) in
  (is_complete m = true <->
     0 < n * CONNS_PER_WORKER env /\ misrouted = 0 /\ opened = n * CONNS_PER_WORKER env /\ clean = opened /\
     (if STUB_TLS_AFTER_HANDSHAKE env then opened * BLOCK_SIZE env <= counted else counted = opened * BLOCK_SIZE env)) /\
  (is_complete m = true -> STUB_TLS_AFTER_HANDSHAKE env = false -> m = Complete counted) /\
  (is_complete m = false ->
     m = Incomplete (opened - clean) (n * CONNS_PER_WORKER env - opened)
           (Z.abs (counted - opened * BLOCK_SIZE env)) (opened * BLOCK_SIZE env <? counted)).
Proof using Type.
  intros H1 H2 H3 H4 H5 m; pose proof (BLOCK_SIZE_range env) as Hb; unfold in_u64 in Hb.
  assert (H6 : 0 <= opened * BLOCK_SIZE env) by nia.
  subst m; unfold verdict, ranges_ok, covered, bytes_ok, planned_conns, exact_totals.
  cbn [total_b total_expected all_conns all_clean]; rewrite (u64_small (n * _)) by lia.
  set (e := opened * BLOCK_SIZE env) in *; set (N := n * CONNS_PER_WORKER env) in *; clearbody e N.
  assert (Hinc : Incomplete (u64 (opened - clean)) (saturating_sub N opened)
      (if e <? counted then u64 (counted - e) else u64 (e - counted)) (e <? counted) =
    Incomplete (opened - clean) (N - opened) (Z.abs (counted - e)) (e <? counted)).
  { unfold saturating_sub; rewrite (u64_small (opened - clean)), Z.max_r by lia; f_equal.
    destruct (Z.ltb_spec e counted); rewrite u64_small; lia. }
  rewrite Hinc; clear Hinc Hb H3; destruct (STUB_TLS_AFTER_HANDSHAKE env).
  all: match goal with |- context [if ?b then _ else _] => destruct b eqn:E end; cbn [is_complete].
  all: split; [split; [try done; intros _|intros Hx; try done; exfalso]|split; [intros; try done; congruence|try done]].
  all: lia.
Qed.

(** Every worker opened all its connections, and all of them closed cleanly. *)
Definition full (ctxs : list worker_ctx) : Prop :=
  Forall (fun c => conns_total c = CONNS_PER_WORKER env /\ conns_clean c = CONNS_PER_WORKER env) ctxs.

Lemma totals_exact n ctxs :
  Forall worker_ok ctxs -> len ctxs = n -> n * CONNS_PER_WORKER env < M64 -> whole n < M64 ->
  sum_of ctx_bytes_received ctxs < M64 ->
  let counted := sum_of ctx_bytes_received ctxs in
  let opened := sum_of conns_total ctxs in
  let clean := sum_of conns_clean ctxs in
  totals_of ctxs = exact_totals counted opened clean /\
  0 <= clean <= opened /\ opened <= n * CONNS_PER_WORKER env /\ 0 <= counted /\ opened * BLOCK_SIZE env < M64 /\
  (opened = n * CONNS_PER_WORKER env /\ clean = opened <-> full ctxs).
Proof using Type.
  intros Hw Hn Hc Hb Hr counted opened clean.
  pose proof (BLOCK_SIZE_range env) as Hbs; unfold in_u64 in Hbs.
  assert (Hopened : 0 <= opened <= n * CONNS_PER_WORKER env /\
    (opened = n * CONNS_PER_WORKER env <-> Forall (fun c => conns_total c = CONNS_PER_WORKER env) ctxs)).
  { rewrite <-Hn; apply sum_of_le; apply (workers_ok _ ctxs Hw); intros x [? ? ? ?]; lia. }
  destruct (sum_of_le2 conns_clean conns_total ctxs) as [Hcl1 Hcl2]; [apply (workers_ok _ ctxs Hw); intros x [? ? ? ?]; lia|].
  fold opened clean in Hcl1, Hcl2.
  assert (Hclean : 0 <= clean) by (apply (sum_of_le conns_clean (CONNS_PER_WORKER env)); apply (workers_ok _ ctxs Hw); intros x [? ? ? ?]; lia).
  assert (Hcounted : 0 <= counted).
  { subst counted; clear -Hw; unfold sum_of; induction Hw as [|c l [_ _ _ H] _ IH]; cbn [foldr]; lia. }
  unfold whole in *; assert (Hexp : sum_of bytes_expected ctxs = opened * BLOCK_SIZE env) by (apply expected_sum; [done|nia]).
  split.
  { rewrite totals_of_sums; fold counted opened clean; rewrite Hexp.
    by rewrite (u64_small counted), (u64_small opened), (u64_small clean), (u64_small (opened * _)) by nia. }
  split; [lia|]; split; [lia|]; split; [done|]; split; [nia|]; split.
  - intros [A1 A2]; apply Hopened in A1; specialize (Hcl2 A2); unfold full; rewrite List.Forall_forall in *; intros x Hx.
    rewrite (Hcl2 x Hx), (A1 x Hx); done.
  - intros Hf; split.
    + apply Hopened; clear -Hf; induction Hf as [|x l [? ?] _ IH]; constructor; done.
    + apply sum_of_eq; clear -Hf; induction Hf as [|x l [? ?] _ IH]; constructor; [congruence|done].
Qed.

(** C6: the verdict is exact.  For workers that opened at most their connections
    and account for them, when the totals fit 64 bits: COMPLETE is printed
    exactly when there is a connection at all, no frame was misrouted, every
    worker opened all its connections, all of them closed cleanly, and the
    bytes counted are all blocks' bytes (at least as many where ciphertext is
    counted).  It then names the bytes, or the connections; and if no worker
    counted more than its blocks, each counted exactly its own.  INCOMPLETE
    otherwise names the connections not closed cleanly, those never opened,
    and the difference in bytes with its sign. *)
Theorem verdict_exact (n misrouted : Z) (ctxs : list worker_ctx) :
  Forall worker_ok ctxs -> len ctxs = n -> n * CONNS_PER_WORKER env < M64 -> whole n < M64 ->
  sum_of ctx_bytes_received ctxs < M64 ->
  let counted := sum_of ctx_bytes_received ctxs in
  let opened := sum_of conns_total ctxs in
  let m := verdict env n misrouted (totals_of ctxs) in
  (is_complete m = true <->
     0 < n * CONNS_PER_WORKER env /\ misrouted = 0 /\
     full ctxs /\
     (if STUB_TLS_AFTER_HANDSHAKE env then whole n <= counted else counted = whole n)) /\
  (is_complete m = true -> STUB_TLS_AFTER_HANDSHAKE env = false ->
     m = Complete (whole n) /\
     (Forall (fun c => ctx_bytes_received c <= CONNS_PER_WORKER env * BLOCK_SIZE env) ctxs ->
      Forall (fun c => ctx_bytes_received c = CONNS_PER_WORKER env * BLOCK_SIZE env) ctxs)) /\
  (is_complete m = false ->
     m = Incomplete (opened - sum_of conns_clean ctxs) (n * CONNS_PER_WORKER env - opened)
           (Z.abs (counted - opened * BLOCK_SIZE env)) (opened * BLOCK_SIZE env <? counted)).
Proof using Type.
  intros Hw Hn Hc Hb Hr counted opened m.
  destruct (totals_exact n ctxs Hw Hn Hc Hb Hr) as (Et & T1 & T2 & T3 & T4 & T5); fold counted opened in Et, T1, T2, T3, T4, T5.
  subst m; rewrite Et.
  destruct (verdict_of n misrouted counted opened (sum_of conns_clean ctxs)) as (V1 & V2 & V3); [lia..|].
  set (m := verdict _ _ _ _) in *; clearbody m; split; [|split; [|exact V3]].
  - rewrite V1; unfold whole; split.
    + intros (A1 & A2 & A3 & A4 & A5); split; [done|]; split; [done|]; split; [by apply T5|by rewrite <-A3].
    + intros (A1 & A2 & A3 & A4); apply T5 in A3 as [A3 A5]; by rewrite A3 in *.
  - intros Hm Hs; rewrite (V2 Hm Hs); apply V1 in Hm as (_ & _ & A3 & _ & A5); rewrite Hs in A5; unfold whole.
    split; [f_equal; by rewrite A5, A3|]; intros Hle.
    destruct (sum_of_le2 ctx_bytes_received (fun _ => CONNS_PER_WORKER env * BLOCK_SIZE env) ctxs Hle) as [_ He].
    apply He; fold counted; rewrite A5, A3, <-Hn; clear; induction ctxs as [|x l IH]; [done|].
    cbn [sum_of foldr] in *; unfold sum_of in IH; rewrite <-IH, len_cons; lia.
Qed.

End Verdict.

(** ** Two workers of the default configuration *)

Definition ex_left (clean received : Z) : worker_ctx :=
  {| ctx_queue_id := 0; ctx_pool := 100; ctx_mac := []; ctx_ip := []; ctx_prefix_len := 24; ctx_gateway_ip := []; ctx_gateway_mac := [];
     first_block := 0; ctx_bytes_received := received; ctx_elapsed_ns := 0; bytes_expected := 24 * 67108864;
     conns_total := 24; conns_clean := clean |}.

(** All clean and byte-exact; and one connection of the second cut short. *)
Lemma verdict_exact_witness :
  verdict example_env 2 0 (totals_of [ex_left 24 (24 * 67108864); ex_left 24 (24 * 67108864)]) = Complete (48 * 67108864) /\
  verdict example_env 2 0 (totals_of [ex_left 24 (24 * 67108864); ex_left 23 (23 * 67108864)]) =
    Incomplete 1 0 67108864 false.
Proof.
  assert (Hok : forall clean received, 0 <= clean <= 24 -> 0 <= received -> worker_ok example_env (ex_left clean received)).
  { intros clean received Hc Hr; split; cbn [conns_clean conns_total bytes_expected ctx_bytes_received ex_left].
    - exact Hc.
    - vm_compute; congruence.
    - vm_compute; reflexivity.
    - exact Hr. }
  destruct (verdict_exact example_env 2 0 [ex_left 24 (24 * 67108864); ex_left 24 (24 * 67108864)]) as (_ & H2 & _).
  - constructor; [apply Hok; lia|constructor; [apply Hok; lia|constructor]].
  - reflexivity.
  - vm_compute; reflexivity.
  - vm_compute; reflexivity.
  - vm_compute; reflexivity.
  - destruct (verdict_exact example_env 2 0 [ex_left 24 (24 * 67108864); ex_left 23 (23 * 67108864)]) as (_ & _ & H3).
    + constructor; [apply Hok; lia|constructor; [apply Hok; lia|constructor]].
    + reflexivity.
    + vm_compute; reflexivity.
    + vm_compute; reflexivity.
    + vm_compute; reflexivity.
    + split; [exact (proj1 (H2 eq_refl eq_refl))|exact (H3 eq_refl)].
Defined.
