(* ===== verification/Program.v ===== *)
(** The whole program: what it takes to start the workers, what each of them
    is given, and what COMPLETE says about the connections they drove. *)

From Stdlib Require Import ZArith Lia ZifyBool.
From stdpp Require Import base list list_numbers numbers.
From S2P Require Import Prelude AppConfig Rss Device Http TcpWire Iface TcpState TcpSocket Conn ConnPlain Network Plan Probe.
From S2P Require Import TcpHandshake Worker NetEvents WorkerRun WorkerFetch Main Verdict.

(** ** What a worker leaves *)

Section Left.
Context (env : build_env) (rss : rss_state) `{Tls} `{NetIface} (time_ns : nat -> Z) (others : nat -> stats -> stats).
Context (server_name_ok : bool) (client_new : Z -> result session tls_error) (ctx : worker_ctx).

(** The connections of a worker that is opening them: each for one block. *)
Definition for_blocks (w : worker) (n : Z) : Prop :=
  Forall (fun c => expected c = BLOCK_SIZE env) (wk_conns w) /\ len (wk_conns w) <= n.

Lemma for_blocks_nil w n : wk_conns w = [] -> 0 <= n -> for_blocks w n.
Proof using Type. intros E Hn; unfold for_blocks; rewrite E; split; [constructor|exact Hn]. Qed.

Lemma open_conn_blocks ports hs i w w' r n :
  for_blocks w n -> open_conn env time_ns client_new ctx ports hs i w = Ret (w', r) -> for_blocks w' (n + 1).
Proof using Type.
  intros [H1 H2]; unfold open_conn; destruct (block_range env (first_block ctx) i) as [first last] eqn:Eb.
  destruct (index ports i) as [port|]; cbn [obind]; [|done].
  destruct (index hs i) as [h|]; cbn [obind]; [|done].
  destruct (sockets_get _ h) as [s|]; cbn [obind]; [|done].
  destruct (connect _ _ _ s) as [[[[]|e] s'] cx]; (destruct (sockets_set _ h s') as [ss|]; cbn [obind]; [|done]).
  2: { intros [= <- _]; split; [done|cbn; lia]. }
  destruct (build_range_request _ _ _ _) as [[buf k]|]; cbn [obind]; [|done].
  destruct (if PLAIN_HTTP env then _ else _) as [session|e]; [|intros [= <- _]; split; [done|cbn; lia]].
  destruct (slice buf 0 k) as [req|]; cbn [obind]; [|done]; intros [= <- _]; split; cbn [wk_conns push_conn with_socket].
  - apply Forall_app; split; [done|]; constructor; [|constructor].
    pose proof (block_range_size env (first_block ctx) i) as Hs; rewrite Eb in Hs; exact Hs.
  - rewrite len_app; change (len [_]) with 1; lia.
Qed.

Lemma open_conns_blocks ports hs k i w w' r n :
  for_blocks w n -> open_conns env time_ns client_new ctx ports hs k i w = Ret (w', r) -> for_blocks w' (n + Z.of_nat k).
Proof using Type.
  revert i w n; induction k as [|k IH]; intros i w n Hw; cbn [open_conns].
  { intros [= <- <-]; by rewrite Z.add_0_r. }
  destruct (open_conn _ _ _ _ _ _ i w) as [[w1 r1]|] eqn:E; cbn [obind]; [|done].
  apply (open_conn_blocks _ _ _ _ _ _ n Hw) in E; destruct r1.
  - intros [= <- <-]; destruct E; split; [done|lia].
  - intros E2; apply (IH _ _ _ E) in E2; by replace (n + Z.of_nat (S k)) with (n + 1 + Z.of_nat k) by lia.
Qed.

Lemma worker_setup_blocks fuel g w r :
  worker_setup env rss time_ns server_name_ok client_new ctx fuel g = Ret (Some (w, r)) ->
  for_blocks w (Z.max 0 (CONNS_PER_WORKER env)).
Proof using Type.
  unfold worker_setup; destruct (build_owned_ports _ _ _ _ _) as [[owned cnt]|]; cbn [obind]; [|done].
  destruct (worker_device _ _) as [dev|]; cbn [obind]; [|done].
  destruct (worker_interface _ _ _) as [[cx|]|]; cbn [obind]; try done.
  destruct (add_sockets _ _ _) as [[ss hs]|]; cbn [obind]; [|done].
  destruct server_name_ok; cbn [negb]; [|intros [= <- _]; apply for_blocks_nil; [done|lia]].
  destruct (pick_ports _ _ _) as [ports|]; cbn [obind]; [|done].
  match goal with |- context [open_conns _ _ _ _ _ _ ?k _ ?w] => set (w0 := w); set (k0 := k) end.
  destruct (open_conns _ _ _ _ _ _ k0 0 w0) as [[w1 r1]|] eqn:E; cbn [obind]; [|done]; intros [= <- <-].
  assert (H0' : for_blocks w0 0).
  { apply for_blocks_nil; [subst w0; by destruct (len ports <? _)|done]. }
  apply (open_conns_blocks _ _ _ _ _ _ _ _ H0') in E; destruct E as [E1 E2]; split; [done|].
  unfold k0, saturating_sub, FAULT_ABANDON_CONNS in E2; lia.
Qed.

Definition unstarted (c : worker_ctx) : Prop :=
  ctx_bytes_received c = 0 /\ bytes_expected c = 0 /\ conns_total c = 0 /\ conns_clean c = 0.

(** How a worker's context [ctx'] comes about: it returned early, or ran the
    connections it had opened, at most as many as configured, to their end. *)
Definition ran (ctx' : worker_ctx) (w : worker) : Prop :=
  ctx' = ctx \/
  exists w0 rounds fuel, for_blocks w0 (CONNS_PER_WORKER env) /\
    worker_run env time_ns others ctx rounds fuel w0 = Ret (Some (ctx', w)).

Lemma worker_thread_ran rounds fuel g ctx' w :
  worker_thread env rss time_ns others server_name_ok client_new ctx rounds fuel g = Ret (Some (ctx', w)) ->
  ran ctx' w.
Proof using Type.
  unfold worker_thread; assert (Hc : 0 <= CONNS_PER_WORKER env) by apply u64_range.
  destruct (worker_setup _ _ _ _ _ _ fuel g) as [[[w0 [|]]|]|] eqn:Es; cbn [obind]; try done.
  { intros [= <- <-]; by left. }
  apply worker_setup_blocks in Es; rewrite Z.max_r in Es by done; intros Hr; right; by exists w0, rounds, fuel.
Qed.

(** The connections of a worker that has run, all of them ended. *)
Record all_fetched (ctx' : worker_ctx) (conns : list conn) : Prop := {
  af_total : conns_total ctx' = len conns;
  af_done : Forall (fun c => done c = true) conns;
  af_expected : Forall (fun c => expected c = BLOCK_SIZE env) conns;
  af_received : ctx_bytes_received ctx' = u64 (received conns);
  af_clean : conns_clean ctx' = conns_total ctx' -> Forall (fun c => closed_cleanly c = true) conns;
}.

Lemma ran_ok ctx' w :
  unstarted ctx -> ran ctx' w ->
  worker_ok env ctx' /\ (0 < conns_total ctx' -> all_fetched ctx' (wk_conns w)).
Proof using Type.
  intros (U1 & U2 & U3 & U4); assert (Hc : 0 <= CONNS_PER_WORKER env) by apply u64_range.
  intros [-> |(w0 & rounds & fuel & [Hb Hl] & Hr)].
  { split; [|lia]; split; rewrite ?U1, ?U2, ?U3, ?U4; try lia; done. }
  destruct (worker_run_inv env time_ns others ctx rounds fuel w0 w ctx' Hr) as (e1 & e2 & -> & Hd & Hid & _); clear Hr.
  pose proof (expected_kept env _ _ Hid Hb) as Hb'.
  assert (Hlen : len (wk_conns w) = len (wk_conns w0)).
  { pose proof (f_equal len Hid) as E; by rewrite !len_map in E. }
  pose proof (partition_len closed_cleanly (wk_conns w)) as Hp.
  pose proof (len_nonneg (List.filter closed_cleanly (wk_conns w))).
  pose proof (len_nonneg (List.filter (fun c => negb (closed_cleanly c)) (wk_conns w))).
  unfold worker_results; split; [|intros _; split]; cbn [conns_total conns_clean bytes_expected ctx_bytes_received];
    try done; [| |apply total_u64|apply clean_count_iff].
  - split; cbn [conns_total conns_clean bytes_expected ctx_bytes_received]; [lia|lia| |].
    + by rewrite total_u64, (sum_expected env).
    + change usize with u64; rewrite total_u64; apply u64_range.
  - apply List.Forall_forall; by apply forallb_forall.
Qed.

End Left.

(** ** Starting *)

Section Start.
Context (env : build_env) (dev : card) `{NetStack} (dhcp_fuel arp_fuel : nat) (time_ns : nat -> Z).
Context (start : iface) (wire : nic).

(** The context of worker [i], with the pool of its queue. *)
Definition ctx_of (mac : list Z) (net : ip_address * Z * ip_address * list Z) (pools : list Z) (i : Z) : worker_ctx :=
  new_ctx env mac net (default 0 (zget pools i)) i.

Lemma make_ctxs_ok k i pools mac net ctxs r :
  make_ctxs env k i pools mac net ctxs = Ret r ->
  r = ctxs ++ map (ctx_of mac net pools) (seqZ i (Z.of_nat k)) /\ (0 <= i -> (0 < k)%nat -> i + Z.of_nat k <= len pools).
Proof using Type.
  revert i ctxs; induction k as [|k IH]; intros i ctxs; cbn [make_ctxs].
  { intros [= <-]; rewrite seqZ_nil, app_nil_r by lia; split; [done|lia]. }
  destruct (index pools i) as [p|] eqn:Ei; cbn [obind]; [|done]; intros [-> Hl]%IH; split.
  - rewrite <-app_assoc, (seqZ_cons i) by lia; cbn [map app].
    unfold ctx_of at 2; rewrite (index_zget _ _ _ Ei); cbn [default].
    by replace (Z.pred (Z.of_nat (S k))) with (Z.of_nat k) by lia.
  - intros Hi _; destruct k as [|k]; [|specialize (Hl ltac:(lia) ltac:(lia)); lia].
    apply index_ret_iff in Ei as [_ Ei]; apply lookup_lt_Some in Ei; unfold len; lia.
Qed.

(** What nothing but the verdict prints. *)
Definition no_verdict (log : list main_message) : Prop := Forall (fun m => is_complete m = false) log.

Lemma no_verdict_map {A} (f : A -> main_message) l : (forall a, is_complete (f a) = false) -> no_verdict (map f l).
Proof using Type. intros Hf; induction l; constructor; auto. Qed.

(** The configuration, and everything the set-up asks of the device, when the
    workers are started. *)
Record started (rss : rss_state) (ctxs : list worker_ctx) : Prop := {
  sd_target : TARGET_IP env <> [0; 0; 0; 0];
  sd_object : OBJECT_SIZE env <> 0;
  sd_block : BLOCK_SIZE env <> 0;
  sd_conns : CONNS_PER_WORKER env <> 0;
  sd_workers : N_WORKERS_REQ env <> 0;
  sd_setup : exists pools mac p net net_log wire',
    probe_and_open (card_driver dev) (clamp_workers env dev) = Ret (Some (pools, mac), p) /\
    load_rss_config (card_rss dev) (clamp_workers env dev) rss_init = Ret (true, rss) /\
    learn_network dhcp_fuel arp_fuel mac time_ns start wire = Ret (Some (Some net, net_log, wire')) /\
    ctxs = map (ctx_of mac net pools) (seqZ 0 (clamp_workers env dev)) /\ clamp_workers env dev <= len pools;
}.

(** Why the program exits without having started a worker: the last line it
    prints, and its cause. *)
Inductive exit_reason : main_message -> Prop :=
| exit_target : TARGET_IP env = [0; 0; 0; 0] -> exit_reason TargetUnset
| exit_zero : some_zero env = true -> exit_reason MustBeNonzero
| exit_card p :
    probe_and_open (card_driver dev) (clamp_workers env dev) = Ret (None, p) -> exit_reason NoUsableNic
| exit_rss rss :
    load_rss_config (card_rss dev) (clamp_workers env dev) rss_init = Ret (false, rss) -> exit_reason CannotPredict
| exit_network pools mac p net_log why wire' :
    probe_and_open (card_driver dev) (clamp_workers env dev) = Ret (Some (pools, mac), p) ->
    learn_network dhcp_fuel arp_fuel mac time_ns start wire = Ret (Some (None, net_log ++ [why], wire')) ->
    no_network why -> exit_reason (FromNetwork why).

(** The reason is the last line. *)
Definition exits (log : list main_message) : Prop := exists log0 why, log = log0 ++ [why] /\ exit_reason why.

Lemma exits_with log why : exit_reason why -> exits (log ++ [why]).
Proof using Type. intros H1; by exists log, why. Qed.

Lemma main_setup_inv e log :
  main_setup env dev dhcp_fuel arp_fuel time_ns start wire = Ret (Some (e, log)) ->
  no_verdict log /\ match e with Exited => exits log | Running (rss, ctxs) => started rss ctxs end.
Proof using Type.
  unfold main_setup; assert (Hg : no_verdict (greeting env)) by (repeat constructor).
  revert Hg; generalize (greeting env); intros g0 Hg.
  assert (Ha : forall l1 l2, no_verdict l1 -> no_verdict l2 -> no_verdict (l1 ++ l2))
    by (intros l1 l2 ? ?; by apply Forall_app).
  assert (H1 : forall m, is_complete m = false -> no_verdict [m]) by (intros m ?; by constructor).
  destruct (bytes_eq _ _) eqn:Et.
  { intros [= <- <-]; split; [apply Ha; [done|by apply H1]|]; apply exits_with, exit_target; by apply bytes_eq_spec. }
  destruct (some_zero env) eqn:Ez.
  { intros [= <- <-]; split; [apply Ha; [done|by apply H1]|by apply exits_with, exit_zero]. }
  set (log1 := if negb _ then _ else _).
  assert (Hl1 : no_verdict log1) by (subst log1; destruct (negb _); [apply Ha; [done|by apply H1]|done]).
  clearbody log1; destruct (probe_and_open _ _) as [[opened p]|] eqn:Ep; cbn [obind]; [|done].
  assert (Hl2 : no_verdict (log1 ++ map FromProbe (probe_log p))) by (apply Ha; [done|by apply no_verdict_map]).
  destruct opened as [[pools mac]|];
    [|intros [= <- <-]; split; [apply Ha; [done|by apply H1]|by apply exits_with, (exit_card p)]].
  destruct (load_rss_config _ _ _) as [[loaded rss]|] eqn:El; cbn [obind]; [|done].
  destruct loaded; cbn [negb];
    [|intros [= <- <-]; split; [apply Ha; [done|by apply H1]|by apply exits_with, (exit_rss rss)]].
  destruct (index pools 0) as [p0|] eqn:E0; cbn [obind]; [|done].
  destruct (learn_network _ _ _ _ _ _) as [[[[[net|] net_log] w']|]|] eqn:En; cbn [obind]; try done.
  2:{ intros [= <- <-]; split; [apply Ha; [done|by apply no_verdict_map]|].
      destruct (learn_network_gives_up _ _ _ _ _ _ _ _ En) as (log0 & why & -> & Hwhy).
      rewrite map_app, app_assoc; by eapply exits_with, exit_network. }
  destruct (make_ctxs _ _ _ _ _ _ _) as [ctxs|] eqn:Em; cbn [obind]; [|done]; intros [= <- <-].
  split; [apply Ha; [done|by apply no_verdict_map]|].
  apply make_ctxs_ok in Em as [-> Hlen]; cbn [app].
  unfold some_zero in Ez; repeat (apply orb_false_elim in Ez as [Ez ?]).
  split; try by apply Z.eqb_neq.
  - intros E; apply bytes_eq_spec in E; congruence.
  - exists pools, mac, p, net, net_log, w'; split; [exact Ep|]; split; [exact El|]; split; [exact En|].
    destruct (Z.le_gt_cases (clamp_workers env dev) 0) as [Hn|Hn].
    + split; [by rewrite !seqZ_nil by lia|]; pose proof (len_nonneg pools); lia.
    + rewrite Z2Nat.id in * by lia; split; [done|]; specialize (Hlen ltac:(lia) ltac:(lia)); lia.
Qed.

(** The workers' contexts, and their number. *)
Lemma started_ctxs rss ctxs :
  in_u16 (fst (shim_get_dev_info dev)) -> in_u16 (snd (shim_get_dev_info dev)) -> started rss ctxs ->
  len ctxs = clamp_workers env dev /\
  (1 <= clamp_workers env dev <= N_WORKERS_REQ env /\ N_WORKERS_REQ env < M16) /\ Forall unstarted ctxs.
Proof using Type.
  intros Hrx Htx [_ _ _ _ Hw (pools & mac & p & net & net_log & w' & _ & _ & _ & -> & _)].
  pose proof (u16_range (parse_size (BENCH_WORKERS env) 8)) as Hr; change (u16 _) with (N_WORKERS_REQ env) in Hr.
  assert (Hn : 1 <= clamp_workers env dev <= N_WORKERS_REQ env).
  { unfold clamp_workers, in_u16 in *; destruct (shim_get_dev_info dev) as [rx tx]; cbn [fst snd] in *.
    destruct (Z.eqb_spec (Z.min rx tx) 0); lia. }
  unfold in_u16 in Hr; split; [rewrite len_map; unfold len; rewrite length_seqZ; lia|]; split; [lia|].
  apply List.Forall_forall; intros c Hc; apply in_map_iff in Hc as (i & <- & _).
  destruct net as [[[? ?] ?] ?]; repeat split.
Qed.

(** C20: what it takes to start the workers, and what they are given.  Workers are
    started only when the target is set, nothing is configured as zero, the card
    opened with a pool for each of them, the RSS tables were loaded for their
    number and the network was learnt; there is at least one worker, no more
    than configured, and no more than the device has queues, when it says.
    Worker [i] gets queue [i] and the pool created for it, the network and the
    card's address, and the blocks from [i * CONNS_PER_WORKER] on, so that no
    two connections of the program ask for the same block number.  Otherwise the
    program exits, and the last line it prints is the reason: the target is
    unset, something is zero, the card did not open, its RSS tables could not be
    loaded, or the network was not learnt (no lease, no buffer for the ARP
    request, or no reply).  Either way it has printed no verdict. *)
Theorem main_starts (e : main_end (rss_state * list worker_ctx)) (log : list main_message) :
  in_u16 (fst (shim_get_dev_info dev)) -> in_u16 (snd (shim_get_dev_info dev)) ->
  main_setup env dev dhcp_fuel arp_fuel time_ns start wire = Ret (Some (e, log)) ->
  no_verdict log /\
  match e with
  | Exited => exits log
  | Running (rss, ctxs) =>
      started rss ctxs /\ 1 <= len ctxs <= N_WORKERS_REQ env /\
      (let '(max_rx, max_tx) := shim_get_dev_info dev in
       Z.min max_rx max_tx <> 0 -> len ctxs <= Z.min max_rx max_tx) /\
      (len ctxs * CONNS_PER_WORKER env < M64 ->
       forall i ctx, zget ctxs i = Some ctx ->
         ctx_queue_id ctx = i /\ ctx_pool ctx = pool_create (card_driver dev) i /\ ctx_pool ctx <> 0 /\ first_block ctx = i * CONNS_PER_WORKER env /\ unstarted ctx /\
         forall i' ctx' j j', zget ctxs i' = Some ctx' ->
           0 <= j < CONNS_PER_WORKER env -> 0 <= j' < CONNS_PER_WORKER env ->
           first_block ctx + j = first_block ctx' + j' -> i = i' /\ j = j')
  end.
Proof using Type.
  intros Hrx Htx Hs; apply main_setup_inv in Hs as [Hlog He]; split; [done|].
  destruct e as [|[rss ctxs]]; [done|]; split; [done|].
  destruct (started_ctxs _ _ Hrx Htx He) as (-> & [Hn Hmax] & _).
  destruct He as [_ _ _ _ _ (pools & mac & p & net & net_log & w' & Eprobe & _ & _ & -> & _)]; split; [done|]; split.
  { unfold clamp_workers; destruct (shim_get_dev_info dev) as [rx tx]; destruct (Z.eqb_spec (Z.min rx tx) 0); lia. }
  intros Hlt.
  assert (Hpool : forall i, 0 <= i < clamp_workers env dev ->
    default 0 (zget pools i) = pool_create (card_driver dev) i /\ default 0 (zget pools i) <> 0).
  { intros i Hi; destruct (probe_and_open_ret (card_driver dev) (clamp_workers env dev)) as (res & p' & E & Hres); [lia|].
    rewrite Eprobe in E; injection E as <- <-; destruct (Hres _ _ eq_refl) as (-> & Hnz & _).
    assert (Ei : zget (map (pool_create (card_driver dev)) (seqZ 0 (clamp_workers env dev))) i = Some (pool_create (card_driver dev) i)).
    { unfold zget; rewrite (proj2 (Z.ltb_ge i 0)), list_lookup_fmap, lookup_seqZ_lt by lia; cbn; do 2 f_equal; lia. }
    rewrite Ei; split; [done|]; rewrite Forall_forall in Hnz; apply Hnz.
    unfold zget in Ei; rewrite (proj2 (Z.ltb_ge i 0)) in Ei by lia; by apply list_elem_of_lookup_2, list_elem_of_In in Ei. }
  assert (Hget : forall i ctx, zget (map (ctx_of mac net pools) (seqZ 0 (clamp_workers env dev))) i = Some ctx ->
    0 <= i < clamp_workers env dev /\ ctx = ctx_of mac net pools i).
  { intros i ctx; unfold zget; destruct (Z.ltb_spec i 0); [done|].
    intros Hl; apply list_lookup_fmap_Some in Hl as (k & -> & Hk); apply lookup_seqZ in Hk as [-> Hk]; split; [lia|].
    f_equal; lia. }
  assert (Hfirst : forall i ctx, zget (map (ctx_of mac net pools) (seqZ 0 (clamp_workers env dev))) i = Some ctx ->
    ctx_queue_id ctx = i /\ ctx_pool ctx = pool_create (card_driver dev) i /\ ctx_pool ctx <> 0 /\ first_block ctx = i * CONNS_PER_WORKER env /\ unstarted ctx).
  { intros i ctx [Hi ->]%Hget; destruct (Hpool i Hi); destruct net as [[[ip prefix] gw] gwm]; unfold ctx_of, new_ctx; cbn.
    assert (0 <= CONNS_PER_WORKER env) by apply u64_range.
    rewrite u16_small, u64_small by nia; by repeat split. }
  intros i ctx Hi; destruct (Hfirst i ctx Hi) as (F1 & F4 & F5 & F2 & F3); do 5 (split; [done|]).
  intros i' ctx' j j' Hi' Hj Hj'; destruct (Hfirst i' ctx' Hi') as (_ & _ & _ & G2 & _); rewrite F2, G2; intros E.
  destruct (Z.lt_trichotomy i i') as [|[->|]]; nia.
Qed.

End Start.

(** ** The verdict of the program *)

Section Complete.
Context (env : build_env) (dev : card) `{NetStack} `{Tls} `{NetIface}.
Context (dhcp_fuel arp_fuel : nat) (time_ns : nat -> Z) (start : iface) (wire : nic).
Context (join : rss_state -> list worker_ctx -> outcome (option (list worker_ctx * shared * Z))).

(** Each worker's context is what a run of it leaves, for some clock and some
    interference of the others; the counted bytes fit 64 bits. *)
Definition joins : Prop :=
  forall rss ctxs results sh ns, join rss ctxs = Ret (Some (results, sh, ns)) ->
    Forall2 (fun ctx ctx' => exists clock others w, ran env clock others ctx ctx' w) ctxs results /\
    sum_of ctx_bytes_received results < M64.

(** A worker that opened all its connections and saw them all close cleanly. *)
Definition complete_worker (ctx ctx' : worker_ctx) : Prop :=
  exists clock others w, ran env clock others ctx ctx' w /\
    len (wk_conns w) = CONNS_PER_WORKER env /\ all_fetched env ctx' (wk_conns w) /\
    Forall (fun c => closed_cleanly c = true) (wk_conns w).

Lemma report_complete n ns results sh report :
  main_report env dev n ns results sh = Ret report -> existsb is_complete report = true ->
  is_complete (verdict env n (misrouted_drops sh) (totals_of results)) = true.
Proof using Type.
  unfold main_report; destruct (nic_report dev) as [nic|] eqn:En; cbn [obind]; [|done].
  destruct (queue_report dev n) as [queues|] eqn:Eq; cbn [obind]; [|done]; intros [= <-].
  assert (Hnic : existsb is_complete nic = false).
  { unfold nic_report in En; destruct (shim_eth_stats dev) as [st|]; [|by injection En as <-].
    repeat match type of En with context [index st ?i] => destruct (index st i); cbn [obind] in En; [|done] end.
    injection En as <-; cbn; by destruct (_ || _). }
  assert (Hq : existsb is_complete queues = false).
  { unfold queue_report in Eq; destruct (shim_eth_qstats dev) as [[nq qi] qe].
    destruct (0 <? nq); [|by injection Eq as <-].
    assert (G : forall k q log, existsb is_complete log = false -> forall r,
      queue_loop k q qi qe log = Ret r -> existsb is_complete r = false).
    { induction k as [|k IH]; intros q log Hlog r; cbn [queue_loop]; [by intros [= <-]|].
      destruct (index qe q) as [e|]; cbn [obind]; [|done].
      destruct (0 <? e); [destruct (index qi q) as [p|]; cbn [obind]; [|done]|]; apply IH; [|done].
      by rewrite existsb_app, Hlog. }
    by eapply G; [|exact Eq]. }
  assert (Hw : existsb is_complete (worker_lines results) = false).
  { apply not_true_is_false; rewrite existsb_exists; intros (x & Hx & Hc).
    apply list_elem_of_In, elem_of_lookup_imap in Hx as (i & y & -> & _); done. }
  set (v := verdict _ _ _ _); unfold status_report.
  repeat first [rewrite existsb_app | progress cbn [existsb is_complete orb app]].
  rewrite Hw, Hnic, Hq, orb_false_r; cbn [orb]; destruct (0 <? _), (STUB_TLS_AFTER_HANDSHAKE env); cbn; done.
Qed.

(** C1: COMPLETE means complete.  When the program prints COMPLETE (and the
    totals fit 64 bits), it had been started, no frame was misrouted, and every
    worker ran to its end having opened all of its connections, each for one
    block; every one of them is done and closed cleanly; and, where plaintext
    is counted, the bytes the workers counted are all the blocks' bytes.  The
    device has then been stopped. *)
Theorem program_complete (log : list main_message) (stopped : bool) :
  in_u16 (fst (shim_get_dev_info dev)) -> in_u16 (snd (shim_get_dev_info dev)) ->
  joins -> N_WORKERS_REQ env * CONNS_PER_WORKER env * BLOCK_SIZE env < M64 ->
  osv_app_main env dev dhcp_fuel arp_fuel time_ns start wire join = Ret (Some (log, stopped)) ->
  existsb is_complete log = true ->
  stopped = true /\ exists rss ctxs results sh ns,
    started env dev dhcp_fuel arp_fuel time_ns start wire rss ctxs /\
    join rss ctxs = Ret (Some (results, sh, ns)) /\ misrouted_drops sh = 0 /\
    Forall2 complete_worker ctxs results /\
    (STUB_TLS_AFTER_HANDSHAKE env = false -> sum_of ctx_bytes_received results = whole env (len ctxs)).
Proof using Type.
  intros Hrx Htx Hj Hfit; unfold osv_app_main.
  destruct (main_setup _ _ _ _ _ _ _) as [[[e log0]|]|] eqn:Es; cbn [obind]; try done.
  destruct (main_setup_inv _ _ _ _ _ _ _ _ _ Es) as [Hlog He].
  assert (Hlog0 : existsb is_complete log0 = false).
  { clear -Hlog; induction Hlog as [|m l E _ IH]; cbn [existsb]; [done|by rewrite E]. }
  destruct e as [|[rss ctxs]]; [intros [= <- <-]; congruence|].
  destruct (join rss ctxs) as [[[[results sh] ns]|]|] eqn:Ej; cbn [obind]; try done.
  destruct (main_report _ _ _ _ _ _) as [report|] eqn:Er; cbn [obind]; [|done]; intros [= <- <-].
  rewrite existsb_app, Hlog0; cbn [orb]; intros Hc; pose proof (report_complete _ _ _ _ _ Er Hc) as Hv.
  split; [done|]; exists rss, ctxs, results, sh, ns; split; [done|]; split; [done|].
  destruct (Hj _ _ _ _ _ Ej) as [Hran Hsum].
  destruct (started_ctxs _ _ _ _ _ _ _ _ _ Hrx Htx He) as (Hlen & Hn & Hun).
  assert (Hok : Forall2 (fun ctx ctx' => worker_ok env ctx' /\ exists clock others w, ran env clock others ctx ctx' w /\
    (0 < conns_total ctx' -> all_fetched env ctx' (wk_conns w))) ctxs results).
  { clear -Hran Hun; induction Hran as [|c c' l l' (clock & others & w & Hr) _ IH]; constructor.
    - apply Forall_inv in Hun; destruct (ran_ok _ _ _ _ _ _ Hun Hr) as [? ?]; split; [done|by exists clock, others, w].
    - apply IH; by apply Forall_inv_tail in Hun. }
  assert (Hw : Forall (worker_ok env) results).
  { clear -Hok; induction Hok as [|c c' l l' [? _] _ IH]; by constructor. }
  assert (Hres : len results = clamp_workers env dev).
  { rewrite <-Hlen; unfold len; by rewrite (Forall2_length Hran). }
  assert (H0' : 0 <= CONNS_PER_WORKER env) by apply u64_range.
  pose proof (BLOCK_SIZE_range env) as Hb; unfold in_u64 in Hb.
  destruct He as [_ _ Hb0 Hc0 _ _].
  assert (Hfit2 : whole env (clamp_workers env dev) < M64) by (unfold whole; nia).
  destruct (totals_exact env _ _ Hw Hres ltac:(unfold whole in Hfit2; nia) Hfit2 Hsum) as (Et & T1 & T2 & T3 & T4 & T5).
  rewrite Et in Hv; apply verdict_of in Hv as (_ & V2 & V3 & V4 & V5); [|lia..|unfold whole in Hfit2; nia|lia|lia].
  split; [done|]; split.
  - assert (Hf : full env results) by (by apply T5); clear -Hok Hf Hc0 H0'; unfold full in Hf.
    induction Hok as [|c c' l l' [_ (clock & others & w & Hr & Ha)] _ IH]; constructor.
    + apply Forall_inv in Hf as [F1 F2]; specialize (Ha ltac:(lia)); destruct Ha as [A1 A2 A3 A4 A5] eqn:E; clear E.
      exists clock, others, w; split; [done|]; split; [congruence|]; split; [done|]; apply A5; congruence.
    + apply IH; by apply Forall_inv_tail in Hf.
  - intros Hs; rewrite Hs in V5; rewrite V5, V3, Hlen; reflexivity.
Qed.

End Complete.

(** ** A device with one queue *)

Definition ex_card : card :=
  {| shim_get_dev_info := (1, 1); card_driver := ex_driver 7;
     card_rss := {| shim_rss_hash_key := (0, []); shim_rss_reta := (0, []) |};
     shim_eth_stats := None; shim_eth_qstats := (0, [], []) |}.

Definition ex_time_ns (k : nat) : Z := Z.of_nat k * 1000.

(** Eight workers are configured; the device has one queue, and one is started. *)
Lemma main_starts_witness : exists rss ctx log,
  main_setup (H := ex_net) example_env ex_card 3 2 ex_time_ns ex_iface ex_wire = Ret (Some (Running (rss, [ctx]), log)) /\
  no_verdict log /\ started (H := ex_net) example_env ex_card 3 2 ex_time_ns ex_iface ex_wire rss [ctx] /\
  ctx_queue_id ctx = 0 /\ ctx_pool ctx = 100 /\ first_block ctx = 0.
Proof.
  destruct (main_setup (H := ex_net) example_env ex_card 3 2 ex_time_ns ex_iface ex_wire) as [[[e log]|]|] eqn:E;
    [|vm_compute in E; discriminate E|vm_compute in E; discriminate E].
  destruct (main_starts (H := ex_net) example_env ex_card 3 2 ex_time_ns ex_iface ex_wire e log) as [Hlog He];
    [split; vm_compute; congruence|split; vm_compute; congruence|exact E|].
  destruct e as [|[rss ctxs]]; [vm_compute in E; discriminate E|].
  destruct He as (Hs & _ & Hl & Hf).
  assert (H1 : exists ctx, ctxs = [ctx]) by (vm_compute in E; injection E as _ <- _; eexists; reflexivity).
  destruct H1 as [ctx ->]; destruct (Hf ltac:(vm_compute; reflexivity) 0 ctx eq_refl) as (F1 & F3 & _ & F2 & _).
  exists rss, ctx, log; split; [reflexivity|]; split; [exact Hlog|]; split; [exact Hs|].
  split; [exact F1|]; split; [exact F3|exact F2].
Defined.

(** One worker ("1") with one connection for a block of two ("2") bytes. *)
Definition tiny_env : build_env := {|
  AWS_BUCKET := AWS_BUCKET example_env; AWS_REGION := AWS_REGION example_env; AWS_BUCKET_SIZE := None;
  AWS_TARGET_IP := AWS_TARGET_IP example_env; BENCH_WORKERS := Some [49];
  BENCH_CONNS_PER_WORKER := Some [49]; BENCH_TLS_STUB := None;
  BENCH_SCHEME := BENCH_SCHEME example_env; BENCH_BLOCK_SIZE := Some [50] |}.

Definition ex_shared : shared :=
  {| misrouted_drops := 0; tx_alloc_fail := 0; tx_burst_fail := 0; shared_stats := ex_stats |}.

(** Its run, from the open connection of the earlier examples. *)
Definition ex_join (rss : rss_state) (ctxs : list worker_ctx) : outcome (option (list worker_ctx * shared * Z)) :=
  match ctxs with
  | [ctx] =>
      let! s0 := ex_established in
      let! r := worker_run tiny_env ex_time (fun _ g => g) ctx 5 1 (ex_worker ex_download ex_conn s0) in
      match r with Some (ctx', _) => Ret (Some ([ctx'], ex_shared, 9)) | None => Ret None end
  | _ => Ret None
  end.

Lemma ex_joins : joins (H1 := scripted []) tiny_env ex_join.
Proof.
  intros rss [|ctx [|]] results sh ns; unfold ex_join; [discriminate| |discriminate].
  generalize ex_established; intros [s0|]; cbn [obind]; [|discriminate].
  set (r := worker_run _ _ _ _ _ _ _); destruct r as [[[ctx' w]|]|] eqn:E; cbn [obind]; [|discriminate|discriminate].
  intros [= <- <- <-]; split.
  - constructor; [|constructor]; exists ex_time, (fun _ g => g), w; right.
    exists (ex_worker ex_download ex_conn s0), 5%nat, 1%nat; split; [|exact E].
    split; [constructor; [vm_compute; reflexivity|constructor]|vm_compute; congruence].
  - destruct (worker_run_inv _ _ _ _ _ _ _ _ _ E) as (e1 & e2 & -> & _).
    cbn [sum_of foldr ctx_bytes_received worker_results]; rewrite Z.add_0_r; change usize with u64; rewrite total_u64.
    apply u64_range.
Qed.

(** It prints COMPLETE. *)
Lemma program_complete_witness : exists log,
  osv_app_main (H := ex_net) tiny_env ex_card 3 2 ex_time_ns ex_iface ex_wire ex_join = Ret (Some (log, true)) /\
  existsb is_complete log = true /\
  exists results, sum_of ctx_bytes_received results = 2 /\
    exists ctxs, Forall2 (complete_worker (H1 := scripted []) tiny_env) ctxs results.
Proof.
  assert (Hrun : match osv_app_main (H := ex_net) tiny_env ex_card 3 2 ex_time_ns ex_iface ex_wire ex_join with
    | Ret (Some (log, _)) => existsb is_complete log | _ => false end = true) by (vm_compute; reflexivity).
  destruct (osv_app_main _ _ _ _ _ _ _ _) as [[[log stopped]|]|] eqn:E; try discriminate Hrun.
  destruct (program_complete (H := ex_net) (H1 := scripted []) tiny_env ex_card 3 2 ex_time_ns ex_iface ex_wire ex_join log stopped)
    as (-> & rss & ctxs & results & sh & ns & Hs & Hj & _ & Hc & Hb).
  - split; vm_compute; congruence.
  - split; vm_compute; congruence.
  - exact ex_joins.
  - vm_compute; reflexivity.
  - exact E.
  - exact Hrun.
  - exists log; split; [reflexivity|]; split; [exact Hrun|]; exists results; split; [|exists ctxs; exact Hc].
    rewrite (Hb eq_refl); destruct Hs as [_ _ _ _ _ (pools & mac & p & net & nl & w' & _ & _ & _ & -> & _)].
    reflexivity.
Defined.
