(* ===== verification/Alloc.v ===== *)
(** The heap (src/bench/smoltcp-s3/src/lib.rs, [ShimAllocator]): blocks of any
    alignment from a C allocator that aligns to 16 bytes.  The C library behind
    the shim is the class [Libc]. *)

From Stdlib Require Import ZArith Lia ZifyBool.
From stdpp Require Import base list gmap numbers.
From S2P Require Import Prelude.

(** ** The C heap *)

(** The live blocks with their sizes, and every byte of the address space. *)
Record heap : Type := { live : gmap Z Z; mem : Z -> Z }.

(** What the library answers: an address, null being 0, and the memory it
    leaves; its own data is kept outside the live blocks. *)
Class Libc : Type := {
  malloc : heap -> Z -> Z * (Z -> Z);
  free : heap -> Z -> (Z -> Z);
  realloc : heap -> Z -> Z -> Z * (Z -> Z);
}.

Section Shim.
Context `{Libc}.

(* [shim.cc 378-380 shim_malloc] *)
Definition shim_malloc (n : Z) (h : heap) : Z * heap :=
  let '(p, m) := malloc h n in
  (p, {| live := if p =? 0 then live h else <[p := n]> (live h); mem := m |}).

(** Freeing what is not a block is undefined behaviour. *)
(* [shim.cc 382-382 shim_free] *)
Definition shim_free (p : Z) (h : heap) : outcome heap :=
  if p =? 0 then Ret h
  else match live h !! p with
       | Some _ => Ret {| live := delete p (live h); mem := free h p |}
       | None => Panic
       end.

(* [shim.cc 384-386 shim_realloc] *)
Definition shim_realloc (p n : Z) (h : heap) : outcome (Z * heap) :=
  match live h !! p with
  | None => Panic
  | Some _ =>
      let '(q, m) := realloc h p n in
      Ret (q, {| live := if q =? 0 then live h else <[q := n]> (delete p (live h)); mem := m |})
  end.

(** ** Reading and writing through pointers *)

Definition inside (h : heap) (a n : Z) : Prop := map_Exists (fun p sz => p <= a /\ a + n <= p + sz) (live h).

#[export] Instance inside_dec h a n : Decision (inside h a n).
Proof. unfold inside; apply _. Defined.

(** A pointer, as eight bytes, least significant first. *)
Definition store_word (a v : Z) (m : Z -> Z) : Z -> Z :=
  fun x => if (a <=? x) && (x <? a + 8) then Z.land (Z.shiftr v (8 * (x - a))) 255 else m x.

Definition load_word (a : Z) (m : Z -> Z) : Z :=
  fold_right (fun i n => m (a + i) + 256 * n) 0 (seqZ 0 8).

Definition write_ptr (a v : Z) (h : heap) : outcome heap :=
  if decide (inside h a 8) then Ret {| live := live h; mem := store_word a v (mem h) |} else Panic.

Definition read_ptr (a : Z) (h : heap) : outcome Z :=
  if decide (inside h a 8) then Ret (load_word a (mem h)) else Panic.

(** [copy_nonoverlapping]. *)
Definition copy (src dst n : Z) (h : heap) : outcome heap :=
  if decide (inside h src n /\ inside h dst n /\ (src + n <= dst \/ dst + n <= src)) then
    Ret {| live := live h; mem := fun x => if (dst <=? x) && (x <? dst + n) then mem h (src + (x - dst)) else mem h x |}
  else Panic.

(** ** The allocator *)

Record layout : Type := { size : Z; align : Z }.

(** [(addr + align - 1) & !(align - 1)] *)
Definition align_up (addr align : Z) : Z :=
  Z.land (usize (addr + align - 1)) (usize (Z.lnot (align - 1))).

(* [lib.rs 46-61 ShimAllocator::alloc] *)
Definition alloc (l : layout) (h : heap) : outcome (Z * heap) :=
  if align l <=? 16 then Ret (shim_malloc (size l) h)
  else
    let extra := usize (align l + 8) in
    let '(raw, h) := shim_malloc (usize (size l + extra)) h in
    if raw =? 0 then Ret (raw, h)
    else
      let raw_addr := usize (raw + 8) in
      let aligned := align_up raw_addr (align l) in
      let! h := write_ptr (aligned - 8) raw h in
      Ret (aligned, h).

(* [lib.rs 63-72 ShimAllocator::dealloc] *)
Definition dealloc (ptr : Z) (l : layout) (h : heap) : outcome heap :=
  if align l <=? 16 then shim_free ptr h
  else
    let! raw := read_ptr (ptr - 8) h in
    shim_free raw h.

(* [lib.rs 74-86 ShimAllocator::realloc] *)
Definition realloc_layout (ptr : Z) (l : layout) (new_size : Z) (h : heap) : outcome (Z * heap) :=
  if align l <=? 16 then shim_realloc ptr new_size h
  else
    let new_layout := {| size := new_size; align := align l |} in
    let! (new_ptr, h) := alloc new_layout h in
    if negb (new_ptr =? 0) then
      let n := Z.min (size l) new_size in
      let! h := copy ptr new_ptr n h in
      let! h := dealloc ptr l h in
      Ret (new_ptr, h)
    else Ret (new_ptr, h).

End Shim.
