(* ===== verification/AllocOk.v ===== *)
(** The allocator keeps its promises: every block it has handed out is aligned,
    inside memory of its own, and freed as the block it came from, whatever the
    program does with its allocations in between. *)

From Stdlib Require Import ZArith Lia ZifyBool.
From stdpp Require Import base list gmap numbers relations.
From S2P Require Import Prelude Alloc.

(** ** Addresses *)

Lemma land_lnot_low a k : 0 <= k <= 63 -> 0 <= a < M64 ->
  Z.land a (usize (Z.lnot (2 ^ k - 1))) = a - a mod 2 ^ k.
Proof.
  intros Hk Ha; assert (E : Z.land a (usize (Z.lnot (2 ^ k - 1))) = Z.ldiff a (Z.ones k)).
  { apply Z.bits_inj'; intros i Hi; rewrite Z.land_spec, Z.ldiff_spec.
    destruct (Z.ltb_spec i 64) as [Hlt|Hge].
    - change (usize (Z.lnot (2 ^ k - 1))) with (Z.lnot (2 ^ k - 1) mod 2 ^ 64).
      rewrite Z.mod_pow2_bits_low by lia; rewrite Z.lnot_spec by lia.
      by replace (2 ^ k - 1) with (Z.ones k) by (rewrite Z.ones_equiv; lia).
    - replace (Z.testbit a i) with false; [done|]; symmetry; destruct (Z.eq_dec a 0) as [->|]; [apply Z.bits_0|].
      apply Z.bits_above_log2; [lia|]; apply Z.lt_le_trans with 64; [|lia].
      apply Z.log2_lt_pow2; [lia|]; change (2 ^ 64) with M64; lia. }
  rewrite E, Z.ldiff_ones_r by lia; rewrite Z.shiftr_div_pow2, Z.shiftl_mul_pow2 by lia.
  pose proof (Z.div_mod a (2 ^ k)); nia.
Qed.

(** Rounding up: the next multiple. *)
Lemma align_up_spec addr k : 0 <= k <= 63 -> 0 <= addr -> addr + 2 ^ k - 1 < M64 ->
  addr <= align_up addr (2 ^ k) <= addr + 2 ^ k - 1 /\ align_up addr (2 ^ k) mod 2 ^ k = 0.
Proof.
  intros Hk Ha Hlt; assert (0 < 2 ^ k) by lia.
  unfold align_up; rewrite usize_small by lia; rewrite land_lnot_low by lia.
  pose proof (Z.mod_pos_bound (addr + 2 ^ k - 1) (2 ^ k)); split; [lia|].
  rewrite Zminus_mod_idemp_r, Z.sub_diag; done.
Qed.

Lemma word_roundtrip a v m : 0 <= v < M64 -> load_word a (store_word a v m) = v.
Proof.
  intros Hv; unfold load_word.
  assert (Hb : forall i, 0 <= i < 8 -> store_word a v m (a + i) = v / 2 ^ (8 * i) mod 256).
  { intros i Hi; unfold store_word; rewrite (proj2 (Z.leb_le _ _)), (proj2 (Z.ltb_lt _ _)) by lia; cbn [andb].
    replace (a + i - a) with i by lia; rewrite Z.shiftr_div_pow2 by lia.
    change 255 with (Z.ones 8); by rewrite Z.land_ones. }
  change (seqZ 0 8) with [0; 1; 2; 3; 4; 5; 6; 7]; cbn [fold_right]; rewrite !Hb by lia.
  change (2 ^ (8 * 0)) with 1; change (2 ^ (8 * 1)) with 256; change (2 ^ (8 * 2)) with 65536;
  change (2 ^ (8 * 3)) with 16777216; change (2 ^ (8 * 4)) with 4294967296;
  change (2 ^ (8 * 5)) with 1099511627776; change (2 ^ (8 * 6)) with 281474976710656;
  change (2 ^ (8 * 7)) with 72057594037927936.
  Z.div_mod_to_equations; lia.
Qed.

Lemma load_word_eq a m m' : (forall i, 0 <= i < 8 -> m' (a + i) = m (a + i)) -> load_word a m' = load_word a m.
Proof.
  intros Hm; unfold load_word; change (seqZ 0 8) with [0; 1; 2; 3; 4; 5; 6; 7]; cbn [fold_right].
  by rewrite !Hm by lia.
Qed.

(** ** The C library's contract *)

(** A byte of a live block. *)
Definition in_block (h : heap) (x : Z) : Prop := exists p n, live h !! p = Some n /\ p <= x < p + n.

(** An answer that is a new block: aligned, in the address space, off the others. *)
Definition new_block (blocks : gmap Z Z) (p n : Z) : Prop :=
  0 < p /\ p mod 16 = 0 /\ p + n <= M64 /\ forall q m, blocks !! q = Some m -> p + n <= q \/ q + m <= p.

Class LibcLaws `{Libc} : Prop := {
  malloc_ok : forall h n, 0 < n < M64 ->
    let '(p, m) := malloc h n in
    (forall x, in_block h x -> m x = mem h x) /\ (p = 0 \/ new_block (live h) p n);
  free_ok : forall h p n, live h !! p = Some n ->
    forall x, in_block h x -> ~ (p <= x < p + n) -> free h p x = mem h x;
  realloc_ok : forall h p old n, live h !! p = Some old -> 0 < n < M64 ->
    let '(q, m) := realloc h p n in
    (q = 0 /\ (forall x, in_block h x -> m x = mem h x)) \/
    (new_block (delete p (live h)) q n /\
     (forall x, in_block h x -> ~ (p <= x < p + old) -> m x = mem h x) /\
     (forall i, 0 <= i < Z.min old n -> m (q + i) = mem h (p + i)));
}.

(** ** The program's allocations *)

(** A layout as Rust makes them: the size rounded up to the alignment is at most
    [isize::MAX]. *)
Definition layout_ok (l : layout) : Prop :=
  0 < size l /\ (exists k, 0 <= k <= 62 /\ align l = 2 ^ k) /\ size l + align l - 1 < 2 ^ 63.

Definition over (l : layout) : bool := negb (align l <=? 16).

(** The block behind an allocation, and its length. *)
Definition raw_of (m : Z -> Z) (p : Z) (l : layout) : Z := if over l then load_word (p - 8) m else p.
Definition block_len (l : layout) : Z := if over l then size l + (align l + 8) else size l.

(** An allocation in its block. *)
Record placed (h : heap) (p : Z) (l : layout) : Prop := {
  pc_layout : layout_ok l;
  pc_aligned : p mod align l = 0;
  pc_block : live h !! raw_of (mem h) p l = Some (block_len l);
  pc_low : raw_of (mem h) p l + (if over l then 8 else 0) <= p;
  pc_high : p + size l <= raw_of (mem h) p l + block_len l;
}.

(** [own] is what the program holds. *)
Record alloc_inv (h : heap) (own : gmap Z layout) : Prop := {
  ai_blocks : forall p n, live h !! p = Some n -> 0 < p /\ 0 < n /\ p + n <= M64;
  ai_apart : forall p n q m, live h !! p = Some n -> live h !! q = Some m -> p <> q -> p + n <= q \/ q + m <= p;
  ai_placed : forall p l, own !! p = Some l -> placed h p l;
  ai_inj : forall p l p' l', own !! p = Some l -> own !! p' = Some l' ->
    raw_of (mem h) p l = raw_of (mem h) p' l' -> p = p';
  ai_all : forall r n, live h !! r = Some n -> exists p l, own !! p = Some l /\ raw_of (mem h) p l = r;
}.

(** ** The invariant under changes of the heap *)

Lemma layout_align l : layout_ok l -> exists k, 0 <= k <= 62 /\ align l = 2 ^ k /\ 0 < align l /\
  (over l = true -> 5 <= k) /\ (over l = false -> align l <= 16).
Proof.
  intros (_ & (k & Hk & E) & _); exists k; split; [done|]; split; [done|]; assert (0 < 2 ^ k) by lia.
  split; [lia|]; unfold over; split; intros Ho; destruct (Z.leb_spec (align l) 16) as [|Hgt]; try done.
  destruct (Z.le_gt_cases 5 k); [done|]; rewrite E in Hgt.
  assert (2 ^ k <= 2 ^ 4) by (apply Z.pow_le_mono_r; lia); lia.
Qed.

Lemma block_len_pos l : layout_ok l -> size l <= block_len l < M64 /\ 0 < size l.
Proof.
  intros Hl; destruct (layout_align l Hl) as (k & Hk & E & Ha & H1 & H2); destruct Hl as (Hs & _ & Hm).
  unfold block_len; destruct (over l); lia.
Qed.

(** The eight bytes in front of an over-aligned allocation are in its block. *)
Lemma slot_in_block h p l : placed h p l -> over l = true ->
  forall i, 0 <= i < 8 -> raw_of (mem h) p l <= p - 8 + i < raw_of (mem h) p l + block_len l.
Proof.
  intros [Hl _ _ H1 H2] Ho i Hi; pose proof (block_len_pos l Hl); rewrite Ho in H1; lia.
Qed.

Lemma placed_in_block h p l : placed h p l -> forall x,
  raw_of (mem h) p l <= x < raw_of (mem h) p l + block_len l -> in_block h x.
Proof. intros Hp x Hx; eexists _, _; split; [exact (pc_block _ _ _ Hp)|done]. Qed.

(** Where the slots are kept, the allocations keep their blocks. *)
Lemma raw_of_kept h p l m' : placed h p l ->
  (over l = true -> forall i, 0 <= i < 8 -> m' (p - 8 + i) = mem h (p - 8 + i)) ->
  raw_of m' p l = raw_of (mem h) p l.
Proof. intros Hp Hm; unfold raw_of; destruct (over l); [by apply load_word_eq, Hm|done]. Qed.

Lemma placed_kept h h' p l : placed h p l ->
  raw_of (mem h') p l = raw_of (mem h) p l ->
  live h' !! raw_of (mem h) p l = live h !! raw_of (mem h) p l -> placed h' p l.
Proof. intros [H1 H2 H3 H4 H5] Er El; split; rewrite ?Er, ?El; done. Qed.

(** Two allocations' blocks do not meet. *)
Lemma blocks_apart h own p l p' l' : alloc_inv h own -> own !! p = Some l -> own !! p' = Some l' -> p <> p' ->
  raw_of (mem h) p l + block_len l <= raw_of (mem h) p' l' \/ raw_of (mem h) p' l' + block_len l' <= raw_of (mem h) p l.
Proof.
  intros Hi H1 H2 Hne; pose proof (ai_placed _ _ Hi _ _ H1) as P1; pose proof (ai_placed _ _ Hi _ _ H2) as P2.
  apply (ai_apart _ _ Hi _ _ _ _ (pc_block _ _ _ P1) (pc_block _ _ _ P2)).
  intros E; apply Hne; by apply (ai_inj _ _ Hi p l p' l').
Qed.

Lemma alloc_inv_mem h own m' : alloc_inv h own ->
  (forall p l, own !! p = Some l -> over l = true -> forall i, 0 <= i < 8 -> m' (p - 8 + i) = mem h (p - 8 + i)) ->
  alloc_inv {| live := live h; mem := m' |} own.
Proof.
  intros Hi Hm; assert (Hr : forall p l, own !! p = Some l -> raw_of m' p l = raw_of (mem h) p l).
  { intros p l Hp; apply raw_of_kept; [by apply (ai_placed _ _ Hi)|by apply Hm]. }
  destruct Hi as [H1 H2 H3 H4 H5]; split; cbn [live mem]; try done.
  - intros p l Hp; apply (placed_kept h); [by apply H3|by apply Hr|done].
  - intros p l p' l' Hp Hp'; rewrite !Hr by done; by apply H4.
  - intros r n Hn; destruct (H5 r n Hn) as (p & l & Hp & E); exists p, l; by rewrite Hr.
Qed.

Lemma alloc_inv_insert h own raw n m' p l :
  alloc_inv h own -> new_block (live h) raw n -> (forall x, in_block h x -> m' x = mem h x) ->
  layout_ok l -> n = block_len l -> raw_of m' p l = raw -> p mod align l = 0 ->
  raw + (if over l then 8 else 0) <= p -> p + size l <= raw + n ->
  own !! p = None /\ alloc_inv {| live := <[raw := n]> (live h); mem := m' |} (<[p := l]> own).
Proof.
  intros Hi (N1 & N2 & N3 & N4) Hm Hl -> Hraw Hal Hlow Hhigh; pose proof (block_len_pos l Hl) as Hlen.
  assert (Hfree : live h !! raw = None).
  { destruct (live h !! raw) as [n|] eqn:E; [|done]; pose proof (ai_blocks _ _ Hi _ _ E); destruct (N4 _ _ E); lia. }
  assert (Hr : forall q l', own !! q = Some l' -> raw_of m' q l' = raw_of (mem h) q l' /\ raw_of (mem h) q l' <> raw).
  { intros q l' Hq; pose proof (ai_placed _ _ Hi _ _ Hq) as Hp; split.
    - apply raw_of_kept; [done|]; intros Ho i Hi'; apply Hm, (placed_in_block h q l' Hp), slot_in_block; done.
    - intros E; pose proof (pc_block _ _ _ Hp) as E2; rewrite E, Hfree in E2; done. }
  assert (Hnew : own !! p = None).
  { destruct (own !! p) as [l'|] eqn:E; [|done]; pose proof (ai_placed _ _ Hi _ _ E) as [L' _ B' W' G'].
    pose proof (block_len_pos l' L'); pose proof (N4 _ _ B'); destruct (over l), (over l'); lia. }
  split; [done|]; destruct Hi as [H1 H2 H3 H4 H5]; split; cbn [live mem].
  - intros q k [[<- <-]|[_ Hq]]%lookup_insert_Some; [lia|by apply H1].
  - intros q k q' k' [[<- <-]|[_ Hq]]%lookup_insert_Some [[<- <-]|[_ Hq']]%lookup_insert_Some Hne; try done.
    + by apply N4.
    + destruct (N4 _ _ Hq); auto.
    + by apply H2.
  - intros q l' [[<- <-]|[_ Hq]]%lookup_insert_Some.
    + split; cbn [live mem]; rewrite ?Hraw; try done; by rewrite lookup_insert_eq.
    + destruct (Hr q l' Hq) as [E1 E2]; apply (placed_kept h); cbn [live mem]; [by apply H3|done|].
      by rewrite lookup_insert_ne.
  - intros q l1 q' l2 [[<- <-]|[Hn Hq]]%lookup_insert_Some [[<- <-]|[Hn' Hq']]%lookup_insert_Some E; try done.
    + destruct (Hr _ _ Hq'); congruence.
    + destruct (Hr _ _ Hq); congruence.
    + destruct (Hr _ _ Hq) as [E1 _], (Hr _ _ Hq') as [E2 _]; rewrite E1, E2 in E; by apply (H4 q l1 q' l2).
  - intros r k [[<- <-]|[Hne Hk]]%lookup_insert_Some; [exists p, l; by rewrite lookup_insert_eq|].
    destruct (H5 r k Hk) as (q & l' & Hq & E); exists q, l'; rewrite lookup_insert_ne by congruence.
    split; [done|]; by rewrite (proj1 (Hr q l' Hq)).
Qed.

Lemma alloc_inv_delete h own p l m' :
  alloc_inv h own -> own !! p = Some l ->
  (forall x, in_block h x -> ~ (raw_of (mem h) p l <= x < raw_of (mem h) p l + block_len l) -> m' x = mem h x) ->
  alloc_inv {| live := delete (raw_of (mem h) p l) (live h); mem := m' |} (delete p own).
Proof.
  intros Hi Hp Hm; set (raw := raw_of (mem h) p l) in *.
  assert (Hr : forall q l', own !! q = Some l' -> q <> p -> raw_of m' q l' = raw_of (mem h) q l' /\ raw_of (mem h) q l' <> raw).
  { intros q l' Hq Hne; pose proof (ai_placed _ _ Hi _ _ Hq) as Pq; split.
    - apply raw_of_kept; [done|]; intros Ho i Hi'; pose proof (slot_in_block _ _ _ Pq Ho i Hi') as Hs.
      apply Hm; [by apply (placed_in_block h q l' Pq)|]; destruct (blocks_apart _ _ _ _ _ _ Hi Hq Hp Hne); subst raw; lia.
    - intros E; apply Hne; by apply (ai_inj _ _ Hi q l' p l). }
  destruct Hi as [H1 H2 H3 H4 H5]; split; cbn [live mem].
  - intros q k [_ Hq]%lookup_delete_Some; by apply H1.
  - intros q k q' k' [_ Hq]%lookup_delete_Some [_ Hq']%lookup_delete_Some; by apply H2.
  - intros q l' [Hne Hq]%lookup_delete_Some; destruct (Hr q l' Hq ltac:(congruence)) as [E1 E2].
    apply (placed_kept h); cbn [live mem]; [by apply H3|done|]; by rewrite lookup_delete_ne.
  - intros q l1 q' l2 [Hn Hq]%lookup_delete_Some [Hn' Hq']%lookup_delete_Some.
    rewrite (proj1 (Hr q l1 Hq ltac:(congruence))), (proj1 (Hr q' l2 Hq' ltac:(congruence))); by apply H4.
  - intros r k [Hne Hk]%lookup_delete_Some; destruct (H5 r k Hk) as (q & l' & Hq & E).
    assert (Hqp : q <> p) by (intros ->; subst raw; congruence).
    exists q, l'; rewrite lookup_delete_ne by congruence; split; [done|]; by rewrite (proj1 (Hr q l' Hq Hqp)).
Qed.

(** ** The operations *)

(** The bytes the program holds. *)
Definition held (own : gmap Z layout) (x : Z) : Prop := exists p l, own !! p = Some l /\ p <= x < p + size l.

Lemma held_in_block h own x : alloc_inv h own -> held own x -> in_block h x.
Proof.
  intros Hi (p & l & Hp & Hx); pose proof (ai_placed _ _ Hi _ _ Hp) as Pp.
  apply (placed_in_block h p l Pp); destruct Pp as [_ _ _ H1 H2]; destruct (over l); lia.
Qed.

Lemma held_elsewhere h own p l x : alloc_inv h own -> own !! p = Some l -> held (delete p own) x ->
  in_block h x /\ ~ (raw_of (mem h) p l <= x < raw_of (mem h) p l + block_len l).
Proof.
  intros Hi Hp (q & l' & [Hne Hq]%lookup_delete_Some & Hx); split; [apply (held_in_block h own); [done|by exists q, l']|].
  pose proof (ai_placed _ _ Hi _ _ Hq) as [_ _ _ Q1 Q2].
  destruct (blocks_apart _ _ _ _ _ _ Hi Hq Hp ltac:(congruence)); destruct (over l'); lia.
Qed.

Lemma slots_in_block h own : alloc_inv h own -> forall p l, own !! p = Some l -> over l = true ->
  forall i, 0 <= i < 8 -> in_block h (p - 8 + i).
Proof.
  intros Hi p l Hp Ho i Hi'; pose proof (ai_placed _ _ Hi _ _ Hp) as Pp.
  by apply (placed_in_block h p l Pp), slot_in_block.
Qed.

Lemma inside_block h p n a k : live h !! p = Some n -> p <= a -> a + k <= p + n -> inside h a k.
Proof. intros Hp H1 H2; exists p, n; split; [done|lia]. Qed.

Lemma aligned_16 l p : layout_ok l -> align l <= 16 -> p mod 16 = 0 -> p mod align l = 0.
Proof.
  intros Hl Hle E; destruct (layout_align l Hl) as (k & Hk & Ek & _); rewrite Ek in *.
  apply Z.mod_divide in E; [|lia]; apply Z.mod_divide; [lia|].
  transitivity 16; [|done]; assert (Hk4 : k <= 4) by (apply (Z.pow_le_mono_r_iff 2); lia).
  exists (2 ^ (4 - k)); rewrite <-Z.pow_add_r by lia; by replace (4 - k + k) with 4 by lia.
Qed.

(** The program writes into what it holds. *)
Lemma write_spec h own p l m' : alloc_inv h own -> own !! p = Some l ->
  (forall x, ~ (p <= x < p + size l) -> m' x = mem h x) -> alloc_inv {| live := live h; mem := m' |} own.
Proof.
  intros Hi Hp Hm; apply alloc_inv_mem; [done|]; intros q l' Hq Ho i Hi'; apply Hm.
  pose proof (ai_placed _ _ Hi _ _ Hp) as Pp; pose proof (ai_placed _ _ Hi _ _ Hq) as Pq.
  pose proof (slot_in_block _ _ _ Pq Ho i Hi'); destruct (Z.eq_dec q p) as [->|Hne]; [lia|].
  destruct Pp as [_ _ _ P1 P2]; destruct (blocks_apart _ _ _ _ _ _ Hi Hq Hp Hne); destruct (over l); lia.
Qed.

Section Operations.
Context `{LibcLaws}.

Lemma alloc_spec h own l : alloc_inv h own -> layout_ok l ->
  exists p h', alloc l h = Ret (p, h') /\ (forall x, in_block h x -> mem h' x = mem h x) /\
    (p = 0 /\ alloc_inv h' own \/
     p <> 0 /\ p mod align l = 0 /\ own !! p = None /\ alloc_inv h' (<[p := l]> own)).
Proof using Type*.
  intros Hi Hl; destruct (layout_align l Hl) as (k & Hk & Ek & Ha & K1 & K2); pose proof (block_len_pos l Hl) as Hlen.
  pose proof Hl as (Hs & _ & Hmax); clear Hlen.
  unfold alloc, over in *; destruct (Z.leb_spec (align l) 16) as [Hle|Hgt]; cbn [negb] in *.
  - unfold shim_malloc; pose proof (malloc_ok h (size l) ltac:(lia)) as Hok.
    destruct (malloc h (size l)) as [p m]; destruct Hok as [Hm Hp].
    destruct (Z.eqb_spec p 0) as [->|Hne].
    + do 2 eexists; split; [done|]; split; [done|]; left; split; [done|]; apply alloc_inv_mem; [done|].
      intros q l' Hq Ho i Hi'; apply Hm; by eapply slots_in_block.
    + destruct Hp as [|Hnew]; [done|]; do 2 eexists; split; [done|]; split; [done|]; right; split; [done|].
      assert (Hal : p mod align l = 0) by (apply aligned_16; [done..|apply Hnew]).
      split; [done|]; apply alloc_inv_insert; try done; unfold raw_of, block_len, over;
        rewrite (proj2 (Z.leb_le _ _)) by lia; cbn [negb]; lia || done.
  - rewrite (usize_small (align l + 8)), (usize_small (size l + (align l + 8))) by lia.
    unfold shim_malloc; pose proof (malloc_ok h (size l + (align l + 8)) ltac:(lia)) as Hok.
    destruct (malloc h _) as [raw m]; destruct Hok as [Hm Hp].
    destruct (Z.eqb_spec raw 0) as [->|Hne].
    + do 2 eexists; split; [done|]; split; [done|]; left; split; [done|]; apply alloc_inv_mem; [done|].
      intros q l' Hq Ho i Hi'; apply Hm; by eapply slots_in_block.
    + destruct Hp as [|Hnew]; [done|]; pose proof Hnew as (N1 & N2 & N3 & N4).
      rewrite (usize_small (raw + 8)) by lia.
      destruct (align_up_spec (raw + 8) k) as [A1 A2]; [lia|lia|rewrite <-Ek; lia|]; rewrite <-Ek in A1, A2.
      set (p := align_up (raw + 8) (align l)) in *; unfold write_ptr; cbn [live mem].
      rewrite decide_True.
      2:{ apply (inside_block _ raw (size l + (align l + 8))); cbn [live]; [by rewrite lookup_insert_eq|lia|lia]. }
      cbn [obind]; do 2 eexists; split; [reflexivity|]; cbn [mem].
      assert (Hm2 : forall x, in_block h x -> store_word (p - 8) raw m x = mem h x).
      { intros x Hx; unfold store_word; rewrite <-Hm by done; destruct Hx as (q & n & Hq & Hx).
        destruct (N4 _ _ Hq); destruct (Z.leb_spec (p - 8) x), (Z.ltb_spec x (p - 8 + 8)); cbn [andb]; done || lia. }
      split; [exact Hm2|]; right; split; [lia|]; split; [done|]; apply alloc_inv_insert; try done; unfold raw_of, block_len, over;
        rewrite ?(proj2 (Z.leb_gt (align l) 16)) by lia; cbn [negb]; try lia.
      apply word_roundtrip; lia.
Qed.

Lemma dealloc_spec h own p l : alloc_inv h own -> own !! p = Some l ->
  exists h', dealloc p l h = Ret h' /\ live h' = delete (raw_of (mem h) p l) (live h) /\
    (forall x, in_block h x -> ~ (raw_of (mem h) p l <= x < raw_of (mem h) p l + block_len l) -> mem h' x = mem h x) /\
    alloc_inv h' (delete p own).
Proof using Type*.
  intros Hi Hp; pose proof (ai_placed _ _ Hi _ _ Hp) as Pp; pose proof (pc_block _ _ _ Pp) as Hb.
  assert (Hne : raw_of (mem h) p l <> 0) by (pose proof (ai_blocks _ _ Hi _ _ Hb); lia).
  assert (Hfree : exists h', shim_free (raw_of (mem h) p l) h = Ret h' /\
    h' = {| live := delete (raw_of (mem h) p l) (live h); mem := free h (raw_of (mem h) p l) |}).
  { unfold shim_free; rewrite (proj2 (Z.eqb_neq _ _) Hne), Hb; by eexists. }
  destruct Hfree as (h' & E & Eh'); exists h'; split.
  - unfold dealloc, raw_of, over in *; destruct (Z.leb_spec (align l) 16); cbn [negb] in *; [exact E|].
    unfold read_ptr; rewrite decide_True; [exact E|].
    destruct Pp as [Hl _ _ P1 P2]; pose proof (block_len_pos l Hl); unfold raw_of, over in *.
    rewrite (proj2 (Z.leb_gt _ _)) in * by lia; cbn [negb] in *; eapply inside_block; [exact Hb|lia|lia].
  - subst h'; cbn [live mem]; split; [done|].
    assert (Hm : forall x, in_block h x -> ~ (raw_of (mem h) p l <= x < raw_of (mem h) p l + block_len l) ->
      free h (raw_of (mem h) p l) x = mem h x) by (intros x Hx Hn; by apply (free_ok h _ (block_len l))).
    split; [exact Hm|]; by apply alloc_inv_delete.
Qed.

(** Growing or shrinking, by the library or by moving. *)
Lemma realloc_spec h own p l n : alloc_inv h own -> own !! p = Some l -> layout_ok {| size := n; align := align l |} ->
  exists q h', realloc_layout p l n h = Ret (q, h') /\
    (q = 0 /\ alloc_inv h' own /\ (forall x, in_block h x -> mem h' x = mem h x) \/
     q <> 0 /\ alloc_inv h' (<[q := {| size := n; align := align l |}]> (delete p own)) /\
     (forall i, 0 <= i < Z.min (size l) n -> mem h' (q + i) = mem h (p + i)) /\
     (forall x, held (delete p own) x -> mem h' x = mem h x)).
Proof using Type*.
  intros Hi Hp Hl2; set (l2 := {| size := n; align := align l |}) in *.
  pose proof (ai_placed _ _ Hi _ _ Hp) as Pp; pose proof (pc_layout _ _ _ Pp) as Hl.
  pose proof (block_len_pos l Hl) as Hlen; pose proof (block_len_pos l2 Hl2) as Hlen2.
  pose proof (fun x => held_elsewhere h own p l x Hi Hp) as Hother.
  unfold realloc_layout; destruct (Z.leb_spec (align l) 16) as [Hle|Hgt].
  - assert (Hno : over l = false /\ over l2 = false) by (unfold over; cbn [align l2]; rewrite (proj2 (Z.leb_le _ _)); done).
    destruct Hno as [O1 O2]; pose proof (pc_block _ _ _ Pp) as Hb; unfold raw_of, block_len in *; rewrite O1, ?O2 in *.
    unfold shim_realloc; rewrite Hb; pose proof (realloc_ok h p (size l) n Hb ltac:(cbn [size l2] in *; lia)) as Hok.
    destruct (realloc h p n) as [q m]; do 2 eexists; split; [reflexivity|].
    destruct Hok as [[-> Hm]|(Hnew & Hm & Hcopy)].
    + left; split; [done|]; split; [|exact Hm]; apply alloc_inv_mem; [done|].
      intros q l' Hq Ho i Hi'; apply Hm; by eapply slots_in_block.
    + right; assert (Hq0 : q <> 0) by (destruct Hnew; lia); rewrite (proj2 (Z.eqb_neq _ _) Hq0); split; [done|].
      pose proof (alloc_inv_delete h own p l m Hi Hp) as Hdel; unfold raw_of, block_len in Hdel; rewrite O1 in Hdel.
      specialize (Hdel Hm); split; [|split; [exact Hcopy|intros x Hx; by apply Hm; apply Hother]].
      apply (alloc_inv_insert _ (delete p own) q n m q l2) in Hdel as [_ Hins]; try exact Hins; try done;
        unfold raw_of, block_len; rewrite ?O2; cbn [size l2] in *; try lia.
      apply aligned_16; [done..|apply Hnew].
  - assert (Ho : over l = true) by (unfold over; by rewrite (proj2 (Z.leb_gt _ _))).
    cbv zeta; fold l2; destruct (alloc_spec h own l2 Hi Hl2) as (q & h1 & -> & Hm1 & Hres); cbn [obind].
    destruct Hres as [[-> Hi1]|(Hq0 & _ & Hnone & Hi1)].
    { do 2 eexists; split; [reflexivity|]; by left. }
    rewrite (proj2 (Z.eqb_neq _ _) Hq0); cbn [negb]; assert (Hqp : q <> p) by congruence.
    assert (Hp1 : <[q := l2]> own !! p = Some l) by (by rewrite lookup_insert_ne).
    assert (Hq1 : <[q := l2]> own !! q = Some l2) by (by rewrite lookup_insert_eq).
    pose proof (ai_placed _ _ Hi1 _ _ Hp1) as [_ _ B1 P1 P2]; pose proof (ai_placed _ _ Hi1 _ _ Hq1) as [_ _ B2 Q1 Q2].
    pose proof (blocks_apart _ _ _ _ _ _ Hi1 Hp1 Hq1 ltac:(congruence)) as Hap.
    assert (O2 : over l2 = true) by done; rewrite Ho in P1; rewrite O2 in Q1; cbn [size l2] in *.
    unfold copy; rewrite decide_True.
    2:{ split; [|split; [|lia]]; eapply inside_block; [exact B1|lia|lia|exact B2|lia|lia]. }
    cbn [obind]; set (h2 := {| live := live h1; mem := _ |}).
    assert (Hi2 : alloc_inv h2 (<[q := l2]> own)).
    { apply (write_spec h1 _ q l2); [done|done|]; intros x Hx; cbn [size l2] in Hx.
      destruct (Z.leb_spec q x), (Z.ltb_spec x (q + Z.min (size l) n)); cbn [andb]; done || lia. }
    destruct (dealloc_spec h2 _ p l Hi2 Hp1) as (h3 & -> & _ & Hm3 & Hi3); cbn [obind].
    do 2 eexists; split; [reflexivity|]; right; split; [done|].
    assert (Hraw : raw_of (mem h2) p l = raw_of (mem h1) p l).
    { apply raw_of_kept; [by apply (ai_placed _ _ Hi1)|]; intros _ i Hi'; cbn [mem h2].
      destruct (Z.leb_spec q (p - 8 + i)), (Z.ltb_spec (p - 8 + i) (q + Z.min (size l) n)); cbn [andb]; done || lia. }
    rewrite Hraw in Hm3; rewrite delete_insert_ne in Hi3 by done; split; [exact Hi3|]; split.
    + intros i Hi'; assert (Hin : in_block h2 (q + i)) by (exists (raw_of (mem h1) q l2), (block_len l2); split; [exact B2|lia]).
      rewrite Hm3 by (done || lia); cbn [mem h2].
      rewrite (proj2 (Z.leb_le _ _)), (proj2 (Z.ltb_lt _ _)) by lia; cbn [andb]; replace (p + (q + i - q)) with (p + i) by lia.
      apply Hm1, (held_in_block h own); [done|]; exists p, l; split; [done|lia].
    + intros x Hx; pose proof (Hother x Hx) as [Hx1 Hx2]; destruct Hx as (r & lr & [Hne Hr]%lookup_delete_Some & Hxr).
      assert (Hr1 : <[q := l2]> own !! r = Some lr) by (rewrite lookup_insert_ne; [done|congruence]).
      pose proof (ai_placed _ _ Hi1 _ _ Hr1) as [_ _ B3 R1 R2]; assert (raw_of (mem h1) r lr <= r) by (destruct (over lr); lia).
      assert (Hrp : r <> p) by congruence; assert (Hrq : r <> q) by congruence.
      pose proof (blocks_apart _ _ _ _ _ _ Hi1 Hr1 Hp1 Hrp); pose proof (blocks_apart _ _ _ _ _ _ Hi1 Hr1 Hq1 Hrq).
      rewrite Hm3; [|exists (raw_of (mem h1) r lr), (block_len lr); split; [exact B3|lia]|lia]; cbn [mem h2].
      destruct (Z.leb_spec q x), (Z.ltb_spec x (q + Z.min (size l) n)); cbn [andb]; [lia|by apply Hm1..].
Qed.

(** ** The program at work *)

(** The program asks, frees, resizes and writes into what it holds; an answer of
    null leaves its holdings as they were. *)
Inductive heap_step : heap * gmap Z layout -> heap * gmap Z layout -> Prop :=
  | hs_alloc h own l p h' : layout_ok l -> alloc l h = Ret (p, h') ->
      heap_step (h, own) (h', if p =? 0 then own else <[p := l]> own)
  | hs_dealloc h own p l h' : own !! p = Some l -> dealloc p l h = Ret h' ->
      heap_step (h, own) (h', delete p own)
  | hs_realloc h own p l n q h' : own !! p = Some l -> layout_ok {| size := n; align := align l |} ->
      realloc_layout p l n h = Ret (q, h') ->
      heap_step (h, own) (h', if q =? 0 then own else <[q := {| size := n; align := align l |}]> (delete p own))
  | hs_write h own p l m' : own !! p = Some l -> (forall x, ~ (p <= x < p + size l) -> m' x = mem h x) ->
      heap_step (h, own) ({| live := live h; mem := m' |}, own).

Lemma heap_step_inv s s' : heap_step s s' -> alloc_inv s.1 s.2 -> alloc_inv s'.1 s'.2.
Proof using Type*.
  intros Hs Hi; destruct Hs as [h own l p h' Hl E|h own p l h' Hp E|h own p l n q h' Hp Hl E|h own p l m' Hp Hm]; cbn [fst snd] in *.
  - destruct (alloc_spec h own l Hi Hl) as (p2 & h2 & E2 & _ & Hres); rewrite E in E2; injection E2 as <- <-.
    by destruct Hres as [[-> ?]|(Hne & _ & _ & ?)]; [|rewrite (proj2 (Z.eqb_neq _ _) Hne)].
  - destruct (dealloc_spec h own p l Hi Hp) as (h2 & E2 & _ & _ & Hres); rewrite E in E2; by injection E2 as <-.
  - destruct (realloc_spec h own p l n Hi Hp Hl) as (q2 & h2 & E2 & Hres); rewrite E in E2; injection E2 as <- <-.
    by destruct Hres as [(-> & ? & _)|(Hne & ? & _)]; [|rewrite (proj2 (Z.eqb_neq _ _) Hne)].
  - by apply (write_spec h own p l).
Qed.

Definition empty_heap (m : Z -> Z) : heap := {| live := ∅; mem := m |}.

Lemma reachable_inv m s : rtc heap_step (empty_heap m, ∅) s -> alloc_inv s.1 s.2.
Proof using Type*.
  assert (Hs : forall s0, rtc heap_step s0 s -> alloc_inv s0.1 s0.2 -> alloc_inv s.1 s.2).
  { induction 1 as [|s0 s1 s2 H1 _ IH]; [done|]; intros Hi; by apply IH, (heap_step_inv s0). }
  intros Hr; apply (Hs _ Hr); by split; cbn [fst snd live empty_heap].
Qed.

(** Two allocations' own bytes do not meet either. *)
Lemma held_apart h own p l p' l' : alloc_inv h own -> own !! p = Some l -> own !! p' = Some l' -> p <> p' ->
  p + size l <= p' \/ p' + size l' <= p.
Proof using Type.
  clear; intros Hi H1 H2 Hne; pose proof (blocks_apart _ _ _ _ _ _ Hi H1 H2 Hne).
  destruct (ai_placed _ _ Hi _ _ H1) as [_ _ _ ? ?], (ai_placed _ _ Hi _ _ H2) as [_ _ _ ? ?].
  destruct (over l), (over l'); lia.
Qed.

Lemma held_address h own p l : alloc_inv h own -> own !! p = Some l -> 0 < p /\ p + size l <= M64 /\ p mod align l = 0.
Proof using Type.
  clear; intros Hi H1; destruct (ai_placed _ _ Hi _ _ H1) as [_ Ha B ? ?].
  destruct (ai_blocks _ _ Hi _ _ B) as (? & _ & ?); destruct (over l); lia.
Qed.

(** C21: Whatever the program does with the heap, every allocation it holds is
    aligned as its layout asks, in the address space and off every other one; the
    C library never sees a pointer it did not hand out, so that no later call
    goes wrong; and once everything is returned no block is left. *)
Theorem allocator_safe m h own : rtc heap_step (empty_heap m, ∅) (h, own) ->
  (forall p l, own !! p = Some l ->
    0 < p /\ p + size l <= M64 /\ p mod align l = 0 /\
    (forall p' l', own !! p' = Some l' -> p <> p' -> p + size l <= p' \/ p' + size l' <= p) /\
    (exists h', dealloc p l h = Ret h') /\
    (forall n, layout_ok {| size := n; align := align l |} -> exists r, realloc_layout p l n h = Ret r)) /\
  (forall l, layout_ok l -> exists r, alloc l h = Ret r) /\
  (own = ∅ -> live h = ∅).
Proof using Type*.
  intros Hi%reachable_inv; cbn [fst snd] in Hi; split; [|split].
  - intros p l Hp; pose proof (held_address _ _ _ _ Hi Hp) as (? & ? & ?); do 3 (split; [done|]).
    split; [intros p' l'; by apply (held_apart h own p l p' l' Hi Hp)|]; split.
    + destruct (dealloc_spec h own p l Hi Hp) as (h' & E & _); by exists h'.
    + intros n Hn; destruct (realloc_spec h own p l n Hi Hp Hn) as (q & h' & E & _); by exists (q, h').
  - intros l Hl; destruct (alloc_spec h own l Hi Hl) as (p & h' & E & _); by exists (p, h').
  - intros ->; apply map_empty; intros r; destruct (live h !! r) as [n|] eqn:E; [|done].
    by destruct (ai_all _ _ Hi _ _ E) as (p & l & Hp & _).
Qed.

(** C22: The allocator never touches the program's bytes: an allocation or a free
    leaves those of everything still held, and a resized allocation keeps its
    first bytes, as many as fit, wherever it has moved. *)
Theorem allocator_keeps_bytes m h own : rtc heap_step (empty_heap m, ∅) (h, own) ->
  (forall l p h', layout_ok l -> alloc l h = Ret (p, h') -> forall x, held own x -> mem h' x = mem h x) /\
  (forall p l h', own !! p = Some l -> dealloc p l h = Ret h' ->
    forall x, held (delete p own) x -> mem h' x = mem h x) /\
  (forall p l n q h', own !! p = Some l -> layout_ok {| size := n; align := align l |} ->
    realloc_layout p l n h = Ret (q, h') ->
    (forall x, held (delete p own) x -> mem h' x = mem h x) /\
    (forall i, 0 <= i < Z.min (size l) n -> mem h' ((if q =? 0 then p else q) + i) = mem h (p + i))).
Proof using Type*.
  intros Hi%reachable_inv; cbn [fst snd] in Hi; split; [|split].
  - intros l p h' Hl E x Hx; destruct (alloc_spec h own l Hi Hl) as (p2 & h2 & E2 & Hm & _).
    rewrite E in E2; injection E2 as <- <-; by apply Hm, (held_in_block h own).
  - intros p l h' Hp E x Hx; destruct (dealloc_spec h own p l Hi Hp) as (h2 & E2 & _ & Hm & _).
    rewrite E in E2; injection E2 as <-; destruct (held_elsewhere h own p l x Hi Hp Hx); by apply Hm.
  - intros p l n q h' Hp Hl E; destruct (realloc_spec h own p l n Hi Hp Hl) as (q2 & h2 & E2 & Hres).
    rewrite E in E2; injection E2 as <- <-; destruct Hres as [(-> & _ & Hm)|(Hne & _ & Hc & Hm)].
    + split; [intros x Hx; apply Hm, (held_elsewhere h own p l x Hi Hp Hx)|]; cbn [Z.eqb]; intros i Hi'.
      apply Hm, (held_in_block h own); [done|]; exists p, l; split; [done|lia].
    + rewrite (proj2 (Z.eqb_neq _ _) Hne); by split.
Qed.

End Operations.

(** ** A C library *)

(** Blocks one after the other, above every block that is live. *)
Definition heap_top (blocks : gmap Z Z) : Z := map_fold (fun p n t => Z.max t (p + n)) 16 blocks.

Lemma heap_top_spec blocks : 16 <= heap_top blocks /\ forall p n, blocks !! p = Some n -> p + n <= heap_top blocks.
Proof.
  unfold heap_top; apply (map_fold_weak_ind (fun t b => 16 <= t /\ forall p n, b !! p = Some n -> p + n <= t)).
  - split; [done|]; by intros p n ?%lookup_empty_Some.
  - intros i x b t _ [H1 H2]; split; [lia|]; intros p n [[<- <-]|[_ Hp]]%lookup_insert_Some; [lia|].
    pose proof (H2 _ _ Hp); lia.
Qed.

Definition bump_address (blocks : gmap Z Z) (n : Z) : Z :=
  let p := (heap_top blocks + 15) / 16 * 16 in if p + n <=? M64 then p else 0.

Lemma bump_address_spec blocks n : bump_address blocks n = 0 \/ new_block blocks (bump_address blocks n) n.
Proof.
  unfold bump_address; destruct (heap_top_spec blocks) as [H1 H2]; destruct (Z.leb_spec ((heap_top blocks + 15) / 16 * 16 + n) M64); [|by left].
  right; set (p := (heap_top blocks + 15) / 16 * 16) in *.
  assert (heap_top blocks <= p) by (subst p; clear; Z.div_mod_to_equations; lia).
  split; [lia|]; split; [apply Z_mod_mult|]; split; [done|]; intros q k Hq; right; pose proof (H2 _ _ Hq); lia.
Qed.

#[export] Instance bump : Libc := {|
  malloc h n := (bump_address (live h) n, mem h);
  free h _ := mem h;
  realloc h p n :=
    let q := bump_address (live h) n in
    (q, fun x => if (0 <? q) && (q <=? x) && (x <? q + n) then mem h (p + (x - q)) else mem h x);
|}.

#[export] Instance bump_laws : LibcLaws.
Proof.
  split; [intros h n _|by intros|intros h p old n Hp _]; cbn [malloc free realloc bump].
  - split; [done|]; apply bump_address_spec.
  - pose proof (bump_address_spec (live h) n) as Hq; set (q := bump_address (live h) n) in *.
    destruct Hq as [E|(N1 & N2 & N3 & N4)]; [left; rewrite E; by split|]; right.
    assert (Hm : forall x, in_block h x -> (0 <? q) && (q <=? x) && (x <? q + n) = false).
    { intros x (b & k & Hb & Hx); destruct (N4 _ _ Hb); lia. }
    split; [|split].
    + do 3 (split; [done|]); intros b k [_ Hb]%lookup_delete_Some; by apply N4.
    + intros x Hx _; by rewrite Hm.
    + intros i Hi; replace (_ && _) with true by lia; f_equal; lia.
Qed.

(** ** An example *)

(** A cache-line aligned allocation, resized. *)
Definition ex_layout : layout := {| size := 100; align := 64 |}.
Definition ex_zero : Z -> Z := fun _ => 0.

Definition heap_after (o : outcome (Z * heap)) : heap := match o with Ret (_, h) => h | Panic => empty_heap ex_zero end.
Definition answer (o : outcome (Z * heap)) : option Z := match o with Ret (p, _) => Some p | Panic => None end.

Lemma answer_after o p : answer o = Some p -> o = Ret (p, heap_after o).
Proof. by destruct o as [[q h]|]; intros [=]; subst. Qed.

Definition ex_heap : heap := heap_after (alloc ex_layout (empty_heap ex_zero)).

Lemma ex_layout_ok : layout_ok ex_layout.
Proof. split; [done|]; split; [by exists 6|done]. Qed.

Lemma ex_alloc : alloc ex_layout (empty_heap ex_zero) = Ret (64, ex_heap).
Proof. apply answer_after; vm_compute; reflexivity. Qed.

Lemma ex_reachable : rtc heap_step (empty_heap ex_zero, ∅) (ex_heap, <[64 := ex_layout]> ∅).
Proof. apply rtc_once; exact (hs_alloc _ ∅ ex_layout 64 ex_heap ex_layout_ok ex_alloc). Qed.

Lemma allocator_safe_witness : rtc heap_step (empty_heap ex_zero, ∅) (ex_heap, <[64 := ex_layout]> ∅) /\
  64 mod align ex_layout = 0 /\ exists h', dealloc 64 ex_layout ex_heap = Ret h'.
Proof.
  split; [exact ex_reachable|].
  destruct (proj1 (allocator_safe _ _ _ ex_reachable) 64 ex_layout ltac:(vm_compute; reflexivity)) as (_ & _ & E & _ & F & _).
  by split.
Defined.

Definition ex_grown : outcome (Z * heap) := realloc_layout 64 ex_layout 200 ex_heap.

Lemma ex_resize : ex_grown = Ret (256, heap_after ex_grown).
Proof. apply answer_after; vm_compute; reflexivity. Qed.

Lemma allocator_keeps_bytes_witness : rtc heap_step (empty_heap ex_zero, ∅) (ex_heap, <[64 := ex_layout]> ∅) /\
  ex_grown = Ret (256, heap_after ex_grown) /\
  (forall i, 0 <= i < 100 -> mem (heap_after ex_grown) (256 + i) = mem ex_heap (64 + i)).
Proof.
  split; [exact ex_reachable|]; split; [exact ex_resize|].
  refine (proj2 (proj2 (proj2 (allocator_keeps_bytes _ _ _ ex_reachable)) 64 ex_layout 200 256 _ _ _ ex_resize)).
  - vm_compute; reflexivity.
  - split; [done|]; split; [by exists 6|done].
Defined.
