(* ===== verification/Segment.v ===== *)
(** TCP segments on the wire (vendor/smoltcp/src/wire/tcp.rs): the header and
    its options, parsed into a [tcp_repr] and emitted from one. *)

From Stdlib Require Import ZArith Lia ZifyBool.
From stdpp Require Import base list numbers.
From S2P Require Import Prelude Rss TcpWire Iface Frame.

(** ** Options *)

Definition sack_blocks : Type := option (Z * Z) * option (Z * Z) * option (Z * Z).

(* [wire/tcp.rs 632-641 TcpOption] *)
Inductive tcp_option : Type :=
| EndOfList
| NoOperation
| MaxSegmentSize (value : Z)
| WindowScale (value : Z)
| SackPermitted
| SackRange (blocks : sack_blocks)
| TimeStamp (tsval tsecr : Z)
| Unknown (kind : Z) (data : list Z).

(** One block of the [for_each]. *)
(* [wire/tcp.rs 689-700 TcpOption::parse] *)
Definition parse_sack_block (data : list Z) (i : Z) : outcome (option (Z * Z)) :=
  let left := i * 8 in
  if left <? len data then
    let! range_left := read_be data left 4 in
    let! range_right := read_be data (left + 4) 4 in
    Ret (Some (range_left, range_right))
  else Ret None.

(** [buffer.get(2..length)] *)
Definition get_range (l : list Z) (a b : Z) : option (list Z) :=
  match slice l a b with Ret s => Some s | Panic => None end.

(** The option after the kind and the length bytes. *)
(* [wire/tcp.rs 658-709 TcpOption::parse] the inner [match]. *)
Definition parse_option_body (kind length : Z) (data : list Z) : outcome (option tcp_option) :=
  if kind =? 2 then
    if length =? 4 then let! v := read_be data 0 2 in Ret (Some (MaxSegmentSize v)) else Ret None
  else if kind =? 3 then
    if length =? 3 then let! v := index data 0 in Ret (Some (WindowScale v)) else Ret None
  else if kind =? 4 then
    if length =? 2 then Ret (Some SackPermitted) else Ret None
  else if kind =? 5 then
    check? negb ((length <? 10) || negb ((length - 2) mod 8 =? 0)) in
    let! b0 := parse_sack_block data 0 in
    let! b1 := parse_sack_block data 1 in
    let! b2 := parse_sack_block data 2 in
    Ret (Some (SackRange (b0, b1, b2)))
  else if (kind =? 8) && (length =? 10) then
    let! v := read_be data 0 4 in
    let! e := read_be data 4 4 in
    Ret (Some (TimeStamp v e))
  else Ret (Some (Unknown kind data)).

(* [wire/tcp.rs 644-713 TcpOption::parse] *)
Definition parse_option (buffer : list Z) : outcome (option (list Z * tcp_option)) :=
  match buffer with
  | [] => Ret None
  | kind :: _ =>
      if kind =? 0 then let! rest := slice_from buffer 1 in Ret (Some (rest, EndOfList))
      else if kind =? 1 then let! rest := slice_from buffer 1 in Ret (Some (rest, NoOperation))
      else
        match buffer !! 1%nat with
        | None => Ret None
        | Some length =>
            match get_range buffer 2 length with
            | None => Ret None
            | Some data =>
                try! o := parse_option_body kind length data in
                let! rest := slice_from buffer length in
                Ret (Some (rest, o))
            end
        end
  end.

(** What the loop of [Repr::parse] collects. *)
Record tcp_options : Type := {
  o_max_seg_size : option Z;
  o_window_scale : option Z;
  o_sack_permitted : bool;
  o_sack_ranges : sack_blocks;
  o_timestamp : option timestamp_repr;
}.

Definition no_options : tcp_options :=
  {| o_max_seg_size := None; o_window_scale := None; o_sack_permitted := false;
     o_sack_ranges := (None, None, None); o_timestamp := None |}.

(** One turn of the loop but for [break]. *)
(* [wire/tcp.rs 912-940 Repr::parse] *)
Definition note_option (o : tcp_option) (acc : tcp_options) : tcp_options :=
  match o with
  | EndOfList | NoOperation | Unknown _ _ => acc
  | MaxSegmentSize v =>
      {| o_max_seg_size := Some v; o_window_scale := o_window_scale acc; o_sack_permitted := o_sack_permitted acc;
         o_sack_ranges := o_sack_ranges acc; o_timestamp := o_timestamp acc |}
  | WindowScale v =>
      {| o_max_seg_size := o_max_seg_size acc; o_window_scale := Some (if 14 <? v then 14 else v);
         o_sack_permitted := o_sack_permitted acc; o_sack_ranges := o_sack_ranges acc;
         o_timestamp := o_timestamp acc |}
  | SackPermitted =>
      {| o_max_seg_size := o_max_seg_size acc; o_window_scale := o_window_scale acc; o_sack_permitted := true;
         o_sack_ranges := o_sack_ranges acc; o_timestamp := o_timestamp acc |}
  | SackRange blocks =>
      {| o_max_seg_size := o_max_seg_size acc; o_window_scale := o_window_scale acc;
         o_sack_permitted := o_sack_permitted acc; o_sack_ranges := blocks; o_timestamp := o_timestamp acc |}
  | TimeStamp v e =>
      {| o_max_seg_size := o_max_seg_size acc; o_window_scale := o_window_scale acc;
         o_sack_permitted := o_sack_permitted acc; o_sack_ranges := o_sack_ranges acc;
         o_timestamp := Some {| tsval := v; tsecr := e |} |}
  end.

(** Every option takes a byte or more, so that as many turns as bytes are
    enough; running out of them would be a [Panic], which never happens. *)
(* [wire/tcp.rs 910-942 Repr::parse] *)
Fixpoint parse_options (fuel : nat) (options : list Z) (acc : tcp_options) : outcome (option tcp_options) :=
  match options, fuel with
  | [], _ => Ret (Some acc)
  | _ :: _, O => Panic
  | _ :: _, S fuel =>
      try! (rest, o) := parse_option options in
      match o with
      | EndOfList => Ret (Some acc)
      | o => parse_options fuel rest (note_option o acc)
      end
  end.

(** ** The header *)

(* [wire/tcp.rs 276-280 Packet::header_len] *)
Definition tcp_header_len (data : list Z) : outcome Z :=
  let! raw := read_be data 12 2 in Ret (u8 (u16 (Z.shiftr raw 12 * 4))).

(* [wire/tcp.rs 155-167 Packet::check_len] *)
Definition tcp_check_len (data : list Z) : outcome bool :=
  if len data <? 20 then Ret false
  else
    let! hl := tcp_header_len data in
    Ret (negb ((len data <? hl) || (hl <? 20))).

(** The combination of SYN, FIN, RST and PSH. *)
(* [wire/tcp.rs 887-894 Repr::parse] *)
Definition parse_control (syn fin rst psh : bool) : option control :=
  match syn, fin, rst, psh with
  | false, false, false, false => Some CNone
  | false, false, false, true => Some CPsh
  | true, false, false, _ => Some CSyn
  | false, true, false, _ => Some CFin
  | false, false, true, _ => Some CRst
  | _, _, _, _ => None
  end.

Definition flag (raw mask : Z) : bool := negb (Z.land raw mask =? 0).

(** [NetworkEndian::read_i32] *)
Definition read_i32 (data : list Z) (a : Z) : outcome Z := let! v := read_be data a 4 in Ret (i32 v).

(** The checksum is left to the card. *)
(* [wire/tcp.rs 864-958 Repr::parse] *)
Definition tcp_parse (data : list Z) : outcome (option tcp_repr) :=
  let! ok := tcp_check_len data in
  check? ok in
  let! src := read_be data 0 2 in
  let! dst := read_be data 2 2 in
  check? negb (src =? 0) in
  check? negb (dst =? 0) in
  let! raw := read_be data 12 2 in
  match parse_control (flag raw 2) (flag raw 1) (flag raw 4) (flag raw 8) with
  | None => Ret None
  | Some control =>
      let! ack := (if flag raw 16 then let! a := read_i32 data 8 in Ret (Some a) else Ret None) in
      let! hl := tcp_header_len data in
      let! options := slice data 20 hl in
      try! opts := parse_options (length options) options no_options in
      let! seq := read_i32 data 4 in
      let! window := read_be data 14 2 in
      let! payload := slice_from data hl in
      Ret (Some {| src_port := src; dst_port := dst; ctl := control; seq_num := seq; ack_num := ack;
                   window_len := window; window_scale := o_window_scale opts;
                   max_seg_size := o_max_seg_size opts; sack_permitted := o_sack_permitted opts;
                   sack_ranges := o_sack_ranges opts; timestamp := o_timestamp opts; payload := payload |})
  end.

(** ** Emitting *)

Definition block_bytes (b : option (Z * Z)) : list Z :=
  match b with Some (l, r) => be32_bytes l ++ be32_bytes r | None => [] end.
Definition blocks_bytes (b : sack_blocks) : list Z :=
  let '(b0, b1, b2) := b in block_bytes b0 ++ block_bytes b1 ++ block_bytes b2.

(* [wire/tcp.rs 715-726 TcpOption::buffer_len] *)
Definition option_len (o : tcp_option) : Z :=
  match o with
  | EndOfList | NoOperation => 1
  | MaxSegmentSize _ => 4
  | WindowScale _ => 3
  | SackPermitted => 2
  | SackRange b => len (blocks_bytes b) + 2
  | TimeStamp _ _ => 10
  | Unknown _ data => 2 + len data
  end.

(** The kind and what follows the length byte. *)
Definition option_contents (o : tcp_option) : Z * list Z :=
  match o with
  | EndOfList => (0, [])
  | NoOperation => (1, [])
  | MaxSegmentSize v => (2, be16_bytes v)
  | WindowScale v => (3, [v])
  | SackPermitted => (4, [])
  | SackRange b => (5, blocks_bytes b)
  | TimeStamp v e => (8, be32_bytes v ++ be32_bytes e)
  | Unknown kind data => (kind, data)
  end.

(** The part of the buffer that the option fills, and the part behind it.
    [EndOfList] clears the rest of the buffer. *)
(* [wire/tcp.rs 728-787 TcpOption::emit] *)
Definition emit_option (o : tcp_option) (buffer : list Z) : outcome (list Z * list Z) :=
  let length := option_len o in
  let '(kind, contents) := option_contents o in
  let! buffer :=
    match o with
    | EndOfList => Ret (zreplicate (len buffer) 0)
    | NoOperation => store buffer 0 kind
    | _ =>
        let! buffer := store buffer 1 (u8 length) in
        let! buffer := store buffer 0 kind in
        write_bytes buffer 2 contents
    end in
  let! rest := slice_from buffer length in
  Ret (ztake length buffer, rest).

(** One option after the other, each into what the last left. *)
Fixpoint emit_options (os : list tcp_option) (buffer : list Z) : outcome (list Z * list Z) :=
  match os with
  | [] => Ret ([], buffer)
  | o :: os =>
      let! (front, rest) := emit_option o buffer in
      let! (fronts, rest) := emit_options os rest in
      Ret (front ++ fronts, rest)
  end.

Definition has_blocks (b : sack_blocks) : bool :=
  let '(b0, b1, b2) := b in
  match b0, b1, b2 with None, None, None => false | _, _, _ => true end.

(** The options of a segment in the order they are emitted. *)
(* [wire/tcp.rs 1024-1046 Repr::emit] *)
Definition options_of (r : tcp_repr) : list tcp_option :=
  (match max_seg_size r with Some v => [MaxSegmentSize v] | None => [] end) ++
  (match window_scale r with Some v => [WindowScale v] | None => [] end) ++
  (if sack_permitted r then [SackPermitted]
   else match ack_num r with
        | Some _ => if has_blocks (sack_ranges r) then [SackRange (sack_ranges r)] else []
        | None => []
        end) ++
  (match timestamp r with Some t => [TimeStamp (tsval t) (tsecr t)] | None => [] end).

(* [wire/tcp.rs 1022-1051 Repr::emit] *)
Definition emit_option_area (r : tcp_repr) (options : list Z) : outcome (list Z) :=
  let! (front, rest) := emit_options (options_of r) options in
  if len rest =? 0 then Ret front
  else
    let! (pad, rest) := emit_option EndOfList rest in
    Ret (front ++ pad ++ rest).

(** [set_psh(true)] and its kin. *)
Definition set_flag (mask : Z) (value : bool) (data : list Z) : outcome (list Z) :=
  modify_u16 data 12 (fun raw => if value then Z.lor raw mask else Z.land raw (65535 - mask)).

(* [wire/tcp.rs 1014-1020 Repr::emit] *)
Definition emit_control (c : control) (data : list Z) : outcome (list Z) :=
  match c with
  | CNone => Ret data
  | CPsh => set_flag 8 true data
  | CSyn => set_flag 2 true data
  | CFin => set_flag 1 true data
  | CRst => set_flag 4 true data
  end.

(** [NetworkEndian::write_i32] *)
Definition write_i32 (data : list Z) (a v : Z) : outcome (list Z) := write_u32 data a (u32 v).

(* [wire/tcp.rs 998-1062 Repr::emit] *)
Definition tcp_emit (r : tcp_repr) (data : list Z) : outcome (list Z) :=
  let! data := write_u16 data 0 (src_port r) in
  let! data := write_u16 data 2 (dst_port r) in
  let! data := write_i32 data 4 (seq_num r) in
  let! data := write_i32 data 8 (match ack_num r with Some a => a | None => 0 end) in
  let! data := write_u16 data 14 (window_len r) in
  let! data := modify_u16 data 12 (fun raw =>
    Z.lor (Z.land raw 4095) (u16 (Z.shiftl (u8 (TcpWire.header_len r) / 4) 12))) in
  let! data := modify_u16 data 12 (fun raw => Z.land raw 61440) in
  let! data := emit_control (ctl r) data in
  let! data := set_flag 16 (match ack_num r with Some _ => true | None => false end) data in
  let! hl := tcp_header_len data in
  let! options := slice data 20 hl in
  let! options := emit_option_area r options in
  let! data := copy_from_slice data 20 hl options in
  let! data := write_u16 data 18 0 in
  let! hl := tcp_header_len data in
  let! data := emit_from data hl (fun p => copy_from_slice p 0 (len (payload r)) (payload r)) in
  write_u16 data 16 0.
