(* ===== verification/Neighbor.v ===== *)
(** What the interface remembers to reach its peers
    (vendor/smoltcp/src/iface/{neighbor,route,socket_meta}.rs): the neighbor
    cache with its expiry and rate limit, the routes, and the state of a socket
    whose neighbor is missing. *)

From Stdlib Require Import ZArith Lia ZifyBool.
From stdpp Require Import base list gmap numbers.
From S2P Require Import Prelude Time TcpWire Iface Frame.

(** ** The neighbor cache *)

(* [iface/neighbor.rs 16-19 Neighbor] *)
Record neighbor : Type := { nb_hardware : eth_address; nb_expires : instant }.

(* [iface/neighbor.rs 24-32 Answer] *)
Variant answer : Type := Found (a : eth_address) | NotFound | RateLimited.

(* [iface/neighbor.rs 36-41 Answer::found] *)
Definition found (a : answer) : bool := match a with Found _ => true | _ => false end.

(** A map of at most [NEIGHBOR_COUNT] entries (build.rs). *)
(* [iface/neighbor.rs 46-49 Cache] *)
Record neighbor_cache : Type := { nc_storage : gmap ip_address neighbor; nc_silent_until : instant }.

Definition NEIGHBOR_COUNT : nat := 8.

(* [iface/neighbor.rs 53-53 Cache::SILENT_TIME] *)
Definition SILENT_TIME : duration := from_millis 1000.
(* [iface/neighbor.rs 56-56 Cache::ENTRY_LIFETIME] *)
Definition ENTRY_LIFETIME : duration := from_millis 60000.

(* [iface/neighbor.rs 59-64 Cache::new] *)
Definition cache_new : neighbor_cache := {| nc_storage := ∅; nc_silent_until := instant_from_millis 0 |}.

(* [iface/neighbor.rs 66-80 Cache::reset_expiry_if_existing] *)
Definition reset_expiry_if_existing (p : ip_address) (hw : eth_address) (now : instant) (c : neighbor_cache)
  : neighbor_cache :=
  match nc_storage c !! p with
  | Some n =>
      if bool_decide (hw = nb_hardware n) then
        {| nc_storage := <[p := {| nb_hardware := nb_hardware n; nb_expires := instant_add now ENTRY_LIFETIME |}]>
                           (nc_storage c);
           nc_silent_until := nc_silent_until c |}
      else c
  | None => c
  end.

Section Cache.
(** The entry with the least expiry that [min_by_key] finds; among several, in
    the order of the [heapless] map. *)
Context (oldest : gmap ip_address neighbor -> option ip_address).

(* [iface/neighbor.rs 95-147 Cache::fill_with_expiration] *)
Definition fill_with_expiration (p : ip_address) (hw : eth_address) (expires_at : instant) (c : neighbor_cache)
  : outcome neighbor_cache :=
  let n := {| nb_hardware := hw; nb_expires := expires_at |} in
  let insert m := {| nc_storage := <[p := n]> m; nc_silent_until := nc_silent_until c |} in
  match nc_storage c !! p with
  | Some _ => Ret (insert (nc_storage c))
  | None =>
      if bool_decide (size (nc_storage c) < NEIGHBOR_COUNT)%nat then Ret (insert (nc_storage c))
      else match oldest (nc_storage c) with
           | Some old => Ret (insert (delete old (nc_storage c)))
           | None => Panic
           end
  end.

(* [iface/neighbor.rs 82-93 Cache::fill] *)
Definition fill (p : ip_address) (hw : eth_address) (now : instant) (c : neighbor_cache) : outcome neighbor_cache :=
  fill_with_expiration p hw (instant_add now ENTRY_LIFETIME) c.

End Cache.

(* [iface/neighbor.rs 149-166 Cache::lookup] *)
Definition cache_lookup (p : ip_address) (now : instant) (c : neighbor_cache) : outcome answer :=
  assert! is_unicast p in
  match nc_storage c !! p with
  | Some n =>
      if now <? nb_expires n then Ret (Found (nb_hardware n))
      else Ret (if now <? nc_silent_until c then RateLimited else NotFound)
  | None => Ret (if now <? nc_silent_until c then RateLimited else NotFound)
  end.

(* [iface/neighbor.rs 168-170 Cache::limit_rate] *)
Definition limit_rate (now : instant) (c : neighbor_cache) : neighbor_cache :=
  {| nc_storage := nc_storage c; nc_silent_until := instant_add now SILENT_TIME |}.

(** ** Routes *)

(* [iface/route.rs 27-34 Route] *)
Record route : Type := {
  rt_cidr : cidr;
  rt_via_router : ip_address;
  rt_preferred_until : option instant;
  rt_expires_at : option instant;
}.

(** At most [ROUTE_COUNT] of them (build.rs). *)
Definition ROUTE_COUNT : Z := 2.

(* [iface/route.rs 37-37 IPV4_DEFAULT] *)
Definition IPV4_DEFAULT : cidr := {| cidr_addr := UNSPECIFIED; prefix_len := 0 |}.

(* [iface/route.rs 45-52 Route::new_ipv4_gateway] *)
Definition new_ipv4_gateway (gateway : ip_address) : route :=
  {| rt_cidr := IPV4_DEFAULT; rt_via_router := gateway; rt_preferred_until := None; rt_expires_at := None |}.

(* [iface/route.rs 73-75 Route::is_ipv4_gateway] *)
Definition is_ipv4_gateway (r : route) : bool := bool_decide (rt_cidr r = IPV4_DEFAULT).

(* [iface/route.rs 143-154 Routes::remove_default_ipv4_route] *)
Fixpoint remove_default_ipv4_route (rs : list route) : list route :=
  match rs with
  | [] => []
  | r :: rs => if is_ipv4_gateway r then rs else r :: remove_default_ipv4_route rs
  end.

(** The caller ignores the error of a full table. *)
(* [iface/route.rs 101-110 Routes::add_default_ipv4_route] *)
Definition add_default_ipv4_route (gateway : ip_address) (rs : list route) : list route :=
  let rs := remove_default_ipv4_route rs in
  if len rs <? ROUTE_COUNT then rs ++ [new_ipv4_gateway gateway] else rs.

Definition route_matches (addr : ip_address) (now : instant) (r : route) : bool :=
  match rt_expires_at r with
  | Some t => if t <? now then false else contains_addr (rt_cidr r) addr
  | None => contains_addr (rt_cidr r) addr
  end.

(** [max_by_key] answers the last of the greatest. *)
Definition longer (best : option route) (r : route) : option route :=
  match best with
  | Some b => if prefix_len (rt_cidr r) <? prefix_len (rt_cidr b) then Some b else Some r
  | None => Some r
  end.

(* [iface/route.rs 173-190 Routes::lookup] *)
Definition routes_lookup (addr : ip_address) (now : instant) (rs : list route) : outcome (option ip_address) :=
  assert! is_unicast addr in
  Ret (option_map rt_via_router (fold_left longer (List.filter (route_matches addr now) rs) None)).

(** ** A socket without its neighbor *)

(* [iface/socket_meta.rs 14-24 NeighborState] *)
Variant neighbor_state : Type :=
| Active
| Waiting (neighbor : ip_address) (silent_until : instant).

(* [iface/socket_meta.rs 46-46 Meta::DISCOVERY_SILENT_TIME] *)
Definition DISCOVERY_SILENT_TIME : duration := from_millis 1000.

(** [has_neighbor] is only asked about the neighbor waited for. *)
(* [iface/socket_meta.rs 67-97 Meta::egress_permitted] *)
Definition egress_permitted (now : instant) (has_neighbor : ip_address -> outcome bool) (st : neighbor_state)
  : outcome (bool * neighbor_state) :=
  match st with
  | Active => Ret (true, st)
  | Waiting n silent_until =>
      let! known := has_neighbor n in
      if known : bool then Ret (true, Active)
      else Ret (silent_until <=? now, st)
  end.

(* [iface/socket_meta.rs 99-110 Meta::neighbor_missing] *)
Definition neighbor_missing (now : instant) (n : ip_address) : neighbor_state :=
  Waiting n (instant_add now DISCOVERY_SILENT_TIME).
