(* ===== verification/Net.v ===== *)
(** The network interface under a worker
    (vendor/smoltcp/src/iface/interface/{mod,ethernet,ipv4,tcp}.rs): a received
    frame on its way to a socket and its answer, a segment on its way to the
    wire, and [Interface::poll].  IPv4 over Ethernet, without fragmentation, is
    what this build has.  The way of a frame to the sockets is generic in them
    ([ethernet_frame], [frame_ingress], [frame_loop]); here they are the TCP
    sockets of a worker. *)

From Stdlib Require Import ZArith Lia ZifyBool.
From stdpp Require Import base list gmap numbers.
From S2P Require Import Prelude Rss Device Time TcpWire Iface TcpState TcpSocket TcpProcess TcpDispatch Worker.
From S2P Require Import Frame DhcpWire Segment Neighbor.

(** What [InterfaceInner] holds beside a socket's context, the state of the
    sockets' neighbors (in the order of the sockets, [Active] where the list
    ends), and the card. *)
(* [iface/interface/mod.rs 128-158 InterfaceInner] *)
Record net : Type := {
  nt_hardware : eth_address;
  nt_routes : list route;
  nt_cache : neighbor_cache;
  nt_meta : list neighbor_state;
  nt_nic : nic;
}.

Definition with_cache (c : neighbor_cache) (n : net) : net :=
  {| nt_hardware := nt_hardware n; nt_routes := nt_routes n; nt_cache := c; nt_meta := nt_meta n; nt_nic := nt_nic n |}.
Definition with_nic (w : nic) (n : net) : net :=
  {| nt_hardware := nt_hardware n; nt_routes := nt_routes n; nt_cache := nt_cache n; nt_meta := nt_meta n; nt_nic := w |}.
Definition with_meta (m : list neighbor_state) (n : net) : net :=
  {| nt_hardware := nt_hardware n; nt_routes := nt_routes n; nt_cache := nt_cache n; nt_meta := m; nt_nic := nt_nic n |}.
Definition with_now (now : instant) (cx : context) : context :=
  {| cx_now := now; max_transmission_unit := max_transmission_unit cx; any_ip := any_ip cx;
     ip_addrs := ip_addrs cx; cx_rand := cx_rand cx |}.

(** ** Addresses *)

(** [Ipv4Addr::from_bits], [is_broadcast] and [is_multicast]. *)
Definition from_bits (n : Z) : ip_address := be32_bytes n.
Definition ip_is_broadcast (a : ip_address) : bool := bool_decide (a = [255; 255; 255; 255]).
Definition ip_is_multicast (a : ip_address) : bool :=
  match a with b :: _ => (224 <=? b) && (b <=? 239) | [] => false end.

(* [wire/ipv4.rs 142-152 Cidr::broadcast] *)
Definition cidr_broadcast (c : cidr) : option ip_address :=
  if (prefix_len c =? 31) || (prefix_len c =? 32) then None
  else Some (from_bits (Z.lor (Z.land (to_bits (cidr_addr c)) (netmask c)) (Z.shiftr 4294967295 (prefix_len c)))).

(* [iface/interface/ipv4.rs 66-79 InterfaceInner::is_broadcast_v4] *)
Definition is_broadcast_v4 (cx : context) (a : ip_address) : bool :=
  if ip_is_broadcast a then true
  else existsb (fun c => match cidr_broadcast c with Some b => bool_decide (a = b) | None => false end) (ip_addrs cx).

(* [iface/interface/ipv4.rs 82-84 InterfaceInner::is_unicast_v4] *)
Definition is_unicast_v4 (cx : context) (a : ip_address) : bool := is_unicast a && negb (is_broadcast_v4 cx a).

(* [iface/interface/mod.rs 897-917 InterfaceInner::has_multicast_group] *)
Definition has_multicast_group (a : ip_address) : bool := bool_decide (a = [224; 0; 0; 1]).

(* [iface/interface/mod.rs 1010-1012 InterfaceInner::in_same_network] *)
Definition in_same_network (cx : context) (a : ip_address) : bool :=
  existsb (fun c => contains_addr c a) (ip_addrs cx).

(* [iface/interface/mod.rs 1014-1024 InterfaceInner::route] *)
Definition route_to (cx : context) (n : net) (a : ip_address) : outcome (option ip_address) :=
  if in_same_network cx a || ip_is_broadcast a then Ret (Some a)
  else routes_lookup a (cx_now cx) (nt_routes n).

(* [iface/interface/mod.rs 1026-1038 InterfaceInner::has_neighbor] *)
Definition has_neighbor (cx : context) (n : net) (a : ip_address) : outcome bool :=
  let! r := route_to cx n a in
  match r with
  | Some routed => let! ans := cache_lookup routed (cx_now cx) (nt_cache n) in Ret (found ans)
  | None => Ret false
  end.

(** ** Transmitting *)

(** The closure of [consume] may panic. *)
Definition transmit (n : Z) (emit : list Z -> outcome (list Z)) (w : nic) : outcome nic :=
  let! (r, w) := tx_consume n (fun sl => match emit sl with
                                         | Ret sl => (Ret tt, sl)
                                         | Panic => (Panic, sl)
                                         end) w in
  let! _ := r in Ret w.

(* [iface/interface/ethernet.rs 48-70 InterfaceInner::dispatch_ethernet] *)
Definition dispatch_ethernet (buffer_len : Z) (f : list Z -> outcome (list Z)) (n : net) : outcome net :=
  let! w := transmit (usize (14 + buffer_len)) (fun b =>
    let! b := copy_from_slice b 6 12 (nt_hardware n) in f b) (nt_nic n) in
  Ret (with_nic w n).

(** An ARP packet to [dst]; both callers fill it so. *)
(* [iface/interface/mod.rs 984-1000 InterfaceInner::dispatch] *)
Definition dispatch_arp (dst : eth_address) (r : arp_repr) (n : net) : outcome net :=
  dispatch_ethernet arp_buffer_len (fun b =>
    let! b := copy_from_slice b 0 6 dst in
    let! b := write_u16 b 12 ETHERTYPE_ARP in
    emit_from b 14 (arp_emit r)) n.

(* [iface/interface/mod.rs 1402-1410 DispatchError] *)
Variant dispatch_error : Type := NoRoute | NeighborPending.

(** Sends an ARP request when the neighbor is not known and none was sent lately. *)
(* [iface/interface/mod.rs 1041-1186 InterfaceInner::lookup_hardware_addr] *)
Definition lookup_hardware_addr (cx : context) (dst : ip_address) (n : net)
  : outcome (result eth_address dispatch_error * net) :=
  if is_broadcast_v4 cx dst then Ret (Ok ETH_BROADCAST, n)
  else if ip_is_multicast dst then
    let! b1 := index dst 1 in
    let! b2 := index dst 2 in
    let! b3 := index dst 3 in
    Ret (Ok [1; 0; 94; Z.land b1 127; b2; b3], n)
  else
    let! r := route_to cx n dst in
    match r with
    | None => Ret (Err NoRoute, n)
    | Some hop =>
        let! ans := cache_lookup hop (cx_now cx) (nt_cache n) in
        match ans with
        | Found a => Ret (Ok a, n)
        | RateLimited => Ret (Err NeighborPending, n)
        | NotFound =>
            match get_source_address cx hop with
            | None => Ret (Err NoRoute, n)
            | Some src =>
                let! n := dispatch_arp ETH_BROADCAST
                  {| arp_operation := 1; arp_source_hardware := nt_hardware n; arp_source_protocol := src;
                     arp_target_hardware := ETH_BROADCAST; arp_target_protocol := hop |} n in
                Ret (Err NeighborPending, with_cache (limit_rate (cx_now cx) (nt_cache n)) n)
            end
        end
    end.

(* [iface/packet.rs 210-227 IpPayload] *)
Inductive ip_payload : Type :=
| PTcp (r : tcp_repr)
| PIcmp (r : icmp_unreachable)
| PDhcp (u : udp_repr) (r : dhcp_repr).

Definition ip_packet : Type := ipv4_repr * ip_payload.

(** The device gives no burst size, so that the window is sent as it is. *)
(* [iface/packet.rs 73-183 Packet::emit_payload] the payloads this build sends. *)
Definition emit_payload (p : ip_payload) (data : list Z) : outcome (list Z) :=
  match p with
  | PTcp r => tcp_emit r data
  | PIcmp r => icmp_emit r data
  | PDhcp u r => dhcp_udp_emit u r data
  end.

(** The whole frame: the Ethernet header, the IP header and its payload. *)
(* [iface/interface/mod.rs 1247-1268 InterfaceInner::dispatch_ip] the closures. *)
Definition emit_frame (src dst : eth_address) (p : ip_packet) (b : list Z) : outcome (list Z) :=
  let! b := copy_from_slice b 6 12 src in
  let! b := copy_from_slice b 0 6 dst in
  let! b := write_u16 b 12 ETHERTYPE_IPV4 in
  emit_from b 14 (fun b =>
    let! b := v4_emit (fst p) b in
    emit_from b 20 (emit_payload (snd p))).

(** What does not fit the MTU is dropped. *)
(* [iface/interface/mod.rs 1193-1397 InterfaceInner::dispatch_ip] *)
Definition dispatch_ip (cx : context) (p : ip_packet) (n : net) : outcome (result unit dispatch_error * net) :=
  let ip := v4_ip (fst p) in
  assert! negb (is_unspecified (ip_dst ip)) in
  let total_ip_len := usize (20 + ip_payload_len ip) in
  let! (r, n) := lookup_hardware_addr cx (ip_dst ip) n in
  match r with
  | Err e => Ret (Err e, n)
  | Ok dst =>
      if ip_mtu cx <? total_ip_len then Ret (Ok (), n)
      else
        let! w := transmit (usize (14 + total_ip_len)) (emit_frame (nt_hardware n) dst p) (nt_nic n) in
        Ret (Ok (), with_nic w n)
  end.

Definition tcp_packet (p : packet) : ip_packet :=
  ({| v4_ip := fst p; v4_next_header := PROTO_TCP |}, PTcp (snd p)).

(** ** Receiving *)

Section Receive.
Context (oldest : gmap ip_address neighbor -> option ip_address).

(** The first socket that accepts the segment, from the front. *)
(* [iface/interface/tcp.rs 32-41 InterfaceInner::process_tcp] the loop. *)
Fixpoint deliver (cx : context) (ip : ip_repr) (r : tcp_repr) (ss : socket_set)
  : outcome (option (option packet * context * socket_set)) :=
  match ss with
  | [] => Ret None
  | slot :: ss =>
      let skip :=
        let! o := deliver cx ip r ss in
        Ret (option_map (fun '(p, cx, ss) => (p, cx, slot :: ss)) o) in
      match slot with
      | Some s =>
          if accepts s ip r then
            let! (p, s, cx) := process cx ip r s in
            Ret (Some (p, cx, Some s :: ss))
          else skip
      | None => skip
      end
  end.

(* [iface/interface/tcp.rs 6-57 InterfaceInner::process_tcp] *)
Definition process_tcp (cx : context) (ip : ip_repr) (ip_payload : list Z) (ss : socket_set)
  : outcome (option ip_packet * context * socket_set) :=
  if is_unspecified (ip_src ip) || is_unspecified (ip_dst ip) then Ret (None, cx, ss)
  else
    let! ok := tcp_check_len ip_payload in
    if negb ok then Ret (None, cx, ss)
    else
      let! r := tcp_parse ip_payload in
      match r with
      | None => Ret (None, cx, ss)
      | Some r =>
          let! d := deliver cx ip r ss in
          match d with
          | Some (p, cx, ss) => Ret (option_map tcp_packet p, cx, ss)
          | None =>
              if bool_decide (ctl r = CRst) || is_unspecified (ip_dst ip) || is_unspecified (ip_src ip)
              then Ret (None, cx, ss)
              else let! p := rst_reply ip r in Ret (Some (tcp_packet p), cx, ss)
          end
      end.

(* [iface/packet.rs 254-264 icmp_reply_payload_len] *)
Definition icmp_reply_payload_len (n mtu header_len : Z) : Z := Z.min n (usize (mtu - header_len * 2 - 8)).

(** An unreachable message is not an echo reply: broadcasts are not answered. *)
(* [iface/interface/ipv4.rs 373-418 InterfaceInner::icmpv4_reply] *)
Definition icmpv4_reply (cx : context) (v4 : ipv4_repr) (r : icmp_unreachable) : option ip_packet :=
  if negb (is_unicast_v4 cx (ip_src (v4_ip v4))) then None
  else if is_unicast_v4 cx (ip_dst (v4_ip v4)) then
    Some ({| v4_ip := {| ip_src := ip_dst (v4_ip v4); ip_dst := ip_src (v4_ip v4);
                         ip_payload_len := icmp_buffer_len r; ip_hop_limit := 64 |};
             v4_next_header := PROTO_ICMP |}, PIcmp r)
  else None.

(** Nothing is done with a message that parses. *)
(* [iface/interface/ipv4.rs 320-371 InterfaceInner::process_icmpv4] *)
Definition process_icmpv4 (ip_payload : list Z) : outcome (option ip_packet) :=
  let! _ := icmp_parse ip_payload in Ret None.

(** The neighbor's entry is renewed by a packet it sends itself. *)
Definition renew_neighbor (cx : context) (v4 : ipv4_repr) (src : eth_address) (n : net) : net :=
  if is_unicast_v4 cx (ip_dst (v4_ip v4)) then
    with_cache (reset_expiry_if_existing (ip_src (v4_ip v4)) src (cx_now cx) (nt_cache n)) n
  else n.

(** UDP has no socket here, and is refused like an unknown protocol. *)
(* [iface/interface/ipv4.rs 95-252 InterfaceInner::process_ipv4] *)
Definition process_ipv4 (cx : context) (src : eth_address) (data : list Z) (n : net) (ss : socket_set)
  : outcome (option ip_packet * context * net * socket_set) :=
  let nothing := Ret (None, cx, n, ss) in
  let! v4 := v4_parse data in
  match v4 with
  | None => nothing
  | Some v4 =>
      let ip := v4_ip v4 in
      if negb (is_unicast_v4 cx (ip_src ip)) && negb (is_unspecified (ip_src ip)) then nothing
      else
        let! payload := v4_payload data in
        let! ok := (if v4_next_header v4 =? PROTO_UDP then udp_check_len payload else Ret true) in
        if negb ok then nothing
        else if negb (has_ip_addr cx (ip_dst ip)) && negb (has_multicast_group (ip_dst ip)) &&
                negb (is_broadcast_v4 cx (ip_dst ip)) then
          if negb (is_unicast (ip_dst ip)) then nothing
          else let! _ := routes_lookup (ip_dst ip) (cx_now cx) (nt_routes n) in nothing
        else
          let n := renew_neighbor cx v4 src n in
          if v4_next_header v4 =? PROTO_ICMP then
            let! p := process_icmpv4 payload in Ret (p, cx, n, ss)
          else if v4_next_header v4 =? PROTO_TCP then
            let! (p, cx, ss) := process_tcp cx ip payload ss in Ret (p, cx, n, ss)
          else
            let k := icmp_reply_payload_len (len payload) 576 20 in
            let! front := slice payload 0 k in
            Ret (icmpv4_reply cx v4 {| icmp_reason := 2; icmp_header := v4; icmp_data := front |}, cx, n, ss)
  end.

(* [iface/interface/ipv4.rs 255-318 InterfaceInner::process_arp] *)
Definition process_arp (cx : context) (data : list Z) (n : net) : outcome (option arp_repr * net) :=
  let! ok := arp_check_len data in
  if negb ok then Ret (None, n)
  else
    let! r := arp_parse data in
    match r with
    | None => Ret (None, n)
    | Some r =>
        if negb (has_ip_addr cx (arp_target_protocol r)) then Ret (None, n)
        else if negb ((arp_operation r =? 1) || (arp_operation r =? 2)) then Ret (None, n)
        else if negb (is_unicast (arp_source_protocol r)) || negb (eth_is_unicast (arp_source_hardware r))
        then Ret (None, n)
        else if negb (in_same_network cx (arp_source_protocol r)) then Ret (None, n)
        else
          let! c := fill oldest (arp_source_protocol r) (arp_source_hardware r) (cx_now cx) (nt_cache n) in
          let n := with_cache c n in
          if arp_operation r =? 1 then
            Ret (Some {| arp_operation := 2; arp_source_hardware := nt_hardware n;
                         arp_source_protocol := arp_target_protocol r;
                         arp_target_hardware := arp_source_hardware r;
                         arp_target_protocol := arp_source_protocol r |}, n)
          else Ret (None, n)
    end.

(* [iface/packet.rs 8-12 EthernetPacket] *)
Inductive eth_packet : Type :=
| EthArp (r : arp_repr)
| EthIp (p : ip_packet).

(** The rest of the ingress is the same whatever the sockets are: [T] is their
    set, [ipv4] what becomes of an IPv4 packet. *)
Section Ethernet.
Context {T : Type} (ipv4 : context -> eth_address -> list Z -> net -> T -> outcome (option ip_packet * context * net * T)).

(* [iface/interface/ethernet.rs 4-46 InterfaceInner::process_ethernet] *)
Definition ethernet_frame (cx : context) (frame : list Z) (n : net) (ss : T)
  : outcome (option eth_packet * context * net * T) :=
  if negb (eth_check_len frame) then Ret (None, cx, n, ss)
  else
    let! dst := eth_dst_addr frame in
    if negb (eth_is_broadcast dst) && negb (eth_is_multicast dst) && negb (bool_decide (dst = nt_hardware n))
    then Ret (None, cx, n, ss)
    else
      let! ty := eth_ethertype frame in
      if ty =? ETHERTYPE_ARP then
        let! data := eth_payload frame in
        let! (r, n) := process_arp cx data n in
        Ret (option_map EthArp r, cx, n, ss)
      else if ty =? ETHERTYPE_IPV4 then
        let! data := eth_payload frame in
        let! ok := v4_check_len data in
        if negb ok then Ret (None, cx, n, ss)
        else
          let! src := eth_src_addr frame in
          let! (p, cx, n, ss) := ipv4 cx src data n ss in
          Ret (option_map EthIp p, cx, n, ss)
      else Ret (None, cx, n, ss).

(** A response that cannot be sent is given up. *)
(* [iface/interface/mod.rs 977-1008 InterfaceInner::dispatch] *)
Definition dispatch_eth (cx : context) (p : eth_packet) (n : net) : outcome net :=
  match p with
  | EthArp r => dispatch_arp (arp_target_hardware r) r n
  | EthIp p => let! (_, n) := dispatch_ip cx p n in Ret n
  end.

(** The frame's buffer goes back to the driver when its consumer has returned;
    [freed] and [sent] being separate records, here before it runs. *)
(* [iface/interface/mod.rs 631-698 Interface::socket_ingress] *)
Definition frame_ingress (fuel : nat) (cx : context) (dev : dpdk_device) (n : net) (ss : T)
  : outcome (option (bool * context * dpdk_device * net * T)) :=
  match receive fuel dev (nt_nic n) with
  | None => Ret None
  | Some m =>
      let! (tok, dev, w) := m in
      match tok with
      | None => Ret (Some (false, cx, dev, with_nic w n, ss))
      | Some tok =>
          let! (frame, w) := rx_consume (fun b => b) tok w in
          let n := with_nic w n in
          if len frame =? 0 then Ret (Some (true, cx, dev, n, ss))
          else
            let! (p, cx, n, ss) := ethernet_frame cx frame n ss in
            match p with
            | None => Ret (Some (true, cx, dev, n, ss))
            | Some p => let! n := dispatch_eth cx p n in Ret (Some (true, cx, dev, n, ss))
            end
      end
  end.

(* [iface/interface/mod.rs 480-486 Interface::poll] the first loop. *)
Fixpoint frame_loop (rounds fuel : nat) (cx : context) (dev : dpdk_device) (n : net) (ss : T)
  : outcome (option (context * dpdk_device * net * T)) :=
  match rounds with
  | O => Ret None
  | S rounds =>
      let! r := frame_ingress fuel cx dev n ss in
      match r with
      | None => Ret None
      | Some (false, cx, dev, n, ss) => Ret (Some (cx, dev, n, ss))
      | Some (true, cx, dev, n, ss) => frame_loop rounds fuel cx dev n ss
      end
  end.
End Ethernet.

(** With TCP sockets, as in a worker. *)
(* [iface/interface/ethernet.rs 4-46 InterfaceInner::process_ethernet] *)
Definition process_ethernet : context -> list Z -> net -> socket_set -> outcome (option eth_packet * context * net * socket_set) :=
  ethernet_frame process_ipv4.

(* [iface/interface/mod.rs 631-698 Interface::socket_ingress] *)
Definition socket_ingress : nat -> context -> dpdk_device -> net -> socket_set -> outcome (option (bool * context * dpdk_device * net * socket_set)) :=
  frame_ingress process_ipv4.

(* [iface/interface/mod.rs 480-486 Interface::poll] the first loop. *)
Definition ingress_loop : nat -> nat -> context -> dpdk_device -> net -> socket_set -> outcome (option (context * dpdk_device * net * socket_set)) :=
  frame_loop process_ipv4.

(** ** Sending what the sockets have to send *)

(** One socket's turn; [dispatch] runs [dispatch_ip] on the segment it builds,
    once.  Answers whether a segment was sent. *)
(* [iface/interface/mod.rs 713-815 Interface::socket_egress] the loop body. *)
Definition egress_socket (cx : context) (st : neighbor_state) (s : socket) (n : net)
  : outcome (bool * neighbor_state * socket * net) :=
  let! (permitted, st) := egress_permitted (cx_now cx) (has_neighbor cx n) st in
  if negb permitted then Ret (false, st, s, n)
  else
    let emit p := match dispatch_ip cx (tcp_packet p) n with Ret (r, _) => r | Panic => Ok () end in
    let! (p, _, s) := dispatch emit cx s in
    match p with
    | None => Ret (false, st, s, n)
    | Some p =>
        let! (r, n) := dispatch_ip cx (tcp_packet p) n in
        match r with
        | Ok _ => Ret (true, st, s, n)
        | Err _ => Ret (false, neighbor_missing (cx_now cx) (ip_dst (fst p)), s, n)
        end
    end.

(** Over the sockets and their states. *)
(* [iface/interface/mod.rs 700-816 Interface::socket_egress] *)
Fixpoint socket_egress (cx : context) (metas : list neighbor_state) (ss : socket_set) (n : net)
  : outcome (bool * list neighbor_state * socket_set * net) :=
  match ss with
  | [] => Ret (false, [], [], n)
  | slot :: ss =>
      let st := match metas with st :: _ => st | [] => Active end in
      let! (sent, st, slot, n) :=
        match slot with
        | None => Ret (false, st, None, n)
        | Some s => let! (sent, st, s, n) := egress_socket cx st s n in Ret (sent, st, Some s, n)
        end in
      let! (more, metas, ss, n) := socket_egress cx (tail metas) ss n in
      Ret (sent || more, st :: metas, slot :: ss, n)
  end.

(* [iface/interface/mod.rs 489-494 Interface::poll] the second loop. *)
Fixpoint egress_loop (rounds : nat) (cx : context) (n : net) (ss : socket_set)
  : outcome (option (net * socket_set)) :=
  match rounds with
  | O => Ret None
  | S rounds =>
      let! (sent, metas, ss, n) := socket_egress cx (nt_meta n) ss n in
      let n := with_meta metas n in
      if sent : bool then egress_loop rounds cx n ss else Ret (Some (n, ss))
  end.

(* [iface/interface/mod.rs 468-498 Interface::poll] *)
Definition iface_poll (fuel : nat) (now : instant) (cx : context) (dev : dpdk_device) (n : net) (ss : socket_set)
  : outcome (option (context * dpdk_device * net * socket_set)) :=
  let cx := with_now now cx in
  let! r := ingress_loop fuel fuel cx dev n ss in
  match r with
  | None => Ret None
  | Some (cx, dev, n, ss) =>
      let! r := egress_loop fuel cx n ss in
      Ret (option_map (fun '(n, ss) => (cx, dev, n, ss)) r)
  end.

(** What [Interface::new] and [add_default_ipv4_route] leave for a new worker. *)
(* [lib.rs 1237-1241 worker_thread] the address and the route. *)
Definition net_start (mac : eth_address) (card : nic) (gateway : ip_address) : net :=
  {| nt_hardware := mac; nt_routes := add_default_ipv4_route gateway []; nt_cache := cache_new;
     nt_meta := []; nt_nic := card |}.

End Receive.
