(* ===== verification/NetOk.v ===== *)
(** smoltcp's interface keeps its promise to the worker: whatever it receives
    and sends, a socket sees only segments it accepts and its own
    transmissions. *)

From Stdlib Require Import ZArith Lia ZifyBool.
From stdpp Require Import base list gmap numbers relations.
From S2P Require Import Prelude Rss Device Time TcpWire Iface TcpState TcpSocket TcpProcess TcpDispatch TcpConnection Worker.
From S2P Require Import NetEvents Frame Segment Neighbor Net.

(** ** One socket *)

Lemma accepted_step s ip r p cx s' cx' :
  accepts s ip r = true -> process cx ip r s = Ret (p, s', cx') -> net_step s s'.
Proof. intros Ha Hp; exists (EvSegment cx ip r), [], []; split; [done|]; cbn [conn_event]; by rewrite Ha, Hp. Qed.

(** The result of the closure matters to [dispatch], its error does not. *)
Lemma dispatch_sent {E} (emit : packet -> result unit E) cx s p res s' :
  dispatch emit cx s = Ret (p, res, s') ->
  exists ok res', dispatch (fun _ => if ok : bool then Ok () else Err ()) cx s = Ret (p, res', s').
Proof.
  unfold dispatch; destruct (sk_tuple s) as [t|]; [|intros [= <- <- <-]; by exists true; eexists].
  destruct (negb _); [intros [= <- <- <-]; by exists true; eexists|].
  destruct (fire_timers cx s) as [s1|]; cbn [obind]; [|done].
  destruct (decide_send cx s1) as [why|]; cbn [obind]; [|done].
  destruct why; try (intros [= <- <- <-]; by exists true; eexists);
    (destruct (build_repr cx s1 t) as [[[r probe]|]|]; cbn [obind]; [|intros [= <- <- <-]; by exists true; eexists|done];
     destruct (finish_repr cx s1 r) as [[r1 sent]|]; cbn [obind]; [|done];
     destruct (emit _); [|intros [= <- <- <-]; by exists false; eexists];
     destruct (after_emit cx r1 probe sent s1) as [s2|]; cbn [obind]; [|done];
     intros [= <- <- <-]; by exists true; eexists).
Qed.

Lemma dispatch_step {E} (emit : packet -> result unit E) cx s p res s' :
  dispatch emit cx s = Ret (p, res, s') -> net_step s s'.
Proof.
  intros (ok & res' & H)%dispatch_sent; exists (EvDispatch cx ok), [], []; split; [done|].
  cbn [conn_event]; by rewrite H.
Qed.

(** ** The sockets *)

Lemma touched_cons a b ss ss' : slot_touched a b -> touched ss ss' -> touched (a :: ss) (b :: ss').
Proof. by constructor. Qed.

Lemma deliver_touches cx ip r ss p cx' ss' : deliver cx ip r ss = Ret (Some (p, cx', ss')) -> touched ss ss'.
Proof.
  revert p cx' ss'; induction ss as [|slot ss IH]; intros p cx' ss'; cbn [deliver]; [done|].
  assert (Hskip : (let! o := deliver cx ip r ss in
    Ret (option_map (fun '(p, cx, ss) => (p, cx, slot :: ss)) o)) = Ret (Some (p, cx', ss')) -> touched (slot :: ss) ss').
  { destruct (deliver cx ip r ss) as [[[[p1 cx1] ss1]|]|]; cbn [obind option_map]; try done; intros [= <- <- <-].
    apply touched_cons; [reflexivity|by eapply IH]. }
  destruct slot as [s|]; [|exact Hskip]; destruct (accepts s ip r) eqn:Ea; [|exact Hskip].
  destruct (process cx ip r s) as [[[p1 s1] cx1]|] eqn:Ep; cbn [obind]; [|done]; intros [= <- <- <-].
  apply touched_cons; [|reflexivity]; constructor; apply rtc_once; by eapply accepted_step.
Qed.

Lemma process_tcp_touches cx ip data ss p cx' ss' : process_tcp cx ip data ss = Ret (p, cx', ss') -> touched ss ss'.
Proof.
  unfold process_tcp; destruct (_ || _); [intros [= <- <- <-]; reflexivity|].
  destruct (tcp_check_len data) as [[|]|]; cbn [obind negb]; [|intros [= <- <- <-]; reflexivity|done].
  destruct (tcp_parse data) as [[r|]|]; cbn [obind]; [|intros [= <- <- <-]; reflexivity|done].
  destruct (deliver cx ip r ss) as [[[[p1 cx1] ss1]|]|] eqn:Ed; cbn [obind]; [| |done].
  - intros [= <- <- <-]; by eapply deliver_touches.
  - destruct (_ || _); [intros [= <- <- <-]; reflexivity|].
    destruct (rst_reply ip r) as [q|]; cbn [obind]; [|done]; intros [= <- <- <-]; reflexivity.
Qed.

Lemma process_ipv4_touches cx src data n ss p cx' n' ss' :
  process_ipv4 cx src data n ss = Ret (p, cx', n', ss') -> touched ss ss'.
Proof.
  unfold process_ipv4; destruct (v4_parse data) as [[v4|]|]; cbn [obind]; [|intros [= <- <- <- <-]; reflexivity|done].
  destruct (_ && _); [intros [= <- <- <- <-]; reflexivity|].
  destruct (v4_payload data) as [payload|]; cbn [obind]; [|done].
  destruct (if (_ : bool) then udp_check_len payload else Ret true) as [[|]|]; cbn [obind negb];
    [|intros [= <- <- <- <-]; reflexivity|done].
  destruct (_ && _).
  { destruct (negb _); [intros [= <- <- <- <-]; reflexivity|].
    destruct (routes_lookup _ _ _); cbn [obind]; [|done]; intros [= <- <- <- <-]; reflexivity. }
  destruct (_ =? _).
  { destruct (process_icmpv4 payload); cbn [obind]; [|done]; intros [= <- <- <- <-]; reflexivity. }
  destruct (_ =? _).
  { destruct (process_tcp _ _ _ _) as [[[q cx1] ss1]|] eqn:Et; cbn [obind]; [|done]; intros [= <- <- <- <-].
    by eapply process_tcp_touches. }
  destruct (slice payload 0 _); cbn [obind]; [|done]; intros [= <- <- <- <-]; reflexivity.
Qed.

Section Iface.
Context (oldest : gmap ip_address neighbor -> option ip_address).

Lemma process_ethernet_touches cx frame n ss p cx' n' ss' :
  process_ethernet oldest cx frame n ss = Ret (p, cx', n', ss') -> touched ss ss'.
Proof using Type.
  unfold process_ethernet, ethernet_frame; destruct (negb _); [intros [= <- <- <- <-]; reflexivity|].
  destruct (eth_dst_addr frame) as [dst|]; cbn [obind]; [|done].
  destruct (_ && _); [intros [= <- <- <- <-]; reflexivity|].
  destruct (eth_ethertype frame) as [ty|]; cbn [obind]; [|done].
  destruct (ty =? ETHERTYPE_ARP).
  { destruct (eth_payload frame) as [data|]; cbn [obind]; [|done].
    destruct (process_arp _ _ _ _) as [[r n1]|]; cbn [obind]; [|done]; intros [= <- <- <- <-]; reflexivity. }
  destruct (ty =? ETHERTYPE_IPV4); [|intros [= <- <- <- <-]; reflexivity].
  destruct (eth_payload frame) as [data|]; cbn [obind]; [|done].
  destruct (v4_check_len data) as [[|]|]; cbn [obind negb]; [|intros [= <- <- <- <-]; reflexivity|done].
  destruct (eth_src_addr frame) as [src|]; cbn [obind]; [|done].
  destruct (process_ipv4 _ _ _ _ _) as [[[[q cx1] n1] ss1]|] eqn:Ei; cbn [obind]; [|done]; intros [= <- <- <- <-].
  by eapply process_ipv4_touches.
Qed.

Lemma socket_ingress_touches fuel cx dev n ss b cx' dev' n' ss' :
  socket_ingress oldest fuel cx dev n ss = Ret (Some (b, cx', dev', n', ss')) -> touched ss ss'.
Proof using Type.
  unfold socket_ingress, frame_ingress; fold (process_ethernet oldest); destruct (receive fuel dev (nt_nic n)) as [[[[tok dev1] w]|]|]; cbn [obind]; try done.
  destruct tok as [tok|]; [|intros [= <- <- <- <- <-]; reflexivity].
  destruct (rx_consume _ tok w) as [[frame w1]|]; cbn [obind]; [|done].
  destruct (len frame =? 0); [intros [= <- <- <- <- <-]; reflexivity|].
  destruct (process_ethernet _ _ _ _ _) as [[[[p cx1] n1] ss1]|] eqn:Ep; cbn [obind]; [|done].
  destruct p as [p|]; [|intros [= <- <- <- <- <-]; by eapply process_ethernet_touches].
  destruct (dispatch_eth cx1 p n1); cbn [obind]; [|done]; intros [= <- <- <- <- <-]; by eapply process_ethernet_touches.
Qed.

Lemma ingress_loop_touches rounds fuel cx dev n ss cx' dev' n' ss' :
  ingress_loop oldest rounds fuel cx dev n ss = Ret (Some (cx', dev', n', ss')) -> touched ss ss'.
Proof using Type.
  revert cx dev n ss; induction rounds as [|rounds IH]; intros cx dev n ss; unfold ingress_loop; cbn [frame_loop]; fold (socket_ingress oldest); fold (ingress_loop oldest); [done|].
  destruct (socket_ingress _ _ _ _ _ _) as [[[[[[b cx1] dev1] n1] ss1]|]|] eqn:Ei; cbn [obind]; try done.
  apply socket_ingress_touches in Ei; destruct b; [|by intros [= <- <- <- <-]].
  intros H; transitivity ss1; [done|by eapply IH].
Qed.

Lemma egress_socket_step cx st s n sent st' s' n' :
  egress_socket cx st s n = Ret (sent, st', s', n') -> rtc net_step s s'.
Proof using Type.
  unfold egress_socket; destruct (egress_permitted _ _ _) as [[[|] st1]|]; cbn [obind negb]; [|by intros [= <- <- <- <-]|done].
  destruct (dispatch _ cx s) as [[[p r] s1]|] eqn:Ed; cbn [obind]; [|done]; apply dispatch_step in Ed.
  destruct p as [p|]; [|intros [= <- <- <- <-]; by apply rtc_once].
  destruct (dispatch_ip _ _ _) as [[[u|e] n1]|]; cbn [obind]; [| |done]; intros [= <- <- <- <-]; by apply rtc_once.
Qed.

Lemma socket_egress_touches cx metas ss n sent metas' ss' n' :
  socket_egress cx metas ss n = Ret (sent, metas', ss', n') -> touched ss ss'.
Proof using Type.
  revert metas n sent metas' ss' n'; induction ss as [|slot ss IH]; intros metas n sent metas' ss' n'; cbn [socket_egress].
  { intros [= <- <- <- <-]; reflexivity. }
  set (st := match metas with st :: _ => st | [] => Active end); clearbody st.
  assert (Hs : forall sent1 st1 slot1 n1,
    match slot with
    | None => Ret (false, st, None, n)
    | Some s => let! (sent, st, s, n) := egress_socket cx st s n in Ret (sent, st, Some s, n)
    end = Ret (sent1, st1, slot1, n1) -> slot_touched slot slot1).
  { intros sent1 st1 slot1 n1; destruct slot as [s|]; [|intros [= <- <- <- <-]; reflexivity].
    destruct (egress_socket cx st s n) as [[[[a b] c] d]|] eqn:E; cbn [obind]; [|done]; intros [= <- <- <- <-].
    constructor; by eapply egress_socket_step. }
  destruct (match slot with Some _ => _ | None => _ end) as [[[[sent1 st1] slot1] n1]|]; cbn [obind]; [|done].
  specialize (Hs _ _ _ _ eq_refl).
  destruct (socket_egress cx (tail metas) ss n1) as [[[[more metas2] ss2] n2]|] eqn:E; cbn [obind]; [|done].
  intros [= <- <- <- <-]; apply touched_cons; [done|by eapply IH].
Qed.

Lemma egress_loop_touches rounds cx n ss n' ss' :
  egress_loop rounds cx n ss = Ret (Some (n', ss')) -> touched ss ss'.
Proof using Type.
  revert n ss; induction rounds as [|rounds IH]; intros n ss; cbn [egress_loop]; [done|].
  destruct (socket_egress _ _ _ _) as [[[[sent metas] ss1] n1]|] eqn:E; cbn [obind]; [|done].
  apply socket_egress_touches in E; destruct sent; [|by intros [= <- <-]].
  intros H; transitivity ss1; [done|by eapply IH].
Qed.

(** ** What an interface does

    The steps of an interface, each with what it was given: the card's queues
    move, a frame is processed and answered, a segment of a socket is
    dispatched, the sockets' neighbor states change. *)
Variant label : Type :=
| LCard
| LFrame (cx : context) (frame : list Z)
| LSegment (cx : context) (p : packet) (r : result unit dispatch_error)
| LMeta.

Inductive move : net -> label -> net -> Prop :=
| move_card n w : move n LCard (with_nic w n)
| move_frame n cx frame ss q cx' n1 ss' n2 :
    process_ethernet oldest cx frame n ss = Ret (q, cx', n1, ss') ->
    match q with Some q => dispatch_eth cx' q n1 = Ret n2 | None => n2 = n1 end ->
    move n (LFrame cx frame) n2
| move_segment n cx p r n' : dispatch_ip cx (tcp_packet p) n = Ret (r, n') -> move n (LSegment cx p r) n'
| move_meta n m : move n LMeta (with_meta m n).

Inductive moves : net -> list label -> net -> Prop :=
| moves_nil n : moves n [] n
| moves_cons n l n1 ls n2 : move n l n1 -> moves n1 ls n2 -> moves n (l :: ls) n2.

Lemma moves_one n l n1 : move n l n1 -> moves n [l] n1.
Proof using Type. intros H; by eapply moves_cons; [|constructor]. Qed.

Lemma moves_app n ls n1 ls' n2 : moves n ls n1 -> moves n1 ls' n2 -> moves n (ls ++ ls') n2.
Proof using Type. induction 1; [done|]; intros H'; cbn; econstructor; eauto. Qed.

(** Contexts of one host at one time: they differ in the generator. *)
Definition alike (cx cx' : context) : Prop := exists r, cx' = with_rand r cx.

Lemma alike_refl cx : alike cx cx.
Proof using Type. by exists (cx_rand cx); destruct cx. Qed.
Lemma alike_trans cx cx1 cx2 : alike cx cx1 -> alike cx1 cx2 -> alike cx cx2.
Proof using Type. intros [r ->] [r' ->]; by exists r'. Qed.

Definition label_of (cx : context) (l : label) : Prop :=
  match l with LFrame cx' _ | LSegment cx' _ _ => alike cx cx' | _ => True end.

Lemma label_of_alike cx cx1 l : alike cx cx1 -> label_of cx1 l -> label_of cx l.
Proof using Type. destruct l; cbn; try done; by apply alike_trans. Qed.

Lemma update_state_cx cx ip r info c s s' cx' :
  update_state cx ip r info c s = Ret (Continue (s', cx')) -> alike cx cx'.
Proof using Type.
  assert (Hl : listen_syn cx ip r s = Ret (Continue (s', cx')) -> alike cx cx').
  { unfold listen_syn, random_seq_no; destruct (note_mss r s); [|done]; destruct (rand_u32 _) as [k r'].
    destruct (seq_add _ _); cbn [obind]; [|done]; intros [= _ <-]; by exists r'. }
  pose proof (alike_refl cx); unfold update_state, return_, fbind.
  destruct (state s), c; try done; try exact Hl; intros Hu;
    repeat first
    [ discriminate Hu
    | injection Hu as _ <-; assumption
    | match type of Hu with
      | context [if ?b then _ else _] => destruct b
      | context [obind ?m _] => destruct m as [a|]; cbn [obind] in Hu
      | context [match ?m with _ => _ end] => destruct m
      end ].
Qed.

Lemma process_cx cx ip r s q s' cx' : process cx ip r s = Ret (q, s', cx') -> alike cx cx'.
Proof using Type.
  pose proof (alike_refl cx); unfold process, process_flow, fbind; intros Hp.
  destruct (check_ack cx ip r s) as [[]|]; cbn [obind] in Hp; [|by injection Hp as _ _ <-|done].
  destruct (trim_payload cx ip r s) as [[[[[]]]|]|]; cbn [obind] in Hp; [|by injection Hp as _ _ <-|done].
  destruct (measure_ack cx r _) as [[]|]; cbn [obind] in Hp; [|done].
  destruct (update_state cx ip r _ _ _) as [[[s9 cx9]|]|] eqn:Eu; cbn [obind] in Hp; [|by injection Hp as _ _ <-|done].
  apply update_state_cx in Eu.
  destruct (update_remote _ _ _ _); cbn [obind] in Hp; [|done].
  destruct (receive_payload _ _ _ _ _ _) as [[]|]; cbn [obind] in Hp; [|done]; by injection Hp as _ _ <-.
Qed.

Lemma deliver_cx cx ip r ss q cx' ss' : deliver cx ip r ss = Ret (Some (q, cx', ss')) -> alike cx cx'.
Proof using Type.
  revert ss'; induction ss as [|slot ss IH]; intros ss'; cbn [deliver]; [done|].
  assert (Hs : (let! o := deliver cx ip r ss in Ret (option_map (fun '(p, cx, ss) => (p, cx, slot :: ss)) o)) =
    Ret (Some (q, cx', ss')) -> alike cx cx').
  { destruct (deliver cx ip r ss) as [[[[p1 cx1] ss1]|]|]; cbn [obind option_map]; try done; intros [= <- <- _]; by eapply IH. }
  destruct slot as [s|]; [|exact Hs]; destruct (accepts s ip r); [|exact Hs].
  destruct (process cx ip r s) as [[[p1 s1] cx1]|] eqn:Ep; cbn [obind]; [|done]; intros [= <- <- _]; by eapply process_cx.
Qed.

Lemma process_ethernet_cx cx frame n ss q cx' n' ss' :
  process_ethernet oldest cx frame n ss = Ret (q, cx', n', ss') -> alike cx cx'.
Proof using Type.
  pose proof (alike_refl cx) as Hr; unfold process_ethernet, ethernet_frame; destruct (negb _); [by intros [= _ <- _ _]|].
  destruct (eth_dst_addr frame); cbn [obind]; [|done]; destruct (_ && _); [by intros [= _ <- _ _]|].
  destruct (eth_ethertype frame) as [ty|]; cbn [obind]; [|done]; destruct (ty =? ETHERTYPE_ARP).
  { destruct (eth_payload frame); cbn [obind]; [|done]; destruct (process_arp _ _ _ _) as [[]|]; cbn [obind]; [|done].
    by intros [= _ <- _ _]. }
  destruct (ty =? ETHERTYPE_IPV4); [|by intros [= _ <- _ _]].
  destruct (eth_payload frame) as [data|]; cbn [obind]; [|done].
  destruct (v4_check_len data) as [[|]|]; cbn [obind negb]; [|by intros [= _ <- _ _]|done].
  destruct (eth_src_addr frame) as [src|]; cbn [obind]; [|done]; unfold process_ipv4.
  destruct (v4_parse data) as [[v4|]|]; cbn [obind]; [|by intros [= _ <- _ _]|done].
  destruct (_ && _); [by intros [= _ <- _ _]|]; destruct (v4_payload data) as [payload|]; cbn [obind]; [|done].
  destruct (if (_ : bool) then udp_check_len payload else Ret true) as [[|]|]; cbn [obind negb]; [|by intros [= _ <- _ _]|done].
  destruct (_ && _).
  { destruct (negb _); [by intros [= _ <- _ _]|]; destruct (routes_lookup _ _ _); cbn [obind]; [|done]; by intros [= _ <- _ _]. }
  destruct (_ =? _); [destruct (process_icmpv4 payload); cbn [obind]; [|done]; by intros [= _ <- _ _]|].
  destruct (_ =? _); [|destruct (slice payload 0 _); cbn [obind]; [|done]; by intros [= _ <- _ _]].
  unfold process_tcp; destruct (_ || _); [by intros [= _ <- _ _]|].
  destruct (tcp_check_len payload) as [[|]|]; cbn [obind negb]; [|by intros [= _ <- _ _]|done].
  destruct (tcp_parse payload) as [[r|]|]; cbn [obind]; [|by intros [= _ <- _ _]|done].
  destruct (deliver cx _ r ss) as [[[[p1 cx1] ss1]|]|] eqn:Ed; cbn [obind]; [| |done].
  - intros [= _ <- _ _]; by eapply deliver_cx.
  - destruct (_ || _); [by intros [= _ <- _ _]|].
    destruct (rst_reply _ r); cbn [obind]; [|done]; by intros [= _ <- _ _].
Qed.

Lemma socket_ingress_moves fuel cx dev n ss b cx' dev' n' ss' :
  socket_ingress oldest fuel cx dev n ss = Ret (Some (b, cx', dev', n', ss')) ->
  alike cx cx' /\ exists ls, moves n ls n' /\ Forall (label_of cx) ls.
Proof using Type.
  unfold socket_ingress, frame_ingress; fold (process_ethernet oldest); destruct (receive fuel dev (nt_nic n)) as [[[[tok dev1] w]|]|]; cbn [obind]; try done.
  pose proof (alike_refl cx) as Hr.
  destruct tok as [tok|].
  2:{ intros [= <- <- <- <- <-]; split; [done|]; exists [LCard]; split; [apply moves_one; constructor|by repeat constructor]. }
  destruct (rx_consume _ tok w) as [[frame w1]|]; cbn [obind]; [|done].
  destruct (len frame =? 0).
  { intros [= <- <- <- <- <-]; split; [done|]; exists [LCard]; split; [apply moves_one; constructor|by repeat constructor]. }
  destruct (process_ethernet _ _ _ _ _) as [[[[p cx1] n1] ss1]|] eqn:Ep; cbn [obind]; [|done].
  pose proof (process_ethernet_cx _ _ _ _ _ _ _ _ Ep) as Hc.
  assert (Hm : forall n2, match p with Some q => dispatch_eth cx1 q n1 = Ret n2 | None => n2 = n1 end ->
    exists ls, moves n ls n2 /\ Forall (label_of cx) ls).
  { intros n2 Hd; exists [LCard; LFrame cx frame]; split; [|by repeat constructor].
    econstructor; [apply move_card|]; apply moves_one; by econstructor. }
  destruct p as [p|]; [|intros [= <- <- <- <- <-]; split; [done|by apply Hm]].
  destruct (dispatch_eth cx1 p n1) as [n2|] eqn:Ed; cbn [obind]; [|done]; intros [= <- <- <- <- <-]; split; [done|by apply Hm].
Qed.

Lemma ingress_loop_moves rounds fuel cx dev n ss cx' dev' n' ss' :
  ingress_loop oldest rounds fuel cx dev n ss = Ret (Some (cx', dev', n', ss')) ->
  alike cx cx' /\ exists ls, moves n ls n' /\ Forall (label_of cx) ls.
Proof using Type.
  revert cx dev n ss; induction rounds as [|rounds IH]; intros cx dev n ss; unfold ingress_loop; cbn [frame_loop]; fold (socket_ingress oldest); fold (ingress_loop oldest); [done|].
  destruct (socket_ingress _ _ _ _ _ _) as [[[[[[b cx1] dev1] n1] ss1]|]|] eqn:Ei; cbn [obind]; try done.
  apply socket_ingress_moves in Ei as (Hc & ls & Hm & Hl); destruct b; [|by intros [= <- <- <- <-]; eauto].
  intros (Hc' & ls' & Hm' & Hl')%IH; split; [by eapply alike_trans|].
  exists (ls ++ ls'); split; [by eapply moves_app|]; apply Forall_app; split; [done|].
  eapply Forall_impl; [exact Hl'|]; intros l; by apply label_of_alike.
Qed.

Lemma socket_egress_moves cx metas ss n sent metas' ss' n' :
  socket_egress cx metas ss n = Ret (sent, metas', ss', n') -> exists ls, moves n ls n' /\ Forall (label_of cx) ls.
Proof using Type.
  revert metas n sent metas' ss' n'; induction ss as [|slot ss IH]; intros metas n sent metas' ss' n'; cbn [socket_egress].
  { intros [= <- <- <- <-]; exists []; split; constructor. }
  set (st := match metas with st :: _ => st | [] => Active end); clearbody st.
  assert (Hs : forall sent1 st1 slot1 n1,
    match slot with
    | None => Ret (false, st, None, n)
    | Some s => let! (sent, st, s, n) := egress_socket cx st s n in Ret (sent, st, Some s, n)
    end = Ret (sent1, st1, slot1, n1) -> exists ls, moves n ls n1 /\ Forall (label_of cx) ls).
  { intros sent1 st1 slot1 n1; destruct slot as [s|]; [|intros [= <- <- <- <-]; exists []; split; constructor].
    unfold egress_socket; destruct (egress_permitted _ _ _) as [[[|] st2]|]; cbn [obind negb];
      [|intros [= <- <- <- <-]; exists []; split; constructor|done].
    destruct (dispatch _ cx s) as [[[p r] s2]|] eqn:Ed; cbn [obind]; [|done].
    destruct p as [p|]; [|intros [= <- <- <- <-]; exists []; split; constructor].
    destruct (dispatch_ip cx (tcp_packet p) n) as [[r1 n2]|] eqn:Ei; cbn [obind]; [|done].
    intros Hr; assert (n1 = n2) as -> by (destruct r1; by injection Hr).
    exists [LSegment cx p r1]; split; [apply moves_one; constructor; exact Ei|constructor; [apply alike_refl|constructor]]. }
  destruct (match slot with Some _ => _ | None => _ end) as [[[[sent1 st1] slot1] n1]|]; cbn [obind]; [|done].
  destruct (Hs _ _ _ _ eq_refl) as (ls & Hm & Hl).
  destruct (socket_egress cx (tail metas) ss n1) as [[[[more metas2] ss2] n2]|] eqn:E; cbn [obind]; [|done].
  intros [= <- <- <- <-]; destruct (IH _ _ _ _ _ _ E) as (ls' & Hm' & Hl').
  exists (ls ++ ls'); split; [by eapply moves_app|by apply Forall_app].
Qed.

Lemma egress_loop_moves rounds cx n ss n' ss' :
  egress_loop rounds cx n ss = Ret (Some (n', ss')) -> exists ls, moves n ls n' /\ Forall (label_of cx) ls.
Proof using Type.
  revert n ss; induction rounds as [|rounds IH]; intros n ss; cbn [egress_loop]; [done|].
  destruct (socket_egress _ _ _ _) as [[[[sent metas] ss1] n1]|] eqn:E; cbn [obind]; [|done].
  apply socket_egress_moves in E as (ls & Hm & Hl).
  assert (Hm1 : moves n (ls ++ [LMeta]) (with_meta metas n1)) by (eapply moves_app; [done|apply moves_one; constructor]).
  assert (Hl1 : Forall (label_of cx) (ls ++ [LMeta])) by (apply Forall_app; split; [done|by repeat constructor]).
  destruct sent; [|intros [= <- <-]; eauto].
  intros (ls' & Hm' & Hl')%IH; exists ((ls ++ [LMeta]) ++ ls'); split; [by eapply moves_app|by apply Forall_app].
Qed.

(** ** The interface of a worker *)

Context (card : nic).

#[export] Instance smoltcp : NetIface :=
  {| world := net; world_start := fun mac gateway => net_start mac card gateway; poll := iface_poll oldest |}.

Lemma iface_poll_touches fuel now cx dev n ss cx' dev' n' ss' :
  iface_poll oldest fuel now cx dev n ss = Ret (Some (cx', dev', n', ss')) -> touched ss ss'.
Proof using Type.
  unfold iface_poll.
  destruct (ingress_loop _ _ _ _ _ _ _) as [[[[[cx1 dev1] n1] ss1]|]|] eqn:Ei; cbn [obind]; try done.
  destruct (egress_loop _ _ _ _) as [[[n2 ss2]|]|] eqn:Ee; cbn [obind option_map]; try done; intros [= <- <- <- <-].
  transitivity ss1; [by eapply ingress_loop_touches|by eapply egress_loop_touches].
Qed.

Lemma iface_poll_moves fuel now cx dev n ss cx' dev' n' ss' :
  iface_poll oldest fuel now cx dev n ss = Ret (Some (cx', dev', n', ss')) ->
  alike (with_now now cx) cx' /\ exists ls, moves n ls n' /\ Forall (label_of (with_now now cx)) ls.
Proof using Type.
  unfold iface_poll.
  destruct (ingress_loop _ _ _ _ _ _ _) as [[[[[cx1 dev1] n1] ss1]|]|] eqn:Ei; cbn [obind]; try done.
  destruct (egress_loop _ _ _ _) as [[[n2 ss2]|]|] eqn:Ee; cbn [obind option_map]; try done; intros [= <- <- <- <-].
  apply ingress_loop_moves in Ei as (Hc & ls & Hm & Hl); apply egress_loop_moves in Ee as (ls' & Hm' & Hl').
  split; [done|]; exists (ls ++ ls'); split; [by eapply moves_app|]; apply Forall_app; split; [done|].
  eapply Forall_impl; [exact Hl'|]; intros l; by apply label_of_alike.
Qed.

#[export] Instance smoltcp_laws : NetIfaceLaws.
Proof. split; exact iface_poll_touches. Qed.

End Iface.
