(* ===== verification/FrameOk.v ===== *)
(** Headers written are headers read: the emitted layouts of Ethernet, IPv4 and
    ARP, and that parsing arbitrary bytes never panics. *)

From Stdlib Require Import ZArith Lia ZifyBool.
From stdpp Require Import base list numbers.
From S2P Require Import Prelude Rss TcpWire Iface Frame.

(** ** Buffers cell by cell *)

(** A buffer of at least [k] bytes is [k] cells and a rest. *)
Fixpoint cells (k : nat) (l : list Z) : option (list Z * list Z) :=
  match k, l with
  | O, l => Some ([], l)
  | S k, x :: l => match cells k l with Some (a, b) => Some (x :: a, b) | None => None end
  | S _, [] => None
  end.

Lemma cells_spec k l : Z.of_nat k <= len l -> exists a b, cells k l = Some (a, b) /\ l = a ++ b /\ length a = k.
Proof.
  revert l; induction k as [|k IH]; intros l Hl; [by exists [], l|].
  destruct l as [|x l]; [unfold len in Hl; cbn in Hl; lia|]; rewrite len_cons in Hl.
  destruct (IH l ltac:(lia)) as (a & b & E & -> & <-); exists (x :: a), b; cbn [cells]; by rewrite E.
Qed.

(** [l] is split into its first twenty bytes. *)
Ltac split_cells l n :=
  let a := fresh "a" in let r := fresh "rest" in let E := fresh in let H := fresh in
  destruct (cells_spec n l) as (a & r & E & -> & H); [try lia|clear E];
  repeat (destruct a as [|? a]; [discriminate H|]); destruct a; [|discriminate H]; clear H; cbn [app].

(** [Z.to_nat] of literals. *)
Ltac eval_nat :=
  repeat match goal with
  | |- context [Z.to_nat (Zpos ?p)] => let v := eval vm_compute in (Z.to_nat (Zpos p)) in change (Z.to_nat (Zpos p)) with v
  | |- context [Z.to_nat 0] => change (Z.to_nat 0) with 0%nat
  end.

(** Lengths of short lists, and arithmetic between literals. *)
Ltac eval_z :=
  repeat match goal with
  | |- context [Zpos ?p + Zpos ?q] => let v := eval vm_compute in (Zpos p + Zpos q) in change (Zpos p + Zpos q) with v
  | |- context [0 + Zpos ?q] => change (0 + Zpos q) with (Zpos q)
  | |- context [Zpos ?p - Zpos ?q] => let v := eval vm_compute in (Zpos p - Zpos q) in change (Zpos p - Zpos q) with v
  | |- context [len [?a]] => change (len [a]) with 1
  | |- context [len [?a; ?b]] => change (len [a; b]) with 2
  | |- context [len [?a; ?b; ?c; ?d]] => change (len [a; b; c; d]) with 4
  | |- context [len [?a; ?b; ?c; ?d; ?e; ?f]] => change (len [a; b; c; d; e; f]) with 6
  | |- context [Zpos ?p - 0] => change (Zpos p - 0) with (Zpos p)
  end.

Ltac cell_len :=
  rewrite ?len_app, ?len_cons; change (len (@nil Z)) with 0;
  repeat match goal with
  | |- context [len ?l] => lazymatch goal with _ : 0 <= len l |- _ => fail | _ => pose proof (len_nonneg l) end
  end; lia.

Lemma split_at (l : list Z) n : 0 <= n <= len l -> exists a b, l = a ++ b /\ len a = n.
Proof.
  intros Hn; exists (ztake n l), (zdrop n l); split; [by rewrite ztake_zdrop|rewrite len_ztake; lia].
Qed.

Lemma slice_suffix {A} (a b : list A) i j : i = len a -> j = len a + len b -> slice (a ++ b) i j = Ret b.
Proof.
  intros -> ->; pose proof (len_nonneg a); pose proof (len_nonneg b).
  rewrite slice_ret by (rewrite ?len_app; lia); f_equal.
  rewrite zdrop_app_ge, Z.sub_diag, zdrop_0, ztake_ge by lia; done.
Qed.

Lemma slice_from_suffix (a b : list Z) i : i = len a -> slice_from (a ++ b) i = Ret b.
Proof. intros; apply slice_suffix; [done|by rewrite len_app]. Qed.

Lemma slice_prefix {A} (a b : list A) j : j = len a -> slice (a ++ b) 0 j = Ret a.
Proof.
  intros ->; pose proof (len_nonneg a); pose proof (len_nonneg b).
  rewrite slice_ret by (rewrite ?len_app; lia); f_equal.
  rewrite zdrop_0, ztake_app_le, ztake_ge by lia; done.
Qed.

Lemma slice_middle {A} (h a p : list A) i j : i = len h -> j = len h + len a -> slice (h ++ a ++ p) i j = Ret a.
Proof.
  intros -> ->; pose proof (len_nonneg h); pose proof (len_nonneg a); pose proof (len_nonneg p).
  rewrite slice_ret by (rewrite ?len_app; lia); f_equal.
  rewrite zdrop_app_ge, Z.sub_diag, zdrop_0, ztake_app_le, ztake_ge by lia; done.
Qed.

Lemma copy_middle {A} (h a p a' : list A) i j :
  i = len h -> j = len h + len a -> len a' = len a -> copy_from_slice (h ++ a ++ p) i j a' = Ret (h ++ a' ++ p).
Proof.
  intros -> -> E; pose proof (len_nonneg h); pose proof (len_nonneg a); pose proof (len_nonneg p).
  rewrite copy_from_slice_ret by (rewrite ?len_app; lia); f_equal; unfold write_at.
  rewrite ztake_app_le, ztake_ge by lia; do 2 f_equal.
  rewrite app_assoc, zdrop_app_ge, zdrop_0 by (rewrite ?len_app; lia); done.
Qed.

Lemma copy_prefix {A} (a p a' : list A) j : j = len a -> len a' = len a -> copy_from_slice (a ++ p) 0 j a' = Ret (a' ++ p).
Proof. intros -> E; exact (copy_middle [] a p a' 0 (len a) eq_refl eq_refl E). Qed.

Lemma copy_all {A} (a a' : list A) j : j = len a -> len a' = len a -> copy_from_slice a 0 j a' = Ret a'.
Proof. intros Hj E; pose proof (copy_prefix a [] a' j Hj E) as H; by rewrite !app_nil_r in H. Qed.

Lemma emit_from_suffix (h p p' : list Z) i f :
  i = len h -> f p = Ret p' -> len p' = len p -> emit_from (h ++ p) i f = Ret (h ++ p').
Proof.
  intros Hi Hf E; unfold emit_from; rewrite slice_from_suffix by done; cbn [obind]; rewrite Hf; cbn [obind].
  pose proof (copy_middle h p [] p' i (len (h ++ p)) Hi) as H; rewrite !app_nil_r in H.
  apply H; [by rewrite len_app|done].
Qed.

(** ** Numbers *)

Lemma to_bits_app l1 l2 : to_bits (l1 ++ l2) = to_bits l1 * 256 ^ len l2 + to_bits l2.
Proof.
  unfold to_bits; rewrite fold_left_app; generalize (fold_left (fun n b => n * 256 + b) l1 0); intros x.
  revert x; induction l2 as [|b l2 IH] using rev_ind; intros x; [change (len (@nil Z)) with 0; cbn [fold_left]; lia|].
  rewrite !fold_left_app; cbn [fold_left]; rewrite IH, len_app; change (len [b]) with 1.
  rewrite Z.pow_add_r by (pose proof (len_nonneg l2); lia); lia.
Qed.

Lemma to_bits_range l : bytes_ok l -> 0 <= to_bits l < 256 ^ len l.
Proof.
  induction l as [|b l IH] using rev_ind; [done|]; intros [Hl Hb]%Forall_app; inversion Hb as [|? ? Hb' _]; subst.
  specialize (IH Hl); rewrite to_bits_app, len_app; change (len [b]) with 1; unfold in_u8 in Hb'.
  change (to_bits [b]) with (0 * 256 + b); change (256 ^ 1) with 256.
  rewrite Z.pow_add_r by (pose proof (len_nonneg l); lia); change (256 ^ 1) with 256; lia.
Qed.

Lemma read_be_ret data a n : 0 <= a -> 0 <= n -> a + n <= len data ->
  read_be data a n = Ret (to_bits (ztake n (zdrop a data))).
Proof. intros; unfold read_be; rewrite slice_ret by lia; cbn [obind]; do 3 f_equal; lia. Qed.

Lemma read_be_range data a n v : bytes_ok data -> read_be data a n = Ret v -> 0 <= n -> 0 <= v < 256 ^ n.
Proof.
  unfold read_be; intros Hb H Hn; destruct (slice data a (a + n)) as [s|] eqn:E; cbn [obind] in H; [|done].
  injection H as <-; apply slice_ret_inv in E as (H1 & H2 & ->).
  pose proof (to_bits_range (ztake (a + n - a) (zdrop a data))) as Hr.
  rewrite len_ztake, len_zdrop in Hr; replace (Z.max 0 (Z.min (a + n - a) (Z.max 0 (len data - Z.max 0 a)))) with n in Hr by lia.
  apply Hr; by apply Forall_ztake, Forall_zdrop.
Qed.

Lemma be16_bytes_ok v : 0 <= v < M16 -> bytes_ok (be16_bytes v).
Proof. intros Hv; unfold be16_bytes; repeat constructor; mlia. Qed.

Lemma be32_bytes_ok v : 0 <= v < M32 -> bytes_ok (be32_bytes v).
Proof. intros Hv; unfold be32_bytes, be16_bytes; cbn [app]; repeat constructor; mlia. Qed.

Lemma to_bits_be16 v : to_bits [v / 256; v mod 256] = v.
Proof. unfold to_bits; cbn [fold_left]; mlia. Qed.

Lemma to_bits_be32 v : to_bits (be32_bytes v) = v.
Proof. unfold to_bits, be32_bytes, be16_bytes; cbn [fold_left app]; mlia. Qed.

Lemma to_bits_be32_cells v :
  to_bits [v / 65536 / 256; (v / 65536) mod 256; v mod 65536 / 256; (v mod 65536) mod 256] = v.
Proof. exact (to_bits_be32 v). Qed.

Lemma len_be16 v : len (be16_bytes v) = 2.
Proof. done. Qed.
Lemma len_be32 v : len (be32_bytes v) = 4.
Proof. done. Qed.

(** One access to a buffer of cells. *)
Ltac cell_step :=
  first
  [ rewrite store_ret by cell_len
  | rewrite index_nth with (d := 0) by cell_len
  | rewrite slice_ret by cell_len
  | rewrite copy_from_slice_ret by cell_len ];
  unfold write_at, ztake, zdrop; eval_z; eval_nat;
  cbn [obind nth take drop app insert list_insert]; rewrite ?drop_0, ?to_bits_be16.

(** All of them. *)
Ltac cell_steps :=
  unfold modify_u8, modify_u16, write_u16, write_u32, write_bytes, read_be, be32_bytes, be16_bytes;
  repeat (cell_step || (progress cbn [obind app]; eval_z)).

(** ** IPv4 *)

(** The header as it is emitted. *)
Definition v4_header (r : ipv4_repr) : list Z :=
  [69; 0] ++ be16_bytes (20 + ip_payload_len (v4_ip r)) ++
  [0; 0; 64; 0; ip_hop_limit (v4_ip r); v4_next_header r; 0; 0] ++ ip_src (v4_ip r) ++ ip_dst (v4_ip r).

Lemma ver_ihl b : Z.lor (Z.land (Z.lor (Z.land b 15) 64) 240) 5 = 69.
Proof.
  rewrite Z.land_lor_distr_l, <-Z.land_assoc; change (Z.land 15 240) with 0.
  by rewrite Z.land_0_r.
Qed.

Lemma dscp_ecn b : Z.lor (Z.land (Z.lor (Z.land b 3) 0) 252) 0 = 0.
Proof.
  rewrite !Z.lor_0_r, <-Z.land_assoc; change (Z.land 3 252) with 0; apply Z.land_0_r.
Qed.

Lemma flags_off raw : Z.lor (Z.land (Z.lor (Z.land (Z.land raw 8191) 57343) 16384) 57344) 0 = 16384.
Proof.
  rewrite Z.lor_0_r, Z.land_lor_distr_l, <-!Z.land_assoc; change (Z.land 8191 (Z.land 57343 57344)) with 0.
  by rewrite Z.land_0_r.
Qed.

Ltac addr4 a H :=
  let x := fresh "x" in let y := fresh "y" in let z := fresh "z" in let t := fresh "t" in
  destruct a as [|x [|y [|z [|t [|? ?]]]]]; try discriminate H.

Lemma v4_emit_layout r b :
  length (ip_src (v4_ip r)) = 4%nat -> length (ip_dst (v4_ip r)) = 4%nat ->
  0 <= ip_payload_len (v4_ip r) -> 20 + ip_payload_len (v4_ip r) < M16 -> 20 <= len b ->
  v4_emit r b = Ret (v4_header r ++ zdrop 20 b).
Proof.
  destruct r as [[src dst n ttl] proto]; cbn [v4_ip ip_src ip_dst ip_payload_len ip_hop_limit]; intros Hs Hd Hn0 Hn Hl.
  addr4 src Hs; addr4 dst Hd; split_cells b 20%nat.
  unfold v4_emit, v4_header_len; cbn [v4_ip ip_src ip_dst ip_payload_len ip_hop_limit v4_next_header].
  cell_steps; rewrite ver_ihl, dscp_ecn, flags_off; unfold v4_header, zdrop; cbn [v4_ip ip_src ip_dst ip_payload_len ip_hop_limit v4_next_header].
  eval_nat; cbn [drop app]; unfold be16_bytes; cbn [app].
  assert (E : u16 (u8 (Z.land 69 15 * 4) + u16 n) = 20 + n) by (change (u8 _) with 20; unfold u16; mlia).
  by rewrite E.
Qed.

(** Addresses of four octets, and a length that a datagram can have. *)
Record ipv4_ok (r : ipv4_repr) : Prop := {
  v4_src_ok : length (ip_src (v4_ip r)) = 4%nat;
  v4_dst_ok : length (ip_dst (v4_ip r)) = 4%nat;
  v4_len_ok : 0 <= ip_payload_len (v4_ip r) < M16 - 20;
}.

Lemma v4_header_len20 r : ipv4_ok r -> len (v4_header r) = 20.
Proof.
  intros [Hs Hd _]; unfold v4_header, be16_bytes; rewrite !len_app; unfold len; rewrite Hs, Hd; done.
Qed.

Section Packet.
Context (r : ipv4_repr) (p : list Z) (Hok : ipv4_ok r) (Hp : len p = ip_payload_len (v4_ip r)).

(** The header as cells. *)
Ltac v4_cells :=
  destruct Hok as [Hs Hd Hn]; destruct r as [[src dst n ttl] proto];
  cbn [v4_ip ip_src ip_dst ip_payload_len ip_hop_limit v4_next_header] in *; addr4 src Hs; addr4 dst Hd;
  unfold v4_header; cbn [v4_ip ip_src ip_dst ip_payload_len ip_hop_limit v4_next_header].

Lemma v4_layout_len :
  v4_header_len (v4_header r ++ p) = Ret 20 /\ v4_total_len (v4_header r ++ p) = Ret (20 + ip_payload_len (v4_ip r)).
Proof using Hok Hp. v4_cells; unfold v4_header_len, v4_total_len; cell_steps; done. Qed.

Lemma v4_layout_check : v4_check_len (v4_header r ++ p) = Ret true.
Proof using Hok Hp.
  unfold v4_check_len; destruct v4_layout_len as [-> ->]; cbn [obind].
  rewrite len_app, v4_header_len20, Hp by done; destruct Hok as [_ _ Hn].
  rewrite !(proj2 (Z.ltb_ge _ _)) by lia; done.
Qed.

Lemma v4_layout_payload : v4_payload (v4_header r ++ p) = Ret p.
Proof using Hok Hp.
  unfold v4_payload; destruct v4_layout_len as [-> ->]; cbn [obind]; destruct Hok as [_ _ Hn].
  apply slice_suffix; rewrite v4_header_len20 by done; lia.
Qed.

Lemma v4_layout_parse : v4_parse (v4_header r ++ p) = Ret (Some r).
Proof using Hok Hp.
  unfold v4_parse; rewrite v4_layout_check; cbn [obind]; destruct v4_layout_len as [-> ->]; v4_cells.
  cell_steps; change (Z.shiftr 69 4 =? 4) with true; change (to_bits [64; 0]) with 16384; cbn iota.
  change (u16 (Z.shiftl 16384 3) =? 0) with true; change (Z.land 16384 8192 =? 0) with true; cbn [andb].
  cell_steps; do 4 f_equal; lia.
Qed.
End Packet.

(** ** Parsing arbitrary bytes *)

Lemma read_be_is_ret data a n : 0 <= a -> 0 <= n -> a + n <= len data -> is_ret (read_be data a n).
Proof. intros; eexists; by apply read_be_ret. Qed.

Lemma v4_lens_ret data : 20 <= len data -> is_ret (v4_header_len data) /\ is_ret (v4_total_len data).
Proof.
  intros Hl; unfold v4_header_len, v4_total_len; split; [|apply read_be_is_ret; lia].
  destruct (index_is_ret data 0) as [b ->]; [lia|by eexists].
Qed.

(** What the check of the lengths establishes. *)
Lemma v4_check_len_spec data : exists ok, v4_check_len data = Ret ok /\
  (ok = true -> exists hl tl, v4_header_len data = Ret hl /\ v4_total_len data = Ret tl /\ 20 <= hl <= tl /\ tl <= len data).
Proof.
  unfold v4_check_len; destruct (Z.ltb_spec (len data) 20); [by eexists|].
  destruct (v4_lens_ret data) as [[hl Eh] [tl Et]]; [lia|]; rewrite Eh, Et; cbn [obind].
  eexists; split; [done|]; intros Hok; exists hl, tl; split_and!; try done; lia.
Qed.

Lemma slice_len {A} (l : list A) a b s : slice l a b = Ret s -> len s = b - a.
Proof. intros (H1 & H2 & ->)%slice_ret_inv; rewrite len_ztake, len_zdrop; lia. Qed.

Lemma slice_bytes l a b s : bytes_ok l -> slice l a b = Ret s -> bytes_ok s.
Proof. intros Hl (_ & _ & ->)%slice_ret_inv; by apply Forall_ztake, Forall_zdrop. Qed.

Lemma slice_is_ret {A} (l : list A) a b : 0 <= a <= b -> b <= len l -> is_ret (slice l a b).
Proof. intros; eexists; by apply slice_ret. Qed.

Lemma v4_parse_spec data : bytes_ok data -> exists o, v4_parse data = Ret o /\
  forall r, o = Some r -> ipv4_ok r /\
    exists p, v4_payload data = Ret p /\ bytes_ok p /\ len p = ip_payload_len (v4_ip r).
Proof.
  intros Hb; unfold v4_parse; destruct (v4_check_len_spec data) as (ok & -> & Hok); cbn [obind].
  destruct ok; [|by eexists]; destruct (Hok eq_refl) as (hl & tl & Eh & Et & Hh & Ht).
  destruct (index_is_ret data 0) as [b0 ->]; [lia|]; cbn [obind]; destruct (_ =? _); [|by eexists].
  rewrite read_be_ret by lia; cbn [obind]; destruct (_ && _); [|by eexists].
  rewrite Eh, Et; cbn [obind].
  destruct (slice_is_ret data 12 16) as [src Es]; [lia..|]; destruct (slice_is_ret data 16 20) as [dst Ed]; [lia..|].
  destruct (index_is_ret data 9) as [proto Ep]; [lia|]; destruct (index_is_ret data 8) as [ttl El]; [lia|].
  rewrite Es, Ed, Ep, El; cbn [obind]; eexists; split; [done|]; intros r [= <-].
  pose proof (read_be_range _ _ _ _ Hb Et ltac:(lia)) as Hr; change (256 ^ 2) with 65536 in Hr.
  apply slice_len in Es, Ed; unfold len in Es, Ed; split.
  { split; cbn [v4_ip ip_src ip_dst ip_payload_len]; lia. }
  unfold v4_payload; rewrite Eh, Et; cbn [obind].
  destruct (slice_is_ret data hl tl) as [p Ep']; [lia..|]; exists p; split_and!; [done|by eapply slice_bytes|by apply slice_len in Ep'].
Qed.

Lemma arp_check_len_spec data : bytes_ok data -> exists ok, arp_check_len data = Ret ok /\
  (ok = true -> exists hl pl, index data 4 = Ret hl /\ index data 5 = Ret pl /\ 8 + hl + pl + hl + pl <= len data).
Proof.
  intros Hb; unfold arp_check_len, arp_end; destruct (Z.ltb_spec (len data) 8); [by eexists|].
  destruct (index_is_ret data 4) as [hl Eh]; [lia|]; destruct (index_is_ret data 5) as [pl Ep]; [lia|].
  rewrite Eh, Ep; cbn [obind]; eexists; split; [done|]; intros Hok; exists hl, pl; split_and!; try done; lia.
Qed.

(** An ARP packet that is accepted carries addresses of their lengths. *)
Lemma arp_parse_spec data : bytes_ok data -> exists o, arp_parse data = Ret o /\
  forall r, o = Some r -> length (arp_source_hardware r) = 6%nat /\ length (arp_source_protocol r) = 4%nat /\
    length (arp_target_protocol r) = 4%nat.
Proof.
  intros Hb; unfold arp_parse; destruct (arp_check_len_spec data Hb) as (ok & -> & Hok); cbn [obind].
  destruct ok; [|by eexists]; destruct (Hok eq_refl) as (hl & pl & Eh & Ep & Hle); rewrite Eh, Ep.
  assert (in_u8 hl /\ in_u8 pl) as [Hu1 Hu2].
  { rewrite index_ret_iff in Eh, Ep; unfold bytes_ok in Hb; rewrite Forall_lookup in Hb.
    split; [by eapply Hb, Eh|by eapply Hb, Ep]. }
  unfold in_u8 in *; rewrite !read_be_ret by lia; cbn [obind].
  destruct (_ && _) eqn:E; [|by eexists].
  assert (hl = 6 /\ pl = 4) as [-> ->] by lia.
  destruct (slice_is_ret data 8 14) as [a Ea]; [lia..|]; destruct (slice_is_ret data 14 18) as [b Eb]; [lia..|].
  destruct (slice_is_ret data 18 24) as [c Ec]; [lia..|]; destruct (slice_is_ret data 24 28) as [d Ed]; [lia..|].
  rewrite Ea, Eb, Ec, Ed; cbn [obind]; eexists; split; [done|]; intros r [= <-].
  apply slice_len in Ea, Eb, Ed; unfold len in *; cbn; lia.
Qed.

Lemma icmp_parse_ret data : is_ret (icmp_parse data).
Proof.
  unfold icmp_parse; destruct (Z.ltb_spec (len data) 8); cbn [negb]; [by eexists|].
  destruct (index_is_ret data 0) as [ty ->]; [lia|]; destruct (index_is_ret data 1) as [code ->]; [lia|]; cbn [obind].
  unfold slice_from; destruct (slice_is_ret data 8 (len data)) as [body ->]; [lia..|]; cbn [obind].
  destruct (_ || _); [by eexists|]; destruct (_ || _); [|by eexists].
  destruct (v4_check_len_spec body) as (ok & -> & Hok); cbn [obind]; destruct ok; [|by eexists].
  destruct (Hok eq_refl) as (hl & tl & -> & _ & Hh & Ht); cbn [obind].
  destruct (slice_is_ret body hl (len body)) as [p ->]; [lia..|by eexists].
Qed.

Lemma udp_check_len_ret data : is_ret (udp_check_len data).
Proof.
  unfold udp_check_len; destruct (Z.ltb_spec (len data) 8); [by eexists|].
  rewrite read_be_ret by lia; by eexists.
Qed.
