(* ===== verification/SegmentOk.v ===== *)
(** Segments written are segments read: what [tcp_emit] writes, [tcp_parse]
    answers; and parsing never panics, whatever the bytes. *)

From Stdlib Require Import ZArith Lia ZifyBool.
From stdpp Require Import base list numbers.
From S2P Require Import Prelude Rss TcpWire Iface TcpInv Frame Segment FrameOk.

(** ** Options *)

(** The bytes of an option of a segment. *)
Definition option_bytes (o : tcp_option) : list Z :=
  match o with
  | NoOperation => [1]
  | EndOfList => [0]
  | _ => let '(kind, contents) := option_contents o in [kind; len contents + 2] ++ contents
  end.

Definition in_u16 (v : Z) : Prop := 0 <= v < M16.
Definition in_u32 (v : Z) : Prop := 0 <= v < M32.

Definition block_ok (b : option (Z * Z)) : Prop := match b with Some (l, r) => in_u32 l /\ in_u32 r | None => True end.

(** One range at least, and no hole before a range. *)
Definition compact (b : sack_blocks) : Prop :=
  match b with
  | (Some _, None, None) | (Some _, Some _, None) | (Some _, Some _, Some _) => True
  | _ => False
  end.

(** The options that a segment carries. *)
Definition carried (o : tcp_option) : Prop :=
  match o with
  | MaxSegmentSize _ | WindowScale _ | SackPermitted | TimeStamp _ _ => True
  | SackRange b => compact b
  | _ => False
  end.

Lemma len_option_bytes o : carried o -> len (option_bytes o) = option_len o.
Proof. destruct o as [| | | | |[[[[]|] [[]|]] [[]|]]| |]; done. Qed.

Lemma get_range_middle (h a p : list Z) i j :
  i = len h -> j = len h + len a -> get_range (h ++ a ++ p) i j = Some a.
Proof. intros; unfold get_range; by rewrite slice_middle. Qed.

Lemma parse_option_body_ok o :
  carried o -> let '(kind, contents) := option_contents o in
  parse_option_body kind (len contents + 2) contents = Ret (Some o).
Proof.
  destruct o as [| | | | |[[[[l0 r0]|] [[l1 r1]|]] [[l2 r2]|]]| |]; try done; intros _.
  all: cbv -[to_bits Z.div Z.modulo]; by rewrite ?to_bits_be32_cells, ?to_bits_be16.
Qed.

Lemma parse_option_bytes o rest : carried o -> parse_option (option_bytes o ++ rest) = Ret (Some (rest, o)).
Proof.
  intros Ho; pose proof (parse_option_body_ok o Ho) as Hb.
  unfold option_bytes; destruct (option_contents o) as [kind contents] eqn:E.
  assert (Hk : (kind =? 0) = false /\ (kind =? 1) = false) by (destruct o; try done; injection E as <- _; done).
  replace (match o with EndOfList => _ | _ => _ end ++ rest) with (kind :: len contents + 2 :: contents ++ rest)
    by (destruct o; done).
  destruct Hk as [Hk0 Hk1]; unfold parse_option; rewrite Hk0, Hk1.
  change ((kind :: len contents + 2 :: contents ++ rest) !! 1%nat) with (Some (len contents + 2)); cbn iota beta.
  change (kind :: len contents + 2 :: contents ++ rest) with ([kind; len contents + 2] ++ contents ++ rest).
  rewrite get_range_middle by (change (len [kind; len contents + 2]) with 2; lia).
  rewrite Hb; cbn [obind]; rewrite app_assoc, slice_from_suffix; [done|].
  rewrite len_app; change (len [kind; len contents + 2]) with 2; lia.
Qed.

(** The bytes of options and then zeros are read as these options. *)
Lemma parse_options_zeros n acc fuel : (0 < fuel)%nat -> parse_options fuel (zreplicate n 0) acc = Ret (Some acc).
Proof.
  intros Hf; unfold zreplicate; destruct (Z.to_nat n) as [|k]; destruct fuel as [|fuel]; try lia; [done|].
  cbn [replicate parse_options]; unfold parse_option; cbn [Z.eqb].
  change (0 :: replicate k 0) with ([0] ++ replicate k 0); by rewrite slice_from_suffix.
Qed.

Lemma parse_options_bytes os n acc fuel :
  Forall carried os -> (length os < fuel)%nat ->
  parse_options fuel (concat (map option_bytes os) ++ zreplicate n 0) acc =
  Ret (Some (fold_left (fun acc o => note_option o acc) os acc)).
Proof.
  revert acc fuel; induction os as [|o os IH]; intros acc fuel Ho Hf; [by apply parse_options_zeros|].
  inversion Ho as [|? ? Ho1 Ho2]; subst; destruct fuel as [|fuel]; [cbn in Hf; lia|].
  cbn [map concat fold_left]; rewrite <-app_assoc.
  assert (E : forall l, parse_options (S fuel) (option_bytes o ++ l) acc =
    try! (rest, o) := parse_option (option_bytes o ++ l) in
    match o with EndOfList => Ret (Some acc) | o => parse_options fuel rest (note_option o acc) end)
    by (intros l; destruct o; done).
  rewrite E, parse_option_bytes by done; cbn [obind].
  rewrite IH by (done || (cbn in Hf; lia)); destruct o; done.
Qed.

(** ** Emitting options *)

Lemma carried_shape o : carried o -> let '(kind, contents) := option_contents o in
  option_bytes o = [kind; len contents + 2] ++ contents /\ option_len o = len contents + 2 /\ u8 (option_len o) = option_len o.
Proof. destruct o as [| | | | |[[[[]|] [[]|]] [[]|]]| |]; done. Qed.

Lemma emit_option_bytes o a rest :
  carried o -> len a = option_len o -> emit_option o (a ++ rest) = Ret (option_bytes o, rest).
Proof.
  intros Ho Ha; pose proof (carried_shape o Ho) as Hs; unfold emit_option.
  destruct (option_contents o) as [kind contents]; destruct Hs as (Hb & Hl & Hu).
  replace (match o with EndOfList => _ | _ => _ end) with
    (let! buffer := store (a ++ rest) 1 (option_len o) in let! buffer := store buffer 0 kind in write_bytes buffer 2 contents)
    by (rewrite <-Hu at 1; destruct o; done).
  rewrite Hl in Ha |- *; pose proof (len_nonneg contents).
  destruct a as [|x [|y c]]; [by (unfold len in *; cbn in *; lia)..|]; rewrite !len_cons in Ha; cbn [app].
  change (x :: y :: c ++ rest) with ([x] ++ y :: c ++ rest); rewrite store_middle by done; cbn [obind app].
  rewrite store_0; cbn [obind]; unfold write_bytes.
  change (kind :: len contents + 2 :: c ++ rest) with ([kind; len contents + 2] ++ c ++ rest).
  rewrite copy_middle by (change (len [kind; len contents + 2]) with 2; lia); cbn [obind].
  rewrite app_assoc, <-Hb.
  assert (El : len (option_bytes o) = len contents + 2) by (rewrite len_option_bytes by done; exact Hl).
  rewrite slice_from_suffix by lia; cbn [obind].
  rewrite ztake_app_le, ztake_ge by lia; done.
Qed.

Definition options_len (os : list tcp_option) : Z := len (concat (map option_bytes os)).

Lemma emit_options_bytes os a rest :
  Forall carried os -> len a = options_len os ->
  emit_options os (a ++ rest) = Ret (concat (map option_bytes os), rest).
Proof.
  unfold options_len; revert a; induction os as [|o os IH]; intros a Ho Ha; cbn [map concat emit_options] in *.
  { by rewrite (len_zero_nil a Ha). }
  inversion Ho as [|? ? Ho1 Ho2]; subst; rewrite len_app in Ha.
  destruct (split_at a (option_len o)) as (a1 & a2 & -> & E).
  { rewrite Ha, <-len_option_bytes by done; pose proof (len_nonneg (option_bytes o)); pose proof (len_nonneg (concat (map option_bytes os))); lia. }
  rewrite <-app_assoc, emit_option_bytes by done; cbn [obind].
  rewrite IH; [done|done|]. rewrite len_app, E, len_option_bytes in Ha by done; lia.
Qed.

(** The option area of a segment. *)
Definition option_area (r : tcp_repr) : list Z :=
  concat (map option_bytes (options_of r)) ++ zreplicate (TcpWire.header_len r - 20 - options_len (options_of r)) 0.

Lemma emit_option_area_bytes r area :
  Forall carried (options_of r) -> options_len (options_of r) <= TcpWire.header_len r - 20 ->
  len area = TcpWire.header_len r - 20 -> emit_option_area r area = Ret (option_area r).
Proof.
  intros Ho Hle Ha; unfold emit_option_area, option_area.
  pose proof (len_nonneg (concat (map option_bytes (options_of r)))) as Hn; fold (options_len (options_of r)) in Hn.
  destruct (split_at area (options_len (options_of r))) as (a & rest & -> & E); [lia|].
  rewrite emit_options_bytes by done; cbn [obind]; rewrite len_app in Ha.
  assert (El : len rest = TcpWire.header_len r - 20 - options_len (options_of r)) by lia; rewrite <-El.
  destruct (Z.eqb_spec (len rest) 0) as [E0|E0].
  { rewrite E0; by rewrite app_nil_r. }
  unfold emit_option; cbn [option_contents option_len obind].
  pose proof (len_nonneg rest); set (z := zreplicate (len rest) 0).
  assert (Ez : len z = len rest) by (subst z; rewrite len_zreplicate; lia).
  unfold slice_from; rewrite slice_ret by lia; cbn [obind].
  f_equal; f_equal; rewrite (ztake_ge (len z - 1)) by (rewrite len_zdrop; lia); apply ztake_zdrop.
Qed.

(** ** The header *)

(** A segment that fits its header: the values of the fields' types, options
    that take at most forty bytes, and ranges only where they are written. *)
Record wire_ok (r : tcp_repr) : Prop := {
  wo_src : 0 < src_port r < M16;
  wo_dst : 0 < dst_port r < M16;
  wo_seq : seq_ok (seq_num r);
  wo_ack : forall a, ack_num r = Some a -> seq_ok a;
  wo_window : in_u16 (window_len r);
  wo_mss : forall m, max_seg_size r = Some m -> in_u16 m;
  wo_scale : forall k, window_scale r = Some k -> 0 <= k <= 14;
  wo_time : forall t, timestamp r = Some t -> in_u32 (tsval t) /\ in_u32 (tsecr t);
  wo_sack : sack_ranges r = (None, None, None) \/
    compact (sack_ranges r) /\ sack_permitted r = false /\ (exists a, ack_num r = Some a) /\
    (let '(b0, b1, b2) := sack_ranges r in block_ok b0 /\ block_ok b1 /\ block_ok b2);
  wo_header : TcpWire.header_len r <= 60;
  wo_payload : bytes_ok (payload r);
}.

Definition control_bits (c : control) : Z :=
  match c with CNone => 0 | CPsh => 8 | CSyn => 2 | CFin => 1 | CRst => 4 end.

(** The data offset and the flags. *)
Definition header_word (hl : Z) (c : control) (ack : bool) : Z :=
  let v := Z.lor (hl * 1024) (control_bits c) in if ack then Z.lor v 16 else Z.land v 65519.

Definition has_ack (r : tcp_repr) : bool := match ack_num r with Some _ => true | None => false end.
Definition ack_value (r : tcp_repr) : Z := match ack_num r with Some a => a | None => 0 end.

(** A segment as it is emitted; the checksum and the urgent pointer are zero. *)
Definition tcp_fixed (r : tcp_repr) : list Z :=
  be16_bytes (src_port r) ++ be16_bytes (dst_port r) ++ be32_bytes (u32 (seq_num r)) ++
  be32_bytes (u32 (ack_value r)) ++ be16_bytes (header_word (TcpWire.header_len r) (ctl r) (has_ack r)) ++
  be16_bytes (window_len r).
Definition tcp_header (r : tcp_repr) : list Z := tcp_fixed r ++ [0; 0; 0; 0].
Definition tcp_bytes (r : tcp_repr) : list Z := tcp_header r ++ option_area r ++ payload r.

Lemma options_carried r : wire_ok r -> Forall carried (options_of r).
Proof.
  intros Hr; unfold options_of; rewrite !Forall_app; split_and!.
  - destruct (max_seg_size r); repeat constructor.
  - destruct (window_scale r); repeat constructor.
  - destruct (sack_permitted r); [repeat constructor|]; destruct (ack_num r); [|constructor].
    destruct (wo_sack r Hr) as [->|[Hc _]]; [constructor|].
    destruct (has_blocks _); repeat constructor; exact Hc.
  - destruct (timestamp r); repeat constructor.
Qed.

(** The options fit between the fixed part and the end of the header. *)
Lemma header_len_options r : wire_ok r ->
  20 + options_len (options_of r) <= TcpWire.header_len r /\ TcpWire.header_len r mod 4 = 0.
Proof.
  intros Hr; pose proof (wo_sack r Hr) as Hs; clear Hr; unfold options_of, options_len, TcpWire.header_len.
  destruct r as [sp dp c sq ak w ws mss sp_ [[b0 b1] b2] ts pl]; cbn [src_port dst_port ctl seq_num ack_num window_len window_scale max_seg_size sack_permitted sack_ranges timestamp payload] in *.
  destruct Hs as [[= -> -> ->]|(Hc & -> & [a ->] & _)].
  - destruct mss, ws, sp_, ak, ts; vm_compute; split; congruence.
  - destruct b0 as [[]|], b1 as [[]|], b2 as [[]|]; try contradiction; destruct mss, ws, ts; vm_compute; split; congruence.
Qed.

Lemma header_len_cases r : wire_ok r -> exists k, TcpWire.header_len r = 4 * k /\ 5 <= k <= 15.
Proof.
  intros Hr; destruct (header_len_options r Hr) as [H1 H2]; pose proof (wo_header r Hr).
  pose proof (len_nonneg (concat (map option_bytes (options_of r)))); unfold options_len in H1.
  exists (TcpWire.header_len r / 4); clear Hr; mlia.
Qed.

Lemma len_option_area r : wire_ok r -> len (option_area r) = TcpWire.header_len r - 20.
Proof.
  intros Hr; destruct (header_len_options r Hr) as [H1 _]; unfold option_area.
  rewrite len_app, len_zreplicate; unfold options_len in *; lia.
Qed.

(** The header word, for the lengths a header can have. *)
Lemma header_word_ok k c ack : 5 <= k <= 15 ->
  u16 (Z.shiftl (u8 (4 * k) / 4) 12) = Z.land (4 * k * 1024) 61440 /\
  (let w := header_word (4 * k) c ack in
   flag w 16 = ack /\ u8 (u16 (Z.shiftr w 12 * 4)) = 4 * k /\
   parse_control (flag w 2) (flag w 1) (flag w 4) (flag w 8) = Some c).
Proof.
  intros Hk; assert (H : k = 5 \/ k = 6 \/ k = 7 \/ k = 8 \/ k = 9 \/ k = 10 \/ k = 11 \/ k = 12 \/ k = 13 \/ k = 14 \/ k = 15) by lia.
  repeat destruct H as [->|H]; [..|subst k]; destruct c, ack; vm_compute; repeat split.
Qed.

Lemma header_word_set raw k c ack : 5 <= k <= 15 ->
  (fun raw => if ack : bool then Z.lor raw 16 else Z.land raw (65535 - 16))
    (Z.lor (Z.land (Z.lor (Z.land raw 4095) (u16 (Z.shiftl (u8 (4 * k) / 4) 12))) 61440) (control_bits c)) =
  header_word (4 * k) c ack.
Proof.
  intros Hk; destruct (header_word_ok k c ack Hk) as [-> _].
  rewrite Z.land_lor_distr_l, <-!Z.land_assoc; change (Z.land 4095 61440) with 0; change (Z.land 61440 61440) with 61440.
  rewrite Z.land_0_r, Z.lor_0_l.
  replace (Z.land (4 * k * 1024) 61440) with (4 * k * 1024); [done|].
  assert (H : k = 5 \/ k = 6 \/ k = 7 \/ k = 8 \/ k = 9 \/ k = 10 \/ k = 11 \/ k = 12 \/ k = 13 \/ k = 14 \/ k = 15) by lia.
  repeat destruct H as [->|H]; [..|subst k]; done.
Qed.

Lemma len_tcp_header r : len (tcp_header r) = 20.
Proof. done. Qed.

Lemma parsed_options r : wire_ok r ->
  fold_left (fun acc o => note_option o acc) (options_of r) no_options =
  {| o_max_seg_size := max_seg_size r; o_window_scale := window_scale r; o_sack_permitted := sack_permitted r;
     o_sack_ranges := sack_ranges r; o_timestamp := timestamp r |}.
Proof.
  intros Hr; pose proof (wo_sack r Hr) as Hs; pose proof (wo_scale r Hr) as Hw; clear Hr; unfold options_of.
  destruct r as [sp dp c sq ak w ws mss sp_ [[b0 b1] b2] ts pl];
    cbn [ack_num window_scale max_seg_size sack_permitted sack_ranges timestamp] in *.
  assert (Ew : forall k, ws = Some k -> (14 <? k) = false) by (intros k E; specialize (Hw k E); lia).
  destruct Hs as [[= -> -> ->]|(Hc & -> & [a ->] & _)].
  - destruct mss, ws as [k|], sp_, ak, ts as [[]|]; cbn; try rewrite (Ew _ eq_refl); done.
  - destruct b0 as [[]|], b1 as [[]|], b2 as [[]|]; try contradiction;
      destruct mss, ws as [k|], ts as [[]|]; cbn; try rewrite (Ew _ eq_refl); done.
Qed.

Lemma tcp_header_len_fixed r l : wire_ok r -> tcp_header_len (tcp_fixed r ++ l) = Ret (TcpWire.header_len r).
Proof.
  intros Hr; destruct (header_len_cases r Hr) as (k & Ek & Hk).
  unfold tcp_header_len, tcp_fixed; cell_steps; rewrite Ek.
  by destruct (header_word_ok k (ctl r) (has_ack r) Hk) as (_ & _ & -> & _).
Qed.

Lemma tcp_header_len_bytes r l : wire_ok r -> tcp_header_len (tcp_header r ++ l) = Ret (TcpWire.header_len r).
Proof. intros Hr; unfold tcp_header; rewrite <-app_assoc; by apply tcp_header_len_fixed. Qed.

Lemma tcp_check_len_bytes r : wire_ok r -> tcp_check_len (tcp_bytes r) = Ret true.
Proof.
  intros Hr; unfold tcp_check_len, tcp_bytes; rewrite tcp_header_len_bytes by done; cbn [obind].
  destruct (header_len_cases r Hr) as (k & Ek & Hk); pose proof (len_nonneg (payload r)).
  rewrite !len_app, len_tcp_header, len_option_area by done; rewrite !(proj2 (Z.ltb_ge _ _)) by lia; done.
Qed.

Lemma i32_u32 v : seq_ok v -> i32 (u32 v) = v.
Proof. unfold seq_ok, in_i32, i32, u32; intros; mlia. Qed.

Lemma has_ack_value r : (if has_ack r then Some (ack_value r) else None) = ack_num r.
Proof. unfold has_ack, ack_value; by destruct (ack_num r). Qed.

(** Every option takes two bytes or more. *)
Lemma options_length os : Forall carried os -> (2 * length os <= length (concat (map option_bytes os)))%nat.
Proof.
  induction 1 as [|o os Ho _ IH]; [done|]; cbn [map concat length]; rewrite length_app.
  assert (2 <= length (option_bytes o))%nat
    by (pose proof (carried_shape o Ho) as H; destruct (option_contents o); destruct H as (-> & _); cbn; lia).
  lia.
Qed.

Lemma parse_option_area r : wire_ok r ->
  parse_options (length (option_area r)) (option_area r) no_options =
  Ret (Some {| o_max_seg_size := max_seg_size r; o_window_scale := window_scale r;
               o_sack_permitted := sack_permitted r; o_sack_ranges := sack_ranges r;
               o_timestamp := timestamp r |}).
Proof.
  intros Hr; pose proof (options_carried r Hr) as Hc; pose proof (options_length _ Hc) as Hl.
  rewrite <-parsed_options by done; destruct (option_area r) as [|x l] eqn:E.
  - unfold option_area in E; apply app_eq_nil in E as [E _]; rewrite E in Hl; cbn in Hl.
    destruct (options_of r); [done|cbn in Hl; lia].
  - rewrite <-E; unfold option_area at 2; apply parse_options_bytes; [done|].
    assert (H : length (option_area r) <> 0%nat) by (rewrite E; done); revert H; unfold option_area; rewrite length_app; lia.
Qed.

Lemma tcp_parse_bytes r : wire_ok r -> tcp_parse (tcp_bytes r) = Ret (Some r).
Proof.
  intros Hr; unfold tcp_parse; rewrite tcp_check_len_bytes by done; cbn [obind].
  destruct (header_len_cases r Hr) as (k & Ek & Hk); destruct (header_word_ok k (ctl r) (has_ack r) Hk) as (_ & Hf & _ & Hc).
  unfold tcp_bytes; rewrite tcp_header_len_bytes by done; cbn [obind].
  rewrite (slice_middle (tcp_header r)) by (rewrite ?len_tcp_header, ?len_option_area by done; lia).
  rewrite app_assoc, (slice_from_suffix _ (payload r)) by (rewrite len_app, len_tcp_header, len_option_area by done; lia).
  rewrite <-app_assoc; cbn [obind]; unfold read_i32, tcp_header, tcp_fixed; cell_steps.
  pose proof (wo_src r Hr); pose proof (wo_dst r Hr); pose proof (wo_seq r Hr); pose proof (wo_ack r Hr).
  rewrite !(proj2 (Z.eqb_neq _ 0)) by lia; cbn [negb]; cell_steps; rewrite Ek, Hc, Hf.
  rewrite parse_option_area by done; cbn [obind]; rewrite !to_bits_be32_cells, (i32_u32 (seq_num r)) by done.
  replace (if has_ack r then _ else _) with (Ret (ack_num r)); [by destruct r|].
  rewrite <-has_ack_value; unfold has_ack, ack_value; destruct (ack_num r) as [a|]; [|done].
  by rewrite i32_u32 by auto.
Qed.

(** ** Emitting *)

Section Cells.
Context (c0 c1 c2 c3 c4 c5 c6 c7 c8 c9 c10 c11 v : Z) (rest : list Z).
Let cells12 (v : Z) : list Z :=
  c0 :: c1 :: c2 :: c3 :: c4 :: c5 :: c6 :: c7 :: c8 :: c9 :: c10 :: c11 :: v / 256 :: v mod 256 :: rest.

Lemma set_flag_cells mask b :
  set_flag mask b (cells12 v) = Ret (cells12 (if b then Z.lor v mask else Z.land v (65535 - mask))).
Proof. unfold set_flag, cells12; cell_steps; by destruct b. Qed.

Lemma emit_control_cells c : emit_control c (cells12 v) = Ret (cells12 (Z.lor v (control_bits c))).
Proof. destruct c; cbn [emit_control control_bits]; rewrite ?set_flag_cells, ?Z.lor_0_r; done. Qed.

Lemma tcp_header_len_cells : tcp_header_len (cells12 v) = Ret (u8 (u16 (Z.shiftr v 12 * 4))).
Proof. unfold tcp_header_len, cells12; cell_steps; done. Qed.
End Cells.

Lemma tcp_emit_bytes r h area pay :
  wire_ok r -> len h = 20 -> len area = TcpWire.header_len r - 20 -> len pay = len (payload r) ->
  tcp_emit r (h ++ area ++ pay) = Ret (tcp_bytes r).
Proof.
  intros Hr Hh Ha Hp; destruct (header_len_cases r Hr) as (k & Ek & Hk).
  destruct (header_word_ok k (ctl r) (has_ack r) Hk) as (_ & _ & Hl & _).
  assert (Hlen : 20 <= len h) by lia; split_cells h 20%nat.
  rewrite len_app in Hh; change (len [_; _; _; _; _; _; _; _; _; _; _; _; _; _; _; _; _; _; _; _]) with 20 in Hh.
  rewrite (len_zero_nil rest) by lia; clear rest Hh Hlen; cbn [app].
  unfold tcp_emit, write_i32; cell_steps.
  rewrite emit_control_cells; cbn [obind]; rewrite set_flag_cells; cbn [obind]; rewrite tcp_header_len_cells; cbn [obind].
  pose proof (header_word_set (to_bits [z11; z12]) k (ctl r) (has_ack r) Hk) as Hw; cbv beta in Hw.
  rewrite <-Ek in Hw, Hl; unfold has_ack in Hw, Hl; rewrite Hw, Hl.
  match goal with |- context [slice ?l 20 _] => change l with ((tcp_fixed r ++ [z15; z16; z17; z18]) ++ area ++ pay) end.
  assert (H20 : forall a b c d, len (tcp_fixed r ++ [a; b; c; d]) = 20) by done.
  rewrite slice_middle by (rewrite ?H20; lia); cbn [obind].
  destruct (header_len_options r Hr) as [Hfit _].
  rewrite emit_option_area_bytes by (done || (apply options_carried; done) || lia); cbn [obind].
  pose proof (len_option_area r Hr) as Hoa.
  rewrite copy_middle by (rewrite ?H20; lia); cbn [obind].
  change ((tcp_fixed r ++ [z15; z16; z17; z18]) ++ option_area r ++ pay)
    with ((tcp_fixed r ++ [z15; z16]) ++ [z17; z18] ++ option_area r ++ pay).
  rewrite copy_middle by done; cbn [obind].
  rewrite <-app_assoc, tcp_header_len_fixed by done; cbn [obind].
  change (tcp_fixed r ++ [z15; z16] ++ [0 / 256; 0 mod 256] ++ option_area r ++ pay)
    with ((tcp_fixed r ++ [z15; z16; 0; 0]) ++ option_area r ++ pay); rewrite app_assoc.
  rewrite emit_from_suffix with (p' := payload r);
    [cbn [obind]|rewrite len_app, H20; lia|by apply copy_all|done].
  rewrite <-app_assoc; change ((tcp_fixed r ++ [z15; z16; 0; 0]) ++ option_area r ++ payload r)
    with (tcp_fixed r ++ [z15; z16] ++ [0; 0] ++ option_area r ++ payload r).
  by rewrite copy_middle.
Qed.

(** ** Parsing arbitrary bytes *)

Lemma parse_sack_block_ret data i : 0 <= i -> len data mod 8 = 0 -> is_ret (parse_sack_block data i).
Proof.
  intros Hi Hm; unfold parse_sack_block; destruct (Z.ltb_spec (i * 8) (len data)); [|by eexists].
  assert (i * 8 + 8 <= len data) by mlia.
  rewrite !read_be_ret by lia; by eexists.
Qed.

Lemma parse_option_body_ret kind length data : len data = length - 2 -> is_ret (parse_option_body kind length data).
Proof.
  intros Hl; unfold parse_option_body; pose proof (len_nonneg data).
  destruct (kind =? 2); [destruct (Z.eqb_spec length 4); [|by eexists]; rewrite read_be_ret by lia; by eexists|].
  destruct (kind =? 3); [destruct (Z.eqb_spec length 3); [|by eexists]|].
  { destruct (index_is_ret data 0) as [v ->]; [lia|by eexists]. }
  destruct (kind =? 4); [destruct (length =? 2); by eexists|].
  destruct (kind =? 5).
  { destruct (negb _) eqn:E; [|by eexists].
    assert (Hm : len data mod 8 = 0) by (rewrite Hl; clear -E; lia).
    destruct (parse_sack_block_ret data 0) as [b0 ->]; [lia|done|].
    destruct (parse_sack_block_ret data 1) as [b1 ->]; [lia|done|].
    destruct (parse_sack_block_ret data 2) as [b2 ->]; [lia|done|by eexists]. }
  destruct ((kind =? 8) && (length =? 10)) eqn:E; [|by eexists].
  apply andb_prop in E as [_ E%Z.eqb_eq]; rewrite !read_be_ret by lia; by eexists.
Qed.

Lemma get_range_inv l a b s : get_range l a b = Some s -> 0 <= a <= b /\ b <= len l /\ s = ztake (b - a) (zdrop a l).
Proof. unfold get_range; destruct (slice l a b) eqn:E; [|done]; intros [= <-]; by apply slice_ret_inv in E. Qed.

(** A byte or more is taken. *)
Lemma parse_option_ret buffer :
  exists o, parse_option buffer = Ret o /\ forall rest x, o = Some (rest, x) -> (length rest < length buffer)%nat.
Proof.
  unfold parse_option; destruct buffer as [|kind l]; [by eexists|].
  assert (H1 : slice_from (kind :: l) 1 = Ret l) by (change (kind :: l) with ([kind] ++ l); by apply slice_from_suffix).
  destruct (kind =? 0); [rewrite H1; eexists; split; [done|intros ? ? [= <- <-]; cbn; lia]|].
  destruct (kind =? 1); [rewrite H1; eexists; split; [done|intros ? ? [= <- <-]; cbn; lia]|].
  destruct ((kind :: l) !! 1%nat) as [n|]; [|by eexists].
  destruct (get_range (kind :: l) 2 n) as [data|] eqn:E; [|by eexists].
  apply get_range_inv in E as (Hn & Hl & ->).
  destruct (parse_option_body_ret kind n (ztake (n - 2) (zdrop 2 (kind :: l)))) as [o ->].
  { rewrite len_ztake, len_zdrop; lia. }
  cbn [obind]; destruct o as [o|]; [|by eexists].
  unfold slice_from; rewrite slice_ret by lia; cbn [obind]; eexists; split; [done|intros ? ? [= <- <-]].
  apply Nat2Z.inj_lt; fold (len (ztake (len (kind :: l) - n) (zdrop n (kind :: l)))); fold (len (kind :: l)).
  rewrite len_ztake, len_zdrop; lia.
Qed.

Lemma parse_options_ret fuel options acc : (length options <= fuel)%nat -> is_ret (parse_options fuel options acc).
Proof.
  revert options acc; induction fuel as [|fuel IH]; intros options acc Hf.
  { destruct options; [by eexists|cbn in Hf; lia]. }
  destruct options as [|x l]; [by eexists|]; cbn [parse_options].
  destruct (parse_option_ret (x :: l)) as (o & -> & Ho); cbn [obind]; destruct o as [[rest o]|]; [|by eexists].
  specialize (Ho rest o eq_refl); destruct o; try (by eexists); apply IH; lia.
Qed.

Lemma tcp_header_len_ret data : 20 <= len data -> is_ret (tcp_header_len data).
Proof. intros; unfold tcp_header_len; rewrite read_be_ret by lia; by eexists. Qed.

Lemma tcp_check_len_ret data : is_ret (tcp_check_len data).
Proof.
  unfold tcp_check_len; destruct (Z.ltb_spec (len data) 20); [by eexists|].
  destruct (tcp_header_len_ret data) as [hl ->]; [lia|by eexists].
Qed.

Lemma tcp_check_len_true data hl :
  tcp_check_len data = Ret true -> tcp_header_len data = Ret hl -> 20 <= hl <= len data.
Proof.
  unfold tcp_check_len; destruct (Z.ltb_spec (len data) 20); [done|]; intros H1 H2; rewrite H2 in H1; cbn [obind] in H1.
  injection H1 as H1; lia.
Qed.

Lemma tcp_parse_ret data : is_ret (tcp_parse data).
Proof.
  unfold tcp_parse; destruct (tcp_check_len_ret data) as [ok E]; rewrite E; cbn [obind]; destruct ok; [|by eexists].
  assert (H20 : 20 <= len data) by (revert E; unfold tcp_check_len; destruct (Z.ltb_spec (len data) 20); [done|lia]).
  destruct (tcp_header_len_ret data H20) as [hl Eh]; pose proof (tcp_check_len_true _ _ E Eh).
  rewrite Eh; unfold read_i32; rewrite !read_be_ret by lia; cbn [obind].
  destruct (negb _); [|by eexists]; destruct (negb _); [|by eexists].
  destruct (parse_control _ _ _ _); [|by eexists].
  rewrite slice_ret by lia; unfold slice_from; rewrite slice_ret by lia; cbn [obind].
  edestruct parse_options_ret as [o ->]; [reflexivity|].
  destruct (flag _ _); cbn [obind]; destruct o; by eexists.
Qed.

Lemma parse_options_scale fuel options acc o :
  (forall k, o_window_scale acc = Some k -> k <= 14) ->
  parse_options fuel options acc = Ret (Some o) -> forall k, o_window_scale o = Some k -> k <= 14.
Proof.
  revert options acc; induction fuel as [|fuel IH]; intros options acc Ha.
  { destruct options; [|done]; by intros [= <-]. }
  destruct options as [|x l]; [by intros [= <-]|]; cbn [parse_options].
  destruct (parse_option (x :: l)) as [[[rest a]|]|]; cbn [obind]; try done.
  destruct a; try (by intros [= <-]); try (apply IH; cbn; exact Ha).
  apply IH; cbn; intros k [= <-]; destruct (Z.ltb_spec 14 value); lia.
Qed.

(** What a parsed segment is: one the socket's theorems speak of. *)
Lemma tcp_parse_sound data r : bytes_ok data -> len data <= 65535 ->
  tcp_parse data = Ret (Some r) ->
  repr_ok r /\ 0 < src_port r < M16 /\ 0 < dst_port r < M16 /\ (forall k, window_scale r = Some k -> k <= 14).
Proof.
  intros Hb Hl; unfold tcp_parse; destruct (tcp_check_len_ret data) as [ok E]; rewrite E; cbn [obind].
  destruct ok; [|done].
  assert (H20 : 20 <= len data) by (revert E; unfold tcp_check_len; destruct (Z.ltb_spec (len data) 20); [done|lia]).
  destruct (tcp_header_len_ret data H20) as [hl Eh]; pose proof (tcp_check_len_true _ _ E Eh); rewrite Eh.
  destruct (read_be_is_ret data 0 2) as [sp E1]; [lia..|]; destruct (read_be_is_ret data 2 2) as [dp E2]; [lia..|].
  destruct (read_be_is_ret data 14 2) as [w E3]; [lia..|].
  pose proof (read_be_range _ _ _ _ Hb E1 ltac:(lia)); pose proof (read_be_range _ _ _ _ Hb E2 ltac:(lia)).
  pose proof (read_be_range _ _ _ _ Hb E3 ltac:(lia)); change (256 ^ 2) with 65536 in *.
  rewrite E1, E2, E3; unfold read_i32; rewrite !read_be_ret by lia; cbn [obind].
  destruct (Z.eqb_spec sp 0); cbn [negb]; [done|]; destruct (Z.eqb_spec dp 0); cbn [negb]; [done|].
  destruct (parse_control _ _ _ _) as [c|]; [|done].
  destruct (slice data 20 hl) as [opts|]; cbn [obind]; [|by destruct (flag _ _)].
  unfold slice_from; rewrite slice_ret by lia.
  assert (Hp : len (ztake (len data - hl) (zdrop hl data)) <= 65535) by (rewrite len_ztake, len_zdrop; lia).
  destruct (parse_options _ _ _) as [[o|]|] eqn:Eo; cbn [obind]; try (by destruct (flag _ _)).
  assert (Hs : forall k, o_window_scale o = Some k -> k <= 14) by (eapply parse_options_scale, Eo; done).
  destruct (flag _ _); cbn [obind]; intros [= <-]; cbn; (split; [split; cbn|split_and!]).
  all: try done; try lia; try apply i32_range; try (by intros ? [= <-]; apply i32_range).
Qed.
