(* ===== verification/NetWire.v ===== *)
(** From one interface to another: a segment that is dispatched goes on the
    ring as a frame, and the interface that receives this frame hands the same
    segment to its sockets.  Whatever bytes arrive, none of the parsers
    panics. *)

From Stdlib Require Import ZArith Lia ZifyBool.
From stdpp Require Import base list gmap fin_maps numbers.
From S2P Require Import Prelude Rss Device Time TcpWire Iface TcpState TcpSocket TcpProcess TcpDispatch Worker.
From S2P Require Import RingBuffer TcpInv Frame Segment Neighbor Net FrameOk SegmentOk.

(** ** The frame of a segment *)

(** A packet as a socket builds it: IPv4 addresses, and the length of its
    segment in the IP header. *)
Record packet_ok (p : packet) : Prop := {
  po_src : length (ip_src (fst p)) = 4%nat;
  po_dst : length (ip_dst (fst p)) = 4%nat;
  po_len : ip_payload_len (fst p) = TcpWire.header_len (snd p) + len (payload (snd p));
  po_fits : ip_payload_len (fst p) < M16 - 20;
  po_wire : wire_ok (snd p);
}.

Definition tcp_v4 (p : packet) : ipv4_repr := {| v4_ip := fst p; v4_next_header := PROTO_TCP |}.

Definition eth_header (src dst : eth_address) : list Z := dst ++ src ++ [8; 0].
Definition tcp_frame (src dst : eth_address) (p : packet) : list Z :=
  eth_header src dst ++ v4_header (tcp_v4 p) ++ tcp_bytes (snd p).

(** The segment-level reception: the first socket that accepts, or a reset. *)
Definition segment_input (cx : context) (p : packet) (ss : socket_set) : outcome (option packet * context * socket_set) :=
  let! d := deliver cx (fst p) (snd p) ss in
  match d with
  | Some r => Ret r
  | None =>
      if bool_decide (ctl (snd p) = CRst) then Ret (None, cx, ss)
      else let! q := rst_reply (fst p) (snd p) in Ret (Some q, cx, ss)
  end.

Lemma packet_header_len p : packet_ok p -> 20 <= TcpWire.header_len (snd p) <= 60.
Proof. intros Hp; destruct (header_len_cases _ (po_wire p Hp)) as (k & -> & Hk); lia. Qed.

Lemma packet_v4_ok p : packet_ok p -> ipv4_ok (tcp_v4 p).
Proof.
  intros Hp; pose proof (packet_header_len p Hp); destruct Hp as [H1 H2 H3 H4 H5].
  pose proof (len_nonneg (payload (snd p))); split; cbn [tcp_v4 v4_ip]; [done|done|lia].
Qed.

Lemma len_tcp_bytes p : packet_ok p -> len (tcp_bytes (snd p)) = ip_payload_len (fst p).
Proof.
  intros Hp; unfold tcp_bytes; rewrite !len_app, len_tcp_header, len_option_area by apply (po_wire p Hp).
  rewrite (po_len p Hp); lia.
Qed.

Lemma len6 (a : list Z) : length a = 6%nat -> len a = 6.
Proof. unfold len; lia. Qed.

Lemma len_eth_header src dst : length src = 6%nat -> length dst = 6%nat -> len (eth_header src dst) = 14.
Proof. intros Hs Hd; unfold eth_header; rewrite !len_app, (len6 src), (len6 dst) by done; done. Qed.

(** A frame, whatever its payload. *)
Lemma emit_frame_layout src dst v4 pay bytes b :
  ipv4_ok v4 -> length src = 6%nat -> length dst = 6%nat ->
  len b = 34 + ip_payload_len (v4_ip v4) -> len bytes = ip_payload_len (v4_ip v4) ->
  (forall x, len x = ip_payload_len (v4_ip v4) -> emit_payload pay x = Ret bytes) ->
  emit_frame src dst (v4, pay) b = Ret (eth_header src dst ++ v4_header v4 ++ bytes).
Proof.
  intros Hv Hs Hd Hb Hbytes Hpay; pose proof (len_nonneg bytes); pose proof (v4_len_ok v4 Hv) as Hl.
  destruct (split_at b 14) as (e & b1 & -> & He); [lia|]; rewrite len_app in Hb.
  destruct (split_at b1 20) as (v & b2 & -> & Ev); [lia|]; rewrite len_app in Hb.
  unfold emit_frame; cbn [fst snd].
  destruct (split_at e 6) as (e1 & e2 & -> & E1); [lia|]; rewrite len_app in He.
  destruct (split_at e2 6) as (e3 & e4 & -> & E3); [lia|]; rewrite len_app in He; rewrite !len_app in Hb.
  rewrite <-!app_assoc, copy_middle by (rewrite ?(len6 src) by done; lia); cbn [obind].
  rewrite copy_prefix by (rewrite ?(len6 dst) by done; lia); cbn [obind].
  unfold write_u16, write_bytes; rewrite app_assoc, (copy_middle (dst ++ src) e4)
    by (rewrite ?len_app, ?(len6 dst), ?(len6 src), ?len_be16 by done; lia); cbn [obind].
  change (be16_bytes ETHERTYPE_IPV4) with [8; 0]; rewrite <-app_assoc; unfold eth_header.
  replace (dst ++ src ++ [8; 0] ++ v ++ b2) with ((dst ++ src ++ [8; 0]) ++ v ++ b2) by (by rewrite <-!app_assoc).
  apply emit_from_suffix; [symmetry; by apply len_eth_header| |].
  - rewrite v4_emit_layout; [|apply Hv|apply Hv|lia|lia|rewrite len_app; lia].
    cbn [obind]; rewrite zdrop_app_ge, zdrop_0 by lia.
    apply emit_from_suffix; [by rewrite v4_header_len20|apply Hpay; lia|lia].
  - rewrite !len_app, v4_header_len20 by done; lia.
Qed.

Lemma emit_frame_bytes src dst p b :
  packet_ok p -> length src = 6%nat -> length dst = 6%nat -> len b = 34 + ip_payload_len (fst p) ->
  emit_frame src dst (tcp_packet p) b = Ret (tcp_frame src dst p).
Proof.
  intros Hp Hs Hd Hb; pose proof (packet_header_len p Hp); pose proof (po_len p Hp) as Hl; pose proof (len_nonneg (payload (snd p))).
  change (tcp_packet p) with (tcp_v4 p, PTcp (snd p)); unfold tcp_frame.
  apply emit_frame_layout; [by apply packet_v4_ok|done|done|done|by apply len_tcp_bytes|].
  intros x Hx; change (v4_ip (tcp_v4 p)) with (fst p) in Hx; cbn [emit_payload].
  destruct (split_at x 20) as (h & b3 & -> & Eh); [lia|]; rewrite len_app in Hx.
  destruct (split_at b3 (TcpWire.header_len (snd p) - 20)) as (area & pay & -> & Ea); [lia|]; rewrite len_app in Hx.
  apply tcp_emit_bytes; [apply (po_wire p Hp)|lia..].
Qed.

(** ** Its reception *)

Section Ethernet.
Context (src dst : eth_address) (l : list Z) (Hs : length src = 6%nat) (Hd : length dst = 6%nat).

Lemma eth_fields :
  eth_check_len (eth_header src dst ++ l) = true /\ eth_dst_addr (eth_header src dst ++ l) = Ret dst /\
  eth_src_addr (eth_header src dst ++ l) = Ret src /\ eth_ethertype (eth_header src dst ++ l) = Ret ETHERTYPE_IPV4 /\
  eth_payload (eth_header src dst ++ l) = Ret l.
Proof using Hs Hd.
  pose proof (len_eth_header src dst Hs Hd) as Hh; pose proof (len_nonneg l).
  apply len6 in Hs, Hd; unfold eth_check_len, eth_dst_addr, eth_src_addr, eth_ethertype, eth_payload, read_be; split_and!.
  - rewrite len_app, Hh; unfold ETHERNET_HEADER_LEN; lia.
  - unfold eth_header; rewrite <-!app_assoc; apply slice_prefix; lia.
  - unfold eth_header; rewrite <-!app_assoc; apply slice_middle; lia.
  - unfold eth_header; rewrite <-!app_assoc, app_assoc, (slice_middle (dst ++ src) [8; 0])
      by (rewrite len_app; change (len [8; 0]) with 2; lia); done.
  - apply slice_from_suffix; lia.
Qed.
End Ethernet.

(** A receiver that takes the frame's destination and the packet's for its own. *)
Record addressed (cx : context) (n : net) (dst : eth_address) (p : packet) : Prop := {
  ad_mac : eth_is_broadcast dst = true \/ eth_is_multicast dst = true \/ dst = nt_hardware n;
  ad_ip : has_ip_addr cx (ip_dst (fst p)) = true;
  ad_dst : is_unspecified (ip_dst (fst p)) = false;
  ad_src : is_unicast_v4 cx (ip_src (fst p)) = true;
}.

Lemma unicast_specified a : is_unicast a = true -> is_unspecified a = false.
Proof. unfold is_unicast; destruct (is_unspecified a); [|done]; by rewrite orb_true_r. Qed.

Section Arrival.
Context (oldest : gmap ip_address neighbor -> option ip_address).

Lemma process_tcp_frame cx p ss :
  packet_ok p -> is_unspecified (ip_src (fst p)) = false -> is_unspecified (ip_dst (fst p)) = false ->
  process_tcp cx (fst p) (tcp_bytes (snd p)) ss =
  let! (q, cx, ss) := segment_input cx p ss in Ret (option_map tcp_packet q, cx, ss).
Proof using Type.
  intros Hp Hs Hd; unfold process_tcp, segment_input; rewrite Hs, Hd; cbn [orb].
  rewrite tcp_check_len_bytes, tcp_parse_bytes by apply (po_wire p Hp); cbn [obind negb].
  destruct (deliver cx (fst p) (snd p) ss) as [[[[q cx1] ss1]|]|]; cbn [obind]; try done.
  rewrite !orb_false_r; destruct (bool_decide _); [done|].
  by destruct (rst_reply (fst p) (snd p)).
Qed.

Lemma process_frame cx n ss src dst p :
  packet_ok p -> length src = 6%nat -> length dst = 6%nat -> addressed cx n dst p ->
  process_ethernet oldest cx (tcp_frame src dst p) n ss =
  let! (q, cx', ss) := segment_input cx p ss in
  Ret (option_map (fun q => EthIp (tcp_packet q)) q, cx', renew_neighbor cx (tcp_v4 p) src n, ss).
Proof using Type.
  intros Hp Hs Hd [Hmac Hip Hdst Hsrc]; pose proof (packet_v4_ok p Hp) as Hv.
  assert (Hl : len (tcp_bytes (snd p)) = ip_payload_len (v4_ip (tcp_v4 p))) by (by apply len_tcp_bytes).
  unfold process_ethernet, ethernet_frame, tcp_frame.
  destruct (eth_fields src dst (v4_header (tcp_v4 p) ++ tcp_bytes (snd p)) Hs Hd) as (-> & -> & -> & -> & ->).
  cbn [obind negb].
  replace (negb (eth_is_broadcast dst) && negb (eth_is_multicast dst) && negb (bool_decide (dst = nt_hardware n))) with false.
  2:{ destruct Hmac as [->|[->|E]]; [done|by rewrite andb_false_r|rewrite (bool_decide_true _ E); by rewrite andb_false_r]. }
  cbn [Z.eqb ETHERTYPE_ARP ETHERTYPE_IPV4 Pos.eqb]; rewrite v4_layout_check by done; cbn [obind negb].
  unfold process_ipv4; rewrite v4_layout_parse by done; cbn [obind].
  rewrite v4_layout_payload by done; change (v4_ip (tcp_v4 p)) with (fst p); rewrite Hsrc, Hip; cbn [negb andb obind].
  change (v4_next_header (tcp_v4 p)) with 6; cbn [Z.eqb PROTO_UDP PROTO_ICMP PROTO_TCP Pos.eqb obind negb].
  rewrite process_tcp_frame; [|done| |done].
  2:{ unfold is_unicast_v4 in Hsrc; apply andb_prop in Hsrc as [Hsrc _]; by apply unicast_specified. }
  destruct (segment_input cx p ss) as [[[q cx1] ss1]|]; cbn [obind]; [|done]; by destruct q.
Qed.

End Arrival.

(** ** Sending *)

(** The addresses of the interface and of its neighbors are Ethernet addresses;
    the routers are hosts. *)
Record net_ok (n : net) : Prop := {
  no_hardware : length (nt_hardware n) = 6%nat;
  no_cache : map_Forall (fun _ nb => length (nb_hardware nb) = 6%nat) (nc_storage (nt_cache n));
  no_routes : Forall (fun r => is_unicast (rt_via_router r) = true) (nt_routes n);
}.

(** The buffers of the pool hold a frame. *)
Definition buffers_ok (w : nic) : Prop :=
  Forall (fun a => match al_data a with
                   | Some data => MTU <= al_cap a < M16 /\ al_cap a <= len data
                   | None => True end) (nic_allocs w).

Lemma cache_lookup_ok a now c hw :
  map_Forall (fun _ nb => length (nb_hardware nb) = 6%nat) (nc_storage c) ->
  cache_lookup a now c = Ret (Found hw) -> length hw = 6%nat.
Proof.
  unfold cache_lookup; intros Hc; destruct (is_unicast a); [|done].
  destruct (nc_storage c !! a) as [nb|] eqn:E; [|by destruct (_ <? _)].
  destruct (_ <? _); [|by destruct (_ <? _)]; intros [= <-]; by apply (Hc a nb).
Qed.

Lemma lookup_hardware_ok cx d n hw n' :
  net_ok n -> lookup_hardware_addr cx d n = Ret (Ok hw, n') -> n' = n /\ length hw = 6%nat.
Proof.
  intros [_ Hc _]; unfold lookup_hardware_addr; destruct (is_broadcast_v4 cx d); [by intros [= <- <-]|].
  destruct (ip_is_multicast d).
  { destruct (index d 1), (index d 2), (index d 3); cbn [obind]; try done; by intros [= <- <-]. }
  destruct (route_to cx n d) as [[hop|]|]; cbn [obind]; try done.
  destruct (cache_lookup hop _ _) as [[a| |]|] eqn:E; cbn [obind]; try done.
  - intros [= <- <-]; split; [done|]; by eapply cache_lookup_ok.
  - destruct (get_source_address cx hop); [|done]; by destruct (dispatch_arp _ _ n).
Qed.

(** What became of a frame that fits: on the ring, or a failure is counted. *)
Definition failed (w w' : nic) : Prop :=
  sent w' = sent w /\
  (TX_ALLOC_FAIL w' = u64 (TX_ALLOC_FAIL w + 1) \/ TX_BURST_FAIL w' = u64 (TX_BURST_FAIL w + 1)).

(** The part of [consume] that has no buffer: the closure fills a scratch area. *)
Lemma transmit_scratch n f w w' :
  0 <= n <= MTU ->
  obind (let! sl := slice (zreplicate MTU 0) 0 (Z.min n MTU) in
         Ret (fst (match f sl with Ret s => (Ret tt, s) | Panic => (Panic, sl) end), w))
    (fun '((r, w1) : outcome unit * nic) => let! _ := r in Ret w1) = Ret w' ->
  exists b out, len b = n /\ f b = Ret out /\ w' = w.
Proof.
  intros Hn; rewrite slice_ret by (rewrite ?len_zreplicate; unfold MTU in *; lia); cbn [obind].
  set (sl := ztake _ _).
  assert (El : len sl = n) by (subst sl; rewrite len_ztake, len_zdrop, len_zreplicate; unfold MTU in *; lia).
  destruct (f sl) as [out|] eqn:Ef; cbn [fst obind]; [|done]; intros [= <-]; by exists sl, out.
Qed.

Lemma transmit_spec n f w w' :
  buffers_ok w -> 0 <= n <= MTU -> (forall b out, f b = Ret out -> len b = n -> len out = n) ->
  transmit n f w = Ret w' ->
  exists b out, len b = n /\ f b = Ret out /\ ((exists h, sent w' = sent w ++ [(h, out)]) \/ failed w w').
Proof.
  intros Hw Hn Hf; unfold transmit, tx_consume, shim_mbuf_alloc_tx, failed; unfold buffers_ok in Hw.
  destruct (nic_allocs w) as [|a rest]; cbn [al_data al_handle].
  { intros (b & out & Hb & Ho & ->)%transmit_scratch; [|done]; exists b, out; split_and!; try done; right; split; [done|by left]. }
  inversion Hw as [|? ? Ha _]; subst; destruct (al_data a) as [data|], (al_handle a) as [h|].
  2-4: intros (b & out & Hb & Ho & ->)%transmit_scratch; [|done]; exists b, out; split_and!; try done; right; split; [done|by left].
  unfold from_raw_parts; rewrite Z.min_l, slice_ret by lia; cbn [obind]; set (sl := ztake _ _).
  assert (El : len sl = n) by (subst sl; rewrite len_ztake, len_zdrop; lia).
  destruct (f sl) as [out|] eqn:Ef; cbn [obind]; [|destruct (copy_from_slice _ _ _ _); cbn [obind]; [by destruct (shim_mbuf_tx _ _ _ _)|done]].
  specialize (Hf _ _ Ef El); rewrite copy_from_slice_ret by lia; cbn [obind].
  rewrite u16_small by (unfold MTU in *; lia); unfold shim_mbuf_tx; cbn [nic_tx].
  destruct (match nic_tx w with [] => _ | _ => _ end) as [rc rc_rest]; exists sl, out; (split; [done|split; [exact Ef|]]).
  destruct (rc =? 0); cbn [negb Z.eqb obind] in *; injection H as <-; cbn [sent TX_ALLOC_FAIL TX_BURST_FAIL].
  - right; split; [done|by right].
  - left; exists h; rewrite write_at_0, ztake_app_le, ztake_ge by lia; done.
Qed.

(** A closure that fills every slice of the length asked for does not fail. *)
Lemma transmit_ret n f w :
  buffers_ok w -> 0 <= n <= MTU -> (forall b, len b = n -> exists out, f b = Ret out /\ len out = n) ->
  exists w', transmit n f w = Ret w' /\ buffers_ok w' /\ nic_rx w' = nic_rx w /\ MISROUTED_DROPS w' = MISROUTED_DROPS w.
Proof.
  intros Hw Hn Hf; unfold transmit, tx_consume, shim_mbuf_alloc_tx; unfold buffers_ok in *.
  assert (Hs : exists sl out, slice (zreplicate MTU 0) 0 (Z.min n MTU) = Ret sl /\ f sl = Ret out).
  { rewrite slice_ret by (rewrite ?len_zreplicate; unfold MTU in *; lia); set (sl := ztake _ _).
    destruct (Hf sl) as (out & E & _); [|by exists sl, out].
    subst sl; rewrite len_ztake, len_zdrop, len_zreplicate; unfold MTU in *; lia. }
  destruct Hs as (sl & out & Es & Eo).
  destruct (nic_allocs w) as [|a rest] eqn:Ea; cbn [al_data al_handle].
  { rewrite Es; cbn [obind]; rewrite Eo; cbn [fst obind]; eexists; split; [reflexivity|]; cbn; by rewrite Ea. }
  inversion Hw as [|? ? Ha Hrest]; subst; destruct (al_data a) as [data|], (al_handle a) as [h|].
  2-4: rewrite Es; cbn [obind]; rewrite Eo; cbn [fst obind]; eexists; split; [reflexivity|]; done.
  unfold from_raw_parts; rewrite Z.min_l, slice_ret by lia; cbn [obind]; set (sl2 := ztake _ _).
  assert (El : len sl2 = n) by (subst sl2; rewrite len_ztake, len_zdrop; lia).
  destruct (Hf sl2 El) as (out2 & -> & El2); rewrite copy_from_slice_ret by lia; cbn [obind].
  unfold shim_mbuf_tx; cbn [nic_tx]; destruct (match nic_tx w with [] => _ | _ => _ end) as [rc rcs].
  destruct (rc =? 0); cbn [negb Z.eqb obind]; eexists; (split; [reflexivity|]); done.
Qed.

Lemma dispatch_tcp cx p n n' :
  net_ok n -> buffers_ok (nt_nic n) -> packet_ok p -> max_transmission_unit cx = MTU ->
  dispatch_ip cx (tcp_packet p) n = Ret (Ok (), n') ->
  exists dst, length dst = 6%nat /\ lookup_hardware_addr cx (ip_dst (fst p)) n = Ret (Ok dst, n) /\
    (n' = n /\ ip_mtu cx < 20 + ip_payload_len (fst p) \/
     n' = with_nic (nt_nic n') n /\
     ((exists h, sent (nt_nic n') = sent (nt_nic n) ++ [(h, tcp_frame (nt_hardware n) dst p)]) \/
      failed (nt_nic n) (nt_nic n'))).
Proof.
  intros Hn Hb Hp Hm; unfold dispatch_ip; change (tcp_packet p) with (tcp_v4 p, PTcp (snd p)).
  change (v4_ip (fst (tcp_v4 p, PTcp (snd p)))) with (fst p); destruct (negb _); [|done].
  destruct (packet_v4_ok p Hp) as [_ _ Hl]; change (v4_ip (tcp_v4 p)) with (fst p) in Hl.
  rewrite (usize_small (20 + _)) by lia.
  destruct (lookup_hardware_addr _ _ n) as [[[dst|e] n1]|] eqn:El; cbn [obind]; [|done|done].
  destruct (lookup_hardware_ok _ _ _ _ _ Hn El) as [-> Hd]; intros H; exists dst; split; [done|split; [done|]].
  destruct (Z.ltb_spec (ip_mtu cx) (20 + ip_payload_len (fst p))); [injection H as <-; by left|right].
  assert (Hmtu : ip_mtu cx = 1500) by (unfold ip_mtu; rewrite Hm; done).
  rewrite usize_small in H by lia.
  destruct (transmit _ _ (nt_nic n)) as [w|] eqn:Et; cbn [obind] in H; [|done]; injection H as <-; cbn [nt_nic with_nic].
  split; [done|].
  assert (He : forall b, len b = 14 + (20 + ip_payload_len (fst p)) ->
    emit_frame (nt_hardware n) dst (tcp_v4 p, PTcp (snd p)) b = Ret (tcp_frame (nt_hardware n) dst p)).
  { intros b Hlb; apply emit_frame_bytes; [done|apply Hn|done|lia]. }
  apply transmit_spec in Et as (b & out & Hlb & Ho & Hs); [|done|unfold MTU; lia|].
  - rewrite He in Ho by done; injection Ho as <-; destruct Hs as [[h Hs]|Hs]; [left; by exists h|by right].
  - intros b out Ho Hlb; rewrite He in Ho by done; injection Ho as <-; unfold tcp_frame.
    rewrite !len_app, len_eth_header, v4_header_len20, len_tcp_bytes by (done || apply Hn || by apply packet_v4_ok); lia.
Qed.

(** ** Arbitrary frames *)

Section Arbitrary.
Context (oldest : gmap ip_address neighbor -> option ip_address).

(** [min_by_key] finds something in a map that is not empty, among its keys. *)
Definition oldest_ok : Prop := forall m, m <> ∅ -> exists a, oldest m = Some a /\ is_Some (m !! a).

(** The sockets can be handed any segment that the parser lets through. *)
Definition sockets_safe (cx : context) (ss : socket_set) : Prop :=
  forall s ip r, Some s ∈ ss -> repr_ok r -> 0 < src_port r < M16 -> 0 < dst_port r < M16 ->
    (forall k, TcpWire.window_scale r = Some k -> k <= 14) -> accepts s ip r = true -> is_ret (process cx ip r s).

Lemma rst_reply_ret ip r : repr_ok r -> is_ret (rst_reply ip r).
Proof using Type.
  intros Hr; unfold rst_reply; destruct (reply ip r) as [q r'].
  assert (H : is_ret (seq_add (seq_num r) (segment_len r))).
  { unfold seq_add, segment_len; pose proof (ok_payload _ Hr); pose proof (len_nonneg (payload r)).
    assert (0 <= control_len (ctl r) <= 1) by (by destruct (ctl r)).
    rewrite usize_small by lia; unfold i32_max; rewrite (proj2 (Z.ltb_ge _ _)) by lia; by eexists. }
  destruct H as [a E]; destruct (ctl r), (ack_num r); rewrite ?E; by eexists.
Qed.

Lemma deliver_ret cx ip r ss :
  sockets_safe cx ss -> repr_ok r -> 0 < src_port r < M16 -> 0 < dst_port r < M16 ->
  (forall k, TcpWire.window_scale r = Some k -> k <= 14) -> is_ret (deliver cx ip r ss).
Proof using Type.
  intros Hs Hr H1 H2 H3; induction ss as [|slot ss IH]; cbn [deliver]; [by eexists|].
  destruct IH as [o E]; [intros s ip' r' Hin; apply Hs; by right|]; rewrite E; cbn [obind].
  destruct slot as [s|]; [|by eexists]; destruct (accepts s ip r) eqn:Ea; [|by eexists].
  destruct (Hs s ip r) as [[[q s'] cx'] ->]; try done; [by left|by eexists].
Qed.

Lemma process_tcp_ret cx ip data ss :
  bytes_ok data -> len data <= 65535 -> sockets_safe cx ss -> is_ret (process_tcp cx ip data ss).
Proof using Type.
  intros Hb Hl Hs; unfold process_tcp; destruct (_ || _); [by eexists|].
  destruct (tcp_check_len_ret data) as [ok ->]; cbn [obind]; destruct (negb ok); [by eexists|].
  destruct (tcp_parse_ret data) as [[r|] E]; rewrite E; cbn [obind]; [|by eexists].
  destruct (tcp_parse_sound data r Hb Hl E) as (Hr & H1 & H2 & H3).
  destruct (deliver_ret cx ip r ss Hs Hr H1 H2 H3) as [[[[q cx1] ss1]|] ->]; cbn [obind]; [by eexists|].
  destruct (_ || _); [by eexists|]; destruct (rst_reply_ret ip r Hr) as [q ->]; by eexists.
Qed.

Lemma with_cache_ok c n : net_ok n -> map_Forall (fun _ nb => length (nb_hardware nb) = 6%nat) (nc_storage c) ->
  net_ok (with_cache c n).
Proof using Type. intros [H1 H2 H3] Hc; by split. Qed.

Lemma renew_neighbor_ok cx v4 src n : net_ok n -> net_ok (renew_neighbor cx v4 src n).
Proof using Type.
  intros Hn; unfold renew_neighbor; destruct (is_unicast_v4 _ _); [|done].
  apply with_cache_ok; [done|]; unfold reset_expiry_if_existing; pose proof (no_cache n Hn) as Hc.
  destruct (nc_storage (nt_cache n) !! _) as [nb|] eqn:E; [|done]; destruct (bool_decide _); [|done].
  cbn [nc_storage]; apply map_Forall_insert_2; [cbn; by eapply Hc|done].
Qed.

Lemma routes_lookup_ret cx a n : is_unicast a = true -> is_ret (routes_lookup a (cx_now cx) (nt_routes n)).
Proof using Type. intros H; unfold routes_lookup; rewrite H; by eexists. Qed.

Lemma process_ipv4_ret cx src data n ss :
  bytes_ok data -> net_ok n -> sockets_safe cx ss ->
  exists p cx' n' ss', process_ipv4 cx src data n ss = Ret (p, cx', n', ss') /\ net_ok n'.
Proof using Type.
  intros Hb Hn Hs; unfold process_ipv4; destruct (v4_parse_spec data Hb) as (o & -> & Ho); cbn [obind].
  destruct o as [v4|]; [|do 4 eexists; by split].
  destruct (Ho v4 eq_refl) as ([_ _ Hl] & payload & -> & Hbp & Hlp); cbn [obind].
  destruct (_ && _); [do 4 eexists; by split|].
  assert (Hu : is_ret (if v4_next_header v4 =? PROTO_UDP then udp_check_len payload else Ret true))
    by (destruct (_ =? _); [apply udp_check_len_ret|by eexists]).
  destruct Hu as [ok ->]; cbn [obind]; destruct (negb ok); [do 4 eexists; by split|].
  destruct (_ && _).
  { destruct (is_unicast (ip_dst (v4_ip v4))) eqn:Eu; cbn [negb]; [|do 4 eexists; by split].
    destruct (routes_lookup_ret cx _ n Eu) as [r ->]; do 4 eexists; by split. }
  pose proof (renew_neighbor_ok cx v4 src n Hn).
  destruct (_ =? _); [unfold process_icmpv4; destruct (icmp_parse_ret payload) as [x ->]; do 4 eexists; by split|].
  destruct (_ =? _).
  { destruct (process_tcp_ret cx (v4_ip v4) payload ss Hbp) as [[[q cx1] ss1] ->]; [lia|done|]; do 4 eexists; by split. }
  unfold icmp_reply_payload_len; change (usize (576 - 20 * 2 - 8)) with 528; pose proof (len_nonneg payload).
  destruct (slice_is_ret payload 0 (Z.min (len payload) 528)) as [x ->]; [lia..|]; do 4 eexists; by split.
Qed.

Lemma fill_ok a hw now c :
  oldest_ok -> length hw = 6%nat -> map_Forall (fun _ nb => length (nb_hardware nb) = 6%nat) (nc_storage c) ->
  exists c', fill oldest a hw now c = Ret c' /\ map_Forall (fun _ nb => length (nb_hardware nb) = 6%nat) (nc_storage c').
Proof using Type.
  intros Ho Hw Hc; unfold fill, fill_with_expiration.
  set (nb := {| nb_hardware := hw; nb_expires := _ |}).
  destruct (nc_storage c !! a) as [old|]; [eexists; split; [done|by apply map_Forall_insert_2]|].
  destruct (bool_decide _) eqn:Es; [eexists; split; [done|by apply map_Forall_insert_2]|].
  destruct (Ho (nc_storage c)) as (b & -> & _).
  { intros E; rewrite E, map_size_empty in Es; done. }
  eexists; split; [done|]; cbn [nc_storage]; by apply map_Forall_insert_2, map_Forall_delete.
Qed.

Lemma process_arp_ret cx data n :
  oldest_ok -> bytes_ok data -> net_ok n -> exists r n', process_arp oldest cx data n = Ret (r, n') /\ net_ok n'.
Proof using Type.
  intros Ho Hb Hn; unfold process_arp; destruct (arp_check_len_spec data Hb) as (ok & -> & _); cbn [obind].
  destruct (negb ok); [do 2 eexists; by split|].
  destruct (arp_parse_spec data Hb) as (o & -> & Hp); cbn [obind]; destruct o as [r|]; [|do 2 eexists; by split].
  destruct (Hp r eq_refl) as (H1 & H2 & H3).
  destruct (negb _); [do 2 eexists; by split|]; destruct (negb _); [do 2 eexists; by split|].
  destruct (_ || _); [do 2 eexists; by split|]; destruct (negb _); [do 2 eexists; by split|].
  destruct (fill_ok (arp_source_protocol r) (arp_source_hardware r) (cx_now cx) (nt_cache n) Ho H1) as (c & -> & Hc);
    [apply Hn|]; cbn [obind].
  destruct (_ =? _); do 2 eexists; (split; [done|by apply with_cache_ok]).
Qed.

(** Whatever becomes of IPv4 packets, a frame is got through if they are. *)
Lemma ethernet_frame_ret {T} ipv4 (P : option eth_packet -> context -> net -> T -> Prop) cx frame n (ss : T) :
  oldest_ok -> bytes_ok frame -> net_ok n ->
  P None cx n ss ->
  (forall data r n1, process_arp oldest cx data n = Ret (r, n1) -> P (option_map EthArp r) cx n1 ss) ->
  (forall src data, eth_payload frame = Ret data -> bytes_ok data ->
     exists p cx' n' ss', ipv4 cx src data n ss = Ret (p, cx', n', ss') /\ net_ok n' /\ P (option_map EthIp p) cx' n' ss') ->
  exists p cx' n' ss', ethernet_frame oldest ipv4 cx frame n ss = Ret (p, cx', n', ss') /\ net_ok n' /\ P p cx' n' ss'.
Proof using Type.
  intros Ho Hb Hn H0 Harp Hip; unfold ethernet_frame, eth_check_len, ETHERNET_HEADER_LEN.
  destruct (Z.ltb_spec (len frame) 14); cbn [negb]; [do 4 eexists; by split|].
  unfold eth_dst_addr, eth_src_addr, eth_ethertype.
  destruct (slice_is_ret frame 0 6) as [dst ->]; [lia..|]; cbn [obind]; destruct (_ && _); [do 4 eexists; by split|].
  rewrite read_be_ret by lia; cbn [obind]; destruct (slice_is_ret frame 14 (len frame)) as [data Ed]; [lia..|].
  pose proof (slice_bytes _ _ _ _ Hb Ed) as Hbd; unfold eth_payload, slice_from in *; specialize (Hip); rewrite Ed in *; cbn [obind].
  destruct (_ =? _).
  { destruct (process_arp_ret cx data n Ho Hbd Hn) as (r & n1 & E & Hn1); rewrite E; do 4 eexists; split; [done|]; split; [done|by eapply Harp]. }
  destruct (_ =? _); [|do 4 eexists; by split].
  destruct (v4_check_len_spec data) as (ok & -> & _); cbn [obind]; destruct (negb ok); [do 4 eexists; by split|].
  destruct (slice_is_ret frame 6 12) as [src ->]; [lia..|]; cbn [obind].
  destruct (Hip src data eq_refl Hbd) as (p & cx1 & n1 & ss1 & -> & Hn1 & HP); do 4 eexists; by split.
Qed.

Lemma process_ethernet_ret cx frame n ss :
  oldest_ok -> bytes_ok frame -> net_ok n -> sockets_safe cx ss ->
  exists p cx' n' ss', process_ethernet oldest cx frame n ss = Ret (p, cx', n', ss') /\ net_ok n'.
Proof using Type.
  intros Ho Hb Hn Hs; destruct (ethernet_frame_ret process_ipv4 (fun _ _ _ _ => True) cx frame n ss Ho Hb Hn)
    as (p & cx' & n' & ss' & E & Hn' & _); [done|done| |by exists p, cx', n', ss'].
  intros src data _ Hbd; destruct (process_ipv4_ret cx src data n ss Hbd Hn Hs) as (p & cx1 & n1 & ss1 & -> & Hn1); by do 4 eexists.
Qed.

End Arbitrary.

Section Claims.
Context (oldest : gmap ip_address neighbor -> option ip_address).

(** C9: what one interface sends, another receives.  When an interface has
    dispatched the segment of a socket, it knew the hardware address of the
    next hop, and the segment either exceeded the MTU, or could not be handed
    to the card, which is counted, or is in the last frame on the ring.  Any
    interface this frame is addressed to, which then parses Ethernet, IPv4 and
    TCP headers and options from its bytes, hands exactly this segment - its
    ports, numbers, flags, window, options and payload - to the first of its
    sockets that accepts it, and answers a reset if none does; besides, it only
    renews the sender's entry among its neighbors. *)
Theorem segment_roundtrip (cx : context) (p : packet) (n n' : net) :
  net_ok n -> buffers_ok (nt_nic n) -> packet_ok p -> max_transmission_unit cx = MTU ->
  dispatch_ip cx (tcp_packet p) n = Ret (Ok (), n') ->
  exists dst, lookup_hardware_addr cx (ip_dst (fst p)) n = Ret (Ok dst, n) /\
    (n' = n /\ ip_mtu cx < 20 + ip_payload_len (fst p) \/
     failed (nt_nic n) (nt_nic n') \/
     exists h frame, sent (nt_nic n') = sent (nt_nic n) ++ [(h, frame)] /\
       forall cx2 m ss, addressed cx2 m dst p ->
         process_ethernet oldest cx2 frame m ss =
         let! (q, cx3, ss) := segment_input cx2 p ss in
         Ret (option_map (fun q => EthIp (tcp_packet q)) q, cx3, renew_neighbor cx2 (tcp_v4 p) (nt_hardware n) m, ss)).
Proof using Type.
  intros Hn Hb Hp Hm H; destruct (dispatch_tcp cx p n n' Hn Hb Hp Hm H) as (dst & Hd & El & Hc).
  exists dst; split; [done|]; destruct Hc as [[-> Hlt]|[_ [[h Hs]|Hf]]]; [by left| |by right; left].
  right; right; exists h; eexists; split; [exact Hs|]; intros cx2 m ss Ha.
  by apply process_frame; [..|apply Hn| |].
Qed.

End Claims.

(** ** Examples *)

Definition ex_mac : eth_address := [2; 0; 0; 0; 0; 1].
Definition ex_peer_mac : eth_address := [2; 0; 0; 0; 0; 2].
Definition ex_ctx : context :=
  {| cx_now := 5; max_transmission_unit := MTU; any_ip := false;
     ip_addrs := [{| cidr_addr := [10; 0; 0; 2]; prefix_len := 24 |}]; cx_rand := 1 |}.

(** The peer is known; one buffer is left. *)
Definition ex_net : net :=
  {| nt_hardware := ex_mac; nt_routes := [];
     nt_cache := {| nc_storage := {[ [10; 0; 0; 1] := {| nb_hardware := ex_peer_mac; nb_expires := 100 |} ]};
                    nc_silent_until := 0 |};
     nt_meta := [];
     nt_nic := {| nic_rx := []; nic_allocs := [{| al_data := Some (zreplicate MTU 0); al_handle := Some 1; al_cap := MTU |}];
                  nic_tx := [1]; freed := []; sent := []; MISROUTED_DROPS := 0; TX_ALLOC_FAIL := 0; TX_BURST_FAIL := 0 |} |}.

Definition ex_packet : packet :=
  ({| ip_src := [10; 0; 0; 2]; ip_dst := [10; 0; 0; 1]; ip_payload_len := 34; ip_hop_limit := 64 |},
   {| src_port := 49152; dst_port := 80; ctl := CPsh; seq_num := -5; ack_num := Some 1000; window_len := 65535;
      window_scale := None; max_seg_size := None; sack_permitted := false;
      sack_ranges := (Some (2000, 3000), None, None); timestamp := None; payload := [104; 105] |}).

Lemma ex_net_ok : net_ok ex_net.
Proof.
  split; [done| |constructor]; intros a nb H; cbn in H.
  destruct (decide (a = [10; 0; 0; 1])) as [->|Hne].
  - rewrite lookup_singleton_eq in H; injection H as <-; done.
  - rewrite lookup_singleton_ne in H by done; done.
Qed.

Lemma ex_packet_ok : packet_ok ex_packet.
Proof.
  split; try done; split; cbn; unfold in_u16; try done; try lia.
  - intros a [= <-]; done.
  - right; split_and!; try done; by exists 1000.
  - by repeat constructor.
Qed.

Lemma segment_roundtrip_witness : exists n' dst,
  dispatch_ip ex_ctx (tcp_packet ex_packet) ex_net = Ret (Ok (), n') /\
  lookup_hardware_addr ex_ctx [10; 0; 0; 1] ex_net = Ret (Ok dst, ex_net).
Proof.
  destruct (dispatch_ip ex_ctx (tcp_packet ex_packet) ex_net) as [[[[]|e] n']|] eqn:E; [|vm_compute in E; discriminate..].
  destruct (segment_roundtrip (fun _ => None) ex_ctx ex_packet ex_net n' ex_net_ok) as (dst & Hd & _).
  - constructor; [|constructor]; unfold MTU; cbn [al_data al_cap]; rewrite len_zreplicate; lia.
  - exact ex_packet_ok.
  - done.
  - exact E.
  - exists n', dst; split; [reflexivity|exact Hd].
Defined.

(** A choice among the keys. *)
Definition some_key (m : gmap ip_address neighbor) : option ip_address := fst <$> head (map_to_list m).

Lemma some_key_ok : oldest_ok some_key.
Proof.
  intros m Hm; unfold some_key; destruct (map_to_list m) as [|[a nb] l] eqn:E.
  - apply map_to_list_empty_iff in E; done.
  - exists a; split; [done|]; exists nb; apply elem_of_map_to_list; rewrite E; by left.
Qed.

(** A socket without a connection. *)
Definition ex_sockets : socket_set := match new_socket (rb_new []) (rb_new []) with Ret s => [Some s] | Panic => [] end.
