(* ===== verification/Gateway.v ===== *)
(** The gateway, from the worker's point of view: its hardware address comes
    from the one ARP reply the worker makes up for itself, and is remembered
    for a minute. *)

From Stdlib Require Import ZArith Lia ZifyBool.
From stdpp Require Import base list gmap fin_maps numbers.
From S2P Require Import Prelude Rss Arp Device Time TcpWire Iface TcpState TcpSocket TcpProcess TcpDispatch Worker.
From S2P Require Import NetEvents Frame Segment Neighbor Net NetOk FrameOk NetWire.

Section Gateway.
Context (oldest : gmap ip_address neighbor -> option ip_address).

(** ** The synthetic reply *)

(** The entry of [gw] expires at [t]. *)
Definition remembers (gw : ip_address) (hw : eth_address) (t : instant) (n : net) : Prop :=
  nc_storage (nt_cache n) !! gw = Some {| nb_hardware := hw; nb_expires := t |}.

Lemma arp_parse_layout dst src op sip tm tip :
  len dst = 6 -> len src = 6 -> len sip = 4 -> len tm = 6 -> len tip = 4 ->
  let f := arp_layout dst src op sip tm tip in
  eth_check_len f = true /\ eth_dst_addr f = Ret dst /\ eth_ethertype f = Ret ETHERTYPE_ARP /\
  exists data, eth_payload f = Ret data /\ arp_check_len data = Ret true /\
    arp_parse data = Ret (Some {| arp_operation := op; arp_source_hardware := src; arp_source_protocol := sip;
                                  arp_target_hardware := tm; arp_target_protocol := tip |}).
Proof using Type.
  intros (?&?&?&?&?&?&->)%list_len6 (?&?&?&?&?&?&->)%list_len6 (?&?&?&?&->)%list_len4
    (?&?&?&?&?&?&->)%list_len6 (?&?&?&?&->)%list_len4 f; subst f; unfold arp_layout, be16_bytes; cbn [app].
  split_and!; [done..|]; eexists; split; [reflexivity|]; split; [reflexivity|].
  unfold arp_parse, arp_check_len; cbv -[to_bits Z.div Z.modulo]; by rewrite to_bits_be16.
Qed.
(** A worker's own addresses, its gateway and the context it polls in. *)
Record provisioned (cx : context) (mac : eth_address) (ip gw : ip_address) (gw_mac : eth_address) : Prop := {
  pr_mac : len mac = 6;
  pr_gw_mac : len gw_mac = 6;
  pr_ip : len ip = 4;
  pr_gw : len gw = 4;
  pr_own : has_ip_addr cx ip = true;
  pr_unicast : is_unicast gw = true;
  pr_eth : eth_is_unicast gw_mac = true;
  pr_near : in_same_network cx gw = true;
  pr_time : sane_instant (cx_now cx);
}.

Lemma entry_expiry t : sane_instant t -> instant_add t ENTRY_LIFETIME = t + 60000000.
Proof using Type. intros Ht; rewrite instant_add_sane; [done|done|]; unfold sane_duration; vm_compute; split; congruence. Qed.

Lemma synthetic_reply cx mac ip gw gw_mac card frame ss :
  provisioned cx mac ip gw gw_mac -> build_arp_reply gw_mac gw mac ip = Ret frame ->
  exists n, process_ethernet oldest cx frame (net_start mac card gw) ss = Ret (None, cx, n, ss) /\
    remembers gw gw_mac (cx_now cx + 60000000) n /\ nt_routes n = [new_ipv4_gateway gw].
Proof using Type.
  intros [H1 H2 H3 H4 Hown Huni Heth Hnear Ht] Hf; unfold build_arp_reply in Hf.
  destruct (arp_frame_layout mac gw_mac 2 gw mac ip H1 H2 H4 H1 H3) as [E _]; rewrite E in Hf; injection Hf as <-.
  destruct (arp_parse_layout mac gw_mac 2 gw mac ip H1 H2 H4 H1 H3) as (E1 & E2 & E3 & data & E4 & E5 & E6).
  unfold process_ethernet, ethernet_frame; rewrite E1, E2; cbn [negb obind].
  change (nt_hardware (net_start mac card gw)) with mac; rewrite (bool_decide_true (mac = mac)) by done.
  rewrite andb_false_r, E3; cbn [obind Z.eqb ETHERTYPE_ARP Pos.eqb]; rewrite E4; cbn [obind].
  unfold process_arp; rewrite E5; cbn [obind negb]; rewrite E6; cbn [obind arp_target_protocol arp_operation arp_source_protocol arp_source_hardware].
  rewrite Hown, Huni, Heth, Hnear; cbn [negb orb andb Z.eqb Pos.eqb].
  unfold fill, fill_with_expiration; change (nt_cache (net_start mac card gw)) with cache_new.
  change (nc_storage cache_new) with (∅ : gmap ip_address neighbor); rewrite lookup_empty, entry_expiry by done.
  rewrite (bool_decide_true (size ∅ < _)%nat) by (rewrite map_size_empty; unfold NEIGHBOR_COUNT; lia).
  cbn [obind option_map]; eexists; split; [done|]; split; [unfold remembers; apply lookup_insert_eq|done].
Qed.

(** ** Nothing else reaches the entry *)

(** A frame that does not come from the gateway itself: no ARP packet, and no
    IPv4 packet with its address.  Such are all frames of a download through
    the gateway, and all that a card steers by TCP ports. *)
Definition quiet (gw : ip_address) (l : label) : Prop :=
  match l with
  | LFrame _ frame =>
      eth_ethertype frame <> Ret ETHERTYPE_ARP /\
      forall data v4, eth_payload frame = Ret data -> v4_parse data = Ret (Some v4) -> ip_src (v4_ip v4) <> gw
  | _ => True
  end.

Definition same_memory (n n' : net) : Prop :=
  nc_storage (nt_cache n') = nc_storage (nt_cache n) /\ nt_routes n' = nt_routes n.

Lemma dispatch_arp_memory dst r n n' : dispatch_arp dst r n = Ret n' -> same_memory n n' /\ nt_cache n' = nt_cache n.
Proof using Type.
  unfold dispatch_arp, dispatch_ethernet; destruct (transmit _ _ _); cbn [obind]; [|done]; by intros [= <-].
Qed.

Lemma lookup_hardware_memory cx d n r n' : lookup_hardware_addr cx d n = Ret (r, n') -> same_memory n n'.
Proof using Type.
  unfold lookup_hardware_addr; destruct (is_broadcast_v4 cx d); [by intros [= <- <-]|].
  destruct (ip_is_multicast d); [destruct (index d 1), (index d 2), (index d 3); cbn [obind]; try done; by intros [= <- <-]|].
  destruct (route_to cx n d) as [[hop|]|]; cbn [obind]; [|by intros [= <- <-]|done].
  destruct (cache_lookup hop _ _) as [[a| |]|]; cbn [obind]; try done; try (by intros [= <- <-]).
  destruct (get_source_address cx hop); [|by intros [= <- <-]].
  destruct (dispatch_arp _ _ n) as [n1|] eqn:E; cbn [obind]; [|done]; intros [= <- <-].
  apply dispatch_arp_memory in E as [[_ Hr] ->]; by split.
Qed.

Lemma dispatch_ip_memory cx p n r n' : dispatch_ip cx p n = Ret (r, n') -> same_memory n n'.
Proof using Type.
  unfold dispatch_ip; destruct (negb _); [|done].
  destruct (lookup_hardware_addr _ _ n) as [[[dst|e] n1]|] eqn:El; cbn [obind]; [| |done]; apply lookup_hardware_memory in El.
  - destruct (_ <? _); [by intros [= <- <-]|]; destruct (transmit _ _ _); cbn [obind]; [|done]; by intros [= <- <-].
  - by intros [= <- <-].
Qed.

Lemma dispatch_eth_memory cx p n n' : dispatch_eth cx p n = Ret n' -> same_memory n n'.
Proof using Type.
  destruct p as [r|p]; cbn [dispatch_eth]; [by intros [H _]%dispatch_arp_memory|].
  destruct (dispatch_ip cx p n) as [[]|] eqn:E; cbn [obind]; [|done]; intros [= <-]; by eapply dispatch_ip_memory.
Qed.

Lemma renew_neighbor_remembers gw hw t cx v4 src n :
  ip_src (v4_ip v4) <> gw -> remembers gw hw t n -> remembers gw hw t (renew_neighbor cx v4 src n).
Proof using Type.
  intros Hne Hr; unfold renew_neighbor, reset_expiry_if_existing, remembers in *; destruct (is_unicast_v4 _ _); [|done].
  cbn [nt_cache with_cache]; destruct (nc_storage (nt_cache n) !! ip_src (v4_ip v4)); [|done]; destruct (bool_decide _); [|done].
  cbn [nc_storage]; by rewrite lookup_insert_ne.
Qed.

Lemma process_ipv4_remembers gw hw t cx src data n ss q cx' n' ss' :
  (forall v4, v4_parse data = Ret (Some v4) -> ip_src (v4_ip v4) <> gw) ->
  process_ipv4 cx src data n ss = Ret (q, cx', n', ss') -> remembers gw hw t n ->
  remembers gw hw t n' /\ nt_routes n' = nt_routes n.
Proof using Type.
  intros Hq Hp Hr; revert Hp; unfold process_ipv4.
  destruct (v4_parse data) as [[v4|]|]; cbn [obind]; [|by intros [= _ _ <- _]|done].
  assert (Hn : remembers gw hw t (renew_neighbor cx v4 src n) /\ nt_routes (renew_neighbor cx v4 src n) = nt_routes n).
  { split; [apply renew_neighbor_remembers; auto|]; unfold renew_neighbor; by destruct (is_unicast_v4 _ _). }
  destruct (_ && _); [by intros [= _ _ <- _]|]; destruct (v4_payload data) as [payload|]; cbn [obind]; [|done].
  destruct (if (_ : bool) then udp_check_len payload else Ret true) as [[|]|]; cbn [obind negb]; [|by intros [= _ _ <- _]|done].
  destruct (_ && _).
  { destruct (negb _); [by intros [= _ _ <- _]|]; destruct (routes_lookup _ _ _); cbn [obind]; [|done]; by intros [= _ _ <- _]. }
  destruct (_ =? _); [destruct (process_icmpv4 payload); cbn [obind]; [|done]; by intros [= _ _ <- _]|].
  destruct (_ =? _); [|destruct (slice payload 0 _); cbn [obind]; [|done]; by intros [= _ _ <- _]].
  destruct (process_tcp _ _ _ _) as [[[]]|]; cbn [obind]; [|done]; by intros [= _ _ <- _].
Qed.

Lemma quiet_frame gw hw t cx frame n ss q cx' n' ss' :
  quiet gw (LFrame cx frame) -> process_ethernet oldest cx frame n ss = Ret (q, cx', n', ss') ->
  remembers gw hw t n -> remembers gw hw t n' /\ nt_routes n' = nt_routes n.
Proof using Type.
  intros [Ha Hs] Hp Hr; revert Hp; unfold process_ethernet, ethernet_frame; destruct (negb _); [by intros [= _ _ <- _]|].
  destruct (eth_dst_addr frame); cbn [obind]; [|done]; destruct (_ && _); [by intros [= _ _ <- _]|].
  destruct (eth_ethertype frame) as [ty|]; cbn [obind]; [|done]; destruct (Z.eqb_spec ty ETHERTYPE_ARP); [congruence|].
  destruct (ty =? ETHERTYPE_IPV4); [|by intros [= _ _ <- _]].
  destruct (eth_payload frame) as [data|]; cbn [obind]; [|done].
  destruct (v4_check_len data) as [[|]|]; cbn [obind negb]; [|by intros [= _ _ <- _]|done].
  destruct (eth_src_addr frame) as [src|]; cbn [obind]; [|done].
  destruct (process_ipv4 _ _ _ _ _) as [[[[q1 cx1] n1] ss1]|] eqn:Ei; cbn [obind]; [|done]; intros [= _ _ <- _].
  eapply process_ipv4_remembers; [|exact Ei|done]; eauto.
Qed.

Lemma quiet_move gw hw t n l n' :
  move oldest n l n' -> quiet gw l -> remembers gw hw t n -> remembers gw hw t n' /\ nt_routes n' = nt_routes n.
Proof using Type.
  assert (Hsm : forall n1 n2, same_memory n1 n2 -> remembers gw hw t n1 -> remembers gw hw t n2 /\ nt_routes n2 = nt_routes n1).
  { intros n1 n2 [E1 E2] Hr; unfold remembers; by rewrite E1, E2. }
  destruct 1 as [n w|n cx frame ss q cx' n1 ss' n2 Hp Hd|n cx p r n' Hd|n m]; intros Hq Hr; [done| | |done].
  - destruct (quiet_frame _ _ _ _ _ _ _ _ _ _ _ Hq Hp Hr) as [Hr1 E1]; destruct q as [q|]; [|by subst].
    destruct (Hsm n1 n2) as [Hr2 E2]; [by eapply dispatch_eth_memory|done|]; split; [done|by rewrite E2].
  - apply Hsm; [by eapply dispatch_ip_memory|done].
Qed.

(** ** Sending through the gateway *)

(** A packet to a host beyond the gateway. *)
Record beyond (cx : context) (p : packet) : Prop := {
  by_single : is_broadcast_v4 cx (ip_dst (fst p)) = false /\ ip_is_multicast (ip_dst (fst p)) = false;
  by_far : in_same_network cx (ip_dst (fst p)) = false;
  by_source : ip_addrs cx <> [];
}.

Lemma source_address_some dst f l : l <> [] -> exists a, source_address_loop dst f l = Some a.
Proof using Type.
  intros Hl; destruct l as [|c l]; [done|]; cbn [source_address_loop]; destruct (contains_addr c dst); [by eexists|].
  set (f' := match f with None => _ | f => f end).
  assert (Hf : exists a, f' = Some a) by (subst f'; destruct f as [a|]; [by exists a|by eexists]).
  clearbody f'; clear Hl; revert f' Hf.
  induction l as [|c' l IH]; intros f' [a ->]; cbn [source_address_loop]; [by eexists|].
  destruct (contains_addr c' dst); [by eexists|]; apply IH; by eexists.
Qed.

Lemma default_route_matches gw a now : route_matches a now (new_ipv4_gateway gw) = true.
Proof using Type. change (contains_addr IPV4_DEFAULT a = true); unfold contains_addr; change (netmask IPV4_DEFAULT) with 0; by rewrite !Z.land_0_r. Qed.

Lemma lookup_beyond cx p n gw hw t r n' :
  beyond cx p -> remembers gw hw t n -> nt_routes n = [new_ipv4_gateway gw] ->
  lookup_hardware_addr cx (ip_dst (fst p)) n = Ret (r, n') ->
  r = if cx_now cx <? t then Ok hw else Err NeighborPending.
Proof using Type.
  intros [[Hb Hm] Hf Hs] Hr Hrt; unfold lookup_hardware_addr; rewrite Hb, Hm; unfold route_to; rewrite Hf.
  assert (Hb' : ip_is_broadcast (ip_dst (fst p)) = false)
    by (unfold is_broadcast_v4 in Hb; by destruct (ip_is_broadcast _)).
  rewrite Hb', Hrt; cbn [orb]; unfold routes_lookup; destruct (is_unicast (ip_dst _)); cbn [obind]; [|done].
  cbn [List.filter]; rewrite default_route_matches; cbn [fold_left longer option_map obind rt_via_router new_ipv4_gateway].
  unfold cache_lookup; destruct (is_unicast gw); cbn [obind]; [|done].
  unfold remembers in Hr; rewrite Hr; cbn [nb_expires nb_hardware].
  destruct (cx_now cx <? t); cbn [obind]; [by intros [= <- _]|].
  destruct (_ <? _); cbn [obind]; [by intros [= <- _]|].
  destruct (source_address_some gw None (ip_addrs cx) Hs) as [a Ea]; unfold get_source_address; rewrite Ea.
  destruct (dispatch_arp _ _ n); cbn [obind]; [|done]; by intros [= <- _].
Qed.

Lemma dispatch_beyond cx p n gw hw t r n' :
  beyond cx p -> remembers gw hw t n -> nt_routes n = [new_ipv4_gateway gw] ->
  dispatch_ip cx (tcp_packet p) n = Ret (r, n') -> r = if cx_now cx <? t then Ok () else Err NeighborPending.
Proof using Type.
  intros Hp Hr Hrt; unfold dispatch_ip; change (v4_ip (fst (tcp_packet p))) with (fst p); destruct (negb _); [|done].
  destruct (lookup_hardware_addr _ _ n) as [[[dst|e] n1]|] eqn:El; cbn [obind]; [| |done].
  all: pose proof (lookup_beyond _ _ _ _ _ _ _ _ Hp Hr Hrt El) as Hl; destruct (cx_now cx <? t); try done.
  - destruct (_ <? _); [by intros [= <- _]|]; destruct (transmit _ _ _); cbn [obind]; [|done]; by intros [= <- _].
  - injection Hl as ->; by intros [= <- _].
Qed.

Definition fate (t : instant) (l : label) : Prop :=
  match l with
  | LSegment cx p r => beyond cx p -> r = if cx_now cx <? t then Ok () else Err NeighborPending
  | _ => True
  end.

Lemma moves_fate gw hw t n ls n' :
  moves oldest n ls n' -> Forall (quiet gw) ls -> remembers gw hw t n -> nt_routes n = [new_ipv4_gateway gw] ->
  Forall (fate t) ls.
Proof using Type.
  induction 1 as [|n l n1 ls n2 Hm _ IH]; intros Hq Hr Hrt; [constructor|].
  inversion Hq as [|? ? Hq1 Hq2]; subst; destruct (quiet_move _ _ _ _ _ _ Hm Hq1 Hr) as [Hr1 E1].
  constructor; [|apply IH; [done..|by rewrite E1]].
  inversion Hm as [| |? ? ? ? ? Hd|]; subst; cbn [fate]; try done; intros Hb.
  exact (dispatch_beyond _ _ _ _ _ _ _ _ Hb Hr Hrt Hd).
Qed.

(** ** Claims *)

(** C13: a worker forgets its gateway after a minute.  Processing the ARP reply
    that [build_arp_reply] makes up teaches a new worker the hardware address
    of its gateway.  From then on, in whatever way the interface's steps
    follow one another - frames of a download, timers, retransmissions of any
    socket - as long as no frame comes from the gateway itself, every segment
    to a host beyond it is handed to the card if it is dispatched less than
    60 seconds after the reply, and every segment dispatched later is refused
    with [NeighborPending]: acknowledgements, window updates, requests and
    resets of all connections stop.  (An ARP request is broadcast instead; its
    answer has no TCP ports and is not steered to the worker's queue.) *)
Theorem gateway_forgotten (cx : context) (mac gw_mac : eth_address) (ip gw : ip_address) (card : nic)
    (ss : socket_set) (frame : list Z) :
  provisioned cx mac ip gw gw_mac -> build_arp_reply gw_mac gw mac ip = Ret frame ->
  exists n, process_ethernet oldest cx frame (net_start mac card gw) ss = Ret (None, cx, n, ss) /\
    forall ls n', moves oldest n ls n' -> Forall (quiet gw) ls ->
      Forall (fun l => match l with
                       | LSegment cx' p r =>
                           beyond cx' p -> r = if cx_now cx' <? cx_now cx + 60000000 then Ok () else Err NeighborPending
                       | _ => True
                       end) ls.
Proof using Type.
  intros Hp Hf; destruct (synthetic_reply cx mac ip gw gw_mac card frame ss Hp Hf) as (n & E & Hr & Hrt).
  exists n; split; [done|]; intros ls n' Hm Hq; exact (moves_fate _ _ _ _ _ _ Hm Hq Hr Hrt).
Qed.

End Gateway.

(** ** Examples *)

Definition ex_gw : ip_address := [10; 0; 0; 1].
Definition ex_card : nic :=
  {| nic_rx := []; nic_allocs := []; nic_tx := []; freed := []; sent := []; MISROUTED_DROPS := 0;
     TX_ALLOC_FAIL := 0; TX_BURST_FAIL := 0 |}.
Definition ex_reply : list Z := arp_layout ex_mac ex_peer_mac 2 ex_gw ex_mac [10; 0; 0; 2].

Lemma ex_provisioned : provisioned ex_ctx ex_mac [10; 0; 0; 2] ex_gw ex_peer_mac.
Proof. by split. Qed.

(** A segment to a host beyond the gateway, 70 seconds later. *)
Definition ex_far : packet :=
  ({| ip_src := [10; 0; 0; 2]; ip_dst := [52; 92; 0; 1]; ip_payload_len := 34; ip_hop_limit := 64 |}, snd ex_packet).
Definition ex_later : context := with_now 70000000 ex_ctx.

Lemma gateway_forgotten_witness : exists n r n',
  process_ethernet some_key ex_ctx ex_reply (net_start ex_mac ex_card ex_gw) [] = Ret (None, ex_ctx, n, []) /\
  dispatch_ip ex_later (tcp_packet ex_far) n = Ret (r, n') /\ r = Err NeighborPending.
Proof.
  destruct (gateway_forgotten some_key ex_ctx ex_mac ex_peer_mac [10; 0; 0; 2] ex_gw ex_card [] ex_reply)
    as (n & E & H); [exact ex_provisioned|reflexivity|].
  destruct (dispatch_ip ex_later (tcp_packet ex_far) n) as [[r n']|] eqn:Ed.
  2:{ vm_compute in E; injection E as <-; vm_compute in Ed; discriminate. }
  exists n, r, n'; split; [exact E|split; [exact Ed|]].
  assert (Hm : moves some_key n [LSegment ex_later ex_far r] n') by (apply moves_one; constructor; exact Ed).
  pose proof (Forall_inv (H _ _ Hm ltac:(repeat constructor))) as Hf; apply Hf; split; [done|reflexivity|done].
Defined.
