(* ===== verification/PollOk.v ===== *)
(** A poll of smoltcp's interface, frame by frame and turn by turn: the frames
    that wait on the card are processed in their order, each once, in the
    context of the poll; then the sockets have their turns. *)

From Stdlib Require Import ZArith Lia ZifyBool.
From stdpp Require Import base list gmap fin_maps numbers.
From S2P Require Import Prelude Rss Device Time TcpWire Iface TcpState TcpSocket TcpProcess TcpDispatch Worker.
From S2P Require Import NetEvents Frame Segment Neighbor Net NetOk FrameOk NetWire Gateway.

(** ** What a poll may do *)

(** The segment in a frame. *)
Definition carries (frame : list Z) (ip : ip_repr) (r : tcp_repr) : Prop :=
  exists data v4 pay, eth_ethertype frame = Ret ETHERTYPE_IPV4 /\ eth_payload frame = Ret data /\
    v4_parse data = Ret (Some v4) /\ v4_payload data = Ret pay /\ v4_next_header v4 = PROTO_TCP /\
    v4_ip v4 = ip /\ tcp_parse pay = Ret (Some r).

(** A frame's effect on the sockets: none, or its segment is processed by the
    first socket that accepts it. *)
Variant fed (cx : context) (frame : list Z) (ss : socket_set) : context -> socket_set -> Prop :=
| fed_none : fed cx frame ss cx ss
| fed_one before s after ip r q s' cx' :
    carries frame ip r -> ss = before ++ Some s :: after ->
    Forall (fun o => match o with Some s0 => accepts s0 ip r = false | None => True end) before ->
    accepts s ip r = true -> process cx ip r s = Ret (q, s', cx') ->
    fed cx frame ss cx' (before ++ Some s' :: after).

(** What the card transmits with, and what it receives with. *)
Definition same_tx (w w' : nic) : Prop :=
  nic_allocs w' = nic_allocs w /\ nic_tx w' = nic_tx w /\ sent w' = sent w /\
  TX_ALLOC_FAIL w' = TX_ALLOC_FAIL w /\ TX_BURST_FAIL w' = TX_BURST_FAIL w.
Definition same_rx (w w' : nic) : Prop := nic_rx w' = nic_rx w /\ MISROUTED_DROPS w' = MISROUTED_DROPS w.

(** The answer to a frame, sent in the context the frame has left. *)
Definition answered (cx : context) (q : option eth_packet) (n n' : net) : Prop :=
  match q with Some q => dispatch_eth cx q n = Ret n' | None => n' = n end.

(** Of the frames the card hands over, those of foreign ports are dropped; the
    synthetic frame comes first. *)
Definition frame_bytes (fr : frame) : list Z := let '(_, data, n) := fr in ztake n data.
Definition handed (dev : dpdk_device) (consumed : list frame) : list (list Z) :=
  match pending_synth dev with Some b => [b] | None => [] end ++
  map frame_bytes (filter (fun fr => Device.accepts (owned_ports dev) fr = true) consumed).

(** The prefetch buffer is empty, and the driver has answered a burst without a
    good frame, or has nothing more. *)
Definition dried (w : nic) (dev' : dpdk_device) (w' : nic) : Prop :=
  buffered dev' = [] /\
  (nic_rx w' = [] \/ exists before burst, nic_rx w = before ++ burst :: nic_rx w' /\ good_frames burst = []).

Section Poll.
Context (oldest : gmap ip_address neighbor -> option ip_address).

(** These frames, in this order, each in the context and the state that the one
    before has left; in between the card only receives. *)
Inductive ingested : context -> net -> socket_set -> list (list Z) -> context -> net -> socket_set -> Prop :=
| ingested_nil cx n ss w : same_tx (nt_nic n) w -> ingested cx n ss [] cx (with_nic w n) ss
| ingested_cons cx n ss w frame q cx1 n1 ss1 n2 frames cx' n' ss' :
    same_tx (nt_nic n) w ->
    process_ethernet oldest cx frame (with_nic w n) ss = Ret (q, cx1, n1, ss1) -> nt_nic n1 = w ->
    fed cx frame ss cx1 ss1 -> answered cx1 q n1 n2 ->
    ingested cx1 n2 ss1 frames cx' n' ss' ->
    ingested cx n ss (frame :: frames) cx' n' ss'.

Definition is_ok {A E} (r : result A E) : bool := match r with Ok _ => true | Err _ => false end.

(** One socket's turn: it is silenced by a neighbor that does not answer, or it
    has nothing to send, or the segment it builds is dispatched, once, and the
    socket and its neighbor state learn the outcome. *)
Variant turn (cx : context) (st : neighbor_state) (s : socket) (n : net) : bool -> neighbor_state -> socket -> net -> Prop :=
| turn_silenced st' :
    egress_permitted (cx_now cx) (has_neighbor cx n) st = Ret (false, st') -> turn cx st s n false st' s n
| turn_idle st' s' :
    egress_permitted (cx_now cx) (has_neighbor cx n) st = Ret (true, st') ->
    (forall emit : packet -> result unit dispatch_error, dispatch emit cx s = Ret (None, Ok (), s')) ->
    turn cx st s n false st' s' n
| turn_dispatched st' p r n' s' :
    egress_permitted (cx_now cx) (has_neighbor cx n) st = Ret (true, st') ->
    dispatch_ip cx (tcp_packet p) n = Ret (r, n') -> dispatch (fun _ => r) cx s = Ret (Some p, r, s') ->
    turn cx st s n (is_ok r) (if is_ok r then st' else neighbor_missing (cx_now cx) (ip_dst (fst p))) s' n'.

(** A turn for every socket, from the front; whether each has sent. *)
Inductive round (cx : context) : list neighbor_state -> socket_set -> net -> list bool -> list neighbor_state -> socket_set -> net -> Prop :=
| round_nil metas n : round cx metas [] n [] [] [] n
| round_free metas ss n bs metas' ss' n' :
    round cx (tail metas) ss n bs metas' ss' n' ->
    round cx metas (None :: ss) n bs (hd Active metas :: metas') (None :: ss') n'
| round_turn metas s ss n b st s1 n1 bs metas' ss' n' :
    turn cx (hd Active metas) s n b st s1 n1 -> round cx (tail metas) ss n1 bs metas' ss' n' ->
    round cx metas (Some s :: ss) n (b :: bs) (st :: metas') (Some s1 :: ss') n'.

(** Rounds until none of the sockets sends. *)
Inductive rounds (cx : context) : net -> socket_set -> net -> socket_set -> Prop :=
| rounds_last n ss bs metas ss' n' :
    round cx (nt_meta n) ss n bs metas ss' n' -> true ∉ bs -> rounds cx n ss (with_meta metas n') ss'
| rounds_more n ss bs metas ss1 n1 ss' n' :
    round cx (nt_meta n) ss n bs metas ss1 n1 -> true ∈ bs ->
    rounds cx (with_meta metas n1) ss1 n' ss' -> rounds cx n ss n' ss'.

(** ** Transmitting leaves the received frames alone *)

Lemma same_rx_trans w1 w2 w3 : same_rx w1 w2 -> same_rx w2 w3 -> same_rx w1 w3.
Proof using Type. intros [E1 E2] [E3 E4]; split; congruence. Qed.

Lemma transmit_rx k emit w w' : transmit k emit w = Ret w' -> same_rx w w'.
Proof using Type.
  unfold transmit, tx_consume; destruct (shim_mbuf_alloc_tx w) as [a w1] eqn:Ea.
  assert (Ew : same_rx w w1).
  { unfold shim_mbuf_alloc_tx in Ea; destruct (nic_allocs w); by injection Ea as <- <-. }
  destruct Ew as [E1 E2]; unfold same_rx; rewrite <-E1, <-E2; clear Ea E1 E2 w; rename w1 into w.
  assert (Hnone : forall m : outcome (list Z),
    (let! (r, w2) := (let! sl := m in Ret (fst (match emit sl with Ret sl => (Ret tt, sl) | Panic => (Panic, sl) end),
       {| nic_rx := nic_rx w; nic_allocs := nic_allocs w; nic_tx := nic_tx w; freed := freed w; sent := sent w;
          MISROUTED_DROPS := MISROUTED_DROPS w; TX_ALLOC_FAIL := u64 (TX_ALLOC_FAIL w + 1);
          TX_BURST_FAIL := TX_BURST_FAIL w |})) in let! _ := r in Ret w2) = Ret w' -> nic_rx w' = nic_rx w /\ MISROUTED_DROPS w' = MISROUTED_DROPS w).
  { intros [sl|]; cbn [obind]; [|done]; destruct (emit sl); cbn; [|done]; by intros [= <-]. }
  destruct (al_data a) as [data|], (al_handle a) as [h|]; [|apply Hnone..].
  destruct (from_raw_parts _ _) as [sl|]; cbn [obind]; [|done].
  destruct (match emit sl with Ret _ => _ | Panic => _ end) as [r sl'].
  destruct (copy_from_slice _ _ _ _) as [data'|]; cbn [obind]; [|done]; unfold shim_mbuf_tx.
  destruct (match nic_tx w with [] => _ | _ => _ end) as [rc rest].
  destruct (rc =? 0); cbn; destruct r; cbn [obind]; try done; by intros [= <-].
Qed.

Lemma dispatch_arp_rx dst r n n' : dispatch_arp dst r n = Ret n' -> same_rx (nt_nic n) (nt_nic n').
Proof using Type.
  unfold dispatch_arp, dispatch_ethernet; destruct (transmit _ _ _) eqn:Et; cbn [obind]; [|done].
  intros [= <-]; by eapply transmit_rx.
Qed.

Lemma lookup_hardware_rx cx d n r n' : lookup_hardware_addr cx d n = Ret (r, n') -> same_rx (nt_nic n) (nt_nic n').
Proof using Type.
  unfold lookup_hardware_addr; destruct (is_broadcast_v4 cx d); [by intros [= <- <-]|].
  destruct (ip_is_multicast d); [destruct (index d 1), (index d 2), (index d 3); cbn [obind]; try done; by intros [= <- <-]|].
  destruct (route_to cx n d) as [[hop|]|]; cbn [obind]; [|by intros [= <- <-]|done].
  destruct (cache_lookup hop _ _) as [[a| |]|]; cbn [obind]; try done; try (by intros [= <- <-]).
  destruct (get_source_address cx hop); [|by intros [= <- <-]].
  destruct (dispatch_arp _ _ n) as [n1|] eqn:E; cbn [obind]; [|done]; intros [= <- <-].
  by apply dispatch_arp_rx in E.
Qed.

Lemma dispatch_ip_rx cx p n r n' : dispatch_ip cx p n = Ret (r, n') -> same_rx (nt_nic n) (nt_nic n').
Proof using Type.
  unfold dispatch_ip; destruct (negb _); [|done].
  destruct (lookup_hardware_addr _ _ n) as [[[dst|e] n1]|] eqn:El; cbn [obind]; [| |done]; apply lookup_hardware_rx in El.
  - destruct (_ <? _); [by intros [= <- <-]|]; destruct (transmit _ _ _) eqn:Et; cbn [obind]; [|done]; intros [= <- <-].
    apply transmit_rx in Et; by eapply same_rx_trans.
  - by intros [= <- <-].
Qed.

Lemma answered_rx cx q n n' : answered cx q n n' -> same_rx (nt_nic n) (nt_nic n').
Proof using Type.
  destruct q as [[r|p]|]; cbn [answered dispatch_eth]; [by apply dispatch_arp_rx| |by intros ->].
  destruct (dispatch_ip cx p n) as [[r n1]|] eqn:E; cbn [obind]; [|done]; intros [= <-]; by eapply dispatch_ip_rx.
Qed.

(** ** A frame *)

Lemma deliver_feeds cx frame ip r ss p cx' ss' :
  carries frame ip r -> deliver cx ip r ss = Ret (Some (p, cx', ss')) -> fed cx frame ss cx' ss'.
Proof using Type.
  intros Hc Hd; assert (H : exists before s after q s', ss = before ++ Some s :: after /\ ss' = before ++ Some s' :: after /\
    Forall (fun o => match o with Some s0 => accepts s0 ip r = false | None => True end) before /\
    accepts s ip r = true /\ process cx ip r s = Ret (q, s', cx')).
  2:{ destruct H as (before & s & after & q & s' & -> & -> & Hb & Ha & Hp); by econstructor. }
  clear Hc; revert p cx' ss' Hd; induction ss as [|slot ss IH]; intros p cx' ss'; cbn [deliver]; [done|].
  assert (Hskip : match slot with Some s0 => accepts s0 ip r = false | None => True end ->
    (let! o := deliver cx ip r ss in Ret (option_map (fun '(p, cx, ss) => (p, cx, slot :: ss)) o)) = Ret (Some (p, cx', ss')) ->
    exists before s after q s', slot :: ss = before ++ Some s :: after /\ ss' = before ++ Some s' :: after /\
      Forall (fun o => match o with Some s0 => accepts s0 ip r = false | None => True end) before /\
      accepts s ip r = true /\ process cx ip r s = Ret (q, s', cx')).
  { intros Hs; destruct (deliver cx ip r ss) as [[[[p1 cx1] ss1]|]|]; cbn [obind option_map]; try done; intros [= <- <- <-].
    destruct (IH _ _ _ eq_refl) as (before & s & after & q & s' & -> & -> & Hb & Ha & Hp).
    exists (slot :: before), s, after, q, s'; by split_and!; [..|constructor| |]. }
  destruct slot as [s|]; [|by apply Hskip]; destruct (accepts s ip r) eqn:Ea; [|by apply Hskip].
  destruct (process cx ip r s) as [[[p1 s1] cx1]|] eqn:Ep; cbn [obind]; [|done]; intros [= <- <- <-].
  exists [], s, ss, p1, s1; by split_and!; [..|constructor| |].
Qed.

Lemma process_ipv4_feeds cx frame src data n ss q cx' n' ss' :
  eth_ethertype frame = Ret ETHERTYPE_IPV4 -> eth_payload frame = Ret data ->
  process_ipv4 cx src data n ss = Ret (q, cx', n', ss') -> nt_nic n' = nt_nic n /\ fed cx frame ss cx' ss'.
Proof using Type.
  intros Hty Hpl; pose proof (fed_none cx frame ss) as Hn; unfold process_ipv4.
  destruct (v4_parse data) as [[v4|]|] eqn:Ev; cbn [obind]; [|by intros [= _ <- <- <-]|done].
  destruct (_ && _); [by intros [= _ <- <- <-]|]; destruct (v4_payload data) as [pay|] eqn:Ep; cbn [obind]; [|done].
  destruct (if (_ : bool) then udp_check_len pay else Ret true) as [[|]|]; cbn [obind negb]; [|by intros [= _ <- <- <-]|done].
  destruct (_ && _).
  { destruct (negb _); [by intros [= _ <- <- <-]|]; destruct (routes_lookup _ _ _); cbn [obind]; [|done]; by intros [= _ <- <- <-]. }
  assert (Hr : nt_nic (renew_neighbor cx v4 src n) = nt_nic n) by (unfold renew_neighbor; by destruct (is_unicast_v4 _ _)).
  destruct (_ =? _); [destruct (process_icmpv4 pay); cbn [obind]; [|done]; by intros [= _ <- <- <-]|].
  destruct (Z.eqb_spec (v4_next_header v4) PROTO_TCP) as [Et|]; [|destruct (slice pay 0 _); cbn [obind]; [|done]; by intros [= _ <- <- <-]].
  destruct (process_tcp _ _ _ _) as [[[q1 cx1] ss1]|] eqn:Epr; cbn [obind]; [|done]; intros [= _ <- <- <-]; split; [done|].
  revert Epr; unfold process_tcp; destruct (_ || _); [by intros [= _ <- <-]|].
  destruct (tcp_check_len pay) as [[|]|]; cbn [obind negb]; [|by intros [= _ <- <-]|done].
  destruct (tcp_parse pay) as [[r|]|] eqn:Epa; cbn [obind]; [|by intros [= _ <- <-]|done].
  destruct (deliver cx _ r ss) as [[[[p1 cx2] ss2]|]|] eqn:Ed; cbn [obind]; [| |done].
  - intros [= _ <- <-]; eapply deliver_feeds; [|exact Ed]; by exists data, v4, pay.
  - destruct (_ || _); [by intros [= _ <- <-]|]; destruct (rst_reply _ r); cbn [obind]; [|done]; by intros [= _ <- <-].
Qed.

Lemma process_arp_nic cx data n r n' : process_arp oldest cx data n = Ret (r, n') -> nt_nic n' = nt_nic n.
Proof using Type.
  unfold process_arp; destruct (arp_check_len data) as [[|]|]; cbn [obind negb]; [|by intros [= _ <-]|done].
  destruct (arp_parse data) as [[a|]|]; cbn [obind]; [|by intros [= _ <-]|done].
  do 4 (match goal with |- (if ?b then _ else _) = _ -> _ => destruct b; [by intros [= _ <-]|] end).
  destruct (fill _ _ _ _ _); cbn [obind]; [|done]; destruct (_ =? _); by intros [= _ <-].
Qed.

Lemma process_ethernet_feeds cx frame n ss q cx' n' ss' :
  process_ethernet oldest cx frame n ss = Ret (q, cx', n', ss') -> nt_nic n' = nt_nic n /\ fed cx frame ss cx' ss'.
Proof using Type.
  pose proof (fed_none cx frame ss) as Hn; unfold process_ethernet, ethernet_frame; destruct (negb _); [by intros [= _ <- <- <-]|].
  destruct (eth_dst_addr frame); cbn [obind]; [|done]; destruct (_ && _); [by intros [= _ <- <- <-]|].
  destruct (eth_ethertype frame) as [ty|] eqn:Ety; cbn [obind]; [|done]; destruct (ty =? ETHERTYPE_ARP).
  { destruct (eth_payload frame); cbn [obind]; [|done]; destruct (process_arp _ _ _ _) as [[]|] eqn:Ea; cbn [obind]; [|done].
    intros [= _ <- <- <-]; split; [by eapply process_arp_nic|done]. }
  destruct (Z.eqb_spec ty ETHERTYPE_IPV4) as [->|]; [|by intros [= _ <- <- <-]].
  destruct (eth_payload frame) as [data|] eqn:Epl; cbn [obind]; [|done].
  destruct (v4_check_len data) as [[|]|]; cbn [obind negb]; [|by intros [= _ <- <- <-]|done].
  destruct (eth_src_addr frame) as [src|]; cbn [obind]; [|done].
  destruct (process_ipv4 _ _ _ _ _) as [[[[q1 cx1] n1] ss1]|] eqn:Ei; cbn [obind]; [|done]; intros [= _ <- <- <-].
  by eapply process_ipv4_feeds.
Qed.

(** ** The card *)

Lemma rx_filter_card o data k w b w' : rx_filter o data k w = Ret (b, w') -> w' = w \/ w' = misrouted w.
Proof using Type.
  unfold rx_filter; destruct (_ <? _); [intros [= _ <-]; by left|]; destruct (from_raw_parts _ _) as [l|]; cbn [obind]; [|done].
  destruct (index l 12), (index l 13); cbn [obind]; try done; destruct (negb _); [intros [= _ <-]; by left|].
  destruct (index l 14), (index l 23); cbn [obind]; try done; destruct (_ || _); [intros [= _ <-]; by left|].
  destruct (index l _), (index l _); cbn [obind]; try done.
  destruct (match o with None => _ | Some _ => _ end) as [[|]|]; cbn [obind]; [|by intros [= _ <-]; right|done]; intros [= _ <-]; by left.
Qed.

Lemma same_tx_trans w1 w2 w3 : same_tx w1 w2 -> same_tx w2 w3 -> same_tx w1 w3.
Proof using Type. intros (?&?&?&?&?) (?&?&?&?&?); split_and!; congruence. Qed.

Lemma receive_loop_tx fuel d w tok d' w' : receive_loop fuel d w = Some (Ret (tok, d', w')) -> same_tx w w'.
Proof using Type.
  revert d w; induction fuel as [|fuel IH]; intros d w; cbn [receive_loop]; [done|].
  set (x := if rx_pref_pos d =? rx_pref_len d then _ else _); assert (Hx : same_tx w (snd x)).
  { subst x; destruct (_ =? _); [|done]; unfold shim_mbuf_rx_burst_n; destruct (nic_rx w); [done|]; by destruct (_ =? 0). }
  clearbody x; destruct x as [[got d1] w1]; cbn [snd] in Hx; destruct got; cbn [negb]; [|by intros [= _ _ <-]].
  destruct (index _ _) as [h|]; cbn [obind]; [|done]; destruct (index _ _) as [data|]; cbn [obind]; [|done].
  destruct (index _ _) as [k|]; cbn [obind]; [|done].
  destruct (rx_filter _ _ _ _) as [[ok w2]|] eqn:Ef; cbn [obind]; [|done].
  assert (same_tx w w2) by (eapply same_tx_trans; [exact Hx|]; by apply rx_filter_card in Ef as [->| ->]).
  destruct ok; [by intros [= _ _ <-]|]; intros Hr%IH; by eapply same_tx_trans; [|exact Hr].
Qed.

Lemma receive_loop_more fuel k d w x : receive_loop fuel d w = Some x -> receive_loop (fuel + k) d w = Some x.
Proof using Type.
  revert d w; induction fuel as [|fuel IH]; intros d w; cbn [receive_loop Nat.add]; [done|].
  set (y := if rx_pref_pos d =? rx_pref_len d then _ else _); clearbody y; destruct y as [[got d1] w1].
  destruct (negb got); [done|]; destruct (let! handle := _ in _) as [[[[[h data] i] ok] w2]|]; [|done].
  destruct ok; [done|apply IH].
Qed.

(** A receive that answers keeps its promise. *)
Lemma receive_loop_post fuel d w tok d' w' :
  device_inv d -> nic_ok w -> receive_loop fuel d w = Some (Ret (tok, d', w')) ->
  (exists dropped, receive_post d w dropped tok d' w') /\ (forall b, tok <> Some (Synth b)) /\ pending_synth d' = pending_synth d.
Proof using Type.
  intros Hd Hw H; destruct (receive_loop_kept _ _ _ _ _ _ Hd Hw H) as [_ Hk].
  apply (receive_loop_more _ (S (length (pending d w)))) in H.
  destruct (receive_loop_spec (fuel + S (length (pending d w))) d w Hd Hw) as (dr & tok1 & d1 & w1 & E & Hp & Hn); [lia|].
  rewrite E in H; injection H as <- <- <-; split_and!; [by exists dr|done|done].
Qed.

Lemma receive_loop_rest fuel d w tok d' w' :
  receive_loop fuel d w = Some (Ret (tok, d', w')) -> exists before, nic_rx w = before ++ nic_rx w'.
Proof using Type.
  revert d w; induction fuel as [|fuel IH]; intros d w; cbn [receive_loop]; [done|].
  set (x := if rx_pref_pos d =? rx_pref_len d then _ else _); assert (Hx : exists before, nic_rx w = before ++ nic_rx (snd x)).
  { subst x; destruct (_ =? _); [|by exists []]; unfold shim_mbuf_rx_burst_n; destruct (nic_rx w) as [|b l] eqn:E; [by exists []; cbn; rewrite ?E|].
    exists [b]; by destruct (_ =? 0). }
  clearbody x; destruct x as [[got d1] w1]; cbn [snd] in Hx; destruct got; cbn [negb]; [|by intros [= _ _ <-]].
  destruct (index _ _) as [h|]; cbn [obind]; [|done]; destruct (index _ _) as [data|]; cbn [obind]; [|done].
  destruct (index _ _) as [k|]; cbn [obind]; [|done].
  destruct (rx_filter _ _ _ _) as [[ok w2]|] eqn:Ef; cbn [obind]; [|done].
  assert (E2 : nic_rx w2 = nic_rx w1) by (by apply rx_filter_card in Ef as [->| ->]).
  destruct ok; [intros [= _ _ <-]; by rewrite E2|]; intros (before & Hr)%IH.
  change (nic_rx (shim_mbuf_free w2 h)) with (nic_rx w2) in Hr; rewrite E2 in Hr.
  destruct Hx as [b1 E1]; exists (b1 ++ before); by rewrite E1, Hr, app_assoc.
Qed.

(** ** Receiving *)

(** What a receive hands out. *)
Lemma receive_hands fuel dev w tok dev1 w1 :
  device_inv dev -> nic_ok w -> receive fuel dev w = Some (Ret (tok, dev1, w1)) ->
  exists consumed, pending dev w = consumed ++ pending dev1 w1 /\
    (device_inv dev1 /\ nic_ok w1 /\ pending_synth dev1 = None /\ owned_ports dev1 = owned_ports dev) /\
    same_tx w w1 /\ (exists before, nic_rx w = before ++ nic_rx w1) /\
    match tok with
    | Some t => forall bytes w2, rx_consume (fun b => b) t w1 = Ret (bytes, w2) ->
        handed dev consumed = [bytes] /\ same_tx w1 w2 /\ same_rx w1 w2
    | None => handed dev consumed = [] /\ dried w dev1 w1
    end.
Proof using Type.
  intros Hd Hw; unfold receive, handed; destruct (pending_synth dev) as [buf|] eqn:Es.
  { intros [= <- <- <-]; exists []; split_and!; try done; [by exists []|]; by intros bytes w2 [= <- <-]. }
  intros H; destruct (receive_loop_post _ _ _ _ _ _ Hd Hw H) as ((dr & Hp) & Hn & Hk).
  pose proof (receive_loop_tx _ _ _ _ _ _ H) as Htx; pose proof (receive_loop_rest _ _ _ _ _ _ H) as Hrest.
  destruct Hp as (P1 & _ & _ & P4 & P5 & P6 & P7 & P8 & P9).
  exists (dr ++ token_frames tok); rewrite <-app_assoc; split_and!; try done; [congruence|].
  assert (Hdr : filter (fun fr => Device.accepts (owned_ports dev) fr = true) dr = []).
  { clear -P4; induction P4 as [|fr dr E _ IH]; [done|]; rewrite filter_cons_False by congruence; exact IH. }
  rewrite list.filter_app, Hdr; cbn [app].
  destruct tok as [[h data k|buf]|]; [|by destruct (Hn buf)|by split; [|apply P9]].
  cbn [token_frames] in *; apply Forall_inv in P5; rewrite filter_cons_True by done; cbn [filter list_filter map].
  intros bytes w2; cbn [rx_consume]; unfold from_raw_parts; destruct (slice data 0 k) as [l|] eqn:El; cbn [obind]; [|done].
  intros [= <- <-]; apply slice_ret_inv in El as (_ & _ & ->); split; [|by split]; by rewrite Z.sub_0_r.
Qed.

(** What becomes of the frame. *)
Lemma frame_ingested frame cx (dev : dpdk_device) n w ss b cx' dev' n' ss' :
  same_tx (nt_nic n) w ->
  (if len frame =? 0 then Ret (Some (true, cx, dev, with_nic w n, ss))
   else let! (p, cx, n, ss) := process_ethernet oldest cx frame (with_nic w n) ss in
        match p with
        | None => Ret (Some (true, cx, dev, n, ss))
        | Some p => let! n := dispatch_eth cx p n in Ret (Some (true, cx, dev, n, ss))
        end) = Ret (Some (b, cx', dev', n', ss')) ->
  b = true /\ dev' = dev /\ same_rx w (nt_nic n') /\
  forall frames cx2 n2 ss2, ingested cx' n' ss' frames cx2 n2 ss2 -> ingested cx n ss (frame :: frames) cx2 n2 ss2.
Proof using Type.
  intros Htx; assert (Hone : forall q cx1 n1 ss1 n2, process_ethernet oldest cx frame (with_nic w n) ss = Ret (q, cx1, n1, ss1) ->
    answered cx1 q n1 n2 -> same_rx w (nt_nic n2) /\
    forall frames cx3 n3 ss3, ingested cx1 n2 ss1 frames cx3 n3 ss3 -> ingested cx n ss (frame :: frames) cx3 n3 ss3).
  { intros q cx1 n1 ss1 n2 Hp Ha; destruct (process_ethernet_feeds _ _ _ _ _ _ _ _ Hp) as [Hn Hf].
    change (nt_nic (with_nic w n)) with w in Hn; split; [rewrite <-Hn; by eapply answered_rx|].
    intros; by eapply ingested_cons. }
  destruct (Z.eqb_spec (len frame) 0) as [Hl|_].
  { apply len_zero_nil in Hl; intros [= <- <- <- <- <-]; do 2 (split; [done|]); eapply (Hone None); by subst. }
  destruct (process_ethernet _ _ _ _ _) as [[[[q cx1] n1] ss1]|] eqn:Ep; cbn [obind]; [|done].
  destruct q as [q|]; [|intros [= <- <- <- <- <-]; do 2 (split; [done|]); by eapply (Hone None)].
  destruct (dispatch_eth cx1 q n1) as [n2|] eqn:Ed; cbn [obind]; [|done]; intros [= <- <- <- <- <-].
  do 2 (split; [done|]); by eapply (Hone (Some q)).
Qed.

Lemma ingest_step fuel cx dev n ss b cx' dev' n' ss' :
  socket_ingress oldest fuel cx dev n ss = Ret (Some (b, cx', dev', n', ss')) ->
  device_inv dev -> nic_ok (nt_nic n) ->
  exists consumed, pending dev (nt_nic n) = consumed ++ pending dev' (nt_nic n') /\
    (device_inv dev' /\ nic_ok (nt_nic n') /\ pending_synth dev' = None /\ owned_ports dev' = owned_ports dev) /\
    (exists before, nic_rx (nt_nic n) = before ++ nic_rx (nt_nic n')) /\
    if b then exists frame, handed dev consumed = [frame] /\
      forall frames cx2 n2 ss2, ingested cx' n' ss' frames cx2 n2 ss2 -> ingested cx n ss (frame :: frames) cx2 n2 ss2
    else handed dev consumed = [] /\ dried (nt_nic n) dev' (nt_nic n') /\ ingested cx n ss [] cx' n' ss'.
Proof using Type.
  unfold socket_ingress, frame_ingress; fold (process_ethernet oldest); intros H Hd Hw.
  destruct (receive fuel dev (nt_nic n)) as [[[[tok dev1] w1]|]|] eqn:Er; cbn [obind] in H; try done.
  destruct (receive_hands _ _ _ _ _ _ Hd Hw Er) as (consumed & E & Hinv & Htx & Hrest & Htok); exists consumed.
  destruct tok as [tok|]; [|injection H as <- <- <- <- <-; destruct Htok; split_and!; try apply Hinv; try done; by constructor].
  destruct (rx_consume _ tok w1) as [[frame w2]|] eqn:Ec; cbn [obind] in H; [|done].
  destruct (Htok _ _ eq_refl) as (Hh & Htx2 & [Erx Emr]); apply frame_ingested in H as (-> & -> & [Erx' Emr'] & Hext); [|by eapply same_tx_trans].
  destruct Hinv as (Hd1 & [Hm Hf] & Hinv); split_and!; try apply Hinv; try done.
  - rewrite E; unfold pending; by rewrite Erx', Erx.
  - split; [by rewrite Emr', Emr|by rewrite Erx', Erx].
  - by rewrite Erx', Erx.
  - by exists frame.
Qed.

Lemma ingress_ingests k fuel cx dev n ss cx' dev' n' ss' :
  ingress_loop oldest k fuel cx dev n ss = Ret (Some (cx', dev', n', ss')) -> device_inv dev -> nic_ok (nt_nic n) ->
  exists consumed, pending dev (nt_nic n) = consumed ++ pending dev' (nt_nic n') /\
    ingested cx n ss (handed dev consumed) cx' n' ss' /\ dried (nt_nic n) dev' (nt_nic n').
Proof using Type.
  revert cx dev n ss; induction k as [|k IH]; intros cx dev n ss; unfold ingress_loop; cbn [frame_loop];
    fold (socket_ingress oldest); fold (ingress_loop oldest); [done|].
  destruct (socket_ingress _ _ _ _ _ _) as [[[[[[b cx1] dev1] n1] ss1]|]|] eqn:Ei; cbn [obind]; try done; intros H Hd Hw.
  destruct (ingest_step _ _ _ _ _ _ _ _ _ _ Ei Hd Hw) as (consumed & E & (Hd1 & Hw1 & Hs1 & Ho1) & [bs Hbs] & Hb); destruct b.
  - destruct Hb as (frame & Hh & Hext); destruct (IH _ _ _ _ H Hd1 Hw1) as (consumed' & E' & Hi & Hbuf & Hdry).
    exists (consumed ++ consumed'); split; [by rewrite E, E', app_assoc|]; split.
    + unfold handed in *; rewrite list.filter_app, map_app, app_assoc, Hh; apply Hext; by rewrite Hs1, Ho1 in Hi.
    + split; [done|]; destruct Hdry as [?|(before & burst & Hdry & ?)]; [by left|right].
      exists (bs ++ before), burst; by rewrite Hbs, Hdry, <-app_assoc.
  - injection H as <- <- <- <-; destruct Hb as (Hh & Hdry & Hi); exists consumed; by rewrite Hh.
Qed.

(** ** The sockets' turns *)

(** [dispatch] asks about the segment it builds only, and once. *)
Lemma dispatch_asks emit cx s p r s' :
  dispatch (E := dispatch_error) emit cx s = Ret (p, r, s') ->
  match p with
  | Some p => r = emit p /\ dispatch (fun _ => r) cx s = Ret (Some p, r, s')
  | None => forall emit' : packet -> result unit dispatch_error, dispatch emit' cx s = Ret (None, Ok (), s')
  end.
Proof using Type.
  unfold dispatch; destruct (sk_tuple s) as [t|]; [|by intros [= <- <- <-]].
  destruct (negb _); [by intros [= <- <- <-]|].
  destruct (fire_timers cx s) as [s1|]; cbn [obind]; [|done].
  destruct (decide_send cx s1) as [why|]; cbn [obind]; [|done].
  destruct why; try (by intros [= <- <- <-]);
    (destruct (build_repr cx s1 t) as [[[q probe]|]|]; cbn [obind]; [|by intros [= <- <- <-]|done];
     destruct (finish_repr cx s1 q) as [[q1 ka]|]; cbn [obind]; [|done];
     destruct (emit _) as [[]|e] eqn:Ee; [|by intros [= <- <- <-]];
     destruct (after_emit cx q1 probe ka s1) as [s2|]; cbn [obind]; [|done]; by intros [= <- <- <-]).
Qed.

Lemma egress_turn cx st s n b st' s' n' : egress_socket cx st s n = Ret (b, st', s', n') -> turn cx st s n b st' s' n'.
Proof using Type.
  unfold egress_socket; destruct (egress_permitted _ _ _) as [[[|] st1]|] eqn:Ep; cbn [obind negb]; [|intros [= <- <- <- <-]; by constructor|done].
  destruct (dispatch _ cx s) as [[[p r] s1]|] eqn:Ed; cbn [obind]; [|done]; apply dispatch_asks in Ed.
  destruct p as [p|]; [|intros [= <- <- <- <-]; by eapply turn_idle].
  destruct Ed as [Er Ed]; destruct (dispatch_ip _ _ _) as [[r1 n1]|] eqn:Ei; cbn [obind]; [|done]; subst r1.
  pose proof (turn_dispatched cx st s n st1 p r n1 s1 Ep Ei Ed) as Ht; destruct r; by intros [= <- <- <- <-].
Qed.

Lemma turn_rx cx st s n b st' s' n' : turn cx st s n b st' s' n' -> same_rx (nt_nic n) (nt_nic n').
Proof using Type. destruct 1; [done..|]; by eapply dispatch_ip_rx. Qed.

Lemma egress_round cx metas ss n b metas' ss' n' :
  socket_egress cx metas ss n = Ret (b, metas', ss', n') ->
  exists bs, round cx metas ss n bs metas' ss' n' /\ b = existsb id bs /\ same_rx (nt_nic n) (nt_nic n').
Proof using Type.
  revert metas n b metas' ss' n'; induction ss as [|slot ss IH]; intros metas n b metas' ss' n'; cbn [socket_egress].
  { intros [= <- <- <- <-]; exists []; split_and!; [constructor|done..]. }
  replace (match metas with st :: _ => st | [] => Active end) with (hd Active metas) by (by destruct metas).
  destruct slot as [s|]; cbn [obind].
  - destruct (egress_socket cx (hd Active metas) s n) as [[[[b1 st] s1] n1]|] eqn:E; cbn [obind]; [|done]; apply egress_turn in E.
    destruct (socket_egress cx (tail metas) ss n1) as [[[[b2 ms] ss2] n2]|] eqn:E2; cbn [obind]; [|done]; intros [= <- <- <- <-].
    destruct (IH _ _ _ _ _ _ E2) as (bs & Hr & -> & Hx); exists (b1 :: bs); split_and!; [by econstructor|done|].
    eapply same_rx_trans; [by eapply turn_rx|done].
  - destruct (socket_egress cx (tail metas) ss n) as [[[[b2 ms] ss2] n2]|] eqn:E2; cbn [obind]; [|done]; intros [= <- <- <- <-].
    destruct (IH _ _ _ _ _ _ E2) as (bs & Hr & -> & Hx); exists bs; split_and!; [by constructor|done..].
Qed.

Lemma egress_rounds k cx n ss n' ss' :
  egress_loop k cx n ss = Ret (Some (n', ss')) -> rounds cx n ss n' ss' /\ same_rx (nt_nic n) (nt_nic n').
Proof using Type.
  revert n ss; induction k as [|k IH]; intros n ss; cbn [egress_loop]; [done|].
  destruct (socket_egress _ _ _ _) as [[[[b metas] ss1] n1]|] eqn:E; cbn [obind]; [|done].
  destruct (egress_round _ _ _ _ _ _ _ _ E) as (bs & Hr & -> & Hx); destruct (existsb id bs) eqn:Eb.
  - apply existsb_exists in Eb as (b & Hb & E1); cbn in E1; subst b; intros [H1 H2]%IH; split; [|by eapply same_rx_trans].
    eapply rounds_more; [done| |done]; by apply list_elem_of_In.
  - intros [= <- <-]; split; [|done]; eapply rounds_last; [done|]; intros Hin%list_elem_of_In.
    assert (existsb id bs = true) by (apply existsb_exists; by exists true); congruence.
Qed.

(** ** Claim *)

(** C14: a poll of smoltcp's interface does neither more nor less than its clients
    are promised, for a device with well-formed prefetch arrays and a driver
    whose bursts keep its contract.  The frames waiting on the card - prefetched
    or still with the driver - are split into those this poll consumes and
    those still waiting afterwards; the poll stops receiving when nothing is
    prefetched and the driver has answered no good frame.  Of the consumed
    frames, those steered to the wrong queue are dropped; the synthetic frame if
    there is one, then the others, are processed in their order, each exactly
    once, in the context the frame before has left - the first in the context of
    the poll, at its time - and each is answered at once.  A frame changes at
    most one socket: the first that accepts its segment processes it.  Then, in
    the same context, the sockets have their turns, from the front, in rounds
    that stop when none has sent: each segment a socket builds is dispatched
    once, and it learns the outcome.  In particular a socket has only seen
    segments it accepts and its own transmissions, and the context keeps the
    poll's time and addresses. *)
Theorem poll_refines (fuel : nat) (now : instant) (cx cx' : context) (dev dev' : dpdk_device) (n n' : net)
    (ss ss' : socket_set) :
  device_inv dev -> nic_ok (nt_nic n) ->
  iface_poll oldest fuel now cx dev n ss = Ret (Some (cx', dev', n', ss')) ->
  (exists consumed n1 ss1,
     pending dev (nt_nic n) = consumed ++ pending dev' (nt_nic n') /\ dried (nt_nic n) dev' (nt_nic n') /\
     ingested (with_now now cx) n ss (handed dev consumed) cx' n1 ss1 /\ rounds cx' n1 ss1 n' ss') /\
  touched ss ss' /\ alike (with_now now cx) cx'.
Proof using Type.
  intros Hd Hw H; split; [|split; [by eapply iface_poll_touches|by apply iface_poll_moves in H as [Hc _]]].
  revert H; unfold iface_poll.
  destruct (ingress_loop _ _ _ _ _ _ _) as [[[[[cx1 dev1] n1] ss1]|]|] eqn:Ei; cbn [obind]; try done.
  destruct (egress_loop _ _ _ _) as [[[n2 ss2]|]|] eqn:Ee; cbn [obind option_map]; try done; intros [= <- <- <- <-].
  destruct (ingress_ingests _ _ _ _ _ _ _ _ _ _ Ei Hd Hw) as (consumed & E & Hi & Hdry).
  apply egress_rounds in Ee as [Hr [Erx _]]; exists consumed, n1, ss1.
  unfold dried, pending in *; rewrite Erx; by split; [|split; [exact Hdry|]].
Qed.
End Poll.

(** ** Example *)

(** The device of a worker before its first poll, and a card with one segment
    for the worker's address, and one more that failed its checksum. *)
Definition ex_dev : dpdk_device :=
  {| pending_synth := Some ex_reply; owned_ports := None; rx_pref_handles := zreplicate 32 0;
     rx_pref_data := zreplicate 32 []; rx_pref_lens := zreplicate 32 0; rx_pref_pos := 0; rx_pref_len := 0 |}.

Definition ex_segment : packet :=
  ({| ip_src := [10; 0; 0; 1]; ip_dst := [10; 0; 0; 2]; ip_payload_len := 34; ip_hop_limit := 64 |}, snd ex_packet).
Definition ex_frame : list Z := tcp_frame ex_peer_mac ex_mac ex_segment.
Definition ex_busy_card : nic :=
  {| nic_rx := [[Build_mbuf 7 ex_frame (len ex_frame) false; Build_mbuf 8 ex_frame (len ex_frame) true]];
     nic_allocs := []; nic_tx := []; freed := []; sent := []; MISROUTED_DROPS := 0; TX_ALLOC_FAIL := 0; TX_BURST_FAIL := 0 |}.

Lemma ex_dev_inv : device_inv ex_dev.
Proof. split_and!; try reflexivity; try done; cbn; unfold RX_BURST; lia. Qed.

Lemma ex_busy_card_ok : nic_ok ex_busy_card.
Proof.
  split; [split; cbn; lia|]; constructor; [|constructor]; split; [done|].
  repeat constructor; try done; by apply forall_in_u8_b.
Qed.

Lemma poll_refines_witness : exists cx' dev' n' ss' consumed n1 ss1,
  iface_poll some_key 5 7 ex_ctx ex_dev (net_start ex_mac ex_busy_card ex_gw) ex_sockets = Ret (Some (cx', dev', n', ss')) /\
  pending ex_dev ex_busy_card = consumed ++ pending dev' (nt_nic n') /\ pending dev' (nt_nic n') = [] /\
  ingested some_key (with_now 7 ex_ctx) (net_start ex_mac ex_busy_card ex_gw) ex_sockets (handed ex_dev consumed) cx' n1 ss1 /\
  handed ex_dev consumed = [ex_reply; ex_frame] /\ rounds cx' n1 ss1 n' ss'.
Proof.
  destruct (iface_poll some_key 5 7 ex_ctx ex_dev (net_start ex_mac ex_busy_card ex_gw) ex_sockets)
    as [[[[[cx' dev'] n'] ss']|]|] eqn:E; [|vm_compute in E; discriminate..].
  destruct (poll_refines some_key 5 7 ex_ctx cx' ex_dev dev' (net_start ex_mac ex_busy_card ex_gw) n' ex_sockets ss'
    ex_dev_inv ex_busy_card_ok E) as ((consumed & n1 & ss1 & E1 & _ & Hi & Hr) & _).
  assert (E2 : pending dev' (nt_nic n') = []).
  { destruct n' as [h r c m w]; vm_compute in E; injection E as _ <- _ _ _ _ <- _; reflexivity. }
  exists cx', dev', n', ss', consumed, n1, ss1; split; [reflexivity|]; split; [exact E1|]; split; [exact E2|]; split; [exact Hi|].
  split; [|exact Hr]; change (nt_nic (net_start ex_mac ex_busy_card ex_gw)) with ex_busy_card in E1.
  rewrite E2, app_nil_r in E1; subst consumed; reflexivity.
Defined.
