(* ===== verification/NetHostile.v ===== *)
(** Frames of an attacker: whatever bytes the card delivers, an interface whose
    sockets are closed or in an open connection gets through them, and its
    sockets stay sound. *)

From Stdlib Require Import ZArith Lia ZifyBool.
From stdpp Require Import base list gmap fin_maps numbers.
From S2P Require Import Prelude Rss Device Time TcpWire Iface TcpState TcpSocket TcpProcess TcpDispatch Worker.
From S2P Require Import RingBuffer TcpInv TcpReceive TcpConnection TcpHandshake TcpHostile.
From S2P Require Import Frame Segment Neighbor Net FrameOk SegmentOk NetWire.

(** ** The sockets *)

Definition every_socket (P : socket -> Prop) (ss : socket_set) : Prop := forall s, Some s ∈ ss -> P s.

(** The window's right edge is not behind its left edge: the peer has not
    finished, or there is room behind its FIN. *)
Definition edge_ahead (s : socket) : Prop :=
  forall window_start window_end, receive_window s = Ret (window_start, window_end) ->
  window_end <> i32 (window_start - 1).

Definition steady (s : socket) : Prop := sturdy s /\ (state s = Closed \/ edge_ahead s).

Lemma edge_ahead_exposed s r : edge_ahead s -> exposed s r = false.
Proof.
  intros He; unfold exposed; destruct (receive_window s) as [[ws we]|] eqn:E; [|done].
  by rewrite (proj2 (Z.eqb_neq _ _) (He ws we E)).
Qed.

Lemma accepts_open s ip r : accepts s ip r = true -> state s <> Closed.
Proof. intros Ha E; unfold accepts in Ha; by rewrite E in Ha. Qed.

Lemma steady_process cx ip r s :
  steady s -> repr_ok r -> accepts s ip r = true -> exists p s', process cx ip r s = Ret (p, s', cx) /\ sturdy s'.
Proof.
  intros [Hs He] Hr Ha; pose proof (accepts_open s ip r Ha) as Hnc; destruct He as [?|He]; [done|].
  apply process_any; [done|done|done|by apply edge_ahead_exposed].
Qed.

Lemma steady_safe cx ss : every_socket steady ss -> sockets_safe cx ss.
Proof.
  intros Hs s ip r Hin Hr _ _ _ Ha; destruct (steady_process cx ip r s (Hs s Hin) Hr Ha) as (p & s' & -> & _); by eexists.
Qed.

Lemma every_cons P slot ss : every_socket P (slot :: ss) <-> (forall s, slot = Some s -> P s) /\ every_socket P ss.
Proof.
  split.
  - intros H; split; [intros s ->; apply H; by left|intros s Hs; apply H; by right].
  - intros [H1 H2] s Hs; apply elem_of_cons in Hs as [<-|Hs]; [by apply H1|by apply H2].
Qed.

Lemma every_impl (P Q : socket -> Prop) ss : (forall s, P s -> Q s) -> every_socket P ss -> every_socket Q ss.
Proof. intros H Hs s Hin; by apply H, Hs. Qed.

Lemma deliver_sturdy cx ip r ss q cx' ss' :
  every_socket steady ss -> repr_ok r -> deliver cx ip r ss = Ret (Some (q, cx', ss')) -> every_socket sturdy ss'.
Proof.
  intros Hss Hr; revert q cx' ss'; induction ss as [|slot ss IH]; intros q cx' ss'; cbn [deliver]; [done|].
  apply every_cons in Hss as [Hslot Hss]; specialize (IH Hss).
  assert (Hskip : (let! o := deliver cx ip r ss in
    Ret (option_map (fun '(p, cx, ss) => (p, cx, slot :: ss)) o)) = Ret (Some (q, cx', ss')) -> every_socket sturdy ss').
  { destruct (deliver cx ip r ss) as [[[[q1 cx1] ss1]|]|]; cbn [obind option_map]; try done; intros [= <- <- <-].
    apply every_cons; split; [intros s E; by apply Hslot|by eapply IH]. }
  destruct slot as [s|]; [|exact Hskip]; destruct (accepts s ip r) eqn:Ea; [|exact Hskip].
  destruct (steady_process cx ip r s (Hslot s eq_refl) Hr Ea) as (p & s' & -> & Hs'); cbn [obind]; intros [= <- <- <-].
  apply every_cons; split; [by intros s2 [= <-]|]; by apply (every_impl steady sturdy); [intros ? []|].
Qed.

(** ** What a frame does to them *)

Lemma process_tcp_sturdy cx ip data ss q cx' ss' :
  bytes_ok data -> len data <= 65535 -> every_socket steady ss ->
  process_tcp cx ip data ss = Ret (q, cx', ss') -> every_socket sturdy ss'.
Proof.
  intros Hb Hl Hss; assert (Hsame : every_socket sturdy ss) by (by apply (every_impl steady sturdy); [intros ? []|]).
  unfold process_tcp; destruct (_ || _); [by intros [= <- <- <-]|].
  destruct (tcp_check_len data) as [[|]|]; cbn [obind negb]; [|by intros [= <- <- <-]|done].
  destruct (tcp_parse data) as [[r|]|] eqn:Er; cbn [obind]; [|by intros [= <- <- <-]|done].
  destruct (tcp_parse_sound data r Hb Hl Er) as (Hr & _).
  destruct (deliver cx ip r ss) as [[[[q1 cx1] ss1]|]|] eqn:Ed; cbn [obind]; [| |done].
  - intros [= <- <- <-]; by eapply deliver_sturdy.
  - destruct (_ || _); [by intros [= <- <- <-]|].
    destruct (rst_reply ip r) as [p|]; cbn [obind]; [|done]; by intros [= <- <- <-].
Qed.

Lemma process_ipv4_sturdy cx src data n ss q cx' n' ss' :
  bytes_ok data -> every_socket steady ss -> process_ipv4 cx src data n ss = Ret (q, cx', n', ss') ->
  every_socket sturdy ss'.
Proof.
  intros Hb Hss; assert (Hsame : every_socket sturdy ss) by (by apply (every_impl steady sturdy); [intros ? []|]).
  unfold process_ipv4; destruct (v4_parse_spec data Hb) as (o & -> & Ho); cbn [obind].
  destruct o as [v4|]; [|by intros [= <- <- <- <-]].
  destruct (Ho v4 eq_refl) as ([_ _ Hl] & payload & -> & Hbp & Hlp); cbn [obind].
  destruct (_ && _); [by intros [= <- <- <- <-]|].
  destruct (if (_ : bool) then udp_check_len payload else Ret true) as [[|]|]; cbn [obind negb];
    [|by intros [= <- <- <- <-]|done].
  destruct (_ && _).
  { destruct (negb _); [by intros [= <- <- <- <-]|].
    destruct (routes_lookup _ _ _); cbn [obind]; [|done]; by intros [= <- <- <- <-]. }
  destruct (_ =? _).
  { destruct (process_icmpv4 payload); cbn [obind]; [|done]; by intros [= <- <- <- <-]. }
  destruct (_ =? _).
  { destruct (process_tcp _ _ _ _) as [[[p cx1] ss1]|] eqn:Et; cbn [obind]; [|done]; intros [= <- <- <- <-].
    apply process_tcp_sturdy in Et; [done|done|lia|done]. }
  destruct (slice payload 0 _); cbn [obind]; [|done]; by intros [= <- <- <- <-].
Qed.

Lemma process_ethernet_sturdy oldest cx frame n ss p cx' n' ss' :
  bytes_ok frame -> every_socket steady ss -> process_ethernet oldest cx frame n ss = Ret (p, cx', n', ss') ->
  every_socket sturdy ss'.
Proof.
  intros Hb Hss; assert (Hsame : every_socket sturdy ss) by (by apply (every_impl steady sturdy); [intros ? []|]).
  unfold process_ethernet, ethernet_frame; destruct (negb _); [by intros [= <- <- <- <-]|].
  destruct (eth_dst_addr frame) as [dst|]; cbn [obind]; [|done].
  destruct (_ && _); [by intros [= <- <- <- <-]|].
  destruct (eth_ethertype frame) as [ty|]; cbn [obind]; [|done].
  destruct (ty =? ETHERTYPE_ARP).
  { destruct (eth_payload frame) as [data|]; cbn [obind]; [|done].
    destruct (process_arp _ _ _ _) as [[r n1]|]; cbn [obind]; [|done]; by intros [= <- <- <- <-]. }
  destruct (ty =? ETHERTYPE_IPV4); [|by intros [= <- <- <- <-]].
  destruct (eth_payload frame) as [data|] eqn:Ed; cbn [obind]; [|done].
  destruct (v4_check_len data) as [[|]|]; cbn [obind negb]; [|by intros [= <- <- <- <-]|done].
  destruct (eth_src_addr frame) as [src|]; cbn [obind]; [|done].
  destruct (process_ipv4 _ _ _ _ _) as [[[[q cx1] n1] ss1]|] eqn:Ei; cbn [obind]; [|done]; intros [= <- <- <- <-].
  apply process_ipv4_sturdy in Ei; [done| |done].
  unfold eth_payload, slice_from in Ed; exact (slice_bytes _ _ _ _ Hb Ed).
Qed.

(** ** What is dropped *)

Definition destination (frame : list Z) : eth_address := ztake 6 frame.
Definition type_bytes (frame : list Z) : list Z := ztake 2 (zdrop 12 frame).

(** A frame without its 14 bytes of header; one for another host, its
    destination neither this host's, nor all ones, nor with the group bit; one
    that is neither IPv4 (08 00) nor ARP (08 06); an IPv4 packet with a header
    that is not one, or to an address the interface does not listen to. *)
Inductive not_for_us (cx : context) (n : net) (frame : list Z) : Prop :=
| no_header : len frame < 14 -> not_for_us cx n frame
| other_host b rest :
    destination frame = b :: rest -> b mod 2 = 0 -> destination frame <> [255; 255; 255; 255; 255; 255] ->
    destination frame <> nt_hardware n -> not_for_us cx n frame
| other_type : type_bytes frame <> [8; 0] -> type_bytes frame <> [8; 6] -> not_for_us cx n frame
| bad_header : type_bytes frame = [8; 0] -> v4_parse (zdrop 14 frame) = Ret None -> not_for_us cx n frame
| other_address v4 :
    type_bytes frame = [8; 0] -> v4_parse (zdrop 14 frame) = Ret (Some v4) ->
    has_ip_addr cx (ip_dst (v4_ip v4)) = false -> has_multicast_group (ip_dst (v4_ip v4)) = false ->
    is_broadcast_v4 cx (ip_dst (v4_ip v4)) = false -> not_for_us cx n frame.

Lemma type_known frame : bytes_ok frame -> 14 <= len frame ->
  exists ty, eth_ethertype frame = Ret ty /\
    (ty = ETHERTYPE_IPV4 <-> type_bytes frame = [8; 0]) /\ (ty = ETHERTYPE_ARP <-> type_bytes frame = [8; 6]).
Proof.
  intros Hb Hl; unfold eth_ethertype; rewrite read_be_ret by lia; eexists; split; [reflexivity|].
  unfold type_bytes; assert (Hl2 : len (ztake 2 (zdrop 12 frame)) = 2) by (rewrite len_ztake, len_zdrop; lia).
  assert (Hb2 : bytes_ok (ztake 2 (zdrop 12 frame))) by (unfold bytes_ok, ztake, zdrop in *; by apply Forall_take, Forall_drop).
  unfold len in Hl2; destruct (ztake 2 (zdrop 12 frame)) as [|x [|y [|]]]; cbn [length] in Hl2; try lia.
  apply Forall_cons_1 in Hb2 as [Hx Hb2]; apply Forall_cons_1 in Hb2 as [Hy _]; unfold in_u8 in *.
  unfold to_bits, ETHERTYPE_IPV4, ETHERTYPE_ARP; cbn [fold_left].
  split; (split; [intros E; f_equal; [lia|f_equal; lia]|intros [= -> ->]; lia]).
Qed.

Lemma not_for_us_ipv4 cx src data n ss v q cx' n' ss' :
  v4_parse data = Ret v ->
  (forall v4, v = Some v4 -> has_ip_addr cx (ip_dst (v4_ip v4)) = false /\
     has_multicast_group (ip_dst (v4_ip v4)) = false /\ is_broadcast_v4 cx (ip_dst (v4_ip v4)) = false) ->
  process_ipv4 cx src data n ss = Ret (q, cx', n', ss') -> q = None /\ cx' = cx /\ n' = n /\ ss' = ss.
Proof.
  intros Ev Hv; unfold process_ipv4; rewrite Ev; cbn [obind]; destruct v as [v4|]; [|by intros [= <- <- <- <-]].
  destruct (Hv v4 eq_refl) as (-> & -> & ->); cbn [negb andb].
  destruct (_ && _); [by intros [= <- <- <- <-]|].
  destruct (v4_payload data) as [payload|]; cbn [obind]; [|done].
  destruct (if (_ : bool) then _ else _) as [[|]|]; cbn [obind negb]; [|by intros [= <- <- <- <-]|done].
  destruct (negb (is_unicast _)); [by intros [= <- <- <- <-]|].
  destruct (routes_lookup _ _ _); cbn [obind]; [|done]; by intros [= <- <- <- <-].
Qed.

Lemma not_for_us_dropped oldest cx frame n ss p cx' n' ss' :
  bytes_ok frame -> not_for_us cx n frame -> process_ethernet oldest cx frame n ss = Ret (p, cx', n', ss') ->
  p = None /\ cx' = cx /\ n' = n /\ ss' = ss.
Proof.
  intros Hb Hn; unfold process_ethernet, ethernet_frame, eth_check_len, ETHERNET_HEADER_LEN.
  destruct (Z.ltb_spec (len frame) 14) as [|Hl]; cbn [negb]; [by intros [= <- <- <- <-]|].
  unfold eth_dst_addr; rewrite slice_ret by lia; cbn [obind]; rewrite Z.sub_0_r, (zdrop_0 0) by lia; fold (destination frame).
  destruct (_ && _) eqn:Ea; [by intros [= <- <- <- <-]|].
  destruct (type_known frame Hb Hl) as (ty & -> & H4 & Harp); cbn [obind].
  assert (Hp : eth_payload frame = Ret (zdrop 14 frame)).
  { unfold eth_payload, slice_from; rewrite slice_ret by lia; f_equal; apply ztake_ge; rewrite len_zdrop; lia. }
  assert (H46 : type_bytes frame = [8; 0] -> (ty =? ETHERTYPE_ARP) = false /\ (ty =? ETHERTYPE_IPV4) = true).
  { intros Et; apply H4 in Et as ->; done. }
  assert (Hv4 : forall v, v4_parse (zdrop 14 frame) = Ret v -> type_bytes frame = [8; 0] ->
    (forall v4, v = Some v4 -> has_ip_addr cx (ip_dst (v4_ip v4)) = false /\
     has_multicast_group (ip_dst (v4_ip v4)) = false /\ is_broadcast_v4 cx (ip_dst (v4_ip v4)) = false) ->
    (if ty =? ETHERTYPE_ARP then
       let! data := eth_payload frame in
       let! (r, n) := process_arp oldest cx data n in Ret (option_map EthArp r, cx, n, ss)
     else if ty =? ETHERTYPE_IPV4 then
       let! data := eth_payload frame in
       let! ok := v4_check_len data in
       if negb ok then Ret (None, cx, n, ss)
       else
         let! src := eth_src_addr frame in
         let! (p, cx, n, ss) := process_ipv4 cx src data n ss in Ret (option_map EthIp p, cx, n, ss)
     else Ret (None, cx, n, ss)) = Ret (p, cx', n', ss') -> p = None /\ cx' = cx /\ n' = n /\ ss' = ss).
  { intros v Ev Et Hv; destruct (H46 Et) as [-> ->]; rewrite Hp; cbn [obind].
    destruct (v4_check_len _) as [[|]|]; cbn [obind negb]; [|by intros [= <- <- <- <-]|done].
    destruct (eth_src_addr frame) as [src|]; cbn [obind]; [|done].
    destruct (process_ipv4 _ _ _ _ _) as [[[[q cx1] n1] ss1]|] eqn:E; cbn [obind]; [|done].
    destruct (not_for_us_ipv4 _ _ _ _ _ _ _ _ _ _ Ev Hv E) as (-> & -> & -> & ->); by intros [= <- <- <- <-]. }
  destruct Hn as [Hs|b rest Ed Hm Hbc Hh|T1 T2|Et Ev|v4 Et Ev A1 A2 A3].
  - lia.
  - exfalso; revert Ea; unfold eth_is_broadcast, eth_is_multicast.
    rewrite bool_decide_eq_false_2 by exact Hbc; rewrite bool_decide_eq_false_2 by exact Hh; rewrite Ed; cbn [negb andb].
    change 1 with (Z.ones 1); rewrite Z.land_ones by lia; change (2 ^ 1) with 2; by rewrite Hm.
  - rewrite (proj2 (Z.eqb_neq ty ETHERTYPE_ARP)), (proj2 (Z.eqb_neq ty ETHERTYPE_IPV4)) by tauto; by intros [= <- <- <- <-].
  - apply (Hv4 None Ev Et); discriminate.
  - apply (Hv4 (Some v4) Ev Et); by intros ? [= <-].
Qed.

(** C10: no frame takes a worker down.  Whatever bytes the card delivers, short,
    truncated or malicious, the interface gets through them: every header,
    length, option and address is checked before it is used, and the neighbor
    cache makes room when it is full.  A frame without a header, for another
    host, of another protocol, or with an IPv4 packet that has no header or is
    for another address, is dropped without a trace: nothing is answered, and
    neither the interface nor any socket has changed.  The sockets are closed or
    in an open connection whose window is not behind a FIN; whatever segment
    the bytes make up for them, they stay sound, as do the addresses of the
    interface. *)
Theorem hostile_frames (oldest : gmap ip_address neighbor -> option ip_address) (cx : context)
    (frame : list Z) (n : net) (ss : socket_set) :
  oldest_ok oldest -> bytes_ok frame -> net_ok n -> every_socket steady ss ->
  exists p cx' n' ss', process_ethernet oldest cx frame n ss = Ret (p, cx', n', ss') /\
    net_ok n' /\ every_socket sturdy ss' /\
    (not_for_us cx n frame -> p = None /\ cx' = cx /\ n' = n /\ ss' = ss).
Proof.
  intros Ho Hb Hn Hss.
  destruct (process_ethernet_ret oldest cx frame n ss Ho Hb Hn (steady_safe cx ss Hss)) as (p & cx' & n' & ss' & E & Hn').
  exists p, cx', n', ss'; split; [done|split; [done|split]]; [by eapply process_ethernet_sturdy|].
  intros Hu; by apply (not_for_us_dropped oldest cx frame n ss).
Qed.

(** The frame of a segment, for an interface with an open connection. *)
Lemma ex_steady : exists s, ex_established = Ret s /\ steady s.
Proof.
  destruct (ex_established_ok []) as (s & E & Hi); exists s; split; [exact E|split].
  - eapply live_inv_sturdy, conn_inv_live; exact Hi.
  - right; clear Hi; vm_compute in E; injection E as E; subst s.
    intros ws we H; vm_compute in H; injection H as <- <-; vm_compute; discriminate.
Qed.

Lemma hostile_frames_witness : exists s p cx' n' ss',
  ex_established = Ret s /\
  process_ethernet some_key ex_ctx (tcp_frame ex_peer_mac ex_mac ex_packet) ex_net [Some s] = Ret (p, cx', n', ss') /\
  every_socket sturdy ss'.
Proof.
  destruct ex_steady as (s & E & Hs); exists s.
  destruct (hostile_frames some_key ex_ctx (tcp_frame ex_peer_mac ex_mac ex_packet) ex_net [Some s])
    as (p & cx' & n' & ss' & Ep & _ & Hss & _).
  - exact some_key_ok.
  - let l := eval vm_compute in (tcp_frame ex_peer_mac ex_mac ex_packet) in change (bytes_ok l).
    repeat constructor; done.
  - exact ex_net_ok.
  - apply every_cons; split; [intros s1 [= <-]; exact Hs|intros s1 H; inversion H].
  - exists p, cx', n', ss'; exact (conj E (conj Ep Hss)).
Defined.
