(* ===== verification/DhcpWireOk.v ===== *)
(** DHCP messages written are messages read, and reading arbitrary bytes never
    panics. *)

From Stdlib Require Import ZArith Lia ZifyBool.
From stdpp Require Import base list gmap numbers.
From S2P Require Import Prelude Rss TcpWire Iface Frame FrameOk DhcpWire.

(** ** Buffers in blocks

    A buffer is the concatenation of its fields; an access to one of them is an
    access to a block. *)
Definition blocks_len (l : list (list Z)) : Z := fold_right (fun b n => len b + n) 0 l.

Lemma len_concat l : len (concat l) = blocks_len l.
Proof. induction l as [|b l IH]; [done|]; cbn [concat blocks_len fold_right]; rewrite len_app, IH; done. Qed.

Section Blocks.
Context (bs : list (list Z)) (i : nat) (b : list Z) (Hi : bs !! i = Some b).
Context (a : Z) (Ha : a = blocks_len (take i bs)).

Lemma blocks_split : concat bs = concat (take i bs) ++ b ++ concat (drop (S i) bs).
Proof using Hi.
  rewrite <-(take_drop_middle bs i b Hi) at 1; by rewrite concat_app.
Qed.

Lemma copy_block b' e : e = a + len b -> len b' = len b ->
  copy_from_slice (concat bs) a e b' = Ret (concat (<[i := b']> bs)).
Proof using Hi Ha.
  intros -> Hl; rewrite blocks_split, (copy_middle (concat (take i bs)) b _ b') by (rewrite ?len_concat; lia).
  assert (Hlt : (i < length bs)%nat) by (by eapply lookup_lt_Some).
  rewrite insert_take_drop by done; rewrite concat_app; done.
Qed.

Lemma slice_block e : e = a + len b -> slice (concat bs) a e = Ret b.
Proof using Hi Ha. intros ->; rewrite blocks_split; apply slice_middle; rewrite len_concat; lia. Qed.

Lemma read_block n : n = len b -> read_be (concat bs) a n = Ret (to_bits b).
Proof using Hi Ha. intros ->; unfold read_be; by rewrite (slice_block (a + len b)). Qed.
End Blocks.

Lemma store_copy (l : list Z) a x : 0 <= a < len l -> store l a x = copy_from_slice l a (a + 1) [x].
Proof.
  intros Ha; rewrite store_ret, copy_from_slice_ret by (change (len [x]) with 1; lia); f_equal.
  apply list_eq; intros j; unfold write_at; destruct (decide (j = Z.to_nat a)) as [->|Hj].
  - rewrite list_lookup_insert_eq by (unfold len in Ha; lia); symmetry.
    unfold ztake, len in *; rewrite lookup_app_r by (rewrite length_take; lia).
    rewrite length_take; replace (Z.to_nat a - _)%nat with 0%nat by lia; done.
  - rewrite list_lookup_insert_ne by done; unfold ztake, zdrop; change (len [x]) with 1; unfold len in Ha.
    destruct (decide (j < Z.to_nat a)%nat) as [Hlt|Hge].
    + rewrite lookup_app_l, lookup_take_lt by (rewrite ?length_take; lia); done.
    + rewrite lookup_app_r, length_take by (rewrite length_take; lia).
      replace (Z.to_nat a `min` length l)%nat with (Z.to_nat a) by lia.
      rewrite lookup_app_r by (cbn [length]; lia); rewrite lookup_drop; cbn [length]; f_equal; lia.
Qed.

Lemma store_block bs i y a x : bs !! i = Some [y] -> a = blocks_len (take i bs) ->
  store (concat bs) a x = Ret (concat (<[i := [x]]> bs)).
Proof.
  intros Hi Ha; rewrite store_copy; [by apply (copy_block bs i [y])|].
  rewrite (blocks_split bs i [y] Hi), len_app, len_concat, len_app; change (len [y]) with 1.
  pose proof (len_nonneg (concat (take i bs))); pose proof (len_nonneg (concat (drop (S i) bs))); rewrite len_concat in *; lia.
Qed.

Lemma write_block bs i b b' a :
  bs !! i = Some b -> a = blocks_len (take i bs) -> len b' = len b ->
  write_bytes (concat bs) a b' = Ret (concat (<[i := b']> bs)).
Proof. intros Hi Ha Hl; unfold write_bytes; apply (copy_block bs i b); done || lia. Qed.

Lemma index_block bs i y a : bs !! i = Some [y] -> a = blocks_len (take i bs) -> index (concat bs) a = Ret y.
Proof.
  intros Hi Ha; pose proof (len_nonneg (concat (take i bs))); rewrite len_concat in *.
  rewrite (blocks_split bs i [y] Hi); cbn [app].
  apply index_ret_iff; split; [lia|]; rewrite lookup_app_r by (rewrite <-Nat2Z.id, <-(len_concat (take i bs)) in *; unfold len in *; lia).
  replace (Z.to_nat a - length (concat (take i bs)))%nat with 0%nat; [done|].
  pose proof (len_concat (take i bs)) as E; unfold len in E; lia.
Qed.

(** ** The header *)

(** Fields of the right size. *)
Record dhcp_fields_ok (r : dhcp_repr) : Prop := {
  df_type : in_u8 (dh_message_type r);
  df_xid : in_u32 (dh_transaction_id r);
  df_secs : in_u16 (dh_secs r);
  df_hw : length (dh_client_hardware_address r) = 6%nat;
  df_client_ip : length (dh_client_ip r) = 4%nat;
  df_your_ip : length (dh_your_ip r) = 4%nat;
  df_server_ip : length (dh_server_ip r) = 4%nat;
  df_relay_ip : length (dh_relay_agent_ip r) = 4%nat;
}.

Definition dhcp_header (r : dhcp_repr) : list (list Z) :=
  [[msg_opcode (dh_message_type r)]; [1]; [6]; [0]; be32_bytes (dh_transaction_id r); be16_bytes (dh_secs r);
   be16_bytes (if dh_broadcast r then 32768 else 0); dh_client_ip r; dh_your_ip r; dh_server_ip r;
   dh_relay_agent_ip r; dh_client_hardware_address r; zreplicate 74 0; zreplicate 128 0; be32_bytes DHCP_MAGIC_NUMBER].

(** Offsets of literal blocks. *)
Ltac block_len :=
  cbn [take blocks_len fold_right]; rewrite ?len_be16, ?len_be32, ?len_zreplicate by lia;
  repeat match goal with |- context [len [?x]] => change (len [x]) with 1 end; lia.

Ltac block_step i :=
  first [erewrite (store_block _ i); [|reflexivity|block_len]
        |erewrite (copy_block _ i); [|reflexivity|block_len|block_len|block_len]
        |erewrite (write_block _ i); [|reflexivity|block_len|block_len]]; cbn [obind insert list_insert].

Lemma len4 (a : list Z) : length a = 4%nat -> len a = 4.
Proof. unfold len; lia. Qed.
Lemma len6' (a : list Z) : length a = 6%nat -> len a = 6.
Proof. unfold len; lia. Qed.

Lemma dhcp_header_len r : dhcp_fields_ok r -> len (concat (dhcp_header r)) = 240.
Proof.
  intros [_ _ _ H1 H2 H3 H4 H5]; apply len4 in H2, H3, H4, H5; apply len6' in H1.
  rewrite len_concat; unfold dhcp_header; block_len.
Qed.

Lemma one_cell (l : list Z) : len l = 1 -> exists x, l = [x].
Proof. destruct l as [|x [|y l]]; unfold len; cbn; intros; try lia; by exists x. Qed.

Lemma split_blocks sizes l :
  Forall (Z.le 0) sizes -> len l = fold_right Z.add 0 sizes -> exists bs, l = concat bs /\ map (@len Z) bs = sizes.
Proof.
  revert l; induction sizes as [|n sizes IH]; intros l Hs Hl; cbn in Hl.
  { apply len_zero_nil in Hl as ->; by exists []. }
  inversion Hs as [|? ? Hn Hs']; subst.
  assert (Hrest : 0 <= fold_right Z.add 0 sizes) by (clear -Hs'; induction Hs'; cbn; lia).
  destruct (split_at l n) as (a & b & -> & Ha); [lia|]; rewrite len_app in Hl.
  destruct (IH b) as (bs & -> & Hbs); [done|lia|]; exists (a :: bs); cbn; by rewrite Ha, Hbs.
Qed.

(** What is left of [emit] once the header is written. *)
Lemma dhcp_emit_header r h buf :
  dhcp_fields_ok r -> len h = 240 ->
  dhcp_emit r (h ++ buf) =
  (try! w := options_emit (dhcp_option_list r) {| ow_written := []; ow_buffer := buf |} in
   try! options := option_end w in
   Ret (Some (concat (dhcp_header r) ++ options))).
Proof.
  intros Hr Hl; pose proof (dhcp_header_len r Hr) as Hlen; destruct Hr as [_ _ _ H1 H2 H3 H4 H5]; apply len4 in H2, H3, H4, H5; apply len6' in H1.
  destruct (split_blocks [1;1;1;1;4;2;2;4;4;4;4;6;74;128;4] h) as (bs & -> & Hbs); [repeat constructor; lia|done|].
  clear Hl; do 15 (destruct bs as [|? bs]; [discriminate|]); destruct bs; [|discriminate]; injection Hbs as L1 L2 L3 L4 L5 L6 L7 L8 L9 L10 L11 L12 L13 L14 L15.
  apply one_cell in L1 as [? ->], L2 as [? ->], L3 as [? ->], L4 as [? ->].
  unfold dhcp_emit, write_u32, write_u16.
  assert (E : forall l (b : list Z), concat l ++ b = concat (l ++ [b])) by (intros; rewrite concat_app; cbn; by rewrite app_nil_r).
  rewrite E; cbn [app].
  block_step 12%nat; block_step 13%nat; block_step 0%nat; block_step 1%nat; block_step 2%nat; block_step 4%nat;
    block_step 11%nat; block_step 3%nat; block_step 5%nat; block_step 14%nat; block_step 7%nat; block_step 8%nat;
    block_step 9%nat; block_step 10%nat; block_step 6%nat.
  fold (dhcp_header r).
  match goal with |- context [concat ?l] => change l with (dhcp_header r ++ [buf]) end; rewrite <-E.
  rewrite slice_prefix, slice_from_suffix by lia; done.
Qed.

(** ** Options *)

Definition dhcp_option_bytes (o : dhcp_option) : list Z := op_kind o :: len (op_data o) :: op_data o.
Definition dhcp_options_bytes (l : list dhcp_option) : list Z := concat (map dhcp_option_bytes l).

(** An option that can be told from padding and from the end. *)
Definition plain_option (o : dhcp_option) : Prop := op_kind o <> 0 /\ op_kind o <> 255 /\ len (op_data o) <= 255.

Lemma len_dhcp_option_bytes o : len (dhcp_option_bytes o) = 2 + len (op_data o).
Proof. unfold dhcp_option_bytes; rewrite !len_cons; lia. Qed.

Lemma option_emit_bytes o w a rest :
  plain_option o -> len a = len (dhcp_option_bytes o) ->
  option_emit o {| ow_written := w; ow_buffer := a ++ rest |} =
  Ret (Some {| ow_written := w ++ dhcp_option_bytes o; ow_buffer := rest |}).
Proof.
  intros (_ & _ & Hn) Ha; rewrite len_dhcp_option_bytes in Ha; pose proof (len_nonneg (op_data o)).
  unfold option_emit; cbn [ow_buffer ow_written]; rewrite (proj2 (Z.ltb_ge _ _)) by lia; cbn [negb].
  rewrite (proj2 (Z.ltb_ge _ _)) by (rewrite len_app; pose proof (len_nonneg rest); lia); cbn [negb].
  rewrite slice_prefix, slice_from_suffix by lia; cbn [obind].
  destruct a as [|x [|y c]]; [by (unfold len in *; cbn in *; lia)..|]; rewrite !len_cons in Ha.
  rewrite store_0; cbn [obind]; change (op_kind o :: y :: c) with ([op_kind o] ++ y :: c).
  rewrite store_middle by done; cbn [obind]; rewrite u8_small by lia; cbn [app].
  change (op_kind o :: len (op_data o) :: c) with ([op_kind o; len (op_data o)] ++ c); rewrite <-(app_nil_r c).
  rewrite copy_middle by (change (len [op_kind o; len (op_data o)]) with 2; lia); by rewrite app_nil_r.
Qed.

Lemma options_emit_bytes l w a rest :
  Forall plain_option l -> len a = len (dhcp_options_bytes l) ->
  options_emit l {| ow_written := w; ow_buffer := a ++ rest |} =
  Ret (Some {| ow_written := w ++ dhcp_options_bytes l; ow_buffer := rest |}).
Proof.
  unfold dhcp_options_bytes; revert w a; induction l as [|o l IH]; intros w a Hl Ha; cbn [map concat options_emit] in *.
  { apply len_zero_nil in Ha as ->; by rewrite app_nil_r. }
  inversion Hl; subst; rewrite len_app in Ha.
  destruct (split_at a (len (dhcp_option_bytes o))) as (b & c & -> & Hb); [pose proof (len_nonneg (concat (map dhcp_option_bytes l))); pose proof (len_nonneg (dhcp_option_bytes o)); lia|].
  rewrite len_app in Ha; rewrite <-app_assoc, option_emit_bytes by done; cbn [obind].
  rewrite IH by (done || lia); by rewrite <-app_assoc.
Qed.

Lemma dhcp_options_read l fuel rest :
  Forall plain_option l -> (length l <= fuel)%nat ->
  dhcp_options fuel (dhcp_options_bytes l ++ 255 :: rest) = Ret (Some l).
Proof.
  unfold dhcp_options_bytes; revert fuel; induction l as [|o l IH]; intros fuel Hl Hf; [by destruct fuel|].
  inversion Hl as [|? ? (H0 & H255 & Hn) Hl']; subst; destruct fuel as [|fuel]; [cbn in Hf; lia|].
  cbn [map concat]; rewrite <-app_assoc; set (tl := concat _ ++ _); pose proof (len_nonneg (op_data o)); pose proof (len_nonneg tl).
  unfold dhcp_option_bytes; cbn [dhcp_options app].
  rewrite (proj2 (Z.eqb_neq _ _) H255), (proj2 (Z.eqb_neq _ _) H0).
  rewrite (proj2 (Z.ltb_ge _ 2)) by (rewrite !len_cons, len_app; lia).
  change (op_kind o :: len (op_data o) :: op_data o ++ tl) with ([op_kind o] ++ len (op_data o) :: op_data o ++ tl).
  rewrite index_middle by done; cbn [obind app].
  rewrite (proj2 (Z.ltb_ge _ _)) by (rewrite !len_cons, len_app; lia).
  change (op_kind o :: len (op_data o) :: op_data o ++ tl) with ([op_kind o; len (op_data o)] ++ op_data o ++ tl).
  rewrite slice_middle by (change (len [op_kind o; len (op_data o)]) with 2; lia); cbn [obind].
  rewrite app_assoc, slice_from_suffix by (rewrite len_app; change (len [op_kind o; len (op_data o)]) with 2; lia).
  cbn [obind]; subst tl; rewrite IH by (done || (cbn in Hf; lia)); cbn; by destruct o.
Qed.

(** What the loop of [parse] has found: the last option of each kind. *)
Fixpoint last_option (k : Z) (l : list dhcp_option) : option (list Z) :=
  match l with
  | [] => None
  | o :: l => match last_option k l with Some d => Some d | None => if op_kind o =? k then Some (op_data o) else None end
  end.

Lemma last_option_app k a b :
  last_option k (a ++ b) = match last_option k b with Some d => Some d | None => last_option k a end.
Proof. induction a as [|o a IH]; cbn; [by destruct (last_option k b)|]; rewrite IH; by destruct (last_option k b). Qed.

Lemma last_option_opt {A} k k' (o : option A) f : last_option k (opt_list k' o f) = if k' =? k then f <$> o else None.
Proof. destruct o; cbn; by destruct (k' =? k). Qed.

(** An option [parse] takes, in a message with this operation code. *)
Definition taken (opcode : Z) (o : dhcp_option) : Prop :=
  option_expected (op_kind o) (len (op_data o)) = true /\
  (op_kind o = OPT_DHCP_MESSAGE_TYPE -> exists v, op_data o = [v] /\ msg_opcode v = opcode) /\
  (op_kind o = OPT_CLIENT_ID -> exists a, op_data o = 1 :: a).

Definition ignored (o : dhcp_option) : Prop := option_expected (op_kind o) (len (op_data o)) = false.

Lemma note_ignored opcode l found : Forall ignored l -> note_dhcp_options opcode l found = Ret (Some found).
Proof. induction 1 as [|o l Ho _ IH]; [done|]; cbn [note_dhcp_options]; unfold ignored in Ho; by rewrite Ho. Qed.

Lemma note_taken opcode l1 l2 found :
  Forall (taken opcode) l1 ->
  exists found', note_dhcp_options opcode (l1 ++ l2) found = note_dhcp_options opcode l2 found' /\
    (forall k, found' !! k = match last_option k l1 with Some d => Some d | None => found !! k end).
Proof.
  intros Hl; revert found; induction Hl as [|o l1 (He & Hm & Hc) _ IH]; intros found; [by exists found|].
  destruct (IH (<[op_kind o := op_data o]> found)) as (found' & E & Hk); exists found'; split.
  - cbn [app note_dhcp_options]; rewrite He, <-E; cbn [negb].
    destruct (op_kind o =? OPT_DHCP_MESSAGE_TYPE) eqn:E1.
    { apply Z.eqb_eq in E1; destruct (Hm E1) as (v & -> & Hv); by rewrite index_0; cbn [obind]; rewrite Hv, Z.eqb_refl. }
    destruct (op_kind o =? OPT_CLIENT_ID) eqn:E2; [|done].
    apply Z.eqb_eq in E2; destruct (Hc E2) as (a & ->); by rewrite index_0.
  - intros k; rewrite Hk; cbn [last_option]; destruct (last_option k l1); [done|].
    destruct (op_kind o =? k) eqn:E1; [apply Z.eqb_eq in E1 as ->; apply lookup_insert_eq|].
    apply Z.eqb_neq in E1; by rewrite lookup_insert_ne.
Qed.

(** ** The round trip *)

(** A message that fits its wire format: fields and options of the sizes the
    code gives them, at most three servers, no option [emit] leaves out, and
    additional options the parser does not read itself. *)
Record dhcp_ok (r : dhcp_repr) : Prop := {
  dk_fields : dhcp_fields_ok r;
  dk_router : forall a, dh_router r = Some a -> length a = 4%nat;
  dk_mask : forall a, dh_subnet_mask r = Some a -> length a = 4%nat;
  dk_requested : forall a, dh_requested_ip r = Some a -> length a = 4%nat;
  dk_client : forall a, dh_client_identifier r = Some a -> length a = 6%nat;
  dk_server : forall a, dh_server_identifier r = Some a -> length a = 4%nat;
  dk_list : forall l, dh_parameter_request_list r = Some l -> len l <= 255;
  dk_dns : forall l, dh_dns_servers r = Some l -> len l <= 3 /\ Forall (fun a => length a = 4%nat) l;
  dk_max_size : forall n, dh_max_size r = Some n -> in_u16 n;
  dk_lease : forall n, dh_lease_duration r = Some n -> in_u32 n;
  dk_renew : dh_renew_duration r = None;
  dk_rebind : dh_rebind_duration r = None;
  dk_additional : Forall (fun o => ignored o /\ plain_option o) (dh_additional_options r);
}.

(** What a reader sees of it: the additional options are skipped. *)
Definition without_additional (r : dhcp_repr) : dhcp_repr :=
  {| dh_message_type := dh_message_type r; dh_transaction_id := dh_transaction_id r; dh_secs := dh_secs r;
     dh_client_hardware_address := dh_client_hardware_address r; dh_client_ip := dh_client_ip r;
     dh_your_ip := dh_your_ip r; dh_server_ip := dh_server_ip r; dh_router := dh_router r;
     dh_subnet_mask := dh_subnet_mask r; dh_relay_agent_ip := dh_relay_agent_ip r; dh_broadcast := dh_broadcast r;
     dh_requested_ip := dh_requested_ip r; dh_client_identifier := dh_client_identifier r;
     dh_server_identifier := dh_server_identifier r; dh_parameter_request_list := dh_parameter_request_list r;
     dh_dns_servers := dh_dns_servers r; dh_max_size := dh_max_size r; dh_lease_duration := dh_lease_duration r;
     dh_renew_duration := dh_renew_duration r; dh_rebind_duration := dh_rebind_duration r;
     dh_additional_options := [] |}.

(** The options of its own. *)
Definition own_options (r : dhcp_repr) : list dhcp_option :=
  [{| op_kind := OPT_DHCP_MESSAGE_TYPE; op_data := [dh_message_type r] |}] ++
  opt_list OPT_CLIENT_ID (dh_client_identifier r) (cons 1) ++
  opt_list OPT_SERVER_IDENTIFIER (dh_server_identifier r) (fun a => a) ++
  opt_list OPT_ROUTER (dh_router r) (fun a => a) ++
  opt_list OPT_SUBNET_MASK (dh_subnet_mask r) (fun a => a) ++
  opt_list OPT_REQUESTED_IP (dh_requested_ip r) (fun a => a) ++
  opt_list OPT_MAX_DHCP_MESSAGE_SIZE (dh_max_size r) be16_bytes ++
  opt_list OPT_IP_LEASE_TIME (dh_lease_duration r) be32_bytes ++
  opt_list OPT_PARAMETER_REQUEST_LIST (dh_parameter_request_list r) (fun l => l) ++
  opt_list OPT_DOMAIN_NAME_SERVER (dh_dns_servers r) (fun l => concat l).

Lemma option_list_own r : dhcp_option_list r = own_options r ++ dh_additional_options r.
Proof. unfold dhcp_option_list, own_options; by rewrite <-!app_assoc. Qed.

Lemma len_addresses l : Forall (fun a : ip_address => length a = 4%nat) l -> len (concat l) = len l * 4.
Proof. induction 1 as [|a l Ha _ IH]; [done|]; cbn [concat]; rewrite len_app, IH, len_cons; unfold len; lia. Qed.

Lemma chunks4_addresses l : Forall (fun a : ip_address => length a = 4%nat) l -> chunks4 (concat l) = l.
Proof.
  induction 1 as [|a l Ha _ IH]; [done|]; cbn [concat].
  destruct a as [|w [|x [|y [|z [|]]]]]; try discriminate; cbn; by rewrite IH.
Qed.

Lemma Forall_opt_list {A} (P : dhcp_option -> Prop) k (o : option A) f :
  (forall a, o = Some a -> P {| op_kind := k; op_data := f a |}) -> Forall P (opt_list k o f).
Proof. intros H; destruct o; cbn; auto. Qed.

Lemma own_options_ok r : dhcp_ok r -> Forall (fun o => taken (msg_opcode (dh_message_type r)) o /\ plain_option o) (own_options r).
Proof.
  intros [_ H1 H2 H3 H4 H5 H6 H7 _ _ _ _ _]; unfold own_options.
  repeat apply Forall_app_2; try apply Forall_opt_list; [apply Forall_singleton|..]; intros;
    repeat match goal with H : forall a, ?o = Some a -> _, E : ?o = Some _ |- _ => specialize (H _ E) end;
    unfold plain_option; cbn [op_kind op_data].
  1: by split; [split_and!; [done|intros _; by eexists|done]|].
  all: lazymatch goal with
       | |- taken _ {| op_kind := OPT_CLIENT_ID |} /\ _ => unfold taken; cbn [op_kind op_data]; apply len6' in H4; rewrite len_cons, H4; split_and!; try done; by eexists
       | |- taken _ {| op_kind := OPT_MAX_DHCP_MESSAGE_SIZE |} /\ _ => unfold taken; cbn [op_kind op_data]; rewrite len_be16; split_and!; done
       | |- taken _ {| op_kind := OPT_IP_LEASE_TIME |} /\ _ => unfold taken; cbn [op_kind op_data]; rewrite len_be32; split_and!; done
       | |- taken _ {| op_kind := OPT_PARAMETER_REQUEST_LIST |} /\ _ => unfold taken; cbn [op_kind op_data]; split_and!; done
       | |- taken _ {| op_kind := OPT_DOMAIN_NAME_SERVER |} /\ _ => unfold taken; cbn [op_kind op_data]; destruct H7 as [? ?]; rewrite len_addresses by done; split_and!; done || lia
       | |- _ => unfold taken; cbn [op_kind op_data]; match goal with H : length _ = 4%nat |- _ => apply len4 in H; rewrite H end; split_and!; done
       end.
Qed.

Lemma option_same {A} (o : option A) : match o with Some a => Some a | None => None end = o.
Proof. by destruct o. Qed.

(** Each kind is written once. *)
Lemma last_option_own r :
  let found k := last_option k (own_options r) in
  found OPT_DHCP_MESSAGE_TYPE = Some [dh_message_type r] /\ found OPT_ROUTER = dh_router r /\
  found OPT_SUBNET_MASK = dh_subnet_mask r /\ found OPT_REQUESTED_IP = dh_requested_ip r /\
  found OPT_CLIENT_ID = cons 1 <$> dh_client_identifier r /\ found OPT_SERVER_IDENTIFIER = dh_server_identifier r /\
  found OPT_PARAMETER_REQUEST_LIST = dh_parameter_request_list r /\
  found OPT_DOMAIN_NAME_SERVER = (fun l => concat l) <$> dh_dns_servers r /\
  found OPT_MAX_DHCP_MESSAGE_SIZE = be16_bytes <$> dh_max_size r /\
  found OPT_IP_LEASE_TIME = be32_bytes <$> dh_lease_duration r /\
  found OPT_RENEWAL_TIME_VALUE = None /\ found OPT_REBINDING_TIME_VALUE = None.
Proof.
  unfold own_options; cbv zeta; rewrite !last_option_app, !last_option_opt.
  split_and!; cbn -[fmap]; rewrite ?option_same, ?option_fmap_id; try done.
Qed.

Lemma dhcp_options_bytes_app a b : dhcp_options_bytes (a ++ b) = dhcp_options_bytes a ++ dhcp_options_bytes b.
Proof. unfold dhcp_options_bytes; by rewrite map_app, concat_app. Qed.

Lemma len_opt_list {A} k (o : option A) f n :
  (forall a, o = Some a -> 2 + len (f a) = n a) ->
  len (dhcp_options_bytes (opt_list k o f)) = match o with Some a => n a | None => 0 end.
Proof.
  intros H; destruct o as [a|]; [|done]; cbn; rewrite app_nil_r, !len_cons, <-(H a eq_refl); lia.
Qed.

Lemma len_additional l : len (dhcp_options_bytes l) = fold_right (fun o n => 2 + len (op_data o) + n) 0 l.
Proof.
  unfold dhcp_options_bytes; induction l as [|o l IH]; [done|]; cbn [map concat fold_right].
  by rewrite len_app, len_dhcp_option_bytes, IH.
Qed.

(** [buffer_len] is exactly the header, the options and the end. *)
Lemma dhcp_buffer_len_ok r :
  dhcp_ok r -> dhcp_buffer_len r = 240 + (len (dhcp_options_bytes (dhcp_option_list r)) + 1).
Proof.
  intros [_ H1 H2 H3 H4 H5 H6 H7 _ _ _ _ _].
  rewrite option_list_own, dhcp_options_bytes_app, len_app, (len_additional (dh_additional_options r)); unfold own_options, dhcp_buffer_len, opt_len.
  rewrite !dhcp_options_bytes_app, !len_app.
  rewrite (len_opt_list OPT_CLIENT_ID _ _ (fun _ => 9)) by (intros a Ha; rewrite len_cons, (len6' a) by auto; done).
  rewrite (len_opt_list OPT_SERVER_IDENTIFIER _ _ (fun _ => 6)) by (intros a Ha; rewrite (len4 a) by auto; done).
  rewrite (len_opt_list OPT_ROUTER _ _ (fun _ => 6)) by (intros a Ha; rewrite (len4 a) by auto; done).
  rewrite (len_opt_list OPT_SUBNET_MASK _ _ (fun _ => 6)) by (intros a Ha; rewrite (len4 a) by auto; done).
  rewrite (len_opt_list OPT_REQUESTED_IP _ _ (fun _ => 6)) by (intros a Ha; rewrite (len4 a) by auto; done).
  rewrite (len_opt_list OPT_MAX_DHCP_MESSAGE_SIZE _ _ (fun _ => 4)) by (intros; by rewrite len_be16).
  rewrite (len_opt_list OPT_IP_LEASE_TIME _ _ (fun _ => 6)) by (intros; by rewrite len_be32).
  rewrite (len_opt_list OPT_PARAMETER_REQUEST_LIST _ _ (fun l => len l + 2)) by (intros; lia).
  rewrite (len_opt_list OPT_DOMAIN_NAME_SERVER _ _ (fun l => 2 + len l * 4))
    by (intros l Hl; by rewrite len_addresses by apply (H7 l Hl)).
  change (len (dhcp_options_bytes [_])) with 3; lia.
Qed.

Lemma dhcp_emit_ret r buf :
  dhcp_ok r -> len buf = dhcp_buffer_len r ->
  dhcp_emit r buf = Ret (Some (concat (dhcp_header r) ++ dhcp_options_bytes (dhcp_option_list r) ++ [255])).
Proof.
  intros Hr Hl; rewrite (dhcp_buffer_len_ok r Hr) in Hl; set (opts := dhcp_options_bytes _) in *; pose proof (len_nonneg opts).
  destruct (split_at buf 240) as (h & b & -> & Hh); [lia|]; rewrite len_app in Hl.
  destruct (split_at b (len opts)) as (b' & e & -> & Hb); [lia|]; rewrite len_app in Hl.
  destruct (one_cell e) as [x ->]; [lia|].
  rewrite dhcp_emit_header by (done || apply Hr).
  rewrite options_emit_bytes; [|rewrite option_list_own; apply Forall_app_2|done].
  - cbn [obind]; unfold option_end; cbn [ow_buffer ow_written app]; change (len [x] =? 0) with false; cbn [negb].
    rewrite store_0; done.
  - eapply Forall_impl; [|exact (own_options_ok r Hr)]; by intros o [].
  - eapply Forall_impl; [|exact (dk_additional r Hr)]; by intros o [].
Qed.

Lemma to_bits_be16_bytes v : to_bits (be16_bytes v) = v.
Proof. exact (to_bits_be16 v). Qed.

Ltac read_step i :=
  first [erewrite (read_block _ i); [|reflexivity|block_len|block_len]
        |erewrite (slice_block _ i); [|reflexivity|block_len|block_len]
        |erewrite (index_block _ i); [|reflexivity|block_len]]; cbn [obind].

(** The options as [parse] reads them back. *)
Lemma own_options_found r :
  dhcp_ok r ->
  let rest := dhcp_options_bytes (dhcp_option_list r) ++ [255] in
  exists found,
    dhcp_options (length rest) rest = Ret (Some (dhcp_option_list r)) /\
    note_dhcp_options (msg_opcode (dh_message_type r)) (dhcp_option_list r) ∅ = Ret (Some found) /\
    (forall k, found !! k = last_option k (own_options r)).
Proof.
  intros Hr rest; pose proof (own_options_ok r Hr) as Hown; pose proof (dk_additional r Hr) as Hadd.
  destruct (note_taken (msg_opcode (dh_message_type r)) (own_options r) (dh_additional_options r) ∅) as (found & E & Hk).
  { eapply Forall_impl; [|exact Hown]; by intros o []. }
  exists found; split_and!.
  - subst rest; apply dhcp_options_read.
    + rewrite option_list_own; apply Forall_app_2;
        [eapply Forall_impl; [|exact Hown]; by intros o []|eapply Forall_impl; [|exact Hadd]; by intros o []].
    + unfold dhcp_options_bytes; generalize (dhcp_option_list r); intros l; rewrite length_app; cbn [length].
      induction l as [|o l IH]; cbn [map concat length]; [lia|]; rewrite length_app; unfold dhcp_option_bytes at 1; cbn [length]; lia.
  - rewrite option_list_own, E; apply note_ignored; eapply Forall_impl; [|exact Hadd]; by intros o [].
  - intros k; rewrite Hk, lookup_empty; apply option_same.
Qed.

Lemma fmap_cancel {A B} (f : A -> B) (g : B -> A) (o : option A) : (forall a, o = Some a -> g (f a) = a) -> g <$> (f <$> o) = o.
Proof. intros H; destruct o; cbn; [by rewrite H|done]. Qed.

Lemma dhcp_parse_ret r :
  dhcp_ok r ->
  dhcp_parse (concat (dhcp_header r) ++ dhcp_options_bytes (dhcp_option_list r) ++ [255]) = Ret (Some (without_additional r)).
Proof.
  intros Hr; pose proof (dhcp_header_len r (dk_fields r Hr)) as Hlen; destruct (own_options_found r Hr) as (found & Hopts & Hnote & Hk).
  revert Hopts; set (rest := dhcp_options_bytes _ ++ _); intros Hopts.
  unfold dhcp_parse, dhcp_check_len; rewrite (proj2 (Z.ltb_ge _ _)) by (rewrite len_app, Hlen; pose proof (len_nonneg rest); lia).
  cbn [negb].
  assert (E : forall l (b : list Z), concat l ++ b = concat (l ++ [b])) by (intros; rewrite concat_app; cbn; by rewrite app_nil_r).
  assert (Hbuf : slice_from (concat (dhcp_header r) ++ rest) 240 = Ret rest) by (apply slice_from_suffix; lia).
  rewrite E in Hbuf |- *; clear Hlen.
  destruct Hr as [[_ _ _ H1 H2 H3 H4 H5] R1 R2 R3 R4 R5 R6 R7 R8 R9 R10 R11 R12]; apply len4 in H2, H3, H4, H5; apply len6' in H1.
  unfold dhcp_header in *; cbn [app] in *.
  read_step 4%nat; read_step 11%nat; read_step 7%nat; read_step 8%nat; read_step 9%nat; read_step 10%nat;
    read_step 5%nat; read_step 1%nat; read_step 2%nat.
  cbn [andb Z.eqb Pos.eqb]; read_step 14%nat; change (to_bits (be32_bytes DHCP_MAGIC_NUMBER) =? DHCP_MAGIC_NUMBER) with true.
  read_step 0%nat; rewrite Hbuf; cbn [obind]; rewrite Hopts; cbn [obind]; rewrite Hnote; cbn [obind]; read_step 6%nat.
  rewrite !Hk; destruct (last_option_own r) as (-> & -> & -> & -> & -> & -> & -> & -> & -> & -> & -> & ->).
  unfold without_additional; rewrite R10, R11.
  rewrite (fmap_cancel be32_bytes to_bits) by (intros; apply to_bits_be32).
  rewrite (fmap_cancel be16_bytes to_bits) by (intros; apply to_bits_be16).
  rewrite (fmap_cancel (cons 1) (zdrop 1)) by done.
  rewrite fmap_cancel by (intros l Hl; destruct (R7 l Hl); rewrite chunks4_addresses, ztake_ge by done; done).
  rewrite to_bits_be32, !to_bits_be16_bytes.
  do 2 f_equal; f_equal; by destruct (dh_broadcast r).
Qed.

(** ** Datagrams *)

Definition udp_header (u : udp_repr) (n : Z) : list (list Z) :=
  [be16_bytes (udp_src_port u); be16_bytes (udp_dst_port u); be16_bytes (8 + n); be16_bytes 0].

Lemma udp_emit_ret u n f buf p :
  len buf = 8 + n -> 0 <= n < 65528 -> (forall b, len b = n -> f b = Ret p) -> len p = n ->
  udp_emit u n f buf = Ret (concat (udp_header u n) ++ p).
Proof.
  intros Hl Hn Hf Hp; destruct (split_blocks [2;2;2;2;n] buf) as (bs & -> & Hbs); [repeat constructor; lia|cbn; lia|].
  do 5 (destruct bs as [|? bs]; [discriminate|]); destruct bs; [|discriminate]; injection Hbs as L1 L2 L3 L4 L5.
  unfold udp_emit, udp_emit_payload, udp_len, write_u16; block_step 0%nat; block_step 1%nat; block_step 2%nat.
  unfold UDP_HEADER_LEN; rewrite usize_small, u16_small by lia.
  erewrite (read_block _ 2%nat); [|reflexivity|block_len|block_len]; cbn [obind]; rewrite to_bits_be16_bytes.
  erewrite (slice_block _ 4%nat); [|reflexivity|block_len|block_len]; cbn [obind]; rewrite Hf by done; cbn [obind].
  erewrite (copy_block _ 4%nat); [|reflexivity|block_len|block_len|lia]; cbn [obind insert list_insert].
  block_step 3%nat; unfold udp_header; cbn; by rewrite app_nil_r.
Qed.

Lemma udp_parse_ret u n p :
  len p = n -> 0 <= n < 65528 -> 0 < udp_dst_port u ->
  udp_parse (concat (udp_header u n) ++ p) = Ret (Some u) /\ udp_payload (concat (udp_header u n) ++ p) = Ret p.
Proof.
  intros Hp Hn Hd; replace (concat (udp_header u n) ++ p) with (concat (udp_header u n ++ [p]))
    by (rewrite concat_app; cbn; by rewrite app_nil_r).
  assert (Hl : len (concat (udp_header u n ++ [p])) = 8 + n)
    by (rewrite len_concat; unfold udp_header; cbn [app]; block_len).
  unfold udp_parse, udp_payload, udp_check_len, udp_get_dst_port, udp_get_src_port, udp_len; rewrite Hl.
  rewrite (proj2 (Z.ltb_ge _ 8)) by lia; unfold udp_header; cbn [app].
  erewrite (read_block _ 2%nat); [|reflexivity|block_len|block_len]; cbn [obind].
  rewrite to_bits_be16_bytes; rewrite !(proj2 (Z.ltb_ge _ _)) by lia; cbn [andb negb].
  read_step 1%nat; rewrite to_bits_be16_bytes, (proj2 (Z.eqb_neq _ _)) by lia; cbn [negb].
  read_step 0%nat; read_step 4%nat; split; [|done]; rewrite to_bits_be16_bytes; by destruct u.
Qed.

(** C29: a DHCP message the client writes is the message a reader sees: the
    datagram [dhcp_udp_emit] writes into any buffer of the length the code
    computes parses back to the same UDP header and, its payload, to the same
    message, less the additional options, which a reader skips. *)
Theorem dhcp_roundtrip u r buf :
  dhcp_ok r -> len buf = UDP_HEADER_LEN + dhcp_buffer_len r -> dhcp_buffer_len r < 65528 ->
  0 < udp_dst_port u ->
  exists d p, dhcp_udp_emit u r buf = Ret d /\ len d = len buf /\
    udp_parse d = Ret (Some u) /\ udp_payload d = Ret p /\ dhcp_parse p = Ret (Some (without_additional r)).
Proof.
  intros Hr Hl Hn Hu; pose proof (dhcp_buffer_len_ok r Hr) as Hb; set (n := dhcp_buffer_len r) in *.
  set (p := concat (dhcp_header r) ++ dhcp_options_bytes (dhcp_option_list r) ++ [255]).
  assert (Hp : len p = n).
  { subst p n; rewrite !len_app, dhcp_header_len by apply Hr; change (len [255]) with 1; lia. }
  pose proof (len_nonneg (dhcp_options_bytes (dhcp_option_list r))); unfold UDP_HEADER_LEN in Hl.
  destruct (udp_parse_ret u n p) as [Hparse Hpay]; [done|lia|done|].
  exists (concat (udp_header u n) ++ p), p; split_and!; [|rewrite len_app, Hp; exact (eq_sym Hl)|done|done|by apply dhcp_parse_ret].
  unfold dhcp_udp_emit; apply udp_emit_ret; [done|lia| |done].
  intros b Hlb; by rewrite dhcp_emit_ret.
Qed.

(** ** Reading arbitrary bytes *)

(** What [parse] answers, whatever it is given. *)
Record dhcp_read_ok (r : dhcp_repr) : Prop := {
  dr_type : in_u8 (dh_message_type r);
  dr_xid : in_u32 (dh_transaction_id r);
  dr_your_ip : length (dh_your_ip r) = 4%nat;
  dr_router : forall a, dh_router r = Some a -> length a = 4%nat;
  dr_mask : forall a, dh_subnet_mask r = Some a -> length a = 4%nat /\ bytes_ok a;
  dr_server : forall a, dh_server_identifier r = Some a -> length a = 4%nat;
  dr_dns : forall l, dh_dns_servers r = Some l -> len l <= 3;
  dr_lease : forall n, dh_lease_duration r = Some n -> in_u32 n;
  dr_renew : forall n, dh_renew_duration r = Some n -> in_u32 n;
  dr_rebind : forall n, dh_rebind_duration r = Some n -> in_u32 n;
}.

Lemma dhcp_options_spec fuel buf :
  bytes_ok buf -> (length buf <= fuel)%nat ->
  exists l, dhcp_options fuel buf = Ret (Some l) /\ Forall (fun o => bytes_ok (op_data o)) l.
Proof.
  revert buf; induction fuel as [|fuel IH]; intros [|kind buf] Hb Hf; cbn [length] in Hf; try lia; cbn [dhcp_options];
    [by exists []..|].
  destruct (kind =? 255); [by exists []|]; inversion Hb as [|? ? Hk Hb']; subst.
  destruct (kind =? 0).
  { change (kind :: buf) with ([kind] ++ buf); rewrite slice_from_suffix by done; cbn [obind]; apply IH; [done|lia]. }
  destruct (Z.ltb_spec (len (kind :: buf)) 2); [by exists []|].
  destruct (index_is_ret (kind :: buf) 1) as [n En]; [lia|]; rewrite En; cbn [obind].
  destruct (Z.ltb_spec (len (kind :: buf)) (2 + n)) as [|Hn]; [by exists []|].
  assert (0 <= n) as Hn0.
  { apply index_ret_iff in En as [_ En]; eapply (Forall_lookup_1 _ _ _ _ Hb) in En; unfold in_u8 in En; lia. }
  destruct (slice_is_ret (kind :: buf) 2 (2 + n)) as [d Ed]; [lia..|]; rewrite Ed; cbn [obind].
  unfold slice_from; rewrite slice_ret by lia; cbn [obind].
  set (rest := ztake _ _); destruct (IH rest) as (l & -> & Hl).
  - by apply Forall_ztake, Forall_zdrop.
  - subst rest; unfold ztake, zdrop, len in *; rewrite length_take, length_drop; cbn [length] in *; lia.
  - eexists; split; [done|]; constructor; [exact (slice_bytes _ _ _ _ Hb Ed)|done].
Qed.

Definition found_ok (found : gmap Z (list Z)) : Prop :=
  forall k d, found !! k = Some d -> bytes_ok d /\ option_expected k (len d) = true.

Lemma note_dhcp_options_spec opcode l found :
  Forall (fun o => bytes_ok (op_data o)) l -> found_ok found ->
  exists o, note_dhcp_options opcode l found = Ret o /\ forall found', o = Some found' -> found_ok found'.
Proof.
  intros Hl; revert found; induction Hl as [|o l Ho _ IH]; intros found Hf; cbn [note_dhcp_options].
  { eexists; split; [done|]; by intros ? [= <-]. }
  destruct (option_expected (op_kind o) (len (op_data o))) eqn:He; cbn [negb]; [|by apply IH].
  assert (Hf' : found_ok (<[op_kind o := op_data o]> found)).
  { intros k d; destruct (decide (op_kind o = k)) as [<-|Hk]; [rewrite lookup_insert_eq; by intros [= <-]|].
    rewrite lookup_insert_ne by done; apply Hf. }
  assert (Hget : op_kind o = OPT_DHCP_MESSAGE_TYPE \/ op_kind o = OPT_CLIENT_ID -> is_ret (index (op_data o) 0)).
  { intros [E|E]; rewrite E in He; unfold option_expected in He; cbn in He; apply index_is_ret; lia. }
  destruct (op_kind o =? OPT_DHCP_MESSAGE_TYPE) eqn:E1.
  { apply Z.eqb_eq in E1; destruct Hget as [v ->]; [by left|]; cbn [obind]; destruct (msg_opcode v =? opcode); by apply IH. }
  destruct (op_kind o =? OPT_CLIENT_ID) eqn:E2; [|by apply IH].
  apply Z.eqb_eq in E2; destruct Hget as [v ->]; [by right|]; cbn [obind]; destruct (v =? 1); [by apply IH|].
  eexists; split; [done|]; by intros ? [=].
Qed.

Lemma found_value found k d n : found_ok found -> found !! k = Some d ->
  (forall n', option_expected k n' = true -> n' = n) -> len d = n /\ bytes_ok d /\ 0 <= to_bits d < 256 ^ n.
Proof.
  intros Hf Hk Hn; destruct (Hf k d Hk) as [Hb He]; apply Hn in He; subst n; split; [done|split; [done|by apply to_bits_range]].
Qed.

(** An option of four bytes. *)
Lemma found_four found k d : found_ok found -> (forall n, option_expected k n = (n =? 4)) -> found !! k = Some d ->
  (length d = 4%nat /\ bytes_ok d) /\ in_u32 (to_bits d).
Proof.
  intros Hf Hk Hd; destruct (found_value found k d 4 Hf Hd) as (Hl & Hb & Hv); [intros n; rewrite Hk; lia|].
  split; [split; [unfold len in Hl; lia|done]|exact Hv].
Qed.

Lemma fmap_some {A B} (f : A -> B) (o : option A) b : f <$> o = Some b -> exists a, o = Some a /\ b = f a.
Proof. destruct o; cbn; intros [= <-]; eauto. Qed.

(** Every read is within the 240 bytes of the header. *)
Lemma dhcp_parse_spec data :
  bytes_ok data -> exists o, dhcp_parse data = Ret o /\ forall r, o = Some r -> dhcp_read_ok r.
Proof.
  intros Hb; unfold dhcp_parse, dhcp_check_len; destruct (Z.ltb_spec (len data) 240) as [|Hl]; cbn [negb];
    [eexists; split; [done|]; by intros ? [=]|].
  destruct (read_be_is_ret data 4 4) as [xid Ex]; [lia..|]; pose proof (read_be_range _ _ _ _ Hb Ex ltac:(lia)) as Hx.
  rewrite Ex; cbn [obind].
  destruct (slice_is_ret data 28 34) as [hw Ehw]; [lia..|]; rewrite Ehw; cbn [obind].
  destruct (slice_is_ret data 12 16) as [ci ->]; [lia..|]; cbn [obind].
  destruct (slice_is_ret data 16 20) as [yi Eyi]; [lia..|]; rewrite Eyi; cbn [obind].
  destruct (slice_is_ret data 20 24) as [si ->]; [lia..|]; cbn [obind].
  destruct (slice_is_ret data 24 28) as [ri ->]; [lia..|]; cbn [obind].
  destruct (read_be_is_ret data 8 2) as [secs ->]; [lia..|]; cbn [obind].
  destruct (index_is_ret data 1) as [ht ->]; [lia|]; destruct (index_is_ret data 2) as [hl ->]; [lia|]; cbn [obind].
  destruct (_ && _); [|eexists; split; [done|]; by intros ? [=]].
  destruct (read_be_is_ret data 236 4) as [magic ->]; [lia..|]; cbn [obind].
  destruct (_ =? _); [|eexists; split; [done|]; by intros ? [=]].
  destruct (index_is_ret data 0) as [opcode ->]; [lia|]; cbn [obind].
  unfold slice_from; destruct (slice_is_ret data 240 (len data)) as [buf Ebuf]; [lia..|]; rewrite Ebuf; cbn [obind].
  destruct (dhcp_options_spec (length buf) buf) as (l & -> & Hopts); [by eapply slice_bytes|done|]; cbn [obind].
  destruct (note_dhcp_options_spec opcode l ∅ Hopts) as ([found|] & -> & Hf); [by intros k d ?|..]; cbn [obind];
    [|eexists; split; [done|]; by intros ? [=]].
  specialize (Hf found eq_refl).
  destruct (read_be_is_ret data 10 2) as [flags ->]; [lia..|]; cbn [obind].
  destruct (found !! OPT_DHCP_MESSAGE_TYPE) as [mt|] eqn:Em; [|eexists; split; [done|]; by intros ? [=]].
  pose proof (fun k a H1 H2 => found_four found k a Hf H1 H2) as Hfour.
  eexists; split; [done|]; intros r [= <-]; apply slice_len in Eyi.
  split; cbn [dh_message_type dh_transaction_id dh_your_ip dh_router dh_subnet_mask dh_server_identifier dh_dns_servers
    dh_lease_duration dh_renew_duration dh_rebind_duration].
  - by destruct (found_value found _ _ 1 Hf Em) as (_ & _ & Hr); [intros n Hn; unfold option_expected in Hn; cbn in Hn; lia|].
  - exact Hx.
  - unfold len in Eyi; lia.
  - intros a Ea; by apply (Hfour OPT_ROUTER a (fun _ => eq_refl) Ea).
  - intros a Ea; by apply (Hfour OPT_SUBNET_MASK a (fun _ => eq_refl) Ea).
  - intros a Ea; by apply (Hfour OPT_SERVER_IDENTIFIER a (fun _ => eq_refl) Ea).
  - intros dns Ed; apply fmap_some in Ed as (a & _ & ->); rewrite len_ztake; unfold MAX_DNS_SERVER_COUNT; lia.
  - intros n Ed; apply fmap_some in Ed as (a & Ea & ->); by apply (Hfour OPT_IP_LEASE_TIME a (fun _ => eq_refl) Ea).
  - intros n Ed; apply fmap_some in Ed as (a & Ea & ->); by apply (Hfour OPT_RENEWAL_TIME_VALUE a (fun _ => eq_refl) Ea).
  - intros n Ed; apply fmap_some in Ed as (a & Ea & ->); by apply (Hfour OPT_REBINDING_TIME_VALUE a (fun _ => eq_refl) Ea).
Qed.

(** ** An example *)

Definition ex_hw : eth_address := [2; 0; 0; 0; 0; 1].

(** A request with an option of the user's (a host name). *)
Definition ex_request : dhcp_repr :=
  {| dh_message_type := MSG_REQUEST; dh_transaction_id := 305419896; dh_secs := 0;
     dh_client_hardware_address := ex_hw; dh_client_ip := UNSPECIFIED; dh_your_ip := UNSPECIFIED;
     dh_server_ip := UNSPECIFIED; dh_router := None; dh_subnet_mask := None; dh_relay_agent_ip := UNSPECIFIED;
     dh_broadcast := false; dh_requested_ip := Some [10; 0; 0; 2]; dh_client_identifier := Some ex_hw;
     dh_server_identifier := Some [10; 0; 0; 1]; dh_parameter_request_list := Some [1; 3; 6]; dh_dns_servers := None;
     dh_max_size := Some 1432; dh_lease_duration := None; dh_renew_duration := None; dh_rebind_duration := None;
     dh_additional_options := [{| op_kind := 12; op_data := [111; 115; 118] |}] |}.

Lemma ex_request_ok : dhcp_ok ex_request.
Proof.
  split; try done; cbn [ex_request dh_router dh_subnet_mask dh_requested_ip dh_client_identifier dh_server_identifier
    dh_parameter_request_list dh_dns_servers dh_max_size dh_lease_duration dh_additional_options].
  all: try by intros a [= <-].
  constructor; [by repeat split|constructor].
Qed.

Lemma dhcp_roundtrip_witness : exists d p,
  dhcp_udp_emit {| udp_src_port := 68; udp_dst_port := 67 |} ex_request (zreplicate 287 0) = Ret d /\
  udp_payload d = Ret p /\ dhcp_parse p = Ret (Some (without_additional ex_request)).
Proof.
  destruct (dhcp_roundtrip {| udp_src_port := 68; udp_dst_port := 67 |} ex_request (zreplicate 287 0))
    as (d & p & E & _ & _ & Hp & Hr).
  - exact ex_request_ok.
  - rewrite len_zreplicate; reflexivity.
  - reflexivity.
  - reflexivity.
  - exists d, p; exact (conj E (conj Hp Hr)).
Defined.
