(* ===== verification/DhcpOk.v ===== *)
(** What the DHCP client promises: a lease whose timers are in order, reports
    that are never stale, deadlines that move on, and the address a server
    acknowledges. *)

From Stdlib Require Import ZArith Lia ZifyBool.
From stdpp Require Import base list numbers.
From S2P Require Import Prelude Rss Time TcpWire Iface Frame FrameOk DhcpWire DhcpWireOk Dhcp.

(** ** Definitions of the specification *)

(** A clock that stays below 2^60 microseconds, 36 000 years. *)
Definition clock_ok (now : instant) : Prop := 0 <= now < 1152921504606846976.

(** What [poll] reports of a state. *)
Definition report_of (d : dhcp_socket) : dhcp_event :=
  match ds_state d with Renewing rn => Configured (rn_config rn) | _ => Deconfigured end.

(** A lease: the address has its four bytes and can be a host's, the timers are
    in order and within reach of the clock. *)
Record lease_ok (rn : renew_state) : Prop := {
  lo_len : length (cidr_addr (cfg_address (rn_config rn))) = 4%nat;
  lo_unicast : is_unicast (cidr_addr (cfg_address (rn_config rn))) = true;
  lo_prefix : 0 <= prefix_len (cfg_address (rn_config rn)) <= 32;
  lo_router : forall a, cfg_router (rn_config rn) = Some a -> length a = 4%nat;
  lo_packet : cfg_packet (rn_config rn) = None;
  lo_timers : timers_ok rn;
  lo_sane : 0 <= rn_renew_at rn /\ 0 <= rn_expires_at rn < 1157224471902846976 /\ rn_rebind_at rn < 2305843009213693952;
}.

(** The client as the program uses it: the default timeouts, no packet buffer. *)
Record client_ok (d : dhcp_socket) : Prop := {
  co_retry : ds_retry_config d = retry_config_default;
  co_buffer : ds_receive_packet_buffer d = None;
  co_max : ds_max_lease_duration d = None;
  co_ports : ds_server_port d = 67 /\ ds_client_port d = 68;
  co_state : match ds_state d with
             | Discovering t => 0 <= t < 2305843009213693952
             | Requesting rq => 0 <= rq_retry rq <= 5 /\ 0 <= rq_retry_at rq < 2305843009213693952 /\
                                is_unicast (rq_requested_ip rq) = true
             | Renewing rn => lease_ok rn
             end;
}.

(** A change of the configuration raises the flag. *)
Definition noticed (d d' : dhcp_socket) : Prop :=
  ds_config_changed d' = true \/ ds_config_changed d' = ds_config_changed d /\ report_of d' = report_of d.

(** ** The acknowledgement *)

Lemma prefix_loop_range bits ones n p :
  prefix_loop bits ones n = Some p -> 0 <= n -> n + Z.of_nat (length bits) < M8 -> n <= p <= n + Z.of_nat (length bits).
Proof.
  revert ones n; induction bits as [|b bits IH]; intros ones n; cbn [prefix_loop length]; [intros [= <-]; lia|].
  intros H Hn Hl; destruct ones, b; try discriminate; [|apply IH in H; lia..].
  rewrite u8_small in H by lia; apply IH in H; lia.
Qed.

Lemma mask_prefix_range a p : length a = 4%nat -> mask_prefix_len a = Some p -> 0 <= p <= 32.
Proof.
  destruct a as [|w [|x [|y [|z [|]]]]]; try discriminate; intros _ H.
  apply prefix_loop_range in H; unfold mask_bits in *; cbn in *; lia.
Qed.

(** The two timers are in order, whatever the options say. *)
Lemma renew_rebind_ok renew rebind lease :
  0 <= lease <= 4294967295000000 ->
  (forall d, renew = Some d -> 0 <= d <= 4294967295000000) -> (forall d, rebind = Some d -> 0 <= d <= 4294967295000000) ->
  exists t1 t2, renew_rebind renew rebind lease = Ret (t1, t2) /\ 0 <= t1 <= t2 /\ t2 <= lease.
Proof.
  intros Hl Hn Hb; unfold renew_rebind, duration_div, duration_sub, duration_mul, duration_add, from_micros, total_micros.
  cbn [Z.eqb negb obind].
  assert (Hd : exists t1 t2, Ret (lease / 2, u64 (lease * 7) / 8) = Ret (t1, t2) /\ 0 <= t1 <= t2 /\ t2 <= lease).
  { rewrite u64_small by lia; do 2 eexists; split; [reflexivity|]; mlia. }
  destruct renew as [t1|]; [specialize (Hn t1 eq_refl)|]; (destruct rebind as [t2|]; [specialize (Hb t2 eq_refl)|]).
  - destruct (_ && _) eqn:E; [|exact Hd]; do 2 eexists; split; [reflexivity|]; lia.
  - destruct (Z.ltb_spec t1 lease); [|exact Hd]; rewrite (proj2 (Z.leb_le t1 lease)) by lia; cbn [obind].
    rewrite (u64_small ((lease - t1) * 3)) by lia; rewrite u64_small by mlia; do 2 eexists; split; [reflexivity|]; mlia.
  - destruct (Z.ltb_spec t2 lease); [|exact Hd]; do 2 eexists; split; [reflexivity|]; mlia.
  - exact Hd.
Qed.

(** The configuration of an acknowledgement. *)
Definition ack_config (r : dhcp_repr) (prefix : Z) (server : server_info) : dhcp_config :=
  {| cfg_server := server; cfg_address := {| cidr_addr := dh_your_ip r; prefix_len := prefix |};
     cfg_router := dh_router r;
     cfg_dns_servers := filter (fun a => is_unicast a = true) (default [] (dh_dns_servers r));
     cfg_packet := None |}.

(** An acknowledgement is a lease from its server, or is passed over. *)
Lemma parse_ack_ok now r server :
  clock_ok now -> dhcp_read_ok r ->
  exists o, parse_ack now r None server = Ret o /\
    (forall cfg t1 t2 t3, o = Some (cfg, t1, t2, t3) ->
      lease_ok {| rn_config := cfg; rn_renew_at := t1; rn_rebind_at := t2; rn_rebinding := false; rn_expires_at := t3 |}) /\
    (forall mask p, dh_subnet_mask r = Some mask -> mask_prefix_len mask = Some p -> is_unicast (dh_your_ip r) = true ->
      exists t1 t2 t3, o = Some (ack_config r p server, t1, t2, t3)).
Proof.
  intros Hc Hr; unfold parse_ack.
  assert (Hno : forall P : Prop, (forall cfg t1 t2 t3, @None (dhcp_config * instant * instant * instant) = Some (cfg, t1, t2, t3) -> P)) by (intros P ???? [=]).
  destruct (dh_subnet_mask r) as [mask|] eqn:Em; [|eexists; split; [done|]; split; [intros; by eapply Hno|by intros ?? [=]]].
  destruct (mask_prefix_len mask) as [p|] eqn:Ep;
    [|eexists; split; [done|]; split; [intros; by eapply Hno|by intros ? p [= <-] Ep'; rewrite Ep in Ep']].
  pose proof Ep as Ep0.
  apply mask_prefix_range in Ep; [|by eapply (dr_mask r Hr)].
  destruct (is_unicast (dh_your_ip r)) eqn:Eu; cbn [negb]; [|eexists; split; [done|]; split; [intros; by eapply Hno|by intros]].
  assert (Hsecs : forall n, in_u32 n -> 0 <= from_secs n <= 4294967295000000)
    by (unfold in_u32, from_secs; intros; rewrite u64_small by lia; lia).
  set (lease := match dh_lease_duration r with Some d => _ | None => _ end).
  assert (Hlease : 0 <= lease <= 4294967295000000).
  { subst lease; destruct (dh_lease_duration r) as [n|] eqn:El; [by eapply Hsecs, (dr_lease r Hr)|].
    change DEFAULT_LEASE_DURATION with 120000000; lia. }
  unfold cidr_new; rewrite (proj2 (Z.leb_le p 32)) by lia; cbn [obind].
  destruct (renew_rebind_ok (from_secs <$> dh_renew_duration r) (from_secs <$> dh_rebind_duration r) lease Hlease)
    as (t1 & t2 & -> & Ht1 & Ht2).
  { intros d Hd; apply fmap_some in Hd as (n & En & ->); by eapply Hsecs, (dr_renew r Hr). }
  { intros d Hd; apply fmap_some in Hd as (n & En & ->); by eapply Hsecs, (dr_rebind r Hr). }
  cbn [obind]; eexists; split; [reflexivity|]; split;
    [|intros ? p' [= <-] Ep' _; rewrite Ep0 in Ep'; injection Ep' as <-; by do 3 eexists].
  intros cfg a1 a2 a3 [= <- <- <- <-]; unfold clock_ok in Hc.
  rewrite !instant_add_sane by (unfold sane_instant, sane_duration; lia).
  split; unfold timers_ok; cbn [rn_config rn_renew_at rn_rebind_at rn_rebinding rn_expires_at cfg_address cfg_router cfg_packet cidr_addr prefix_len];
    [apply (dr_your_ip r Hr)|done|lia|apply (dr_router r Hr)|done|lia|lia].
Qed.

(** ** Receiving *)

Lemma client_ok_state st b xid d :
  client_ok d ->
  match st with
  | Discovering t => 0 <= t < 2305843009213693952
  | Requesting rq => 0 <= rq_retry rq <= 5 /\ 0 <= rq_retry_at rq < 2305843009213693952 /\
                     is_unicast (rq_requested_ip rq) = true
  | Renewing rn => lease_ok rn
  end -> client_ok (with_client st b xid d).
Proof. intros [] H; by split. Qed.

Lemma dhcp_reset_ok d : client_ok d -> client_ok (dhcp_reset d) /\ noticed d (dhcp_reset d).
Proof.
  intros Hd; split; [unfold dhcp_reset; destruct (ds_state d); apply client_ok_state; try apply client_ok_state; try done;
    by destruct Hd|].
  unfold dhcp_reset, noticed, report_of; destruct (ds_state d); [right|right|left]; done.
Qed.

Lemma noticed_refl d : noticed d d.
Proof. by right. Qed.

(** One message: accepted, or passed over. *)
Lemma dhcp_step_ok now src r sid d :
  clock_ok now -> dhcp_read_ok r -> client_ok d ->
  exists d', dhcp_step now src r sid d = Ret d' /\ client_ok d' /\ noticed d d'.
Proof.
  intros Hc Hr Hd; pose proof (noticed_refl d); unfold dhcp_step; rewrite (co_max d Hd), (co_buffer d Hd).
  destruct (ds_state d) as [t|rq|rn] eqn:Es.
  - destruct (_ =? _); [|by exists d]; destruct (is_unicast (dh_your_ip r)) eqn:Eu; [|by exists d].
    eexists; split; [done|]; split; [apply client_ok_state; [done|]|].
    + unfold clock_ok in Hc; cbn; split_and!; done || lia.
    + right; unfold report_of; by rewrite Es.
  - destruct (_ =? MSG_ACK).
    { destruct (parse_ack_ok now r (rq_server rq) Hc Hr) as (o & -> & Ho & _); cbn [obind].
      destruct o as [[[[cfg t1] t2] t3]|]; [|by exists d].
      pose proof (Ho cfg t1 t2 t3 eq_refl) as Hl; eexists; split; [done|].
      split; [by repeat apply client_ok_state|by left]. }
    destruct (_ =? MSG_NAK); [|by exists d]; destruct (ds_ignore_naks d); [by exists d|].
    destruct (dhcp_reset_ok d Hd); eauto.
  - destruct (_ =? MSG_ACK).
    { destruct (parse_ack_ok now r (cfg_server (rn_config rn)) Hc Hr) as (o & -> & Ho & _); cbn [obind].
      destruct o as [[[[cfg t1] t2] t3]|]; [|by exists d].
      pose proof (Ho cfg t1 t2 t3 eq_refl) as Hl; eexists; split; [done|].
      destruct (bool_decide (rn_config rn = cfg)) eqn:Ec; cbn [negb orb];
        split; try (by repeat apply client_ok_state); [right|by left].
      apply bool_decide_eq_true in Ec; unfold report_of; rewrite Es; cbn; by rewrite Ec. }
    destruct (_ =? MSG_NAK); [|by exists d]; destruct (ds_ignore_naks d); [by exists d|].
    destruct (dhcp_reset_ok d Hd); eauto.
Qed.

Lemma dhcp_process_ok now hw src u payload d :
  clock_ok now -> bytes_ok payload -> client_ok d -> udp_src_port u = 67 -> udp_dst_port u = 68 ->
  exists d', dhcp_process now hw src u payload d = Ret d' /\ client_ok d' /\ noticed d d'.
Proof.
  intros Hc Hb Hd H67 H68; pose proof (noticed_refl d); destruct (co_ports d Hd) as [E1 E2].
  unfold dhcp_process; rewrite E1, E2, H67, H68; cbn [Z.eqb Pos.eqb andb].
  destruct (dhcp_check_len payload); cbn [negb]; [|by exists d].
  destruct (dhcp_parse_spec payload Hb) as (o & -> & Ho); cbn [obind]; destruct o as [r|]; [|by exists d].
  destruct (negb _); [by exists d|]; destruct (negb _); [by exists d|].
  destruct (dh_server_identifier r) as [sid|]; [|by exists d].
  unfold keep_packet; rewrite (co_buffer d Hd); cbn [obind]; apply dhcp_step_ok; auto.
Qed.

(** ** Sending *)

(** What a dispatch came to. *)
Record dispatched {E} (cx : context) (d : dhcp_socket) (p : option dhcp_packet) (res : result unit E) (d' : dhcp_socket)
  : Prop := {
  di_ok : client_ok d';
  di_noticed : noticed d d';
  di_early : cx_now cx < dhcp_poll_at d -> p = None /\ d' = d;
  di_due : dhcp_poll_at d <= cx_now cx -> p <> None \/ d' = dhcp_reset d;
  di_next : dhcp_poll_at d <= cx_now cx -> res = Ok () -> p <> None -> cx_now cx < dhcp_poll_at d';
}.

Lemma wait_cases n : 0 <= n < 5 ->
  let w := duration_shl (from_secs 5) (n / 2) in 5000000 <= w <= 20000000 /\ w = Z.shiftl 5000000 (n / 2).
Proof.
  intros Hn; assert (n / 2 = 0 \/ n / 2 = 1 \/ n / 2 = 2) as [->|[->| ->]] by mlia;
    (split; [split; vm_compute; discriminate|reflexivity]).
Qed.

Lemma renew_retry_ok now rn :
  clock_ok now -> lease_ok rn -> now < rn_expires_at rn -> rn_renew_at rn <= now ->
  (if rn_rebinding rn then rn_rebind_at rn <= now else now < rn_rebind_at rn) ->
  exists rn', renew_retry retry_config_default now rn = Ret rn' /\ lease_ok rn' /\ rn_config rn' = rn_config rn /\
    now < Z.min (if rn_rebinding rn' then rn_rebind_at rn' else Z.min (rn_renew_at rn') (rn_rebind_at rn')) (rn_expires_at rn').
Proof.
  intros Hc [H1 H2 H3 H4 H5 [H6 H7] (H8 & H9 & H10)] Hx Hn Hb; unfold clock_ok in Hc; unfold renew_retry, duration_div, from_micros.
  cbn [Z.eqb negb obind]; change (rc_min_renew_timeout retry_config_default) with 60000000.
  change (rc_max_renew_timeout retry_config_default) with 18446744073709551615.
  rewrite !instant_sub_sane by (unfold sane_instant; lia).
  destruct (rn_rebinding rn) eqn:Er.
  - rewrite instant_add_sane by (unfold sane_instant, sane_duration; mlia); eexists; split; [reflexivity|].
    split; [split; try done; unfold timers_ok; cbn; mlia|]; split; [done|]; cbn; mlia.
  - specialize (H7 eq_refl).
    rewrite instant_add_sane by (unfold sane_instant, sane_duration; mlia); eexists; split; [reflexivity|].
    split; [split; try done; unfold timers_ok; cbn; mlia|]; split; [done|]; cbn; mlia.
Qed.

Lemma dispatched_sent {E} cx d p (res : result unit E) d' :
  dhcp_poll_at d <= cx_now cx -> client_ok d' -> noticed d d' -> (res = Ok () -> cx_now cx < dhcp_poll_at d') ->
  dispatched cx d (Some p) res d'.
Proof. intros H; split; try done; intros; try lia; [by left|auto]. Qed.

Lemma random_transaction_now cx : cx_now (snd (random_transaction_id cx)) = cx_now cx.
Proof. unfold random_transaction_id; by destruct (rand_u32 _). Qed.

Section Dispatch.
Context {E : Type} (emit : context -> dhcp_packet -> result unit E) (cx : context) (hw : eth_address) (d : dhcp_socket).
Context (Hc : clock_ok (cx_now cx)) (Hd : client_ok d).

Lemma dispatched_idle : cx_now cx < dhcp_poll_at d -> dispatched (E := E) cx d None (Ok ()) d.
Proof using Hd. intros H; split; try done; [by right|intros; lia..]. Qed.

Lemma dispatched_reset : dhcp_poll_at d <= cx_now cx -> dispatched (E := E) cx d None (Ok ()) (dhcp_reset d).
Proof using Hd. intros H; destruct (dhcp_reset_ok d Hd); split; try done; intros; try lia; by right. Qed.

Lemma dispatched_failed p (e : E) : dhcp_poll_at d <= cx_now cx -> dispatched cx d (Some p) (Err e) d.
Proof using Hd. intros H; apply dispatched_sent; done || by right. Qed.

Lemma dispatch_discovering t : ds_state d = Discovering t ->
  exists p res d' cx', dhcp_dispatch emit cx hw d = Ret (p, res, d', cx') /\ dispatched cx d p res d'.
Proof using Hc Hd.
  intros Es; pose proof (dispatched_sent (E := E) cx d) as Hsent.
  pose proof dispatched_idle as Hidle; pose proof dispatched_failed as Hfail.
  unfold dhcp_dispatch, dhcp_poll_at in *; rewrite (co_retry d Hd), Es in *; unfold clock_ok in Hc.
  pose proof (random_transaction_now cx) as Enow; destruct (random_transaction_id cx) as [xid cx1]; cbn [snd] in Enow.
  destruct (Z.ltb_spec (cx_now cx) t) as [|Ht]; [do 4 eexists; split; [reflexivity|]; by apply Hidle|].
  destruct (emit _ _) as [[]|e]; do 4 eexists; (split; [reflexivity|]); [|by apply Hfail].
  rewrite Enow; change (rc_discover_timeout retry_config_default) with 10000000.
  rewrite instant_add_sane by (unfold sane_instant, sane_duration; lia).
  apply Hsent; [done|apply client_ok_state; [done|lia]|right; split; [done|unfold report_of; by rewrite Es]|cbn; lia].
Qed.

Lemma dispatch_requesting rq : ds_state d = Requesting rq ->
  exists p res d' cx', dhcp_dispatch emit cx hw d = Ret (p, res, d', cx') /\ dispatched cx d p res d'.
Proof using Hc Hd.
  intros Es; pose proof (dispatched_sent (E := E) cx d) as Hsent.
  pose proof dispatched_idle as Hidle; pose proof dispatched_reset as Hreset; pose proof dispatched_failed as Hfail.
  pose proof (co_state d Hd) as Hst; unfold dhcp_dispatch, dhcp_poll_at in *; rewrite (co_retry d Hd), Es in *; unfold clock_ok in Hc.
  destruct Hst as (Hq1 & Hq2 & Hq3).
  destruct (Z.ltb_spec (cx_now cx) (rq_retry_at rq)) as [|Ht]; [do 4 eexists; split; [reflexivity|]; by apply Hidle|].
  change (rc_request_retries retry_config_default) with 5.
  destruct (Z.leb_spec 5 (rq_retry rq)); [do 4 eexists; split; [reflexivity|]; by apply Hreset|].
  destruct (emit _ _) as [[]|e]; do 4 eexists; (split; [reflexivity|]); [|by apply Hfail].
  change (rc_initial_request_timeout retry_config_default) with (from_secs 5).
  destruct (wait_cases (rq_retry rq) ltac:(lia)) as (Hw & _); set (w := duration_shl _ _) in *; clearbody w.
  rewrite instant_add_sane by (unfold sane_instant, sane_duration; lia); rewrite u16_small by lia.
  apply Hsent; [done|apply client_ok_state; [done|cbn; split_and!; done || lia]|right; split; [done|unfold report_of; by rewrite Es]|cbn; lia].
Qed.

Lemma dispatch_renewing rn : ds_state d = Renewing rn ->
  exists p res d' cx', dhcp_dispatch emit cx hw d = Ret (p, res, d', cx') /\ dispatched cx d p res d'.
Proof using Hc Hd.
  intros Es; pose proof (dispatched_sent (E := E) cx d) as Hsent.
  pose proof dispatched_idle as Hidle; pose proof dispatched_reset as Hreset.
  pose proof (co_state d Hd) as Hst; unfold dhcp_dispatch, dhcp_poll_at in *; rewrite (co_retry d Hd), Es in *.
  pose proof (random_transaction_now cx) as Enow; destruct (random_transaction_id cx) as [xid cx1]; cbn [snd] in Enow.
  destruct (Z.leb_spec (rn_expires_at rn) (cx_now cx)) as [|Hx]; [do 4 eexists; split; [reflexivity|]; apply Hreset; lia|].
  pose proof Hst as [L1 L2 L3 L4 L5 [L6 L7] L8].
  destruct (_ || _) eqn:Ew; [do 4 eexists; split; [reflexivity|]; apply Hidle; destruct (rn_rebinding rn); lia|].
  assert (Hdue : Z.min (if rn_rebinding rn then rn_rebind_at rn else Z.min (rn_renew_at rn) (rn_rebind_at rn)) (rn_expires_at rn) <= cx_now cx)
    by (destruct (rn_rebinding rn); lia).
  set (rn1 := {| rn_config := _ |}).
  assert (Hrn1 : lease_ok rn1) by (subst rn1; split; try done; unfold timers_ok; cbn; destruct (rn_rebinding rn); cbn [orb]; lia).
  destruct (renew_retry_ok (cx_now cx) rn1 Hc Hrn1) as (rn2 & E2' & Hrn2 & Hcfg & Hnext);
    [done|cbn; destruct (rn_rebinding rn); lia| |].
  { cbn; destruct (rn_rebinding rn); cbn [orb]; [lia|]; destruct (Z.leb_spec (rn_rebind_at rn) (cx_now cx)); lia. }
  destruct (emit _ _) as [[]|e]; [rewrite E2'; cbn [obind]|]; do 4 eexists; (split; [reflexivity|]);
    (apply Hsent; [done|by apply client_ok_state|right; split; [done|]; unfold report_of; rewrite Es; cbn; by rewrite ?Hcfg|done]).
Qed.

Lemma dhcp_dispatch_ok :
  exists p res d' cx', dhcp_dispatch emit cx hw d = Ret (p, res, d', cx') /\ dispatched cx d p res d'.
Proof using Hc Hd.
  destruct (ds_state d) as [t|rq|rn] eqn:Es; [by eapply dispatch_discovering|by eapply dispatch_requesting|by eapply dispatch_renewing].
Qed.
End Dispatch.

(** ** Runs *)

(** What happens to a client: a datagram for it arrives, the interface lets it
    send (and the packet is taken or not), the program asks for news, or resets. *)
Inductive client_input : Type :=
| Arrive (now : instant) (src : ip_address) (u : udp_repr) (payload : list Z)
| Egress (cx : context) (taken : bool)
| Ask
| Reset.

Definition input_ok (i : client_input) : Prop :=
  match i with
  | Arrive now _ u payload => clock_ok now /\ bytes_ok payload /\ udp_src_port u = 67 /\ udp_dst_port u = 68
  | Egress cx _ => clock_ok (cx_now cx)
  | Ask | Reset => True
  end.

(** [seen] is the last event the program was given. *)
Definition client_step (hw : eth_address) (i : client_input) (s : dhcp_event * dhcp_socket)
  : outcome (dhcp_event * dhcp_socket) :=
  let '(seen, d) := s in
  match i with
  | Arrive now src u payload => let! d := dhcp_process now hw src u payload d in Ret (seen, d)
  | Egress cx taken =>
      let! (_, _, d, _) := dhcp_dispatch (fun _ _ => if taken then Ok () else Err ()) cx hw d in Ret (seen, d)
  | Ask => let '(ev, d) := dhcp_poll d in Ret (default seen ev, d)
  | Reset => Ret (seen, dhcp_reset d)
  end.

Fixpoint client_run (hw : eth_address) (l : list client_input) (s : dhcp_event * dhcp_socket)
  : outcome (dhcp_event * dhcp_socket) :=
  match l with [] => Ret s | i :: l => let! s := client_step hw i s in client_run hw l s end.

(** The program has been told, or is about to be. *)
Definition told (s : dhcp_event * dhcp_socket) : Prop := ds_config_changed (snd s) = false -> fst s = report_of (snd s).

Lemma noticed_told seen d d' : noticed d d' -> told (seen, d) -> told (seen, d').
Proof. unfold told; intros [E|[E1 E2]] H; cbn in *; [congruence|rewrite E1, E2; auto]. Qed.

Lemma client_step_ok hw i s :
  input_ok i -> client_ok (snd s) -> told s ->
  exists s', client_step hw i s = Ret s' /\ client_ok (snd s') /\ told s'.
Proof.
  destruct s as [seen d]; cbn [snd]; intros Hi Hd Ht; destruct i as [now src u payload|cx taken| |]; cbn [client_step].
  - destruct Hi as (Hc & Hb & H1 & H2); destruct (dhcp_process_ok now hw src u payload d Hc Hb Hd H1 H2) as (d' & -> & Hd' & Hn).
    eexists; split; [reflexivity|]; split; [done|by eapply noticed_told].
  - destruct (dhcp_dispatch_ok (fun _ _ => if taken then Ok () else Err ()) cx hw d Hi Hd) as (p & res & d' & cx' & -> & Hp).
    eexists; split; [reflexivity|]; split; [apply Hp|eapply noticed_told; [apply Hp|done]].
  - unfold dhcp_poll; destruct (ds_config_changed d) eqn:Ef; cbn [negb]; [|eexists; split; [reflexivity|done]].
    destruct Hd as [E1 E2 E3 E4 E5]; destruct (ds_state d) as [t|rq|rn] eqn:Es; eexists; (split; [reflexivity|]);
      (split; [by apply client_ok_state; [split; rewrite ?Es|]|]); intros _; unfold report_of; cbn; rewrite ?Es; try done.
    rewrite E2; f_equal; destruct E5 as [_ _ _ _ E5 _ _]; destruct (rn_config rn); cbn in *; by rewrite E5.
  - destruct (dhcp_reset_ok d Hd); eexists; split; [reflexivity|]; split; [done|by eapply noticed_told].
Qed.

Lemma client_run_ok hw l s :
  Forall input_ok l -> client_ok (snd s) -> told s ->
  exists s', client_run hw l s = Ret s' /\ client_ok (snd s') /\ told s'.
Proof.
  intros Hl; revert s; induction Hl as [|i l Hi _ IH]; intros s Hd Ht; cbn [client_run]; [by exists s|].
  destruct (client_step_ok hw i s Hi Hd Ht) as (s1 & -> & H1 & H2); cbn [obind]; by apply IH.
Qed.

Lemma client_new_ok : client_ok dhcp_new.
Proof. split; try done; cbn; lia. Qed.

(** C26: a DHCP client never panics and never leaves the program with stale news.
    Whatever datagrams arrive, in whatever order with the chances to send, the
    questions and the resets, the run returns; a lease it holds always has a
    unicast address of four bytes, a prefix of at most 32 and timers in order
    ([client_ok]); and unless an event is pending, the last event the program
    was given is the client's configuration. *)
Theorem dhcp_client_invariant hw l :
  Forall input_ok l ->
  exists seen d, client_run hw l (Deconfigured, dhcp_new) = Ret (seen, d) /\ client_ok d /\
    (ds_config_changed d = false -> seen = report_of d).
Proof.
  intros Hl; destruct (client_run_ok hw l (Deconfigured, dhcp_new) Hl client_new_ok) as ([seen d] & E & Hd & Ht); [done|].
  by exists seen, d.
Qed.

(** ** Deadlines *)

Definition at_time (now : instant) (cx : context) : context :=
  {| cx_now := now; max_transmission_unit := max_transmission_unit cx; any_ip := any_ip cx;
     ip_addrs := ip_addrs cx; cx_rand := cx_rand cx |}.

Definition taken_all (_ : context) (_ : dhcp_packet) : result unit unit := Ok ().

(** Dispatched as long as the interface would: until nothing is due. *)
Fixpoint settle (fuel : nat) (hw : eth_address) (cx : context) (d : dhcp_socket) : outcome (option dhcp_socket) :=
  if cx_now cx <? dhcp_poll_at d then Ret (Some d)
  else
    match fuel with
    | O => Ret None
    | S fuel => let! (_, _, d, cx') := dhcp_dispatch taken_all cx hw d in settle fuel hw (at_time (cx_now cx) cx') d
    end.

Lemma poll_at_reset d : dhcp_poll_at (dhcp_reset d) = 0.
Proof. done. Qed.

Lemma dispatch_result {E} (emit : context -> dhcp_packet -> result unit E) cx hw d p res d' cx' :
  dhcp_dispatch emit cx hw d = Ret (p, res, d', cx') -> (forall cx p, emit cx p = Ok ()) -> res = Ok ().
Proof.
  intros H Hok; unfold dhcp_dispatch in H; destruct (random_transaction_id cx) as [xid cx1], (ds_state d) as [t|rq|rn];
    rewrite ?Hok in H; repeat (case_match; try discriminate); try (by injection H as <- <- <- <-).
  all: by apply obind_ret_inv in H as (rn' & _ & [= <- <- <- <-]).
Qed.

(** Discovery sends and then waits. *)
Lemma settle_discovering fuel hw cx d t :
  clock_ok (cx_now cx) -> client_ok d -> ds_state d = Discovering t ->
  exists d', settle (S fuel) hw cx d = Ret (Some d') /\ client_ok d' /\ cx_now cx < dhcp_poll_at d'.
Proof.
  intros Hc Hd Es; cbn [settle]; destruct (Z.ltb_spec (cx_now cx) (dhcp_poll_at d)) as [|Hdue]; [by exists d|].
  destruct (dhcp_dispatch_ok taken_all cx hw d Hc Hd) as (p & res & d1 & cx1 & E & Hp); rewrite E; cbn [obind].
  pose proof (dispatch_result _ _ _ _ _ _ _ _ E ltac:(done)) as ->.
  assert (p <> None).
  { unfold dhcp_dispatch in E; rewrite Es in E; unfold dhcp_poll_at in Hdue; rewrite Es in Hdue.
    rewrite (proj2 (Z.ltb_ge _ _) Hdue) in E; destruct (random_transaction_id cx); by injection E as <- _ _. }
  pose proof (di_next _ _ _ _ _ Hp Hdue eq_refl H) as Hn; exists d1.
  destruct fuel; cbn [settle cx_now at_time]; rewrite (proj2 (Z.ltb_lt _ _) Hn); (split; [done|]); split; try done; apply Hp.
Qed.

(** C28: the client's deadlines are exact and always move on.  Before the instant
    [poll_at] answers, [dispatch] does nothing; from it on, [dispatch] hands
    over a message, or gives the lease or the request up and starts again; and
    an interface that lets the client send until its deadline lies ahead is
    done after at most two dispatches, so that its loop over the sockets ends. *)
Theorem dhcp_deadlines hw cx d :
  clock_ok (cx_now cx) -> client_ok d ->
  (exists p d' cx', dhcp_dispatch taken_all cx hw d = Ret (p, Ok (), d', cx') /\
     (cx_now cx < dhcp_poll_at d -> p = None /\ d' = d) /\
     (dhcp_poll_at d <= cx_now cx -> p <> None \/ d' = dhcp_reset d)) /\
  exists d', settle 2 hw cx d = Ret (Some d') /\ client_ok d' /\ cx_now cx < dhcp_poll_at d'.
Proof.
  intros Hc Hd; destruct (dhcp_dispatch_ok taken_all cx hw d Hc Hd) as (p & res & d1 & cx1 & E & Hp).
  pose proof (dispatch_result _ _ _ _ _ _ _ _ E ltac:(done)) as ->; split.
  { exists p, d1, cx1; split; [done|]; split; apply Hp. }
  change (settle 2 hw cx d) with (if cx_now cx <? dhcp_poll_at d then Ret (Some d) else
    let! (_, _, d, cx') := dhcp_dispatch taken_all cx hw d in settle 1 hw (at_time (cx_now cx) cx') d).
  destruct (Z.ltb_spec (cx_now cx) (dhcp_poll_at d)) as [|Hdue]; [by exists d|]; rewrite E; cbn [obind].
  destruct (di_due _ _ _ _ _ Hp Hdue) as [Hs| ->].
  - pose proof (di_next _ _ _ _ _ Hp Hdue eq_refl Hs) as Hn; exists d1; cbn [settle cx_now at_time].
    rewrite (proj2 (Z.ltb_lt _ _) Hn); split; [done|]; split; [apply Hp|done].
  - apply (settle_discovering 0 hw (at_time (cx_now cx) cx1) (dhcp_reset d) (instant_from_millis 0)); [done|apply Hp|done].
Qed.

(** ** Acquisition *)

(** A payload that is a message of type [m] for this client, from server [sid]. *)
Record message_for (hw : eth_address) (xid m : Z) (payload : list Z) (r : dhcp_repr) (sid : ip_address) : Prop := {
  mf_parse : dhcp_parse payload = Ret (Some r);
  mf_type : dh_message_type r = m;
  mf_hw : dh_client_hardware_address r = hw;
  mf_xid : dh_transaction_id r = xid;
  mf_server : dh_server_identifier r = Some sid;
}.

Definition for_client (u : udp_repr) : Prop := udp_src_port u = 67 /\ udp_dst_port u = 68.

Lemma process_message now hw src u m payload r sid d :
  client_ok d -> for_client u -> message_for hw (ds_transaction_id d) m payload r sid ->
  dhcp_process now hw src u payload d = dhcp_step now src r sid d.
Proof.
  intros [_ E2 _ [E3 E4] _] [H67 H68] [Hp Hm Hh Hx Hs]; unfold dhcp_process; rewrite E3, E4, H67, H68; cbn [Z.eqb Pos.eqb andb].
  assert (Hl : dhcp_check_len payload = true) by (unfold dhcp_parse in Hp; by destruct (dhcp_check_len payload)).
  rewrite Hl, Hp; cbn [negb obind]; rewrite Hh, bool_decide_eq_true_2, Hx, Z.eqb_refl, Hs by done; cbn [negb].
  unfold keep_packet; by rewrite E2.
Qed.

Lemma message_read hw xid m payload r sid : bytes_ok payload -> message_for hw xid m payload r sid -> dhcp_read_ok r.
Proof.
  intros Hb [Hp _ _ _ _]; destruct (dhcp_parse_spec payload Hb) as (o & E & Ho); rewrite Hp in E; injection E as <-; by apply Ho.
Qed.

Lemma offer_accepted now src r sid d t :
  ds_state d = Discovering t -> dh_message_type r = MSG_OFFER -> is_unicast (dh_your_ip r) = true ->
  dhcp_step now src r sid d =
  Ret (with_ds_state (Requesting {| rq_retry_at := now; rq_retry := 0;
    rq_server := {| sv_address := src; sv_identifier := sid |}; rq_requested_ip := dh_your_ip r |}) d).
Proof. intros E1 E2 E3; unfold dhcp_step; by rewrite E1, E2, E3. Qed.

(** A request that is due is broadcast, up to the fifth time; the next one is
    due after 5, 5, 10, 10 and 20 seconds. *)
Lemma request_sent cx hw d rq :
  clock_ok (cx_now cx) -> client_ok (with_ds_state (Requesting rq) d) -> rq_retry rq < 5 -> rq_retry_at rq <= cx_now cx ->
  let d' := with_ds_state (Requesting {| rq_retry_at := cx_now cx + Z.shiftl 5000000 (rq_retry rq / 2);
    rq_retry := rq_retry rq + 1; rq_server := rq_server rq; rq_requested_ip := rq_requested_ip rq |}) d in
  exists p, dhcp_dispatch taken_all cx hw (with_ds_state (Requesting rq) d) = Ret (Some p, Ok (), d', cx) /\ client_ok d' /\
    let '(ip, u, r) := p in
    ip_dst (v4_ip ip) = BROADCAST_IP /\ dh_message_type r = MSG_REQUEST /\ dh_transaction_id r = ds_transaction_id d /\
    dh_requested_ip r = Some (rq_requested_ip rq) /\ dh_server_identifier r = Some (sv_identifier (rq_server rq)).
Proof.
  intros Hc Hd Hr Hdue d'; pose proof (co_state _ Hd) as (Hq & _ & Hu); pose proof (co_retry _ Hd) as Er; cbn in Hq, Er.
  unfold dhcp_dispatch; cbn [ds_state with_ds_state with_client ds_retry_config ds_transaction_id ds_config_changed].
  rewrite (proj2 (Z.ltb_ge _ _) Hdue), Er; change (rc_request_retries retry_config_default) with 5.
  rewrite (proj2 (Z.leb_gt _ _)) by lia; cbn [taken_all].
  change (rc_initial_request_timeout retry_config_default) with (from_secs 5).
  destruct (wait_cases (rq_retry rq) ltac:(lia)) as (Hw & Hw2); unfold clock_ok in Hc.
  rewrite instant_add_sane by (unfold sane_instant, sane_duration; lia); rewrite u16_small, Hw2 by lia.
  eexists; split; [reflexivity|]; split; [|cbn; by split_and!].
  apply (client_ok_state _ _ _ _ Hd); rewrite <-Hw2; cbn; split_and!; done || lia.
Qed.

Lemma ack_accepted now src r sid d rq mask prefix :
  clock_ok now -> dhcp_read_ok r -> client_ok d -> ds_state d = Requesting rq -> dh_message_type r = MSG_ACK ->
  is_unicast (dh_your_ip r) = true -> dh_subnet_mask r = Some mask -> mask_prefix_len mask = Some prefix ->
  exists d', dhcp_step now src r sid d = Ret d' /\ fst (dhcp_poll d') = Some (Configured (ack_config r prefix (rq_server rq))).
Proof.
  intros Hc Hr [_ E2 E3 _ _] Es Et Hu Hm Hp; unfold dhcp_step; rewrite Es, Et, E3; cbn [Z.eqb Pos.eqb MSG_ACK].
  destruct (parse_ack_ok now r (rq_server rq) Hc Hr) as (o & -> & _ & Ho); destruct (Ho mask prefix Hm Hp Hu) as (t1 & t2 & t3 & ->).
  cbn [obind]; eexists; split; [reflexivity|]; unfold dhcp_poll; cbn; by rewrite E2.
Qed.

(** C27: the client acquires the address it is offered.  When it discovers and is
    due, it broadcasts a DISCOVER; an OFFER to that transaction, from any
    server, of any host's address, makes it broadcast a REQUEST for that address
    naming that server; and an ACK to it with an address and a contiguous mask
    is a lease: the next question answers the address acknowledged, its prefix,
    the router and the name servers of the ACK, and the server of the OFFER. *)
Theorem dhcp_acquires hw cx1 d t :
  clock_ok (cx_now cx1) -> client_ok d -> ds_state d = Discovering t -> t <= cx_now cx1 ->
  exists p1 d1 cx1', dhcp_dispatch taken_all cx1 hw d = Ret (Some p1, Ok (), d1, cx1') /\
    (let '(ip, u, r) := p1 in
     ip_src (v4_ip ip) = UNSPECIFIED /\ ip_dst (v4_ip ip) = BROADCAST_IP /\ udp_src_port u = 68 /\ udp_dst_port u = 67 /\
     dh_message_type r = MSG_DISCOVER /\ dh_transaction_id r = ds_transaction_id d1 /\ dh_client_hardware_address r = hw) /\
    forall now1 src1 u1 payload1 offer sid,
      clock_ok now1 -> for_client u1 -> bytes_ok payload1 ->
      message_for hw (ds_transaction_id d1) MSG_OFFER payload1 offer sid -> is_unicast (dh_your_ip offer) = true ->
    exists d2, dhcp_process now1 hw src1 u1 payload1 d1 = Ret d2 /\
    forall cx2, now1 <= cx_now cx2 -> clock_ok (cx_now cx2) ->
    exists p2 d3 cx2', dhcp_dispatch taken_all cx2 hw d2 = Ret (Some p2, Ok (), d3, cx2') /\
      (let '(ip, u, r) := p2 in
       ip_dst (v4_ip ip) = BROADCAST_IP /\ dh_message_type r = MSG_REQUEST /\
       dh_transaction_id r = ds_transaction_id d1 /\
       dh_requested_ip r = Some (dh_your_ip offer) /\ dh_server_identifier r = Some sid) /\
    forall now2 src2 u2 payload2 ack sid2 mask prefix,
      clock_ok now2 -> for_client u2 -> bytes_ok payload2 ->
      message_for hw (ds_transaction_id d1) MSG_ACK payload2 ack sid2 -> is_unicast (dh_your_ip ack) = true ->
      dh_subnet_mask ack = Some mask -> mask_prefix_len mask = Some prefix ->
    exists d4, dhcp_process now2 hw src2 u2 payload2 d3 = Ret d4 /\
      fst (dhcp_poll d4) = Some (Configured (ack_config ack prefix {| sv_address := src1; sv_identifier := sid |})).
Proof.
  intros Hc Hd Es Hdue.
  destruct (dhcp_dispatch_ok taken_all cx1 hw d Hc Hd) as (p & res & d1 & cx1' & E1 & Hd1); apply di_ok in Hd1.
  pose proof E1 as E1'; unfold dhcp_dispatch in E1'; rewrite Es, (proj2 (Z.ltb_ge _ _) Hdue) in E1'.
  destruct (random_transaction_id cx1) as [xid cx]; cbn [taken_all] in E1'; injection E1' as <- <- Ed1 <-.
  do 3 eexists; split; [exact E1|]; rewrite <-Ed1 in Hd1 |- *; clear E1 Ed1 d1.
  split; [destruct Hd as [_ _ _ [H67 H68] _]; cbn; by split_and!|].
  intros now1 src1 u1 payload1 offer sid Hn1 Hu1 Hb1 Hm1 Hun.
  rewrite (process_message _ _ _ _ _ _ _ _ _ Hd1 Hu1 Hm1).
  rewrite offer_accepted with (t := instant_add (cx_now cx) (rc_discover_timeout (ds_retry_config d))) by (apply Hm1 || done).
  eexists; split; [reflexivity|]; set (d1 := with_client _ _ _ _) in *.
  set (rq := {| rq_retry_at := now1; rq_retry := 0 |}); intros cx2 Hle Hc2.
  assert (Hd2 : client_ok (with_ds_state (Requesting rq) d1)).
  { apply client_ok_state; [done|]; unfold clock_ok in *; cbn; split_and!; done || lia. }
  destruct (request_sent cx2 hw d1 rq Hc2 Hd2 eq_refl Hle) as (p2 & -> & Hd3 & Hp2); do 3 eexists; split; [reflexivity|].
  split; [exact Hp2|].
  intros now2 src2 u2 payload2 ack sid2 mask prefix Hn2 Hu2 Hb2 Hm2 Hun2 Hmask Hprefix.
  rewrite (process_message _ _ _ _ _ _ _ _ _ Hd3 Hu2 Hm2).
  exact (ack_accepted now2 src2 ack sid2 _ _ mask prefix Hn2 (message_read _ _ _ _ _ _ Hb2 Hm2) Hd3 eq_refl
    (mf_type _ _ _ _ _ _ Hm2) Hun2 Hmask Hprefix).
Qed.

(** ** Silence *)

(** Dispatched [n] times, each when it is due; what was sent, and when. *)
Fixpoint silent (n : nat) (hw : eth_address) (cx : context) (d : dhcp_socket)
  : outcome (list (instant * Z) * dhcp_socket) :=
  match n with
  | O => Ret ([], d)
  | S n =>
      let cx := at_time (Z.max (cx_now cx) (dhcp_poll_at d)) cx in
      let! (p, _, d, cx') := dhcp_dispatch taken_all cx hw d in
      let! (l, d) := silent n hw cx' d in
      Ret (match p with Some (_, _, r) => (cx_now cx, dh_message_type r) :: l | None => l end, d)
  end.

Lemma silent_request n hw cx d rq :
  clock_ok (rq_retry_at rq) -> cx_now cx <= rq_retry_at rq -> client_ok (with_ds_state (Requesting rq) d) -> rq_retry rq < 5 ->
  let rq' := {| rq_retry_at := rq_retry_at rq + Z.shiftl 5000000 (rq_retry rq / 2); rq_retry := rq_retry rq + 1;
                rq_server := rq_server rq; rq_requested_ip := rq_requested_ip rq |} in
  client_ok (with_ds_state (Requesting rq') d) /\
  silent (S n) hw cx (with_ds_state (Requesting rq) d) =
  (let! (l, d) := silent n hw (at_time (rq_retry_at rq) cx) (with_ds_state (Requesting rq') d) in
   Ret ((rq_retry_at rq, MSG_REQUEST) :: l, d)).
Proof.
  intros Hc Hle Hd Hr rq'; cbn [silent]; change (dhcp_poll_at (with_ds_state (Requesting rq) d)) with (rq_retry_at rq).
  rewrite Z.max_r by done.
  destruct (request_sent (at_time (rq_retry_at rq) cx) hw d rq) as (p & E & Hok & Hp); [done..|cbn; lia|].
  rewrite E; cbn [obind]; cbn [at_time cx_now] in *; split; [exact Hok|].
  destruct p as [[ip u] r]; destruct Hp as (_ & -> & _); done.
Qed.

(** When the request is due for the [k]-th time, from [t] on. *)
Definition request_due (t k : Z) : instant := t + nth (Z.to_nat k) [0; 5000000; 10000000; 20000000; 30000000; 50000000] 0.

Lemma request_due_next t k : 0 <= k < 5 -> request_due t k + Z.shiftl 5000000 (k / 2) = request_due t (k + 1).
Proof.
  intros Hk; unfold request_due; assert (k = 0 \/ k = 1 \/ k = 2 \/ k = 3 \/ k = 4) as [->|[->|[->|[->| ->]]]] by lia;
    rewrite <-Z.add_assoc; reflexivity.
Qed.

Lemma request_due_bound t k : t <= request_due t k <= t + 50000000.
Proof.
  unfold request_due; assert (forall n, 0 <= nth n [0; 5000000; 10000000; 20000000; 30000000; 50000000] 0 <= 50000000)
    as H by (intros [|[|[|[|[|[|[|n]]]]]]]; cbn; lia).
  specialize (H (Z.to_nat k)); lia.
Qed.

Section Silence.
Context (hw : eth_address) (d : dhcp_socket) (t : instant) (Ht : 0 <= t /\ clock_ok (t + 60000000)).
Context (sv : server_info) (ip : ip_address).

Definition request_at (k : Z) : dhcp_socket :=
  with_ds_state (Requesting {| rq_retry_at := request_due t k; rq_retry := k; rq_server := sv; rq_requested_ip := ip |}) d.

Lemma silent_step n cx k :
  0 <= k < 5 -> cx_now cx <= request_due t k -> client_ok (request_at k) ->
  client_ok (request_at (k + 1)) /\
  silent (S n) hw cx (request_at k) =
  (let! (l, d) := silent n hw (at_time (request_due t k) cx) (request_at (k + 1)) in
   Ret ((request_due t k, MSG_REQUEST) :: l, d)).
Proof using Ht.
  intros Hk Hcx Hok; pose proof (request_due_bound t k); unfold clock_ok in Ht; unfold request_at.
  destruct (silent_request n hw cx d {| rq_retry_at := request_due t k; rq_retry := k; rq_server := sv; rq_requested_ip := ip |})
    as [H1 H2]; [unfold clock_ok; cbn [rq_retry_at]; lia|done|done|cbn [rq_retry]; lia|].
  cbn [rq_retry_at rq_retry rq_server rq_requested_ip] in *; rewrite request_due_next in * by lia; by split.
Qed.

(** All five. *)
Lemma silent_steps m n cx k :
  0 <= k -> k + Z.of_nat m <= 5 -> cx_now cx <= request_due t k -> client_ok (request_at k) ->
  exists cx', cx_now cx' <= request_due t (k + Z.of_nat m) /\ client_ok (request_at (k + Z.of_nat m)) /\
  silent (m + n) hw cx (request_at k) =
  (let! (l, d) := silent n hw cx' (request_at (k + Z.of_nat m)) in
   Ret (map (fun j => (request_due t (k + Z.of_nat j), MSG_REQUEST)) (seq 0 m) ++ l, d)).
Proof using Ht.
  revert cx k; induction m as [|m IH]; intros cx k Hk Hm Hcx Hok; cbn [Nat.add].
  { exists cx; rewrite Z.add_0_r; split_and!; [done..|]; by destruct (silent n hw cx (request_at k)) as [[]|]. }
  destruct (silent_step (m + n) cx k ltac:(lia) Hcx Hok) as [Hok' ->].
  destruct (IH (at_time (request_due t k) cx) (k + 1)) as (cx' & H1 & H2 & ->); [lia|lia| |done|].
  { cbn; rewrite <-request_due_next by lia; pose proof (Z.shiftl_nonneg 5000000 (k / 2)); lia. }
  replace (k + 1 + Z.of_nat m) with (k + Z.of_nat (S m)) in * by lia; exists cx'; split_and!; [done..|].
  destruct (silent n hw cx' _) as [[l d']|]; [|done]; cbn [obind seq map app]; rewrite Z.add_0_r; do 4 f_equal.
  rewrite <-seq_shift, map_map; apply map_ext; intros j; do 2 f_equal; lia.
Qed.

(** The sixth time, it is given up. *)
Lemma silent_give_up cx :
  cx_now cx <= request_due t 5 -> client_ok (request_at 5) ->
  exists d', silent 2 hw cx (request_at 5) = Ret ([(t + 50000000, MSG_DISCOVER)], d') /\
    ds_state d' = Discovering (t + 60000000).
Proof using Ht.
  intros Hcx Hok; change (request_due t 5) with (t + 50000000) in Hcx; pose proof (co_retry _ Hok) as Er; cbn in Er.
  unfold clock_ok in Ht; cbn [silent]; change (dhcp_poll_at (request_at 5)) with (t + 50000000); rewrite Z.max_r by done.
  assert (E : dhcp_dispatch taken_all (at_time (t + 50000000) cx) hw (request_at 5) =
    Ret (None, Ok (), dhcp_reset (request_at 5), at_time (t + 50000000) cx)).
  { unfold dhcp_dispatch; cbn [ds_state request_at with_ds_state with_client ds_retry_config rq_retry rq_retry_at at_time cx_now].
    change (request_due t 5) with (t + 50000000); by rewrite (proj2 (Z.ltb_ge _ _)), Er by lia. }
  rewrite E; cbn [obind]; rewrite poll_at_reset; cbn [at_time cx_now]; rewrite Z.max_l by lia.
  unfold dhcp_dispatch; change (ds_state (dhcp_reset (request_at 5))) with (Discovering 0); cbn [at_time cx_now].
  rewrite (proj2 (Z.ltb_ge _ 0)) by lia; pose proof (random_transaction_now (at_time (t + 50000000) (at_time (t + 50000000) cx))) as Enow.
  change (at_time (t + 50000000) (at_time (t + 50000000) cx)) with (at_time (t + 50000000) cx) in *.
  destruct (random_transaction_id _) as [xid cx2]; cbn [snd at_time cx_now] in Enow; cbn [taken_all].
  change (ds_retry_config (dhcp_reset (request_at 5))) with (ds_retry_config d); rewrite Er, Enow.
  change (rc_discover_timeout retry_config_default) with 10000000.
  rewrite instant_add_sane by (unfold sane_instant, sane_duration; lia).
  eexists; split; [reflexivity|]; cbn; f_equal; lia.
Qed.
End Silence.

(** A request nobody answers is given up.  From the offer at [t], the client
    broadcasts its REQUEST five times, at [t], then 5, 10, 20 and 30 seconds
    later, and 50 seconds after the offer it goes back to discovering, with a
    DISCOVER at once. *)
Theorem dhcp_request_gives_up hw cx d rq :
  let t := rq_retry_at rq in
  0 <= t -> clock_ok (t + 60000000) -> cx_now cx <= t -> client_ok d -> ds_state d = Requesting rq -> rq_retry rq = 0 ->
  exists d', silent 7 hw cx d =
    Ret ([(t, MSG_REQUEST); (t + 5000000, MSG_REQUEST); (t + 10000000, MSG_REQUEST); (t + 20000000, MSG_REQUEST);
          (t + 30000000, MSG_REQUEST); (t + 50000000, MSG_DISCOVER)], d') /\
    ds_state d' = Discovering (t + 60000000).
Proof.
  intros t H0 Hc Hcx Hd Es Hr; assert (Ed : d = request_at d t (rq_server rq) (rq_requested_ip rq) 0).
  { unfold request_at, request_due; cbn; rewrite Z.add_0_r, <-Hr; subst t; destruct d, rq; cbn in *; by subst. }
  rewrite Ed in Hd |- *; change 7%nat with (5 + 2)%nat.
  destruct (silent_steps hw d t (conj H0 Hc) (rq_server rq) (rq_requested_ip rq) 5 2 cx 0) as (cx' & H1 & H2 & ->);
    [lia|lia|pose proof (request_due_bound t 0); lia|done|].
  destruct (silent_give_up hw d t (conj H0 Hc) _ _ cx' H1 H2) as (d' & E & Hs); exists d'.
  change (0 + Z.of_nat 5) with 5; rewrite E; cbn [obind]; split; [|done]; cbn; unfold request_due; cbn; by rewrite Z.add_0_r.
Qed.

(** ** Examples *)

Definition ex_ctx : context :=
  {| cx_now := 5; max_transmission_unit := 1514; any_ip := false; ip_addrs := []; cx_rand := 1 |}.

Definition ex_later : context :=
  {| cx_now := 20000000; max_transmission_unit := 1514; any_ip := false; ip_addrs := []; cx_rand := 1 |}.

(** The server's two messages: 10.0.0.2/24, router 10.0.0.1, for an hour. *)
Definition ex_answer (m xid : Z) : dhcp_repr :=
  {| dh_message_type := m; dh_transaction_id := xid; dh_secs := 0;
     dh_client_hardware_address := ex_hw; dh_client_ip := UNSPECIFIED; dh_your_ip := [10; 0; 0; 2];
     dh_server_ip := [10; 0; 0; 1]; dh_router := Some [10; 0; 0; 1]; dh_subnet_mask := Some [255; 255; 255; 0];
     dh_relay_agent_ip := UNSPECIFIED; dh_broadcast := false; dh_requested_ip := None;
     dh_client_identifier := None; dh_server_identifier := Some [10; 0; 0; 1];
     dh_parameter_request_list := None; dh_dns_servers := Some [[9; 9; 9; 9]]; dh_max_size := None;
     dh_lease_duration := Some 3600; dh_renew_duration := None; dh_rebind_duration := None;
     dh_additional_options := [] |}.

(** Their payloads, as a server writes them. *)
Definition ex_payload (m xid : Z) : list Z :=
  concat (dhcp_header (ex_answer m xid)) ++ dhcp_options_bytes (dhcp_option_list (ex_answer m xid)) ++ [255].

Lemma ex_answer_ok m xid : in_u8 m -> in_u32 xid -> dhcp_ok (ex_answer m xid).
Proof.
  intros Hm Hx; split; try done; cbn; try by intros a [= <-].
  intros l [= <-]; by repeat constructor.
Qed.

Lemma ex_message m xid : in_u8 m -> in_u32 xid ->
  message_for ex_hw xid m (ex_payload m xid) (ex_answer m xid) [10; 0; 0; 1].
Proof.
  intros Hm Hx; split; try done; unfold ex_payload; rewrite dhcp_parse_ret by (by apply ex_answer_ok); done.
Qed.

Lemma dhcp_client_invariant_witness : exists seen d,
  client_run ex_hw [Egress ex_ctx true; Arrive 10 [10; 0; 0; 1] {| udp_src_port := 67; udp_dst_port := 68 |} (ex_payload 2 7); Ask; Reset]
    (Deconfigured, dhcp_new) = Ret (seen, d) /\ client_ok d.
Proof.
  destruct (dhcp_client_invariant ex_hw [Egress ex_ctx true;
    Arrive 10 [10; 0; 0; 1] {| udp_src_port := 67; udp_dst_port := 68 |} (ex_payload 2 7); Ask; Reset]) as (seen & d & E & Hd & _).
  - constructor; [unfold input_ok, clock_ok; cbn; lia|]; constructor.
    + split; [unfold clock_ok; lia|]; split; [apply forall_in_u8_b; reflexivity|done].
    + constructor; [exact I|]; constructor; [exact I|constructor].
  - exists seen, d; exact (conj E Hd).
Defined.

Lemma dhcp_deadlines_witness : exists d',
  settle 2 ex_hw ex_ctx dhcp_new = Ret (Some d') /\ 5 < dhcp_poll_at d'.
Proof.
  destruct (dhcp_deadlines ex_hw ex_ctx dhcp_new) as [_ (d' & E & _ & H)].
  - unfold clock_ok; cbn; lia.
  - exact client_new_ok.
  - exists d'; exact (conj E H).
Defined.

(** A client that has just been offered 10.0.0.2. *)
Definition ex_requesting : dhcp_socket :=
  with_ds_state (Requesting {| rq_retry_at := 10; rq_retry := 0;
    rq_server := {| sv_address := [10; 0; 0; 1]; sv_identifier := [10; 0; 0; 1] |}; rq_requested_ip := [10; 0; 0; 2] |}) dhcp_new.

Lemma dhcp_request_gives_up_witness : exists d',
  silent 7 ex_hw ex_ctx ex_requesting =
    Ret ([(10, MSG_REQUEST); (5000010, MSG_REQUEST); (10000010, MSG_REQUEST); (20000010, MSG_REQUEST);
          (30000010, MSG_REQUEST); (50000010, MSG_DISCOVER)], d') /\ ds_state d' = Discovering 60000010.
Proof.
  apply (dhcp_request_gives_up ex_hw ex_ctx ex_requesting
    {| rq_retry_at := 10; rq_retry := 0;
       rq_server := {| sv_address := [10; 0; 0; 1]; sv_identifier := [10; 0; 0; 1] |}; rq_requested_ip := [10; 0; 0; 2] |}).
  - cbn; lia.
  - unfold clock_ok; cbn; lia.
  - cbn; lia.
  - apply client_ok_state; [exact client_new_ok|cbn; split; [lia|split; [lia|reflexivity]]].
  - reflexivity.
  - reflexivity.
Defined.

Lemma dhcp_acquires_witness : exists p1 d1 cx1 d2 p2 d3 cx2 d4,
  dhcp_dispatch taken_all ex_ctx ex_hw dhcp_new = Ret (Some p1, Ok (), d1, cx1) /\
  dhcp_process 10 ex_hw [10; 0; 0; 1] {| udp_src_port := 67; udp_dst_port := 68 |} (ex_payload 2 (ds_transaction_id d1)) d1 = Ret d2 /\
  dhcp_dispatch taken_all ex_later ex_hw d2 = Ret (Some p2, Ok (), d3, cx2) /\
  dhcp_process 20 ex_hw [10; 0; 0; 1] {| udp_src_port := 67; udp_dst_port := 68 |} (ex_payload 5 (ds_transaction_id d1)) d3 = Ret d4 /\
  fst (dhcp_poll d4) = Some (Configured
    {| cfg_server := {| sv_address := [10; 0; 0; 1]; sv_identifier := [10; 0; 0; 1] |};
       cfg_address := {| cidr_addr := [10; 0; 0; 2]; prefix_len := 24 |};
       cfg_router := Some [10; 0; 0; 1]; cfg_dns_servers := [[9; 9; 9; 9]]; cfg_packet := None |}).
Proof.
  destruct (dhcp_acquires ex_hw ex_ctx dhcp_new 0) as (p1 & d1 & cx1 & E1 & _ & H1);
    [unfold clock_ok; cbn; lia|exact client_new_ok|reflexivity|cbn; lia|].
  assert (Ex : ds_transaction_id d1 = 788327601).
  { pose proof (f_equal (fun o => match o with Ret (_, _, d, _) => ds_transaction_id d | Panic => 0 end) E1) as Ex; by vm_compute in Ex. }
  rewrite Ex in H1.
  destruct (H1 10 [10; 0; 0; 1] {| udp_src_port := 67; udp_dst_port := 68 |} (ex_payload 2 788327601) (ex_answer 2 788327601) [10; 0; 0; 1])
    as (d2 & E2 & H2); [unfold clock_ok; lia|by split|apply forall_in_u8_b; reflexivity|apply ex_message; split; lia|reflexivity|].
  destruct (H2 ex_later) as (p2 & d3 & cx2 & E3 & _ & H3); [cbn; lia|unfold clock_ok; cbn; lia|].
  destruct (H3 20 [10; 0; 0; 1] {| udp_src_port := 67; udp_dst_port := 68 |} (ex_payload 5 788327601) (ex_answer 5 788327601) [10; 0; 0; 1]
    [255; 255; 255; 0] 24) as (d4 & E4 & H4);
    [unfold clock_ok; lia|by split|apply forall_in_u8_b; reflexivity|apply ex_message; split; lia|reflexivity|reflexivity|reflexivity|].
  exists p1, d1, cx1, d2, p2, d3, cx2, d4; rewrite Ex; exact (conj E1 (conj E2 (conj E3 (conj E4 H4)))).
Defined.
