(* ===== verification/DhcpNet.v ===== *)
(** The interface under [learn_network]
    (vendor/smoltcp/src/iface/interface/{mod,ethernet,ipv4}.rs): the same
    interface as a worker's ([Net]), with a DHCP socket for its only socket. *)

From Stdlib Require Import ZArith Lia ZifyBool.
From stdpp Require Import base list gmap numbers.
From S2P Require Import Prelude Rss Device Time TcpWire Iface Frame DhcpWire Dhcp Network Worker.
From S2P Require Import Segment Neighbor Net.

(** ** Receiving *)

(** UDP to the client's port goes to the client and is never answered; the rest
    is treated as where there is no socket. *)
(* [iface/interface/ipv4.rs 95-184 InterfaceInner::process_ipv4] *)
Definition dhcp_ipv4 (cx : context) (src : eth_address) (data : list Z) (n : net) (d : dhcp_socket)
  : outcome (option ip_packet * context * net * dhcp_socket) :=
  let nothing := Ret (None, cx, n, d) in
  let rest := let! (p, cx, n, _) := process_ipv4 cx src data n [] in Ret (p, cx, n, d) in
  let! v4 := v4_parse data in
  match v4 with
  | None => nothing
  | Some v4 =>
      let ip := v4_ip v4 in
      if negb (is_unicast_v4 cx (ip_src ip)) && negb (is_unspecified (ip_src ip)) then nothing
      else
        let! payload := v4_payload data in
        if v4_next_header v4 =? PROTO_UDP then
          let! ok := udp_check_len payload in
          if negb ok then nothing
          else
            let! src_port := udp_get_src_port payload in
            let! dst_port := udp_get_dst_port payload in
            if (src_port =? ds_server_port d) && (dst_port =? ds_client_port d) then
              let! u := udp_parse payload in
              match u with
              | None => nothing
              | Some u =>
                  let! message := udp_payload payload in
                  let! d := dhcp_process (cx_now cx) (nt_hardware n) (ip_src ip) u message d in
                  Ret (None, cx, n, d)
              end
            else rest
        else rest
  end.

(** ** Sending *)

Definition dhcp_ip_packet (p : dhcp_packet) : ip_packet :=
  let '(ip, u, r) := p in (ip, PDhcp u r).

(** The client's turn; as for a TCP socket, [dispatch_ip] runs once. *)
(* [iface/interface/mod.rs 713-815 Interface::socket_egress] the loop body. *)
Definition dhcp_egress (cx : context) (st : neighbor_state) (d : dhcp_socket) (n : net)
  : outcome (bool * context * neighbor_state * dhcp_socket * net) :=
  let! (permitted, st) := egress_permitted (cx_now cx) (has_neighbor cx n) st in
  if negb permitted then Ret (false, cx, st, d, n)
  else
    let emit cx p := match dispatch_ip cx (dhcp_ip_packet p) n with Ret (r, _) => r | Panic => Ok () end in
    let! (p, _, d, cx) := dhcp_dispatch emit cx (nt_hardware n) d in
    match p with
    | None => Ret (false, cx, st, d, n)
    | Some p =>
        let! (r, n) := dispatch_ip cx (dhcp_ip_packet p) n in
        match r with
        | Ok _ => Ret (true, cx, st, d, n)
        | Err _ => Ret (false, cx, neighbor_missing (cx_now cx) (ip_dst (v4_ip (fst (fst p)))), d, n)
        end
    end.

(* [iface/interface/mod.rs 489-494 Interface::poll] the second loop. *)
Fixpoint dhcp_egress_loop (rounds : nat) (cx : context) (st : neighbor_state) (d : dhcp_socket) (n : net)
  : outcome (option (context * neighbor_state * dhcp_socket * net)) :=
  match rounds with
  | O => Ret None
  | S rounds =>
      let! (sent, cx, st, d, n) := dhcp_egress cx st d n in
      if sent : bool then dhcp_egress_loop rounds cx st d n else Ret (Some (cx, st, d, n))
  end.

(** ** The interface *)

Record dhcp_iface : Type := {
  di_cx : context;
  di_dev : dpdk_device;
  di_net : net;
  di_meta : neighbor_state;
  di_socket : dhcp_socket;
}.

Section Poll.
Context (oldest : gmap ip_address neighbor -> option ip_address) (fuel : nat).

(* [iface/interface/mod.rs 468-498 Interface::poll] *)
Definition dhcp_iface_poll (now : instant) (i : dhcp_iface) : outcome (option dhcp_iface) :=
  let! r := frame_loop oldest dhcp_ipv4 fuel fuel (with_now now (di_cx i)) (di_dev i) (di_net i) (di_socket i) in
  match r with
  | None => Ret None
  | Some (cx, dev, n, d) =>
      let! r := dhcp_egress_loop fuel cx (di_meta i) d n in
      Ret (option_map (fun '(cx, st, d, n) =>
        {| di_cx := cx; di_dev := dev; di_net := n; di_meta := st; di_socket := d |}) r)
  end.

(* [lib.rs 886-886 dhcp_acquire] *)
Definition dhcp_iface_ask (i : dhcp_iface) : option dhcp_event * dhcp_iface :=
  let '(ev, d) := dhcp_poll (di_socket i) in
  (ev, {| di_cx := di_cx i; di_dev := di_dev i; di_net := di_net i; di_meta := di_meta i; di_socket := d |}).

(* [lib.rs 893-893 dhcp_acquire] *)
Definition dhcp_iface_push (c : cidr) (i : dhcp_iface) : outcome dhcp_iface :=
  let! cx := update_ip_addrs c (di_cx i) in
  Ret {| di_cx := cx; di_dev := di_dev i; di_net := di_net i; di_meta := di_meta i; di_socket := di_socket i |}.

(* [lib.rs 895-895 dhcp_acquire] *)
Definition dhcp_iface_route (gateway : ip_address) (i : dhcp_iface) : dhcp_iface :=
  let n := di_net i in
  {| di_cx := di_cx i; di_dev := di_dev i;
     di_net := {| nt_hardware := nt_hardware n; nt_routes := add_default_ipv4_route gateway (nt_routes n);
                  nt_cache := nt_cache n; nt_meta := nt_meta n; nt_nic := nt_nic n |};
     di_meta := di_meta i; di_socket := di_socket i |}.

(** smoltcp's side of [dhcp_acquire]. *)
#[export] Instance dhcp_stack : NetStack :=
  {| iface := dhcp_iface; poll_iface := dhcp_iface_poll; poll_dhcp := dhcp_iface_ask;
     push_ip_addr := dhcp_iface_push; Network.add_default_ipv4_route := dhcp_iface_route |}.

End Poll.

(** A device without a port filter, and the interface with a new client. *)
(* [lib.rs 1401-1409 learn_network] *)
Definition learn_device : dpdk_device :=
  {| pending_synth := None; owned_ports := None;
     rx_pref_handles := zreplicate RX_BURST 0; rx_pref_data := zreplicate RX_BURST [];
     rx_pref_lens := zreplicate RX_BURST 0; rx_pref_pos := 0; rx_pref_len := 0 |}.

(* [lib.rs 1410-1416 learn_network] *)
Definition dhcp_iface_new (fuel : nat) (mac : eth_address) (card : nic) (now : instant) : option dhcp_iface :=
  match interface_new fuel now with
  | None => None
  | Some cx =>
      Some {| di_cx := cx; di_dev := learn_device;
              di_net := {| nt_hardware := mac; nt_routes := []; nt_cache := cache_new; nt_meta := []; nt_nic := card |};
              di_meta := Active; di_socket := dhcp_new |}
  end.
