(* ===== verification/DhcpNetOk.v ===== *)
(** The interface under [learn_network], step by step: without an address it
    still broadcasts what its DHCP client has to say and is silent otherwise, and
    whatever frames arrive, the client stays sound - its server can be reached,
    and its configuration has a frame to show for it. *)

From Stdlib Require Import ZArith Lia ZifyBool.
From stdpp Require Import base list gmap numbers.
From S2P Require Import Prelude Rss Device Time TcpWire Iface TcpState TcpSocket TcpProcess Worker.
From S2P Require Import TcpInv Frame Segment Neighbor Net NetOk FrameOk SegmentOk NetWire DhcpWire DhcpWireOk Dhcp DhcpOk Network DhcpNet.

(** ** Definitions of the specification *)

(** An interface that has no address yet. *)
Record bare (cx : context) : Prop := {
  ba_mtu : max_transmission_unit cx = MTU;
  ba_any : any_ip cx = false;
  ba_addrs : ip_addrs cx = [];
}.

(** The frame is a DHCP message [r] from a server's port at [src]. *)
Definition carries (fr : frame) (src : ip_address) (r : dhcp_repr) : Prop :=
  exists data v4 datagram message,
    eth_payload (ztake (snd fr) (snd (fst fr))) = Ret data /\
    v4_parse data = Ret (Some v4) /\ ip_src (v4_ip v4) = src /\ v4_payload data = Ret datagram /\
    udp_parse datagram = Ret (Some {| udp_src_port := 67; udp_dst_port := 68 |}) /\
    udp_payload datagram = Ret message /\ dhcp_parse message = Ret (Some r).

(** Every offer is sent from an address. *)
Definition offers_named (F : list frame) : Prop :=
  forall fr src r, fr ∈ F -> carries fr src r -> dh_message_type r = MSG_OFFER -> is_unspecified src = false.

(** A frame that acknowledges this configuration to [hw]. *)
Definition acked (F : list frame) (hw : eth_address) (cfg : dhcp_config) : Prop :=
  exists fr src r mask prefix,
    fr ∈ F /\ carries fr src r /\ dh_message_type r = MSG_ACK /\ dh_client_hardware_address r = hw /\
    dh_subnet_mask r = Some mask /\ mask_prefix_len mask = Some prefix /\ cfg = ack_config r prefix (cfg_server cfg).

Definition named (sv : server_info) : Prop := is_unicast (sv_address sv) = true /\ length (sv_identifier sv) = 4%nat.

(** The client as [learn_network] uses it: nothing asked beyond the defaults,
    a server that can be reached, a configuration with an origin. *)
Record client_good (F : list frame) (hw : eth_address) (d : dhcp_socket) : Prop := {
  cg_ok : client_ok d;
  cg_options : ds_outgoing_options d = [];
  cg_list : ds_parameter_request_list d = None;
  cg_xid : in_u32 (ds_transaction_id d);
  cg_state : match ds_state d with
             | Discovering _ => True
             | Requesting rq => named (rq_server rq) /\ length (rq_requested_ip rq) = 4%nat
             | Renewing rn => named (cfg_server (rn_config rn)) /\ acked F hw (rn_config rn)
             end;
}.

(** ** Without an address *)

Lemma bare_broadcast cx a : bare cx -> is_broadcast_v4 cx a = ip_is_broadcast a.
Proof. intros [_ _ E]; unfold is_broadcast_v4; rewrite E; by destruct (ip_is_broadcast a). Qed.

Lemma bare_has cx a : bare cx -> has_ip_addr cx a = false.
Proof. intros [_ E1 E2]; unfold has_ip_addr; by rewrite E1, E2. Qed.

Lemma unicast_classes a : is_unicast a = true ->
  ip_is_broadcast a = false /\ ip_is_multicast a = false /\ is_unspecified a = false.
Proof.
  unfold is_unicast, ip_is_broadcast, ip_is_multicast; destruct (bool_decide _); [done|].
  destruct a as [|b a]; [by destruct (is_unspecified [])|].
  destruct (_ && _); [done|]; by destruct (is_unspecified _).
Qed.

Lemma bare_unicast cx a : bare cx -> is_unicast_v4 cx a = is_unicast a.
Proof.
  intros Hc; unfold is_unicast_v4; rewrite bare_broadcast by done.
  destruct (is_unicast a) eqn:E; [|done]; by rewrite (proj1 (unicast_classes a E)).
Qed.

(** A host is out of reach: nothing is sent to it. *)
Lemma bare_route cx n a : bare cx -> nt_routes n = [] -> is_unicast a = true -> route_to cx n a = Ret None.
Proof.
  intros Hc Hr Ha; unfold route_to, in_same_network; rewrite (ba_addrs cx Hc), Hr; cbn [existsb orb].
  destruct (unicast_classes a Ha) as (-> & _); unfold routes_lookup; by rewrite Ha.
Qed.

Lemma bare_lookup cx n a : bare cx -> nt_routes n = [] -> is_unicast a = true ->
  lookup_hardware_addr cx a n = Ret (Err NoRoute, n).
Proof.
  intros Hc Hr Ha; unfold lookup_hardware_addr; rewrite bare_broadcast by done.
  destruct (unicast_classes a Ha) as (-> & -> & _); by rewrite bare_route.
Qed.

Lemma bare_dispatch cx n p : bare cx -> nt_routes n = [] -> is_unicast (ip_dst (v4_ip (fst p))) = true ->
  dispatch_ip cx p n = Ret (Err NoRoute, n).
Proof.
  intros Hc Hr Ha; unfold dispatch_ip; destruct (unicast_classes _ Ha) as (_ & _ & ->); cbn [negb].
  by rewrite bare_lookup.
Qed.

Lemma rst_reply_dst ip r q : rst_reply ip r = Ret q -> ip_dst (fst q) = ip_src ip.
Proof.
  unfold rst_reply, reply; intros H; destruct (ctl r), (ack_num r);
    try (apply obind_ret_inv in H as (a & _ & H)); by injection H as <-.
Qed.

(** A packet for the client's own use: no socket, no address to answer from. *)
Lemma bare_ipv4 cx src data n :
  bytes_ok data -> bare cx ->
  exists p, process_ipv4 cx src data n [] = Ret (p, cx, n, []) /\
    forall q, p = Some q -> is_unicast (ip_dst (v4_ip (fst q))) = true.
Proof.
  intros Hb Hc; unfold process_ipv4; destruct (v4_parse_spec data Hb) as (o & -> & Ho); cbn [obind].
  destruct o as [v4|]; [|by eexists].
  destruct (Ho v4 eq_refl) as ([_ _ Hl] & payload & -> & Hbp & Hlp); cbn [obind].
  rewrite (bare_unicast cx (ip_src _)), bare_has, bare_broadcast by done; cbn [negb andb].
  destruct (negb (is_unicast (ip_src _)) && _) eqn:Es; [by eexists|].
  assert (Hu : is_ret (if v4_next_header v4 =? PROTO_UDP then udp_check_len payload else Ret true))
    by (destruct (_ =? _); [apply udp_check_len_ret|by eexists]).
  destruct Hu as [ok ->]; cbn [obind]; destruct (negb ok); [by eexists|].
  destruct (negb (has_multicast_group _) && _) eqn:Em.
  { destruct (is_unicast (ip_dst (v4_ip v4))) eqn:Eu; cbn [negb]; [|by eexists].
    destruct (routes_lookup_ret cx _ n Eu) as [r ->]; by eexists. }
  assert (Hd : is_unicast_v4 cx (ip_dst (v4_ip v4)) = false).
  { rewrite bare_unicast by done; destruct (is_unicast (ip_dst (v4_ip v4))) eqn:Eu; [|done]; destruct (unicast_classes _ Eu) as (E & _).
    rewrite E, andb_true_r in Em; apply negb_false_iff in Em.
    unfold has_multicast_group in Em; apply bool_decide_eq_true in Em; rewrite Em in Eu; discriminate Eu. }
  unfold renew_neighbor, icmpv4_reply; rewrite Hd.
  destruct (_ =? _); [unfold process_icmpv4; destruct (icmp_parse_ret payload) as [x ->]; by eexists|].
  pose proof (len_nonneg payload); destruct (_ =? _).
  - unfold process_tcp; destruct (_ || _) eqn:Eun; [by eexists|]; apply orb_false_elim in Eun as [Esrc _].
    rewrite Esrc in Es; cbn [negb] in Es; rewrite andb_true_r in Es; apply negb_false_iff in Es.
    destruct (tcp_check_len_ret payload) as [ok2 ->]; cbn [obind]; destruct (negb ok2); [by eexists|].
    destruct (tcp_parse_ret payload) as [[r|] E]; rewrite E; cbn [obind]; [|by eexists].
    destruct (tcp_parse_sound payload r Hbp ltac:(lia) E) as (Hr & _); cbn [deliver obind].
    destruct (_ || _); [by eexists|]; destruct (rst_reply_ret (v4_ip v4) r Hr) as [q Eq]; rewrite Eq; cbn [obind].
    eexists; split; [reflexivity|]; intros ? [= <-]; cbn [tcp_packet fst v4_ip]; by rewrite (rst_reply_dst _ _ _ Eq).
  - unfold icmp_reply_payload_len; change (usize (576 - 20 * 2 - 8)) with 528.
    destruct (slice_is_ret payload 0 (Z.min (len payload) 528)) as [x ->]; [lia..|].
    eexists; split; [reflexivity|]; intros q; destruct (is_unicast_v4 cx (ip_src (v4_ip v4))); intros [=].
Qed.

(** ** The client *)

(** Only an acknowledgement configures, and it does so with its own fields. *)
Lemma parse_ack_config now r m server cfg t1 t2 t3 :
  parse_ack now r m server = Ret (Some (cfg, t1, t2, t3)) ->
  exists mask prefix, dh_subnet_mask r = Some mask /\ mask_prefix_len mask = Some prefix /\ cfg = ack_config r prefix server.
Proof.
  unfold parse_ack; destruct (dh_subnet_mask r) as [mask|]; [|done].
  destruct (mask_prefix_len mask) as [p|] eqn:Ep; [|done]; destruct (negb _); [done|].
  unfold cidr_new; destruct (p <=? 32); cbn [obind]; [|done].
  destruct (renew_rebind _ _ _) as [[a b]|]; cbn [obind]; [|done]; intros [= <- _ _ _]; by exists mask, p.
Qed.

Lemma renew_retry_config c now rn rn' : renew_retry c now rn = Ret rn' -> rn_config rn' = rn_config rn.
Proof.
  unfold renew_retry; destruct (rn_rebinding rn); intros (half & _ & [= <-])%obind_ret_inv; done.
Qed.

Section Client.
Context (F : list frame) (hw : eth_address) (Hnamed : offers_named F).

Definition state_good (st : client_state) : Prop :=
  match st with
  | Discovering _ => True
  | Requesting rq => named (rq_server rq) /\ length (rq_requested_ip rq) = 4%nat
  | Renewing rn => named (cfg_server (rn_config rn)) /\ acked F hw (rn_config rn)
  end.

Lemma client_good_moved d d' :
  client_good F hw d -> client_ok d' -> ds_outgoing_options d' = ds_outgoing_options d ->
  ds_parameter_request_list d' = ds_parameter_request_list d -> in_u32 (ds_transaction_id d') ->
  state_good (ds_state d') -> client_good F hw d'.
Proof using Type. intros [_ H1 H2 _ _] Hok E1 E2 Hx Hs; split; [done|congruence|congruence|done|exact Hs]. Qed.

Lemma client_good_reset d : client_good F hw d -> client_good F hw (dhcp_reset d).
Proof using Type.
  intros Hd; pose proof (proj1 (dhcp_reset_ok d (cg_ok F hw d Hd))) as Hok; destruct Hd as [_ H1 H2 H3 _].
  unfold dhcp_reset in *; destruct (ds_state d); by split.
Qed.

(** A message moves the client on, or leaves it. *)
Lemma step_good now fr src r sid d d' :
  fr ∈ F -> carries fr src r -> is_unicast src = true \/ is_unspecified src = true ->
  dh_client_hardware_address r = hw -> length sid = 4%nat -> length (dh_your_ip r) = 4%nat ->
  client_good F hw d -> client_ok d' -> dhcp_step now src r sid d = Ret d' -> client_good F hw d'.
Proof using Hnamed.
  intros Hfr Hr Hsrc Hhw Hsid Hip Hd Hok; pose proof Hd as [_ H1 H2 H3 H4]; unfold dhcp_step.
  assert (Hack : forall prefix mask server, dh_message_type r = MSG_ACK -> dh_subnet_mask r = Some mask ->
    mask_prefix_len mask = Some prefix -> acked F hw (ack_config r prefix server)).
  { intros prefix mask server Hm Em Ep; by exists fr, src, r, mask, prefix. }
  destruct (ds_state d) as [t|rq|rn] eqn:Es.
  - destruct (Z.eqb_spec (dh_message_type r) MSG_OFFER) as [Em|]; [|by intros [= <-]].
    destruct (negb _); [by intros [= <-]|]; intros [= <-]; apply (client_good_moved d); try done.
    split; [split; [|done]|done]; destruct Hsrc as [|Hsrc]; [done|exfalso].
    by rewrite (Hnamed fr src r) in Hsrc.
  - destruct (Z.eqb_spec (dh_message_type r) MSG_ACK) as [Em|].
    { destruct (parse_ack _ _ _ _) as [[[[[cfg t1] t2] t3]|]|] eqn:Ep; cbn [obind]; [|by intros [= <-]|done].
      apply parse_ack_config in Ep as (mask & p & E1 & E2 & ->); intros [= <-]; destruct H4 as [H4 _].
      apply (client_good_moved d); try done; split; [done|by eapply Hack]. }
    destruct (_ =? MSG_NAK); intros [= <-]; [|done]; destruct (ds_ignore_naks d); [done|by apply client_good_reset].
  - destruct (Z.eqb_spec (dh_message_type r) MSG_ACK) as [Em|].
    { destruct (parse_ack _ _ _ _) as [[[[[cfg t1] t2] t3]|]|] eqn:Ep; cbn [obind]; [|by intros [= <-]|done].
      apply parse_ack_config in Ep as (mask & p & E1 & E2 & ->); intros [= <-]; destruct H4 as [H4 _].
      destruct (_ || _); (apply (client_good_moved d); try done; split; [done|by eapply Hack]). }
    destruct (_ =? MSG_NAK); intros [= <-]; [|done]; destruct (ds_ignore_naks d); [done|by apply client_good_reset].
Qed.

(** A datagram for the client's port. *)
Lemma process_good now fr src message d :
  clock_ok now -> bytes_ok message -> fr ∈ F -> is_unicast src = true \/ is_unspecified src = true ->
  (forall r, dhcp_parse message = Ret (Some r) -> carries fr src r) -> client_good F hw d ->
  exists d', dhcp_process now hw src {| udp_src_port := 67; udp_dst_port := 68 |} message d = Ret d' /\ client_good F hw d'.
Proof using Hnamed.
  intros Hc Hb Hfr Hsrc Hr Hd; pose proof (cg_ok F hw d Hd) as Hok.
  destruct (dhcp_process_ok now hw src {| udp_src_port := 67; udp_dst_port := 68 |} message d Hc Hb Hok eq_refl eq_refl)
    as (d' & E & Hok' & _); exists d'; split; [exact E|]; revert E; unfold dhcp_process.
  destruct (_ && _); [|done]; destruct (negb (dhcp_check_len _)); [by intros [= <-]|].
  destruct (dhcp_parse_spec message Hb) as (o & Eo & Ho); rewrite Eo; cbn [obind]; destruct o as [r|]; [|by intros [= <-]].
  destruct (bool_decide _) eqn:Ehw; cbn [negb]; [|by intros [= <-]]; apply bool_decide_eq_true in Ehw.
  destruct (negb _); [by intros [= <-]|]; destruct (dh_server_identifier r) as [sid|] eqn:Es; [|by intros [= <-]].
  unfold keep_packet; rewrite (co_buffer d Hok); cbn [obind]; intros E; specialize (Ho r eq_refl).
  eapply (step_good now fr src r sid d d'); eauto; [by apply (dr_server r Ho)|by apply (dr_your_ip r Ho)].
Qed.

(** What the client sends: a message that fits, to everybody or to a host. *)
Record packet_good (p : dhcp_packet) : Prop := {
  pg_message : dhcp_ok (snd p);
  pg_src : length (ip_src (v4_ip (fst (fst p)))) = 4%nat;
  pg_len : ip_payload_len (v4_ip (fst (fst p))) = 8 + dhcp_buffer_len (snd p);
  pg_fits : dhcp_buffer_len (snd p) <= 300;
  pg_dst : ip_dst (v4_ip (fst (fst p))) = BROADCAST_IP \/ is_unicast (ip_dst (v4_ip (fst (fst p)))) = true;
}.

Lemma datagram_good cx d m xid src dst client requested sid :
  client_good F hw d -> length hw = 6%nat -> in_u8 m -> in_u32 xid -> length src = 4%nat -> length client = 4%nat ->
  (forall a, requested = Some a -> length a = 4%nat) -> (forall a, sid = Some a -> length a = 4%nat) ->
  dst = BROADCAST_IP \/ is_unicast dst = true ->
  packet_good (dhcp_datagram src dst (dhcp_message m xid client requested sid (dhcp_base cx hw d)) d).
Proof using Type.
  intros Hd Hhw Hm Hx Hsrc Hcl Hr Hs Hdst; pose proof (cg_options F hw d Hd) as E1; pose proof (cg_list F hw d Hd) as E2.
  assert (Hlen : 0 <= dhcp_buffer_len (dhcp_message m xid client requested sid (dhcp_base cx hw d)) <= 300).
  { unfold dhcp_buffer_len, opt_len; cbn; rewrite E1, E2; cbn; change (len DEFAULT_PARAMETER_REQUEST_LIST) with 3; destruct requested, sid; cbn; lia. }
  split; cbn [fst snd dhcp_datagram v4_ip ip_src ip_dst ip_payload_len]; [|done| |lia|done].
  - split; cbn [dhcp_message dhcp_base dh_router dh_subnet_mask dh_requested_ip dh_client_identifier dh_server_identifier
      dh_parameter_request_list dh_dns_servers dh_max_size dh_lease_duration dh_renew_duration dh_rebind_duration
      dh_additional_options]; try done; try by intros ? [= <-].
    + rewrite E2; intros l [= <-]; done.
    + intros n [= <-]; apply u16_range.
    + rewrite E1; constructor.
  - unfold UDP_HEADER_LEN; rewrite usize_small by lia; done.
Qed.

Lemma random_transaction_spec cx :
  in_u32 (fst (random_transaction_id cx)) /\ alike cx (snd (random_transaction_id cx)).
Proof using Type.
  unfold random_transaction_id; pose proof (u32_rand_range (cx_rand cx)); destruct (rand_u32 _) as [x r]; split; [done|by exists r].
Qed.

(** One turn of the client: what it hands over is good, and so is what it becomes. *)
Lemma dispatch_good {E} (emit : context -> dhcp_packet -> result unit E) cx d p res d' cx' :
  length hw = 6%nat -> client_good F hw d -> client_ok d' -> dhcp_dispatch emit cx hw d = Ret (p, res, d', cx') ->
  client_good F hw d' /\ alike cx cx' /\
  match p with Some p => packet_good p /\ res = emit cx' p | None => True end.
Proof using Type.
  intros Hhw Hd Hok; pose proof (alike_refl cx) as Hrefl; pose proof Hd as [_ _ _ H3 H4]; unfold dhcp_dispatch.
  destruct (random_transaction_spec cx) as [Hx Hcx]; destruct (random_transaction_id cx) as [xid cx1]; cbn [fst snd] in Hx, Hcx.
  destruct (ds_state d) as [t|rq|rn] eqn:Es.
  - destruct (_ <? _); [by intros [= <- <- <- <-]|]; set (q := dhcp_datagram _ _ _ _).
    assert (Hq : packet_good q) by (apply datagram_good; done || by left).
    destruct (emit cx1 q) as [[]|e] eqn:Ee; intros [= <- <- <- <-]; (split; [|by split]); [|done].
    by apply (client_good_moved d).
  - destruct (_ <? _); [by intros [= <- <- <- <-]|].
    destruct (_ <=? _); [intros [= <- <- <- <-]; split; [by apply client_good_reset|done]|]; set (q := dhcp_datagram _ _ _ _).
    assert (Hq : packet_good q).
    { destruct H4 as [[_ Hsid] Hrq]; apply datagram_good; try done; [by intros a [= <-]..|by left]. }
    destruct (emit cx q) as [[]|e] eqn:Ee; intros [= <- <- <- <-]; (split; [|by split]); [|done].
    by apply (client_good_moved d).
  - destruct (_ <=? _); [intros [= <- <- <- <-]; split; [by apply client_good_reset|done]|].
    destruct (_ || _); [by intros [= <- <- <- <-]|]; destruct H4 as [[Hsv Hsid] Hack]; set (rn1 := {| rn_config := _ |}).
    pose proof (co_state d (cg_ok F hw d Hd)) as Hl; rewrite Es in Hl; set (q := dhcp_datagram _ _ _ _).
    assert (Hq : packet_good q).
    { apply datagram_good; try done; [by apply (lo_len rn Hl)..|destruct (_ || _); [by left|by right]]. }
    destruct (emit cx1 q) as [[]|e] eqn:Ee.
    + intros (rn2 & E2 & [= <- <- <- <-])%obind_ret_inv; split; [|by split].
      apply renew_retry_config in E2; apply (client_good_moved d); try done; cbn [state_good ds_state with_client]; by rewrite E2.
    + intros [= <- <- <- <-]; split; [|by split]; by apply (client_good_moved d).
Qed.

End Client.

(** ** The interface *)

Lemma alike_bare cx cx' : alike cx cx' -> bare cx -> bare cx'.
Proof. intros [r ->] []; by split. Qed.

Lemma alike_now cx cx' : alike cx cx' -> cx_now cx' = cx_now cx.
Proof. by intros [r ->]. Qed.

(** What dispatching leaves as it was. *)
Definition kept (n n' : net) : Prop :=
  n' = with_nic (nt_nic n') n /\ nic_rx (nt_nic n') = nic_rx (nt_nic n) /\
  MISROUTED_DROPS (nt_nic n') = MISROUTED_DROPS (nt_nic n) /\ (buffers_ok (nt_nic n) -> buffers_ok (nt_nic n')).

Lemma kept_refl n : kept n n.
Proof. split_and!; try done; by destruct n. Qed.

(** A message of the client goes out, to everybody, or there is no route. *)
Lemma dispatch_dhcp cx p n :
  bare cx -> net_ok n -> nt_routes n = [] -> buffers_ok (nt_nic n) -> packet_good p ->
  exists r n', dispatch_ip cx (dhcp_ip_packet p) n = Ret (r, n') /\ kept n n' /\
    (forall e, r = Err e -> is_unicast (ip_dst (v4_ip (fst (fst p)))) = true).
Proof.
  destruct p as [[v4 u] r]; intros Hc Hn Hr Hb [Hm Hs Hl Hf Hd]; cbn [fst snd dhcp_ip_packet] in *.
  destruct Hd as [Ed|Hu]; [|exists (Err NoRoute), n; split; [by apply bare_dispatch|by split; [apply kept_refl|]]].
  assert (Hlen : 240 <= dhcp_buffer_len r) by (rewrite dhcp_buffer_len_ok by done; pose proof (len_nonneg (dhcp_options_bytes (dhcp_option_list r))); lia).
  unfold dispatch_ip, lookup_hardware_addr; cbn [fst snd dhcp_ip_packet]; rewrite Ed, bare_broadcast by done.
  change (negb (is_unspecified BROADCAST_IP)) with true; change (ip_is_broadcast BROADCAST_IP) with true; cbn [negb obind].
  rewrite Hl, (usize_small (20 + _)) by lia; assert (Emtu : ip_mtu cx = 1500) by (unfold ip_mtu; by rewrite (ba_mtu cx Hc)).
  rewrite Emtu, (proj2 (Z.ltb_ge _ _)), usize_small by lia.
  set (body := concat (dhcp_header r) ++ dhcp_options_bytes (dhcp_option_list r) ++ [255]).
  assert (Hbody : len body = dhcp_buffer_len r).
  { subst body; rewrite dhcp_buffer_len_ok, !len_app, dhcp_header_len by (done || apply (dk_fields r Hm)); done. }
  assert (Hv : ipv4_ok v4) by (split; [done|by rewrite Ed|lia]).
  assert (Hu : len (concat (udp_header u (dhcp_buffer_len r))) = 8).
  { unfold udp_header; cbn [concat]; rewrite !len_app, !len_be16; done. }
  destruct (transmit_ret (14 + (20 + (8 + dhcp_buffer_len r))) (emit_frame (nt_hardware n) ETH_BROADCAST (v4, PDhcp u r)) (nt_nic n))
    as (w & -> & Hw & Hrx & Hmr); [done|unfold MTU; lia| |].
  - intros b Hlb; eexists; rewrite (emit_frame_layout _ _ v4 _ (concat (udp_header u (dhcp_buffer_len r)) ++ body));
      [split; [reflexivity|]|done|apply Hn|done|lia|rewrite len_app; lia|].
    + rewrite !len_app, len_eth_header, v4_header_len20 by (done || apply Hn); lia.
    + intros x Hx; cbn [emit_payload]; unfold dhcp_udp_emit; apply udp_emit_ret; [lia|lia| |done].
      intros b1 Hb1; by rewrite dhcp_emit_ret.
  - cbn [obind]; do 2 eexists; split; [reflexivity|]; split; [by split_and!|done].
Qed.

(** A network interface without routes, whose buffers hold a frame. *)
Definition plain_net (hw : eth_address) (n : net) : Prop :=
  nt_hardware n = hw /\ net_ok n /\ nt_routes n = [] /\ buffers_ok (nt_nic n).

Lemma kept_plain hw n n' : kept n n' -> plain_net hw n -> plain_net hw n'.
Proof.
  intros (E & _ & _ & Hb) (H1 & [H2 H3 H4] & H5 & H6); rewrite E; cbn; split_and!; cbn; [done| |done|by apply Hb]; by split.
Qed.

Lemma net_kept_trans n1 n2 n3 : kept n1 n2 -> kept n2 n3 -> kept n1 n3.
Proof.
  intros (E1 & A1 & B1 & C1) (E2 & A2 & B2 & C2); split_and!; [rewrite E2, E1; done|congruence|congruence|auto].
Qed.

Definition waits_host (st : neighbor_state) : Prop := forall a t, st = Waiting a t -> is_unicast a = true.

Lemma permitted_ret cx n st :
  bare cx -> nt_routes n = [] -> waits_host st ->
  exists b st', egress_permitted (cx_now cx) (has_neighbor cx n) st = Ret (b, st') /\ waits_host st'.
Proof.
  intros Hc Hr Hw; destruct st as [|a t]; cbn [egress_permitted]; [by do 2 eexists|].
  unfold has_neighbor; rewrite bare_route by (done || by apply (Hw a t)); cbn [obind]; by do 2 eexists.
Qed.

Section Egress.
Context (F : list frame) (hw : eth_address).

Lemma egress_good cx st d n :
  bare cx -> clock_ok (cx_now cx) -> plain_net hw n -> waits_host st -> client_good F hw d ->
  exists sent cx' st' d' n', dhcp_egress cx st d n = Ret (sent, cx', st', d', n') /\
    alike cx cx' /\ waits_host st' /\ client_good F hw d' /\ kept n n' /\
    (sent = true -> cx_now cx < dhcp_poll_at d') /\ (cx_now cx < dhcp_poll_at d -> sent = false).
Proof using Type.
  intros Hc Hclk Hn Hw Hd; pose proof Hn as (Hhw & Hno & Hr & Hb); unfold dhcp_egress.
  destruct (permitted_ret cx n st Hc Hr Hw) as (b & st1 & -> & Hw1); cbn [obind]; pose proof (kept_refl n); pose proof (alike_refl cx).
  destruct b; cbn [negb]; [|do 5 eexists; by split_and!].
  set (emit := fun cx1 p => match dispatch_ip cx1 (dhcp_ip_packet p) n with Ret (r, _) => r | Panic => Ok () end).
  destruct (dhcp_dispatch_ok emit cx hw d Hclk (cg_ok F hw d Hd)) as (p & res & d' & cx' & E & Hdisp).
  rewrite Hhw, E; cbn [obind]; apply (dispatch_good F hw) in E as (Hd' & Hcx & Hp); [|rewrite <-Hhw; apply Hno|done|apply Hdisp].
  destruct p as [p|]; [|do 5 eexists; split_and!; done || by split_and!].
  destruct Hp as [Hp Eres].
  destruct (dispatch_dhcp cx' p n) as (r & n' & E & Hk & He); [by eapply alike_bare|done..|].
  rewrite E; cbn [obind]; unfold emit in Eres; rewrite E in Eres; subst r.
  assert (Hdue : dhcp_poll_at d <= cx_now cx).
  { destruct (Z.ltb_spec (cx_now cx) (dhcp_poll_at d)) as [Hlt|]; [|done]; by apply (di_early _ _ _ _ _ Hdisp) in Hlt as [? _]. }
  destruct res as [[]|e]; do 5 eexists; (split; [reflexivity|]); split_and!; try done; try lia.
  - intros _; by apply (di_next _ _ _ _ _ Hdisp).
  - intros a t [= <- _]; by apply (He e).
Qed.

Lemma egress_loop_good rounds cx st d n :
  (2 <= rounds)%nat -> bare cx -> clock_ok (cx_now cx) -> plain_net hw n -> waits_host st -> client_good F hw d ->
  exists cx' st' d' n', dhcp_egress_loop rounds cx st d n = Ret (Some (cx', st', d', n')) /\
    alike cx cx' /\ waits_host st' /\ client_good F hw d' /\ kept n n'.
Proof using Type.
  intros Hf Hc Hclk Hn Hw Hd; destruct rounds as [|[|rounds]]; [lia..|]; cbn [dhcp_egress_loop].
  destruct (egress_good cx st d n Hc Hclk Hn Hw Hd) as (sent & cx1 & st1 & d1 & n1 & -> & Hcx1 & Hw1 & Hd1 & Hk1 & Hnext & _).
  cbn [obind]; destruct sent; [|do 4 eexists; by split_and!].
  destruct (egress_good cx1 st1 d1 n1) as (sent & cx2 & st2 & d2 & n2 & -> & Hcx2 & Hw2 & Hd2 & Hk2 & _ & Hidle);
    [by eapply alike_bare|by rewrite (alike_now cx)|by eapply kept_plain|done..|].
  cbn [obind]; rewrite (alike_now cx cx1) in Hidle by done; rewrite (Hidle (Hnext eq_refl)).
  do 4 eexists; split; [reflexivity|]; split_and!; [by eapply alike_trans|done|done|by eapply net_kept_trans].
Qed.
End Egress.

(** ** Reception *)

Lemma udp_fields data :
  bytes_ok data -> udp_check_len data = Ret true ->
  is_ret (udp_get_src_port data) /\ is_ret (udp_get_dst_port data) /\
  (forall sp dp, udp_get_src_port data = Ret sp -> udp_get_dst_port data = Ret dp -> 0 < dp ->
     udp_parse data = Ret (Some {| udp_src_port := sp; udp_dst_port := dp |})) /\
  exists p, udp_payload data = Ret p /\ bytes_ok p.
Proof.
  intros Hb Hok; pose proof Hok as Hl; unfold udp_check_len in Hl; destruct (Z.ltb_spec (len data) 8); [done|].
  destruct (read_be_is_ret data 4 2) as [n En]; [lia..|]; rewrite En in Hl; cbn [obind] in Hl; injection Hl as Hl.
  split_and!; [apply read_be_is_ret; lia..| |].
  - intros sp dp Es Ed Hp; unfold udp_parse; rewrite Hok; cbn [obind]; rewrite Ed; cbn [obind].
    rewrite (proj2 (Z.eqb_neq dp 0)) by lia; cbn [negb]; by rewrite Es.
  - unfold udp_payload, udp_len; rewrite En; cbn [obind]; destruct (slice_is_ret data 8 n) as [p Ep]; [lia..|].
    exists p; split; [exact Ep|by eapply slice_bytes].
Qed.

Section Ingress.
Context (oldest : gmap ip_address neighbor -> option ip_address) (Holdest : oldest_ok oldest).
Context (F : list frame) (hw : eth_address) (Hnamed : offers_named F).

Definition answer_lost (p : option ip_packet) : Prop :=
  forall q, p = Some q -> is_unicast (ip_dst (v4_ip (fst q))) = true.

Lemma dhcp_ipv4_good cx fr src data n d :
  bare cx -> clock_ok (cx_now cx) -> plain_net hw n -> client_good F hw d ->
  fr ∈ F -> eth_payload (ztake (snd fr) (snd (fst fr))) = Ret data -> bytes_ok data ->
  exists p d', dhcp_ipv4 cx src data n d = Ret (p, cx, n, d') /\ client_good F hw d' /\ answer_lost p.
Proof using Hnamed.
  intros Hc Hclk Hn Hd Hfr Hdata Hb; unfold dhcp_ipv4.
  assert (Hnone : answer_lost None) by (by intros q [=]).
  assert (Hrest : exists p d', (let! (p, cx, n, _) := process_ipv4 cx src data n [] in Ret (p, cx, n, d)) = Ret (p, cx, n, d') /\
    client_good F hw d' /\ answer_lost p).
  { destruct (bare_ipv4 cx src data n Hb Hc) as (p & -> & Hp); cbn [obind]; by exists p, d. }
  destruct (v4_parse_spec data Hb) as (o & Ev & Ho); rewrite Ev; cbn [obind]; destruct o as [v4|]; [|by do 2 eexists].
  destruct (Ho v4 eq_refl) as (_ & payload & Ep & Hbp & _); rewrite bare_unicast, Ep by done; cbn [obind].
  destruct (_ && _) eqn:Es; [by do 2 eexists|]; destruct (_ =? _); [|done].
  assert (Hsrc : is_unicast (ip_src (v4_ip v4)) = true \/ is_unspecified (ip_src (v4_ip v4)) = true)
    by (destruct (is_unicast _), (is_unspecified _); auto).
  destruct (udp_check_len_ret payload) as [ok Eok]; rewrite Eok; cbn [obind]; destruct ok; cbn [negb]; [|by do 2 eexists].
  destruct (udp_fields payload Hbp Eok) as ([sp Esp] & [dp Edp] & Hparse & message & Em & Hbm); rewrite Esp, Edp; cbn [obind].
  destruct (co_ports d (cg_ok F hw d Hd)) as [-> ->].
  destruct ((sp =? 67) && (dp =? 68)) eqn:Eports; [|done]; assert (sp = 67) as -> by lia; assert (dp = 68) as -> by lia.
  rewrite (Hparse 67 68 Esp Edp) by lia; cbn [obind]; rewrite Em; cbn [obind]; destruct Hn as (-> & _).
  destruct (process_good F hw Hnamed (cx_now cx) fr (ip_src (v4_ip v4)) message d) as (d' & -> & Hd'); try done.
  - intros r Er; exists data, v4, payload, message; split_and!; try done; by apply Hparse.
  - by do 2 eexists.
Qed.

Definition frame_lost (p : option eth_packet) : Prop :=
  forall q, p = Some q -> exists p, q = EthIp p /\ answer_lost (Some p).

Lemma ethernet_good cx fr n d :
  bare cx -> clock_ok (cx_now cx) -> plain_net hw n -> client_good F hw d -> fr ∈ F ->
  bytes_ok (ztake (snd fr) (snd (fst fr))) ->
  exists p d', ethernet_frame oldest dhcp_ipv4 cx (ztake (snd fr) (snd (fst fr))) n d = Ret (p, cx, n, d') /\
    client_good F hw d' /\ frame_lost p.
Proof using Hnamed Holdest.
  intros Hc Hclk Hn Hd Hfr Hb; pose proof Hn as (_ & Hno & _).
  destruct (ethernet_frame_ret oldest dhcp_ipv4 (fun p cx' n' d' => cx' = cx /\ n' = n /\ client_good F hw d' /\ frame_lost p)
    cx (ztake (snd fr) (snd (fst fr))) n d Holdest Hb Hno) as (p & cx' & n' & d' & E & _ & -> & -> & Hd' & Hp).
  - by split_and!; [..|intros q [=]].
  - intros data r n1; unfold process_arp; destruct (arp_check_len data) as [ok|]; cbn [obind]; [|done].
    assert (Hlost : frame_lost (option_map EthArp None)) by (by intros q [=]).
    destruct (negb ok); [intros [= <- <-]; by split_and!|]; destruct (arp_parse data) as [[q|]|]; cbn [obind]; [| |done].
    + rewrite bare_has by done; cbn [negb]; intros [= <- <-]; by split_and!.
    + intros [= <- <-]; by split_and!.
  - intros src data Edata Hbd; destruct (dhcp_ipv4_good cx fr src data n d) as (p & d' & -> & Hd' & Hp); try done.
    do 4 eexists; split; [reflexivity|]; split; [done|]; split_and!; try done.
    intros q Hq; destruct p as [p|]; [|done]; injection Hq as <-; by exists p.
  - by exists p, d'.
Qed.

(** What the two loops keep. *)
Record ready (dev : dpdk_device) (n : net) (d : dhcp_socket) : Prop := {
  rd_dev : device_inv dev;
  rd_synth : pending_synth dev = None;
  rd_nic : nic_ok (nt_nic n);
  rd_pending : pending dev (nt_nic n) ⊆ F;
  rd_net : plain_net hw n;
  rd_client : client_good F hw d;
}.

Definition waiting (dev : dpdk_device) (n : net) : nat := length (pending dev (nt_nic n)).

Lemma ready_kept dev n n' d d' :
  kept n n' -> client_good F hw d' -> ready dev n d -> ready dev n' d' /\ waiting dev n' = waiting dev n.
Proof using Type.
  intros Hk Hd' [H1 H2 [H3 H4] H5 H6 H7]; pose proof Hk as (_ & Erx & Emr & _).
  unfold waiting, pending in *; rewrite <-Erx in *; split; [|done]; split; try done; [|by eapply kept_plain].
  split; [by rewrite Emr|done].
Qed.

(** One frame less, or none left. *)
Lemma receive_ready fuel cx dev n d :
  bare cx -> ready dev n d -> (waiting dev n < fuel)%nat ->
  exists tok dev' w, receive fuel dev (nt_nic n) = Some (Ret (tok, dev', w)) /\ ready dev' (with_nic w n) d /\
    match tok with
    | None => (waiting dev' (with_nic w n) <= waiting dev n)%nat
    | Some tok => (waiting dev' (with_nic w n) < waiting dev n)%nat /\
    exists fr, fr ∈ F /\ bytes_ok (ztake (snd fr) (snd (fst fr))) /\
    rx_consume (fun b => b) tok w = Ret (ztake (snd fr) (snd (fst fr)), shim_mbuf_free w (fst (fst fr)))
    end.
Proof using Type.
  intros Hc [H1 H2 H3 H4 H5 H6] Hf; pose proof H5 as (Hhw & Hno & Hr & Hb).
  destruct (receive_loop_spec fuel dev (nt_nic n) H1 H3 Hf) as (dropped & tok & dev' & w & E & Hp & Hsynth).
  pose proof (receive_loop_kept _ _ _ _ _ _ H1 H3 E) as [Ea Es]; exists tok, dev', w.
  unfold receive; rewrite H2; split; [done|]; pose proof Hp as (P1 & _ & _ & _ & _ & P6 & P7 & _ & _).
  unfold waiting; cbn [nt_nic with_nic]; rewrite P1 in H4 |- *.
  assert (Hsub : pending dev' w ⊆ F) by (intros fr Hfr; apply H4; rewrite !elem_of_app; auto).
  split.
  { split; [done|congruence|done|done| |done]; split_and!; cbn; [done| |done|by unfold buffers_ok; rewrite Ea]; by destruct Hno; split. }
  rewrite !length_app; destruct tok as [tok|]; [|lia]; destruct tok as [h data k|b]; [|by destruct (Hsynth b)].
  cbn [token_frames length]; split; [lia|]; exists (h, data, k); cbn [fst snd].
  pose proof (pending_ok dev (nt_nic n) H1 H3) as Hok; rewrite P1 in Hok; apply Forall_app in Hok as [_ Hok].
  apply Forall_cons_1 in Hok as [(Hk & Hk2 & Hbytes) _].
  split; [apply H4; cbn [token_frames]; rewrite elem_of_app; right; by left|].
  split; [by apply Forall_ztake|]; cbn [rx_consume]; unfold from_raw_parts; rewrite slice_ret by lia; cbn [obind].
  by rewrite Z.sub_0_r.
Qed.

Lemma free_kept n h : kept n (with_nic (shim_mbuf_free (nt_nic n) h) n).
Proof using Type. by split_and!. Qed.

Lemma frame_ingress_good fuel cx dev n d :
  bare cx -> clock_ok (cx_now cx) -> ready dev n d -> (waiting dev n < fuel)%nat ->
  exists more dev' n' d', frame_ingress oldest dhcp_ipv4 fuel cx dev n d = Ret (Some (more, cx, dev', n', d')) /\
    ready dev' n' d' /\ (waiting dev' n' <= waiting dev n)%nat /\ (more = true -> (waiting dev' n' < waiting dev n)%nat).
Proof using Hnamed Holdest.
  intros Hc Hclk Hrd Hf; unfold frame_ingress.
  destruct (receive_ready fuel cx dev n d Hc Hrd Hf) as (tok & dev1 & w & -> & Hrd1 & Htok); cbn [obind].
  destruct tok as [tok|]; [|by do 4 eexists].
  destruct Htok as (Hlt & fr & Hfr & Hbytes & ->); cbn [obind].
  destruct (ready_kept dev1 _ _ d d (free_kept (with_nic w n) (fst (fst fr))) (rd_client _ _ _ Hrd1) Hrd1) as [Hrd2 Hw2].
  change (with_nic (shim_mbuf_free (nt_nic (with_nic w n)) (fst (fst fr))) (with_nic w n))
    with (with_nic (shim_mbuf_free w (fst (fst fr))) n) in *.
  set (n2 := with_nic (shim_mbuf_free w (fst (fst fr))) n) in *.
  destruct (_ =? 0); [do 4 eexists; split; [reflexivity|]; split_and!; [done|lia|lia]|].
  destruct (ethernet_good cx fr n2 d Hc Hclk (rd_net _ _ _ Hrd2) (rd_client _ _ _ Hrd2) Hfr Hbytes) as (p & d' & -> & Hd' & Hp).
  cbn [obind]; destruct (ready_kept dev1 n2 n2 d d' (kept_refl n2) Hd' Hrd2) as [Hrd3 _].
  destruct p as [p|]; [|do 4 eexists; split; [reflexivity|]; split_and!; [done|lia|lia]].
  destruct (Hp p eq_refl) as (q & -> & Hq); cbn [dispatch_eth].
  rewrite bare_dispatch by (done || apply (rd_net _ _ _ Hrd2) || by apply Hq); cbn [obind].
  do 4 eexists; split; [reflexivity|]; split_and!; [done|lia|lia].
Qed.

Lemma frame_loop_good rounds fuel cx dev n d :
  bare cx -> clock_ok (cx_now cx) -> ready dev n d -> (waiting dev n < fuel)%nat -> (waiting dev n < rounds)%nat ->
  exists dev' n' d', frame_loop oldest dhcp_ipv4 rounds fuel cx dev n d = Ret (Some (cx, dev', n', d')) /\
    ready dev' n' d' /\ (waiting dev' n' <= waiting dev n)%nat.
Proof using Hnamed Holdest.
  intros Hc Hclk; revert dev n d; induction rounds as [|rounds IH]; intros dev n d Hrd Hf Hr; [lia|]; cbn [frame_loop].
  destruct (frame_ingress_good fuel cx dev n d Hc Hclk Hrd Hf) as (more & dev1 & n1 & d1 & -> & Hrd1 & Hle & Hlt); cbn [obind].
  destruct more; [|by do 3 eexists]; specialize (Hlt eq_refl).
  destruct (IH dev1 n1 d1 Hrd1) as (dev2 & n2 & d2 & -> & Hrd2 & Hle2); [lia..|]; do 3 eexists; split; [done|]; split; [done|lia].
Qed.
End Ingress.

(** ** The frame of a message *)

Lemma ret_eq {A} (a b : A) : Ret a = Ret b -> a = b.
Proof. by intros [= ->]. Qed.

Definition dhcp_v4 (src dst : ip_address) (payload : list Z) : ipv4_repr :=
  {| v4_ip := {| ip_src := src; ip_dst := dst; ip_payload_len := 8 + len payload; ip_hop_limit := 64 |};
     v4_next_header := PROTO_UDP |}.

(** From a server's port to a client's. *)
Definition dhcp_frame (smac dmac : eth_address) (src dst : ip_address) (payload : list Z) : list Z :=
  eth_header smac dmac ++ v4_header (dhcp_v4 src dst payload) ++
  concat (udp_header {| udp_src_port := 67; udp_dst_port := 68 |} (len payload)) ++ payload.

Section DhcpFrame.
Context (smac dmac : eth_address) (src dst : ip_address) (payload : list Z).
Context (Hs : length smac = 6%nat) (Hd : length dmac = 6%nat) (Hsrc : length src = 4%nat) (Hdst : length dst = 4%nat).
Context (Hp : len payload < 65000).

Lemma dhcp_frame_fields :
  let data := v4_header (dhcp_v4 src dst payload) ++
    concat (udp_header {| udp_src_port := 67; udp_dst_port := 68 |} (len payload)) ++ payload in
  let datagram := concat (udp_header {| udp_src_port := 67; udp_dst_port := 68 |} (len payload)) ++ payload in
  v4_check_len data = Ret true /\ v4_parse data = Ret (Some (dhcp_v4 src dst payload)) /\ v4_payload data = Ret datagram /\
  udp_check_len datagram = Ret true /\ udp_get_src_port datagram = Ret 67 /\ udp_get_dst_port datagram = Ret 68 /\
  udp_parse datagram = Ret (Some {| udp_src_port := 67; udp_dst_port := 68 |}) /\ udp_payload datagram = Ret payload.
Proof using Hsrc Hdst Hp.
  clear Hs Hd; intros data datagram; pose proof (len_nonneg payload) as H0.
  assert (Hv : ipv4_ok (dhcp_v4 src dst payload)) by (split; cbn; [done|done|lia]).
  assert (Hl : len datagram = ip_payload_len (v4_ip (dhcp_v4 src dst payload))).
  { subst datagram; rewrite len_app; unfold udp_header; cbn [concat]; rewrite !len_app, !len_be16; cbn; change (len []) with 0; lia. }
  destruct (udp_parse_ret {| udp_src_port := 67; udp_dst_port := 68 |} (len payload) payload) as [Hparse Hpay]; [done|lia|cbn; lia|].
  fold datagram in Hparse, Hpay.
  assert (Hu : udp_check_len datagram = Ret true /\ udp_get_src_port datagram = Ret 67 /\ udp_get_dst_port datagram = Ret 68).
  { revert Hparse; unfold udp_parse; destruct (udp_check_len datagram) as [[|]|]; cbn [obind]; try done.
    destruct (udp_get_dst_port datagram) as [dp|]; cbn [obind]; [|done]; destruct (negb _); [|done].
    destruct (udp_get_src_port datagram) as [sp|]; cbn [obind]; [|done]; by intros [= -> ->]. }
  destruct Hu as (H1 & H2 & H3); split_and!; try done; [by apply v4_layout_check|by apply v4_layout_parse|by apply v4_layout_payload].
Qed.

(** The client is handed it, from whatever source it has. *)
Lemma dhcp_frame_arrives oldest cx n d :
  eth_is_broadcast dmac = true \/ dmac = nt_hardware n ->
  is_unicast_v4 cx src = true \/ is_unspecified src = true -> client_ok d ->
  ethernet_frame oldest dhcp_ipv4 cx (dhcp_frame smac dmac src dst payload) n d =
  let! d := dhcp_process (cx_now cx) (nt_hardware n) src {| udp_src_port := 67; udp_dst_port := 68 |} payload d in
  Ret (None, cx, n, d).
Proof using Hs Hd Hsrc Hdst Hp.
  intros Hmac Hsrc' Hok; destruct dhcp_frame_fields as (E1 & E2 & E3 & E4 & E5 & E6 & E7 & E8).
  unfold ethernet_frame, dhcp_frame; destruct (eth_fields smac dmac (v4_header (dhcp_v4 src dst payload) ++
    concat (udp_header {| udp_src_port := 67; udp_dst_port := 68 |} (len payload)) ++ payload) Hs Hd) as (-> & -> & -> & -> & ->).
  cbn [obind negb].
  replace (negb (eth_is_broadcast dmac) && negb (eth_is_multicast dmac) && negb (bool_decide (dmac = nt_hardware n))) with false
    by (destruct Hmac as [->|E]; [done|rewrite (bool_decide_true _ E); by rewrite andb_false_r]).
  cbn [Z.eqb ETHERTYPE_ARP ETHERTYPE_IPV4 Pos.eqb]; rewrite E1; cbn [obind negb].
  unfold dhcp_ipv4; rewrite E2; cbn [obind dhcp_v4 v4_ip ip_src v4_next_header].
  replace (negb (is_unicast_v4 cx src) && negb (is_unspecified src)) with false
    by (destruct Hsrc' as [->| ->]; [done|by rewrite andb_false_r]).
  rewrite E3; change (PROTO_UDP =? PROTO_UDP) with true; cbn [obind]; rewrite E4, E5, E6; cbn [obind negb].
  destruct (co_ports d Hok) as [-> ->]; cbn [Z.eqb Pos.eqb andb]; rewrite E7, E8; cbn [obind].
  by destruct (dhcp_process _ _ _ _ _ _).
Qed.

(** Nobody else takes it for another message. *)
Lemma dhcp_frame_carries h k src' r tail :
  carries (h, dhcp_frame smac dmac src dst payload ++ tail, k) src' r ->
  k = len (dhcp_frame smac dmac src dst payload) -> src' = src /\ dhcp_parse payload = Ret (Some r).
Proof using Hs Hd Hsrc Hdst Hp.
  intros (data & v4 & datagram & message & H1 & H2 & H3 & H4 & H5 & H6 & H7) ->; cbn [fst snd] in H1.
  rewrite ztake_app_le, ztake_ge in H1 by lia; unfold dhcp_frame in H1.
  destruct (eth_fields smac dmac (v4_header (dhcp_v4 src dst payload) ++
    concat (udp_header {| udp_src_port := 67; udp_dst_port := 68 |} (len payload)) ++ payload) Hs Hd) as (_ & _ & _ & _ & E).
  rewrite E in H1; apply ret_eq in H1 as <-; destruct dhcp_frame_fields as (_ & E2 & E3 & _ & _ & _ & _ & E8).
  rewrite E2 in H2; injection H2 as <-; rewrite E3 in H4; apply ret_eq in H4 as <-; rewrite E8 in H6; apply ret_eq in H6 as <-; by split.
Qed.
End DhcpFrame.
