(* ===== verification/DhcpSays.v ===== *)
(** What the interface under [learn_network] puts on the wire: without an
    address of its own it broadcasts what its DHCP client has to say, once, as
    soon as it is due. *)

From Stdlib Require Import ZArith Lia ZifyBool.
From stdpp Require Import base list gmap numbers.
From S2P Require Import Prelude Rss Device Time TcpWire Iface TcpState TcpSocket TcpProcess Worker.
From S2P Require Import TcpInv Frame Segment Neighbor Net NetOk FrameOk SegmentOk NetWire DhcpWire DhcpWireOk Dhcp DhcpOk Network DhcpNet DhcpNetOk.

(** ** The frame of a message *)

(** A message of the client in a frame to everybody. *)
Definition dhcp_body (r : dhcp_repr) : list Z := concat (dhcp_header r) ++ dhcp_options_bytes (dhcp_option_list r) ++ [255].
Definition broadcast_frame (hw : eth_address) (p : dhcp_packet) : list Z :=
  let '(v4, u, r) := p in
  eth_header hw ETH_BROADCAST ++ v4_header v4 ++ concat (udp_header u (dhcp_buffer_len r)) ++ dhcp_body r.

(** The frame is on the ring, or it is lost there, which is counted. *)
Definition on_ring (w w' : nic) (frame : list Z) : Prop :=
  (exists h, sent w' = sent w ++ [(h, frame)]) \/ failed w w'.

Lemma dispatch_broadcast cx p n :
  bare cx -> net_ok n -> nt_routes n = [] -> buffers_ok (nt_nic n) -> packet_good p ->
  ip_dst (v4_ip (fst (fst p))) = BROADCAST_IP ->
  exists n', dispatch_ip cx (dhcp_ip_packet p) n = Ret (Ok (), n') /\ on_ring (nt_nic n) (nt_nic n') (broadcast_frame (nt_hardware n) p).
Proof.
  intros Hc Hn Hr Hb Hp Ed; destruct (dispatch_dhcp cx p n Hc Hn Hr Hb Hp) as (r0 & n' & E & Hk & He).
  assert (r0 = Ok ()) as ->.
  { destruct r0 as [[]|e]; [done|]; specialize (He e eq_refl); by rewrite Ed in He. }
  exists n'; split; [done|]; destruct p as [[v4 u] r]; destruct Hp as [Hm Hs Hl Hf _]; cbn [fst snd dhcp_ip_packet] in *.
  assert (Hlen : 240 <= dhcp_buffer_len r) by (rewrite dhcp_buffer_len_ok by done; pose proof (len_nonneg (dhcp_options_bytes (dhcp_option_list r))); lia).
  revert E; unfold dispatch_ip, lookup_hardware_addr; cbn [fst snd dhcp_ip_packet]; rewrite Ed, bare_broadcast by done.
  change (negb (is_unspecified BROADCAST_IP)) with true; change (ip_is_broadcast BROADCAST_IP) with true; cbn [negb obind].
  rewrite Hl, (usize_small (20 + _)) by lia; assert (Emtu : ip_mtu cx = 1500) by (unfold ip_mtu; by rewrite (ba_mtu cx Hc)).
  rewrite Emtu, (proj2 (Z.ltb_ge _ _)), usize_small by lia.
  assert (Hbody : len (dhcp_body r) = dhcp_buffer_len r).
  { unfold dhcp_body; rewrite dhcp_buffer_len_ok, !len_app, dhcp_header_len by (done || apply (dk_fields r Hm)); done. }
  assert (Hv : ipv4_ok v4) by (split; [done|by rewrite Ed|lia]).
  assert (Hu : len (concat (udp_header u (dhcp_buffer_len r))) = 8).
  { unfold udp_header; cbn [concat]; rewrite !len_app, !len_be16; done. }
  assert (Hemit : forall b, len b = 14 + (20 + (8 + dhcp_buffer_len r)) ->
    emit_frame (nt_hardware n) ETH_BROADCAST (v4, PDhcp u r) b = Ret (broadcast_frame (nt_hardware n) (v4, u, r))).
  { intros b Hlb; apply emit_frame_layout; [done|apply Hn|done|lia|rewrite len_app; lia|].
    intros x Hx; cbn [emit_payload]; unfold dhcp_udp_emit; apply udp_emit_ret; [lia|lia| |done].
    intros b1 Hb1; by rewrite dhcp_emit_ret. }
  assert (Hflen : len (broadcast_frame (nt_hardware n) (v4, u, r)) = 14 + (20 + (8 + dhcp_buffer_len r))).
  { unfold broadcast_frame; rewrite !len_app, len_eth_header, v4_header_len20 by (done || apply Hn); lia. }
  destruct (transmit _ _ _) as [w|] eqn:Et; cbn [obind]; [|done]; intros [= <-]; cbn [nt_nic with_nic].
  apply transmit_spec in Et as (b & out & Eb & Eo & Hout); [|done|unfold MTU; lia|].
  2:{ intros b out E Eb; rewrite Hemit in E by done; by injection E as <-. }
  rewrite Hemit in Eo by done; injection Eo as <-; exact Hout.
Qed.

(** ** The client's turn *)

(** The next DISCOVER, and the REQUEST for what a server has offered. *)
Definition next_discover (cx : context) (hw : eth_address) (d : dhcp_socket) : dhcp_packet :=
  dhcp_datagram UNSPECIFIED BROADCAST_IP
    (dhcp_message MSG_DISCOVER (fst (random_transaction_id cx)) UNSPECIFIED None None (dhcp_base cx hw d)) d.
Definition next_request (cx : context) (hw : eth_address) (d : dhcp_socket) (rq : request_state) : dhcp_packet :=
  dhcp_datagram UNSPECIFIED BROADCAST_IP
    (dhcp_message MSG_REQUEST (ds_transaction_id d) UNSPECIFIED (Some (rq_requested_ip rq)) (Some (sv_identifier (rq_server rq)))
       (dhcp_base cx hw d)) d.

(** What a client that is not configured has said in a poll: the message that
    was due, in one frame to everybody, under the transaction it now waits for;
    nothing when none was due, or after the last retry. *)
Definition said (cx : context) (hw : eth_address) (d : dhcp_socket) (w : nic) (d' : dhcp_socket) (w' : nic) : Prop :=
  match ds_state d with
  | Discovering t =>
      if cx_now cx <? t then w' = w /\ d' = d
      else on_ring w w' (broadcast_frame hw (next_discover cx hw d)) /\
           ds_transaction_id d' = fst (random_transaction_id cx) /\ exists t', ds_state d' = Discovering t' /\ cx_now cx < t'
  | Requesting rq =>
      if cx_now cx <? rq_retry_at rq then w' = w /\ d' = d
      else if 5 <=? rq_retry rq then w' = w /\ d' = dhcp_reset d
      else on_ring w w' (broadcast_frame hw (next_request cx hw d rq)) /\
           ds_transaction_id d' = ds_transaction_id d /\
           exists rq', ds_state d' = Requesting rq' /\ rq_requested_ip rq' = rq_requested_ip rq /\ cx_now cx < rq_retry_at rq'
  | Renewing _ => True
  end.

Definition configured (d : dhcp_socket) : bool := match ds_state d with Renewing _ => true | _ => false end.

Section Turn.
Context (F : list frame) (hw : eth_address).

Lemma egress_says cx d n sent cx' st' d' n' :
  bare cx -> clock_ok (cx_now cx) -> plain_net hw n -> client_good F hw d -> configured d = false ->
  dhcp_egress cx Active d n = Ret (sent, cx', st', d', n') ->
  st' = Active /\ configured d' = false /\ said cx hw d (nt_nic n) d' (nt_nic n').
Proof using Type.
  intros Hc Hclk Hn Hd Hu; pose proof Hn as (Hhw & Hno & Hr & Hb); unfold dhcp_egress; cbn [egress_permitted obind negb].
  set (emit := fun cx1 p => match dispatch_ip cx1 (dhcp_ip_packet p) n with Ret (r, _) => r | Panic => Ok () end); rewrite Hhw.
  destruct (dhcp_dispatch_ok emit cx hw d Hclk (cg_ok F hw d Hd)) as (p & res & d1 & cx1 & E & Hdisp); rewrite E; cbn [obind].
  pose proof (co_state d (cg_ok F hw d Hd)) as Hst; pose proof (co_retry d (cg_ok F hw d Hd)) as Eretry.
  pose proof E as Eg; apply (dispatch_good F hw) in Eg as (_ & Hcx & Hp); [|rewrite <-Hhw; apply Hno|done|apply Hdisp].
  assert (Hgo : forall q, p = Some q -> ip_dst (v4_ip (fst (fst q))) = BROADCAST_IP ->
    exists n1, dispatch_ip cx1 (dhcp_ip_packet q) n = Ret (Ok (), n1) /\ emit cx1 q = Ok () /\
      on_ring (nt_nic n) (nt_nic n1) (broadcast_frame hw q)).
  { intros q -> Hq; destruct Hp as [Hp _]; destruct (dispatch_broadcast cx1 q n) as (n1 & E1 & Ho); try done; [by eapply alike_bare|].
    exists n1; split; [done|]; subst emit; cbn beta; rewrite E1; split; [done|]; by rewrite Hhw in Ho. }
  pose proof (di_next _ _ _ _ _ Hdisp) as Hnext; unfold said, configured, dhcp_poll_at in *; revert E; unfold dhcp_dispatch.
  destruct (random_transaction_id cx) as [xid cx2] eqn:Er; cbn [fst]; destruct (ds_state d) as [t|rq|rn] eqn:Es; [| |done].
  - destruct (cx_now cx <? t) eqn:Et; [intros [= <- <- <- <-] [= <- <- <- <- <-]; by rewrite Es|].
    set (q := dhcp_datagram _ _ _ _); intros E; assert (p = Some q /\ cx1 = cx2) as [-> ->] by (destruct (emit cx2 q) as [[]|]; by injection E).
    destruct (Hgo q eq_refl eq_refl) as (n1 & E1 & E2 & Ho); rewrite E2 in E; injection E as <- <-; rewrite E1; cbn [obind].
    intros [= <- <- <- <- <-]; split_and!; try done; [unfold next_discover; by rewrite Er|].
    eexists; split; [reflexivity|]; apply Hnext; [lia|done|done].
  - destruct (cx_now cx <? rq_retry_at rq) eqn:Et; [intros [= <- <- <- <-] [= <- <- <- <- <-]; by rewrite Es|].
    rewrite Eretry; change (rc_request_retries retry_config_default) with 5.
    destruct (5 <=? rq_retry rq); [intros [= <- <- <- <-] [= <- <- <- <- <-]; split_and!; try done; by destruct (ds_state (dhcp_reset d))|].
    set (q := dhcp_datagram _ _ _ _); intros E; assert (p = Some q /\ cx1 = cx) as [-> ->] by (destruct (emit cx q) as [[]|]; by injection E).
    destruct (Hgo q eq_refl eq_refl) as (n1 & E1 & E2 & Ho); rewrite E2 in E; injection E as <- <-; rewrite E1; cbn [obind].
    intros [= <- <- <- <- <-]; split_and!; try done; eexists; split; [reflexivity|]; split; [done|]; apply Hnext; [lia|done|done].
Qed.

Lemma egress_loop_says rounds cx d n cx' st' d' n' :
  (2 <= rounds)%nat -> bare cx -> clock_ok (cx_now cx) -> plain_net hw n -> client_good F hw d -> configured d = false ->
  dhcp_egress_loop rounds cx Active d n = Ret (Some (cx', st', d', n')) ->
  st' = Active /\ configured d' = false /\ said cx hw d (nt_nic n) d' (nt_nic n').
Proof using Type.
  intros Hf Hc Hclk Hn Hd Hu; destruct rounds as [|[|rounds]]; [lia..|]; cbn [dhcp_egress_loop].
  destruct (egress_good F hw cx Active d n Hc Hclk Hn ltac:(intros a t [=]) Hd) as (sent & cx1 & st1 & d1 & n1 & E & Hcx1 & Hw1 & Hd1 & Hk1 & Hnext & _).
  destruct (egress_says _ _ _ _ _ _ _ _ Hc Hclk Hn Hd Hu E) as (-> & Hu1 & Hs1); rewrite E; cbn [obind].
  destruct sent; [|by intros [= <- <- <- <-]]; specialize (Hnext eq_refl).
  assert (Hc1 : bare cx1) by (by eapply alike_bare); assert (En : cx_now cx1 = cx_now cx) by (by apply alike_now).
  assert (Hn1 : plain_net hw n1) by (by eapply kept_plain).
  destruct (egress_good F hw cx1 Active d1 n1 Hc1 ltac:(by rewrite En) Hn1 Hw1 Hd1) as (sent & cx2 & st2 & d2 & n2 & E2 & _ & _ & _ & _ & _ & Hidle).
  rewrite En in Hidle; rewrite (Hidle Hnext) in E2; rewrite E2; cbn [obind]; intros [= <- <- <- <-].
  destruct (egress_says cx1 d1 n1 _ _ _ _ _ Hc1 ltac:(by rewrite En) Hn1 Hd1 Hu1 E2) as (-> & Hu2 & Hs2).
  assert (nt_nic n2 = nt_nic n1 /\ d2 = d1) as [-> ->]; [|done].
  unfold said, configured, dhcp_poll_at in Hs2, Hnext, Hu1; rewrite En in Hs2.
  destruct (ds_state d1); [| |done]; by rewrite (proj2 (Z.ltb_lt _ _) Hnext) in Hs2.
Qed.
End Turn.

(** ** A configuration is news *)

(** A client that is configured has not told yet. *)
Definition news (d : dhcp_socket) : Prop := configured d = true -> ds_config_changed d = true.

Lemma reset_news d : news d -> news (dhcp_reset d).
Proof. unfold news, configured, dhcp_reset; by destruct (ds_state d). Qed.

Lemma step_news now src r sid d d' : dhcp_step now src r sid d = Ret d' -> news d -> news d'.
Proof.
  unfold dhcp_step; pose proof (reset_news d) as Hreset; intros H Hn; revert H.
  assert (Hnak : (if dh_message_type r =? MSG_NAK then Ret (if ds_ignore_naks d then d else dhcp_reset d) else Ret d) = Ret d' -> news d').
  { destruct (_ =? _); [destruct (ds_ignore_naks d)|]; intros [= <-]; auto. }
  assert (Hnew : forall rn, news (config_changed (with_ds_state (Renewing rn) d))) by done.
  destruct (ds_state d) as [t|rq|rn] eqn:Es.
  - destruct (_ =? MSG_OFFER); [|by intros [= <-]]; destruct (negb _); intros [= <-]; [done|]; by intros [=].
  - destruct (_ =? MSG_ACK); [|exact Hnak].
    destruct (parse_ack _ _ _ _) as [[[[[cfg t1] t2] t3]|]|]; cbn [obind]; [|by intros [= <-]|done]; intros [= <-]; apply Hnew.
  - assert (Hc : ds_config_changed d = true) by (apply Hn; unfold configured; by rewrite Es).
    destruct (_ =? MSG_ACK); [|exact Hnak].
    destruct (parse_ack _ _ _ _) as [[[[[cfg t1] t2] t3]|]|]; cbn [obind]; [|by intros [= <-]|done]; intros [= <-].
    destruct (_ || _); [apply Hnew|]; by intros _.
Qed.

Lemma process_news now hw src u m d d' : dhcp_process now hw src u m d = Ret d' -> news d -> news d'.
Proof.
  unfold dhcp_process; destruct (_ && _); [|done]; destruct (negb _); [by intros [= <-]|].
  destruct (dhcp_parse m) as [[r|]|]; cbn [obind]; [|by intros [= <-]|done].
  do 2 (destruct (negb _); [by intros [= <-]|]); destruct (dh_server_identifier r) as [sid|]; [|by intros [= <-]].
  unfold keep_packet; destruct (ds_receive_packet_buffer d) as [b|]; cbn [obind]; [|by apply step_news].
  destruct (_ <=? _); [|by apply step_news].
  destruct (copy_from_slice _ _ _ _) as [b'|]; cbn [obind]; [|done]; intros H Hn; apply step_news in H; done.
Qed.

Lemma ipv4_news cx src data n d p cx' n' d' : dhcp_ipv4 cx src data n d = Ret (p, cx', n', d') -> news d -> news d'.
Proof.
  unfold dhcp_ipv4; assert (Hrest : (let! (p, cx, n, _) := process_ipv4 cx src data n [] in Ret (p, cx, n, d)) = Ret (p, cx', n', d') ->
    news d -> news d') by (destruct (process_ipv4 _ _ _ _ _) as [[[[]]]|]; cbn [obind]; [|done]; by intros [= _ _ _ <-]).
  destruct (v4_parse data) as [[v4|]|]; cbn [obind]; [|by intros [= _ _ _ <-]|done].
  destruct (_ && _); [by intros [= _ _ _ <-]|]; destruct (v4_payload data) as [pay|]; cbn [obind]; [|done].
  destruct (_ =? _); [|done]; destruct (udp_check_len pay) as [[|]|]; cbn [obind negb]; [|by intros [= _ _ _ <-]|done].
  destruct (udp_get_src_port pay), (udp_get_dst_port pay); cbn [obind]; try done; destruct (_ && _); [|done].
  destruct (udp_parse pay) as [[u|]|]; cbn [obind]; [|by intros [= _ _ _ <-]|done].
  destruct (udp_payload pay) as [m|]; cbn [obind]; [|done].
  destruct (dhcp_process _ _ _ _ _ _) as [d1|] eqn:E; cbn [obind]; [|done]; intros [= _ _ _ <-]; by eapply process_news.
Qed.

Section Frames.
Context (oldest : gmap ip_address neighbor -> option ip_address).

Lemma ethernet_news cx frame n d p cx' n' d' :
  ethernet_frame oldest dhcp_ipv4 cx frame n d = Ret (p, cx', n', d') -> news d -> news d'.
Proof using Type.
  unfold ethernet_frame; destruct (negb _); [by intros [= _ _ _ <-]|].
  destruct (eth_dst_addr frame); cbn [obind]; [|done]; destruct (_ && _); [by intros [= _ _ _ <-]|].
  destruct (eth_ethertype frame) as [ty|]; cbn [obind]; [|done]; destruct (ty =? ETHERTYPE_ARP).
  { destruct (eth_payload frame); cbn [obind]; [|done]; destruct (process_arp _ _ _ _) as [[]|]; cbn [obind]; [|done]. by intros [= _ _ _ <-]. }
  destruct (ty =? ETHERTYPE_IPV4); [|by intros [= _ _ _ <-]].
  destruct (eth_payload frame) as [data|]; cbn [obind]; [|done].
  destruct (v4_check_len data) as [[|]|]; cbn [obind negb]; [|by intros [= _ _ _ <-]|done].
  destruct (eth_src_addr frame) as [src|]; cbn [obind]; [|done].
  destruct (dhcp_ipv4 _ _ _ _ _) as [[[[q1 cx1] n1] d1]|] eqn:Ei; cbn [obind]; [|done]; intros [= _ _ _ <-]; by eapply ipv4_news.
Qed.

Lemma frame_loop_news rounds fuel cx dev n d cx' dev' n' d' :
  frame_loop oldest dhcp_ipv4 rounds fuel cx dev n d = Ret (Some (cx', dev', n', d')) -> news d -> news d'.
Proof using Type.
  revert cx dev n d; induction rounds as [|rounds IH]; intros cx dev n d; cbn [frame_loop]; [done|].
  destruct (frame_ingress oldest dhcp_ipv4 fuel cx dev n d) as [[[[[[more cx1] dev1] n1] d1]|]|] eqn:E; cbn [obind]; try done.
  assert (Hd : news d -> news d1).
  { revert E; unfold frame_ingress; destruct (receive fuel dev (nt_nic n)) as [[[[tok dev2] w]|]|]; cbn [obind]; try done.
    destruct tok as [tok|]; [|by intros [= _ _ _ _ <-]]; destruct (rx_consume _ tok w) as [[frame w1]|]; cbn [obind]; [|done].
    destruct (_ =? 0); [by intros [= _ _ _ _ <-]|].
    destruct (ethernet_frame _ _ _ _ _ _) as [[[[p cx2] n2] d2]|] eqn:Ee; cbn [obind]; [|done]; pose proof (ethernet_news _ _ _ _ _ _ _ _ Ee) as Hn.
    destruct p as [p|]; [destruct (dispatch_eth cx2 p n2); cbn [obind]; [|done]|]; intros [= _ _ _ _ <-]; assumption. }
  destruct more; [intros H Hn; eapply IH; [exact H|auto]|by intros [= _ _ _ <-]].
Qed.
End Frames.

Lemma egress_loop_news F hw rounds cx st d n cx' st' d' n' :
  (2 <= rounds)%nat -> bare cx -> clock_ok (cx_now cx) -> plain_net hw n -> waits_host st -> client_good F hw d ->
  dhcp_egress_loop rounds cx st d n = Ret (Some (cx', st', d', n')) -> news d -> news d'.
Proof.
  assert (Hone : forall cx st d n sent cx' st' d' n', clock_ok (cx_now cx) -> client_good F hw d ->
    dhcp_egress cx st d n = Ret (sent, cx', st', d', n') -> news d -> news d').
  { clear; intros cx st d n sent cx' st' d' n' Hclk Hd; unfold dhcp_egress.
    destruct (egress_permitted _ _ _) as [[[|] st1]|]; cbn [obind negb]; [|by intros [= _ _ _ <- _]|done].
    set (emit := fun cx p => match dispatch_ip cx (dhcp_ip_packet p) n with Ret (r, _) => r | Panic => Ok () end).
    destruct (dhcp_dispatch_ok emit cx (nt_hardware n) d Hclk (cg_ok F hw d Hd)) as (p & res & d1 & cx1 & E & Hdisp); rewrite E; cbn [obind].
    assert (Hn : news d -> news d1).
    { intros Hn Hc1; destruct (di_noticed _ _ _ _ _ Hdisp) as [?|[Ec Er]]; [done|]; rewrite Ec; apply Hn.
      revert Er Hc1; unfold report_of, configured; by destruct (ds_state d), (ds_state d1). }
    destruct p as [p|]; [|by intros [= _ _ _ <- _]]; destruct (dispatch_ip cx1 _ n) as [[[u|e] n1]|]; cbn [obind]; [| |done];
      intros [= _ _ _ <- _]; assumption. }
  intros Hf Hc Hclk Hn Hw Hd; destruct rounds as [|[|rounds]]; [lia..|]; cbn [dhcp_egress_loop].
  destruct (egress_good F hw cx st d n Hc Hclk Hn Hw Hd) as (sent & cx1 & st1 & d1 & n1 & E & Hcx1 & Hw1 & Hd1 & Hk1 & Hnext & _).
  pose proof (Hone _ _ _ _ _ _ _ _ _ Hclk Hd E) as H1; rewrite E; cbn [obind]; destruct sent; [|by intros [= <- <- <- <-]].
  assert (Hc1 : bare cx1) by (by eapply alike_bare); assert (En : cx_now cx1 = cx_now cx) by (by apply alike_now).
  destruct (egress_good F hw cx1 st1 d1 n1 Hc1 ltac:(by rewrite En) ltac:(by eapply kept_plain) Hw1 Hd1)
    as (sent & cx2 & st2 & d2 & n2 & E2 & _ & _ & Hd2 & _ & _ & Hidle).
  rewrite En in Hidle; rewrite (Hidle (Hnext eq_refl)) in E2; rewrite E2; cbn [obind]; intros [= <- <- <- <-] H.
  eapply (Hone cx1 st1 d1); [by rewrite En|done|exact E2|auto].
Qed.

(** A client that loses its configuration in its turn has sent nothing. *)
Lemma egress_loop_lost F hw rounds cx d n cx' st' d' n' :
  (2 <= rounds)%nat -> bare cx -> clock_ok (cx_now cx) -> plain_net hw n -> client_good F hw d -> configured d = true ->
  dhcp_egress_loop rounds cx Active d n = Ret (Some (cx', st', d', n')) -> configured d' = true \/ st' = Active.
Proof.
  assert (Hone : forall cx d n sent cx' st' d' n', configured d = true -> dhcp_egress cx Active d n = Ret (sent, cx', st', d', n') ->
    configured d' = true \/ st' = Active /\ sent = false).
  { clear; intros cx d n sent cx' st' d' n'; unfold configured, dhcp_egress; cbn [egress_permitted obind negb]; unfold dhcp_dispatch.
    destruct (random_transaction_id cx) as [xid cx1]; destruct (ds_state d) as [|rq|rn] eqn:Es; [done..|intros _].
    destruct (_ <=? _); [intros [= <- <- <- <- <-]; by right|].
    destruct (_ || _); [intros [= <- <- <- <- <-]; left; by rewrite Es|].
    set (q := dhcp_datagram _ _ _ _); destruct (dispatch_ip cx1 (dhcp_ip_packet q) n) as [[[[]|e] n1]|] eqn:E.
    - destruct (renew_retry _ _ _); cbn [obind]; [|done]; rewrite E; cbn [obind]; intros [= <- <- <- <- <-]; by left.
    - cbn [obind]; rewrite E; cbn [obind]; intros [= <- <- <- <- <-]; by left.
    - destruct (renew_retry _ _ _); cbn [obind]; [|done]; by rewrite E. }
  intros Hf Hc Hclk Hn Hd Hu; destruct rounds as [|[|rounds]]; [lia..|]; cbn [dhcp_egress_loop].
  destruct (egress_good F hw cx Active d n Hc Hclk Hn ltac:(intros a t [=]) Hd) as (sent & cx1 & st1 & d1 & n1 & E & Hcx1 & Hw1 & Hd1 & Hk1 & Hnext & _).
  destruct (Hone _ _ _ _ _ _ _ _ Hu E) as [Hu1|[-> ->]]; rewrite E; cbn [obind]; [|intros [= <- <- <- <-]; by right].
  destruct sent; [|intros [= <- <- <- <-]; by left]; specialize (Hnext eq_refl).
  assert (Hc1 : bare cx1) by (by eapply alike_bare); assert (En : cx_now cx1 = cx_now cx) by (by apply alike_now).
  destruct (egress_good F hw cx1 st1 d1 n1 Hc1 ltac:(by rewrite En) ltac:(by eapply kept_plain) Hw1 Hd1)
    as (sent & cx2 & st2 & d2 & n2 & E2 & _ & _ & _ & _ & _ & Hidle).
  rewrite En in Hidle; rewrite (Hidle Hnext) in E2; rewrite E2; cbn [obind]; intros [= <- <- <- <-]; left.
  revert E2; unfold dhcp_egress; destruct (egress_permitted _ _ _) as [[[|] st3]|]; cbn [obind negb]; [|by intros [= _ _ <- _]|done].
  set (emit := fun cx p => match dispatch_ip cx (dhcp_ip_packet p) n1 with Ret (r, _) => r | Panic => Ok () end).
  destruct (dhcp_dispatch_ok emit cx1 (nt_hardware n1) d1 ltac:(by rewrite En) (cg_ok F hw d1 Hd1)) as (p & res & d3 & cx3 & E3 & Hdisp); rewrite E3; cbn [obind].
  destruct (di_early _ _ _ _ _ Hdisp) as [-> ->]; [by rewrite En|]; by intros [= _ _ <- _].
Qed.
