(* ===== verification/LearnOk.v ===== *)
(** The interface under [learn_network] keeps the interface's promise
    ([NetStackOk]): whatever the card delivers, learning the network ends, and
    the address learnt is one a server has acknowledged to this hardware
    address - as long as every offer has a source address; an offer without one
    can make the next poll panic. *)

From Stdlib Require Import ZArith Lia ZifyBool.
From stdpp Require Import base list gmap numbers.
From S2P Require Import Prelude Rss Device Time TcpWire Iface TcpState TcpSocket TcpProcess Worker.
From S2P Require Import TcpInv Frame Segment Neighbor Net NetOk FrameOk SegmentOk NetWire DhcpWire DhcpWireOk Dhcp DhcpOk Network DhcpNet DhcpNetOk DhcpSays.

(** ** The promise to [learn_network] *)

Lemma learn_device_inv : device_inv learn_device.
Proof.
  unfold device_inv, learn_device, RX_BURST; cbn [rx_pref_handles rx_pref_data rx_pref_lens rx_pref_pos rx_pref_len owned_ports].
  rewrite !len_zreplicate by lia; split_and!; try lia; try done.
Qed.

Section Stack.
Context (oldest : gmap ip_address neighbor -> option ip_address) (Holdest : oldest_ok oldest).
Context (fuel : nat) (Hfuel : (2 <= fuel)%nat).
Context (F : list frame) (hw : eth_address) (Hnamed : offers_named F).

(** An interface on its way to an address; its card has less than [fuel] frames
    to come, all in [F]. *)
Record iface_good (i : dhcp_iface) : Prop := {
  ig_cx : bare (di_cx i);
  ig_ready : ready F hw (di_dev i) (di_net i) (di_socket i);
  ig_meta : waits_host (di_meta i);
  ig_fuel : (waiting (di_dev i) (di_net i) < fuel)%nat;
}.

Lemma poll_iface_good t i :
  clock_ok t -> iface_good i -> exists i', dhcp_iface_poll oldest fuel t i = Ret (Some i') /\ iface_good i'.
Proof using Holdest Hfuel Hnamed.
  intros Ht [Hc Hrd Hm Hf]; unfold dhcp_iface_poll; assert (Hc' : bare (with_now t (di_cx i))) by (by destruct Hc; split).
  destruct (frame_loop_good oldest Holdest F hw Hnamed fuel fuel (with_now t (di_cx i)) (di_dev i) (di_net i) (di_socket i))
    as (dev & n & d & -> & Hrd1 & Hw1); [done..|]; cbn [obind].
  destruct (egress_loop_good F hw fuel (with_now t (di_cx i)) (di_meta i) d n)
    as (cx2 & st2 & d2 & n2 & -> & Hcx2 & Hst2 & Hd2 & Hk2); [done..|apply Hrd1|done|apply Hrd1|].
  cbn [obind option_map]; eexists; split; [reflexivity|].
  destruct (ready_kept F hw dev n n2 d d2 Hk2 Hd2 Hrd1) as [Hrd2 Hw2].
  split; cbn [di_cx di_dev di_net di_meta di_socket]; [by eapply alike_bare|done|done|lia].
Qed.

Lemma ask_good i : iface_good i -> iface_good (snd (dhcp_iface_ask i)).
Proof using Type.
  intros [Hc Hrd Hm Hf]; unfold dhcp_iface_ask; assert (Hd : client_good F hw (snd (dhcp_poll (di_socket i)))).
  { pose proof (rd_client _ _ _ _ _ Hrd) as Hd; pose proof (cg_ok _ _ _ Hd) as Hok; pose proof (co_state _ Hok) as Hst.
    unfold dhcp_poll; destruct (ds_config_changed _); cbn [negb]; [|done]; pose proof Hd as [_ _ _ Hx Hs].
    destruct (ds_state (di_socket i)) eqn:Es; (apply (client_good_moved F hw (di_socket i)); try done; by apply client_ok_state). }
  destruct (dhcp_poll (di_socket i)) as [ev d]; cbn [snd] in *; destruct (ready_kept F hw _ _ _ _ d (kept_refl _) Hd Hrd).
  by split.
Qed.

(** The configuration reported is the lease's. *)
Lemma ask_config i cfg : iface_good i -> fst (dhcp_iface_ask i) = Some (Configured cfg) ->
  exists rn, ds_state (di_socket i) = Renewing rn /\ cfg = rn_config rn /\ lease_ok rn /\ acked F hw cfg.
Proof using Type.
  intros [_ Hrd _ _]; pose proof (rd_client _ _ _ _ _ Hrd) as Hd; pose proof (cg_ok _ _ _ Hd) as Hok.
  unfold dhcp_iface_ask, dhcp_poll; destruct (ds_config_changed _); cbn [negb fst]; [|done].
  pose proof (co_state _ Hok) as Hl; pose proof (cg_state _ _ _ Hd) as Ha.
  destruct (ds_state (di_socket i)) as [|rq|rn]; cbn [fst]; try done; rewrite (co_buffer _ Hok); intros [= <-].
  pose proof (lo_packet rn Hl) as Ep; destruct rn as [[sv a ro dns pk] t1 t2 b t3]; cbn in Ep |- *; subst pk.
  eexists; split; [reflexivity|]; split; [reflexivity|]; split; [exact Hl|apply Ha].
Qed.

#[export] Instance dhcp_stack_ok : @NetStackOk (dhcp_stack oldest fuel).
Proof using Holdest Hfuel Hnamed F hw.
  refine {| net_good := iface_good : @iface (dhcp_stack oldest fuel) -> Prop |}.
  - intros t i Ht Hi; by apply poll_iface_good.
  - intros i Hi; by apply ask_good.
  - intros i cfg Hi Hc; destruct (ask_config i cfg Hi Hc) as (rn & _ & -> & Hl & _).
    unfold len; split; [by rewrite (lo_len rn Hl)|]; intros r Hr; by rewrite (lo_router rn Hl r Hr).
  - intros i cfg Hi Hc; destruct (ask_config i cfg Hi Hc) as (rn & _ & -> & Hl & _); cbn [push_ip_addr poll_dhcp dhcp_stack].
    unfold dhcp_iface_ask, dhcp_iface_push; destruct (dhcp_poll _) as [ev d]; cbn [snd di_cx]; unfold update_ip_addrs.
    rewrite (ba_addrs _ (ig_cx i Hi)); change (len [] <? 2) with true; cbn [app forallb]; rewrite (lo_unicast rn Hl); by eexists.
Defined.

(** ** What it says

    A round of [dhcp_acquire]: after the frames that have come, the client has
    said what was due. *)
Definition round_says (t : instant) (i i' : dhcp_iface) : Prop :=
  let cx := with_now t (di_cx i) in
  exists dev n d,
    frame_loop oldest dhcp_ipv4 fuel fuel cx (di_dev i) (di_net i) (di_socket i) = Ret (Some (cx, dev, n, d)) /\
    said cx hw d (nt_nic n) (di_socket i') (nt_nic (di_net i')).

(** Not configured, and no neighbor to wait for. *)
Definition asking (i : dhcp_iface) : Prop := iface_good i /\ di_meta i = Active /\ configured (di_socket i) = false.

Lemma poll_iface_says t i :
  clock_ok t -> asking i -> exists i', dhcp_iface_poll oldest fuel t i = Ret (Some i') /\ iface_good i' /\ round_says t i i' /\
    (configured (di_socket i') = true /\ ds_config_changed (di_socket i') = true \/
     configured (di_socket i') = false /\ di_meta i' = Active).
Proof using Holdest Hfuel Hnamed.
  intros Ht (Hi & Hm & Hu); destruct (poll_iface_good t i Ht Hi) as (i' & E & Hi'); exists i'; split; [exact E|split; [exact Hi'|]].
  pose proof Hi as [Hc Hrd _ Hf]; assert (Hc' : bare (with_now t (di_cx i))) by (by destruct Hc; split).
  destruct (frame_loop_good oldest Holdest F hw Hnamed fuel fuel (with_now t (di_cx i)) (di_dev i) (di_net i) (di_socket i))
    as (dev & n & d & Ef & Hrd1 & _); [done..|].
  assert (Hnews : news d) by (eapply frame_loop_news; [exact Ef|unfold news; by rewrite Hu]).
  unfold dhcp_iface_poll in E; rewrite Ef in E; cbn [obind] in E; rewrite Hm in E.
  destruct (dhcp_egress_loop _ _ _ _ _) as [[[[[cx2 st2] d2] n2]|]|] eqn:Ee; cbn [obind option_map] in E; try done; injection E as <-.
  cbn [di_socket di_meta di_net]; unfold round_says; cbn [di_socket di_net]; destruct (configured d) eqn:Ed.
  - split; [exists dev, n, d; split; [exact Ef|]; unfold said; unfold configured in Ed; by destruct (ds_state d)|].
    destruct (configured d2) eqn:Ed2; [left; split; [done|]|right; split; [done|]].
    + by eapply (egress_loop_news F hw); [..|exact Ee| |]; try done; apply Hrd1.
    + by eapply (egress_loop_lost F hw) in Ee as [Hx|Hx]; [congruence|exact Hx|..]; try done; apply Hrd1.
  - edestruct (egress_loop_says F hw) as (-> & Hd2 & Hs); [..|exact Ee|]; try done; try apply Hrd1.
    split; [by exists dev, n, d|by right].
Qed.

Section Rounds.
Context (clk : mono_clock) (times : nat -> Z) (Htimes : forall j, in_u64 (times j)) (Hclk : in_u64 (epoch_ns clk)).

Lemma asking_round k i :
  asking i -> (forall cfg, fst (@dhcp_round (dhcp_stack oldest fuel) clk times k i) <> Some (Configured cfg)) ->
  asking (snd (@dhcp_round (dhcp_stack oldest fuel) clk times k i)).
Proof using Holdest Hfuel Hnamed Htimes Hclk F hw.
  intros Hi; destruct (poll_iface_says (round_time clk times k) i (round_time_ok clk times Htimes Hclk k) Hi) as (i' & E & Hi' & _ & Hd).
  unfold dhcp_round; cbn [poll_iface poll_dhcp dhcp_stack]; rewrite E; intros Hno; split; [by apply ask_good|].
  unfold dhcp_iface_ask, dhcp_poll, configured in *; destruct Hd as [[Hu Hch]|[Hu Hm]].
  - rewrite Hch in Hno; cbn [negb] in Hno; destruct (ds_state (di_socket i')); [done..|]; by destruct (Hno _ eq_refl).
  - destruct (negb _); [by split|]; by destruct (ds_state (di_socket i')) eqn:Es; cbn [snd di_meta di_socket with_client ds_state]; rewrite ?Es.
Qed.

(** Every round until the lease is reported. *)
Lemma asking_rounds k round i :
  asking i -> @quiet_until (dhcp_stack oldest fuel) clk times round k i ->
  asking (@after_rounds (dhcp_stack oldest fuel) clk times round k i).
Proof using Holdest Hfuel Hnamed Htimes Hclk F hw.
  revert round i; induction k as [|k IH]; intros round i Hi Hq; [exact Hi|]; cbn [after_rounds]; apply IH.
  - apply asking_round; [done|]; intros cfg Hc; apply (Hq 0%nat cfg); [lia|]; unfold configured_at; by rewrite Nat.add_0_r.
  - intros j cfg Hj Hc; apply (Hq (S j) cfg); [lia|by apply configured_at_S].
Qed.

Lemma rounds_say k i :
  asking i -> @quiet_until (dhcp_stack oldest fuel) clk times 0 k i ->
  exists i', dhcp_iface_poll oldest fuel (round_time clk times k) (@after_rounds (dhcp_stack oldest fuel) clk times 0 k i) = Ret (Some i') /\
    round_says (round_time clk times k) (@after_rounds (dhcp_stack oldest fuel) clk times 0 k i) i'.
Proof using Holdest Hfuel Hnamed Htimes Hclk F hw.
  intros Hi Hq; pose proof (asking_rounds k 0 i Hi Hq) as Ha.
  destruct (poll_iface_says _ _ (round_time_ok clk times Htimes Hclk k) Ha) as (i' & E & _ & Hs & _); by exists i'.
Qed.
End Rounds.

(** ** The fresh interface *)

Lemma interface_bare n now cx : interface_new n now = Some cx -> bare cx.
Proof using Type. unfold interface_new; destruct (draw_ipv4_id n 0); [|done]; by intros [= <-]. Qed.

(** The frames a card has for [learn_network]. *)
Definition frames_of (card : nic) : list frame := concat (map good_frames (nic_rx card)).

Lemma fresh_good fuel0 card now i :
  length hw = 6%nat -> nic_ok card -> buffers_ok card -> frames_of card ⊆ F -> (length (frames_of card) < fuel)%nat ->
  dhcp_iface_new fuel0 hw card now = Some i -> iface_good i.
Proof using Type.
  intros Hhw Hnic Hb HF Hf; unfold dhcp_iface_new; destruct (interface_new fuel0 now) as [cx|] eqn:Ec; [|done]; intros [= <-].
  apply interface_bare in Ec; split; cbn [di_cx di_dev di_net di_meta di_socket]; [done| |done|exact Hf].
  split; cbn [nt_nic]; [apply learn_device_inv|done|done|exact HF| |].
  - split_and!; [done| |done|done]; split; cbn; [done|apply map_Forall_empty|constructor].
  - split; [exact client_new_ok|done|done| |done]; clear; unfold in_u32; cbn; lia.
Qed.

(** What a poll of the stack reports was acknowledged. *)
Lemma configured_acked clk times k i cfg :
  (forall j, in_u64 (times j)) -> in_u64 (epoch_ns clk) -> iface_good i ->
  @configured_at (dhcp_stack oldest fuel) clk times 0 k i cfg ->
  acked F hw cfg /\ is_unicast (cidr_addr (cfg_address cfg)) = true /\ 0 <= prefix_len (cfg_address cfg) <= 32.
Proof using Holdest Hfuel Hnamed.
  intros Ht Hc Hi Hk.
  destruct (@dhcp_round_good _ dhcp_stack_ok clk times Ht Hc (0 + k) _ (@after_rounds_good _ dhcp_stack_ok clk times Ht Hc 0 k i Hi)) as (i1 & _ & E & Hi1 & _).
  unfold configured_at in Hk; rewrite E in Hk; destruct (ask_config i1 cfg Hi1 Hk) as (rn & _ & -> & Hl & Ha); split; [done|].
  split; [by apply (lo_unicast rn Hl)|by apply (lo_prefix rn Hl)].
Qed.
End Stack.

(** What is needed for [learn_network] to end, and what it then has learnt: the
    address of a configuration that was acknowledged. *)
Record learn_setting (oldest : gmap ip_address neighbor -> option ip_address) (fuel dhcp_fuel arp_fuel : nat)
    (mac : eth_address) (card w : nic) (time_ns : nat -> Z) : Prop := {
  ls_oldest : oldest_ok oldest;
  ls_fuel : (2 <= fuel)%nat /\ (length (frames_of card) < fuel)%nat;
  ls_budgets : (Z.to_nat (ITER_BUDGET / 10) < dhcp_fuel)%nat /\ (Z.to_nat (ITER_BUDGET / 20) < arp_fuel)%nat;
  ls_mac : length mac = 6%nat;
  ls_card : nic_ok card /\ buffers_ok card;
  ls_named : offers_named (frames_of card);
  ls_time : forall k, in_u64 (time_ns k);
  ls_wire : single_bursts w /\ Forall alloc_ok (nic_allocs w);
}.

Lemma learnt_spec oldest fuel fuel0 dhcp_fuel arp_fuel mac card w now (start : dhcp_iface) time_ns :
  learn_setting oldest fuel dhcp_fuel arp_fuel mac card w time_ns -> dhcp_iface_new fuel0 mac card now = Some start ->
  exists res log w', @learn_network (dhcp_stack oldest fuel) dhcp_fuel arp_fuel mac time_ns start w = Ret (Some (res, log, w')) /\
    match res with
    | Some (ip, prefix, gw, hw) =>
        (exists cfg, acked (frames_of card) mac cfg /\ cfg_address cfg = {| cidr_addr := ip; prefix_len := prefix |} /\
           gw = default [0; 0; 0; 0] (cfg_router cfg)) /\
        is_unicast ip = true /\ 0 <= prefix <= 32 /\
        exists w1 used before m, nic_rx w1 = nic_rx w /\ received_all w1 w' used /\ concat used = before ++ [m] /\
          is_reply gw m hw /\ no_reply gw before
    | None => exists log0 why, log = log0 ++ [why] /\
        ((exists ms, why = DhcpTimeout ms) \/ why = ArpNoMbuf \/ why = ArpTimeout)
    end.
Proof.
  intros [Ho [Hf Hframes] [Hdf Haf] Hmac [Hnic Hbuf] Hnamed Htime [Hb Ha]] Hstart; set (F := frames_of card) in *.
  pose proof (fresh_good fuel F mac fuel0 card now start Hmac Hnic Hbuf (fun fr H => H) Hframes Hstart) as Hgood.
  destruct (@learn_network_correct _ (dhcp_stack_ok oldest Ho fuel Hf F mac Hnamed) dhcp_fuel arp_fuel mac time_ns start w)
    as (res & log & w' & E & Hres); [done|done|by apply len6|done|exact Hgood|done|done|].
  exists res, log, w'; split; [exact E|]; destruct res as [[[[ip prefix] gw] hw]|]; [|exact Hres].
  destruct Hres as (k & cfg & w1 & used & before & m & _ & Hc & Ecfg & -> & Hrx & Hrest).
  destruct (configured_acked oldest Ho fuel Hf F mac Hnamed (clock_new (time_ns 0%nat)) _ k start cfg (fun k => Htime (S (S k)))
    (Htime 0%nat) Hgood Hc) as (Hack & Hun & Hprefix); rewrite Ecfg in Hun, Hprefix.
  split; [exists cfg; split_and!; [done|done|by destruct (cfg_router cfg)]|]; split; [done|split; [done|]].
  exists w1, used, before, m; exact (conj Hrx Hrest).
Qed.

(** From the fresh interface on. *)
Lemma start_says oldest fuel fuel0 dhcp_fuel arp_fuel mac card w now (start : dhcp_iface) time_ns k :
  learn_setting oldest fuel dhcp_fuel arp_fuel mac card w time_ns -> dhcp_iface_new fuel0 mac card now = Some start ->
  let clk := clock_new (time_ns 0%nat) in
  let times k := time_ns (S (S k)) in
  let i := @after_rounds (dhcp_stack oldest fuel) clk times 0 k start in
  @quiet_until (dhcp_stack oldest fuel) clk times 0 k start ->
  exists i', dhcp_iface_poll oldest fuel (round_time clk times k) i = Ret (Some i') /\
    round_says oldest fuel mac (round_time clk times k) i i'.
Proof.
  intros [Ho [Hf Hframes] _ Hmac [Hnic Hbuf] Hnamed Htime _] Hstart clk times i Hq.
  pose proof (fresh_good fuel (frames_of card) mac fuel0 card now start Hmac Hnic Hbuf (fun fr H => H) Hframes Hstart) as Hgood.
  apply (rounds_say oldest Ho fuel Hf (frames_of card) mac Hnamed clk times (fun k => Htime (S (S k))) (Htime 0%nat)); [|exact Hq].
  split; [exact Hgood|]; revert Hstart; unfold dhcp_iface_new; destruct (interface_new fuel0 now); [|done]; by intros [= <-].
Qed.

(** C24: learning the network on smoltcp's interface.  Whatever frames the card
    delivers, short, truncated or malicious, as long as each OFFER has a source
    address, and its buffers hold a frame: every poll of the fresh interface
    with its DHCP client returns, and although the interface has no address, the
    client is heard.  In each round until the lease is reported, once the frames
    that have come are processed: a client still looking whose timer has run
    out has broadcast a DISCOVER under a new transaction, which it then waits
    for; one with an offer whose timer has run out, a REQUEST for the offered
    address that names the server, unless it has been sent five times, when the
    client starts over; each in one frame - Ethernet, IPv4 and UDP headers and
    the message - that is put on the transmit ring, or lost there and counted; a
    client whose timer has not run out transmits nothing.  And [learn_network] returns within its
    budgets - with an address, a prefix and a router that one of the delivered
    frames, an ACK from a server's port to this hardware address, gave it, and
    the hardware address of the first ARP reply the router sends, or with
    nothing, having said why. *)
Theorem network_learnt (oldest : gmap ip_address neighbor -> option ip_address) (fuel fuel0 dhcp_fuel arp_fuel : nat)
    (mac : eth_address) (card w : nic) (now : instant) (start : dhcp_iface) (time_ns : nat -> Z) :
  learn_setting oldest fuel dhcp_fuel arp_fuel mac card w time_ns -> dhcp_iface_new fuel0 mac card now = Some start ->
  (let clk := clock_new (time_ns 0%nat) in
   let times k := time_ns (S (S k)) in
   forall k, @quiet_until (dhcp_stack oldest fuel) clk times 0 k start ->
     let i := @after_rounds (dhcp_stack oldest fuel) clk times 0 k start in
     let t := round_time clk times k in
     exists i', dhcp_iface_poll oldest fuel t i = Ret (Some i') /\
       exists dev n d,
         let cx := with_now t (di_cx i) in
         frame_loop oldest dhcp_ipv4 fuel fuel cx (di_dev i) (di_net i) (di_socket i) = Ret (Some (cx, dev, n, d)) /\
         said cx mac d (nt_nic n) (di_socket i') (nt_nic (di_net i'))) /\
  exists res log w', @learn_network (dhcp_stack oldest fuel) dhcp_fuel arp_fuel mac time_ns start w = Ret (Some (res, log, w')) /\
    match res with
    | Some (ip, prefix, gw, hw) =>
        is_unicast ip = true /\ 0 <= prefix <= 32 /\
        (exists fr src r mask, fr ∈ frames_of card /\ carries fr src r /\ dh_message_type r = MSG_ACK /\
           dh_client_hardware_address r = mac /\ dh_your_ip r = ip /\ dh_subnet_mask r = Some mask /\
           mask_prefix_len mask = Some prefix /\ gw = default [0; 0; 0; 0] (dh_router r)) /\
        exists w1 used before m, nic_rx w1 = nic_rx w /\ received_all w1 w' used /\ concat used = before ++ [m] /\
          is_reply gw m hw /\ no_reply gw before
    | None => exists log0 why, log = log0 ++ [why] /\
        ((exists ms, why = DhcpTimeout ms) \/ why = ArpNoMbuf \/ why = ArpTimeout)
    end.
Proof.
  intros Hset Hstart; split.
  { intros clk times k Hq; exact (start_says oldest fuel fuel0 dhcp_fuel arp_fuel mac card w now start time_ns k Hset Hstart Hq). }
  destruct (learnt_spec oldest fuel fuel0 dhcp_fuel arp_fuel mac card w now start time_ns Hset Hstart)
    as (res & log & w' & E & Hres); exists res, log, w'; split; [exact E|].
  destruct res as [[[[ip prefix] gw] hw]|]; [|exact Hres]; destruct Hres as ((cfg & Hack & Ecfg & ->) & Hun & Hp & Harp).
  destruct Hack as (fr & src & r & mask & prefix' & H1 & H2 & H3 & H4 & H5 & H6 & E7).
  rewrite E7 in Ecfg, Harp |- *; cbn in Ecfg; injection Ecfg as <- <-.
  split; [exact Hun|split; [exact Hp|]]; split; [by exists fr, src, r, mask|exact Harp].
Qed.

(** ** An offer without a source *)

(** A frame in a buffer of the card. *)
Definition delivered (handle : Z) (frame : list Z) : mbuf :=
  {| mb_handle := handle; mb_data := frame; mb_len := len frame; mb_bad := false |}.

(** A device between two polls: nothing fetched, every frame is its own. *)
Record idle_device (d : dpdk_device) : Prop := {
  id_inv : device_inv d;
  id_synth : pending_synth d = None;
  id_ports : owned_ports d = None;
}.

Lemma buffered_pos d : device_inv d -> buffered d = [] -> rx_pref_pos d = rx_pref_len d.
Proof.
  intros Hd Hb; destruct (Z.eq_dec (rx_pref_pos d) (rx_pref_len d)) as [|Hne]; [done|].
  destruct (buffered_cons d Hd Hne) as (? & ? & ? & _ & _ & _ & E); by rewrite Hb in E.
Qed.

Lemma receive_fetch fuel d w burst rest :
  idle_device d -> nic_ok w -> buffered d = [] -> nic_rx w = burst :: rest -> good_frames burst <> [] ->
  exists d' w', receive (S fuel) d w = receive (S fuel) d' w' /\ idle_device d' /\ nic_ok w' /\ nic_rx w' = rest /\
    buffered d' = good_frames burst.
Proof.
  intros [Hd Hs Hp] Hw Hb Hrx Hg; pose proof (buffered_pos d Hd Hb) as E.
  pose proof (receive_loop_refill fuel d w Hd Hw E) as Hr; rewrite Hrx in Hr; cbn zeta in Hr.
  destruct Hw as [Hm Hwf]; rewrite Hrx in Hwf; inversion Hwf as [|? ? [Hbl Hbf] Hrest]; subst.
  set (good := filter (fun m => mb_bad m = false) burst) in *; assert (Eg : map frame_of good = good_frames burst) by done.
  destruct (Z.eqb_spec (len good) 0) as [Hz|Hz]; [apply len_zero_nil in Hz; rewrite Hz in Eg; by rewrite <-Eg in Hg|].
  assert (Hlen : len good <= RX_BURST).
  { subst good; unfold len in *; pose proof (length_filter (fun m => mb_bad m = false) burst); lia. }
  exists (with_burst d good), (set_rx w rest (freed w ++ map mb_handle (filter (fun m => mb_bad m = true) burst))).
  unfold receive; rewrite Hs; change (pending_synth (with_burst d good)) with (pending_synth d); rewrite Hs, Hr.
  split; [done|]; split; [split; [|done|done]; apply with_burst_inv; [done|done|rewrite Eg; by apply good_frames_ok]|].
  split; [by split|]; split; [done|]; by rewrite buffered_with_burst.
Qed.

Lemma receive_next fuel d w fr frs :
  idle_device d -> buffered d = fr :: frs ->
  exists d', receive (S fuel) d w = Some (Ret (Some (Mbuf (fst (fst fr)) (snd (fst fr)) (snd fr)), d', w)) /\ idle_device d' /\
    buffered d' = frs.
Proof.
  intros [Hd Hs Hp] Hb; assert (Hne : rx_pref_pos d <> rx_pref_len d).
  { intros E; rewrite buffered_nil in Hb; [done|apply Hd|done]. }
  destruct (receive_loop_step fuel d w Hd Hne) as (h & data & n & Eb & E); rewrite Hb in Eb; injection Eb as -> ->.
  exists (advance d); unfold receive; rewrite Hs, E, Hp; split; [|split; [split; [by apply advance_inv|done|done]|done]].
  replace (Device.accepts None (h, data, n)) with true; [done|]; unfold Device.accepts; by destruct (frame_dst_port _ _).
Qed.

Lemma receive_none fuel d w :
  idle_device d -> nic_ok w -> buffered d = [] -> nic_rx w = [] -> receive (S fuel) d w = Some (Ret (None, d, w)).
Proof.
  intros [Hd Hs Hp] Hw Hb Hrx; unfold receive; rewrite Hs; pose proof (receive_loop_refill fuel d w Hd Hw) as Hr; rewrite Hrx in Hr.
  by apply Hr, buffered_pos.
Qed.

(** A message from a server, next in the device's buffer. *)
Lemma dhcp_frame_ingress oldest fuel cx dev n d h smac src payload frs :
  length smac = 6%nat -> length src = 4%nat -> len payload < 65000 ->
  is_unicast_v4 cx src = true \/ is_unspecified src = true -> client_ok d -> idle_device dev ->
  let frame := dhcp_frame smac ETH_BROADCAST src BROADCAST_IP payload in
  buffered dev = (h, frame, len frame) :: frs ->
  exists dev', idle_device dev' /\ buffered dev' = frs /\
    frame_ingress oldest dhcp_ipv4 (S fuel) cx dev n d =
    let! d := dhcp_process (cx_now cx) (nt_hardware n) src {| udp_src_port := 67; udp_dst_port := 68 |} payload d in
    Ret (Some (true, cx, dev', with_nic (shim_mbuf_free (nt_nic n) h) n, d)).
Proof.
  intros Hsm Hsrc Hp Hu Hok Hdev frame Hb.
  destruct (receive_next fuel dev (nt_nic n) _ _ Hdev Hb) as (dev' & E & Hdev' & Hb'); exists dev'; split; [done|split; [done|]].
  unfold frame_ingress; rewrite E; cbn [obind fst snd rx_consume]; unfold from_raw_parts; pose proof (len_nonneg frame).
  rewrite slice_ret by lia; cbn [obind]; rewrite Z.sub_0_r, zdrop_0, ztake_ge by lia.
  assert (Hl : len frame <> 0).
  { subst frame; unfold dhcp_frame; rewrite len_app, len_eth_header by done; pose proof (len_nonneg (v4_header (dhcp_v4 src BROADCAST_IP payload) ++
      concat (udp_header {| udp_src_port := 67; udp_dst_port := 68 |} (len payload)) ++ payload)); lia. }
  rewrite (proj2 (Z.eqb_neq _ _)) by done; subst frame.
  rewrite dhcp_frame_arrives by (done || by left); cbn [nt_hardware with_nic].
  destruct (dhcp_process _ _ _ _ _ _); done.
Qed.

Lemma ingress_fetch oldest fuel cx dev n (d : dhcp_socket) dev' w' :
  receive fuel dev (nt_nic n) = receive fuel dev' w' ->
  frame_ingress oldest dhcp_ipv4 fuel cx dev n d = frame_ingress oldest dhcp_ipv4 fuel cx dev' (with_nic w' n) d.
Proof. intros E; unfold frame_ingress; cbn [nt_nic with_nic]; by rewrite E. Qed.

(** An acknowledgement with a renewal time of zero. *)
Lemma parse_ack_at_once now r server mask prefix :
  clock_ok now -> dhcp_read_ok r -> is_unicast (dh_your_ip r) = true -> dh_subnet_mask r = Some mask ->
  mask_prefix_len mask = Some prefix -> dh_renew_duration r = Some 0 -> dh_rebind_duration r = None ->
  dh_lease_duration r <> Some 0 ->
  exists t2 t3, parse_ack now r None server = Ret (Some (ack_config r prefix server, now, t2, t3)) /\ now < t2 <= t3.
Proof.
  intros Hc Hr Hu Hm Hp H1 H2 Hl; pose proof Hp as Hp32; apply mask_prefix_range in Hp32; [|by eapply (dr_mask r Hr)].
  unfold parse_ack, cidr_new, clock_ok in *; rewrite Hm, Hp, Hu, H1, H2, (proj2 (Z.leb_le prefix 32)) by lia; cbn [negb obind fmap option_fmap option_map].
  set (lease := match dh_lease_duration r with Some d => _ | None => _ end).
  assert (Hlease : 1000000 <= lease <= 4294967295000000).
  { subst lease; destruct (dh_lease_duration r) as [n|] eqn:El; [|change DEFAULT_LEASE_DURATION with 120000000; lia].
    pose proof (dr_lease r Hr n El) as Hn; assert (n <> 0) by congruence; unfold from_secs, Prelude.in_u32 in *; rewrite u64_small by lia; lia. }
  clearbody lease; unfold renew_rebind, duration_sub, duration_div, duration_mul, duration_add, from_micros, total_micros; change (from_secs 0) with 0.
  rewrite (proj2 (Z.ltb_lt 0 lease)), (proj2 (Z.leb_le 0 lease)) by lia; cbn [obind Z.eqb negb].
  rewrite (u64_small ((lease - 0) * 3)), u64_small by mlia; cbn [obind].
  rewrite !instant_add_sane by (unfold sane_instant, sane_duration; mlia).
  do 2 eexists; split; [unfold ack_config; rewrite Z.add_0_r; reflexivity|mlia].
Qed.

(** A renewal that is due, to a server without an address. *)
Lemma nowhere_panics cx n d rn :
  ds_state d = Renewing rn -> rn_renew_at rn <= cx_now cx < rn_rebind_at rn -> rn_rebind_at rn <= rn_expires_at rn ->
  rn_rebinding rn = false -> is_unspecified (sv_address (cfg_server (rn_config rn))) = true ->
  dhcp_egress cx Active d n = Panic.
Proof.
  intros Es Ht Hx Hr Hu; unfold dhcp_egress; cbn [egress_permitted obind negb]; unfold dhcp_dispatch; rewrite Es, Hr.
  rewrite (proj2 (Z.leb_gt _ _)), (proj2 (Z.ltb_ge _ (rn_renew_at rn))) by lia; cbn [orb andb rn_rebinding rn_rebind_at].
  rewrite (proj2 (Z.leb_gt (rn_rebind_at rn) _)) by lia; cbn [rn_config].
  destruct (random_transaction_id cx) as [xid cx1]; set (p := dhcp_datagram _ _ _ _).
  assert (Hp : forall cx, dispatch_ip cx (dhcp_ip_packet p) n = Panic).
  { intros cx2; unfold dispatch_ip; subst p; cbn [dhcp_ip_packet dhcp_datagram fst v4_ip ip_dst]; by rewrite Hu. }
  rewrite Hp; destruct (renew_retry _ _ _); cbn [obind]; [|done]; by rewrite Hp.
Qed.

(** C25: one server can take the program down.  An OFFER whose IPv4 source is
    0.0.0.0 is accepted, and makes 0.0.0.0 the server; an ACK of this
    transaction with a renewal time of zero makes the renewal due at once, to
    the server: [dispatch_ip] asserts a destination, and the poll that has
    received the two broadcast frames panics.  Any host on the link that sees
    the DISCOVER (or guesses its transaction) can send both. *)
Theorem sourceless_offer_panics (oldest : gmap ip_address neighbor -> option ip_address) (fuel : nat) (now : instant)
    (i : dhcp_iface) (smac : eth_address) (h1 h2 : Z) (payload1 payload2 : list Z) (offer ack : dhcp_repr)
    (sid1 sid2 mask : ip_address) (prefix : Z) (t : instant) :
  let hw := nt_hardware (di_net i) in
  let xid := ds_transaction_id (di_socket i) in
  let frame payload := dhcp_frame smac ETH_BROADCAST UNSPECIFIED BROADCAST_IP payload in
  (3 <= fuel)%nat -> clock_ok now -> idle_device (di_dev i) -> buffered (di_dev i) = [] -> nic_ok (nt_nic (di_net i)) ->
  client_ok (di_socket i) -> ds_state (di_socket i) = Discovering t -> di_meta i = Active -> length smac = 6%nat ->
  bytes_ok payload1 -> len payload1 < 65000 -> bytes_ok payload2 -> len payload2 < 65000 ->
  message_for hw xid MSG_OFFER payload1 offer sid1 -> is_unicast (dh_your_ip offer) = true ->
  message_for hw xid MSG_ACK payload2 ack sid2 -> is_unicast (dh_your_ip ack) = true ->
  dh_subnet_mask ack = Some mask -> mask_prefix_len mask = Some prefix ->
  dh_renew_duration ack = Some 0 -> dh_rebind_duration ack = None -> dh_lease_duration ack <> Some 0 ->
  nic_rx (nt_nic (di_net i)) = [[delivered h1 (frame payload1); delivered h2 (frame payload2)]] ->
  dhcp_iface_poll oldest fuel now i = Panic.
Proof.
  intros hw xid frame Hf Hnow Hdev Hbuf Hnic Hok Es Hm Hsm Hb1 Hl1 Hb2 Hl2 Hoffer Hu1 Hack Hu2 Hmask Hprefix HT1 HT2 Hlease Hrx.
  destruct fuel as [|[|[|fuel]]]; try lia; unfold dhcp_iface_poll; set (cx := with_now now (di_cx i)); cbn [frame_loop].
  set (burst := [delivered h1 (frame payload1); delivered h2 (frame payload2)]) in *.
  destruct (receive_fetch (S (S fuel)) (di_dev i) (nt_nic (di_net i)) burst [] Hdev Hnic Hbuf Hrx)
    as (dev1 & w1 & E1 & Hdev1 & Hw1 & Hrx1 & Hb1'); [done|].
  rewrite (ingress_fetch oldest _ cx _ _ (di_socket i) _ _ E1); set (n1 := with_nic w1 (di_net i)).
  assert (Hfor : for_client {| udp_src_port := 67; udp_dst_port := 68 |}) by done.
  destruct (dhcp_frame_ingress oldest (S (S fuel)) cx dev1 n1 (di_socket i) h1 smac UNSPECIFIED payload1
    [(h2, frame payload2, len (frame payload2))]) as (dev2 & Hdev2 & Hb2' & ->); [done|done|done|by right|done|done|exact Hb1'|].
  change (nt_hardware n1) with hw; change (cx_now cx) with now.
  destruct (dhcp_process_ok now hw UNSPECIFIED {| udp_src_port := 67; udp_dst_port := 68 |} payload1 (di_socket i) Hnow Hb1 Hok eq_refl eq_refl)
    as (d1 & Ed1 & Hok1 & _); rewrite Ed1; cbn [obind].
  rewrite (process_message _ _ _ _ _ _ _ _ _ Hok Hfor Hoffer), (offer_accepted _ _ _ _ _ _ Es (mf_type _ _ _ _ _ _ Hoffer) Hu1) in Ed1.
  injection Ed1 as <-; set (d1 := with_ds_state _ _) in *; set (n2 := with_nic _ n1).
  destruct (dhcp_frame_ingress oldest (S (S fuel)) cx dev2 n2 d1 h2 smac UNSPECIFIED payload2 [])
    as (dev3 & Hdev3 & Hb3' & ->); [done|done|done|by right|done|done|exact Hb2'|].
  change (nt_hardware n2) with hw; change (cx_now cx) with now.
  rewrite (process_message now hw UNSPECIFIED _ MSG_ACK payload2 ack sid2 d1 Hok1 Hfor Hack); unfold dhcp_step.
  cbn [ds_state d1 with_ds_state with_client rq_server]; rewrite (mf_type _ _ _ _ _ _ Hack); change (MSG_ACK =? MSG_ACK) with true; cbn iota.
  rewrite (co_max d1 Hok1), Hm.
  destruct (parse_ack_at_once now ack {| sv_address := UNSPECIFIED; sv_identifier := sid1 |} mask prefix Hnow
    (message_read _ _ _ _ _ _ Hb2 Hack) Hu2 Hmask Hprefix HT1 HT2 Hlease) as (t2 & t3 & -> & Ht); cbn [obind].
  set (n3 := with_nic _ n2); assert (Hn3 : nic_ok (nt_nic n3) /\ nic_rx (nt_nic n3) = []).
  { subst n3 n2 n1; cbn; by destruct Hw1; split. }
  destruct Hn3 as [Hnic3 Hrx3]; unfold frame_ingress at 1; rewrite receive_none by done; cbn [obind dhcp_egress_loop].
  rewrite nowhere_panics with (rn := {| rn_config := ack_config ack prefix {| sv_address := UNSPECIFIED; sv_identifier := sid1 |};
    rn_renew_at := now; rn_rebind_at := t2; rn_rebinding := false; rn_expires_at := t3 |});
    [done|done|cbn; change (cx_now cx) with now; lia|cbn; lia|done|done].
Qed.

(** ** Examples *)

Definition ex_learn_card (burst : list mbuf) : nic :=
  {| nic_rx := [burst]; nic_allocs := [{| al_data := Some (zreplicate MTU 0); al_handle := Some 1; al_cap := MTU |}];
     nic_tx := [1]; freed := []; sent := []; MISROUTED_DROPS := 0; TX_ALLOC_FAIL := 0; TX_BURST_FAIL := 0 |}.

(** The server at 10.0.0.1; it answers the client's first DISCOVER, which is
    sent in the first poll under transaction 4260165794, and its REQUEST. *)
Definition ex_server_mac : eth_address := [2; 0; 0; 0; 0; 9].
Definition ex_server_frame (m : Z) : list Z := dhcp_frame ex_server_mac ETH_BROADCAST [10; 0; 0; 1] BROADCAST_IP (ex_payload m 4260165794).
Definition ex_exchange : list (list mbuf) := [[]; [delivered 5 (ex_server_frame 2)]; []; [delivered 6 (ex_server_frame 5)]].
Definition ex_buffer : tx_alloc := {| al_data := Some (zreplicate MTU 0); al_handle := Some 1; al_cap := MTU |}.
Definition ex_dhcp_card : nic :=
  {| nic_rx := ex_exchange; nic_allocs := [ex_buffer; ex_buffer];
     nic_tx := [1; 1]; freed := []; sent := []; MISROUTED_DROPS := 0; TX_ALLOC_FAIL := 0; TX_BURST_FAIL := 0 |}.

(** An OFFER from nowhere and an ACK with a renewal time of zero, for a client
    that has just started. *)
Definition ex_rogue_payload (m : Z) : list Z :=
  concat (dhcp_header (ex_answer m 1)) ++
  dhcp_options_bytes (dhcp_option_list (ex_answer m 1) ++ [{| op_kind := OPT_RENEWAL_TIME_VALUE; op_data := [0; 0; 0; 0] |}]) ++ [255].
Definition ex_rogue_burst : list mbuf :=
  map (fun '(h, m) => delivered h (dhcp_frame ex_server_mac ETH_BROADCAST UNSPECIFIED BROADCAST_IP (ex_rogue_payload m))) [(5, 2); (6, 5)].

Definition ex_learner (burst : list mbuf) : dhcp_iface :=
  {| di_cx := {| cx_now := 0; max_transmission_unit := MTU; any_ip := false; ip_addrs := []; cx_rand := 1 |};
     di_dev := learn_device;
     di_net := {| nt_hardware := ex_hw; nt_routes := []; nt_cache := cache_new; nt_meta := []; nt_nic := ex_learn_card burst |};
     di_meta := Active; di_socket := dhcp_new |}.

(** Some polls at the start of the clock. *)
Fixpoint ex_polls (k : nat) (i : dhcp_iface) : outcome (option dhcp_iface) :=
  match k with
  | O => Ret (Some i)
  | S k => let! o := dhcp_iface_poll some_key 4 0 i in match o with Some i => ex_polls k i | None => Ret None end
  end.

(** The exchange takes three polls, two frames to everybody and configures the
    client; the rogue's frames are the last the program sees. *)
Example learner_runs :
  match dhcp_iface_new 10 ex_hw ex_dhcp_card 0 with
  | Some start =>
      match ex_polls 3 start with
      | Ret (Some i) =>
          map (fun f => take 6 (snd f)) (sent (nt_nic (di_net i))) = [ETH_BROADCAST; ETH_BROADCAST] /\
          match fst (dhcp_iface_ask i) with
          | Some (Configured cfg) => cfg_address cfg = {| cidr_addr := [10; 0; 0; 2]; prefix_len := 24 |}
          | _ => False
          end
      | _ => False
      end
  | None => False
  end /\ dhcp_iface_poll some_key 4 10 (ex_learner ex_rogue_burst) = Panic.
Proof. vm_compute; repeat split. Qed.

Definition mbuf_ok (m : mbuf) : bool :=
  (0 <=? mb_len m) && (mb_len m <? M16) && (mb_len m <=? len (mb_data m)) && forallb (fun b => (0 <=? b) && (b <? 256)) (mb_data m).

Lemma burst_ok l : forallb mbuf_ok l = true -> Forall (fun m => frame_ok (frame_of m)) l.
Proof.
  induction l as [|m l IH]; cbn [forallb]; intros H; [constructor|]; apply andb_prop in H as [Hm Hl]; constructor; [|by apply IH].
  unfold mbuf_ok in Hm; apply andb_prop in Hm as [Hm Hb]; split; [cbn; lia|]; split; [cbn; lia|by apply forall_in_u8_b].
Qed.

Lemma ex_card_ok burst : len burst <= RX_BURST -> forallb mbuf_ok burst = true -> nic_ok (ex_learn_card burst) /\ buffers_ok (ex_learn_card burst).
Proof.
  intros Hl Hb; split; [split; [unfold in_u64; cbn; lia|]|].
  - apply Forall_singleton; split; [exact Hl|by apply burst_ok].
  - apply Forall_singleton; cbn [al_data al_cap]; rewrite len_zreplicate; unfold MTU; lia.
Qed.

Lemma ex_dhcp_card_ok : nic_ok ex_dhcp_card /\ buffers_ok ex_dhcp_card.
Proof.
  split; [split; [unfold in_u64; cbn; lia|]|].
  - repeat (apply Forall_cons_2; [split; [vm_compute; discriminate|apply burst_ok; reflexivity]|]); constructor.
  - assert (Hb : MTU <= al_cap ex_buffer < M16 /\ al_cap ex_buffer <= len (zreplicate MTU 0))
      by (cbn [al_cap ex_buffer]; rewrite len_zreplicate; unfold MTU; lia).
    repeat (apply Forall_cons_2; [exact Hb|]); constructor.
Qed.

(** Every message of the server names it. *)
Lemma ex_exchange_named : offers_named (frames_of ex_dhcp_card).
Proof.
  intros fr src r Hin Hc _; change (frames_of ex_dhcp_card) with
    [(5, ex_server_frame 2, len (ex_server_frame 2)); (6, ex_server_frame 5, len (ex_server_frame 5))] in Hin.
  assert (Hfr : exists m h, fr = (h, ex_server_frame m ++ [], len (ex_server_frame m)) /\ (m = 2 \/ m = 5)).
  { apply elem_of_cons in Hin as [->|Hin]; [exists 2, 5; rewrite app_nil_r; auto|].
    apply list_elem_of_singleton in Hin as ->; exists 5, 6; rewrite app_nil_r; auto. }
  destruct Hfr as (m & h & -> & Hm).
  apply dhcp_frame_carries in Hc as [-> _]; try done; destruct Hm as [->| ->]; reflexivity.
Qed.

Lemma ex_learn_setting : learn_setting some_key 3 (S (Z.to_nat (ITER_BUDGET / 10))) (S (Z.to_nat (ITER_BUDGET / 20))) ex_hw
  ex_dhcp_card Network.ex_wire (fun k => Z.of_nat k mod M64).
Proof.
  destruct ex_dhcp_card_ok as [Hnic Hbuf]; split.
  - exact some_key_ok.
  - split; [repeat constructor|]; apply Nat.ltb_lt; vm_compute; reflexivity.
  - split; apply Nat.lt_succ_diag_r.
  - reflexivity.
  - split; [exact Hnic|exact Hbuf].
  - exact ex_exchange_named.
  - exact ex_time.
  - split; [exact ex_wire_bursts|exact ex_wire_allocs].
Qed.

Lemma network_learnt_witness : exists f1 f2 start i' d n res log w',
  dhcp_iface_new 10 ex_hw ex_dhcp_card 0 = Some start /\
  dhcp_iface_poll some_key 3 0 start = Ret (Some i') /\ ds_state d = Discovering 0 /\
  said (with_now 0 (di_cx start)) ex_hw d (nt_nic n) (di_socket i') (nt_nic (di_net i')) /\
  @learn_network (dhcp_stack some_key 3) f1 f2 ex_hw (fun k => Z.of_nat k mod M64) start Network.ex_wire = Ret (Some (res, log, w')) /\
  match res with Some (ip, _, _, _) => is_unicast ip = true | None => True end.
Proof.
  destruct (dhcp_iface_new 10 ex_hw ex_dhcp_card 0) as [start|] eqn:Es; [|vm_compute in Es; discriminate Es].
  destruct (network_learnt some_key 3 10 (S (Z.to_nat (ITER_BUDGET / 10))) (S (Z.to_nat (ITER_BUDGET / 20))) ex_hw
    ex_dhcp_card Network.ex_wire 0 start (fun k => Z.of_nat k mod M64)) as (Hsay & res & log & w' & E & Hres).
  - exact ex_learn_setting.
  - exact Es.
  - destruct (Hsay 0%nat) as (i' & Hp & dev & n & d & Hf & Hs); [intros j cfg Hj; inversion Hj|].
    change (round_time _ _ 0%nat) with 0 in Hp, Hf, Hs; cbn [after_rounds] in Hp, Hf, Hs.
    exists (S (Z.to_nat (ITER_BUDGET / 10))), (S (Z.to_nat (ITER_BUDGET / 20))), start, i', d, n, res, log, w'.
    split; [reflexivity|split; [exact Hp|]]; split.
    + clear -Es Hf; vm_compute in Es; injection Es as <-; vm_compute in Hf; injection Hf as _ _ <-; reflexivity.
    + split; [exact Hs|split; [exact E|]]; destruct res as [[[[ip prefix] gw] hw]|]; [exact (proj1 Hres)|exact I].
Defined.

Lemma sourceless_offer_panics_witness : dhcp_iface_poll some_key 4 10 (ex_learner ex_rogue_burst) = Panic.
Proof.
  destruct (dhcp_parse (ex_rogue_payload 2)) as [[offer|]|] eqn:Eo; [|vm_compute in Eo; discriminate Eo..].
  destruct (dhcp_parse (ex_rogue_payload 5)) as [[ack|]|] eqn:Ea; [|vm_compute in Ea; discriminate Ea..].
  pose proof Eo as Fo; pose proof Ea as Fa; vm_compute in Fo, Fa; injection Fo as Fo; injection Fa as Fa.
  destruct (ex_card_ok ex_rogue_burst) as [Hnic _]; [vm_compute; discriminate|reflexivity|].
  apply (sourceless_offer_panics some_key 4 10 (ex_learner ex_rogue_burst) ex_server_mac 5 6 (ex_rogue_payload 2) (ex_rogue_payload 5)
    offer ack [10; 0; 0; 1] [10; 0; 0; 1] [255; 255; 255; 0] 24 0).
  - repeat constructor.
  - unfold clock_ok; lia.
  - split; [exact learn_device_inv|reflexivity|reflexivity].
  - reflexivity.
  - exact Hnic.
  - exact client_new_ok.
  - reflexivity.
  - reflexivity.
  - reflexivity.
  - apply forall_in_u8_b; reflexivity.
  - vm_compute; reflexivity.
  - apply forall_in_u8_b; reflexivity.
  - vm_compute; reflexivity.
  - split; [exact Eo|rewrite <-Fo; reflexivity..].
  - rewrite <-Fo; reflexivity.
  - split; [exact Ea|rewrite <-Fa; reflexivity..].
  - rewrite <-Fa; reflexivity.
  - rewrite <-Fa; reflexivity.
  - reflexivity.
  - rewrite <-Fa; reflexivity.
  - rewrite <-Fa; reflexivity.
  - rewrite <-Fa; discriminate.
  - reflexivity.
Defined.
