(* ===== verification/SetupOk.v ===== *)
(** The set-up of the program on smoltcp's interface: opening the card, loading
    its RSS tables and learning the network always end, and the workers are
    given an address their interface takes. *)

From Stdlib Require Import ZArith Lia ZifyBool.
From stdpp Require Import base list gmap numbers.
From S2P Require Import Prelude AppConfig Rss Device Time TcpWire Iface Frame Dhcp Network Probe Worker Main Verdict Program.
From S2P Require Import Neighbor Net NetWire DhcpNet DhcpNetOk LearnOk.

(** ** The parts end *)

Lemma load_rss_config_ret dev n : device_ok dev -> is_ret (load_rss_config dev n rss_init).
Proof.
  unfold device_ok, load_rss_config; destruct (shim_rss_hash_key dev) as [klen key], (shim_rss_reta dev) as [k reta].
  intros (Hk & _ & Hkl & Hr & _ & Hrl); destruct (n =? 1); [by eexists|]; destruct (Z.leb_spec klen 0); [by eexists|].
  rewrite slice_ret by lia; cbn [obind]; rewrite copy_from_slice_ret by (cbn; llia); cbn [obind].
  destruct (Z.leb_spec k 0); [by eexists|]; destruct (negb _); [by eexists|].
  rewrite slice_ret by lia; cbn [obind]; rewrite copy_from_slice_ret by (cbn; llia); by eexists.
Qed.

Lemma make_ctxs_ret env k i pools mac net ctxs :
  0 <= i -> i + Z.of_nat k <= len pools ->
  make_ctxs env k i pools mac net ctxs = Ret (ctxs ++ map (ctx_of env mac net pools) (seqZ i (Z.of_nat k))).
Proof.
  revert i ctxs; induction k as [|k IH]; intros i ctxs Hi Hl; cbn [make_ctxs]; [by rewrite seqZ_nil, app_nil_r by lia|].
  destruct (index_is_ret pools i) as [p Ep]; [lia|]; rewrite Ep; cbn [obind]; rewrite IH by lia.
  rewrite <-app_assoc, (seqZ_cons i) by lia; cbn [map app].
  unfold ctx_of at 2; rewrite (index_zget _ _ _ Ep); cbn [default]; by replace (Z.pred (Z.of_nat (S k))) with (Z.of_nat k) by lia.
Qed.

(** An address that was learnt is one the worker's interface takes. *)
Lemma worker_interface_ret time_ns ctx fuel :
  is_unicast (ctx_ip ctx) = true -> ctx_prefix_len ctx <= 32 -> is_ret (worker_interface time_ns ctx fuel).
Proof.
  intros Hu Hp; unfold worker_interface, interface_new; destruct (draw_ipv4_id fuel 0) as [r|]; [|by eexists].
  unfold cidr_new; rewrite (proj2 (Z.leb_le _ 32)) by done; cbn [obind]; unfold update_ip_addrs; cbn [ip_addrs].
  change (len [] <? 2) with true; cbn [app forallb cidr_addr]; rewrite Hu; by eexists.
Qed.

(** ** The set-up *)

Section Setup.
Context (env : build_env) (dev : card) (oldest : gmap ip_address neighbor -> option ip_address).
Context (fuel fuel0 dhcp_fuel arp_fuel : nat) (card0 w : nic) (now : instant) (start : dhcp_iface) (time_ns : nat -> Z).

Lemma clamp_workers_range :
  in_u16 (fst (shim_get_dev_info dev)) -> in_u16 (snd (shim_get_dev_info dev)) -> some_zero env = false ->
  1 <= clamp_workers env dev.
Proof using Type.
  intros Hrx Htx Hz; unfold some_zero in Hz; apply orb_false_elim in Hz as [_ Hz]; apply Z.eqb_neq in Hz.
  pose proof (u16_range (parse_size (BENCH_WORKERS env) 8)) as Hr; change (u16 _) with (N_WORKERS_REQ env) in Hr.
  unfold clamp_workers, in_u16 in *; destruct (shim_get_dev_info dev) as [rx tx]; cbn [fst snd] in *.
  destruct (Z.eqb_spec (Z.min rx tx) 0); lia.
Qed.

(** As many workers as were announced, with the pools of the opened card, one
    for each, none of them null or freed, and with the address of an
    acknowledgement; their interface takes it. *)
Definition workers_ready (ctxs : list worker_ctx) : Prop :=
  len ctxs = clamp_workers env dev /\ 1 <= len ctxs /\
  (exists p, probe_and_open (card_driver dev) (len ctxs) = Ret (Some (map ctx_pool ctxs, macaddr (card_driver dev)), p) /\
     live_pools (calls p) = Some (map ctx_pool ctxs) /\ Forall (fun pool => pool <> 0) (map ctx_pool ctxs)) /\
  Forall (fun ctx =>
    (exists cfg, acked (frames_of card0) (macaddr (card_driver dev)) cfg /\
       cfg_address cfg = {| cidr_addr := ctx_ip ctx; prefix_len := ctx_prefix_len ctx |}) /\
    forall times fuel, is_ret (worker_interface times ctx fuel)) ctxs.

Lemma ctxs_pools mac net pools :
  map ctx_pool (map (ctx_of env mac net pools) (seqZ 0 (len pools))) = pools.
Proof using Type.
  apply list_eq; intros k; rewrite !list_lookup_fmap.
  destruct (decide (k < length pools)%nat) as [Hk|Hk].
  - rewrite lookup_seqZ_lt by (unfold len; lia); cbn [fmap option_fmap option_map].
    destruct (lookup_lt_is_Some_2 pools k Hk) as [x Ex]; rewrite Ex; f_equal.
    unfold ctx_of, new_ctx, zget; destruct net as [[[? ?] ?] ?]; cbn [ctx_pool].
    rewrite (proj2 (Z.ltb_ge _ 0)) by lia; rewrite Z.add_0_l, Nat2Z.id; by rewrite Ex.
  - rewrite lookup_seqZ_ge by (unfold len; lia); symmetry; apply lookup_ge_None; lia.
Qed.

Lemma new_ctxs_ready n p pools mac ip prefix gw gw_mac cfg :
  probe_and_open (card_driver dev) n = Ret (Some (pools, macaddr (card_driver dev)), p) ->
  live_pools (calls p) = Some pools -> Forall (fun pool => pool <> 0) pools -> len pools = n ->
  n = clamp_workers env dev -> 1 <= n -> acked (frames_of card0) (macaddr (card_driver dev)) cfg ->
  cfg_address cfg = {| cidr_addr := ip; prefix_len := prefix |} -> is_unicast ip = true -> 0 <= prefix <= 32 ->
  workers_ready ([] ++ map (ctx_of env mac (ip, prefix, gw, gw_mac) pools) (seqZ 0 (Z.of_nat (Z.to_nat n)))).
Proof using Type.
  intros Hprobe Hlive Hnz Hpools -> Hn Hack Ecfg Hu Hp; cbn [app]; rewrite Z2Nat.id by lia.
  assert (Hlen : len (map (ctx_of env mac (ip, prefix, gw, gw_mac) pools) (seqZ 0 (clamp_workers env dev))) = clamp_workers env dev)
    by (rewrite len_map; unfold len; rewrite length_seqZ; lia).
  pose proof (ctxs_pools mac (ip, prefix, gw, gw_mac) pools) as Hctx; rewrite Hpools in Hctx.
  split; [done|split; [lia|split]]; [rewrite Hlen, Hctx; by exists p|]; apply List.Forall_forall; intros ctx Hin; apply in_map_iff in Hin as (i & <- & _); split.
  - by exists cfg.
  - intros times fuel1; apply worker_interface_ret; cbn; [done|lia].
Qed.

Lemma setup_runs :
  in_u16 (fst (shim_get_dev_info dev)) -> in_u16 (snd (shim_get_dev_info dev)) -> device_ok (card_rss dev) ->
  learn_setting oldest fuel dhcp_fuel arp_fuel (macaddr (card_driver dev)) card0 w time_ns ->
  dhcp_iface_new fuel0 (macaddr (card_driver dev)) card0 now = Some start ->
  exists e log, @main_setup env dev (dhcp_stack oldest fuel) dhcp_fuel arp_fuel time_ns start w = Ret (Some (e, log)) /\
    match e with Exited => True | Running (_, ctxs) => workers_ready ctxs end.
Proof using Type.
  intros Hrx Htx Hrss Hset Hstart; unfold main_setup.
  destruct (bytes_eq _ _); [by do 2 eexists|].
  destruct (some_zero env) eqn:Ez; [by do 2 eexists|].
  pose proof (clamp_workers_range Hrx Htx Ez) as Hn; set (log1 := if negb _ then _ else _).
  destruct (probe_and_open_ret (card_driver dev) (clamp_workers env dev)) as (opened & p & Eprobe & Hopen); [lia|].
  rewrite Eprobe; cbn [obind].
  destruct opened as [[pools mac]|]; [|by do 2 eexists].
  destruct (Hopen pools mac eq_refl) as (_ & Hnz & Hlen & Hlive & ->).
  destruct (load_rss_config_ret _ (clamp_workers env dev) Hrss) as [[loaded rss] ->]; cbn [obind].
  destruct loaded; cbn [negb]; [|by do 2 eexists].
  destruct (index_is_ret pools 0) as [p0 ->]; [lia|]; cbn [obind].
  destruct (learnt_spec oldest fuel fuel0 dhcp_fuel arp_fuel _ card0 w now start time_ns Hset Hstart) as (res & log & w' & -> & Hres).
  cbn [obind]; destruct res as [[[[ip prefix] gw] gw_mac]|]; [|by do 2 eexists].
  destruct Hres as ((cfg & Hack & Ecfg & _) & Hu & Hp & _); rewrite make_ctxs_ret by lia; cbn [obind].
  do 2 eexists; split; [reflexivity|]; by apply new_ctxs_ready with p cfg.
Qed.

(** C19: the set-up of the program ends.  Whatever the driver answers and whatever
    frames the network delivers, as long as each OFFER has a source address,
    the program has either exited, and the last line it printed is the reason
    (the target is unset, something is zero, the card did not open, its RSS
    tables could not be loaded, or the network was not learnt: no lease, no
    buffer for the ARP request, or no reply), or it starts its workers: as many
    as it announced, each with the pool created for its queue, which is held,
    and all with the address of a DHCP acknowledgement to the card, which the
    interface of each of them takes without a panic. *)
Theorem setup_ends :
  in_u16 (fst (shim_get_dev_info dev)) -> in_u16 (snd (shim_get_dev_info dev)) -> device_ok (card_rss dev) ->
  learn_setting oldest fuel dhcp_fuel arp_fuel (macaddr (card_driver dev)) card0 w time_ns ->
  dhcp_iface_new fuel0 (macaddr (card_driver dev)) card0 now = Some start ->
  exists e log, @main_setup env dev (dhcp_stack oldest fuel) dhcp_fuel arp_fuel time_ns start w = Ret (Some (e, log)) /\
    match e with
    | Exited => @exits env dev (dhcp_stack oldest fuel) dhcp_fuel arp_fuel time_ns start w log
    | Running (_, ctxs) => workers_ready ctxs
    end.
Proof using Type.
  intros Hrx Htx Hrss Hset Hstart.
  destruct (setup_runs Hrx Htx Hrss Hset Hstart) as (e & log & E & He); exists e, log; split; [exact E|].
  destruct e as [|[rss ctxs]]; [|exact He].
  exact (proj2 (@main_setup_inv env dev (dhcp_stack oldest fuel) dhcp_fuel arp_fuel time_ns start w Exited log E)).
Qed.
End Setup.

(** ** Example *)

(** A card of two queues. *)
Definition ex_two_queues : card :=
  {| shim_get_dev_info := (2, 2); card_driver := ex_driver 7; card_rss := example_device;
     shim_eth_stats := None; shim_eth_qstats := (0, [], []) |}.

Lemma setup_ends_witness : exists f1 f2 start e log,
  dhcp_iface_new 10 (macaddr (ex_driver 7)) ex_dhcp_card 0 = Some start /\
  @main_setup example_env ex_two_queues (dhcp_stack some_key 3) f1 f2 (fun k => Z.of_nat k mod M64) start Network.ex_wire =
    Ret (Some (e, log)) /\
  match e with
  | Exited => @exits example_env ex_two_queues (dhcp_stack some_key 3) f1 f2 (fun k => Z.of_nat k mod M64) start Network.ex_wire log
  | Running (_, ctxs) => workers_ready example_env ex_two_queues ex_dhcp_card ctxs
  end.
Proof.
  destruct (dhcp_iface_new 10 (macaddr (ex_driver 7)) ex_dhcp_card 0) as [start|] eqn:Es; [|vm_compute in Es; discriminate Es].
  destruct (setup_ends example_env ex_two_queues some_key 3 10 (S (Z.to_nat (ITER_BUDGET / 10))) (S (Z.to_nat (ITER_BUDGET / 20)))
    ex_dhcp_card Network.ex_wire 0 start (fun k => Z.of_nat k mod M64)) as (e & log & E & He).
  - split; vm_compute; congruence.
  - split; vm_compute; congruence.
  - exact example_device_ok.
  - exact ex_learn_setting.
  - exact Es.
  - exists (S (Z.to_nat (ITER_BUDGET / 10))), (S (Z.to_nat (ITER_BUDGET / 20))), start, e, log; split; [reflexivity|].
    exact (conj E He).
Defined.
